(* ===== verification/_CoqProject ===== *)
-Q . S2P
Prelude.v
CppString.v
StringUtils.v
Json.v
Models.v
Parcel.v
ParcelCodec.v
Database.v
FirmwareDb.v
DownloadData.v
FirmwareStore.v
FirmwareResult.v
FirmwareWorld.v
Files.v
JsonUtils.v
DownloadThread.v
DownloadService.v
DownloadTask.v
DownloadManager.v
Device.v
Alarms.v
Startup.v
FirmwareHelper.v
CheckProcessor.v
ProgressProcessor.v
Installer.v
Executor.v
DownloadExecutor.v
CheckAnalysis.v
Modes.v
Flow.v
FlowOutcome.v
FlowInstall.v
FirmwareManager.v
Stream.v
Net.v
Sha.v
Preference.v
Unlock.v
Tasks.v
Notify.v
OnlineUpdater.v
Lifecycle.v
ModuleManager.v
Clients.v
Access.v
UpdateService.v
Client.v
HttpRequest.v
Napi.v
JsArgs.v
JsSession.v
JsSessionFacts.v
JsUpdater.v
JsModule.v
JsCalls.v
Ani.v
AniUpdater.v
