(* ===== verification/Prelude.v ===== *)
(** * A verification library for the OpenHarmony update service

    The update service of OpenHarmony looks for a new firmware version, downloads
    its packages, installs them and reports each step to the application that
    asked for it.  This library models the service from the strings up and
    proves what each part is for.

    ** The program and the files

    A structure of the source is a [Record] [t] in a [Module] of the same name, a
    method is a definition of that module, and fields and constants keep their
    names.  A file of the library names the source files it models in its own
    first comment.  From the bottom up:

    - this file: fixed-width integers, the state monad and its rules, tactics.
    - Data.  [CppString]: the operations of [std::string]; [StringUtils]: [string_utils.h],
      [anonymous_utils.h] and [response_header_parse.cpp]; [Json], [Models]:
      [json_builder.h] and the structures of
      [interfaces/inner_api/feature/update/model] and [foundations/model], with
      their comparison operators and printers; [Parcel], [ParcelCodec]: [Marshalling]
      and [Unmarshalling] of these structures, which cross the process border in
      an IPC parcel; [JsonUtils]: the typed reading of JSON members.
    - The database.  [Database]: [SqliteDb], [ITable] and [TableBaseOperator] of
      [core/ability/sqlite]; [FirmwareDb]: the task and component tables of
      [firmware/data/db] and their operators; [FirmwareStore]: what the operators
      do to the stored tasks and components.
    - The device.  [Files]: files and directories; [Sha]: digests of files;
      [Preference]: the key-value store; [Net]: the network type and its listeners;
      [Unlock]: the start of the business when the user is unlocked; [Device]: battery,
      idleness, the status cache; [Alarms]: the timers of the automatic check and of the
      nightly upgrade.
    - The firmware service, from the bottom up.  [FirmwareWorld]: its state ([World.t]: the
      database, the environment and the messages sent to the application) and the small
      components that only forward to the device; [FirmwareHelper]:
      [firmware_update_helper.cpp] and [firmware_update_adapter.cpp];
      [CheckProcessor], [ProgressProcessor]: the data processors, which record the
      answer of a check and the progress of a download and of an installation, and
      report them; [CheckAnalysis]: the analysis of the answer of the server;
      [Installer]: the three installers; [Executor], [DownloadExecutor]: the
      executors of an installation, of a download, a check and a restart;
      [Modes]: which step comes next; [Flow]: the state machine that asks the
      mode, with its outcomes in [FlowOutcome] and [FlowInstall]; [FirmwareResult]: the
      verdict on an update after the reboot; [FirmwareManager]: what the service does for
      each request and each event of the device; [Lifecycle]: how all of these move the
      stored version.
    - The download service ([core/ability/download]), from the bottom up:
      [DownloadData] (the structures, the table and the progress of a task of several
      packages), [DownloadThread] (downloads and verifies a package),
      [DownloadService] (runs a thread for each package of a task and decides about
      retries), [DownloadTask] (filters and passes on the progress),
      [DownloadManager] (the tasks by their ids); [HttpRequest]: the transfer itself;
      [Stream]: the download of a streamed installation.
    - The service and its clients.  [Startup]: loading, idleness and scheduling;
      [OnlineUpdater]: the requests about firmware; [ModuleManager]: the registry of an
      extension; [Clients]: the registration of clients; [Access]: who may ask for what, and
      the requests about a reset and a local package; [UpdateService]: the system ability;
      [Client]: the library an application links; [Notify]: the connection to the application
      that shows the progress.
    - Threads.  [Tasks]: the queues of tasks by name, tasks in parallel, and the timers of
      loopers ([core/ability/async_task], [timer_manager.cpp]).
    - JavaScript ([frameworks/js/napi]).  [Napi]: values and errors; [JsArgs]: the reading of
      arguments and the building of results and events ([client_helper.cpp]); [JsSession]: calls with a
      callback or a promise, and listeners, with their invariant in [JsSessionFacts]; [JsUpdater]: the
      three kinds of updaters, on the library of [Client]; [JsModule]: the module an
      application imports; [JsCalls]: what an application does with it, as steps of
      [JsSession].
    - ArkTS ([frameworks/js/ani]).  [Ani]: the types of the interface and their conversion;
      [AniUpdater]: the updaters, whose calls wait for the answer of the library of [Client],
      and their callbacks.

    A check, for example, is called in [JsUpdater], enters through [Client], passes [Access], reaches
    [FirmwareManager] through [UpdateService] and [OnlineUpdater], and makes a [Flow] with
    the mode [FirmwareManualCheckMode], whose executor asks the server
    ([CheckAnalysis]) and whose processor ([CheckProcessor]) uses [FirmwareHelper] and the
    operators of [FirmwareDb], which go through [Database]; the theorems about it are
    stated on the tasks and components stored ([FirmwareStore]), not on rows.

    ** How code is translated

    - A pure function is a function.  A method with effects is a computation in the
      state monad [ST], on an explicit state: the object's fields, the state of the
      owner of its callbacks, and the world.  A callback is a computation of its
      owner.  [wp m s Q] says that [m], run from [s], ends in a state and with a
      result that satisfy [Q]: computations of [ST] always end, so [wp] is total
      correctness.
    - A C++ integer is a [Z] with its conversions written out ([to_int32], ...).  An
      enumeration that is cast from integers somewhere is a [Z] with named constants.
    - A function that can throw [std::out_of_range], or may not end, returns an
      [option].
    - What is not part of the repository, and the system calls behind it, is a
      class, declared by the file that needs it: the relational and the
      key-value store ([Rdb], [NativePreferences]), IPC ([ParcelOps], [StringEx],
      [RemoteObjects], [SystemAbilities], [ServiceProxy]), the parser of JSON ([CJson]), the
      device ([Platform], [DeviceKits], [TimeService], [Calendar], [AbilityKits],
      [FileSystem], [AccountKits], [TokenKits], [NetConnKits]), the task library
      ([FfrtQueues], [FfrtTasks], [TimerKits]), the ability manager ([NotifyKits]), the printer of
      JSON ([CJsonPrint]), the JavaScript engine ([Napi], [JsEngine]), the code
      made of the interface for ArkTS ([TaiheRuntime]), libcurl, OpenSSL and TLS
      ([ThreadKits], [HttpKits], [StreamKits], [OpenSsl], [CheckNet]), the updater and
      the system installer ([InstallKits], [RestoreKits], [RebootKits]), the dynamic
      loader ([Loader]).  A class of laws ([RdbLaws], [ParcelLaws], [HttpLaws], [NapiLaws], ...) states
      the documented behaviour a theorem relies on; a concrete instance ([MemoryDb],
      [SampleEnv], the sample kits) shows that the laws can hold, and the witnesses
      evaluate the theorems on it.
    - Where one part of the program uses another through an interface, the interface
      is a class too, and the other part is its instance: [Preferences],
      [FirmwareIExecuteMode], [CheckKits] with [CheckKitsLaws], [DownloadTasks], [Downloads], [Updater] with
      [UpdaterLaws], which the three updaters of [JsUpdater] implement, and [AniVirtual].
    - What another thread does while a method waits or calls something (the reports of the
      system installer, the progress of a transfer, the requests of the service) is a
      sequence of events the environment chooses, handled one by one in order; a
      theorem that holds for every instance of the class holds for every sequence.  A
      thread that is notified before another has finished is modelled so: a report of the
      system installer is recorded and passed on in two steps ([SysAction]), and the second
      may come after the result, after the end of the executor, or after that of the flow.
    - Where calls run concurrently ([Unlock], [Clients], [Client],
      [DownloadService], [Stream.ProgressThread], [Tasks.TimerManager], [Notify], [JsSession]), the
      sections under a lock are the steps of a transition system, and theorems hold in every
      reachable state.
    - Objects that several others hold ([shared_ptr]) live in a store:
      [Shared.infos] and [Shared.threads] are the packages and thread objects of a
      download task, [DownloadTaskManager.objects] the task objects,
      [SessionManager.objects] the sessions, to which queued work has bare pointers.
    - Logging has no effect and is left out, as are locks around a single method
      and the tests of pointers the constructors set.  A lock that is held while a callback
      runs is modelled ([AniBaseUpdater.with_lock]).

    ** What the theorems show

    - The life of a version: [FirmwareResult.GetUpdaterResult_correct],
      [Flow.flow_completes_once], [manual_check_outcome],
      [download_report_outcome], [install_flow_outcome], [boot_update_outcome],
      [restart_restores], [cancel_outcome]: what every step does on every branch, to
      the stored version, the application and the caller; and
      [CheckProcessor.check_result_handled], [download_progress_monotone],
      [installation_recorded], [install_one_result] below them.
    - The answer of the server: [answer_analysed] (a refinement of an abstract reading of
      its JSON) and [analysed_version_downloads_one].
    - Download: [thread_ends_once] (from its start on a thread reports at most one end, and
      nothing after it), [service_invariant] (over every sequence of requests and reports),
      [retries_bounded], [pause_silences], [accepted_progress_ordered],
      [task_id_canonical], [remove_task_outcome], [request_appends] (what a transfer
      leaves in the file), [package_verified], [file_checked],
      [stream_delivered] and [stream_reported].
    - Time: [next_check_scheduled], [night_upgrade_planned], [looper_outcome].
    - Marshalling, files, network: [parcel_roundtrip] for every type, from the class
      [Codec]; [directories_created]; [changes_notified].
    - The border of the service: [request_admitted] (which requests of which callers are
      let through), [clients_tracked] and [client_registered], [start_gates_requests],
      [unlocked_once], [descriptions_contained], [callbacks_resumed],
      [notifications_sent_once].
    - Threads: [queued_tasks_in_turn] (no task is lost, and tasks start in their order).
    - JavaScript: [calls_settled_once] (every call is answered once, and no work outlives its
      object), [application_calls_settled] (the same of the module an application imports, whatever
      it calls), [subscriptions_refined] (the listeners implement a list of handlers),
      [online_updater_shared], [upgrade_files_accepted], [event_object_members].
    - ArkTS: [event_told] and [policy_converted] (what survives the conversion),
      [listeners_told] (which callbacks are told which events), [failure_told] (the errors are those of the
      bindings for JavaScript).

    Theorems outside this list are the lemmas these rest on and further properties of
    the same kinds, such as [FirmwareStore.task_updates_correct] (the operators are updates
    of fields of the selected structures), [DownloadData.task_progress_correct],
    [StringUtils.Split_correct].  Some state a behaviour that is hardly intended, such as
    [ParcelCodec.oversized_vector_lost] and
    [StringUtils.ReplaceStringAll_empty_pattern_diverges].

    ** Fuel and bounds

    The loops of [StringUtils.Split], [StringUtils.ReplaceStringAll] and
    [DownloadInfoTable.Split2Map] advance through a string: their fuel is its
    length, plus one where the last turn only tests, and the theorems show that it
    is enough ([ReplaceStringAll] with an empty pattern excepted, which no fuel
    ends).  The recursion on missing directories ([Files.missing_dirs]) has the
    length of the path, the loop of [Stream] that writes blocks one more than the
    length of the data, the loops of [Sha] that read a file one unit per read; the
    theorems about them state the result, so the fuel is enough, or that no fuel is, as for a
    file whose reads fail.  The retry loops of
    the stream installer, the attempts of a request and the other counted loops have the
    source's own bound.  All other loops run over a list.

    ** What is not modelled

    The code the taihe compiler makes of the interface for ArkTS and the generated stub and proxy of the
    service are not in the repository; the registration of the classes with the JavaScript engine and of
    the interface with the virtual machine is glue.  Left out are also the [_empty.cpp]
    variants of builds without a feature; the log; and a class [DownloadThread] of
    [progress_thread.cpp] that nothing creates.  Time does not pass while a method runs, and
    interleavings inside a method are not modelled beyond the events and steps above: a
    JavaScript function that is called back and calls the module again is treated as if it did so
    after its call has returned. *)
From Stdlib Require Import ZArith Lia Ascii String.
From stdpp Require Import base tactics list strings gmap.

#[local] Open Scope Z_scope.

(** ** Fixed-width integers

    A C++ integer is a [Z]; a conversion to a narrower or differently signed
    type wraps around explicitly.  [static_cast<int32_t>] is [to_int32], and so
    on for the other widths. *)
Definition wrap_unsigned (w z : Z) : Z := z mod 2 ^ w.
Definition wrap_signed (w z : Z) : Z := (z + 2 ^ (w - 1)) mod 2 ^ w - 2 ^ (w - 1).

Definition to_int32 : Z → Z := wrap_signed 32.
Definition to_uint32 : Z → Z := wrap_unsigned 32.
Definition to_int64 : Z → Z := wrap_signed 64.
Definition to_uint64 : Z → Z := wrap_unsigned 64.

Definition INT32_MIN : Z := - 2 ^ 31.
Definition INT32_MAX : Z := 2 ^ 31 - 1.
Definition UINT32_MAX : Z := 2 ^ 32 - 1.
Definition INT64_MIN : Z := - 2 ^ 63.
Definition INT64_MAX : Z := 2 ^ 63 - 1.
Definition UINT64_MAX : Z := 2 ^ 64 - 1.

Definition is_int32 (z : Z) : Prop := INT32_MIN ≤ z ≤ INT32_MAX.
Definition is_uint32 (z : Z) : Prop := 0 ≤ z ≤ UINT32_MAX.
Definition is_int64 (z : Z) : Prop := INT64_MIN ≤ z ≤ INT64_MAX.
Definition is_uint64 (z : Z) : Prop := 0 ≤ z ≤ UINT64_MAX.

Ltac unfold_widths :=
  unfold is_int32, is_uint32, is_int64, is_uint64, to_int32, to_uint32,
    to_int64, to_uint64, wrap_signed, wrap_unsigned, INT32_MIN, INT32_MAX,
    UINT32_MAX, INT64_MIN, INT64_MAX, UINT64_MAX in *.

#[export] Instance is_int32_dec z : Decision (is_int32 z).
Proof. unfold is_int32. apply _. Defined.
#[export] Instance is_uint32_dec z : Decision (is_uint32 z).
Proof. unfold is_uint32. apply _. Defined.
#[export] Instance is_int64_dec z : Decision (is_int64 z).
Proof. unfold is_int64. apply _. Defined.
#[export] Instance is_uint64_dec z : Decision (is_uint64 z).
Proof. unfold is_uint64. apply _. Defined.

Lemma wrap_signed_id w z :
  0 < w → - 2 ^ (w - 1) ≤ z ≤ 2 ^ (w - 1) - 1 → wrap_signed w z = z.
Proof.
  intros Hw Hz. unfold wrap_signed.
  assert (2 ^ w = 2 * 2 ^ (w - 1)) as Hp.
  { replace w with (Z.succ (w - 1)) at 1 by lia. rewrite Z.pow_succ_r; lia. }
  rewrite Z.mod_small; lia.
Qed.

Lemma to_int32_id z : is_int32 z → to_int32 z = z.
Proof. intros H. apply wrap_signed_id; [lia | exact H]. Qed.
Lemma to_int64_id z : is_int64 z → to_int64 z = z.
Proof. intros H. apply wrap_signed_id; [lia | exact H]. Qed.
Lemma to_uint32_id z : is_uint32 z → to_uint32 z = z.
Proof. unfold_widths. intros H. apply Z.mod_small. lia. Qed.
Lemma to_uint64_id z : is_uint64 z → to_uint64 z = z.
Proof. unfold_widths. intros H. apply Z.mod_small. lia. Qed.

Lemma to_int32_range z : is_int32 (to_int32 z).
Proof.
  unfold_widths. pose proof (Z.mod_pos_bound (z + 2 ^ (32 - 1)) (2 ^ 32)). lia.
Qed.
Lemma to_int64_range z : is_int64 (to_int64 z).
Proof.
  unfold_widths. pose proof (Z.mod_pos_bound (z + 2 ^ (64 - 1)) (2 ^ 64)). lia.
Qed.
Lemma to_uint32_range z : is_uint32 (to_uint32 z).
Proof. unfold_widths. pose proof (Z.mod_pos_bound z (2 ^ 32)). lia. Qed.

Lemma to_uint64_range z : is_uint64 (to_uint64 z).
Proof. unfold_widths. pose proof (Z.mod_pos_bound z (2 ^ 64)). lia. Qed.

(** A 32-bit value survives the trip through the other 32-bit signedness: this
    is what makes [static_cast<Enum>(parcel.ReadUint32())] invert
    [WriteUint32(static_cast<uint32_t>(e))] on an [int]-based enumeration. *)
Lemma to_int32_to_uint32 z : is_int32 z → to_int32 (to_uint32 z) = z.
Proof.
  unfold_widths. intros H.
  rewrite Zplus_mod_idemp_l, Z.mod_small by lia. lia.
Qed.

Lemma to_uint32_to_int32 z : is_uint32 z → to_uint32 (to_int32 z) = z.
Proof.
  unfold_widths. unfold is_uint32, UINT32_MAX. intros Hz. rewrite Zminus_mod, Zmod_mod, <- Zminus_mod.
  replace (z + 2 ^ (32 - 1) - 2 ^ (32 - 1)) with z by lia. apply Z.mod_small. lia.
Qed.

(** ** A state monad

    A C++ function that reads or writes an object [S] and returns an [A] is a
    value of [ST S A]. *)
Definition ST (S A : Type) : Type := S → A * S.

Definition ret {S A : Type} (a : A) : ST S A := λ s, (a, s).
Definition bind {S A B : Type} (m : ST S A) (f : A → ST S B) : ST S B :=
  λ s, let (a, s') := m s in f a s'.
Definition gets {S A : Type} (f : S → A) : ST S A := λ s, (f s, s).
Definition modify {S : Type} (f : S → S) : ST S unit := λ s, (tt, f s).

(** The effect of a computation on the state, and its result. *)
Definition exec {S A : Type} (m : ST S A) (s : S) : S := snd (m s).
Definition eval {S A : Type} (m : ST S A) (s : S) : A := fst (m s).

Declare Scope cpp_scope.
Delimit Scope cpp_scope with cpp.
Notation "'let*' x ':=' m 'in' k" := (bind m (λ x, k))
  (at level 10, x pattern, m at level 100, k at level 200,
   format "'[v' 'let*'  x  ':='  m  'in' '/' k ']'") : cpp_scope.
Notation "m ;;; k" := (bind m (λ _, k))
  (at level 190, right associativity, format "'[v' m  ;;; '/' k ']'") : cpp_scope.
Notation "'when' b 'do' m" := (if b then m else ret tt)
  (at level 189, b at level 100, m at level 189) : cpp_scope.
#[global] Open Scope cpp_scope.

(** [for (const auto &x : l) body(x);] *)
Fixpoint for_each {S A : Type} (l : list A) (body : A → ST S unit) : ST S unit :=
  match l with
  | [] => ret tt
  | x :: l' => body x ;;; for_each l' body
  end.

Section monad_laws.
Context {S A B C : Type}.
Lemma exec_bind (m : ST S A) (f : A → ST S B) s :
  exec (bind m f) s = exec (f (eval m s)) (exec m s).
Proof. unfold exec, eval, bind. by destruct (m s). Qed.
Lemma eval_bind (m : ST S A) (f : A → ST S B) s :
  eval (bind m f) s = eval (f (eval m s)) (exec m s).
Proof. unfold exec, eval, bind. by destruct (m s). Qed.
Lemma exec_ret (a : A) (s : S) : exec (ret a) s = s.
Proof. done. Qed.
Lemma eval_ret (a : A) (s : S) : eval (ret a) s = a.
Proof. done. Qed.
Lemma exec_gets (f : S → A) s : exec (gets f) s = s.
Proof. done. Qed.
Lemma eval_gets (f : S → A) s : eval (gets f) s = f s.
Proof. done. Qed.
Lemma exec_modify (f : S → S) s : exec (modify f) s = f s.
Proof. done. Qed.
Lemma exec_if (b : bool) (m n : ST S A) s :
  exec (if b then m else n) s = if b then exec m s else exec n s.
Proof. by destruct b. Qed.
Lemma eval_if (b : bool) (m n : ST S A) s :
  eval (if b then m else n) s = if b then eval m s else eval n s.
Proof. by destruct b. Qed.
Lemma surjective_st (m : ST S A) s : m s = (eval m s, exec m s).
Proof. unfold exec, eval. by destruct (m s). Qed.
End monad_laws.

Lemma exec_for_each_nil {S A} (f : A → ST S unit) s : exec (for_each [] f) s = s.
Proof. done. Qed.
Lemma exec_for_each_cons {S A} (f : A → ST S unit) x l s :
  exec (for_each (x :: l) f) s = exec (for_each l f) (exec (f x) s).
Proof. apply exec_bind. Qed.

(** A loop keeps an invariant that its body keeps. *)
Lemma for_each_invariant {S A} (P : S → Prop) (f : A → ST S unit) l s :
  (∀ x s', P s' → P (exec (f x) s')) → P s → P (exec (for_each l f) s).
Proof.
  intros Hf. revert s. induction l as [|x l IH]; intros s Hs; [done|].
  rewrite exec_for_each_cons. auto.
Qed.

Create Rewrite HintDb st.
#[export] Hint Rewrite @exec_bind @eval_bind @exec_ret @eval_ret @exec_gets
  @eval_gets @exec_modify @exec_if @eval_if @exec_for_each_nil
  @exec_for_each_cons : st.

(** ** Weakest preconditions

    [wp m s Q]: running [m] from [s] ends with a result and a state that satisfy
    [Q].  Every computation of the monad terminates, so this is total
    correctness. *)
Definition wp {S A : Type} (m : ST S A) (s : S) (Q : A → S → Prop) : Prop := Q (eval m s) (exec m s).

Section wp_rules.
Context {S A B : Type}.
Lemma wp_ret (a : A) (s : S) (Q : A → S → Prop) : Q a s → wp (ret a) s Q.
Proof. done. Qed.
Lemma wp_bind (m : ST S A) (f : A → ST S B) s Q :
  wp m s (λ a s', wp (f a) s' Q) → wp (bind m f) s Q.
Proof. unfold wp. by rewrite eval_bind, exec_bind. Qed.
Lemma wp_gets (f : S → A) s (Q : A → S → Prop) : Q (f s) s → wp (gets f) s Q.
Proof. done. Qed.
Lemma wp_modify (f : S → S) s Q : Q tt (f s) → wp (modify f) s Q.
Proof. done. Qed.
Lemma wp_mono (m : ST S A) s (P Q : A → S → Prop) :
  (∀ a s', P a s' → Q a s') → wp m s P → wp m s Q.
Proof. unfold wp. auto. Qed.
Lemma wp_any (m : ST S A) s (Q : A → S → Prop) : (∀ a s', Q a s') → wp m s Q.
Proof. intros HQ. apply HQ. Qed.
Lemma wp_if (b : bool) (m n : ST S A) s Q :
  (b = true → wp m s Q) → (b = false → wp n s Q) → wp (if b then m else n) s Q.
Proof. destruct b; auto. Qed.
End wp_rules.

(** A loop, by an invariant on the elements already visited. *)
Lemma wp_for_each {S A : Type} (I : list A → S → Prop) (f : A → ST S unit) l s Q :
  I [] s →
  (∀ l1 x l2 s', l = l1 ++ x :: l2 → I l1 s' → wp (f x) s' (λ _ s'', I (l1 ++ [x]) s'')) →
  (∀ s', I l s' → Q tt s') → wp (for_each l f) s Q.
Proof.
  intros H0 Hf HQ.
  assert (∀ k l1 s', l = l1 ++ k → I l1 s' → wp (for_each k f) s' Q) as Hk; [|by apply (Hk l [])].
  intros k. induction k as [|x k IH]; intros l1 s' -> Hl1.
  - rewrite app_nil_r in HQ. by apply HQ.
  - cbn [for_each]. apply (wp_bind (f x) (λ _, for_each k f)). eapply wp_mono; [|by apply (Hf l1 x k)]. intros [] s'' Hs''.
    apply (IH (l1 ++ [x])); [by rewrite <- app_assoc|done].
Qed.

(** A property of the state that a computation keeps. *)
Definition stable {S A : Type} (I : S → Prop) (m : ST S A) : Prop := ∀ s, I s → wp m s (λ _ s', I s').
Lemma wp_stable {S A : Type} (I : S → Prop) (m : ST S A) s : stable I m → I s → wp m s (λ _ s', I s').
Proof. intros Hm. apply Hm. Qed.
Section stable_rules.
Context {S : Type} (I : S → Prop).
Lemma stable_ret {A} (a : A) : stable I (ret a).
Proof. intros s Hs. by apply wp_ret. Qed.
Lemma stable_gets {A} (f : S → A) : stable I (gets f).
Proof. intros s Hs. by apply wp_gets. Qed.
Lemma stable_bind {A B} (m : ST S A) (f : A → ST S B) : stable I m → (∀ a, stable I (f a)) → stable I (bind m f).
Proof. intros Hm Hf s Hs. apply wp_bind. eapply wp_mono; [|by apply Hm]. intros a s' Hs'. by apply Hf. Qed.
Lemma stable_if {A} (b : bool) (m n : ST S A) : stable I m → stable I n → stable I (if b then m else n).
Proof. by destruct b. Qed.
Lemma stable_for_each {A} (l : list A) (f : A → ST S unit) : (∀ x, stable I (f x)) → stable I (for_each l f).
Proof. intros Hf. induction l as [|x l IH]; [apply stable_ret|]. by apply stable_bind. Qed.
End stable_rules.

(** ** Tactics *)

(** Run a monadic program symbolically. *)
Ltac st_simpl := autorewrite with st; cbn [fst snd].
Ltac st_simpl_in H := autorewrite with st in H; cbn [fst snd] in H.

(** Case analysis on the boolean a conditional of the goal tests. *)
Ltac case_if :=
  match goal with
  | |- context [if ?b then _ else _] =>
      lazymatch type of b with
      | bool => let E := fresh "E" in destruct b eqn:E
      end
  end.

(** Turn boolean tests in the context into propositions. *)
Ltac breflect :=
  repeat match goal with
  | H : (_ && _)%bool = true |- _ => apply andb_true_iff in H as [??]
  | H : (_ || _)%bool = false |- _ => apply orb_false_iff in H as [??]
  | H : (_ || _)%bool = true |- _ => apply orb_true_iff in H
  | H : (_ && _)%bool = false |- _ => apply andb_false_iff in H
  | H : negb _ = true |- _ => apply negb_true_iff in H
  | H : negb _ = false |- _ => apply negb_false_iff in H
  | H : (_ =? _)%Z = true |- _ => apply Z.eqb_eq in H
  | H : (_ =? _)%Z = false |- _ => apply Z.eqb_neq in H
  | H : (_ <? _)%Z = true |- _ => apply Z.ltb_lt in H
  | H : (_ <? _)%Z = false |- _ => apply Z.ltb_ge in H
  | H : (_ <=? _)%Z = true |- _ => apply Z.leb_le in H
  | H : (_ <=? _)%Z = false |- _ => apply Z.leb_gt in H
  | H : (_ =? _)%nat = true |- _ => apply Nat.eqb_eq in H
  | H : (_ =? _)%nat = false |- _ => apply Nat.eqb_neq in H
  | H : (_ <? _)%nat = true |- _ => apply Nat.ltb_lt in H
  | H : (_ <? _)%nat = false |- _ => apply Nat.ltb_ge in H
  | H : (_ <=? _)%nat = true |- _ => apply Nat.leb_le in H
  | H : (_ <=? _)%nat = false |- _ => apply Nat.leb_gt in H
  | H : bool_decide _ = true |- _ => apply bool_decide_eq_true in H
  | H : bool_decide _ = false |- _ => apply bool_decide_eq_false in H
  end.

(** ** Shared list lemmas *)

Lemma map_id_on {A} (f : A → A) l : (∀ x, x ∈ l → f x = x) → map f l = l.
Proof.
  induction l as [|x l IH]; intros H; [done|]. cbn.
  rewrite H by set_solver. f_equal. apply IH. set_solver.
Qed.

Lemma filter_true {A} (l : list A) : List.filter (λ _, true) l = l.
Proof. induction l as [|x l IH]; cbn; [done|]. by rewrite IH. Qed.

Lemma NoDup_map_inj {A B} (f : A → B) l x y :
  NoDup (map f l) → x ∈ l → y ∈ l → f x = f y → x = y.
Proof.
  induction l as [|z l IH]; cbn; [set_solver|]. rewrite NoDup_cons. intros [Hz Hl].
  rewrite !list_elem_of_In in *. cbn. intros [->|Hx] [->|Hy] Hf; [done| | |auto].
  - destruct Hz. rewrite Hf. by apply in_map.
  - destruct Hz. rewrite <- Hf. by apply in_map.
Qed.

(** ** States in two parts: the fields [T] of an object and its environment [E]. *)
Section own_parts.
Context {T E : Type}.
Definition env_ {A} (m : ST E A) : ST (T * E) A := λ s, let (a, e) := m s.2 in (a, (s.1, e)).
Definition own_ {A} (f : T → A) : ST (T * E) A := λ s, (f s.1, s).
Definition set_own (f : T → T) : ST (T * E) unit := λ s, (tt, (f s.1, s.2)).

Lemma wp_env_ {A} (m : ST E A) s (Q : A → T * E → Prop) : wp m s.2 (λ a e, Q a (s.1, e)) → wp (env_ m) s Q.
Proof. unfold wp, eval, exec, env_. by destruct (m _). Qed.
Lemma wp_own_ {A} (f : T → A) s (Q : A → T * E → Prop) : Q (f s.1) s → wp (own_ f) s Q.
Proof. done. Qed.
Lemma wp_set_own f s (Q : unit → T * E → Prop) : Q tt (f s.1, s.2) → wp (set_own f) s Q.
Proof. done. Qed.
End own_parts.

(** ** States in three parts

    A method that calls back its owner runs on the fields [T] of its object, the
    state [C] of the owner and the world [W]. *)
Section parts.
Context {T C W : Type}.
Definition on_world {A} (m : ST W A) : ST (T * (C * W)) A := λ s,
  let (a, w) := m s.2.2 in (a, (s.1, (s.2.1, w))).
Definition on_owner {A} (m : ST (C * W) A) : ST (T * (C * W)) A := λ s,
  let (a, x) := m s.2 in (a, (s.1, x)).
Definition this_ {A} (f : T → A) : ST (T * (C * W)) A := λ s, (f s.1, s).
Definition set_this (f : T → T) : ST (T * (C * W)) unit := λ s, (tt, (f s.1, s.2)).
(** A [std::function] that may be empty. *)
Definition call {B} (f : option (B → ST (C * W) unit)) (b : B) : ST (T * (C * W)) unit :=
  match f with None => ret tt | Some f => on_owner (f b) end.

Lemma wp_on_world {A} (m : ST W A) s (Q : A → T * (C * W) → Prop) :
  wp m s.2.2 (λ a w, Q a (s.1, (s.2.1, w))) → wp (on_world m) s Q.
Proof. unfold wp, eval, exec, on_world. by destruct (m _). Qed.
Lemma wp_call {B} (f : B → ST (C * W) unit) b s (Q : unit → T * (C * W) → Prop) :
  wp (f b) s.2 (λ _ x, Q tt (s.1, x)) → wp (call (Some f) b) s Q.
Proof. unfold wp, eval, exec, call, on_owner. by destruct (f b _) as [[] ?]. Qed.
Lemma wp_this {A} (f : T → A) s (Q : A → T * (C * W) → Prop) : Q (f s.1) s → wp (this_ f) s Q.
Proof. done. Qed.
Lemma wp_set_this f s (Q : unit → T * (C * W) → Prop) : Q tt (f s.1, s.2) → wp (set_this f) s Q.
Proof. done. Qed.
End parts.

(** An owner that keeps the list of the calls it received. *)
Definition logged {B W : Type} (b : B) : ST (list B * W) unit := λ x, (tt, (x.1 ++ [b], x.2)).
Lemma wp_logged {T B W : Type} (b : B) (s : T * (list B * W)) (Q : unit → T * (list B * W) → Prop) :
  Q tt (s.1, (s.2.1 ++ [b], s.2.2)) → wp (call (Some logged) b) s Q.
Proof. done. Qed.

(** ** Transition systems *)
Inductive star {A : Type} (R : A → A → Prop) : A → A → Prop :=
  | star_refl a : star R a a
  | star_step a b c : R a b → star R b c → star R a c.

Lemma star_trans {A} (R : A → A → Prop) a b c : star R a b → star R b c → star R a c.
Proof. induction 1; eauto using star. Qed.

Lemma star_invariant {A} (R : A → A → Prop) (P : A → Prop) :
  (∀ a b, R a b → P a → P b) → ∀ a b, star R a b → P a → P b.
Proof. induction 2; eauto. Qed.
