(* ===== verification/CppString.v ===== *)
(** * The operations of std::string the source uses

    Nothing here models a file of the repository: these are the C++ standard
    library functions on [std::string] that the modelled code calls.  A string
    is Rocq's [string]; a position that C++ would return as [npos] is [None];
    [substr] is partial because [std::string::substr] throws
    [std::out_of_range] when the position is past the end. *)
From Stdlib Require Import ZArith Lia Ascii String.
From stdpp Require Import base tactics list strings pretty.
From S2P Require Import Prelude.

#[local] Open Scope nat_scope.

Abbreviation chars := list_ascii_of_string.
Abbreviation str := string_of_list_ascii.

Definition len (s : string) : nat := String.length s.

(** [std::isspace] in the C locale: space and the control characters 9 to 13. *)
Definition isspace (c : ascii) : bool :=
  let n := nat_of_ascii c in (n =? 32) || ((9 <=? n) && (n <=? 13)).
Definition isdigit (c : ascii) : bool :=
  let n := nat_of_ascii c in (48 <=? n) && (n <=? 57).

Fixpoint drop_while {A} (p : A → bool) (l : list A) : list A :=
  match l with
  | [] => []
  | x :: l' => if p x then drop_while p l' else l
  end.
Fixpoint take_while {A} (p : A → bool) (l : list A) : list A :=
  match l with
  | [] => []
  | x :: l' => if p x then x :: take_while p l' else []
  end.

(** The first index at which [p] holds. *)
Fixpoint find_index {A} (p : A → bool) (l : list A) : option nat :=
  match l with
  | [] => None
  | x :: l' => if p x then Some 0 else S <$> find_index p l'
  end.

(** The last index at which [p] holds. *)
Fixpoint find_last_index {A} (p : A → bool) (l : list A) : option nat :=
  match l with
  | [] => None
  | x :: l' =>
      match find_last_index p l' with
      | Some i => Some (S i)
      | None => if p x then Some 0 else None
      end
  end.

Fixpoint is_prefix (p l : list ascii) : bool :=
  match p, l with
  | [], _ => true
  | a :: p', b :: l' => Ascii.eqb a b && is_prefix p' l'
  | _ :: _, [] => false
  end.

(** The first index at which the characters [p] occur. *)
Fixpoint find_sub (p l : list ascii) : option nat :=
  if is_prefix p l then Some 0
  else match l with [] => None | _ :: l' => S <$> find_sub p l' end.

(** [s.find(sub, pos)] *)
Definition find (s sub : string) (pos : nat) : option nat :=
  if len s <? pos then None
  else Nat.add pos <$> find_sub (chars sub) (drop pos (chars s)).

(** [s.find(c, pos)] and [s.find_first_not_of(c, pos)] for one character. *)
Definition find_char (s : string) (c : ascii) (pos : nat) : option nat :=
  Nat.add pos <$> find_index (Ascii.eqb c) (drop pos (chars s)).
Definition find_first_not_of (s : string) (c : ascii) (pos : nat) : option nat :=
  Nat.add pos <$> find_index (λ x, negb (Ascii.eqb c x)) (drop pos (chars s)).

(** [s.find_last_of(set)]: the last character that is one of [set]. *)
Definition find_last_of (s set : string) : option nat :=
  find_last_index (λ c, existsb (Ascii.eqb c) (chars set)) (chars s).
Definition find_first_of (s set : string) : option nat :=
  find_index (λ c, existsb (Ascii.eqb c) (chars set)) (chars s).

(** [s.substr(pos, n)] clamps the count and throws on a bad position. *)
Definition substr (s : string) (pos n : nat) : option string :=
  if len s <? pos then None else Some (str (take n (drop pos (chars s)))).
Definition substr_from (s : string) (pos : nat) : option string :=
  substr s pos (len s).

(** [s.replace(pos, n, t)] *)
Definition replace (s : string) (pos n : nat) (t : string) : option string :=
  if len s <? pos then None
  else Some (str (take pos (chars s) ++ chars t ++ drop (pos + n) (chars s))).

(** [while (std::getline(stream, token, delim)) tokens.push_back(token)]: no
    token follows a final delimiter, and an empty stream has none. *)
Fixpoint getlines_aux (delim : ascii) (cur : list ascii) (l : list ascii) : list string :=
  match l with
  | [] => if decide (cur = []) then [] else [str (rev cur)]
  | c :: l' =>
      if Ascii.eqb c delim then str (rev cur) :: getlines_aux delim [] l'
      else getlines_aux delim (c :: cur) l'
  end.
Definition getlines (delim : ascii) (s : string) : list string :=
  getlines_aux delim [] (chars s).

(** [std::to_string] on the integer types. *)
Definition to_string (z : Z) : string := pretty z.

(** ** std::from_chars, base 10

    [from_chars] reads an optional minus sign (signed types only), then the
    longest run of digits; it fails with [invalid_argument] when there is no
    digit and with [result_out_of_range] when the value does not fit. *)
Inductive errc := errc_ok | invalid_argument | result_out_of_range.

Definition digit_val (c : ascii) : Z := Z.of_nat (nat_of_ascii c) - 48.
Definition digits_val (acc : Z) (l : list ascii) : Z :=
  fold_left (λ a c, (10 * a + digit_val c)%Z) l acc.

Definition split_sign (signed : bool) (l : list ascii) : bool * list ascii :=
  match l with
  | "-"%char :: l' => if signed then (true, l') else (false, l)
  | _ => (false, l)
  end.

(** The result: the error, the value (0 unless the error is [errc_ok]), and the
    number of characters left from [ptr] to the end. *)
Definition from_chars (signed : bool) (lo hi : Z) (l : list ascii) : errc * Z * nat :=
  let '(neg, body) := split_sign signed l in
  let ds := take_while isdigit body in
  let rest := List.length (drop_while isdigit body) in
  if decide (ds = []) then (invalid_argument, 0%Z, List.length l)
  else
    let v := digits_val 0 ds in
    let z := if neg then (- v)%Z else v in
    if (z <? lo)%Z || (hi <? z)%Z then (result_out_of_range, 0%Z, rest)
    else (errc_ok, z, rest).

(** ** Lemmas *)

Lemma chars_str l : chars (str l) = l.
Proof. apply list_ascii_of_string_of_list_ascii. Qed.
Lemma str_chars s : str (chars s) = s.
Proof. apply string_of_list_ascii_of_string. Qed.
Lemma len_chars s : List.length (chars s) = len s.
Proof. induction s as [|c s IH]; cbn; [done|]. by rewrite IH. Qed.
Lemma len_str l : len (str l) = List.length l.
Proof. by rewrite <- len_chars, chars_str. Qed.
Lemma chars_app s t : chars (s +:+ t) = chars s ++ chars t.
Proof.
  induction s as [|c s IH]; [done|].
  change (chars (String c s +:+ t)) with (c :: chars (s +:+ t)). by rewrite IH.
Qed.
Lemma str_app l k : str (l ++ k) = str l +:+ str k.
Proof.
  induction l as [|c l IH]; [done|].
  change (String c (str (l ++ k)) = String c (str l +:+ str k)). by rewrite IH.
Qed.
Lemma chars_inj s t : chars s = chars t → s = t.
Proof. intros H. by rewrite <- (str_chars s), <- (str_chars t), H. Qed.
Lemma str_assoc (s t u : string) : s +:+ t +:+ u = (s +:+ t) +:+ u.
Proof. apply chars_inj. by rewrite !chars_app, app_assoc. Qed.
Lemma str_nil_r (s : string) : s +:+ "" = s.
Proof. apply chars_inj. rewrite chars_app. apply app_nil_r. Qed.

Create Rewrite HintDb strings.
#[export] Hint Rewrite chars_str str_chars len_chars len_str chars_app : strings.

Lemma take_drop_while {A} (p : A → bool) l : take_while p l ++ drop_while p l = l.
Proof. induction l as [|x l IH]; cbn; [done|]. destruct (p x); cbn; by rewrite ?IH. Qed.
Lemma take_while_forall {A} (p : A → bool) l : Forall (λ x, p x = true) (take_while p l).
Proof. induction l as [|x l IH]; cbn; [done|]. destruct (p x) eqn:E; by constructor. Qed.
Lemma take_while_all {A} (p : A → bool) l : Forall (λ x, p x = true) l → take_while p l = l.
Proof. induction 1 as [|x l Hx _ IH]; cbn; [done|]. by rewrite Hx, IH. Qed.
Lemma drop_while_all {A} (p : A → bool) l : Forall (λ x, p x = true) l → drop_while p l = [].
Proof. induction 1 as [|x l Hx _ IH]; cbn; [done|]. by rewrite Hx. Qed.
Lemma drop_while_head {A} (p : A → bool) l x k : drop_while p l = x :: k → p x = false.
Proof.
  induction l as [|y l IH]; cbn; [done|]. destruct (p y) eqn:E; [exact IH|].
  intros H. by simplify_eq.
Qed.
Lemma drop_while_id {A} (p : A → bool) l : (∀ x, head l = Some x → p x = false) → drop_while p l = l.
Proof. destruct l as [|x l]; cbn; [done|]. intros H. by rewrite H. Qed.
Lemma drop_while_length {A} (p : A → bool) l : List.length (drop_while p l) ≤ List.length l.
Proof. induction l as [|x l IH]; cbn; [done|]. destruct (p x); cbn; lia. Qed.

Lemma find_index_Some {A} (p : A → bool) l i :
  find_index p l = Some i →
  ∃ x, l !! i = Some x ∧ p x = true ∧ Forall (λ y, p y = false) (take i l).
Proof.
  revert i. induction l as [|x l IH]; intros i; cbn; [done|].
  destruct (p x) eqn:E.
  - intros [= <-]. exists x. cbn. auto.
  - destruct (find_index p l) as [j|]; cbn; [|done]. intros [= <-].
    destruct (IH j eq_refl) as (y & ? & ? & ?). exists y. cbn. auto.
Qed.
Lemma find_index_None {A} (p : A → bool) l :
  find_index p l = None → Forall (λ y, p y = false) l.
Proof.
  induction l as [|x l IH]; cbn; [done|]. destruct (p x) eqn:E; [done|].
  destruct (find_index p l); [done|]. auto.
Qed.
Lemma find_index_lt {A} (p : A → bool) l i : find_index p l = Some i → i < List.length l.
Proof. intros (x & H & _)%find_index_Some. by apply lookup_lt_Some in H. Qed.

Lemma find_last_index_None {A} (p : A → bool) l :
  find_last_index p l = None → Forall (λ y, p y = false) l.
Proof.
  induction l as [|x l IH]; cbn; [done|]. destruct (find_last_index p l); [done|].
  destruct (p x) eqn:E; [done|]. auto.
Qed.

Lemma find_last_index_Some {A} (p : A → bool) l i :
  find_last_index p l = Some i →
  ∃ x, l !! i = Some x ∧ p x = true ∧ Forall (λ y, p y = false) (drop (S i) l).
Proof.
  revert i. induction l as [|x l IH]; intros i; cbn; [done|].
  destruct (find_last_index p l) as [j|] eqn:Hj.
  - intros [= <-]. destruct (IH j eq_refl) as (y & ? & ? & ?). exists y. auto.
  - destruct (p x) eqn:E; [|done]. intros [= <-]. exists x. cbn. split_and!; [done..|].
    rewrite drop_0. by apply find_last_index_None.
Qed.

Lemma is_prefix_spec p l : is_prefix p l = true ↔ ∃ k, l = p ++ k.
Proof.
  revert l. induction p as [|a p IH]; intros l; cbn; [naive_solver|].
  destruct l as [|b l]; [split; [done|by intros [k ?]]|].
  rewrite andb_true_iff, Ascii.eqb_eq, IH. naive_solver.
Qed.

Lemma find_sub_Some p l i :
  find_sub p l = Some i →
  ∃ k, l = take i l ++ p ++ k ∧ i + List.length p ≤ List.length l.
Proof.
  revert i. induction l as [|b l IH]; intros i; cbn.
  - destruct (is_prefix p []) eqn:E; [|done]. intros [= <-].
    apply is_prefix_spec in E as [k Hk]. destruct p; [|done]. by exists [].
  - destruct (is_prefix p (b :: l)) eqn:E.
    + intros [= <-]. apply is_prefix_spec in E as [k Hk]. exists k. split; [done|].
      apply (f_equal (@List.length _)) in Hk. rewrite length_app in Hk. cbn in *. lia.
    + destruct (find_sub p l) as [j|]; cbn; [|done]. intros [= <-].
      destruct (IH j eq_refl) as (k & Hk & ?). exists k. cbn. split; [by f_equal|lia].
Qed.

(** A character, and characters, that [find] finds. *)
Lemma found_char s c : is_Some (find s (String c "") 0) ↔ c ∈ chars s.
Proof.
  unfold find. rewrite (proj2 (Nat.ltb_ge _ 0)) by lia. rewrite drop_0. rewrite fmap_is_Some. split.
  - intros [i (k & Hk & _)%find_sub_Some]. rewrite Hk, !elem_of_app. right. left. cbn. apply list_elem_of_here.
  - induction (chars s) as [|x l IH]; [by intros ?%elem_of_nil|]. intros Hin. cbn [find_sub].
    destruct (is_prefix (chars (String c "")) (x :: l)) eqn:Hp; [by eexists|]. rewrite fmap_is_Some. apply IH.
    apply elem_of_cons in Hin as [->|Hin]; [|done]. cbn in Hp. by rewrite Ascii.eqb_refl in Hp.
Qed.
Lemma found_sub s p : is_Some (find s p 0) ↔ ∃ l k, chars s = l ++ chars p ++ k.
Proof.
  unfold find. rewrite (proj2 (Nat.ltb_ge _ 0)) by lia. rewrite drop_0, fmap_is_Some. split.
  - intros [i (k & Hk & _)%find_sub_Some]. by exists (take i (chars s)), k.
  - intros (l & k & ->). induction l as [|x l IH]; cbn [app].
    + assert (is_prefix (chars p) (chars p ++ k) = true) as Hp by (apply is_prefix_spec; by eexists).
      destruct (chars p ++ k); cbn [find_sub]; rewrite Hp; by eexists.
    + cbn [find_sub]. destruct (is_prefix _ _); [by eexists|]. by rewrite fmap_is_Some.
Qed.

Lemma substr_0 s n : substr s 0 n = Some (str (take n (chars s))).
Proof. done. Qed.

(** The string does not contain the character. *)
Definition no_char (c : ascii) (s : string) : Prop := Forall (λ x, Ascii.eqb x c = false) (chars s).

Lemma getlines_aux_nodelim d l cur :
  Forall (λ c, Ascii.eqb c d = false) l → l ≠ [] ∨ cur ≠ [] →
  getlines_aux d cur l = [str (rev cur ++ l)].
Proof.
  intros H. revert cur. induction H as [|c l Hc Hl IH]; intros cur Hne; cbn.
  - rewrite decide_False by naive_solver. by rewrite app_nil_r.
  - rewrite Hc, IH by (right; done). f_equal. f_equal. cbn. by rewrite <- app_assoc.
Qed.
Lemma getlines_aux_delim d l k cur :
  Forall (λ c, Ascii.eqb c d = false) l →
  getlines_aux d cur (l ++ d :: k) = str (rev cur ++ l) :: getlines_aux d [] k.
Proof.
  intros H. revert cur. induction H as [|c l Hc Hl IH]; intros cur; cbn.
  - by rewrite Ascii.eqb_refl, app_nil_r.
  - rewrite Hc, IH. f_equal. f_equal. cbn. by rewrite <- app_assoc.
Qed.
