(* ===== verification/StringUtils.v ===== *)
(** * String utilities

    Models [foundations/ability/utils/include/string_utils.h] (Module
    [StringUtils]), [anonymous_utils.h] (Module [AnonymousUtils]) and the HTTP
    header helpers of [services/core/ability/utils/src/response_header_parse.cpp]
    (Module [ResponseHeaderParseUtils]).  A function that may throw
    [std::out_of_range], or whose loop may not end, returns an [option]. *)
From Stdlib Require Import ZArith Lia Ascii String.
From stdpp Require Import base tactics list strings gmap pretty.
From S2P Require Import Prelude CppString.

#[local] Open Scope Z_scope.

Module StringUtils.

(*@ foundations/ability/utils/include/string_utils.h StrCnvResult *)
Inductive StrCnvResult := SUCCESS | FAILED | INVALID_CHAR | NUMBER_FORMAT_ERROR | SPILL_OVER.

(*@ foundations/ability/utils/include/string_utils.h LTrim *)
Definition LTrim (inputStr : string) : string := str (drop_while isspace (chars inputStr)).
(*@ foundations/ability/utils/include/string_utils.h RTrim *)
Definition RTrim (inputStr : string) : string :=
  str (reverse (drop_while isspace (reverse (chars inputStr)))).
(*@ foundations/ability/utils/include/string_utils.h Trim *)
Definition Trim (inputStr : string) : string := RTrim (LTrim inputStr).

(** The loop of [Split].  After the last token [end] is [npos], which the model
    writes as the length of the string: both make the next search fail and
    both make [substr] return the rest. *)
(*@ foundations/ability/utils/include/string_utils.h Split *)
Fixpoint Split_loop (fuel : nat) (s : string) (delimiter : ascii) (end_ : nat)
    (tokens : list string) : option (list string) :=
  match find_first_not_of s delimiter end_ with
  | None => Some tokens
  | Some start =>
      match fuel with
      | O => None
      | S fuel =>
          let end_' := default (len s) (find_char s delimiter start) in
          token ← substr s start (end_' - start)%nat;
          Split_loop fuel s delimiter end_' (tokens ++ [token])
      end
  end.
(*@ foundations/ability/utils/include/string_utils.h Split *)
Definition Split (s : string) (delimiter : ascii) : option (list string) :=
  Split_loop (len s) s delimiter 0 [].

(*@ foundations/ability/utils/include/string_utils.h GetBoolStr *)
Definition GetBoolStr (isTrue : bool) : string := if isTrue then "true" else "false".

(*@ foundations/ability/utils/include/string_utils.h SafeSubString *)
Definition SafeSubString (sourceStr : string) (beginIndex endIndex : Z)
    (defaultStr : string) : option string :=
  if (len sourceStr =? 0)%nat then Some defaultStr
  else if (beginIndex <? 0) || (Z.of_nat (len sourceStr) <? to_uint64 endIndex)
          || (endIndex <? beginIndex)
  then Some defaultStr
  else substr sourceStr (Z.to_nat beginIndex) (Z.to_nat endIndex).

(*@ foundations/ability/utils/include/string_utils.h GetEnumValueString *)
Definition GetEnumValueString (enumItem : string) : option string :=
  match find enumItem "::" 0 with
  | None => Some ""
  | Some split => substr enumItem (split + len "::")%nat (len enumItem)
  end.

(*@ foundations/ability/utils/include/string_utils.h GetLastSplitString *)
Definition GetLastSplitString (stringName splitStr : string) : option string :=
  match find_last_of stringName splitStr with
  | None => Some ""
  | Some found => substr stringName (found + 1)%nat (len stringName)
  end.

(*@ foundations/ability/utils/include/string_utils.h ReplaceStringAll *)
Fixpoint ReplaceStringAll_loop (fuel : nat) (resultString subString newString : string)
    (pos : nat) : option string :=
  match fuel with
  | O => None
  | S fuel =>
      match find resultString subString pos with
      | None => Some resultString
      | Some p =>
          r ← replace resultString p (len subString) newString;
          ReplaceStringAll_loop fuel r subString newString (p + len newString)%nat
      end
  end.
(*@ foundations/ability/utils/include/string_utils.h ReplaceStringAll *)
Definition ReplaceStringAll (srcString subString newString : string) : option string :=
  ReplaceStringAll_loop (S (len srcString)) srcString subString newString 0.

(*@ foundations/ability/utils/include/string_utils.h StringRemove *)
Definition StringRemove (sourceString startString endString : string) : option string :=
  if (len sourceString =? 0)%nat then Some sourceString
  else
    match find sourceString startString 0 with
    | None => Some sourceString
    | Some indexStart =>
        match find sourceString endString indexStart with
        | None => Some sourceString
        | Some indexEnd =>
            before ← substr sourceString 0 indexStart;
            after ← substr sourceString (indexEnd + len endString)%nat (len sourceString);
            Some (before +:+ after)
        end
    end.

(** An integral type, as far as [from_chars] is concerned. *)
Record IntType := { it_signed : bool; it_min : Z; it_max : Z }.
Definition int32_t : IntType := {| it_signed := true; it_min := INT32_MIN; it_max := INT32_MAX |}.
Definition int64_t : IntType := {| it_signed := true; it_min := INT64_MIN; it_max := INT64_MAX |}.

(** The result and the new value of the output parameter [number]. *)
(*@ foundations/ability/utils/include/string_utils.h StringToNumberInner *)
Definition StringToNumberInner (T : IntType) (s : string) (number : Z) : StrCnvResult * Z :=
  let strTemp := Trim s in
  let '(ec, numTemp, rest) := from_chars (it_signed T) (it_min T) (it_max T) (chars strTemp) in
  match ec with
  | result_out_of_range => (SPILL_OVER, number)
  | invalid_argument => (FAILED, number)
  | errc_ok =>
      if negb (rest =? 0)%nat then (INVALID_CHAR, numTemp)
      else if negb (len strTemp =? len s)%nat then (NUMBER_FORMAT_ERROR, numTemp)
      else (SUCCESS, numTemp)
  end.
(*@ foundations/ability/utils/include/string_utils.h DecStringToNumber *)
Definition DecStringToNumber (T : IntType) (s : string) (number : Z) : StrCnvResult * Z :=
  StringToNumberInner T s number.

End StringUtils.

Module AnonymousUtils.

(*@ foundations/ability/utils/include/anonymous_utils.h ENCRYPT_LENGTH *)
Definition ENCRYPT_LENGTH : nat := 4.
(*@ foundations/ability/utils/include/anonymous_utils.h ENCRYPT_TOTAL_LENGTH *)
Definition ENCRYPT_TOTAL_LENGTH : nat := 8.
(*@ foundations/ability/utils/include/anonymous_utils.h ENCRYPT_STR *)
Definition ENCRYPT_STR : string := "****".

(** [s.compare(0, prefix.size(), prefix) == 0] *)
Definition starts_with (s prefix : string) : bool := is_prefix (chars prefix) (chars s).

(*@ foundations/ability/utils/include/anonymous_utils.h AnonymousUrl *)
Definition AnonymousUrl (url : string) : option string :=
  if starts_with url "https://" then replace url (len "https://") ENCRYPT_LENGTH ENCRYPT_STR
  else if starts_with url "http://" then replace url (len "http://") ENCRYPT_LENGTH ENCRYPT_STR
  else Some url.

(*@ foundations/ability/utils/include/anonymous_utils.h AnonymousString *)
Definition AnonymousString (inputStr : string) : string :=
  if (len inputStr =? 0)%nat then inputStr
  else
    let length := len inputStr in
    if (ENCRYPT_TOTAL_LENGTH <=? length)%nat then
      str (take ENCRYPT_LENGTH (chars inputStr)) +:+ ENCRYPT_STR
    else if (ENCRYPT_LENGTH <? length)%nat then
      str (take (length - ENCRYPT_LENGTH) (chars inputStr)) +:+ ENCRYPT_STR
    else ENCRYPT_STR.

(** [length * 30.0 / 100.0] truncated: for any length below 2^50 the double
    quotient truncates to the exact integer quotient. *)
(*@ foundations/ability/utils/include/anonymous_utils.h ReplacePercentageWithAsterisks *)
Definition ReplacePercentageWithAsterisks (s : string) : string :=
  let replaceCount := to_int32 (Z.of_nat (len s) * 30 / 100) in
  let index := to_int32 (Z.of_nat (len s)) - replaceCount in
  if index <? 0 then s
  else str (imap (λ i c, if index <=? Z.of_nat i then "*"%char else c) (chars s)).

End AnonymousUtils.

Module ResponseHeaderParseUtils.
Import StringUtils.

(*@ core/ability/utils/src/response_header_parse.cpp FormatHeader *)
Definition FormatHeader (headers : list string) : string :=
  if decide (headers = []) then "" else foldl (λ newHeader header, newHeader +:+ header) "" headers.

(** The key of one header line: the text before the first colon, when there is
    a colon that is not the last character.  A [size_t] position is narrowed to
    the [int] parameters of [SafeSubString]. *)
(*@ core/ability/utils/src/response_header_parse.cpp ParseKeyFromHeader *)
Definition header_key (header : string) (colonPos : nat) : option string :=
  SafeSubString header 0 (to_int32 (Z.of_nat colonPos)) "".

(** [SafeSubString(header, colonPos + 1, header.length() - colonPos - 1, "")] *)
(*@ core/ability/utils/src/response_header_parse.cpp ParseKeyFromHeader *)
Definition header_value (header : string) (colonPos : nat) : option string :=
  SafeSubString header (to_int32 (Z.of_nat colonPos + 1))
    (to_int32 (Z.of_nat (len header) - Z.of_nat colonPos - 1)) "".

(*@ core/ability/utils/src/response_header_parse.cpp ParseKeyFromHeader *)
Definition colon_inside (header : string) : option nat :=
  colonPos ← find_char header ":" 0;
  if (colonPos =? len header - 1)%nat then None else Some colonPos.

(*@ core/ability/utils/src/response_header_parse.cpp ParseKeysFromHeader *)
Fixpoint ParseKeysFromHeader_loop (headers : list string) (keys : gset string)
    (m : gmap string string) : option (gmap string string) :=
  match headers with
  | [] => Some m
  | header :: rest =>
      match colon_inside header with
      | None => ParseKeysFromHeader_loop rest keys m
      | Some colonPos =>
          key ← header_key header colonPos;
          if (len key =? 0)%nat then ParseKeysFromHeader_loop rest keys m
          else
            let key := Trim key in
            if bool_decide (key ∈ keys) then
              value ← header_value header colonPos;
              ParseKeysFromHeader_loop rest keys (<[key := Trim value]> m)
            else ParseKeysFromHeader_loop rest keys m
      end
  end.
(*@ core/ability/utils/src/response_header_parse.cpp ParseKeysFromHeader *)
Definition ParseKeysFromHeader (headers : list string) (keys : gset string) :
    option (gmap string string) := ParseKeysFromHeader_loop headers keys ∅.

(*@ core/ability/utils/src/response_header_parse.cpp ParseKeyFromHeader *)
Fixpoint ParseKeyFromHeader (headers : list string) (importKey : string) : option string :=
  match headers with
  | [] => Some ""
  | header :: rest =>
      match colon_inside header with
      | None => ParseKeyFromHeader rest importKey
      | Some colonPos =>
          key ← header_key header colonPos;
          if (len key =? 0)%nat then ParseKeyFromHeader rest importKey
          else if String.eqb (Trim key) importKey then
            value ← header_value header colonPos; Some (Trim value)
          else ParseKeyFromHeader rest importKey
      end
  end.

(*@ core/ability/utils/src/response_header_parse.cpp ParseFirstMsgFromHeader *)
Definition ParseFirstMsgFromHeader (headers : list string) : string :=
  match headers with [] => "" | h :: _ => h end.

(** [npos] narrows to the [int] -1, which [SafeSubString] rejects. *)
(*@ core/ability/utils/src/response_header_parse.cpp FindKeyFromHeader *)
Fixpoint FindKeyFromHeader (headers : list string) (importKey : string) : option bool :=
  match headers with
  | [] => Some false
  | header :: rest =>
      key ← match find_char header ":" 0 with
            | Some colonPos => header_key header colonPos
            | None => SafeSubString header 0 (-1) ""
            end;
      if (len key =? 0)%nat then FindKeyFromHeader rest importKey
      else if String.eqb (Trim key) importKey then Some true
      else FindKeyFromHeader rest importKey
  end.

End ResponseHeaderParseUtils.

(** ** Proofs about the string utilities *)
Section string_utils_proofs.
Import StringUtils.

Lemma chars_LTrim s : chars (LTrim s) = drop_while isspace (chars s).
Proof. apply chars_str. Qed.
Lemma chars_RTrim s : chars (RTrim s) = reverse (drop_while isspace (reverse (chars s))).
Proof. apply chars_str. Qed.

(** The last character kept by [RTrim] is the last non-blank one. *)
Lemma RTrim_split l :
  ∃ post, l = reverse (drop_while isspace (reverse l)) ++ post ∧
    Forall (λ c, isspace c = true) post.
Proof.
  exists (reverse (take_while isspace (reverse l))). split.
  - rewrite <- reverse_app, take_drop_while. by rewrite reverse_involutive.
  - apply Forall_reverse, take_while_forall.
Qed.

Lemma last_RTrim l c : last (reverse (drop_while isspace (reverse l))) = Some c → isspace c = false.
Proof.
  rewrite <- head_reverse, reverse_involutive. destruct (drop_while isspace (reverse l)) eqn:E; [done|].
  intros [= <-]. by apply drop_while_head in E.
Qed.

Lemma head_RTrim l c k : l = c :: k → isspace c = false →
  head (reverse (drop_while isspace (reverse l))) = Some c.
Proof.
  intros -> Hc. destruct (RTrim_split (c :: k)) as (post & Hl & Hpost).
  destruct (reverse _) as [|d r]; cbn in *; [|by simplify_eq].
  subst. inversion Hpost. congruence.
Qed.

(** [Trim] removes exactly the blanks at both ends: the string is some
    blanks, the trimmed string, and some blanks, and the trimmed string neither
    starts nor ends with a blank. *)
Theorem Trim_spec s :
  (∃ pre post, chars s = pre ++ chars (Trim s) ++ post ∧
     Forall (λ c, isspace c = true) pre ∧ Forall (λ c, isspace c = true) post) ∧
  (∀ c, head (chars (Trim s)) = Some c → isspace c = false) ∧
  (∀ c, last (chars (Trim s)) = Some c → isspace c = false).
Proof.
  unfold Trim. rewrite chars_RTrim, chars_LTrim.
  destruct (RTrim_split (drop_while isspace (chars s))) as (post & Hl & Hpost).
  split_and!.
  - exists (take_while isspace (chars s)), post.
    rewrite <- Hl, take_drop_while. auto using take_while_forall.
  - intros c. destruct (drop_while isspace (chars s)) as [|d k] eqn:E; [done|].
    rewrite (head_RTrim _ d k) by eauto using drop_while_head.
    intros [= <-]. by eapply drop_while_head.
  - intros c. apply last_RTrim.
Qed.

(** A string with no blank at either end is left alone; hence trimming twice
    is trimming once. *)
Lemma Trim_id s :
  (∀ c, head (chars s) = Some c → isspace c = false) →
  (∀ c, last (chars s) = Some c → isspace c = false) → Trim s = s.
Proof.
  intros Hh Hl. apply chars_inj. unfold Trim. rewrite chars_RTrim, chars_LTrim.
  rewrite (drop_while_id _ (chars s)) by done.
  rewrite drop_while_id, reverse_involutive; [done|].
  intros c. rewrite head_reverse. apply Hl.
Qed.
Lemma Trim_idempotent s : Trim (Trim s) = Trim s.
Proof. destruct (Trim_spec s) as (_ & ? & ?). by apply Trim_id. Qed.

(** *** Split *)

Lemma getlines_nonempty_skip d n l :
  filter (λ t, t ≠ "") (getlines_aux d [] (replicate n d ++ l)) =
  filter (λ t, t ≠ "") (getlines_aux d [] l).
Proof.
  induction n as [|n IH]; [done|]. cbn. rewrite Ascii.eqb_refl.
  rewrite filter_cons_False by naive_solver. exact IH.
Qed.

Lemma Forall_eqb_replicate d (l : list ascii) :
  Forall (λ c, negb (Ascii.eqb d c) = false) l → l = replicate (List.length l) d.
Proof.
  induction 1 as [|c l Hc _ IH]; [done|]. cbn.
  apply negb_false_iff, Ascii.eqb_eq in Hc as <-. by f_equal.
Qed.

Lemma eqb_sym_Forall d (l : list ascii) :
  Forall (λ c, Ascii.eqb d c = false) l → Forall (λ c, Ascii.eqb c d = false) l.
Proof. intros H. eapply Forall_impl; [exact H|]. intros c. by rewrite Ascii.eqb_sym. Qed.

(** One round of the loop: what [find_first_not_of], [find] and [substr] yield
    agrees with the tokens [std::getline] produces, blanks dropped. *)
Lemma Split_round s d end_ start :
  find_first_not_of s d end_ = Some start →
  let end_' := default (len s) (find_char s d start) in
  let token := str (take (end_' - start) (drop start (chars s))) in
  (end_ ≤ start < end_')%nat ∧ (end_' ≤ len s)%nat ∧
  filter (λ t, t ≠ "") (getlines_aux d [] (drop end_ (chars s))) =
  token :: filter (λ t, t ≠ "") (getlines_aux d [] (drop end_' (chars s))).
Proof.
  unfold find_first_not_of, find_char.
  destruct (find_index _ (drop end_ (chars s))) as [i|] eqn:Ei; [|done]. intros [= <-].
  destruct (find_index_Some _ _ _ Ei) as (c & Hc & Hcd & Htake).
  apply negb_true_iff in Hcd.
  set (start := (end_ + i)%nat).
  assert (drop end_ (chars s) = replicate i d ++ drop start (chars s)) as Hsplit.
  { apply Forall_eqb_replicate in Htake.
    assert (i ≤ List.length (drop end_ (chars s)))%nat by (apply find_index_lt in Ei; lia).
    rewrite length_take_le in Htake by done. rewrite <- Htake.
    unfold start. by rewrite <- drop_drop, take_drop. }
  assert (drop start (chars s) !! 0%nat = Some c) as Hhead.
  { unfold start. rewrite <- drop_drop, lookup_drop. by rewrite Nat.add_0_r. }
  assert (start < len s)%nat as Hlt.
  { rewrite lookup_drop in Hhead. apply lookup_lt_Some in Hhead. rewrite len_chars in Hhead. lia. }
  rewrite Hsplit, getlines_nonempty_skip. clear Hsplit.
  destruct (find_index (Ascii.eqb d) (drop start (chars s))) as [j|] eqn:Ej; cbn.
  - pose proof (find_index_lt _ _ _ Ej) as Hj. rewrite length_drop, len_chars in Hj.
    destruct (find_index_Some _ _ _ Ej) as (e & He & Hde & Hpre).
    apply Ascii.eqb_eq in Hde as <-.
    assert (0 < j)%nat by (destruct j; [simplify_eq; by rewrite Ascii.eqb_refl in Hcd|lia]).
    split_and!; [lia..|]. replace (start + j - start)%nat with j by lia.
    apply eqb_sym_Forall in Hpre.
    rewrite <- (take_drop_middle (drop start (chars s)) j d He) at 1.
    rewrite getlines_aux_delim by done. cbn [rev app].
    rewrite filter_cons_True.
    + f_equal. rewrite <- drop_drop. rewrite (drop_S _ d j He). cbn.
      rewrite Ascii.eqb_refl, filter_cons_False by naive_solver. done.
    + intros Hnil. apply (f_equal len) in Hnil. rewrite len_str in Hnil.
      rewrite length_take, length_drop, len_chars in Hnil. cbn in Hnil. lia.
  - apply find_index_None, eqb_sym_Forall in Ej. split_and!; [lia..|].
    rewrite getlines_aux_nodelim; [|done|left; intros H0; rewrite H0 in Hhead; done].
    rewrite take_ge by (rewrite length_drop, len_chars; lia). cbn [rev app].
    rewrite (drop_ge _ (len s)) by (rewrite len_chars; lia).
    rewrite filter_cons_True; [done|].
    intros Hnil. apply (f_equal len) in Hnil. rewrite len_str, length_drop, len_chars in Hnil.
    cbn in Hnil. lia.
Qed.

Lemma Split_loop_correct fuel s d end_ tokens :
  (len s - end_ ≤ fuel)%nat →
  Split_loop fuel s d end_ tokens =
  Some (tokens ++ filter (λ t, t ≠ "") (getlines_aux d [] (drop end_ (chars s)))).
Proof.
  revert end_ tokens. induction fuel as [|fuel IH]; intros end_ tokens Hf;
    cbn [Split_loop]; destruct (find_first_not_of s d end_) as [start|] eqn:E.
  - apply Split_round in E as (? & ? & _). lia.
  - unfold find_first_not_of in E. destruct (find_index _ _) eqn:Ei; [done|].
    apply find_index_None, Forall_eqb_replicate in Ei. rewrite Ei.
    rewrite <- (app_nil_r (replicate _ _)), getlines_nonempty_skip. cbn. by rewrite app_nil_r.
  - pose proof (Split_round _ _ _ _ E) as (Hlt & Hle & Htok).
    unfold substr. rewrite (proj2 (Nat.ltb_ge _ _)) by lia. cbn [mbind option_bind].
    rewrite IH by lia. rewrite Htok. by rewrite <- app_assoc.
  - unfold find_first_not_of in E. destruct (find_index _ _) eqn:Ei; [done|].
    apply find_index_None, Forall_eqb_replicate in Ei. rewrite Ei.
    rewrite <- (app_nil_r (replicate _ _)), getlines_nonempty_skip. cbn. by rewrite app_nil_r.
Qed.

(** [Split] always ends, never reads out of range, and returns exactly the
    non-empty pieces that cutting the string at every delimiter gives, in
    order. *)
Theorem Split_correct s d :
  Split s d = Some (filter (λ t, t ≠ "") (getlines d s)).
Proof.
  unfold Split. rewrite Split_loop_correct by lia. cbn. by rewrite drop_0.
Qed.

(** *** ReplaceStringAll *)

(** The intended result, by structural recursion: scan from left to right,
    write [new] at every occurrence of [p] and skip the occurrence. *)
Fixpoint replace_all (p new : list ascii) (skip : nat) (l : list ascii) : list ascii :=
  match l with
  | [] => []
  | c :: l' =>
      match skip with
      | S k => replace_all p new k l'
      | O => if is_prefix p l then new ++ replace_all p new (List.length p - 1) l'
             else c :: replace_all p new 0 l'
      end
  end.

Lemma replace_all_skip p new k l : replace_all p new k l = replace_all p new 0 (drop k l).
Proof. revert k. induction l as [|c l IH]; intros [|k]; cbn; auto. Qed.

Lemma replace_all_find p new l : p ≠ [] →
  replace_all p new 0 l =
  match find_sub p l with
  | None => l
  | Some i => take i l ++ new ++ replace_all p new 0 (drop (i + List.length p) l)
  end.
Proof.
  intros Hp. induction l as [|c l IH]; [by destruct p|].
  cbn [replace_all find_sub]. destruct (is_prefix p (c :: l)) eqn:E.
  - rewrite replace_all_skip. cbn. destruct p as [|a p]; [done|]. cbn.
    by rewrite Nat.sub_0_r.
  - rewrite IH. destruct (find_sub p l) as [i|]; done.
Qed.

Lemma ReplaceStringAll_loop_correct fuel result sub new pos :
  sub ≠ "" → (pos ≤ len result)%nat → (len result - pos < fuel)%nat →
  ReplaceStringAll_loop fuel result sub new pos =
  Some (str (take pos (chars result)
             ++ replace_all (chars sub) (chars new) 0 (drop pos (chars result)))).
Proof.
  intros Hsub. revert result pos. induction fuel as [|fuel IH]; intros result pos Hpos Hf; [lia|].
  assert (chars sub ≠ []) as Hsub' by (by destruct sub).
  assert (0 < len sub)%nat by (destruct sub; [done|cbn; lia]).
  cbn [ReplaceStringAll_loop]. unfold find. rewrite (proj2 (Nat.ltb_ge _ _)) by lia.
  rewrite (replace_all_find _ _ (drop pos _)) by done.
  destruct (find_sub (chars sub) (drop pos (chars result))) as [i|] eqn:Ei; cbn [fmap option_fmap option_map].
  - destruct (find_sub_Some _ _ _ Ei) as (k & _ & Hi).
    rewrite length_drop, !len_chars in Hi.
    unfold replace. rewrite (proj2 (Nat.ltb_ge _ _)) by lia. cbn [mbind option_bind].
    set (pre := take (pos + i) (chars result) ++ chars new).
    set (post := drop (pos + i + len sub) (chars result)).
    assert (take (pos + i) (chars result) ++ chars new ++ post = pre ++ post) as Heq
      by (unfold pre; by rewrite <- app_assoc).
    rewrite Heq. clear Heq.
    assert (List.length pre = pos + i + len new)%nat as Hpre.
    { unfold pre. rewrite length_app, length_take, !len_chars. lia. }
    assert (List.length post = len result - (pos + i + len sub))%nat as Hpost.
    { unfold post. by rewrite length_drop, len_chars. }
    rewrite IH by (rewrite len_str, length_app; lia).
    rewrite chars_str. rewrite <- Hpre, take_app_length, drop_app_length.
    unfold pre, post. rewrite drop_drop, len_chars, !Nat.add_assoc.
    f_equal. f_equal.
    rewrite <- (take_drop pos (take (pos + i) (chars result))) at 1.
    rewrite take_take, Nat.min_l by lia.
    rewrite skipn_firstn_comm. replace (pos + i - pos)%nat with i by lia.
    by rewrite <- !app_assoc.
  - by rewrite take_drop, str_chars.
Qed.

(** For a non-empty pattern, [ReplaceStringAll] ends, never throws, and
    replaces every occurrence from left to right without rescanning the text it
    inserted. *)
Theorem ReplaceStringAll_correct s sub new :
  sub ≠ "" →
  ReplaceStringAll s sub new = Some (str (replace_all (chars sub) (chars new) 0 (chars s))).
Proof. intros H. unfold ReplaceStringAll. rewrite ReplaceStringAll_loop_correct; [done|done|lia|lia]. Qed.

Lemma ReplaceStringAll_correct_witness :
  "quota" ≠ "" ∧ ReplaceStringAll "say quotahiquota" "quota" "'" = Some "say 'hi'".
Proof. split; [done|]. rewrite (ReplaceStringAll_correct _ "quota") by done. reflexivity. Defined.

(** With an empty pattern the loop never ends, whatever the bound on the
    number of rounds: every search succeeds at the current position, which
    never passes the end of the growing string. *)
Theorem ReplaceStringAll_empty_pattern_diverges s new fuel pos :
  (pos ≤ len s)%nat → ReplaceStringAll_loop fuel s "" new pos = None.
Proof.
  revert s pos. induction fuel as [|fuel IH]; intros s pos Hpos; [done|].
  cbn [ReplaceStringAll_loop]. unfold find. rewrite (proj2 (Nat.ltb_ge _ _)) by lia.
  change (chars "") with (@nil ascii).
  assert (find_sub [] (drop pos (chars s)) = Some 0%nat) as -> by (by destruct (drop _ _)).
  cbn [fmap option_fmap option_map]. rewrite Nat.add_0_r.
  unfold replace. rewrite (proj2 (Nat.ltb_ge _ _)) by lia. cbn [mbind option_bind].
  apply IH. rewrite len_str, !length_app, length_take, length_drop, !len_chars. lia.
Qed.

Lemma ReplaceStringAll_empty_pattern_diverges_witness :
  (0 ≤ len "ab")%nat ∧ ReplaceStringAll_loop 1000 "ab" "" "x" 0 = None.
Proof. split; [cbn; lia|]. apply ReplaceStringAll_empty_pattern_diverges. cbn; lia. Defined.

(** *** Decimal numbers *)

Lemma digit_char_val n : (n < 10)%N →
  isdigit (pretty_N_char n) = true ∧ digit_val (pretty_N_char n) = Z.of_N n.
Proof.
  intros Hn. assert (n = 0 ∨ n = 1 ∨ n = 2 ∨ n = 3 ∨ n = 4 ∨ n = 5 ∨ n = 6 ∨ n = 7
    ∨ n = 8 ∨ n = 9)%N as H by lia.
  repeat destruct H as [->|H]; try (subst n); split; reflexivity.
Qed.

Lemma pretty_N_go_digits (x : N) s :
  Forall (λ c, isdigit c = true) (chars s) →
  Forall (λ c, isdigit c = true) (chars (pretty_N_go x s)) ∧
  (∃ pre, chars (pretty_N_go x s) = pre ++ chars s) ∧
  digits_val 0 (chars (pretty_N_go x s)) = digits_val (Z.of_N x) (chars s).
Proof.
  revert s. induction (N.lt_wf_0 x) as [x _ IH]; intros s Hs.
  destruct (decide (x = 0)%N) as [->|Hx].
  { rewrite pretty_N_go_0. split_and!; [done|by exists []|done]. }
  rewrite pretty_N_go_step by lia.
  pose proof (N.mod_lt x 10 ltac:(lia)) as Hm.
  destruct (digit_char_val (x mod 10) Hm) as [Hd Hv].
  destruct (IH (x / 10)%N ltac:(apply N.div_lt; lia)
    (String (pretty_N_char (x mod 10)) s) ltac:(by constructor)) as (? & [pre Hpre] & Hval).
  split_and!; [done|exists (pre ++ [pretty_N_char (x mod 10)])|].
  - rewrite Hpre. by rewrite <- app_assoc.
  - rewrite Hval. cbn. unfold digits_val. cbn. rewrite Hv. f_equal.
    pose proof (N.div_mod x 10 ltac:(lia)). lia.
Qed.

Lemma pretty_N_digits (n : N) :
  chars (pretty n) ≠ [] ∧ Forall (λ c, isdigit c = true) (chars (pretty n)) ∧
  digits_val 0 (chars (pretty n)) = Z.of_N n.
Proof.
  unfold pretty, pretty_N. case_decide as Hn; [subst; split_and!; [done|by repeat constructor|done]|].
  rewrite pretty_N_go_step by lia.
  destruct (digit_char_val (n mod 10) (N.mod_lt n 10 ltac:(lia))) as [Hd Hv].
  destruct (pretty_N_go_digits (n / 10) (String (pretty_N_char (n mod 10)) "")
    ltac:(by repeat constructor)) as (? & [pre Hpre] & Hval).
  split_and!; [rewrite Hpre; by destruct pre|done|].
  rewrite Hval. cbn. unfold digits_val. cbn. rewrite Hv.
  pose proof (N.div_mod n 10 ltac:(lia)). lia.
Qed.

Lemma isdigit_not_space c : isdigit c = true → isspace c = false.
Proof.
  unfold isdigit, isspace. intros [?%Nat.leb_le ?%Nat.leb_le]%andb_true_iff.
  apply orb_false_iff. split; [apply Nat.eqb_neq; lia|].
  apply andb_false_iff. right. apply Nat.leb_gt. lia.
Qed.

(** The text [std::to_string] writes: digits, after a minus sign when the
    number is negative. *)
Lemma to_string_shape z :
  ∃ ds, ds ≠ [] ∧ Forall (λ c, isdigit c = true) ds ∧ digits_val 0 ds = Z.abs z ∧
    chars (to_string z) = (if z <? 0 then ["-"%char] else []) ++ ds.
Proof.
  unfold to_string. destruct z as [|p|p].
  - exists ["0"%char]. split_and!; [done|by repeat constructor|done|done].
  - destruct (pretty_N_digits (Npos p)) as (? & ? & ?). eexists. split_and!; [done..|]. done.
  - destruct (pretty_N_digits (Npos p)) as (? & ? & ?). eexists. split_and!; [done..|]. done.
Qed.

Lemma from_chars_to_string T z :
  it_signed T = true → it_min T ≤ z ≤ it_max T →
  from_chars (it_signed T) (it_min T) (it_max T) (chars (to_string z)) = (errc_ok, z, 0%nat).
Proof.
  intros Hs Hz. destruct (to_string_shape z) as (ds & Hne & Hds & Hval & ->).
  unfold from_chars. rewrite Hs.
  assert (split_sign true ((if z <? 0 then ["-"%char] else []) ++ ds) = (z <? 0, ds)) as ->.
  { destruct (z <? 0); [done|]. cbn. destruct Hds as [|c l Hc _]; [done|].
    destruct c as [[] [] [] [] [] [] [] []]; done. }
  rewrite take_while_all, drop_while_all by done. rewrite decide_False by done.
  rewrite Hval. cbn. destruct (z <? 0) eqn:Ez; breflect.
  - rewrite Z.abs_neq, Z.opp_involutive by lia.
    rewrite (proj2 (Z.ltb_ge _ _)), (proj2 (Z.ltb_ge _ _)) by lia. done.
  - rewrite Z.abs_eq by lia.
    rewrite (proj2 (Z.ltb_ge _ _)), (proj2 (Z.ltb_ge _ _)) by lia. done.
Qed.

Lemma Trim_to_string z : Trim (to_string z) = to_string z.
Proof.
  destruct (to_string_shape z) as (ds & Hne & Hds & _ & Hch).
  apply Trim_id; rewrite Hch; intros c.
  - destruct (z <? 0); cbn; [by intros [= <-]|]. destruct Hds as [|d l Hd _]; [done|].
    intros [= <-]. by apply isdigit_not_space.
  - destruct (last ds) as [d|] eqn:E; [|by apply last_None in E].
    rewrite last_app, E. intros [= <-]. apply isdigit_not_space.
    rewrite Forall_forall in Hds. apply Hds. rewrite last_lookup in E.
    by eapply list_elem_of_lookup_2.
Qed.

(** Parsing with [DecStringToNumber] inverts printing with
    [std::to_string], for every value of a signed integer type. *)
Theorem DecStringToNumber_to_string T z number :
  it_signed T = true → it_min T ≤ z ≤ it_max T →
  DecStringToNumber T (to_string z) number = (SUCCESS, z).
Proof.
  intros Hs Hz. unfold DecStringToNumber, StringToNumberInner.
  rewrite Trim_to_string, from_chars_to_string by done. cbn. by rewrite Nat.eqb_refl.
Qed.

Lemma DecStringToNumber_to_string_witness :
  (it_signed int32_t = true ∧ it_min int32_t ≤ -2147483648 ≤ it_max int32_t) ∧
  DecStringToNumber int32_t "-2147483648" 0 = (SUCCESS, -2147483648).
Proof.
  split; [split; [reflexivity|cbn; unfold_widths; lia]|].
  apply (DecStringToNumber_to_string int32_t (-2147483648)); [reflexivity|cbn; unfold_widths; lia].
Defined.

(** A number is only reported [SUCCESS] when it is in the range of its
    type and the text has no blank at either end; on [FAILED] and [SPILL_OVER]
    the output parameter is untouched. *)
Theorem DecStringToNumber_sound T s number :
  let '(r, v) := DecStringToNumber T s number in
  (r = SUCCESS → it_min T ≤ v ≤ it_max T ∧ Trim s = s) ∧
  (r = FAILED ∨ r = SPILL_OVER → v = number).
Proof.
  unfold DecStringToNumber, StringToNumberInner, from_chars.
  destruct (split_sign _ _) as [neg body]. case_decide; [split; [done|by intros _]|].
  set (z := if neg then _ else _).
  destruct ((z <? it_min T) || (it_max T <? z)) eqn:E; [split; [done|by intros _]|]. breflect.
  destruct (negb (_ =? 0)%nat) eqn:E1; [split; [done|by intros [?|?]]|].
  destruct (negb (len (Trim s) =? len s)%nat) eqn:E2; [split; [done|by intros [?|?]]|].
  split; [|by intros [?|?]]. intros _. split; [lia|]. breflect.
  destruct (Trim_spec s) as [(pre & post & Hs & _) _].
  apply (f_equal (@List.length _)) in Hs as Hlen. rewrite !length_app, !len_chars in Hlen.
  destruct pre; [|cbn in Hlen; lia]. destruct post; [|cbn in Hlen; lia].
  apply chars_inj. rewrite Hs. cbn. by rewrite app_nil_r.
Qed.

(** *** Substrings *)

Lemma to_uint64_nonneg z : 0 ≤ z → is_int32 z → to_uint64 z = z.
Proof. unfold_widths. intros ??. apply Z.mod_small. lia. Qed.

Lemma SafeSubString_in_range s b e d :
  is_int32 e → 0 ≤ b ≤ e → e ≤ Z.of_nat (len s) → s ≠ "" →
  SafeSubString s b e d = Some (str (take (Z.to_nat e) (drop (Z.to_nat b) (chars s)))).
Proof.
  intros Hi Hbe He Hs. unfold SafeSubString.
  assert (len s ≠ 0)%nat by (by destruct s).
  rewrite (proj2 (Nat.eqb_neq _ _)), to_uint64_nonneg by (done || lia).
  rewrite (proj2 (Z.ltb_ge b 0)), (proj2 (Z.ltb_ge _ e)), (proj2 (Z.ltb_ge e b)) by lia. cbn.
  unfold substr. by rewrite (proj2 (Nat.ltb_ge _ _)) by lia.
Qed.

Lemma SafeSubString_end_before_begin s b e d : e < b → SafeSubString s b e d = Some d.
Proof.
  intros H. unfold SafeSubString. rewrite (proj2 (Z.ltb_lt e b)), orb_true_r by done.
  by case_if.
Qed.

(** [SafeSubString] never lets [std::out_of_range] escape, and its second
    index is not an end position but a character count: from position [b] it
    returns up to [e] characters. *)
Theorem SafeSubString_total s b e d :
  is_int32 b → is_int32 e →
  ∃ r, SafeSubString s b e d = Some r ∧
    (r = d ∨ r = str (take (Z.to_nat e) (drop (Z.to_nat b) (chars s)))).
Proof.
  intros Hb He. destruct (decide (s = "")) as [->|Hs]; [by exists d; auto|].
  destruct (decide (0 ≤ b ≤ e ∧ e ≤ Z.of_nat (len s))) as [[??]|Hn].
  { eexists. split; [by apply SafeSubString_in_range|auto]. }
  exists d. split; [|auto]. unfold SafeSubString.
  case_if; [done|]. case_if; [done|]. exfalso. apply Hn. breflect.
  assert (0 ≤ e) by lia. rewrite to_uint64_nonneg in * by done. lia.
Qed.

Lemma SafeSubString_total_witness :
  (is_int32 2 ∧ is_int32 4) ∧
  ∃ r, SafeSubString "abcdefgh" 2 4 "" = Some r ∧
    (r = "" ∨ r = str (take (Z.to_nat 4) (drop (Z.to_nat 2) (chars "abcdefgh")))).
Proof.
  split; [unfold_widths; lia|].
  apply SafeSubString_total; unfold_widths; lia.
Defined.

End string_utils_proofs.

Section anonymous_utils_proofs.
Import AnonymousUtils.

(** [AnonymousString] shows at most the first four characters, hides at
    least the last four, and never returns more than eight characters. *)
Theorem AnonymousString_spec s :
  s ≠ "" →
  AnonymousString s = str (take (Nat.min 4 (len s - 4)) (chars s)) +:+ "****" ∧
  (len (AnonymousString s) ≤ 8)%nat.
Proof.
  intros Hs. assert (len s ≠ 0)%nat by (by destruct s).
  assert (AnonymousString s = str (take (Nat.min 4 (len s - 4)) (chars s)) +:+ "****") as ->.
  { unfold AnonymousString, ENCRYPT_TOTAL_LENGTH, ENCRYPT_LENGTH.
    rewrite (proj2 (Nat.eqb_neq _ _)) by done.
    case_if; breflect; [by rewrite Nat.min_l by lia|].
    case_if; breflect; [by rewrite Nat.min_r by lia|].
    by replace (len s - 4)%nat with 0%nat by lia. }
  split; [done|]. rewrite <- (len_chars (_ +:+ _)), chars_app, length_app, chars_str, length_take, len_chars.
  change (List.length (chars "****")) with 4%nat. lia.
Qed.

Lemma AnonymousString_spec_witness :
  "0123456789" ≠ "" ∧ AnonymousString "0123456789" = "0123****" ∧
  (len (AnonymousString "0123456789") ≤ 8)%nat.
Proof.
  split; [done|]. exact (AnonymousString_spec "0123456789" ltac:(done)).
Defined.

(** [AnonymousUrl] never throws: both prefixes fit when they match. *)
Lemma AnonymousUrl_total url : is_Some (AnonymousUrl url).
Proof.
  assert (∀ p, starts_with url p = true → is_Some (replace url (len p) ENCRYPT_LENGTH ENCRYPT_STR)) as H.
  { intros p [k Hk]%is_prefix_spec. unfold replace.
    apply (f_equal (@List.length _)) in Hk. rewrite length_app, !len_chars in Hk.
    by rewrite (proj2 (Nat.ltb_ge _ _)) by lia. }
  unfold AnonymousUrl. repeat case_if; [by apply H..|by eexists].
Qed.

End anonymous_utils_proofs.

Section response_header_proofs.
Import StringUtils ResponseHeaderParseUtils.

Lemma find_index_app_first {A} (p : A → bool) l x k :
  Forall (λ y, p y = false) l → p x = true → find_index p (l ++ x :: k) = Some (List.length l).
Proof.
  intros H Hx. induction H as [|y l Hy _ IH]; cbn; [by rewrite Hx|]. by rewrite Hy, IH.
Qed.

(** What looking up a header field returns on a line [key:value]: the
    trimmed value, but only when the value is longer than the key.  The code
    passes the number of characters of the value where [SafeSubString] compares
    it with the start position, so a shorter value is lost and the lookup
    returns the empty string: this is a defect. *)
Theorem ParseKeyFromHeader_line key value rest :
  key ≠ "" → value ≠ "" → Forall (λ c, Ascii.eqb ":" c = false) (chars key) →
  Trim key = key → Z.of_nat (len key) + Z.of_nat (len value) + 1 ≤ INT32_MAX →
  ParseKeyFromHeader ((key +:+ ":" +:+ value) :: rest) key =
  Some (if (len value <=? len key)%nat then "" else Trim value).
Proof.
  intros Hk Hv Hcolon Htrim Hlen.
  assert (0 < len key)%nat by (destruct key; [done|cbn; lia]).
  assert (0 < len value)%nat by (destruct value; [done|cbn; lia]).
  set (header := key +:+ ":" +:+ value).
  assert (chars header = chars key ++ ":"%char :: chars value) as Hch
    by (unfold header; by rewrite !chars_app).
  assert (len header = len key + 1 + len value)%nat as Hlh.
  { rewrite <- len_chars, Hch, length_app. cbn. rewrite !len_chars. lia. }
  assert (header ≠ "") by (intros ->; cbn in Hlh; lia).
  assert (colon_inside header = Some (len key)) as Hci.
  { unfold colon_inside, find_char. rewrite drop_0, Hch, find_index_app_first by done.
    cbn. rewrite len_chars, (proj2 (Nat.eqb_neq _ _)) by lia. done. }
  assert (header_key header (len key) = Some key) as Hkey.
  { unfold header_key. rewrite to_int32_id by (unfold_widths; lia).
    rewrite SafeSubString_in_range; [|unfold_widths; lia..|done]. cbn.
    rewrite drop_0, Nat2Z.id, Hch, take_app_le, take_ge by (rewrite len_chars; lia).
    by rewrite str_chars. }
  cbn [ParseKeyFromHeader]. rewrite Hci, Hkey. cbn [mbind option_bind].
  rewrite (proj2 (Nat.eqb_neq _ _)), Htrim, String.eqb_refl by lia.
  unfold header_value. rewrite !to_int32_id by (unfold_widths; lia).
  case_if; breflect.
  - rewrite SafeSubString_end_before_begin by lia. done.
  - rewrite SafeSubString_in_range; [|unfold_widths; lia..|done].
    cbn [mbind option_bind]. f_equal. f_equal. apply chars_inj. rewrite chars_str, Hch.
    replace (Z.to_nat (Z.of_nat (len key) + 1)) with (List.length (chars key ++ [":"%char]))
      by (rewrite length_app, len_chars; cbn; lia).
    change (":"%char :: chars value) with ([":"%char] ++ chars value).
    rewrite app_assoc, drop_app_length. apply take_ge. rewrite len_chars. lia.
Qed.

Lemma ParseKeyFromHeader_line_witness :
  ("Content-Length" ≠ "" ∧ " 1048576" ≠ "") ∧
  ParseKeyFromHeader ["Content-Length: 1048576"] "Content-Length" = Some "".
Proof.
  split; [done|].
  refine (ParseKeyFromHeader_line "Content-Length" " 1048576" [] _ _ _ _ _);
    [done|done|by repeat constructor|reflexivity|by vm_compute].
Defined.

End response_header_proofs.
