(* ===== verification/Json.v ===== *)
(** * Building JSON text

    Models [foundations/ability/utils/include/json_builder.h] in Module
    [JsonBuilder], next to an abstract JSON syntax with its printer.  The
    theorems relate the two: a builder that was opened with a brace and got a
    list of members appended prints the object with these members. *)
From Stdlib Require Import ZArith Lia Ascii String.
From stdpp Require Import base tactics list strings.
From S2P Require Import Prelude CppString.

#[local] Open Scope Z_scope.

(** The double-quote character, as a string. *)
Definition dq : string := String (ascii_of_nat 34) "".

Module JsonBuilder.

(*@ foundations/ability/utils/include/json_builder.h JsonBuilder *)
Record t := { builder_ : string; isFirstItem_ : bool }.

(** [JsonBuilder()] *)
Definition new : t := {| builder_ := ""; isFirstItem_ := true |}.

(*@ foundations/ability/utils/include/json_builder.h ToJson *)
Definition ToJson (b : t) : string := builder_ b.

(** [builder_.append(s)] *)
Definition put (b : t) (s : string) : t :=
  {| builder_ := builder_ b +:+ s; isFirstItem_ := isFirstItem_ b |}.

(*@ foundations/ability/utils/include/json_builder.h AppendComma *)
Definition AppendComma (b : t) : t :=
  if isFirstItem_ b then {| builder_ := builder_ b; isFirstItem_ := false |}
  else put b ",".

(*@ foundations/ability/utils/include/json_builder.h AppendNum *)
Definition AppendNum (b : t) (key value : string) : t :=
  put (put (put (put (put (AppendComma b) dq) key) dq) ":") value.

(*@ foundations/ability/utils/include/json_builder.h:25-29 Append *)
Definition Append (b : t) (qualifier : string) : t := put b qualifier.
(*@ foundations/ability/utils/include/json_builder.h:31-34 Append *)
Definition AppendUint32 (b : t) (key : string) (value : Z) : t :=
  AppendNum b key (to_string value).
(*@ foundations/ability/utils/include/json_builder.h:36-39 Append *)
Definition AppendInt32 (b : t) (key : string) (value : Z) : t :=
  AppendNum b key (to_string value).
(*@ foundations/ability/utils/include/json_builder.h:41-45 Append *)
Definition AppendBool (b : t) (key : string) (value : bool) : t :=
  AppendNum b key (if value then "true" else "false").
(*@ foundations/ability/utils/include/json_builder.h:47-50 Append *)
Definition AppendInt64 (b : t) (key : string) (value : Z) : t :=
  AppendNum b key (to_string value).

(*@ foundations/ability/utils/include/json_builder.h:52-61 Append *)
Definition AppendString (b : t) (key value : string) (isJsonString : bool) : t :=
  let b := AppendComma b in
  if isJsonString then put (put (put (put (put b dq) key) dq) ":") value
  else put (put (put (put (put (put (put b dq) key) dq) ":") dq) value) dq.

(*@ foundations/ability/utils/include/json_builder.h:63-68 Append *)
Definition AppendBuilder (b : t) (key : string) (jsonBuilder : t) : t :=
  let b := AppendComma b in
  put (put (put (put (put b dq) key) dq) ":") (ToJson jsonBuilder).

(** The loop over [valueList]: a comma after every element but the last. *)
(*@ foundations/ability/utils/include/json_builder.h:76-81 Append *)
Fixpoint AppendList_loop (jsonArray : t) (valueList : list t) : t :=
  match valueList with
  | [] => jsonArray
  | [v] => Append jsonArray (ToJson v)
  | v :: l => AppendList_loop (Append (Append jsonArray (ToJson v)) ",") l
  end.
(*@ foundations/ability/utils/include/json_builder.h:70-87 Append *)
Definition AppendList (b : t) (key : string) (valueList : list t) : t :=
  match valueList with
  | [] => b
  | _ => AppendBuilder b key (Append (AppendList_loop (Append new "[") valueList) "]")
  end.

End JsonBuilder.

(** ** Abstract JSON and its printer *)

Inductive Json :=
  | JRaw (s : string)
  | JNum (z : Z)
  | JBool (b : bool)
  | JStr (s : string)
  | JArr (l : list Json)
  | JObj (fields : list (string * Json)).

Fixpoint join (sep : string) (l : list string) : string :=
  match l with
  | [] => ""
  | [s] => s
  | s :: l' => s +:+ sep +:+ join sep l'
  end.

Definition quoted (s : string) : string := dq +:+ s +:+ dq.

Fixpoint render (j : Json) : string :=
  match j with
  | JRaw s => s
  | JNum z => to_string z
  | JBool b => if b then "true" else "false"
  | JStr s => quoted s
  | JArr l => "[" +:+ join "," (map render l) +:+ "]"
  | JObj fs => "{" +:+ join "," (map (λ '(k, v), quoted k +:+ ":" +:+ render v) fs) +:+ "}"
  end.

(** ** The builder refines the printer *)

Lemma join_snoc sep l s :
  join sep (l ++ [s]) = if decide (l = []) then s else join sep l +:+ sep +:+ s.
Proof.
  induction l as [|x l IH]; [done|]. cbn [app]. rewrite decide_False by done.
  destruct l as [|y l]; [done|].
  rewrite decide_False in IH by done. cbn [app] in IH |- *.
  change (join sep (x :: y :: l ++ [s])) with (x +:+ sep +:+ join sep (y :: l ++ [s])).
  change (join sep (x :: y :: l)) with (x +:+ sep +:+ join sep (y :: l)).
  by rewrite IH, !str_assoc.
Qed.

Definition member (f : string * Json) : string := quoted f.1 +:+ ":" +:+ render f.2.

Lemma render_obj fs : render (JObj fs) = "{" +:+ join "," (map member fs) +:+ "}".
Proof. cbn. do 2 f_equal. f_equal. apply map_ext. by intros [??]. Qed.

(** [builds b fs]: the builder holds an open object with the members [fs]. *)
Definition builds (b : JsonBuilder.t) (fs : list (string * Json)) : Prop :=
  JsonBuilder.builder_ b = "{" +:+ join "," (map member fs) ∧
  JsonBuilder.isFirstItem_ b = bool_decide (fs = []).

Lemma builds_new : builds (JsonBuilder.Append JsonBuilder.new "{") [].
Proof. done. Qed.

Lemma builds_member b fs k v :
  builds b fs →
  builds (JsonBuilder.put (JsonBuilder.AppendComma b) (member (k, v))) (fs ++ [(k, v)]).
Proof.
  intros [Hb Hf]. split.
  - rewrite map_app. change (map member [(k, v)]) with [member (k, v)].
    rewrite join_snoc. unfold JsonBuilder.put, JsonBuilder.AppendComma.
    rewrite Hf. destruct fs as [|f fs].
    + cbn -[member join]. rewrite Hb. cbn -[member]. by rewrite <- !str_assoc.
    + rewrite decide_False by done. cbn -[member join]. rewrite Hb. by rewrite <- !str_assoc.
  - rewrite bool_decide_eq_false_2 by (intros ?%app_nil; naive_solver).
    unfold JsonBuilder.AppendComma. by destruct (JsonBuilder.isFirstItem_ b) eqn:E.
Qed.

Lemma put_put b s t : JsonBuilder.put (JsonBuilder.put b s) t = JsonBuilder.put b (s +:+ t).
Proof. unfold JsonBuilder.put. cbn. by rewrite str_assoc. Qed.

Lemma put_member_builds b fs k v j :
  render j = v → builds b fs →
  builds (JsonBuilder.put (JsonBuilder.AppendComma b) (dq +:+ k +:+ dq +:+ ":" +:+ v))
    (fs ++ [(k, j)]).
Proof.
  intros <- H. apply (builds_member _ _ k j) in H. unfold member, quoted in H.
  cbn [fst snd] in H. by rewrite <- ?str_assoc in H.
Qed.

Lemma AppendNum_builds b fs k v j :
  render j = v → builds b fs → builds (JsonBuilder.AppendNum b k v) (fs ++ [(k, j)]).
Proof.
  intros. unfold JsonBuilder.AppendNum. rewrite !put_put.
  by apply put_member_builds.
Qed.

Lemma AppendInt32_builds b fs k z :
  builds b fs → builds (JsonBuilder.AppendInt32 b k z) (fs ++ [(k, JNum z)]).
Proof. by apply AppendNum_builds. Qed.
Lemma AppendUint32_builds b fs k z :
  builds b fs → builds (JsonBuilder.AppendUint32 b k z) (fs ++ [(k, JNum z)]).
Proof. by apply AppendNum_builds. Qed.
Lemma AppendInt64_builds b fs k z :
  builds b fs → builds (JsonBuilder.AppendInt64 b k z) (fs ++ [(k, JNum z)]).
Proof. by apply AppendNum_builds. Qed.
Lemma AppendBool_builds b fs k v :
  builds b fs → builds (JsonBuilder.AppendBool b k v) (fs ++ [(k, JBool v)]).
Proof. by apply AppendNum_builds. Qed.
Lemma AppendString_builds b fs k v :
  builds b fs → builds (JsonBuilder.AppendString b k v false) (fs ++ [(k, JStr v)]).
Proof.
  intros H. unfold JsonBuilder.AppendString. rewrite !put_put.
  by apply put_member_builds.
Qed.
Lemma AppendRaw_builds b fs k v :
  builds b fs → builds (JsonBuilder.AppendString b k v true) (fs ++ [(k, JRaw v)]).
Proof.
  intros H. unfold JsonBuilder.AppendString. rewrite !put_put.
  by apply put_member_builds.
Qed.
Lemma AppendBuilder_builds b fs k jb j :
  JsonBuilder.ToJson jb = render j →
  builds b fs → builds (JsonBuilder.AppendBuilder b k jb) (fs ++ [(k, j)]).
Proof.
  intros Hj H. unfold JsonBuilder.AppendBuilder. rewrite !put_put.
  by apply put_member_builds.
Qed.

Lemma AppendList_loop_spec acc jbs js :
  Forall2 (λ jb j, JsonBuilder.ToJson jb = render j) jbs js →
  JsonBuilder.ToJson (JsonBuilder.AppendList_loop acc jbs) =
  JsonBuilder.ToJson acc +:+ join "," (map render js).
Proof.
  intros H. revert acc. induction H as [|jb j jbs js Hj Hl IH]; intros acc.
  { cbn. by rewrite str_nil_r. }
  destruct Hl as [|jb' j' jbs' js' Hj' Hl'].
  - cbn. by rewrite <- Hj.
  - change (JsonBuilder.AppendList_loop acc (jb :: jb' :: jbs')) with
      (JsonBuilder.AppendList_loop (JsonBuilder.Append (JsonBuilder.Append acc (JsonBuilder.ToJson jb)) ",") (jb' :: jbs')).
    rewrite IH. cbn -[join]. rewrite Hj.
    change (join "," (render j :: render j' :: map render js')) with
      (render j +:+ "," +:+ join "," (render j' :: map render js')).
    by rewrite !str_assoc.
Qed.

Lemma AppendList_builds b fs k jbs js :
  Forall2 (λ jb j, JsonBuilder.ToJson jb = render j) jbs js →
  builds b fs →
  builds (JsonBuilder.AppendList b k jbs) (fs ++ if decide (js = []) then [] else [(k, JArr js)]).
Proof.
  intros Hl Hb. destruct Hl as [|jb j jbs js Hj Hl]; [by rewrite app_nil_r|].
  rewrite decide_False by done. apply AppendBuilder_builds; [|done].
  change (JsonBuilder.ToJson (JsonBuilder.AppendList_loop (JsonBuilder.Append JsonBuilder.new "[") (jb :: jbs)) +:+ "]" = render (JArr (j :: js))).
  rewrite (AppendList_loop_spec _ _ (j :: js)) by (by constructor).
  cbn [render]. by rewrite !str_assoc.
Qed.

Lemma builds_close b fs :
  builds b fs → JsonBuilder.ToJson (JsonBuilder.Append b "}") = render (JObj fs).
Proof.
  intros [Hb _]. rewrite render_obj. unfold JsonBuilder.Append, JsonBuilder.put, JsonBuilder.ToJson.
  cbn [JsonBuilder.builder_]. rewrite Hb. by rewrite !str_assoc.
Qed.

Create HintDb json discriminated.
#[export] Hint Constants Opaque : json.
#[export] Hint Resolve builds_new AppendInt32_builds AppendUint32_builds AppendInt64_builds
  AppendBool_builds AppendString_builds AppendRaw_builds AppendBuilder_builds
  AppendList_builds builds_close : json.
