(* ===== verification/Models.v ===== *)
(** * The data model of the update service

    The enumerations and structures of [interfaces/inner_api/feature/update/model]
    and [foundations/model], with their default values, their comparison
    operators and their printers [GetJsonBuilder].  There is one Module per C++
    type.  An enumeration whose values are cast from integers somewhere (read
    from a parcel or a database column) is a [Z] with named constants, because
    such a variable can hold any value of its underlying [int].

    The theorems show that the JSON text of an event is the print of a JSON
    object that has exactly the members the event's template selects. *)
From Stdlib Require Import ZArith Lia Ascii String.
From stdpp Require Import base tactics list strings gmap.
From S2P Require Import Prelude CppString StringUtils Json.

#[local] Open Scope Z_scope.

(** ** Enumerations *)

Module CallResult.
(*@* foundations/model/include/call_result.h CallResult *)
Definition APP_NOT_GRANTED : Z := 201.
Definition NOT_SYSTEM_APP : Z := 202.
Definition MDM_DISABLE_RESET : Z := 203.
Definition PARAM_ERR : Z := 401.
Definition UN_SUPPORT : Z := 801.
Definition SUCCESS : Z := 0.
Definition FAIL : Z := 100.
Definition DEV_UPG_INFO_ERR : Z := 102.
Definition FORBIDDEN : Z := 103.
Definition IPC_ERR : Z := 104.
Definition TIME_OUT : Z := 402.
Definition DB_ERROR : Z := 501.
Definition IO_ERROR : Z := 502.
Definition NET_ERROR : Z := 503.
Definition CANCEL_ERROR : Z := 504.
End CallResult.

Module NetType.
(*@* foundations/model/include/network_type.h NetType *)
Definition NO_NET : Z := 0.
Definition CELLULAR : Z := 1.
Definition METERED_WIFI : Z := 2.
Definition NOT_METERED_WIFI : Z := 4.
Definition CELLULAR_AND_METERED_WIFI : Z := Z.lor CELLULAR METERED_WIFI.
Definition CELLULAR_AND_NOT_METERED_WIFI : Z := Z.lor CELLULAR NOT_METERED_WIFI.
Definition WIFI : Z := Z.lor METERED_WIFI NOT_METERED_WIFI.
Definition CELLULAR_AND_WIFI : Z := Z.lor CELLULAR WIFI.
End NetType.

Module DeviceType.
(*@* foundations/model/include/update_device_type.h DeviceType *)
Definition UNKNOWN : Z := 0.
Definition SMART_PHONE : Z := 1.
Definition SMART_PAD : Z := 2.
Definition SMART_TV : Z := 4.
Definition TWS : Z := 6.
Definition KEYBOARD : Z := 7.
Definition PEN : Z := 8.
End DeviceType.

Module UpgradeStatus.
(*@* update/model/common/upgrade_status.h UpgradeStatus *)
Definition ERROR : Z := -1.
Definition INIT : Z := 0.
Definition CHECKING_VERSION : Z := 10.
Definition CHECK_VERSION_FAIL : Z := 11.
Definition CHECK_VERSION_SUCCESS : Z := 12.
Definition DOWNLOADING : Z := 20.
Definition DOWNLOAD_PAUSE : Z := 21.
Definition DOWNLOAD_CANCEL : Z := 22.
Definition DOWNLOAD_FAIL : Z := 23.
Definition DOWNLOAD_SUCCESS : Z := 24.
Definition VERIFYING : Z := 30.
Definition VERIFY_FAIL : Z := 31.
Definition VERIFY_SUCCESS : Z := 32.
Definition AUTHING : Z := 60.
Definition AUTH_FAIL : Z := 61.
Definition AUTH_SUCCESS : Z := 62.
Definition WAIT_TRANSFER : Z := 68.
Definition TRANSFER_START : Z := 69.
Definition PACKAGE_TRANSING : Z := 70.
Definition PACKAGE_TRANS_FAIL : Z := 71.
Definition PACKAGE_TRANS_SUCCESS : Z := 72.
Definition INSTALLING : Z := 80.
Definition INSTALL_FAIL : Z := 81.
Definition INSTALL_SUCCESS : Z := 82.
Definition INSTALL_PAUSE : Z := 83.
Definition UPDATING : Z := 90.
Definition UPDATE_FAIL : Z := 91.
Definition UPDATE_SUCCESS : Z := 92.
Definition UPGRADE_REBOOT : Z := 93.
Definition UPGRADE_COUNT_DOWN : Z := 100.
Definition UPGRADE_CANCEL : Z := 101.
End UpgradeStatus.

Module Order.
(*@* update/model/common/order.h Order *)
Definition DOWNLOAD : Z := 1.
Definition INSTALL : Z := 2.
Definition DOWNLOAD_AND_INSTALL : Z := Z.lor DOWNLOAD INSTALL.
Definition APPLY : Z := 4.
Definition INSTALL_AND_APPLY : Z := Z.lor INSTALL APPLY.
Definition TRANSFER : Z := 8.
Definition TRANSFER_AND_APPLY : Z := Z.lor TRANSFER APPLY.
End Order.

Module InstallMode.
(*@* update/model/install/install_mode.h InstallMode *)
Definition NORMAL : Z := 0.
Definition NIGHT : Z := 1.
Definition AUTO : Z := 2.
End InstallMode.

Module SearchStatus.
(*@* update/model/check/search_status.h SearchStatus *)
Definition NET_ERROR : Z := -2.
Definition SYSTEM_ERROR : Z := -1.
Definition HAS_NEW_VERSION : Z := 0.
Definition NO_NEW_VERSION : Z := 1.
Definition SERVER_BUSY : Z := 2.
Definition CHECK_EXECUTE_ERR : Z := 3.
End SearchStatus.

Module ComponentType.
(*@* update/model/version_info/component_type.h ComponentType *)
Definition INVALID : Z := 0.
Definition OTA : Z := 1.
Definition PATCH : Z := 2.
Definition COTA : Z := 4.
Definition PARAM : Z := 8.
Definition SA : Z := 16.
End ComponentType.

Module OtaMode.
(*@* update/model/version_info/ota_mode.h OtaMode *)
Definition REGULAR_OTA : Z := 0.
Definition STREAM_OTA : Z := 1.
Definition AB_REGULAR_OTA : Z := 2.
Definition AB_STREAM_OTA : Z := 3.
End OtaMode.

Module EffectiveMode.
(*@* update/model/version_info/effective_mode.h EffectiveMode *)
Definition COLD : Z := 1.
Definition LIVE : Z := 2.
Definition LIVE_AND_COLD : Z := 3.
End EffectiveMode.

Module DescriptionType.
(*@* version_info/description/description_type.h DescriptionType *)
Definition CONTENT : Z := 0.
Definition URI : Z := 1.
Definition ID : Z := 2.
End DescriptionType.

Module DescriptionFormat.
(*@* version_info/description/description_format.h DescriptionFormat *)
Definition STANDARD : Z := 0.
Definition SIMPLIFIED : Z := 1.
End DescriptionFormat.

Module PolicyType.
(*@* update/model/policy/enum_policy_type.h PolicyType *)
Definition DEFAULT : Z := 0.
Definition PROHIBIT : Z := 1.
Definition UPGRADE_TO_SPECIFIC_VERSION : Z := 2.
Definition WINDOWS : Z := 3.
Definition POSTPONE : Z := 4.
End PolicyType.

Module FactoryResetScope.
(*@* update/model/common/factory_reset_scope.h FactoryResetScope *)
Definition DATA : Z := 1.
Definition DATA_AND_OS : Z := 2.
End FactoryResetScope.

Module BusinessSubType.
(*@* update/model/upgrade_info/business_sub_type.h BusinessSubType *)
Definition START_UP : Z := 0.
Definition FIRMWARE : Z := 1.
Definition PARAM : Z := 2.
Definition ROLLBACK : Z := 3.
Definition ACCESSORY : Z := 4.
Definition ASSIST : Z := 5.
End BusinessSubType.

Module PackageType.
(*@* core/ability/model/include/package_type.h PackageType *)
Definition DYNAMIC : Z := 0.
Definition NORMAL : Z := 1.
Definition BASE : Z := 2.
Definition CUST : Z := 3.
Definition PRELOAD : Z := 4.
Definition COTA : Z := 5.
Definition VERSION : Z := 6.
Definition PATCH : Z := 8.
Definition SA : Z := 9.
End PackageType.

Module EventClassify.
(*@* update/model/event/event_classify.h EventClassify *)
Definition TASK : Z := 0x01000000.
Definition SYSTEM : Z := 0x02000000.
Definition COMMAND : Z := 0x04000000.
End EventClassify.

Module EventId.
(*@* update/model/event/event_id.h EventId *)
Definition EVENT_TASK_BASE : Z := EventClassify.TASK.
Definition EVENT_TASK_RECEIVE : Z := EVENT_TASK_BASE + 1.
Definition EVENT_TASK_CANCEL : Z := EVENT_TASK_BASE + 2.
Definition EVENT_DOWNLOAD_WAIT : Z := EVENT_TASK_BASE + 3.
Definition EVENT_DOWNLOAD_START : Z := EVENT_TASK_BASE + 4.
Definition EVENT_DOWNLOAD_UPDATE : Z := EVENT_TASK_BASE + 5.
Definition EVENT_DOWNLOAD_PAUSE : Z := EVENT_TASK_BASE + 6.
Definition EVENT_DOWNLOAD_RESUME : Z := EVENT_TASK_BASE + 7.
Definition EVENT_DOWNLOAD_SUCCESS : Z := EVENT_TASK_BASE + 8.
Definition EVENT_DOWNLOAD_FAIL : Z := EVENT_TASK_BASE + 9.
Definition EVENT_UPGRADE_WAIT : Z := EVENT_TASK_BASE + 10.
Definition EVENT_UPGRADE_START : Z := EVENT_TASK_BASE + 11.
Definition EVENT_UPGRADE_UPDATE : Z := EVENT_TASK_BASE + 12.
Definition EVENT_APPLY_WAIT : Z := EVENT_TASK_BASE + 13.
Definition EVENT_APPLY_START : Z := EVENT_TASK_BASE + 14.
Definition EVENT_UPGRADE_SUCCESS : Z := EVENT_TASK_BASE + 15.
Definition EVENT_UPGRADE_FAIL : Z := EVENT_TASK_BASE + 16.
Definition EVENT_UPGRADE_PAUSE : Z := EVENT_TASK_BASE + 17.
Definition EVENT_AUTH_START : Z := EVENT_TASK_BASE + 18.
Definition EVENT_AUTH_SUCCESS : Z := EVENT_TASK_BASE + 19.
Definition EVENT_DOWNLOAD_CANCEL : Z := EVENT_TASK_BASE + 20.
Definition EVENT_TASK_CHANGE : Z := EVENT_TASK_BASE + 21.
Definition EVENT_VERSION_INFO_CHANGE : Z := EVENT_TASK_BASE + 22.
Definition EVENT_TRANSFER_WAIT : Z := EVENT_TASK_BASE + 23.
Definition EVENT_TRANSFER_START : Z := EVENT_TASK_BASE + 24.
Definition EVENT_TRANSFERING : Z := EVENT_TASK_BASE + 25.
Definition EVENT_TRANSFER_SUCCESS : Z := EVENT_TASK_BASE + 26.
Definition EVENT_TRANSFER_FAIL : Z := EVENT_TASK_BASE + 27.
Definition SYSTEM_BASE : Z := EventClassify.SYSTEM.
Definition SYSTEM_BOOT_COMPLETE : Z := SYSTEM_BASE + 1.
Definition COMMAND_BASE : Z := EventClassify.COMMAND.
Definition EVENT_INITIALIZE : Z := COMMAND_BASE + 1.
End EventId.

(** ** Structures *)

Module ErrorMessage.
(*@ foundations/model/include/error_message.h ErrorMessage *)
Record t := { errorCode : Z; errorMessage : string }.
(*@ foundations/model/include/error_message.h ErrorMessage *)
Definition default : t := {| errorCode := 0; errorMessage := "" |}.
(*@ foundations/model/include/error_message.h ErrorMessage::GetJsonBuilder *)
Definition GetJsonBuilder (this : t) : JsonBuilder.t :=
  let b := JsonBuilder.Append JsonBuilder.new "{" in
  let b := JsonBuilder.AppendInt32 b "errorCode" (errorCode this) in
  let b := JsonBuilder.AppendString b "errorMessage" (errorMessage this) false in
  JsonBuilder.Append b "}".
End ErrorMessage.

Module BusinessError.
(*@ foundations/model/include/business_error.h BusinessError *)
Record t := { message : string; errorNum : Z; data : list ErrorMessage.t }.
(*@ foundations/model/include/business_error.h BusinessError *)
Definition default : t := {| message := ""; errorNum := CallResult.SUCCESS; data := [] |}.
(*@ foundations/model/include/business_error.h BusinessError::Build *)
Definition Build (this : t) (callResult : Z) (msg : string) : t :=
  {| message := msg; errorNum := callResult; data := data this |}.
(*@ foundations/model/include/business_error.h BusinessError::IsSuccess *)
Definition IsSuccess (this : t) : bool := errorNum this =? CallResult.SUCCESS.
(*@ foundations/model/include/business_error.h BusinessError::AddErrorMessage *)
Definition AddErrorMessage (this : t) (errorCode : Z) (errorMessage : string) : t :=
  {| message := message this; errorNum := errorNum this;
     data := data this ++ [{| ErrorMessage.errorCode := errorCode;
                              ErrorMessage.errorMessage := errorMessage |}] |}.
End BusinessError.

Module DescriptionInfo.
(*@ version_info/description/description_info.h DescriptionInfo *)
Record t := { descriptionType : Z; content : string }.
(*@ version_info/description/description_info.h DescriptionInfo *)
Definition default : t := {| descriptionType := DescriptionType.CONTENT; content := "" |}.
(*@ version_info/description/src/description_info.cpp DescriptionInfo::GetJsonBuilder *)
Definition GetJsonBuilder (this : t) : JsonBuilder.t :=
  let b := JsonBuilder.Append JsonBuilder.new "{" in
  let b := JsonBuilder.AppendInt32 b "descriptionType" (descriptionType this) in
  let b := JsonBuilder.AppendString b "content" (content this) false in
  JsonBuilder.Append b "}".
End DescriptionInfo.

Module VersionDigestInfo.
(*@ update/model/version_info/version_digest_info.h VersionDigestInfo *)
Record t := { versionDigest : string }.
(*@ update/model/version_info/version_digest_info.h VersionDigestInfo *)
Definition default : t := {| versionDigest := "" |}.
(*@ version_info/src/version_digest_info.cpp VersionDigestInfo::GetJsonBuilder *)
Definition GetJsonBuilder (this : t) : JsonBuilder.t :=
  let b := JsonBuilder.Append JsonBuilder.new "{" in
  let b := JsonBuilder.AppendString b "versionDigest" (versionDigest this) false in
  JsonBuilder.Append b "}".
End VersionDigestInfo.

Module VersionComponent.
(*@ update/model/version_info/version_component.h VersionComponent *)
Record t := {
  componentId : string;
  componentType : Z;
  upgradeAction : string;
  displayVersion : string;
  innerVersion : string;
  size : Z;
  effectiveMode : Z;
  otaMode : Z;
  descriptionInfo : DescriptionInfo.t;
  componentExtra : string
}.
(*@ update/model/version_info/version_component.h VersionComponent *)
Definition default : t := {|
  componentId := ""; componentType := ComponentType.INVALID; upgradeAction := "";
  displayVersion := ""; innerVersion := ""; size := 0; effectiveMode := EffectiveMode.COLD;
  otaMode := OtaMode.REGULAR_OTA; descriptionInfo := DescriptionInfo.default;
  componentExtra := "" |}.
(*@ version_info/src/version_component.cpp VersionComponent::GetJsonBuilder *)
Definition GetJsonBuilder (this : t) : JsonBuilder.t :=
  let b := JsonBuilder.Append JsonBuilder.new "{" in
  let b := JsonBuilder.AppendString b "componentId" (componentId this) false in
  let b := JsonBuilder.AppendInt32 b "componentType" (componentType this) in
  let b := JsonBuilder.AppendString b "upgradeAction" (upgradeAction this) false in
  let b := JsonBuilder.AppendString b "displayVersion" (displayVersion this) false in
  let b := JsonBuilder.AppendString b "innerVersion" (innerVersion this) false in
  let b := JsonBuilder.AppendInt64 b "size" (to_int64 (size this)) in
  let b := JsonBuilder.AppendInt32 b "effectiveMode" (to_int32 (effectiveMode this)) in
  let b := JsonBuilder.AppendInt32 b "otaMode" (to_int32 (otaMode this)) in
  let b := JsonBuilder.AppendBuilder b "descriptionInfo"
             (DescriptionInfo.GetJsonBuilder (descriptionInfo this)) in
  let b := JsonBuilder.AppendString b "componentExtra" (componentExtra this) true in
  JsonBuilder.Append b "}".
End VersionComponent.

Module ComponentDescription.
(*@ version_info/description/component_description.h ComponentDescription *)
Record t := {
  componentId : string;
  descriptionInfo : DescriptionInfo.t;
  notifyDescriptionInfo : DescriptionInfo.t
}.
(*@ version_info/description/component_description.h ComponentDescription *)
Definition default : t := {|
  componentId := ""; descriptionInfo := DescriptionInfo.default;
  notifyDescriptionInfo := DescriptionInfo.default |}.
End ComponentDescription.

Module VersionDescriptionInfo.
(*@ version_info/description/version_description_info.h VersionDescriptionInfo *)
Record t := { componentDescriptions : list ComponentDescription.t }.
(*@ version_info/description/version_description_info.h VersionDescriptionInfo *)
Definition default : t := {| componentDescriptions := [] |}.
End VersionDescriptionInfo.

Module DescriptionOptions.
(*@ version_info/description/description_options.h DescriptionOptions *)
Record t := { format : Z; language : string }.
(*@ version_info/description/description_options.h DescriptionOptions *)
Definition default : t := {| format := DescriptionFormat.STANDARD; language := "" |}.
End DescriptionOptions.

Module CurrentVersionInfo.
(*@ version_info/current_version/current_version_info.h CurrentVersionInfo *)
Record t := {
  osVersion : string; deviceName : string; versionComponents : list VersionComponent.t }.
(*@ version_info/current_version/current_version_info.h CurrentVersionInfo *)
Definition default : t := {| osVersion := ""; deviceName := ""; versionComponents := [] |}.
End CurrentVersionInfo.

Module NewVersionInfo.
(*@ version_info/new_version/new_version_info.h NewVersionInfo *)
Record t := {
  versionDigestInfo : VersionDigestInfo.t; versionComponents : list VersionComponent.t }.
(*@ version_info/new_version/new_version_info.h NewVersionInfo *)
Definition default : t :=
  {| versionDigestInfo := VersionDigestInfo.default; versionComponents := [] |}.
End NewVersionInfo.

Module CheckResult.
(*@ update/model/check/check_result.h CheckResult *)
Record t := { isExistNewVersion : bool; newVersionInfo : NewVersionInfo.t }.
(*@ update/model/check/check_result.h CheckResult *)
Definition default : t :=
  {| isExistNewVersion := false; newVersionInfo := NewVersionInfo.default |}.
End CheckResult.

Module TaskBodyMemberMask.
(*@* update/model/task/task_body_member_mask.h TaskBodyMemberMask *)
Definition VERSION_DIGEST_INFO : Z := 0x00000001.
Definition UPGRADE_STATUS : Z := 0x00000010.
Definition SUB_STATUS : Z := 0x00000100.
Definition PROGRESS : Z := 0x00001000.
Definition INSTALL_MODE : Z := 0x00010000.
Definition ERROR_MESSAGE : Z := 0x00100000.
Definition VERSION_COMPONENT : Z := 0x01000000.

(** The bitwise or of several masks. *)
Definition ors (l : list Z) : Z := fold_left Z.lor l 0.

(*@ update/model/task/task_body_member_mask.h g_taskBodyTemplateMap *)
Definition g_taskBodyTemplateMap : gmap Z Z := list_to_map [
  (EventId.EVENT_TASK_RECEIVE, VERSION_DIGEST_INFO);
  (EventId.EVENT_TASK_CHANGE, ors [VERSION_DIGEST_INFO; UPGRADE_STATUS; PROGRESS]);
  (EventId.EVENT_TASK_CANCEL, VERSION_DIGEST_INFO);
  (EventId.EVENT_VERSION_INFO_CHANGE, ors [VERSION_DIGEST_INFO; UPGRADE_STATUS]);
  (EventId.EVENT_DOWNLOAD_WAIT, ors [VERSION_DIGEST_INFO; UPGRADE_STATUS; INSTALL_MODE]);
  (EventId.EVENT_DOWNLOAD_START, ors [VERSION_DIGEST_INFO; INSTALL_MODE]);
  (EventId.EVENT_DOWNLOAD_UPDATE,
    ors [VERSION_DIGEST_INFO; UPGRADE_STATUS; PROGRESS; INSTALL_MODE; SUB_STATUS]);
  (EventId.EVENT_DOWNLOAD_PAUSE,
    ors [VERSION_DIGEST_INFO; UPGRADE_STATUS; PROGRESS; INSTALL_MODE; ERROR_MESSAGE]);
  (EventId.EVENT_DOWNLOAD_RESUME,
    ors [VERSION_DIGEST_INFO; UPGRADE_STATUS; PROGRESS; INSTALL_MODE]);
  (EventId.EVENT_DOWNLOAD_SUCCESS, ors [VERSION_DIGEST_INFO; INSTALL_MODE; SUB_STATUS]);
  (EventId.EVENT_DOWNLOAD_CANCEL, ors [VERSION_DIGEST_INFO; UPGRADE_STATUS]);
  (EventId.EVENT_DOWNLOAD_FAIL,
    ors [VERSION_DIGEST_INFO; INSTALL_MODE; ERROR_MESSAGE; SUB_STATUS]);
  (EventId.EVENT_TRANSFER_WAIT,
    ors [VERSION_DIGEST_INFO; UPGRADE_STATUS; INSTALL_MODE; SUB_STATUS]);
  (EventId.EVENT_TRANSFER_START, ors [VERSION_DIGEST_INFO; INSTALL_MODE]);
  (EventId.EVENT_TRANSFERING,
    ors [VERSION_DIGEST_INFO; UPGRADE_STATUS; PROGRESS; INSTALL_MODE; SUB_STATUS]);
  (EventId.EVENT_TRANSFER_SUCCESS, ors [VERSION_DIGEST_INFO; INSTALL_MODE]);
  (EventId.EVENT_TRANSFER_FAIL, ors [VERSION_DIGEST_INFO; ERROR_MESSAGE; INSTALL_MODE]);
  (EventId.EVENT_UPGRADE_WAIT,
    ors [VERSION_DIGEST_INFO; UPGRADE_STATUS; INSTALL_MODE; ERROR_MESSAGE; SUB_STATUS]);
  (EventId.EVENT_UPGRADE_START, ors [VERSION_DIGEST_INFO; UPGRADE_STATUS; INSTALL_MODE]);
  (EventId.EVENT_UPGRADE_UPDATE,
    ors [VERSION_DIGEST_INFO; UPGRADE_STATUS; PROGRESS; INSTALL_MODE]);
  (EventId.EVENT_APPLY_WAIT, ors [VERSION_DIGEST_INFO; UPGRADE_STATUS; ERROR_MESSAGE]);
  (EventId.EVENT_APPLY_START, VERSION_DIGEST_INFO);
  (EventId.EVENT_UPGRADE_SUCCESS, ors [VERSION_DIGEST_INFO; VERSION_COMPONENT; SUB_STATUS]);
  (EventId.EVENT_UPGRADE_FAIL, ors [VERSION_DIGEST_INFO; VERSION_COMPONENT; ERROR_MESSAGE]);
  (EventId.EVENT_UPGRADE_PAUSE,
    ors [VERSION_DIGEST_INFO; UPGRADE_STATUS; PROGRESS; ERROR_MESSAGE]);
  (EventId.EVENT_AUTH_START, ors [VERSION_DIGEST_INFO; VERSION_COMPONENT; UPGRADE_STATUS]);
  (EventId.EVENT_AUTH_SUCCESS, ors [VERSION_DIGEST_INFO; VERSION_COMPONENT; UPGRADE_STATUS]);
  (EventId.EVENT_INITIALIZE, UPGRADE_STATUS)].
End TaskBodyMemberMask.

Module TaskBody.
Import TaskBodyMemberMask.
(*@ update/model/task/task_body.h TaskBody *)
Record t := {
  versionDigestInfo : VersionDigestInfo.t;
  status : Z;
  subStatus : Z;
  progress : Z;
  installMode : Z;
  errorMessages : list ErrorMessage.t;
  versionComponents : list VersionComponent.t
}.
(*@ update/model/task/task_body.h TaskBody *)
Definition default : t := {|
  versionDigestInfo := VersionDigestInfo.default; status := UpgradeStatus.INIT;
  subStatus := UpgradeStatus.INIT; progress := 0; installMode := InstallMode.NORMAL;
  errorMessages := []; versionComponents := [] |}.

(*@ update/model/task/src/task_body.cpp GetArrayJsonBuilderList *)
Definition GetArrayJsonBuilderList {T} (GetJsonBuilder : T → JsonBuilder.t)
    (valueList : list T) : list JsonBuilder.t := map GetJsonBuilder valueList.

(** [if (template & mask) builder.Append(...)] *)
Definition append_if (taskBodyTemplate mask : Z) (f : JsonBuilder.t → JsonBuilder.t)
    (b : JsonBuilder.t) : JsonBuilder.t :=
  if negb (Z.land taskBodyTemplate mask =? 0) then f b else b.

(*@ update/model/task/src/task_body.cpp TaskBody::GetJsonBuilder *)
Definition GetJsonBuilder (this : t) (eventId : Z) : JsonBuilder.t :=
  let b := JsonBuilder.new in
  match g_taskBodyTemplateMap !! eventId with
  | None => b
  | Some taskBodyTemplate =>
      let b := JsonBuilder.Append b "{" in
      let b := append_if taskBodyTemplate VERSION_DIGEST_INFO (λ b,
        JsonBuilder.AppendBuilder b "versionDigestInfo"
          (VersionDigestInfo.GetJsonBuilder (versionDigestInfo this))) b in
      let b := append_if taskBodyTemplate UPGRADE_STATUS (λ b,
        JsonBuilder.AppendInt32 b "status" (status this)) b in
      let b := append_if taskBodyTemplate SUB_STATUS (λ b,
        JsonBuilder.AppendInt32 b "subStatus" (subStatus this)) b in
      let b := append_if taskBodyTemplate PROGRESS (λ b,
        JsonBuilder.AppendInt32 b "progress" (progress this)) b in
      let b := append_if taskBodyTemplate INSTALL_MODE (λ b,
        JsonBuilder.AppendInt32 b "installMode" (installMode this)) b in
      let b := append_if taskBodyTemplate ERROR_MESSAGE (λ b,
        JsonBuilder.AppendList b "errorMessages"
          (GetArrayJsonBuilderList ErrorMessage.GetJsonBuilder (errorMessages this))) b in
      let b := append_if taskBodyTemplate VERSION_COMPONENT (λ b,
        JsonBuilder.AppendList b "versionComponents"
          (GetArrayJsonBuilderList VersionComponent.GetJsonBuilder (versionComponents this))) b in
      JsonBuilder.Append b "}"
  end.
End TaskBody.

Module TaskInfo.
(*@ update/model/task/task_info.h TaskInfo *)
Record t := { existTask : bool; taskBody : TaskBody.t }.
(*@ update/model/task/task_info.h TaskInfo *)
Definition default : t := {| existTask := false; taskBody := TaskBody.default |}.
End TaskInfo.

Module EventInfo.
(*@ update/model/event/event_info.h EventInfo *)
Record t := { eventId : Z; taskBody : TaskBody.t }.
(*@ update/model/event/event_info.h EventInfo *)
Definition default : t :=
  {| eventId := EventId.EVENT_TASK_BASE; taskBody := TaskBody.default |}.
(*@ update/model/event/src/event_info.cpp EventInfo::GetJsonBuilder *)
Definition GetJsonBuilder (this : t) : JsonBuilder.t :=
  let b := JsonBuilder.Append JsonBuilder.new "{" in
  let b := JsonBuilder.AppendInt32 b "eventId" (eventId this) in
  let b := JsonBuilder.AppendBuilder b "taskBody"
             (TaskBody.GetJsonBuilder (taskBody this) (eventId this)) in
  JsonBuilder.Append b "}".
(*@ update/model/common/base_json_struct.h ToJson *)
Definition ToJson (this : t) : string := JsonBuilder.ToJson (GetJsonBuilder this).
End EventInfo.

Module UpgradePeriod.
(*@ update/model/policy/upgrade_period.h UpgradePeriod *)
Record t := { start : Z; end_ : Z }.
(*@ update/model/policy/upgrade_period.h UpgradePeriod *)
Definition default : t := {| start := 0; end_ := 0 |}.
End UpgradePeriod.

Module UpgradePolicy.
(** [UpgradePeriod autoUpgradePeriods[2]] is the pair of its two elements. *)
(*@ update/model/policy/upgrade_policy.h UpgradePolicy *)
Record t := {
  downloadStrategy : bool;
  autoUpgradeStrategy : bool;
  autoUpgradePeriods : UpgradePeriod.t * UpgradePeriod.t;
  customPolicyType : Z
}.
(*@ update/model/policy/upgrade_policy.h UpgradePolicy *)
Definition default : t := {|
  downloadStrategy := false; autoUpgradeStrategy := false;
  autoUpgradePeriods := (UpgradePeriod.default, UpgradePeriod.default);
  customPolicyType := PolicyType.DEFAULT |}.
End UpgradePolicy.

Module ClearOptions.
(*@ update/model/clear/clear_options.h ClearOptions *)
Record t := { status : Z }.
(*@ update/model/clear/clear_options.h ClearOptions *)
Definition default : t := {| status := UpgradeStatus.INIT |}.
End ClearOptions.

Module UpgradeOptions.
(*@ update/model/upgrade/upgrade_options.h UpgradeOptions *)
Record t := { order : Z }.
(*@ update/model/upgrade/upgrade_options.h UpgradeOptions *)
Definition default : t := {| order := Order.INSTALL |}.
End UpgradeOptions.

Module DownloadOptions.
(*@ update/model/download/download_options.h DownloadOptions *)
Record t := { allowNetwork : Z; order : Z }.
(*@ update/model/download/download_options.h DownloadOptions *)
Definition default : t := {| allowNetwork := NetType.WIFI; order := Order.DOWNLOAD |}.
End DownloadOptions.

Module PauseDownloadOptions.
(*@ update/model/download/pause_download_options.h PauseDownloadOptions *)
Record t := { isAllowAutoResume : bool }.
(*@ update/model/download/pause_download_options.h PauseDownloadOptions *)
Definition default : t := {| isAllowAutoResume := false |}.
End PauseDownloadOptions.

Module ResumeDownloadOptions.
(*@ update/model/download/resume_download_options.h ResumeDownloadOptions *)
Record t := { allowNetwork : Z }.
(*@ update/model/download/resume_download_options.h ResumeDownloadOptions *)
Definition default : t := {| allowNetwork := NetType.WIFI |}.
End ResumeDownloadOptions.

Module FactoryResetInfo.
(*@ update/model/upgrade/factory_reset_info.h FactoryResetInfo *)
Record t := { duration : Z }.
(*@ update/model/upgrade/factory_reset_info.h FactoryResetInfo *)
Definition default : t := {| duration := 0 |}.
End FactoryResetInfo.

Module FactoryResetStrategy.
(*@ update/model/upgrade/factory_reset_strategy.h FactoryResetStrategy *)
Record t := { scope : Z; strategy : string }.
(*@ update/model/upgrade/factory_reset_strategy.h FactoryResetStrategy *)
Definition default : t := {| scope := FactoryResetScope.DATA; strategy := "" |}.
End FactoryResetStrategy.

Module Progress.
(*@ update/model/common/progress.h Progress *)
Record t := { percent : Z; status : Z; endReason : string }.
(*@ update/model/common/progress.h Progress *)
Definition default : t := {| percent := 0; status := UpgradeStatus.INIT; endReason := "" |}.
(*@ update/model/common/progress.h IsDownloadFinished *)
Definition IsDownloadFinished (this : t) : bool :=
  (status this =? UpgradeStatus.DOWNLOAD_PAUSE) || (status this =? UpgradeStatus.DOWNLOAD_CANCEL) ||
  (status this =? UpgradeStatus.DOWNLOAD_FAIL) || (status this =? UpgradeStatus.DOWNLOAD_SUCCESS).
End Progress.

Module BusinessType.
(*@ update/model/upgrade_info/business_type.h BusinessType *)
Record t := { vendor : string; subType : Z }.
(*@ update/model/upgrade_info/business_type.h BusinessType *)
Definition default : t := {| vendor := ""; subType := BusinessSubType.FIRMWARE |}.
(*@ update/model/upgrade_info/business_type.h operator< *)
Definition lt (this businessType : t) : bool :=
  if negb (vendor this =? vendor businessType)%string then
    (vendor this <? vendor businessType)%string
  else if negb (subType this =? subType businessType) then
    subType this <? subType businessType
  else false.
(*@ update/model/upgrade_info/business_type.h operator!= *)
Definition ne (this businessType : t) : bool :=
  negb (vendor this =? vendor businessType)%string || negb (subType this =? subType businessType).
(*@ update/model/upgrade_info/src/business_type.cpp BusinessType::GetJsonBuilder *)
Definition GetJsonBuilder (this : t) : JsonBuilder.t :=
  let b := JsonBuilder.Append JsonBuilder.new "{" in
  let b := JsonBuilder.AppendString b "vendor" (vendor this) false in
  let b := JsonBuilder.AppendInt32 b "subType" (subType this) in
  JsonBuilder.Append b "}".
End BusinessType.

Module UpgradeInfo.
(*@ update/model/upgrade_info/upgrade_info.h LOCAL_UPGRADE_INFO *)
Definition LOCAL_UPGRADE_INFO : string := "LocalUpgradeInfo".
(*@ update/model/upgrade_info/upgrade_info.h UpgradeInfo *)
Record t := {
  upgradeApp : string;
  businessType : BusinessType.t;
  upgradeDevId : string;
  controlDevId : string;
  processId : Z;
  deviceType : Z
}.
(*@ update/model/upgrade_info/upgrade_info.h UpgradeInfo *)
Definition default : t := {|
  upgradeApp := ""; businessType := BusinessType.default; upgradeDevId := "";
  controlDevId := ""; processId := 0; deviceType := DeviceType.UNKNOWN |}.
(*@ update/model/upgrade_info/upgrade_info.h operator< *)
Definition lt (this other : t) : bool :=
  if negb (upgradeApp this =? upgradeApp other)%string then
    (upgradeApp this <? upgradeApp other)%string
  else if BusinessType.ne (businessType this) (businessType other) then
    BusinessType.lt (businessType this) (businessType other)
  else if negb (upgradeDevId this =? upgradeDevId other)%string then
    (upgradeDevId this <? upgradeDevId other)%string
  else if negb (controlDevId this =? controlDevId other)%string then
    (controlDevId this <? controlDevId other)%string
  else if negb (processId this =? processId other) then processId this <? processId other
  else if negb (deviceType this =? deviceType other) then deviceType this <? deviceType other
  else false.
(*@ update/model/upgrade_info/src/upgrade_info.cpp UpgradeInfo::ToString *)
Definition ToString (this : t) : string :=
  let output := "upgradeApp:" +:+ upgradeApp this in
  let output := output +:+ ",businessType(vender:" +:+ BusinessType.vendor (businessType this) in
  let output := output +:+ ",subType:" +:+ to_string (BusinessType.subType (businessType this)) in
  let output := output +:+ "),upgradeDevId:" +:+ AnonymousUtils.AnonymousString (upgradeDevId this) in
  output +:+ ",controlDevId:" +:+ AnonymousUtils.AnonymousString (controlDevId this).
(*@ update/model/upgrade_info/upgrade_info.h IsLocal *)
Definition IsLocal (this : t) : bool := (upgradeApp this =? LOCAL_UPGRADE_INFO)%string.
End UpgradeInfo.

Module SubscribeInfo.
(*@ update/model/subscribe/subscribe_info.h UPDATE_APP_PACKAGE_NAME *)
Definition UPDATE_APP_PACKAGE_NAME : string := "com.ohos.updateapp".
(*@ update/model/subscribe/subscribe_info.h SubscribeInfo *)
Record t := {
  upgradeApp : string;
  businessType : BusinessType.t;
  abilityName : string;
  subscriberDevId : string;
  upgradeDevId : string;
  deviceType : Z;
  deviceName : string
}.
(*@ update/model/subscribe/subscribe_info.h SubscribeInfo *)
Definition default : t := {|
  upgradeApp := UPDATE_APP_PACKAGE_NAME; businessType := BusinessType.default;
  abilityName := ""; subscriberDevId := ""; upgradeDevId := "";
  deviceType := DeviceType.UNKNOWN; deviceName := "" |}.
(*@ update/model/subscribe/src/subscribe_info.cpp SubscribeInfo::GetJsonBuilder *)
Definition GetJsonBuilder (this : t) : JsonBuilder.t :=
  let b := JsonBuilder.Append JsonBuilder.new "{" in
  let b := JsonBuilder.AppendString b "upgradeApp" (upgradeApp this) false in
  let b := JsonBuilder.AppendBuilder b "businessType" (BusinessType.GetJsonBuilder (businessType this)) in
  let b := JsonBuilder.AppendString b "abilityName" (abilityName this) false in
  let b := JsonBuilder.AppendString b "subscriberDevId" (subscriberDevId this) false in
  let b := JsonBuilder.AppendString b "upgradeDevId" (upgradeDevId this) false in
  let b := JsonBuilder.AppendInt32 b "deviceType" (deviceType this) in
  let b := JsonBuilder.AppendString b "deviceName" (deviceName this) false in
  JsonBuilder.Append b "}".
End SubscribeInfo.

(** ** What the printers print

    The JSON value each structure stands for; [event_json] is [None] for an
    event without a template. *)
Definition error_message_json (e : ErrorMessage.t) : Json :=
  JObj [("errorCode", JNum (ErrorMessage.errorCode e));
        ("errorMessage", JStr (ErrorMessage.errorMessage e))].
Definition description_json (d : DescriptionInfo.t) : Json :=
  JObj [("descriptionType", JNum (DescriptionInfo.descriptionType d));
        ("content", JStr (DescriptionInfo.content d))].
Definition digest_json (d : VersionDigestInfo.t) : Json :=
  JObj [("versionDigest", JStr (VersionDigestInfo.versionDigest d))].
Definition component_json (c : VersionComponent.t) : Json :=
  JObj [("componentId", JStr (VersionComponent.componentId c));
        ("componentType", JNum (VersionComponent.componentType c));
        ("upgradeAction", JStr (VersionComponent.upgradeAction c));
        ("displayVersion", JStr (VersionComponent.displayVersion c));
        ("innerVersion", JStr (VersionComponent.innerVersion c));
        ("size", JNum (to_int64 (VersionComponent.size c)));
        ("effectiveMode", JNum (to_int32 (VersionComponent.effectiveMode c)));
        ("otaMode", JNum (to_int32 (VersionComponent.otaMode c)));
        ("descriptionInfo", description_json (VersionComponent.descriptionInfo c));
        ("componentExtra", JRaw (VersionComponent.componentExtra c))].

(** A list member is left out when the list is empty. *)
Definition list_member (k : string) (js : list Json) : list (string * Json) :=
  if decide (js = []) then [] else [(k, JArr js)].

Section task_body_json.
Import TaskBodyMemberMask.

(** The members of a task body in the order they are printed, each with the
    mask that selects it. *)
Definition task_body_fields (b : TaskBody.t) : list (Z * list (string * Json)) := [
  (VERSION_DIGEST_INFO, [("versionDigestInfo", digest_json (TaskBody.versionDigestInfo b))]);
  (UPGRADE_STATUS, [("status", JNum (TaskBody.status b))]);
  (SUB_STATUS, [("subStatus", JNum (TaskBody.subStatus b))]);
  (PROGRESS, [("progress", JNum (TaskBody.progress b))]);
  (INSTALL_MODE, [("installMode", JNum (TaskBody.installMode b))]);
  (ERROR_MESSAGE, list_member "errorMessages" (map error_message_json (TaskBody.errorMessages b)));
  (VERSION_COMPONENT, list_member "versionComponents" (map component_json (TaskBody.versionComponents b)))].

Definition selected (template : Z) (f : Z * list (string * Json)) : list (string * Json) :=
  if negb (Z.land template f.1 =? 0) then f.2 else [].

Definition task_body_json (template : Z) (b : TaskBody.t) : Json :=
  JObj (concat (map (selected template) (task_body_fields b))).
End task_body_json.

Definition event_json (e : EventInfo.t) : option Json :=
  template ← TaskBodyMemberMask.g_taskBodyTemplateMap !! EventInfo.eventId e;
  Some (JObj [("eventId", JNum (EventInfo.eventId e));
              ("taskBody", task_body_json template (EventInfo.taskBody e))]).

(** Follow a chain of [Append] calls to the object it prints. *)
Lemma builds_closed b fs fs' :
  builds b fs → fs = fs' → JsonBuilder.ToJson (JsonBuilder.Append b "}") = render (JObj fs').
Proof. intros H <-. by apply builds_close. Qed.
Ltac builds := eapply builds_closed; [eauto 20 with json | reflexivity].

Lemma error_message_prints e :
  JsonBuilder.ToJson (ErrorMessage.GetJsonBuilder e) = render (error_message_json e).
Proof. unfold ErrorMessage.GetJsonBuilder. builds. Qed.
Lemma description_prints d :
  JsonBuilder.ToJson (DescriptionInfo.GetJsonBuilder d) = render (description_json d).
Proof. unfold DescriptionInfo.GetJsonBuilder. builds. Qed.
Lemma digest_prints d :
  JsonBuilder.ToJson (VersionDigestInfo.GetJsonBuilder d) = render (digest_json d).
Proof. unfold VersionDigestInfo.GetJsonBuilder. builds. Qed.
#[export] Hint Resolve error_message_prints description_prints digest_prints : json.
Lemma component_prints c :
  JsonBuilder.ToJson (VersionComponent.GetJsonBuilder c) = render (component_json c).
Proof. unfold VersionComponent.GetJsonBuilder. builds. Qed.
#[export] Hint Resolve component_prints : json.

Lemma prints_map {T} (f : T → JsonBuilder.t) (g : T → Json) l :
  (∀ x, JsonBuilder.ToJson (f x) = render (g x)) →
  Forall2 (λ jb j, JsonBuilder.ToJson jb = render j) (map f l) (map g l).
Proof. intros H. induction l; constructor; auto. Qed.
#[export] Hint Resolve prints_map : json.

Lemma append_if_builds template mask f b fs new :
  builds b fs → (builds b fs → builds (f b) (fs ++ new)) →
  builds (TaskBody.append_if template mask f b) (fs ++ selected template (mask, new)).
Proof.
  intros Hb Hf. unfold TaskBody.append_if, selected. cbn [fst snd].
  destruct (negb _); [auto|]. by rewrite app_nil_r.
Qed.

Lemma task_body_prints b eventId template :
  TaskBodyMemberMask.g_taskBodyTemplateMap !! eventId = Some template →
  JsonBuilder.ToJson (TaskBody.GetJsonBuilder b eventId) = render (task_body_json template b).
Proof.
  intros H. unfold TaskBody.GetJsonBuilder. rewrite H. eapply builds_closed.
  - repeat (eapply append_if_builds; [|
      first [ apply AppendInt32_builds
            | apply AppendBuilder_builds, digest_prints
            | apply AppendList_builds, prints_map; auto with json ]]).
    apply builds_new.
  - cbn [task_body_fields map concat app]. by rewrite <- !app_assoc, app_nil_r.
Qed.

(** The text of an event is the print of the JSON object whose task body
    has exactly the members the event's template selects, in a fixed order;
    for an event without a template the task body is empty text, so the result
    is not JSON. *)
Theorem EventInfo_ToJson_correct e :
  match event_json e with
  | Some j => EventInfo.ToJson e = render j
  | None => EventInfo.ToJson e =
      render (JObj [("eventId", JNum (EventInfo.eventId e)); ("taskBody", JRaw "")])
  end.
Proof.
  unfold event_json, EventInfo.ToJson, EventInfo.GetJsonBuilder.
  destruct (TaskBodyMemberMask.g_taskBodyTemplateMap !! EventInfo.eventId e) as [template|] eqn:E; cbn [mbind option_bind].
  - pose proof (task_body_prints (EventInfo.taskBody e) _ _ E). builds.
  - assert (JsonBuilder.ToJson (TaskBody.GetJsonBuilder (EventInfo.taskBody e) (EventInfo.eventId e)) = render (JRaw "")).
    { unfold TaskBody.GetJsonBuilder. by rewrite E. }
    builds.
Qed.

(** The members an event prints, read off the template map. *)
Example download_success_members :
  EventInfo.ToJson {| EventInfo.eventId := EventId.EVENT_DOWNLOAD_CANCEL;
                      EventInfo.taskBody := TaskBody.default |} =
  render (JObj [("eventId", JNum 16777236);
    ("taskBody", JObj [("versionDigestInfo", JObj [("versionDigest", JStr "")]);
                       ("status", JNum 0)])]).
Proof. vm_compute. reflexivity. Qed.

(** ** The order on UpgradeInfo

    [std::map] needs a strict order in which two keys are equivalent only when
    neither is less than the other.  [operator<] compares field after field. *)
Definition strict_total {A} (lt : A → A → bool) : Prop :=
  (∀ a, lt a a = false) ∧
  (∀ a b c, lt a b = true → lt b c = true → lt a c = true) ∧
  (∀ a b, a = b ∨ lt a b = true ∨ lt b a = true).

Definition lex {A B} (eqa : A → A → bool) (lta : A → A → bool) (ltb : B → B → bool)
    (p q : A * B) : bool :=
  if negb (eqa p.1 q.1) then lta p.1 q.1 else ltb p.2 q.2.

Lemma lex_strict_total {A B} (eqa lta : A → A → bool) (ltb : B → B → bool) :
  (∀ a b, eqa a b = true ↔ a = b) →
  strict_total lta → strict_total ltb → strict_total (lex eqa lta ltb).
Proof.
  intros Heq (Hia & Hta & Htoa) (Hib & Htb & Htob).
  assert (∀ a, eqa a a = true) as Hr by (intros; by apply Heq).
  unfold lex. split; [|split].
  - intros [a b]. cbn. by rewrite Hr, Hib.
  - intros [a b] [c d] [e f]. cbn.
    destruct (eqa a c) eqn:E1, (eqa c e) eqn:E2; cbn;
      repeat match goal with H : eqa _ _ = true |- _ => apply Heq in H; subst end;
      rewrite ?Hr, ?E1, ?E2; cbn; eauto.
    destruct (eqa a e) eqn:E3; cbn; [apply Heq in E3; subst e|eauto].
    intros H1 H2. pose proof (Hta _ _ _ H1 H2) as H3. by rewrite Hia in H3.
  - intros [a b] [c d]. cbn. destruct (eqa a c) eqn:E1.
    + apply Heq in E1; subst c. rewrite Hr. cbn. destruct (Htob b d) as [->|[|]]; auto.
    + assert (eqa c a = false) as E2.
      { destruct (eqa c a) eqn:E2; [|done]. apply Heq in E2; subst. by rewrite Hr in E1. }
      rewrite E2. cbn. destruct (Htoa a c) as [->|[|]]; auto. by rewrite Hr in E1.
Qed.

Lemma Zltb_strict_total : strict_total Z.ltb.
Proof. split; [|split]; intros; rewrite ?Z.ltb_lt in *; lia. Qed.

Lemma ascii_compare_trans a b c :
  Ascii.compare a b = Lt → Ascii.compare b c = Lt → Ascii.compare a c = Lt.
Proof. unfold Ascii.compare. rewrite !N.compare_lt_iff. lia. Qed.

Lemma ascii_compare_refl a : Ascii.compare a a = Eq.
Proof. apply N.compare_refl. Qed.

Lemma string_compare_refl s : String.compare s s = Eq.
Proof. induction s as [|a s IH]; cbn; [done|]. by rewrite ascii_compare_refl. Qed.

Lemma string_compare_trans s t u :
  String.compare s t = Lt → String.compare t u = Lt → String.compare s u = Lt.
Proof.
  revert t u. induction s as [|a s IH]; intros [|b t] [|c u]; cbn; try done.
  destruct (Ascii.compare a b) eqn:E1, (Ascii.compare b c) eqn:E2; try done.
  - apply Ascii.compare_eq_iff in E1, E2. subst. rewrite ascii_compare_refl. eauto.
  - apply Ascii.compare_eq_iff in E1. subst. by rewrite E2.
  - apply Ascii.compare_eq_iff in E2. subst. by rewrite E1.
  - by rewrite (ascii_compare_trans _ _ _ E1 E2).
Qed.

Lemma string_ltb_strict_total : strict_total String.ltb.
Proof.
  split; [|split].
  - intros s. unfold String.ltb. by rewrite string_compare_refl.
  - unfold String.ltb. intros s t u.
    destruct (String.compare s t) eqn:E1; try done. destruct (String.compare t u) eqn:E2; try done.
    by rewrite (string_compare_trans _ _ _ E1 E2).
  - intros s t. unfold String.ltb. rewrite (String.compare_antisym t s).
    destruct (String.compare s t) eqn:E; cbn; auto. by apply String.compare_eq_iff in E; auto.
Qed.

(** The fields of an [UpgradeInfo], in the order they are compared. *)
Definition upgrade_info_key (u : UpgradeInfo.t) : string * ((string * Z) * (string * (string * (Z * Z)))) :=
  (UpgradeInfo.upgradeApp u,
   ((BusinessType.vendor (UpgradeInfo.businessType u), BusinessType.subType (UpgradeInfo.businessType u)),
    (UpgradeInfo.upgradeDevId u,
     (UpgradeInfo.controlDevId u, (UpgradeInfo.processId u, UpgradeInfo.deviceType u))))).

Definition key_lt :=
  lex String.eqb String.ltb
    (lex (λ p q : string * Z, negb (BusinessType.ne (BusinessType.Build_t p.1 p.2) (BusinessType.Build_t q.1 q.2)))
       (lex String.eqb String.ltb Z.ltb)
       (lex String.eqb String.ltb (lex String.eqb String.ltb (lex Z.eqb Z.ltb Z.ltb)))).

Lemma key_lt_strict_total : strict_total key_lt.
Proof.
  unfold key_lt.
  repeat first
    [ apply string_ltb_strict_total | apply Zltb_strict_total
    | apply lex_strict_total; [first [apply String.eqb_eq | apply Z.eqb_eq | idtac]| |] ].
  intros [v1 s1] [v2 s2]. unfold BusinessType.ne. cbn.
  rewrite negb_orb, !negb_involutive, andb_true_iff, String.eqb_eq, Z.eqb_eq. naive_solver.
Qed.

Lemma upgrade_info_lt_key u v : UpgradeInfo.lt u v = key_lt (upgrade_info_key u) (upgrade_info_key v).
Proof.
  destruct u as [a [ve st] d c p ty], v as [a' [ve' st'] d' c' p' ty'].
  unfold UpgradeInfo.lt, key_lt, upgrade_info_key, lex, BusinessType.ne, BusinessType.lt. cbn.
  rewrite ?negb_involutive. repeat case_if; breflect; subst; try done; lia.
Qed.

(** [UpgradeInfo::operator<] is a strict total order on all six fields, so
    two upgrade infos share an entry of the service's client map only when
    they are equal. *)
Theorem UpgradeInfo_lt_strict_total : strict_total UpgradeInfo.lt.
Proof.
  destruct key_lt_strict_total as (Hi & Ht & Hto). split; [|split]; intros *; rewrite !upgrade_info_lt_key.
  - apply Hi.
  - apply Ht.
  - destruct (Hto (upgrade_info_key a) (upgrade_info_key b)) as [E|]; [left|by right].
    destruct a as [? [? ?] ? ? ? ?], b as [? [? ?] ? ? ? ?]. unfold upgrade_info_key in E. cbn in E. by simplify_eq.
Qed.
