(* ===== verification/Parcel.v ===== *)
(** * Marshalling

    The structures of the update service cross the process border in an IPC
    [Parcel].  The parcel, the allocator and the UTF-8/UTF-16 conversion are
    not part of this repository: they are the operations of the classes
    [ParcelOps] and [StringEx], and what the code relies on is stated in
    [ParcelLaws].  One Module per parcelable type holds its [ReadFromParcel],
    [Marshalling] and [Unmarshalling].

    The class [Codec] is the contract between a type and the types that contain
    it: the items its [Marshalling] writes, and that its [Unmarshalling] reads
    them back. *)
From Stdlib Require Import ZArith Lia Ascii String.
From stdpp Require Import base tactics list strings.
From S2P Require Import Prelude CppString Models.

#[local] Open Scope Z_scope.

(** ** The environment *)

(** [std::u16string]: a sequence of 16-bit code units. *)
Definition u16string : Type := list Z.

(** [Str8ToStr16] and [Str16ToStr8] of [string_ex.h]. *)
Class StringEx := {
  Str8ToStr16 : string → u16string;
  Str16ToStr8 : u16string → string
}.

(** The strings that survive the conversion to UTF-16 and back. *)
Definition convertible `{StringEx} (s : string) : Prop := Str16ToStr8 (Str8ToStr16 s) = s.

(** A value a typed write puts into a parcel. *)
Inductive Item :=
  | IBool (b : bool)
  | IInt32 (z : Z)
  | IUint32 (z : Z)
  | IUint64 (z : Z)
  | IString16 (s : u16string).

(** A parcel together with the allocator: [WriteInt32(z)] is
    [Write (IInt32 z)] and so on, and returns whether the parcel took the value;
    [nothrow_new] tells whether a [new (std::nothrow)] succeeds. *)
Class ParcelOps (P : Type) := {
  Write : Item → ST P bool;
  ReadBool : ST P bool;
  ReadInt32 : ST P Z;
  ReadUint32 : ST P Z;
  ReadUint64 : ST P Z;
  ReadString16 : ST P u16string;
  nothrow_new : ST P bool
}.

(** The documented behaviour of a parcel: a write appends the value or changes
    nothing, and it succeeds while there is room; a typed read of a value
    that was written with the same type returns it and moves on. *)
Class ParcelLaws (P : Type) `{ParcelOps P} := {
  pending : P → list Item;
  room : P → list Item → Prop;
  memory : P → Prop;
  Write_ok p i k : room p (i :: k) → eval (Write i) p = true ∧ room (exec (Write i) p) k;
  Write_pending p i :
    pending (exec (Write i) p) = if eval (Write i) p then pending p ++ [i] else pending p;
  Write_memory p i : memory p → memory (exec (Write i) p);
  ReadBool_ok p b k : memory p → pending p = IBool b :: k →
    eval ReadBool p = b ∧ pending (exec ReadBool p) = k ∧ memory (exec ReadBool p);
  ReadInt32_ok p z k : memory p → pending p = IInt32 z :: k →
    eval ReadInt32 p = z ∧ pending (exec ReadInt32 p) = k ∧ memory (exec ReadInt32 p);
  ReadUint32_ok p z k : memory p → pending p = IUint32 z :: k →
    eval ReadUint32 p = z ∧ pending (exec ReadUint32 p) = k ∧ memory (exec ReadUint32 p);
  ReadUint64_ok p z k : memory p → pending p = IUint64 z :: k →
    eval ReadUint64 p = z ∧ pending (exec ReadUint64 p) = k ∧ memory (exec ReadUint64 p);
  ReadString16_ok p s k : memory p → pending p = IString16 s :: k →
    eval ReadString16 p = s ∧ pending (exec ReadString16 p) = k ∧ memory (exec ReadString16 p);
  nothrow_new_ok p : memory p →
    eval nothrow_new p = true ∧ pending (exec nothrow_new p) = pending p ∧
    memory (exec nothrow_new p)
}.

(** ** Shared steps of the marshalling code *)
Section steps.
Context {P : Type} `{ParcelOps P} `{StringEx}.

(*@ update/model/common/parcel_common.h MAX_VECTOR_SIZE *)
Definition MAX_VECTOR_SIZE : Z := 128.
(*@ update/model/common/parcel_common.h MIN_VECTOR_SIZE *)
Definition MIN_VECTOR_SIZE : Z := 0.

Definition WriteInt32 (z : Z) : ST P bool := Write (IInt32 z).
Definition WriteUint32 (z : Z) : ST P bool := Write (IUint32 z).
Definition WriteUint64 (z : Z) : ST P bool := Write (IUint64 z).
Definition WriteBool (b : bool) : ST P bool := Write (IBool b).
(** [parcel.WriteString16(Str8ToStr16(s))] and [Str16ToStr8(parcel.ReadString16())] *)
Definition WriteString (s : string) : ST P bool := Write (IString16 (Str8ToStr16 s)).
Definition ReadString : ST P string := let* s := ReadString16 in ret (Str16ToStr8 s).

(** [static_cast<Enum>(parcel.ReadUint32())] for an [int]-based enumeration. *)
Definition ReadEnum : ST P Z := let* z := ReadUint32 in ret (to_int32 z).

(** [if (!write) { return false; } k] *)
Definition checked (write k : ST P bool) : ST P bool :=
  let* ok := write in if negb ok then ret false else k.

(** [for (i = 0; i < n; i++) { x = T().Unmarshalling(parcel); if (x != nullptr)
    v.emplace_back( *x ); else return false; }]: the result, and the vector. *)
(*@ new_version/src/new_version_info.cpp:31-39 ReadFromParcel *)
Fixpoint read_elements {T} (Unmarshalling : ST P (option T)) (n : nat) (v : list T) :
    ST P (bool * list T) :=
  match n with
  | O => ret (true, v)
  | S n' =>
      let* x := Unmarshalling in
      match x with
      | Some x => read_elements Unmarshalling n' (v ++ [x])
      | None => ret (false, v)
      end
  end.

(** The size check, and the loop. *)
(*@ new_version/src/new_version_info.cpp:26-39 ReadFromParcel *)
Definition read_sized {T} (Unmarshalling : ST P (option T)) (size : Z) (v : list T) :
    ST P (bool * list T) :=
  if (size <? MIN_VECTOR_SIZE) || (size >? MAX_VECTOR_SIZE) then ret (false, v)
  else read_elements Unmarshalling (Z.to_nat size) v.
(*@ new_version/src/new_version_info.cpp:25-39 ReadFromParcel *)
Definition read_vector {T} (Unmarshalling : ST P (option T)) (v : list T) :
    ST P (bool * list T) :=
  let* size := ReadInt32 in read_sized Unmarshalling size v.

(** [WriteInt32(v.size()); for (...) v[i].Marshalling(parcel);], every result
    dropped. *)
(*@ new_version/src/new_version_info.cpp:49-52 Marshalling *)
Definition write_vector {T} (Marshalling : T → ST P bool) (v : list T) : ST P unit :=
  WriteInt32 (to_int32 (Z.of_nat (List.length v))) ;;;
  for_each v (λ x, Marshalling x ;;; ret tt).

(** [T *x = new (std::nothrow) T(); if (x == nullptr) return nullptr;
    if (!x->ReadFromParcel(parcel)) { delete x; return nullptr; } return x;] *)
(*@ new_version/src/new_version_info.cpp NewVersionInfo::Unmarshalling *)
Definition unmarshal {T} (ReadFromParcel : T → ST P (bool * T)) (default : T) :
    ST P (option T) :=
  let* created := nothrow_new in
  if negb created then ret None
  else
    let* (ok, x) := ReadFromParcel default in
    if negb ok then ret None else ret (Some x).
End steps.

(** ** The parcelable types *)

Module ErrorMessageParcel.
Import ErrorMessage.
Section ops.
Context {P : Type} `{ParcelOps P} `{StringEx}.
(*@ check/src/error_message.cpp ErrorMessage::ReadFromParcel *)
Definition ReadFromParcel (this : t) : ST P (bool * t) :=
  let* code := ReadInt32 in
  let* msg := ReadString in
  ret (true, {| errorCode := code; errorMessage := msg |}).
(*@ check/src/error_message.cpp ErrorMessage::Marshalling *)
Definition Marshalling (this : t) : ST P bool :=
  WriteInt32 (errorCode this) ;;;
  WriteString (errorMessage this) ;;;
  ret true.
(*@ check/src/error_message.cpp ErrorMessage::Unmarshalling *)
Definition Unmarshalling : ST P (option t) := unmarshal ReadFromParcel default.
End ops.
End ErrorMessageParcel.

Module BusinessErrorParcel.
Import BusinessError.
Section ops.
Context {P : Type} `{ParcelOps P} `{StringEx}.
(*@ update/model/upgrade_info/src/business_error.cpp BusinessError::ReadFromParcel *)
Definition ReadFromParcel (this : t) : ST P (bool * t) :=
  let* msg := ReadString in
  let* num := ReadInt32 in
  let this := {| message := msg; errorNum := num; data := data this |} in
  let* errorMessageSize := ReadInt32 in
  if errorMessageSize =? 0 then ret (true, this)
  else
    let* (ok, v) := read_sized ErrorMessageParcel.Unmarshalling errorMessageSize (data this) in
    ret (ok, {| message := msg; errorNum := num; data := v |}).
(*@ update/model/upgrade_info/src/business_error.cpp BusinessError::Marshalling *)
Definition Marshalling (this : t) : ST P bool :=
  checked (WriteString (message this)) (
  checked (WriteInt32 (to_int32 (errorNum this))) (
  write_vector ErrorMessageParcel.Marshalling (data this) ;;;
  ret true)).
(*@ update/model/upgrade_info/src/business_error.cpp BusinessError::Unmarshalling *)
Definition Unmarshalling : ST P (option t) := unmarshal ReadFromParcel default.
End ops.
End BusinessErrorParcel.

Module VersionDigestInfoParcel.
Import VersionDigestInfo.
Section ops.
Context {P : Type} `{ParcelOps P} `{StringEx}.
(*@ version_info/src/version_digest_info.cpp VersionDigestInfo::ReadFromParcel *)
Definition ReadFromParcel (this : t) : ST P (bool * t) :=
  let* digest := ReadString in
  ret (true, {| versionDigest := digest |}).
(*@ version_info/src/version_digest_info.cpp VersionDigestInfo::Marshalling *)
Definition Marshalling (this : t) : ST P bool :=
  checked (WriteString (versionDigest this)) (ret true).
(*@ version_info/src/version_digest_info.cpp VersionDigestInfo::Unmarshalling *)
Definition Unmarshalling : ST P (option t) := unmarshal ReadFromParcel default.
End ops.
End VersionDigestInfoParcel.

Module VersionComponentParcel.
Import VersionComponent.
Section ops.
Context {P : Type} `{ParcelOps P} `{StringEx}.
(*@ version_info/src/version_component.cpp VersionComponent::ReadFromParcel *)
Definition ReadFromParcel (this : t) : ST P (bool * t) :=
  let* id := ReadString in
  let* type := ReadInt32 in
  let* action := ReadString in
  let* display := ReadString in
  let* inner := ReadString in
  let* sz := ReadUint64 in
  let* effective := ReadUint32 in
  let* ota := ReadUint32 in
  let* dtype := ReadEnum in
  let* content := ReadString in
  let* extra := ReadString in
  ret (true, {|
    componentId := id; componentType := type; upgradeAction := action;
    displayVersion := display; innerVersion := inner; size := to_uint64 sz;
    effectiveMode := to_uint64 effective; otaMode := to_uint64 ota;
    descriptionInfo := {| DescriptionInfo.descriptionType := dtype;
                          DescriptionInfo.content := content |};
    componentExtra := extra |}).
(*@ version_info/src/version_component.cpp VersionComponent::Marshalling *)
Definition Marshalling (this : t) : ST P bool :=
  WriteString (componentId this) ;;;
  WriteInt32 (componentType this) ;;;
  WriteString (upgradeAction this) ;;;
  WriteString (displayVersion this) ;;;
  WriteString (innerVersion this) ;;;
  WriteUint64 (to_uint64 (size this)) ;;;
  WriteUint32 (to_uint32 (effectiveMode this)) ;;;
  WriteUint32 (to_uint32 (otaMode this)) ;;;
  WriteUint32 (to_uint32 (DescriptionInfo.descriptionType (descriptionInfo this))) ;;;
  WriteString (DescriptionInfo.content (descriptionInfo this)) ;;;
  WriteString (componentExtra this) ;;;
  ret true.
(*@ version_info/src/version_component.cpp VersionComponent::Unmarshalling *)
Definition Unmarshalling : ST P (option t) := unmarshal ReadFromParcel default.
End ops.
End VersionComponentParcel.

Module ComponentDescriptionParcel.
Import ComponentDescription.
Section ops.
Context {P : Type} `{ParcelOps P} `{StringEx}.
(*@ description/src/component_description.cpp ComponentDescription::ReadFromParcel *)
Definition ReadFromParcel (this : t) : ST P (bool * t) :=
  let* id := ReadString in
  let* dtype := ReadEnum in
  let* content := ReadString in
  let* ntype := ReadEnum in
  let* ncontent := ReadString in
  ret (true, {|
    componentId := id;
    descriptionInfo := {| DescriptionInfo.descriptionType := dtype;
                          DescriptionInfo.content := content |};
    notifyDescriptionInfo := {| DescriptionInfo.descriptionType := ntype;
                                DescriptionInfo.content := ncontent |} |}).
(*@ description/src/component_description.cpp ComponentDescription::Marshalling *)
Definition Marshalling (this : t) : ST P bool :=
  WriteString (componentId this) ;;;
  WriteUint32 (to_uint32 (DescriptionInfo.descriptionType (descriptionInfo this))) ;;;
  WriteString (DescriptionInfo.content (descriptionInfo this)) ;;;
  WriteUint32 (to_uint32 (DescriptionInfo.descriptionType (notifyDescriptionInfo this))) ;;;
  WriteString (DescriptionInfo.content (notifyDescriptionInfo this)) ;;;
  ret true.
(*@ description/src/component_description.cpp ComponentDescription::Unmarshalling *)
Definition Unmarshalling : ST P (option t) := unmarshal ReadFromParcel default.
End ops.
End ComponentDescriptionParcel.

Module VersionDescriptionInfoParcel.
Import VersionDescriptionInfo.
Section ops.
Context {P : Type} `{ParcelOps P} `{StringEx}.
(*@ description/src/version_description_info.cpp VersionDescriptionInfo::ReadFromParcel *)
Definition ReadFromParcel (this : t) : ST P (bool * t) :=
  let* (ok, v) := read_vector ComponentDescriptionParcel.Unmarshalling (componentDescriptions this) in
  ret (ok, {| componentDescriptions := v |}).
(*@ description/src/version_description_info.cpp VersionDescriptionInfo::Marshalling *)
Definition Marshalling (this : t) : ST P bool :=
  write_vector ComponentDescriptionParcel.Marshalling (componentDescriptions this) ;;;
  ret true.
(*@ description/src/version_description_info.cpp VersionDescriptionInfo::Unmarshalling *)
Definition Unmarshalling : ST P (option t) := unmarshal ReadFromParcel default.
End ops.
End VersionDescriptionInfoParcel.

Module DescriptionOptionsParcel.
Import DescriptionOptions.
Section ops.
Context {P : Type} `{ParcelOps P} `{StringEx}.
(*@ description/src/description_options.cpp DescriptionOptions::ReadFromParcel *)
Definition ReadFromParcel (this : t) : ST P (bool * t) :=
  let* fmt := ReadEnum in
  let* lang := ReadString in
  ret (true, {| format := fmt; language := lang |}).
(*@ description/src/description_options.cpp DescriptionOptions::Marshalling *)
Definition Marshalling (this : t) : ST P bool :=
  checked (WriteUint32 (to_uint32 (format this))) (
  checked (WriteString (language this)) (ret true)).
(*@ description/src/description_options.cpp DescriptionOptions::Unmarshalling *)
Definition Unmarshalling : ST P (option t) := unmarshal ReadFromParcel default.
End ops.
End DescriptionOptionsParcel.

Module CurrentVersionInfoParcel.
Import CurrentVersionInfo.
Section ops.
Context {P : Type} `{ParcelOps P} `{StringEx}.
(*@ current_version/src/current_version_info.cpp CurrentVersionInfo::ReadFromParcel *)
Definition ReadFromParcel (this : t) : ST P (bool * t) :=
  let* os := ReadString in
  let* name := ReadString in
  let* (ok, v) := read_vector VersionComponentParcel.Unmarshalling (versionComponents this) in
  ret (ok, {| osVersion := os; deviceName := name; versionComponents := v |}).
(*@ current_version/src/current_version_info.cpp CurrentVersionInfo::Marshalling *)
Definition Marshalling (this : t) : ST P bool :=
  checked (WriteString (osVersion this)) (
  checked (WriteString (deviceName this)) (
  write_vector VersionComponentParcel.Marshalling (versionComponents this) ;;;
  ret true)).
(*@ current_version/src/current_version_info.cpp CurrentVersionInfo::Unmarshalling *)
Definition Unmarshalling : ST P (option t) := unmarshal ReadFromParcel default.
End ops.
End CurrentVersionInfoParcel.

Module NewVersionInfoParcel.
Import NewVersionInfo.
Section ops.
Context {P : Type} `{ParcelOps P} `{StringEx}.
(*@ new_version/src/new_version_info.cpp NewVersionInfo::ReadFromParcel *)
Definition ReadFromParcel (this : t) : ST P (bool * t) :=
  let* digest := ReadString in
  let* (ok, v) := read_vector VersionComponentParcel.Unmarshalling (versionComponents this) in
  ret (ok, {| versionDigestInfo := {| VersionDigestInfo.versionDigest := digest |};
              versionComponents := v |}).
(*@ new_version/src/new_version_info.cpp NewVersionInfo::Marshalling *)
Definition Marshalling (this : t) : ST P bool :=
  checked (WriteString (VersionDigestInfo.versionDigest (versionDigestInfo this))) (
  write_vector VersionComponentParcel.Marshalling (versionComponents this) ;;;
  ret true).
(*@ new_version/src/new_version_info.cpp NewVersionInfo::Unmarshalling *)
Definition Unmarshalling : ST P (option t) := unmarshal ReadFromParcel default.
End ops.
End NewVersionInfoParcel.

Module CheckResultParcel.
Import CheckResult.
Section ops.
Context {P : Type} `{ParcelOps P} `{StringEx}.
(*@ check/src/check_result.cpp CheckResult::ReadFromParcel *)
Definition ReadFromParcel (this : t) : ST P (bool * t) :=
  let* exists_ := ReadBool in
  let* digest := ReadString in
  let* (ok, v) := read_vector VersionComponentParcel.Unmarshalling
                     (NewVersionInfo.versionComponents (newVersionInfo this)) in
  ret (ok, {| isExistNewVersion := exists_;
              newVersionInfo := {|
                NewVersionInfo.versionDigestInfo := {| VersionDigestInfo.versionDigest := digest |};
                NewVersionInfo.versionComponents := v |} |}).
(*@ check/src/check_result.cpp CheckResult::Marshalling *)
Definition Marshalling (this : t) : ST P bool :=
  checked (WriteBool (isExistNewVersion this)) (
  checked (WriteString (VersionDigestInfo.versionDigest
    (NewVersionInfo.versionDigestInfo (newVersionInfo this)))) (
  write_vector VersionComponentParcel.Marshalling
    (NewVersionInfo.versionComponents (newVersionInfo this)) ;;;
  ret true)).
(*@ check/src/check_result.cpp CheckResult::Unmarshalling *)
Definition Unmarshalling : ST P (option t) := unmarshal ReadFromParcel default.
End ops.
End CheckResultParcel.

Module TaskBodyParcel.
Import TaskBody.
Section ops.
Context {P : Type} `{ParcelOps P} `{StringEx}.
(*@ task/src/task_body.cpp TaskBody::ReadFromParcel *)
Definition ReadFromParcel (this : t) : ST P (bool * t) :=
  let* digest := ReadString in
  let* st := ReadInt32 in
  let* sub := ReadInt32 in
  let* prog := ReadInt32 in
  let* mode := ReadInt32 in
  let this := {|
    versionDigestInfo := {| VersionDigestInfo.versionDigest := digest |};
    status := st; subStatus := sub; progress := prog; installMode := mode;
    errorMessages := errorMessages this; versionComponents := versionComponents this |} in
  let* (ok, msgs) := read_vector ErrorMessageParcel.Unmarshalling (errorMessages this) in
  let this := {|
    versionDigestInfo := versionDigestInfo this;
    status := st; subStatus := sub; progress := prog; installMode := mode;
    errorMessages := msgs; versionComponents := versionComponents this |} in
  if negb ok then ret (false, this)
  else
    let* (ok, comps) := read_vector VersionComponentParcel.Unmarshalling (versionComponents this) in
    ret (ok, {|
      versionDigestInfo := versionDigestInfo this;
      status := st; subStatus := sub; progress := prog; installMode := mode;
      errorMessages := msgs; versionComponents := comps |}).
(*@ task/src/task_body.cpp TaskBody::Marshalling *)
Definition Marshalling (this : t) : ST P bool :=
  WriteString (VersionDigestInfo.versionDigest (versionDigestInfo this)) ;;;
  WriteInt32 (to_int32 (status this)) ;;;
  WriteInt32 (subStatus this) ;;;
  WriteInt32 (progress this) ;;;
  WriteInt32 (installMode this) ;;;
  write_vector ErrorMessageParcel.Marshalling (errorMessages this) ;;;
  write_vector VersionComponentParcel.Marshalling (versionComponents this) ;;;
  ret true.
(*@ task/src/task_body.cpp TaskBody::Unmarshalling *)
Definition Unmarshalling : ST P (option t) := unmarshal ReadFromParcel default.
End ops.
End TaskBodyParcel.

Module TaskInfoParcel.
Import TaskInfo.
Section ops.
Context {P : Type} `{ParcelOps P} `{StringEx}.
(*@ task/src/task_info.cpp TaskInfo::ReadFromParcel *)
Definition ReadFromParcel (this : t) : ST P (bool * t) :=
  let* exists_ := ReadBool in
  let* body := TaskBodyParcel.Unmarshalling in
  match body with
  | Some body => ret (true, {| existTask := exists_; taskBody := body |})
  | None => ret (false, {| existTask := exists_; taskBody := taskBody this |})
  end.
(*@ task/src/task_info.cpp TaskInfo::Marshalling *)
Definition Marshalling (this : t) : ST P bool :=
  checked (WriteBool (existTask this)) (
  TaskBodyParcel.Marshalling (taskBody this) ;;;
  ret true).
(*@ task/src/task_info.cpp TaskInfo::Unmarshalling *)
Definition Unmarshalling : ST P (option t) := unmarshal ReadFromParcel default.
End ops.
End TaskInfoParcel.

Module EventInfoParcel.
Import EventInfo.
Section ops.
Context {P : Type} `{ParcelOps P} `{StringEx}.
(*@ event/src/event_info.cpp EventInfo::ReadFromParcel *)
Definition ReadFromParcel (this : t) : ST P (bool * t) :=
  let* id := ReadEnum in
  let* body := TaskBodyParcel.Unmarshalling in
  match body with
  | Some body => ret (true, {| eventId := id; taskBody := body |})
  | None => ret (false, {| eventId := id; taskBody := taskBody this |})
  end.
(*@ event/src/event_info.cpp EventInfo::Marshalling *)
Definition Marshalling (this : t) : ST P bool :=
  checked (WriteUint32 (to_uint32 (eventId this))) (
  TaskBodyParcel.Marshalling (taskBody this) ;;;
  ret true).
(*@ event/src/event_info.cpp EventInfo::Unmarshalling *)
Definition Unmarshalling : ST P (option t) := unmarshal ReadFromParcel default.
End ops.
End EventInfoParcel.

Module UpgradePolicyParcel.
Import UpgradePolicy.
Section ops.
Context {P : Type} `{ParcelOps P} `{StringEx}.
(** The [i]-th turn of [for (i = 0; i < size && i < arraySize; i++)], which reads
    into the element [old]. *)
(*@ policy/src/upgrade_policy.cpp:33-36 UpgradePolicy::ReadFromParcel *)
Definition read_period (size arraySize i : Z) (old : UpgradePeriod.t) : ST P UpgradePeriod.t :=
  if (i <? size) && (i <? arraySize) then
    let* start := ReadUint32 in
    let* finish := ReadUint32 in
    ret {| UpgradePeriod.start := start; UpgradePeriod.end_ := finish |}
  else ret old.
(*@ policy/src/upgrade_policy.cpp UpgradePolicy::ReadFromParcel *)
Definition ReadFromParcel (this : t) : ST P (bool * t) :=
  let* download := ReadBool in
  let* autoUpgrade := ReadBool in
  let* type := ReadInt32 in
  let* size := ReadInt32 in
  let arraySize := 2 in
  let build periods := {|
    downloadStrategy := download; autoUpgradeStrategy := autoUpgrade;
    autoUpgradePeriods := periods; customPolicyType := type |} in
  if (size <? MIN_VECTOR_SIZE) || (size >? MAX_VECTOR_SIZE) then
    ret (false, build (autoUpgradePeriods this))
  else
    let* p0 := read_period size arraySize 0 (fst (autoUpgradePeriods this)) in
    let* p1 := read_period size arraySize 1 (snd (autoUpgradePeriods this)) in
    ret (true, build (p0, p1)).
(*@ policy/src/upgrade_policy.cpp UpgradePolicy::Marshalling *)
Definition Marshalling (this : t) : ST P bool :=
  let size := to_int32 2 in
  checked (WriteBool (downloadStrategy this)) (
  checked (WriteBool (autoUpgradeStrategy this)) (
  checked (WriteInt32 (customPolicyType this)) (
  checked (WriteInt32 size) (
  for_each [fst (autoUpgradePeriods this); snd (autoUpgradePeriods this)] (λ p,
    WriteUint32 (UpgradePeriod.start p) ;;;
    WriteUint32 (UpgradePeriod.end_ p) ;;;
    ret tt) ;;;
  ret true)))).
(*@ policy/src/upgrade_policy.cpp UpgradePolicy::Unmarshalling *)
Definition Unmarshalling : ST P (option t) := unmarshal ReadFromParcel default.
End ops.
End UpgradePolicyParcel.

Module ClearOptionsParcel.
Import ClearOptions.
Section ops.
Context {P : Type} `{ParcelOps P} `{StringEx}.
(*@ update/model/upgrade_info/src/clear_options.cpp ClearOptions::ReadFromParcel *)
Definition ReadFromParcel (this : t) : ST P (bool * t) :=
  let* st := ReadEnum in
  ret (true, {| status := st |}).
(*@ update/model/upgrade_info/src/clear_options.cpp ClearOptions::Marshalling *)
Definition Marshalling (this : t) : ST P bool :=
  checked (WriteUint32 (to_uint32 (status this))) (ret true).
(*@ update/model/upgrade_info/src/clear_options.cpp ClearOptions::Unmarshalling *)
Definition Unmarshalling : ST P (option t) := unmarshal ReadFromParcel default.
End ops.
End ClearOptionsParcel.

Module UpgradeOptionsParcel.
Import UpgradeOptions.
Section ops.
Context {P : Type} `{ParcelOps P} `{StringEx}.
(*@ update/model/upgrade_info/src/upgrade_options.cpp UpgradeOptions::ReadFromParcel *)
Definition ReadFromParcel (this : t) : ST P (bool * t) :=
  let* o := ReadEnum in
  ret (true, {| order := o |}).
(*@ update/model/upgrade_info/src/upgrade_options.cpp UpgradeOptions::Marshalling *)
Definition Marshalling (this : t) : ST P bool :=
  checked (WriteUint32 (to_uint32 (order this))) (ret true).
(*@ update/model/upgrade_info/src/upgrade_options.cpp UpgradeOptions::Unmarshalling *)
Definition Unmarshalling : ST P (option t) := unmarshal ReadFromParcel default.
End ops.
End UpgradeOptionsParcel.

Module DownloadOptionsParcel.
Import DownloadOptions.
Section ops.
Context {P : Type} `{ParcelOps P} `{StringEx}.
(*@ update/model/upgrade_info/src/download_options.cpp DownloadOptions::ReadFromParcel *)
Definition ReadFromParcel (this : t) : ST P (bool * t) :=
  let* net := ReadEnum in
  let* o := ReadEnum in
  ret (true, {| allowNetwork := net; order := o |}).
(*@ update/model/upgrade_info/src/download_options.cpp DownloadOptions::Marshalling *)
Definition Marshalling (this : t) : ST P bool :=
  checked (WriteUint32 (to_uint32 (allowNetwork this))) (
  checked (WriteUint32 (to_uint32 (order this))) (ret true)).
(*@ update/model/upgrade_info/src/download_options.cpp DownloadOptions::Unmarshalling *)
Definition Unmarshalling : ST P (option t) := unmarshal ReadFromParcel default.
End ops.
End DownloadOptionsParcel.

Module PauseDownloadOptionsParcel.
Import PauseDownloadOptions.
Section ops.
Context {P : Type} `{ParcelOps P} `{StringEx}.
(*@ update/model/upgrade_info/src/pause_download_options.cpp PauseDownloadOptions::ReadFromParcel *)
Definition ReadFromParcel (this : t) : ST P (bool * t) :=
  let* b := ReadBool in
  ret (true, {| isAllowAutoResume := b |}).
(*@ update/model/upgrade_info/src/pause_download_options.cpp PauseDownloadOptions::Marshalling *)
Definition Marshalling (this : t) : ST P bool :=
  checked (WriteBool (isAllowAutoResume this)) (ret true).
(*@ update/model/upgrade_info/src/pause_download_options.cpp PauseDownloadOptions::Unmarshalling *)
Definition Unmarshalling : ST P (option t) := unmarshal ReadFromParcel default.
End ops.
End PauseDownloadOptionsParcel.

Module ResumeDownloadOptionsParcel.
Import ResumeDownloadOptions.
Section ops.
Context {P : Type} `{ParcelOps P} `{StringEx}.
(*@ update/model/upgrade_info/src/resume_download_options.cpp ResumeDownloadOptions::ReadFromParcel *)
Definition ReadFromParcel (this : t) : ST P (bool * t) :=
  let* net := ReadEnum in
  ret (true, {| allowNetwork := net |}).
(*@ update/model/upgrade_info/src/resume_download_options.cpp ResumeDownloadOptions::Marshalling *)
Definition Marshalling (this : t) : ST P bool :=
  checked (WriteUint32 (to_uint32 (allowNetwork this))) (ret true).
(*@ update/model/upgrade_info/src/resume_download_options.cpp ResumeDownloadOptions::Unmarshalling *)
Definition Unmarshalling : ST P (option t) := unmarshal ReadFromParcel default.
End ops.
End ResumeDownloadOptionsParcel.

Module FactoryResetInfoParcel.
Import FactoryResetInfo.
Section ops.
Context {P : Type} `{ParcelOps P} `{StringEx}.
(*@ update/model/upgrade_info/src/factory_reset_info.cpp FactoryResetInfo::ReadFromParcel *)
Definition ReadFromParcel (this : t) : ST P (bool * t) :=
  let* d := ReadInt32 in
  ret (true, {| duration := d |}).
(*@ update/model/upgrade_info/src/factory_reset_info.cpp FactoryResetInfo::Marshalling *)
Definition Marshalling (this : t) : ST P bool :=
  checked (WriteInt32 (duration this)) (ret true).
(*@ update/model/upgrade_info/src/factory_reset_info.cpp FactoryResetInfo::Unmarshalling *)
Definition Unmarshalling : ST P (option t) := unmarshal ReadFromParcel default.
End ops.
End FactoryResetInfoParcel.

Module FactoryResetStrategyParcel.
Import FactoryResetStrategy.
Section ops.
Context {P : Type} `{ParcelOps P} `{StringEx}.
(*@ update/model/upgrade_info/src/factory_reset_strategy.cpp FactoryResetStrategy::ReadFromParcel *)
Definition ReadFromParcel (this : t) : ST P (bool * t) :=
  let* sc := ReadEnum in
  let* strat := ReadString in
  ret (true, {| scope := sc; strategy := strat |}).
(*@ update/model/upgrade_info/src/factory_reset_strategy.cpp FactoryResetStrategy::Marshalling *)
Definition Marshalling (this : t) : ST P bool :=
  checked (WriteUint32 (to_uint32 (scope this))) (
  checked (WriteString (strategy this)) (ret true)).
(*@ update/model/upgrade_info/src/factory_reset_strategy.cpp FactoryResetStrategy::Unmarshalling *)
Definition Unmarshalling : ST P (option t) := unmarshal ReadFromParcel default.
End ops.
End FactoryResetStrategyParcel.

Module UpgradeInfoParcel.
Import UpgradeInfo.
Section ops.
Context {P : Type} `{ParcelOps P} `{StringEx}.
(*@ update/model/upgrade_info/src/upgrade_info.cpp UpgradeInfo::ReadFromParcel *)
Definition ReadFromParcel (this : t) : ST P (bool * t) :=
  let* app := ReadString in
  let* vendor := ReadString in
  let* subType := ReadInt32 in
  let* dev := ReadString in
  let* control := ReadString in
  let* pid := ReadInt32 in
  let* type := ReadInt32 in
  ret (true, {|
    upgradeApp := app;
    businessType := {| BusinessType.vendor := vendor; BusinessType.subType := subType |};
    upgradeDevId := dev; controlDevId := control; processId := pid; deviceType := type |}).
(*@ update/model/upgrade_info/src/upgrade_info.cpp UpgradeInfo::Marshalling *)
Definition Marshalling (this : t) : ST P bool :=
  checked (WriteString (upgradeApp this)) (
  checked (WriteString (BusinessType.vendor (businessType this))) (
  checked (WriteInt32 (to_int32 (BusinessType.subType (businessType this)))) (
  checked (WriteString (upgradeDevId this)) (
  checked (WriteString (controlDevId this)) (
  checked (WriteInt32 (processId this)) (
  checked (WriteInt32 (to_int32 (deviceType this))) (ret true))))))).
(*@ update/model/upgrade_info/src/upgrade_info.cpp UpgradeInfo::Unmarshalling *)
Definition Unmarshalling : ST P (option t) := unmarshal ReadFromParcel default.
End ops.
End UpgradeInfoParcel.
