(* ===== verification/ParcelCodec.v ===== *)
(** * Marshalling round trips

    For every parcelable type of [Parcel]: the items its [Marshalling] writes
    ([encode]), the values that survive the trip ([wf]) and the proof that its
    [Unmarshalling] reads them back, as an instance of [Codec].  The
    instances of the containers use only the instances of their elements. *)
From Stdlib Require Import ZArith Lia Ascii String.
From stdpp Require Import base tactics list strings.
From S2P Require Import Prelude CppString Models Parcel.

#[local] Open Scope Z_scope.

(** [writes m l a]: in a parcel with room for them, [m] writes the items [l]
    and returns [a]. *)
Definition writes {P} `{ParcelLaws P} {A} (m : ST P A) (l : list Item) (a : A) : Prop :=
  ∀ p k, room p (l ++ k) →
    eval m p = a ∧ pending (exec m p) = pending p ++ l ∧ room (exec m p) k ∧
    (memory p → memory (exec m p)).

(** [reads m l a]: from a parcel that starts with the items [l], [m] reads them
    and returns [a]. *)
Definition reads {P} `{ParcelLaws P} {A} (m : ST P A) (l : list Item) (a : A) : Prop :=
  ∀ p k, memory p → pending p = l ++ k →
    eval m p = a ∧ pending (exec m p) = k ∧ memory (exec m p).

(** The contract of a parcelable type. *)
Class Codec (P : Type) `{ParcelLaws P} {T : Type} (Marshalling : T → ST P bool)
    (Unmarshalling : ST P (option T)) := {
  encode : T → list Item;
  wf : T → Prop;
  marshal_writes x : writes (Marshalling x) (encode x) true;
  unmarshal_reads x : wf x → reads Unmarshalling (encode x) (Some x)
}.
Arguments encode {P _ _ T} Marshalling Unmarshalling {_} _ : assert.
Arguments wf {P _ _ T} Marshalling Unmarshalling {_} _ : assert.

(** A value that is written to an empty parcel is what comes out of it. *)
Definition roundtrips {P} `{ParcelLaws P} {T} (Marshalling : T → ST P bool)
    (Unmarshalling : ST P (option T)) `{!Codec P Marshalling Unmarshalling} : Prop :=
  ∀ x p, wf Marshalling Unmarshalling x → pending p = [] → memory p →
    room p (encode Marshalling Unmarshalling x) →
    eval (Marshalling x) p = true ∧
    eval Unmarshalling (exec (Marshalling x) p) = Some x ∧
    pending (exec Unmarshalling (exec (Marshalling x) p)) = [].

Create HintDb codec.

Section rules.
Context {P : Type} `{ParcelLaws P} `{StringEx}.

Lemma writes_ret {A} (a : A) : writes (ret a) [] a.
Proof. intros p k Hr. rewrite app_nil_r. auto. Qed.
Lemma writes_item i : writes (Write i) [i] true.
Proof.
  intros p k Hr. destruct (Write_ok p i k Hr) as [He Hr'].
  rewrite Write_pending, He. auto using Write_memory.
Qed.
Lemma writes_bind {A B} (m : ST P A) (f : A → ST P B) l l' a b :
  writes m l a → writes (f a) l' b → writes (bind m f) (l ++ l') b.
Proof.
  intros Hm Hf p k Hr. rewrite <- app_assoc in Hr.
  destruct (Hm _ _ Hr) as (<- & Hp & Hr' & Hme). destruct (Hf _ _ Hr') as (<- & Hp' & Hr'' & Hme').
  rewrite exec_bind, eval_bind, Hp', Hp, <- app_assoc. split_and!; auto.
Qed.
Lemma writes_checked m k l l' b :
  writes m l true → writes k l' b → writes (checked m k) (l ++ l') b.
Proof. intros Hm Hk. eapply writes_bind; [exact Hm|exact Hk]. Qed.
Lemma writes_eq {A} (m : ST P A) l l' a : writes m l a → l = l' → writes m l' a.
Proof. by intros ? <-. Qed.
Lemma writes_for_each {A} (body : A → ST P unit) f v :
  (∀ x, writes (body x) (f x) tt) → writes (for_each v body) (flat_map f v) tt.
Proof.
  intros Hb. induction v as [|x v IH]; [apply writes_ret|]. cbn. eapply writes_bind; [apply Hb|apply IH].
Qed.

Lemma reads_ret {A} (a : A) : reads (ret a) [] a.
Proof. intros p k Hm Hp. auto. Qed.
Lemma reads_bind {A B} (m : ST P A) (f : A → ST P B) l l' a b :
  reads m l a → reads (f a) l' b → reads (bind m f) (l ++ l') b.
Proof.
  intros Hm Hf p k Hme Hp. rewrite <- app_assoc in Hp.
  destruct (Hm _ _ Hme Hp) as (<- & Hp' & Hme'). destruct (Hf _ _ Hme' Hp') as (<- & ? & ?).
  by rewrite exec_bind, eval_bind.
Qed.
Lemma reads_eq {A} (m : ST P A) l l' a a' : reads m l a → l = l' → a = a' → reads m l' a'.
Proof. by intros ? <- <-. Qed.
Lemma reads_bool b : reads ReadBool [IBool b] b.
Proof. intros p k. apply ReadBool_ok. Qed.
Lemma reads_int32 z : reads ReadInt32 [IInt32 z] z.
Proof. intros p k. apply ReadInt32_ok. Qed.
Lemma reads_uint32 z : reads ReadUint32 [IUint32 z] z.
Proof. intros p k. apply ReadUint32_ok. Qed.
Lemma reads_uint64 z : reads ReadUint64 [IUint64 z] z.
Proof. intros p k. apply ReadUint64_ok. Qed.
Lemma reads_string s : convertible s → reads ReadString [IString16 (Str8ToStr16 s)] s.
Proof.
  intros Hs. eapply reads_eq; [|apply app_nil_r|exact Hs].
  eapply reads_bind; [|apply reads_ret]. intros p k. apply ReadString16_ok.
Qed.
Lemma reads_enum z : is_int32 z → reads ReadEnum [IUint32 (to_uint32 z)] z.
Proof.
  intros Hz. eapply reads_eq; [|apply app_nil_r|by apply to_int32_to_uint32].
  eapply reads_bind; [apply reads_uint32|apply reads_ret].
Qed.
Lemma reads_unmarshal {T} (read : T → ST P (bool * T)) d l x :
  reads (read d) l (true, x) → reads (unmarshal read d) l (Some x).
Proof.
  intros Hr. unfold unmarshal. change l with ([] ++ l). eapply reads_bind.
  { intros p k Hm Hp. destruct (nothrow_new_ok p Hm) as (-> & -> & ?). auto. }
  cbn [negb]. rewrite <- (app_nil_r l). eapply reads_bind; [exact Hr|apply reads_ret].
Qed.

(** Vectors. *)
Definition encode_vector {T} (f : T → list Item) (v : list T) : list Item :=
  IInt32 (to_int32 (Z.of_nat (List.length v))) :: flat_map f v.
Definition wf_vector {T} (ok : T → Prop) (v : list T) : Prop :=
  (List.length v ≤ 128)%nat ∧ Forall ok v.

Lemma writes_vector {T} (M : T → ST P bool) U `{!Codec P M U} v :
  writes (write_vector M v) (encode_vector (encode M U) v) tt.
Proof.
  intros Hl. unfold write_vector.
  change (encode_vector ?f ?l) with ([IInt32 (to_int32 (Z.of_nat (List.length l)))] ++ flat_map f l).
  eapply writes_bind; [apply writes_item|]. apply writes_for_each. intros x.
  rewrite <- (app_nil_r (encode M U x)). eapply writes_bind; [apply marshal_writes|apply writes_ret].
Qed.
Lemma reads_elements {T} (M : T → ST P bool) U `{!Codec P M U} v w :
  Forall (wf M U) v →
  reads (read_elements U (List.length v) w) (flat_map (encode M U) v) (true, w ++ v).
Proof.
  intros Hv. revert w. induction Hv as [|x v Hx Hv IH]; intros w.
  { cbn. rewrite app_nil_r. apply reads_ret. }
  cbn. eapply reads_bind; [by apply unmarshal_reads|]. cbn.
  eapply reads_eq; [apply IH|done|by rewrite <- app_assoc].
Qed.
Lemma reads_sized {T} (M : T → ST P bool) U `{!Codec P M U} v w :
  wf_vector (wf M U) v →
  reads (read_sized U (Z.of_nat (List.length v)) w) (flat_map (encode M U) v) (true, w ++ v).
Proof.
  intros [Hl Hv]. unfold read_sized, MIN_VECTOR_SIZE, MAX_VECTOR_SIZE.
  case_if; breflect; [destruct E; breflect; lia|]. rewrite Nat2Z.id. by apply reads_elements.
Qed.
Lemma reads_vector {T} (M : T → ST P bool) U `{!Codec P M U} v w :
  wf_vector (wf M U) v →
  reads (read_vector U w) (encode_vector (encode M U) v) (true, w ++ v).
Proof.
  intros Hv. change (encode_vector ?f ?l) with ([IInt32 (to_int32 (Z.of_nat (List.length l)))] ++ flat_map f l).
  rewrite to_int32_id by (destruct Hv; unfold_widths; lia).
  eapply reads_bind; [apply reads_int32|]. by apply reads_sized.
Qed.
(** The variant that returns early on an empty vector. *)
Lemma reads_vector_or_empty {T R} (M : T → ST P bool) U `{!Codec P M U} (f : list T → R) v w :
  wf_vector (wf M U) v →
  reads (let* size := ReadInt32 in
         if size =? 0 then ret (true, f w)
         else let* (ok, v) := read_sized U size w in ret (ok, f v))
    (encode_vector (encode M U) v) (true, f (w ++ v)).
Proof.
  intros Hv. change (encode_vector ?g ?l) with ([IInt32 (to_int32 (Z.of_nat (List.length l)))] ++ flat_map g l).
  rewrite to_int32_id by (destruct Hv; unfold_widths; lia).
  eapply reads_bind; [apply reads_int32|]. destruct v as [|y v]; cbn [List.length].
  - rewrite app_nil_r. apply reads_ret.
  - rewrite (proj2 (Z.eqb_neq _ _)) by lia. rewrite <- (app_nil_r (flat_map _ _)).
    eapply reads_bind; [by apply (reads_sized M U (y :: v))|apply reads_ret].
Qed.

Lemma codec_roundtrips {T} (M : T → ST P bool) U `{!Codec P M U} : roundtrips M U.
Proof.
  intros x p Hx Hp Hm Hr. rewrite <- (app_nil_r (encode M U x)) in Hr.
  destruct (marshal_writes x p [] Hr) as (Hw & Hp' & _ & Hm').
  rewrite Hp in Hp'. rewrite <- (app_nil_r (encode M U x)) in Hp'.
  destruct (unmarshal_reads x Hx _ _ (Hm' Hm) Hp') as (? & ? & ?). auto.
Qed.
End rules.

(** Follow a marshalling function, and an unmarshalling function. *)
Ltac split_description :=
  repeat match goal with
  | d : DescriptionInfo.t |- _ => destruct d
  | d : VersionDigestInfo.t |- _ => destruct d
  | d : BusinessType.t |- _ => destruct d
  | d : NewVersionInfo.t |- _ => destruct d
  end.
Ltac writes_step :=
  first [ apply writes_vector | eapply writes_checked | eapply writes_bind | apply writes_item
        | apply writes_ret | apply marshal_writes ].
Ltac solve_writes :=
  let x := fresh "x" in intros x; destruct x; split_description; eapply writes_eq;
  [ cbv zeta; repeat writes_step; apply _
  | cbn -[encode_vector to_int32]; rewrite ?app_nil_r; reflexivity ].
Ltac reads_step :=
  cbn beta iota zeta;
  first [ eapply reads_vector | eapply reads_string | eapply reads_enum | apply reads_int32
        | apply reads_uint32 | apply reads_uint64 | apply reads_bool | eapply unmarshal_reads
        | eapply reads_bind | apply reads_ret ].
Ltac solve_reads :=
  let x := fresh "x" in let Hx := fresh "Hx" in
  intros x Hx; destruct x; split_description; cbn in Hx; destruct_and? Hx;
  apply reads_unmarshal; eapply reads_eq;
  [ repeat reads_step
  | cbn -[encode_vector to_int32]; rewrite ?app_nil_r; reflexivity
  | rewrite ?app_nil_l, ?to_int32_id, ?to_uint32_id, ?to_uint64_id
      by first [done | apply to_uint64_range | unfold_widths; lia]; reflexivity ];
  try first [eassumption | cbn; split_and!; assumption].

Section codecs.
Context {P : Type} `{ParcelLaws P} `{StringEx}.

#[local] Abbreviation str16 s := (IString16 (Str8ToStr16 s)).
#[local] Abbreviation enum z := (IUint32 (to_uint32 z)).
#[local] Abbreviation wf_description d :=
  (is_int32 (DescriptionInfo.descriptionType d) ∧ convertible (DescriptionInfo.content d)).
#[local] Abbreviation encode_description d :=
  [enum (DescriptionInfo.descriptionType d); str16 (DescriptionInfo.content d)].

#[export, refine] Instance error_message_codec :
  Codec P ErrorMessageParcel.Marshalling ErrorMessageParcel.Unmarshalling := {
  encode x := [IInt32 (ErrorMessage.errorCode x); str16 (ErrorMessage.errorMessage x)];
  wf x := convertible (ErrorMessage.errorMessage x) }.
Proof. solve_writes. solve_reads. Defined.

#[export, refine] Instance version_digest_codec :
  Codec P VersionDigestInfoParcel.Marshalling VersionDigestInfoParcel.Unmarshalling := {
  encode x := [str16 (VersionDigestInfo.versionDigest x)];
  wf x := convertible (VersionDigestInfo.versionDigest x) }.
Proof. solve_writes. solve_reads. Defined.

#[export, refine] Instance version_component_codec :
  Codec P VersionComponentParcel.Marshalling VersionComponentParcel.Unmarshalling := {
  encode x := [
    str16 (VersionComponent.componentId x);
    IInt32 (VersionComponent.componentType x);
    str16 (VersionComponent.upgradeAction x);
    str16 (VersionComponent.displayVersion x);
    str16 (VersionComponent.innerVersion x);
    IUint64 (to_uint64 (VersionComponent.size x));
    IUint32 (to_uint32 (VersionComponent.effectiveMode x));
    IUint32 (to_uint32 (VersionComponent.otaMode x))] ++
    encode_description (VersionComponent.descriptionInfo x) ++
    [str16 (VersionComponent.componentExtra x)];
  wf x :=
    convertible (VersionComponent.componentId x) ∧ convertible (VersionComponent.upgradeAction x) ∧
    convertible (VersionComponent.displayVersion x) ∧ convertible (VersionComponent.innerVersion x) ∧
    is_uint64 (VersionComponent.size x) ∧ is_uint32 (VersionComponent.effectiveMode x) ∧
    is_uint32 (VersionComponent.otaMode x) ∧ wf_description (VersionComponent.descriptionInfo x) ∧
    convertible (VersionComponent.componentExtra x) }.
Proof. solve_writes. solve_reads. Defined.

#[export, refine] Instance business_error_codec :
  Codec P BusinessErrorParcel.Marshalling BusinessErrorParcel.Unmarshalling := {
  encode x := str16 (BusinessError.message x) :: IInt32 (to_int32 (BusinessError.errorNum x)) ::
    encode_vector (encode ErrorMessageParcel.Marshalling ErrorMessageParcel.Unmarshalling) (BusinessError.data x);
  wf x := convertible (BusinessError.message x) ∧ is_int32 (BusinessError.errorNum x) ∧
    wf_vector (wf ErrorMessageParcel.Marshalling ErrorMessageParcel.Unmarshalling) (BusinessError.data x) }.
Proof.
  - solve_writes.
  - intros [msg num v] (Hm & Hn & Hv). apply reads_unmarshal.
    cbn [BusinessError.message BusinessError.errorNum BusinessError.data] in *.
    rewrite to_int32_id by done.
    apply (reads_bind (P:=P) _ _ [str16 msg] _ msg); [by apply reads_string|].
    apply (reads_bind (P:=P) _ _ [IInt32 num] _ num); [apply reads_int32|].
    refine (reads_vector_or_empty (P:=P) ErrorMessageParcel.Marshalling ErrorMessageParcel.Unmarshalling
             (BusinessError.Build_t msg num) v [] Hv).
Defined.

#[export, refine] Instance component_description_codec :
  Codec P ComponentDescriptionParcel.Marshalling ComponentDescriptionParcel.Unmarshalling := {
  encode x := [str16 (ComponentDescription.componentId x)] ++
    encode_description (ComponentDescription.descriptionInfo x) ++
    encode_description (ComponentDescription.notifyDescriptionInfo x);
  wf x := convertible (ComponentDescription.componentId x) ∧
    wf_description (ComponentDescription.descriptionInfo x) ∧
    wf_description (ComponentDescription.notifyDescriptionInfo x) }.
Proof. solve_writes. solve_reads. Defined.

#[export, refine] Instance version_description_info_codec :
  Codec P VersionDescriptionInfoParcel.Marshalling VersionDescriptionInfoParcel.Unmarshalling := {
  encode x := encode_vector (encode ComponentDescriptionParcel.Marshalling ComponentDescriptionParcel.Unmarshalling) (VersionDescriptionInfo.componentDescriptions x);
  wf x := wf_vector (wf ComponentDescriptionParcel.Marshalling ComponentDescriptionParcel.Unmarshalling) (VersionDescriptionInfo.componentDescriptions x) }.
Proof. solve_writes. solve_reads. Defined.

#[export, refine] Instance description_options_codec :
  Codec P DescriptionOptionsParcel.Marshalling DescriptionOptionsParcel.Unmarshalling := {
  encode x := [enum (DescriptionOptions.format x); str16 (DescriptionOptions.language x)];
  wf x := is_int32 (DescriptionOptions.format x) ∧ convertible (DescriptionOptions.language x) }.
Proof. solve_writes. solve_reads. Defined.

#[export, refine] Instance current_version_info_codec :
  Codec P CurrentVersionInfoParcel.Marshalling CurrentVersionInfoParcel.Unmarshalling := {
  encode x := str16 (CurrentVersionInfo.osVersion x) :: str16 (CurrentVersionInfo.deviceName x) ::
    encode_vector (encode VersionComponentParcel.Marshalling VersionComponentParcel.Unmarshalling) (CurrentVersionInfo.versionComponents x);
  wf x := convertible (CurrentVersionInfo.osVersion x) ∧ convertible (CurrentVersionInfo.deviceName x) ∧
    wf_vector (wf VersionComponentParcel.Marshalling VersionComponentParcel.Unmarshalling) (CurrentVersionInfo.versionComponents x) }.
Proof. solve_writes. solve_reads. Defined.

#[local] Abbreviation digest d := (VersionDigestInfo.versionDigest d).

#[export, refine] Instance new_version_info_codec :
  Codec P NewVersionInfoParcel.Marshalling NewVersionInfoParcel.Unmarshalling := {
  encode x := str16 (digest (NewVersionInfo.versionDigestInfo x)) ::
    encode_vector (encode VersionComponentParcel.Marshalling VersionComponentParcel.Unmarshalling) (NewVersionInfo.versionComponents x);
  wf x := convertible (digest (NewVersionInfo.versionDigestInfo x)) ∧
    wf_vector (wf VersionComponentParcel.Marshalling VersionComponentParcel.Unmarshalling) (NewVersionInfo.versionComponents x) }.
Proof. solve_writes. solve_reads. Defined.

#[export, refine] Instance check_result_codec :
  Codec P CheckResultParcel.Marshalling CheckResultParcel.Unmarshalling := {
  encode x := let v := CheckResult.newVersionInfo x in
    IBool (CheckResult.isExistNewVersion x) :: str16 (digest (NewVersionInfo.versionDigestInfo v)) ::
    encode_vector (encode VersionComponentParcel.Marshalling VersionComponentParcel.Unmarshalling) (NewVersionInfo.versionComponents v);
  wf x := let v := CheckResult.newVersionInfo x in
    convertible (digest (NewVersionInfo.versionDigestInfo v)) ∧
    wf_vector (wf VersionComponentParcel.Marshalling VersionComponentParcel.Unmarshalling) (NewVersionInfo.versionComponents v) }.
Proof. solve_writes. solve_reads. Defined.

#[export, refine] Instance task_body_codec :
  Codec P TaskBodyParcel.Marshalling TaskBodyParcel.Unmarshalling := {
  encode x := str16 (digest (TaskBody.versionDigestInfo x)) :: IInt32 (to_int32 (TaskBody.status x)) ::
    IInt32 (TaskBody.subStatus x) :: IInt32 (TaskBody.progress x) :: IInt32 (TaskBody.installMode x) ::
    encode_vector (encode ErrorMessageParcel.Marshalling ErrorMessageParcel.Unmarshalling) (TaskBody.errorMessages x) ++
    encode_vector (encode VersionComponentParcel.Marshalling VersionComponentParcel.Unmarshalling) (TaskBody.versionComponents x);
  wf x := convertible (digest (TaskBody.versionDigestInfo x)) ∧ is_int32 (TaskBody.status x) ∧
    wf_vector (wf ErrorMessageParcel.Marshalling ErrorMessageParcel.Unmarshalling) (TaskBody.errorMessages x) ∧
    wf_vector (wf VersionComponentParcel.Marshalling VersionComponentParcel.Unmarshalling) (TaskBody.versionComponents x) }.
Proof. solve_writes. solve_reads. Defined.

#[export, refine] Instance task_info_codec :
  Codec P TaskInfoParcel.Marshalling TaskInfoParcel.Unmarshalling := {
  encode x := IBool (TaskInfo.existTask x) ::
    encode TaskBodyParcel.Marshalling TaskBodyParcel.Unmarshalling (TaskInfo.taskBody x);
  wf x := wf TaskBodyParcel.Marshalling TaskBodyParcel.Unmarshalling (TaskInfo.taskBody x) }.
Proof. solve_writes. solve_reads. Defined.

#[export, refine] Instance event_info_codec :
  Codec P EventInfoParcel.Marshalling EventInfoParcel.Unmarshalling := {
  encode x := enum (EventInfo.eventId x) ::
    encode TaskBodyParcel.Marshalling TaskBodyParcel.Unmarshalling (EventInfo.taskBody x);
  wf x := is_int32 (EventInfo.eventId x) ∧ wf TaskBodyParcel.Marshalling TaskBodyParcel.Unmarshalling (EventInfo.taskBody x) }.
Proof. solve_writes. solve_reads. Defined.

#[local] Abbreviation encode_period p :=
  [IUint32 (UpgradePeriod.start p); IUint32 (UpgradePeriod.end_ p)].

Lemma reads_period i p old :
  i < 2 → reads (UpgradePolicyParcel.read_period (to_int32 2) 2 i old) (encode_period p) p.
Proof.
  intros Hi. unfold UpgradePolicyParcel.read_period. change (to_int32 2) with 2.
  rewrite (proj2 (Z.ltb_lt _ _) Hi). destruct p as [a b]. cbn [andb].
  eapply reads_eq; [repeat reads_step|reflexivity|reflexivity].
Qed.

#[export, refine] Instance upgrade_policy_codec :
  Codec P UpgradePolicyParcel.Marshalling UpgradePolicyParcel.Unmarshalling := {
  encode x := [IBool (UpgradePolicy.downloadStrategy x); IBool (UpgradePolicy.autoUpgradeStrategy x);
    IInt32 (UpgradePolicy.customPolicyType x); IInt32 (to_int32 2)] ++
    encode_period (fst (UpgradePolicy.autoUpgradePeriods x)) ++
    encode_period (snd (UpgradePolicy.autoUpgradePeriods x));
  wf x := True }.
Proof.
  - intros [dl auto [[s0 e0] [s1 e1]] ty]. eapply writes_eq; [repeat writes_step|reflexivity].
  - intros [dl auto [p0 p1] ty] _. apply reads_unmarshal.
    apply (reads_bind (P:=P) _ _ [IBool dl] _ dl); [apply reads_bool|].
    apply (reads_bind (P:=P) _ _ [IBool auto] _ auto); [apply reads_bool|].
    apply (reads_bind (P:=P) _ _ [IInt32 ty] _ ty); [apply reads_int32|].
    apply (reads_bind (P:=P) _ _ [IInt32 (to_int32 2)] _ (to_int32 2)); [apply reads_int32|].
    change ((to_int32 2 <? MIN_VECTOR_SIZE) || (to_int32 2 >? MAX_VECTOR_SIZE)) with false.
    eapply reads_bind; [by apply reads_period|].
    rewrite <- (app_nil_r (encode_period _)).
    eapply reads_bind; [by apply reads_period|apply reads_ret].
Defined.

#[export, refine] Instance clear_options_codec :
  Codec P ClearOptionsParcel.Marshalling ClearOptionsParcel.Unmarshalling := {
  encode x := [enum (ClearOptions.status x)];
  wf x := is_int32 (ClearOptions.status x) }.
Proof. solve_writes. solve_reads. Defined.

#[export, refine] Instance upgrade_options_codec :
  Codec P UpgradeOptionsParcel.Marshalling UpgradeOptionsParcel.Unmarshalling := {
  encode x := [enum (UpgradeOptions.order x)];
  wf x := is_int32 (UpgradeOptions.order x) }.
Proof. solve_writes. solve_reads. Defined.

#[export, refine] Instance download_options_codec :
  Codec P DownloadOptionsParcel.Marshalling DownloadOptionsParcel.Unmarshalling := {
  encode x := [enum (DownloadOptions.allowNetwork x); enum (DownloadOptions.order x)];
  wf x := is_int32 (DownloadOptions.allowNetwork x) ∧ is_int32 (DownloadOptions.order x) }.
Proof. solve_writes. solve_reads. Defined.

#[export, refine] Instance pause_download_options_codec :
  Codec P PauseDownloadOptionsParcel.Marshalling PauseDownloadOptionsParcel.Unmarshalling := {
  encode x := [IBool (PauseDownloadOptions.isAllowAutoResume x)];
  wf x := True }.
Proof. solve_writes. solve_reads. Defined.

#[export, refine] Instance resume_download_options_codec :
  Codec P ResumeDownloadOptionsParcel.Marshalling ResumeDownloadOptionsParcel.Unmarshalling := {
  encode x := [enum (ResumeDownloadOptions.allowNetwork x)];
  wf x := is_int32 (ResumeDownloadOptions.allowNetwork x) }.
Proof. solve_writes. solve_reads. Defined.

#[export, refine] Instance factory_reset_info_codec :
  Codec P FactoryResetInfoParcel.Marshalling FactoryResetInfoParcel.Unmarshalling := {
  encode x := [IInt32 (FactoryResetInfo.duration x)];
  wf x := True }.
Proof. solve_writes. solve_reads. Defined.

#[export, refine] Instance factory_reset_strategy_codec :
  Codec P FactoryResetStrategyParcel.Marshalling FactoryResetStrategyParcel.Unmarshalling := {
  encode x := [enum (FactoryResetStrategy.scope x); str16 (FactoryResetStrategy.strategy x)];
  wf x := is_int32 (FactoryResetStrategy.scope x) ∧ convertible (FactoryResetStrategy.strategy x) }.
Proof. solve_writes. solve_reads. Defined.

#[export, refine] Instance upgrade_info_codec :
  Codec P UpgradeInfoParcel.Marshalling UpgradeInfoParcel.Unmarshalling := {
  encode x := let b := UpgradeInfo.businessType x in
    [str16 (UpgradeInfo.upgradeApp x); str16 (BusinessType.vendor b);
     IInt32 (to_int32 (BusinessType.subType b)); str16 (UpgradeInfo.upgradeDevId x);
     str16 (UpgradeInfo.controlDevId x); IInt32 (UpgradeInfo.processId x);
     IInt32 (to_int32 (UpgradeInfo.deviceType x))];
  wf x := let b := UpgradeInfo.businessType x in
    convertible (UpgradeInfo.upgradeApp x) ∧ convertible (BusinessType.vendor b) ∧
    is_int32 (BusinessType.subType b) ∧ convertible (UpgradeInfo.upgradeDevId x) ∧
    convertible (UpgradeInfo.controlDevId x) ∧ is_int32 (UpgradeInfo.deviceType x) }.
Proof. solve_writes. solve_reads. Defined.
End codecs.

(** ** The vectors that come out of a parcel *)
Section untrusted.
Context {P : Type} `{ParcelOps P} `{StringEx}.

(** Every way [m] can end satisfies [Q], whatever the parcel holds. *)
Definition yields {A} (m : ST P A) (Q : A → Prop) : Prop := ∀ p, Q (eval m p).

Lemma yields_ret {A} (a : A) (Q : A → Prop) : Q a → yields (ret a) Q.
Proof. by intros ??. Qed.
Lemma yields_bind {A B} (m : ST P A) (f : A → ST P B) (R : A → Prop) Q :
  yields m R → (∀ a, R a → yields (f a) Q) → yields (bind m f) Q.
Proof. intros Hm Hf p. rewrite eval_bind. apply Hf, Hm. Qed.
Lemma yields_any {A} (m : ST P A) : yields m (λ _, True).
Proof. done. Qed.

Lemma read_elements_length {T} (U : ST P (option T)) n v :
  yields (read_elements U n v) (λ r, (List.length r.2 ≤ List.length v + n)%nat).
Proof.
  revert v. induction n as [|n IH]; intros v; cbn [read_elements].
  { apply yields_ret. cbn. lia. }
  eapply yields_bind; [apply yields_any|]. intros [x|] _.
  - intros p. specialize (IH (v ++ [x]) p). rewrite length_app in IH. cbn in *. lia.
  - apply yields_ret. cbn. lia.
Qed.
Lemma read_sized_length {T} (U : ST P (option T)) size :
  yields (read_sized U size []) (λ r, (List.length r.2 ≤ 128)%nat).
Proof.
  unfold read_sized, MIN_VECTOR_SIZE, MAX_VECTOR_SIZE. case_if; breflect.
  { apply yields_ret. cbn. lia. }
  intros p. pose proof (read_elements_length U (Z.to_nat size) [] p) as Hl. cbn [List.length] in Hl.
  rewrite Z.gtb_ltb in *. breflect. lia.
Qed.
Lemma read_vector_length {T} (U : ST P (option T)) :
  yields (read_vector U []) (λ r, (List.length r.2 ≤ 128)%nat).
Proof. eapply yields_bind; [apply yields_any|]. intros size _. apply read_sized_length. Qed.

Lemma yields_unmarshal {T} (read : T → ST P (bool * T)) d (Q : T → Prop) :
  yields (read d) (λ r, Q r.2) → yields (unmarshal read d) (λ o, ∀ x, o = Some x → Q x).
Proof.
  intros Hr. unfold unmarshal. eapply yields_bind; [apply yields_any|]. intros created _.
  destruct created; cbn [negb]; [|by apply yields_ret].
  eapply yields_bind; [exact Hr|]. intros [ok x] Hx. destruct ok; apply yields_ret; [|done].
  by intros y [= <-].
Qed.

(** Skip the scalar reads up to the next vector. *)
Ltac yields_step :=
  cbn beta iota zeta delta [negb fst snd];
  first
    [ eapply yields_bind; [apply read_vector_length | intros [? ?] ?; cbn [fst snd] in *]
    | eapply yields_bind; [apply read_sized_length | intros [? ?] ?; cbn [fst snd] in *]
    | eapply yields_bind; [apply yields_any | intros ? _]
    | case_if | apply yields_ret; cbn; by auto with lia ].

(** Whatever bytes a caller sends, no unmarshalled object holds a vector
    of more than 128 elements; nothing is assumed about the parcel. *)
Theorem unmarshalled_vectors_bounded :
  yields TaskBodyParcel.Unmarshalling (λ o, ∀ x, o = Some x →
    (List.length (TaskBody.errorMessages x) ≤ 128)%nat ∧
    (List.length (TaskBody.versionComponents x) ≤ 128)%nat) ∧
  yields BusinessErrorParcel.Unmarshalling (λ o, ∀ x, o = Some x →
    (List.length (BusinessError.data x) ≤ 128)%nat) ∧
  yields CurrentVersionInfoParcel.Unmarshalling (λ o, ∀ x, o = Some x →
    (List.length (CurrentVersionInfo.versionComponents x) ≤ 128)%nat) ∧
  yields NewVersionInfoParcel.Unmarshalling (λ o, ∀ x, o = Some x →
    (List.length (NewVersionInfo.versionComponents x) ≤ 128)%nat) ∧
  yields CheckResultParcel.Unmarshalling (λ o, ∀ x, o = Some x →
    (List.length (NewVersionInfo.versionComponents (CheckResult.newVersionInfo x)) ≤ 128)%nat) ∧
  yields VersionDescriptionInfoParcel.Unmarshalling (λ o, ∀ x, o = Some x →
    (List.length (VersionDescriptionInfo.componentDescriptions x) ≤ 128)%nat).
Proof.
  split_and!; apply yields_unmarshal; repeat yields_step.
Qed.
(** A failed write of a vector element goes unnoticed: these functions
    report success for every parcel, full ones included. *)
Theorem unchecked_marshalling_reports_success p :
  (∀ x, eval (ErrorMessageParcel.Marshalling x) p = true) ∧
  (∀ x, eval (VersionComponentParcel.Marshalling x) p = true) ∧
  (∀ x, eval (ComponentDescriptionParcel.Marshalling x) p = true) ∧
  (∀ x, eval (VersionDescriptionInfoParcel.Marshalling x) p = true) ∧
  (∀ x, eval (TaskBodyParcel.Marshalling x) p = true).
Proof.
  split_and!; intros x;
    unfold ErrorMessageParcel.Marshalling, VersionComponentParcel.Marshalling,
      ComponentDescriptionParcel.Marshalling, VersionDescriptionInfoParcel.Marshalling,
      TaskBodyParcel.Marshalling; st_simpl; done.
Qed.

End untrusted.

(** ** Round trips and the size limit *)
Section roundtrip.
Context {P : Type} `{ParcelLaws P} `{StringEx}.

(** C25: Every parcelable structure that is written to a parcel with room for
    it is read back unchanged and leaves the parcel empty, provided its
    strings survive the UTF-16 conversion, its numbers fit their fields and
    its vectors have at most 128 elements ([wf]). *)
Theorem parcel_roundtrip :
  roundtrips (P := P) EventInfoParcel.Marshalling EventInfoParcel.Unmarshalling ∧
  roundtrips (P := P) TaskInfoParcel.Marshalling TaskInfoParcel.Unmarshalling ∧
  roundtrips (P := P) TaskBodyParcel.Marshalling TaskBodyParcel.Unmarshalling ∧
  roundtrips (P := P) CheckResultParcel.Marshalling CheckResultParcel.Unmarshalling ∧
  roundtrips (P := P) NewVersionInfoParcel.Marshalling NewVersionInfoParcel.Unmarshalling ∧
  roundtrips (P := P) CurrentVersionInfoParcel.Marshalling CurrentVersionInfoParcel.Unmarshalling ∧
  roundtrips (P := P) VersionDescriptionInfoParcel.Marshalling VersionDescriptionInfoParcel.Unmarshalling ∧
  roundtrips (P := P) BusinessErrorParcel.Marshalling BusinessErrorParcel.Unmarshalling ∧
  roundtrips (P := P) UpgradeInfoParcel.Marshalling UpgradeInfoParcel.Unmarshalling ∧
  roundtrips (P := P) UpgradePolicyParcel.Marshalling UpgradePolicyParcel.Unmarshalling ∧
  roundtrips (P := P) DownloadOptionsParcel.Marshalling DownloadOptionsParcel.Unmarshalling ∧
  roundtrips (P := P) UpgradeOptionsParcel.Marshalling UpgradeOptionsParcel.Unmarshalling ∧
  roundtrips (P := P) ClearOptionsParcel.Marshalling ClearOptionsParcel.Unmarshalling ∧
  roundtrips (P := P) PauseDownloadOptionsParcel.Marshalling PauseDownloadOptionsParcel.Unmarshalling ∧
  roundtrips (P := P) ResumeDownloadOptionsParcel.Marshalling ResumeDownloadOptionsParcel.Unmarshalling ∧
  roundtrips (P := P) DescriptionOptionsParcel.Marshalling DescriptionOptionsParcel.Unmarshalling ∧
  roundtrips (P := P) FactoryResetStrategyParcel.Marshalling FactoryResetStrategyParcel.Unmarshalling ∧
  roundtrips (P := P) FactoryResetInfoParcel.Marshalling FactoryResetInfoParcel.Unmarshalling.
Proof. split_and!; apply codec_roundtrips. Qed.

(** The writer does not know the reader's limit: a version with more than
    128 components is marshalled with success, and its receiver gets nothing. *)
Theorem oversized_vector_lost x p :
  (128 < List.length (NewVersionInfo.versionComponents x))%nat →
  Z.of_nat (List.length (NewVersionInfo.versionComponents x)) ≤ INT32_MAX →
  convertible (VersionDigestInfo.versionDigest (NewVersionInfo.versionDigestInfo x)) →
  pending p = [] → memory p →
  room p (encode NewVersionInfoParcel.Marshalling NewVersionInfoParcel.Unmarshalling x) →
  eval (NewVersionInfoParcel.Marshalling x) p = true ∧
  eval NewVersionInfoParcel.Unmarshalling (exec (NewVersionInfoParcel.Marshalling x) p) = None.
Proof.
  intros Hl Hmax Hd Hp Hm Hr. destruct x as [[d] v]. cbn in Hl, Hmax, Hd.
  rewrite <- (app_nil_r (encode _ _ _)) in Hr.
  destruct (marshal_writes _ p [] Hr) as (Hw & Hpend & _ & Hmem). split; [done|].
  specialize (Hmem Hm). rewrite Hp in Hpend. revert Hpend Hmem. generalize (exec (NewVersionInfoParcel.Marshalling {| NewVersionInfo.versionDigestInfo := {| VersionDigestInfo.versionDigest := d |}; NewVersionInfo.versionComponents := v |}) p) as q.
  intros q Hq Hmq. cbn -[encode_vector] in Hq. unfold NewVersionInfoParcel.Unmarshalling, unmarshal.
  rewrite eval_bind. destruct (nothrow_new_ok q Hmq) as (-> & Hq' & Hmq'). cbn [negb].
  rewrite Hq in Hq'. revert Hq' Hmq'. generalize (exec nothrow_new q) as r. intros r Hr' Hmr.
  rewrite eval_bind. unfold NewVersionInfoParcel.ReadFromParcel.
  destruct (reads_string d Hd r _ Hmr Hr') as (He1 & Hp1 & Hm1).
  unfold read_vector. rewrite !eval_bind, He1.
  destruct (ReadInt32_ok _ _ _ Hm1 Hp1) as (He2 & _ & _).
  rewrite He2, to_int32_id by (unfold_widths; lia).
  unfold read_sized, MIN_VECTOR_SIZE, MAX_VECTOR_SIZE. rewrite Z.gtb_ltb, (proj2 (Z.ltb_lt 128 _)) by lia.
  rewrite orb_true_r. done.
Qed.

(** [reports m l]: [m] writes a prefix of the items [l], and returns true
    exactly when it wrote them all. *)
Definition reports (m : ST P bool) (l : list Item) : Prop :=
  ∀ p, ∃ n, (n ≤ List.length l)%nat ∧ pending (exec m p) = pending p ++ take n l ∧
    (eval m p = true ↔ n = List.length l).

Lemma reports_ret : reports (ret true) [].
Proof. intros p. exists 0%nat. cbn. by rewrite app_nil_r. Qed.
Lemma reports_checked i m l : reports m l → reports (checked (Write i) m) (i :: l).
Proof.
  intros Hm p. unfold checked. rewrite exec_bind, eval_bind. pose proof (Write_pending p i) as Hp.
  destruct (eval (Write i) p); cbn [negb].
  - destruct (Hm (exec (Write i) p)) as (n & Hn & Hp' & He). exists (S n). cbn.
    rewrite Hp', Hp, <- app_assoc. split_and!; [lia|done|]. rewrite He. lia.
  - exists 0%nat. rewrite exec_ret, eval_ret, Hp, app_nil_r. cbn. split_and!; [lia|done|]. lia.
Qed.

(** The types that check every write report the truth: [Marshalling]
    writes a prefix of the encoding into any parcel, and returns true exactly
    when it wrote all of it. *)
Theorem checked_marshalling_sound :
  (∀ x, reports (UpgradeInfoParcel.Marshalling x)
          (encode UpgradeInfoParcel.Marshalling UpgradeInfoParcel.Unmarshalling x)) ∧
  (∀ x, reports (DownloadOptionsParcel.Marshalling x)
          (encode DownloadOptionsParcel.Marshalling DownloadOptionsParcel.Unmarshalling x)) ∧
  (∀ x, reports (UpgradeOptionsParcel.Marshalling x)
          (encode UpgradeOptionsParcel.Marshalling UpgradeOptionsParcel.Unmarshalling x)) ∧
  (∀ x, reports (ClearOptionsParcel.Marshalling x)
          (encode ClearOptionsParcel.Marshalling ClearOptionsParcel.Unmarshalling x)) ∧
  (∀ x, reports (PauseDownloadOptionsParcel.Marshalling x)
          (encode PauseDownloadOptionsParcel.Marshalling PauseDownloadOptionsParcel.Unmarshalling x)) ∧
  (∀ x, reports (ResumeDownloadOptionsParcel.Marshalling x)
          (encode ResumeDownloadOptionsParcel.Marshalling ResumeDownloadOptionsParcel.Unmarshalling x)) ∧
  (∀ x, reports (DescriptionOptionsParcel.Marshalling x)
          (encode DescriptionOptionsParcel.Marshalling DescriptionOptionsParcel.Unmarshalling x)) ∧
  (∀ x, reports (VersionDigestInfoParcel.Marshalling x)
          (encode VersionDigestInfoParcel.Marshalling VersionDigestInfoParcel.Unmarshalling x)) ∧
  (∀ x, reports (FactoryResetInfoParcel.Marshalling x)
          (encode FactoryResetInfoParcel.Marshalling FactoryResetInfoParcel.Unmarshalling x)) ∧
  (∀ x, reports (FactoryResetStrategyParcel.Marshalling x)
          (encode FactoryResetStrategyParcel.Marshalling FactoryResetStrategyParcel.Unmarshalling x)).
Proof. split_and!; intros x; repeat apply reports_checked; apply reports_ret. Qed.
End roundtrip.

(** ** A parcel of bounded capacity *)
Module QueueParcel.
Record t := { capacity : nat; items : list Item }.

Definition write (i : Item) : ST t bool := λ p,
  if (List.length (items p) <? capacity p)%nat
  then (true, {| capacity := capacity p; items := items p ++ [i] |})
  else (false, p).
(** A typed read takes the head when it has this type, and otherwise returns
    the default value. *)
Definition read {A} (f : Item → option A) (d : A) : ST t A := λ p,
  match items p with
  | i :: k => match f i with
              | Some a => (a, {| capacity := capacity p; items := k |})
              | None => (d, p)
              end
  | [] => (d, p)
  end.

#[global] Instance ops : ParcelOps t := {
  Write := write;
  ReadBool := read (λ i, if i is IBool b then Some b else None) false;
  ReadInt32 := read (λ i, if i is IInt32 z then Some z else None) 0;
  ReadUint32 := read (λ i, if i is IUint32 z then Some z else None) 0;
  ReadUint64 := read (λ i, if i is IUint64 z then Some z else None) 0;
  ReadString16 := read (λ i, if i is IString16 s then Some s else None) [];
  nothrow_new := ret true
}.

#[global, refine] Instance laws : ParcelLaws t := {
  pending := items;
  room p l := (List.length (items p) + List.length l ≤ capacity p)%nat;
  memory _ := True
}.
Proof.
  all: intros p; intros; cbn [Write ReadBool ReadInt32 ReadUint32 ReadUint64 ReadString16 nothrow_new ops];
    unfold eval, exec, write, read, ret in *.
  1: { case_if; breflect; cbn in *; rewrite ?length_app; cbn; [split; [done|lia]|lia]. }
  1: by case_if.
  all: try match goal with H : items _ = _ |- _ => rewrite H end; done.
Defined.

(** Conversion of 7-bit text; other text is refused, as invalid UTF-8 is. *)
#[global] Instance ascii7 : StringEx := {
  Str8ToStr16 s :=
    if forallb (λ c, (nat_of_ascii c <? 128)%nat) (chars s)
    then map (λ c, Z.of_nat (nat_of_ascii c)) (chars s) else [];
  Str16ToStr8 l :=
    if forallb (λ z, (0 <=? z) && (z <? 128)) l then str (map (λ z, ascii_of_nat (Z.to_nat z)) l) else ""
}.
End QueueParcel.

(** ** Witnesses *)

Lemma parcel_roundtrip_witness :
  let e := {| EventInfo.eventId := EventId.EVENT_UPGRADE_FAIL;
              EventInfo.taskBody := {|
                TaskBody.versionDigestInfo := {| VersionDigestInfo.versionDigest := "d1" |};
                TaskBody.status := UpgradeStatus.UPDATE_FAIL; TaskBody.subStatus := 0;
                TaskBody.progress := 100; TaskBody.installMode := InstallMode.NIGHT;
                TaskBody.errorMessages :=
                  [{| ErrorMessage.errorCode := -1; ErrorMessage.errorMessage := "boom" |}];
                TaskBody.versionComponents := [VersionComponent.default] |} |} in
  let p := {| QueueParcel.capacity := 64; QueueParcel.items := [] |} in
  eval EventInfoParcel.Unmarshalling (exec (EventInfoParcel.Marshalling e) p) = Some e.
Proof.
  intros e p. destruct (parcel_roundtrip (P := QueueParcel.t)) as [He _].
  refine (proj1 (proj2 (He e p _ _ _ _))).
  - split; [by apply (bool_decide_unpack _); vm_compute|].
    split; [reflexivity|]. split; [by apply (bool_decide_unpack _); vm_compute|].
    split; (split; [cbn; lia|]); repeat constructor;
      first [reflexivity | by apply (bool_decide_unpack _); vm_compute].
  - reflexivity.
  - exact I.
  - vm_compute. lia.
Defined.

Lemma oversized_vector_lost_witness :
  let x := {| NewVersionInfo.versionDigestInfo := VersionDigestInfo.default;
              NewVersionInfo.versionComponents := repeat VersionComponent.default 129 |} in
  let p := {| QueueParcel.capacity := 2000; QueueParcel.items := [] |} in
  eval (NewVersionInfoParcel.Marshalling x) p = true ∧
  eval NewVersionInfoParcel.Unmarshalling (exec (NewVersionInfoParcel.Marshalling x) p) = None.
Proof.
  intros x p. apply oversized_vector_lost.
  - cbn -[Nat.lt repeat]. rewrite repeat_length. lia.
  - cbn -[repeat]. rewrite repeat_length. unfold INT32_MAX. lia.
  - reflexivity.
  - reflexivity.
  - exact I.
  - vm_compute. lia.
Defined.

(** A full parcel: the event is reported as marshalled, but is not there. *)
Example lost_event :
  let p := {| QueueParcel.capacity := 1; QueueParcel.items := [] |} in
  eval (TaskInfoParcel.Marshalling TaskInfo.default) p = true ∧
  pending (exec (TaskInfoParcel.Marshalling TaskInfo.default) p) = [IBool false].
Proof. vm_compute. done. Qed.
