(* ===== verification/Database.v ===== *)
(** * The relational store

    Models [services/core/ability/sqlite]: [SqliteDb] (one lazily opened store),
    [ITable] (the mapping between a row and a structure) and
    [TableBaseOperator] (insert, delete, query and update of such structures).

    The NativeRdb library is not part of this repository.  Its operations are
    the class [Rdb]; [RdbLaws] states what the code relies on: the tables are
    lists of rows, an operation that reports [E_OK] has the effect of the SQL
    statement it stands for, any other result leaves the tables alone, and while
    the store is [healthy] every operation reports [E_OK]. *)
From Stdlib Require Import ZArith Lia Ascii String.
From stdpp Require Import base tactics list strings gmap.
From S2P Require Import Prelude CppString.

#[local] Open Scope Z_scope.

(** ** The store *)

(** A column value. *)
Inductive Value := VInt (z : Z) | VStr (s : string) | VNull.

(** [NativeRdb::ValuesBucket], and a row of a result set. *)
Definition ValuesBucket : Type := gmap string Value.
Definition Row : Type := gmap string Value.

(** [NativeRdb::RdbPredicates]: a table and the [EqualTo] conditions on it. *)
Record Predicates := { pr_table : string; pr_conds : list (string * string) }.
Definition RdbPredicates (table : string) : Predicates := {| pr_table := table; pr_conds := [] |}.
Definition EqualTo (p : Predicates) (column value : string) : Predicates :=
  {| pr_table := pr_table p; pr_conds := pr_conds p ++ [(column, value)] |}.

Definition E_OK : Z := 0.

Class Rdb (R : Type) := {
  GetRdbStore : ST R bool;                      (* E_OK and a non-null store *)
  DeleteRdbStore : ST R Z;
  ExecuteSql : string → ST R Z;
  BatchInsert : string → list ValuesBucket → ST R Z;
  RdbDelete : Predicates → ST R Z;
  RdbQuery : Predicates → ST R (option (list Row));
  RdbUpdate : ValuesBucket → Predicates → ST R Z;
  (** [ResultSet::GetString], [GetInt] and [GetLong] on a column's value; [None]
      when the out parameter is not assigned. *)
  GetString : Value → option string;
  GetInt : Value → option Z;
  GetLong : Value → option Z
}.

(** SQL equality of a column with a text operand: an integer column converts
    the text. *)
Definition value_is (s : string) (v : Value) : bool :=
  match v with VStr s' => String.eqb s' s | VInt z => String.eqb (to_string z) s | VNull => false end.
Definition row_matches (p : Predicates) (r : Row) : bool :=
  forallb (λ '(c, s), match r !! c with Some v => value_is s v | None => false end) (pr_conds p).

Definition COLUMN_ID : string := "id".

(** The rows an insertion adds: the given values, under ids the store chooses. *)
Definition inserted (vs : list ValuesBucket) (rs : list Row) : Prop :=
  Forall2 (λ v r, ∃ id, r = <[COLUMN_ID := VInt id]> v) vs rs.

Class RdbLaws (R : Type) `{Rdb R} := {
  rows : R → string → list Row;
  healthy : R → Prop;
  GetString_ok s : GetString (VStr s) = Some s;
  GetInt_ok z : GetInt (VInt z) = Some (to_int32 z);
  GetLong_ok z : GetLong (VInt z) = Some z;
  GetRdbStore_ok r : healthy r → eval GetRdbStore r = true;
  GetRdbStore_rows r t : rows (exec GetRdbStore r) t = rows r t;
  GetRdbStore_healthy r : healthy r → healthy (exec GetRdbStore r);
  BatchInsert_ok r t vs : healthy r → eval (BatchInsert t vs) r = E_OK;
  BatchInsert_rows r t vs t' :
    if decide (eval (BatchInsert t vs) r = E_OK ∧ t' = t)
    then ∃ rs, inserted vs rs ∧ rows (exec (BatchInsert t vs) r) t' = rows r t' ++ rs
    else rows (exec (BatchInsert t vs) r) t' = rows r t';
  BatchInsert_healthy r t vs : healthy r → healthy (exec (BatchInsert t vs) r);
  RdbDelete_ok r p : healthy r → eval (RdbDelete p) r = E_OK;
  RdbDelete_rows r p t :
    rows (exec (RdbDelete p) r) t =
    if decide (eval (RdbDelete p) r = E_OK ∧ t = pr_table p)
    then List.filter (λ x, negb (row_matches p x)) (rows r t) else rows r t;
  RdbDelete_healthy r p : healthy r → healthy (exec (RdbDelete p) r);
  RdbUpdate_ok r v p : healthy r → eval (RdbUpdate v p) r = E_OK;
  RdbUpdate_rows r v p t :
    rows (exec (RdbUpdate v p) r) t =
    if decide (eval (RdbUpdate v p) r = E_OK ∧ t = pr_table p)
    then map (λ x, if row_matches p x then v ∪ x else x) (rows r t) else rows r t;
  RdbUpdate_healthy r v p : healthy r → healthy (exec (RdbUpdate v p) r);
  RdbQuery_ok r p : healthy r → eval (RdbQuery p) r = Some (List.filter (row_matches p) (rows r (pr_table p)));
  RdbQuery_rows r p t : rows (exec (RdbQuery p) r) t = rows r t;
  RdbQuery_healthy r p : healthy r → healthy (exec (RdbQuery p) r)
}.

(** ** SqliteDb *)
Module SqliteDb.
(*@ core/ability/sqlite/core/include/sqlite_db.h SqliteDb *)
Record t (R : Type) := { dbStore_ : bool; store : R }.
Arguments dbStore_ {R}.
Arguments store {R}.

Section ops.
Context {R : Type} `{Rdb R}.

(** Run an operation of the library on the store. *)
Definition on_store {A} (m : ST R A) : ST (t R) A := λ s,
  let (a, r) := m (store s) in (a, {| dbStore_ := dbStore_ s; store := r |}).

(*@ core/ability/sqlite/core/src/sqlite_db.cpp SqliteDb::CreateDbStore *)
Definition CreateDbStore (dbStoreDir : string) : ST (t R) bool :=
  if String.eqb dbStoreDir "" then ret false else on_store GetRdbStore.

(*@ core/ability/sqlite/core/src/sqlite_db.cpp SqliteDb::GetDbStore *)
Definition GetDbStore (dbStoreDir : string) : ST (t R) bool :=
  let* opened := gets dbStore_ in
  if opened then ret true
  else
    let* ok := CreateDbStore dbStoreDir in
    modify (λ s, {| dbStore_ := ok; store := store s |}) ;;;
    ret ok.

(*@ core/ability/sqlite/core/src/sqlite_db.cpp SqliteDb::DeleteDbStore *)
Definition DeleteDbStore : ST (t R) bool :=
  let* r := on_store DeleteRdbStore in
  modify (λ s, {| dbStore_ := false; store := store s |}) ;;;
  ret (r =? E_OK).

(*@ core/ability/sqlite/core/src/sqlite_db.cpp SqliteDb::Insert *)
Definition Insert (dir tableName : string) (values : list ValuesBucket) : ST (t R) bool :=
  let* ok := GetDbStore dir in
  if negb ok then ret false
  else let* r := on_store (BatchInsert tableName values) in ret (r =? E_OK).

(*@ core/ability/sqlite/core/src/sqlite_db.cpp SqliteDb::Delete *)
Definition Delete (dir : string) (predicates : Predicates) : ST (t R) bool :=
  let* ok := GetDbStore dir in
  if negb ok then ret false
  else let* r := on_store (RdbDelete predicates) in ret (r =? E_OK).

(*@ core/ability/sqlite/core/src/sqlite_db.cpp SqliteDb::Query *)
Definition Query (dir : string) (predicates : Predicates) : ST (t R) (option (list Row)) :=
  let* ok := GetDbStore dir in
  if negb ok then ret None else on_store (RdbQuery predicates).

(*@ core/ability/sqlite/core/src/sqlite_db.cpp SqliteDb::Update *)
Definition Update (dir : string) (values : ValuesBucket) (predicates : Predicates) : ST (t R) bool :=
  let* ok := GetDbStore dir in
  if negb ok then ret false
  else let* r := on_store (RdbUpdate values predicates) in ret (r =? E_OK).
End ops.
End SqliteDb.

(** ** ITable *)

(** [PutColumnValue] for the column types; a row's columns are read into a
    variable that keeps its value when the column is missing. *)
Section columns.
Context {R : Type} `{Rdb R}.

(** A C++ string, 32-bit, 64-bit or boolean value as a column value. *)
(*@ core/ability/sqlite/core/include/itable.h:79-82 PutColumnValue *)
Definition put_string (s : string) : Value := VStr s.
(*@ core/ability/sqlite/core/include/itable.h:84-87 PutColumnValue *)
Definition put_int (z : Z) : Value := VInt z.
(*@ core/ability/sqlite/core/include/itable.h:89-92 PutColumnValue *)
Definition put_long (z : Z) : Value := VInt z.
(*@ core/ability/sqlite/core/include/itable.h:99-103 PutColumnValue *)
Definition put_bool (b : bool) : Value := VInt (if b then 1 else 0).

(** [GetColumnValue(resultSet, column, value)] *)
(*@ core/ability/sqlite/core/include/itable.h GetColumnValue *)
Definition GetColumnValue {T} (get : Value → option T) (row : Row) (column : string) (value : T) : T :=
  match row !! column with
  | None => value
  | Some v => match get v with Some x => x | None => value end
  end.
(*@ core/ability/sqlite/core/include/itable.h:109-112 GetIndexValue *)
Definition get_string := GetColumnValue GetString.
(*@ core/ability/sqlite/core/include/itable.h:114-117 GetIndexValue *)
Definition get_int := GetColumnValue GetInt.
(*@ core/ability/sqlite/core/include/itable.h:119-122 GetIndexValue *)
Definition get_long := GetColumnValue GetLong.
(** The boolean variant starts from 0, not from the old value. *)
(*@ core/ability/sqlite/core/include/itable.h:129-135 GetIndexValue *)
Definition get_bool (row : Row) (column : string) (value : bool) : bool :=
  match row !! column with
  | None => value
  | Some v => negb (default 0 (GetInt v) =? 0)
  end.
End columns.

(** The two virtual functions of a table, and the value [T value;] starts from. *)
Class ITable (R : Type) `{Rdb R} (T : Type) := {
  GetTableName : string;
  initial : T;
  ParseDbValue : Row → T → T;
  BuildDbValue : T → ValuesBucket
}.
Arguments GetTableName R {_} T {_}.

Section itable.
Context {R : Type} `{Rdb R} {T : Type} `{!ITable R T}.

(*@ core/ability/sqlite/core/include/itable.h ParseDbValues *)
Fixpoint ParseDbValues (resultSet : list Row) (values : list T) : list T :=
  match resultSet with
  | [] => values
  | row :: rest => ParseDbValues rest (values ++ [ParseDbValue row initial])
  end.

(*@ core/ability/sqlite/core/include/itable.h BuildDbValues *)
Definition BuildDbValues (values : list T) : list ValuesBucket := map BuildDbValue values.
End itable.

(** ** TableBaseOperator *)
Module TableBaseOperator.
Section ops.
Context {R : Type} `{Rdb R} (T : Type) `{!ITable R T} (dir : string).

(*@ core/ability/sqlite/core/include/table_base_operator.h:71-80 Insert *)
Definition Insert (values : list T) : ST (SqliteDb.t R) bool :=
  SqliteDb.Insert dir (GetTableName R T) (BuildDbValues values).
(*@ core/ability/sqlite/core/include/table_base_operator.h:103-108 Delete *)
Definition Delete (predicates : Predicates) : ST (SqliteDb.t R) bool :=
  SqliteDb.Delete dir predicates.
(*@ core/ability/sqlite/core/include/table_base_operator.h:82-94 DeleteAll *)
Definition DeleteAll : ST (SqliteDb.t R) bool := Delete (RdbPredicates (GetTableName R T)).
(*@ core/ability/sqlite/core/include/table_base_operator.h:110-118 DeleteById *)
Definition DeleteById (id : Z) : ST (SqliteDb.t R) bool :=
  Delete (EqualTo (RdbPredicates (GetTableName R T)) COLUMN_ID (to_string id)).
(** The result and the vector, which starts as [results]. *)
(*@ core/ability/sqlite/core/include/table_base_operator.h:127-138 Query *)
Definition Query (results : list T) (predicates : Predicates) : ST (SqliteDb.t R) (bool * list T) :=
  let* resultSet := SqliteDb.Query dir predicates in
  match resultSet with
  | None => ret (false, results)
  | Some rs => ret (true, ParseDbValues rs results)
  end.
(*@ core/ability/sqlite/core/include/table_base_operator.h:120-125 QueryAll *)
Definition QueryAll (results : list T) : ST (SqliteDb.t R) (bool * list T) :=
  Query results (RdbPredicates (GetTableName R T)).
(*@ core/ability/sqlite/core/include/table_base_operator.h:148-154 Update *)
Definition Update (values : ValuesBucket) (predicates : Predicates) : ST (SqliteDb.t R) bool :=
  SqliteDb.Update dir values predicates.
End ops.
End TableBaseOperator.

(** ** What the operations do to the tables *)

(** The rows of a table, and a store that works. *)
Definition table_rows {R} `{RdbLaws R} (s : SqliteDb.t R) (t : string) : list Row :=
  rows (SqliteDb.store s) t.
Definition ready {R} `{RdbLaws R} (s : SqliteDb.t R) : Prop := healthy (SqliteDb.store s).

Create HintDb db.

Section store_lemmas.
Context {R : Type} `{RdbLaws R} (dir : string).

Lemma on_store_exec {A} (m : ST R A) s :
  SqliteDb.store (exec (SqliteDb.on_store m) s) = exec m (SqliteDb.store s).
Proof. unfold exec, SqliteDb.on_store. by destruct (m _). Qed.
Lemma on_store_eval {A} (m : ST R A) s :
  eval (SqliteDb.on_store m) s = eval m (SqliteDb.store s).
Proof. unfold eval, SqliteDb.on_store. by destruct (m _). Qed.

Lemma GetDbStore_rows s t : table_rows (exec (SqliteDb.GetDbStore dir) s) t = table_rows s t.
Proof.
  unfold SqliteDb.GetDbStore, SqliteDb.CreateDbStore, table_rows. st_simpl.
  destruct (SqliteDb.dbStore_ s); st_simpl; [done|]. cbn. case_if; st_simpl; [done|].
  by rewrite on_store_exec, GetRdbStore_rows.
Qed.
Lemma GetDbStore_ready s : ready s → ready (exec (SqliteDb.GetDbStore dir) s).
Proof.
  unfold SqliteDb.GetDbStore, SqliteDb.CreateDbStore, ready. intros Hs. st_simpl.
  destruct (SqliteDb.dbStore_ s); st_simpl; [done|]. cbn. case_if; st_simpl; [done|].
  rewrite on_store_exec. by apply GetRdbStore_healthy.
Qed.
Lemma GetDbStore_ok s : dir ≠ "" → ready s → eval (SqliteDb.GetDbStore dir) s = true.
Proof.
  intros Hd Hs. unfold SqliteDb.GetDbStore, SqliteDb.CreateDbStore. st_simpl.
  destruct (SqliteDb.dbStore_ s) eqn:E; st_simpl; [done|].
  rewrite (proj2 (String.eqb_neq _ _) Hd). st_simpl. rewrite on_store_eval.
  by apply GetRdbStore_ok.
Qed.

(** An operation of the library behind the lazily opened store. *)
Definition guarded (m : ST R Z) : ST (SqliteDb.t R) bool :=
  let* ok := SqliteDb.GetDbStore dir in
  if negb ok then ret false else let* r := SqliteDb.on_store m in ret (r =? E_OK).

(** It has the effect [f] on the tables exactly when it reports success. *)
Lemma guarded_rows m (f : string → list Row → list Row) :
  (∀ r t, rows (exec m r) t = if decide (eval m r = E_OK) then f t (rows r t) else rows r t) →
  ∀ s t, table_rows (exec (guarded m) s) t =
    if eval (guarded m) s then f t (table_rows s t) else table_rows s t.
Proof.
  intros Hm s t. unfold guarded. st_simpl. rewrite <- (GetDbStore_rows s t).
  destruct (eval (SqliteDb.GetDbStore dir) s) eqn:E; cbn [negb]; st_simpl; [|done].
  unfold table_rows. rewrite on_store_exec, on_store_eval, Hm.
  destruct (decide _) as [->|Hn]; [done|]. by rewrite (proj2 (Z.eqb_neq _ _) Hn).
Qed.
Lemma guarded_ok m s :
  (∀ r, healthy r → eval m r = E_OK) → dir ≠ "" → ready s → eval (guarded m) s = true.
Proof.
  intros Hm Hd Hs. unfold guarded. st_simpl. rewrite GetDbStore_ok by done. cbn [negb]. st_simpl.
  rewrite on_store_eval, Hm by (by apply GetDbStore_ready). done.
Qed.
Lemma guarded_ready m s :
  (∀ r, healthy r → healthy (exec m r)) → ready s → ready (exec (guarded m) s).
Proof.
  intros Hm Hs. unfold guarded. st_simpl. apply GetDbStore_ready in Hs.
  case_if; st_simpl; [done|]. unfold ready. rewrite on_store_exec. by apply Hm.
Qed.

(** The update and delete statements, as functions on the rows of table [t]. *)
Definition updated (v : ValuesBucket) (p : Predicates) (t : string) (rs : list Row) : list Row :=
  if decide (t = pr_table p) then map (λ x, if row_matches p x then v ∪ x else x) rs else rs.
Definition deleted (p : Predicates) (t : string) (rs : list Row) : list Row :=
  if decide (t = pr_table p) then List.filter (λ x, negb (row_matches p x)) rs else rs.

Lemma Update_rows v p s t :
  table_rows (exec (SqliteDb.Update dir v p) s) t =
  if eval (SqliteDb.Update dir v p) s then updated v p t (table_rows s t) else table_rows s t.
Proof.
  apply (guarded_rows (RdbUpdate v p) (updated v p)). intros r u. rewrite RdbUpdate_rows. unfold updated.
  destruct (decide (eval _ r = E_OK)), (decide (u = pr_table p)); repeat case_decide; naive_solver.
Qed.
Lemma Delete_rows p s t :
  table_rows (exec (SqliteDb.Delete dir p) s) t =
  if eval (SqliteDb.Delete dir p) s then deleted p t (table_rows s t) else table_rows s t.
Proof.
  apply (guarded_rows (RdbDelete p) (deleted p)). intros r u. rewrite RdbDelete_rows. unfold deleted.
  destruct (decide (eval _ r = E_OK)), (decide (u = pr_table p)); repeat case_decide; naive_solver.
Qed.
Lemma Update_ok v p s : dir ≠ "" → ready s → eval (SqliteDb.Update dir v p) s = true.
Proof. apply (guarded_ok (RdbUpdate v p)). intros. by apply RdbUpdate_ok. Qed.
Lemma Delete_ok p s : dir ≠ "" → ready s → eval (SqliteDb.Delete dir p) s = true.
Proof. apply (guarded_ok (RdbDelete p)). intros. by apply RdbDelete_ok. Qed.
Lemma Insert_ok t vs s : dir ≠ "" → ready s → eval (SqliteDb.Insert dir t vs) s = true.
Proof. apply (guarded_ok (BatchInsert t vs)). intros. by apply BatchInsert_ok. Qed.
Lemma Update_ready v p s : ready s → ready (exec (SqliteDb.Update dir v p) s).
Proof. apply (guarded_ready (RdbUpdate v p)). intros. by apply RdbUpdate_healthy. Qed.
Lemma Delete_ready p s : ready s → ready (exec (SqliteDb.Delete dir p) s).
Proof. apply (guarded_ready (RdbDelete p)). intros. by apply RdbDelete_healthy. Qed.
Lemma Insert_ready t vs s : ready s → ready (exec (SqliteDb.Insert dir t vs) s).
Proof. apply (guarded_ready (BatchInsert t vs)). intros. by apply BatchInsert_healthy. Qed.

Lemma Insert_rows t vs s t' :
  dir ≠ "" → ready s →
  ∃ rs, inserted vs rs ∧
    table_rows (exec (SqliteDb.Insert dir t vs) s) t' =
    table_rows s t' ++ if decide (t' = t) then rs else [].
Proof.
  intros Hd Hs. unfold SqliteDb.Insert. st_simpl. rewrite GetDbStore_ok by done. cbn [negb]. st_simpl.
  unfold table_rows. rewrite on_store_exec. fold (table_rows s t').
  pose proof (BatchInsert_rows (SqliteDb.store (exec (SqliteDb.GetDbStore dir) s)) t vs t') as Hr.
  rewrite BatchInsert_ok in Hr by (by apply GetDbStore_ready).
  change (rows (SqliteDb.store ?x) ?y) with (table_rows x y) in Hr. rewrite GetDbStore_rows in Hr.
  destruct (decide (t' = t)) as [Ht|Ht].
  - rewrite decide_True in Hr by done. exact Hr.
  - rewrite decide_False in Hr by naive_solver.
    exists (map (λ v, <[COLUMN_ID := VInt 0]> v) vs). split; [|by rewrite Hr, app_nil_r].
    unfold inserted. rewrite Forall2_fmap_r. apply Forall_Forall2_diag, Forall_true. eauto.
Qed.

Lemma Query_result p s :
  dir ≠ "" → ready s →
  eval (SqliteDb.Query dir p) s = Some (List.filter (row_matches p) (table_rows s (pr_table p))).
Proof.
  intros Hd Hs. unfold SqliteDb.Query. st_simpl. rewrite GetDbStore_ok by done. cbn [negb].
  rewrite on_store_eval, RdbQuery_ok by (by apply GetDbStore_ready).
  change (rows (SqliteDb.store ?x) ?y) with (table_rows x y). by rewrite GetDbStore_rows.
Qed.
Lemma Query_rows p s t : table_rows (exec (SqliteDb.Query dir p) s) t = table_rows s t.
Proof.
  unfold SqliteDb.Query. st_simpl. rewrite <- (GetDbStore_rows s t). case_if; st_simpl; [done|].
  unfold table_rows. by rewrite on_store_exec, RdbQuery_rows.
Qed.
Lemma Query_ready p s : ready s → ready (exec (SqliteDb.Query dir p) s).
Proof.
  intros Hs. unfold SqliteDb.Query. st_simpl. apply GetDbStore_ready in Hs. case_if; st_simpl; [done|].
  unfold ready. rewrite on_store_exec. by apply RdbQuery_healthy.
Qed.

Lemma ParseDbValues_map {T} `{!ITable R T} rs (vs : list T) :
  ParseDbValues rs vs = vs ++ map (λ r, ParseDbValue r initial) rs.
Proof.
  revert vs. induction rs as [|r rs IH]; intros vs; cbn; [by rewrite app_nil_r|].
  by rewrite IH, <- app_assoc.
Qed.
End store_lemmas.
#[export] Hint Resolve Update_ready Delete_ready Insert_ready Query_ready Update_ok Delete_ok Insert_ok : db.

(** ** The abstract view of a table

    [represents r x]: row [r] holds the structure [x].  A table then stands for a
    list of structures, and every operation for a function on that list. *)
Class Stored (R : Type) `{RdbLaws R} (T : Type) `{!ITable R T} := {
  represents : Row → T → Prop;
  wf_value : T → Prop;
  normal : T → T;
  with_id : Z → T → T;
  parse_represents r x : represents r x → ParseDbValue r initial = normal x;
  insert_represents x id : wf_value x → represents (<[COLUMN_ID := VInt id]> (BuildDbValue x)) (with_id id x)
}.

Definition holds {R} `{RdbLaws R} {T} `{!ITable R T, !Stored R T} (s : SqliteDb.t R) (xs : list T) : Prop :=
  Forall2 represents (table_rows s (GetTableName R T)) xs.

Section table_lemmas.
Context {R : Type} `{RdbLaws R} {T : Type} `{!ITable R T, !Stored R T} (dir : string).

Lemma holds_Update v p (upd : T → T) (sel : T → bool) s xs :
  pr_table p = GetTableName R T →
  (∀ r x, represents r x → represents (v ∪ r) (upd x)) →
  (∀ r x, represents r x → row_matches p r = sel x) →
  holds s xs →
  holds (exec (TableBaseOperator.Update dir v p) s)
    (if eval (TableBaseOperator.Update dir v p) s
     then map (λ x, if sel x then upd x else x) xs else xs).
Proof.
  intros Hp Hu Hs Hx. unfold holds, TableBaseOperator.Update. rewrite Update_rows. case_if; [|done].
  unfold updated. rewrite decide_True by done. rewrite Forall2_fmap. eapply Forall2_impl; [exact Hx|].
  intros r x Hr. cbn. rewrite (Hs _ _ Hr). destruct (sel x); auto.
Qed.
Lemma other_table_Update v p s t :
  t ≠ pr_table p → table_rows (exec (TableBaseOperator.Update dir v p) s) t = table_rows s t.
Proof.
  intros Ht. unfold TableBaseOperator.Update. rewrite Update_rows. unfold updated. rewrite decide_False by done.
  by case_if.
Qed.

Lemma holds_Insert (x : T) s xs :
  dir ≠ "" → ready s → wf_value x → holds s xs →
  ∃ id, holds (exec (TableBaseOperator.Insert T dir [x]) s) (xs ++ [with_id id x]).
Proof.
  intros Hd Hs Hw Hx. unfold holds, TableBaseOperator.Insert.
  destruct (Insert_rows dir (GetTableName R T) (BuildDbValues [x]) s (GetTableName R T) Hd Hs) as (rs & Hi & ->).
  rewrite decide_True by done. inversion Hi as [|? r ? rs' [id ->] Hi']; subst. inversion Hi'; subst.
  exists id. apply Forall2_app; [done|]. constructor; [by apply insert_represents|done].
Qed.

Lemma holds_InsertAll (ys : list T) s xs :
  dir ≠ "" → ready s → Forall wf_value ys → holds s xs →
  ∃ zs, Forall2 (λ y z, ∃ id, z = with_id id y) ys zs ∧
    holds (exec (TableBaseOperator.Insert T dir ys) s) (xs ++ zs).
Proof.
  intros Hd Hs Hw Hx. unfold holds, TableBaseOperator.Insert.
  destruct (Insert_rows dir (GetTableName R T) (BuildDbValues ys) s (GetTableName R T) Hd Hs) as (rs & Hi & ->).
  rewrite decide_True by done.
  assert (∃ zs, Forall2 (λ y z, ∃ id, z = with_id id y) ys zs ∧ Forall2 represents rs zs) as (zs & Hz & Hr).
  { clear Hx. revert rs Hi. induction Hw as [|y ys Hy Hw IH]; intros rs Hi.
    - inversion Hi; subst. by exists [].
    - inversion Hi as [|? r ? rs' [id ->] Hi']; subst. destruct (IH _ Hi') as (zs & ? & ?).
      exists (with_id id y :: zs). split; constructor; eauto using insert_represents. }
  exists zs. split; [done|]. by apply Forall2_app.
Qed.
Lemma Insert_true (ys : list T) s : dir ≠ "" → ready s → eval (TableBaseOperator.Insert T dir ys) s = true.
Proof. apply Insert_ok. Qed.
Lemma DeleteAll_true s : dir ≠ "" → ready s → eval (TableBaseOperator.DeleteAll T dir) s = true.
Proof. apply Delete_ok. Qed.

Lemma holds_DeleteAll s xs :
  holds s xs →
  holds (exec (TableBaseOperator.DeleteAll T dir) s)
    (if eval (TableBaseOperator.DeleteAll T dir) s then [] else xs).
Proof.
  intros Hx. unfold holds, TableBaseOperator.DeleteAll, TableBaseOperator.Delete. rewrite Delete_rows.
  case_if; [|done]. unfold deleted. rewrite decide_True by done.
  induction (table_rows s (GetTableName R T)); [constructor|done].
Qed.

Lemma filter_all (rs : list Row) t : List.filter (row_matches (RdbPredicates t)) rs = rs.
Proof. induction rs as [|r rs IH]; [done|]. cbn. f_equal. exact IH. Qed.

(** A query by predicate returns the structures that satisfy it, in order. *)
Lemma Query_holds p (sel : T → bool) s xs ys :
  dir ≠ "" → ready s → pr_table p = GetTableName R T →
  (∀ r x, represents r x → row_matches p r = sel x) →
  holds s xs →
  eval (TableBaseOperator.Query T dir ys p) s = (true, ys ++ map normal (List.filter sel xs)).
Proof.
  intros Hd Hs Hp Hm Hx. unfold TableBaseOperator.Query. st_simpl. rewrite Query_result by done.
  st_simpl. rewrite ParseDbValues_map, Hp. do 2 f_equal. unfold holds in Hx.
  induction Hx as [|r x rs xs Hr Hx IH]; [done|]. cbn. rewrite (Hm _ _ Hr).
  destruct (sel x); cbn; [|done]. by rewrite (parse_represents _ _ Hr), IH.
Qed.
Lemma QueryAll_holds s xs ys :
  dir ≠ "" → ready s → holds s xs →
  eval (TableBaseOperator.QueryAll T dir ys) s = (true, ys ++ map normal xs).
Proof.
  intros Hd Hs Hx. unfold TableBaseOperator.QueryAll.
  rewrite (Query_holds _ (λ _, true) s xs) by done. do 2 f_equal.
  f_equal. apply filter_true.
Qed.

(** A query changes nothing. *)
Lemma TableQuery_rows p (ys : list T) s t :
  table_rows (exec (TableBaseOperator.Query T dir ys p) s) t = table_rows s t.
Proof.
  unfold TableBaseOperator.Query. rewrite exec_bind, <- (Query_rows dir p s t). by destruct (eval _ s).
Qed.
Lemma TableQuery_ready p (ys : list T) s : ready s → ready (exec (TableBaseOperator.Query T dir ys p) s).
Proof.
  intros Hs. unfold TableBaseOperator.Query. rewrite exec_bind. apply (Query_ready dir p) in Hs.
  by destruct (eval _ s).
Qed.

(** Inserting into a table, or emptying it, leaves the other tables alone. *)
Lemma other_table_Insert (ys : list T) s t :
  dir ≠ "" → ready s → t ≠ GetTableName R T →
  table_rows (exec (TableBaseOperator.Insert T dir ys) s) t = table_rows s t.
Proof.
  intros Hd Hs Ht. unfold TableBaseOperator.Insert.
  destruct (Insert_rows dir (GetTableName R T) (BuildDbValues ys) s t Hd Hs) as (rs & _ & ->).
  rewrite decide_False by done. apply app_nil_r.
Qed.
Lemma other_table_DeleteAll s t :
  t ≠ GetTableName R T → table_rows (exec (TableBaseOperator.DeleteAll T dir) s) t = table_rows s t.
Proof.
  intros Ht. unfold TableBaseOperator.DeleteAll, TableBaseOperator.Delete. rewrite Delete_rows.
  unfold deleted. rewrite decide_False by done. by case_if.
Qed.
End table_lemmas.
