(* ===== verification/DownloadData.v ===== *)
(** * Data of the download service

    Models the structures of [core/ability/download]: [DownloadInfo] and its
    state predicates, the progress structures passed to the users of the service,
    [DownloadTaskProgressProcessor], which combines the packages of a task into
    one progress, and the table that stores the packages. *)
From Stdlib Require Import ZArith Lia Ascii String.
From stdpp Require Import base tactics list strings gmap sorting.
From S2P Require Import Prelude CppString StringUtils Json Models Database FirmwareDb.

#[local] Open Scope Z_scope.

(** ** Enumerations and structures *)

Module DownloadEndReason.
(*@* download/common/include/download_common.h DownloadEndReason *)
Definition INIT : Z := 0.
Definition SUCCESS : Z := 1.
Definition DOWNLOADING : Z := 2.
Definition FAIL : Z := 3.
Definition VERIFY_FAIL : Z := 4.
Definition IO_EXCEPTION : Z := 5.
Definition REDIRECT : Z := 6.
Definition SERVER_TIMEOUT : Z := 7.
Definition PAUSE : Z := 8.
Definition CANCEL : Z := 9.
Definition NO_ENOUGH_MEMORY : Z := 10.
Definition NET_NOT_AVAILIABLE : Z := 11.
Definition DOWNLOAD_INFO_EMPTY : Z := 12.
Definition CURL_ERROR : Z := 13.
Definition SYSTEM_BUSY : Z := 14.
Definition INIT_PACKAGE_FAIL : Z := 15.
Definition NET_CHANGE : Z := 16.
Definition SIZE_ERROR : Z := 17.
Definition FINISH_SIZE_ERROR : Z := 18.
End DownloadEndReason.

Module DownloadStatus.
(*@* download/common/include/download_common.h DownloadStatus *)
Definition INIT : Z := 0.
Definition DOWNLOADING : Z := 20.
Definition PAUSE : Z := 21.
Definition CANCEL : Z := 22.
Definition FAIL : Z := 23.
Definition SUCCESS : Z := 24.
Definition VERIFYING : Z := 25.
Definition AUTO_PAUSE : Z := 26.
End DownloadStatus.

Module DownloadDirType.
(*@* download/common/include/download_common.h DownloadDirType *)
Definition UN_ENCRYPT_DIR : Z := 0.
Definition ENCRYPT_DIR : Z := 1.
End DownloadDirType.

Module RequestMethod.
(*@* core/ability/net/include/network_response.h RequestMethod *)
Definition POST : Z := 0.
Definition GET : Z := 1.
End RequestMethod.

(*@ download/common/include/download_common.h:28-28 DOWNLOAD_MAX_PERCENT *)
Definition DOWNLOAD_MAX_PERCENT : Z := 100.

(*@ download/common/include/download_common.h DownloadCallResult *)
Inductive DownloadCallResult := CALL_SUCCESS | CALL_FAIL.
#[export] Instance DownloadCallResult_eq_dec : EqDecision DownloadCallResult.
Proof. solve_decision. Defined.
(*@ download/common/include/download_common.h DownloadResult *)
Inductive DownloadResult := RESULT_OK | RESULT_FAIL.

Module DownloadError.
(*@ download/common/include/download_common.h DownloadError *)
Record t := { endReason : Z; errorNum : DownloadCallResult }.
(*@ download/common/include/download_common.h DownloadError *)
Definition default : t := {| endReason := DownloadEndReason.INIT; errorNum := CALL_SUCCESS |}.
(*@ download/common/include/download_common.h build *)
Definition build (reason : Z) (result : DownloadCallResult) : t := {| endReason := reason; errorNum := result |}.
End DownloadError.

Module DownloadErrorInfo.
(*@ core/ability/download/common/include/download_common.h DownloadErrorInfo *)
Record t := { curlErrorCode : Z; httpErrorCode : Z; header : list string; errorInfo : string }.
(*@ core/ability/download/common/include/download_common.h DownloadErrorInfo *)
Definition default : t := {| curlErrorCode := 0; httpErrorCode := 0; header := []; errorInfo := "" |}.
End DownloadErrorInfo.

Module DownloadCallbackInfo.
(*@ download/common/include/download_common.h DownloadCallbackInfo *)
Record t := {
  downloadId : string;
  downloadedSize : Z;
  startTime : Z;
  endTime : Z;
  effectiveTime : Z;
  status : Z;
  endReason : Z;
  resetRetryTimes : bool;
  downloadErrorInfo : DownloadErrorInfo.t;
  verifiedSize : Z
}.
(*@ download/common/include/download_common.h DownloadCallbackInfo *)
Definition default : t := {|
  downloadId := ""; downloadedSize := 0; startTime := 0; endTime := 0; effectiveTime := 0;
  status := DownloadStatus.DOWNLOADING; endReason := DownloadEndReason.INIT; resetRetryTimes := false;
  downloadErrorInfo := DownloadErrorInfo.default; verifiedSize := 0 |}.
End DownloadCallbackInfo.

Module DownloadInfo.
(*@ download/common/include/download_common.h:139-168 DownloadInfo *)
Record t := {
  id : Z;
  downloadId : string;
  versionId : string;
  taskId : string;
  url : string;
  reserveUrl : string;
  path : string;
  verifyInfo : string;
  header : gmap string string;
  requestBody : string;
  sha256StrategyKey : string;
  endReason : Z;
  status : Z;
  dirType : Z;
  netType : Z;
  method : Z;
  retryTimes : Z;
  packageSize : Z;
  downloadedSize : Z;
  startTime : Z;
  endTime : Z;
  effectiveTime : Z;
  isNeedAutoResume : bool;
  downloadErrorInfo : DownloadErrorInfo.t;
  isConcurrentLimited : bool;
  isCombineVerifyProgress : bool;
  verifiedSize : Z;
  isIgnoredFail : bool;
  reportInterval : Z
}.
(*@ download/common/include/download_common.h:139-168 DownloadInfo *)
Definition default : t := {|
  id := 0;
  downloadId := "";
  versionId := "";
  taskId := "";
  url := "";
  reserveUrl := "";
  path := "";
  verifyInfo := "";
  header := ∅;
  requestBody := "";
  sha256StrategyKey := "";
  endReason := DownloadEndReason.INIT;
  status := DownloadStatus.INIT;
  dirType := DownloadDirType.UN_ENCRYPT_DIR;
  netType := NetType.NOT_METERED_WIFI;
  method := RequestMethod.GET;
  retryTimes := 0;
  packageSize := 0;
  downloadedSize := 0;
  startTime := 0;
  endTime := 0;
  effectiveTime := 0;
  isNeedAutoResume := false;
  downloadErrorInfo := DownloadErrorInfo.default;
  isConcurrentLimited := false;
  isCombineVerifyProgress := false;
  verifiedSize := 0;
  isIgnoredFail := false;
  reportInterval := 0 |}.

(** The setters of the fields the service assigns one at a time. *)
Definition set_downloadId (x : string) (this : t) : t := {|
  id := id this;
  downloadId := x;
  versionId := versionId this;
  taskId := taskId this;
  url := url this;
  reserveUrl := reserveUrl this;
  path := path this;
  verifyInfo := verifyInfo this;
  header := header this;
  requestBody := requestBody this;
  sha256StrategyKey := sha256StrategyKey this;
  endReason := endReason this;
  status := status this;
  dirType := dirType this;
  netType := netType this;
  method := method this;
  retryTimes := retryTimes this;
  packageSize := packageSize this;
  downloadedSize := downloadedSize this;
  startTime := startTime this;
  endTime := endTime this;
  effectiveTime := effectiveTime this;
  isNeedAutoResume := isNeedAutoResume this;
  downloadErrorInfo := downloadErrorInfo this;
  isConcurrentLimited := isConcurrentLimited this;
  isCombineVerifyProgress := isCombineVerifyProgress this;
  verifiedSize := verifiedSize this;
  isIgnoredFail := isIgnoredFail this;
  reportInterval := reportInterval this |}.
Definition set_taskId (x : string) (this : t) : t := {|
  id := id this;
  downloadId := downloadId this;
  versionId := versionId this;
  taskId := x;
  url := url this;
  reserveUrl := reserveUrl this;
  path := path this;
  verifyInfo := verifyInfo this;
  header := header this;
  requestBody := requestBody this;
  sha256StrategyKey := sha256StrategyKey this;
  endReason := endReason this;
  status := status this;
  dirType := dirType this;
  netType := netType this;
  method := method this;
  retryTimes := retryTimes this;
  packageSize := packageSize this;
  downloadedSize := downloadedSize this;
  startTime := startTime this;
  endTime := endTime this;
  effectiveTime := effectiveTime this;
  isNeedAutoResume := isNeedAutoResume this;
  downloadErrorInfo := downloadErrorInfo this;
  isConcurrentLimited := isConcurrentLimited this;
  isCombineVerifyProgress := isCombineVerifyProgress this;
  verifiedSize := verifiedSize this;
  isIgnoredFail := isIgnoredFail this;
  reportInterval := reportInterval this |}.
Definition set_downloadedSize (x : Z) (this : t) : t := {|
  id := id this;
  downloadId := downloadId this;
  versionId := versionId this;
  taskId := taskId this;
  url := url this;
  reserveUrl := reserveUrl this;
  path := path this;
  verifyInfo := verifyInfo this;
  header := header this;
  requestBody := requestBody this;
  sha256StrategyKey := sha256StrategyKey this;
  endReason := endReason this;
  status := status this;
  dirType := dirType this;
  netType := netType this;
  method := method this;
  retryTimes := retryTimes this;
  packageSize := packageSize this;
  downloadedSize := x;
  startTime := startTime this;
  endTime := endTime this;
  effectiveTime := effectiveTime this;
  isNeedAutoResume := isNeedAutoResume this;
  downloadErrorInfo := downloadErrorInfo this;
  isConcurrentLimited := isConcurrentLimited this;
  isCombineVerifyProgress := isCombineVerifyProgress this;
  verifiedSize := verifiedSize this;
  isIgnoredFail := isIgnoredFail this;
  reportInterval := reportInterval this |}.
Definition set_packageSize (x : Z) (this : t) : t := {|
  id := id this;
  downloadId := downloadId this;
  versionId := versionId this;
  taskId := taskId this;
  url := url this;
  reserveUrl := reserveUrl this;
  path := path this;
  verifyInfo := verifyInfo this;
  header := header this;
  requestBody := requestBody this;
  sha256StrategyKey := sha256StrategyKey this;
  endReason := endReason this;
  status := status this;
  dirType := dirType this;
  netType := netType this;
  method := method this;
  retryTimes := retryTimes this;
  packageSize := x;
  downloadedSize := downloadedSize this;
  startTime := startTime this;
  endTime := endTime this;
  effectiveTime := effectiveTime this;
  isNeedAutoResume := isNeedAutoResume this;
  downloadErrorInfo := downloadErrorInfo this;
  isConcurrentLimited := isConcurrentLimited this;
  isCombineVerifyProgress := isCombineVerifyProgress this;
  verifiedSize := verifiedSize this;
  isIgnoredFail := isIgnoredFail this;
  reportInterval := reportInterval this |}.
Definition set_status (x : Z) (this : t) : t := {|
  id := id this;
  downloadId := downloadId this;
  versionId := versionId this;
  taskId := taskId this;
  url := url this;
  reserveUrl := reserveUrl this;
  path := path this;
  verifyInfo := verifyInfo this;
  header := header this;
  requestBody := requestBody this;
  sha256StrategyKey := sha256StrategyKey this;
  endReason := endReason this;
  status := x;
  dirType := dirType this;
  netType := netType this;
  method := method this;
  retryTimes := retryTimes this;
  packageSize := packageSize this;
  downloadedSize := downloadedSize this;
  startTime := startTime this;
  endTime := endTime this;
  effectiveTime := effectiveTime this;
  isNeedAutoResume := isNeedAutoResume this;
  downloadErrorInfo := downloadErrorInfo this;
  isConcurrentLimited := isConcurrentLimited this;
  isCombineVerifyProgress := isCombineVerifyProgress this;
  verifiedSize := verifiedSize this;
  isIgnoredFail := isIgnoredFail this;
  reportInterval := reportInterval this |}.
Definition set_netType (x : Z) (this : t) : t := {|
  id := id this;
  downloadId := downloadId this;
  versionId := versionId this;
  taskId := taskId this;
  url := url this;
  reserveUrl := reserveUrl this;
  path := path this;
  verifyInfo := verifyInfo this;
  header := header this;
  requestBody := requestBody this;
  sha256StrategyKey := sha256StrategyKey this;
  endReason := endReason this;
  status := status this;
  dirType := dirType this;
  netType := x;
  method := method this;
  retryTimes := retryTimes this;
  packageSize := packageSize this;
  downloadedSize := downloadedSize this;
  startTime := startTime this;
  endTime := endTime this;
  effectiveTime := effectiveTime this;
  isNeedAutoResume := isNeedAutoResume this;
  downloadErrorInfo := downloadErrorInfo this;
  isConcurrentLimited := isConcurrentLimited this;
  isCombineVerifyProgress := isCombineVerifyProgress this;
  verifiedSize := verifiedSize this;
  isIgnoredFail := isIgnoredFail this;
  reportInterval := reportInterval this |}.
Definition set_retryTimes (x : Z) (this : t) : t := {|
  id := id this;
  downloadId := downloadId this;
  versionId := versionId this;
  taskId := taskId this;
  url := url this;
  reserveUrl := reserveUrl this;
  path := path this;
  verifyInfo := verifyInfo this;
  header := header this;
  requestBody := requestBody this;
  sha256StrategyKey := sha256StrategyKey this;
  endReason := endReason this;
  status := status this;
  dirType := dirType this;
  netType := netType this;
  method := method this;
  retryTimes := x;
  packageSize := packageSize this;
  downloadedSize := downloadedSize this;
  startTime := startTime this;
  endTime := endTime this;
  effectiveTime := effectiveTime this;
  isNeedAutoResume := isNeedAutoResume this;
  downloadErrorInfo := downloadErrorInfo this;
  isConcurrentLimited := isConcurrentLimited this;
  isCombineVerifyProgress := isCombineVerifyProgress this;
  verifiedSize := verifiedSize this;
  isIgnoredFail := isIgnoredFail this;
  reportInterval := reportInterval this |}.
Definition set_urls (url_ reserveUrl_ : string) (this : t) : t := {|
  id := id this;
  downloadId := downloadId this;
  versionId := versionId this;
  taskId := taskId this;
  url := url_;
  reserveUrl := reserveUrl_;
  path := path this;
  verifyInfo := verifyInfo this;
  header := header this;
  requestBody := requestBody this;
  sha256StrategyKey := sha256StrategyKey this;
  endReason := endReason this;
  status := status this;
  dirType := dirType this;
  netType := netType this;
  method := method this;
  retryTimes := retryTimes this;
  packageSize := packageSize this;
  downloadedSize := downloadedSize this;
  startTime := startTime this;
  endTime := endTime this;
  effectiveTime := effectiveTime this;
  isNeedAutoResume := isNeedAutoResume this;
  downloadErrorInfo := downloadErrorInfo this;
  isConcurrentLimited := isConcurrentLimited this;
  isCombineVerifyProgress := isCombineVerifyProgress this;
  verifiedSize := verifiedSize this;
  isIgnoredFail := isIgnoredFail this;
  reportInterval := reportInterval this |}.

(*@ download/common/include/download_common.h UpdateDownloadInfo *)
Definition UpdateDownloadInfo (info : DownloadCallbackInfo.t) (this : t) : t := {|
  id := id this;
  downloadId := downloadId this;
  versionId := versionId this;
  taskId := taskId this;
  url := url this;
  reserveUrl := reserveUrl this;
  path := path this;
  verifyInfo := verifyInfo this;
  header := header this;
  requestBody := requestBody this;
  sha256StrategyKey := sha256StrategyKey this;
  endReason := DownloadCallbackInfo.endReason info;
  status := DownloadCallbackInfo.status info;
  dirType := dirType this;
  netType := netType this;
  method := method this;
  retryTimes := if DownloadCallbackInfo.resetRetryTimes info then 0 else retryTimes this;
  packageSize := packageSize this;
  downloadedSize := DownloadCallbackInfo.downloadedSize info;
  startTime := DownloadCallbackInfo.startTime info;
  endTime := DownloadCallbackInfo.endTime info;
  effectiveTime := DownloadCallbackInfo.effectiveTime info;
  isNeedAutoResume := isNeedAutoResume this;
  downloadErrorInfo := DownloadCallbackInfo.downloadErrorInfo info;
  isConcurrentLimited := isConcurrentLimited this;
  isCombineVerifyProgress := isCombineVerifyProgress this;
  verifiedSize := DownloadCallbackInfo.verifiedSize info;
  isIgnoredFail := isIgnoredFail this;
  reportInterval := reportInterval this |}.
(*@ download/common/include/download_common.h IsCompleted *)
Definition IsCompleted (this : t) : bool :=
  (status this =? DownloadStatus.SUCCESS) || (status this =? DownloadStatus.FAIL).
(*@ download/common/include/download_common.h IsNeedVerify *)
Definition IsNeedVerify (this : t) : bool :=
  (negb (IsCompleted this) && (packageSize this =? downloadedSize this)) || (status this =? DownloadStatus.VERIFYING).
(*@ download/common/include/download_common.h IsManualPaused *)
Definition IsManualPaused (this : t) : bool := status this =? DownloadStatus.PAUSE.
(*@ download/common/include/download_common.h IsPaused *)
Definition IsPaused (this : t) : bool :=
  (status this =? DownloadStatus.PAUSE) || (status this =? DownloadStatus.AUTO_PAUSE).
(*@ download/common/include/download_common.h GetTaskStatus *)
Definition GetTaskStatus (this : t) : Z :=
  if (status this =? DownloadStatus.FAIL) && isIgnoredFail this then DownloadStatus.SUCCESS else status this.
(*@ download/common/include/download_common.h IsRetryAble *)
Definition IsRetryAble (this : t) (maxRetryTimes : Z) : bool := retryTimes this <? maxRetryTimes.
End DownloadInfo.

Module DownloadProgress.
(*@ download/task/include/download_callback.h DownloadProgress *)
Record t := {
  id : string;
  percent : Z;
  startTime : Z;
  endTime : Z;
  effectiveTime : Z;
  status : Z;
  reason : Z;
  downloadErrorInfo : DownloadErrorInfo.t;
  downloadUrl : string;
  packageSize : Z;
  downloadedSize : Z;
  verifiedSize : Z;
  isCombineVerifyProgress : bool
}.
(** The constructor from a [DownloadInfo]; the quotient truncates. *)
(*@ download/task/include/download_callback.h:42-59 DownloadProgress *)
Definition of_info (info : DownloadInfo.t) : t := {|
  id := DownloadInfo.versionId info;
  percent := if DownloadInfo.packageSize info =? 0 then 0
             else to_uint32 (Z.quot (to_int64 (DownloadInfo.downloadedSize info * DOWNLOAD_MAX_PERCENT))
                               (DownloadInfo.packageSize info));
  startTime := DownloadInfo.startTime info;
  endTime := DownloadInfo.endTime info;
  effectiveTime := DownloadInfo.effectiveTime info;
  status := DownloadInfo.status info;
  reason := DownloadInfo.endReason info;
  downloadErrorInfo := DownloadInfo.downloadErrorInfo info;
  downloadUrl := DownloadInfo.url info;
  packageSize := DownloadInfo.packageSize info;
  downloadedSize := DownloadInfo.downloadedSize info;
  verifiedSize := DownloadInfo.verifiedSize info;
  isCombineVerifyProgress := DownloadInfo.isCombineVerifyProgress info |}.
End DownloadProgress.

Module ProgressInfo.
(*@ download/task/include/download_callback.h ProgressInfo *)
Record t := {
  taskProgress : Z;
  taskStatus : Z;
  reason : Z;
  progresses : list DownloadProgress.t;
  packageSize : Z;
  downloadedSize : Z;
  verifiedSize : Z
}.
(*@ download/task/include/download_callback.h ProgressInfo *)
Definition default : t := {|
  taskProgress := 0; taskStatus := DownloadStatus.INIT; reason := DownloadEndReason.INIT; progresses := [];
  packageSize := 0; downloadedSize := 0; verifiedSize := 0 |}.
(*@ download/task/include/download_callback.h IsDownloadFinished *)
Definition IsDownloadFinished (this : t) : bool :=
  (taskStatus this =? DownloadStatus.SUCCESS) || (taskStatus this =? DownloadStatus.FAIL).
(*@ download/task/include/download_callback.h IsTaskCompleted *)
Definition IsTaskCompleted (this : t) : bool :=
  (taskStatus this =? DownloadStatus.SUCCESS) || (taskStatus this =? DownloadStatus.FAIL) ||
  (taskStatus this =? DownloadStatus.CANCEL) || (taskStatus this =? DownloadStatus.AUTO_PAUSE) ||
  (taskStatus this =? DownloadStatus.PAUSE).
(*@ download/task/include/download_callback.h IsSyncCallback *)
Definition IsSyncCallback (this : t) : bool :=
  (taskStatus this =? DownloadStatus.CANCEL) || (taskStatus this =? DownloadStatus.PAUSE).
End ProgressInfo.

(** ** DownloadTaskProgressProcessor

    The packages are shared with the task: every call sees their current state,
    which is the argument [downloadInfos_]. *)
Module DownloadTaskProgressProcessor.
(*@ download/task/include/download_task_progress_processor.h DownloadTaskProgressProcessor *)
Record t := {
  totalInfoSize_ : Z;
  packageSize_ : Z;
  downloadedSize_ : Z;
  verifiedSize_ : Z;
  status_ : Z;
  endReason_ : Z
}.
(*@ task/src/download_task_progress_processor.cpp DownloadTaskProgressProcessor::DownloadTaskProgressProcessor *)
Definition new (downloadInfos : list DownloadInfo.t) : t := {|
  totalInfoSize_ := fold_left (λ n _, to_int32 (n + 1)) downloadInfos 0;
  packageSize_ := fold_left (λ n info, to_int64 (n + DownloadInfo.packageSize info)) downloadInfos 0;
  downloadedSize_ := fold_left (λ n info, to_int64 (n + DownloadInfo.downloadedSize info)) downloadInfos 0;
  verifiedSize_ := 0;
  status_ := DownloadStatus.INIT;
  endReason_ := DownloadEndReason.INIT |}.

(*@ task/src/download_task_progress_processor.cpp DownloadTaskProgressProcessor::GetStatusCount *)
Definition GetStatusCount (countMap : gmap Z Z) (status : Z) : Z := default 0 (countMap !! status).

(*@ task/src/download_task_progress_processor.cpp DownloadTaskProgressProcessor::CalcDownloadTaskStatus *)
Definition CalcDownloadTaskStatus (this : t) (countMap : gmap Z Z) : Z :=
  if GetStatusCount countMap DownloadStatus.SUCCESS =? totalInfoSize_ this then DownloadStatus.SUCCESS
  else if negb (GetStatusCount countMap DownloadStatus.DOWNLOADING =? 0) ||
          negb (GetStatusCount countMap DownloadStatus.VERIFYING =? 0) then DownloadStatus.DOWNLOADING
  else if negb (GetStatusCount countMap DownloadStatus.PAUSE =? 0) then DownloadStatus.PAUSE
  else if negb (GetStatusCount countMap DownloadStatus.AUTO_PAUSE =? 0) then DownloadStatus.AUTO_PAUSE
  else if negb (GetStatusCount countMap DownloadStatus.CANCEL =? 0) then DownloadStatus.CANCEL
  else if negb (GetStatusCount countMap DownloadStatus.FAIL =? 0) then DownloadStatus.FAIL
  else DownloadStatus.DOWNLOADING.

(** The loop of [Update]: the sizes, the counts and the last reason per status. *)
(*@ task/src/download_task_progress_processor.cpp DownloadTaskProgressProcessor::Update *)
Definition Update_step (acc : Z * Z * gmap Z Z * gmap Z Z) (info : DownloadInfo.t) : Z * Z * gmap Z Z * gmap Z Z :=
  let '(downloadSize, verifiedSize, countMap, endReasonMap) := acc in
  let taskStatus := DownloadInfo.GetTaskStatus info in
  (to_int64 (downloadSize + DownloadInfo.downloadedSize info),
   to_int64 (verifiedSize + DownloadInfo.verifiedSize info),
   <[taskStatus := to_int32 (default 0 (countMap !! taskStatus) + 1)]> countMap,
   <[taskStatus := DownloadInfo.endReason info]> endReasonMap).
(*@ task/src/download_task_progress_processor.cpp DownloadTaskProgressProcessor::Update *)
Definition Update (downloadInfos_ : list DownloadInfo.t) (this : t) : t :=
  let '(downloadSize, verifiedSize, countMap, endReasonMap) := fold_left Update_step downloadInfos_ (0, 0, ∅, ∅) in
  let this := {| totalInfoSize_ := totalInfoSize_ this; packageSize_ := packageSize_ this;
                 downloadedSize_ := downloadSize; verifiedSize_ := verifiedSize;
                 status_ := status_ this; endReason_ := endReason_ this |} in
  if GetStatusCount countMap DownloadStatus.INIT =? totalInfoSize_ this then this
  else
    let status := CalcDownloadTaskStatus this countMap in
    {| totalInfoSize_ := totalInfoSize_ this; packageSize_ := packageSize_ this;
       downloadedSize_ := downloadedSize_ this; verifiedSize_ := verifiedSize_ this;
       status_ := status;
       endReason_ := if status =? DownloadStatus.SUCCESS then DownloadEndReason.SUCCESS
                     else default DownloadEndReason.INIT (endReasonMap !! status) |}.

(*@ task/src/download_task_progress_processor.cpp DownloadTaskProgressProcessor::CalcDownloadProgress *)
Definition CalcDownloadProgress (this : t) : Z :=
  if packageSize_ this <=? 0 then 0
  else if packageSize_ this <? downloadedSize_ this then DOWNLOAD_MAX_PERCENT
  else to_int32 (Z.quot (to_int64 (downloadedSize_ this * DOWNLOAD_MAX_PERCENT)) (packageSize_ this)).

(*@ task/src/download_task_progress_processor.cpp DownloadTaskProgressProcessor::GetTaskProgress *)
Definition GetTaskProgress (downloadInfos_ : list DownloadInfo.t) (this : t) : t * ProgressInfo.t :=
  let this := Update downloadInfos_ this in
  (this, {| ProgressInfo.taskProgress := CalcDownloadProgress this;
            ProgressInfo.taskStatus := status_ this;
            ProgressInfo.reason := endReason_ this;
            ProgressInfo.progresses := map DownloadProgress.of_info downloadInfos_;
            ProgressInfo.packageSize := packageSize_ this;
            ProgressInfo.downloadedSize := downloadedSize_ this;
            ProgressInfo.verifiedSize := verifiedSize_ this |}).
End DownloadTaskProgressProcessor.

(** ** The status and the percentage of a task *)
Section task_progress.
Import DownloadTaskProgressProcessor.
Implicit Types (infos : list DownloadInfo.t).

(** How many packages have a status. *)
Definition count_status (st : Z) infos : Z :=
  Z.of_nat (List.length (List.filter (λ i, DownloadInfo.GetTaskStatus i =? st) infos)).
Definition has_status (st : Z) infos : bool := existsb (λ i, DownloadInfo.GetTaskStatus i =? st) infos.
Definition all_status (st : Z) infos : bool := forallb (λ i, DownloadInfo.GetTaskStatus i =? st) infos.

Lemma count_status_nonneg st infos : 0 ≤ count_status st infos ≤ Z.of_nat (List.length infos).
Proof. unfold count_status. pose proof (List.filter_length_le (λ i, DownloadInfo.GetTaskStatus i =? st) infos). lia. Qed.
Lemma count_status_0 st infos : (count_status st infos =? 0) = negb (has_status st infos).
Proof.
  unfold count_status, has_status. induction infos as [|i infos IH]; [done|]. cbn [List.filter existsb].
  destruct (_ =? st); [done|exact IH].
Qed.
Lemma count_status_all st infos : (count_status st infos =? Z.of_nat (List.length infos)) = all_status st infos.
Proof.
  unfold all_status. induction infos as [|i infos IH]; [done|].
  pose proof (count_status_nonneg st infos). unfold count_status in *. cbn [List.filter forallb List.length].
  destruct (_ =? st); cbn [List.length andb]; [rewrite <- IH|]; apply eq_true_iff_eq; rewrite ?Z.eqb_eq; lia.
Qed.

(** The status of a task: the first of these cases that applies. *)
Definition task_status infos : Z :=
  if all_status DownloadStatus.SUCCESS infos then DownloadStatus.SUCCESS
  else if has_status DownloadStatus.DOWNLOADING infos || has_status DownloadStatus.VERIFYING infos
  then DownloadStatus.DOWNLOADING
  else if has_status DownloadStatus.PAUSE infos then DownloadStatus.PAUSE
  else if has_status DownloadStatus.AUTO_PAUSE infos then DownloadStatus.AUTO_PAUSE
  else if has_status DownloadStatus.CANCEL infos then DownloadStatus.CANCEL
  else if has_status DownloadStatus.FAIL infos then DownloadStatus.FAIL
  else DownloadStatus.DOWNLOADING.
(** The reason: that of the last package with the status of the task. *)
Definition task_reason infos : Z :=
  if all_status DownloadStatus.SUCCESS infos then DownloadEndReason.SUCCESS
  else default DownloadEndReason.INIT (DownloadInfo.endReason <$>
         last (List.filter (λ i, DownloadInfo.GetTaskStatus i =? task_status infos) infos)).
Definition sum_of (f : DownloadInfo.t → Z) infos : Z := foldr (λ i n, f i + n) 0 infos.

(** Sizes that fit: non-negative, with a sum below 2^56. *)
Definition wf_sizes infos : Prop :=
  Z.of_nat (List.length infos) ≤ INT32_MAX ∧
  Forall (λ i, 0 ≤ DownloadInfo.packageSize i ∧ 0 ≤ DownloadInfo.downloadedSize i ∧ 0 ≤ DownloadInfo.verifiedSize i) infos ∧
  sum_of DownloadInfo.packageSize infos < 2 ^ 56 ∧ sum_of DownloadInfo.downloadedSize infos < 2 ^ 56 ∧
  sum_of DownloadInfo.verifiedSize infos < 2 ^ 56.

Lemma sum_nonneg f infos : Forall (λ i, 0 ≤ f i) infos → 0 ≤ sum_of f infos.
Proof. induction 1 as [|i infos Hi _ IH]; [done|]. change (0 ≤ f i + sum_of f infos). lia. Qed.
Lemma sum_loop f infos n :
  Forall (λ i, 0 ≤ f i) infos → 0 ≤ n → n + sum_of f infos < 2 ^ 56 →
  fold_left (λ n i, to_int64 (n + f i)) infos n = n + sum_of f infos.
Proof.
  intros Hf. revert n. induction Hf as [|i infos Hi Hf IH]; intros n Hn Hs; [cbn; lia|].
  pose proof (sum_nonneg f infos Hf). change (sum_of f (i :: infos)) with (f i + sum_of f infos) in *.
  cbn [fold_left]. rewrite to_int64_id by (unfold_widths; lia). rewrite IH by lia. lia.
Qed.

Lemma sum_app f l i : sum_of f (l ++ [i]) = sum_of f l + f i.
Proof. induction l as [|j l IH]; cbn; [lia|]. change (f j + sum_of f (l ++ [i]) = f j + sum_of f l + f i). lia. Qed.
Lemma wf_sizes_prefix l i : wf_sizes (l ++ [i]) → wf_sizes l ∧ 0 ≤ DownloadInfo.downloadedSize i ∧ 0 ≤ DownloadInfo.verifiedSize i.
Proof.
  unfold wf_sizes. rewrite length_app, !sum_app, Forall_app, Forall_singleton. cbn [List.length].
  intros (Hn & [Hl Hi] & Hp & Hd & Hv). split_and!; try done; lia.
Qed.
Lemma sums_nonneg infos : wf_sizes infos →
  0 ≤ sum_of DownloadInfo.packageSize infos ∧ 0 ≤ sum_of DownloadInfo.downloadedSize infos ∧
  0 ≤ sum_of DownloadInfo.verifiedSize infos.
Proof.
  intros (_ & Hf & _). split_and!; apply sum_nonneg; eapply Forall_impl; try exact Hf; cbn; tauto.
Qed.

Lemma count_status_app st l i :
  count_status st (l ++ [i]) = count_status st l + (if DownloadInfo.GetTaskStatus i =? st then 1 else 0).
Proof. unfold count_status. rewrite List.filter_app, length_app. cbn [List.filter]. case_if; cbn [List.length]; lia. Qed.

Lemma Update_loop infos : wf_sizes infos →
  ∃ m r, fold_left Update_step infos (0, 0, ∅, ∅) =
           (sum_of DownloadInfo.downloadedSize infos, sum_of DownloadInfo.verifiedSize infos, m, r) ∧
    (∀ st, default 0 (m !! st) = count_status st infos) ∧
    (∀ st, r !! st = DownloadInfo.endReason <$> last (List.filter (λ i, DownloadInfo.GetTaskStatus i =? st) infos)).
Proof.
  induction infos as [|i l IH] using rev_ind; intros Hwf.
  { exists ∅, ∅. split_and!; [done|..]; intros st; by rewrite lookup_empty. }
  pose proof Hwf as (Hlen & _ & _ & Hd & Hv). destruct (wf_sizes_prefix _ _ Hwf) as (Hl & Hdi & Hvi).
  destruct (IH Hl) as (m & r & Hfold & Hm & Hr). pose proof (sums_nonneg _ Hl) as (_ & Hd0 & Hv0).
  rewrite fold_left_app, Hfold. cbn [fold_left Update_step]. rewrite !sum_app in *. rewrite length_app in Hlen. cbn [List.length] in Hlen.
  do 2 eexists. split; [|split].
  - rewrite !to_int64_id by (unfold_widths; lia). reflexivity.
  - intros st. pose proof (count_status_nonneg st l). rewrite count_status_app. destruct (Z.eqb_spec (DownloadInfo.GetTaskStatus i) st) as [->|Hne].
    + rewrite lookup_insert_eq. cbn [default from_option]. rewrite Hm. by rewrite to_int32_id by (unfold_widths; lia).
    + rewrite lookup_insert_ne by done. rewrite Hm. lia.
  - intros st. rewrite List.filter_app. cbn [List.filter].
    destruct (Z.eqb_spec (DownloadInfo.GetTaskStatus i) st) as [->|Hne].
    + by rewrite lookup_insert_eq, last_snoc.
    + by rewrite lookup_insert_ne, app_nil_r.
Qed.

Lemma CalcDownloadTaskStatus_spec this m infos :
  totalInfoSize_ this = Z.of_nat (List.length infos) → (∀ st, default 0 (m !! st) = count_status st infos) →
  CalcDownloadTaskStatus this m = task_status infos.
Proof.
  intros Ht Hm. unfold CalcDownloadTaskStatus, GetStatusCount, task_status.
  rewrite !Hm, Ht, count_status_all, !count_status_0, !negb_involutive. done.
Qed.

(** A task is at 100 percent exactly when all its bytes are there. *)
Definition task_percent infos : Z :=
  if sum_of DownloadInfo.packageSize infos =? 0 then 0
  else Z.min 100 (sum_of DownloadInfo.downloadedSize infos * 100 / sum_of DownloadInfo.packageSize infos).

Lemma CalcDownloadProgress_spec this infos :
  wf_sizes infos → packageSize_ this = sum_of DownloadInfo.packageSize infos →
  downloadedSize_ this = sum_of DownloadInfo.downloadedSize infos →
  CalcDownloadProgress this = task_percent infos.
Proof.
  intros Hwf Hp Hd. pose proof (sums_nonneg _ Hwf) as (Hp0 & Hd0 & _). pose proof Hwf as (_ & _ & Hp1 & Hd1 & _).
  unfold CalcDownloadProgress, task_percent. rewrite Hp, Hd. clear Hp Hd. change DOWNLOAD_MAX_PERCENT with 100.
  set (p := sum_of DownloadInfo.packageSize infos) in *. set (d := sum_of DownloadInfo.downloadedSize infos) in *.
  destruct (Z.leb_spec p 0); [by rewrite (proj2 (Z.eqb_eq p 0)) by lia|].
  rewrite (proj2 (Z.eqb_neq p 0)) by lia. destruct (Z.ltb_spec p d).
  - assert (100 ≤ d * 100 / p) by (apply Z.div_le_lower_bound; lia). by rewrite Z.min_l.
  - assert (0 ≤ d * 100 / p ≤ 100) by (split; [apply Z.div_pos; lia|apply Z.div_le_upper_bound; lia]).
    rewrite to_int64_id by (unfold_widths; lia). rewrite Z.quot_div_nonneg by lia.
    generalize dependent (d * 100 / p). intros q Hq. rewrite to_int32_id by (unfold_widths; lia). lia.
Qed.

(** The processor was built from packages of the same number and sizes. *)
Definition built_for (this : t) infos : Prop :=
  totalInfoSize_ this = Z.of_nat (List.length infos) ∧ packageSize_ this = sum_of DownloadInfo.packageSize infos.

(** The sizes and the status [GetTaskProgress] reports. *)
Lemma GetTaskProgress_status this infos :
  built_for this infos → wf_sizes infos →
  let r := GetTaskProgress infos this in
  built_for r.1 infos ∧
  ProgressInfo.downloadedSize r.2 = sum_of DownloadInfo.downloadedSize infos ∧
  ProgressInfo.verifiedSize r.2 = sum_of DownloadInfo.verifiedSize infos ∧
  ProgressInfo.taskStatus r.2 = (if all_status DownloadStatus.INIT infos then status_ this else task_status infos).
Proof.
  intros (Ht & Hp) Hwf. destruct (Update_loop infos Hwf) as (m & r & Hfold & Hm & _).
  cbv zeta. unfold GetTaskProgress, Update. rewrite Hfold. unfold GetStatusCount. rewrite Hm, Ht, count_status_all.
  destruct (all_status DownloadStatus.INIT infos); cbn [snd fst ProgressInfo.downloadedSize ProgressInfo.verifiedSize
    ProgressInfo.taskStatus downloadedSize_ verifiedSize_ status_]; [done|].
  rewrite (CalcDownloadTaskStatus_spec _ m infos) by done. done.
Qed.

(** The progress of a download task summarises its packages.  Its sizes are the
    sums of theirs; its percentage is between 0 and 100 and does not overflow.
    Unless no package has started, its status is [SUCCESS] exactly when every
    package succeeded (or failed with the failure ignored), otherwise the first
    of [DOWNLOADING], [PAUSE], [AUTO_PAUSE], [CANCEL], [FAIL] that a package has
    (a package being verified counts as downloading), and its reason is that of
    the last package with this status. *)
Theorem task_progress_correct this infos :
  built_for this infos → wf_sizes infos →
  let p := (GetTaskProgress infos this).2 in
  ProgressInfo.downloadedSize p = sum_of DownloadInfo.downloadedSize infos ∧
  ProgressInfo.packageSize p = sum_of DownloadInfo.packageSize infos ∧
  ProgressInfo.taskProgress p = task_percent infos ∧ 0 ≤ ProgressInfo.taskProgress p ≤ 100 ∧
  (if all_status DownloadStatus.INIT infos
   then ProgressInfo.taskStatus p = status_ this ∧ ProgressInfo.reason p = endReason_ this
   else ProgressInfo.taskStatus p = task_status infos ∧ ProgressInfo.reason p = task_reason infos).
Proof.
  intros (Ht & Hp) Hwf. destruct (Update_loop infos Hwf) as (m & r & Hfold & Hm & Hr).
  assert (0 ≤ task_percent infos ≤ 100) as Hrange.
  { pose proof (sums_nonneg _ Hwf) as (? & ? & _). unfold task_percent. destruct (Z.eqb_spec (sum_of DownloadInfo.packageSize infos) 0); [lia|].
    split; [apply Z.min_glb; [lia|apply Z.div_pos; lia]|apply Z.le_min_l]. }
  cbv zeta. unfold GetTaskProgress, Update. rewrite Hfold. unfold GetStatusCount. rewrite Hm, Ht, count_status_all.
  destruct (all_status DownloadStatus.INIT infos); cbn [snd ProgressInfo.downloadedSize ProgressInfo.packageSize
    ProgressInfo.taskProgress ProgressInfo.taskStatus ProgressInfo.reason downloadedSize_ packageSize_ status_ endReason_];
    rewrite (CalcDownloadProgress_spec _ infos) by done; [split_and!; try done; apply Hrange|].
  rewrite (CalcDownloadTaskStatus_spec _ m infos) by done. split_and!; try done; try apply Hrange.
  unfold task_reason. rewrite Hr. unfold task_status. destruct (all_status DownloadStatus.SUCCESS infos) eqn:Hs; [done|].
  match goal with |- (if ?b then _ else _) = _ => assert (b = false) as -> by (repeat case_if; done) end. done.
Qed.
End task_progress.

(** ** The table of packages *)
Module DownloadInfoTable.
(*@* download/data/include/download_info_table_const.h = *)
Definition DOWNLOAD_TABLE_COMPONENT : string := "download".
Definition COLUMN_DOWNLOAD_ITEM_ID : string := "downloadId".
Definition COLUMN_DOWNLOAD_VERSION_ID : string := "versionId".
Definition COLUMN_DOWNLOAD_TASK_ID : string := "taskId".
Definition COLUMN_DOWNLOAD_URL : string := "url".
Definition COLUMN_DOWNLOAD_RESERVER_URL : string := "reserveUrl".
Definition COLUMN_DOWNLOAD_PATH : string := "path".
Definition COLUMN_DOWNLOAD_VERIFY_INFO : string := "veriftInfo".
Definition COLUMN_DOWNLOAD_POST_HEADER : string := "header".
Definition COLUMN_DOWNLOAD_POST_REQUEST_BODY : string := "requestBody".
Definition COLUMN_DOWNLOAD_STATUS : string := "status".
Definition COLUMN_DOWNLOAD_END_REASON : string := "endReason".
Definition COLUMN_DOWNLOAD_DIR_TYPE : string := "mode".
Definition COLUMN_DOWNLOAD_NET_TYPE : string := "netType".
Definition COLUMN_DOWNLOAD_REQUEST_METHOD : string := "method".
Definition COLUMN_DOWNLOAD_RETRY_TIMES : string := "retryTimes".
Definition COLUMN_DOWNLOAD_PACKAGE_SIZE : string := "packageSize".
Definition COLUMN_DOWNLOAD_DOWNLOADED_SIZE : string := "downloadedSize".
Definition COLUMN_DOWNLOAD_IS_NEED_AUTO_RESUME : string := "isNeedAutoResume".
Definition COLUMN_DOWNLOAD_START_TIME : string := "startTime".
Definition COLUMN_DOWNLOAD_END_TIME : string := "endTime".
Definition COLUMN_DOWNLOAD_EFFECTIVE_TIME : string := "effectiveTime".
Definition COLUMN_DOWNLOAD_IS_COMBINE_VERIFY_PROGRESS : string := "isCombineVerifyProgress".
Definition COLUMN_DOWNLOAD_VERIFIED_SIZE : string := "verifiedSize".
Definition COLUMN_DOWNLOAD_EXTENDS1 : string := "extends1".
Definition COLUMN_DOWNLOAD_EXTENDS2 : string := "extends2".
Definition COLUMN_DOWNLOAD_EXTENDS3 : string := "extends3".
Definition COLUMN_DOWNLOAD_EXTENDS4 : string := "extends4".
Definition COLUMN_DOWNLOAD_EXTENDS5 : string := "extends5".
Definition COLUMN_DOWNLOAD_EXTENDS6 : string := "extends6".

(*@ download/data/src/download_info_table.cpp DownloadInfoTable::GetTableName *)
Definition GetTableName : string := DOWNLOAD_TABLE_COMPONENT.
(** The columns the create statement declares, with their SQL types. *)
(*@ download/data/src/download_info_table.cpp DownloadInfoTable::GetTableCreateSql *)
Definition declared_columns : list (string * string) := [
  (COLUMN_ID, "integer PRIMARY KEY autoincrement not null");
  (COLUMN_DOWNLOAD_ITEM_ID, "varchar(1024)");
  (COLUMN_DOWNLOAD_VERSION_ID, "varchar(1024)");
  (COLUMN_DOWNLOAD_TASK_ID, "varchar(128)");
  (COLUMN_DOWNLOAD_URL, "varchar(1024)");
  (COLUMN_DOWNLOAD_RESERVER_URL, "varchar(64)");
  (COLUMN_DOWNLOAD_PATH, "varchar(256)");
  (COLUMN_DOWNLOAD_VERIFY_INFO, "varchar(256)");
  (COLUMN_DOWNLOAD_POST_HEADER, "varchar(10240)");
  (COLUMN_DOWNLOAD_POST_REQUEST_BODY, "varchar(20480)");
  (COLUMN_DOWNLOAD_END_REASON, "integer");
  (COLUMN_DOWNLOAD_STATUS, "integer");
  (COLUMN_DOWNLOAD_DIR_TYPE, "integer");
  (COLUMN_DOWNLOAD_RETRY_TIMES, "integer");
  (COLUMN_DOWNLOAD_NET_TYPE, "integer");
  (COLUMN_DOWNLOAD_REQUEST_METHOD, "integer");
  (COLUMN_DOWNLOAD_PACKAGE_SIZE, "bigint");
  (COLUMN_DOWNLOAD_DOWNLOADED_SIZE, "bigint");
  (COLUMN_DOWNLOAD_IS_NEED_AUTO_RESUME, "integer");
  (COLUMN_DOWNLOAD_START_TIME, "bigint");
  (COLUMN_DOWNLOAD_END_TIME, "bigint");
  (COLUMN_DOWNLOAD_EFFECTIVE_TIME, "bigint");
  (COLUMN_DOWNLOAD_IS_COMBINE_VERIFY_PROGRESS, "integer");
  (COLUMN_DOWNLOAD_VERIFIED_SIZE, "bigint");
  (COLUMN_DOWNLOAD_EXTENDS1, "varchar(256)");
  (COLUMN_DOWNLOAD_EXTENDS2, "varchar(256)");
  (COLUMN_DOWNLOAD_EXTENDS3, "varchar(256)");
  (COLUMN_DOWNLOAD_EXTENDS4, "varchar(256)");
  (COLUMN_DOWNLOAD_EXTENDS5, "varchar(256)");
  (COLUMN_DOWNLOAD_EXTENDS6, "varchar(256)")].
(*@ download/data/src/download_info_table.cpp DownloadInfoTable::GetTableCreateSql *)
Definition GetTableCreateSql : string :=
  "create table if not exists " +:+ DOWNLOAD_TABLE_COMPONENT +:+ " (" +:+
  join "," (map (λ '(c, ty), c +:+ " " +:+ ty) declared_columns) +:+ ")".

(** A [std::map] is traversed in the order of its keys. *)
Definition key_le (a b : string * string) : Prop := String.leb a.1 b.1 = true.
#[global] Instance key_le_dec : RelDecision key_le.
Proof. intros a b. unfold key_le. apply _. Defined.
Definition entries (m : gmap string string) : list (string * string) := merge_sort key_le (map_to_list m).
(*@ download/data/src/download_info_table.cpp DownloadInfoTable::Concatenate *)
Definition Concatenate (inputMap : gmap string string) : string :=
  fold_left (λ str '(key, value), str +:+ key +:+ ":" +:+ value +:+ "|") (entries inputMap) "".

(** [std::map::insert] keeps an element that is there. *)
Definition insert_new (key value : string) (m : gmap string string) : gmap string string :=
  match m !! key with Some _ => m | None => <[key := value]> m end.
(** The loop of [Split2Map]; [None]: a [substr] throws. *)
(*@ download/data/src/download_info_table.cpp DownloadInfoTable::Split2Map *)
Definition add_element (element : string) (split2Map : gmap string string) : option (gmap string string) :=
  if String.eqb element "" then Some split2Map
  else match find_char element ":" 0 with
       | None => Some split2Map
       | Some split =>
           key ← substr element 0 split;
           value ← substr element (split + 1) (len element);
           Some (insert_new key value split2Map)
       end.
(*@ download/data/src/download_info_table.cpp DownloadInfoTable::Split2Map *)
Fixpoint Split2Map_loop (fuel : nat) (s : string) (end_ : nat) (split2Map : gmap string string) :
    option (gmap string string) :=
  match find_first_not_of s "|" end_ with
  | None => Some split2Map
  | Some start =>
      match fuel with
      | O => None
      | S fuel =>
          let end_' := default (len s) (find_char s "|" start) in
          element ← substr s start (end_' - start)%nat;
          split2Map ← add_element element split2Map;
          Split2Map_loop fuel s end_' split2Map
      end
  end.
(*@ download/data/src/download_info_table.cpp DownloadInfoTable::Split2Map *)
Definition Split2Map (s : string) : option (gmap string string) := Split2Map_loop (len s) s 0 ∅.

Section ops.
Context {R : Type} `{Rdb R}.
(*@ download/data/src/download_info_table.cpp DownloadInfoTable::ParseDbValue *)
Definition ParseDbValue (resultSet : Row) (value : DownloadInfo.t) : DownloadInfo.t := {|
  DownloadInfo.id := get_int resultSet COLUMN_ID (DownloadInfo.id value);
  DownloadInfo.downloadId := get_string resultSet COLUMN_DOWNLOAD_ITEM_ID (DownloadInfo.downloadId value);
  DownloadInfo.versionId := get_string resultSet COLUMN_DOWNLOAD_VERSION_ID (DownloadInfo.versionId value);
  DownloadInfo.taskId := get_string resultSet COLUMN_DOWNLOAD_TASK_ID (DownloadInfo.taskId value);
  DownloadInfo.url := get_string resultSet COLUMN_DOWNLOAD_URL (DownloadInfo.url value);
  DownloadInfo.reserveUrl := get_string resultSet COLUMN_DOWNLOAD_RESERVER_URL (DownloadInfo.reserveUrl value);
  DownloadInfo.path := get_string resultSet COLUMN_DOWNLOAD_PATH (DownloadInfo.path value);
  DownloadInfo.verifyInfo := get_string resultSet COLUMN_DOWNLOAD_VERIFY_INFO (DownloadInfo.verifyInfo value);
  DownloadInfo.header := default ∅ (Split2Map (get_string resultSet COLUMN_DOWNLOAD_POST_HEADER ""));
  DownloadInfo.requestBody := get_string resultSet COLUMN_DOWNLOAD_POST_REQUEST_BODY (DownloadInfo.requestBody value);
  DownloadInfo.sha256StrategyKey := DownloadInfo.sha256StrategyKey value;
  DownloadInfo.endReason := get_int resultSet COLUMN_DOWNLOAD_END_REASON DownloadEndReason.INIT;
  DownloadInfo.status := get_int resultSet COLUMN_DOWNLOAD_STATUS DownloadStatus.DOWNLOADING;
  DownloadInfo.dirType := get_int resultSet COLUMN_DOWNLOAD_DIR_TYPE DownloadDirType.UN_ENCRYPT_DIR;
  DownloadInfo.netType := get_int resultSet COLUMN_DOWNLOAD_NET_TYPE NetType.NO_NET;
  DownloadInfo.method := get_int resultSet COLUMN_DOWNLOAD_REQUEST_METHOD RequestMethod.GET;
  DownloadInfo.retryTimes := get_int resultSet COLUMN_DOWNLOAD_RETRY_TIMES (DownloadInfo.retryTimes value);
  DownloadInfo.packageSize := get_long resultSet COLUMN_DOWNLOAD_PACKAGE_SIZE (DownloadInfo.packageSize value);
  DownloadInfo.downloadedSize := get_long resultSet COLUMN_DOWNLOAD_DOWNLOADED_SIZE (DownloadInfo.downloadedSize value);
  DownloadInfo.startTime := get_long resultSet COLUMN_DOWNLOAD_START_TIME (DownloadInfo.startTime value);
  DownloadInfo.endTime := get_long resultSet COLUMN_DOWNLOAD_END_TIME (DownloadInfo.endTime value);
  DownloadInfo.effectiveTime := get_long resultSet COLUMN_DOWNLOAD_EFFECTIVE_TIME (DownloadInfo.effectiveTime value);
  DownloadInfo.isNeedAutoResume := get_bool resultSet COLUMN_DOWNLOAD_IS_NEED_AUTO_RESUME (DownloadInfo.isNeedAutoResume value);
  DownloadInfo.downloadErrorInfo := DownloadInfo.downloadErrorInfo value;
  DownloadInfo.isConcurrentLimited := DownloadInfo.isConcurrentLimited value;
  DownloadInfo.isCombineVerifyProgress := get_bool resultSet COLUMN_DOWNLOAD_IS_COMBINE_VERIFY_PROGRESS (DownloadInfo.isCombineVerifyProgress value);
  DownloadInfo.verifiedSize := get_long resultSet COLUMN_DOWNLOAD_VERIFIED_SIZE (DownloadInfo.verifiedSize value);
  DownloadInfo.isIgnoredFail := get_bool resultSet COLUMN_DOWNLOAD_EXTENDS1 (DownloadInfo.isIgnoredFail value);
  DownloadInfo.reportInterval := DownloadInfo.reportInterval value |}.
End ops.

(*@ download/data/src/download_info_table.cpp DownloadInfoTable::BuildDbValue *)
Definition BuildDbValue (value : DownloadInfo.t) : ValuesBucket := list_to_map [
  (COLUMN_DOWNLOAD_ITEM_ID, put_string (DownloadInfo.downloadId value));
  (COLUMN_DOWNLOAD_VERSION_ID, put_string (DownloadInfo.versionId value));
  (COLUMN_DOWNLOAD_TASK_ID, put_string (DownloadInfo.taskId value));
  (COLUMN_DOWNLOAD_URL, put_string (DownloadInfo.url value));
  (COLUMN_DOWNLOAD_RESERVER_URL, put_string (DownloadInfo.reserveUrl value));
  (COLUMN_DOWNLOAD_PATH, put_string (DownloadInfo.path value));
  (COLUMN_DOWNLOAD_VERIFY_INFO, put_string (DownloadInfo.verifyInfo value));
  (COLUMN_DOWNLOAD_POST_HEADER, put_string (Concatenate (DownloadInfo.header value)));
  (COLUMN_DOWNLOAD_POST_REQUEST_BODY, put_string (DownloadInfo.requestBody value));
  (COLUMN_DOWNLOAD_END_REASON, put_int (DownloadInfo.endReason value));
  (COLUMN_DOWNLOAD_STATUS, put_int (DownloadInfo.status value));
  (COLUMN_DOWNLOAD_DIR_TYPE, put_int (DownloadInfo.dirType value));
  (COLUMN_DOWNLOAD_NET_TYPE, put_int (DownloadInfo.netType value));
  (COLUMN_DOWNLOAD_REQUEST_METHOD, put_int (DownloadInfo.method value));
  (COLUMN_DOWNLOAD_RETRY_TIMES, put_int (DownloadInfo.retryTimes value));
  (COLUMN_DOWNLOAD_PACKAGE_SIZE, put_long (DownloadInfo.packageSize value));
  (COLUMN_DOWNLOAD_DOWNLOADED_SIZE, put_long (DownloadInfo.downloadedSize value));
  (COLUMN_DOWNLOAD_IS_NEED_AUTO_RESUME, put_bool (DownloadInfo.isNeedAutoResume value));
  (COLUMN_DOWNLOAD_START_TIME, put_long (DownloadInfo.startTime value));
  (COLUMN_DOWNLOAD_END_TIME, put_long (DownloadInfo.endTime value));
  (COLUMN_DOWNLOAD_EFFECTIVE_TIME, put_long (DownloadInfo.effectiveTime value));
  (COLUMN_DOWNLOAD_IS_COMBINE_VERIFY_PROGRESS, put_bool (DownloadInfo.isCombineVerifyProgress value));
  (COLUMN_DOWNLOAD_VERIFIED_SIZE, put_long (DownloadInfo.verifiedSize value));
  (COLUMN_DOWNLOAD_EXTENDS1, put_bool (DownloadInfo.isIgnoredFail value))].
End DownloadInfoTable.

#[export] Instance download_table {R} `{Rdb R} : ITable R DownloadInfo.t := {
  GetTableName := DownloadInfoTable.GetTableName;
  initial := DownloadInfo.default;
  ParseDbValue := DownloadInfoTable.ParseDbValue;
  BuildDbValue := DownloadInfoTable.BuildDbValue
}.

Module DownloadDatabase.
(*@ download/data/include/download_database.h DOWNLOAD_DB_NAME *)
Definition DOWNLOAD_DB_NAME : string := "/download_sqlite.db".
(*@ download/data/src/download_database.cpp DownloadDatabase::GetDbName *)
Definition GetDbName : string := DOWNLOAD_DB_NAME.
(*@ download/data/include/download_db_constant.h DbVersion *)
Definition VERSION_MAX : Z := 2.
(*@ download/data/src/download_database.cpp DownloadDatabase::GetDbVersion *)
Definition GetDbVersion : Z := VERSION_MAX - 1.
(*@ download/data/src/download_database.cpp DownloadDatabase::InitDbStoreDir *)
Definition dbStoreDir_ : string := FirmwareDatabase.DATABASES_ROOT_PATH +:+ GetDbName.
End DownloadDatabase.

Module DownloadDatabaseCallback.
Section ops.
Context {R : Type} `{Rdb R}.
(*@ download/data/src/download_database_callback.cpp DownloadDatabaseCallback::OnCreate *)
Definition OnCreate : ST R Z :=
  let* r := ExecuteSql DownloadInfoTable.GetTableCreateSql in
  if negb (r =? E_OK) then ret r else ret E_OK.
(*@ download/data/src/download_database_callback.cpp DownloadDatabaseCallback::OnUpgrade *)
Definition OnUpgrade (oldVersion newVersion : Z) : ST R Z := ret E_OK.
End ops.
End DownloadDatabaseCallback.

Module DownloadInfoOperator.
Import DownloadInfoTable.
Section ops.
Context {R : Type} `{Rdb R}.
Definition dir : string := DownloadDatabase.dbStoreDir_.
Definition by_id (downloadId : string) : Predicates :=
  EqualTo (RdbPredicates GetTableName) COLUMN_DOWNLOAD_ITEM_ID downloadId.
(*@ download/data/src/download_info_operator.cpp DownloadInfoOperator::DeleteDownloadInfo *)
Definition DeleteDownloadInfo (downloadInfo : DownloadInfo.t) : ST (SqliteDb.t R) unit :=
  TableBaseOperator.Delete dir (by_id (DownloadInfo.downloadId downloadInfo)) ;;; ret tt.
(*@ download/data/src/download_info_operator.cpp DownloadInfoOperator::UpdateProgressById *)
Definition UpdateProgressById (downloadInfo : DownloadInfo.t) : ST (SqliteDb.t R) bool :=
  TableBaseOperator.Update dir (list_to_map [
    (COLUMN_DOWNLOAD_END_REASON, VInt (DownloadInfo.endReason downloadInfo));
    (COLUMN_DOWNLOAD_STATUS, VInt (DownloadInfo.status downloadInfo));
    (COLUMN_DOWNLOAD_DOWNLOADED_SIZE, VInt (DownloadInfo.downloadedSize downloadInfo));
    (COLUMN_DOWNLOAD_START_TIME, VInt (DownloadInfo.startTime downloadInfo));
    (COLUMN_DOWNLOAD_END_TIME, VInt (DownloadInfo.endTime downloadInfo));
    (COLUMN_DOWNLOAD_EFFECTIVE_TIME, VInt (DownloadInfo.effectiveTime downloadInfo));
    (COLUMN_DOWNLOAD_VERIFIED_SIZE, VInt (DownloadInfo.verifiedSize downloadInfo))])
    (by_id (DownloadInfo.downloadId downloadInfo)).
(*@ download/data/src/download_info_operator.cpp DownloadInfoOperator::UpdateStatusById *)
Definition UpdateStatusById (downloadInfo : DownloadInfo.t) : ST (SqliteDb.t R) bool :=
  TableBaseOperator.Update dir (<[COLUMN_DOWNLOAD_STATUS := VInt (DownloadInfo.status downloadInfo)]> ∅)
    (by_id (DownloadInfo.downloadId downloadInfo)).
(*@ download/data/src/download_info_operator.cpp DownloadInfoOperator::UpdateRetryTimesById *)
Definition UpdateRetryTimesById (downloadInfo : DownloadInfo.t) : ST (SqliteDb.t R) bool :=
  TableBaseOperator.Update dir (<[COLUMN_DOWNLOAD_RETRY_TIMES := VInt (DownloadInfo.retryTimes downloadInfo)]> ∅)
    (by_id (DownloadInfo.downloadId downloadInfo)).
(*@ download/data/src/download_info_operator.cpp DownloadInfoOperator::UpdateNetTypeById *)
Definition UpdateNetTypeById (downloadInfo : DownloadInfo.t) : ST (SqliteDb.t R) bool :=
  TableBaseOperator.Update dir (<[COLUMN_DOWNLOAD_NET_TYPE := VInt (DownloadInfo.netType downloadInfo)]> ∅)
    (by_id (DownloadInfo.downloadId downloadInfo)).
(*@ download/data/src/download_info_operator.cpp DownloadInfoOperator::DeleteByTaskId *)
Definition DeleteByTaskId (taskId : string) : ST (SqliteDb.t R) unit :=
  TableBaseOperator.Delete dir (EqualTo (RdbPredicates GetTableName) COLUMN_DOWNLOAD_TASK_ID taskId) ;;;
  ret tt.
End ops.
End DownloadInfoOperator.

(** ** Headers in the table *)
Section headers.
Import DownloadInfoTable.

(** The map the elements of a string stand for. *)
Definition element_of (element : string) (m : gmap string string) : gmap string string :=
  default m (add_element element m).

Lemma add_element_total element m : add_element element m = Some (element_of element m).
Proof.
  unfold element_of, add_element. destruct (String.eqb element ""); [done|].
  unfold find_char. destruct (find_index _ _) as [i|] eqn:Ei; cbn [fmap option_fmap option_map]; [|done].
  apply find_index_lt in Ei. rewrite drop_0, len_chars in Ei. cbn [Nat.add].
  unfold substr. rewrite (proj2 (Nat.ltb_ge _ _)) by lia. cbn [mbind option_bind].
  by rewrite (proj2 (Nat.ltb_ge _ _)) by lia.
Qed.

Lemma Split2Map_loop_correct fuel s end_ m :
  (len s ≤ fuel + end_)%nat →
  Split2Map_loop fuel s end_ m =
  Some (fold_left (λ m el, element_of el m) (filter (λ t, t ≠ "") (getlines_aux "|" [] (drop end_ (chars s)))) m).
Proof.
  revert end_ m. induction fuel as [|fuel IH]; intros end_ m Hf;
    cbn [Split2Map_loop]; destruct (find_first_not_of s "|" end_) as [start|] eqn:E.
  - apply Split_round in E as (? & ? & _). lia.
  - unfold find_first_not_of in E. destruct (find_index _ _) eqn:Ei; [done|].
    apply find_index_None, Forall_eqb_replicate in Ei. rewrite Ei.
    rewrite <- (app_nil_r (replicate _ _)), getlines_nonempty_skip. done.
  - pose proof (Split_round _ _ _ _ E) as (Hlt & Hle & Htok).
    unfold substr. rewrite (proj2 (Nat.ltb_ge _ _)) by lia. cbn [mbind option_bind].
    rewrite add_element_total. cbn [mbind option_bind]. rewrite IH by lia. by rewrite Htok.
  - unfold find_first_not_of in E. destruct (find_index _ _) eqn:Ei; [done|].
    apply find_index_None, Forall_eqb_replicate in Ei. rewrite Ei.
    rewrite <- (app_nil_r (replicate _ _)), getlines_nonempty_skip. done.
Qed.

Lemma chars_Concatenate l acc :
  chars (fold_left (λ str '(key, value), str +:+ key +:+ ":" +:+ value +:+ "|") l acc) =
  chars acc ++ flat_map (λ '(k, v), (chars k ++ ":"%char :: chars v) ++ ["|"%char]) l.
Proof.
  revert acc. induction l as [|[k v] l IH]; intros acc; cbn [fold_left flat_map]; [by rewrite app_nil_r|].
  rewrite IH, !chars_app. cbn [list_ascii_of_string]. by rewrite <- !app_assoc.
Qed.

Definition element (kv : string * string) : string := kv.1 +:+ ":" +:+ kv.2.
Lemma element_nonempty kv : element kv ≠ "".
Proof. destruct kv as [[|] v]; intros [=]. Qed.
Lemma no_char_app c s t : no_char c s → no_char c t → no_char c (s +:+ t).
Proof. unfold no_char. rewrite chars_app. apply Forall_app_2. Qed.
Lemma element_no_char k v : no_char "|" k → no_char "|" v → no_char "|" (element (k, v)).
Proof. intros Hk Hv. apply no_char_app; [done|]. by constructor. Qed.

Lemma getlines_elements l :
  Forall (λ kv, no_char "|" kv.1 ∧ no_char "|" kv.2) l →
  getlines_aux "|" [] (flat_map (λ '(k, v), (chars k ++ ":"%char :: chars v) ++ ["|"%char]) l) = map element l.
Proof.
  induction 1 as [|[k v] l [Hk Hv] _ IH]; [done|]. cbn [flat_map map]. rewrite <- app_assoc. cbn [app].
  replace (chars k ++ ":"%char :: chars v) with (chars (element (k, v))) by (unfold element; by rewrite !chars_app).
  rewrite getlines_aux_delim by by apply element_no_char. cbn [rev app]. rewrite str_chars. by f_equal.
Qed.

Lemma find_char_no_char s c t : no_char c s → find_char (s +:+ String c t) c 0 = Some (len s).
Proof.
  intros Hs. unfold find_char. rewrite drop_0, chars_app. cbn [list_ascii_of_string].
  rewrite find_index_app_first; [by rewrite len_chars| |apply Ascii.eqb_refl].
  eapply Forall_impl; [exact Hs|]. intros x. cbn. by rewrite Ascii.eqb_sym.
Qed.

Lemma element_of_element k v m :
  no_char ":" k → m !! k = None → element_of (element (k, v)) m = <[k := v]> m.
Proof.
  intros Hk Hm. unfold element_of, add_element, element. cbn [fst snd].
  rewrite (proj2 (String.eqb_neq _ _)) by apply (element_nonempty (k, v)).
  change (k +:+ ":" +:+ v) with (k +:+ String ":" v). rewrite find_char_no_char by done.
  rewrite substr_0. unfold substr.
  assert (len (k +:+ String ":" v) = (len k + S (len v))%nat) as Hlen.
  { rewrite <- !len_chars, chars_app, length_app. done. }
  rewrite Hlen, (proj2 (Nat.ltb_ge _ _)) by lia. cbn [mbind option_bind default from_option].
  rewrite chars_app. cbn [list_ascii_of_string].
  rewrite take_app_length' by by rewrite len_chars.
  replace (len k + 1)%nat with (List.length (chars k ++ [":"%char])) by (rewrite length_app, len_chars; done).
  change (chars k ++ ":"%char :: chars v) with (chars k ++ [":"%char] ++ chars v). rewrite app_assoc, drop_app_length.
  rewrite take_ge by (rewrite len_chars; lia). rewrite !str_chars. unfold insert_new. by rewrite Hm.
Qed.

Lemma fold_elements l m :
  NoDup l.*1 → Forall (λ kv, no_char ":" kv.1) l → (∀ k, k ∈ l.*1 → m !! k = None) →
  fold_left (λ m el, element_of el m) (map element l) m = list_to_map l ∪ m.
Proof.
  revert m. induction l as [|[k v] l IH]; intros m Hnd Hl Hm; cbn [map fold_left]; [by rewrite list_to_map_nil, (left_id_L ∅ (∪))|].
  cbn in Hnd. apply NoDup_cons in Hnd as [Hk Hnd]. inversion Hl as [|?? Hkv Hl']; subst. cbn [fst] in *.
  rewrite element_of_element by (done || apply Hm; cbn; by left).
  rewrite IH; [|done|done|].
  - rewrite list_to_map_cons, <- insert_union_l, insert_union_r; [done|]. by apply not_elem_of_list_to_map_1.
  - intros k' Hk'. rewrite lookup_insert_ne by (intros ->; done). apply Hm. cbn. by right.
Qed.

(** The request headers stored with a package are read back unchanged, when no
    header contains the separator of the list and no key the separator of the
    pair; reading never fails, whatever the column holds. *)
Theorem header_roundtrip m s :
  is_Some (Split2Map s) ∧
  (map_Forall (λ k v, no_char "|" k ∧ no_char ":" k ∧ no_char "|" v) m → Split2Map (Concatenate m) = Some m).
Proof.
  split; [unfold Split2Map; rewrite Split2Map_loop_correct by lia; by eexists|]. intros Hm.
  unfold Split2Map. rewrite Split2Map_loop_correct by lia. rewrite drop_0. f_equal.
  unfold Concatenate. rewrite chars_Concatenate. cbn [list_ascii_of_string app].
  assert (entries m ≡ₚ map_to_list m) as Hp by apply merge_sort_Permutation.
  assert (Forall (λ kv, no_char "|" kv.1 ∧ no_char ":" kv.1 ∧ no_char "|" kv.2) (entries m)) as Hall.
  { rewrite Hp. apply Forall_forall. intros [k v] Hkv%list_elem_of_In%list_elem_of_In%elem_of_map_to_list. exact (Hm _ _ Hkv). }
  rewrite getlines_elements by (eapply Forall_impl; [exact Hall|cbn; tauto]).
  assert (filter (λ t, t ≠ "") (map element (entries m)) = map element (entries m)) as ->.
  { clear. induction (entries m) as [|kv l IH]; [done|]. cbn [map]. rewrite filter_cons_True by apply element_nonempty.
    by rewrite IH. }
  assert (NoDup (entries m).*1) as Hnd by (rewrite Hp; apply NoDup_fst_map_to_list).
  rewrite fold_elements; [|done|eapply Forall_impl; [exact Hall|cbn; tauto]|intros; apply lookup_empty].
  rewrite (right_id_L ∅ (∪)), (list_to_map_proper _ _ Hnd Hp). apply list_to_map_to_list.
Qed.
Definition sample_headers : gmap string string := {[ "Accept" := "text/html"; "Host" := "a:80" ]}.
Lemma header_roundtrip_witness : Split2Map (Concatenate sample_headers) = Some sample_headers.
Proof. apply (header_roundtrip sample_headers ""). apply (bool_decide_unpack _). by vm_compute. Defined.
End headers.

(** ** A sample task *)
Module SamplePackages.
Definition package (id : string) (st down : Z) : DownloadInfo.t :=
  DownloadInfo.UpdateDownloadInfo
    {| DownloadCallbackInfo.downloadId := id; DownloadCallbackInfo.downloadedSize := down;
       DownloadCallbackInfo.startTime := 0; DownloadCallbackInfo.endTime := 0; DownloadCallbackInfo.effectiveTime := 0;
       DownloadCallbackInfo.status := st; DownloadCallbackInfo.endReason := DownloadEndReason.INIT;
       DownloadCallbackInfo.resetRetryTimes := false;
       DownloadCallbackInfo.downloadErrorInfo := DownloadErrorInfo.default; DownloadCallbackInfo.verifiedSize := 0 |}
    (DownloadInfo.set_downloadId id (DownloadInfo.set_packageSize 200 DownloadInfo.default)).
Definition packages : list DownloadInfo.t :=
  [package "a" DownloadStatus.SUCCESS 200; package "b" DownloadStatus.VERIFYING 100].
Lemma task_progress_correct_witness :
  let p := (DownloadTaskProgressProcessor.GetTaskProgress packages (DownloadTaskProgressProcessor.new packages)).2 in
  ProgressInfo.taskProgress p = 75 ∧ ProgressInfo.taskStatus p = DownloadStatus.DOWNLOADING.
Proof.
  assert (wf_sizes packages) as Hwf by (split_and!; [done|repeat constructor; done|done..]).
  destruct (task_progress_correct (DownloadTaskProgressProcessor.new packages) packages
    ltac:(by split) Hwf) as (_ & _ & Hp & _ & Hs & _). split; [exact Hp|exact Hs].
Defined.
End SamplePackages.
