(* ===== verification/FirmwareStore.v ===== *)
(** * The firmware store

    What the operators of [FirmwareDb] do to the tasks and components stored:
    a row reads back as the structure it was written from ([stored_task],
    [stored_component]), an update sets exactly the fields it names in exactly
    the structures its predicate selects, and a query returns the stored ones. *)
From Stdlib Require Import ZArith Lia Ascii String.
From stdpp Require Import base tactics list strings gmap.
From S2P Require Import Prelude CppString Json Models Database FirmwareDb.

#[local] Open Scope Z_scope.

(** ** Specification

    The structures after an update, field by field. *)
Module Task.
Import FirmwareTask.
Definition with_status (status_ : Z) (x : t) : t :=
  {| FirmwareTask.taskId := FirmwareTask.taskId x;
     FirmwareTask.status := status_;
     FirmwareTask.progress := FirmwareTask.progress x;
     FirmwareTask.errorCode := FirmwareTask.errorCode x;
     FirmwareTask.errorMsg := FirmwareTask.errorMsg x;
     FirmwareTask.isExistTask := FirmwareTask.isExistTask x;
     FirmwareTask.downloadTaskId := FirmwareTask.downloadTaskId x;
     FirmwareTask.combinationType := FirmwareTask.combinationType x;
     FirmwareTask.downloadOrder := FirmwareTask.downloadOrder x;
     FirmwareTask.downloadAllowNetwork := FirmwareTask.downloadAllowNetwork x;
     FirmwareTask.downloadMode := FirmwareTask.downloadMode x;
     FirmwareTask.upgradeOrder := FirmwareTask.upgradeOrder x;
     FirmwareTask.upgradeMode := FirmwareTask.upgradeMode x;
     FirmwareTask.authResult := FirmwareTask.authResult x;
     FirmwareTask.updateToken := FirmwareTask.updateToken x;
     FirmwareTask.deviceToken := FirmwareTask.deviceToken x;
     FirmwareTask.tokenHMac := FirmwareTask.tokenHMac x;
     FirmwareTask.currentVersionList := FirmwareTask.currentVersionList x;
     FirmwareTask.authTime := FirmwareTask.authTime x;
     FirmwareTask.isStreamUpgrade := FirmwareTask.isStreamUpgrade x |}.
Definition with_progress (status_ : Z) (progress_ : Z) (x : t) : t :=
  {| FirmwareTask.taskId := FirmwareTask.taskId x;
     FirmwareTask.status := status_;
     FirmwareTask.progress := progress_;
     FirmwareTask.errorCode := FirmwareTask.errorCode x;
     FirmwareTask.errorMsg := FirmwareTask.errorMsg x;
     FirmwareTask.isExistTask := FirmwareTask.isExistTask x;
     FirmwareTask.downloadTaskId := FirmwareTask.downloadTaskId x;
     FirmwareTask.combinationType := FirmwareTask.combinationType x;
     FirmwareTask.downloadOrder := FirmwareTask.downloadOrder x;
     FirmwareTask.downloadAllowNetwork := FirmwareTask.downloadAllowNetwork x;
     FirmwareTask.downloadMode := FirmwareTask.downloadMode x;
     FirmwareTask.upgradeOrder := FirmwareTask.upgradeOrder x;
     FirmwareTask.upgradeMode := FirmwareTask.upgradeMode x;
     FirmwareTask.authResult := FirmwareTask.authResult x;
     FirmwareTask.updateToken := FirmwareTask.updateToken x;
     FirmwareTask.deviceToken := FirmwareTask.deviceToken x;
     FirmwareTask.tokenHMac := FirmwareTask.tokenHMac x;
     FirmwareTask.currentVersionList := FirmwareTask.currentVersionList x;
     FirmwareTask.authTime := FirmwareTask.authTime x;
     FirmwareTask.isStreamUpgrade := FirmwareTask.isStreamUpgrade x |}.
Definition with_error (errorCode_ : Z) (errorMsg_ : string) (x : t) : t :=
  {| FirmwareTask.taskId := FirmwareTask.taskId x;
     FirmwareTask.status := FirmwareTask.status x;
     FirmwareTask.progress := FirmwareTask.progress x;
     FirmwareTask.errorCode := errorCode_;
     FirmwareTask.errorMsg := errorMsg_;
     FirmwareTask.isExistTask := FirmwareTask.isExistTask x;
     FirmwareTask.downloadTaskId := FirmwareTask.downloadTaskId x;
     FirmwareTask.combinationType := FirmwareTask.combinationType x;
     FirmwareTask.downloadOrder := FirmwareTask.downloadOrder x;
     FirmwareTask.downloadAllowNetwork := FirmwareTask.downloadAllowNetwork x;
     FirmwareTask.downloadMode := FirmwareTask.downloadMode x;
     FirmwareTask.upgradeOrder := FirmwareTask.upgradeOrder x;
     FirmwareTask.upgradeMode := FirmwareTask.upgradeMode x;
     FirmwareTask.authResult := FirmwareTask.authResult x;
     FirmwareTask.updateToken := FirmwareTask.updateToken x;
     FirmwareTask.deviceToken := FirmwareTask.deviceToken x;
     FirmwareTask.tokenHMac := FirmwareTask.tokenHMac x;
     FirmwareTask.currentVersionList := FirmwareTask.currentVersionList x;
     FirmwareTask.authTime := FirmwareTask.authTime x;
     FirmwareTask.isStreamUpgrade := FirmwareTask.isStreamUpgrade x |}.
Definition with_downloadTaskId (downloadTaskId_ : string) (x : t) : t :=
  {| FirmwareTask.taskId := FirmwareTask.taskId x;
     FirmwareTask.status := FirmwareTask.status x;
     FirmwareTask.progress := FirmwareTask.progress x;
     FirmwareTask.errorCode := FirmwareTask.errorCode x;
     FirmwareTask.errorMsg := FirmwareTask.errorMsg x;
     FirmwareTask.isExistTask := FirmwareTask.isExistTask x;
     FirmwareTask.downloadTaskId := downloadTaskId_;
     FirmwareTask.combinationType := FirmwareTask.combinationType x;
     FirmwareTask.downloadOrder := FirmwareTask.downloadOrder x;
     FirmwareTask.downloadAllowNetwork := FirmwareTask.downloadAllowNetwork x;
     FirmwareTask.downloadMode := FirmwareTask.downloadMode x;
     FirmwareTask.upgradeOrder := FirmwareTask.upgradeOrder x;
     FirmwareTask.upgradeMode := FirmwareTask.upgradeMode x;
     FirmwareTask.authResult := FirmwareTask.authResult x;
     FirmwareTask.updateToken := FirmwareTask.updateToken x;
     FirmwareTask.deviceToken := FirmwareTask.deviceToken x;
     FirmwareTask.tokenHMac := FirmwareTask.tokenHMac x;
     FirmwareTask.currentVersionList := FirmwareTask.currentVersionList x;
     FirmwareTask.authTime := FirmwareTask.authTime x;
     FirmwareTask.isStreamUpgrade := FirmwareTask.isStreamUpgrade x |}.
Definition with_combinationType (combinationType_ : Z) (x : t) : t :=
  {| FirmwareTask.taskId := FirmwareTask.taskId x;
     FirmwareTask.status := FirmwareTask.status x;
     FirmwareTask.progress := FirmwareTask.progress x;
     FirmwareTask.errorCode := FirmwareTask.errorCode x;
     FirmwareTask.errorMsg := FirmwareTask.errorMsg x;
     FirmwareTask.isExistTask := FirmwareTask.isExistTask x;
     FirmwareTask.downloadTaskId := FirmwareTask.downloadTaskId x;
     FirmwareTask.combinationType := combinationType_;
     FirmwareTask.downloadOrder := FirmwareTask.downloadOrder x;
     FirmwareTask.downloadAllowNetwork := FirmwareTask.downloadAllowNetwork x;
     FirmwareTask.downloadMode := FirmwareTask.downloadMode x;
     FirmwareTask.upgradeOrder := FirmwareTask.upgradeOrder x;
     FirmwareTask.upgradeMode := FirmwareTask.upgradeMode x;
     FirmwareTask.authResult := FirmwareTask.authResult x;
     FirmwareTask.updateToken := FirmwareTask.updateToken x;
     FirmwareTask.deviceToken := FirmwareTask.deviceToken x;
     FirmwareTask.tokenHMac := FirmwareTask.tokenHMac x;
     FirmwareTask.currentVersionList := FirmwareTask.currentVersionList x;
     FirmwareTask.authTime := FirmwareTask.authTime x;
     FirmwareTask.isStreamUpgrade := FirmwareTask.isStreamUpgrade x |}.
Definition with_downloadMode (downloadMode_ : Z) (x : t) : t :=
  {| FirmwareTask.taskId := FirmwareTask.taskId x;
     FirmwareTask.status := FirmwareTask.status x;
     FirmwareTask.progress := FirmwareTask.progress x;
     FirmwareTask.errorCode := FirmwareTask.errorCode x;
     FirmwareTask.errorMsg := FirmwareTask.errorMsg x;
     FirmwareTask.isExistTask := FirmwareTask.isExistTask x;
     FirmwareTask.downloadTaskId := FirmwareTask.downloadTaskId x;
     FirmwareTask.combinationType := FirmwareTask.combinationType x;
     FirmwareTask.downloadOrder := FirmwareTask.downloadOrder x;
     FirmwareTask.downloadAllowNetwork := FirmwareTask.downloadAllowNetwork x;
     FirmwareTask.downloadMode := downloadMode_;
     FirmwareTask.upgradeOrder := FirmwareTask.upgradeOrder x;
     FirmwareTask.upgradeMode := FirmwareTask.upgradeMode x;
     FirmwareTask.authResult := FirmwareTask.authResult x;
     FirmwareTask.updateToken := FirmwareTask.updateToken x;
     FirmwareTask.deviceToken := FirmwareTask.deviceToken x;
     FirmwareTask.tokenHMac := FirmwareTask.tokenHMac x;
     FirmwareTask.currentVersionList := FirmwareTask.currentVersionList x;
     FirmwareTask.authTime := FirmwareTask.authTime x;
     FirmwareTask.isStreamUpgrade := FirmwareTask.isStreamUpgrade x |}.
Definition with_downloadAllowNetwork (downloadAllowNetwork_ : Z) (x : t) : t :=
  {| FirmwareTask.taskId := FirmwareTask.taskId x;
     FirmwareTask.status := FirmwareTask.status x;
     FirmwareTask.progress := FirmwareTask.progress x;
     FirmwareTask.errorCode := FirmwareTask.errorCode x;
     FirmwareTask.errorMsg := FirmwareTask.errorMsg x;
     FirmwareTask.isExistTask := FirmwareTask.isExistTask x;
     FirmwareTask.downloadTaskId := FirmwareTask.downloadTaskId x;
     FirmwareTask.combinationType := FirmwareTask.combinationType x;
     FirmwareTask.downloadOrder := FirmwareTask.downloadOrder x;
     FirmwareTask.downloadAllowNetwork := downloadAllowNetwork_;
     FirmwareTask.downloadMode := FirmwareTask.downloadMode x;
     FirmwareTask.upgradeOrder := FirmwareTask.upgradeOrder x;
     FirmwareTask.upgradeMode := FirmwareTask.upgradeMode x;
     FirmwareTask.authResult := FirmwareTask.authResult x;
     FirmwareTask.updateToken := FirmwareTask.updateToken x;
     FirmwareTask.deviceToken := FirmwareTask.deviceToken x;
     FirmwareTask.tokenHMac := FirmwareTask.tokenHMac x;
     FirmwareTask.currentVersionList := FirmwareTask.currentVersionList x;
     FirmwareTask.authTime := FirmwareTask.authTime x;
     FirmwareTask.isStreamUpgrade := FirmwareTask.isStreamUpgrade x |}.
Definition with_downloadOrder (downloadOrder_ : Z) (x : t) : t :=
  {| FirmwareTask.taskId := FirmwareTask.taskId x;
     FirmwareTask.status := FirmwareTask.status x;
     FirmwareTask.progress := FirmwareTask.progress x;
     FirmwareTask.errorCode := FirmwareTask.errorCode x;
     FirmwareTask.errorMsg := FirmwareTask.errorMsg x;
     FirmwareTask.isExistTask := FirmwareTask.isExistTask x;
     FirmwareTask.downloadTaskId := FirmwareTask.downloadTaskId x;
     FirmwareTask.combinationType := FirmwareTask.combinationType x;
     FirmwareTask.downloadOrder := downloadOrder_;
     FirmwareTask.downloadAllowNetwork := FirmwareTask.downloadAllowNetwork x;
     FirmwareTask.downloadMode := FirmwareTask.downloadMode x;
     FirmwareTask.upgradeOrder := FirmwareTask.upgradeOrder x;
     FirmwareTask.upgradeMode := FirmwareTask.upgradeMode x;
     FirmwareTask.authResult := FirmwareTask.authResult x;
     FirmwareTask.updateToken := FirmwareTask.updateToken x;
     FirmwareTask.deviceToken := FirmwareTask.deviceToken x;
     FirmwareTask.tokenHMac := FirmwareTask.tokenHMac x;
     FirmwareTask.currentVersionList := FirmwareTask.currentVersionList x;
     FirmwareTask.authTime := FirmwareTask.authTime x;
     FirmwareTask.isStreamUpgrade := FirmwareTask.isStreamUpgrade x |}.
Definition with_downloadOption (downloadMode_ : Z) (downloadAllowNetwork_ : Z) (downloadOrder_ : Z) (x : t) : t :=
  {| FirmwareTask.taskId := FirmwareTask.taskId x;
     FirmwareTask.status := FirmwareTask.status x;
     FirmwareTask.progress := FirmwareTask.progress x;
     FirmwareTask.errorCode := FirmwareTask.errorCode x;
     FirmwareTask.errorMsg := FirmwareTask.errorMsg x;
     FirmwareTask.isExistTask := FirmwareTask.isExistTask x;
     FirmwareTask.downloadTaskId := FirmwareTask.downloadTaskId x;
     FirmwareTask.combinationType := FirmwareTask.combinationType x;
     FirmwareTask.downloadOrder := downloadOrder_;
     FirmwareTask.downloadAllowNetwork := downloadAllowNetwork_;
     FirmwareTask.downloadMode := downloadMode_;
     FirmwareTask.upgradeOrder := FirmwareTask.upgradeOrder x;
     FirmwareTask.upgradeMode := FirmwareTask.upgradeMode x;
     FirmwareTask.authResult := FirmwareTask.authResult x;
     FirmwareTask.updateToken := FirmwareTask.updateToken x;
     FirmwareTask.deviceToken := FirmwareTask.deviceToken x;
     FirmwareTask.tokenHMac := FirmwareTask.tokenHMac x;
     FirmwareTask.currentVersionList := FirmwareTask.currentVersionList x;
     FirmwareTask.authTime := FirmwareTask.authTime x;
     FirmwareTask.isStreamUpgrade := FirmwareTask.isStreamUpgrade x |}.
Definition with_upgradeMode (upgradeMode_ : Z) (x : t) : t :=
  {| FirmwareTask.taskId := FirmwareTask.taskId x;
     FirmwareTask.status := FirmwareTask.status x;
     FirmwareTask.progress := FirmwareTask.progress x;
     FirmwareTask.errorCode := FirmwareTask.errorCode x;
     FirmwareTask.errorMsg := FirmwareTask.errorMsg x;
     FirmwareTask.isExistTask := FirmwareTask.isExistTask x;
     FirmwareTask.downloadTaskId := FirmwareTask.downloadTaskId x;
     FirmwareTask.combinationType := FirmwareTask.combinationType x;
     FirmwareTask.downloadOrder := FirmwareTask.downloadOrder x;
     FirmwareTask.downloadAllowNetwork := FirmwareTask.downloadAllowNetwork x;
     FirmwareTask.downloadMode := FirmwareTask.downloadMode x;
     FirmwareTask.upgradeOrder := FirmwareTask.upgradeOrder x;
     FirmwareTask.upgradeMode := upgradeMode_;
     FirmwareTask.authResult := FirmwareTask.authResult x;
     FirmwareTask.updateToken := FirmwareTask.updateToken x;
     FirmwareTask.deviceToken := FirmwareTask.deviceToken x;
     FirmwareTask.tokenHMac := FirmwareTask.tokenHMac x;
     FirmwareTask.currentVersionList := FirmwareTask.currentVersionList x;
     FirmwareTask.authTime := FirmwareTask.authTime x;
     FirmwareTask.isStreamUpgrade := FirmwareTask.isStreamUpgrade x |}.
Definition with_upgradeOrder (upgradeOrder_ : Z) (x : t) : t :=
  {| FirmwareTask.taskId := FirmwareTask.taskId x;
     FirmwareTask.status := FirmwareTask.status x;
     FirmwareTask.progress := FirmwareTask.progress x;
     FirmwareTask.errorCode := FirmwareTask.errorCode x;
     FirmwareTask.errorMsg := FirmwareTask.errorMsg x;
     FirmwareTask.isExistTask := FirmwareTask.isExistTask x;
     FirmwareTask.downloadTaskId := FirmwareTask.downloadTaskId x;
     FirmwareTask.combinationType := FirmwareTask.combinationType x;
     FirmwareTask.downloadOrder := FirmwareTask.downloadOrder x;
     FirmwareTask.downloadAllowNetwork := FirmwareTask.downloadAllowNetwork x;
     FirmwareTask.downloadMode := FirmwareTask.downloadMode x;
     FirmwareTask.upgradeOrder := upgradeOrder_;
     FirmwareTask.upgradeMode := FirmwareTask.upgradeMode x;
     FirmwareTask.authResult := FirmwareTask.authResult x;
     FirmwareTask.updateToken := FirmwareTask.updateToken x;
     FirmwareTask.deviceToken := FirmwareTask.deviceToken x;
     FirmwareTask.tokenHMac := FirmwareTask.tokenHMac x;
     FirmwareTask.currentVersionList := FirmwareTask.currentVersionList x;
     FirmwareTask.authTime := FirmwareTask.authTime x;
     FirmwareTask.isStreamUpgrade := FirmwareTask.isStreamUpgrade x |}.

(** The numbers fit their columns. *)
Definition wf (x : t) : Prop :=
  is_int32 (status x) ∧ is_int32 (progress x) ∧ is_int32 (errorCode x) ∧
  is_int32 (combinationType x) ∧ is_int32 (downloadOrder x) ∧
  is_int32 (downloadAllowNetwork x) ∧ is_int32 (downloadMode x) ∧
  is_int32 (upgradeOrder x) ∧ is_int32 (upgradeMode x) ∧ is_int64 (authTime x).
Definition represents (r : Row) (x : t) : Prop := FirmwareTaskTable.BuildDbValue x ⊆ r ∧ wf x.
End Task.

Module Component.
Import FirmwareComponent.
Definition with_status (status_ : Z) (x : t) : t :=
  {| FirmwareComponent.id := FirmwareComponent.id x;
     FirmwareComponent.versionId := FirmwareComponent.versionId x;
     FirmwareComponent.packageIndex := FirmwareComponent.packageIndex x;
     FirmwareComponent.versionPackageType := FirmwareComponent.versionPackageType x;
     FirmwareComponent.otaType := FirmwareComponent.otaType x;
     FirmwareComponent.targetBlVersionNumber := FirmwareComponent.targetBlVersionNumber x;
     FirmwareComponent.targetBlDisplayVersionNumber := FirmwareComponent.targetBlDisplayVersionNumber x;
     FirmwareComponent.versionNumber := FirmwareComponent.versionNumber x;
     FirmwareComponent.blVersionInfo := FirmwareComponent.blVersionInfo x;
     FirmwareComponent.componentId := FirmwareComponent.componentId x;
     FirmwareComponent.descriptPackageId := FirmwareComponent.descriptPackageId x;
     FirmwareComponent.changelogUrl := FirmwareComponent.changelogUrl x;
     FirmwareComponent.blVersionType := FirmwareComponent.blVersionType x;
     FirmwareComponent.isNeedRestart := FirmwareComponent.isNeedRestart x;
     FirmwareComponent.patchType := FirmwareComponent.patchType x;
     FirmwareComponent.url := FirmwareComponent.url x;
     FirmwareComponent.reserveUrl := FirmwareComponent.reserveUrl x;
     FirmwareComponent.storageType := FirmwareComponent.storageType x;
     FirmwareComponent.fileName := FirmwareComponent.fileName x;
     FirmwareComponent.size := FirmwareComponent.size x;
     FirmwareComponent.verifyInfo := FirmwareComponent.verifyInfo x;
     FirmwareComponent.spath := FirmwareComponent.spath x;
     FirmwareComponent.status := status_;
     FirmwareComponent.progress := FirmwareComponent.progress x;
     FirmwareComponent.recordPoint := FirmwareComponent.recordPoint x |}.
Definition with_progress (status_ : Z) (progress_ : Z) (x : t) : t :=
  {| FirmwareComponent.id := FirmwareComponent.id x;
     FirmwareComponent.versionId := FirmwareComponent.versionId x;
     FirmwareComponent.packageIndex := FirmwareComponent.packageIndex x;
     FirmwareComponent.versionPackageType := FirmwareComponent.versionPackageType x;
     FirmwareComponent.otaType := FirmwareComponent.otaType x;
     FirmwareComponent.targetBlVersionNumber := FirmwareComponent.targetBlVersionNumber x;
     FirmwareComponent.targetBlDisplayVersionNumber := FirmwareComponent.targetBlDisplayVersionNumber x;
     FirmwareComponent.versionNumber := FirmwareComponent.versionNumber x;
     FirmwareComponent.blVersionInfo := FirmwareComponent.blVersionInfo x;
     FirmwareComponent.componentId := FirmwareComponent.componentId x;
     FirmwareComponent.descriptPackageId := FirmwareComponent.descriptPackageId x;
     FirmwareComponent.changelogUrl := FirmwareComponent.changelogUrl x;
     FirmwareComponent.blVersionType := FirmwareComponent.blVersionType x;
     FirmwareComponent.isNeedRestart := FirmwareComponent.isNeedRestart x;
     FirmwareComponent.patchType := FirmwareComponent.patchType x;
     FirmwareComponent.url := FirmwareComponent.url x;
     FirmwareComponent.reserveUrl := FirmwareComponent.reserveUrl x;
     FirmwareComponent.storageType := FirmwareComponent.storageType x;
     FirmwareComponent.fileName := FirmwareComponent.fileName x;
     FirmwareComponent.size := FirmwareComponent.size x;
     FirmwareComponent.verifyInfo := FirmwareComponent.verifyInfo x;
     FirmwareComponent.spath := FirmwareComponent.spath x;
     FirmwareComponent.status := status_;
     FirmwareComponent.progress := progress_;
     FirmwareComponent.recordPoint := FirmwareComponent.recordPoint x |}.
Definition with_url (url_ : string) (x : t) : t :=
  {| FirmwareComponent.id := FirmwareComponent.id x;
     FirmwareComponent.versionId := FirmwareComponent.versionId x;
     FirmwareComponent.packageIndex := FirmwareComponent.packageIndex x;
     FirmwareComponent.versionPackageType := FirmwareComponent.versionPackageType x;
     FirmwareComponent.otaType := FirmwareComponent.otaType x;
     FirmwareComponent.targetBlVersionNumber := FirmwareComponent.targetBlVersionNumber x;
     FirmwareComponent.targetBlDisplayVersionNumber := FirmwareComponent.targetBlDisplayVersionNumber x;
     FirmwareComponent.versionNumber := FirmwareComponent.versionNumber x;
     FirmwareComponent.blVersionInfo := FirmwareComponent.blVersionInfo x;
     FirmwareComponent.componentId := FirmwareComponent.componentId x;
     FirmwareComponent.descriptPackageId := FirmwareComponent.descriptPackageId x;
     FirmwareComponent.changelogUrl := FirmwareComponent.changelogUrl x;
     FirmwareComponent.blVersionType := FirmwareComponent.blVersionType x;
     FirmwareComponent.isNeedRestart := FirmwareComponent.isNeedRestart x;
     FirmwareComponent.patchType := FirmwareComponent.patchType x;
     FirmwareComponent.url := url_;
     FirmwareComponent.reserveUrl := FirmwareComponent.reserveUrl x;
     FirmwareComponent.storageType := FirmwareComponent.storageType x;
     FirmwareComponent.fileName := FirmwareComponent.fileName x;
     FirmwareComponent.size := FirmwareComponent.size x;
     FirmwareComponent.verifyInfo := FirmwareComponent.verifyInfo x;
     FirmwareComponent.spath := FirmwareComponent.spath x;
     FirmwareComponent.status := FirmwareComponent.status x;
     FirmwareComponent.progress := FirmwareComponent.progress x;
     FirmwareComponent.recordPoint := FirmwareComponent.recordPoint x |}.
Definition with_recordPoint (recordPoint_ : Z) (x : t) : t :=
  {| FirmwareComponent.id := FirmwareComponent.id x;
     FirmwareComponent.versionId := FirmwareComponent.versionId x;
     FirmwareComponent.packageIndex := FirmwareComponent.packageIndex x;
     FirmwareComponent.versionPackageType := FirmwareComponent.versionPackageType x;
     FirmwareComponent.otaType := FirmwareComponent.otaType x;
     FirmwareComponent.targetBlVersionNumber := FirmwareComponent.targetBlVersionNumber x;
     FirmwareComponent.targetBlDisplayVersionNumber := FirmwareComponent.targetBlDisplayVersionNumber x;
     FirmwareComponent.versionNumber := FirmwareComponent.versionNumber x;
     FirmwareComponent.blVersionInfo := FirmwareComponent.blVersionInfo x;
     FirmwareComponent.componentId := FirmwareComponent.componentId x;
     FirmwareComponent.descriptPackageId := FirmwareComponent.descriptPackageId x;
     FirmwareComponent.changelogUrl := FirmwareComponent.changelogUrl x;
     FirmwareComponent.blVersionType := FirmwareComponent.blVersionType x;
     FirmwareComponent.isNeedRestart := FirmwareComponent.isNeedRestart x;
     FirmwareComponent.patchType := FirmwareComponent.patchType x;
     FirmwareComponent.url := FirmwareComponent.url x;
     FirmwareComponent.reserveUrl := FirmwareComponent.reserveUrl x;
     FirmwareComponent.storageType := FirmwareComponent.storageType x;
     FirmwareComponent.fileName := FirmwareComponent.fileName x;
     FirmwareComponent.size := FirmwareComponent.size x;
     FirmwareComponent.verifyInfo := FirmwareComponent.verifyInfo x;
     FirmwareComponent.spath := FirmwareComponent.spath x;
     FirmwareComponent.status := FirmwareComponent.status x;
     FirmwareComponent.progress := FirmwareComponent.progress x;
     FirmwareComponent.recordPoint := recordPoint_ |}.
Definition with_id (id_ : Z) (x : t) : t :=
  {| FirmwareComponent.id := id_;
     FirmwareComponent.versionId := FirmwareComponent.versionId x;
     FirmwareComponent.packageIndex := FirmwareComponent.packageIndex x;
     FirmwareComponent.versionPackageType := FirmwareComponent.versionPackageType x;
     FirmwareComponent.otaType := FirmwareComponent.otaType x;
     FirmwareComponent.targetBlVersionNumber := FirmwareComponent.targetBlVersionNumber x;
     FirmwareComponent.targetBlDisplayVersionNumber := FirmwareComponent.targetBlDisplayVersionNumber x;
     FirmwareComponent.versionNumber := FirmwareComponent.versionNumber x;
     FirmwareComponent.blVersionInfo := FirmwareComponent.blVersionInfo x;
     FirmwareComponent.componentId := FirmwareComponent.componentId x;
     FirmwareComponent.descriptPackageId := FirmwareComponent.descriptPackageId x;
     FirmwareComponent.changelogUrl := FirmwareComponent.changelogUrl x;
     FirmwareComponent.blVersionType := FirmwareComponent.blVersionType x;
     FirmwareComponent.isNeedRestart := FirmwareComponent.isNeedRestart x;
     FirmwareComponent.patchType := FirmwareComponent.patchType x;
     FirmwareComponent.url := FirmwareComponent.url x;
     FirmwareComponent.reserveUrl := FirmwareComponent.reserveUrl x;
     FirmwareComponent.storageType := FirmwareComponent.storageType x;
     FirmwareComponent.fileName := FirmwareComponent.fileName x;
     FirmwareComponent.size := FirmwareComponent.size x;
     FirmwareComponent.verifyInfo := FirmwareComponent.verifyInfo x;
     FirmwareComponent.spath := FirmwareComponent.spath x;
     FirmwareComponent.status := FirmwareComponent.status x;
     FirmwareComponent.progress := FirmwareComponent.progress x;
     FirmwareComponent.recordPoint := FirmwareComponent.recordPoint x |}.

Definition wf (x : t) : Prop :=
  is_int32 (packageIndex x) ∧ is_int32 (versionPackageType x) ∧ is_int32 (otaType x) ∧
  is_int32 (blVersionType x) ∧ is_int32 (patchType x) ∧ is_int32 (storageType x) ∧
  is_int32 (status x) ∧ is_int32 (progress x) ∧ is_int64 (size x) ∧ is_int64 (recordPoint x).
Definition represents (r : Row) (x : t) : Prop :=
  FirmwareComponentTable.BuildDbValue x ⊆ r ∧ wf x ∧
  ∃ z, r !! COLUMN_ID = Some (VInt z) ∧ id x = to_int32 z.
End Component.

Lemma get_int_ok {R} `{RdbLaws R} (r : Row) c z d :
  r !! c = Some (VInt z) → is_int32 z → get_int r c d = z.
Proof. intros Hc Hz. unfold get_int, GetColumnValue. by rewrite Hc, GetInt_ok, to_int32_id. Qed.
Lemma get_int_wrap {R} `{RdbLaws R} (r : Row) c z d : r !! c = Some (VInt z) → get_int r c d = to_int32 z.
Proof. intros Hc. unfold get_int, GetColumnValue. by rewrite Hc, GetInt_ok. Qed.
Lemma get_long_ok {R} `{RdbLaws R} (r : Row) c z d : r !! c = Some (VInt z) → get_long r c d = z.
Proof. intros Hc. unfold get_long, GetColumnValue. by rewrite Hc, GetLong_ok. Qed.
Lemma get_string_ok {R} `{RdbLaws R} (r : Row) c s d : r !! c = Some (VStr s) → get_string r c d = s.
Proof. intros Hc. unfold get_string, GetColumnValue. by rewrite Hc, GetString_ok. Qed.
Lemma get_bool_ok {R} `{RdbLaws R} (r : Row) c b d : r !! c = Some (put_bool b) → get_bool r c d = b.
Proof. intros Hc. unfold get_bool. rewrite Hc. unfold put_bool. rewrite GetInt_ok. by destruct b. Qed.

(** Read every column of a row that holds a built value. *)
Ltac read_columns :=
  repeat first
    [ erewrite get_string_ok by (eapply lookup_weaken; [|eassumption]; reflexivity)
    | erewrite get_long_ok by (eapply lookup_weaken; [|eassumption]; reflexivity)
    | erewrite get_bool_ok by (eapply lookup_weaken; [|eassumption]; reflexivity)
    | erewrite get_int_ok; [|eapply lookup_weaken; [|eassumption]; reflexivity|assumption] ].

#[export, refine] Instance stored_task {R} `{RdbLaws R} : Stored R FirmwareTask.t := {
  represents := Task.represents;
  wf_value := Task.wf;
  normal := FirmwareTaskOperator.set_isExistTask false;
  with_id _ x := x
}.
Proof.
  - intros r x [Hr Hw]. destruct x. unfold Task.wf in Hw. cbn in Hw. destruct_and! Hw.
    unfold ParseDbValue, task_table, FirmwareTaskTable.ParseDbValue. read_columns. reflexivity.
  - intros x id Hw. split; [|done]. apply insert_subseteq. reflexivity.
Defined.

#[export, refine] Instance stored_component {R} `{RdbLaws R} : Stored R FirmwareComponent.t := {
  represents := Component.represents;
  wf_value := Component.wf;
  normal x := x;
  with_id id x := Component.with_id (to_int32 id) x
}.
Proof.
  - intros r x (Hr & Hw & z & Hid & Hz). destruct x. unfold Component.wf in Hw. cbn in Hw, Hz. destruct_and! Hw.
    unfold ParseDbValue, component_table, FirmwareComponentTable.ParseDbValue.
    rewrite (get_int_wrap _ _ _ _ Hid), <- Hz. read_columns. reflexivity.
  - intros x id Hw. split_and!; [by apply insert_subseteq|done|].
    exists id. split; [apply lookup_insert_eq|done].
Defined.

Section firmware_store.
Context {R : Type} `{RdbLaws R}.

Lemma dir_nonempty : FirmwareDatabase.GetDbStoreDir ≠ "".
Proof. done. Qed.

(** [m] applies [upd] to the selected structures of a table of [T] when it
    reports success and changes nothing otherwise; other tables keep their
    rows, and on a working store it succeeds. *)
Definition updates {T} `{!ITable R T, !Stored R T} (m : ST (SqliteDb.t R) bool)
    (sel : T → bool) (upd : T → T) : Prop :=
  ∀ s xs, holds s xs →
    holds (exec m s) (if eval m s then map (λ x, if sel x then upd x else x) xs else xs) ∧
    (∀ t, t ≠ GetTableName R T → table_rows (exec m s) t = table_rows s t) ∧
    (ready s → eval m s = true ∧ ready (exec m s)).

Lemma table_updates {T} `{!ITable R T, !Stored R T} dir v p (sel : T → bool) (upd : T → T) :
  dir ≠ "" → pr_table p = GetTableName R T →
  (∀ r x, represents r x → represents (v ∪ r) (upd x)) →
  (∀ r x, represents r x → row_matches p r = sel x) →
  updates (TableBaseOperator.Update dir v p) sel upd.
Proof.
  intros Hd Hp Hu Hm s xs Hx. split_and!.
  - by apply holds_Update.
  - intros t Ht. apply other_table_Update. by rewrite Hp.
  - intros Hs. split; [by apply Update_ok|by apply Update_ready].
Qed.

Lemma task_selected id r (x : FirmwareTask.t) :
  represents r x →
  row_matches (EqualTo (RdbPredicates FirmwareTaskTable.GetTableName) FirmwareTaskTable.COLUMN_TASK_ID id) r =
  String.eqb (FirmwareTask.taskId x) id.
Proof.
  intros [Hr _]. unfold row_matches. cbn [forallb pr_conds EqualTo RdbPredicates app].
  assert (r !! FirmwareTaskTable.COLUMN_TASK_ID = Some (VStr (FirmwareTask.taskId x))) as ->
    by (eapply lookup_weaken; [|exact Hr]; reflexivity).
  cbn. by rewrite andb_true_r.
Qed.
Lemma component_selected id r (x : FirmwareComponent.t) :
  represents r x →
  row_matches (FirmwareComponentOperator.by_version id) r = String.eqb (FirmwareComponent.versionId x) id.
Proof.
  intros [Hr _]. unfold row_matches. cbn [forallb pr_conds FirmwareComponentOperator.by_version EqualTo RdbPredicates app].
  assert (r !! FirmwareComponentTable.COLUMN_VERSION_ID = Some (VStr (FirmwareComponent.versionId x))) as ->
    by (eapply lookup_weaken; [|exact Hr]; reflexivity).
  cbn. by rewrite andb_true_r.
Qed.
Lemma component_selected_url url r (x : FirmwareComponent.t) :
  represents r x →
  row_matches (FirmwareComponentOperator.by_url url) r = String.eqb (FirmwareComponent.url x) url.
Proof.
  intros [Hr _]. unfold row_matches. cbn [forallb pr_conds FirmwareComponentOperator.by_url EqualTo RdbPredicates app].
  assert (r !! FirmwareComponentTable.COLUMN_DOWNLOAD_URL = Some (VStr (FirmwareComponent.url x))) as ->
    by (eapply lookup_weaken; [|exact Hr]; reflexivity).
  cbn. by rewrite andb_true_r.
Qed.

(** A bucket that rewrites the columns of a built value. *)
Lemma task_rewritten v (upd : FirmwareTask.t → FirmwareTask.t) :
  (∀ x, FirmwareTaskTable.BuildDbValue (upd x) = v ∪ FirmwareTaskTable.BuildDbValue x) →
  (∀ x, Task.wf x → Task.wf (upd x)) →
  ∀ r x, Task.represents r x → Task.represents (v ∪ r) (upd x).
Proof. intros Hb Hw r x [Hr Hx]. split; [|auto]. rewrite Hb. by apply map_union_mono_l. Qed.
Lemma component_rewritten v (upd : FirmwareComponent.t → FirmwareComponent.t) :
  (∀ x, FirmwareComponentTable.BuildDbValue (upd x) = v ∪ FirmwareComponentTable.BuildDbValue x) →
  (∀ x, Component.wf x → Component.wf (upd x)) →
  (∀ x, FirmwareComponent.id (upd x) = FirmwareComponent.id x) → v !! COLUMN_ID = None →
  ∀ r x, Component.represents r x → Component.represents (v ∪ r) (upd x).
Proof.
  intros Hb Hw Hid Hv r x (Hr & Hx & z & Hz & Hi). split_and!; [|auto|].
  - rewrite Hb. by apply map_union_mono_l.
  - exists z. rewrite Hid. split; [|done]. etransitivity; [by apply lookup_union_r|done].
Qed.

Ltac solve_task_update :=
  intros; apply table_updates;
  [ apply dir_nonempty | reflexivity
  | apply task_rewritten; [intros []; reflexivity | intros []; unfold Task.wf; cbn; naive_solver]
  | intros; by apply task_selected ].
Ltac solve_component_update :=
  intros; apply table_updates;
  [ apply dir_nonempty | reflexivity
  | apply component_rewritten;
    [ intros []; reflexivity | intros []; unfold Component.wf; cbn; naive_solver
    | intros []; reflexivity | reflexivity ]
  | intros; first [by apply component_selected | by apply component_selected_url] ].

(** The selectors of the update operators. *)
Definition task_is (taskId : string) (x : FirmwareTask.t) : bool := String.eqb (FirmwareTask.taskId x) taskId.
Definition url_is (url : string) (x : FirmwareComponent.t) : bool := String.eqb (FirmwareComponent.url x) url.
Definition version_is (v : string) (x : FirmwareComponent.t) : bool := String.eqb (FirmwareComponent.versionId x) v.

Lemma task_UpdateStatus taskId st :
  is_int32 st → updates (FirmwareTaskOperator.UpdateStatusByTaskId taskId st) (task_is taskId) (Task.with_status st).
Proof. solve_task_update. Qed.
Lemma task_UpdateProgress taskId st p :
  is_int32 st → is_int32 p → updates (FirmwareTaskOperator.UpdateProgressByTaskId taskId st p) (task_is taskId) (Task.with_progress st p).
Proof. solve_task_update. Qed.
Lemma task_UpdateErrMsg taskId c m :
  is_int32 c → updates (FirmwareTaskOperator.UpdateErrMsgByTaskId taskId c m) (task_is taskId) (Task.with_error c m).
Proof. solve_task_update. Qed.
Lemma task_UpdateDownloadTaskId taskId d :
  updates (FirmwareTaskOperator.UpdateDownloadTaskIdByTaskId taskId d) (task_is taskId) (Task.with_downloadTaskId d).
Proof. solve_task_update. Qed.
Lemma task_UpdateCombinationType taskId c :
  is_int32 c → updates (FirmwareTaskOperator.UpdateCombinationTypeByTaskId taskId c) (task_is taskId) (Task.with_combinationType c).
Proof. solve_task_update. Qed.
Lemma task_UpdateDownloadMode taskId m :
  is_int32 m → updates (FirmwareTaskOperator.UpdateDownloadModeByTaskId taskId m) (task_is taskId) (Task.with_downloadMode m).
Proof. solve_task_update. Qed.
Lemma task_UpdateDownloadAllowNetwork taskId n :
  is_int32 n → updates (FirmwareTaskOperator.UpdateDownloadAllowNetworkByTaskId taskId n) (task_is taskId) (Task.with_downloadAllowNetwork n).
Proof. solve_task_update. Qed.
Lemma task_UpdateDownloadOrder taskId o :
  is_int32 o → updates (FirmwareTaskOperator.UpdateDownloadOrderByTaskId taskId o) (task_is taskId) (Task.with_downloadOrder o).
Proof. solve_task_update. Qed.
Lemma task_UpdateDownloadOption taskId m n o :
  is_int32 m → is_int32 n → is_int32 o → updates (FirmwareTaskOperator.UpdateDownloadOptionByTaskId taskId m n o) (task_is taskId) (Task.with_downloadOption m n o).
Proof. solve_task_update. Qed.
Lemma task_UpdateUpgradeMode taskId m :
  is_int32 m → updates (FirmwareTaskOperator.UpdateUpgradeModeByTaskId taskId m) (task_is taskId) (Task.with_upgradeMode m).
Proof. solve_task_update. Qed.
Lemma task_UpdateUpgradeOrder taskId o :
  is_int32 o → updates (FirmwareTaskOperator.UpdateUpgradeOrderByTaskId taskId o) (task_is taskId) (Task.with_upgradeOrder o).
Proof. solve_task_update. Qed.
Lemma component_UpdateProgressByUrl url st p :
  is_int32 st → is_int32 p → updates (FirmwareComponentOperator.UpdateProgressByUrl url st p) (url_is url) (Component.with_progress st p).
Proof. solve_component_update. Qed.
Lemma component_UpdateStatusByUrl url st :
  is_int32 st → updates (FirmwareComponentOperator.UpdateStatusByUrl url st) (url_is url) (Component.with_status st).
Proof. solve_component_update. Qed.
Lemma component_UpdateUrlByVersionId v url :
  updates (FirmwareComponentOperator.UpdateUrlByVersionId v url) (version_is v) (Component.with_url url).
Proof. solve_component_update. Qed.
Lemma component_UpdateProgressByVersionId v st p :
  is_int32 st → is_int32 p → updates (FirmwareComponentOperator.UpdateProgressByVersionId v st p) (version_is v) (Component.with_progress st p).
Proof. solve_component_update. Qed.
Lemma component_UpdateRecordPointByUrl url n :
  updates (FirmwareComponentOperator.UpdateRecordPointByUrl url n) (url_is url) (Component.with_recordPoint (to_int32 n)).
Proof.
  apply table_updates;
    [apply dir_nonempty|reflexivity| |intros; by apply component_selected_url].
  apply component_rewritten; [intros []; reflexivity| |intros []; reflexivity|reflexivity].
  intros []. pose proof (to_int32_range n). unfold Component.wf. cbn. unfold_widths. naive_solver lia.
Qed.

(** Every update operator of the task table sets exactly the fields it
    names, in exactly the tasks with the given id, and reports whether it
    did; a failed update and the other tables are left alone. *)
Theorem task_updates_correct taskId :
  (∀ st, is_int32 st →
    updates (FirmwareTaskOperator.UpdateStatusByTaskId taskId st) (task_is taskId) (Task.with_status st)) ∧
  (∀ st p, is_int32 st → is_int32 p →
    updates (FirmwareTaskOperator.UpdateProgressByTaskId taskId st p) (task_is taskId) (Task.with_progress st p)) ∧
  (∀ c m, is_int32 c →
    updates (FirmwareTaskOperator.UpdateErrMsgByTaskId taskId c m) (task_is taskId) (Task.with_error c m)) ∧
  (∀ d, updates (FirmwareTaskOperator.UpdateDownloadTaskIdByTaskId taskId d) (task_is taskId) (Task.with_downloadTaskId d)) ∧
  (∀ c, is_int32 c →
    updates (FirmwareTaskOperator.UpdateCombinationTypeByTaskId taskId c) (task_is taskId) (Task.with_combinationType c)) ∧
  (∀ m, is_int32 m →
    updates (FirmwareTaskOperator.UpdateDownloadModeByTaskId taskId m) (task_is taskId) (Task.with_downloadMode m)) ∧
  (∀ n, is_int32 n →
    updates (FirmwareTaskOperator.UpdateDownloadAllowNetworkByTaskId taskId n) (task_is taskId) (Task.with_downloadAllowNetwork n)) ∧
  (∀ o, is_int32 o →
    updates (FirmwareTaskOperator.UpdateDownloadOrderByTaskId taskId o) (task_is taskId) (Task.with_downloadOrder o)) ∧
  (∀ m n o, is_int32 m → is_int32 n → is_int32 o →
    updates (FirmwareTaskOperator.UpdateDownloadOptionByTaskId taskId m n o) (task_is taskId) (Task.with_downloadOption m n o)) ∧
  (∀ m, is_int32 m →
    updates (FirmwareTaskOperator.UpdateUpgradeModeByTaskId taskId m) (task_is taskId) (Task.with_upgradeMode m)) ∧
  (∀ o, is_int32 o →
    updates (FirmwareTaskOperator.UpdateUpgradeOrderByTaskId taskId o) (task_is taskId) (Task.with_upgradeOrder o)).
Proof.
  split_and!; intros;
    [apply task_UpdateStatus | apply task_UpdateProgress | apply task_UpdateErrMsg | apply task_UpdateDownloadTaskId | apply task_UpdateCombinationType | apply task_UpdateDownloadMode | apply task_UpdateDownloadAllowNetwork | apply task_UpdateDownloadOrder | apply task_UpdateDownloadOption | apply task_UpdateUpgradeMode | apply task_UpdateUpgradeOrder]; done.
Qed.

(** The same for the component table, keyed by version id or url; the
    record point goes through a 32-bit [PutInt]. *)
Theorem component_updates_correct :
  (∀ url st p, is_int32 st → is_int32 p →
    updates (FirmwareComponentOperator.UpdateProgressByUrl url st p)
      (url_is url) (Component.with_progress st p)) ∧
  (∀ url st, is_int32 st →
    updates (FirmwareComponentOperator.UpdateStatusByUrl url st)
      (url_is url) (Component.with_status st)) ∧
  (∀ v url,
    updates (FirmwareComponentOperator.UpdateUrlByVersionId v url)
      (version_is v) (Component.with_url url)) ∧
  (∀ v st p, is_int32 st → is_int32 p →
    updates (FirmwareComponentOperator.UpdateProgressByVersionId v st p)
      (version_is v) (Component.with_progress st p)) ∧
  (∀ url n,
    updates (FirmwareComponentOperator.UpdateRecordPointByUrl url n)
      (url_is url) (Component.with_recordPoint (to_int32 n))).
Proof.
  split_and!; intros;
    [apply component_UpdateProgressByUrl | apply component_UpdateStatusByUrl | apply component_UpdateUrlByVersionId | apply component_UpdateProgressByVersionId | apply component_UpdateRecordPointByUrl]; done.
Qed.

Lemma holds_task_rows s (ts : list FirmwareTask.t) :
  holds s ts → Forall2 Task.represents (table_rows s FirmwareTaskTable.GetTableName) ts.
Proof. done. Qed.

(** [QueryTask] returns the first stored task, marked as existing, or
    leaves its argument in place, marked as missing, when there is none; it
    changes no table. *)
Lemma QueryTask_correct s ts task :
  ready s → holds s ts →
  eval (FirmwareTaskOperator.QueryTask task) s =
    match ts with
    | [] => FirmwareTaskOperator.set_isExistTask false task
    | t :: _ => FirmwareTaskOperator.set_isExistTask true t
    end ∧
  ready (exec (FirmwareTaskOperator.QueryTask task) s) ∧
  ∀ t, table_rows (exec (FirmwareTaskOperator.QueryTask task) s) t = table_rows s t.
Proof.
  intros Hs Ht. unfold FirmwareTaskOperator.QueryTask. rewrite !eval_bind, !exec_bind.
  rewrite (QueryAll_holds _ s ts) by done. cbn [app].
  assert (∀ l, exec (match l with
                     | [] => ret (FirmwareTaskOperator.set_isExistTask false task)
                     | t :: _ => ret (FirmwareTaskOperator.set_isExistTask true t)
                     end) = (λ s : SqliteDb.t R, s)) as He by (by intros []).
  split_and!.
  - destruct ts as [|[] ts]; reflexivity.
  - rewrite He. unfold TableBaseOperator.QueryAll, TableBaseOperator.Query.
    rewrite exec_bind. destruct (eval _ s); rewrite exec_ret; by apply Query_ready.
  - intros t. rewrite He. unfold TableBaseOperator.QueryAll, TableBaseOperator.Query.
    rewrite exec_bind. destruct (eval _ s); rewrite exec_ret; apply Query_rows.
Qed.

(** Inserting a task appends it, deleting all tasks empties the table, and
    neither touches the components. *)
Lemma task_insert_delete_correct s ts t :
  ready s → holds s ts → Task.wf t →
  holds (exec (FirmwareTaskOperator.Insert t) s) (ts ++ [t]) ∧
  eval (FirmwareTaskOperator.Insert t) s = true ∧
  holds (T := FirmwareTask.t) (exec FirmwareTaskOperator.DeleteAll s) [] ∧
  eval FirmwareTaskOperator.DeleteAll s = true.
Proof.
  intros Hs Ht Hw. split_and!.
  - edestruct (holds_Insert (T := FirmwareTask.t) FirmwareTaskOperator.dir) as [? Hi];
      [apply dir_nonempty|exact Hs|exact Hw|exact Ht|exact Hi].
  - by apply Insert_true.
  - pose proof (holds_DeleteAll FirmwareTaskOperator.dir s ts Ht) as Hd.
    by rewrite DeleteAll_true in Hd.
  - by apply DeleteAll_true.
Qed.

(** The queries of the component table. *)
Lemma QueryByVersionId_correct s cs v c :
  ready s → holds s cs →
  eval (FirmwareComponentOperator.QueryByVersionId v c) s =
    match List.filter (version_is v) cs with
    | x :: _ => (true, x)
    | [] => (false, c)
    end.
Proof.
  intros Hs Hc. unfold FirmwareComponentOperator.QueryByVersionId. rewrite eval_bind.
  rewrite (Query_holds _ _ (version_is v) s cs);
    [|done..|apply component_selected|done].
  cbn [app]. change (map normal) with (@map FirmwareComponent.t _ id). rewrite map_id.
  by destruct (List.filter _ _).
Qed.
Lemma QueryByUrl_correct s cs u c :
  ready s → holds s cs →
  eval (FirmwareComponentOperator.QueryByUrl u c) s =
    match List.filter (url_is u) cs with
    | x :: _ => (true, x)
    | [] => (false, c)
    end.
Proof.
  intros Hs Hc. unfold FirmwareComponentOperator.QueryByUrl. rewrite eval_bind.
  rewrite (Query_holds _ _ (url_is u) s cs);
    [|done..|apply component_selected_url|done].
  cbn [app]. change (map normal) with (@map FirmwareComponent.t _ id). rewrite map_id.
  by destruct (List.filter _ _).
Qed.
Lemma QueryAll_correct s cs :
  ready s → holds s cs → eval (FirmwareComponentOperator.QueryAll []) s = (true, cs).
Proof.
  intros Hs Hc. unfold FirmwareComponentOperator.QueryAll. rewrite (QueryAll_holds _ s cs) by done.
  cbn [app]. change (map normal) with (@map FirmwareComponent.t _ id). by rewrite map_id.
Qed.
End firmware_store.

(** ** Columns *)

Lemma list_to_map_columns (l : list (string * Value)) c :
  is_Some ((list_to_map l : gmap string Value) !! c) ↔ c ∈ l.*1.
Proof.
  pose proof (not_elem_of_list_to_map (M := gmap string) l c) as Hn.
  destruct ((list_to_map l : gmap string Value) !! c) eqn:E.
  - split; [|by eauto]. intros _. destruct (decide (c ∈ l.*1)) as [|Hc]; [done|]. by apply Hn in Hc.
  - split; [by intros []|]. intros Hc. by apply Hn in Hc.
Qed.

Lemma columns_split (written declared reserved : list string) :
  bool_decide (written = List.filter (λ k, negb (bool_decide (k ∈ reserved))) declared) = true →
  ∀ k, k ∈ written ↔ k ∈ declared ∧ k ∉ reserved.
Proof.
  rewrite bool_decide_eq_true. intros -> k. rewrite !list_elem_of_In, filter_In, <- !list_elem_of_In.
  rewrite negb_true_iff, bool_decide_eq_false. done.
Qed.

(** Each table's columns agree: every column that is written is declared by
    the create statement exactly once, and every declared column that is
    neither the id nor reserved is written. *)
Theorem columns_declared (t : FirmwareTask.t) (c : FirmwareComponent.t) :
  let tcols := FirmwareTaskTable.declared_columns.*1 in
  let ccols := FirmwareComponentTable.declared_columns.*1 in
  let reserved := COLUMN_ID :: ["extends1"; "extends2"; "extends3"; "extends4"; "extends5"; "extends6"] in
  NoDup tcols ∧ NoDup ccols ∧
  (∀ k, is_Some (FirmwareTaskTable.BuildDbValue t !! k) ↔ k ∈ tcols ∧ k ∉ reserved) ∧
  (∀ k, is_Some (FirmwareComponentTable.BuildDbValue c !! k) ↔ k ∈ ccols ∧ k ∉ reserved).
Proof.
  cbv zeta. split_and!.
  - apply (bool_decide_unpack _). vm_compute. done.
  - apply (bool_decide_unpack _). vm_compute. done.
  - intros k. etransitivity; [apply list_to_map_columns|].
    apply columns_split. vm_compute. done.
  - intros k. etransitivity; [apply list_to_map_columns|].
    apply columns_split. vm_compute. done.
Qed.

(** ** An in-memory store *)
Module MemoryDb.
Record t := { next : Z; contents : gmap string (list Row) }.
Definition empty : t := {| next := 1; contents := ∅ |}.
Definition get (m : t) (name : string) : list Row := default [] (contents m !! name).
Definition put (m : t) (name : string) (rs : list Row) : t :=
  {| next := next m; contents := <[name := rs]> (contents m) |}.

Fixpoint number (id : Z) (vs : list ValuesBucket) : list Row :=
  match vs with [] => [] | v :: vs => <[COLUMN_ID := VInt id]> v :: number (id + 1) vs end.

Definition insert_rows (name : string) (vs : list ValuesBucket) : ST t Z := λ m,
  (E_OK, {| next := next m + Z.of_nat (List.length vs);
            contents := <[name := get m name ++ number (next m) vs]> (contents m) |}).
Definition delete_rows (p : Predicates) : ST t Z := λ m,
  (E_OK, put m (pr_table p) (List.filter (λ x, negb (row_matches p x)) (get m (pr_table p)))).
Definition update_rows (v : ValuesBucket) (p : Predicates) : ST t Z := λ m,
  (E_OK, put m (pr_table p) (map (λ x, if row_matches p x then v ∪ x else x) (get m (pr_table p)))).
Definition query_rows (p : Predicates) : ST t (option (list Row)) := λ m,
  (Some (List.filter (row_matches p) (get m (pr_table p))), m).

#[global] Instance ops : Rdb t := {
  GetRdbStore := ret true;
  DeleteRdbStore := λ _, (E_OK, empty);
  ExecuteSql _ := ret E_OK;
  BatchInsert := insert_rows;
  RdbDelete := delete_rows;
  RdbQuery := query_rows;
  RdbUpdate := update_rows;
  GetString v := match v with VStr s => Some s | _ => None end;
  GetInt v := match v with VInt z => Some (to_int32 z) | _ => None end;
  GetLong v := match v with VInt z => Some z | _ => None end
}.

Lemma get_insert next_ m name rs name' :
  get {| next := next_; contents := <[name := rs]> (contents m) |} name' =
  if decide (name' = name) then rs else get m name'.
Proof.
  unfold get. cbn. destruct (decide (name' = name)) as [->|]; [by rewrite lookup_insert_eq|].
  by rewrite lookup_insert_ne.
Qed.

Lemma number_inserted id vs : inserted vs (number id vs).
Proof. revert id. induction vs as [|v vs IH]; intros id; constructor; [eauto|apply IH]. Qed.

#[global, refine] Instance laws : RdbLaws t := { rows := get; healthy _ := True }.
Proof.
  all: try done.
  - intros m name vs name'. unfold exec, eval. cbn. rewrite get_insert.
    destruct (decide (name' = name)) as [->|Hn].
    + rewrite decide_True by done. eauto using number_inserted.
    + rewrite decide_False by naive_solver. done.
  - intros m p name. unfold exec, eval. cbn. unfold put. rewrite get_insert.
    repeat case_decide; naive_solver.
  - intros m v p name. unfold exec, eval. cbn. unfold put. rewrite get_insert.
    repeat case_decide; naive_solver.
Defined.

(** A freshly opened database with the given tasks and components inserted. *)
Definition db (ts : list FirmwareTask.t) (cs : list FirmwareComponent.t) : SqliteDb.t t :=
  exec (FirmwareComponentOperator.Insert cs)
    (exec (for_each ts (λ x, FirmwareTaskOperator.Insert x ;;; ret tt))
       {| SqliteDb.dbStore_ := false; SqliteDb.store := empty |}).
End MemoryDb.

(** ** Witnesses *)

Definition sample_task : FirmwareTask.t :=
  Task.with_status UpgradeStatus.DOWNLOADING (FirmwareTask.default).
Lemma sample_task_wf : Task.wf sample_task.
Proof. apply (bool_decide_unpack _). by vm_compute. Qed.

Lemma holds_sample : holds (MemoryDb.db [sample_task] []) [sample_task].
Proof.
  constructor; [|constructor]. split; [|apply sample_task_wf].
  apply insert_subseteq. reflexivity.
Qed.

Lemma task_updates_correct_witness :
  let s := MemoryDb.db [sample_task] [] in
  holds (exec (FirmwareTaskOperator.UpdateStatusByTaskId "" UpgradeStatus.DOWNLOAD_SUCCESS) s)
    [Task.with_status UpgradeStatus.DOWNLOAD_SUCCESS sample_task].
Proof.
  intros s. destruct (task_updates_correct (R := MemoryDb.t) "") as [Hu _].
  refine (proj1 (Hu UpgradeStatus.DOWNLOAD_SUCCESS _ s [sample_task] holds_sample)).
  by vm_compute.
Defined.

Lemma component_updates_correct_witness :
  let s := MemoryDb.db [] [] in
  holds (exec (FirmwareComponentOperator.UpdateStatusByUrl "u" UpgradeStatus.DOWNLOAD_SUCCESS) s)
    ([] : list FirmwareComponent.t).
Proof.
  intros s. destruct (component_updates_correct (R := MemoryDb.t)) as (_ & Hu & _).
  refine (proj1 (Hu "u" UpgradeStatus.DOWNLOAD_SUCCESS _ s [] _)); [by vm_compute|constructor].
Defined.

(** The record point of a component past 2 GiB is not what was asked for. *)
Example record_point_truncated :
  let c := Component.with_url "u" (FirmwareComponent.default false) in
  let s := MemoryDb.db [] [c] in
  map FirmwareComponent.recordPoint
    (eval (FirmwareComponentOperator.QueryAll [])
       (exec (FirmwareComponentOperator.UpdateRecordPointByUrl "u" 3000000000) s)).2
  = [-1294967296].
Proof. vm_compute. reflexivity. Qed.
