(* ===== verification/FirmwareResult.v ===== *)
(** * The result of an update

    Models [services/firmware/upgrade/status]: after the reboot that applies an
    update, [FirmwareResultProcess] reads the file the updater left, one record
    [path|result:reason] per line, and decides whether the update succeeded.
    The contents of the file and the version the device displays come from
    outside; both are arguments. *)
From Stdlib Require Import ZArith Lia Ascii String.
From stdpp Require Import base tactics list strings gmap.
From S2P Require Import Prelude CppString StringUtils Models Database FirmwareDb FirmwareStore.

#[local] Open Scope Z_scope.

(*@ upgrade/status/include/firmware_result_process.h UpdateResultCode *)
Inductive UpdateResultCode := RESULT_SUCCESS | RESULT_FAILURE | RESULT_PART_SUCCESS.
(*@ upgrade/status/include/firmware_result_process.h UpdateComponentResultCode *)
Inductive UpdateComponentResultCode := COMPONENT_SUCCESS | COMPONENT_FAILURE | COMPONENT_UNEXECUTED.

Module UpdateResult.
(*@* upgrade/status/include/firmware_result_process.h:28-31 UPDATER_RESULT *)
Definition UPDATER_RESULT_SUCCESS : string := "pass".
Definition UPDATER_RESULT_FAILURE : string := "fail".
Definition UPDATER_RESULT_FAILURE_REASON : string := "compare version fail".
Definition UPDATER_RESULT_SUCCESS_REASON : string := "compare version success".
(*@ upgrade/status/include/firmware_result_process.h:45-48 UpdateResult *)
Record t := { spath : string; result : string; reason : string }.
(*@ upgrade/status/include/firmware_result_process.h:45-48 UpdateResult *)
Definition default : t := {| spath := ""; result := ""; reason := "" |}.
(*@ upgrade/status/include/firmware_result_process.h GetUpdateResultCode *)
Definition GetUpdateResultCode (this : t) : UpdateComponentResultCode :=
  if String.eqb (result this) UPDATER_RESULT_SUCCESS then COMPONENT_SUCCESS
  else if String.eqb (result this) UPDATER_RESULT_FAILURE then COMPONENT_FAILURE
  else COMPONENT_UNEXECUTED.
End UpdateResult.

Module FirmwareResultProcess.
Import UpdateResult.

(** [std::map<std::string, UpdateResult>]; [emplace] keeps an entry that is
    already there. *)
Abbreviation resultMap := (gmap string UpdateResult.t).
Definition emplace (r : UpdateResult.t) (m : resultMap) : resultMap :=
  match m !! spath r with Some _ => m | None => <[spath r := r]> m end.

(*@* upgrade/status/src/firmware_result_process.cpp:37-42 SYMBOL_LENGTH *)
Definition SYMBOL_LENGTH : nat := 1.
Definition UPDATE_SUCCESSED : Z := 1.
Definition UPDATE_FAILED : Z := 2.
Definition PKG_PATH_INDEX : nat := 0.
Definition RESULT_INDEX : nat := 1.
Definition REASON_INDEX : nat := 2.

(*@ upgrade/status/src/firmware_result_process.cpp FirmwareResultProcess::ParseResult *)
Definition ParseResult (results : list string) (value : string) (index : nat) : string :=
  match results !! index with
  | None => value
  | Some token => StringUtils.Trim token
  end.

(** [None] is the exception [std::string::substr] throws on a position past the
    end. *)
(*@ upgrade/status/src/firmware_result_process.cpp FirmwareResultProcess::ParseUpdaterResultRecord *)
Definition ParseUpdaterResultRecord (resultLine : string) (m : resultMap) : option resultMap :=
  if String.eqb resultLine "" then Some m
  else
    let results := getlines "|" resultLine in
    let path := ParseResult results "" PKG_PATH_INDEX in
    let res := ParseResult results "" RESULT_INDEX in
    let rea := ParseResult results "" REASON_INDEX in
    '(res, rea) ←
      match find_first_of res ":" with
      | None => Some (res, rea)
      | Some colonPlace =>
          res' ← substr res 0 colonPlace;
          token ← results !! RESULT_INDEX;
          rea' ← substr_from token (colonPlace + SYMBOL_LENGTH);
          Some (res', rea')
      end;
    Some (emplace {| spath := StringUtils.Trim path; result := StringUtils.Trim res;
                     reason := StringUtils.Trim rea |} m).

(** The lines [while (!infile.eof()) getline(infile, buffer)] sees: the last one
    may be empty. *)
(*@ upgrade/status/src/firmware_result_process.cpp:69-72 GetUpdaterResult *)
Fixpoint file_lines (cur : list ascii) (l : list ascii) : list string :=
  match l with
  | [] => [str (rev cur)]
  | c :: l' =>
      if Ascii.eqb c (ascii_of_nat 10) then str (rev cur) :: file_lines [] l'
      else file_lines (c :: cur) l'
  end.

(*@ upgrade/status/src/firmware_result_process.cpp:69-72 GetUpdaterResult *)
Fixpoint ParseRecords (lines : list string) (m : resultMap) : option resultMap :=
  match lines with
  | [] => Some m
  | buffer :: rest => m' ← ParseUpdaterResultRecord buffer m; ParseRecords rest m'
  end.

Section ops.
(** [FirmwareUpdateAdapter::GetDisplayVersion()] *)
Variable display_version : string.

(*@ upgrade/status/src/firmware_result_process.cpp FirmwareResultProcess::CompareVersion *)
Definition CompareVersion (component : FirmwareComponent.t) : UpdateResult.t :=
  if String.eqb (FirmwareComponent.versionNumber component) display_version then
    {| spath := FirmwareComponent.spath component;
       result := UPDATER_RESULT_SUCCESS; reason := UPDATER_RESULT_SUCCESS_REASON |}
  else
    {| spath := FirmwareComponent.spath component;
       result := UPDATER_RESULT_FAILURE; reason := UPDATER_RESULT_FAILURE_REASON |}.

(*@ upgrade/status/src/firmware_result_process.cpp FirmwareResultProcess::HandleFileError *)
Definition HandleFileError (components : list FirmwareComponent.t) : resultMap :=
  fold_left (λ m component, emplace (CompareVersion component) m) components ∅.

(** The loop over the components: the map and the accumulated result bits. *)
(*@ upgrade/status/src/firmware_result_process.cpp:155-168 HandleFileResults *)
Fixpoint HandleFileResults_loop (components : list FirmwareComponent.t) (m : resultMap)
    (hotaUpdateResult : Z) : resultMap * Z :=
  match components with
  | [] => (m, hotaUpdateResult)
  | component :: rest =>
      let (m', updateResultStatus) :=
        match m !! FirmwareComponent.spath component with
        | None =>
            let updateResult := CompareVersion component in
            (emplace updateResult m, result updateResult)
        | Some r => (m, result r)
        end in
      HandleFileResults_loop rest m'
        (Z.lor hotaUpdateResult
           (if String.eqb updateResultStatus UPDATER_RESULT_SUCCESS
            then UPDATE_SUCCESSED else UPDATE_FAILED))
  end.

Context {R : Type} `{Rdb R}.

(*@ upgrade/status/src/firmware_result_process.cpp FirmwareResultProcess::HandleFileResults *)
Definition HandleFileResults (m : resultMap) (components : list FirmwareComponent.t) :
    ST (SqliteDb.t R) (UpdateResultCode * resultMap) :=
  let* task := FirmwareTaskOperator.QueryTask FirmwareTask.default in
  if negb (FirmwareTask.isExistTask task) then ret (RESULT_FAILURE, m)
  else
    let (m', hotaUpdateResult) := HandleFileResults_loop components m 0 in
    if FirmwareTask.combinationType task =? CombinationType.HOTA then
      ret (if hotaUpdateResult =? UPDATE_SUCCESSED then RESULT_SUCCESS else RESULT_FAILURE, m')
    else if negb (hotaUpdateResult =? UPDATE_SUCCESSED) then ret (RESULT_FAILURE, m')
    else ret (RESULT_SUCCESS, m').

(** [file]: the contents of the result file, [None] when it cannot be opened.
    The outer [option] is an exception that leaves the function. *)
(*@ upgrade/status/src/firmware_result_process.cpp FirmwareResultProcess::GetUpdaterResult *)
Definition GetUpdaterResult (file : option string) (components : list FirmwareComponent.t)
    (m : resultMap) : ST (SqliteDb.t R) (option (UpdateResultCode * resultMap)) :=
  match components with
  | [] => ret (Some (RESULT_FAILURE, m))
  | _ =>
      match file with
      | None =>
          let* r := HandleFileResults (HandleFileError components) components in ret (Some r)
      | Some contents =>
          match ParseRecords (file_lines [] (chars contents)) ∅ with
          | None => ret None
          | Some m => let* r := HandleFileResults m components in ret (Some r)
          end
      end
  end.
End ops.
End FirmwareResultProcess.

(** ** Parsing records *)
Section records.
Import UpdateResult FirmwareResultProcess.

Lemma len_Trim s : (len (StringUtils.Trim s) ≤ len s)%nat.
Proof.
  unfold StringUtils.Trim. rewrite <- !len_chars, StringUtils.chars_RTrim, StringUtils.chars_LTrim.
  rewrite length_reverse. etransitivity; [apply drop_while_length|].
  rewrite length_reverse. apply drop_while_length.
Qed.

Lemma substr_Some s i n : (i ≤ len s)%nat → substr s i n = Some (str (take n (drop i (chars s)))).
Proof. intros H. unfold substr. by rewrite (proj2 (Nat.ltb_ge _ _)). Qed.

(** The cut at the colon is always inside the token it is applied to. *)
Lemma ParseUpdaterResultRecord_total line m : is_Some (ParseUpdaterResultRecord line m).
Proof.
  unfold ParseUpdaterResultRecord. case_if; [by eexists|]. cbv zeta.
  set (results := getlines "|" line). set (res := ParseResult results "" RESULT_INDEX).
  destruct (find_first_of res ":") as [i|] eqn:Ef; [|by eexists].
  unfold find_first_of in Ef. apply find_index_lt in Ef. rewrite len_chars in Ef.
  subst res. unfold ParseResult in *. destruct (results !! RESULT_INDEX) as [token|] eqn:Et; [|cbn in Ef; lia].
  pose proof (len_Trim token). unfold substr_from, SYMBOL_LENGTH.
  rewrite (substr_Some _ 0) by lia. cbn [mbind option_bind].
  rewrite (substr_Some token) by lia. by eexists.
Qed.
Lemma ParseRecords_total lines m : is_Some (ParseRecords lines m).
Proof.
  revert m. induction lines as [|line lines IH]; intros m; [by eexists|]. cbn.
  destruct (ParseUpdaterResultRecord_total line m) as [m' ->]. apply IH.
Qed.

(** A field without leading and trailing white space. *)
Definition trimmed (s : string) : Prop := StringUtils.Trim s = s.

Lemma getlines_fields2 d a b : no_char d a → no_char d b → b ≠ "" →
  getlines d (a +:+ String d b) = [a; b].
Proof.
  intros Ha Hb Hne. unfold getlines. rewrite chars_app. cbn [list_ascii_of_string].
  rewrite getlines_aux_delim by done. rewrite getlines_aux_nodelim; [cbn [rev app]; by rewrite !str_chars|done|].
  left. intros E. apply Hne, chars_inj. exact E.
Qed.

Lemma find_first_of_colon a b : no_char ":" a → find_first_of (a +:+ String ":" b) ":" = Some (len a).
Proof.
  intros Ha. unfold find_first_of. rewrite chars_app. rewrite <- (len_chars a). unfold no_char in Ha.
  induction Ha as [|x l Hx Hl IH]; [done|]. cbn -[Ascii.eqb]. rewrite Hx. cbn -[Ascii.eqb].
  cbn in IH. by rewrite IH.
Qed.
Lemma find_first_of_no_colon a : no_char ":" a → find_first_of a ":" = None.
Proof.
  unfold no_char, find_first_of. induction 1 as [|x l Hx Hl IH]; [done|]. cbn -[Ascii.eqb].
  rewrite Hx. cbn. cbn in IH. by rewrite IH.
Qed.

(** A record [path|result] or [path|result:reason] is stored under its
    path with exactly these fields, unless the path already has a record. *)
Theorem record_parsed path res rea m :
  no_char "|" path → no_char "|" res → no_char "|" rea → no_char ":" res →
  trimmed path → trimmed res → trimmed rea → trimmed (res +:+ String ":" rea) → res ≠ "" →
  ParseUpdaterResultRecord (path +:+ String "|" res) m =
    Some (emplace {| spath := path; result := res; reason := "" |} m) ∧
  ParseUpdaterResultRecord (path +:+ String "|" (res +:+ String ":" rea)) m =
    Some (emplace {| spath := path; result := res; reason := rea |} m).
Proof.
  intros Hp Hr Ha Hc Tp Tr Ta Tra Hne. unfold ParseUpdaterResultRecord.
  assert (∀ t, String.eqb (path +:+ String "|" t) "" = false) as Hline by (intros t; by destruct path).
  assert (no_char "|" (res +:+ String ":" rea)) as Hra.
  { unfold no_char. rewrite chars_app. apply Forall_app. split; [done|by constructor]. }
  rewrite !Hline, !getlines_fields2 by (done || by destruct res). unfold ParseResult. cbn [lookup list_lookup].
  cbn [PKG_PATH_INDEX RESULT_INDEX REASON_INDEX list_lookup].
  unfold PKG_PATH_INDEX, RESULT_INDEX, REASON_INDEX. cbn -[StringUtils.Trim find_first_of substr substr_from emplace append].
  rewrite Tp, Tr, Tra, find_first_of_no_colon, find_first_of_colon by done. split.
  - cbn. by rewrite Tp, Tr.
  - assert (len (res +:+ String ":" rea) = len res + S (len rea))%nat as Hlen.
    { rewrite <- !len_chars, chars_app, length_app. done. }
    unfold substr_from, SYMBOL_LENGTH. rewrite !substr_Some by lia. cbn [mbind option_bind].
    assert (str (take (len res) (drop 0 (chars (res +:+ String ":" rea)))) = res) as ->.
    { rewrite drop_0, chars_app, <- len_chars, take_app_length. apply str_chars. }
    assert (str (take (len (res +:+ String ":" rea)) (drop (len res + 1) (chars (res +:+ String ":" rea)))) = rea) as ->.
    { rewrite chars_app, <- (len_chars res), Nat.add_comm. change (1 + ?n)%nat with (S n).
      replace (S (List.length (chars res))) with (List.length (chars res) + 1)%nat by lia.
      rewrite <- drop_drop, drop_app_length. change (drop 1 (chars (String ":" rea))) with (chars rea).
      rewrite take_ge; [apply str_chars|]. rewrite Hlen, <- (len_chars rea). lia. }
    by rewrite Tp, Tr, Ta.
Qed.
End records.

(** ** The verdict *)
Section verdict.
Import UpdateResult FirmwareResultProcess.
Variable display_version : string.

(** The component's entry says that it passed. *)
Definition passed (m : resultMap) (c : FirmwareComponent.t) : Prop :=
  ∃ r, m !! FirmwareComponent.spath c = Some r ∧ result r = UPDATER_RESULT_SUCCESS.
#[export] Instance passed_dec m c : Decision (passed m c).
Proof.
  unfold passed. destruct (m !! FirmwareComponent.spath c) as [r|] eqn:E; [|right; naive_solver].
  destruct (decide (result r = UPDATER_RESULT_SUCCESS)); [left; eauto|right; naive_solver].
Defined.

(** [m'] extends [m] with the comparison of the version of some component for
    every component without a record. *)
Definition completes (comps : list FirmwareComponent.t) (m m' : resultMap) : Prop :=
  (∀ k r, m !! k = Some r → m' !! k = Some r) ∧
  (∀ c, c ∈ comps → m !! FirmwareComponent.spath c = None →
     ∃ c', c' ∈ comps ∧ FirmwareComponent.spath c' = FirmwareComponent.spath c ∧
       m' !! FirmwareComponent.spath c = Some (CompareVersion display_version c')).

Lemma spath_CompareVersion c : spath (CompareVersion display_version c) = FirmwareComponent.spath c.
Proof. unfold CompareVersion. by case_if. Qed.

Lemma emplace_keeps r m k x : m !! k = Some x → emplace r m !! k = Some x.
Proof.
  intros H. unfold emplace. destruct (m !! spath r) eqn:E; [done|].
  rewrite lookup_insert_ne; [done|]. intros <-. congruence.
Qed.
Lemma emplace_new r m k : spath r = k → m !! k = None → emplace r m !! k = Some r.
Proof. intros <- H. unfold emplace. rewrite H. apply lookup_insert_eq. Qed.
Lemma emplace_other r m k : k ≠ spath r → emplace r m !! k = m !! k.
Proof. intros H. unfold emplace. destruct (m !! spath r); [done|]. by apply lookup_insert_ne. Qed.

Lemma loop_completes comps m h :
  completes comps m (HandleFileResults_loop display_version comps m h).1.
Proof.
  revert m h. induction comps as [|c comps IH]; intros m h.
  { split; [done|]. intros c Hc. by apply not_elem_of_nil in Hc. }
  cbn [HandleFileResults_loop]. destruct (m !! FirmwareComponent.spath c) as [r|] eqn:E.
  - destruct (IH m (Z.lor h (if String.eqb (result r) UPDATER_RESULT_SUCCESS then UPDATE_SUCCESSED else UPDATE_FAILED))) as [Hk Hn].
    split; [done|]. intros d [->|Hd]%elem_of_cons Hnone; [congruence|].
    destruct (Hn d Hd Hnone) as (c' & ? & ? & ?). exists c'. split_and!; [by apply list_elem_of_further|done..].
  - cbv zeta. set (u := CompareVersion display_version c).
    assert (spath u = FirmwareComponent.spath c) as Hu by apply spath_CompareVersion.
    destruct (IH (emplace u m) (Z.lor h (if String.eqb (result u) UPDATER_RESULT_SUCCESS then UPDATE_SUCCESSED else UPDATE_FAILED))) as [Hk Hn].
    split; [eauto using emplace_keeps|]. intros d Hd Hnone.
    destruct (decide (FirmwareComponent.spath d = FirmwareComponent.spath c)) as [Heq|Hne].
    + exists c. split_and!; [by apply list_elem_of_here|done|]. apply Hk. rewrite Heq.
      by apply emplace_new.
    + apply elem_of_cons in Hd as [->|Hd]; [done|].
      destruct (Hn d Hd) as (c' & ? & ? & ?); [rewrite emplace_other; congruence|].
      exists c'. split_and!; [by apply list_elem_of_further|done..].
Qed.

(** The accumulated bits are exactly "success" when all components passed. *)
Lemma loop_bits comps m h :
  h = 0 ∨ h = 1 ∨ h = 2 ∨ h = 3 →
  let r := HandleFileResults_loop display_version comps m h in
  r.2 = UPDATE_SUCCESSED ↔ (h = 1 ∨ h = 0 ∧ comps ≠ []) ∧ Forall (passed r.1) comps.
Proof.
  revert m h. induction comps as [|c comps IH]; intros m h Hh; cbv zeta.
  { cbn. unfold UPDATE_SUCCESSED. split; [naive_solver|]. naive_solver. }
  pose proof (loop_completes (c :: comps) m h) as [Hkeep Hnew].
  cbn [HandleFileResults_loop] in *. rewrite Forall_cons.
  assert (∀ m1 st, (∃ r, m1 !! FirmwareComponent.spath c = Some r ∧ result r = st) →
    let bit := if String.eqb st UPDATER_RESULT_SUCCESS then UPDATE_SUCCESSED else UPDATE_FAILED in
    let r := HandleFileResults_loop display_version comps m1 (Z.lor h bit) in
    r.2 = UPDATE_SUCCESSED ↔
    (h = 1 ∨ h = 0 ∧ c :: comps ≠ []) ∧ passed r.1 c ∧ Forall (passed r.1) comps) as Hstep.
  { intros m1 st (r1 & Hr1 & Hst) bit r.
    assert (Z.lor h bit = 0 ∨ Z.lor h bit = 1 ∨ Z.lor h bit = 2 ∨ Z.lor h bit = 3) as Hh'.
    { subst bit. unfold UPDATE_SUCCESSED, UPDATE_FAILED. case_if; naive_solver. }
    subst r. rewrite (IH m1 _ Hh').
    assert (passed (HandleFileResults_loop display_version comps m1 (Z.lor h bit)).1 c ↔
            st = UPDATER_RESULT_SUCCESS) as Hp.
    { destruct (loop_completes comps m1 (Z.lor h bit)) as [Hk _]. apply Hk in Hr1. unfold passed.
      split; [intros (x & Hx & <-)|intros ->; eauto]. congruence. }
    rewrite Hp. subst bit. unfold UPDATE_SUCCESSED, UPDATE_FAILED.
    destruct (String.eqb_spec st UPDATER_RESULT_SUCCESS) as [Hs|Hs];
      destruct Hh as [-> | [-> | [-> | ->]]]; cbn; naive_solver lia. }
  destruct (m !! FirmwareComponent.spath c) as [r|] eqn:E; cbv zeta in *.
  - apply Hstep. eauto.
  - apply Hstep. exists (CompareVersion display_version c). split; [|done].
    by apply emplace_new; [apply spath_CompareVersion|].
Qed.

(** What the result file says, before the components are looked up. *)
Definition recorded (file : option string) (comps : list FirmwareComponent.t) (m : resultMap) : Prop :=
  match file with
  | None => m = HandleFileError display_version comps
  | Some contents => ParseRecords (file_lines [] (chars contents)) ∅ = Some m
  end.

Context {R : Type} `{RdbLaws R}.

Lemma HandleFileResults_correct m comps s (ts : list FirmwareTask.t) :
  ready s → holds s ts → comps ≠ [] →
  ∃ m' code,
    eval (HandleFileResults display_version m comps) s = (code, m') ∧
    match ts with
    | [] => code = RESULT_FAILURE ∧ m' = m
    | _ => completes comps m m' ∧
           code = (if decide (Forall (passed m') comps) then RESULT_SUCCESS else RESULT_FAILURE)
    end.
Proof.
  intros Hs Ht Hc. unfold HandleFileResults. rewrite eval_bind.
  destruct (QueryTask_correct s ts FirmwareTask.default Hs Ht) as (-> & _ & _).
  destruct ts as [|t ts]; [by do 2 eexists|].
  change (FirmwareTask.isExistTask (FirmwareTaskOperator.set_isExistTask true t)) with true. cbn [negb].
  pose proof (loop_completes comps m 0) as Hcomp.
  pose proof (loop_bits comps m 0 ltac:(auto)) as Hbits. cbv zeta in Hbits.
  destruct (HandleFileResults_loop display_version comps m 0) as [m' h']. cbn [fst snd] in *.
  exists m', (if decide (Forall (passed m') comps) then RESULT_SUCCESS else RESULT_FAILURE).
  split; [|done].
  assert ((h' =? UPDATE_SUCCESSED) = bool_decide (Forall (passed m') comps)) as ->.
  { apply eq_true_iff_eq. rewrite Z.eqb_eq, bool_decide_eq_true, Hbits. naive_solver. }
  repeat case_if; breflect; destruct (decide _); naive_solver.
Qed.

(** C1: the update counts as successful exactly when there is a task and
    every component has a record that says "pass" - or, without a record, has
    the version the device displays; the decision never throws, and no record
    of the file is overridden. *)
Theorem GetUpdaterResult_correct file comps m s (ts : list FirmwareTask.t) :
  ready s → holds s ts → comps ≠ [] →
  ∃ m0 m' code,
    recorded file comps m0 ∧
    eval (GetUpdaterResult display_version file comps m) s = Some (code, m') ∧
    match ts with
    | [] => code = RESULT_FAILURE ∧ m' = m0
    | _ => completes comps m0 m' ∧
           code = (if decide (Forall (passed m') comps) then RESULT_SUCCESS else RESULT_FAILURE)
    end.
Proof.
  intros Hs Ht Hc. unfold GetUpdaterResult, recorded.
  destruct comps as [|c comps]; [done|]. destruct file as [contents|].
  - destruct (ParseRecords_total (file_lines [] (chars contents)) ∅) as [m0 ->].
    destruct (HandleFileResults_correct m0 (c :: comps) s ts Hs Ht Hc) as (m' & code & He & Hr).
    exists m0, m', code. rewrite eval_bind, He. done.
  - destruct (HandleFileResults_correct (HandleFileError display_version (c :: comps)) (c :: comps) s ts Hs Ht Hc)
      as (m' & code & He & Hr).
    exists (HandleFileError display_version (c :: comps)), m', code. rewrite eval_bind, He. done.
Qed.
End verdict.

(** ** Witnesses *)

Lemma record_parsed_witness :
  FirmwareResultProcess.ParseUpdaterResultRecord "/data/a/updater.zip|fail:;02:145768:-1" ∅ =
  Some {["/data/a/updater.zip" := {| UpdateResult.spath := "/data/a/updater.zip";
                                     UpdateResult.result := "fail"; UpdateResult.reason := ";02:145768:-1" |}]}.
Proof.
  destruct (record_parsed "/data/a/updater.zip" "fail" ";02:145768:-1" ∅) as [_ He];
    [repeat constructor..|by vm_compute|by vm_compute|by vm_compute|by vm_compute|done|].
  etransitivity; [exact He|by vm_compute].
Defined.

Lemma GetUpdaterResult_correct_witness :
  let c := FirmwareComponent.default false in
  let s := MemoryDb.db [sample_task] [] in
  ∃ m0 m' code,
    recorded "V2" (Some "|pass") [c] m0 ∧
    eval (FirmwareResultProcess.GetUpdaterResult "V2" (Some "|pass") [c] ∅) s = Some (code, m') ∧
    completes "V2" [c] m0 m' ∧
    code = (if decide (Forall (passed m') [c]) then RESULT_SUCCESS else RESULT_FAILURE).
Proof.
  intros c s. exact (GetUpdaterResult_correct "V2" (Some "|pass") [c] ∅ s [sample_task] I holds_sample ltac:(done)).
Defined.

(** Two components, one recorded as failed: the update failed. *)
Example one_failure_fails :
  let c1 := FirmwareComponent.default false in
  let s := MemoryDb.db [sample_task] [] in
  fst <$> eval (FirmwareResultProcess.GetUpdaterResult "" (Some "|fail:x") [c1; c1] ∅) s = Some RESULT_FAILURE.
Proof. vm_compute. reflexivity. Qed.

(** The reason is cut from the untrimmed token with the index of the trimmed
    one: a blank before the result shifts the cut by one. *)
Example blank_shifts_reason :
  UpdateResult.reason <$>
    (FirmwareResultProcess.ParseUpdaterResultRecord "p| fail:why" ∅ ≫= λ m, m !! "p") = Some ":why".
Proof. vm_compute. reflexivity. Qed.
