(* ===== verification/FirmwareWorld.v ===== *)
(** * The state of the firmware service

    The firmware service keeps its state in the database, and acts on the rest
    of the device through other components.  [World.t] is that state: the
    database, the environment, and the messages sent to the application so far.

    The environment is reached through the classes [Platform], [Preferences],
    [Downloads] and [Subscribers]: system calls, and the operations of the
    components that have a file of their own elsewhere in the repository.  The
    file also models the small components that only forward to them:
    [device_adapter.cpp], [file_utils.cpp] and [base_callback_utils.cpp]. *)
From Stdlib Require Import ZArith Lia Ascii String.
From stdpp Require Import base tactics list strings gmap.
From S2P Require Import Prelude CppString StringUtils Json Models Database FirmwareDb FirmwareStore.

#[local] Open Scope Z_scope.

(** ** The environment *)

(** System calls.  [statfs] gives the block size and the number of available
    blocks; [file_size] is [std::filesystem::file_size], [None] for an error. *)
Class Platform (E : Type) := {
  SystemReadParam : E → string → option string;
  ifstream_good : E → string → bool;
  file_size : E → string → option Z;
  statfs : E → string → option (Z * Z);
  remove_entries : string → ST E unit;
  GetTimestamp : E → Z;
  GetTimestampByMilliseconds : E → Z
}.

(** [Sha256Utils::CalculateHashCode]: the hexadecimal SHA-256 digest OpenSSL computes. *)
Class Sha256 := { CalculateHashCode : string → string }.

(** The key-value store behind [FirmwarePreferencesUtil]. *)
Class Preferences (E : Type) := {
  ObtainString : E → string → string → string;
  ObtainInt : E → string → Z → Z;
  ObtainBool : E → string → bool → bool;
  ObtainLong : E → string → Z → Z;
  SaveString : string → string → ST E bool;
  SaveInt : string → Z → ST E bool;
  SaveBool : string → bool → ST E bool;
  SaveLong : string → Z → ST E bool;
  IsExist : E → string → bool;
  RemoveKey : string → ST E bool;
  RemoveAllKeys : ST E bool
}.

(** What the firmware service asks of [DownloadTaskManager]. *)
Class Downloads (E : Type) := {
  RemoveTask : string → ST E unit
}.

(** Is a callback registered for this sub-type: the result of
    [UpdateService::GetUpgradeCallback]. *)
Class Subscribers (E : Type) := {
  GetUpgradeCallback : E → Z → bool
}.

(** ** The state *)

(** What leaves the service: an event handed to a registered callback, or a
    message to the subscriber's extension ability. *)
Inductive Message :=
  | OnEvent (eventInfo : EventInfo.t)
  | ConnectToAppService (eventInfo subscribeInfo : string).

Module World.
Record t (R E : Type) := { db : SqliteDb.t R; env : E; outbox : list Message }.
Arguments db {R E} _.
Arguments env {R E} _.
Arguments outbox {R E} _.
Arguments Build_t {R E} _ _ _.

Section lifts.
Context {R E : Type}.
Definition on_db {A} (m : ST (SqliteDb.t R) A) : ST (t R E) A := λ w,
  let (a, d) := m (db w) in (a, {| db := d; env := env w; outbox := outbox w |}).
Definition on_env {A} (m : ST E A) : ST (t R E) A := λ w,
  let (a, e) := m (env w) in (a, {| db := db w; env := e; outbox := outbox w |}).
Definition asks {A} (f : E → A) : ST (t R E) A := λ w, (f (env w), w).
Definition send (m : Message) : ST (t R E) unit := λ w,
  (tt, {| db := db w; env := env w; outbox := outbox w ++ [m] |}).
End lifts.
End World.
Abbreviation World := World.t.
Import World (on_db, on_env, asks, send).

(** ** DeviceAdapter *)
Module DeviceAdapter.
Section ops.
Context {E : Type} `{Platform E}.
(*@ core/ability/adapter/src/device_adapter.cpp MAX_PARAM_VALUE_LEN *)
Definition MAX_PARAM_VALUE_LEN : nat := 128.
(*@ core/ability/adapter/src/device_adapter.cpp DeviceAdapter::IsValidParamValue *)
Definition IsValidParamValue (value : string) (n : nat) : bool := (len value + 1 <=? n)%nat.
(** Both reads of the parameter see the same value; the first asks its size. *)
(*@ core/ability/adapter/src/device_adapter.cpp DeviceAdapter::GetParameter *)
Definition GetParameter (e : E) (key def : string) : string :=
  match SystemReadParam e key with
  | Some value => value
  | None => if IsValidParamValue def MAX_PARAM_VALUE_LEN then def else ""
  end.
(*@ core/ability/adapter/src/device_adapter.cpp DeviceAdapter::GetDeviceName *)
Definition GetDeviceName (e : E) : string := GetParameter e "const.product.model" "".
(*@ core/ability/adapter/src/device_adapter.cpp DeviceAdapter::GetOsVersion *)
Definition GetOsVersion (e : E) : string := GetParameter e "const.ohos.fullname" "".
(*@ core/ability/adapter/src/device_adapter.cpp DeviceAdapter::GetDisplayVersion *)
Definition GetDisplayVersion (e : E) : string := GetParameter e "const.product.software.version" "".
(*@ core/ability/adapter/src/device_adapter.cpp DeviceAdapter::GetRealVersion *)
Definition GetRealVersion (e : E) : string := GetParameter e "const.build.ver.physical" "".
(*@ core/ability/adapter/src/device_adapter.cpp DeviceAdapter::GetBootSlot *)
Definition GetBootSlot (e : E) : string := GetParameter e "ohos.boot.bootslots" "0".
End ops.
End DeviceAdapter.

(** ** Files *)
Module FileUtils.
Section ops.
Context {E : Type} `{Platform E}.
(*@ core/ability/utils/src/file_utils.cpp FileUtils::RetrieveFileSize *)
Definition RetrieveFileSize (e : E) (fileName : string) : Z :=
  match file_size e fileName with None => 0 | Some n => to_int64 n end.
(*@ core/ability/utils/src/file_utils.cpp FileUtils::IsFileExist *)
Definition IsFileExist (e : E) (fileName : string) : bool := ifstream_good e fileName.
(** The required space is compared as an unsigned number. *)
(*@ core/ability/utils/src/file_utils.cpp FileUtils::IsSpaceEnough *)
Definition IsSpaceEnough (e : E) (filePath : string) (requiredSpace : Z) : bool :=
  let freeSpace := match statfs e filePath with
                   | Some (bsize, bavail) => to_uint64 (bsize * bavail)
                   | None => 0
                   end in
  to_uint64 requiredSpace <=? freeSpace.
End ops.
End FileUtils.

Module Constant.
(*@* core/ability/common/include/constant.h = *)
Definition ONE_DAY_HOUR : Z := 24.
Definition ONE_HOUR_MINUTES : Z := 60.
Definition ONE_MINUTE_SECONDS : Z := 60.
Definition FIVE_MINUTES_SECONDS : Z := 5 * ONE_MINUTE_SECONDS.
Definition MILLESECONDS : Z := 1000.
Definition ONE_HOUR_SECONDS : Z := 1 * ONE_HOUR_MINUTES * ONE_MINUTE_SECONDS.
Definition ONE_DAY_SECOND : Z := ONE_DAY_HOUR * ONE_HOUR_MINUTES * ONE_MINUTE_SECONDS.
Definition DEFAULT_PULLUP_INTERVAL : Z := ONE_DAY_SECOND.
Definition KEEP_ALIVE_THRESHOLD : Z := ONE_HOUR_SECONDS.
Definition DEFAULT_AUTO_UPGRADE_HOUR : Z := ONE_HOUR_SECONDS * 24.
Definition DEFAULT_UPGRADE_TIME : Z := -1.
Definition DUE_INIT_FLAG : string := "due_init_flag".
Definition PROCESS_RESTART_REASON : string := "process_restart_reason".
Definition UPDATE_ENCRYPTED_ROOT_PATH : string := "/data/service/el1/public/update".
Definition DUPDATE_ENGINE_ENCRYPTED_ROOT_PATH : string := UPDATE_ENCRYPTED_ROOT_PATH +:+ "/dupdate_engine".
Definition FILES_ROOT_PATH : string := DUPDATE_ENGINE_ENCRYPTED_ROOT_PATH +:+ "/files".
Definition UPDATE_PACKAGE_ROOT_PATH : string := "/data/update".
Definition DUPDATE_ENGINE_PACKAGE_ROOT_PATH : string := UPDATE_PACKAGE_ROOT_PATH +:+ "/ota_package".
End Constant.

Module Firmware.
(*@* firmware/common/include/firmware_constant.h = *)
Definition HOTA_CURRENT_COMPONENT_ID : string := "hota_current_component_id".
Definition UPDATE_ACTION : string := "update_action".
Definition PACKAGE_ROOT_PATH : string := Constant.DUPDATE_ENGINE_PACKAGE_ROOT_PATH +:+ "/firmware".
Definition PACKAGE_PATH : string := PACKAGE_ROOT_PATH +:+ "/versions".
Definition ENCRYPTED_ROOT_PATH : string := Constant.FILES_ROOT_PATH +:+ "/firmware".
Definition CHANGELOG_PATH : string := ENCRYPTED_ROOT_PATH +:+ "/changelogs".
Definition AUTO_DOWNLOAD_SWITCH : string := "auto_download_switch".
Definition ONE_HUNDRED : Z := 100.
Definition BOOTSLOTS_DEFAULT_VALUE : string := "0".
Definition BOOTSLOTS_AB_UPDATE_VALUE : string := "2".
End Firmware.

Module FirmwareFileUtils.
Section ops.
Context {R E : Type} `{Platform E}.
(*@ firmware/utils/include/firmware_file_utils.h IsSpaceEnough *)
Definition IsSpaceEnough (e : E) (requiredSpace : Z) : bool :=
  FileUtils.IsSpaceEnough e Constant.DUPDATE_ENGINE_PACKAGE_ROOT_PATH requiredSpace.
(** [FileUtils::DeleteFile(path, false)] empties a directory that exists. *)
(*@ firmware/utils/include/firmware_file_utils.h DeleteDownloadFiles *)
Definition DeleteDownloadFiles : ST (World R E) unit :=
  let* there := asks (λ e, FileUtils.IsFileExist e Firmware.PACKAGE_PATH) in
  when there do on_env (remove_entries Firmware.PACKAGE_PATH).
End ops.
End FirmwareFileUtils.

(** ** FirmwarePreferencesUtil *)
Module FirmwarePreferencesUtil.
Section ops.
Context {E : Type} `{Preferences E}.
(*@ firmware/data/manager/src/firmware_preferences_utils.cpp FirmwarePreferencesUtil::GetAutoUpgradeTime *)
Definition GetAutoUpgradeTime (e : E) : Z := ObtainLong e "auto_upgrade_time" (-1).
(*@ firmware/data/manager/src/firmware_preferences_utils.cpp FirmwarePreferencesUtil::SaveAutoUpgradeTime *)
Definition SaveAutoUpgradeTime (time : Z) : ST E unit := SaveLong "auto_upgrade_time" time ;;; ret tt.
(*@ firmware/data/manager/src/firmware_preferences_utils.cpp FirmwarePreferencesUtil::GetAutoDownloadSwitch *)
Definition GetAutoDownloadSwitch (e : E) : bool := ObtainBool e Firmware.AUTO_DOWNLOAD_SWITCH false.
(*@ firmware/data/manager/src/firmware_preferences_utils.cpp FirmwarePreferencesUtil::SaveAutoDownloadSwitch *)
Definition SaveAutoDownloadSwitch (value : bool) : ST E unit :=
  SaveBool Firmware.AUTO_DOWNLOAD_SWITCH value ;;; ret tt.
(*@ firmware/data/manager/src/firmware_preferences_utils.cpp FirmwarePreferencesUtil::GetNightUpgradeSwitch *)
Definition GetNightUpgradeSwitch (e : E) : bool := ObtainBool e "night_upgrade_switch" false.
(*@ firmware/data/manager/src/firmware_preferences_utils.cpp FirmwarePreferencesUtil::SaveNightUpgradeSwitch *)
Definition SaveNightUpgradeSwitch (value : bool) : ST E unit :=
  SaveBool "night_upgrade_switch" value ;;; ret tt.
(*@ firmware/data/manager/src/firmware_preferences_utils.cpp FirmwarePreferencesUtil::IsNeedRetryCheck *)
Definition IsNeedRetryCheck (e : E) : bool := ObtainBool e "need_retry_check" false.
(*@ firmware/data/manager/src/firmware_preferences_utils.cpp FirmwarePreferencesUtil::SaveNeedRetryCheckFlag *)
Definition SaveNeedRetryCheckFlag (needRetry : bool) : ST E bool :=
  SaveBool "need_retry_check" needRetry.
(*@ firmware/data/manager/src/firmware_preferences_utils.cpp FirmwarePreferencesUtil::GetBellStatus *)
Definition GetBellStatus (e : E) : bool := ObtainBool e "restore_boot_animation_sound" false.
(*@ firmware/data/manager/src/firmware_preferences_utils.cpp FirmwarePreferencesUtil::SaveBellStatus *)
Definition SaveBellStatus (isBellOn : bool) : ST E bool :=
  SaveBool "restore_boot_animation_sound" isBellOn.
(*@ firmware/data/manager/src/firmware_preferences_utils.cpp FirmwarePreferencesUtil::RemoveBellStatus *)
Definition RemoveBellStatus : ST E bool := RemoveKey "restore_boot_animation_sound".
End ops.
End FirmwarePreferencesUtil.

(** ** Messages to the application *)

(** [atoi]: optional blanks and sign, then digits, 0 without any; outside the
    range of [int] the behaviour is undefined, here the value wraps. *)
Definition atoi (s : string) : Z :=
  match drop_while isspace (chars s) with
  | "-"%char :: l => to_int32 (- digits_val 0 (take_while isdigit l))
  | "+"%char :: l => to_int32 (digits_val 0 (take_while isdigit l))
  | l => to_int32 (digits_val 0 (take_while isdigit l))
  end.

Module UpdateServiceUtil.
(** Fills the fields [status], [progress] and [errorMessages] of [taskBody]. *)
(*@ services/engine/src/update_service_util_hmos.cpp UpdateServiceUtil::BuildTaskBody *)
Definition BuildTaskBody (progress : Progress.t) (taskBody : TaskBody.t) : TaskBody.t :=
  let errorCode := atoi (Progress.endReason progress) in
  {| TaskBody.versionDigestInfo := TaskBody.versionDigestInfo taskBody;
     TaskBody.status := Progress.status progress;
     TaskBody.subStatus := TaskBody.subStatus taskBody;
     TaskBody.progress := to_int32 (Progress.percent progress);
     TaskBody.installMode := TaskBody.installMode taskBody;
     TaskBody.errorMessages :=
       if errorCode =? 0 then TaskBody.errorMessages taskBody
       else TaskBody.errorMessages taskBody ++
         [{| ErrorMessage.errorCode := errorCode; ErrorMessage.errorMessage := Progress.endReason progress |}];
     TaskBody.versionComponents := TaskBody.versionComponents taskBody |}.
End UpdateServiceUtil.

Module BaseCallbackUtils.
(*@ core/ability/callback/src/base_callback_utils.cpp:45-59 BaseCallbackUtils::ProgressCallback *)
Definition statusMap : gmap Z Z := list_to_map [
  (UpgradeStatus.DOWNLOADING, EventId.EVENT_DOWNLOAD_UPDATE);
  (UpgradeStatus.DOWNLOAD_PAUSE, EventId.EVENT_DOWNLOAD_PAUSE);
  (UpgradeStatus.DOWNLOAD_CANCEL, EventId.EVENT_DOWNLOAD_CANCEL);
  (UpgradeStatus.DOWNLOAD_FAIL, EventId.EVENT_DOWNLOAD_FAIL);
  (UpgradeStatus.VERIFY_FAIL, EventId.EVENT_DOWNLOAD_FAIL);
  (UpgradeStatus.DOWNLOAD_SUCCESS, EventId.EVENT_DOWNLOAD_SUCCESS);
  (UpgradeStatus.INSTALLING, EventId.EVENT_UPGRADE_UPDATE);
  (UpgradeStatus.INSTALL_FAIL, EventId.EVENT_UPGRADE_FAIL);
  (UpgradeStatus.INSTALL_SUCCESS, EventId.EVENT_APPLY_WAIT);
  (UpgradeStatus.INSTALL_PAUSE, EventId.EVENT_UPGRADE_PAUSE);
  (UpgradeStatus.UPDATING, EventId.EVENT_UPGRADE_UPDATE);
  (UpgradeStatus.UPDATE_FAIL, EventId.EVENT_UPGRADE_FAIL);
  (UpgradeStatus.UPDATE_SUCCESS, EventId.EVENT_UPGRADE_SUCCESS)].

(** The event built by [NotifyEvent] and the one built by [ProgressCallback]. *)
(*@ core/ability/callback/src/base_callback_utils.cpp BaseCallbackUtils::NotifyEvent *)
Definition notify_event (versionDigestInfo : string) (eventId status : Z) (errorMessage : ErrorMessage.t)
    (versionComponents : list VersionComponent.t) (progress : Z) : EventInfo.t :=
  {| EventInfo.eventId := eventId;
     EventInfo.taskBody := {|
       TaskBody.versionDigestInfo := {| VersionDigestInfo.versionDigest := versionDigestInfo |};
       TaskBody.status := status;
       TaskBody.subStatus := TaskBody.subStatus TaskBody.default;
       TaskBody.progress := progress;
       TaskBody.installMode := TaskBody.installMode TaskBody.default;
       TaskBody.errorMessages := [errorMessage];
       TaskBody.versionComponents := versionComponents |} |}.
(*@ core/ability/callback/src/base_callback_utils.cpp BaseCallbackUtils::ProgressCallback *)
Definition progress_event (versionDigestInfo : string) (progress : Progress.t) : EventInfo.t :=
  {| EventInfo.eventId := default EventId.EVENT_TASK_BASE (statusMap !! Progress.status progress);
     EventInfo.taskBody := UpdateServiceUtil.BuildTaskBody progress {|
       TaskBody.versionDigestInfo := {| VersionDigestInfo.versionDigest := versionDigestInfo |};
       TaskBody.status := TaskBody.status TaskBody.default;
       TaskBody.subStatus := TaskBody.subStatus TaskBody.default;
       TaskBody.progress := TaskBody.progress TaskBody.default;
       TaskBody.installMode := TaskBody.installMode TaskBody.default;
       TaskBody.errorMessages := [];
       TaskBody.versionComponents := [] |} |}.

(** [SubscribeInfo subscribeInfo{subType}; subscribeInfo.ToJson()] *)
(*@ update/model/subscribe/subscribe_info.h:40-43 SubscribeInfo *)
Definition subscribe_json (subType : Z) : string :=
  JsonBuilder.ToJson (SubscribeInfo.GetJsonBuilder {|
    SubscribeInfo.upgradeApp := SubscribeInfo.UPDATE_APP_PACKAGE_NAME;
    SubscribeInfo.businessType := {| BusinessType.vendor := BusinessType.vendor BusinessType.default;
                                     BusinessType.subType := subType |};
    SubscribeInfo.abilityName := ""; SubscribeInfo.subscriberDevId := "";
    SubscribeInfo.upgradeDevId := ""; SubscribeInfo.deviceType := DeviceType.UNKNOWN;
    SubscribeInfo.deviceName := "" |}).

Section ops.
Context {R E : Type} `{Subscribers E} (subType : Z).
(*@ core/ability/callback/src/base_callback_utils.cpp BaseCallbackUtils::NotifyToHap *)
Definition NotifyToHap (info : EventInfo.t) : ST (World R E) unit :=
  let eventInfoStr := EventInfo.ToJson info in
  when negb (String.eqb eventInfoStr "") do
    send (ConnectToAppService eventInfoStr (subscribe_json subType)).
(*@ core/ability/callback/src/base_callback_utils.cpp BaseCallbackUtils::CallbackToHap *)
Definition CallbackToHap (eventInfo : EventInfo.t) : ST (World R E) unit :=
  let* upgradeCallback := asks (λ e, GetUpgradeCallback e subType) in
  if upgradeCallback : bool then send (OnEvent eventInfo) else NotifyToHap eventInfo.
(*@ core/ability/callback/src/base_callback_utils.cpp BaseCallbackUtils::NotifyEvent *)
Definition NotifyEvent (versionDigestInfo : string) (eventId status : Z) (errorMessage : ErrorMessage.t)
    (versionComponents : list VersionComponent.t) (progress : Z) : ST (World R E) unit :=
  NotifyToHap (notify_event versionDigestInfo eventId status errorMessage versionComponents progress).
(*@ core/ability/callback/src/base_callback_utils.cpp BaseCallbackUtils::ProgressCallback *)
Definition ProgressCallback (versionDigestInfo : string) (progress : Progress.t) : ST (World R E) unit :=
  CallbackToHap (progress_event versionDigestInfo progress).
End ops.
End BaseCallbackUtils.

Module FirmwareCallbackUtils.
Section ops.
Context {R E : Type} `{Subscribers E}.
(*@ firmware/callback/src/firmware_callback_utils.cpp FirmwareCallbackUtils::GetBusinessSubType *)
Definition GetBusinessSubType : Z := BusinessSubType.FIRMWARE.
Definition NotifyEvent : string → Z → Z → ErrorMessage.t → list VersionComponent.t → Z → ST (World R E) unit :=
  BaseCallbackUtils.NotifyEvent GetBusinessSubType.
Definition ProgressCallback : string → Progress.t → ST (World R E) unit :=
  BaseCallbackUtils.ProgressCallback GetBusinessSubType.
End ops.
End FirmwareCallbackUtils.

(** ** The abstract state

    [at_state w ts cs e o]: the database of [w] works and holds the tasks [ts] and
    the components [cs], the environment is [e], the messages sent are [o].
    Each database operation, seen through it, is an operation on lists: these
    are the rules the proofs about the service use. *)
Section abstraction.
Context {R E : Type} `{RdbLaws R}.
Implicit Types (w : World R E) (ts : list FirmwareTask.t) (cs : list FirmwareComponent.t).

Definition at_state w ts cs (e : E) (o : list Message) : Prop :=
  ready (World.db w) ∧ holds (World.db w) ts ∧ holds (World.db w) cs ∧ World.env w = e ∧ World.outbox w = o.

(** What [QueryTask] finds. *)
Definition queried (task : FirmwareTask.t) ts : FirmwareTask.t :=
  match ts with
  | [] => FirmwareTaskOperator.set_isExistTask false task
  | t :: _ => FirmwareTaskOperator.set_isExistTask true t
  end.
(** An update statement, as a function on the table. *)
Definition update_where {T} (sel : T → bool) (upd : T → T) : list T → list T :=
  map (λ x, if sel x then upd x else x).

Lemma wp_on_db {A} (m : ST (SqliteDb.t R) A) w (Q : A → World R E → Prop) :
  Q (eval m (World.db w)) {| World.db := exec m (World.db w); World.env := World.env w; World.outbox := World.outbox w |} →
  wp (on_db m) w Q.
Proof. unfold wp, on_db, eval, exec. by destruct (m _). Qed.

Lemma wp_on_env {A} (m : ST E A) w ts cs e o (Q : A → World R E → Prop) :
  at_state w ts cs e o →
  (∀ w', at_state w' ts cs (exec m e) o → Q (eval m e) w') → wp (on_env m) w Q.
Proof.
  intros (Hr & Ht & Hc & <- & <-) HQ.
  cut (Q (eval m (World.env w))
    {| World.db := World.db w; World.env := exec m (World.env w); World.outbox := World.outbox w |}).
  - unfold wp, on_env, eval, exec. by destruct (m _).
  - apply HQ. done.
Qed.
Lemma wp_asks {A} (f : E → A) w ts cs e o (Q : A → World R E → Prop) :
  at_state w ts cs e o → Q (f e) w → wp (asks f) w Q.
Proof. by intros (_ & _ & _ & <- & _). Qed.
Lemma wp_send m w ts cs e o (Q : unit → World R E → Prop) :
  at_state w ts cs e o → (∀ w', at_state w' ts cs e (o ++ [m]) → Q tt w') → wp (send m) w Q.
Proof. intros (Hr & Ht & Hc & <- & <-) HQ. apply HQ. done. Qed.

Lemma tables_differ : GetTableName R FirmwareTask.t ≠ GetTableName R FirmwareComponent.t.
Proof. done. Qed.

Lemma wp_task_update m sel upd w ts cs e o (Q : bool → World R E → Prop) :
  updates (R := R) m sel upd → at_state w ts cs e o →
  (∀ w', at_state w' (update_where sel upd ts) cs e o → Q true w') → wp (on_db m) w Q.
Proof.
  intros Hu (Hr & Ht & Hc & He & Ho) HQ. destruct (Hu _ _ Ht) as (Hh & Hother & Hready).
  destruct (Hready Hr) as [Hok Hr']. apply wp_on_db. rewrite Hok in *. apply HQ.
  split_and!; [done..| |done|done]. unfold holds in *. cbn.
  by rewrite Hother by (symmetry; apply tables_differ).
Qed.
Lemma wp_component_update m sel upd w ts cs e o (Q : bool → World R E → Prop) :
  updates (R := R) m sel upd → at_state w ts cs e o →
  (∀ w', at_state w' ts (update_where sel upd cs) e o → Q true w') → wp (on_db m) w Q.
Proof.
  intros Hu (Hr & Ht & Hc & He & Ho) HQ. destruct (Hu _ _ Hc) as (Hh & Hother & Hready).
  destruct (Hready Hr) as [Hok Hr']. apply wp_on_db. rewrite Hok in *. apply HQ.
  split_and!; [done| |done..]. unfold holds in *. cbn.
  by rewrite Hother by apply tables_differ.
Qed.

Lemma wp_QueryTask task w ts cs e o (Q : FirmwareTask.t → World R E → Prop) :
  at_state w ts cs e o →
  (∀ w', at_state w' ts cs e o → Q (queried task ts) w') →
  wp (on_db (FirmwareTaskOperator.QueryTask task)) w Q.
Proof.
  intros (Hr & Ht & Hc & He & Ho) HQ. apply wp_on_db.
  destruct (QueryTask_correct _ _ task Hr Ht) as (-> & Hr' & Hrows).
  apply HQ. split_and!; [done|..|done|done]; unfold holds; cbn; by rewrite Hrows.
Qed.

Lemma wp_query {A} (m : ST (SqliteDb.t R) A) a w ts cs e o (Q : A → World R E → Prop) :
  (∀ s, ready s → holds s cs → eval m s = a) →
  (∀ s t, table_rows (exec m s) t = table_rows s t) → (∀ s, ready s → ready (exec m s)) →
  at_state w ts cs e o → (∀ w', at_state w' ts cs e o → Q a w') → wp (on_db m) w Q.
Proof.
  intros Ha Hrows Hready (Hr & Ht & Hc & He & Ho) HQ. apply wp_on_db. rewrite (Ha _ Hr Hc).
  apply HQ. split_and!; [by apply Hready|..|done|done]; unfold holds; cbn; by rewrite Hrows.
Qed.

Lemma wp_QueryAll w ts cs e o (Q : bool * list FirmwareComponent.t → World R E → Prop) :
  at_state w ts cs e o → (∀ w', at_state w' ts cs e o → Q (true, cs) w') →
  wp (on_db (FirmwareComponentOperator.QueryAll [])) w Q.
Proof.
  apply wp_query; [intros; by apply QueryAll_correct| |]; intros.
  - apply TableQuery_rows.
  - by apply TableQuery_ready.
Qed.

Lemma at_state_wf w ts cs e o : at_state w ts cs e o → Forall Task.wf ts ∧ Forall Component.wf cs.
Proof.
  intros (_ & Ht & Hc & _). unfold holds in *. split.
  - induction Ht as [|r x rs l Hx Ht IH]; constructor; [apply Hx|exact IH].
  - induction Hc as [|r x rs l Hx Hc IH]; constructor; [apply Hx|exact IH].
Qed.

(** The component a query by key finds. *)
Definition found (c : FirmwareComponent.t) (sel : FirmwareComponent.t → bool) cs : bool * FirmwareComponent.t :=
  match List.filter sel cs with x :: _ => (true, x) | [] => (false, c) end.

Lemma found_wf c sel cs : Component.wf c → Forall Component.wf cs → Component.wf (found c sel cs).2.
Proof.
  intros Hc Hcs. unfold found. destruct (List.filter sel cs) as [|x l] eqn:Ef; [done|].
  rewrite Forall_forall in Hcs. apply Hcs. rewrite list_elem_of_In.
  assert (In x (List.filter sel cs)) as Hx by (rewrite Ef; by left).
  apply filter_In in Hx. by destruct Hx.
Qed.

Lemma wp_QueryByVersionId v c w ts cs e o (Q : bool * FirmwareComponent.t → World R E → Prop) :
  at_state w ts cs e o → (∀ w', at_state w' ts cs e o → Q (found c (version_is v) cs) w') →
  wp (on_db (FirmwareComponentOperator.QueryByVersionId v c)) w Q.
Proof.
  apply wp_query; [intros; by apply QueryByVersionId_correct| |]; intros;
    unfold FirmwareComponentOperator.QueryByVersionId; rewrite exec_bind;
    destruct (eval _ s) as [[] []]; first [apply TableQuery_rows | by apply TableQuery_ready].
Qed.
Lemma wp_QueryByUrl u c w ts cs e o (Q : bool * FirmwareComponent.t → World R E → Prop) :
  at_state w ts cs e o → (∀ w', at_state w' ts cs e o → Q (found c (url_is u) cs) w') →
  wp (on_db (FirmwareComponentOperator.QueryByUrl u c)) w Q.
Proof.
  apply wp_query; [intros; by apply QueryByUrl_correct| |]; intros;
    unfold FirmwareComponentOperator.QueryByUrl; rewrite exec_bind;
    destruct (eval _ s) as [[] []]; first [apply TableQuery_rows | by apply TableQuery_ready].
Qed.

Lemma wp_Insert_task t w ts cs e o (Q : bool → World R E → Prop) :
  Task.wf t → at_state w ts cs e o →
  (∀ w', at_state w' (ts ++ [t]) cs e o → Q true w') → wp (on_db (FirmwareTaskOperator.Insert t)) w Q.
Proof.
  intros Hw (Hr & Ht & Hc & He & Ho) HQ. apply wp_on_db.
  destruct (task_insert_delete_correct _ _ t Hr Ht Hw) as (Hi & -> & _). apply HQ.
  split_and!; [by apply Insert_ready|exact Hi| |done|done]. unfold holds. cbn.
  unfold FirmwareTaskOperator.Insert. by rewrite other_table_Insert.
Qed.
(** Inserted components are the given ones, up to the id the table gives them. *)
Definition numbered : list FirmwareComponent.t → list FirmwareComponent.t → Prop :=
  Forall2 (λ y z, ∃ id, z = Component.with_id id y).
Lemma wp_Insert_components ys w ts cs e o (Q : bool → World R E → Prop) :
  Forall Component.wf ys → at_state w ts cs e o →
  (∀ w' zs, numbered ys zs → at_state w' ts (cs ++ zs) e o → Q true w') →
  wp (on_db (FirmwareComponentOperator.Insert ys)) w Q.
Proof.
  intros Hw (Hr & Ht & Hc & He & Ho) HQ. apply wp_on_db.
  edestruct (holds_InsertAll (T := FirmwareComponent.t) FirmwareComponentOperator.dir) as (zs & Hz & Hi);
    [apply dir_nonempty|exact Hr|exact Hw|exact Hc|].
  unfold FirmwareComponentOperator.Insert. rewrite Insert_true by done. apply (HQ _ zs).
  - eapply Forall2_impl; [exact Hz|]. intros y z [id ->]. cbn. eauto.
  - split_and!; [by apply Insert_ready| |exact Hi|done..]. unfold holds. cbn. by rewrite other_table_Insert.
Qed.
Lemma wp_DeleteAll_tasks w ts cs e o (Q : bool → World R E → Prop) :
  at_state w ts cs e o → (∀ w', at_state w' [] cs e o → Q true w') →
  wp (on_db FirmwareTaskOperator.DeleteAll) w Q.
Proof.
  intros (Hr & Ht & Hc & He & Ho) HQ. apply wp_on_db. unfold FirmwareTaskOperator.DeleteAll.
  pose proof (holds_DeleteAll FirmwareTaskOperator.dir _ _ Ht) as Hd. rewrite DeleteAll_true in * by done.
  apply HQ. split_and!; [by apply Delete_ready|exact Hd| |done..]. unfold holds. cbn. by rewrite other_table_DeleteAll.
Qed.
Lemma wp_DeleteAll_components w ts cs e o (Q : bool → World R E → Prop) :
  at_state w ts cs e o → (∀ w', at_state w' ts [] e o → Q true w') →
  wp (on_db FirmwareComponentOperator.DeleteAll) w Q.
Proof.
  intros (Hr & Ht & Hc & He & Ho) HQ. apply wp_on_db. unfold FirmwareComponentOperator.DeleteAll.
  pose proof (holds_DeleteAll FirmwareComponentOperator.dir _ _ Hc) as Hd. rewrite DeleteAll_true in * by done.
  apply HQ. split_and!; [by apply Delete_ready| |exact Hd|done..]. unfold holds. cbn. by rewrite other_table_DeleteAll.
Qed.

(** The message an event becomes. *)
Definition notification (info : EventInfo.t) : Message :=
  ConnectToAppService (EventInfo.ToJson info) (BaseCallbackUtils.subscribe_json BusinessSubType.FIRMWARE).
Lemma event_json_nonempty info : EventInfo.ToJson info ≠ "".
Proof.
  intros Hj. apply (f_equal len) in Hj. unfold EventInfo.ToJson, EventInfo.GetJsonBuilder in Hj.
  unfold JsonBuilder.Append at 1 in Hj. unfold JsonBuilder.put, JsonBuilder.ToJson in Hj.
  cbn [JsonBuilder.builder_] in Hj. rewrite <- len_chars, chars_app, length_app in Hj. cbn in Hj. lia.
Qed.

Context `{Subscribers E}.
(** The message a progress report becomes. *)
Definition reported (e : E) (info : EventInfo.t) : Message :=
  if GetUpgradeCallback e BusinessSubType.FIRMWARE then OnEvent info else notification info.

Lemma wp_NotifyEvent d id st em vcs p w ts cs e o (Q : unit → World R E → Prop) :
  at_state w ts cs e o →
  (∀ w', at_state w' ts cs e (o ++ [notification (BaseCallbackUtils.notify_event d id st em vcs p)]) → Q tt w') →
  wp (FirmwareCallbackUtils.NotifyEvent d id st em vcs p) w Q.
Proof.
  intros Hw HQ. unfold FirmwareCallbackUtils.NotifyEvent, BaseCallbackUtils.NotifyEvent, BaseCallbackUtils.NotifyToHap.
  rewrite (proj2 (String.eqb_neq _ _)) by apply event_json_nonempty. by eapply wp_send.
Qed.
Lemma wp_ProgressCallback d p w ts cs e o (Q : unit → World R E → Prop) :
  at_state w ts cs e o →
  (∀ w', at_state w' ts cs e (o ++ [reported e (BaseCallbackUtils.progress_event d p)]) → Q tt w') →
  wp (FirmwareCallbackUtils.ProgressCallback d p) w Q.
Proof.
  intros Hw HQ. unfold FirmwareCallbackUtils.ProgressCallback, BaseCallbackUtils.ProgressCallback,
    BaseCallbackUtils.CallbackToHap. apply wp_bind. eapply wp_asks; [done|].
  unfold reported in HQ. destruct (GetUpgradeCallback _ _); [by eapply wp_send|].
  unfold BaseCallbackUtils.NotifyToHap. rewrite (proj2 (String.eqb_neq _ _)) by apply event_json_nonempty.
  by eapply wp_send.
Qed.
End abstraction.

(** One step of a service function: the rule for its first operation.  Side
    conditions that automation does not close are left to the caller. *)
Create HintDb store.
#[export] Hint Resolve task_UpdateStatus task_UpdateProgress task_UpdateErrMsg task_UpdateDownloadTaskId
  task_UpdateCombinationType task_UpdateDownloadMode task_UpdateDownloadAllowNetwork task_UpdateDownloadOrder
  task_UpdateDownloadOption task_UpdateUpgradeMode task_UpdateUpgradeOrder
  component_UpdateProgressByUrl component_UpdateStatusByUrl component_UpdateUrlByVersionId
  component_UpdateProgressByVersionId component_UpdateRecordPointByUrl : store.

Lemma is_int32_closed z : bool_decide (is_int32 z) = true → is_int32 z.
Proof. by rewrite bool_decide_eq_true. Qed.
#[export] Hint Resolve to_int32_range : store.
#[export] Hint Extern 2 (is_int32 _) => (apply is_int32_closed; vm_compute; reflexivity) : store.

Ltac wp_step :=
  lazymatch goal with
  | |- wp (bind _ _) _ _ => apply wp_bind
  | |- wp (ret _) _ _ => apply wp_ret
  | |- wp (asks _) _ _ => eapply wp_asks; [eassumption|]
  | |- wp (on_env _) _ _ => eapply wp_on_env; [eassumption|]; intros ??
  | |- wp (FirmwareCallbackUtils.NotifyEvent _ _ _ _ _ _) _ _ => eapply wp_NotifyEvent; [eassumption|]; intros ??
  | |- wp (FirmwareCallbackUtils.ProgressCallback _ _) _ _ => eapply wp_ProgressCallback; [eassumption|]; intros ??
  | |- wp (on_db (FirmwareTaskOperator.QueryTask _)) _ _ => eapply wp_QueryTask; [eassumption|]; intros ??
  | |- wp (on_db (FirmwareComponentOperator.QueryAll [])) _ _ => eapply wp_QueryAll; [eassumption|]; intros ??
  | |- wp (on_db (FirmwareComponentOperator.QueryByVersionId _ _)) _ _ => eapply wp_QueryByVersionId; [eassumption|]; intros ??
  | |- wp (on_db (FirmwareComponentOperator.QueryByUrl _ _)) _ _ => eapply wp_QueryByUrl; [eassumption|]; intros ??
  | |- wp (on_db FirmwareTaskOperator.DeleteAll) _ _ => eapply wp_DeleteAll_tasks; [eassumption|]; intros ??
  | |- wp (on_db FirmwareComponentOperator.DeleteAll) _ _ => eapply wp_DeleteAll_components; [eassumption|]; intros ??
  | |- wp (on_db (FirmwareTaskOperator.Insert _)) _ _ => eapply wp_Insert_task; [|eassumption|]; [|intros ??]
  | |- wp (on_db (FirmwareComponentOperator.Insert _)) _ _ => eapply wp_Insert_components; [|eassumption|]; [|intros ????]
  | |- wp (on_db _) _ _ =>
      first [ eapply wp_task_update; [solve [eauto 3 with store]|eassumption|]; intros ??
            | eapply wp_component_update; [solve [eauto 3 with store]|eassumption|]; intros ?? ]
  end; cbv beta iota.
Ltac wp_steps := repeat wp_step.

(** ** A concrete environment, for the witnesses *)
Module SampleEnv.
Record t := {
  params : gmap string string;
  files : gmap string Z;
  blocks : Z;
  flags : gmap string bool;
  longs : gmap string Z;
  texts : gmap string string;
  removed : list string;
  clock : Z;
  subscribed : bool
}.
Definition initial : t := {|
  params := {[ "ohos.boot.bootslots" := "2" ]};
  files := {[ "/data/update/ota_package/firmware/versions/p" := 100 ]};
  blocks := 1000000; flags := ∅; longs := ∅; texts := ∅; removed := []; clock := 1000; subscribed := true |}.
Definition set_flag (k : string) (v : option bool) : ST t bool := λ e,
  (true, {| params := params e; files := files e; blocks := blocks e;
            flags := partial_alter (λ _, v) k (flags e); longs := longs e; texts := texts e;
            removed := removed e; clock := clock e; subscribed := subscribed e |}).
Definition set_long (k : string) (v : Z) : ST t bool := λ e,
  (true, {| params := params e; files := files e; blocks := blocks e;
            flags := flags e; longs := <[k := v]> (longs e); texts := texts e;
            removed := removed e; clock := clock e; subscribed := subscribed e |}).
Definition set_text (k v : string) : ST t bool := λ e,
  (true, {| params := params e; files := files e; blocks := blocks e;
            flags := flags e; longs := longs e; texts := <[k := v]> (texts e);
            removed := removed e; clock := clock e; subscribed := subscribed e |}).
Definition remove (k : string) : ST t unit := λ e,
  (tt, {| params := params e; files := files e; blocks := blocks e; flags := flags e; longs := longs e; texts := texts e;
          removed := removed e ++ [k]; clock := clock e; subscribed := subscribed e |}).

Definition unsubscribe : ST t unit := λ e,
  (tt, {| params := params e; files := files e; blocks := blocks e; flags := flags e; longs := longs e; texts := texts e;
          removed := removed e; clock := clock e; subscribed := false |}).

#[global] Instance platform : Platform t := {
  SystemReadParam e k := params e !! k;
  ifstream_good e p := bool_decide (is_Some (files e !! p));
  file_size e p := files e !! p;
  statfs e _ := Some (4096, blocks e);
  remove_entries := remove;
  GetTimestamp := clock;
  GetTimestampByMilliseconds e := 1000 * clock e
}.
#[global] Instance sha256 : Sha256 := { CalculateHashCode s := "sha:" +:+ s }.
#[global] Instance preferences : Preferences t := {
  ObtainString e k d := default d (texts e !! k);
  ObtainInt e k d := default d (longs e !! k);
  ObtainBool e k d := default d (flags e !! k);
  ObtainLong e k d := default d (longs e !! k);
  SaveString := set_text;
  SaveInt := set_long;
  SaveBool k v := set_flag k (Some v);
  SaveLong := set_long;
  IsExist e k := bool_decide (is_Some (texts e !! k) ∨ is_Some (flags e !! k) ∨ is_Some (longs e !! k));
  RemoveKey k e := (true, {|
    params := params e; files := files e; blocks := blocks e; flags := delete k (flags e); longs := delete k (longs e);
    texts := delete k (texts e); removed := removed e; clock := clock e; subscribed := subscribed e |});
  RemoveAllKeys e := (true, {|
    params := params e; files := files e; blocks := blocks e; flags := ∅; longs := ∅;
    texts := ∅; removed := removed e; clock := clock e; subscribed := subscribed e |})
}.
#[global] Instance downloads : Downloads t := { RemoveTask := remove }.
#[global] Instance subscribers : Subscribers t := { GetUpgradeCallback e _ := subscribed e }.

Definition world (ts : list FirmwareTask.t) (cs : list FirmwareComponent.t) : World MemoryDb.t t :=
  {| World.db := MemoryDb.db ts cs; World.env := initial; World.outbox := [] |}.
End SampleEnv.

Lemma MemoryDb_holds ts cs :
  Forall Task.wf ts → Forall Component.wf cs →
  holds (MemoryDb.db ts cs) ts ∧ ∃ zs, numbered cs zs ∧ holds (MemoryDb.db ts cs) zs.
Proof.
  intros Ht Hc. unfold MemoryDb.db.
  set (s0 := {| SqliteDb.dbStore_ := false; SqliteDb.store := MemoryDb.empty |}).
  assert (∀ s, holds s ([] : list FirmwareTask.t) → holds s ([] : list FirmwareComponent.t) →
    wp (for_each ts (λ x, FirmwareTaskOperator.Insert x ;;; ret tt)) s
      (λ _ s', holds s' ts ∧ holds s' ([] : list FirmwareComponent.t))) as Hts.
  { intros s Hs Hs'. eapply (wp_for_each (λ l s, holds s l ∧ holds s ([] : list FirmwareComponent.t))); [done| |done].
    intros l1 x l2 s1 Hl [Hl1 Hc1]. apply wp_bind. apply wp_ret.
    assert (Task.wf x) as Hx by (rewrite Forall_forall in Ht; apply Ht; rewrite Hl; set_solver).
    split; [by apply task_insert_delete_correct|].
    unfold holds, FirmwareTaskOperator.Insert. by rewrite other_table_Insert. }
  destruct (Hts s0 ltac:(constructor) ltac:(constructor)) as [Ht1 Hc1]. revert Ht1 Hc1.
  generalize (exec (for_each ts (λ x, FirmwareTaskOperator.Insert x ;;; ret tt)) s0). intros s1 Ht1 Hc1.
  edestruct (holds_InsertAll (T := FirmwareComponent.t) FirmwareComponentOperator.dir cs s1 [])
    as (zs & Hz & Hi); [done|exact I|exact Hc|exact Hc1|].
  split.
  - unfold holds, FirmwareComponentOperator.Insert. by rewrite other_table_Insert.
  - exists zs. split; [|exact Hi]. eapply Forall2_impl; [exact Hz|]. intros y z [id ->]. cbn. eauto.
Qed.
Lemma sample_at_state ts cs :
  Forall Task.wf ts → Forall Component.wf cs →
  ∃ zs, numbered cs zs ∧ at_state (SampleEnv.world ts cs) ts zs SampleEnv.initial [].
Proof.
  intros Ht Hc. destruct (MemoryDb_holds ts cs Ht Hc) as (Hh & zs & Hz & Hzs). exists zs.
  split; [done|]. by split_and!.
Qed.
(** With no component stored, or with ids that are the ones the table gives. *)
Lemma sample_tasks_at_state ts :
  Forall Task.wf ts → at_state (SampleEnv.world ts []) ts [] SampleEnv.initial [].
Proof.
  intros Ht. destruct (sample_at_state ts [] Ht (Forall_nil_2 _)) as (zs & Hz & Hw). by inversion Hz; subst.
Qed.
