(* ===== verification/Files.v ===== *)
(** * Files and directories

    Models the rest of [file_utils.cpp]: reading and writing a file, emptying a
    directory, and creating a directory together with the missing ones above it.  The
    file system is a class; a path is a string, as [std::filesystem] takes it. *)
From Stdlib Require Import ZArith Lia Ascii String.
From stdpp Require Import base tactics list strings gmap.
From S2P Require Import Prelude CppString Database FirmwareDb FirmwareWorld.

#[local] Open Scope Z_scope.

(** The file system.  A failed call reports [false] or [None]; [ofstream_trunc] opens a
    file, emptied, and writes to it; [contents] opens a file for reading and reads it. *)
Class FileSystem (E : Type) := {
  ofstream_trunc : string → string → ST E bool;
  contents : E → string → option string;
  realpath : E → string → option string;
  directory_iterator : E → string → list string;
  remove_all : string → ST E unit;
  create_directory : string → ST E bool;
  set_permissions : string → Z → ST E bool;
  fopen : string → string → ST E bool;
  chmod : string → Z → ST E Z
}.

Module DirInfo.
(*@ core/ability/utils/include/file_utils.h DirInfo *)
Record t := { dirName : string; dirPermissions : Z; isAllowDestroyContents : bool }.
End DirInfo.

(*@ core/ability/utils/include/file_utils.h OpenMode *)
Inductive OpenMode := READ_ONLY | WRITE_CREATE | APPEND_CREATE | READ_WRITE | READ_WRITE_CREATE | READ_APPEND_CREATE.
(*@ core/ability/utils/include/file_utils.h StreamMode *)
Inductive StreamMode := TEXT | BINARY.
#[global] Instance StreamMode_eq_dec : EqDecision StreamMode.
Proof. solve_decision. Defined.

Module FileUtils.
Import FirmwareWorld.FileUtils.

(** [std::filesystem::path::parent_path]: the path without its last name and the
    slashes before it; the parent of a root is the root itself. *)
Definition is_slash (c : ascii) : bool := Ascii.eqb c "/"%char.
Definition parent_path (p : string) : string :=
  let l := rev (chars p) in
  let l' := drop_while is_slash (drop_while (λ c, negb (is_slash c)) l) in
  match l' with
  | [] => if existsb is_slash l then "/" else ""
  | _ => str (rev l')
  end.

(** The fields of the class: the permissions of the base directories. *)
Notation dir_map := (gmap string Z).

(*@ core/ability/utils/src/file_utils.cpp FileUtils::GetParentDir *)
Definition GetParentDir (fileDir : string) : string := parent_path fileDir.
(*@ core/ability/utils/src/file_utils.cpp FileUtils::GetCurrentDir *)
Definition GetCurrentDir (fileDir : string) : string :=
  if (0 <? len fileDir)%nat && bool_decide (last (chars fileDir) = Some "/"%char) then GetParentDir fileDir else fileDir.
(*@ core/ability/utils/src/file_utils.cpp FileUtils::GetFileOpenMode *)
Definition GetFileOpenMode (mode : OpenMode) (streamMode : StreamMode) : string :=
  let realMode := match mode with
                  | READ_ONLY => "r" | WRITE_CREATE => "w" | APPEND_CREATE => "a"
                  | READ_WRITE => "r+" | READ_WRITE_CREATE => "w+" | READ_APPEND_CREATE => "a+"
                  end in
  if bool_decide (streamMode = BINARY)
  then str (take 1 (chars realMode) ++ "b"%char :: drop 1 (chars realMode)) else realMode.

Section ops.
Context {E : Type} `{Platform E, FileSystem E}.

(*@ core/ability/utils/src/file_utils.cpp FileUtils::GetFileSize *)
Definition GetFileSize (e : E) (fileName : string) : Z :=
  match file_size e fileName with None => 0 | Some n => to_int64 n end.
(*@ core/ability/utils/src/file_utils.cpp FileUtils::SaveDataToFile *)
Definition SaveDataToFile (filePath data : string) : ST E bool :=
  let* opened := ofstream_trunc filePath data in
  if opened : bool then ret true else ret false.
(*@ core/ability/utils/src/file_utils.cpp FileUtils::ReadDataFromFile *)
Definition ReadDataFromFile (e : E) (filePath : string) : string :=
  match realpath e filePath with
  | None => ""
  | Some dealPath => match contents e dealPath with None => "" | Some fileRaw => fileRaw end
  end.
(*@ core/ability/utils/src/file_utils.cpp FileUtils::RemoveAll *)
Definition RemoveAll (path : string) : ST E unit := remove_all path.
(*@ core/ability/utils/src/file_utils.cpp FileUtils::DeleteFile *)
Definition DeleteFile (rootPath : string) (isDeleteRootDir : bool) : ST E unit :=
  let* exists_ := gets (λ e, IsFileExist e rootPath) in
  if negb exists_ then ret tt
  else if isDeleteRootDir then RemoveAll rootPath
  else
    let* entries := gets (λ e, directory_iterator e rootPath) in
    for_each entries RemoveAll.
(*@ core/ability/utils/src/file_utils.cpp FileUtils::CreatDirWithPermission *)
Definition CreatDirWithPermission (fileDir : string) (dirPermission : Z) : ST E bool :=
  if String.eqb fileDir "" || bool_decide (is_Some (find fileDir "/." 0)) || bool_decide (is_Some (find fileDir "./" 0))
  then ret false
  else
    let* created := create_directory fileDir in
    if negb created then ret false
    else
      let* assigned := set_permissions fileDir dirPermission in
      if negb assigned then ret false else ret true.

(** The loop that looks for the missing directories: the stack, its top first.  The
    fuel is enough when the root is there ([missing_dirs_chain]). *)
(*@ core/ability/utils/src/file_utils.cpp:133-136 FileUtils::CreateMultiDirWithPermission *)
Fixpoint missing_dirs (fuel : nat) (e : E) (curDir : string) (dirStack : list string) : option (list string) :=
  match fuel with
  | O => None
  | S fuel =>
      let dirStack := curDir :: dirStack in
      let curDir := GetParentDir curDir in
      if negb (String.eqb curDir "") && negb (IsFileExist e curDir) then missing_dirs fuel e curDir dirStack
      else Some dirStack
  end.
(*@ core/ability/utils/src/file_utils.cpp:138-143 FileUtils::CreateMultiDirWithPermission *)
Fixpoint create_dirs (dirStack : list string) (permission : Z) : ST E bool :=
  match dirStack with
  | [] => ret true
  | top :: dirStack =>
      let* created := CreatDirWithPermission top permission in
      if negb created then ret false else create_dirs dirStack permission
  end.
(** Every directory that is created gets the permission recorded for the whole path,
    if there is one. *)
(*@ core/ability/utils/src/file_utils.cpp FileUtils::CreateMultiDirWithPermission *)
Definition CreateMultiDirWithPermission (baseDirMap_ : dir_map) (fileDir : string) (permission : Z) : ST E (option bool) :=
  let curDir := GetCurrentDir fileDir in
  let* exists_ := gets (λ e, IsFileExist e curDir) in
  if exists_ : bool then ret (Some true)
  else
    let* dirStack := gets (λ e, missing_dirs (S (len curDir)) e curDir []) in
    match dirStack with
    | None => ret None
    | Some dirStack =>
        let* done := create_dirs dirStack (default permission (baseDirMap_ !! fileDir)) in
        ret (Some done)
    end.

(*@ core/ability/utils/src/file_utils.cpp FileUtils::InitAndCreateBaseDirs *)
Definition InitAndCreateBaseDirs (dirInfos : list DirInfo.t) : ST (dir_map * E) unit :=
  match dirInfos with
  | [] => ret tt
  | _ =>
      for_each dirInfos (λ dirInfo s,
        let m := <[DirInfo.dirName dirInfo := DirInfo.dirPermissions dirInfo]> s.1 in
        if negb (IsFileExist s.2 (DirInfo.dirName dirInfo))
        then (tt, (m, exec (CreatDirWithPermission (DirInfo.dirName dirInfo) (DirInfo.dirPermissions dirInfo)) s.2))
        else (tt, (m, s.2)))
  end.
(*@ core/ability/utils/src/file_utils.cpp FileUtils::DestroyBaseDirectory *)
Definition DestroyBaseDirectory (dirInfos : list DirInfo.t) : ST E unit :=
  match dirInfos with
  | [] => ret tt
  | _ => for_each dirInfos (λ dir, when DirInfo.isAllowDestroyContents dir do DeleteFile (DirInfo.dirName dir) false)
  end.

(*@ core/ability/utils/src/file_utils.cpp FileUtils::GetFileRealPath *)
Definition GetFileRealPath (e : E) (filePath : string) : string :=
  if String.eqb filePath "" then ""
  else
    match find_last_of filePath "/" with
    | None => ""
    | Some lastSlashPos =>
        let parentDir := default "" (substr filePath 0 lastSlashPos) in
        match realpath e parentDir with
        | None => ""
        | Some realPath => realPath +:+ "/" +:+ default "" (substr_from filePath (lastSlashPos + 1)%nat)
        end
    end.
(** [Some] of an open file, or [nullptr]; the file is closed with the last pointer, so
    also when [chmod] fails. *)
(*@ core/ability/utils/src/file_utils.cpp FileUtils::CreateFileSharedPtr *)
Definition CreateFileSharedPtr (filePath : string) (openMode : OpenMode) (permission : Z) (streamMode : StreamMode) :
    ST E (option string) :=
  let* fileRealPath := gets (λ e, GetFileRealPath e filePath) in
  if String.eqb fileRealPath "" then ret None
  else
    let realMode := GetFileOpenMode openMode streamMode in
    let* fp := fopen fileRealPath realMode in
    if negb fp then ret None
    else if negb (permission =? -1) then
      let* res := chmod filePath permission in
      if negb (res =? 0) then ret None else ret (Some fileRealPath)
    else ret (Some fileRealPath).
End ops.
End FileUtils.

(** The directories of the service. *)
(*@ core/ability/common/include/constant.h BASE_DIR_INFOS *)
Definition BASE_DIR_INFOS : list DirInfo.t :=
  let dir := DirInfo.Build_t in
  [dir Constant.UPDATE_ENCRYPTED_ROOT_PATH 489 false;
   dir Constant.DUPDATE_ENGINE_ENCRYPTED_ROOT_PATH 448 false;
   dir (Constant.UPDATE_ENCRYPTED_ROOT_PATH +:+ "/update_service" +:+ "/databases") 448 false;
   dir (Constant.DUPDATE_ENGINE_ENCRYPTED_ROOT_PATH +:+ "/preferences") 448 false;
   dir Constant.FILES_ROOT_PATH 448 true;
   dir Constant.UPDATE_PACKAGE_ROOT_PATH 504 false;
   dir Constant.DUPDATE_ENGINE_PACKAGE_ROOT_PATH 504 true].
(*@ firmware/common/include/firmware_constant.h FIRMWARE_DIR_INFOS *)
Definition FIRMWARE_DIR_INFOS : list DirInfo.t :=
  let dir := DirInfo.Build_t in
  [dir Firmware.ENCRYPTED_ROOT_PATH 448 true; dir Firmware.CHANGELOG_PATH 448 true;
   dir Firmware.PACKAGE_ROOT_PATH 504 true; dir Firmware.PACKAGE_PATH 504 true].

(** ** Creating a directory with the missing ones above it *)

(** What the documentation says of the calls that create a directory.  A change of the permissions of a directory may hide what
    is below it from its owner, unless the owner may still search it. *)
Definition searchable (permission : Z) : bool := Z.testbit permission 6.
Class FileSystemLaws (E : Type) `{Platform E, FileSystem E} : Prop := {
  create_directory_there p e : eval (create_directory p) e = true → FirmwareWorld.FileUtils.IsFileExist (exec (create_directory p) e) p = true;
  create_directory_keeps p e q : FirmwareWorld.FileUtils.IsFileExist e q = true → FirmwareWorld.FileUtils.IsFileExist (exec (create_directory p) e) q = true;
  set_permissions_keeps p z e q : searchable z = true → FirmwareWorld.FileUtils.IsFileExist e q = true → FirmwareWorld.FileUtils.IsFileExist (exec (set_permissions p z) e) q = true
}.

Section dirs.
Context {E : Type} `{FileSystemLaws E}.
Import FirmwareWorld.FileUtils FileUtils.
Implicit Types (e : E).

Lemma drop_while_app_all {A} (p : A → bool) l k : Forall (λ x, p x = true) l → drop_while p (l ++ k) = drop_while p k.
Proof. induction 1 as [|x l Hx _ IH]; cbn; [done|]. by rewrite Hx. Qed.
Lemma drop_while_slashes l : Forall (λ c, is_slash c = true) l → drop_while is_slash l = [].
Proof. induction 1 as [|x l Hx _ IH]; cbn; [done|]. by rewrite Hx. Qed.
(** The parent is shorter, except of a path of slashes, whose parent is the root. *)
Lemma parent_shorter p : GetParentDir p = "" ∨ GetParentDir p = "/" ∨ (len (GetParentDir p) < len p)%nat.
Proof.
  unfold GetParentDir, parent_path. set (l := rev (chars p)).
  assert (List.length l = len p) as Hl by (unfold l; by rewrite length_rev, len_chars).
  set (k := drop_while (λ c, negb (is_slash c)) l). set (k' := drop_while is_slash k).
  destruct k' as [|c r] eqn:Hk; [destruct (existsb _ l); auto|].
  right. right. rewrite len_str, length_rev, <- Hk.
  assert (List.length k ≤ List.length l)%nat as Hkl by apply drop_while_length.
  destruct k as [|x k0] eqn:Hk0; [by unfold k' in Hk|].
  assert (is_slash x = true) as Hx by (apply negb_false_iff; exact (drop_while_head _ _ _ _ Hk0)).
  unfold k'. cbn [drop_while]. rewrite Hx. pose proof (drop_while_length is_slash k0). cbn [List.length] in Hkl. lia.
Qed.

(** Directories, each the parent of the next. *)
Inductive chain : list string → Prop :=
  | chain_one p : chain [p]
  | chain_cons p q l : p = GetParentDir q → chain (q :: l) → chain (p :: q :: l).
(** The directories that are missing above [p], with [p] itself. *)
Definition missing_chain e (p : string) (l : list string) : Prop :=
  chain l ∧ last l = Some p ∧
  Forall (λ q, q ≠ "" ∧ IsFileExist e q = false) (List.removelast l) ∧
  ∃ q, head l = Some q ∧ (GetParentDir q = "" ∨ IsFileExist e (GetParentDir q) = true).

Lemma missing_dirs_run n e p st :
  IsFileExist e "/" = true → (len p < n)%nat →
  ∃ l, missing_dirs n e p st = Some (l ++ st) ∧ missing_chain e p l.
Proof.
  intros Hroot. revert p st. induction n as [|n IH]; intros p st Hn; [lia|]. cbn [missing_dirs].
  destruct (negb (String.eqb (GetParentDir p) "") && negb (IsFileExist e (GetParentDir p))) eqn:Hc.
  - apply andb_true_iff in Hc as [Hne Hex]. rewrite negb_true_iff in Hne, Hex. apply String.eqb_neq in Hne.
    destruct (parent_shorter p) as [?|[Hr|Hlt]]; [done|by rewrite Hr, Hroot in Hex|].
    destruct (IH (GetParentDir p) (p :: st) ltac:(lia)) as (l & Hm & Hch & Hl & Hall & q & Hq & Hend).
    exists (l ++ [p]). rewrite <- app_assoc. split; [exact Hm|]. split; [|split; [by rewrite last_app|split]].
    + clear -Hch Hl. induction Hch as [q|q r l -> Hch IH]; cbn.
      * injection Hl as ->. constructor; [done|constructor].
      * constructor; [done|]. apply IH. by rewrite last_cons_cons in Hl.
    + rewrite removelast_last. destruct (exists_last (l := l)) as (l' & x & ->); [by intros ->|].
      rewrite last_app in Hl. cbn in Hl. injection Hl as ->. rewrite removelast_last in Hall.
      apply Forall_app. split; [done|]. by constructor.
    + exists q. split; [by destruct l|exact Hend].
  - exists [p]. split; [done|]. split; [constructor|]. split; [done|]. split; [constructor|]. exists p. split; [done|].
    apply andb_false_iff in Hc as [Hc|Hc]; rewrite negb_false_iff in Hc; [left; by apply String.eqb_eq|by right].
Qed.
(** A path is refused when it is empty or has a name that begins or ends with a dot. *)
Definition dotted (p : string) : Prop :=
  p = "" ∨ (∃ l k, chars p = l ++ ["/"; "."]%char ++ k) ∨ (∃ l k, chars p = l ++ ["."; "/"]%char ++ k).
(** The directories are made one after the other, each with the permission [z], until one of them is refused, cannot be made or
    cannot be given its permission: the result, and the environment afterwards. *)
Inductive tried (z : Z) : list string → E → bool → E → Prop :=
  | tried_all e : tried z [] e true e
  | tried_refused d l e : dotted d → tried z (d :: l) e false e
  | tried_not_made d l e e' : ¬ dotted d → create_directory d e = (false, e') → tried z (d :: l) e false e'
  | tried_not_permitted d l e e1 e' :
      ¬ dotted d → create_directory d e = (true, e1) → set_permissions d z e1 = (false, e') → tried z (d :: l) e false e'
  | tried_made d l e e1 e2 r e' :
      ¬ dotted d → create_directory d e = (true, e1) → set_permissions d z e1 = (true, e2) → tried z l e2 r e' → tried z (d :: l) e r e'.
Lemma dotted_spec p :
  String.eqb p "" || bool_decide (is_Some (find p "/." 0)) || bool_decide (is_Some (find p "./" 0)) = true ↔ dotted p.
Proof.
  unfold dotted. rewrite !orb_true_iff, !bool_decide_eq_true, String.eqb_eq, !found_sub, (assoc (∨)).
  change (chars "/.") with ["/"; "."]%char. change (chars "./") with ["."; "/"]%char. done.
Qed.
Lemma create_dirs_tried l z e : tried z l e (eval (create_dirs l z) e) (exec (create_dirs l z) e).
Proof.
  revert e. induction l as [|d l IH]; intros e; [constructor|]. unfold eval, exec. cbn [create_dirs]. unfold CreatDirWithPermission, bind.
  pose proof (dotted_spec d) as Hd. destruct (_ || _ || _); [apply tried_refused; by apply Hd|].
  assert (¬ dotted d) as Hnot by by rewrite <- Hd. destruct (create_directory d e) as [[] e1] eqn:Hc; cbn [negb]; [|by apply tried_not_made].
  destruct (set_permissions d z e1) as [[] e2] eqn:Hs; cbn [negb]; [|by eapply tried_not_permitted]. eapply tried_made; [done..|]. apply IH.
Qed.
Lemma tried_keeps z l e r e' q : searchable z = true → tried z l e r e' → IsFileExist e q = true → IsFileExist e' q = true.
Proof.
  intros Hz Ht Hq. assert (∀ d e b e', create_directory d e = (b, e') → IsFileExist e q = true → IsFileExist e' q = true) as Hmake.
  { intros d e0 b e1 Hc. pose proof (create_directory_keeps d e0 q) as Hk. unfold exec in Hk. by rewrite Hc in Hk. }
  assert (∀ d e b e', set_permissions d z e = (b, e') → IsFileExist e q = true → IsFileExist e' q = true) as Hpermit.
  { intros d e0 b e1 Hc. pose proof (set_permissions_keeps d z e0 q Hz) as Hk. unfold exec in Hk. by rewrite Hc in Hk. }
  induction Ht; eauto.
Qed.
Lemma tried_there z l e e' : searchable z = true → tried z l e true e' → Forall (λ q, IsFileExist e' q = true) l.
Proof.
  intros Hz Ht. assert (∀ r, tried z l e r e' → r = true → Forall (λ q, IsFileExist e' q = true) l) as Hgen; [|by eapply Hgen].
  clear Ht. induction 1 as [| | | |d l e e1 e2 r e' _ Hc Hs Ht IH]; try discriminate; [constructor|]. intros Hr.
  constructor; [|by apply IH]. eapply tried_keeps; [done|exact Ht|].
  pose proof (set_permissions_keeps d z e1 d Hz) as Hk. unfold exec in Hk. rewrite Hs in Hk. apply Hk.
  pose proof (create_directory_there d e) as Hd. unfold eval, exec in Hd. rewrite Hc in Hd. by apply Hd.
Qed.

(** C12: asking for a directory always ends, when the root is there, with an answer.  A
    directory that is there is left alone; otherwise the missing ones on the way to it are made, from the
    top down, each before the next and all with the permission that is recorded for the whole path, or else
    the one asked for, until one of them cannot be made; and after a success every one of
    them is there, if their owner may search them. *)
Theorem directories_created m dir perm e :
  IsFileExist e "/" = true →
  let p := GetCurrentDir dir in
  wp (CreateMultiDirWithPermission m dir perm) e (λ r e',
    if IsFileExist e p then r = Some true ∧ e' = e
    else
      let z := match m !! dir with Some z => z | None => perm end in
      ∃ l made, missing_chain e p l ∧ r = Some made ∧ tried z l e made e' ∧
        (made = true → searchable z = true → Forall (λ q, IsFileExist e' q = true) l)).
Proof.
  intros Hroot p. unfold CreateMultiDirWithPermission. fold p. apply wp_bind, wp_gets. destruct (IsFileExist e p) eqn:Hp; [by apply wp_ret|].
  apply wp_bind, wp_gets. destruct (missing_dirs_run (S (len p)) e p [] Hroot ltac:(lia)) as (l & -> & Hl). rewrite app_nil_r.
  apply wp_bind. unfold wp. rewrite exec_ret, eval_ret.
  assert (default perm (m !! dir) = match m !! dir with Some z => z | None => perm end) as -> by by destruct (m !! dir).
  pose proof (create_dirs_tried l (match m !! dir with Some z => z | None => perm end) e) as Ht.
  do 2 eexists. split; [exact Hl|]. split; [done|]. split; [exact Ht|]. intros Hd Hz. rewrite Hd in Ht. by eapply tried_there.
Qed.
End dirs.

(** ** A sample file system: the set of paths that are there *)
Module SampleFiles.
#[local] Definition add (p : string) : ST SampleEnv.t bool := λ e,
  (true, {| SampleEnv.params := SampleEnv.params e; SampleEnv.files := <[p := 0]> (SampleEnv.files e); SampleEnv.blocks := SampleEnv.blocks e;
            SampleEnv.flags := SampleEnv.flags e; SampleEnv.longs := SampleEnv.longs e; SampleEnv.texts := SampleEnv.texts e;
            SampleEnv.removed := SampleEnv.removed e; SampleEnv.clock := SampleEnv.clock e; SampleEnv.subscribed := SampleEnv.subscribed e |}).
#[global] Instance file_system : FileSystem SampleEnv.t := {
  ofstream_trunc p data := add p ;;; SampleEnv.set_text p data;
  contents e p := SampleEnv.texts e !! p;
  realpath e p := Some p;
  directory_iterator _ _ := [];
  remove_all p := SampleEnv.remove p;
  create_directory := add;
  set_permissions _ _ := ret true;
  fopen _ _ := ret true;
  chmod _ _ := ret 0
}.
#[global] Instance laws : FileSystemLaws SampleEnv.t.
Proof.
  split; [intros p e _|intros p e q Hq|done].
  - apply bool_decide_eq_true_2. cbn. by rewrite lookup_insert_eq.
  - apply bool_decide_eq_true_2. apply bool_decide_eq_true_1 in Hq. cbn in *. destruct (decide (p = q)) as [->|].
    + by rewrite lookup_insert_eq.
    + by rewrite lookup_insert_ne.
Qed.
Lemma directories_created_witness :
  let e := exec (add "/") SampleEnv.initial in
  let e' := exec (FileUtils.CreateMultiDirWithPermission ∅ "/data/update/a/" 488) e in
  FirmwareWorld.FileUtils.IsFileExist e' "/data/update/a" = true.
Proof.
  intros e e'. pose proof (directories_created ∅ "/data/update/a/" 488 e ltac:(by vm_compute)) as Hp. unfold wp in Hp.
  change (exec (FileUtils.CreateMultiDirWithPermission ∅ "/data/update/a/" 488) e) with e' in Hp.
change (FirmwareWorld.FileUtils.IsFileExist e _) with false in Hp. cbv beta iota zeta in Hp.
  destruct Hp as (l & made & (_ & Hl & _) & Hr & _ & Hp).
  assert (made = true) as Hmade.
  { change (eval (FileUtils.CreateMultiDirWithPermission ∅ "/data/update/a/" 488) e) with (Some true) in Hr. by injection Hr. }
  pose proof (Hp Hmade ltac:(reflexivity)) as Hthere. clear Hr. rename Hthere into Hr. apply last_Some in Hl as [l' ->]. apply Forall_app in Hr as [_ Hr]. apply Forall_cons in Hr as [Hr _]. exact Hr.
Defined.
End SampleFiles.
