(* ===== verification/JsonUtils.v ===== *)
(** * Reading JSON values

    Models [updateservice_json_utils.h]: a member of a parsed object is read into a
    C++ variable when it is there and has the variable's type.  The parser and the
    nodes are those of the cJSON library, a class.  A JSON number is a [double]: which
    doubles become which integers is what [integer_accepted] states. *)
From Stdlib Require Import ZArith Lia Ascii String.
From stdpp Require Import base tactics list strings.
From S2P Require Import Prelude CppString StringUtils Files.
Import StringUtils (IntType, int32_t, int64_t, it_min, it_max, it_signed).

#[local] Open Scope Z_scope.

(** ** Doubles *)

(** A [double]: [m * 2^e], an infinity, or not a number. *)
Inductive Double := Finite (m e : Z) | Infinite (negative : bool) | NaN.
Module Double.
(** [std::floor(d) == d]. *)
Definition is_integer (d : Double) : bool :=
  match d with
  | Finite m e => if 0 <=? e then true else m mod 2 ^ (- e) =? 0
  | Infinite _ => true
  | NaN => false
  end.
(** [d < z] and [d > z] for an integral [z]. *)
Definition lt_Z (d : Double) (z : Z) : bool :=
  match d with
  | Finite m e => if 0 <=? e then m * 2 ^ e <? z else m <? z * 2 ^ (- e)
  | Infinite negative => negative
  | NaN => false
  end.
Definition gt_Z (d : Double) (z : Z) : bool :=
  match d with
  | Finite m e => if 0 <=? e then z <? m * 2 ^ e else z * 2 ^ (- e) <? m
  | Infinite negative => negb negative
  | NaN => false
  end.
(** An integer as a [double]: 53 bits, the nearest, the even one of two. *)
Definition of_Z (z : Z) : Z :=
  let k := Z.log2 (Z.abs z) - 52 in
  if k <=? 0 then z
  else
    let u := 2 ^ k in
    let q := Z.abs z / u in
    let r := Z.abs z mod u in
    let q := if (2 * r <? u) || ((2 * r =? u) && Z.even q) then q else q + 1 in
    Z.sgn z * (q * u).
(** The value of an integral double. *)
Definition value (d : Double) : option Z :=
  match d with
  | Finite m e => Some (if 0 <=? e then m * 2 ^ e else m / 2 ^ (- e))
  | _ => None
  end.
End Double.

Definition uint32_t : IntType := {| it_signed := false; it_min := 0; it_max := UINT32_MAX |}.
Definition uint64_t : IntType := {| it_signed := false; it_min := 0; it_max := UINT64_MAX |}.

(** ** The cJSON library

    [out_of_range T d] is what the processor makes of a [double] that the type [T] does
    not have: the language leaves it undefined. *)
Class CJson (J : Type) := {
  cJSON_Parse : string → option J;
  cJSON_GetObjectItemCaseSensitive : J → string → option J;
  cJSON_GetObjectItem : J → string → option J;
  cJSON_IsObject : J → bool;
  cJSON_IsArray : J → bool;
  cJSON_IsNumber : J → bool;
  cJSON_IsString : J → bool;
  cJSON_IsTrue : J → bool;
  cJSON_IsFalse : J → bool;
  cJSON_GetArraySize : J → Z;
  cJSON_GetArrayItem : J → Z → option J;
  valuestring : J → string;
  valuedouble : J → Double;
  valueint : J → Z;
  out_of_range : IntType → Double → Z
}.

(*@ foundations/ability/utils/include/updateservice_json_utils.h JsonParseError *)
Inductive JsonParseError := ERR_OK | COMMOM_ERROR | MISSING_PROP | TYPE_ERROR.
(** [CAST_INT]. *)
Definition json_error (err : JsonParseError) : Z :=
  match err with ERR_OK => 0 | COMMOM_ERROR => 1 | MISSING_PROP => 2 | TYPE_ERROR => 3 end.

Module UpdateServiceJsonUtils.
Section ops.
Context {J : Type} `{CJson J}.

(** The conversion [value = objValue]. *)
Definition converted (T : IntType) (d : Double) : Z :=
  match Double.value d with
  | Some z => if (it_min T <=? z) && (z <=? it_max T) then z else out_of_range T d
  | None => out_of_range T d
  end.
(** The bounds of the 32-bit types are converted exactly, those of the 64-bit types are
    written as a [double]: [Double.of_Z] for all. *)
(*@ foundations/ability/utils/include/updateservice_json_utils.h CheckInteger *)
Definition CheckInteger (T : IntType) (jsonObj : J) : option Z :=
  if negb (cJSON_IsNumber jsonObj) then None
  else
    let objValue := valuedouble jsonObj in
    if negb (Double.is_integer objValue) then None
    else if Double.lt_Z objValue (Double.of_Z (it_min T)) || Double.gt_Z objValue (Double.of_Z (it_max T))
    then None
    else Some (converted T objValue).

(** [CheckTypeAndAsign<T>]: the value, when the node has the type.  A node that is
    neither true nor false is no [bool]. *)
(*@ foundations/ability/utils/include/updateservice_json_utils.h:131-137 CheckTypeAndAsign *)
Definition as_string (jsonObject : J) : option string :=
  if cJSON_IsString jsonObject then Some (valuestring jsonObject) else None.
(*@ foundations/ability/utils/include/updateservice_json_utils.h:139-145 CheckTypeAndAsign *)
Definition as_bool (jsonObject : J) : option bool :=
  if negb (cJSON_IsTrue jsonObject) && negb (cJSON_IsFalse jsonObject) then None
  else Some (if cJSON_IsTrue jsonObject then true else false).
(*@ foundations/ability/utils/include/updateservice_json_utils.h:147-150 CheckTypeAndAsign *)
Definition as_integer (T : IntType) (jsonObject : J) : option Z := CheckInteger T jsonObject.
(*@ foundations/ability/utils/include/updateservice_json_utils.h:152-162 CheckTypeAndAsign *)
Definition as_double (jsonObject : J) : option Double :=
  if negb (cJSON_IsNumber jsonObject) then None
  else match valuedouble jsonObject with Finite m e => Some (Finite m e) | _ => None end.

(** The error and the new value of the variable. *)
(*@ foundations/ability/utils/include/updateservice_json_utils.h GetValueAndSetTo *)
Definition GetValueAndSetTo {A} (CheckTypeAndAsign : J → option A) (jsonObject : option J) (key : string) (value : A) : Z * A :=
  match jsonObject with
  | None => (json_error MISSING_PROP, value)
  | Some jsonObject =>
      if String.eqb key "" then (json_error MISSING_PROP, value)
      else
        match cJSON_GetObjectItemCaseSensitive jsonObject key with
        | None => (json_error MISSING_PROP, value)
        | Some item =>
            match CheckTypeAndAsign item with
            | None => (json_error TYPE_ERROR, value)
            | Some v => (json_error ERR_OK, v)
            end
        end
  end.
(** [c_str] ends at the first zero byte. *)
Definition c_str (s : string) : string := str (take_while (λ c, negb (Ascii.eqb c Ascii.zero)) (chars s)).
(*@ foundations/ability/utils/include/updateservice_json_utils.h ParseAndGetJsonObject *)
Definition ParseAndGetJsonObject (jsonStr : string) : option J :=
  match cJSON_Parse (c_str jsonStr) with
  | None => None
  | Some object => if negb (cJSON_IsObject object) then None else Some object
  end.
(*@ foundations/ability/utils/include/updateservice_json_utils.h ParseJson *)
Definition ParseJson (jsonStr : string) : option J := cJSON_Parse (c_str jsonStr).
End ops.
End UpdateServiceJsonUtils.

(** ** Which numbers are integers *)
Module IntegerFacts.
Import Double.
(** The double is the integer [z]. *)
Definition denotes (d : Double) (z : Z) : Prop :=
  match d with Finite m e => if 0 <=? e then m * 2 ^ e = z else m = z * 2 ^ (- e) | _ => False end.
Lemma denotes_value d z : denotes d z ↔ is_integer d = true ∧ value d = Some z.
Proof.
  destruct d as [m e|n|]; cbn; [|naive_solver..]. destruct (Z.leb_spec 0 e); [naive_solver|].
  assert (0 < 2 ^ (- e)) as He by (apply Z.pow_pos_nonneg; lia). rewrite Z.eqb_eq. split.
  - intros ->. split; [apply Z.mod_mul; lia|]. rewrite Z.div_mul by lia. done.
  - intros [Hm [= <-]]. pose proof (Z.div_mod m (2 ^ (- e)) ltac:(lia)). lia.
Qed.
Lemma denotes_lt d z y : denotes d z → lt_Z d y = (z <? y).
Proof.
  destruct d as [m e|n|]; cbn; [|done..]. destruct (Z.leb_spec 0 e); [by intros <-|]. intros ->.
  assert (0 < 2 ^ (- e)) as He by (apply Z.pow_pos_nonneg; lia).
  apply eq_true_iff_eq. rewrite !Z.ltb_lt. split; nia.
Qed.
Lemma denotes_gt d z y : denotes d z → gt_Z d y = (y <? z).
Proof.
  destruct d as [m e|n|]; cbn; [|done..]. destruct (Z.leb_spec 0 e); [by intros <-|]. intros ->.
  assert (0 < 2 ^ (- e)) as He by (apply Z.pow_pos_nonneg; lia).
  apply eq_true_iff_eq. rewrite !Z.ltb_lt. split; nia.
Qed.
Lemma integer_denotes d y y' : is_integer d = true → lt_Z d y = false → gt_Z d y' = false → ∃ z, denotes d z.
Proof.
  intros Hi Hl Hg. destruct d as [m e|[]|]; [|done..]. exists (if 0 <=? e then m * 2 ^ e else m / 2 ^ (- e)).
  by apply denotes_value.
Qed.

(** The types the templates are used with. *)
Inductive integral : IntType → Prop :=
  | integral_int32 : integral int32_t | integral_uint32 : integral uint32_t
  | integral_int64 : integral int64_t | integral_uint64 : integral uint64_t.
(** The largest number that is accepted: the bound as a [double], one past the type
    for 64 bits. *)
Definition largest (T : IntType) : Z := if it_max T <=? UINT32_MAX then it_max T else it_max T + 1.
Lemma of_Z_bounds T : integral T → of_Z (it_min T) = it_min T ∧ of_Z (it_max T) = largest T.
Proof. by intros []; vm_compute. Qed.
End IntegerFacts.

(** A conversion gives some value of the type, even out of its range. *)
Class CJsonLaws (J : Type) `{CJson J} : Prop :=
  out_of_range_bounds T d : IntegerFacts.integral T → it_min T ≤ out_of_range T d ≤ it_max T.

Section integers.
Context {J : Type} `{CJson J}.
Import IntegerFacts.
(** A JSON value is read as an integer of a type exactly when it is a number
    without a fraction within the bounds of the type; then it is read unchanged.  The one
    exception is the number just past a 64-bit type, which is accepted although the type
    does not have it: what is read then is up to the processor. *)
Theorem json_integer_bounds T j v : integral T →
  UpdateServiceJsonUtils.as_integer T j = Some v ↔
  cJSON_IsNumber j = true ∧ ∃ z, denotes (valuedouble j) z ∧ it_min T ≤ z ≤ largest T ∧
    v = if z <=? it_max T then z else out_of_range T (valuedouble j).
Proof.
  intros HT. destruct (of_Z_bounds T HT) as [Hmin Hmax].
  unfold UpdateServiceJsonUtils.as_integer, UpdateServiceJsonUtils.CheckInteger, UpdateServiceJsonUtils.converted.
  rewrite Hmin, Hmax. destruct (cJSON_IsNumber j); cbn [negb]; [|naive_solver]. set (d := valuedouble j). split.
  - destruct (Double.is_integer d) eqn:Hi; [|done]. cbn [negb]. intros Hv. split; [done|].
    destruct (Double.lt_Z d _) eqn:Hl; [done|]. destruct (Double.gt_Z d _) eqn:Hg; [done|]. cbn [orb] in Hv.
    destruct (integer_denotes d _ _ Hi Hl Hg) as [z Hz]. exists z. split; [done|].
    rewrite (denotes_lt d z) in Hl by done. rewrite (denotes_gt d z) in Hg by done. apply Z.ltb_ge in Hl, Hg. split; [lia|].
    destruct (proj1 (denotes_value d z) Hz) as [_ Hval]. rewrite Hval in Hv. injection Hv as <-.
    by rewrite (proj2 (Z.leb_le (it_min T) z)) by lia.
  - intros (_ & z & Hz & Hr & ->). destruct (proj1 (denotes_value d z) Hz) as [-> Hval]. cbn [negb].
    rewrite (denotes_lt d z), (denotes_gt d z) by done. rewrite (proj2 (Z.ltb_ge _ _)), (proj2 (Z.ltb_ge _ _)) by lia. cbn [orb].
    rewrite Hval. by rewrite (proj2 (Z.leb_le (it_min T) z)) by lia.
Qed.
(** What a member is set to is of the type when what it was set to before is. *)
Lemma GetValueAndSetTo_bounds `{!CJsonLaws J} T root key v : integral T → it_min T ≤ v ≤ it_max T →
  it_min T ≤ (UpdateServiceJsonUtils.GetValueAndSetTo (UpdateServiceJsonUtils.as_integer T) root key v).2 ≤ it_max T.
Proof.
  intros HT Hv. unfold UpdateServiceJsonUtils.GetValueAndSetTo. destruct root as [j|]; [|done]. case_if; [done|].
  destruct (cJSON_GetObjectItemCaseSensitive j key) as [item|]; [|done].
  destruct (UpdateServiceJsonUtils.as_integer T item) as [z|] eqn:Hz; [|done]. cbn [snd].
  unfold UpdateServiceJsonUtils.as_integer, UpdateServiceJsonUtils.CheckInteger in Hz.
  destruct (negb _); [done|]. destruct (negb _); [done|]. destruct (_ || _); [done|]. injection Hz as <-.
  unfold UpdateServiceJsonUtils.converted. pose proof (out_of_range_bounds T (valuedouble item) HT).
  destruct (Double.value _) as [y|]; [|done]. destruct (Z.leb_spec (it_min T) y); [|done]. by destruct (Z.leb_spec y (it_max T)).
Qed.
End integers.

(** ** JSON for the witnesses: trees without a parser *)
Module SampleJson.
Inductive t := Null | True_ | False_ | Number (d : Double) | Text (s : string) | Array (l : list t) | Object (l : list (string * t)).
(** The texts that are parsed are those of [documents]. *)
#[global] Instance cjson (documents : string → option t) : CJson t := {
  cJSON_Parse := documents;
  cJSON_GetObjectItemCaseSensitive j k :=
    match j with Object l => snd <$> list_find (λ x, x.1 = k) l ≫= λ x, Some x.2 | _ => None end;
  cJSON_GetObjectItem j k :=
    match j with Object l => snd <$> list_find (λ x, x.1 = k) l ≫= λ x, Some x.2 | _ => None end;
  cJSON_IsObject j := match j with Object _ => true | _ => false end;
  cJSON_IsArray j := match j with Array _ => true | _ => false end;
  cJSON_IsNumber j := match j with Number _ => true | _ => false end;
  cJSON_IsString j := match j with Text _ => true | _ => false end;
  cJSON_IsTrue j := match j with True_ => true | _ => false end;
  cJSON_IsFalse j := match j with False_ => true | _ => false end;
  cJSON_GetArraySize j := match j with Array l => Z.of_nat (List.length l) | Object l => Z.of_nat (List.length l) | _ => 0 end;
  cJSON_GetArrayItem j i :=
    match j with Array l => l !! Z.to_nat i | Object l => snd <$> l !! Z.to_nat i | _ => None end;
  valuestring j := match j with Text s => s | _ => "" end;
  valuedouble j := match j with Number d => d | _ => Finite 0 0 end;
  valueint j := match j with Number d => default 0 (Double.value d) | _ => 0 end;
  out_of_range T _ := it_min T
}.
#[global] Instance laws documents : CJsonLaws t (H := cjson documents).
Proof. intros T d HT. destruct HT; vm_compute; by split. Qed.
Lemma json_integer_bounds_witness :
  UpdateServiceJsonUtils.as_integer (H := cjson (λ _, None)) int64_t (Number (Finite 1 63)) = Some INT64_MIN.
Proof.
  apply (proj2 (json_integer_bounds (H := cjson (λ _, None)) int64_t (Number (Finite 1 63)) INT64_MIN IntegerFacts.integral_int64)).
  split; [done|]. exists (2 ^ 63). vm_compute. split; [done|]. split; [by split|done].
Defined.
End SampleJson.

(** ** The configuration file *)
Module ConfigParse.
(*@ core/ability/adapter/include/config_info.h ConfigInfo *)
Record ConfigInfo := { abInstallTimeout : Z; streamInstallTimeout : Z; moduleLibPath : string }.
(*@ core/ability/adapter/include/config_info.h ConfigInfo *)
Definition initial : ConfigInfo := {| abInstallTimeout := 1800; streamInstallTimeout := 3600; moduleLibPath := "" |}.
(*@ core/ability/common/include/constant.h DUPDATE_ENGINE_CONFIG_PATH *)
Definition DUPDATE_ENGINE_CONFIG_PATH : string := "/system/etc/update/dupdate_config.json".

(*@ core/ability/adapter/src/config_parse.cpp ConfigParse::GetAbInstallerTimeout *)
Definition GetAbInstallerTimeout (this : ConfigInfo) : Z := abInstallTimeout this.
(*@ core/ability/adapter/src/config_parse.cpp ConfigParse::GetStreamInstallerTimeout *)
Definition GetStreamInstallerTimeout (this : ConfigInfo) : Z := streamInstallTimeout this.
(*@ core/ability/adapter/src/config_parse.cpp ConfigParse::GetModuleLibPath *)
Definition GetModuleLibPath (this : ConfigInfo) : string := moduleLibPath this.
Section ops.
Context {E J : Type} `{FileSystem E, CJson J}.
(*@ core/ability/adapter/src/config_parse.cpp ConfigParse::LoadConfigInfo *)
Definition LoadConfigInfo (e : E) (this : ConfigInfo) : ConfigInfo :=
  match contents e DUPDATE_ENGINE_CONFIG_PATH with
  | None => this
  | Some rawJson =>
      match UpdateServiceJsonUtils.ParseJson rawJson with
      | None => this
      | Some root =>
          let get {A} := UpdateServiceJsonUtils.GetValueAndSetTo (A := A) in
          {| abInstallTimeout := (get (UpdateServiceJsonUtils.as_integer uint32_t) (Some root) "abInstallTimeout" (abInstallTimeout this)).2;
             streamInstallTimeout :=
               (get (UpdateServiceJsonUtils.as_integer uint32_t) (Some root) "streamInstallTimeout" (streamInstallTimeout this)).2;
             moduleLibPath := (get UpdateServiceJsonUtils.as_string (Some root) "moduleLibPath" (moduleLibPath this)).2 |}
      end
  end.
End ops.
End ConfigParse.
