(* ===== verification/DownloadThread.v ===== *)
(** * The download thread

    Models [download_thread.cpp]: the object that downloads one package and
    verifies it, and reports to the callback of its service.  The callbacks of
    the transfer and of the verification arrive while the thread runs, as do the
    requests of the service ([Stop], [NetChangeToPause],
    [SetDisableCallbackFlag]): they are a sequence of [TransferEvent]s the
    environment supplies, handled in order.  libcurl, OpenSSL and the file system
    are reached through the class [ThreadKits]; of [download_request.cpp] the
    file models the progress callback and the stop flag.  Time does not pass
    while a method runs. *)
From Stdlib Require Import ZArith Lia Ascii String.
From stdpp Require Import base tactics list strings gmap.
From S2P Require Import Prelude CppString StringUtils Json Models Database FirmwareDb FirmwareStore FirmwareWorld DownloadData.

#[local] Open Scope Z_scope.

(** What happens during a transfer or a verification. *)
Inductive TransferEvent :=
  | Progressed (dlTotal dlNow : Z)
  | Verified (verifiedSize : Z)
  | StopAsked
  | NetLost
  | CallbacksDisabled (flag : bool).

Module HttpRespondCode.
(*@* core/ability/net/include/network_response.h = *)
Definition CODE_SUCCESS : Z := 200.
Definition CODE_301 : Z := 301.
Definition CODE_302 : Z := 302.
Definition CODE_303 : Z := 303.
Definition CODE_307 : Z := 307.
Definition CODE_503 : Z := 503.
Definition CODE_504 : Z := 504.
End HttpRespondCode.

(*@ core/ability/common/include/constant.h MIN_FILE_DOWNLOAD_SIZE *)
Definition MIN_FILE_DOWNLOAD_SIZE : Z := 10 * 1024 * 1024.

(** The libraries the thread uses.  [transfer] is [DoNetRequest]: the events
    during the request, the result of curl and the status of the response;
    [file_digest] is [GetFileSha256VerifyResult]: the events, the error code and
    the digest found. *)
Class ThreadKits (E : Type) := {
  CURLE_OK : Z;
  CURLE_WRITE_ERROR : Z;
  CURLE_READ_ERROR : Z;
  SHA256_SUCCESS : Z;
  transfer : DownloadInfo.t → Z → ST E (list TransferEvent * Z * Z);
  file_digest : string → string → bool → ST E (list TransferEvent * Z * string);
  GetHeadersBuffer : E → list string;
  CreateMultiDirWithPermission : string → ST E bool;
  parent_dir : string → string;
  CreateFileSharedPtr : string → bool → ST E bool;
  fseek : Z → ST E Z;
  errno : E → Z;
  strerror : E → string;
  thread_net_available : E → bool
}.

Module DownloadThread.
(** [filePtr_]: is a file open.  [isNeedStop_]: the stop flag of [request_]. *)
(*@ download/task/include/download_thread.h:92-137 DownloadThread *)
Record t := {
  downloadInfo_ : DownloadInfo.t;
  status_ : Z;
  callbackInfo_ : DownloadCallbackInfo.t;
  percent_ : Z;
  downloadedSize_ : Z;
  totalSize_ : Z;
  fileInitSize_ : Z;
  filePtr_ : bool;
  verifiedSize_ : Z;
  verifiedPercent_ : Z;
  isNeedAutoPause_ : bool;
  isNeedCancel_ : bool;
  isPackageSizeVerified_ : bool;
  isNeedStop_ : bool;
  isStarted_ : bool;
  isRequestFinished_ : bool;
  isDisableCallbackFlag_ : bool;
  downloadStartTime_ : Z;
  lastEffectiveTime_ : Z;
  prevCallbackTime_ : Z
}.

(** The setters of the fields the methods assign. *)
Definition set_status (x : Z) (this : t) : t := {|
  downloadInfo_ := downloadInfo_ this;
  status_ := x;
  callbackInfo_ := callbackInfo_ this;
  percent_ := percent_ this;
  downloadedSize_ := downloadedSize_ this;
  totalSize_ := totalSize_ this;
  fileInitSize_ := fileInitSize_ this;
  filePtr_ := filePtr_ this;
  verifiedSize_ := verifiedSize_ this;
  verifiedPercent_ := verifiedPercent_ this;
  isNeedAutoPause_ := isNeedAutoPause_ this;
  isNeedCancel_ := isNeedCancel_ this;
  isPackageSizeVerified_ := isPackageSizeVerified_ this;
  isNeedStop_ := isNeedStop_ this;
  isStarted_ := isStarted_ this;
  isRequestFinished_ := isRequestFinished_ this;
  isDisableCallbackFlag_ := isDisableCallbackFlag_ this;
  downloadStartTime_ := downloadStartTime_ this;
  lastEffectiveTime_ := lastEffectiveTime_ this;
  prevCallbackTime_ := prevCallbackTime_ this |}.
Definition set_callbackInfo (x : DownloadCallbackInfo.t) (this : t) : t := {|
  downloadInfo_ := downloadInfo_ this;
  status_ := status_ this;
  callbackInfo_ := x;
  percent_ := percent_ this;
  downloadedSize_ := downloadedSize_ this;
  totalSize_ := totalSize_ this;
  fileInitSize_ := fileInitSize_ this;
  filePtr_ := filePtr_ this;
  verifiedSize_ := verifiedSize_ this;
  verifiedPercent_ := verifiedPercent_ this;
  isNeedAutoPause_ := isNeedAutoPause_ this;
  isNeedCancel_ := isNeedCancel_ this;
  isPackageSizeVerified_ := isPackageSizeVerified_ this;
  isNeedStop_ := isNeedStop_ this;
  isStarted_ := isStarted_ this;
  isRequestFinished_ := isRequestFinished_ this;
  isDisableCallbackFlag_ := isDisableCallbackFlag_ this;
  downloadStartTime_ := downloadStartTime_ this;
  lastEffectiveTime_ := lastEffectiveTime_ this;
  prevCallbackTime_ := prevCallbackTime_ this |}.
Definition set_percent (x : Z) (this : t) : t := {|
  downloadInfo_ := downloadInfo_ this;
  status_ := status_ this;
  callbackInfo_ := callbackInfo_ this;
  percent_ := x;
  downloadedSize_ := downloadedSize_ this;
  totalSize_ := totalSize_ this;
  fileInitSize_ := fileInitSize_ this;
  filePtr_ := filePtr_ this;
  verifiedSize_ := verifiedSize_ this;
  verifiedPercent_ := verifiedPercent_ this;
  isNeedAutoPause_ := isNeedAutoPause_ this;
  isNeedCancel_ := isNeedCancel_ this;
  isPackageSizeVerified_ := isPackageSizeVerified_ this;
  isNeedStop_ := isNeedStop_ this;
  isStarted_ := isStarted_ this;
  isRequestFinished_ := isRequestFinished_ this;
  isDisableCallbackFlag_ := isDisableCallbackFlag_ this;
  downloadStartTime_ := downloadStartTime_ this;
  lastEffectiveTime_ := lastEffectiveTime_ this;
  prevCallbackTime_ := prevCallbackTime_ this |}.
Definition set_downloadedSize (x : Z) (this : t) : t := {|
  downloadInfo_ := downloadInfo_ this;
  status_ := status_ this;
  callbackInfo_ := callbackInfo_ this;
  percent_ := percent_ this;
  downloadedSize_ := x;
  totalSize_ := totalSize_ this;
  fileInitSize_ := fileInitSize_ this;
  filePtr_ := filePtr_ this;
  verifiedSize_ := verifiedSize_ this;
  verifiedPercent_ := verifiedPercent_ this;
  isNeedAutoPause_ := isNeedAutoPause_ this;
  isNeedCancel_ := isNeedCancel_ this;
  isPackageSizeVerified_ := isPackageSizeVerified_ this;
  isNeedStop_ := isNeedStop_ this;
  isStarted_ := isStarted_ this;
  isRequestFinished_ := isRequestFinished_ this;
  isDisableCallbackFlag_ := isDisableCallbackFlag_ this;
  downloadStartTime_ := downloadStartTime_ this;
  lastEffectiveTime_ := lastEffectiveTime_ this;
  prevCallbackTime_ := prevCallbackTime_ this |}.
Definition set_filePtr (x : bool) (this : t) : t := {|
  downloadInfo_ := downloadInfo_ this;
  status_ := status_ this;
  callbackInfo_ := callbackInfo_ this;
  percent_ := percent_ this;
  downloadedSize_ := downloadedSize_ this;
  totalSize_ := totalSize_ this;
  fileInitSize_ := fileInitSize_ this;
  filePtr_ := x;
  verifiedSize_ := verifiedSize_ this;
  verifiedPercent_ := verifiedPercent_ this;
  isNeedAutoPause_ := isNeedAutoPause_ this;
  isNeedCancel_ := isNeedCancel_ this;
  isPackageSizeVerified_ := isPackageSizeVerified_ this;
  isNeedStop_ := isNeedStop_ this;
  isStarted_ := isStarted_ this;
  isRequestFinished_ := isRequestFinished_ this;
  isDisableCallbackFlag_ := isDisableCallbackFlag_ this;
  downloadStartTime_ := downloadStartTime_ this;
  lastEffectiveTime_ := lastEffectiveTime_ this;
  prevCallbackTime_ := prevCallbackTime_ this |}.
Definition set_verifiedSize (x : Z) (this : t) : t := {|
  downloadInfo_ := downloadInfo_ this;
  status_ := status_ this;
  callbackInfo_ := callbackInfo_ this;
  percent_ := percent_ this;
  downloadedSize_ := downloadedSize_ this;
  totalSize_ := totalSize_ this;
  fileInitSize_ := fileInitSize_ this;
  filePtr_ := filePtr_ this;
  verifiedSize_ := x;
  verifiedPercent_ := verifiedPercent_ this;
  isNeedAutoPause_ := isNeedAutoPause_ this;
  isNeedCancel_ := isNeedCancel_ this;
  isPackageSizeVerified_ := isPackageSizeVerified_ this;
  isNeedStop_ := isNeedStop_ this;
  isStarted_ := isStarted_ this;
  isRequestFinished_ := isRequestFinished_ this;
  isDisableCallbackFlag_ := isDisableCallbackFlag_ this;
  downloadStartTime_ := downloadStartTime_ this;
  lastEffectiveTime_ := lastEffectiveTime_ this;
  prevCallbackTime_ := prevCallbackTime_ this |}.
Definition set_verifiedPercent (x : Z) (this : t) : t := {|
  downloadInfo_ := downloadInfo_ this;
  status_ := status_ this;
  callbackInfo_ := callbackInfo_ this;
  percent_ := percent_ this;
  downloadedSize_ := downloadedSize_ this;
  totalSize_ := totalSize_ this;
  fileInitSize_ := fileInitSize_ this;
  filePtr_ := filePtr_ this;
  verifiedSize_ := verifiedSize_ this;
  verifiedPercent_ := x;
  isNeedAutoPause_ := isNeedAutoPause_ this;
  isNeedCancel_ := isNeedCancel_ this;
  isPackageSizeVerified_ := isPackageSizeVerified_ this;
  isNeedStop_ := isNeedStop_ this;
  isStarted_ := isStarted_ this;
  isRequestFinished_ := isRequestFinished_ this;
  isDisableCallbackFlag_ := isDisableCallbackFlag_ this;
  downloadStartTime_ := downloadStartTime_ this;
  lastEffectiveTime_ := lastEffectiveTime_ this;
  prevCallbackTime_ := prevCallbackTime_ this |}.
Definition set_isNeedAutoPause (x : bool) (this : t) : t := {|
  downloadInfo_ := downloadInfo_ this;
  status_ := status_ this;
  callbackInfo_ := callbackInfo_ this;
  percent_ := percent_ this;
  downloadedSize_ := downloadedSize_ this;
  totalSize_ := totalSize_ this;
  fileInitSize_ := fileInitSize_ this;
  filePtr_ := filePtr_ this;
  verifiedSize_ := verifiedSize_ this;
  verifiedPercent_ := verifiedPercent_ this;
  isNeedAutoPause_ := x;
  isNeedCancel_ := isNeedCancel_ this;
  isPackageSizeVerified_ := isPackageSizeVerified_ this;
  isNeedStop_ := isNeedStop_ this;
  isStarted_ := isStarted_ this;
  isRequestFinished_ := isRequestFinished_ this;
  isDisableCallbackFlag_ := isDisableCallbackFlag_ this;
  downloadStartTime_ := downloadStartTime_ this;
  lastEffectiveTime_ := lastEffectiveTime_ this;
  prevCallbackTime_ := prevCallbackTime_ this |}.
Definition set_isNeedCancel (x : bool) (this : t) : t := {|
  downloadInfo_ := downloadInfo_ this;
  status_ := status_ this;
  callbackInfo_ := callbackInfo_ this;
  percent_ := percent_ this;
  downloadedSize_ := downloadedSize_ this;
  totalSize_ := totalSize_ this;
  fileInitSize_ := fileInitSize_ this;
  filePtr_ := filePtr_ this;
  verifiedSize_ := verifiedSize_ this;
  verifiedPercent_ := verifiedPercent_ this;
  isNeedAutoPause_ := isNeedAutoPause_ this;
  isNeedCancel_ := x;
  isPackageSizeVerified_ := isPackageSizeVerified_ this;
  isNeedStop_ := isNeedStop_ this;
  isStarted_ := isStarted_ this;
  isRequestFinished_ := isRequestFinished_ this;
  isDisableCallbackFlag_ := isDisableCallbackFlag_ this;
  downloadStartTime_ := downloadStartTime_ this;
  lastEffectiveTime_ := lastEffectiveTime_ this;
  prevCallbackTime_ := prevCallbackTime_ this |}.
Definition set_isPackageSizeVerified (x : bool) (this : t) : t := {|
  downloadInfo_ := downloadInfo_ this;
  status_ := status_ this;
  callbackInfo_ := callbackInfo_ this;
  percent_ := percent_ this;
  downloadedSize_ := downloadedSize_ this;
  totalSize_ := totalSize_ this;
  fileInitSize_ := fileInitSize_ this;
  filePtr_ := filePtr_ this;
  verifiedSize_ := verifiedSize_ this;
  verifiedPercent_ := verifiedPercent_ this;
  isNeedAutoPause_ := isNeedAutoPause_ this;
  isNeedCancel_ := isNeedCancel_ this;
  isPackageSizeVerified_ := x;
  isNeedStop_ := isNeedStop_ this;
  isStarted_ := isStarted_ this;
  isRequestFinished_ := isRequestFinished_ this;
  isDisableCallbackFlag_ := isDisableCallbackFlag_ this;
  downloadStartTime_ := downloadStartTime_ this;
  lastEffectiveTime_ := lastEffectiveTime_ this;
  prevCallbackTime_ := prevCallbackTime_ this |}.
Definition set_isNeedStop (x : bool) (this : t) : t := {|
  downloadInfo_ := downloadInfo_ this;
  status_ := status_ this;
  callbackInfo_ := callbackInfo_ this;
  percent_ := percent_ this;
  downloadedSize_ := downloadedSize_ this;
  totalSize_ := totalSize_ this;
  fileInitSize_ := fileInitSize_ this;
  filePtr_ := filePtr_ this;
  verifiedSize_ := verifiedSize_ this;
  verifiedPercent_ := verifiedPercent_ this;
  isNeedAutoPause_ := isNeedAutoPause_ this;
  isNeedCancel_ := isNeedCancel_ this;
  isPackageSizeVerified_ := isPackageSizeVerified_ this;
  isNeedStop_ := x;
  isStarted_ := isStarted_ this;
  isRequestFinished_ := isRequestFinished_ this;
  isDisableCallbackFlag_ := isDisableCallbackFlag_ this;
  downloadStartTime_ := downloadStartTime_ this;
  lastEffectiveTime_ := lastEffectiveTime_ this;
  prevCallbackTime_ := prevCallbackTime_ this |}.
Definition set_isStarted (x : bool) (this : t) : t := {|
  downloadInfo_ := downloadInfo_ this;
  status_ := status_ this;
  callbackInfo_ := callbackInfo_ this;
  percent_ := percent_ this;
  downloadedSize_ := downloadedSize_ this;
  totalSize_ := totalSize_ this;
  fileInitSize_ := fileInitSize_ this;
  filePtr_ := filePtr_ this;
  verifiedSize_ := verifiedSize_ this;
  verifiedPercent_ := verifiedPercent_ this;
  isNeedAutoPause_ := isNeedAutoPause_ this;
  isNeedCancel_ := isNeedCancel_ this;
  isPackageSizeVerified_ := isPackageSizeVerified_ this;
  isNeedStop_ := isNeedStop_ this;
  isStarted_ := x;
  isRequestFinished_ := isRequestFinished_ this;
  isDisableCallbackFlag_ := isDisableCallbackFlag_ this;
  downloadStartTime_ := downloadStartTime_ this;
  lastEffectiveTime_ := lastEffectiveTime_ this;
  prevCallbackTime_ := prevCallbackTime_ this |}.
Definition set_isRequestFinished (x : bool) (this : t) : t := {|
  downloadInfo_ := downloadInfo_ this;
  status_ := status_ this;
  callbackInfo_ := callbackInfo_ this;
  percent_ := percent_ this;
  downloadedSize_ := downloadedSize_ this;
  totalSize_ := totalSize_ this;
  fileInitSize_ := fileInitSize_ this;
  filePtr_ := filePtr_ this;
  verifiedSize_ := verifiedSize_ this;
  verifiedPercent_ := verifiedPercent_ this;
  isNeedAutoPause_ := isNeedAutoPause_ this;
  isNeedCancel_ := isNeedCancel_ this;
  isPackageSizeVerified_ := isPackageSizeVerified_ this;
  isNeedStop_ := isNeedStop_ this;
  isStarted_ := isStarted_ this;
  isRequestFinished_ := x;
  isDisableCallbackFlag_ := isDisableCallbackFlag_ this;
  downloadStartTime_ := downloadStartTime_ this;
  lastEffectiveTime_ := lastEffectiveTime_ this;
  prevCallbackTime_ := prevCallbackTime_ this |}.
Definition set_isDisableCallbackFlag (x : bool) (this : t) : t := {|
  downloadInfo_ := downloadInfo_ this;
  status_ := status_ this;
  callbackInfo_ := callbackInfo_ this;
  percent_ := percent_ this;
  downloadedSize_ := downloadedSize_ this;
  totalSize_ := totalSize_ this;
  fileInitSize_ := fileInitSize_ this;
  filePtr_ := filePtr_ this;
  verifiedSize_ := verifiedSize_ this;
  verifiedPercent_ := verifiedPercent_ this;
  isNeedAutoPause_ := isNeedAutoPause_ this;
  isNeedCancel_ := isNeedCancel_ this;
  isPackageSizeVerified_ := isPackageSizeVerified_ this;
  isNeedStop_ := isNeedStop_ this;
  isStarted_ := isStarted_ this;
  isRequestFinished_ := isRequestFinished_ this;
  isDisableCallbackFlag_ := x;
  downloadStartTime_ := downloadStartTime_ this;
  lastEffectiveTime_ := lastEffectiveTime_ this;
  prevCallbackTime_ := prevCallbackTime_ this |}.
Definition set_downloadStartTime (x : Z) (this : t) : t := {|
  downloadInfo_ := downloadInfo_ this;
  status_ := status_ this;
  callbackInfo_ := callbackInfo_ this;
  percent_ := percent_ this;
  downloadedSize_ := downloadedSize_ this;
  totalSize_ := totalSize_ this;
  fileInitSize_ := fileInitSize_ this;
  filePtr_ := filePtr_ this;
  verifiedSize_ := verifiedSize_ this;
  verifiedPercent_ := verifiedPercent_ this;
  isNeedAutoPause_ := isNeedAutoPause_ this;
  isNeedCancel_ := isNeedCancel_ this;
  isPackageSizeVerified_ := isPackageSizeVerified_ this;
  isNeedStop_ := isNeedStop_ this;
  isStarted_ := isStarted_ this;
  isRequestFinished_ := isRequestFinished_ this;
  isDisableCallbackFlag_ := isDisableCallbackFlag_ this;
  downloadStartTime_ := x;
  lastEffectiveTime_ := lastEffectiveTime_ this;
  prevCallbackTime_ := prevCallbackTime_ this |}.
Definition set_prevCallbackTime (x : Z) (this : t) : t := {|
  downloadInfo_ := downloadInfo_ this;
  status_ := status_ this;
  callbackInfo_ := callbackInfo_ this;
  percent_ := percent_ this;
  downloadedSize_ := downloadedSize_ this;
  totalSize_ := totalSize_ this;
  fileInitSize_ := fileInitSize_ this;
  filePtr_ := filePtr_ this;
  verifiedSize_ := verifiedSize_ this;
  verifiedPercent_ := verifiedPercent_ this;
  isNeedAutoPause_ := isNeedAutoPause_ this;
  isNeedCancel_ := isNeedCancel_ this;
  isPackageSizeVerified_ := isPackageSizeVerified_ this;
  isNeedStop_ := isNeedStop_ this;
  isStarted_ := isStarted_ this;
  isRequestFinished_ := isRequestFinished_ this;
  isDisableCallbackFlag_ := isDisableCallbackFlag_ this;
  downloadStartTime_ := downloadStartTime_ this;
  lastEffectiveTime_ := lastEffectiveTime_ this;
  prevCallbackTime_ := x |}.

Definition reset_retries (i : DownloadCallbackInfo.t) : DownloadCallbackInfo.t := {|
  DownloadCallbackInfo.downloadId := DownloadCallbackInfo.downloadId i;
  DownloadCallbackInfo.downloadedSize := DownloadCallbackInfo.downloadedSize i;
  DownloadCallbackInfo.startTime := DownloadCallbackInfo.startTime i;
  DownloadCallbackInfo.endTime := DownloadCallbackInfo.endTime i;
  DownloadCallbackInfo.effectiveTime := DownloadCallbackInfo.effectiveTime i;
  DownloadCallbackInfo.status := DownloadCallbackInfo.status i;
  DownloadCallbackInfo.endReason := DownloadCallbackInfo.endReason i;
  DownloadCallbackInfo.resetRetryTimes := true;
  DownloadCallbackInfo.downloadErrorInfo := DownloadCallbackInfo.downloadErrorInfo i;
  DownloadCallbackInfo.verifiedSize := DownloadCallbackInfo.verifiedSize i |}.
Definition set_effectiveTime (x : Z) (i : DownloadCallbackInfo.t) : DownloadCallbackInfo.t := {|
  DownloadCallbackInfo.downloadId := DownloadCallbackInfo.downloadId i;
  DownloadCallbackInfo.downloadedSize := DownloadCallbackInfo.downloadedSize i;
  DownloadCallbackInfo.startTime := DownloadCallbackInfo.startTime i;
  DownloadCallbackInfo.endTime := DownloadCallbackInfo.endTime i;
  DownloadCallbackInfo.effectiveTime := x;
  DownloadCallbackInfo.status := DownloadCallbackInfo.status i;
  DownloadCallbackInfo.endReason := DownloadCallbackInfo.endReason i;
  DownloadCallbackInfo.resetRetryTimes := DownloadCallbackInfo.resetRetryTimes i;
  DownloadCallbackInfo.downloadErrorInfo := DownloadCallbackInfo.downloadErrorInfo i;
  DownloadCallbackInfo.verifiedSize := DownloadCallbackInfo.verifiedSize i |}.

(*@ task/src/download_thread.cpp DownloadThread::CalculatedRollBackSize *)
Definition CalculatedRollBackSize (fileDownloadSize : Z) : Z :=
  if fileDownloadSize <=? 0 then 0
  else if fileDownloadSize <=? MIN_FILE_DOWNLOAD_SIZE then fileDownloadSize else MIN_FILE_DOWNLOAD_SIZE.

Section ops.
Context {E C : Type} `{Platform E, ThreadKits E} (onDownloadCallback_ : option (DownloadCallbackInfo.t → ST (C * E) unit)).
#[local] Notation Thread := (ST (t * (C * E))).

(** [FileUtils::GetFileSize] *)
(*@ core/ability/utils/src/file_utils.cpp FileUtils::GetFileSize *)
Definition GetFileSize (e : E) (fileName : string) : Z :=
  match file_size e fileName with None => 0 | Some n => to_int64 n end.

(*@ task/src/download_thread.cpp DownloadThread::DownloadThread *)
Definition new (downloadInfo : DownloadInfo.t) (e : E) : t :=
  let fileRealSize := GetFileSize e (DownloadInfo.path downloadInfo) in
  let downloadedSize := Z.max (fileRealSize - CalculatedRollBackSize fileRealSize) 0 in
  {| downloadInfo_ := DownloadInfo.set_downloadedSize downloadedSize downloadInfo;
     status_ := DownloadInfo.status downloadInfo;
     callbackInfo_ := {|
       DownloadCallbackInfo.downloadId := "";
       DownloadCallbackInfo.downloadedSize := downloadedSize;
       DownloadCallbackInfo.startTime := DownloadInfo.startTime downloadInfo;
       DownloadCallbackInfo.endTime := 0;
       DownloadCallbackInfo.effectiveTime := 0;
       DownloadCallbackInfo.status := DownloadStatus.DOWNLOADING;
       DownloadCallbackInfo.endReason := DownloadEndReason.INIT;
       DownloadCallbackInfo.resetRetryTimes := false;
       DownloadCallbackInfo.downloadErrorInfo := DownloadErrorInfo.default;
       DownloadCallbackInfo.verifiedSize := DownloadInfo.verifiedSize downloadInfo |};
     percent_ := 0;
     downloadedSize_ := downloadedSize;
     totalSize_ := DownloadInfo.packageSize downloadInfo;
     fileInitSize_ := fileRealSize;
     filePtr_ := false;
     verifiedSize_ := DownloadInfo.verifiedSize downloadInfo;
     verifiedPercent_ := 0;
     isNeedAutoPause_ := false; isNeedCancel_ := false; isPackageSizeVerified_ := false; isNeedStop_ := false;
     isStarted_ := false; isRequestFinished_ := false; isDisableCallbackFlag_ := false;
     downloadStartTime_ := 0;
     lastEffectiveTime_ := DownloadInfo.effectiveTime downloadInfo;
     prevCallbackTime_ := if 0 <? DownloadInfo.reportInterval downloadInfo then GetTimestampByMilliseconds e else 0 |}.

(*@ task/src/download_thread.cpp DownloadThread::BuildDownloadErrorInfo *)
Definition BuildDownloadErrorInfo (errorInfo : string) (headers : list string) (curlErrorCode httpErrorCode : Z) :
    DownloadErrorInfo.t := {|
  DownloadErrorInfo.curlErrorCode := curlErrorCode; DownloadErrorInfo.httpErrorCode := httpErrorCode;
  DownloadErrorInfo.header := headers; DownloadErrorInfo.errorInfo := errorInfo |}.
(** The default argument of [CallbackDownload]. *)
(*@ task/include/download_thread.h CallbackDownload *)
Definition no_error : DownloadErrorInfo.t := BuildDownloadErrorInfo "" [] (to_int32 CURLE_OK) HttpRespondCode.CODE_SUCCESS.

(** The structure [CallbackDownload] fills in. *)
(*@ task/src/download_thread.cpp DownloadThread::CallbackDownload *)
Definition report_info (now status endReason : Z) (downloadErrorInfo : DownloadErrorInfo.t) (this : t) :
    DownloadCallbackInfo.t := {|
  DownloadCallbackInfo.downloadId := DownloadInfo.downloadId (downloadInfo_ this);
  DownloadCallbackInfo.downloadedSize :=
    if downloadedSize_ this <? fileInitSize_ this then fileInitSize_ this
    else if status =? DownloadStatus.FAIL then totalSize_ this else downloadedSize_ this;
  DownloadCallbackInfo.startTime :=
    if DownloadCallbackInfo.startTime (callbackInfo_ this) =? 0 then now
    else DownloadCallbackInfo.startTime (callbackInfo_ this);
  DownloadCallbackInfo.endTime :=
    if (status =? DownloadStatus.SUCCESS) || (status =? DownloadStatus.FAIL) then now
    else DownloadCallbackInfo.endTime (callbackInfo_ this);
  DownloadCallbackInfo.effectiveTime := DownloadCallbackInfo.effectiveTime (callbackInfo_ this);
  DownloadCallbackInfo.status := status;
  DownloadCallbackInfo.endReason := endReason;
  DownloadCallbackInfo.resetRetryTimes := DownloadCallbackInfo.resetRetryTimes (callbackInfo_ this);
  DownloadCallbackInfo.downloadErrorInfo := downloadErrorInfo;
  DownloadCallbackInfo.verifiedSize :=
    if status =? DownloadStatus.FAIL then totalSize_ this else verifiedSize_ this |}.
(*@ task/src/download_thread.cpp DownloadThread::CallbackDownload *)
Definition CallbackDownload (status endReason : Z) (downloadErrorInfo : DownloadErrorInfo.t) : Thread unit :=
  match onDownloadCallback_ with
  | None => ret tt
  | Some _ =>
      let* now := on_world (gets GetTimestampByMilliseconds) in
      let* info := this_ downloadInfo_ in
      (when 0 <? DownloadInfo.reportInterval info do set_this (set_prevCallbackTime now)) ;;;
      let* report := this_ (report_info now status endReason downloadErrorInfo) in
      set_this (set_callbackInfo report) ;;;
      call onDownloadCallback_ report
  end.

(*@ task/src/download_thread.cpp DownloadThread::NotifyCancel *)
Definition NotifyCancel : Thread bool :=
  let* cancel := this_ isNeedCancel_ in
  (when cancel do set_this (set_isRequestFinished true)) ;;; ret cancel.

(** The wait for the end of the request, of at most 50 milliseconds, is left out. *)
(*@ task/src/download_thread.cpp DownloadThread::Stop *)
Definition Stop : Thread DownloadResult :=
  set_this (set_isNeedCancel true) ;;; set_this (set_isNeedStop true) ;;; ret RESULT_OK.

(*@ task/src/download_thread.cpp DownloadThread::NetChangeToPause *)
Definition NetChangeToPause : Thread DownloadResult :=
  let* status := this_ status_ in
  if status =? DownloadStatus.INIT then
    CallbackDownload DownloadStatus.AUTO_PAUSE DownloadEndReason.NET_CHANGE no_error ;;; ret RESULT_OK
  else if negb (status =? DownloadStatus.DOWNLOADING) then ret RESULT_FAIL
  else
    set_this (set_isNeedAutoPause true) ;;; set_this (set_isNeedStop true) ;;; ret RESULT_OK.

(*@ task/src/download_thread.cpp DownloadThread::SetDisableCallbackFlag *)
Definition SetDisableCallbackFlag (flag : bool) : Thread unit := set_this (set_isDisableCallbackFlag flag).

(** ["realPackageSize=..;filelistPackageSize=.."] *)
(*@ task/include/download_thread.h DownloadSizeErrorInfo *)
Definition size_error_text (requestSize filelistPackageSize : Z) : string :=
  "realPackageSize=" +:+ to_string requestSize +:+ ";" +:+ "filelistPackageSize=" +:+ to_string filelistPackageSize.
(*@ task/src/download_thread.cpp DownloadThread::HandleSizeError *)
Definition HandleSizeError (requestSize endReason : Z) : Thread unit :=
  let* info := this_ downloadInfo_ in
  let* headers := on_world (gets GetHeadersBuffer) in
  CallbackDownload DownloadStatus.FAIL endReason
    (BuildDownloadErrorInfo (size_error_text requestSize (DownloadInfo.packageSize info)) headers
       (to_int32 CURLE_OK) HttpRespondCode.CODE_SUCCESS).

(** The look-ups in the headers never throw ([header_lookup_total]). *)
(*@ task/src/download_thread.cpp DownloadThread::GetResponseSize *)
Definition GetResponseSize (headers : list string) : Z :=
  let contentLengthVulue := default "" (ResponseHeaderParseUtils.ParseKeyFromHeader headers "Content-Length") in
  let (r, contentLengthNum) := StringUtils.DecStringToNumber StringUtils.int64_t contentLengthVulue 0 in
  match r with StringUtils.SUCCESS => contentLengthNum | _ => 0 end.
(*@ task/src/download_thread.cpp DownloadThread::IsContentLengtAbnormal *)
Definition IsContentLengtAbnormal (headers : list string) (dlTotal : Z) (this : t) : bool :=
  if default false (ResponseHeaderParseUtils.FindKeyFromHeader headers "Transfer-Encoding") then true
  else
    let contentDownloadSize := to_int64 (GetResponseSize headers + downloadedSize_ this) in
    if negb (contentDownloadSize =? dlTotal) then false
    else if negb (contentDownloadSize =? DownloadInfo.packageSize (downloadInfo_ this)) then false
    else true.
(** The result is [true] for a size that is right. *)
(*@ task/src/download_thread.cpp DownloadThread::IsPackageSizeAbnormal *)
Definition IsPackageSizeAbnormal (dlTotal dlNow : Z) : Thread bool :=
  let* verified := this_ isPackageSizeVerified_ in
  if verified || (dlTotal =? dlNow) then ret true
  else
    set_this (set_isPackageSizeVerified true) ;;;
    let* info := this_ downloadInfo_ in
    if DownloadInfo.packageSize info =? 0 then ret false
    else
      let* headers := on_world (gets GetHeadersBuffer) in
      let* ok := this_ (IsContentLengtAbnormal headers dlTotal) in
      if ok : bool then ret true
      else ret (negb (negb (DownloadInfo.packageSize info =? dlTotal))).

(*@ task/src/download_thread.cpp DownloadThread::CallbackProgress *)
Definition CallbackProgress (dlTotal dlNow : Z) : Thread unit :=
  set_this (λ this,
    if negb (DownloadCallbackInfo.resetRetryTimes (callbackInfo_ this)) && negb (fileInitSize_ this =? 0) &&
       (fileInitSize_ this <? dlNow)
    then set_callbackInfo (reset_retries (callbackInfo_ this)) this else this) ;;;
  set_this (set_downloadedSize dlNow) ;;;
  let* disabled := this_ isDisableCallbackFlag_ in
  if disabled : bool then ret tt
  else
    let* info := this_ downloadInfo_ in
    let outputProgress :=
      if DownloadInfo.packageSize info =? 0 then 0
      else to_int32 (Z.quot (to_int64 (dlNow * DOWNLOAD_MAX_PERCENT)) (DownloadInfo.packageSize info)) in
    let* percent := this_ percent_ in
    let* now := on_world (gets GetTimestampByMilliseconds) in
    if (percent <? outputProgress) && (outputProgress <=? DOWNLOAD_MAX_PERCENT) then
      set_this (set_percent outputProgress) ;;;
      set_this (set_status DownloadStatus.DOWNLOADING) ;;;
      set_this (λ this, set_callbackInfo (set_effectiveTime
        (to_int64 (now - downloadStartTime_ this + lastEffectiveTime_ this)) (callbackInfo_ this)) this) ;;;
      CallbackDownload DownloadStatus.DOWNLOADING DownloadEndReason.INIT no_error
    else if DownloadInfo.reportInterval info <=? 0 then ret tt
    else
      let* prevCallbackTime := this_ prevCallbackTime_ in
      when DownloadInfo.reportInterval info <? to_int64 (now - prevCallbackTime) do
        CallbackDownload DownloadStatus.DOWNLOADING DownloadEndReason.INIT no_error.

(*@ task/src/download_thread.cpp DownloadThread::CallbackVerifyProgress *)
Definition CallbackVerifyProgress (fileSize verifiedSize : Z) : Thread unit :=
  let* cancel := this_ isNeedCancel_ in
  if cancel : bool then ret tt
  else if (fileSize <=? 0) || (fileSize <? verifiedSize) then ret tt
  else
    let* verified := this_ verifiedSize_ in
    if verifiedSize <=? verified then ret tt
    else
      set_this (set_verifiedSize verifiedSize) ;;;
      if fileSize =? 0 then ret tt
      else
        let verifiedPercent := to_int32 (Z.quot (to_int64 (verifiedSize * DOWNLOAD_MAX_PERCENT)) fileSize) in
        let* percent := this_ verifiedPercent_ in
        when (percent <? verifiedPercent) && (Z.rem verifiedPercent 10 =? 0) do (
          set_this (set_status DownloadStatus.VERIFYING) ;;;
          set_this (set_verifiedPercent verifiedPercent) ;;;
          CallbackDownload DownloadStatus.VERIFYING DownloadEndReason.INIT no_error).

(** ["sha256ErrCode=..;sha256Result=..;DownloadFileSize=.."] *)
(*@ task/include/download_thread.h:49-56 Sha256FailedReasonInfo::ToString *)
Definition digest_error_text (errorCode : Z) (sha256Result : string) (fileSize : Z) : string :=
  "sha256ErrCode=" +:+ to_string errorCode +:+ ";" +:+ "sha256Result=" +:+ sha256Result +:+ ";" +:+
  "DownloadFileSize=" +:+ to_string fileSize.

(** The progress callback of a request that started at [base] bytes; one of a
    verification; and the requests of the service that arrive meanwhile. *)
(*@ core/ability/net/src/download_request.cpp DownloadRequest::CallbackProgress *)
Definition on_progress (base dlTotal dlNow : Z) : Thread unit :=
  if (dlTotal =? 0) && (dlNow =? 0) then ret tt
  else
    let* stop := this_ isNeedStop_ in
    if stop : bool then ret tt
    else
      let dlTotal := to_int64 (dlTotal + base) in
      let dlNow := to_int64 (dlNow + base) in
      let* ok := IsPackageSizeAbnormal dlTotal dlNow in
      if negb ok then
        set_this (set_isNeedCancel true) ;;;
        set_this (set_isNeedStop true) ;;;
        HandleSizeError dlTotal DownloadEndReason.SIZE_ERROR
      else CallbackProgress dlTotal dlNow.
Definition on_request (ev : TransferEvent) : Thread unit :=
  match ev with
  | StopAsked => Stop ;;; ret tt
  | NetLost => NetChangeToPause ;;; ret tt
  | CallbacksDisabled flag => SetDisableCallbackFlag flag
  | Progressed _ _ | Verified _ => ret tt
  end.
(*@ task/src/download_thread.cpp DownloadThread::DoDownload *)
Definition on_transfer (base : Z) (ev : TransferEvent) : Thread unit :=
  match ev with Progressed dlTotal dlNow => on_progress base dlTotal dlNow | _ => on_request ev end.
(*@ task/src/download_thread.cpp DownloadThread::DoVerify *)
Definition on_verification (combined : bool) (fileRealSize : Z) (ev : TransferEvent) : Thread unit :=
  match ev with
  | Verified verifiedSize => when combined do CallbackVerifyProgress fileRealSize verifiedSize
  | _ => on_request ev
  end.

(*@ task/src/download_thread.cpp DownloadThread::DoVerify *)
Definition DoVerify : Thread unit :=
  set_this (set_status DownloadStatus.VERIFYING) ;;;
  set_this (set_verifiedPercent 0) ;;;
  CallbackDownload DownloadStatus.VERIFYING DownloadEndReason.INIT no_error ;;;
  let* info := this_ downloadInfo_ in
  let* fileRealSize := on_world (gets (λ e, GetFileSize e (DownloadInfo.path info))) in
  let* (events, code, sha256Result) := on_world (file_digest (DownloadInfo.path info) (DownloadInfo.verifyInfo info)
                                          (DownloadInfo.isCombineVerifyProgress info)) in
  for_each events (on_verification (DownloadInfo.isCombineVerifyProgress info) fileRealSize) ;;;
  let* cancelled := NotifyCancel in
  if cancelled : bool then ret tt
  else
    let* headers := on_world (gets GetHeadersBuffer) in
    if code =? SHA256_SUCCESS then
      set_this (set_verifiedSize fileRealSize) ;;;
      CallbackDownload DownloadStatus.SUCCESS DownloadEndReason.SUCCESS
        (BuildDownloadErrorInfo "" headers (to_int32 CURLE_OK) HttpRespondCode.CODE_SUCCESS)
    else
      let* fileSize := on_world (gets (λ e, GetFileSize e (DownloadInfo.path info))) in
      CallbackDownload DownloadStatus.FAIL DownloadEndReason.VERIFY_FAIL
        (BuildDownloadErrorInfo (digest_error_text code sha256Result fileSize) headers
           (to_int32 CURLE_OK) HttpRespondCode.CODE_SUCCESS).

(*@ task/src/download_thread.cpp DownloadThread::HandleNetworkCheck *)
Definition HandleNetworkCheck (curlRet responseCode : Z) : Thread unit :=
  let* headers := on_world (gets GetHeadersBuffer) in
  let dlErrorInfo := BuildDownloadErrorInfo "" headers curlRet responseCode in
  let* available := on_world (gets thread_net_available) in
  if negb available then CallbackDownload DownloadStatus.AUTO_PAUSE DownloadEndReason.NET_NOT_AVAILIABLE dlErrorInfo
  else
    let* pause := this_ isNeedAutoPause_ in
    if pause : bool then
      set_this (set_isNeedAutoPause false) ;;;
      CallbackDownload DownloadStatus.AUTO_PAUSE DownloadEndReason.NET_CHANGE dlErrorInfo
    else CallbackDownload DownloadStatus.AUTO_PAUSE DownloadEndReason.CURL_ERROR dlErrorInfo.

(** ["errno=..;errnoMsg=..;"] *)
(*@ task/src/download_thread.cpp:398-401 DownloadThread::HandleFail *)
Definition errno_text (e : E) : string :=
  "errno=" +:+ to_string (errno e) +:+ ";" +:+ "errnoMsg=" +:+ strerror e +:+ ";".
(*@ task/src/download_thread.cpp DownloadThread::HandleFail *)
Definition HandleFail (curlRet responseCode : Z) : Thread unit :=
  let* headers := on_world (gets GetHeadersBuffer) in
  if (curlRet =? CURLE_WRITE_ERROR) || (curlRet =? CURLE_READ_ERROR) then
    let* errorInfo := on_world (gets errno_text) in
    CallbackDownload DownloadStatus.FAIL DownloadEndReason.IO_EXCEPTION
      (BuildDownloadErrorInfo errorInfo headers curlRet responseCode)
  else if (responseCode =? HttpRespondCode.CODE_503) || (responseCode =? HttpRespondCode.CODE_504) then
    CallbackDownload DownloadStatus.FAIL DownloadEndReason.SERVER_TIMEOUT
      (BuildDownloadErrorInfo "" headers curlRet responseCode)
  else if (responseCode =? HttpRespondCode.CODE_301) || (responseCode =? HttpRespondCode.CODE_302) ||
          (responseCode =? HttpRespondCode.CODE_303) || (responseCode =? HttpRespondCode.CODE_307) then
    CallbackDownload DownloadStatus.FAIL DownloadEndReason.REDIRECT
      (BuildDownloadErrorInfo "" headers curlRet responseCode)
  else HandleNetworkCheck curlRet responseCode.

(*@ task/src/download_thread.cpp DownloadThread::HandleDownloadFinish *)
Definition HandleDownloadFinish (curlRet responseCode : Z) : Thread unit :=
  let* now := on_world (gets GetTimestampByMilliseconds) in
  set_this (λ this, set_callbackInfo (set_effectiveTime
    (to_int64 (now - downloadStartTime_ this + lastEffectiveTime_ this)) (callbackInfo_ this)) this) ;;;
  let* pause := this_ isNeedAutoPause_ in
  if pause : bool then
    set_this (set_isNeedAutoPause false) ;;;
    CallbackDownload DownloadStatus.AUTO_PAUSE DownloadEndReason.NET_CHANGE no_error
  else
    let* downloadedSize := this_ downloadedSize_ in
    let* info := this_ downloadInfo_ in
    if (curlRet =? CURLE_OK) || (downloadedSize =? DownloadInfo.packageSize info) then
      if negb (downloadedSize =? DownloadInfo.packageSize info) then
        HandleSizeError downloadedSize DownloadEndReason.FINISH_SIZE_ERROR
      else DoVerify
    else HandleFail curlRet responseCode.

(** The error message, if the file cannot be opened at the resume point. *)
(*@ task/src/download_thread.cpp DownloadThread::InitPackageParam *)
Definition InitPackageParam (fileName : string) : Thread (option string) :=
  let* made := on_world (CreateMultiDirWithPermission (parent_dir fileName)) in
  if negb made then ret (Some "CreateMultiDirWithPermission fail")
  else if bool_decide (is_Some (find fileName "/." 0)) || bool_decide (is_Some (find fileName "./" 0)) then
    ret (Some (fileName +:+ "is invalid"))
  else
    let* there := on_world (gets (λ e, FileUtils.IsFileExist e fileName)) in
    let* opened := on_world (CreateFileSharedPtr fileName there) in
    set_this (set_filePtr opened) ;;;
    if negb opened then
      let* e := on_world (gets (λ e, e)) in
      ret (Some ("errno=" +:+ to_string (errno e) +:+ ";" +:+ "errnoMsg=" +:+ strerror e))
    else
      let* downloadedSize := this_ downloadedSize_ in
      let* r := on_world (fseek downloadedSize) in
      if negb (r =? 0) then
        set_this (set_filePtr false) ;;;
        let* e := on_world (gets (λ e, e)) in
        ret (Some (errno_text e +:+ "fseekRet=" +:+ to_string r))
      else ret None.

(*@ task/src/download_thread.cpp DownloadThread::DoDownload *)
Definition DoDownload : Thread unit :=
  let* now := on_world (gets GetTimestampByMilliseconds) in
  set_this (set_downloadStartTime now) ;;;
  set_this (set_isRequestFinished false) ;;;
  let* info := this_ downloadInfo_ in
  let* base := this_ downloadedSize_ in
  let* (events, result, status) := on_world (transfer info base) in
  for_each events (on_transfer base) ;;;
  set_this (set_filePtr false) ;;;
  let* cancelled := NotifyCancel in
  if cancelled : bool then ret tt
  else
    HandleDownloadFinish result status ;;;
    set_this (set_isRequestFinished true).

(*@ task/src/download_thread.cpp DownloadThread::CheckBeforeStartDownload *)
Definition CheckBeforeStartDownload : Thread bool :=
  let* info := this_ downloadInfo_ in
  if DownloadInfo.IsCompleted info then
    CallbackDownload (DownloadInfo.status info) DownloadEndReason.INIT no_error ;;; ret false
  else if DownloadInfo.IsNeedVerify info then DoVerify ;;; ret false
  else ret true.

(*@ task/src/download_thread.cpp DownloadThread::DownloadVersion *)
Definition DownloadVersion : Thread unit :=
  let* ok := CheckBeforeStartDownload in
  if negb ok then ret tt
  else
    set_this (set_status DownloadStatus.DOWNLOADING) ;;;
    set_this (set_percent 0) ;;;
    CallbackDownload DownloadStatus.DOWNLOADING DownloadEndReason.INIT no_error ;;;
    let* info := this_ downloadInfo_ in
    let* error := InitPackageParam (DownloadInfo.path info) in
    match error with
    | Some errorMsg =>
        CallbackDownload DownloadStatus.FAIL DownloadEndReason.INIT_PACKAGE_FAIL
          (BuildDownloadErrorInfo errorMsg [] (to_int32 CURLE_OK) HttpRespondCode.CODE_SUCCESS)
    | None => DoDownload
    end.

(** The task [Start] submits: the thread's own mutex is free when it begins. *)
(*@ task/src/download_thread.cpp DownloadThread::Start *)
Definition Start : Thread unit := set_this (set_isStarted true) ;;; DownloadVersion.
End ops.
End DownloadThread.

(** ** Looking up response headers *)
Section headers.
Import ResponseHeaderParseUtils.

Lemma SafeSubString_int32_total s b n d :
  is_Some (StringUtils.SafeSubString s b (to_int32 n) d).
Proof.
  pose proof (to_int32_range n) as Hn. unfold StringUtils.SafeSubString. destruct (len s =? 0)%nat; [by eexists|].
  destruct (b <? 0) eqn:Hb; [by eexists|]. destruct (_ <? to_uint64 _) eqn:He; [by eexists|].
  destruct (to_int32 n <? b) eqn:Hbe; [by eexists|]. cbn [orb]. breflect.
  unfold substr. rewrite (proj2 (Nat.ltb_ge _ _)); [by eexists|].
  revert Hn He. generalize (to_int32 n) Hbe. intros m Hm. unfold_widths. intros ??. rewrite Z.mod_small in * by lia. lia.
Qed.

(** No header makes a look-up throw. *)
Lemma header_lookup_total headers key :
  is_Some (ParseKeyFromHeader headers key) ∧ is_Some (FindKeyFromHeader headers key).
Proof.
  split; induction headers as [|h hs IH]; cbn; try by eexists.
  - destruct (colon_inside h) as [p|]; [|exact IH].
    destruct (SafeSubString_int32_total h 0 (Z.of_nat p) "") as [k Hk]. unfold header_key. rewrite Hk. cbn.
    destruct (len k =? 0)%nat; [exact IH|]. destruct (String.eqb _ _); [|exact IH].
    destruct (SafeSubString_int32_total h (to_int32 (Z.of_nat p + 1)) (Z.of_nat (len h) - Z.of_nat p - 1) "") as [v Hv].
    unfold header_value. rewrite Hv. by eexists.
  - assert (∃ k, match find_char h ":" 0 with
                 | Some p => header_key h p | None => StringUtils.SafeSubString h 0 (-1) "" end = Some k) as [k ->].
    { destruct (find_char h ":" 0) as [p|]; [apply SafeSubString_int32_total|].
      change (-1) with (to_int32 (-1)). apply SafeSubString_int32_total. }
    cbn. destruct (len k =? 0)%nat; [exact IH|]. destruct (String.eqb _ _); [by eexists|exact IH].
Qed.
End headers.

(** ** The size check *)
Section size_check.
Context {E C : Type} `{Platform E, ThreadKits E}.
Import DownloadThread.

(** The first progress report that does not end the transfer is accepted
    exactly when the size of the package is known and either the response is
    chunked or its size is the expected one; later reports are not checked.
    The value of the Content-Length header, which the code also compares, makes no
    difference. *)
Theorem package_size_check dlTotal dlNow (s : t * (C * E)) :
  let this := s.1 in
  let size := DownloadInfo.packageSize (downloadInfo_ this) in
  let chunked := default false
    (ResponseHeaderParseUtils.FindKeyFromHeader (GetHeadersBuffer s.2.2) "Transfer-Encoding") in
  let checked := negb (isPackageSizeVerified_ this || (dlTotal =? dlNow)) in
  wp (IsPackageSizeAbnormal dlTotal dlNow) s (λ ok s',
    ok = (if checked then negb (size =? 0) && (chunked || (size =? dlTotal)) else true) ∧
    s' = if checked then (set_isPackageSizeVerified true this, s.2) else s).
Proof.
  destruct s as [this [c e]]. cbv zeta. cbn [fst snd]. unfold IsPackageSizeAbnormal. apply wp_bind, wp_this.
  destruct (_ || _); [by apply wp_ret|]. cbn [negb]. apply wp_bind, wp_set_this. cbv beta. apply wp_bind, wp_this.
  cbn [fst downloadInfo_ set_isPackageSizeVerified].
  destruct (Z.eqb_spec (DownloadInfo.packageSize (downloadInfo_ this)) 0); [by apply wp_ret|].
  apply wp_bind, wp_on_world, wp_gets. cbv beta. apply wp_bind, wp_this. cbn [fst snd]. unfold IsContentLengtAbnormal.
  destruct (default false _); [by apply wp_ret|]. cbn [negb andb orb].
  cbn [downloadedSize_ downloadInfo_ set_isPackageSizeVerified].
  generalize (to_int64 (GetResponseSize (GetHeadersBuffer e) + downloadedSize_ this)). intros m. rewrite negb_involutive.
  destruct (Z.eqb_spec m dlTotal) as [->|]; cbn [negb]; [|by apply wp_ret].
  destruct (Z.eqb_spec dlTotal (DownloadInfo.packageSize (downloadInfo_ this))) as [->|]; cbn [negb]; apply wp_ret; [|done].
  by rewrite Z.eqb_refl.
Qed.
End size_check.

(** ** How a thread ends

    The owner of the thread keeps the reports it received; [early] are those of before it started. *)
Section ending.
Context {E : Type} `{Platform E, ThreadKits E}.
Context (early : list DownloadCallbackInfo.t).
Import DownloadThread.
#[local] Notation State := (t * (list DownloadCallbackInfo.t * E))%type.
#[local] Notation cb := (Some (logged (B := DownloadCallbackInfo.t) (W := E))).
Implicit Types (s : State) (i : DownloadCallbackInfo.t).

(** A report that says that the thread has ended. *)
Definition is_end (st : Z) : bool :=
  (st =? DownloadStatus.SUCCESS) || (st =? DownloadStatus.FAIL) || (st =? DownloadStatus.AUTO_PAUSE).
Definition no_end (l : list DownloadCallbackInfo.t) : Prop :=
  ∃ later, l = early ++ later ∧ Forall (λ i, is_end (DownloadCallbackInfo.status i) = false) later.
(** One report of an end, the last of the reports. *)
Definition ended s : Prop :=
  status_ s.1 ≠ DownloadStatus.INIT ∧ ∃ pre i, s.2.1 = pre ++ [i] ∧ no_end pre ∧ is_end (DownloadCallbackInfo.status i) = true.
Lemma no_end_start : no_end early.
Proof. exists []. by rewrite app_nil_r. Qed.
Lemma no_end_snoc l i : no_end l → is_end (DownloadCallbackInfo.status i) = false → no_end (l ++ [i]).
Proof.
  intros (later & -> & Hall) Hi. exists (later ++ [i]). split; [by rewrite app_assoc|]. apply Forall_app. split; [done|]. by constructor.
Qed.
(** No such report yet; a cancelled thread has stopped its request. *)
Definition still_open s : Prop :=
  (isNeedCancel_ s.1 = true → isNeedStop_ s.1 = true) ∧ status_ s.1 ≠ DownloadStatus.INIT ∧ no_end s.2.1.
(** Still open, or ended early by a package of the wrong size. *)
Definition in_transfer s : Prop :=
  still_open s ∨ (isNeedCancel_ s.1 = true ∧ isNeedStop_ s.1 = true ∧ status_ s.1 ≠ DownloadStatus.INIT ∧ ended s).

(** The fields when a report is made, and the report. *)
Definition stamped s : t :=
  if 0 <? DownloadInfo.reportInterval (downloadInfo_ s.1)
  then set_prevCallbackTime (GetTimestampByMilliseconds s.2.2) s.1 else s.1.
Lemma wp_CallbackDownload_exact st r err s (Q : unit → State → Prop) :
  (let i := report_info (GetTimestampByMilliseconds s.2.2) st r err (stamped s) in
   Q tt (set_callbackInfo i (stamped s), (s.2.1 ++ [i], s.2.2))) →
  wp (CallbackDownload cb st r err) s Q.
Proof.
  intros HQ. unfold CallbackDownload. apply wp_bind, wp_on_world, wp_gets. cbv beta. apply wp_bind, wp_this. cbn [fst snd].
  unfold stamped in HQ. apply wp_bind. destruct (0 <? _).
  - apply wp_set_this. apply wp_bind, wp_this, wp_bind, wp_set_this. apply wp_logged. exact HQ.
  - apply wp_ret. apply wp_bind, wp_this, wp_bind, wp_set_this. apply wp_logged. exact HQ.
Qed.
Lemma wp_CallbackDownload st r err s (Q : unit → State → Prop) :
  (∀ this i, isNeedCancel_ this = isNeedCancel_ s.1 → isNeedStop_ this = isNeedStop_ s.1 → status_ this = status_ s.1 →
     DownloadCallbackInfo.status i = st → Q tt (this, (s.2.1 ++ [i], s.2.2))) →
  wp (CallbackDownload cb st r err) s Q.
Proof. intros HQ. apply wp_CallbackDownload_exact, HQ; unfold stamped; by case_if. Qed.
Lemma wp_report_open st r err s :
  still_open s → is_end st = false → wp (CallbackDownload cb st r err) s (λ _ s', still_open s').
Proof.
  intros (Hc & Hst & Hl) He. apply wp_CallbackDownload. intros this i Hc' Hs' Hst' Hi. split_and!; cbn [fst snd].
  - by rewrite Hc', Hs'.
  - by rewrite Hst'.
  - apply no_end_snoc; [done|by rewrite Hi].
Qed.
Lemma wp_report_end st r err s :
  status_ s.1 ≠ DownloadStatus.INIT → no_end s.2.1 → is_end st = true → wp (CallbackDownload cb st r err) s (λ _ s', ended s').
Proof. intros Hst Hl He. apply wp_CallbackDownload. intros this i _ _ Hst' Hi. split; [by cbn; rewrite Hst'|]. exists s.2.1, i. by rewrite Hi. Qed.
End ending.

(** Walk through a method: its bindings, its tests and its reports. *)
Ltac walk :=
  lazymatch goal with
  | |- wp (bind _ _) _ _ => apply wp_bind
  | |- wp (ret _) _ _ => apply wp_ret
  | |- wp (this_ _) _ _ => apply wp_this
  | |- wp (set_this _) _ _ => apply wp_set_this
  | |- wp (on_world (gets _)) _ _ => apply wp_on_world, wp_gets
  | |- wp (if ?b then _ else _) _ _ => let E := fresh in destruct b eqn:E
  end; cbv beta iota zeta; cbn [fst snd negb]; cbv iota.

Section ending_proofs.
Context {E : Type} `{Platform E, ThreadKits E}.
Context (early : list DownloadCallbackInfo.t).
Import DownloadThread.
#[local] Notation State := (t * (list DownloadCallbackInfo.t * E))%type.
#[local] Notation cb := (Some (logged (B := DownloadCallbackInfo.t) (W := E))).
Implicit Types (s : State) (i : DownloadCallbackInfo.t).
#[local] Notation no_end := (no_end early).
#[local] Notation ended := (ended early).
#[local] Notation still_open := (still_open early).
#[local] Notation in_transfer := (in_transfer early).

Lemma open_CallbackProgress total now s : still_open s → wp (CallbackProgress cb total now) s (λ _ s', still_open s').
Proof.
  intros Hs. unfold CallbackProgress.
  assert (∀ b : bool, still_open (if b then set_callbackInfo (reset_retries (callbackInfo_ s.1)) s.1 else s.1, s.2)) as Hif
    by (intros []; exact Hs).
  do 2 walk. match goal with |- context [if ?b then set_callbackInfo ?x ?y else ?y] =>
    specialize (Hif b); set (this := if b then set_callbackInfo x y else y) in * end. clearbody this.
  repeat walk; try exact Hif; (apply wp_report_open; [|done]); destruct Hif as (? & ? & ?); by split_and!.
Qed.
Lemma open_CallbackVerifyProgress size v s : still_open s → wp (CallbackVerifyProgress cb size v) s (λ _ s', still_open s').
Proof.
  intros Hs. unfold CallbackVerifyProgress. repeat walk; try exact Hs. apply wp_report_open; [|done].
  destruct Hs as (? & _ & ?). by split_and!.
Qed.
Lemma transfer_on_request ev s : in_transfer s → wp (on_request cb ev) s (λ _ s', in_transfer s').
Proof.
  intros Hs. unfold on_request, Stop, NetChangeToPause, SetDisableCallbackFlag.
  assert (status_ s.1 ≠ DownloadStatus.INIT) as Hst by (destruct Hs as [(_ & ? & _)|(_ & _ & ? & _)]; done).
  destruct ev; repeat walk; try exact Hs.
  - destruct Hs as [(_ & ? & ?)|(_ & _ & ? & ?)]; [left; by split_and!|right; by split_and!].
  - by breflect.
  - destruct Hs as [(_ & ? & ?)|(? & _ & ? & ?)]; [left; by split_and!|right; by split_and!].
Qed.
Lemma open_on_request ev s : still_open s → wp (on_request cb ev) s (λ _ s', still_open s').
Proof.
  intros (Hc & Hst & Hl). unfold on_request, Stop, NetChangeToPause, SetDisableCallbackFlag.
  destruct ev; repeat walk; try by split_and!. by breflect.
Qed.

Lemma transfer_on_progress base total now s :
  in_transfer s → wp (on_progress cb base total now) s (λ _ s', in_transfer s').
Proof.
  intros Hs. unfold on_progress. walk; [by apply wp_ret|]. do 2 walk. walk; [by apply wp_ret|]. destruct Hs as [Hs|(_ & Hs & _)]; [|congruence].
  walk. eapply wp_mono; [|apply package_size_check]. intros ok s' [_ ->].
  assert (still_open (if negb (isPackageSizeVerified_ s.1 || (to_int64 (total + base) =? to_int64 (now + base)))
    then (set_isPackageSizeVerified true s.1, s.2) else s)) as Hs' by (case_if; exact Hs).
  revert Hs'. generalize (if negb (isPackageSizeVerified_ s.1 || (to_int64 (total + base) =? to_int64 (now + base)))
    then (set_isPackageSizeVerified true s.1, s.2) else s). intros s1 Hs1. destruct ok; cbn [negb].
  - eapply wp_mono; [|by apply open_CallbackProgress]. intros [] s2 Hs2. by left.
  - destruct Hs1 as (_ & Hst & Hl). unfold HandleSizeError. repeat walk. apply wp_CallbackDownload.
    intros this i Hc Hp Hst' Hi. right. cbn [fst snd] in *. split_and!; cbn [fst snd]; [done|done|by rewrite Hst'|].
    split; [by cbn; rewrite Hst'|]. exists s1.2.1, i. by rewrite Hi.
Qed.
Lemma transfer_events base evs s :
  in_transfer s → wp (for_each evs (on_transfer cb base)) s (λ _ s', in_transfer s').
Proof.
  intros Hs. eapply (wp_for_each (λ _ s, in_transfer s)); [exact Hs| |by auto].
  intros _ ev _ s1 _ Hs1. destruct ev; cbn [on_transfer]; first [by apply transfer_on_progress | by apply transfer_on_request].
Qed.

(** The thread told its end, or was cancelled before it had one. *)
Definition verdict s : Prop := ended s ∨ (isNeedCancel_ s.1 = true ∧ status_ s.1 ≠ DownloadStatus.INIT ∧ no_end s.2.1).

Lemma verdict_end st r err s : still_open s → is_end st = true → wp (CallbackDownload cb st r err) s (λ _ s', verdict s').
Proof. intros (_ & Hst & Hl) He. eapply wp_mono; [|by apply wp_report_end]. intros [] s' Hs'. by left. Qed.

Lemma wp_NotifyCancel s (Q : bool → State → Prop) :
  (isNeedCancel_ s.1 = true → Q true (set_isRequestFinished true s.1, s.2)) → (isNeedCancel_ s.1 = false → Q false s) →
  wp NotifyCancel s Q.
Proof.
  intros Ht Hf. unfold NotifyCancel. do 3 walk. destruct (isNeedCancel_ s.1); repeat walk; [by apply Ht|by apply Hf].
Qed.

Lemma verdict_DoVerify s :
  (isNeedCancel_ s.1 = true → isNeedStop_ s.1 = true) → no_end s.2.1 → wp (DoVerify cb) s (λ _ s', verdict s').
Proof.
  intros Hs Hl. unfold DoVerify. repeat walk.
  eapply wp_mono; [|apply wp_report_open; [by split_and!|done]].
  intros [] s1 Hs1. repeat walk. apply wp_on_world, wp_any. intros [[evs code] digest] e. cbv beta iota. walk.
  eapply (wp_for_each (λ _ s, still_open s)); [exact Hs1| |].
  - intros _ ev _ s2 _ Hs2. destruct ev; cbn [on_verification]; try by apply open_on_request.
    walk; [by apply open_CallbackVerifyProgress|by apply wp_ret].
  - intros s2 Hs2. walk. apply wp_NotifyCancel; intros Hc.
    + apply wp_ret. right. destruct Hs2 as (_ & ? & ?). by split_and!.
    + repeat walk; (apply verdict_end; [exact Hs2|done]).
Qed.

Lemma verdict_HandleFail curl code s : still_open s → wp (HandleFail cb curl code) s (λ _ s', verdict s').
Proof.
  intros Hs. unfold HandleFail, HandleNetworkCheck. repeat walk; (apply verdict_end; [exact Hs|done]).
Qed.
Lemma verdict_HandleDownloadFinish curl code s :
  still_open s → wp (HandleDownloadFinish cb curl code) s (λ _ s', verdict s').
Proof.
  intros Hs. unfold HandleDownloadFinish, HandleSizeError.
  repeat walk; first [by destruct Hs as (? & _ & ?); apply verdict_DoVerify | by apply verdict_HandleFail | apply verdict_end; [exact Hs|done]].
Qed.

Lemma verdict_DoDownload s : still_open s → wp (DoDownload cb) s (λ _ s', verdict s').
Proof.
  intros Hs. unfold DoDownload. repeat walk.
  apply wp_on_world, wp_any. intros [[evs curl] code] e. cbv beta iota. walk.
  eapply wp_mono; [|apply transfer_events; left; exact Hs]. intros [] s1 Hs1. do 3 walk. apply wp_NotifyCancel; cbn [fst snd isNeedCancel_ set_filePtr]; intros Hc.
  - apply wp_ret. destruct Hs1 as [(_ & ? & ?)|(_ & _ & _ & ?)]; [right; by split_and!|by left].
  - destruct Hs1 as [Hs1|(Hc' & _)]; [|by rewrite Hc in Hc']. cbv iota. walk.
    eapply wp_mono; [|by apply verdict_HandleDownloadFinish]. intros [] s2 Hs2. walk. exact Hs2.
Qed.

Lemma open_InitPackageParam fileName s :
  still_open s → wp (InitPackageParam fileName) s (λ _ s', still_open s').
Proof.
  intros Hs. unfold InitPackageParam. walk. apply wp_on_world, wp_any. intros made e. cbv beta. repeat walk; try exact Hs.
  apply wp_on_world, wp_any. intros opened e'. cbv beta. repeat walk; try exact Hs.
  apply wp_on_world, wp_any. intros r e2. cbv beta. repeat walk; exact Hs.
Qed.

(** A thread that runs. *)
Lemma verdict_Start s :
  (isNeedCancel_ s.1 = true → isNeedStop_ s.1 = true) → status_ s.1 = DownloadInfo.status (downloadInfo_ s.1) → s.2.1 = early →
  wp (Start cb) s (λ _ s', verdict s').
Proof.
  intros Hstop Hst Hearly. assert (no_end s.2.1) as Hno by (rewrite Hearly; apply no_end_start).
  unfold Start, DownloadVersion, CheckBeforeStartDownload. do 5 walk. walk; [|walk].
  - walk. unfold DownloadInfo.IsCompleted in *. breflect. eapply wp_mono; [|apply wp_report_end; [| exact Hno|]].
    + intros [] s' Hs'. repeat walk. by left.
    + cbn [fst status_ downloadInfo_ set_isStarted] in *. rewrite Hst. match goal with H : _ ∨ _ |- _ => destruct H as [H|H]; apply Z.eqb_eq in H; rewrite H; discriminate end.
    + unfold is_end. cbn [fst snd downloadInfo_ set_isStarted] in *.
      match goal with H : _ ∨ _ |- _ => destruct H as [-> | ->]; by rewrite ?orb_true_r end.
  - walk. eapply wp_mono; [|apply verdict_DoVerify; [exact Hstop|exact Hno]]. intros [] s' Hs'. repeat walk. exact Hs'.
  - repeat walk. eapply wp_mono; [|apply wp_report_open; [|done]]; [|by split_and!].
    intros [] s1 Hs1. repeat walk. eapply wp_mono; [|by apply open_InitPackageParam]. intros [error|] s2 Hs2.
    + apply verdict_end; [exact Hs2|done].
    + by apply verdict_DoDownload.
Qed.
(** Requests when the thread has ended report nothing. *)
Lemma verdict_requests evs s : verdict s → wp (for_each evs (on_request cb)) s (λ _ s', verdict s').
Proof.
  intros Hs. eapply (wp_for_each (λ _ s, verdict s)); [exact Hs| |by auto]. intros _ ev _ s1 _ Hs1.
  assert (status_ s1.1 ≠ DownloadStatus.INIT) as Hst by (destruct Hs1 as [[? _]|(_ & ? & _)]; done).
  unfold on_request, Stop, NetChangeToPause, SetDisableCallbackFlag. destruct ev; repeat walk; try exact Hs1.
  - destruct Hs1 as [[? ?]|(_ & ? & ?)]; [left; by split|right; by split_and!].
  - by breflect.
Qed.

(** The reports so far, against the percentage that was last reported. *)
Definition throttled (init : Z) s : Prop :=
  DownloadInfo.reportInterval (downloadInfo_ s.1) ≤ 0 ∧ fileInitSize_ s.1 = init ∧
  Z.of_nat (List.length s.2.1) ≤ percent_ s.1 ≤ 100 ∧
  Forall (λ i, DownloadCallbackInfo.status i = DownloadStatus.DOWNLOADING ∧ init ≤ DownloadCallbackInfo.downloadedSize i) s.2.1.

Lemma throttled_CallbackProgress init total now s :
  throttled init s → wp (CallbackProgress cb total now) s (λ _ s', throttled init s').
Proof.
  intros Hs. unfold CallbackProgress.
  assert (∀ b : bool, throttled init (if b then set_callbackInfo (reset_retries (callbackInfo_ s.1)) s.1 else s.1, s.2)) as Hif
    by (intros []; exact Hs).
  do 2 walk. match goal with |- context [if ?b then set_callbackInfo ?x ?y else ?y] =>
    specialize (Hif b); set (this := if b then set_callbackInfo x y else y) in * end. clearbody this.
  pose proof Hif as (Hr & Hi & Hn & Hl). cbn [fst snd] in *. do 4 walk. walk; [by apply wp_ret|].
  do 6 walk. match goal with |- context [_ <? ?x] => generalize x; intros p end. change DOWNLOAD_MAX_PERCENT with 100.
  repeat walk; try exact Hif; [|cbn in *; breflect; lia].
  apply wp_CallbackDownload_exact. cbv zeta. set (i := report_info _ _ _ _ _).
  assert (DownloadCallbackInfo.status i = DownloadStatus.DOWNLOADING ∧ init ≤ DownloadCallbackInfo.downloadedSize i) as Hi'.
  { split; [done|]. subst i. cbn [report_info DownloadCallbackInfo.downloadedSize]. unfold stamped.
    repeat case_if; cbn in *; breflect; try lia. }
  clearbody i. unfold stamped, throttled. case_if; cbn in *; (split_and!; [done|done|..]);
    rewrite ?length_app; cbn [List.length]; breflect; try lia; (apply Forall_app; split; [exact Hl|constructor; [exact Hi'|constructor]]).
Qed.

(** Without a report interval, the progress reports of a request are at most
    a hundred, however often the transfer calls back; each says that the
    package is being downloaded, and none says that fewer bytes are there than
    the file had when the thread was made. *)
Theorem progress_reports_bounded (calls : list (Z * Z)) this e :
  DownloadInfo.reportInterval (downloadInfo_ this) ≤ 0 → percent_ this = 0 →
  wp (for_each calls (λ c, CallbackProgress cb c.1 c.2)) (this, ([], e)) (λ _ s',
    (List.length s'.2.1 ≤ 100)%nat ∧
    Forall (λ i, DownloadCallbackInfo.status i = DownloadStatus.DOWNLOADING ∧
                 fileInitSize_ this ≤ DownloadCallbackInfo.downloadedSize i) s'.2.1).
Proof.
  intros Hr Hp. eapply (wp_for_each (λ _ s, throttled (fileInitSize_ this) s)).
  - unfold throttled. split_and!; [done|done|cbn; lia|cbn; lia|constructor].
  - intros _ c _ s _ Hs. by apply throttled_CallbackProgress.
  - intros s (_ & _ & Hn & Hl). split; [lia|exact Hl].
Qed.
End ending_proofs.

Section lifetime.
Context {E : Type} `{Platform E, ThreadKits E}.
Import DownloadThread.
#[local] Notation State := (t * (list DownloadCallbackInfo.t * E))%type.
#[local] Notation cb := (Some (logged (B := DownloadCallbackInfo.t) (W := E))).
Implicit Types (s : State) (i : DownloadCallbackInfo.t).

Definition is_NetLost (ev : TransferEvent) : bool := match ev with NetLost => true | _ => false end.
(** The requests of the service while the thread is queued: one report for each loss of the network, if it is to begin its package. *)
Definition waiting info (evs : list TransferEvent) s : Prop :=
  (isNeedCancel_ s.1 = true → isNeedStop_ s.1 = true) ∧ DownloadInfo.status (downloadInfo_ s.1) = DownloadInfo.status info ∧ status_ s.1 = DownloadInfo.status info ∧
  Forall (λ i, DownloadCallbackInfo.status i = DownloadStatus.AUTO_PAUSE) s.2.1 ∧
  length s.2.1 = if DownloadInfo.status info =? DownloadStatus.INIT then length (List.filter is_NetLost evs) else 0%nat.
Lemma waiting_requests info evs e : wp (for_each evs (on_request cb)) (new info e, ([], e)) (λ _ s, waiting info evs s).
Proof.
  eapply (wp_for_each (λ evs s, waiting info evs s)); [|intros evs1 ev _ s _ (Hc & Hi & Hst & Hall & Hlen)|by auto].
  - split_and!; [done|done|done|constructor|by case_if].
  - assert (List.filter is_NetLost (evs1 ++ [ev]) = List.filter is_NetLost evs1 ++ (if is_NetLost ev then [ev] else [])) as Hf
      by (rewrite List.filter_app; by destruct ev).
    assert (is_NetLost ev = false ∨ DownloadInfo.status info ≠ DownloadStatus.INIT → ∀ s', s'.2 = s.2 →
      (isNeedCancel_ s'.1 = true → isNeedStop_ s'.1 = true) → DownloadInfo.status (downloadInfo_ s'.1) = DownloadInfo.status info → status_ s'.1 = DownloadInfo.status info → waiting info (evs1 ++ [ev]) s') as Hsame.
    { intros Hev s' Hs' Hc' Hi' Hst'. split_and!; [done..|by rewrite Hs'|]. rewrite Hs', Hlen, Hf. destruct Hev as [-> | Hne]; [by rewrite app_nil_r|].
      by rewrite (proj2 (Z.eqb_neq _ _) Hne). }
    unfold on_request, Stop, NetChangeToPause, SetDisableCallbackFlag. destruct ev; repeat walk; try (by apply Hsame; [left|..]).
    + breflect. apply wp_CallbackDownload_exact. cbv zeta. apply wp_ret, wp_ret. rewrite Hst in *.
      split_and!; cbn [fst snd isNeedCancel_ isNeedStop_ downloadInfo_ status_ set_callbackInfo].
      * unfold stamped. by case_if.
      * unfold stamped. by case_if.
      * unfold stamped. by case_if.
      * apply Forall_app. split; [done|]. by repeat constructor.
      * rewrite length_app, Hlen, Hf. cbn [is_NetLost]. rewrite length_app. by rewrite (proj2 (Z.eqb_eq _ _)) by done.
    + rewrite Hst in *. apply Hsame; [right|done..]. by breflect.
    + rewrite Hst in *. apply Hsame; [right|done..]; by breflect.
Qed.

(** C17: a download thread, from when it is made and queued on: whatever the service asks while it is queued, while
    its transfer and its verification run, and after it has ended, and whatever those do.  While it is queued a loss of the network is
    reported as an automatic pause, each time, if its package has not been begun, but the thread still runs when its turn comes.  From its
    start on it reports at most one end (success, failure or automatic pause), and nothing after it; it reports exactly one
    unless it was cancelled. *)
Theorem thread_ends_once info queued later e :
  wp (for_each queued (on_request cb) ;;; Start cb ;;; for_each later (on_request cb)) (new info e, ([], e)) (λ _ s', ∃ early reports,
    s'.2.1 = early ++ reports ∧
    Forall (λ i, DownloadCallbackInfo.status i = DownloadStatus.AUTO_PAUSE) early ∧
    length early = (if DownloadInfo.status info =? DownloadStatus.INIT then length (List.filter is_NetLost queued) else 0%nat) ∧
    ((∃ pre i, reports = pre ++ [i] ∧ Forall (λ i, is_end (DownloadCallbackInfo.status i) = false) pre ∧ is_end (DownloadCallbackInfo.status i) = true) ∨
     isNeedCancel_ s'.1 = true ∧ Forall (λ i, is_end (DownloadCallbackInfo.status i) = false) reports)).
Proof.
  apply wp_bind. eapply wp_mono; [|apply waiting_requests]. intros _ s (Hc & Hi & Hst & Hall & Hlen). apply wp_bind.
  eapply wp_mono; [|apply (verdict_Start s.2.1); [exact Hc|by rewrite Hi|done]]. intros [] s1 Hs1.
  eapply wp_mono; [|by apply (verdict_requests s.2.1)]. intros [] s2 [(_ & pre & i & Hs2 & (later' & Hlater & Hpre) & Hend)|(Hcancel & _ & reports & Hs2 & Hno)].
  - exists s.2.1, (later' ++ [i]). split; [by rewrite Hs2, Hlater, <- app_assoc|]. split; [done|]. split; [done|]. left. by eexists _, _.
  - exists s.2.1, reports. split; [exact Hs2|]. split; [done|]. split; [done|]. right. by split.
Qed.
End lifetime.

Module SampleThread.
Import DownloadThread.
#[local] Instance thread_kits : ThreadKits SampleEnv.t := {
  CURLE_OK := 0; CURLE_WRITE_ERROR := 23; CURLE_READ_ERROR := 26; SHA256_SUCCESS := 0;
  transfer _ _ e := (([Progressed 100 20; NetLost; Progressed 100 60; Progressed 100 100], 0, 200), e);
  file_digest _ _ _ e := (([], 0, "digest"), e);
  GetHeadersBuffer _ := ["Content-Length: 100"];
  CreateMultiDirWithPermission _ e := (true, e);
  parent_dir s := s;
  CreateFileSharedPtr _ _ e := (true, e);
  fseek _ e := (0, e);
  errno _ := 0;
  strerror _ := "Success";
  thread_net_available _ := true
}.
Definition package : DownloadInfo.t := DownloadInfo.set_packageSize 100 DownloadInfo.default.
Definition thread : t := new package SampleEnv.initial.

Definition reports {A} (m : ST (t * (list DownloadCallbackInfo.t * SampleEnv.t)) A) : list (Z * Z) :=
  map (λ i, (DownloadCallbackInfo.status i, DownloadCallbackInfo.downloadedSize i)) (exec m (thread, ([], SampleEnv.initial))).2.1.

(** The network is lost during the transfer: one end, an automatic pause. *)
Example paused_once : reports (Start (Some (logged (B := DownloadCallbackInfo.t) (W := SampleEnv.t)))) =
  [(DownloadStatus.DOWNLOADING, 0); (DownloadStatus.DOWNLOADING, 20); (DownloadStatus.AUTO_PAUSE, 20)].
Proof. vm_compute. reflexivity. Qed.

Lemma progress_reports_bounded_witness :
  let calls := [(100, 5); (100, 5); (100, 60); (100, 100)] in
  let m := for_each calls (λ c, CallbackProgress (Some (logged (B := DownloadCallbackInfo.t) (W := SampleEnv.t))) c.1 c.2) in
  DownloadInfo.reportInterval (downloadInfo_ thread) ≤ 0 ∧ percent_ thread = 0 ∧
  map (λ r, r.2) (reports m) = [5; 60; 100] ∧
  wp m (thread, ([], SampleEnv.initial)) (λ _ s',
    (List.length s'.2.1 ≤ 100)%nat ∧
    Forall (λ i, DownloadCallbackInfo.status i = DownloadStatus.DOWNLOADING ∧
                 fileInitSize_ thread ≤ DownloadCallbackInfo.downloadedSize i) s'.2.1).
Proof.
  refine (conj _ (conj eq_refl (conj _ (progress_reports_bounded _ _ _ _ _)))); [|by vm_compute| |reflexivity];
    apply (bool_decide_unpack _); by vm_compute.
Defined.
End SampleThread.
