(* ===== verification/DownloadService.v ===== *)
(** * The download service of a task

    Models [download_service.cpp] and the test of [dupdate_net_manager.cpp] it
    uses: the object that owns the packages of one task, starts a thread for each
    and handles what they report: it records the progress, retries a failed
    package, and passes the rest on to the task.

    The [DownloadInfo] objects are shared by pointer between the service, the task
    and its progress processor, and the threads outlive their entry in
    [threadMap_].  Both live in the shared store [Shared.t]: a package under its
    [downloadId], a thread object under the number of its creation.  A name that
    the store does not have is a null pointer.  Only submitting a thread to the
    thread pool is modelled here: what it then does is
    [DownloadThread.Start], and its reports arrive as calls of
    [CallbackUpdateDownloadProgress]. *)
From Stdlib Require Import ZArith Lia Ascii String.
From stdpp Require Import base tactics functions list strings gmap sorting.
From S2P Require Import Prelude CppString StringUtils Models Database FirmwareDb FirmwareStore FirmwareWorld DownloadData DownloadThread.

#[local] Open Scope Z_scope.

Module NetManager.
(*@ services/utils/src/dupdate_net_manager.cpp NetManager::IsNetAvailable *)
Definition IsNetAvailable (netType_ netType : Z) : bool := 0 <? Z.land (to_uint32 netType_) (to_uint32 netType).
End NetManager.

(** The current network, as the observer of the system last told it, and the
    calls of [ClearPackage]: [lstat] gives [None] for an error and otherwise
    whether the file is a regular one. *)
Class ServiceKits (E : Type) := {
  GetNetType : E → Z;
  lstat_regular : E → string → option bool;
  remove_file : string → ST E Z
}.

(** [std::less<std::string>], and the order in which a [std::map] is traversed. *)
Definition sorted_keys {A} (m : gmap string A) : list string := merge_sort String.le (map fst (map_to_list m)).

(** ** The shared store *)
Module Shared.
Record t (R E : Type) := {
  db : SqliteDb.t R;
  env : E;
  infos : gmap string DownloadInfo.t;
  threads : list DownloadThread.t
}.
Arguments db {R E} _.
Arguments env {R E} _.
Arguments infos {R E} _.
Arguments threads {R E} _.

Section ops.
Context {R E : Type}.
Definition set_db (d : SqliteDb.t R) (w : t R E) : t R E :=
  {| db := d; env := env w; infos := infos w; threads := threads w |}.
Definition set_env (e : E) (w : t R E) : t R E :=
  {| db := db w; env := e; infos := infos w; threads := threads w |}.
Definition set_info (id : string) (info : DownloadInfo.t) (w : t R E) : t R E :=
  {| db := db w; env := env w; infos := <[id := info]> (infos w); threads := threads w |}.
Definition set_threads (l : list DownloadThread.t) (w : t R E) : t R E :=
  {| db := db w; env := env w; infos := infos w; threads := l |}.
Definition on_db {A} (m : ST (SqliteDb.t R) A) : ST (t R E) A := λ w,
  let (a, d) := m (db w) in (a, set_db d w).
Definition on_env {A} (m : ST E A) : ST (t R E) A := λ w,
  let (a, e) := m (env w) in (a, set_env e w).
End ops.

#[global] Instance platform {R E} `{Platform E} : Platform (t R E) := {
  SystemReadParam w := SystemReadParam (env w);
  ifstream_good w := ifstream_good (env w);
  file_size w := file_size (env w);
  statfs w := statfs (env w);
  remove_entries p := on_env (remove_entries p);
  GetTimestamp w := GetTimestamp (env w);
  GetTimestampByMilliseconds w := GetTimestampByMilliseconds (env w)
}.
#[global] Instance thread_kits {R E} `{ThreadKits E} : ThreadKits (t R E) := {
  CURLE_OK := CURLE_OK (E := E);
  CURLE_WRITE_ERROR := CURLE_WRITE_ERROR (E := E);
  CURLE_READ_ERROR := CURLE_READ_ERROR (E := E);
  SHA256_SUCCESS := SHA256_SUCCESS (E := E);
  transfer info base := on_env (transfer info base);
  file_digest p v c := on_env (file_digest p v c);
  GetHeadersBuffer w := GetHeadersBuffer (env w);
  CreateMultiDirWithPermission p := on_env (CreateMultiDirWithPermission p);
  parent_dir := parent_dir (E := E);
  CreateFileSharedPtr p b := on_env (CreateFileSharedPtr p b);
  fseek n := on_env (fseek n);
  errno w := errno (env w);
  strerror w := strerror (env w);
  thread_net_available w := thread_net_available (env w)
}.
End Shared.
Import Shared (infos, threads, db, env).

Module DownloadService.
(** [serviceDownloadInfoMap_] is the list of its keys, in order; its values are
    in the store. *)
(*@ download/task/include/download_service.h:70-78 DownloadService *)
Record t (C W : Type) := {
  taskId_ : string;
  onDownloadCallback_ : option (DownloadCallbackInfo.t → ST (C * W) unit);
  serviceDownloadInfoMap_ : list string;
  threadMap_ : gmap string nat;
  isStopCallback_ : bool
}.
Arguments taskId_ {C W} _.
Arguments onDownloadCallback_ {C W} _.
Arguments serviceDownloadInfoMap_ {C W} _.
Arguments threadMap_ {C W} _.
Arguments isStopCallback_ {C W} _.

Section setters.
Context {C W : Type}.
Definition set_callback (x : option (DownloadCallbackInfo.t → ST (C * W) unit)) (this : t C W) : t C W := {|
  taskId_ := taskId_ this; onDownloadCallback_ := x; serviceDownloadInfoMap_ := serviceDownloadInfoMap_ this;
  threadMap_ := threadMap_ this; isStopCallback_ := isStopCallback_ this |}.
Definition set_map (x : list string) (this : t C W) : t C W := {|
  taskId_ := taskId_ this; onDownloadCallback_ := onDownloadCallback_ this; serviceDownloadInfoMap_ := x;
  threadMap_ := threadMap_ this; isStopCallback_ := isStopCallback_ this |}.
Definition set_threadMap (x : gmap string nat) (this : t C W) : t C W := {|
  taskId_ := taskId_ this; onDownloadCallback_ := onDownloadCallback_ this;
  serviceDownloadInfoMap_ := serviceDownloadInfoMap_ this;
  threadMap_ := x; isStopCallback_ := isStopCallback_ this |}.
Definition set_isStopCallback (x : bool) (this : t C W) : t C W := {|
  taskId_ := taskId_ this; onDownloadCallback_ := onDownloadCallback_ this;
  serviceDownloadInfoMap_ := serviceDownloadInfoMap_ this;
  threadMap_ := threadMap_ this; isStopCallback_ := x |}.
End setters.

(** [DownloadError::build], which the callers pass by reference. *)
Definition build : Z → DownloadCallResult → DownloadError.t := DownloadError.build.

Section ops.
Context {R E C : Type} `{Rdb R, Platform E, ThreadKits E, ServiceKits E}.
#[local] Notation W := (Shared.t R E).
#[local] Notation Service := (ST (t C W * (C * W))).

Definition on_db {A} (m : ST (SqliteDb.t R) A) : Service A := on_world (Shared.on_db m).
Definition on_env {A} (m : ST E A) : Service A := on_world (Shared.on_env m).
Definition world_ {A} (f : W → A) : Service A := on_world (gets f).
Definition set_info (id : string) (info : DownloadInfo.t) : Service unit := on_world (modify (Shared.set_info id info)).
(** The packages of the map, one after the other; a null pointer is skipped. *)
Definition for_each_info (body : string → DownloadInfo.t → Service unit) : Service unit :=
  let* ids := this_ serviceDownloadInfoMap_ in
  for_each ids (λ id,
    let* info := world_ (λ w, infos w !! id) in
    match info with None => ret tt | Some downloadInfo => body id downloadInfo end).

(** The thread object [k]: the service is the owner of its callback. *)
Definition on_thread (k : nat) (m : ST (DownloadThread.t * (t C W * C * W)) DownloadResult) : Service unit := λ s,
  match threads s.2.2 !! k with
  | None => (tt, s)
  | Some thread =>
      let s' := exec m (thread, (s.1, s.2.1, s.2.2)) in
      (tt, (s'.2.1.1, (s'.2.1.2, Shared.set_threads (<[k := s'.1]> (threads s'.2.2)) s'.2.2)))
  end.
(** A method of the service, as a callback of a thread. *)
Definition from_thread (m : Service unit) : ST (t C W * C * W) unit := λ x,
  let s' := exec m (x.1.1, (x.1.2, x.2)) in (tt, (s'.1, s'.2.1, s'.2.2)).

(*@ task/src/download_service.cpp DownloadService::DownloadService *)
Definition new (taskId : string) (downloadInfoMap : list string) : t C W := {|
  taskId_ := taskId; onDownloadCallback_ := None; serviceDownloadInfoMap_ := downloadInfoMap;
  threadMap_ := ∅; isStopCallback_ := false |}.

(** The network the first package asks for. *)
(*@ task/src/download_service.cpp DownloadService::IsNetSatisfied *)
Definition IsNetSatisfied : Service bool :=
  let* ids := this_ serviceDownloadInfoMap_ in
  world_ (λ w,
    match omap (λ id, infos w !! id) ids with
    | downloadInfo :: _ => NetManager.IsNetAvailable (GetNetType (env w)) (DownloadInfo.netType downloadInfo)
    | [] => false
    end).

(*@ task/src/download_service.cpp DownloadService::GetDownloadInfo *)
Definition GetDownloadInfo (downloadId : string) : Service (option DownloadInfo.t) :=
  let* ids := this_ serviceDownloadInfoMap_ in
  if bool_decide (downloadId ∈ ids) then world_ (λ w, infos w !! downloadId) else ret None.

(** The thread object is created and submitted to the thread pool. *)
(*@ task/src/download_service.cpp DownloadService::StartDownloadThread *)
Definition StartDownloadThread (downloadInfo : DownloadInfo.t) : Service unit :=
  let* k := world_ (λ w, List.length (threads w)) in
  on_world (modify (λ w, Shared.set_threads (threads w ++ [DownloadThread.new downloadInfo (env w)]) w)) ;;;
  set_this (λ this, set_threadMap (<[DownloadInfo.downloadId downloadInfo := k]> (threadMap_ this)) this).

(*@ task/src/download_service.cpp DownloadService::RemoveThread *)
Definition RemoveThread (downloadId : string) : Service unit :=
  set_this (λ this, set_threadMap (delete downloadId (threadMap_ this)) this).

(*@ task/src/download_service.cpp DownloadService::ClearPackage *)
Definition ClearPackage (path : string) : Service DownloadResult :=
  let* stat := world_ (λ w, lstat_regular (env w) path) in
  match stat with
  | None => ret RESULT_FAIL
  | Some regular =>
      if negb regular then ret RESULT_FAIL
      else on_env (remove_file path) ;;; ret RESULT_OK
  end.

(*@ task/src/download_service.cpp DownloadService::CallbackDownloadProgress *)
Definition CallbackDownloadProgress (info : DownloadCallbackInfo.t) : Service unit :=
  let* callback := this_ onDownloadCallback_ in
  call callback info.

(*@ task/src/download_service.cpp DownloadService::UpdateDownloadInfo *)
Definition UpdateDownloadInfo (info : DownloadCallbackInfo.t) : Service unit :=
  let* downloadInfo := GetDownloadInfo (DownloadCallbackInfo.downloadId info) in
  match downloadInfo with
  | None => ret tt
  | Some downloadInfo =>
      let* stopped := this_ isStopCallback_ in
      if (DownloadCallbackInfo.status info =? DownloadStatus.DOWNLOADING) && stopped then ret tt
      else
        let downloadInfo := DownloadInfo.UpdateDownloadInfo info downloadInfo in
        set_info (DownloadCallbackInfo.downloadId info) downloadInfo ;;;
        when negb (DownloadCallbackInfo.status info =? DownloadStatus.CANCEL) do (
          on_db (DownloadInfoOperator.UpdateProgressById downloadInfo) ;;; ret tt)
  end.

(*@ task/src/download_service.cpp DownloadService::HandleRetry *)
Definition retried (endReason : Z) (downloadInfo : DownloadInfo.t) : DownloadInfo.t :=
  let downloadInfo := DownloadInfo.set_retryTimes (to_int32 (DownloadInfo.retryTimes downloadInfo + 1)) downloadInfo in
  if (endReason =? DownloadEndReason.REDIRECT) || (endReason =? DownloadEndReason.SIZE_ERROR) then
    let switchUrl := DownloadInfo.url downloadInfo in
    DownloadInfo.set_urls
      (if (len (DownloadInfo.reserveUrl downloadInfo) =? 0)%nat then switchUrl else DownloadInfo.reserveUrl downloadInfo)
      switchUrl downloadInfo
  else downloadInfo.
(*@ task/src/download_service.cpp DownloadService::HandleRetry *)
Definition HandleRetry (downloadId : string) (endReason : Z) : Service DownloadResult :=
  let* downloadInfo := GetDownloadInfo downloadId in
  match downloadInfo with
  | None => ret RESULT_FAIL
  | Some downloadInfo =>
      on_db (DownloadInfoOperator.UpdateRetryTimesById
        (DownloadInfo.set_retryTimes (to_int32 (DownloadInfo.retryTimes downloadInfo + 1)) downloadInfo)) ;;;
      set_info downloadId (retried endReason downloadInfo) ;;;
      StartDownloadThread (retried endReason downloadInfo) ;;;
      ret RESULT_OK
  end.

(** The default argument of [IsRetryAble]. *)
(*@ download/common/include/download_common.h IsRetryAble *)
Definition MAX_RETRY_TIMES : Z := 3.
(*@ task/src/download_service.cpp:419-421 DownloadService::UpdateDownloadProgress *)
Definition is_running (status : Z) : bool :=
  (status =? DownloadStatus.DOWNLOADING) || (status =? DownloadStatus.VERIFYING).
(** Nothing is retried after these. *)
(*@ task/src/download_service.cpp:439-439 DownloadService::UpdateDownloadProgress *)
Definition is_fatal (endReason : Z) : bool :=
  (endReason =? DownloadEndReason.IO_EXCEPTION) || (endReason =? DownloadEndReason.VERIFY_FAIL).
(*@ task/src/download_service.cpp DownloadService::UpdateDownloadProgress *)
Definition UpdateDownloadProgress (info : DownloadCallbackInfo.t) : Service unit :=
  (when negb (is_running (DownloadCallbackInfo.status info)) do RemoveThread (DownloadCallbackInfo.downloadId info)) ;;;
  let report := UpdateDownloadInfo info ;;; CallbackDownloadProgress info in
  if negb (DownloadCallbackInfo.status info =? DownloadStatus.FAIL) then report
  else
    let* downloadInfo := GetDownloadInfo (DownloadCallbackInfo.downloadId info) in
    match downloadInfo with
    | None => ret tt
    | Some downloadInfo =>
        if is_fatal (DownloadCallbackInfo.endReason info) then
          ClearPackage (DownloadInfo.path downloadInfo) ;;; report
        else if negb (DownloadInfo.IsRetryAble downloadInfo MAX_RETRY_TIMES) then report
        else
          let* result := HandleRetry (DownloadCallbackInfo.downloadId info) (DownloadCallbackInfo.endReason info) in
          match result with RESULT_FAIL => report | RESULT_OK => ret tt end
    end.

(*@ task/src/download_service.cpp DownloadService::CallbackUpdateDownloadProgress *)
Definition CallbackUpdateDownloadProgress (info : DownloadCallbackInfo.t) : Service unit :=
  let* stopped := this_ isStopCallback_ in
  if stopped : bool then ret tt else UpdateDownloadProgress info.

(*@ task/src/download_service.cpp DownloadService::Start *)
Definition Start (callback : option (DownloadCallbackInfo.t → ST (C * W) unit)) (downloadError : DownloadError.t) :
    Service (DownloadResult * DownloadError.t) :=
  let* ids := this_ serviceDownloadInfoMap_ in
  if bool_decide (ids = []) then ret (RESULT_FAIL, build DownloadEndReason.DOWNLOAD_INFO_EMPTY CALL_FAIL)
  else
    let* satisfied := IsNetSatisfied in
    if negb satisfied then ret (RESULT_FAIL, build DownloadEndReason.NET_NOT_AVAILIABLE CALL_FAIL)
    else
      set_this (set_callback callback) ;;;
      set_this (set_isStopCallback false) ;;;
      for_each_info (λ downloadId downloadInfo,
        let* threadMap := this_ threadMap_ in
        if bool_decide (is_Some (threadMap !! DownloadInfo.downloadId downloadInfo)) then ret tt
        else if DownloadInfo.IsCompleted downloadInfo then ret tt
        else
          on_db (TableBaseOperator.Insert DownloadInfo.t DownloadInfoOperator.dir [downloadInfo]) ;;;
          StartDownloadThread downloadInfo) ;;;
      ret (RESULT_OK, downloadError).

(** The tasks that stop the threads run in parallel: each only sets the flags of
    its own thread. *)
(*@ task/src/download_service.cpp DownloadService::StopAllDownloadThread *)
Definition StopAllDownloadThread : Service unit :=
  set_this (set_isStopCallback true) ;;;
  let* threadMap := this_ threadMap_ in
  for_each (sorted_keys threadMap) (λ downloadId,
    match threadMap !! downloadId with None => ret tt | Some k => on_thread k DownloadThread.Stop end) ;;;
  set_this (set_threadMap ∅).

(** A report the service makes itself: the fields that are not named have their
    default values. *)
(*@ task/src/download_service.cpp DownloadService::NotifyPauseCompleted *)
Definition own_report (downloadInfo : DownloadInfo.t) (endTime status endReason : Z) : DownloadCallbackInfo.t := {|
  DownloadCallbackInfo.downloadId := DownloadInfo.downloadId downloadInfo;
  DownloadCallbackInfo.downloadedSize := DownloadInfo.downloadedSize downloadInfo;
  DownloadCallbackInfo.startTime := DownloadCallbackInfo.startTime DownloadCallbackInfo.default;
  DownloadCallbackInfo.endTime := endTime;
  DownloadCallbackInfo.effectiveTime := DownloadCallbackInfo.effectiveTime DownloadCallbackInfo.default;
  DownloadCallbackInfo.status := status;
  DownloadCallbackInfo.endReason := endReason;
  DownloadCallbackInfo.resetRetryTimes := DownloadCallbackInfo.resetRetryTimes DownloadCallbackInfo.default;
  DownloadCallbackInfo.downloadErrorInfo := DownloadCallbackInfo.downloadErrorInfo DownloadCallbackInfo.default;
  DownloadCallbackInfo.verifiedSize := DownloadInfo.verifiedSize downloadInfo |}.
Definition default_endTime : Z := DownloadCallbackInfo.endTime DownloadCallbackInfo.default.

(*@ task/src/download_service.cpp DownloadService::NotifyPauseCompleted *)
Definition NotifyPauseCompleted : Service unit :=
  for_each_info (λ _ downloadInfo,
    UpdateDownloadProgress (own_report downloadInfo default_endTime DownloadStatus.PAUSE DownloadEndReason.PAUSE)).
(*@ task/src/download_service.cpp DownloadService::NotifyCancelCompleted *)
Definition NotifyCancelCompleted : Service unit :=
  for_each_info (λ _ downloadInfo,
    let* now := world_ (λ w, GetTimestamp (env w)) in
    UpdateDownloadProgress (own_report downloadInfo now DownloadStatus.CANCEL DownloadEndReason.CANCEL)) ;;;
  let* taskId := this_ taskId_ in
  on_db (DownloadInfoOperator.DeleteByTaskId taskId).
(*@ task/src/download_service.cpp DownloadService::NotifyRecoverCompleted *)
Definition NotifyRecoverCompleted : Service unit :=
  for_each_info (λ _ downloadInfo,
    if DownloadInfo.IsCompleted downloadInfo then ret tt
    else if DownloadInfo.IsManualPaused downloadInfo then ret tt
    else UpdateDownloadProgress (own_report downloadInfo default_endTime DownloadStatus.AUTO_PAUSE DownloadEndReason.INIT)).
(*@ task/src/download_service.cpp DownloadService::DeleteDownloadedFiles *)
Definition DeleteDownloadedFiles : Service unit :=
  for_each_info (λ _ downloadInfo, ClearPackage (DownloadInfo.path downloadInfo) ;;; ret tt).

(*@ task/src/download_service.cpp DownloadService::Pause *)
Definition Pause : Service (DownloadResult * DownloadError.t) :=
  StopAllDownloadThread ;;;
  NotifyPauseCompleted ;;;
  ret (RESULT_OK, build DownloadEndReason.SUCCESS CALL_SUCCESS).
(*@ task/src/download_service.cpp DownloadService::Cancel *)
Definition Cancel (downloadError : DownloadError.t) (isDeleteFiles : bool) : Service (DownloadResult * DownloadError.t) :=
  StopAllDownloadThread ;;;
  (when isDeleteFiles do DeleteDownloadedFiles) ;;;
  NotifyCancelCompleted ;;;
  ret (RESULT_OK, downloadError).

(*@ task/src/download_service.cpp DownloadService::UpdateDownloadNetType *)
Definition UpdateDownloadNetType (netType : Z) : Service unit :=
  for_each_info (λ downloadId downloadInfo,
    if netType =? DownloadInfo.netType downloadInfo then ret tt
    else
      let downloadInfo := DownloadInfo.set_netType netType downloadInfo in
      set_info downloadId downloadInfo ;;;
      on_db (DownloadInfoOperator.UpdateNetTypeById downloadInfo) ;;; ret tt).
(*@ task/src/download_service.cpp DownloadService::Resume *)
Definition Resume (netType : Z) : Service (DownloadResult * DownloadError.t) :=
  let* ids := this_ serviceDownloadInfoMap_ in
  if bool_decide (ids = []) then ret (RESULT_FAIL, build DownloadEndReason.DOWNLOAD_INFO_EMPTY CALL_FAIL)
  else
    set_this (set_isStopCallback false) ;;;
    UpdateDownloadNetType netType ;;;
    let* satisfied := IsNetSatisfied in
    if negb satisfied then ret (RESULT_FAIL, build DownloadEndReason.NET_NOT_AVAILIABLE CALL_FAIL)
    else
      for_each_info (λ downloadId downloadInfo,
        let* threadMap := this_ threadMap_ in
        if bool_decide (is_Some (threadMap !! downloadId)) then ret tt
        else if DownloadInfo.IsCompleted downloadInfo then ret tt
        else
          let downloadInfo :=
            if DownloadInfo.IsPaused downloadInfo then DownloadInfo.set_status DownloadStatus.DOWNLOADING downloadInfo
            else downloadInfo in
          let downloadInfo := DownloadInfo.set_retryTimes 0 downloadInfo in
          set_info downloadId downloadInfo ;;;
          StartDownloadThread downloadInfo) ;;;
      ret (RESULT_OK, build DownloadEndReason.SUCCESS CALL_SUCCESS).

(*@ task/src/download_service.cpp DownloadService::Recover *)
Definition Recover (callback : option (DownloadCallbackInfo.t → ST (C * W) unit)) : Service unit :=
  let* ids := this_ serviceDownloadInfoMap_ in
  if bool_decide (ids = []) then ret tt
  else set_this (set_callback callback) ;;; NotifyRecoverCompleted.
(*@ task/src/download_service.cpp DownloadService::RemoveDownloadTask *)
Definition RemoveDownloadTask : Service unit :=
  set_this (set_callback None) ;;; set_this (set_map []).

(** The loop runs over [threadMap_] itself: a callback that erases the element of
    the current turn leaves an iterator that may not be advanced.  The result
    is [false] for this undefined behaviour. *)
(*@ task/src/download_service.cpp DownloadService::NetChangeToPause *)
Fixpoint NetChangeToPause_loop (downloadIds : list string) : Service bool :=
  match downloadIds with
  | [] => ret true
  | downloadId :: downloadIds =>
      let* threadMap := this_ threadMap_ in
      match threadMap !! downloadId with
      | None => ret tt
      | Some k =>
          on_thread k (DownloadThread.NetChangeToPause (Some (λ info, from_thread (CallbackUpdateDownloadProgress info))))
      end ;;;
      let* threadMap := this_ threadMap_ in
      if bool_decide (is_Some (threadMap !! downloadId)) then NetChangeToPause_loop downloadIds else ret false
  end.
(*@ task/src/download_service.cpp DownloadService::NetChangeToPause *)
Definition NetChangeToPause : Service bool :=
  let* threadMap := this_ threadMap_ in NetChangeToPause_loop (sorted_keys threadMap).
(*@ task/src/download_service.cpp DownloadService::NetChangeToStart *)
Definition NetChangeToStart : Service unit :=
  for_each_info (λ downloadId downloadInfo,
    if negb (DownloadInfo.status downloadInfo =? DownloadStatus.AUTO_PAUSE) ||
       negb (DownloadInfo.isNeedAutoResume downloadInfo) then ret tt
    else
      let* threadMap := this_ threadMap_ in
      if bool_decide (is_Some (threadMap !! downloadId)) then ret tt
      else StartDownloadThread downloadInfo).
(*@ task/src/download_service.cpp DownloadService::SetDisableCallbackFlag *)
Definition SetDisableCallbackFlag (flag : bool) : Service unit :=
  let* threadMap := this_ threadMap_ in
  for_each (sorted_keys threadMap) (λ downloadId,
    match threadMap !! downloadId with
    | None => ret tt
    | Some k => on_thread k (DownloadThread.SetDisableCallbackFlag flag ;;; ret RESULT_OK)
    end).
End ops.
End DownloadService.

(** ** Rules for the parts of the state *)
Section rules.
Context {R E C : Type} `{Rdb R, Platform E, ThreadKits E, ServiceKits E}.
#[local] Notation W := (Shared.t R E).
Import DownloadService.
Implicit Types (this : DownloadService.t C W) (s : DownloadService.t C W * (C * W)) (i : DownloadCallbackInfo.t).

Lemma wp_service_db {A} (m : ST (SqliteDb.t R) A) s (Q : A → _ → Prop) :
  Q (eval m (db s.2.2)) (s.1, (s.2.1, Shared.set_db (exec m (db s.2.2)) s.2.2)) → wp (on_db m) s Q.
Proof. unfold wp, eval, exec, on_db, on_world, Shared.on_db. by destruct (m _). Qed.
Lemma wp_service_env {A} (m : ST E A) s (Q : A → _ → Prop) :
  Q (eval m (env s.2.2)) (s.1, (s.2.1, Shared.set_env (exec m (env s.2.2)) s.2.2)) → wp (on_env m) s Q.
Proof. unfold wp, eval, exec, on_env, on_world, Shared.on_env. by destruct (m _). Qed.
Lemma wp_world {A} (f : W → A) s (Q : A → _ → Prop) : Q (f s.2.2) s → wp (world_ f) s Q.
Proof. intros HQ. apply wp_on_world, wp_gets. by destruct s as [this [c w]]. Qed.
Lemma wp_set_info id info s (Q : unit → _ → Prop) :
  Q tt (s.1, (s.2.1, Shared.set_info id info s.2.2)) → wp (set_info id info) s Q.
Proof. intros HQ. by apply wp_on_world, wp_modify. Qed.
Lemma wp_GetDownloadInfo id s (Q : option DownloadInfo.t → _ → Prop) :
  Q (if bool_decide (id ∈ serviceDownloadInfoMap_ s.1) then infos s.2.2 !! id else None) s → wp (GetDownloadInfo id) s Q.
Proof.
  intros HQ. unfold GetDownloadInfo. apply wp_bind, wp_this. case_bool_decide; [by apply wp_world|by apply wp_ret].
Qed.
(** What starting a thread for [info] leaves. *)
Definition started (info : DownloadInfo.t) s : DownloadService.t C W * (C * W) :=
  (set_threadMap (<[DownloadInfo.downloadId info := List.length (threads s.2.2)]> (threadMap_ s.1)) s.1,
   (s.2.1, Shared.set_threads (threads s.2.2 ++ [DownloadThread.new info (env s.2.2)]) s.2.2)).
Lemma wp_StartDownloadThread info s (Q : unit → _ → Prop) : Q tt (started info s) → wp (StartDownloadThread info) s Q.
Proof.
  intros HQ. unfold StartDownloadThread. apply wp_bind, wp_world, wp_bind, wp_on_world, wp_modify, wp_set_this. exact HQ.
Qed.
(** The state after [ClearPackage]. *)
Definition cleared_file (path : string) (e : E) : E :=
  if default false (lstat_regular e path) then exec (remove_file path) e else e.
Lemma wp_ClearPackage path s (Q : DownloadResult → _ → Prop) :
  (∀ r, Q r (s.1, (s.2.1, Shared.set_env (cleared_file path (env s.2.2)) s.2.2))) → wp (ClearPackage path) s Q.
Proof.
  intros HQ. destruct s as [this [c [d e l th]]]. unfold ClearPackage. apply wp_bind, wp_world. unfold cleared_file in HQ. cbn in *.
  destruct (lstat_regular e path) as [[]|]; cbn in *; [apply wp_bind, wp_service_env, wp_ret; apply HQ|by apply wp_ret..].
Qed.
End rules.

(** Walk through a method of the service. *)
Ltac serve :=
  lazymatch goal with
  | |- wp (bind _ _) _ _ => apply wp_bind
  | |- wp (ret _) _ _ => apply wp_ret
  | |- wp (this_ _) _ _ => apply wp_this
  | |- wp (set_this _) _ _ => apply wp_set_this
  | |- wp (DownloadService.world_ _) _ _ => apply wp_world
  | |- wp (DownloadService.on_db _) _ _ => apply wp_service_db
  | |- wp (DownloadService.set_info _ _) _ _ => apply wp_set_info
  | |- wp (DownloadService.GetDownloadInfo _) _ _ => apply wp_GetDownloadInfo
  | |- wp (DownloadService.StartDownloadThread _) _ _ => apply wp_StartDownloadThread
  | |- wp (DownloadService.ClearPackage _) _ _ => apply wp_ClearPackage; intros ?
  | |- wp (call (Some logged) _) _ _ => apply wp_logged
  end; cbv beta iota zeta; cbn [fst snd negb]; cbv iota.

(** ** A report of a thread *)
Section report_rules.
Context {R E C : Type} `{Rdb R, Platform E, ThreadKits E, ServiceKits E}.
Import DownloadService.
#[local] Notation W := (Shared.t R E).
#[local] Notation State := (DownloadService.t C W * (C * W))%type.
Implicit Types (s : State) (i : DownloadCallbackInfo.t) (info : DownloadInfo.t).

(** A thread that has ended leaves the map. *)
Definition threads_after i (m : gmap string nat) : gmap string nat :=
  if is_running (DownloadCallbackInfo.status i) then m else delete (DownloadCallbackInfo.downloadId i) m.
(** A failure that is not retried because of its reason removes the file. *)
Definition file_after i info (e : E) : E :=
  if (DownloadCallbackInfo.status i =? DownloadStatus.FAIL) && is_fatal (DownloadCallbackInfo.endReason i)
  then cleared_file (DownloadInfo.path info) e else e.
(** A cancelled package is about to leave the database. *)
Definition row_after i (d : SqliteDb.t R) info : SqliteDb.t R :=
  if DownloadCallbackInfo.status i =? DownloadStatus.CANCEL then d
  else exec (DownloadInfoOperator.UpdateProgressById info) d.

(** The package a report is about, as the service knows it. *)
Definition reports_on i info s : Prop :=
  DownloadCallbackInfo.downloadId i ∈ serviceDownloadInfoMap_ s.1 ∧
  infos s.2.2 !! DownloadCallbackInfo.downloadId i = Some info ∧
  DownloadInfo.downloadId info = DownloadCallbackInfo.downloadId i.

Lemma downloadId_retried r info : DownloadInfo.downloadId (retried r info) = DownloadInfo.downloadId info.
Proof. unfold retried. by destruct (_ || _). Qed.

(** A report that is recorded and told to the task. *)
Lemma wp_report f i info s (Q : unit → State → Prop) :
  reports_on i info s → onDownloadCallback_ s.1 = Some f →
  (isStopCallback_ s.1 = true → DownloadCallbackInfo.status i ≠ DownloadStatus.DOWNLOADING) →
  (let w := s.2.2 in let info' := DownloadInfo.UpdateDownloadInfo i info in
   wp (f i) (s.2.1, {| db := row_after i (db w) info'; env := env w;
           infos := <[DownloadCallbackInfo.downloadId i := info']> (infos w); threads := threads w |})
     (λ _ x, Q tt (s.1, x))) →
  wp (UpdateDownloadInfo i ;;; CallbackDownloadProgress i) s Q.
Proof.
  destruct s as [this [c w]]. intros (Hin & Hi & _) Hcb Hst HQ. cbn [fst snd] in *. unfold UpdateDownloadInfo. do 2 serve. serve.
  rewrite bool_decide_true by done. rewrite Hi. do 2 serve.
  assert ((DownloadCallbackInfo.status i =? DownloadStatus.DOWNLOADING) && isStopCallback_ this = false) as ->.
  { destruct (isStopCallback_ this); [|apply andb_false_r]. rewrite andb_true_r. by apply Z.eqb_neq, Hst. }
  do 2 serve. unfold row_after in HQ. unfold CallbackDownloadProgress.
  destruct (DownloadCallbackInfo.status i =? DownloadStatus.CANCEL); cbn [negb]; repeat serve; rewrite Hcb; apply wp_call; exact HQ.
Qed.

(** A report that is not a failure. *)
Lemma wp_progress_report f i info s (Q : unit → State → Prop) :
  reports_on i info s → onDownloadCallback_ s.1 = Some f →
  (isStopCallback_ s.1 = true → DownloadCallbackInfo.status i ≠ DownloadStatus.DOWNLOADING) →
  DownloadCallbackInfo.status i ≠ DownloadStatus.FAIL →
  (let w := s.2.2 in let info' := DownloadInfo.UpdateDownloadInfo i info in
   wp (f i) (s.2.1, {| db := row_after i (db w) info'; env := env w;
           infos := <[DownloadCallbackInfo.downloadId i := info']> (infos w); threads := threads w |})
     (λ _ x, Q tt (set_threadMap (threads_after i (threadMap_ s.1)) s.1, x))) →
  wp (UpdateDownloadProgress i) s Q.
Proof.
  destruct s as [this [c w]]. intros Hi Hcb Hst Hf HQ. unfold UpdateDownloadProgress. serve.
  apply (wp_mono _ _ (λ _ s', s' = (set_threadMap (threads_after i (threadMap_ this)) this, (c, w)))).
  2: { unfold threads_after. destruct this. destruct (is_running _); cbn [negb]; [by apply wp_ret|by apply wp_set_this]. }
  intros [] s' ->. rewrite (proj2 (Z.eqb_neq _ _) Hf). cbn [negb]. by apply (wp_report f _ info).
Qed.
(** The service knows every package of its map, by its own id. *)
Definition knows_packages s : Prop :=
  NoDup (serviceDownloadInfoMap_ s.1) ∧
  ∀ id, id ∈ serviceDownloadInfoMap_ s.1 → ∃ info, infos s.2.2 !! id = Some info ∧ DownloadInfo.downloadId info = id.

Lemma wp_for_each_info (I : list string → State → Prop) body s (Q : unit → State → Prop) :
  I [] s →
  (∀ l1 id l2 s', serviceDownloadInfoMap_ s.1 = l1 ++ id :: l2 → I l1 s' →
     match infos s'.2.2 !! id with
     | Some info => wp (body id info) s' (λ _ s'', I (l1 ++ [id]) s'')
     | None => I (l1 ++ [id]) s'
     end) →
  (∀ s', I (serviceDownloadInfoMap_ s.1) s' → Q tt s') → wp (for_each_info body) s Q.
Proof.
  intros H0' Hbody HQ. unfold for_each_info. apply wp_bind, wp_this.
  eapply (wp_for_each I); [done| |done]. intros l1 id l2 s' Hl HI. apply wp_bind, wp_world.
  specialize (Hbody l1 id l2 s' Hl HI). by destruct (infos s'.2.2 !! id).
Qed.
End report_rules.

Section reports.
Context {R E : Type} `{Rdb R, Platform E, ThreadKits E, ServiceKits E}.
Import DownloadService.
#[local] Notation C := (list DownloadCallbackInfo.t).
#[local] Notation W := (Shared.t R E).
#[local] Notation Service := (DownloadService.t C W).
#[local] Notation to_task := (Some (logged (B := DownloadCallbackInfo.t) (W := W))).
Implicit Types (this : Service) (s : Service * (C * W)) (i : DownloadCallbackInfo.t) (info : DownloadInfo.t).

(** Is the report answered by another attempt, and told to nobody? *)
Definition retries i info : bool :=
  (DownloadCallbackInfo.status i =? DownloadStatus.FAIL) && negb (is_fatal (DownloadCallbackInfo.endReason i)) &&
  DownloadInfo.IsRetryAble info MAX_RETRY_TIMES.
Definition told i info s : Service * (C * W) :=
  let w := s.2.2 in
  let info' := DownloadInfo.UpdateDownloadInfo i info in
  (set_threadMap (threads_after i (threadMap_ s.1)) s.1,
   (s.2.1 ++ [i], {| db := row_after i (db w) info'; env := file_after i info (env w);
                     infos := <[DownloadCallbackInfo.downloadId i := info']> (infos w); threads := threads w |})).
Definition attempted i info s : Service * (C * W) :=
  let w := s.2.2 in
  let info' := retried (DownloadCallbackInfo.endReason i) info in
  (set_threadMap (<[DownloadCallbackInfo.downloadId i := List.length (threads w)]> (threadMap_ s.1)) s.1,
   (s.2.1, {| db := exec (DownloadInfoOperator.UpdateRetryTimesById
                      (DownloadInfo.set_retryTimes (to_int32 (DownloadInfo.retryTimes info + 1)) info)) (db w);
              env := env w; infos := <[DownloadCallbackInfo.downloadId i := info']> (infos w);
              threads := threads w ++ [DownloadThread.new info' (env w)] |})).
Definition handled i info s : Service * (C * W) := if retries i info then attempted i info s else told i info s.

Lemma wp_UpdateDownloadProgress i info s :
  reports_on i info s → onDownloadCallback_ s.1 = to_task →
  (isStopCallback_ s.1 = true → DownloadCallbackInfo.status i ≠ DownloadStatus.DOWNLOADING) →
  wp (UpdateDownloadProgress i) s (λ _ s', s' = handled i info s).
Proof.
  destruct s as [this [c w]]. intros (Hin & Hi & Hid) Hcb Hst. cbn [fst snd] in *. unfold UpdateDownloadProgress. serve.
  apply (wp_mono _ _ (λ _ s', s' = (set_threadMap (threads_after i (threadMap_ this)) this, (c, w)))).
  2: { unfold threads_after. destruct this. destruct (is_running _); cbn [negb]; [by apply wp_ret|by apply wp_set_this]. }
  intros [] s' ->. unfold handled, retries.
  destruct (DownloadCallbackInfo.status i =? DownloadStatus.FAIL) eqn:Hf; cbn [negb andb];
    [|apply (wp_report logged _ info); [done|done|done|]; unfold told, file_after; by rewrite Hf].
  do 2 serve. cbn [serviceDownloadInfoMap_ set_threadMap]. rewrite bool_decide_true, Hi by done.
  destruct (is_fatal _) eqn:Hr; cbn [negb andb].
  { do 2 serve. apply (wp_report logged _ info); [done|done|done|]. unfold told, file_after. by rewrite Hf, Hr. }
  destruct (DownloadInfo.IsRetryAble info MAX_RETRY_TIMES); cbn [negb andb];
    [|apply (wp_report logged _ info); [done|done|done|]; unfold told, file_after; by rewrite Hf, Hr].
  unfold HandleRetry. do 3 serve. cbn [serviceDownloadInfoMap_ set_threadMap]. rewrite bool_decide_true, Hi by done.
  repeat serve. unfold attempted, started, threads_after. rewrite downloadId_retried, Hid.
  cbn [fst snd threadMap_ set_threadMap]. unfold is_running. breflect. rewrite Hf. cbn. by rewrite insert_delete_eq.
Qed.

(** What the service does with the report of a thread.  A failure that may be
    retried is told to nobody: the package counts one more attempt, in memory and
    in the database, changes to its other url if the reason was a redirection or
    a wrong size, and gets a new thread.  Every other report becomes the state of
    the package, in memory and in the database, and is passed on; if the thread has
    ended it is dropped, and if the reason is fatal the file is removed. *)
Theorem report_handled i info s :
  reports_on i info s → onDownloadCallback_ s.1 = to_task → isStopCallback_ s.1 = false →
  wp (CallbackUpdateDownloadProgress i) s (λ _ s',
    let id := DownloadCallbackInfo.downloadId i in
    let info' := retried (DownloadCallbackInfo.endReason i) info in
    if retries i info then
      s'.2.1 = s.2.1 ∧
      infos s'.2.2 = <[id := info']> (infos s.2.2) ∧
      threadMap_ s'.1 !! id = Some (List.length (threads s.2.2)) ∧
      threads s'.2.2 = threads s.2.2 ++ [DownloadThread.new info' (env s.2.2)] ∧
      db s'.2.2 = exec (DownloadInfoOperator.UpdateRetryTimesById
        (DownloadInfo.set_retryTimes (to_int32 (DownloadInfo.retryTimes info + 1)) info)) (db s.2.2)
    else
      s'.2.1 = s.2.1 ++ [i] ∧
      infos s'.2.2 = <[id := DownloadInfo.UpdateDownloadInfo i info]> (infos s.2.2) ∧
      threadMap_ s'.1 = threads_after i (threadMap_ s.1) ∧
      threads s'.2.2 = threads s.2.2 ∧
      db s'.2.2 = row_after i (db s.2.2) (DownloadInfo.UpdateDownloadInfo i info) ∧
      env s'.2.2 = file_after i info (env s.2.2)).
Proof.
  intros Hi Hcb Hst. unfold CallbackUpdateDownloadProgress. apply wp_bind, wp_this. rewrite Hst.
  eapply wp_mono; [|apply (wp_UpdateDownloadProgress i info); [done|done|by rewrite Hst]].
  intros [] s' ->. unfold handled. cbv zeta. destruct (retries i info); split_and!; try done. apply lookup_insert_eq.
Qed.

(** *** A series of reports

    The attempts behind each package, the reports that come, those that are told to the task, the packages that
    get another attempt, and the attempts behind each package afterwards. *)
Definition retry_failure i : Prop :=
  DownloadCallbackInfo.status i = DownloadStatus.FAIL ∧
  DownloadCallbackInfo.endReason i ≠ DownloadEndReason.IO_EXCEPTION ∧ DownloadCallbackInfo.endReason i ≠ DownloadEndReason.VERIFY_FAIL.
Inductive course : (string → Z) → list DownloadCallbackInfo.t → list DownloadCallbackInfo.t → list string → (string → Z) → Prop :=
  | course_nil r r' : (∀ id, r' id = r id) → course r [] [] [] r'
  | course_again r i reports told again r' :
      let id := DownloadCallbackInfo.downloadId i in
      retry_failure i → r id < 3 → course (<[id := r id + 1]> r) reports told again r' → course r (i :: reports) told (id :: again) r'
  | course_told r i reports told again r' :
      let id := DownloadCallbackInfo.downloadId i in
      ¬ (retry_failure i ∧ r id < 3) →
      course (if DownloadCallbackInfo.resetRetryTimes i then <[id := 0]> r else r) reports told again r' →
      course r (i :: reports) (i :: told) again r'.
(** The service is at work, and [r] says how many attempts each of its packages has behind it. *)
Definition trying (r : string → Z) s : Prop :=
  onDownloadCallback_ s.1 = to_task ∧ isStopCallback_ s.1 = false ∧
  ∀ id, id ∈ serviceDownloadInfoMap_ s.1 → ∃ info,
    infos s.2.2 !! id = Some info ∧ DownloadInfo.downloadId info = id ∧ DownloadInfo.retryTimes info = r id ∧ 0 ≤ r id ≤ 3.
Definition thread_ids s : list string := map (λ th, DownloadInfo.downloadId (DownloadThread.downloadInfo_ th)) (threads s.2.2).

Lemma retries_spec i info : retries i info = true ↔ retry_failure i ∧ DownloadInfo.retryTimes info < 3.
Proof.
  unfold retries, retry_failure, is_fatal, DownloadInfo.IsRetryAble, MAX_RETRY_TIMES.
  rewrite !andb_true_iff, negb_true_iff, orb_false_iff, !Z.eqb_neq, Z.eqb_eq, Z.ltb_lt. tauto.
Qed.
Lemma report_counted i r s :
  trying r s → DownloadCallbackInfo.downloadId i ∈ serviceDownloadInfoMap_ s.1 →
  wp (CallbackUpdateDownloadProgress i) s (λ _ s',
    let id := DownloadCallbackInfo.downloadId i in
    serviceDownloadInfoMap_ s'.1 = serviceDownloadInfoMap_ s.1 ∧
    ((retry_failure i ∧ r id < 3) ∧ trying (<[id := r id + 1]> r) s' ∧ s'.2.1 = s.2.1 ∧ thread_ids s' = thread_ids s ++ [id] ∨
     ¬ (retry_failure i ∧ r id < 3) ∧ trying (if DownloadCallbackInfo.resetRetryTimes i then <[id := 0]> r else r) s' ∧
       s'.2.1 = s.2.1 ++ [i] ∧ thread_ids s' = thread_ids s)).
Proof.
  intros (Hcb & Hst & Hall) Hin. destruct (Hall _ Hin) as (info & Hi & Hid & Hr & Hmax). unfold CallbackUpdateDownloadProgress.
  apply wp_bind, wp_this. rewrite Hst.
  eapply wp_mono; [|apply (wp_UpdateDownloadProgress i info); [by split_and!|done|by rewrite Hst]].
  intros [] s' ->. unfold handled. pose proof (retries_spec i info) as Hspec. rewrite Hr in Hspec. cbv zeta.
  assert (∀ f info', DownloadInfo.downloadId info' = DownloadCallbackInfo.downloadId i →
    DownloadInfo.retryTimes info' = f (DownloadCallbackInfo.downloadId i) → 0 ≤ f (DownloadCallbackInfo.downloadId i) ≤ 3 →
    (∀ id, id ≠ DownloadCallbackInfo.downloadId i → f id = r id) → ∀ id, id ∈ serviceDownloadInfoMap_ s.1 → ∃ info0,
      <[DownloadCallbackInfo.downloadId i := info']> (infos s.2.2) !! id = Some info0 ∧ DownloadInfo.downloadId info0 = id ∧
      DownloadInfo.retryTimes info0 = f id ∧ 0 ≤ f id ≤ 3) as Hupd.
  { intros f info' Hid' Hr' Hf Hother id Hid0. destruct (decide (id = DownloadCallbackInfo.downloadId i)) as [->|Hne].
    - exists info'. by rewrite lookup_insert_eq.
    - rewrite lookup_insert_ne by done. destruct (Hall id Hid0) as (info0 & ? & ? & ? & ?). exists info0. by rewrite Hother. }
  destruct (retries i info); (split; [done|]); [left|right].
  - destruct (proj1 Hspec eq_refl) as [Hf Hlt]. split; [done|]. split; [split_and!; [done..|]|split; [done|]].
    + apply Hupd; [by rewrite downloadId_retried| | |].
      * rewrite fn_lookup_insert. unfold retried. rewrite Hr, to_int32_id by (unfold_widths; lia). by destruct (_ || _).
      * rewrite fn_lookup_insert. lia.
      * intros id Hne. by rewrite fn_lookup_insert_ne.
    + unfold thread_ids, attempted. cbn. rewrite map_app. cbn. by rewrite downloadId_retried, Hid.
  - split; [by rewrite <- Hspec|]. split; [split_and!; [done..|]|done].
    apply Hupd; [done| | |].
    + cbn. destruct (DownloadCallbackInfo.resetRetryTimes i); [by rewrite fn_lookup_insert|done].
    + destruct (DownloadCallbackInfo.resetRetryTimes i); [by rewrite fn_lookup_insert|done].
    + intros id Hne. destruct (DownloadCallbackInfo.resetRetryTimes i); [by rewrite fn_lookup_insert_ne|done].
Qed.
Lemma reports_counted reports r s :
  trying r s → Forall (λ i, DownloadCallbackInfo.downloadId i ∈ serviceDownloadInfoMap_ s.1) reports →
  wp (for_each reports CallbackUpdateDownloadProgress) s (λ _ s', ∃ told again r',
    course r reports told again r' ∧ trying r' s' ∧ s'.2.1 = s.2.1 ++ told ∧ thread_ids s' = thread_ids s ++ again).
Proof.
  revert r s. induction reports as [|i reports IH]; intros r s Hs Hin.
  - apply wp_ret. exists [], [], r. rewrite !app_nil_r. split_and!; [by constructor|done..].
  - apply Forall_cons in Hin as [Hi Hin].
    cbn [for_each]. apply (wp_bind (CallbackUpdateDownloadProgress i) (λ _, for_each reports CallbackUpdateDownloadProgress)).
    eapply wp_mono; [|by apply report_counted]. intros [] s1 (Hmap & [((Hf & Hlt) & Hs1 & Hl1 & Ht1)|(Hno & Hs1 & Hl1 & Ht1)]);
      (eapply wp_mono; [|apply (IH _ s1 Hs1); by rewrite Hmap]); intros [] s2 (told & again & r' & Hc & Hs2 & Hl2 & Ht2).
    + exists told, (DownloadCallbackInfo.downloadId i :: again), r'. split_and!; [by constructor|done|by rewrite Hl2, Hl1|].
      rewrite Ht2, Ht1, <- app_assoc. done.
    + exists (i :: told), again, r'. split_and!; [by constructor|done| |by rewrite Ht2, Ht1].
      rewrite Hl2, Hl1, <- app_assoc. done.
Qed.
(** The attempts of a package, and the reports that allow three more of them. *)
Definition attempts_of (id : string) (again : list string) : Z := Z.of_nat (List.length (filter (λ x, x = id) again)).
Definition resets_of (id : string) (reports : list DownloadCallbackInfo.t) : Z :=
  Z.of_nat (List.length (filter (λ i, DownloadCallbackInfo.downloadId i = id ∧ DownloadCallbackInfo.resetRetryTimes i = true) reports)).
Lemma course_all r reports told again r' :
  course r reports told again r' → told `sublist_of` reports ∧ (List.length told + List.length again)%nat = List.length reports.
Proof.
  induction 1 as [r r' Hr'|r i reports told again r' id' Hf Hlt _ [Hs Hl]|r i reports told again r' id' Hno _ [Hs Hl]]; cbn [List.length];
    (split; [|lia]); by constructor.
Qed.
Lemma course_bounded r reports told again r' id :
  course r reports told again r' → 0 ≤ r id ≤ 3 → attempts_of id again ≤ 3 - r id + 3 * resets_of id told.
Proof.
  unfold attempts_of, resets_of. induction 1 as [r r' Hr'|r i reports told again r' id' Hf Hlt _ IH|r i reports told again r' id' Hno _ IH]; intros Hr.
  - cbn. lia.
  - rewrite filter_cons. destruct (decide (id' = id)) as [->|Hne].
    + rewrite !fn_lookup_insert in IH. cbn [List.length]. specialize (IH ltac:(lia)). lia.
    + rewrite !fn_lookup_insert_ne in IH by done. by apply IH.
  - rewrite filter_cons. destruct (decide (DownloadCallbackInfo.downloadId i = id ∧ DownloadCallbackInfo.resetRetryTimes i = true)) as [[Hi Hreset]|Hnot].
    + rewrite Hreset in IH. unfold id' in *. rewrite Hi, !fn_lookup_insert in IH. cbn [List.length]. specialize (IH ltac:(lia)). lia.
    + assert ((if DownloadCallbackInfo.resetRetryTimes i then <[id':=0]> r else r) id = r id) as Heq.
      { destruct (DownloadCallbackInfo.resetRetryTimes i) eqn:Hreset; [|done]. apply fn_lookup_insert_ne. intros Hi. by destruct Hnot. }
      rewrite Heq in IH. by apply IH.
Qed.

(** C19: whatever the threads of the packages of a task report between two requests of its owner: a failure that may be retried, while its package has less
    than three attempts behind it, is told to nobody and leads to one more attempt; every other report is told to the task,
    in order, so after three attempts every failure is.  A report of a progress that resets the count allows
    three more: the attempts of a package are at most three, less those behind it already, and three more for each report that is told and
    resets the count.  Every report is either told or leads to an attempt, so there are no others. *)
Theorem retries_bounded reports r s :
  trying r s → Forall (λ i, DownloadCallbackInfo.downloadId i ∈ serviceDownloadInfoMap_ s.1) reports →
  wp (for_each reports CallbackUpdateDownloadProgress) s (λ _ s', ∃ told again r',
    s'.2.1 = s.2.1 ++ told ∧ thread_ids s' = thread_ids s ++ again ∧ trying r' s' ∧ course r reports told again r' ∧
    told `sublist_of` reports ∧ (List.length told + List.length again)%nat = List.length reports ∧
    ∀ id, id ∈ serviceDownloadInfoMap_ s.1 → attempts_of id again ≤ 3 - r id + 3 * resets_of id told).
Proof.
  intros Hs Hin. eapply wp_mono; [|by apply (reports_counted reports r)]. intros [] s' (told & again & r' & Hc & Hs' & Hl & Ht).
  destruct (course_all _ _ _ _ _ Hc) as [Hsub Hlen]. exists told, again, r'. split_and!; [done..|].
  intros id Hid. apply (course_bounded _ _ _ _ _ _ Hc). by destruct Hs as (_ & _ & Hall), (Hall id Hid) as (? & _ & _ & _ & ?).
Qed.
End reports.

(** ** Pausing a task *)
Lemma sorted_keys_spec {A} (m : gmap string A) id : id ∈ sorted_keys m ↔ is_Some (m !! id).
Proof.
  unfold sorted_keys. rewrite (merge_sort_Permutation String.le). rewrite list_elem_of_fmap. split.
  - intros ([k x] & -> & Hx). apply elem_of_map_to_list in Hx. cbn. by eexists.
  - intros [x Hx]. exists (id, x). split; [done|]. by apply elem_of_map_to_list.
Qed.

Section threads_of.
Context {R E C : Type} `{Rdb R, Platform E, ThreadKits E, ServiceKits E}.
Import DownloadService.
#[local] Notation W := (Shared.t R E).
Implicit Types (s : DownloadService.t C W * (C * W)).

Lemma wp_on_thread k (m : ST (DownloadThread.t * (DownloadService.t C W * C * W)) DownloadResult) s th (Q : unit → DownloadService.t C W * (C * W) → Prop) :
  threads s.2.2 !! k = Some th →
  wp m (th, (s.1, s.2.1, s.2.2)) (λ _ x,
    Q tt (x.2.1.1, (x.2.1.2, Shared.set_threads (<[k := x.1]> (threads x.2.2)) x.2.2))) →
  wp (on_thread k m) s Q.
Proof. intros Hk Hm. unfold wp, exec, eval, on_thread in *. by rewrite Hk. Qed.
Lemma wp_on_no_thread k (m : ST (DownloadThread.t * (DownloadService.t C W * C * W)) DownloadResult) s (Q : unit → DownloadService.t C W * (C * W) → Prop) : threads s.2.2 !! k = None → Q tt s → wp (on_thread k m) s Q.
Proof. intros Hk HQ. unfold wp, exec, eval, on_thread. by rewrite Hk. Qed.

(** A method of a thread that only touches the thread, on every thread of the map. *)
Definition only_thread (f : DownloadThread.t → DownloadThread.t)
    (m : ST (DownloadThread.t * (DownloadService.t C W * C * W)) DownloadResult) : Prop :=
  ∀ th x, exec m (th, x) = (f th, x).
Lemma wp_each_thread f m (tm : gmap string nat) s (Q : unit → _ → Prop) :
  only_thread f m → (∀ th, f (f th) = f th) →
  (∀ ths, List.length ths = List.length (threads s.2.2) →
     (∀ k th, threads s.2.2 !! k = Some th → ths !! k = Some th ∨ ths !! k = Some (f th)) →
     (∀ id k th, tm !! id = Some k → threads s.2.2 !! k = Some th → ths !! k = Some (f th)) →
     Q tt (s.1, (s.2.1, Shared.set_threads ths s.2.2))) →
  wp (for_each (sorted_keys tm) (λ id, match tm !! id with None => ret tt | Some k => on_thread k m end)) s Q.
Proof.
  intros Hm Hf HQ. destruct s as [this [c [d e l ths0]]]. cbn [fst snd threads] in *.
  eapply (wp_for_each (λ l1 s', ∃ ths, s' = (this, (c, {| db := d; env := e; infos := l; threads := ths |})) ∧
    List.length ths = List.length ths0 ∧ (∀ k th, ths0 !! k = Some th → ths !! k = Some th ∨ ths !! k = Some (f th)) ∧
    ∀ id k th, id ∈ l1 → tm !! id = Some k → ths0 !! k = Some th → ths !! k = Some (f th))).
  - exists ths0. split_and!; [done|done|by left|]. intros id k th Hid. by apply not_elem_of_nil in Hid.
  - intros l1 id l2 s' _ (ths & -> & Hlen & Hor & Hdone).
    destruct (tm !! id) as [k|] eqn:Hid.
    2: { apply wp_ret. exists ths. split_and!; [done..|]. intros id' k' th Hin Hk'. apply elem_of_app in Hin as [?|Hin]; [by eapply Hdone|].
         apply list_elem_of_singleton in Hin as ->. congruence. }
    destruct (ths !! k) as [th|] eqn:Hk.
    2: { apply wp_on_no_thread; [done|]. exists ths. split_and!; [done..|]. intros id' k' th' Hin Hk' Hth'.
         apply elem_of_app in Hin as [?|Hin]; [by eapply Hdone|]. apply list_elem_of_singleton in Hin as ->.
         simplify_eq. apply lookup_lt_Some in Hth'. apply lookup_ge_None in Hk. lia. }
    eapply wp_on_thread; [exact Hk|]. unfold wp. rewrite Hm. cbn [fst snd threads Shared.set_threads].
    exists (<[k := f th]> ths). split_and!; [done|by rewrite length_insert| |].
    + intros k' th' Hk'. destruct (decide (k' = k)) as [->|?]; [|rewrite list_lookup_insert_ne by done; by apply Hor].
      rewrite list_lookup_insert_eq by (by eapply lookup_lt_Some). destruct (Hor _ _ Hk'); right; by simplify_eq; rewrite ?Hf.
    + intros id' k' th' Hin Hk' Hth'. destruct (decide (k' = k)) as [->|?].
      * rewrite list_lookup_insert_eq by (by eapply lookup_lt_Some). destruct (Hor _ _ Hth'); by simplify_eq; rewrite ?Hf.
      * rewrite list_lookup_insert_ne by done. apply elem_of_app in Hin as [?|Hin]; [by eapply Hdone|].
        apply list_elem_of_singleton in Hin as ->. congruence.
  - intros s' (ths & -> & Hlen & Hor & Hdone). apply HQ; [done|done|]. intros id k th Hk. apply (Hdone id); [|done].
    apply sorted_keys_spec. by eexists.
Qed.

Definition stopped (th : DownloadThread.t) : DownloadThread.t :=
  DownloadThread.set_isNeedStop true (DownloadThread.set_isNeedCancel true th).
Lemma only_Stop : only_thread stopped DownloadThread.Stop.
Proof. intros th x. unfold DownloadThread.Stop. by st_simpl. Qed.
End threads_of.

Section pausing.
Context {R E : Type} `{Rdb R, Platform E, ThreadKits E, ServiceKits E}.
Import DownloadService.
#[local] Notation C := (list DownloadCallbackInfo.t).
#[local] Notation W := (Shared.t R E).
#[local] Notation Service := (DownloadService.t C W).
#[local] Notation to_task := (Some (logged (B := DownloadCallbackInfo.t) (W := W))).
Implicit Types (this : Service) (s : Service * (C * W)) (i : DownloadCallbackInfo.t) (info : DownloadInfo.t).

(** The report of a pause: the times have their default values. *)
Definition pause_report info : DownloadCallbackInfo.t :=
  own_report info default_endTime DownloadStatus.PAUSE DownloadEndReason.PAUSE.
Definition paused info : DownloadInfo.t := DownloadInfo.UpdateDownloadInfo (pause_report info) info.

Lemma wp_NotifyPauseCompleted s :
  knows_packages s → onDownloadCallback_ s.1 = to_task → threadMap_ s.1 = ∅ → isStopCallback_ s.1 = true →
  wp NotifyPauseCompleted s (λ _ s', s'.1 = s.1 ∧
    s'.2.1 = s.2.1 ++ omap (λ id, pause_report <$> infos s.2.2 !! id) (serviceDownloadInfoMap_ s.1) ∧
    threads s'.2.2 = threads s.2.2 ∧ env s'.2.2 = env s.2.2 ∧
    ∀ id, infos s'.2.2 !! id =
      (if decide (id ∈ serviceDownloadInfoMap_ s.1) then paused <$> infos s.2.2 !! id else infos s.2.2 !! id)).
Proof.
  destruct s as [this [log w]]. cbn [fst snd]. intros (Hnd & Hk) Hcb Htm Hst. cbn [fst snd] in *.
  apply (wp_for_each_info (λ l1 s', s'.1 = this ∧
    s'.2.1 = log ++ omap (λ id, pause_report <$> infos w !! id) l1 ∧
    threads s'.2.2 = threads w ∧ env s'.2.2 = env w ∧
    ∀ id, infos s'.2.2 !! id = if decide (id ∈ l1) then paused <$> infos w !! id else infos w !! id)).
  - cbn. rewrite app_nil_r. split_and!; [done..|]. intros id. rewrite decide_False by apply not_elem_of_nil. done.
  - intros l1 id l2 [this' [log' w']] Hl (Hthis & Hlog & Hths & Henv & Hinfos). cbn [fst snd] in *. subst this'.
    assert (id ∉ l1) as Hnot by (rewrite Hl in Hnd; apply NoDup_app in Hnd as (_ & Hd & _); intros Hin; apply (Hd id Hin); left).
    destruct (Hk id) as (info & Hi & Hid); [rewrite Hl; set_solver|]. rewrite Hinfos, decide_False, Hi by done.
    eapply wp_mono; [|apply (wp_UpdateDownloadProgress (pause_report info) info); [|done|done]].
    2: { unfold reports_on. cbn. rewrite Hid, Hinfos, decide_False by done. split_and!; [rewrite Hl; set_solver|done|done]. }
    intros [] s' ->. unfold handled, retries. cbn [fst snd told]. unfold told, threads_after.
    change (is_running (DownloadCallbackInfo.status (pause_report info))) with false. cbv zeta iota. cbn [fst snd threads env infos].
    rewrite Htm, delete_empty. split_and!.
    + destruct this. cbn in *. by rewrite Htm.
    + rewrite Hlog, omap_app. cbn. rewrite Hi. cbn. by rewrite <- app_assoc.
    + exact Hths.
    + exact Henv.
    + intros id'. cbn [DownloadCallbackInfo.downloadId pause_report own_report]. unfold pause_report, own_report at 1. cbn. rewrite Hid.
      destruct (decide (id' = id)) as [->|Hne].
      * rewrite lookup_insert_eq, decide_True, Hi by set_solver. done.
      * rewrite lookup_insert_ne, Hinfos by done. do 2 case_decide; [done|set_solver..|done].
  - intros s' Hs'. exact Hs'.
Qed.

(** C20: [Pause] tells the task of every package that it is paused, the completed
    ones included; no package has a thread afterwards, every thread it had is
    asked to stop, and no report of a thread is heard any more.  The times that
    were recorded for the packages are lost. *)
Theorem pause_silences s :
  knows_packages s → onDownloadCallback_ s.1 = to_task →
  wp Pause s (λ r s',
    r = (RESULT_OK, DownloadError.build DownloadEndReason.SUCCESS CALL_SUCCESS) ∧
    s'.2.1 = s.2.1 ++ omap (λ id, pause_report <$> infos s.2.2 !! id) (serviceDownloadInfoMap_ s.1) ∧
    threadMap_ s'.1 = ∅ ∧
    (∀ id k th, threadMap_ s.1 !! id = Some k → threads s.2.2 !! k = Some th →
       ∃ th', threads s'.2.2 !! k = Some th' ∧ DownloadThread.isNeedCancel_ th' = true ∧ DownloadThread.isNeedStop_ th' = true) ∧
    (∀ id info, id ∈ serviceDownloadInfoMap_ s.1 → infos s'.2.2 !! id = Some info →
       DownloadInfo.status info = DownloadStatus.PAUSE ∧
       DownloadInfo.startTime info = 0 ∧ DownloadInfo.effectiveTime info = 0) ∧
    (∀ i, wp (CallbackUpdateDownloadProgress i) s' (λ _ s'', s'' = s'))).
Proof.
  intros Hk Hcb. unfold Pause, StopAllDownloadThread. do 2 apply wp_bind. apply wp_set_this. apply wp_bind, wp_this, wp_bind.
  eapply wp_each_thread; [apply only_Stop|done|]. intros ths Hlen Hor Hths. apply wp_set_this, wp_bind. cbn [fst snd] in *.
  eapply wp_mono; [|apply wp_NotifyPauseCompleted; try done]. intros [] s' (Hthis & Hlog & Hths' & _ & Hinfos). apply wp_ret.
  cbn [fst snd infos threads Shared.set_threads serviceDownloadInfoMap_ set_threadMap set_isStopCallback threadMap_] in *. split_and!.
  - done.
  - exact Hlog.
  - by rewrite Hthis.
  - intros id k th Hid Hth. exists (stopped th). split_and!; [|done..]. rewrite Hths'. by eapply Hths.
  - intros id info Hin Hi. rewrite Hinfos, decide_True in Hi by done. destruct (infos s.2.2 !! id); [|done]. by simplify_eq/=.
  - intros i. unfold CallbackUpdateDownloadProgress. apply wp_bind, wp_this. rewrite Hthis. cbn. by apply wp_ret.
Qed.
End pausing.

(** ** Losing the network *)
Lemma sorted_keys_NoDup {A} (m : gmap string A) : NoDup (sorted_keys m).
Proof. unfold sorted_keys. rewrite (merge_sort_Permutation String.le). apply NoDup_fst_map_to_list. Qed.

Section net_lost.
Context {R E C : Type} `{Rdb R, Platform E, ThreadKits E, ServiceKits E}.
Import DownloadService.
#[local] Notation W := (Shared.t R E).
#[local] Notation State := (DownloadService.t C W * (C * W))%type.

(** The threads of the map are there, each for its own package. *)
Definition threads_wf (m : gmap string nat) (ths : list DownloadThread.t) : Prop :=
  ∀ id k, m !! id = Some k →
    ∃ th, ths !! k = Some th ∧ DownloadInfo.downloadId (DownloadThread.downloadInfo_ th) = id.
Definition queued (th : DownloadThread.t) : Prop := DownloadThread.status_ th = DownloadStatus.INIT.
(** A thread that is downloading is asked to stop and to report an automatic pause. *)
Definition net_paused (th : DownloadThread.t) : DownloadThread.t :=
  if DownloadThread.status_ th =? DownloadStatus.DOWNLOADING
  then DownloadThread.set_isNeedStop true (DownloadThread.set_isNeedAutoPause true th) else th.
Lemma net_paused_package th : DownloadThread.downloadInfo_ (net_paused th) = DownloadThread.downloadInfo_ th.
Proof. unfold net_paused. by case_if. Qed.

(** A report that ends a thread takes it out of the map, whatever the task does with it. *)
Lemma ended_leaves_map i (s : State) :
  isStopCallback_ s.1 = false → is_running (DownloadCallbackInfo.status i) = false →
  DownloadCallbackInfo.status i ≠ DownloadStatus.FAIL →
  wp (CallbackUpdateDownloadProgress i) s (λ _ s', threadMap_ s'.1 !! DownloadCallbackInfo.downloadId i = None).
Proof.
  destruct s as [this [c w]]. cbn [fst]. intros Hst Hrun Hf. unfold CallbackUpdateDownloadProgress, UpdateDownloadProgress, RemoveThread.
  do 2 serve. rewrite Hst. cbv iota. rewrite Hrun. cbn [negb]. serve. serve. rewrite (proj2 (Z.eqb_neq _ _) Hf). cbn [negb]. serve.
  assert (∀ s' : State, threadMap_ s'.1 !! DownloadCallbackInfo.downloadId i = None →
    wp (CallbackDownloadProgress i) s' (λ _ s'', threadMap_ s''.1 !! DownloadCallbackInfo.downloadId i = None)) as Hcall.
  { intros s' Hs'. unfold CallbackDownloadProgress. do 2 serve. unfold call. destruct (onDownloadCallback_ _) as [f|]; [|done].
    unfold wp, exec, eval, on_owner. by destruct (f i s'.2). }
  unfold UpdateDownloadInfo. do 2 serve. destruct (if bool_decide _ then _ else _).
  - do 2 serve. destruct (_ && _); [serve; apply Hcall, lookup_delete_eq|]. do 2 serve.
    destruct (_ =? DownloadStatus.CANCEL); cbn [negb]; repeat serve; apply Hcall, lookup_delete_eq.
  - serve. apply Hcall, lookup_delete_eq.
Qed.

#[local] Notation pause_thread :=
  (DownloadThread.NetChangeToPause (Some (λ info, from_thread (C := C) (E := E) (R := R) (CallbackUpdateDownloadProgress info)))).
Lemma wp_pause_thread k th (s : State) :
  threads s.2.2 !! k = Some th → isStopCallback_ s.1 = false →
  wp (on_thread k pause_thread) s (λ _ s',
    if DownloadThread.status_ th =? DownloadStatus.INIT
    then threadMap_ s'.1 !! DownloadInfo.downloadId (DownloadThread.downloadInfo_ th) = None
    else s' = (s.1, (s.2.1, Shared.set_threads (<[k := net_paused th]> (threads s.2.2)) s.2.2))).
Proof.
  destruct s as [this [c w]]. cbn [fst snd]. intros Hk Hst. eapply wp_on_thread; [exact Hk|]. unfold DownloadThread.NetChangeToPause, net_paused.
  cbn [fst snd]. apply wp_bind, wp_this. cbn [fst]. destruct (DownloadThread.status_ th =? DownloadStatus.INIT) eqn:Hinit.
  - apply wp_bind. unfold DownloadThread.CallbackDownload. apply wp_bind, wp_on_world, wp_gets, wp_bind, wp_this, wp_bind. cbn [fst snd].
    match goal with |- wp _ _ ?Q => assert (∀ th', DownloadThread.downloadInfo_ th' = DownloadThread.downloadInfo_ th → Q tt (th', (this, c, w))) as HQ end.
    { intros th' Hth'. cbv beta. apply wp_bind, wp_this, wp_bind, wp_set_this. cbn [fst snd]. set (i := DownloadThread.report_info _ _ _ _ _).
      assert (DownloadCallbackInfo.downloadId i = DownloadInfo.downloadId (DownloadThread.downloadInfo_ th)) as <- by (cbn; by rewrite Hth').
      unfold call, on_owner, from_thread, wp, exec, eval. cbn [fst snd].
      by apply (ended_leaves_map i (this, (c, w))). }
    destruct (0 <? _); [apply wp_set_this|apply wp_ret]; by apply HQ.
  - destruct (DownloadThread.status_ th =? DownloadStatus.DOWNLOADING); cbn [negb]; repeat (apply wp_bind || apply wp_set_this || apply wp_ret); done.
Qed.

Lemma wp_NetChangeToPause_loop ids (s : State) :
  threads_wf (threadMap_ s.1) (threads s.2.2) → NoDup ids → (∀ id, id ∈ ids → is_Some (threadMap_ s.1 !! id)) →
  isStopCallback_ s.1 = false →
  wp (NetChangeToPause_loop ids) s (λ defined s',
    if defined : bool then
      (∀ id k th, id ∈ ids → threadMap_ s.1 !! id = Some k → threads s.2.2 !! k = Some th →
         ¬ queued th ∧ threads s'.2.2 !! k = Some (net_paused th)) ∧
      (∀ k th, (∀ id, id ∈ ids → threadMap_ s.1 !! id ≠ Some k) → threads s.2.2 !! k = Some th → threads s'.2.2 !! k = Some th) ∧
      s' = (s.1, (s.2.1, Shared.set_threads (threads s'.2.2) s.2.2))
    else ∃ id k th, id ∈ ids ∧ threadMap_ s.1 !! id = Some k ∧ threads s.2.2 !! k = Some th ∧ queued th).
Proof.
  revert s. induction ids as [|id ids IH]; intros [this [c w]] Hwf Hnd Hin Hst; cbn [fst snd] in *.
  { apply wp_ret. split_and!; [by intros ??? ?%not_elem_of_nil|done|]. by destruct w. }
  apply NoDup_cons in Hnd as [Hid Hnd]. destruct (Hin id) as [k Hk]; [by left|].
  destruct (Hwf id k Hk) as (th & Hth & Hown). cbn [NetChangeToPause_loop]. apply wp_bind, wp_bind, wp_this. cbn [fst]. rewrite Hk.
  eapply wp_mono; [|by apply (wp_pause_thread k th)]. intros [] s1 Hs1. apply wp_bind, wp_this.
  destruct (DownloadThread.status_ th =? DownloadStatus.INIT) eqn:Hinit; breflect.
  { rewrite bool_decide_false by (rewrite <- Hown, Hs1; by intros [? ?]). apply wp_ret. exists id, k, th.
    split_and!; [by left|done..]. }
  subst s1. cbn [fst snd]. rewrite bool_decide_true by by eexists.
  assert (∀ id' k', id' ∈ ids → threadMap_ this !! id' = Some k' → k' ≠ k) as Hne.
  { intros id' k' Hin' Hk' ->. destruct (Hwf id' k Hk') as (th' & Hth' & Hown'). by simplify_eq. }
  eapply wp_mono; [|apply IH]; cbn [fst snd threads Shared.set_threads].
  - intros [] s2; [intros (Hdone & Hrest & Hs2)|].
    + split_and!.
      * intros id' k' th' [->|Hin']%elem_of_cons Hk' Hth'.
        -- simplify_eq. split; [exact Hinit|]. apply Hrest; [|apply list_lookup_insert_eq; by eapply lookup_lt_Some].
           intros id2 Hin2 Hk2. by eapply Hne.
        -- apply (Hdone id' k' th'); [done|done|]. by rewrite list_lookup_insert_ne by (intros ->; by eapply Hne).
      * intros k' th' Hk' Hth'. apply Hrest; [intros id' Hin'; apply Hk'; by right|].
        rewrite list_lookup_insert_ne; [done|]. intros ->. apply (Hk' id); [by left|done].
      * rewrite Hs2. by cbn.
    + intros (id' & k' & th' & Hin' & Hk' & Hth' & Hq). exists id', k', th'. split_and!; [by right|done| |done].
      rewrite list_lookup_insert_ne in Hth'; [done|]. intros ->. by eapply Hne.
  - intros id' k' Hk'. destruct (Hwf id' k' Hk') as (th' & Hth' & Hown'). destruct (decide (k' = k)) as [->|?].
    + exists (net_paused th). rewrite list_lookup_insert_eq by (by eapply lookup_lt_Some). split; [done|].
      rewrite net_paused_package. by simplify_eq.
    + exists th'. by rewrite list_lookup_insert_ne.
  - done.
  - intros id' Hin'. apply Hin. by right.
  - done.
Qed.

(** Losing the network pauses the threads that are downloading and leaves the
    others alone, provided that no thread is still queued; a queued thread answers
    at once, its report takes it out of the map the loop is running over, and the
    behaviour of the loop is undefined. *)
Theorem net_pause_defined (s : State) :
  threads_wf (threadMap_ s.1) (threads s.2.2) → isStopCallback_ s.1 = false →
  wp NetChangeToPause s (λ defined s',
    if defined : bool then
      (∀ id k th, threadMap_ s.1 !! id = Some k → threads s.2.2 !! k = Some th →
         ¬ queued th ∧ threads s'.2.2 !! k = Some (net_paused th)) ∧
      s' = (s.1, (s.2.1, Shared.set_threads (threads s'.2.2) s.2.2))
    else ∃ id k th, threadMap_ s.1 !! id = Some k ∧ threads s.2.2 !! k = Some th ∧ queued th).
Proof.
  intros Hwf Hst. unfold NetChangeToPause. apply wp_bind, wp_this.
  eapply wp_mono; [|apply wp_NetChangeToPause_loop; [done|apply sorted_keys_NoDup|by intros id ?%sorted_keys_spec|done]].
  intros [] s'; [intros (Hdone & _ & Hs')|].
  - split; [|done]. intros id k th Hk. apply (Hdone id); [|done]. apply sorted_keys_spec. by eexists.
  - intros (id & k & th & _ & ?). by exists id, k, th.
Qed.
End net_lost.

(** ** Every reachable state

    The service as a transition system: a request or a report of a thread, or a
    thread or the rest of the device that moves on by itself. *)
Section reachable.
Context {R E C : Type} `{Rdb R, Platform E, ThreadKits E, ServiceKits E}.
Import DownloadService.
#[local] Notation W := (Shared.t R E).
#[local] Notation State := (DownloadService.t C W * (C * W))%type.
#[local] Notation Callback := (option (DownloadCallbackInfo.t → ST (C * W) unit)).
Implicit Types (s : State) (info : DownloadInfo.t).

Inductive Request :=
  | StartRequest (callback : Callback) (downloadError : DownloadError.t)
  | PauseRequest
  | ResumeRequest (netType : Z)
  | CancelRequest (downloadError : DownloadError.t) (isDeleteFiles : bool)
  | RecoverRequest (callback : Callback)
  | RemoveRequest
  | NetLostRequest
  | NetBackRequest
  | DisableRequest (flag : bool)
  | Report (info : DownloadCallbackInfo.t).
Definition serve_request (r : Request) : ST State unit :=
  match r with
  | StartRequest callback downloadError => Start callback downloadError ;;; ret tt
  | PauseRequest => Pause ;;; ret tt
  | ResumeRequest netType => Resume netType ;;; ret tt
  | CancelRequest downloadError isDeleteFiles => Cancel downloadError isDeleteFiles ;;; ret tt
  | RecoverRequest callback => Recover callback
  | RemoveRequest => RemoveDownloadTask
  | NetLostRequest => NetChangeToPause ;;; ret tt
  | NetBackRequest => NetChangeToStart
  | DisableRequest flag => SetDisableCallbackFlag flag
  | Report info => CallbackUpdateDownloadProgress info
  end.

(** The task's callback may read the packages; it does not change them. *)
Definition harmless (callback : Callback) : Prop :=
  ∀ f i x, callback = Some f → infos (exec (f i) x).2 = infos x.2 ∧ threads (exec (f i) x).2 = threads x.2.
Definition allowed (r : Request) : Prop :=
  match r with StartRequest callback _ | RecoverRequest callback => harmless callback | _ => True end.

Inductive step : State → State → Prop :=
  | step_request r s : allowed r → step s (exec (serve_request r) s)
  | step_thread k th th' s :
      threads s.2.2 !! k = Some th → DownloadThread.downloadInfo_ th' = DownloadThread.downloadInfo_ th →
      step s (s.1, (s.2.1, Shared.set_threads (<[k := th']> (threads s.2.2)) s.2.2))
  | step_device d e s : step s (s.1, (s.2.1, Shared.set_db d (Shared.set_env e s.2.2))).

(** A package is stored under its own id, and has at most three attempts behind it;
    the thread objects made so far never change their package ([past]). *)
Definition info_wf (id : string) info : Prop :=
  DownloadInfo.downloadId info = id ∧ 0 ≤ DownloadInfo.retryTimes info ≤ MAX_RETRY_TIMES.
Definition packages_of (ths : list DownloadThread.t) : list DownloadInfo.t := map DownloadThread.downloadInfo_ ths.
Record service_wf (past : list DownloadInfo.t) s : Prop := {
  wf_infos id info : infos s.2.2 !! id = Some info → info_wf id info;
  wf_threads : threads_wf (threadMap_ s.1) (threads s.2.2);
  wf_callback : harmless (onDownloadCallback_ s.1);
  wf_past : past `prefix_of` packages_of (threads s.2.2)
}.

Lemma downloadId_UpdateDownloadInfo id i info : info_wf id info → info_wf id (DownloadInfo.UpdateDownloadInfo i info).
Proof. intros [? ?]. split; [done|]. cbn. unfold MAX_RETRY_TIMES in *. case_if; lia. Qed.
Lemma info_wf_retried id r info :
  info_wf id info → DownloadInfo.IsRetryAble info MAX_RETRY_TIMES = true → info_wf id (retried r info).
Proof.
  intros [? ?] Hr. unfold DownloadInfo.IsRetryAble, MAX_RETRY_TIMES in *. breflect. split; [by rewrite downloadId_retried|].
  unfold retried, MAX_RETRY_TIMES. rewrite to_int32_id by (unfold_widths; lia). destruct (_ || _); cbn; lia.
Qed.
Lemma threads_wf_insert m ths k th th' :
  ths !! k = Some th → DownloadThread.downloadInfo_ th' = DownloadThread.downloadInfo_ th →
  threads_wf m ths → threads_wf m (<[k := th']> ths).
Proof.
  intros Hk Hd Hwf id k' Hk'. destruct (Hwf id k' Hk') as (th1 & Hth1 & Hown). destruct (decide (k' = k)) as [->|?].
  - exists th'. rewrite list_lookup_insert_eq by (by eapply lookup_lt_Some). split; [done|]. simplify_eq. by rewrite Hd.
  - exists th1. by rewrite list_lookup_insert_ne.
Qed.
Lemma threads_wf_start m ths info e :
  threads_wf m ths →
  threads_wf (<[DownloadInfo.downloadId info := List.length ths]> m) (ths ++ [DownloadThread.new info e]).
Proof.
  intros Hwf id k Hk. destruct (decide (id = DownloadInfo.downloadId info)) as [->|?].
  - rewrite lookup_insert_eq in Hk. simplify_eq. exists (DownloadThread.new info e). split; [|done].
    by rewrite lookup_app_r, Nat.sub_diag by lia.
  - rewrite lookup_insert_ne in Hk by done. destruct (Hwf id k Hk) as (th & Hth & Hown). exists th. split; [|done].
    by apply lookup_app_l_Some.
Qed.
Lemma threads_wf_delete m ths id : threads_wf m ths → threads_wf (delete id m) ths.
Proof. intros Hwf id' k Hk. apply lookup_delete_Some in Hk as [_ Hk]. by apply Hwf. Qed.

Context (past : list DownloadInfo.t).
#[local] Notation steady := (stable (service_wf past)).
Lemma steady_this {A} (f : DownloadService.t C W → A) : steady (this_ f).
Proof. intros s Hs. by apply wp_this. Qed.
Lemma steady_world {A} (f : W → A) : steady (world_ f).
Proof. intros s Hs. by apply wp_world. Qed.
Lemma steady_on_db {A} (m : ST (SqliteDb.t R) A) : steady (on_db m).
Proof. intros s [? ? ? ?]. by apply wp_service_db. Qed.
Lemma steady_on_env {A} (m : ST E A) : steady (on_env m).
Proof. intros s [? ? ? ?]. by apply wp_service_env. Qed.
Lemma steady_set_info id info : info_wf id info → steady (set_info id info).
Proof.
  intros Hi s [Hinfos ? ? ?]. apply wp_set_info. split; [|done..]. intros id' info'. cbn [fst snd infos Shared.set_info].
  destruct (decide (id' = id)) as [->|?]; [rewrite lookup_insert_eq; by intros [= <-]|rewrite lookup_insert_ne by done; apply Hinfos].
Qed.
Lemma steady_start info : steady (StartDownloadThread info).
Proof.
  intros s [? ? ? ?]. apply wp_StartDownloadThread. split; cbn; [done|by apply threads_wf_start|done|].
  unfold packages_of. rewrite map_app. by apply prefix_app_r.
Qed.
Lemma steady_RemoveThread id : steady (RemoveThread id).
Proof. intros s [? ? ? ?]. apply wp_set_this. split; [done| |done..]. by apply threads_wf_delete. Qed.
Lemma steady_set_callback callback : harmless callback → steady (set_this (set_callback callback)).
Proof. intros ? s [? ? ? ?]. by apply wp_set_this. Qed.
Lemma steady_set_isStop b : steady (set_this (set_isStopCallback b)).
Proof. intros s [? ? ? ?]. by apply wp_set_this. Qed.
Lemma steady_no_threads : steady (set_this (set_threadMap ∅)).
Proof. intros s [? ? ? ?]. apply wp_set_this. split; [done| |done..]. intros id k Hk. cbn in Hk. by apply lookup_empty_Some in Hk. Qed.
Lemma steady_set_map ids : steady (set_this (set_map ids)).
Proof. intros s [? ? ? ?]. by apply wp_set_this. Qed.
Lemma steady_ClearPackage p : steady (ClearPackage p).
Proof. intros s [? ? ? ?]. by apply wp_ClearPackage. Qed.
Lemma steady_CallbackDownloadProgress i : steady (CallbackDownloadProgress i).
Proof.
  intros [this [c w]] [Hi Ht Hc Hp]. unfold CallbackDownloadProgress. do 2 serve. unfold call. cbn [fst snd] in *.
  destruct (onDownloadCallback_ this) as [f|] eqn:Hf; [|apply wp_ret; split; cbn; by rewrite ?Hf]. destruct (Hc f i (c, w) eq_refl) as [Hi' Ht'].
  unfold wp, eval, exec, on_owner in *. cbn [snd]. destruct (f i (c, w)) as [[] [c' w']]. cbn in *.
  split; cbn; [by rewrite Hi'|by rewrite Ht'|by rewrite Hf|by rewrite Ht'].
Qed.
Lemma steady_with_info {A} id (f : option DownloadInfo.t → ST State A) :
  steady (f None) → (∀ info, info_wf id info → steady (f (Some info))) → steady (bind (GetDownloadInfo id) f).
Proof.
  intros Hn Hs s Hwf. apply wp_bind, wp_GetDownloadInfo. case_bool_decide; [|by apply Hn].
  destruct (infos s.2.2 !! id) as [info|] eqn:Hi; [|by apply Hn]. apply Hs; [by apply (wf_infos _ _ Hwf)|done].
Qed.
Lemma steady_for_each_info body : (∀ id info, info_wf id info → steady (body id info)) → steady (for_each_info body).
Proof.
  intros Hb. unfold for_each_info. apply stable_bind; [apply steady_this|]. intros ids. apply stable_for_each. intros id s Hs.
  apply wp_bind, wp_world. destruct (infos s.2.2 !! id) as [info|] eqn:Hi; [|by apply wp_ret].
  apply Hb; [by apply (wf_infos _ _ Hs)|done].
Qed.
End reachable.
Arguments Request : clear implicits.
Create HintDb steady.
#[export] Hint Resolve stable_ret steady_this steady_world steady_on_db steady_on_env steady_set_info steady_start
  steady_RemoveThread steady_set_callback steady_set_isStop steady_no_threads steady_set_map steady_ClearPackage
  steady_CallbackDownloadProgress : steady.
Ltac solve_steady :=
  repeat first
    [ progress intros | solve [eauto 3 with steady nocore] | apply steady_for_each_info; [intros]
    | apply steady_with_info | apply stable_bind; [|intros ?] | apply stable_if
    | lazymatch goal with |- stable _ (match ?x with _ => _ end) => destruct x end ].

Section reachable_proofs.
Context {R E C : Type} `{Rdb R, Platform E, ThreadKits E, ServiceKits E}.
Import DownloadService.
#[local] Notation W := (Shared.t R E).
#[local] Notation State := (DownloadService.t C W * (C * W))%type.
Implicit Types (s : State) (info : DownloadInfo.t).
Context (past : list DownloadInfo.t).
#[local] Notation steady := (stable (service_wf (R := R) (E := E) (C := C) past)).

Lemma steady_UpdateDownloadInfo i : steady (UpdateDownloadInfo i).
Proof.
  apply steady_with_info; [apply stable_ret|]. intros info Hi. pose proof (downloadId_UpdateDownloadInfo _ i _ Hi). solve_steady.
Qed.
Lemma steady_report i : steady (UpdateDownloadInfo i ;;; CallbackDownloadProgress i).
Proof. pose proof (steady_UpdateDownloadInfo i). solve_steady. Qed.
(** Between the test of the attempts and the attempt nothing changes the package. *)
Lemma steady_attempt i id reason :
  steady (let* downloadInfo := GetDownloadInfo id in
    match downloadInfo with
    | None => ret tt
    | Some downloadInfo =>
        if is_fatal reason then ClearPackage (DownloadInfo.path downloadInfo) ;;; UpdateDownloadInfo i ;;; CallbackDownloadProgress i
        else if negb (DownloadInfo.IsRetryAble downloadInfo MAX_RETRY_TIMES) then
          UpdateDownloadInfo i ;;; CallbackDownloadProgress i
        else
          let* result := HandleRetry id reason in
          match result with RESULT_FAIL => UpdateDownloadInfo i ;;; CallbackDownloadProgress i | RESULT_OK => ret tt end
    end).
Proof.
  pose proof (steady_report i) as Hreport. intros s Hs. apply wp_bind, wp_GetDownloadInfo.
  case_bool_decide as Hin; [|by apply wp_ret]. destruct (infos s.2.2 !! id) as [info|] eqn:Hi; [|by apply wp_ret].
  pose proof (wf_infos _ _ Hs _ _ Hi) as Hwf.
  destruct (is_fatal reason); [revert s Hs Hin Hi; intros s Hs _ _; revert s Hs; change (steady (ClearPackage (DownloadInfo.path info) ;;; UpdateDownloadInfo i ;;; CallbackDownloadProgress i)); solve_steady|].
  destruct (DownloadInfo.IsRetryAble info MAX_RETRY_TIMES) eqn:Hr; cbn [negb]; [|by apply Hreport].
  unfold HandleRetry. do 2 apply wp_bind. apply wp_GetDownloadInfo. rewrite bool_decide_true, Hi by done.
  pose proof (info_wf_retried _ reason _ Hwf Hr).
  match goal with |- wp ?m s ?Q => assert (steady m) as Hm by solve_steady; apply (wp_mono _ _ (λ _ s', service_wf past s')); [|by apply Hm] end.
  intros r s' Hs'. destruct r; [by apply wp_ret|by apply Hreport].
Qed.
Lemma steady_UpdateDownloadProgress i : steady (UpdateDownloadProgress i).
Proof.
  pose proof (steady_report i). unfold UpdateDownloadProgress. apply stable_bind; [solve_steady|]. intros _.
  apply stable_if; [done|apply steady_attempt].
Qed.
Lemma steady_CallbackUpdateDownloadProgress i : steady (CallbackUpdateDownloadProgress i).
Proof. pose proof (steady_UpdateDownloadProgress i). unfold CallbackUpdateDownloadProgress. solve_steady. Qed.

End reachable_proofs.

Section reachable_requests.
Context {R E C : Type} `{Rdb R, Platform E, ThreadKits E, ServiceKits E}.
Import DownloadService.
#[local] Notation W := (Shared.t R E).
#[local] Notation State := (DownloadService.t C W * (C * W))%type.
Implicit Types (s : State) (info : DownloadInfo.t) (past : list DownloadInfo.t).

Lemma service_wf_now past s : service_wf past s → service_wf (packages_of (threads s.2.2)) s.
Proof. by intros [? ? ? ?]. Qed.
Lemma service_wf_past past past' s : past `prefix_of` past' → service_wf past' s → service_wf past s.
Proof. intros ? [? ? ? ?]. split; [done..|]. by etrans. Qed.

Lemma packages_insert k (th' : DownloadThread.t) ths :
  packages_of ths !! k = Some (DownloadThread.downloadInfo_ th') → packages_of (<[k := th']> ths) = packages_of ths.
Proof. intros Hk. unfold packages_of in *. rewrite list_fmap_insert. by apply list_insert_id. Qed.

(** A method of a thread that leaves its package alone. *)
Lemma steady_on_thread past k (m : ST (DownloadThread.t * (DownloadService.t C W * C * W)) DownloadResult) :
  (∀ past th this c w, service_wf past (this, (c, w)) → wp m (th, (this, c, w)) (λ _ x,
     DownloadThread.downloadInfo_ x.1 = DownloadThread.downloadInfo_ th ∧ service_wf past (x.2.1.1, (x.2.1.2, x.2.2)))) →
  stable (service_wf past) (on_thread k m).
Proof.
  intros Hm [this [c w]] Hs. destruct (threads w !! k) as [th|] eqn:Hk; [|by apply wp_on_no_thread].
  eapply wp_on_thread; [exact Hk|]. eapply wp_mono; [|by eapply Hm, service_wf_now]. cbn [fst snd].
  intros _ [th' [[this' c'] w']] (Hd & [? ? ? Hp]). cbn [fst snd] in *.
  assert (packages_of (threads w') !! k = Some (DownloadThread.downloadInfo_ th')) as Hk'.
  { eapply prefix_lookup_Some; [|exact Hp]. rewrite Hd. unfold packages_of. by rewrite list_lookup_fmap, Hk. }
  unfold packages_of in Hk'. rewrite list_lookup_fmap in Hk'. destruct (threads w' !! k) as [th2|] eqn:Hk2; [|done].
  injection Hk' as Hd2. apply (service_wf_past past _ _ (wf_past _ _ Hs)). split; [done| |done|].
  - by eapply threads_wf_insert.
  - cbn. rewrite packages_insert; [exact Hp|]. unfold packages_of. rewrite list_lookup_fmap, Hk2. cbn. by rewrite Hd2.
Qed.
Lemma steady_pause_thread past k :
  stable (service_wf past) (on_thread (C := C) k
    (DownloadThread.NetChangeToPause (Some (λ i, from_thread (CallbackUpdateDownloadProgress i))))).
Proof.
  apply steady_on_thread. clear past. intros past th this c w Hs. unfold DownloadThread.NetChangeToPause, DownloadThread.CallbackDownload.
  assert (∀ i th', DownloadThread.downloadInfo_ th' = DownloadThread.downloadInfo_ th →
    wp (call (Some (λ i, from_thread (CallbackUpdateDownloadProgress i))) i) (th', (this, c, w)) (λ _ x,
      DownloadThread.downloadInfo_ x.1 = DownloadThread.downloadInfo_ th ∧ service_wf past (x.2.1.1, (x.2.1.2, x.2.2)))) as Hcall.
  { intros i th' Hth'. pose proof (steady_CallbackUpdateDownloadProgress past i _ Hs) as Hi. unfold call, on_owner, from_thread, wp, eval, exec in *.
    cbn [fst snd] in *. destruct (CallbackUpdateDownloadProgress i (this, (c, w))) as [[] [this' [c' w']]]. exact (conj Hth' Hi). }
  repeat walk; first [by split | eapply wp_mono; [|by apply Hcall]; intros [] x Hx; walk; exact Hx].
Qed.
End reachable_requests.
#[export] Hint Resolve steady_pause_thread steady_UpdateDownloadProgress steady_CallbackUpdateDownloadProgress : steady.

Section reachable_theorem.
Context {R E C : Type} `{Rdb R, Platform E, ThreadKits E, ServiceKits E}.
Import DownloadService.
#[local] Notation W := (Shared.t R E).
#[local] Notation State := (DownloadService.t C W * (C * W))%type.
Implicit Types (s : State) (past : list DownloadInfo.t).

Lemma steady_only_thread past k f (m : ST (DownloadThread.t * (DownloadService.t C W * C * W)) DownloadResult) :
  only_thread f m → (∀ th, DownloadThread.downloadInfo_ (f th) = DownloadThread.downloadInfo_ th) →
  stable (service_wf past) (on_thread k m).
Proof. intros Hm Hf. apply steady_on_thread. intros past' th this c w Hs. unfold wp. rewrite Hm. exact (conj (Hf th) Hs). Qed.
Lemma steady_StopAllDownloadThread past : stable (service_wf past) (StopAllDownloadThread : ST State unit).
Proof.
  pose proof (λ k, steady_only_thread past k stopped _ only_Stop (λ _, eq_refl)). unfold StopAllDownloadThread.
  apply stable_bind; [solve_steady|intros _]. apply stable_bind; [solve_steady|intros tm].
  apply stable_bind; [apply stable_for_each|]; solve_steady.
Qed.
Lemma steady_NetChangeToPause past : stable (service_wf past) (NetChangeToPause : ST State bool).
Proof.
  unfold NetChangeToPause. apply stable_bind; [solve_steady|]. intros tm. generalize (sorted_keys tm). intros ids.
  induction ids as [|id ids IH]; cbn [NetChangeToPause_loop]; solve_steady.
Qed.
Lemma steady_SetDisableCallbackFlag past flag : stable (service_wf past) (SetDisableCallbackFlag flag : ST State unit).
Proof.
  assert (only_thread (R := R) (E := E) (C := C) (DownloadThread.set_isDisableCallbackFlag flag)
    (DownloadThread.SetDisableCallbackFlag flag ;;; ret RESULT_OK)) as Hf
    by (intros th x; unfold DownloadThread.SetDisableCallbackFlag; by st_simpl).
  pose proof (λ k, steady_only_thread past k _ _ Hf (λ _, eq_refl)). unfold SetDisableCallbackFlag.
  apply stable_bind; [solve_steady|]. intros tm. apply stable_for_each. solve_steady.
Qed.
Hint Resolve steady_StopAllDownloadThread steady_NetChangeToPause steady_SetDisableCallbackFlag : steady.

Lemma info_wf_set id info nt st :
  info_wf id info → info_wf id (DownloadInfo.set_netType nt info) ∧ info_wf id (DownloadInfo.set_retryTimes 0 info) ∧
  info_wf id (DownloadInfo.set_retryTimes 0 (DownloadInfo.set_status st info)).
Proof. by intros [? ?]. Qed.
Lemma steady_Resume past netType : stable (service_wf past) (Resume netType : ST State _).
Proof.
  unfold Resume, UpdateDownloadNetType, IsNetSatisfied. pose proof (λ id info, info_wf_set id info netType DownloadStatus.DOWNLOADING) as Hset.
  assert (∀ id info, info_wf id info → info_wf id (DownloadInfo.set_retryTimes 0
    (if DownloadInfo.IsPaused info then DownloadInfo.set_status DownloadStatus.DOWNLOADING info else info))) as Hresumed
    by (intros id info Hi; case_if; by apply Hset).
  assert (∀ id info, info_wf id info → info_wf id (DownloadInfo.set_netType netType info)) by (intros; by apply Hset).
  solve_steady.
Qed.
Lemma steady_requests past r : allowed r → stable (service_wf past) (serve_request r : ST State unit).
Proof.
  intros Hr. pose proof (steady_Resume past). destruct r; cbn [serve_request allowed] in *;
    unfold Start, Pause, Cancel, Recover, RemoveDownloadTask, NetChangeToStart, NotifyPauseCompleted, NotifyCancelCompleted,
      NotifyRecoverCompleted, DeleteDownloadedFiles, IsNetSatisfied; solve_steady.
  by apply steady_set_callback.
Qed.

(** C18: in every state the service reaches, whatever is asked of it, whatever its
    threads report and in whatever order, each package is stored under its own id
    with at most three attempts behind it, each entry of the thread map is a thread
    of that package, and the threads made earlier are still those of their
    packages. *)
Theorem service_invariant s s' past : star step s s' → service_wf past s → service_wf past s'.
Proof.
  intros Hstep Hs. revert Hstep Hs. apply star_invariant. intros s1 s2 Hstep Hwf.
  destruct Hstep as [r s1 Hr|k th th' s1 Hk Hd|d e s1].
  - by apply steady_requests.
  - destruct Hwf as [? ? ? Hp]. split; [done| |done|]; cbn; [by eapply threads_wf_insert|].
    rewrite packages_insert; [done|]. unfold packages_of. rewrite list_lookup_fmap, Hk. cbn. by rewrite Hd.
  - by destruct Hwf.
Qed.
End reachable_theorem.

(** ** A sample task of two packages *)
Module SampleService.
Import DownloadService.
#[local] Existing Instance SampleThread.thread_kits.
#[export] Instance kits : ServiceKits SampleEnv.t := {
  GetNetType _ := NetType.NOT_METERED_WIFI; lstat_regular _ _ := Some true; remove_file p e := (0, exec (SampleEnv.remove p) e)
}.
#[local] Notation W := (Shared.t MemoryDb.t SampleEnv.t).
#[local] Notation State := (DownloadService.t (list DownloadCallbackInfo.t) W * (list DownloadCallbackInfo.t * W))%type.
Definition packages : gmap string DownloadInfo.t :=
  {[ "a" := SamplePackages.package "a" DownloadStatus.INIT 0; "b" := SamplePackages.package "b" DownloadStatus.SUCCESS 200 ]}.
Definition idle : State :=
  (new "task" ["a"; "b"],
   ([], {| db := {| SqliteDb.dbStore_ := false; SqliteDb.store := MemoryDb.empty |}; env := SampleEnv.initial;
           infos := packages; threads := [] |})).
Definition started : State := exec (Start (Some logged) DownloadError.default) idle.
Definition failure : DownloadCallbackInfo.t :=
  own_report (SamplePackages.package "a" DownloadStatus.INIT 0) 0 DownloadStatus.FAIL DownloadEndReason.SERVER_TIMEOUT.
Definition after (rs : list DownloadCallbackInfo.t) : State := exec (for_each rs CallbackUpdateDownloadProgress) started.

(** The package that is complete is not started. *)
Example one_thread : map_to_list (threadMap_ started.1) = [("a", 0%nat)].
Proof. vm_compute. reflexivity. Qed.

Lemma started_facts :
  onDownloadCallback_ started.1 = Some logged ∧ isStopCallback_ started.1 = false ∧
  serviceDownloadInfoMap_ started.1 = ["a"; "b"] ∧ infos started.2.2 = packages ∧ started.2.1 = [] ∧
  List.length (threads started.2.2) = 1%nat.
Proof. split_and!; vm_compute; reflexivity. Qed.

Lemma report_handled_witness :
  let s := exec (CallbackUpdateDownloadProgress failure) started in
  s.2.1 = [] ∧ threadMap_ s.1 !! "a" = Some 1%nat.
Proof.
  intros s.
  destruct started_facts as (Hcb & Hst & Hids & Hi & Hlog & Hn).
  pose proof (report_handled failure (SamplePackages.package "a" DownloadStatus.INIT 0) started
    ltac:(split_and!; [rewrite Hids; left|rewrite Hi; reflexivity|reflexivity]) Hcb Hst) as Hp.
  unfold wp in Hp. fold s in Hp. clearbody s. cbv beta zeta in Hp.
  replace (retries failure _) with true in Hp by (vm_compute; reflexivity). destruct Hp as (Hl & _ & Hm & _).
  rewrite Hl, Hlog. split; [reflexivity|]. rewrite <- Hn. exact Hm.
Defined.

Lemma retries_bounded_witness :
  let s' := after (repeat failure 5) in
  ∃ told again, s'.2.1 = told ∧ told `sublist_of` repeat failure 5 ∧ (List.length told + List.length again)%nat = 5%nat ∧
    thread_ids s' = thread_ids started ++ again ∧ attempts_of "a" again ≤ 3 + 3 * resets_of "a" told.
Proof.
  destruct started_facts as (Hcb & Hst & Hids & Hi & Hlog & Hn).
  destruct (retries_bounded (repeat failure 5) (λ _, 0) started) as (told & again & r' & Hl & Ht & _ & _ & Hsub & Hlen & Hb).
  - split_and!; [exact Hcb|exact Hst|]. rewrite Hids, Hi.
    intros id [->|[->|?%not_elem_of_nil]%elem_of_cons]%elem_of_cons; [eexists; split_and!; [reflexivity..|lia]|eexists; split_and!; [reflexivity..|lia]|done].
  - rewrite Hids. repeat (constructor; [left|]). constructor.
  - exists told, again. split_and!; [exact (eq_trans Hl (f_equal (λ l, l ++ told) Hlog))|exact Hsub|exact Hlen|exact Ht|].
    apply (Hb "a"). rewrite Hids. left.
Defined.
(** Five failures of one package: three attempts, and the last two are told. *)
Example five_failures : (after (repeat failure 5)).2.1 = [failure; failure] ∧ thread_ids (after (repeat failure 5)) = repeat "a" 4.
Proof. split; vm_compute; reflexivity. Qed.

(** The completed package is paused like the other. *)
Lemma pause_silences_witness :
  threadMap_ (exec Pause started).1 = ∅ ∧
  map (λ i, (DownloadCallbackInfo.downloadId i, DownloadCallbackInfo.status i)) (exec Pause started).2.1 =
    [("a", DownloadStatus.PAUSE); ("b", DownloadStatus.PAUSE)].
Proof.
  destruct started_facts as (Hcb & Hst & Hids & Hi & Hlog & Hn).
  destruct (pause_silences started) as (_ & Hl & Hm & _); [|exact Hcb|].
  - split; [rewrite Hids; apply (bool_decide_unpack _); by vm_compute|]. rewrite Hids, Hi.
    intros id [->|[->|?%not_elem_of_nil]%elem_of_cons]%elem_of_cons; [by eexists..|done].
  - split; [exact Hm|]. rewrite Hl, Hlog, Hids, Hi. vm_compute. reflexivity.
Defined.

(** The thread is still queued when the network is lost. *)
Lemma net_pause_defined_witness : eval NetChangeToPause started = false.
Proof.
  pose proof (net_pause_defined started) as Hp. unfold wp in Hp.
  destruct (eval NetChangeToPause started); [|done]. destruct Hp as [Hp _].
  - intros id k Hk. apply elem_of_map_to_list in Hk. rewrite one_thread in Hk. apply list_elem_of_singleton in Hk. simplify_eq.
    eexists. split; vm_compute; reflexivity.
  - apply started_facts.
  - destruct (Hp "a" 0%nat (DownloadThread.new (SamplePackages.package "a" DownloadStatus.INIT 0) SampleEnv.initial)) as [Hq _];
      [vm_compute; reflexivity..|]. by destruct Hq.
Defined.

Lemma service_invariant_witness :
  service_wf [] (exec (serve_request (Report failure)) (exec (serve_request (StartRequest (Some logged) DownloadError.default)) idle)).
Proof.
  assert (harmless (R := MemoryDb.t) (E := SampleEnv.t) (Some (logged (B := DownloadCallbackInfo.t)))) as Hharm
    by (intros f i x Hf; by simplify_eq).
  apply (service_invariant idle).
  - eapply star_step; [by apply (step_request (StartRequest (Some logged) DownloadError.default))|].
    eapply star_step; [by apply (step_request (Report failure))|]. apply star_refl.
  - split.
    + intros id info Hi. cbn in Hi. unfold packages in Hi.
      apply lookup_insert_Some in Hi as [[<- <-]|[_ Hi]]; [by split|]. apply lookup_singleton_Some in Hi as [<- <-]. by split.
    + intros id k Hk. cbn in Hk. by apply lookup_empty_Some in Hk.
    + by intros f i x Hf.
    + apply prefix_nil.
Defined.
End SampleService.
