(* ===== verification/DownloadTask.v ===== *)
(** * A download task

    Models [download_task.cpp]: the object that owns a [DownloadService], is told of
    every change of its packages, and reports the progress of the whole task to
    its own callback.  The state of a call has four parts: the service, the task,
    the owner [O] of the task's callback, and the shared store.

    Reports of a running task are handed to the serial queue of the task, and so is
    the timer that guards against a silent download.  Both are kept in the task:
    [submitted_], the reports that are waiting, and [timers_], the timers that are
    set; [run_submitted] and [run_timer] are the turns of the queue.  The task is alive while
    they run. *)
From Stdlib Require Import ZArith Lia Ascii String.
From stdpp Require Import base tactics list strings gmap sorting.
From S2P Require Import Prelude CppString StringUtils Models Database FirmwareDb FirmwareStore FirmwareWorld DownloadData DownloadThread DownloadService.

#[local] Open Scope Z_scope.
Import Shared (infos, threads, db, env).

Module DownloadTask.
(** [downloadInfos_] is the vector of the progress processor. *)
(*@ download/task/include/download_task.h:67-87 DownloadTask *)
Record t (O W : Type) := {
  status_ : Z;
  reportedTaskProgress_ : Z;
  taskId_ : string;
  downloadInfoMap_ : list string;
  callback_ : option (string → ProgressInfo.t → ST (O * W) unit);
  timedTaskHandle_ : option nat;
  lastReportTime_ : Z;
  taskProgressProcessor_ : DownloadTaskProgressProcessor.t;
  downloadInfos_ : list string;
  progressInfo_ : ProgressInfo.t;
  isStopDownloadingCallback_ : bool;
  submitted_ : list ProgressInfo.t;
  timers_ : list nat
}.
Arguments status_ {O W} _.
Arguments reportedTaskProgress_ {O W} _.
Arguments taskId_ {O W} _.
Arguments downloadInfoMap_ {O W} _.
Arguments callback_ {O W} _.
Arguments timedTaskHandle_ {O W} _.
Arguments lastReportTime_ {O W} _.
Arguments taskProgressProcessor_ {O W} _.
Arguments downloadInfos_ {O W} _.
Arguments progressInfo_ {O W} _.
Arguments isStopDownloadingCallback_ {O W} _.
Arguments submitted_ {O W} _.
Arguments timers_ {O W} _.

Section setters.
Context {O W : Type}.
Definition set_status (x : Z) (this : t O W) : t O W := {|
  status_ := x; reportedTaskProgress_ := reportedTaskProgress_ this; taskId_ := taskId_ this; downloadInfoMap_ :=
  downloadInfoMap_ this; callback_ := callback_ this; timedTaskHandle_ := timedTaskHandle_ this; lastReportTime_ :=
  lastReportTime_ this; taskProgressProcessor_ := taskProgressProcessor_ this; downloadInfos_ := downloadInfos_ this;
  progressInfo_ := progressInfo_ this; isStopDownloadingCallback_ := isStopDownloadingCallback_ this; submitted_ :=
  submitted_ this; timers_ := timers_ this |}.
Definition set_reportedTaskProgress (x : Z) (this : t O W) : t O W := {|
  status_ := status_ this; reportedTaskProgress_ := x; taskId_ := taskId_ this; downloadInfoMap_ := downloadInfoMap_
  this; callback_ := callback_ this; timedTaskHandle_ := timedTaskHandle_ this; lastReportTime_ := lastReportTime_
  this; taskProgressProcessor_ := taskProgressProcessor_ this; downloadInfos_ := downloadInfos_ this; progressInfo_ :=
  progressInfo_ this; isStopDownloadingCallback_ := isStopDownloadingCallback_ this; submitted_ := submitted_ this;
  timers_ := timers_ this |}.
Definition set_taskId (x : string) (this : t O W) : t O W := {|
  status_ := status_ this; reportedTaskProgress_ := reportedTaskProgress_ this; taskId_ := x; downloadInfoMap_ :=
  downloadInfoMap_ this; callback_ := callback_ this; timedTaskHandle_ := timedTaskHandle_ this; lastReportTime_ :=
  lastReportTime_ this; taskProgressProcessor_ := taskProgressProcessor_ this; downloadInfos_ := downloadInfos_ this;
  progressInfo_ := progressInfo_ this; isStopDownloadingCallback_ := isStopDownloadingCallback_ this; submitted_ :=
  submitted_ this; timers_ := timers_ this |}.
Definition set_callback (x : option (string → ProgressInfo.t → ST (O * W) unit)) (this : t O W) : t O W := {|
  status_ := status_ this; reportedTaskProgress_ := reportedTaskProgress_ this; taskId_ := taskId_ this;
  downloadInfoMap_ := downloadInfoMap_ this; callback_ := x; timedTaskHandle_ := timedTaskHandle_ this;
  lastReportTime_ := lastReportTime_ this; taskProgressProcessor_ := taskProgressProcessor_ this; downloadInfos_ :=
  downloadInfos_ this; progressInfo_ := progressInfo_ this; isStopDownloadingCallback_ := isStopDownloadingCallback_
  this; submitted_ := submitted_ this; timers_ := timers_ this |}.
Definition set_timedTaskHandle (x : option nat) (this : t O W) : t O W := {|
  status_ := status_ this; reportedTaskProgress_ := reportedTaskProgress_ this; taskId_ := taskId_ this;
  downloadInfoMap_ := downloadInfoMap_ this; callback_ := callback_ this; timedTaskHandle_ := x; lastReportTime_ :=
  lastReportTime_ this; taskProgressProcessor_ := taskProgressProcessor_ this; downloadInfos_ := downloadInfos_ this;
  progressInfo_ := progressInfo_ this; isStopDownloadingCallback_ := isStopDownloadingCallback_ this; submitted_ :=
  submitted_ this; timers_ := timers_ this |}.
Definition set_lastReportTime (x : Z) (this : t O W) : t O W := {|
  status_ := status_ this; reportedTaskProgress_ := reportedTaskProgress_ this; taskId_ := taskId_ this;
  downloadInfoMap_ := downloadInfoMap_ this; callback_ := callback_ this; timedTaskHandle_ := timedTaskHandle_ this;
  lastReportTime_ := x; taskProgressProcessor_ := taskProgressProcessor_ this; downloadInfos_ := downloadInfos_ this;
  progressInfo_ := progressInfo_ this; isStopDownloadingCallback_ := isStopDownloadingCallback_ this; submitted_ :=
  submitted_ this; timers_ := timers_ this |}.
Definition set_taskProgressProcessor (x : DownloadTaskProgressProcessor.t) (this : t O W) : t O W := {|
  status_ := status_ this; reportedTaskProgress_ := reportedTaskProgress_ this; taskId_ := taskId_ this;
  downloadInfoMap_ := downloadInfoMap_ this; callback_ := callback_ this; timedTaskHandle_ := timedTaskHandle_ this;
  lastReportTime_ := lastReportTime_ this; taskProgressProcessor_ := x; downloadInfos_ := downloadInfos_ this;
  progressInfo_ := progressInfo_ this; isStopDownloadingCallback_ := isStopDownloadingCallback_ this; submitted_ :=
  submitted_ this; timers_ := timers_ this |}.
Definition set_progressInfo (x : ProgressInfo.t) (this : t O W) : t O W := {|
  status_ := status_ this; reportedTaskProgress_ := reportedTaskProgress_ this; taskId_ := taskId_ this;
  downloadInfoMap_ := downloadInfoMap_ this; callback_ := callback_ this; timedTaskHandle_ := timedTaskHandle_ this;
  lastReportTime_ := lastReportTime_ this; taskProgressProcessor_ := taskProgressProcessor_ this; downloadInfos_ :=
  downloadInfos_ this; progressInfo_ := x; isStopDownloadingCallback_ := isStopDownloadingCallback_ this; submitted_
  := submitted_ this; timers_ := timers_ this |}.
Definition set_isStopDownloadingCallback (x : bool) (this : t O W) : t O W := {|
  status_ := status_ this; reportedTaskProgress_ := reportedTaskProgress_ this; taskId_ := taskId_ this;
  downloadInfoMap_ := downloadInfoMap_ this; callback_ := callback_ this; timedTaskHandle_ := timedTaskHandle_ this;
  lastReportTime_ := lastReportTime_ this; taskProgressProcessor_ := taskProgressProcessor_ this; downloadInfos_ :=
  downloadInfos_ this; progressInfo_ := progressInfo_ this; isStopDownloadingCallback_ := x; submitted_ := submitted_
  this; timers_ := timers_ this |}.
Definition set_submitted (x : list ProgressInfo.t) (this : t O W) : t O W := {|
  status_ := status_ this; reportedTaskProgress_ := reportedTaskProgress_ this; taskId_ := taskId_ this;
  downloadInfoMap_ := downloadInfoMap_ this; callback_ := callback_ this; timedTaskHandle_ := timedTaskHandle_ this;
  lastReportTime_ := lastReportTime_ this; taskProgressProcessor_ := taskProgressProcessor_ this; downloadInfos_ :=
  downloadInfos_ this; progressInfo_ := progressInfo_ this; isStopDownloadingCallback_ := isStopDownloadingCallback_
  this; submitted_ := x; timers_ := timers_ this |}.
Definition set_timers (x : list nat) (this : t O W) : t O W := {|
  status_ := status_ this; reportedTaskProgress_ := reportedTaskProgress_ this; taskId_ := taskId_ this;
  downloadInfoMap_ := downloadInfoMap_ this; callback_ := callback_ this; timedTaskHandle_ := timedTaskHandle_ this;
  lastReportTime_ := lastReportTime_ this; taskProgressProcessor_ := taskProgressProcessor_ this; downloadInfos_ :=
  downloadInfos_ this; progressInfo_ := progressInfo_ this; isStopDownloadingCallback_ := isStopDownloadingCallback_
  this; submitted_ := submitted_ this; timers_ := x |}.
End setters.

Section ops.
Context {R E O : Type} `{Rdb R, Platform E, ThreadKits E, ServiceKits E}.
#[local] Notation W := (Shared.t R E).
(** What the service knows of the owner of its callback. *)
#[local] Notation C := (t O W * O)%type.
(** A method of the task alone, and one that uses the service. *)
#[local] Notation Call := (ST (t O W * O * W)).
#[local] Notation Task := (ST (DownloadService.t C W * (C * W))).

Definition field {A} (f : t O W → A) : Call A := λ x, (f x.1.1, x).
Definition set_field (f : t O W → t O W) : Call unit := λ x, (tt, (f x.1.1, x.1.2, x.2)).
Definition reads {A} (f : W → A) : Call A := λ x, (f x.2, x).
(** The callback of the task, on the state of its owner. *)
Definition tell (m : ST (O * W) unit) : Call unit := λ x,
  let y := exec m (x.1.2, x.2) in (tt, (x.1.1, y.1, y.2)).
Definition own {A} (m : Call A) : Task A := on_owner m.

(*@ task/src/download_task.cpp DownloadTask::GetTaskProgress *)
Definition GetTaskProgress : Call ProgressInfo.t :=
  let* ids := field downloadInfos_ in
  let* downloadInfos := reads (λ w, omap (λ id, infos w !! id) ids) in
  let* processor := field taskProgressProcessor_ in
  let (processor, progressInfo) := DownloadTaskProgressProcessor.GetTaskProgress downloadInfos processor in
  set_field (set_taskProgressProcessor processor) ;;;
  ret progressInfo.

(*@ task/src/download_task.cpp DownloadTask::CallbackProgressLocked *)
Definition CallbackProgressLocked (progressInfo : ProgressInfo.t) : Call unit :=
  let* callback := field callback_ in
  match callback with
  | None => ret tt
  | Some callback =>
      let* stopped := field isStopDownloadingCallback_ in
      if negb (ProgressInfo.IsSyncCallback progressInfo) && stopped then ret tt
      else
        let* taskId := field taskId_ in
        tell (callback taskId progressInfo) ;;;
        let* now := reads (λ w, GetTimestampByMilliseconds (env w)) in
        set_field (set_lastReportTime now)
  end.
(*@ task/src/download_task.cpp DownloadTask::CallbackProgress *)
Definition CallbackProgress (progressInfo : ProgressInfo.t) : Call unit := CallbackProgressLocked progressInfo.

(** The microseconds to the next report of the timer. *)
(*@ task/src/download_task.cpp DownloadTask::CalcNextReportInterval *)
Definition CalcNextReportInterval (now : Z) (this : t O W) : Z :=
  let reportInterval := 1000 * 1000 * 10 in
  let millsToMicro := 1000 in
  let lastReportDuration := to_int64 ((now - lastReportTime_ this) * millsToMicro) in
  if lastReportDuration <=? 0 then to_uint64 reportInterval
  else
    let nextReportInterval := reportInterval - lastReportDuration in
    if nextReportInterval <=? 0 then 0 else to_uint64 nextReportInterval.

(** A new timer: its handle is one that no timer has. *)
(*@ task/src/download_task.cpp:438-442 DownloadTask::SubmitTimedTask *)
Definition SubmitTimedTask : Call unit :=
  let* handle := field (λ this, S (foldr Nat.max 0%nat (timers_ this))) in
  set_field (λ this, set_timers (timers_ this ++ [handle]) this) ;;;
  set_field (set_timedTaskHandle (Some handle)).
(*@ task/src/download_task.cpp DownloadTask::CancelTimedTask *)
Definition CancelTimedTask : Call unit :=
  let* handle := field timedTaskHandle_ in
  match handle with
  | None => ret tt
  | Some handle => set_field (λ this, set_timers (filter (λ h, h ≠ handle) (timers_ this)) this)
  end.

(** The turn of the timer [handle]. *)
(*@ task/src/download_task.cpp:411-437 DownloadTask::SubmitTimedTask *)
Definition run_timer (handle : nat) : Call unit :=
  set_field (λ this, set_timers (filter (λ h, h ≠ handle) (timers_ this)) this) ;;;
  let* progress := GetTaskProgress in
  if ProgressInfo.IsTaskCompleted progress then ret tt
  else
    let* now := reads (λ w, GetTimestampByMilliseconds (env w)) in
    let* lastReportTime := field lastReportTime_ in
    (when 10 * 1000 <=? to_int64 (now - lastReportTime) do CallbackProgress progress) ;;;
    CancelTimedTask ;;;
    SubmitTimedTask.

(** The result, and the progress that is recorded. *)
(*@ task/src/download_task.cpp DownloadTask::IsProgressChanged *)
Definition IsProgressChanged (progressInfo : ProgressInfo.t) : Call bool :=
  let* this := field (λ this, this) in
  if (ProgressInfo.taskStatus progressInfo =? status_ this) &&
     ((ProgressInfo.downloadedSize progressInfo <? ProgressInfo.downloadedSize (progressInfo_ this)) ||
      (ProgressInfo.verifiedSize progressInfo <? ProgressInfo.verifiedSize (progressInfo_ this))) then ret false
  else if (ProgressInfo.taskStatus progressInfo =? status_ this) && ProgressInfo.IsTaskCompleted progressInfo then ret false
  else
    let isChanged :=
      negb (ProgressInfo.taskProgress progressInfo =? reportedTaskProgress_ this) ||
      negb (ProgressInfo.taskStatus progressInfo =? status_ this) ||
      negb (ProgressInfo.verifiedSize progressInfo =? ProgressInfo.verifiedSize (progressInfo_ this)) ||
      negb (ProgressInfo.downloadedSize progressInfo =? ProgressInfo.downloadedSize (progressInfo_ this)) in
    set_field (set_reportedTaskProgress (ProgressInfo.taskProgress progressInfo)) ;;;
    set_field (set_status (ProgressInfo.taskStatus progressInfo)) ;;;
    set_field (set_progressInfo progressInfo) ;;;
    ret isChanged.

(*@ task/src/download_task.cpp:285-306 DownloadTask::UpdateTaskProgress *)
Definition UpdateTaskProgress (info : DownloadCallbackInfo.t) : Call unit :=
  let* progressInfo := GetTaskProgress in
  let* changed := IsProgressChanged progressInfo in
  if negb changed then ret tt
  else
    (when ProgressInfo.IsTaskCompleted progressInfo do CancelTimedTask) ;;;
    if ProgressInfo.IsSyncCallback progressInfo then CallbackProgress progressInfo
    else set_field (λ this, set_submitted (submitted_ this ++ [progressInfo]) this).
(** The turn of the first report that waits. *)
(*@ task/src/download_task.cpp:307-319 DownloadTask::UpdateTaskProgress *)
Definition run_submitted : Call unit :=
  let* waiting := field submitted_ in
  match waiting with
  | [] => ret tt
  | progressInfo :: waiting =>
      set_field (set_submitted waiting) ;;;
      let* currentProgressInfo := GetTaskProgress in
      if ProgressInfo.IsSyncCallback currentProgressInfo then ret tt else CallbackProgress progressInfo
  end.

(** The first package says where the files are, what the task is called and which
    network it needs. *)
Definition first_info (w : W) (this : t O W) : option DownloadInfo.t := head (omap (λ id, infos w !! id) (downloadInfoMap_ this)).
(*@ task/src/download_task.cpp DownloadTask::GetRootPath *)
Definition GetRootPath (w : W) (this : t O W) : string :=
  match first_info w this with
  | None => ""
  | Some downloadInfo =>
      if DownloadInfo.dirType downloadInfo =? DownloadDirType.ENCRYPT_DIR
      then Constant.DUPDATE_ENGINE_ENCRYPTED_ROOT_PATH else Constant.DUPDATE_ENGINE_PACKAGE_ROOT_PATH
  end.
(*@ task/src/download_task.cpp DownloadTask::GetTaskId *)
Definition GetTaskId (w : W) (this : t O W) : string :=
  match first_info w this with None => "" | Some downloadInfo => DownloadInfo.taskId downloadInfo end.
(*@ task/src/download_task.cpp DownloadTask::GetRequiredNetType *)
Definition GetRequiredNetType (w : W) (this : t O W) : Z :=
  match first_info w this with None => NetType.NOT_METERED_WIFI | Some downloadInfo => DownloadInfo.netType downloadInfo end.

(*@ task/src/download_task.cpp:42-42 DOWNLOAD_MIN_PATH_LEN *)
Definition DOWNLOAD_MIN_PATH_LEN : nat := 3.
(*@ task/src/download_task.cpp DownloadTask::IsMemoryEnough *)
Definition IsMemoryEnough (size : Z) : Call bool :=
  let* this := field (λ this, this) in
  let* rootPath := reads (λ w, GetRootPath w this) in
  if (len rootPath <? DOWNLOAD_MIN_PATH_LEN)%nat then ret false
  else
    let* there := reads (λ w, FileUtils.IsFileExist (env w) rootPath) in
    (when negb there do (λ x, (tt, (x.1, Shared.set_env (exec (CreateMultiDirWithPermission rootPath) (env x.2)) x.2)))) ;;;
    reads (λ w, FileUtils.IsSpaceEnough (env w) rootPath size).

(*@ task/src/download_task.cpp DownloadTask::NotifyCallbackDisabled *)
Definition NotifyCallbackDisabled (flag : bool) : Task unit := DownloadService.SetDisableCallbackFlag flag.
(*@ task/src/download_task.cpp DownloadTask::DisableCallback *)
Definition DisableCallback : Task unit := NotifyCallbackDisabled true ;;; own CancelTimedTask.
(*@ task/src/download_task.cpp DownloadTask::EnableCallback *)
Definition EnableCallback : Task unit :=
  NotifyCallbackDisabled false ;;;
  own (set_field (set_isStopDownloadingCallback false)) ;;;
  own SubmitTimedTask.

(** The packages take their place in the store; their ids are distinct. *)
(*@ task/src/download_task.cpp DownloadTask::InitDownloadInfo *)
Definition init_info (taskId : string) (e : E) (downloadInfo : DownloadInfo.t) : DownloadInfo.t :=
  DownloadInfo.set_downloadedSize (DownloadThread.GetFileSize e (DownloadInfo.path downloadInfo))
    (DownloadInfo.set_taskId taskId (DownloadInfo.set_downloadId (DownloadInfo.versionId downloadInfo) downloadInfo)).
(*@ task/src/download_task.cpp DownloadTask::DownloadTask *)
Definition new (taskId : string) (downloadInfos : list DownloadInfo.t) : ST W (t O W) := λ w,
  let infoVector := map (init_info taskId (env w)) downloadInfos in
  let w := fold_left (λ w info, Shared.set_info (DownloadInfo.downloadId info) info w) infoVector w in
  let (processor, progressInfo) :=
    DownloadTaskProgressProcessor.GetTaskProgress infoVector (DownloadTaskProgressProcessor.new infoVector) in
  ({| status_ := ProgressInfo.taskStatus progressInfo;
      reportedTaskProgress_ := 0; taskId_ := taskId;
      downloadInfoMap_ := merge_sort String.le (map DownloadInfo.downloadId infoVector);
      callback_ := None; timedTaskHandle_ := None; lastReportTime_ := 0;
      taskProgressProcessor_ := processor;
      downloadInfos_ := map DownloadInfo.downloadId infoVector;
      progressInfo_ := progressInfo;
      isStopDownloadingCallback_ := false; submitted_ := []; timers_ := [] |}, w).

(** The id of the task, which is empty when nothing is to be downloaded, and the
    error. *)
(*@ task/src/download_task.cpp DownloadTask::Start *)
Definition Start (callback : option (string → ProgressInfo.t → ST (O * W) unit)) (downloadError : DownloadError.t) :
    Task (string * DownloadError.t) :=
  let* this := own (field (λ this, this)) in
  if bool_decide (downloadInfoMap_ this = []) then
    ret ("", DownloadError.build DownloadEndReason.DOWNLOAD_INFO_EMPTY CALL_FAIL)
  else
    own (set_field (set_callback callback)) ;;;
    let* enough := own (IsMemoryEnough (to_int64 (ProgressInfo.packageSize (progressInfo_ this) -
                                                  ProgressInfo.downloadedSize (progressInfo_ this)))) in
    if negb enough then
      ret (taskId_ this, DownloadError.build DownloadEndReason.NO_ENOUGH_MEMORY CALL_FAIL)
    else
      let* (_, downloadError) := DownloadService.Start (Some UpdateTaskProgress) downloadError in
      EnableCallback ;;;
      ret (taskId_ this, downloadError).

(*@ task/src/download_task.cpp DownloadTask::Pause *)
Definition Pause : Task DownloadError.t :=
  own (set_field (set_isStopDownloadingCallback true)) ;;;
  DisableCallback ;;;
  let* (_, downloadError) := DownloadService.Pause in
  ret downloadError.

(*@ task/src/download_task.cpp DownloadTask::Resume *)
Definition Resume (netType : Z) (callback : option (string → ProgressInfo.t → ST (O * W) unit)) : Task DownloadError.t :=
  let* ids := own (field downloadInfoMap_) in
  for_each ids (λ id, own (λ x,
    (tt, (x.1, match infos x.2 !! id with
               | Some downloadInfo =>
                   if DownloadInfo.status downloadInfo =? DownloadStatus.FAIL
                   then Shared.set_info id (DownloadInfo.set_status DownloadStatus.INIT downloadInfo) x.2 else x.2
               | None => x.2
               end)))) ;;;
  own (set_field (set_callback callback)) ;;;
  EnableCallback ;;;
  let* (_, downloadError) := DownloadService.Resume netType in
  let* progressInfo := own GetTaskProgress in
  own (set_field (set_progressInfo progressInfo)) ;;;
  own (set_field (set_status (ProgressInfo.taskStatus progressInfo))) ;;;
  ret downloadError.

(*@ task/src/download_task.cpp DownloadTask::Cancel *)
Definition Cancel (downloadError : DownloadError.t) (isDeleteFiles : bool) : Task DownloadError.t :=
  own (set_field (set_isStopDownloadingCallback true)) ;;;
  DisableCallback ;;;
  DownloadService.Cancel downloadError isDeleteFiles ;;;
  own (set_field (set_callback None)) ;;;
  ret (DownloadError.build DownloadEndReason.SUCCESS CALL_SUCCESS).

(*@ task/src/download_task.cpp DownloadTask::Recover *)
Definition Recover : Task unit :=
  let* this := own (field (λ this, this)) in
  if bool_decide (downloadInfoMap_ this = []) then ret tt
  else
    let* taskId := own (reads (λ w, GetTaskId w this)) in
    own (set_field (set_taskId taskId)) ;;;
    DownloadService.Recover (Some UpdateTaskProgress).

(*@ task/src/download_task.cpp DownloadTask::DestroyTask *)
Definition DestroyTask : Task unit := DownloadService.RemoveDownloadTask.

(** The result is [false] where [NetChangeToPause] is undefined. *)
(*@ task/src/download_task.cpp DownloadTask::OnNetChange *)
Definition OnNetChange (netType : Z) : Task bool :=
  let* this := own (field (λ this, this)) in
  let* available := own (reads (λ w, NetManager.IsNetAvailable (GetNetType (env w)) (GetRequiredNetType w this))) in
  if available : bool then
    EnableCallback ;;; DownloadService.NetChangeToStart ;;; ret true
  else DisableCallback ;;; DownloadService.NetChangeToPause.
End ops.
End DownloadTask.

(** ** Rules for the calls of a task *)
Section rules.
Context {R E O : Type} `{Rdb R, Platform E, ThreadKits E, ServiceKits E}.
Import DownloadTask.
#[local] Notation W := (Shared.t R E).
Implicit Types (x : t O W * O * W).
Lemma wp_field {A} (f : t O W → A) x (Q : A → _ → Prop) : Q (f x.1.1) x → wp (field f) x Q.
Proof. done. Qed.
Lemma wp_set_field f x (Q : unit → _ → Prop) : Q tt (f x.1.1, x.1.2, x.2) → wp (set_field f) x Q.
Proof. done. Qed.
Lemma wp_reads {A} (f : W → A) x (Q : A → _ → Prop) : Q (f x.2) x → wp (reads f) x Q.
Proof. done. Qed.
Lemma wp_tell m x (Q : unit → _ → Prop) : wp m (x.1.2, x.2) (λ _ y, Q tt (x.1.1, y.1, y.2)) → wp (tell m) x Q.
Proof. unfold tell, wp, eval, exec. by destruct (m (x.1.2, x.2)) as [[] y]. Qed.
Lemma wp_own {A} (m : ST (t O W * O * W) A) (s : DownloadService.t (t O W * O) W * (t O W * O * W)) (Q : A → _ → Prop) :
  wp m s.2 (λ a x, Q a (s.1, x)) → wp (own m) s Q.
Proof. unfold own, on_owner, wp, eval, exec. by destruct (m s.2). Qed.

(** The progress of the task, and the state its processor is left in. *)
Definition progress_of (w : W) (this : t O W) : DownloadTaskProgressProcessor.t * ProgressInfo.t :=
  DownloadTaskProgressProcessor.GetTaskProgress (omap (λ id, infos w !! id) (downloadInfos_ this)) (taskProgressProcessor_ this).
Lemma wp_GetTaskProgress this (o : O) (w : W) (Q : ProgressInfo.t → _ → Prop) :
  Q (progress_of w this).2 (set_taskProgressProcessor (progress_of w this).1 this, o, w) →
  wp GetTaskProgress (this, o, w) Q.
Proof.
  intros HQ. unfold GetTaskProgress. apply wp_bind, wp_field, wp_bind, wp_reads, wp_bind, wp_field. cbn [fst snd].
  unfold progress_of in HQ. destruct (DownloadTaskProgressProcessor.GetTaskProgress _ _) as [proc p].
  apply wp_bind, wp_set_field, wp_ret. exact HQ.
Qed.
End rules.

Ltac walk_task :=
  lazymatch goal with
  | |- wp (bind _ _) _ _ => apply wp_bind
  | |- wp (ret _) _ _ => apply wp_ret
  | |- wp (DownloadTask.field _) _ _ => apply wp_field
  | |- wp (DownloadTask.set_field _) _ _ => apply wp_set_field
  | |- wp (DownloadTask.reads _) _ _ => apply wp_reads
  | |- wp (DownloadTask.tell _) _ _ => apply wp_tell
  | |- wp DownloadTask.GetTaskProgress _ _ => apply wp_GetTaskProgress
  | |- wp (if ?b then _ else _) _ _ => let E := fresh "E" in destruct b eqn:E
  end; cbv beta iota zeta; cbn [fst snd negb]; cbv iota.

(** ** Which progress is reported *)
Section accepted.
Context {R E O : Type} `{Rdb R, Platform E, ThreadKits E, ServiceKits E}.
Import DownloadTask.
#[local] Notation W := (Shared.t R E).
Implicit Types (x : t O W * O * W) (p q : ProgressInfo.t).

(** The progress infos that are accepted, in order. *)
Fixpoint accepted (ps : list ProgressInfo.t) : ST (t O W * O * W) (list ProgressInfo.t) :=
  match ps with
  | [] => ret []
  | p :: ps =>
      let* ok := IsProgressChanged p in
      let* rest := accepted ps in
      ret (if ok : bool then p :: rest else rest)
  end.
(** While the status stays the same the sizes do not shrink, and a status that ends the
    task is not repeated. *)
Definition follows p q : Prop :=
  ProgressInfo.taskStatus q = ProgressInfo.taskStatus p →
  ProgressInfo.downloadedSize p ≤ ProgressInfo.downloadedSize q ∧ ProgressInfo.verifiedSize p ≤ ProgressInfo.verifiedSize q ∧
  ProgressInfo.IsTaskCompleted q = false.
(** Nothing new after [p]: the same status with fewer bytes, with the same bytes, or one that
    ends the task. *)
Definition stale p q : Prop :=
  ProgressInfo.taskStatus q = ProgressInfo.taskStatus p ∧
  (ProgressInfo.downloadedSize q < ProgressInfo.downloadedSize p ∨ ProgressInfo.verifiedSize q < ProgressInfo.verifiedSize p ∨
   ProgressInfo.IsTaskCompleted q = true ∨
   ProgressInfo.downloadedSize q = ProgressInfo.downloadedSize p ∧ ProgressInfo.verifiedSize q = ProgressInfo.verifiedSize p).
(** What the task has on record is the progress [p]. *)
Definition on_record p x : Prop :=
  status_ x.1.1 = ProgressInfo.taskStatus p ∧
  ProgressInfo.downloadedSize (progressInfo_ x.1.1) = ProgressInfo.downloadedSize p ∧
  ProgressInfo.verifiedSize (progressInfo_ x.1.1) = ProgressInfo.verifiedSize p.

Lemma wp_IsProgressChanged p q x :
  on_record p x →
  wp (IsProgressChanged q) x (λ ok x', x'.2 = x.2 ∧ if ok : bool then follows p q ∧ on_record q x' else stale p q ∧ on_record p x').
Proof.
  intros (Hs & Hd & Hv). unfold IsProgressChanged. do 2 walk_task. rewrite Hs, Hd, Hv.
  walk_task; [walk_task; breflect; split_and!; [done|split; [done|]|done]; rewrite !Z.ltb_lt in *; tauto|].
  walk_task; [walk_task; breflect; split_and!; [done|by split; [|right; right; left]|done]|]. repeat walk_task. split; [done|].
  case_if.
  - split; [|done]. intros Heq. rewrite (proj2 (Z.eqb_eq _ _) Heq) in *. cbn [andb] in *. breflect. repeat split; [lia|lia|done].
  - breflect. split; [split; [lia|right; right; right; lia]|]. repeat split; cbn; lia.
Qed.

(** The progresses [acc] of those that come are accepted, each of the others is stale when it comes. *)
Inductive judged : ProgressInfo.t → list ProgressInfo.t → list ProgressInfo.t → Prop :=
  | judged_nil p : judged p [] []
  | judged_take p q ps acc : follows p q → judged q ps acc → judged p (q :: ps) (q :: acc)
  | judged_drop p q ps acc : stale p q → judged p ps acc → judged p (q :: ps) acc.
Lemma wp_accepted ps p x :
  on_record p x → wp (accepted ps) x (λ acc x', x'.2 = x.2 ∧ judged p ps acc).
Proof.
  revert p x. induction ps as [|q ps IH]; intros p x Hx; cbn [accepted]; [apply wp_ret; split; [done|constructor]|].
  apply wp_bind. eapply wp_mono; [|by apply (wp_IsProgressChanged p)]. intros [] x1 (Hw1 & Hx1).
  - destruct Hx1 as [Hf Hx1]. apply wp_bind. eapply wp_mono; [|by apply (IH q)]. intros acc x2 (Hw2 & Hs). apply wp_ret.
    split; [by rewrite Hw2|]. by constructor.
  - destruct Hx1 as [Hstale Hx1]. apply wp_bind. eapply wp_mono; [|by apply (IH p)]. intros acc x2 (Hw2 & Hs). apply wp_ret.
    split; [by rewrite Hw2|]. by constructor.
Qed.
(** As long as one status lasts. *)
Definition lasting (l : list ProgressInfo.t) (i j : nat) (status : Z) : Prop :=
  ∀ k q, (i ≤ k ≤ j)%nat → l !! k = Some q → ProgressInfo.taskStatus q = status.
Lemma judged_lasting p ps acc i j q1 q2 :
  judged p ps acc → (i < j)%nat → (p :: acc) !! i = Some q1 → (p :: acc) !! j = Some q2 → lasting (p :: acc) i j (ProgressInfo.taskStatus q1) →
  ProgressInfo.downloadedSize q1 ≤ ProgressInfo.downloadedSize q2 ∧ ProgressInfo.verifiedSize q1 ≤ ProgressInfo.verifiedSize q2 ∧
  ProgressInfo.IsTaskCompleted q2 = false.
Proof.
  intros Hj. revert i j q1 q2. induction Hj as [p|p q ps acc Hf Hj IH|p q ps acc Hs Hj IH]; intros i j q1 q2 Hij Hi1 Hj2 Hl.
  - destruct j as [|j]; [lia|]. done.
  - destruct j as [|j]; [lia|]. destruct i as [|i]; cbn in Hi1.
    + injection Hi1 as ->. destruct (Hf (Hl 1%nat q ltac:(lia) eq_refl)) as (Hd & Hv & Hc). destruct j as [|j]; [by injection Hj2 as ->|].
      assert (ProgressInfo.taskStatus q = ProgressInfo.taskStatus q1) as Hq by (by apply (Hl 1%nat); [lia|]).
      destruct (IH 0%nat (S j) q q2) as (Hd' & Hv' & Hc'); [lia|done|done| |split_and!; [lia|lia|done]].
      intros k x Hk Hx. rewrite Hq. apply (Hl (S k)); [lia|done].
    + apply (IH i j); [lia|done|done|]. intros k x Hk Hx. apply (Hl (S k)); [lia|done].
  - by eapply IH.
Qed.

(** C21: of the progress infos of a task, in whatever order they come: as long as the status of
    the task lasts, the ones that are accepted never lose bytes, and a status that ends the task is
    not accepted a second time; another status in between opens it again.  Every one that is not
    accepted has nothing new to tell: it has the status of the last accepted one, with fewer
    bytes, the same, or one that ends the task; so a progress with another status is always accepted. *)
Theorem accepted_progress_ordered ps p x :
  on_record p x → wp (accepted ps) x (λ acc x', x'.2 = x.2 ∧ judged p ps acc ∧
    ∀ i j q1 q2, (i < j)%nat → (p :: acc) !! i = Some q1 → (p :: acc) !! j = Some q2 → lasting (p :: acc) i j (ProgressInfo.taskStatus q1) →
      ProgressInfo.downloadedSize q1 ≤ ProgressInfo.downloadedSize q2 ∧ ProgressInfo.verifiedSize q1 ≤ ProgressInfo.verifiedSize q2 ∧
      ProgressInfo.IsTaskCompleted q2 = false).
Proof.
  intros Hx. eapply wp_mono; [|by apply wp_accepted]. intros acc x' [Hx' Hj]. split_and!; [done..|].
  intros i j q1 q2. by apply (judged_lasting p ps acc).
Qed.
End accepted.

(** Packages of the same sizes are as good for the progress of a task. *)
Definition same_sizes (a b : DownloadInfo.t) : Prop :=
  DownloadInfo.packageSize a = DownloadInfo.packageSize b ∧ DownloadInfo.downloadedSize a = DownloadInfo.downloadedSize b ∧
  DownloadInfo.verifiedSize a = DownloadInfo.verifiedSize b.
Lemma sum_of_same f l k : Forall2 (λ a b, f a = f b) l k → sum_of f l = sum_of f k.
Proof. induction 1 as [|a b l k Hab _ IH]; [done|]. change (f a + sum_of f l = f b + sum_of f k). by rewrite Hab, IH. Qed.
Lemma same_sizes_wf l k proc :
  Forall2 same_sizes l k → wf_sizes l ∧ built_for proc l → wf_sizes k ∧ built_for proc k.
Proof.
  intros Hs [(Hn & Hf & Hp & Hd & Hv) [Ht Hb]]. pose proof (Forall2_length _ _ _ Hs) as Hlen.
  rewrite (sum_of_same DownloadInfo.packageSize l k) in * by (eapply Forall2_impl; [exact Hs|]; by intros ?? (? & ? & ?)).
  rewrite (sum_of_same DownloadInfo.downloadedSize l k) in * by (eapply Forall2_impl; [exact Hs|]; by intros ?? (? & ? & ?)).
  rewrite (sum_of_same DownloadInfo.verifiedSize l k) in * by (eapply Forall2_impl; [exact Hs|]; by intros ?? (? & ? & ?)).
  rewrite Hlen in *. split; [|done]. split; [done|]. split; [|done].
  clear -Hs Hf. induction Hs as [|a b l k (Hp & Hd & Hv) _ IH]; [done|]. apply Forall_cons in Hf as [Ha Hf]. constructor; [|by apply IH].
  by rewrite <- Hp, <- Hd, <- Hv.
Qed.

(** ** Pausing a task *)
Section pausing.
Context {R E : Type} `{Rdb R, Platform E, ThreadKits E, ServiceKits E}.
Import DownloadTask.
#[local] Notation W := (Shared.t R E).
#[local] Notation O := (list ProgressInfo.t).
#[local] Notation C := (t O W * O)%type.
#[local] Notation State := (DownloadService.t C W * (C * W))%type.
#[local] Notation to_owner := (Some (λ (_ : string), logged (B := ProgressInfo.t) (W := W))).
Implicit Types (this : t O W) (w : W) (p : ProgressInfo.t) (info : DownloadInfo.t).

Lemma wp_CancelTimedTask this (o : O) w (Q : unit → C * W → Prop) :
  (∀ ts, Q tt (set_timers ts this, o, w)) → wp CancelTimedTask (this, o, w) Q.
Proof.
  intros HQ. unfold CancelTimedTask. do 2 walk_task. destruct (timedTaskHandle_ this); walk_task; [apply HQ|].
  specialize (HQ (timers_ this)). by destruct this.
Qed.

(** What a report of a thread leaves of the task, when the whole task is downloading
    or paused: a report of a running task is handed to the queue, the first report of
    a pause goes to the owner at once. *)
Definition reported this (o : O) w (x : C * W) : Prop :=
  let p := (progress_of w this).2 in
  x.2 = w ∧ callback_ x.1.1 = to_owner ∧ downloadInfos_ x.1.1 = downloadInfos_ this ∧
  taskProgressProcessor_ x.1.1 = (progress_of w this).1 ∧
  (ProgressInfo.taskStatus p = DownloadStatus.DOWNLOADING →
     x.1.2 = o ∧ (status_ x.1.1 = status_ this ∨ status_ x.1.1 = DownloadStatus.DOWNLOADING)) ∧
  (ProgressInfo.taskStatus p = DownloadStatus.PAUSE →
     x.1.2 = o ++ (if status_ this =? DownloadStatus.PAUSE then [] else [p]) ∧ status_ x.1.1 = DownloadStatus.PAUSE).

(** The progress has the status of the task, and nothing is told. *)
Lemma reported_same this (o : O) w (x : C * W) :
  x.2 = w → callback_ x.1.1 = to_owner → downloadInfos_ x.1.1 = downloadInfos_ this →
  taskProgressProcessor_ x.1.1 = (progress_of w this).1 → x.1.2 = o → status_ x.1.1 = status_ this →
  ProgressInfo.taskStatus (progress_of w this).2 = status_ this → reported this o w x.
Proof.
  intros Hw Hcb Hv Hproc Ho Hst Hsame. unfold reported. cbv zeta. rewrite Hw, Hcb, Hv, Hproc, Ho, Hst, Hsame.
  split_and!; [done..|intros; split; [done|by left]|]. intros ->. by rewrite Z.eqb_refl, app_nil_r.
Qed.
Lemma wp_CallbackProgress p this (o : O) w :
  callback_ this = to_owner → ProgressInfo.IsSyncCallback p = true →
  wp (CallbackProgress p) (this, o, w) (λ _ x, x = (set_lastReportTime (GetTimestampByMilliseconds (env w)) this, o ++ [p], w)).
Proof.
  intros Hcb Hp. unfold CallbackProgress, CallbackProgressLocked. do 2 walk_task. rewrite Hcb. do 2 walk_task. rewrite Hp. cbn [negb andb].
  cbv iota. do 3 walk_task. walk_task. exact eq_refl.
Qed.

Lemma wp_UpdateTaskProgress i this (o : O) w :
  callback_ this = to_owner → wp (UpdateTaskProgress i) (this, o, w) (λ _ x, reported this o w x).
Proof.
  intros Hcb. unfold UpdateTaskProgress. walk_task. walk_task. unfold IsProgressChanged. set (p := (progress_of w this).2) in *. do 3 walk_task.
  cbn [status_ set_taskProgressProcessor progressInfo_ reportedTaskProgress_].
  destruct (_ && (_ || _)) eqn:Hstale; cbn [negb]; [do 2 walk_task; breflect; by apply reported_same|].
  destruct (_ && ProgressInfo.IsTaskCompleted p) eqn:Hdup; [do 2 walk_task; breflect; by apply reported_same|].
  do 7 walk_task. destruct (_ || negb _) eqn:Hchanged; cbn [negb]; cbv iota.
  2: { walk_task. breflect. apply reported_same; done. }
  walk_task. apply (wp_mono _ _ (λ _ x, ∃ ts, x = (set_timers ts (set_progressInfo p (set_status (ProgressInfo.taskStatus p)
    (set_reportedTaskProgress (ProgressInfo.taskProgress p) (set_taskProgressProcessor (progress_of w this).1 this)))), o, w))).
  2: { destruct (ProgressInfo.IsTaskCompleted p); [apply wp_CancelTimedTask|apply wp_ret]; [by eexists|by exists (timers_ this)]. }
  intros [] x [ts ->]. destruct (ProgressInfo.IsSyncCallback p) eqn:Hsync.
  - eapply wp_mono; [|by apply wp_CallbackProgress]. intros [] x ->. unfold reported. fold p. cbn [fst snd]. split_and!; try done.
    + unfold ProgressInfo.IsSyncCallback in Hsync. intros Hd. by rewrite Hd in Hsync.
    + intros Hps. assert (ProgressInfo.IsTaskCompleted p = true) as Hc by (unfold ProgressInfo.IsTaskCompleted; by rewrite Hps).
      rewrite Hc, andb_true_r, Hps, Z.eqb_sym in Hdup. by rewrite Hdup.
  - walk_task. unfold reported. fold p. cbn [fst snd]. split_and!; try done.
    + intros Hd. split; [done|by right].
    + unfold ProgressInfo.IsSyncCallback in Hsync. intros Hps. by rewrite Hps in Hsync.
Qed.

(** The packages at a moment of the pause: those of [l1] are paused. *)
Definition pausing (w0 : W) (l1 : list string) w : Prop :=
  ∀ id, infos w !! id = if decide (id ∈ l1) then paused <$> infos w0 !! id else infos w0 !! id.
(** A package that is being downloaded or verified. *)
Definition busy w (l : list string) : bool :=
  existsb (λ id, match infos w !! id with Some info => DownloadService.is_running (DownloadInfo.status info) | None => false end) l.

Lemma status_of_status st (l : list string) w :
  has_status st (omap (λ id, infos w !! id) l) = true ↔
  ∃ id info, id ∈ l ∧ infos w !! id = Some info ∧ DownloadInfo.GetTaskStatus info = st.
Proof.
  unfold has_status. rewrite existsb_exists. split.
  - intros (info & Hin & Hst). apply list_elem_of_In, list_elem_of_omap in Hin as (id & Hid & Hi). breflect. by exists id, info.
  - intros (id & info & Hid & Hi & Hst). exists info. split; [|by apply Z.eqb_eq]. apply list_elem_of_In, list_elem_of_omap. by exists id.
Qed.
Lemma all_status_elem st (l : list string) w id info :
  id ∈ l → infos w !! id = Some info → DownloadInfo.GetTaskStatus info ≠ st →
  all_status st (omap (λ id, infos w !! id) l) = false.
Proof.
  intros Hid Hi Hst. apply not_true_is_false. unfold all_status. rewrite forallb_forall. intros Hall. apply Hst, Z.eqb_eq, Hall.
  apply list_elem_of_In, list_elem_of_omap. by exists id.
Qed.
Lemma running_GetTaskStatus info :
  DownloadService.is_running (DownloadInfo.status info) = true ↔
  DownloadInfo.GetTaskStatus info = DownloadStatus.DOWNLOADING ∨ DownloadInfo.GetTaskStatus info = DownloadStatus.VERIFYING.
Proof.
  unfold DownloadService.is_running, DownloadInfo.GetTaskStatus. rewrite orb_true_iff, !Z.eqb_eq.
  destruct ((DownloadInfo.status info =? DownloadStatus.FAIL) && DownloadInfo.isIgnoredFail info) eqn:Hf; [|done].
  breflect. split; [|intros [?|?]; done]. intros [Hs|Hs]; rewrite Hs in *; done.
Qed.

(** Once a package is paused the task is downloading or paused. *)
Lemma pausing_status w0 w (v l1 l2 : list string) id info :
  pausing w0 (l1 ++ [id]) w → (∀ id', id' ∈ v ↔ id' ∈ (l1 ++ [id]) ++ l2) → NoDup ((l1 ++ [id]) ++ l2) → infos w0 !! id = Some info →
  let l := omap (λ id, infos w !! id) v in
  all_status DownloadStatus.INIT l = false ∧
  task_status l = if busy w0 l2 then DownloadStatus.DOWNLOADING else DownloadStatus.PAUSE.
Proof.
  intros Hp Hv Hnd Hid. assert (id ∈ v) as Hin by (apply Hv; set_solver).
  assert (infos w !! id = Some (paused info)) as Hpaused by (rewrite Hp, decide_True, Hid by set_solver; done).
  assert (∀ st, st ≠ DownloadStatus.PAUSE → all_status st (omap (λ id, infos w !! id) v) = false) as Hall
    by (intros st Hst; by apply (all_status_elem st v w id (paused info))).
  cbv zeta. split; [by apply Hall|]. unfold task_status. rewrite Hall by done.
  assert (has_status DownloadStatus.DOWNLOADING (omap (λ id, infos w !! id) v) ||
          has_status DownloadStatus.VERIFYING (omap (λ id, infos w !! id) v) = busy w0 l2) as ->.
  { apply eq_true_iff_eq. rewrite orb_true_iff, !status_of_status. unfold busy. rewrite existsb_exists. split.
    - intros Hex. assert (∃ id' info', id' ∈ v ∧ infos w !! id' = Some info' ∧ DownloadService.is_running (DownloadInfo.status info') = true)
        as (id' & info' & Hid' & Hi' & Hr').
      { destruct Hex as [(id' & info' & ? & ? & ?)|(id' & info' & ? & ? & ?)]; exists id', info'; (split_and!; [done|done|]);
          apply running_GetTaskStatus; tauto. }
      exists id'. rewrite Hp in Hi'. case_decide as Hd; [by destruct (infos w0 !! id'); simplify_eq/=|]. rewrite Hi'. split; [|done].
      apply list_elem_of_In. apply Hv in Hid'. apply elem_of_app in Hid' as [?|?]; done.
    - intros (id' & Hid' & Hr'). apply list_elem_of_In in Hid'. destruct (infos w0 !! id') as [info'|] eqn:Hi'; [|done].
      assert (infos w !! id' = Some info') as Hi''.
      { rewrite Hp, decide_False; [done|]. intros Hl. apply NoDup_app in Hnd as (_ & Hnd & _). by apply (Hnd id'). }
      assert (id' ∈ v) by (apply Hv; set_solver). apply running_GetTaskStatus in Hr' as [Hr'|Hr']; [left|right]; by exists id', info'. }
  destruct (busy w0 l2); [done|]. rewrite (proj2 (status_of_status _ _ _)); [done|]. by exists id, (paused info).
Qed.
Lemma pausing_sizes w0 w (l1 v : list string) :
  pausing w0 l1 w →
  Forall2 same_sizes (omap (λ id, infos w0 !! id) v) (omap (λ id, infos w !! id) v).
Proof.
  intros Hp. induction v as [|id v IH]; cbn; [constructor|]. rewrite Hp. destruct (infos w0 !! id); cbn; case_decide; cbn; by try constructor.
Qed.

(** A task at work: the service reports to it, and it knows the packages of the
    service. *)
Definition at_work (s : State) : Prop :=
  let this := s.2.1.1 in
  knows_packages s ∧ DownloadService.onDownloadCallback_ s.1 = Some UpdateTaskProgress ∧ callback_ this = to_owner ∧
  (∀ id, id ∈ downloadInfos_ this ↔ id ∈ DownloadService.serviceDownloadInfoMap_ s.1) ∧
  wf_sizes (omap (λ id, infos s.2.2 !! id) (downloadInfos_ this)) ∧
  built_for (taskProgressProcessor_ this) (omap (λ id, infos s.2.2 !! id) (downloadInfos_ this)).

(** The moment of the pause after the packages of [l1], with those of [l2] to come. *)
Definition pause_moment (s : State) (l1 l2 : list string) (s' : State) : Prop :=
  let this' := s'.2.1.1 in
  s'.1 = s.1 ∧ callback_ this' = to_owner ∧ downloadInfos_ this' = downloadInfos_ s.2.1.1 ∧ pausing s.2.2 l1 s'.2.2 ∧
  built_for (taskProgressProcessor_ this') (omap (λ id, infos s'.2.2 !! id) (downloadInfos_ this')) ∧
  (if bool_decide (l1 = []) || busy s.2.2 l2
   then s'.2.1.2 = s.2.1.2 ∧ status_ this' ≠ DownloadStatus.PAUSE
   else ∃ p, s'.2.1.2 = s.2.1.2 ++ [p] ∧ ProgressInfo.taskStatus p = DownloadStatus.PAUSE ∧ status_ this' = DownloadStatus.PAUSE).

Lemma pause_step (s s' : State) l1 id l2 info :
  at_work s → DownloadService.threadMap_ s.1 = ∅ → DownloadService.isStopCallback_ s.1 = true →
  DownloadService.serviceDownloadInfoMap_ s.1 = l1 ++ id :: l2 → infos s.2.2 !! id = Some info →
  pause_moment s l1 (id :: l2) s' →
  wp (DownloadService.UpdateDownloadProgress (pause_report info)) s' (λ _ s'', pause_moment s (l1 ++ [id]) l2 s'').
Proof.
  destruct s as [svc [[this o] w]], s' as [svc' [[this' o'] w']]. unfold at_work, pause_moment. cbn [fst snd].
  intros ((Hnd & Hk) & Hcb & _ & Hv & Hsz & _) Htm Hst Hids Hi (-> & Hcb' & Hv' & Hp & Hb' & Htold). cbn [fst snd] in *.
  assert (DownloadInfo.downloadId info = id) as Hid by (destruct (Hk id) as (i' & ? & ?); [rewrite Hids; set_solver|by simplify_eq]).
  assert (id ∉ l1) as Hnot by (rewrite Hids in Hnd; apply NoDup_app in Hnd as (_ & Hd & _); intros Hin; apply (Hd id Hin); left).
  assert (infos w' !! id = Some info) as Hi' by (rewrite Hp, decide_False; done).
  eapply (wp_progress_report UpdateTaskProgress _ info); [|done|done|done|].
  { unfold reports_on. cbn. rewrite Hid, Hids. split_and!; [set_solver|done|done]. }
  cbv zeta. cbn [fst snd]. set (w1 := {| Shared.db := _ |}).
  assert (pausing w (l1 ++ [id]) w1) as Hp1.
  { intros id'. subst w1. cbn. rewrite Hid. destruct (decide (id' = id)) as [->|?].
    - rewrite lookup_insert_eq, decide_True, Hi by set_solver. done.
    - rewrite lookup_insert_ne, Hp by done. do 2 case_decide; [done|set_solver..|done]. }
  assert (wf_sizes (omap (λ id, infos w1 !! id) (downloadInfos_ this')) ∧
          built_for (taskProgressProcessor_ this') (omap (λ id, infos w1 !! id) (downloadInfos_ this'))) as [Hsz1 Hb1].
  { pose proof (pausing_sizes w w' _ (downloadInfos_ this') Hp) as Hs. pose proof (pausing_sizes w w1 _ (downloadInfos_ this') Hp1) as Hs1.
    rewrite Hv' in *. eapply (same_sizes_wf _ _ _ Hs1). split; [done|]. destruct Hb' as [Ht Hb'].
    rewrite <- (Forall2_length _ _ _ Hs) in Ht. split; [exact Ht|]. rewrite Hb'. symmetry. apply sum_of_same.
    eapply Forall2_impl; [exact Hs|]. by intros ?? (? & ? & ?). }
  eapply wp_mono; [|by apply wp_UpdateTaskProgress]. intros [] [[this2 o2] w2] Hr.
  destruct (GetTaskProgress_status _ _ Hb1 Hsz1) as (Hb2 & _ & _ & Hstatus). fold (progress_of w1 this') in Hb2, Hstatus.
  destruct (pausing_status w w1 (downloadInfos_ this') l1 l2 id info Hp1) as [Hinit Hts];
    [intros id'; by rewrite Hv', Hv, Hids, <- app_assoc|rewrite <- app_assoc; by rewrite Hids in Hnd|done|].
  rewrite Hinit, Hts in Hstatus. unfold reported in Hr. cbn [fst snd] in Hr. destruct Hr as (-> & Hcb2 & Hv2 & Hproc2 & Hrun & Hpause).
  assert (svc = DownloadService.set_threadMap (threads_after (pause_report info) (DownloadService.threadMap_ svc)) svc) as <-
    by (unfold threads_after; cbn; rewrite Htm, delete_empty; destruct svc; cbn in *; by rewrite Htm).
  cbn [fst snd]. split_and!; [done|done|by rewrite Hv2|done|by rewrite Hproc2, Hv2|].
  rewrite bool_decide_false by (by destruct l1). cbn [orb]. unfold busy in Htold. cbn [existsb] in Htold. fold (busy w l2) in Htold.
  destruct (busy w l2).
  - rewrite orb_true_r, orb_true_r in Htold. destruct Htold as [-> Hne]. destruct (Hrun Hstatus) as [-> Hst2]. split; [done|].
    destruct Hst2 as [-> | ->]; done.
  - destruct (Hpause Hstatus) as [Ho2 Hst2]. destruct (_ || _) in Htold.
    + destruct Htold as [-> Hne]. rewrite (proj2 (Z.eqb_neq _ _) Hne) in Ho2. by eexists.
    + destruct Htold as (p & -> & Hps & Hst'). rewrite Hst' in Ho2. cbn in Ho2. rewrite app_nil_r in Ho2. by exists p.
Qed.

(** Pausing a task that is at work tells its owner exactly once that the task is
    paused, whatever the packages were doing, and nothing else; every thread is
    dropped. *)
Theorem pause_reported s :
  at_work s → DownloadService.serviceDownloadInfoMap_ s.1 ≠ [] → status_ s.2.1.1 ≠ DownloadStatus.PAUSE →
  wp Pause s (λ e s', ∃ p,
    e = DownloadError.build DownloadEndReason.SUCCESS CALL_SUCCESS ∧
    s'.2.1.2 = s.2.1.2 ++ [p] ∧ ProgressInfo.taskStatus p = DownloadStatus.PAUSE ∧
    status_ s'.2.1.1 = DownloadStatus.PAUSE ∧ DownloadService.threadMap_ s'.1 = ∅).
Proof.
  destruct s as [svc [[this o] w]]. intros (Hk & Hcb & Hto & Hv & Hsz & Hb) Hne Hst. cbn [fst snd] in *.
  unfold Pause. apply wp_bind, wp_own, wp_set_field. unfold DisableCallback, NotifyCallbackDisabled, DownloadService.SetDisableCallbackFlag. cbn [fst snd].
  do 2 apply wp_bind. apply wp_bind, wp_this. cbn [fst snd].
  eapply (wp_each_thread (DownloadThread.set_isDisableCallbackFlag true));
    [intros th x; unfold DownloadThread.SetDisableCallbackFlag; by st_simpl|done|]. intros ths1 _ _ _. cbn [fst snd].
  apply wp_own, wp_CancelTimedTask. intros ts. cbn [fst snd].
  unfold DownloadService.Pause, DownloadService.StopAllDownloadThread. do 3 apply wp_bind. apply wp_set_this. apply wp_bind, wp_this, wp_bind.
  eapply wp_each_thread; [apply only_Stop|done|]. intros ths2 _ _ _. apply wp_set_this, wp_bind. cbn [fst snd].
  match goal with |- wp _ ?s0 _ => set (s0' := s0) end.
  assert (at_work s0') as Hwork by (by split_and!).
  apply (wp_for_each_info (λ l1 s', ∀ l2, DownloadService.serviceDownloadInfoMap_ s0'.1 = l1 ++ l2 → pause_moment s0' l1 l2 s')).
  - intros l2 Hl. by split_and!.
  - intros l1 id l2 s1 Hl Hs1. specialize (Hs1 (id :: l2) Hl). destruct Hk as [Hnd Hk]. cbn [fst snd] in *.
    destruct (Hk id) as (info & Hi & Hid); [cbn in Hl |- *; rewrite Hl; set_solver|].
    assert (id ∉ l1) as Hnot by (cbn in Hnd, Hl; rewrite Hl in Hnd; apply NoDup_app in Hnd as (_ & Hd & _); intros Hin; apply (Hd id Hin); left).
    pose proof Hs1 as (_ & _ & _ & Hp & _). rewrite Hp, decide_False by done. cbn [fst snd infos Shared.set_threads s0']. rewrite Hi.
    eapply wp_mono; [|by eapply (pause_step s0')]. intros [] s2 Hs2 l2' Hl'. pose proof (eq_trans (eq_sym Hl) Hl') as Heq. rewrite <- app_assoc in Heq.
    by simplify_eq/=.
  - intros s1 Hs1. specialize (Hs1 [] (eq_sym (app_nil_r _))). destruct s1 as [svc1 [[this1 o1] w1]].
    destruct Hs1 as (Hsvc & _ & _ & _ & _ & Htold). cbn [fst snd] in *. rewrite bool_decide_false in Htold by done. cbn [orb] in Htold.
    destruct Htold as (p & Ho & Hps & Hst1). apply wp_ret, wp_ret. exists p. split_and!; try done. by rewrite Hsvc.
Qed.
End pausing.

(** ** A sample task *)
Module SampleTask.
Import DownloadTask.
#[local] Existing Instance SampleThread.thread_kits.
#[local] Existing Instance SampleService.kits.
#[local] Notation W := (Shared.t MemoryDb.t SampleEnv.t).
#[local] Notation O := (list ProgressInfo.t).
#[local] Notation C := (t O W * O)%type.
Definition packages : gmap string DownloadInfo.t :=
  {[ "a" := SamplePackages.package "a" DownloadStatus.DOWNLOADING 60; "b" := SamplePackages.package "b" DownloadStatus.SUCCESS 200 ]}.
Definition store : W := {| db := {| SqliteDb.dbStore_ := false; SqliteDb.store := MemoryDb.empty |}; env := SampleEnv.initial;
                           infos := packages; threads := [] |}.
Definition progress (status downloadedSize : Z) : ProgressInfo.t := {|
  ProgressInfo.taskProgress := 0; ProgressInfo.taskStatus := status; ProgressInfo.reason := DownloadEndReason.INIT;
  ProgressInfo.progresses := []; ProgressInfo.packageSize := 400; ProgressInfo.downloadedSize := downloadedSize;
  ProgressInfo.verifiedSize := 0 |}.
Definition task : t O W := {|
  status_ := DownloadStatus.DOWNLOADING; reportedTaskProgress_ := 0; taskId_ := "task"; downloadInfoMap_ := ["a"; "b"];
  callback_ := Some (λ _, logged); timedTaskHandle_ := None; lastReportTime_ := 0;
  taskProgressProcessor_ := DownloadTaskProgressProcessor.new (omap (λ id, packages !! id) ["a"; "b"]);
  downloadInfos_ := ["a"; "b"]; progressInfo_ := progress DownloadStatus.DOWNLOADING 0;
  isStopDownloadingCallback_ := false; submitted_ := []; timers_ := [] |}.
Definition service : DownloadService.t C W :=
  DownloadService.set_callback (Some UpdateTaskProgress) (DownloadService.new "task" ["a"; "b"]).

Lemma pause_reported_witness :
  let s' := exec Pause (service, ((task, []), store)) in
  ∃ p, s'.2.1.2 = [p] ∧ ProgressInfo.taskStatus p = DownloadStatus.PAUSE.
Proof.
  assert (at_work (service, ((task, []), store))) as Hwork.
  { split_and!; try done; [|apply (bool_decide_unpack _); by vm_compute].
    split; [apply (bool_decide_unpack _); by vm_compute|]. intros id [->|[->|?%not_elem_of_nil]%elem_of_cons]%elem_of_cons; [by eexists..|done]. }
  pose proof (pause_reported _ Hwork ltac:(discriminate) ltac:(discriminate)) as Hp. unfold wp in Hp.
  cbv zeta. revert Hp. generalize (exec Pause (service, (task, [], store))). intros s' (p & _ & Ho & Hp & _). exists p. by split.
Defined.

Lemma accepted_progress_ordered_witness :
  let ps := [progress DownloadStatus.DOWNLOADING 10; progress DownloadStatus.DOWNLOADING 5; progress DownloadStatus.PAUSE 5;
             progress DownloadStatus.PAUSE 6; progress DownloadStatus.DOWNLOADING 7] in
  let acc := eval (accepted ps) (task, [] : O, store) in
  map ProgressInfo.downloadedSize acc = [10; 5; 7] ∧ judged (progress DownloadStatus.DOWNLOADING 0) ps acc.
Proof.
  intros ps acc. split; [by vm_compute|].
  refine (proj1 (proj2 (accepted_progress_ordered ps (progress DownloadStatus.DOWNLOADING 0) (task, [], store) _))). by split_and!.
Defined.
End SampleTask.
