(* ===== verification/DownloadManager.v ===== *)
(** * The manager of the download tasks

    Models [download_task_manager.cpp]: the tasks that are known, by their id, and
    the operations the rest of the service uses.  Task objects live in a heap of
    their own, because a task outlives its entry in [downloadTaskMap_]; an object
    is its service, its own fields, and the packages and threads it made.  The owner
    of the callback of a task is the manager, whose map the callback may change
    ([DealCallBack]).  The delayed destruction of a task that has ended has no effect
    here. *)
From Stdlib Require Import ZArith Lia Ascii String.
From stdpp Require Import base tactics list strings gmap sorting.
From S2P Require Import Prelude CppString StringUtils Models Database FirmwareDb FirmwareStore FirmwareWorld DownloadData DownloadThread DownloadService DownloadTask.

#[local] Open Scope Z_scope.

Module DownloadTaskManager.
(** A task object; [X] is the state of the user of the manager. *)
Record object (R E X : Type) := {
  service : DownloadService.t (DownloadTask.t (gmap string nat * X) (Shared.t R E) * (gmap string nat * X)) (Shared.t R E);
  task : DownloadTask.t (gmap string nat * X) (Shared.t R E);
  infos : gmap string DownloadInfo.t;
  threads : list DownloadThread.t
}.
Arguments service {R E X} _.
Arguments task {R E X} _.
Arguments infos {R E X} _.
Arguments threads {R E X} _.
(*@ download/manager/include/download_task_manager.h:53-56 DownloadTaskManager *)
Record t (R E X : Type) := {
  downloadTaskMap_ : gmap string nat;
  user : X;
  objects : list (object R E X);
  db : SqliteDb.t R;
  env : E
}.
Arguments downloadTaskMap_ {R E X} _.
Arguments user {R E X} _.
Arguments objects {R E X} _.
Arguments db {R E X} _.
Arguments env {R E X} _.

Section ops.
Context {R E X : Type} `{Rdb R, Platform E, ThreadKits E, ServiceKits E, Sha256}.
#[local] Notation W := (Shared.t R E).
#[local] Notation O := (gmap string nat * X)%type.
#[local] Notation Manager := (ST (t R E X)).
#[local] Notation Task := (ST (DownloadService.t (DownloadTask.t O W * O) W * (DownloadTask.t O W * O * W))).
(** The callback of a user of the manager, and that of a task. *)
#[local] Notation UserCallback := (option (string → ProgressInfo.t → ST (X * W) unit)).
#[local] Notation TaskCallback := (string → ProgressInfo.t → ST (O * W) unit).

Definition set_map (m : gmap string nat) (this : t R E X) : t R E X := {|
  downloadTaskMap_ := m; user := user this; objects := objects this; db := db this; env := env this |}.
Definition find_task (taskId : string) : Manager (option nat) := gets (λ this, downloadTaskMap_ this !! taskId).
Definition Erase (taskId : string) : Manager unit := modify (λ this, set_map (delete taskId (downloadTaskMap_ this)) this).
Definition EnsureInsert (taskId : string) (k : nat) : Manager unit :=
  modify (λ this, set_map (<[taskId := k]> (downloadTaskMap_ this)) this).

(** A method of the task object [k]; the default [a] stands for a null pointer. *)
Definition run {A} (k : nat) (a : A) (m : Task A) : Manager A := λ this,
  match objects this !! k with
  | None => (a, this)
  | Some o =>
      let s := (service o, (task o, (downloadTaskMap_ this, user this),
                 {| Shared.db := db this; Shared.env := env this; Shared.infos := infos o; Shared.threads := threads o |})) in
      let s' := exec m s in
      (eval m s,
       {| downloadTaskMap_ := s'.2.1.2.1; user := s'.2.1.2.2;
          objects := <[k := {| service := s'.1; task := s'.2.1.1;
                               infos := Shared.infos s'.2.2; threads := Shared.threads s'.2.2 |}]> (objects this);
          db := Shared.db s'.2.2; env := Shared.env s'.2.2 |})
  end.
(** [std::make_shared<DownloadTask>(taskId, downloadInfos)] *)
Definition make_task (taskId : string) (downloadInfos : list DownloadInfo.t) : Manager nat := λ this,
  let w := {| Shared.db := db this; Shared.env := env this; Shared.infos := ∅; Shared.threads := [] |} in
  let (task, w) := DownloadTask.new taskId downloadInfos w in
  let o := {| service := DownloadService.new taskId (DownloadTask.downloadInfoMap_ task); task := task;
              infos := Shared.infos w; threads := Shared.threads w |} in
  (List.length (objects this),
   {| downloadTaskMap_ := downloadTaskMap_ this; user := user this; objects := objects this ++ [o]; db := db this; env := env this |}).

(*@ manager/src/download_task_manager.cpp DownloadTaskManager::DealCallBack *)
Definition DealCallBack (callback : UserCallback) : TaskCallback := λ taskId progressInfo x,
  let map := x.1.1 in
  match map !! taskId with
  | None => (tt, x)
  | Some _ =>
      let map :=
        if (ProgressInfo.taskStatus progressInfo =? DownloadStatus.FAIL) ||
           (ProgressInfo.taskStatus progressInfo =? DownloadStatus.SUCCESS) ||
           (ProgressInfo.taskStatus progressInfo =? DownloadStatus.CANCEL)
        then delete taskId map else map in
      match callback with
      | None => (tt, (map, x.1.2, x.2))
      | Some callback => let y := exec (callback taskId progressInfo) (x.1.2, x.2) in (tt, (map, y.1, y.2))
      end
  end.

(*@ manager/src/download_task_manager.cpp DownloadTaskManager::RemoveDuplicateVersionId *)
Fixpoint RemoveDuplicateVersionId_loop (downloadInfos : list DownloadInfo.t) (currentVersionIds : gset string) : list DownloadInfo.t :=
  match downloadInfos with
  | [] => []
  | downloadInfo :: downloadInfos =>
      if bool_decide (DownloadInfo.versionId downloadInfo ∈ currentVersionIds)
      then RemoveDuplicateVersionId_loop downloadInfos currentVersionIds
      else downloadInfo :: RemoveDuplicateVersionId_loop downloadInfos ({[DownloadInfo.versionId downloadInfo]} ∪ currentVersionIds)
  end.
(*@ manager/src/download_task_manager.cpp DownloadTaskManager::RemoveDuplicateVersionId *)
Definition RemoveDuplicateVersionId (downloadInfos : list DownloadInfo.t) : list DownloadInfo.t :=
  RemoveDuplicateVersionId_loop downloadInfos ∅.

(*@ manager/src/download_task_manager.cpp DownloadTaskManager::GetTaskId *)
Definition GetTaskId (downloadInfos : list DownloadInfo.t) : string :=
  let downloadIds := merge_sort String.le (map DownloadInfo.versionId downloadInfos) in
  CalculateHashCode (fold_left String.append downloadIds "").

(*@ manager/src/download_task_manager.cpp DownloadTaskManager::GetValidTask *)
Definition GetValidTask (taskId : string) : Manager (option nat) := find_task taskId.
(*@ manager/src/download_task_manager.cpp DownloadTaskManager::IsDownloadComplete *)
Definition IsDownloadComplete (k : nat) : Manager bool :=
  let* progressInfo := run k ProgressInfo.default (DownloadTask.own DownloadTask.GetTaskProgress) in
  let status := ProgressInfo.taskStatus progressInfo in
  ret ((status =? DownloadStatus.SUCCESS) || (status =? DownloadStatus.CANCEL) || (status =? DownloadStatus.FAIL)).

(** The id of the task and the error. *)
(*@ manager/src/download_task_manager.cpp DownloadTaskManager::Start *)
Definition Start (downloadInfos : list DownloadInfo.t) (callback : UserCallback) (downloadError : DownloadError.t) :
    Manager (string * DownloadError.t) :=
  if bool_decide (downloadInfos = []) then
    ret ("", DownloadError.build DownloadEndReason.DOWNLOAD_INFO_EMPTY CALL_FAIL)
  else
    let newDownloadInfos := RemoveDuplicateVersionId downloadInfos in
    let taskId := GetTaskId newDownloadInfos in
    let* dirtyTask := find_task taskId in
    let* downloadError :=
      match dirtyTask with
      | None => ret downloadError
      | Some k =>
          Erase taskId ;;;
          let* downloadError := run k downloadError (DownloadTask.Cancel downloadError true) in
          run k tt DownloadTask.DestroyTask ;;;
          ret downloadError
      end in
    let* k := make_task taskId newDownloadInfos in
    let* (_, downloadError) := run k (taskId, downloadError) (DownloadTask.Start (Some (DealCallBack callback)) downloadError) in
    if bool_decide (DownloadError.errorNum downloadError = CALL_SUCCESS) then
      EnsureInsert taskId k ;;;
      ret (taskId, downloadError)
    else
      run k tt DownloadTask.DestroyTask ;;;
      ret (taskId, downloadError).

Definition no_task : DownloadError.t := DownloadError.build DownloadEndReason.DOWNLOAD_INFO_EMPTY CALL_FAIL.
(*@ manager/src/download_task_manager.cpp DownloadTaskManager::Pause *)
Definition Pause (taskId : string) : Manager DownloadError.t :=
  let* task := GetValidTask taskId in
  match task with None => ret no_task | Some k => run k no_task DownloadTask.Pause end.
(*@ manager/src/download_task_manager.cpp DownloadTaskManager::Resume *)
Definition Resume (taskId : string) (netType : Z) (callback : UserCallback) : Manager DownloadError.t :=
  let* task := GetValidTask taskId in
  match task with
  | None => ret no_task
  | Some k => run k no_task (DownloadTask.Resume netType (Some (DealCallBack callback)))
  end.
(*@ manager/src/download_task_manager.cpp DownloadTaskManager::Cancel *)
Definition Cancel (taskId : string) (downloadError : DownloadError.t) (isDeleteFiles : bool) : Manager DownloadError.t :=
  let* task := GetValidTask taskId in
  match task with None => ret no_task | Some k => run k no_task (DownloadTask.Cancel downloadError isDeleteFiles) end.
(*@ manager/src/download_task_manager.cpp DownloadTaskManager::GetTaskProgress *)
Definition GetTaskProgress (taskId : string) (downloadError : DownloadError.t) : Manager (ProgressInfo.t * DownloadError.t) :=
  let* task := GetValidTask taskId in
  match task with
  | None => ret (ProgressInfo.default, no_task)
  | Some k =>
      let* progressInfo := run k ProgressInfo.default (DownloadTask.own DownloadTask.GetTaskProgress) in
      ret (progressInfo, downloadError)
  end.
(** A task may be removed when it has come to rest. *)
(*@ manager/src/download_task_manager.cpp DownloadTaskManager::RemoveTask *)
Definition RemoveTask (taskId : string) (downloadError : DownloadError.t) : Manager DownloadError.t :=
  (λ this, let d := exec (DownloadInfoOperator.DeleteByTaskId taskId) (db this) in
     (tt, {| downloadTaskMap_ := downloadTaskMap_ this; user := user this; objects := objects this; db := d; env := env this |})) ;;;
  let* task := GetValidTask taskId in
  match task with
  | None => ret no_task
  | Some k =>
      let* (progressInfo, downloadError) := GetTaskProgress taskId downloadError in
      let taskStatus := ProgressInfo.taskStatus progressInfo in
      if negb (taskStatus =? DownloadStatus.CANCEL) && negb (taskStatus =? DownloadStatus.FAIL) &&
         negb (taskStatus =? DownloadStatus.PAUSE) && negb (taskStatus =? DownloadStatus.AUTO_PAUSE) &&
         negb (taskStatus =? DownloadStatus.SUCCESS) then
        ret (DownloadError.build DownloadEndReason.SYSTEM_BUSY CALL_FAIL)
      else
        run k tt DownloadTask.DestroyTask ;;;
        Erase taskId ;;;
        ret downloadError
  end.

(** [filter] and [downloadInfoMap] are ordered maps. *)
(*@ manager/src/download_task_manager.cpp DownloadTaskManager::RestoreDownloadTask *)
Definition filtered (downloadInfos : list DownloadInfo.t) : gmap string DownloadInfo.t :=
  fold_left (λ filter info,
    let key := DownloadInfo.taskId info +:+ "_" +:+ DownloadInfo.downloadId info in
    if bool_decide (is_Some (filter !! key)) then filter else <[key := info]> filter) downloadInfos ∅.
(*@ manager/src/download_task_manager.cpp DownloadTaskManager::RestoreDownloadTask *)
Definition grouped (filter : gmap string DownloadInfo.t) : gmap string (list DownloadInfo.t) :=
  fold_left (λ groups key,
    match filter !! key with
    | None => groups
    | Some downloadInfo =>
        <[DownloadInfo.taskId downloadInfo := default [] (groups !! DownloadInfo.taskId downloadInfo) ++ [downloadInfo]]> groups
    end) (sorted_keys filter) ∅.
(*@ manager/src/download_task_manager.cpp DownloadTaskManager::RestoreDownloadTask *)
Definition RestoreDownloadTask : Manager unit :=
  let* downloadInfos := (λ this,
    let '((_, downloadInfos), d) := TableBaseOperator.QueryAll DownloadInfo.t DownloadInfoOperator.dir [] (db this) in
    (downloadInfos, {| downloadTaskMap_ := downloadTaskMap_ this; user := user this; objects := objects this; db := d;
                       env := env this |})) in
  if bool_decide (downloadInfos = []) then ret tt
  else
    modify (set_map ∅) ;;;
    let downloadInfoMap := grouped (filtered downloadInfos) in
    for_each (sorted_keys downloadInfoMap) (λ taskId,
      let* k := make_task taskId (default [] (downloadInfoMap !! taskId)) in
      EnsureInsert taskId k ;;;
      let* complete := IsDownloadComplete k in
      if complete : bool then ret tt else run k tt DownloadTask.Recover).

(** Every task that is under way is told; the result is [false] where that is
    undefined. *)
(*@ manager/src/download_task_manager.cpp DownloadTaskManager::OnNetChange *)
Fixpoint OnNetChange_loop (tasks : list nat) (netType : Z) : Manager bool :=
  match tasks with
  | [] => ret true
  | k :: tasks =>
      let* complete := IsDownloadComplete k in
      let* defined := (if complete : bool then ret true else run k true (DownloadTask.OnNetChange netType)) in
      if defined : bool then OnNetChange_loop tasks netType else ret false
  end.
(*@ manager/src/download_task_manager.cpp DownloadTaskManager::OnNetChange *)
Definition OnNetChange (netType : Z) : Manager bool :=
  let* taskMap := gets downloadTaskMap_ in
  OnNetChange_loop (omap (λ taskId, taskMap !! taskId) (sorted_keys taskMap)) netType.
End ops.
End DownloadTaskManager.

(** ** The id of a task *)
Section task_id.
Context `{Sha256}.
Import DownloadTaskManager.
Implicit Types (l : list DownloadInfo.t).

Lemma RemoveDuplicate_loop_spec l (seen : gset string) :
  let r := map DownloadInfo.versionId (RemoveDuplicateVersionId_loop l seen) in
  NoDup r ∧ ∀ v, v ∈ r ↔ v ∈ map DownloadInfo.versionId l ∧ v ∉ seen.
Proof.
  revert seen. induction l as [|i l IH]; intros seen; cbn; [split; [constructor|set_solver]|].
  case_bool_decide as Hin.
  - destruct (IH seen) as [Hnd Hr]. split; [done|]. intros v. rewrite Hr, elem_of_cons. split; [tauto|].
    intros [[->|?] ?]; [done|tauto].
  - destruct (IH ({[DownloadInfo.versionId i]} ∪ seen)) as [Hnd Hr]. cbn. split.
    + constructor; [|done]. rewrite Hr. set_solver.
    + intros v. rewrite !elem_of_cons, Hr. destruct (decide (v = DownloadInfo.versionId i)) as [->|?]; set_solver.
Qed.

(** C22: the id of a task depends only on which packages it has: their order and
    repetitions make no difference, so that a task that is started again is
    recognised. *)
Theorem task_id_canonical l l' :
  (∀ v, v ∈ map DownloadInfo.versionId l ↔ v ∈ map DownloadInfo.versionId l') →
  GetTaskId (RemoveDuplicateVersionId l) = GetTaskId (RemoveDuplicateVersionId l').
Proof.
  intros Hl. unfold GetTaskId. do 2 f_equal. destruct (RemoveDuplicate_loop_spec l ∅) as [Hnd Hr].
  destruct (RemoveDuplicate_loop_spec l' ∅) as [Hnd' Hr'].
  apply (Sorted_unique String.le); [apply (Sorted_merge_sort String.le)..|]. rewrite !(merge_sort_Permutation String.le).
  apply NoDup_Permutation; [exact Hnd|exact Hnd'|]. intros v. unfold RemoveDuplicateVersionId. rewrite Hr, Hr', Hl. done.
Qed.
End task_id.

(** ** Removing a task *)
Section removing.
Context {R E X : Type} `{Rdb R, Platform E, ThreadKits E, ServiceKits E, Sha256}.
Import DownloadTaskManager.
Implicit Types (m : DownloadTaskManager.t R E X).

(** The progress of the task object [o]. *)
Definition progress_now (o : object R E X) : ProgressInfo.t :=
  (DownloadTaskProgressProcessor.GetTaskProgress (omap (λ id, infos o !! id) (DownloadTask.downloadInfos_ (task o)))
     (DownloadTask.taskProgressProcessor_ (task o))).2.

Lemma wp_run_progress k o m (Q : ProgressInfo.t → t R E X → Prop) :
  objects m !! k = Some o →
  (∀ o', DownloadTask.downloadInfos_ (task o') = DownloadTask.downloadInfos_ (task o) → infos o' = infos o →
     Q (progress_now o) {| downloadTaskMap_ := downloadTaskMap_ m; user := user m; objects := <[k := o']> (objects m);
                           db := db m; env := env m |}) →
  wp (run k ProgressInfo.default (DownloadTask.own DownloadTask.GetTaskProgress)) m Q.
Proof.
  intros Hk HQ. unfold wp, eval, exec, run. rewrite Hk. cbn [fst snd].
  unfold DownloadTask.own, on_owner, DownloadTask.GetTaskProgress, progress_now, bind, DownloadTask.field, DownloadTask.reads, DownloadTask.set_field,
    eval, exec in *. cbn [fst snd Shared.infos Shared.db Shared.env Shared.threads] in *.
  destruct (DownloadTaskProgressProcessor.GetTaskProgress _ _) as [proc p]. by apply HQ.
Qed.
(** Destroying a task forgets its packages and its callback, and nothing else. *)
Lemma wp_run_destroy k o m (Q : unit → t R E X → Prop) :
  objects m !! k = Some o →
  (∀ o', Q tt {| downloadTaskMap_ := downloadTaskMap_ m; user := user m; objects := <[k := o']> (objects m);
                 db := db m; env := env m |}) →
  wp (run k tt DownloadTask.DestroyTask) m Q.
Proof. intros Hk HQ. unfold wp, eval, exec, run. rewrite Hk. apply HQ. Qed.

Lemma resting_guard p :
  let taskStatus := ProgressInfo.taskStatus p in
  negb (taskStatus =? DownloadStatus.CANCEL) && negb (taskStatus =? DownloadStatus.FAIL) &&
    negb (taskStatus =? DownloadStatus.PAUSE) && negb (taskStatus =? DownloadStatus.AUTO_PAUSE) &&
    negb (taskStatus =? DownloadStatus.SUCCESS) = negb (ProgressInfo.IsTaskCompleted p).
Proof. cbv zeta. unfold ProgressInfo.IsTaskCompleted. repeat case (_ =? _); done. Qed.

(** [RemoveTask] removes a task that has come to rest and answers [SYSTEM_BUSY] for
    one that has not, which stays; but the rows of the task leave the database in
    either case. *)
Theorem remove_task_outcome taskId err k o m :
  downloadTaskMap_ m !! taskId = Some k → objects m !! k = Some o →
  let rest := ProgressInfo.IsTaskCompleted (progress_now o) in
  wp (RemoveTask taskId err) m (λ err' m',
    err' = (if rest then err else DownloadError.build DownloadEndReason.SYSTEM_BUSY CALL_FAIL) ∧
    downloadTaskMap_ m' = (if rest then delete taskId (downloadTaskMap_ m) else downloadTaskMap_ m) ∧
    user m' = user m ∧ env m' = env m ∧
    db m' = exec (DownloadInfoOperator.DeleteByTaskId taskId) (db m)).
Proof.
  intros Hmap Hk rest. unfold RemoveTask. apply wp_bind. unfold wp at 1. cbn [eval exec fst snd].
  apply wp_bind. unfold GetValidTask, find_task. apply wp_gets. cbn [downloadTaskMap_]. rewrite Hmap.
  apply wp_bind. unfold GetTaskProgress, GetValidTask, find_task. apply wp_bind, wp_gets. cbn [downloadTaskMap_]. rewrite Hmap.
  apply wp_bind. eapply wp_run_progress; [exact Hk|]. intros o' _ _. apply wp_ret. cbn [objects downloadTaskMap_ user db env]. cbv zeta.
  rewrite resting_guard. fold rest.
  destruct rest; cbn [negb]; [|by apply wp_ret]. apply wp_bind. eapply wp_run_destroy.
  { cbn [objects]. apply list_lookup_insert_eq. by eapply lookup_lt_Some. }
  intros o2. apply wp_bind, wp_modify, wp_ret. done.
Qed.
End removing.

(** ** The theorems on concrete tasks *)
Module SampleManager.
Import DownloadTaskManager.
#[local] Existing Instance SampleThread.thread_kits.
#[local] Existing Instance SampleService.kits.
#[local] Notation W := (Shared.t MemoryDb.t SampleEnv.t).
#[local] Notation O := (gmap string nat * unit)%type.
Definition named (v : string) : DownloadInfo.t :=
  DownloadInfoTable.ParseDbValue {[ DownloadInfoTable.COLUMN_DOWNLOAD_VERSION_ID := VStr v ]} DownloadInfo.default.
Definition twice : list DownloadInfo.t := [named "b"; named "a"; named "b"].
Definition once : list DownloadInfo.t := [named "a"; named "b"].
Definition unfinished : DownloadTask.t O W := {|
  DownloadTask.status_ := DownloadStatus.DOWNLOADING; DownloadTask.reportedTaskProgress_ := 0; DownloadTask.taskId_ := "task";
  DownloadTask.downloadInfoMap_ := ["a"; "b"]; DownloadTask.callback_ := None; DownloadTask.timedTaskHandle_ := None;
  DownloadTask.lastReportTime_ := 0;
  DownloadTask.taskProgressProcessor_ := DownloadTaskProgressProcessor.new (omap (λ id, SampleTask.packages !! id) ["a"; "b"]);
  DownloadTask.downloadInfos_ := ["a"; "b"]; DownloadTask.progressInfo_ := SampleTask.progress DownloadStatus.DOWNLOADING 0;
  DownloadTask.isStopDownloadingCallback_ := false; DownloadTask.submitted_ := []; DownloadTask.timers_ := [] |}.
Definition downloading : object MemoryDb.t SampleEnv.t unit := {|
  service := DownloadService.new "task" ["a"; "b"]; task := unfinished; infos := SampleTask.packages; threads := [] |}.
Definition manager : t MemoryDb.t SampleEnv.t unit := {|
  downloadTaskMap_ := {["task" := 0%nat]}; user := tt; objects := [downloading];
  db := {| SqliteDb.dbStore_ := false; SqliteDb.store := MemoryDb.empty |}; env := SampleEnv.initial |}.

Lemma task_id_canonical_witness :
  map DownloadInfo.versionId (RemoveDuplicateVersionId twice) = ["b"; "a"] ∧
  GetTaskId (RemoveDuplicateVersionId twice) = GetTaskId (RemoveDuplicateVersionId once).
Proof.
  split; [by vm_compute|]. apply task_id_canonical. intros v. cbn. set_solver.
Defined.

(** A task that is downloading is not removed. *)
Lemma remove_task_outcome_witness :
  let r := RemoveTask "task" DownloadError.default manager in
  r.1 = DownloadError.build DownloadEndReason.SYSTEM_BUSY CALL_FAIL ∧ downloadTaskMap_ r.2 = {["task" := 0%nat]}.
Proof.
  pose proof (remove_task_outcome "task" DownloadError.default 0%nat downloading manager
                ltac:(by vm_compute) eq_refl) as Hp.
  cbv zeta in Hp |- *. unfold wp in Hp.
  assert (ProgressInfo.IsTaskCompleted (progress_now downloading) = false) as Hrest by (by vm_compute).
  rewrite Hrest in Hp. destruct Hp as (He & Hm & _). split; [exact He|exact Hm].
Defined.
End SampleManager.
