(* ===== verification/Device.v ===== *)
(** * The state of the device, as the flow asks for it

    Models the small components the modes of an upgrade ask before they go on:
    [status_cache.cpp] and [firmware_status_cache.cpp] (is a check under way, was a
    download or an upgrade triggered within the last second),
    [battery_state_utils.cpp], [device_idle_utils.cpp] with the state of screen, call
    and music, [bell_utils.cpp], and the random times of [time_utils.h].  The
    services of the system they ask are the class [DeviceKits]. *)
From Stdlib Require Import ZArith Lia Ascii String.
From stdpp Require Import base tactics list strings gmap.
From S2P Require Import Prelude CppString Database FirmwareDb FirmwareWorld.

#[local] Open Scope Z_scope.

(** The scenes of [AudioStandard::AudioScene] the service tests, and the others. *)
Inductive AudioScene := AUDIO_SCENE_RINGING | AUDIO_SCENE_PHONE_CALL | AUDIO_SCENE_PHONE_CHAT | AUDIO_SCENE_OTHER.
#[global] Instance AudioScene_eq_dec : EqDecision AudioScene.
Proof. solve_decision. Defined.

(** The battery, power, audio and boot-animation services; [IsStreamActive] is [None]
    when there is no audio manager.  [uniform a b] is a draw of
    [std::uniform_int_distribution]. *)
Class DeviceKits (E : Type) := {
  GetPresent : E → bool;
  GetCapacity : E → Z;
  PowerMgr_IsScreenOn : E → bool;
  GetAudioScene : E → AudioScene;
  IsStreamActive : E → option bool;
  GetBootAnimationSoundEnabled : E → bool;
  SetBootAnimationSoundEnabled : bool → ST E unit;
  uniform : Z → Z → ST E Z
}.
(** What the standard says of a draw: it lies between the bounds. *)
Class DeviceLaws (E : Type) `{DeviceKits E} : Prop := {
  uniform_range a b e : a ≤ b → a ≤ eval (uniform a b) e ≤ b
}.

Module BatteryStateUtils.
Section ops.
Context {E : Type} `{DeviceKits E}.
(*@ battery_state/src/battery_state_utils.cpp BatteryStateUtils::IsDeviceHasBattery *)
Definition IsDeviceHasBattery (e : E) : bool := GetPresent e.
(*@ battery_state/src/battery_state_utils.cpp BatteryStateUtils::IsBatteryEnough *)
Definition IsBatteryEnough (e : E) (batteryLimit : Z) : bool := batteryLimit <=? GetCapacity e.
End ops.
(*@ services/service/include/dupdate_upgrade_helper.h MANUAL_UPGRADE_BATTERY_LEVEL *)
Definition MANUAL_UPGRADE_BATTERY_LEVEL : Z := 30.
End BatteryStateUtils.

Module DeviceIdleUtils.
Section ops.
Context {E : Type} `{DeviceKits E}.
(*@ device_idle/src/screen_state_utils.cpp ScreenStateUtils::IsScreenOn *)
Definition IsScreenOn (e : E) : bool := PowerMgr_IsScreenOn e.
(*@ device_idle/src/call_state_utils.cpp CallStateUtils::HasCall *)
Definition HasCall (e : E) : bool :=
  let audioScene := GetAudioScene e in
  bool_decide (audioScene = AUDIO_SCENE_RINGING) || bool_decide (audioScene = AUDIO_SCENE_PHONE_CALL) ||
  bool_decide (audioScene = AUDIO_SCENE_PHONE_CHAT).
(*@ device_idle/src/music_state_utils.cpp MusicStateUtils::IsMusicActive *)
Definition IsMusicActive (e : E) : bool :=
  match IsStreamActive e with None => false | Some active => active end.
(*@ device_idle/src/device_idle_utils.cpp DeviceIdleUtils::IsDeviceIdle *)
Definition IsDeviceIdle (e : E) : bool :=
  if IsScreenOn e then false else if HasCall e then false else if IsMusicActive e then false else true.
End ops.
End DeviceIdleUtils.

Module BellUtils.
Section ops.
Context {E : Type} `{DeviceKits E}.
(*@ bell/src/bell_utils.cpp BellUtils::IsSupported *)
Definition IsSupported : bool := true.
(*@ bell/src/bell_utils.cpp BellUtils::GetBellStatus *)
Definition GetBellStatus (e : E) : bool := GetBootAnimationSoundEnabled e.
(*@ bell/src/bell_utils.cpp BellUtils::TurnOffBell *)
Definition TurnOffBell : ST E unit := SetBootAnimationSoundEnabled false.
(*@ bell/src/bell_utils.cpp BellUtils::TurnOnBell *)
Definition TurnOnBell : ST E unit := SetBootAnimationSoundEnabled true.
End ops.
End BellUtils.

Module TimeUtils.
Section ops.
Context {E : Type} `{DeviceKits E}.
(** The distribution is over [int]; with equal bounds its arguments are out of
    order, which is undefined. *)
(*@ core/ability/utils/include/time_utils.h GetRandTime *)
Definition GetRandTime (minTime maxTime : Z) : ST E Z :=
  if maxTime <? minTime then ret minTime
  else
    let randMin := 0 in
    uniform (to_int32 randMin) (to_int32 (maxTime - minTime - 1)).
End ops.
End TimeUtils.

(** ** StatusCache *)
Module StatusCache.
(*@ status_cache/include/status_cache.h:39-43 StatusCache *)
Record t := { isChecking_ : bool; lastCheckTime_ : Z; lastDownloadTime_ : Z; lastUpgradeTime_ : Z }.
(*@ status_cache/include/status_cache.h:39-43 StatusCache *)
Definition initial : t := {| isChecking_ := false; lastCheckTime_ := -1; lastDownloadTime_ := -1; lastUpgradeTime_ := -1 |}.
Definition set_lastDownloadTime (x : Z) (this : t) : t := {|
  isChecking_ := isChecking_ this; lastCheckTime_ := lastCheckTime_ this;
  lastDownloadTime_ := x; lastUpgradeTime_ := lastUpgradeTime_ this |}.
Definition set_lastUpgradeTime (x : Z) (this : t) : t := {|
  isChecking_ := isChecking_ this; lastCheckTime_ := lastCheckTime_ this;
  lastDownloadTime_ := lastDownloadTime_ this; lastUpgradeTime_ := x |}.

Section ops.
Context {E : Type} `{Platform E}.
(*@ status_cache/src/status_cache.cpp StatusCache::GetCurrentTime *)
Definition GetCurrentTime (e : E) : Z := GetTimestamp e.
(*@ status_cache/src/status_cache.cpp StatusCache::IsChecking *)
Definition IsChecking (this : t) (e : E) : bool :=
  if negb (lastCheckTime_ this =? -1) && (Constant.FIVE_MINUTES_SECONDS <? Z.abs (GetCurrentTime e - lastCheckTime_ this))
  then false
  else isChecking_ this.
(*@ status_cache/src/status_cache.cpp StatusCache::SetIsChecking *)
Definition SetIsChecking (this : t) (isChecking : bool) (e : E) : t := {|
  isChecking_ := isChecking;
  lastCheckTime_ := if isChecking then GetCurrentTime e else lastCheckTime_ this;
  lastDownloadTime_ := lastDownloadTime_ this; lastUpgradeTime_ := lastUpgradeTime_ this |}.
(*@ status_cache/src/status_cache.cpp StatusCache::IsDownloadTriggered *)
Definition IsDownloadTriggered (this : t) (e : E) : bool * t :=
  if lastDownloadTime_ this =? -1 then (false, set_lastDownloadTime (GetTimestampByMilliseconds e) this)
  else if Z.abs (GetTimestampByMilliseconds e - lastDownloadTime_ this) <? Constant.MILLESECONDS then (true, this)
  else (false, set_lastDownloadTime (GetTimestampByMilliseconds e) this).
(*@ status_cache/src/status_cache.cpp StatusCache::IsUpgradeTriggered *)
Definition IsUpgradeTriggered (this : t) (e : E) : bool * t :=
  if lastUpgradeTime_ this =? -1 then (false, set_lastUpgradeTime (GetTimestampByMilliseconds e) this)
  else if Z.abs (GetTimestampByMilliseconds e - lastUpgradeTime_ this) <? Constant.MILLESECONDS then (true, this)
  else (false, set_lastUpgradeTime (GetTimestampByMilliseconds e) this).
End ops.
End StatusCache.

(** The singleton of the firmware service forwards to a cache of its own, which
    its constructor makes. *)
Module FirmwareStatusCache.
Section ops.
Context {E : Type} `{Platform E}.
#[local] Notation Cache := (ST (StatusCache.t * E)).
(*@ upgrade/status/src/firmware_status_cache.cpp FirmwareStatusCache::IsChecking *)
Definition IsChecking (s : StatusCache.t * E) : bool := StatusCache.IsChecking s.1 s.2.
(*@ upgrade/status/src/firmware_status_cache.cpp FirmwareStatusCache::SetIsChecking *)
Definition SetIsChecking (isChecking : bool) : Cache unit := λ s, (tt, (StatusCache.SetIsChecking s.1 isChecking s.2, s.2)).
(*@ upgrade/status/src/firmware_status_cache.cpp FirmwareStatusCache::IsDownloadTriggered *)
Definition IsDownloadTriggered : Cache bool := λ s, let (b, c) := StatusCache.IsDownloadTriggered s.1 s.2 in (b, (c, s.2)).
(*@ upgrade/status/src/firmware_status_cache.cpp FirmwareStatusCache::IsUpgradeTriggered *)
Definition IsUpgradeTriggered : Cache bool := λ s, let (b, c) := StatusCache.IsUpgradeTriggered s.1 s.2 in (b, (c, s.2)).
End ops.
End FirmwareStatusCache.

(** ** Environments with more state

    An environment [E] together with the state [X] of objects that live beside it. *)
Section beside.
Context {X E : Type}.
Definition beside {A} (m : ST E A) : ST (X * E) A := λ s, let (a, e) := m s.2 in (a, (s.1, e)).
Lemma eval_beside {A} (m : ST E A) s : eval (beside m) s = eval m s.2.
Proof. unfold eval, beside. by destruct (m _). Qed.
Lemma exec_beside {A} (m : ST E A) s : exec (beside m) s = (s.1, exec m s.2).
Proof. unfold exec, beside. by destruct (m _). Qed.
#[global] Instance beside_platform `{Platform E} : Platform (X * E) := {
  SystemReadParam e := SystemReadParam e.2; ifstream_good e := ifstream_good e.2; file_size e := file_size e.2;
  statfs e := statfs e.2; remove_entries p := beside (remove_entries p);
  GetTimestamp e := GetTimestamp e.2; GetTimestampByMilliseconds e := GetTimestampByMilliseconds e.2
}.
#[global] Instance beside_preferences `{Preferences E} : Preferences (X * E) := {
  ObtainString e := ObtainString e.2; ObtainInt e := ObtainInt e.2; ObtainBool e := ObtainBool e.2; ObtainLong e := ObtainLong e.2;
  SaveString k v := beside (SaveString k v); SaveInt k v := beside (SaveInt k v);
  SaveBool k v := beside (SaveBool k v); SaveLong k v := beside (SaveLong k v);
  IsExist e := IsExist e.2; RemoveKey k := beside (RemoveKey k);
  RemoveAllKeys := beside RemoveAllKeys
}.
#[global] Instance beside_downloads `{Downloads E} : Downloads (X * E) := { RemoveTask k := beside (RemoveTask k) }.
#[global] Instance beside_subscribers `{Subscribers E} : Subscribers (X * E) := { GetUpgradeCallback e := GetUpgradeCallback e.2 }.
#[global] Instance beside_device `{DeviceKits E} : DeviceKits (X * E) := {
  GetPresent e := GetPresent e.2; GetCapacity e := GetCapacity e.2; PowerMgr_IsScreenOn e := PowerMgr_IsScreenOn e.2;
  GetAudioScene e := GetAudioScene e.2; IsStreamActive e := IsStreamActive e.2;
  GetBootAnimationSoundEnabled e := GetBootAnimationSoundEnabled e.2;
  SetBootAnimationSoundEnabled b := beside (SetBootAnimationSoundEnabled b); uniform a b := beside (uniform a b)
}.
End beside.

(** A device for the witnesses: enough battery, the screen off, silent. *)
Module SampleDevice.
#[global] Instance kits : DeviceKits SampleEnv.t := {
  GetPresent _ := true; GetCapacity _ := 80; PowerMgr_IsScreenOn _ := false; GetAudioScene _ := AUDIO_SCENE_OTHER;
  IsStreamActive _ := Some false;
  GetBootAnimationSoundEnabled e := default true (SampleEnv.flags e !! "bell");
  SetBootAnimationSoundEnabled b := SampleEnv.set_flag "bell" (Some b) ;;; ret tt;
  uniform a b := ret a
}.
#[global] Instance laws : DeviceLaws SampleEnv.t.
Proof. split. intros a b e Hab. cbn. lia. Qed.
End SampleDevice.
