(* ===== verification/Alarms.v ===== *)
(** * The alarms of an upgrade

    Models [firmware/alarm] and [alarm_timer_utils.cpp]: the timer of the next
    automatic check ([FirmwareAutoUpgradeAlarmManager]), and the timer of the
    nightly upgrade with the tasks it runs ([NightUpgradeAlarmManager], used by
    [FirmwareNightUpgradeAlarmManager]).  The timer service and the calendar of the
    system are classes; what the callback of a timer does is in [FirmwareManager].
    A manager runs on its own fields and the environment. *)
From Stdlib Require Import ZArith Lia Ascii String.
From stdpp Require Import base tactics list strings gmap sorting.
From S2P Require Import Prelude CppString Database FirmwareDb FirmwareWorld Device.

#[local] Open Scope Z_scope.

(*@ core/ability/common/include/constant.h CommonEventType *)
Inductive CommonEventType :=
  | AUTO_UPGRADE | NET_CHANGED | TIME_CHANGED | TIME_ZONE_CHANGED | BOOT_COMPLETE | PROCESS_INIT
  | NIGHT_UPGRADE | SCREEN_OFF | UPGRADE_REMIND.
#[global] Instance CommonEventType_eq_dec : EqDecision CommonEventType.
Proof. solve_decision. Defined.

(** ** The timer service *)

(** What a timer runs when its time has come. *)
Inductive AlarmTimerCallback := CheckAndHandleAutoUpgradeAlarm | HandleNightUpgradeAlarm | IdleLooper.

Module TimerTaskInfo.
(*@ core/ability/alarm/include/alarm_timer_utils.h TimerTaskInfo *)
Record t := { type : Z; repeat : bool; interval : Z; callBack_ : AlarmTimerCallback }.
End TimerTaskInfo.

(** [MiscServices::TimeServiceClient], [GetBootTimeMs] with its error code first; [localtime] and [mktime] of the C library. *)
Class TimeService (E : Type) := {
  TIMER_TYPE_EXACT : Z;
  TIMER_TYPE_WAKEUP : Z;
  TIMER_TYPE_REALTIME : Z;
  GetBootTimeMs : E → Z * Z;
  CreateTimer : TimerTaskInfo.t → ST E Z;
  StartTimer : Z → Z → ST E bool;
  DestroyTimer : Z → ST E unit
}.
Record tm := { tm_date : Z; tm_hour : Z; tm_min : Z; tm_sec : Z }.
Class Calendar := { localtime : Z → option tm; mktime : tm → Z }.

Module AlarmTimerUtils.
Section ops.
Context {E : Type} `{Platform E, !TimeService E}.
(*@ core/ability/alarm/src/alarm_timer_utils.cpp AlarmTimerUtils::RegisterTimer *)
Definition RegisterTimer (time : Z) (timerInfo : TimerTaskInfo.t) : ST E Z :=
  let* timerId := CreateTimer timerInfo in
  if timerId =? 0 then ret 0
  else
    let* started := StartTimer timerId (to_uint64 time) in
    if negb started then ret 0 else ret timerId.
(*@ core/ability/alarm/src/alarm_timer_utils.cpp AlarmTimerUtils::RegisterAlarm *)
Definition RegisterAlarm (time : Z) (callback : AlarmTimerCallback) : ST E Z :=
  let timerInfo := {|
    TimerTaskInfo.type := Z.lor (wrap_unsigned 8 TIMER_TYPE_EXACT) (wrap_unsigned 8 TIMER_TYPE_WAKEUP);
    TimerTaskInfo.repeat := false; TimerTaskInfo.interval := 0; TimerTaskInfo.callBack_ := callback |} in
  let* currentTime := gets GetTimestamp in
  if time <=? currentTime then ret 0
  else
    let tiggerTimeMs := to_int64 (time * Constant.MILLESECONDS) in
    RegisterTimer tiggerTimeMs timerInfo.
(** The start of a repeated alarm is in milliseconds already, its period in seconds. *)
(*@ core/ability/alarm/src/alarm_timer_utils.cpp AlarmTimerUtils::RegisterRepeatAlarm *)
Definition RegisterRepeatAlarm (time repeatTime : Z) (callback : AlarmTimerCallback) : ST E Z :=
  let repeatTimeMs := to_int64 (repeatTime * Constant.MILLESECONDS) in
  let timerInfo := {|
    TimerTaskInfo.type := wrap_unsigned 8 TIMER_TYPE_REALTIME;
    TimerTaskInfo.repeat := true; TimerTaskInfo.interval := to_uint64 repeatTimeMs; TimerTaskInfo.callBack_ := callback |} in
  RegisterTimer time timerInfo.
(*@ core/ability/alarm/src/alarm_timer_utils.cpp AlarmTimerUtils::GetSystemBootTime *)
Definition GetSystemBootTime (e : E) : Z :=
  let (res, currentBootTime) := GetBootTimeMs e in
  if negb (res =? 0) then 0 else to_uint64 currentBootTime.
(*@ core/ability/alarm/src/alarm_timer_utils.cpp AlarmTimerUtils::UnregisterAlarm *)
Definition UnregisterAlarm (timerId : Z) : ST E unit := DestroyTimer timerId.
End ops.
End AlarmTimerUtils.

(** ** The automatic check *)
Module FirmwareAutoUpgradeAlarmManager.
(*@ firmware/alarm/include/firmware_auto_upgrade_alarm_manager.h AutoUpgradeTimeRefreshType *)
Inductive AutoUpgradeTimeRefreshType := VERIFY | DURATION | EVENT | RAND | DELAY_TIME.
(*@ firmware/alarm/include/firmware_auto_upgrade_alarm_manager.h:51-52 FirmwareAutoUpgradeAlarmManager *)
Record t := { autoTimerId_ : Z }.
(*@ firmware/alarm/src/firmware_auto_upgrade_alarm_manager.cpp TIMER_AVAILABLE_INTERVAL *)
Definition TIMER_AVAILABLE_INTERVAL : Z := 10.

Section ops.
Context {E : Type} `{Platform E, Preferences E, !TimeService E, DeviceKits E}.
#[local] Notation Manager := (ST (t * E)).

(*@ firmware/alarm/src/firmware_auto_upgrade_alarm_manager.cpp FirmwareAutoUpgradeAlarmManager::GetAutoUpgradeTime *)
Definition GetAutoUpgradeTime (e : E) : Z := FirmwarePreferencesUtil.GetAutoUpgradeTime e.
(*@ firmware/alarm/src/firmware_auto_upgrade_alarm_manager.cpp FirmwareAutoUpgradeAlarmManager::GetEffectiveAutoUpgradeDuration *)
Definition GetEffectiveAutoUpgradeDuration : Z := Constant.DEFAULT_AUTO_UPGRADE_HOUR.
(*@ firmware/alarm/src/firmware_auto_upgrade_alarm_manager.cpp FirmwareAutoUpgradeAlarmManager::IsNeedIgnoreDuration *)
Definition IsNeedIgnoreDuration (setDuration currentDuration minDuration maxDuration : Z) : bool :=
  if setDuration <? minDuration then true else Z.min setDuration maxDuration =? currentDuration.

(*@ firmware/alarm/src/firmware_auto_upgrade_alarm_manager.cpp FirmwareAutoUpgradeAlarmManager::UnregisterAlarmTimer *)
Definition UnregisterAlarmTimer : Manager unit :=
  let* timerId := own_ autoTimerId_ in
  (when 0 <? timerId do env_ (AlarmTimerUtils.UnregisterAlarm timerId)) ;;;
  set_own (λ _, {| autoTimerId_ := 0 |}).
(*@ firmware/alarm/src/firmware_auto_upgrade_alarm_manager.cpp FirmwareAutoUpgradeAlarmManager::CancelAutoUpgradeAlarm *)
Definition CancelAutoUpgradeAlarm : Manager unit := UnregisterAlarmTimer.

(*@ firmware/alarm/src/firmware_auto_upgrade_alarm_manager.cpp FirmwareAutoUpgradeAlarmManager::HandleNetChange *)
Definition HandleNetChange (currentTime autoUpgradeTime duration : Z) : ST E Z :=
  let lastRegisterTime :=
    if negb (autoUpgradeTime =? Constant.DEFAULT_UPGRADE_TIME) then autoUpgradeTime - duration else 0 in
  let* isNeedRetry := gets FirmwarePreferencesUtil.IsNeedRetryCheck in
  if (autoUpgradeTime <=? currentTime) || (currentTime <? lastRegisterTime) then
    FirmwarePreferencesUtil.SaveNeedRetryCheckFlag false ;;;
    ret (currentTime + TIMER_AVAILABLE_INTERVAL)
  else if isNeedRetry : bool then
    let* randTime := TimeUtils.GetRandTime Constant.FIVE_MINUTES_SECONDS Constant.ONE_HOUR_SECONDS in
    FirmwarePreferencesUtil.SaveNeedRetryCheckFlag false ;;;
    ret (currentTime + randTime)
  else ret autoUpgradeTime.

(** [0.5 * ONE_HOUR_SECONDS], an exact double, converted to an integer. *)
(*@ firmware/alarm/src/firmware_auto_upgrade_alarm_manager.cpp randomOffPeakTime *)
Definition randomOffPeakTime : Z := Constant.ONE_HOUR_SECONDS / 2.
(*@ firmware/alarm/src/firmware_auto_upgrade_alarm_manager.cpp FirmwareAutoUpgradeAlarmManager::CalculateAutoUpgradeTime *)
Definition CalculateAutoUpgradeTime (refreshType : AutoUpgradeTimeRefreshType) (autoUpgradeTime duration : Z) : ST E Z :=
  let* currentTime := gets GetTimestamp in
  match refreshType with
  | DURATION =>
      let* randTime := TimeUtils.GetRandTime 0 Constant.ONE_HOUR_SECONDS in
      ret (currentTime + duration - randomOffPeakTime + randTime)
  | EVENT => HandleNetChange currentTime autoUpgradeTime duration
  | RAND =>
      let* randTime := TimeUtils.GetRandTime Constant.FIVE_MINUTES_SECONDS Constant.ONE_HOUR_SECONDS in
      ret (currentTime + randTime)
  | _ => ret autoUpgradeTime
  end.

(*@ firmware/alarm/src/firmware_auto_upgrade_alarm_manager.cpp FirmwareAutoUpgradeAlarmManager::RegisterAutoUpgradeTime *)
Definition RegisterAutoUpgradeTime (refreshType : AutoUpgradeTimeRefreshType) : Manager unit :=
  let duration := GetEffectiveAutoUpgradeDuration in
  let* autoUpgradeTime := env_ (gets FirmwarePreferencesUtil.GetAutoUpgradeTime) in
  let* autoUpgradeTimeCalculateResult := env_ (CalculateAutoUpgradeTime refreshType autoUpgradeTime duration) in
  let* timerId := own_ autoTimerId_ in
  if (autoUpgradeTime =? autoUpgradeTimeCalculateResult) && (0 <? timerId) then ret tt
  else
    env_ (FirmwarePreferencesUtil.SaveAutoUpgradeTime autoUpgradeTimeCalculateResult) ;;;
    UnregisterAlarmTimer ;;;
    let* timerId := env_ (AlarmTimerUtils.RegisterAlarm autoUpgradeTimeCalculateResult CheckAndHandleAutoUpgradeAlarm) in
    set_own (λ _, {| autoTimerId_ := timerId |}).

(** [RefreshAutoUpgradeAlarm()], and its overload for an event. *)
(*@ firmware/alarm/src/firmware_auto_upgrade_alarm_manager.cpp:50-53 FirmwareAutoUpgradeAlarmManager::RefreshAutoUpgradeAlarm *)
Definition RefreshAutoUpgradeAlarm : Manager unit := RegisterAutoUpgradeTime DURATION.
(*@ firmware/alarm/src/firmware_auto_upgrade_alarm_manager.cpp:68-75 FirmwareAutoUpgradeAlarmManager::RefreshAutoUpgradeAlarm *)
Definition RefreshAutoUpgradeAlarm_for (event : CommonEventType) : Manager unit :=
  when bool_decide (event = NET_CHANGED) || bool_decide (event = BOOT_COMPLETE) || bool_decide (event = PROCESS_INIT) do
    RegisterAutoUpgradeTime EVENT.
End ops.
End FirmwareAutoUpgradeAlarmManager.

(** ** The nightly upgrade *)
Module NightUpgradePriority.
(*@* firmware/alarm/include/night_upgrade_priority.h NightUpgradePriority *)
Definition FIRMWARE : Z := 0.
Definition PARAM : Z := 1.
Definition LARGE_MODEL : Z := 2.
Definition MERGE : Z := 3.
Definition DEFAULT : Z := 4.
End NightUpgradePriority.

Module NightUpgradeInfo.
(*@ firmware/alarm/include/night_upgrade_priority.h NightUpgradeInfo *)
Record t := { priority : Z; isNeedReboot : bool }.
#[global] Instance t_eq_dec : EqDecision t.
Proof. solve_decision. Defined.
(*@ firmware/alarm/include/night_upgrade_alarm_manager.h CompareClass *)
Definition lt (t1 t2 : t) : bool :=
  if Bool.eqb (isNeedReboot t1) (isNeedReboot t2) then priority t1 <? priority t2
  else negb (isNeedReboot t1).
End NightUpgradeInfo.

Module NightUpgradeAlarmManager.
Section manager.
(** The callbacks of the tasks. *)
Context {Callback : Type}.
Definition alarm_map : Type := list (NightUpgradeInfo.t * Callback).
(*@ firmware/alarm/include/night_upgrade_alarm_manager.h:65-67 NightUpgradeAlarmManager *)
Record t := { nightUpgradeAlarmMap_ : alarm_map; nightUpgradeTime_ : Z; nightTimerId_ : Z }.
(*@ firmware/alarm/include/night_upgrade_alarm_manager.h:65-67 NightUpgradeAlarmManager *)
Definition initial : t := {|
  nightUpgradeAlarmMap_ := []; nightUpgradeTime_ := Constant.DEFAULT_UPGRADE_TIME; nightTimerId_ := 0 |}.
Definition set_map (m : alarm_map) (this : t) : t := {|
  nightUpgradeAlarmMap_ := m; nightUpgradeTime_ := nightUpgradeTime_ this; nightTimerId_ := nightTimerId_ this |}.
Definition set_time (x : Z) (this : t) : t := {|
  nightUpgradeAlarmMap_ := nightUpgradeAlarmMap_ this; nightUpgradeTime_ := x; nightTimerId_ := nightTimerId_ this |}.
Definition set_timer (x : Z) (this : t) : t := {|
  nightUpgradeAlarmMap_ := nightUpgradeAlarmMap_ this; nightUpgradeTime_ := nightUpgradeTime_ this; nightTimerId_ := x |}.

(** The [std::map], in the order of its keys: two keys are one when neither is
    smaller. *)
Definition same_key (k k' : NightUpgradeInfo.t) : bool := negb (NightUpgradeInfo.lt k k') && negb (NightUpgradeInfo.lt k' k).
Definition map_count (k : NightUpgradeInfo.t) (m : alarm_map) : bool := existsb (λ x, same_key k x.1) m.
Fixpoint map_set (k : NightUpgradeInfo.t) (v : Callback) (m : alarm_map) : alarm_map :=
  match m with
  | [] => [(k, v)]
  | (k', v') :: rest =>
      if NightUpgradeInfo.lt k k' then (k, v) :: m
      else if NightUpgradeInfo.lt k' k then (k', v') :: map_set k v rest
      else (k', v) :: rest
  end.
(** [erase] of the first entry [find_if] finds, if any. *)
Fixpoint map_erase (p : NightUpgradeInfo.t → bool) (m : alarm_map) : alarm_map :=
  match m with
  | [] => []
  | x :: rest => if p x.1 then rest else x :: map_erase p rest
  end.

Section ops.
Context {E : Type} `{Platform E, !TimeService E, Calendar, DeviceKits E}.
#[local] Notation Manager := (ST (t * E)).

(*@ firmware/alarm/src/night_upgrade_alarm_manager.cpp HOUR_TWO *)
Definition HOUR_TWO : Z := 2.
(*@ firmware/alarm/src/night_upgrade_alarm_manager.cpp HOUR_THREE *)
Definition HOUR_THREE : Z := 3.

(*@ firmware/alarm/src/night_upgrade_alarm_manager.cpp:76-80 NightUpgradeAlarmManager::IsRegisteredNightUpgradeTask *)
Definition IsRegisteredNightUpgradeTask_info (nightUpgradeInfo : NightUpgradeInfo.t) (this : t) : bool :=
  map_count nightUpgradeInfo (nightUpgradeAlarmMap_ this) && (0 <? nightTimerId_ this).
(*@ firmware/alarm/src/night_upgrade_alarm_manager.cpp:68-74 NightUpgradeAlarmManager::IsRegisteredNightUpgradeTask *)
Definition IsRegisteredNightUpgradeTask (nightUpgradePriority : Z) (this : t) : bool :=
  existsb (λ x, NightUpgradeInfo.priority x.1 =? nightUpgradePriority) (nightUpgradeAlarmMap_ this) && (0 <? nightTimerId_ this).
(*@ firmware/alarm/src/night_upgrade_alarm_manager.cpp NightUpgradeAlarmManager::IsIllegalNightUpgradeTime *)
Definition IsIllegalNightUpgradeTime (currentTime : Z) (this : t) : bool :=
  (nightUpgradeTime_ this =? Constant.DEFAULT_UPGRADE_TIME) || (nightUpgradeTime_ this <? currentTime) ||
  (Constant.ONE_DAY_SECOND <? nightUpgradeTime_ this - currentTime).

(** A broken-down time with another hour and minute. *)
Definition at_hour (hour min : Z) (currentTm : tm) : tm :=
  {| tm_date := tm_date currentTm; tm_hour := hour; tm_min := min; tm_sec := tm_sec currentTm |}.
(*@ firmware/alarm/src/night_upgrade_alarm_manager.cpp NightUpgradeAlarmManager::CalculateUpgradeTime *)
Definition CalculateUpgradeTime (currentTime : Z) : ST E Z :=
  match localtime currentTime with
  | None => ret 0
  | Some currentTm =>
      if tm_hour currentTm <? HOUR_TWO then
        let* randomTime := TimeUtils.GetRandTime 0 Constant.ONE_HOUR_MINUTES in
        ret (mktime (at_hour HOUR_TWO (to_int32 randomTime) currentTm))
      else if tm_hour currentTm <? HOUR_THREE then
        let* randomTime := TimeUtils.GetRandTime 0 Constant.ONE_HOUR_MINUTES in
        ret (mktime (at_hour HOUR_THREE (to_int32 randomTime) currentTm))
      else
        let zeroTime := mktime (at_hour 0 0 currentTm) in
        let* randTime := TimeUtils.GetRandTime 0 Constant.ONE_HOUR_MINUTES in
        ret (zeroTime + Constant.ONE_DAY_SECOND +
             HOUR_TWO * Constant.ONE_HOUR_MINUTES * Constant.ONE_MINUTE_SECONDS +
             to_int32 randTime * Constant.ONE_MINUTE_SECONDS)
  end.

(*@ firmware/alarm/src/night_upgrade_alarm_manager.cpp NightUpgradeAlarmManager::InnerUnregisterNightUpgradeEvent *)
Definition InnerUnregisterNightUpgradeEvent : Manager unit :=
  let* timerId := own_ nightTimerId_ in
  (when 0 <? timerId do env_ (AlarmTimerUtils.UnregisterAlarm timerId)) ;;;
  set_own (set_timer 0) ;;;
  set_own (set_time Constant.DEFAULT_UPGRADE_TIME).
(*@ firmware/alarm/src/night_upgrade_alarm_manager.cpp NightUpgradeAlarmManager::InnerRegisterNightUpgradeEvent *)
Definition InnerRegisterNightUpgradeEvent : Manager unit :=
  let* currentTime := env_ (gets GetTimestamp) in
  let* illegal := own_ (IsIllegalNightUpgradeTime currentTime) in
  if negb illegal then ret tt
  else
    InnerUnregisterNightUpgradeEvent ;;;
    let* upgradeTime := env_ (CalculateUpgradeTime currentTime) in
    set_own (set_time upgradeTime) ;;;
    let* timerId := env_ (AlarmTimerUtils.RegisterAlarm upgradeTime HandleNightUpgradeAlarm) in
    set_own (set_timer timerId).

(*@ firmware/alarm/src/night_upgrade_alarm_manager.cpp NightUpgradeAlarmManager::RegisterNightUpgradeTask *)
Definition RegisterNightUpgradeTask (nightUpgradeInfo : NightUpgradeInfo.t) (callback : Callback) : Manager unit :=
  let* registered := own_ (IsRegisteredNightUpgradeTask_info nightUpgradeInfo) in
  (when negb registered do
    set_own (λ this, set_map (map_set nightUpgradeInfo callback (nightUpgradeAlarmMap_ this)) this)) ;;;
  InnerRegisterNightUpgradeEvent.
(*@ firmware/alarm/src/night_upgrade_alarm_manager.cpp NightUpgradeAlarmManager::UnregisterNightUpgradeTask *)
Definition UnregisterNightUpgradeTask (nightUpgradePriority : Z) : Manager unit :=
  set_own (λ this, set_map (map_erase (λ k, NightUpgradeInfo.priority k =? nightUpgradePriority) (nightUpgradeAlarmMap_ this)) this) ;;;
  let* m := own_ nightUpgradeAlarmMap_ in
  match m with [] => InnerUnregisterNightUpgradeEvent | _ => ret tt end.

(** The callbacks that run, in order: up to the first that needs a reboot. *)
(*@ firmware/alarm/src/night_upgrade_alarm_manager.cpp NightUpgradeAlarmManager::HandleNightUpgrade *)
Fixpoint HandleNightUpgrade (nightUpgradeAlarmMap : alarm_map) : list Callback :=
  match nightUpgradeAlarmMap with
  | [] => []
  | (key, callback) :: rest =>
      callback :: (if NightUpgradeInfo.isNeedReboot key then [] else HandleNightUpgrade rest)
  end.
(*@ firmware/alarm/src/night_upgrade_alarm_manager.cpp NightUpgradeAlarmManager::HandleNightUpgradeAlarm *)
Definition HandleNightUpgradeAlarm : Manager (list Callback) :=
  set_own (set_time Constant.DEFAULT_UPGRADE_TIME) ;;;
  set_own (set_timer 0) ;;;
  let* m := own_ nightUpgradeAlarmMap_ in
  match m with [] => ret [] | _ => ret (HandleNightUpgrade m) end.
(*@ firmware/alarm/src/night_upgrade_alarm_manager.cpp NightUpgradeAlarmManager::GetNightUpgradeTime *)
Definition GetNightUpgradeTime (this : t) : Z := nightUpgradeTime_ this.
End ops.
End manager.
Arguments t Callback : clear implicits.
End NightUpgradeAlarmManager.

Module FirmwareNightUpgradeAlarmManager.
(** The callback of the firmware task: [OnNightUpgradeTimeUp]. *)
Inductive Callback := OnNightUpgradeTimeUp.
Section ops.
Context {E : Type} `{Platform E, !TimeService E, Calendar, DeviceKits E}.
#[local] Notation Manager := (ST (NightUpgradeAlarmManager.t Callback * E)).
(*@ firmware/alarm/src/firmware_night_upgrade_alarm_manager.cpp FirmwareNightUpgradeAlarmManager::SetNightUpgradeAlarm *)
Definition SetNightUpgradeAlarm : Manager unit :=
  NightUpgradeAlarmManager.RegisterNightUpgradeTask
    {| NightUpgradeInfo.priority := NightUpgradePriority.FIRMWARE; NightUpgradeInfo.isNeedReboot := true |}
    OnNightUpgradeTimeUp.
(*@ firmware/alarm/src/firmware_night_upgrade_alarm_manager.cpp FirmwareNightUpgradeAlarmManager::CancelNightUpgradeAlarm *)
Definition CancelNightUpgradeAlarm : Manager unit :=
  NightUpgradeAlarmManager.UnregisterNightUpgradeTask NightUpgradePriority.FIRMWARE.
(*@ firmware/alarm/src/firmware_night_upgrade_alarm_manager.cpp FirmwareNightUpgradeAlarmManager::OnTimeChanged *)
Definition OnTimeChanged : Manager unit :=
  let* registered := own_ (NightUpgradeAlarmManager.IsRegisteredNightUpgradeTask NightUpgradePriority.FIRMWARE) in
  when (registered : bool) do SetNightUpgradeAlarm.
(*@ firmware/alarm/src/firmware_night_upgrade_alarm_manager.cpp FirmwareNightUpgradeAlarmManager::GetNightUpgradeTime *)
Definition GetNightUpgradeTime (this : NightUpgradeAlarmManager.t Callback) : Z :=
  NightUpgradeAlarmManager.GetNightUpgradeTime this.
End ops.
End FirmwareNightUpgradeAlarmManager.

(** ** What the theorems rely on *)

(** [armed e]: the timers that will fire, by id, with their times in milliseconds.
    Timers, preferences and random numbers do not depend on each other, and time
    does not pass while a method runs. *)
Class AlarmLaws (E : Type) `{Platform E, Preferences E, !TimeService E, DeviceKits E} := {
  armed : E → gmap Z Z;
  armed_create k e : armed (exec (CreateTimer k) e) = armed e;
  create_fresh k e : 0 < eval (CreateTimer k) e → armed e !! eval (CreateTimer k) e = None;
  create_nonneg k e : 0 ≤ eval (CreateTimer k) e;
  armed_start id t e : armed (exec (StartTimer id t) e) = if eval (StartTimer id t) e then <[id := t]> (armed e) else armed e;
  armed_destroy id e : armed (exec (DestroyTimer id) e) = delete id (armed e);
  armed_save_bool k v e : armed (exec (SaveBool k v) e) = armed e;
  armed_save_long k v e : armed (exec (SaveLong k v) e) = armed e;
  armed_uniform a b e : armed (exec (uniform a b) e) = armed e;
  clock_create k e : GetTimestamp (exec (CreateTimer k) e) = GetTimestamp e;
  clock_destroy id e : GetTimestamp (exec (DestroyTimer id) e) = GetTimestamp e;
  clock_save_bool k v e : GetTimestamp (exec (SaveBool k v) e) = GetTimestamp e;
  clock_save_long k v e : GetTimestamp (exec (SaveLong k v) e) = GetTimestamp e;
  clock_uniform a b e : GetTimestamp (exec (uniform a b) e) = GetTimestamp e
}.
(** The timer service answers. *)
Class TimersWork (E : Type) `{!TimeService E} : Prop := {
  create_works k e : 0 < eval (CreateTimer k) e;
  start_works id t e : eval (StartTimer id t) e = true
}.
Definition second_of_day (c : tm) : Z := tm_hour c * 3600 + tm_min c * 60 + tm_sec c.
Definition wf_tm (c : tm) : Prop := 0 ≤ tm_hour c < 24 ∧ 0 ≤ tm_min c < 60 ∧ 0 ≤ tm_sec c < 60.
(** The clock is not changed between the times [a] and [b] (no daylight saving begins or ends): local time
    differs from the time by the same offset throughout, and [mktime] of another time of the same day
    is that time, as far as it lies in between.  Nothing is assumed of times at which the clock is changed. *)
Definition steady_clock `{Calendar} (a b : Z) : Prop :=
  ∃ offset, ∀ t, a ≤ t ≤ b → ∃ c, localtime t = Some c ∧ wf_tm c ∧ second_of_day c = (t + offset) mod 86400 ∧
    ∀ h m, 0 ≤ h < 24 → 0 ≤ m < 60 →
      let t' := t + (h - tm_hour c) * 3600 + (m - tm_min c) * 60 in
      a ≤ t' ≤ b → mktime (NightUpgradeAlarmManager.at_hour h m c) = t'.

Section alarms.
Context {E : Type} `{Platform E, Preferences E, !TimeService E, DeviceKits E, !DeviceLaws E, !AlarmLaws E}.

Lemma wp_GetRandTime a b e (Q : Z → E → Prop) :
  a < b → is_int32 (b - a - 1) →
  (∀ r e', 0 ≤ r < b - a → armed e' = armed e → GetTimestamp e' = GetTimestamp e → Q r e') →
  wp (TimeUtils.GetRandTime a b) e Q.
Proof.
  intros Hab Hw HQ. unfold TimeUtils.GetRandTime. rewrite (proj2 (Z.ltb_ge _ _)) by lia.
  rewrite (to_int32_id 0), (to_int32_id (b - a - 1)) by (done || lia || (unfold_widths; lia)).
  pose proof (uniform_range 0 (b - a - 1) e ltac:(lia)). apply HQ; [lia|apply armed_uniform|apply clock_uniform].
Qed.

Lemma wp_RegisterAlarm `{!TimersWork E} t k e (Q : Z → E → Prop) :
  (∀ id e', GetTimestamp e < t → 0 < id → armed e !! id = None →
     armed e' = <[id := to_uint64 (to_int64 (t * 1000))]> (armed e) → Q id e') →
  (t ≤ GetTimestamp e → Q 0 e) →
  wp (AlarmTimerUtils.RegisterAlarm t k) e Q.
Proof.
  intros Hset Hpast. unfold AlarmTimerUtils.RegisterAlarm. apply wp_bind, wp_gets. case_if; breflect.
  - apply wp_ret. by apply Hpast.
  - unfold AlarmTimerUtils.RegisterTimer. apply wp_bind. set (info := TimerTaskInfo.Build_t _ _ _ _). unfold wp at 1.
    rewrite (proj2 (Z.eqb_neq _ _)) by (pose proof (create_works info e); lia).
    apply wp_bind. unfold wp at 1. rewrite start_works. cbn [negb]. apply wp_ret. apply Hset; [lia|apply create_works| |].
    + apply create_fresh, create_works.
    + by rewrite armed_start, start_works, armed_create.
Qed.

(** The timers without [id], and those after a timer was asked for the time [next]:
    there is none for a time that is not in the future. *)
Definition without (id : Z) (m : gmap Z Z) : gmap Z Z := if 0 <? id then delete id m else m.
Definition timer_for (next now : Z) (others : gmap Z Z) (id : Z) (m : gmap Z Z) : Prop :=
  if now <? next then 0 < id ∧ others !! id = None ∧ m = <[id := to_uint64 (to_int64 (next * 1000))]> others
  else id = 0 ∧ m = others.

Lemma wp_unregister {T} (id : Z) (s : T * E) (Q : unit → T * E → Prop) :
  (∀ e', armed e' = without id (armed s.2) → GetTimestamp e' = GetTimestamp s.2 → Q tt (s.1, e')) →
  wp (when 0 <? id do env_ (AlarmTimerUtils.UnregisterAlarm id)) s Q.
Proof.
  intros HQ. unfold without in HQ. destruct s as [this e]. case_if.
  - apply wp_env_. unfold AlarmTimerUtils.UnregisterAlarm, wp. cbn [fst snd]. destruct (eval _ e).
    apply HQ; [apply armed_destroy|apply clock_destroy].
  - by apply wp_ret, HQ.
Qed.
Lemma wp_register `{!TimersWork E} {T} next k (s : T * E) (Q : Z → T * E → Prop) :
  (∀ id e', timer_for next (GetTimestamp s.2) (armed s.2) id (armed e') → Q id (s.1, e')) →
  wp (env_ (AlarmTimerUtils.RegisterAlarm next k)) s Q.
Proof.
  intros HQ. apply wp_env_, wp_RegisterAlarm.
  - intros id e' Hlt Hid Hfresh Ha. apply HQ. unfold timer_for. by rewrite (proj2 (Z.ltb_lt _ _)).
  - intros Hle. destruct s as [this e]. apply HQ. unfold timer_for. by rewrite (proj2 (Z.ltb_ge _ _)).
Qed.

Section auto.
Import FirmwareAutoUpgradeAlarmManager.

(** When the next automatic check is to take place. *)
Definition next_check (ty : AutoUpgradeTimeRefreshType) (now last : Z) (retry : bool) (next : Z) : Prop :=
  match ty with
  | DURATION => now + 86400 - 1800 ≤ next < now + 86400 + 1800
  | EVENT =>
      if (last <=? now) || (now <? (if last =? -1 then 0 else last - 86400)) then next = now + 10
      else if retry then now ≤ next < now + 3300
      else next = last
  | RAND => now ≤ next < now + 3300
  | VERIFY | DELAY_TIME => next = last
  end.

Lemma wp_CalculateAutoUpgradeTime ty e (Q : Z → E → Prop) :
  (∀ next e', next_check ty (GetTimestamp e) (GetAutoUpgradeTime e) (FirmwarePreferencesUtil.IsNeedRetryCheck e) next →
     armed e' = armed e → GetTimestamp e' = GetTimestamp e → Q next e') →
  wp (CalculateAutoUpgradeTime ty (GetAutoUpgradeTime e) GetEffectiveAutoUpgradeDuration) e Q.
Proof.
  intros HQ. unfold CalculateAutoUpgradeTime. apply wp_bind, wp_gets. destruct ty; cbn [next_check] in HQ.
  - by apply wp_ret, HQ.
  - apply wp_bind, wp_GetRandTime; [done|by vm_compute|]. intros r e' Hr Ha Hc. apply wp_ret, HQ; [|done..].
    change GetEffectiveAutoUpgradeDuration with 86400. change randomOffPeakTime with 1800. change (Constant.ONE_HOUR_SECONDS - 0) with 3600 in Hr. lia.
  - unfold HandleNetChange. apply wp_bind, wp_gets. change Constant.DEFAULT_UPGRADE_TIME with (-1).
    change GetEffectiveAutoUpgradeDuration with 86400.
    replace (if negb (GetAutoUpgradeTime e =? -1) then GetAutoUpgradeTime e - 86400 else 0)
      with (if GetAutoUpgradeTime e =? -1 then 0 else GetAutoUpgradeTime e - 86400) by (by destruct (_ =? _)).
    destruct (_ || _).
    + apply wp_bind. unfold wp at 1. apply wp_ret, HQ; [done|apply armed_save_bool|apply clock_save_bool].
    + destruct (FirmwarePreferencesUtil.IsNeedRetryCheck e); [|by apply wp_ret, HQ].
      apply wp_bind, wp_GetRandTime; [done|by vm_compute|]. intros r e' Hr Ha Hc. apply wp_bind. unfold wp at 1. apply wp_ret, HQ.
      * change (Constant.ONE_HOUR_SECONDS - Constant.FIVE_MINUTES_SECONDS) with 3300 in Hr. lia.
      * by unfold FirmwarePreferencesUtil.SaveNeedRetryCheckFlag; rewrite armed_save_bool.
      * by unfold FirmwarePreferencesUtil.SaveNeedRetryCheckFlag; rewrite clock_save_bool.
  - apply wp_bind, wp_GetRandTime; [done|by vm_compute|]. intros r e' Hr Ha Hc. apply wp_ret, HQ; [|done..].
    change (Constant.ONE_HOUR_SECONDS - Constant.FIVE_MINUTES_SECONDS) with 3300 in Hr. lia.
  - by apply wp_ret, HQ.
Qed.

(** C23: Each time the automatic check is rescheduled, at most one timer for it remains,
    and that timer is set for the time the kind of refresh asks for: a day after a
    check, give or take half an hour; after an event ten seconds later if the time
    has passed or lies more than a day ahead, and otherwise unchanged, or within the
    next 55 minutes if a check is to be retried.  The retry is meant to wait at least
    five minutes but may come at once, and a time that is not in the future gets no
    timer at all. *)
Theorem next_check_scheduled `{!TimersWork E} ty (this : t) e :
  wp (RegisterAutoUpgradeTime ty) (this, e) (λ _ s', ∃ next,
    next_check ty (GetTimestamp e) (GetAutoUpgradeTime e) (FirmwarePreferencesUtil.IsNeedRetryCheck e) next ∧
    if (GetAutoUpgradeTime e =? next) && (0 <? autoTimerId_ this) then s'.1 = this ∧ armed s'.2 = armed e
    else timer_for next (GetTimestamp e) (without (autoTimerId_ this) (armed e)) (autoTimerId_ s'.1) (armed s'.2)).
Proof.
  unfold RegisterAutoUpgradeTime. apply wp_bind, wp_env_, wp_gets. cbn [fst snd].
  apply wp_bind, wp_env_. change (FirmwarePreferencesUtil.GetAutoUpgradeTime e) with (GetAutoUpgradeTime e).
  apply wp_CalculateAutoUpgradeTime. intros next e1 Hnext Ha1 Hc1. apply wp_bind, wp_own_. cbn [fst snd].
  destruct (_ && _) eqn:Hkept.
  { apply wp_ret. exists next. rewrite Hkept. by split_and!. }
  apply wp_bind, wp_env_. unfold FirmwarePreferencesUtil.SaveAutoUpgradeTime. apply wp_bind. unfold wp at 1. apply wp_ret. cbn [fst snd].
  set (e2 := exec _ e1). assert (armed e2 = armed e) as Ha2 by (unfold e2; by rewrite armed_save_long).
  assert (GetTimestamp e2 = GetTimestamp e) as Hc2 by (unfold e2; by rewrite clock_save_long). clearbody e2.
  unfold UnregisterAlarmTimer. apply wp_bind, wp_bind, wp_own_. cbn [fst snd]. apply wp_bind, wp_unregister. cbn [fst snd].
  intros e3 Ha3 Hc3. apply wp_set_own. cbn [fst snd]. apply wp_bind, wp_register. cbn [fst snd]. intros id e4 Ht.
  apply wp_set_own. cbn [fst snd autoTimerId_]. exists next. rewrite Hkept, Ha2, Hc2 in *. rewrite Ha3, Hc3 in Ht. by split.
Qed.
End auto.
Section night.
Context {Callback : Type} `{Calendar}.
Import NightUpgradeAlarmManager.
Implicit Types (this : t Callback) (m : alarm_map (Callback := Callback)).

Lemma second_range c : wf_tm c → 0 ≤ second_of_day c < 86400.
Proof. unfold wf_tm, second_of_day. lia. Qed.
Lemma hour_of_second c lo hi :
  wf_tm c → lo * 3600 ≤ second_of_day c < hi * 3600 → lo ≤ tm_hour c < hi.
Proof. unfold wf_tm, second_of_day. lia. Qed.
(** The night that is planned at a time of a day: the clock is not changed from the midnight before to a day later. *)
Definition undisturbed (now : Z) : Prop := ∃ c, localtime now = Some c ∧ wf_tm c ∧ steady_clock (now - second_of_day c) (now + 86400).
Definition planned (now time : Z) : Prop := now < time ≤ now + 86400 ∧ ∃ c, localtime time = Some c ∧ 2 ≤ tm_hour c < 4.
(** A time of an undisturbed night, when the second of the day is then [x] *)
Lemma planned_at a b now c t x :
  steady_clock a b → a ≤ now ≤ b → localtime now = Some c → a ≤ t ≤ b → now < t ≤ now + 86400 →
  second_of_day c + (t - now) = x ∨ second_of_day c + (t - now) = x + 86400 → 7200 ≤ x < 14400 → planned now t.
Proof.
  intros [offset Hst] Hnow Hc Ht Hlt Hx Hr. destruct (Hst now Hnow) as (c0 & Hc0 & _ & Hs & _). simplify_eq.
  destruct (Hst t Ht) as (c' & Hc' & Hwf & Hs' & _). split; [done|]. exists c'. split; [done|].
  assert (second_of_day c' = x) as Hx'; [|apply (hour_of_second c' 2 4); [done|lia]].
  rewrite Hs'. replace (t + offset) with (now + offset + (t - now)) by lia. rewrite <- Zplus_mod_idemp_l, <- Hs. symmetry.
  destruct Hx; [apply (Z.mod_unique_pos _ _ 0)|apply (Z.mod_unique_pos _ _ 1)]; lia.
Qed.

Lemma steady_mktime a b now c hour min :
  steady_clock a b → a ≤ now ≤ b → localtime now = Some c → 0 ≤ hour < 24 → 0 ≤ min < 60 →
  let t' := now + (hour - tm_hour c) * 3600 + (min - tm_min c) * 60 in a ≤ t' ≤ b → mktime (at_hour hour min c) = t'.
Proof. intros [offset Hst] Hnow Hc Hh Hm t' Ht. destruct (Hst now Hnow) as (c0 & Hc0 & _ & _ & Hmk). simplify_eq. by apply Hmk. Qed.
(** What the code makes of the minute [r] it draws *)
Definition night_time (now : Z) (c : tm) (r : Z) : Z :=
  if tm_hour c <? 2 then mktime (at_hour 2 r c)
  else if tm_hour c <? 3 then mktime (at_hour 3 r c)
  else mktime (at_hour 0 0 c) + 86400 + 7200 + r * 60.
Lemma night_time_planned now c r : localtime now = Some c → 0 ≤ r < 60 → undisturbed now → planned now (night_time now c r).
Proof.
  intros Hc Hr (c0 & Hc0 & Hwf & Hst). rewrite Hc in Hc0. injection Hc0 as <-. unfold night_time.
  pose proof Hwf as (Hh & Hm & Hs).
  assert (0 ≤ second_of_day c < 86400) as Hsd by (unfold second_of_day; lia).
  repeat case_if; breflect.
  - rewrite (steady_mktime _ _ now c 2 r Hst) by (done || unfold second_of_day; lia).
    apply (planned_at _ _ _ c _ (7200 + r * 60 + tm_sec c) Hst); try done; unfold second_of_day; lia.
  - rewrite (steady_mktime _ _ now c 3 r Hst) by (done || unfold second_of_day; lia).
    apply (planned_at _ _ _ c _ (10800 + r * 60 + tm_sec c) Hst); try done; unfold second_of_day; lia.
  - rewrite (steady_mktime _ _ now c 0 0 Hst) by (done || unfold second_of_day; lia).
    apply (planned_at _ _ _ c _ (7200 + r * 60 + tm_sec c) Hst); try done; unfold second_of_day; lia.
Qed.

Lemma wp_random_minute e (Q : Z → E → Prop) :
  (∀ r e', 0 ≤ r < 60 → to_int32 r = r → armed e' = armed e → GetTimestamp e' = GetTimestamp e → Q r e') →
  wp (TimeUtils.GetRandTime 0 Constant.ONE_HOUR_MINUTES) e Q.
Proof.
  intros HQ. apply wp_GetRandTime; [done|by vm_compute|]. intros r e' Hr Ha Hc.
  change (Constant.ONE_HOUR_MINUTES - 0) with 60 in Hr. apply HQ; [lia|apply to_int32_id; unfold_widths; lia|done..].
Qed.

Lemma wp_CalculateUpgradeTime now e (Q : Z → E → Prop) :
  (∀ time e', (undisturbed now → planned now time) → armed e' = armed e → GetTimestamp e' = GetTimestamp e → Q time e') →
  wp (CalculateUpgradeTime now) e Q.
Proof.
  intros HQ. unfold CalculateUpgradeTime. destruct (localtime now) as [c|] eqn:Hc.
  2: { apply wp_ret, HQ; [|done..]. intros (c & Hc' & _). congruence. }
  assert (∀ r e', 0 ≤ r < 60 → armed e' = armed e → GetTimestamp e' = GetTimestamp e → Q (night_time now c r) e') as HQ'
    by (intros r e' Hr Ha Hcl; apply HQ; [intros Hu; by apply night_time_planned|done..]).
  clear HQ. unfold night_time in HQ'. change HOUR_TWO with 2. change HOUR_THREE with 3.
  repeat case_if; apply wp_bind, wp_random_minute; intros r e' Hr Hid Ha Hcl; apply wp_ret; rewrite Hid;
    specialize (HQ' r e' Hr Ha Hcl); exact HQ'.
Qed.

(** The order of the tasks: those that need no reboot first, then by priority. *)
Lemma key_lt_irrefl k : NightUpgradeInfo.lt k k = false.
Proof. unfold NightUpgradeInfo.lt. rewrite Bool.eqb_reflx. apply Z.ltb_irrefl. Qed.
Lemma key_lt_trans k1 k2 k3 :
  NightUpgradeInfo.lt k1 k2 = true → NightUpgradeInfo.lt k2 k3 = true → NightUpgradeInfo.lt k1 k3 = true.
Proof.
  destruct k1 as [p1 []], k2 as [p2 []], k3 as [p3 []]; unfold NightUpgradeInfo.lt; cbn; try done;
    rewrite !Z.ltb_lt; lia.
Qed.
Definition key_lt (x y : NightUpgradeInfo.t * Callback) : Prop := NightUpgradeInfo.lt x.1 y.1 = true.
Lemma map_set_Forall x k v m : NightUpgradeInfo.lt x.1 k = true → Forall (key_lt x) m → Forall (key_lt x) (map_set k v m).
Proof.
  intros Hx Hm. induction Hm as [|[k' v'] m Hy Hm IH]; cbn [map_set]; [by repeat constructor|].
  repeat case_if; repeat constructor; done.
Qed.
Lemma map_set_sorted k v m : Sorted.StronglySorted key_lt m → Sorted.StronglySorted key_lt (map_set k v m).
Proof.
  intros Hm. induction Hm as [|[k' v'] m Hm IH Hall]; cbn [map_set]; [by repeat constructor|].
  case_if; [|case_if].
  - constructor; [by constructor|]. constructor; [done|]. eapply Forall_impl; [exact Hall|]. intros [k2 v2] Hy.
    unfold key_lt in *. cbn in *. by eapply key_lt_trans.
  - constructor; [exact IH|]. by apply map_set_Forall.
  - by constructor.
Qed.
Lemma map_erase_sorted p m : Sorted.StronglySorted key_lt m → Sorted.StronglySorted key_lt (map_erase p m).
Proof.
  intros Hm. induction Hm as [|x m Hm IH Hall]; cbn [map_erase]; [constructor|]. case_if; [done|]. constructor; [done|].
  clear -Hall. induction Hall as [|y m Hy Hall IH]; cbn [map_erase]; [constructor|]. case_if; [done|by constructor].
Qed.
Lemma map_count_set k v m : map_count k (map_set k v m) = true.
Proof.
  unfold map_count. induction m as [|[k' v'] m IH]; cbn [map_set existsb].
  - unfold same_key. cbn. by rewrite key_lt_irrefl.
  - case_if; [|case_if]; cbn [existsb fst]; unfold same_key.
    + by rewrite key_lt_irrefl.
    + apply orb_true_iff. right. exact IH.
    + by rewrite E0, E1.
Qed.
(** In that order, the tasks that need no reboot run, and then one that does. *)
Lemma run_order m :
  Sorted.StronglySorted key_lt m →
  HandleNightUpgrade m = map snd (List.filter (λ x, negb (NightUpgradeInfo.isNeedReboot x.1)) m) ++
                         take 1 (map snd (List.filter (λ x, NightUpgradeInfo.isNeedReboot x.1) m)).
Proof.
  intros Hm. induction Hm as [|[k v] m Hm IH Hall]; [done|]. cbn [HandleNightUpgrade List.filter fst].
  destruct (NightUpgradeInfo.isNeedReboot k) eqn:Hk; cbn [negb map snd app take]; [|by rewrite IH].
  replace (List.filter (λ x, negb (NightUpgradeInfo.isNeedReboot x.1)) m) with (@nil (NightUpgradeInfo.t * Callback)); [done|].
  clear -Hall Hk. induction Hall as [|[k' v'] m Hy Hall IH]; [done|]. cbn [List.filter fst].
  unfold key_lt, NightUpgradeInfo.lt in Hy. cbn [fst] in Hy. rewrite Hk in Hy.
  by destruct (NightUpgradeInfo.isNeedReboot k').
Qed.

(** C24: A nightly upgrade is planned for a time between two and four in the morning
    that lies in the future and at most a day ahead, as long as the clock is not changed
    between the midnight before and a day later (with daylight saving the hour may be another, see [clock_set_back]).
    Whatever the clock does, the only timer of the
    manager is set for the time recorded, if that lies in the future.  While the time recorded before is still a valid one nothing is
    changed, whether or not there is a timer for it: a timer that could not be
    created is not tried again. *)
Theorem night_upgrade_planned `{!TimersWork E} info callback this e :
  wp (RegisterNightUpgradeTask info callback) (this, e) (λ _ s',
    let now := GetTimestamp e in
    map_count info (nightUpgradeAlarmMap_ s'.1) = true ∧
    if IsIllegalNightUpgradeTime now this then
      (undisturbed now → planned now (nightUpgradeTime_ s'.1)) ∧
      timer_for (nightUpgradeTime_ s'.1) now (without (nightTimerId_ this) (armed e)) (nightTimerId_ s'.1) (armed s'.2)
    else nightUpgradeTime_ s'.1 = nightUpgradeTime_ this ∧ nightTimerId_ s'.1 = nightTimerId_ this ∧ s'.2 = e).
Proof.
  unfold RegisterNightUpgradeTask. apply wp_bind, wp_own_, wp_bind. cbn [fst snd]. cbv zeta.
  match goal with |- context [wp InnerRegisterNightUpgradeEvent _ ?Q] =>
    enough (∀ this1, map_count info (nightUpgradeAlarmMap_ this1) = true → nightUpgradeTime_ this1 = nightUpgradeTime_ this →
      nightTimerId_ this1 = nightTimerId_ this → wp InnerRegisterNightUpgradeEvent (this1, e) Q) as Hreg
  end.
  { case_if; [apply wp_set_own|apply wp_ret]; cbn [fst snd].
    - apply Hreg; [apply map_count_set|done..].
    - unfold IsRegisteredNightUpgradeTask_info in E0. breflect. by apply Hreg. }
  intros this1 Hmap Htime Hid. unfold InnerRegisterNightUpgradeEvent. apply wp_bind, wp_env_, wp_gets, wp_bind, wp_own_. cbn [fst snd].
  replace (IsIllegalNightUpgradeTime (GetTimestamp e) this1) with (IsIllegalNightUpgradeTime (GetTimestamp e) this)
    by (unfold IsIllegalNightUpgradeTime; by rewrite Htime).
  destruct (IsIllegalNightUpgradeTime _ _); cbn [negb]; [|by apply wp_ret].
  unfold InnerUnregisterNightUpgradeEvent. apply wp_bind, wp_bind, wp_own_, wp_bind, wp_unregister. cbn [fst snd]. intros e1 Ha1 Hc1.
  apply wp_bind, wp_set_own, wp_set_own. cbn [fst snd]. apply wp_bind, wp_env_. cbn [fst snd].
  apply wp_CalculateUpgradeTime. intros time e2 Ht Ha2 Hc2. apply wp_bind, wp_set_own. cbn [fst snd].
  apply wp_bind, wp_register. cbn [fst snd]. intros id e3 Htf. apply wp_set_own. cbn.
  rewrite Hc2, Hc1, Ha2, Ha1, Hid in Htf. exact (conj Hmap (conj Ht Htf)).
Qed.

(** Requests to the manager. *)
Inductive Request := Register (info : NightUpgradeInfo.t) (callback : Callback) | Unregister (priority : Z) | TimeIsUp.
Definition serve (r : Request) : ST (t Callback * E) unit :=
  match r with
  | Register info callback => RegisterNightUpgradeTask info callback
  | Unregister priority => UnregisterNightUpgradeTask priority
  | TimeIsUp => HandleNightUpgradeAlarm ;;; ret tt
  end.
Definition sorted_tasks (s : t Callback * E) : Prop := Sorted.StronglySorted key_lt (nightUpgradeAlarmMap_ s.1).
Lemma sorted_env {A} (m : ST E A) : stable sorted_tasks (env_ m).
Proof. intros s Hs. by apply wp_env_. Qed.
Lemma sorted_own {A} (f : t Callback → A) : stable sorted_tasks (own_ f).
Proof. by intros s Hs. Qed.
Lemma sorted_set f : (∀ this, Sorted.StronglySorted key_lt (nightUpgradeAlarmMap_ this) →
  Sorted.StronglySorted key_lt (nightUpgradeAlarmMap_ (f this))) → stable sorted_tasks (set_own f).
Proof. intros Hf s Hs. by apply Hf. Qed.
Ltac sorted := repeat first [apply stable_bind; intros | apply stable_if | apply stable_ret | apply sorted_env | apply sorted_own
                            | apply sorted_set; intros; done].
Lemma serve_sorted r : stable sorted_tasks (serve r).
Proof.
  assert (stable sorted_tasks InnerUnregisterNightUpgradeEvent) as Hun by (unfold InnerUnregisterNightUpgradeEvent; sorted).
  destruct r as [info callback|p|]; cbn [serve].
  - unfold RegisterNightUpgradeTask, InnerRegisterNightUpgradeEvent. sorted; try exact Hun.
    apply sorted_set. intros this Hs. by apply map_set_sorted.
  - unfold UnregisterNightUpgradeTask. apply stable_bind; [apply sorted_set; intros this Hs; by apply map_erase_sorted|].
    intros _. sorted. case_match; [exact Hun|sorted].
  - unfold HandleNightUpgradeAlarm. sorted. case_match; sorted.
Qed.

(** After any requests, when the night comes, the tasks that need no reboot run
    in the order of their priorities, and then exactly the first of those that need
    one, if any. *)
Theorem night_tasks_in_order rs e :
  wp (for_each rs serve) (initial, e) (λ _ s',
    let m := nightUpgradeAlarmMap_ s'.1 in
    Sorted.StronglySorted key_lt m ∧
    eval HandleNightUpgradeAlarm s' =
      map snd (List.filter (λ x, negb (NightUpgradeInfo.isNeedReboot x.1)) m) ++
      take 1 (map snd (List.filter (λ x, NightUpgradeInfo.isNeedReboot x.1) m))).
Proof.
  eapply wp_mono; [|apply (stable_for_each sorted_tasks rs serve serve_sorted); constructor].
  intros _ [this e'] Hs. split; [exact Hs|]. rewrite <- run_order by exact Hs.
  unfold HandleNightUpgradeAlarm, eval, bind, own_, set_own. cbn. by destruct (nightUpgradeAlarmMap_ this).
Qed.
End night.
End alarms.

(** ** Sample alarms *)
Module SampleAlarms.
(** The timers that are set, and the next id. *)
Record timers := { set_for : gmap Z Z; next_id : Z }.
Definition t : Type := timers * SampleEnv.t.
Definition fresh (x : gmap Z Z) (n : Z) : Z := Z.max 1 (fold_right Z.max n (map fst (map_to_list x)) + 1).
#[global] Instance time_service : TimeService t := {
  TIMER_TYPE_EXACT := 4; TIMER_TYPE_WAKEUP := 2; TIMER_TYPE_REALTIME := 1; GetBootTimeMs _ := (0, 0);
  CreateTimer _ s := (fresh (set_for s.1) (next_id s.1), s);
  StartTimer id time s := (true, ({| set_for := <[id := time]> (set_for s.1); next_id := id |}, s.2));
  DestroyTimer id s := (tt, ({| set_for := delete id (set_for s.1); next_id := next_id s.1 |}, s.2))
}.
Lemma fresh_above x n i v : x !! i = Some v → i < fresh x n.
Proof.
  intros Hi. apply elem_of_map_to_list, list_elem_of_In, (in_map fst), list_elem_of_In in Hi. cbn in Hi. unfold fresh.
  revert Hi. generalize (map fst (map_to_list x)). intros l. induction l as [|y l IH]; cbn; [set_solver|].
  rewrite elem_of_cons. intros [-> | Hi]; [lia|]. specialize (IH Hi). lia.
Qed.
#[global] Instance alarm_laws : AlarmLaws t.
Proof.
  refine {| armed := λ e, set_for e.1 |}; try done.
  - intros k e _. cbn. destruct (set_for e.1 !! _) eqn:Hf; [|done]. apply (fresh_above _ (next_id e.1)) in Hf. lia.
  - intros k e. cbn. unfold fresh. lia.
Defined.
#[global] Instance timers_work : TimersWork t.
Proof. split; [|done]. intros k e. cbn. unfold fresh. lia. Qed.
#[global] Instance device_laws : DeviceLaws t.
Proof. split. intros a b e Hab. cbn. lia. Qed.

(** Universal time. *)
#[global] Instance calendar : Calendar := {
  localtime t := Some {| tm_date := t / 86400; tm_hour := t mod 86400 / 3600; tm_min := t mod 3600 / 60; tm_sec := t mod 60 |};
  mktime c := tm_date c * 86400 + tm_hour c * 3600 + tm_min c * 60 + tm_sec c
}.
Lemma seconds_of t : t mod 86400 / 3600 * 3600 + t mod 3600 / 60 * 60 + t mod 60 = t mod 86400.
Proof. Z.div_mod_to_equations. lia. Qed.
Lemma calendar_steady a b : steady_clock a b.
Proof.
  exists 0. intros t _. eexists. split; [reflexivity|]. unfold wf_tm, second_of_day. cbn. rewrite seconds_of, Z.add_0_r. split_and!.
  all: try (Z.div_mod_to_equations; lia).
Qed.
Definition env : t := ({| set_for := ∅; next_id := 0 |}, SampleEnv.initial).
(** A clock that is set back by an hour at the time 90000, one o'clock in the morning of the second day. *)
Definition summer_ends : Calendar := {|
  localtime t := let x := if t <? 90000 then t else t - 3600 in @localtime calendar x;
  mktime c := @mktime calendar c
|}.
(** A nightly upgrade planned at noon of the first day (12:00) is then planned for one o'clock. *)
Example clock_set_back :
  let time := eval (@NightUpgradeAlarmManager.CalculateUpgradeTime t summer_ends _ 43200) env in
  time = 93600 ∧ ∃ c, @localtime summer_ends time = Some c ∧ tm_hour c = 1.
Proof. split; [vm_compute; reflexivity|]. eexists. split; vm_compute; reflexivity. Qed.

Import FirmwareAutoUpgradeAlarmManager.
(** The first start: no time is recorded, the check comes in ten seconds. *)
Lemma next_check_scheduled_witness :
  let s' := exec (RegisterAutoUpgradeTime EVENT) ({| autoTimerId_ := 0 |}, env) in
  0 < autoTimerId_ s'.1 ∧ armed s'.2 !! autoTimerId_ s'.1 = Some 1010000.
Proof.
  intros s'. pose proof (next_check_scheduled EVENT {| autoTimerId_ := 0 |} env) as Hp. unfold wp in Hp.
  change (exec (RegisterAutoUpgradeTime EVENT) ({| autoTimerId_ := 0 |}, env)) with s' in Hp. clearbody s'.
  destruct Hp as (next & Hnext & Ht). change (next = 1010) in Hnext. subst next.
  destruct Ht as (Hid & _ & ->). split; [exact Hid|]. apply lookup_insert_eq.
Defined.

(** At a quarter past midnight: the night that has begun. *)
Lemma night_upgrade_planned_witness :
  let s' := exec FirmwareNightUpgradeAlarmManager.SetNightUpgradeAlarm (NightUpgradeAlarmManager.initial, env) in
  1000 < NightUpgradeAlarmManager.nightUpgradeTime_ s'.1 ≤ 87400 ∧
  ∃ c, localtime (NightUpgradeAlarmManager.nightUpgradeTime_ s'.1) = Some c ∧ 2 ≤ tm_hour c < 4.
Proof.
  intros s'.
  pose proof (night_upgrade_planned
    {| NightUpgradeInfo.priority := NightUpgradePriority.FIRMWARE; NightUpgradeInfo.isNeedReboot := true |}
    FirmwareNightUpgradeAlarmManager.OnNightUpgradeTimeUp NightUpgradeAlarmManager.initial env) as Hp.
  unfold wp in Hp. change (exec _ (NightUpgradeAlarmManager.initial, env)) with s' in Hp. clearbody s'.
  destruct Hp as (_ & Hp & _). apply Hp. eexists. split; [reflexivity|]. split; [|apply calendar_steady]. unfold wf_tm. vm_compute. repeat split; intros [=].
Defined.
End SampleAlarms.
