(* ===== verification/Startup.v ===== *)
(** * Start-up and scheduling

    Models [services/startup]: the service looks every few minutes whether it is idle;
    then it computes when it must be started again, registers that with the ability
    manager of the system, and asks to be unloaded.

    [S] is the state of the service behind the accesses; a part of the service registers
    its access, a record of operations, with [AccessManager].  The ability manager and
    the timer of the init service are a class. *)
From Stdlib Require Import ZArith Lia Ascii String.
From stdpp Require Import base tactics list strings gmap sorting.
From S2P Require Import Prelude CppString StringUtils Models Database FirmwareDb FirmwareWorld Files JsonUtils Device Alarms.

#[local] Open Scope Z_scope.

Module StartupReason.
(*@* startup/model/include/startup_constant.h StartupReason *)
Definition UNKNOWN : Z := -1.
Definition DEVICE_REBOOT : Z := 0.
Definition SCHEDULE_TASK : Z := 1.
Definition PROCESS_ENV_RESET : Z := 2.
End StartupReason.
Module AccessType.
(*@* startup/model/include/startup_constant.h AccessType *)
Definition DEFAULT : Z := 0.
Definition FIRMWARE : Z := 1.
Definition PARAM : Z := 2.
Definition DOWNLOAD : Z := 3.
Definition REPORT : Z := 4.
End AccessType.
Module TaskPriority.
(*@* startup/model/include/startup_constant.h TaskPriority *)
Definition LOW : Z := 0.
Definition NORMAL : Z := 1.
Definition HIGH : Z := 2.
End TaskPriority.
Module Startup.
(*@* startup/model/include/startup_constant.h = *)
Definition ACCESS_TYPES : list Z := [AccessType.FIRMWARE].
Definition UPDATER_SA_NAME : string := "updater_sa".
Definition ONE_SECOND_MILLISECONDS : Z := 1000.
Definition ONE_MINUTE_SECONDS : Z := 60.
Definition ONE_HOUR_MINUTES : Z := 60.
Definition PULLUP_INTERVAL_CONFIG : string := "pullupInterval".
Definition PULLUP_INTERVAL : Z := 4 * ONE_HOUR_MINUTES * ONE_MINUTE_SECONDS.
Definition IDLE_CHECK_INTERVAL_CONFIG : string := "idleCheckInterval".
Definition IDLE_CHECK_INTERVAL : Z := 5 * ONE_MINUTE_SECONDS.
End Startup.

(** ** ScheduleTask *)
Module ScheduleTask.
(*@ startup/model/include/schedule_task.h ScheduleTask *)
Record t := {
  priority : Z;
  minDelayTime : Z;
  maxDelayTime : Z;
  netType : Z;
  batteryLevel : Z;
  deviceIdle : bool;
  taskExtra : string;
  startupReason : Z
}.
(*@ startup/model/include/schedule_task.h:30-37 ScheduleTask *)
Definition default : t := {|
  priority := TaskPriority.LOW; minDelayTime := 0; maxDelayTime := 0; netType := NetType.NO_NET; batteryLevel := 0;
  deviceIdle := false; taskExtra := ""; startupReason := StartupReason.UNKNOWN |}.
(*@ startup/model/include/schedule_task.h:40-49 ScheduleTask *)
Definition lt (this other : t) : bool :=
  if negb (minDelayTime this =? minDelayTime other) then minDelayTime this <? minDelayTime other
  else maxDelayTime this <? maxDelayTime other.
(** [operator==] does not look at the reason. *)
(*@ startup/model/include/schedule_task.h:51-57 ScheduleTask *)
Definition eqb (this other : t) : bool :=
  (priority this =? priority other) && (minDelayTime this =? minDelayTime other) &&
  (maxDelayTime this =? maxDelayTime other) && (netType this =? netType other) &&
  (batteryLevel this =? batteryLevel other) && Bool.eqb (deviceIdle this) (deviceIdle other) &&
  String.eqb (taskExtra this) (taskExtra other).
(*@ startup/model/include/schedule_task.h IsValidNetTask *)
Definition IsValidNetTask (this : t) : bool := negb (netType this =? NetType.NO_NET).
(*@ startup/model/include/schedule_task.h ToString *)
Definition ToString (this : t) : string :=
  "Task:[" +:+ "priority:" +:+ to_string (priority this) +:+ ", " +:+
  "minDelayTime:" +:+ to_string (minDelayTime this) +:+ ", " +:+
  "maxDelayTime:" +:+ to_string (maxDelayTime this) +:+ ", " +:+
  "netType:" +:+ to_string (netType this) +:+ ", " +:+
  "batteryLevel:" +:+ to_string (batteryLevel this) +:+ ", " +:+
  "deviceIdle:" +:+ to_string (if deviceIdle this then 1 else 0) +:+ ", " +:+
  "taskExtra:" +:+ taskExtra this +:+ "]".

Definition with_minDelayTime (x : Z) (this : t) : t := {|
  priority := priority this; minDelayTime := x; maxDelayTime := maxDelayTime this; netType := netType this;
  batteryLevel := batteryLevel this; deviceIdle := deviceIdle this; taskExtra := taskExtra this; startupReason := startupReason this |}.
Definition with_netType (x : Z) (this : t) : t := {|
  priority := priority this; minDelayTime := minDelayTime this; maxDelayTime := maxDelayTime this; netType := x;
  batteryLevel := batteryLevel this; deviceIdle := deviceIdle this; taskExtra := taskExtra this; startupReason := startupReason this |}.

(** The order [std::sort] sorts by. *)
Definition le (x y : t) : Prop := lt y x = false.
#[global] Instance le_dec : RelDecision le.
Proof. unfold le. intros x y. apply _. Defined.
End ScheduleTask.

(** ** Accesses *)
Module IAccess.
(** The operations of a part of the service. *)
(*@ startup/access/include/i_access.h IAccess *)
Record t (S : Type) := { IsIdle : ST S bool; GetScheduleTasks : ST S (list ScheduleTask.t); Exit : ST S bool }.
Arguments IsIdle {_}. Arguments GetScheduleTasks {_}. Arguments Exit {_}.
End IAccess.

Module DefaultAccess.
(** The access of a part that does nothing; its [Init] does nothing either. *)
(*@* startup/access/src/default_access.cpp:32-50 DefaultAccess *)
Definition access (S : Type) : IAccess.t S := {|
  IAccess.IsIdle := ret true; IAccess.GetScheduleTasks := ret []; IAccess.Exit := ret true |}.
End DefaultAccess.

Module AccessManager.
(** The map, in the order of the types. *)
(*@ startup/access/include/access_manager.h:56-57 AccessManager *)
Record t (S : Type) := { accessMap_ : list (Z * IAccess.t S); isRemoteIdle_ : bool }.
Arguments accessMap_ {_}. Arguments isRemoteIdle_ {_}. Arguments Build_t {_}.
(*@ startup/access/include/access_manager.h:56-57 AccessManager *)
Definition initial (S : Type) : t S := {| accessMap_ := []; isRemoteIdle_ := true |}.

Section ops.
Context {S : Type}.
Implicit Types (this : t S).
Fixpoint all_idle (l : list (Z * IAccess.t S)) : ST S bool :=
  match l with
  | [] => ret true
  | (_, access) :: l =>
      let* idle := IAccess.IsIdle access in
      if negb idle then ret false else all_idle l
  end.
(*@ startup/access/src/access_manager.cpp AccessManager::IsIdle *)
Definition IsIdle this : ST S bool := if negb (isRemoteIdle_ this) then ret false else all_idle (accessMap_ this).
Fixpoint all_tasks (l : list (Z * IAccess.t S)) (scheduleTasks : list ScheduleTask.t) : ST S (list ScheduleTask.t) :=
  match l with
  | [] => ret scheduleTasks
  | (_, access) :: l =>
      let* tasks := IAccess.GetScheduleTasks access in
      all_tasks l (scheduleTasks ++ tasks)
  end.
(*@ startup/access/src/access_manager.cpp AccessManager::GetScheduleTasks *)
Definition GetScheduleTasks this : ST S (list ScheduleTask.t) := all_tasks (accessMap_ this) [].
Fixpoint all_exit (l : list (Z * IAccess.t S)) : ST S bool :=
  match l with
  | [] => ret true
  | (_, access) :: l =>
      let* gone := IAccess.Exit access in
      if negb gone then ret false else all_exit l
  end.
(*@ startup/access/src/access_manager.cpp AccessManager::Exit *)
Definition Exit this : ST S bool := all_exit (accessMap_ this).
Fixpoint put (type : Z) (access : IAccess.t S) (l : list (Z * IAccess.t S)) : list (Z * IAccess.t S) :=
  match l with
  | [] => [(type, access)]
  | (k, a) :: l' =>
      if type <? k then (type, access) :: l else if k <? type then (k, a) :: put type access l' else (type, access) :: l'
  end.
(*@ startup/access/src/access_manager.cpp AccessManager::Register *)
Definition Register (type : Z) (access : option (IAccess.t S)) this : bool * t S :=
  match access with
  | None => (false, this)
  | Some access => (true, {| accessMap_ := put type access (accessMap_ this); isRemoteIdle_ := isRemoteIdle_ this |})
  end.
(*@ startup/access/src/access_manager.cpp AccessManager::Unregister *)
Definition Unregister (type : Z) this : bool * t S :=
  if negb (existsb (λ x, x.1 =? type) (accessMap_ this)) then (false, this)
  else (true, {| accessMap_ := List.filter (λ x, negb (x.1 =? type)) (accessMap_ this); isRemoteIdle_ := isRemoteIdle_ this |}).
(*@ startup/access/src/access_manager.cpp AccessManager::SetRemoteIdle *)
Definition SetRemoteIdle (isRemoteIdle : bool) this : t S := {| accessMap_ := accessMap_ this; isRemoteIdle_ := isRemoteIdle |}.
End ops.
End AccessManager.

(** ** The ability manager *)

(** [SystemAbilityOnDemandEvent], of which the service makes timed events. *)
Record OnDemandEvent := { event_name : string; event_value : string }.
(** The calls answer an error code, or [None] when there is no manager;
    [steady_seconds] is the time since the device started. *)
Class AbilityKits (S : Type) := {
  steady_seconds : S → Z;
  StartServiceByTimer : string → Z → ST S Z;
  UpdateOnDemandPolicy : list OnDemandEvent → ST S (option Z);
  GetOnDemandPolicy : S → option (Z * list OnDemandEvent);
  UnloadSystemAbility : ST S (option Z)
}.

Module SystemAbilityOperator.
Section ops.
Context {S : Type} `{AbilityKits S}.
(*@ startup/manage/src/system_ability_operator.cpp SystemAbilityOperator::CreateTimedEvent *)
Definition CreateTimedEvent (nextStartDuration : Z) (timedEventName : string) : OnDemandEvent :=
  {| event_name := timedEventName; event_value := to_string nextStartDuration |}.
(*@ startup/manage/src/system_ability_operator.cpp SystemAbilityOperator::UpdateStartupOnDemandPolicy *)
Definition UpdateStartupOnDemandPolicy (events : list OnDemandEvent) : ST S bool :=
  let* res := UpdateOnDemandPolicy events in
  match res with
  | None => ret false
  | Some res => if negb (res =? 0) then ret false else ret true
  end.
(*@ startup/manage/src/system_ability_operator.cpp:32-32 SystemAbilityOperator::UpdateStartupPolicy *)
Definition validMinInterval : Z := 30.
(** The events of the tasks, when no delay is too short. *)
(*@ startup/manage/src/system_ability_operator.cpp:33-45 SystemAbilityOperator::UpdateStartupPolicy *)
Fixpoint timed_events (scheduleTasks : list ScheduleTask.t) (timeEventName : string) (events : list OnDemandEvent) :
    option (list OnDemandEvent) :=
  match scheduleTasks with
  | [] => Some events
  | task :: scheduleTasks =>
      if validMinInterval <=? ScheduleTask.minDelayTime task
      then timed_events scheduleTasks timeEventName (events ++ [CreateTimedEvent (ScheduleTask.minDelayTime task) timeEventName])
      else None
  end.
(*@ startup/manage/src/system_ability_operator.cpp SystemAbilityOperator::UpdateStartupPolicy *)
Definition UpdateStartupPolicy (scheduleTasks : list ScheduleTask.t) (timeEventName : string) : ST S bool :=
  match timed_events scheduleTasks timeEventName [] with
  | None => ret false
  | Some events => UpdateStartupOnDemandPolicy events
  end.
(*@ startup/manage/src/system_ability_operator.cpp SystemAbilityOperator::UnloadSystemAbility *)
Definition UnloadSystemAbility : ST S bool :=
  let* res := UnloadSystemAbility in
  match res with
  | None => ret false
  | Some res => if negb (res =? 0) then ret false else ret true
  end.
(*@ startup/manage/src/system_ability_operator.cpp SystemAbilityOperator::GetStartupOnDemandPolicy *)
Definition GetStartupOnDemandPolicy (s : S) : list OnDemandEvent :=
  match GetOnDemandPolicy s with
  | None => []
  | Some (res, events) => if negb (res =? 0) then [] else events
  end.
End ops.
End SystemAbilityOperator.

(** ** The schedule *)

(** What the service keeps for its own schedule: the tasks the last check computed, the
    timer of the looper, the time of the last check, and the configuration. *)
Module ScheduleConfig.
(*@ startup/manage/src/schedule_config.cpp:25-26 ScheduleConfig *)
Record t := { pullupInterval_ : Z; idleCheckInterval_ : Z }.
(*@ startup/manage/src/schedule_config.cpp:25-26 ScheduleConfig *)
Definition initial : t := {| pullupInterval_ := Startup.PULLUP_INTERVAL; idleCheckInterval_ := Startup.IDLE_CHECK_INTERVAL |}.
(*@ startup/manage/src/schedule_config.cpp ScheduleConfig::GetPullupInterval *)
Definition GetPullupInterval (this : t) : Z := pullupInterval_ this.
(*@ startup/manage/src/schedule_config.cpp ScheduleConfig::GetIdleCheckInterval *)
Definition GetIdleCheckInterval (this : t) : Z := idleCheckInterval_ this.
Section ops.
Context {S J : Type} `{Platform S, FileSystem S, CJson J}.
(*@ startup/manage/src/schedule_config.cpp ScheduleConfig::ParseConfig *)
Definition ParseConfig (root : J) (key : string) (defaultValue : Z) : Z :=
  let (res, value) := UpdateServiceJsonUtils.GetValueAndSetTo (UpdateServiceJsonUtils.as_integer uint64_t) (Some root) key 0 in
  if (res =? json_error ERR_OK) && (0 <? value) then value else defaultValue.
(*@ startup/manage/src/schedule_config.cpp ScheduleConfig::InitConfig *)
Definition InitConfig (s : S) (this : t) : t :=
  let dataString := Files.FileUtils.ReadDataFromFile s ConfigParse.DUPDATE_ENGINE_CONFIG_PATH in
  if String.eqb dataString "" then this
  else
    match UpdateServiceJsonUtils.ParseJson dataString with
    | None => this
    | Some root =>
        {| pullupInterval_ := ParseConfig root Startup.PULLUP_INTERVAL_CONFIG Startup.PULLUP_INTERVAL;
           idleCheckInterval_ := ParseConfig root Startup.IDLE_CHECK_INTERVAL_CONFIG Startup.IDLE_CHECK_INTERVAL |}
    end.
End ops.
End ScheduleConfig.

Module StartupSchedule.
(*@ startup/manage/src/startup_schedule.cpp STARTUP_LOOPER_INTERVAL *)
Definition STARTUP_LOOPER_INTERVAL : Z := 180.
(*@ startup/manage/include/startup_schedule.h:46-46 StartupSchedule *)
Record t := { looperTimerId_ : Z }.
Section ops.
Context {S : Type} `{Platform S, Preferences S, !TimeService S, !AbilityKits S}.
#[local] Notation Op := (ST (t * S)).
(*@ startup/manage/src/startup_schedule.cpp StartupSchedule::UnregisterLooper *)
Definition UnregisterLooper : Op unit :=
  let* looperTimerId := own_ looperTimerId_ in
  (when 0 <? looperTimerId do env_ (AlarmTimerUtils.UnregisterAlarm looperTimerId)) ;;;
  set_own (λ _, {| looperTimerId_ := 0 |}).
(*@ startup/manage/src/startup_schedule.cpp StartupSchedule::RegisterLooper *)
Definition RegisterLooper : Op unit :=
  UnregisterLooper ;;;
  let* bootTime := env_ (gets AlarmTimerUtils.GetSystemBootTime) in
  let startTime := to_int64 (to_int64 bootTime + STARTUP_LOOPER_INTERVAL * Constant.MILLESECONDS) in
  let* timerId := env_ (AlarmTimerUtils.RegisterRepeatAlarm startTime STARTUP_LOOPER_INTERVAL IdleLooper) in
  set_own (λ _, {| looperTimerId_ := timerId |}).
(** The reason is recorded before the timer is set, and kept when that fails. *)
(*@ startup/manage/src/startup_schedule.cpp StartupSchedule::Schedule *)
Definition Schedule (task : ScheduleTask.t) : ST S bool :=
  let scheduleTime := to_uint64 (ScheduleTask.minDelayTime task * Startup.ONE_SECOND_MILLISECONDS) in
  SaveInt Constant.PROCESS_RESTART_REASON (ScheduleTask.startupReason task) ;;;
  let* res := StartServiceByTimer Startup.UPDATER_SA_NAME scheduleTime in
  ret (res =? 0).
(*@ startup/manage/src/startup_schedule.cpp StartupSchedule::OnDemandSchedule *)
Definition OnDemandSchedule (tasks : list ScheduleTask.t) : ST S bool :=
  match tasks with
  | [] => ret false
  | _ =>
      let* isSuccess := SystemAbilityOperator.UpdateStartupPolicy tasks "awakeloopevent" in
      if isSuccess : bool then ret isSuccess
      else SystemAbilityOperator.UpdateStartupPolicy tasks "loopevent"
  end.
End ops.
End StartupSchedule.

Module ScheduleManager.
(** The net types of the tasks that wait for a network, joined, and the other tasks. *)
(*@ startup/manage/src/schedule_manager.cpp:67-76 ScheduleManager::TaskManage *)
Definition split_net (tasks : list ScheduleTask.t) : ScheduleTask.t * list ScheduleTask.t :=
  (fold_left (λ netTask task,
     if negb (ScheduleTask.netType task =? NetType.NO_NET)
     then ScheduleTask.with_netType (to_int32 (Z.lor (to_uint32 (ScheduleTask.netType netTask)) (to_uint32 (ScheduleTask.netType task)))) netTask
     else netTask) tasks ScheduleTask.default,
   List.filter (λ task, ScheduleTask.netType task =? NetType.NO_NET) tasks).
Section ops.
Context {S : Type} `{Platform S, Preferences S, !TimeService S, !AbilityKits S}.
(** The new [scheduleTasks], and whether the service may be unloaded until they are due. *)
(*@ startup/manage/src/schedule_manager.cpp ScheduleManager::TaskManage *)
Definition TaskManage (accessManager_ : AccessManager.t S) : ST S (list ScheduleTask.t * bool) :=
  let* tasks := AccessManager.GetScheduleTasks accessManager_ in
  let (netTask, tasks) := split_net tasks in
  let scheduleTasks := if ScheduleTask.IsValidNetTask netTask then [netTask] else [] in
  let tasks := merge_sort ScheduleTask.le tasks in
  let timedTask := ScheduleTask.with_minDelayTime
    (match tasks with [] => Constant.DEFAULT_PULLUP_INTERVAL | front :: _ => ScheduleTask.minDelayTime front end) ScheduleTask.default in
  ret (scheduleTasks ++ [timedTask], Constant.KEEP_ALIVE_THRESHOLD <? ScheduleTask.minDelayTime timedTask).
(** The answer of [TaskManage] is not looked at.  The state is [scheduleTask_]. *)
(*@ startup/manage/src/schedule_manager.cpp ScheduleManager::IdleCheck *)
Definition IdleCheck (accessManager_ : AccessManager.t S) : ST (list ScheduleTask.t * S) bool :=
  let* idle := env_ (AccessManager.IsIdle accessManager_) in
  if negb idle then ret false
  else
    let* (tasks, _) := env_ (TaskManage accessManager_) in
    set_own (λ _, tasks) ;;;
    ret true.
(*@ startup/manage/src/schedule_manager.cpp ScheduleManager::TaskSchedule *)
Definition TaskSchedule (scheduleTasks : list ScheduleTask.t) : ST S bool := StartupSchedule.OnDemandSchedule scheduleTasks.
(*@ startup/manage/src/schedule_manager.cpp ScheduleManager::Exit *)
Definition Exit (accessManager_ : AccessManager.t S) : ST (list ScheduleTask.t * S) bool :=
  let* gone := env_ (AccessManager.Exit accessManager_) in
  if negb gone then ret false
  else
    let* scheduleTask := own_ (λ l, l) in
    env_ (TaskSchedule scheduleTask).
End ops.
End ScheduleManager.

Module StartupManager.
(** The manager with the objects it owns and the singletons it uses. *)
(*@ startup/manage/include/startup_manager.h:43-44 StartupManager *)
Record t (S : Type) := {
  accessManager : AccessManager.t S;
  scheduleTask_ : list ScheduleTask.t;
  startupSchedule : StartupSchedule.t;
  config : ScheduleConfig.t;
  baseDirMap : gmap string Z;
  lastIdleCheckTime_ : Z
}.
Arguments accessManager {_}. Arguments scheduleTask_ {_}. Arguments startupSchedule {_}. Arguments config {_}.
Arguments baseDirMap {_}. Arguments lastIdleCheckTime_ {_}. Arguments Build_t {_}.

Section ops.
Context {S J : Type} `{Platform S, Preferences S, !TimeService S, FileSystem S, !AbilityKits S, CJson J}.
#[local] Notation Op := (ST (t S * S)).
Implicit Types (this : t S).

Definition set_tasks (l : list ScheduleTask.t) this : t S := Build_t (accessManager this) l (startupSchedule this) (config this) (baseDirMap this) (lastIdleCheckTime_ this).
Definition set_schedule (x : StartupSchedule.t) this : t S := Build_t (accessManager this) (scheduleTask_ this) x (config this) (baseDirMap this) (lastIdleCheckTime_ this).
Definition set_config (x : ScheduleConfig.t) this : t S := Build_t (accessManager this) (scheduleTask_ this) (startupSchedule this) x (baseDirMap this) (lastIdleCheckTime_ this).
Definition set_dirs (m : gmap string Z) this : t S := Build_t (accessManager this) (scheduleTask_ this) (startupSchedule this) (config this) m (lastIdleCheckTime_ this).
Definition set_time (x : Z) this : t S := Build_t (accessManager this) (scheduleTask_ this) (startupSchedule this) (config this) (baseDirMap this) x.
Definition set_accesses (x : AccessManager.t S) this : t S := Build_t x (scheduleTask_ this) (startupSchedule this) (config this) (baseDirMap this) (lastIdleCheckTime_ this).
(** A method of a part. *)
Definition on_part {P A} (get : t S → P) (set : P → t S → t S) (m : ST (P * S) A) : Op A := λ x,
  let (a, y) := m (get x.1, x.2) in (a, (set y.1 x.1, y.2)).

(*@ core/ability/utils/include/time_utils.h GetSystemBootDuration *)
Definition GetSystemBootDuration (s : S) : Z := steady_seconds s.
(*@ core/ability/utils/include/time_utils.h IsInRebootDuration *)
Definition IsInRebootDuration (s : S) : bool := GetSystemBootDuration s <=? 60.
(** The recorded reason is read once. *)
(*@ startup/manage/src/startup_manager.cpp StartupManager::GetStartupReason *)
Definition GetStartupReason : ST S Z :=
  let* inReboot := gets IsInRebootDuration in
  if inReboot : bool then ret StartupReason.DEVICE_REBOOT
  else
    let* reasonFromSp := gets (λ s, ObtainInt s Constant.PROCESS_RESTART_REASON StartupReason.UNKNOWN) in
    if reasonFromSp =? StartupReason.UNKNOWN then ret StartupReason.SCHEDULE_TASK
    else RemoveKey Constant.PROCESS_RESTART_REASON ;;; ret reasonFromSp.

(** [AccessFactory::GetInstance(type)->Init(startupReason)] is given by the parts. *)
Context (access_init : Z → Z → ST (AccessManager.t S * S) unit).
(*@ startup/access/src/access_factory.cpp AccessFactory::GetInstance *)
Definition GetInstance (type startupReason : Z) : ST (AccessManager.t S * S) unit :=
  if type =? AccessType.FIRMWARE then access_init type startupReason else ret tt.
(*@ startup/manage/src/startup_manager.cpp StartupManager::Init *)
Definition Init : Op unit :=
  let* config := λ x, (ScheduleConfig.InitConfig x.2 (config x.1), x) in
  set_own (set_config config) ;;;
  let* startupReason := env_ GetStartupReason in
  (when startupReason =? StartupReason.PROCESS_ENV_RESET do env_ (Files.FileUtils.DestroyBaseDirectory BASE_DIR_INFOS)) ;;;
  on_part baseDirMap set_dirs (Files.FileUtils.InitAndCreateBaseDirs BASE_DIR_INFOS) ;;;
  for_each Startup.ACCESS_TYPES (λ type, on_part accessManager set_accesses (GetInstance type startupReason)).
(*@ startup/manage/src/startup_manager.cpp StartupManager::IdleCheck *)
Definition IdleCheck : Op bool :=
  let* now := env_ (gets GetTimestamp) in
  let* lastIdleCheckTime := own_ lastIdleCheckTime_ in
  let* interval := own_ (λ this, ScheduleConfig.GetIdleCheckInterval (config this)) in
  if Z.abs (now - lastIdleCheckTime) <? to_int64 interval then ret false
  else
    set_own (set_time now) ;;;
    let* accessManager := own_ accessManager in
    on_part scheduleTask_ set_tasks (ScheduleManager.IdleCheck accessManager).
(*@ startup/manage/src/startup_manager.cpp StartupManager::PreExit *)
Definition PreExit : Op bool :=
  let* accessManager := own_ accessManager in
  on_part scheduleTask_ set_tasks (ScheduleManager.Exit accessManager).
(*@ startup/manage/src/startup_manager.cpp StartupManager::SAExit *)
Definition SAExit : Op unit := env_ UnloadSystemAbility ;;; ret tt.
(** What the looper runs; [true] when it has asked to be unloaded. *)
(*@ startup/manage/src/startup_manager.cpp:73-85 StartupManager::IdleLoop *)
Definition looper : Op bool :=
  let* idle := IdleCheck in
  if negb idle then ret false
  else
    let* gone := PreExit in
    if negb gone then ret false
    else SAExit ;;; ret true.
(*@ startup/manage/src/startup_manager.cpp StartupManager::IdleLoop *)
Definition IdleLoop : Op unit := on_part startupSchedule set_schedule StartupSchedule.RegisterLooper.
(*@ startup/manage/src/startup_manager.cpp StartupManager::Start *)
Definition Start : Op unit := Init ;;; IdleLoop.
End ops.
End StartupManager.

(** ** When the service is unloaded *)
Section exit.
Context {S : Type} `{Platform S, Preferences S, !TimeService S, !AbilityKits S}.
Import StartupManager.
Implicit Types (tasks : list ScheduleTask.t) (s : StartupManager.t S * S).

(** The delay until the first of the tasks is due; without tasks the default. *)
Definition soonest tasks : Z :=
  match tasks with
  | [] => Constant.DEFAULT_PULLUP_INTERVAL
  | t :: l => foldr (λ x d, Z.min (ScheduleTask.minDelayTime x) d) (ScheduleTask.minDelayTime t) l
  end.
Lemma le_total x y : ScheduleTask.le x y ∨ ScheduleTask.le y x.
Proof. unfold ScheduleTask.le, ScheduleTask.lt. repeat case_if; breflect; rewrite ?Z.ltb_ge; lia. Qed.
#[local] Instance le_Total : Total ScheduleTask.le.
Proof. intros x y. apply le_total. Qed.
#[local] Instance le_trans : Transitive ScheduleTask.le.
Proof.
  intros x y z. unfold ScheduleTask.le, ScheduleTask.lt.
  destruct (Z.eqb_spec (ScheduleTask.minDelayTime y) (ScheduleTask.minDelayTime x)), (Z.eqb_spec (ScheduleTask.minDelayTime z) (ScheduleTask.minDelayTime y)),
    (Z.eqb_spec (ScheduleTask.minDelayTime z) (ScheduleTask.minDelayTime x)); cbn [negb]; rewrite !Z.ltb_ge; lia.
Qed.
Lemma le_delay x y : ScheduleTask.le x y → ScheduleTask.minDelayTime x ≤ ScheduleTask.minDelayTime y.
Proof. unfold ScheduleTask.le, ScheduleTask.lt. destruct (Z.eqb_spec (ScheduleTask.minDelayTime y) (ScheduleTask.minDelayTime x)); cbn [negb]; rewrite ?Z.ltb_ge; lia. Qed.
Lemma soonest_least tasks x : x ∈ tasks → soonest tasks ≤ ScheduleTask.minDelayTime x.
Proof.
  destruct tasks as [|t l]; [by intros ?%elem_of_nil|]. cbn. intros [->|Hx]%elem_of_cons.
  - induction l; cbn; lia.
  - induction l as [|y l IH]; [by apply elem_of_nil in Hx|]. cbn. apply elem_of_cons in Hx as [->|Hx]; [lia|]. specialize (IH Hx). lia.
Qed.
Lemma soonest_attained tasks : tasks ≠ [] → ∃ x, x ∈ tasks ∧ soonest tasks = ScheduleTask.minDelayTime x.
Proof.
  destruct tasks as [|t l]; [done|]. intros _. cbn. induction l as [|y l (x & Hx & IH)]; cbn; [exists t; split; [left|done]|].
  destruct (Z.le_gt_cases (ScheduleTask.minDelayTime y) (ScheduleTask.minDelayTime x)).
  - exists y. split; [right; left|]. lia.
  - exists x. split; [|lia]. apply elem_of_cons in Hx as [->|Hx]; [left|by right; right].
Qed.
Lemma sorted_front tasks :
  match merge_sort ScheduleTask.le tasks with [] => Constant.DEFAULT_PULLUP_INTERVAL | front :: _ => ScheduleTask.minDelayTime front end = soonest tasks.
Proof.
  pose proof (merge_sort_Permutation ScheduleTask.le tasks) as Hp. pose proof (StronglySorted_merge_sort ScheduleTask.le tasks) as Hs.
  destruct (merge_sort ScheduleTask.le tasks) as [|f l]; [by apply Permutation_nil in Hp as ->|].
  apply Z.le_antisymm.
  - destruct (soonest_attained tasks) as (x & Hx & ->); [intros ->; by apply Permutation_nil_r in Hp|].
    rewrite <- Hp in Hx. apply elem_of_cons in Hx as [->|Hx]; [done|]. apply le_delay. inversion Hs as [|?? _ Hall]; subst.
    rewrite Forall_forall in Hall. by apply Hall.
  - apply soonest_least. rewrite <- Hp. left.
Qed.

(** Some task waits for a network. *)
Definition waits tasks : bool := existsb ScheduleTask.IsValidNetTask tasks.
Definition net_types_fit tasks : Prop := Forall (λ t, is_int32 (ScheduleTask.netType t)) tasks.
Lemma lor_zero a b : is_int32 a → is_int32 b → to_int32 (Z.lor (to_uint32 a) (to_uint32 b)) = 0 → a = 0 ∧ b = 0.
Proof.
  intros Ha Hb Hl. assert (∀ z, is_int32 z → to_uint32 z = 0 → z = 0) as Hz.
  { intros z Hz Hu. rewrite <- (to_int32_to_uint32 z Hz), Hu. done. }
  assert (Z.lor (to_uint32 a) (to_uint32 b) = 0) as Hor.
  { rewrite <- (to_uint32_to_int32 (Z.lor _ _)), Hl; [done|]. pose proof (to_uint32_range a). pose proof (to_uint32_range b).
    unfold is_uint32, UINT32_MAX in *. split; [apply Z.lor_nonneg; lia|].
    destruct (Z.eq_dec (Z.lor (to_uint32 a) (to_uint32 b)) 0) as [->|Hne]; [done|].
    assert (Z.lor (to_uint32 a) (to_uint32 b) < 2 ^ 32); [|lia]. apply Z.log2_lt_pow2; [pose proof (proj2 (Z.lor_nonneg (to_uint32 a) (to_uint32 b)) ltac:(lia)); lia|].
    rewrite Z.log2_lor by lia. apply Z.max_lub_lt.
    - destruct (Z.eq_dec (to_uint32 a) 0) as [->|]; [done|]. apply Z.log2_lt_pow2; lia.
    - destruct (Z.eq_dec (to_uint32 b) 0) as [->|]; [done|]. apply Z.log2_lt_pow2; lia. }
  apply Z.lor_eq_0_iff in Hor as [? ?]. by split; apply Hz.
Qed.
Lemma split_net_spec tasks : net_types_fit tasks →
  let (net, rest) := ScheduleManager.split_net tasks in
  ScheduleTask.minDelayTime net = 0 ∧ ScheduleTask.IsValidNetTask net = waits tasks ∧ (waits tasks = false → rest = tasks).
Proof.
  intros Hfit. unfold ScheduleManager.split_net, waits.
  assert (∀ net, is_int32 (ScheduleTask.netType net) → ScheduleTask.minDelayTime net = 0 →
    let net' := fold_left (λ netTask task,
      if negb (ScheduleTask.netType task =? NetType.NO_NET)
      then ScheduleTask.with_netType (to_int32 (Z.lor (to_uint32 (ScheduleTask.netType netTask)) (to_uint32 (ScheduleTask.netType task)))) netTask
      else netTask) tasks net in
    ScheduleTask.minDelayTime net' = 0 ∧
    ScheduleTask.IsValidNetTask net' = ScheduleTask.IsValidNetTask net || existsb ScheduleTask.IsValidNetTask tasks) as Hf.
  { induction Hfit as [|t l Ht _ IH]; intros net Hn Hm; cbn [fold_left existsb]; [by rewrite orb_false_r|].
    change (negb (ScheduleTask.netType t =? NetType.NO_NET)) with (ScheduleTask.IsValidNetTask t).
    destruct (ScheduleTask.IsValidNetTask t) eqn:Hv; [|by apply IH]. cbn [orb].
    set (net1 := ScheduleTask.with_netType _ net).
    destruct (IH net1) as [? Hnet]; [apply to_int32_range|done|]. split; [done|]. rewrite Hnet, orb_true_r.
    enough (ScheduleTask.IsValidNetTask net1 = true) as -> by done. unfold ScheduleTask.IsValidNetTask in *. apply negb_true_iff, Z.eqb_neq. cbn.
    intros Hz%lor_zero; [|done..]. apply negb_true_iff, Z.eqb_neq in Hv. by destruct Hz. }
  destruct (Hf ScheduleTask.default) as [? Hv]; [done|done|]. split; [done|]. split; [exact Hv|]. clear. induction tasks as [|t l IH]; [done|].
  cbn [existsb List.filter]. intros [Ht Hl]%orb_false_iff. unfold ScheduleTask.IsValidNetTask in Ht. apply negb_false_iff in Ht. rewrite Ht. by f_equal; apply IH.
Qed.

(** Registering the schedule: one timed event, under one of two names. *)
Definition wake_up (name : string) (d : Z) : ST S bool :=
  let* res := UpdateOnDemandPolicy [{| event_name := name; event_value := to_string d |}] in
  ret (bool_decide (res = Some 0)).
Lemma policy_run name d y :
  SystemAbilityOperator.validMinInterval ≤ d →
  SystemAbilityOperator.UpdateStartupPolicy [ScheduleTask.with_minDelayTime d ScheduleTask.default] name y = wake_up name d y.
Proof.
  intros Hd. unfold SystemAbilityOperator.UpdateStartupPolicy, wake_up. cbn [SystemAbilityOperator.timed_events ScheduleTask.with_minDelayTime ScheduleTask.minDelayTime].
  rewrite (proj2 (Z.leb_le _ _)) by done. cbn [SystemAbilityOperator.timed_events app]. unfold SystemAbilityOperator.UpdateStartupOnDemandPolicy, bind.
  unfold SystemAbilityOperator.CreateTimedEvent. destruct (UpdateOnDemandPolicy _ y) as [[res|] y1]; [|done].
  destruct (Z.eqb_spec res 0) as [->|Hr]; cbn [negb]; [done|]. unfold ret. rewrite bool_decide_eq_false_2 by congruence. done.
Qed.
Lemma policy_refused net tasks name y :
  Exists (λ t, ScheduleTask.minDelayTime t < SystemAbilityOperator.validMinInterval) (net ++ tasks) →
  SystemAbilityOperator.UpdateStartupPolicy (net ++ tasks) name y = (false, y).
Proof.
  intros He. unfold SystemAbilityOperator.UpdateStartupPolicy. generalize (@nil OnDemandEvent).
  induction He as [t l Ht|t l _ IH]; intros events; cbn [SystemAbilityOperator.timed_events].
  - by rewrite (proj2 (Z.leb_gt _ _)).
  - destruct (_ <=? _); [apply IH|done].
Qed.
(** Registering a schedule as [TaskManage] computes it. *)
Definition schedule_run tasks : ST S bool :=
  if waits tasks || (soonest tasks <? SystemAbilityOperator.validMinInterval) then ret false
  else
    let* done := wake_up "awakeloopevent" (soonest tasks) in
    if done : bool then ret true else wake_up "loopevent" (soonest tasks).
Lemma OnDemandSchedule_run tasks y : net_types_fit tasks →
  let scheduled := (λ '(net, rest), (if ScheduleTask.IsValidNetTask net then [net] else []) ++
    [ScheduleTask.with_minDelayTime (soonest rest) ScheduleTask.default]) (ScheduleManager.split_net tasks) in
  StartupSchedule.OnDemandSchedule scheduled y = schedule_run tasks y.
Proof.
  intros Hfit. pose proof (split_net_spec tasks Hfit) as Hsplit. destruct (ScheduleManager.split_net tasks) as [net rest].
  destruct Hsplit as (Hnet & Hv & Hrest). cbv zeta. rewrite Hv. unfold schedule_run. destruct (waits tasks) eqn:Hw; cbn [orb].
  - assert (∀ name y1, SystemAbilityOperator.UpdateStartupPolicy ([net] ++ [ScheduleTask.with_minDelayTime (soonest rest) ScheduleTask.default]) name y1 =
      (false, y1)) as Hr by (intros; apply policy_refused; apply Exists_cons_hd; rewrite Hnet; done).
    unfold StartupSchedule.OnDemandSchedule. cbn [app] in *. unfold bind. by rewrite Hr, Hr.
  - rewrite Hrest by done. destruct (Z.ltb_spec (soonest tasks) SystemAbilityOperator.validMinInterval) as [Hd|Hd].
    + assert (∀ name y1, SystemAbilityOperator.UpdateStartupPolicy ([] ++ [ScheduleTask.with_minDelayTime (soonest tasks) ScheduleTask.default]) name y1 =
        (false, y1)) as Hr by (intros; apply policy_refused; by apply Exists_cons_hd).
      unfold StartupSchedule.OnDemandSchedule. cbn [app] in *. unfold bind. by rewrite Hr, Hr.
    + unfold StartupSchedule.OnDemandSchedule. cbn [app]. unfold bind. rewrite policy_run by done. destruct (wake_up _ _ _) as [[] y1]; [done|].
      by rewrite policy_run.
Qed.

Lemma wp_on_part {P A} (get : StartupManager.t S → P) set (m : ST (P * S) A) s (Q : A → StartupManager.t S * S → Prop) :
  wp m (get s.1, s.2) (λ a y, Q a (set y.1 s.1, y.2)) → wp (on_part get set m) s Q.
Proof. unfold wp, eval, exec, on_part. by destruct (m _). Qed.

(** The parts are asked one after the other until one says no: what they say, and the state afterwards. *)
Inductive all_say (question : IAccess.t S → ST S bool) : list (Z * IAccess.t S) → S → bool → S → Prop :=
  | say_nil y : all_say question [] y true y
  | say_no k a l y y' : question a y = (false, y') → all_say question ((k, a) :: l) y false y'
  | say_yes k a l y y1 b y' : question a y = (true, y1) → all_say question l y1 b y' → all_say question ((k, a) :: l) y b y'.
(** The tasks of all parts, in their order, and the state afterwards. *)
Inductive all_tell : list (Z * IAccess.t S) → S → list ScheduleTask.t → S → Prop :=
  | tell_nil y : all_tell [] y [] y
  | tell_cons k a l y ts y1 rest y' :
      IAccess.GetScheduleTasks a y = (ts, y1) → all_tell l y1 rest y' → all_tell ((k, a) :: l) y (ts ++ rest) y'.
Lemma all_idle_say l y : all_say IAccess.IsIdle l y (eval (AccessManager.all_idle l) y) (exec (AccessManager.all_idle l) y).
Proof.
  revert y. induction l as [|[k a] l IH]; intros y; [constructor|]. unfold eval, exec. cbn [AccessManager.all_idle]. unfold bind.
  destruct (IAccess.IsIdle a y) as [[] y1] eqn:Ha; cbn [negb]; [eapply say_yes; [done|apply IH]|by apply say_no].
Qed.
Lemma all_exit_say l y : all_say IAccess.Exit l y (eval (AccessManager.all_exit l) y) (exec (AccessManager.all_exit l) y).
Proof.
  revert y. induction l as [|[k a] l IH]; intros y; [constructor|]. unfold eval, exec. cbn [AccessManager.all_exit]. unfold bind.
  destruct (IAccess.Exit a y) as [[] y1] eqn:Ha; cbn [negb]; [eapply say_yes; [done|apply IH]|by apply say_no].
Qed.
Lemma all_tasks_tell l y acc : ∃ ts, eval (AccessManager.all_tasks l acc) y = acc ++ ts ∧ all_tell l y ts (exec (AccessManager.all_tasks l acc) y).
Proof.
  revert y acc. induction l as [|[k a] l IH]; intros y acc; [exists []; split; [by rewrite app_nil_r|constructor]|].
  unfold eval, exec. cbn [AccessManager.all_tasks]. unfold bind. destruct (IAccess.GetScheduleTasks a y) as [ts y1] eqn:Ha.
  destruct (IH y1 (acc ++ ts)) as (rest & Hts & Htell). exists (ts ++ rest). split; [rewrite app_assoc; exact Hts|by eapply tell_cons].
Qed.
(** The network types of the tasks of every part are those of the enumeration, an [int]. *)
Definition parts_fit (m : AccessManager.t S) : Prop :=
  Forall (λ x, ∀ y, net_types_fit (eval (IAccess.GetScheduleTasks x.2) y)) (AccessManager.accessMap_ m).
Lemma all_tell_fit m y ts y' : parts_fit m → all_tell (AccessManager.accessMap_ m) y ts y' → net_types_fit ts.
Proof.
  unfold parts_fit. generalize (AccessManager.accessMap_ m) as l. intros l Hfit Htell. induction Htell as [y|k a l y ts y1 rest y' Ha _ IH]; [constructor|].
  apply Forall_cons in Hfit as [Hf Hfit]. apply Forall_app. split; [|by apply IH]. specialize (Hf y). unfold eval in Hf. cbn [snd] in Hf. by rewrite Ha in Hf.
Qed.

(** C11: what each turn of the looper does.  Nothing before the interval has passed, and nothing but to note the
    time while a client is connected.  Then the parts are asked one after the other whether they are idle, and as soon as one is not
    the service stays; then for their tasks; then to let go, and as soon as one does not the service stays.
    When all of them are idle and let go, the service is unloaded exactly when no task waits for a network, the first
    task is due in half a minute or later, and the ability manager accepts the one event that wakes the service
    up for it, under the second name if not under the first.  That a task is due within the hour the
    service means to stay alive for makes no difference, and a task that waits for a
    network keeps it loaded for ever. *)
Theorem looper_outcome s :
  let m := accessManager s.1 in
  let parts := AccessManager.accessMap_ m in
  parts_fit m →
  wp looper s (λ unloads s',
    if Z.abs (GetTimestamp s.2 - lastIdleCheckTime_ s.1) <? to_int64 (ScheduleConfig.idleCheckInterval_ (config s.1))
    then unloads = false ∧ s' = s
    else
      lastIdleCheckTime_ s'.1 = GetTimestamp s.2 ∧
      if negb (AccessManager.isRemoteIdle_ m) then unloads = false ∧ s'.2 = s.2
      else ∃ idle y1, all_say IAccess.IsIdle parts s.2 idle y1 ∧
        if negb idle then unloads = false ∧ s'.2 = y1
        else ∃ tasks y2, all_tell parts y1 tasks y2 ∧
          ∃ gone y3, all_say IAccess.Exit parts y2 gone y3 ∧
            if negb gone then unloads = false ∧ s'.2 = y3
            else
              unloads = eval (schedule_run tasks) y3 ∧
              let y4 := exec (schedule_run tasks) y3 in s'.2 = if unloads then exec UnloadSystemAbility y4 else y4).
Proof.
  intros m parts Hfit. unfold looper. apply wp_bind. unfold IdleCheck. apply wp_bind, wp_env_, wp_gets, wp_bind, wp_own_, wp_bind, wp_own_.
  unfold ScheduleConfig.GetIdleCheckInterval. destruct (_ <? _); [by apply wp_ret, wp_ret; destruct s|].
  apply wp_bind, wp_set_own, wp_bind, wp_own_. cbn [fst snd accessManager set_time]. fold m.
  apply wp_on_part. cbn [fst snd]. unfold ScheduleManager.IdleCheck, AccessManager.IsIdle.
  destruct (AccessManager.isRemoteIdle_ m); cbn [negb]; [|by apply wp_bind, wp_env_, wp_ret, wp_ret, wp_ret].
  apply wp_bind, wp_env_. cbn [fst snd]. pose proof (all_idle_say parts s.2) as Hidle.
  unfold wp at 1. fold parts. set (y1 := exec (AccessManager.all_idle parts) s.2) in *.
  destruct (eval (AccessManager.all_idle parts) s.2); cbn [negb]; [|by apply wp_ret, wp_ret; split; [|do 2 eexists; split; [exact Hidle|]]].
  apply wp_bind, wp_env_. cbn [fst snd].
  unfold ScheduleManager.TaskManage, AccessManager.GetScheduleTasks. apply wp_bind. unfold wp at 1. fold parts.
  destruct (all_tasks_tell parts y1 []) as (tasks & Htasks & Htell). rewrite Htasks. cbn [app]. set (y2 := exec (AccessManager.all_tasks parts []) y1) in *.
  pose proof (OnDemandSchedule_run tasks) as Hrun. destruct (ScheduleManager.split_net tasks) as [net rest]. cbv zeta in Hrun.
  rewrite (sorted_front rest). apply wp_ret, wp_bind, wp_set_own, wp_ret, wp_bind. cbn [fst snd negb].
  unfold PreExit. apply wp_bind, wp_own_, wp_on_part. cbn [fst snd set_tasks accessManager scheduleTask_ set_time]. fold m.
  unfold ScheduleManager.Exit, AccessManager.Exit. apply wp_bind, wp_env_. cbn [fst snd]. pose proof (all_exit_say parts y2) as Hexit.
  unfold wp at 1. fold parts. set (y3 := exec (AccessManager.all_exit parts) y2) in *.
  destruct (eval (AccessManager.all_exit parts) y2); cbn [negb].
  2: { apply wp_ret, wp_ret. split; [done|]. do 2 eexists. split; [exact Hidle|]. do 2 eexists. split; [exact Htell|]. by do 2 eexists. }
  apply wp_bind, wp_own_, wp_env_. cbn [fst snd].
  unfold ScheduleManager.TaskSchedule, wp at 1, eval at 1, exec at 1. rewrite (Hrun y3 (all_tell_fit _ _ _ _ Hfit Htell)).
  fold (eval (schedule_run tasks) y3) (exec (schedule_run tasks) y3).
  assert (∀ s' (unloads : bool), lastIdleCheckTime_ s'.1 = GetTimestamp s.2 → unloads = eval (schedule_run tasks) y3 →
    (let y4 := exec (schedule_run tasks) y3 in s'.2 = if unloads then exec UnloadSystemAbility y4 else y4) →
    lastIdleCheckTime_ s'.1 = GetTimestamp s.2 ∧ ∃ idle y1, all_say IAccess.IsIdle parts s.2 idle y1 ∧
        if negb idle then unloads = false ∧ s'.2 = y1
        else ∃ tasks y2, all_tell parts y1 tasks y2 ∧
          ∃ gone y3, all_say IAccess.Exit parts y2 gone y3 ∧
            if negb gone then unloads = false ∧ s'.2 = y3
            else
              unloads = eval (schedule_run tasks) y3 ∧
              let y4 := exec (schedule_run tasks) y3 in s'.2 = if unloads then exec UnloadSystemAbility y4 else y4) as Hall.
  { intros s' unloads Ht Hu Hs. split; [done|]. do 2 eexists. split; [exact Hidle|]. do 2 eexists. split; [exact Htell|]. do 2 eexists. by split. }
  destruct (eval (schedule_run tasks) y3); cbn [negb]; [|by apply wp_ret, Hall]. apply wp_bind. unfold SAExit. apply wp_bind, wp_env_. cbn [fst snd].
  by apply wp_ret, wp_ret, Hall.
Qed.
End exit.

(** ** A sample: a part with one task, due in two hours *)
Module SampleStartup.
#[global] Instance ability_kits : AbilityKits SampleAlarms.t := {
  steady_seconds _ := 3600;
  StartServiceByTimer _ _ := ret 0;
  UpdateOnDemandPolicy _ := ret (Some 0);
  GetOnDemandPolicy _ := Some (0, []);
  UnloadSystemAbility := ret (Some 0)
}.
Definition task : ScheduleTask.t := ScheduleTask.with_minDelayTime 7200 ScheduleTask.default.
Definition access : IAccess.t SampleAlarms.t := {|
  IAccess.IsIdle := ret true; IAccess.GetScheduleTasks := ret [task]; IAccess.Exit := ret true |}.
Definition manager : StartupManager.t SampleAlarms.t :=
  StartupManager.Build_t {| AccessManager.accessMap_ := [(AccessType.FIRMWARE, access)]; AccessManager.isRemoteIdle_ := true |} []
    {| StartupSchedule.looperTimerId_ := 1 |} ScheduleConfig.initial ∅ 0.
Definition device : SampleAlarms.t := ({| SampleAlarms.set_for := ∅; SampleAlarms.next_id := 1 |}, SampleEnv.initial).
Lemma looper_outcome_witness : eval StartupManager.looper (manager, device) = true.
Proof.
  pose proof (looper_outcome (manager, device) ltac:(by repeat constructor)) as Hp. unfold wp in Hp. destruct Hp as [_ Hp].
  cbv beta iota in Hp. change (negb (AccessManager.isRemoteIdle_ (StartupManager.accessManager (manager, device).1))) with false in Hp.
  destruct Hp as (idle & y1 & Hidle & Hp). change (AccessManager.accessMap_ _) with [(AccessType.FIRMWARE, access)] in *.
  assert (idle = true ∧ y1 = device) as [-> ->] by (inversion_clear Hidle as [|? ? ? ? ? Hno|? ? ? ? ? ? ? Hyes Hrest]; [discriminate Hno|];
    injection Hyes as <-; by inversion_clear Hrest).
  destruct Hp as (tasks & y2 & Htell & gone & y3 & Hgone & Hp).
  assert (tasks = [task] ∧ y2 = device) as [-> ->] by (inversion_clear Htell as [|? ? ? ? ? ? ? ? Ht Hrest]; injection Ht as <- <-; by inversion_clear Hrest).
  assert (gone = true ∧ y3 = device) as [-> ->] by (inversion_clear Hgone as [|? ? ? ? ? Hno|? ? ? ? ? ? ? Hyes Hrest]; [discriminate Hno|];
    injection Hyes as <-; by inversion_clear Hrest).
  destruct Hp as [Hp _]. rewrite Hp. by vm_compute.
Defined.
End SampleStartup.
