(* ===== verification/FirmwareHelper.v ===== *)
(** * Helpers of the firmware service

    Models [firmware_update_helper.cpp] and [firmware_update_adapter.cpp], and the
    enumerations of [firmware_common.h] that the service functions switch on. *)
From Stdlib Require Import ZArith Lia Ascii String.
From stdpp Require Import base tactics list strings gmap.
From S2P Require Import Prelude CppString Json Models Database FirmwareDb FirmwareStore FirmwareWorld.
Import FirmwareWorld.World (on_db, on_env, asks, send).

#[local] Open Scope Z_scope.

(*@ firmware/common/include/firmware_common.h FirmwareStep *)
Inductive FirmwareStep := INIT | CHECK_STEP | DOWNLOAD_STEP | AUTH_STEP | INSTALL_STEP | APPLY_STEP | COMPLETE.
#[export] Instance FirmwareStep_eq_dec : EqDecision FirmwareStep.
Proof. solve_decision. Defined.

(*@ firmware/common/include/firmware_common.h CheckStatus *)
Inductive CheckStatus :=
  CHECK_SUCCESS | CHECK_FAIL | FILE_LIST_REQUEST_SUCCESS | FILE_LIST_REQUEST_FAIL
  | CHANGELOG_REQUEST_SUCCESS | CHANGELOG_REQUEST_FAIL.

(*@ firmware/common/include/firmware_common.h InstallType *)
Inductive InstallType := QUICK_FIX | SYS_INSTALLER | STREAM_INSTALLLER | UPDATER.
#[export] Instance InstallType_eq_dec : EqDecision InstallType.
Proof. solve_decision. Defined.

Module BlType.
(*@* firmware/common/include/firmware_common.h BlType *)
Definition HOTA_TYPE : Z := 1.
Definition COTA_TYPE : Z := 2.
Definition DYNAMIC_TYPE : Z := 100.
End BlType.

Module UpgradeAction.
(*@* model/version_info/upgrade_action.h = *)
Definition UPGRADE : string := "upgrade".
Definition RECOVERY : string := "recovery".
End UpgradeAction.

Module FirmwareUpdateAdapter.
(*@ firmware/common/src/firmware_update_adapter.cpp FirmwareUpdateAdapter::GetUpdateAction *)
Definition GetUpdateAction {E} `{Preferences E} (e : E) : string :=
  let action := ObtainString e Firmware.UPDATE_ACTION "" in
  if String.eqb action "recovery" then "recovery" else "upgrade".
End FirmwareUpdateAdapter.

Module FirmwareUpdateHelper.
Section ops.
Context {R E : Type} `{Rdb R, Platform E, Sha256, Downloads E, Preferences E}.

(** The loop that joins the version ids: a separator follows a non-empty prefix. *)
(*@ firmware/common/src/firmware_update_helper.cpp FirmwareUpdateHelper::BuildTaskId *)
Definition BuildTaskId_loop (componentList : list FirmwareComponent.t) (taskId : string) : string :=
  fold_left (λ taskId component,
    (if String.eqb taskId "" then taskId else taskId +:+ "_") +:+ FirmwareComponent.versionId component)
    componentList taskId.
(*@ firmware/common/src/firmware_update_helper.cpp FirmwareUpdateHelper::BuildTaskId *)
Definition BuildTaskId (componentList : list FirmwareComponent.t) : string :=
  match componentList with
  | [] => ""
  | _ => CalculateHashCode (BuildTaskId_loop componentList "")
  end.

(*@ firmware/common/src/firmware_update_helper.cpp FirmwareUpdateHelper::ClearFirmwareInfo *)
Definition ClearFirmwareInfo : ST (World R E) unit :=
  let* task := on_db (FirmwareTaskOperator.QueryTask FirmwareTask.default) in
  on_env (RemoveTask (FirmwareTask.downloadTaskId task)) ;;;
  on_db FirmwareTaskOperator.DeleteAll ;;;
  on_db FirmwareComponentOperator.DeleteAll ;;;
  FirmwareFileUtils.DeleteDownloadFiles.

(*@ firmware/common/src/firmware_update_helper.cpp:170-177 FirmwareUpdateHelper::IsStreamUpgrade *)
Definition IsStreamUpgrade_list (componentList : list FirmwareComponent.t) : bool :=
  match componentList with
  | [] => false
  | c :: _ => FirmwareComponent.otaType c =? OtaMode.AB_STREAM_OTA
  end.
(*@ firmware/common/src/firmware_update_helper.cpp:163-168 FirmwareUpdateHelper::IsStreamUpgrade *)
Definition IsStreamUpgrade : ST (World R E) bool :=
  let* (_, components) := on_db (FirmwareComponentOperator.QueryAll []) in
  ret (IsStreamUpgrade_list components).

(*@ firmware/common/src/firmware_update_helper.cpp FirmwareUpdateHelper::GetInstallType *)
Definition GetInstallType : ST (World R E) InstallType :=
  let* slot := asks DeviceAdapter.GetBootSlot in
  if String.eqb slot Firmware.BOOTSLOTS_AB_UPDATE_VALUE then
    let* stream := IsStreamUpgrade in
    ret (if stream : bool then STREAM_INSTALLLER else SYS_INSTALLER)
  else ret UPDATER.

(*@ firmware/common/src/firmware_update_helper.cpp FirmwareUpdateHelper::IsUpgradeFailed *)
Definition IsUpgradeFailed (status : Z) : bool :=
  (status =? UpgradeStatus.DOWNLOAD_FAIL) || (status =? UpgradeStatus.PACKAGE_TRANS_FAIL) ||
  (status =? UpgradeStatus.INSTALL_FAIL) || (status =? UpgradeStatus.UPDATE_FAIL) ||
  (status =? UpgradeStatus.VERIFY_FAIL).

(** [hotaComponents[0]] is only reached on a non-empty vector; the sizes are
    added as [size_t]. *)
(*@ firmware/common/src/firmware_update_helper.cpp FirmwareUpdateHelper::BuildHotaVersionComponent *)
Definition BuildHotaVersionComponent (hotaComponents : list FirmwareComponent.t) :
    ST (World R E) VersionComponent.t :=
  let first := default (FirmwareComponent.default false) (head hotaComponents) in
  let* installType := GetInstallType in
  ret {| VersionComponent.componentId := FirmwareComponent.componentId first;
         VersionComponent.componentType := ComponentType.OTA;
         VersionComponent.upgradeAction := UpgradeAction.UPGRADE;
         VersionComponent.displayVersion := FirmwareComponent.targetBlDisplayVersionNumber first;
         VersionComponent.innerVersion := FirmwareComponent.targetBlVersionNumber first;
         VersionComponent.size :=
           fold_left (λ size c, to_uint64 (size + to_uint64 (FirmwareComponent.size c))) hotaComponents 0;
         VersionComponent.effectiveMode :=
           match installType with
           | SYS_INSTALLER | STREAM_INSTALLLER => EffectiveMode.LIVE_AND_COLD
           | _ => EffectiveMode.COLD
           end;
         VersionComponent.otaMode :=
           match installType with
           | SYS_INSTALLER => OtaMode.AB_REGULAR_OTA
           | STREAM_INSTALLLER => OtaMode.AB_STREAM_OTA
           | _ => OtaMode.REGULAR_OTA
           end;
         VersionComponent.descriptionInfo := DescriptionInfo.default;
         VersionComponent.componentExtra := "" |}.

(*@ firmware/common/src/firmware_update_helper.cpp FirmwareUpdateHelper::BuildNewVersionInfo *)
Definition BuildNewVersionInfo (components : list FirmwareComponent.t)
    (versionComponents : list VersionComponent.t) : ST (World R E) (list VersionComponent.t) :=
  match components with
  | [] => ret versionComponents
  | _ =>
      let hotaComponents := List.filter (λ component,
        (FirmwareComponent.blVersionType component =? BlType.HOTA_TYPE) ||
        (FirmwareComponent.blVersionType component =? BlType.DYNAMIC_TYPE)) components in
      match hotaComponents with
      | [] => ret versionComponents
      | _ =>
          let* hotaVersionComponent := BuildHotaVersionComponent hotaComponents in
          ret (versionComponents ++ [hotaVersionComponent])
      end
  end.

(*@ firmware/common/src/firmware_update_helper.cpp FirmwareUpdateHelper::BuildCurrentVersionInfo *)
Definition BuildCurrentVersionInfo (e : E) (currentVersionInfo : CurrentVersionInfo.t) : CurrentVersionInfo.t := {|
  CurrentVersionInfo.osVersion := DeviceAdapter.GetOsVersion e;
  CurrentVersionInfo.deviceName := DeviceAdapter.GetDeviceName e;
  CurrentVersionInfo.versionComponents := CurrentVersionInfo.versionComponents currentVersionInfo ++ [{|
    VersionComponent.componentId := ObtainString e Firmware.HOTA_CURRENT_COMPONENT_ID "";
    VersionComponent.componentType := ComponentType.OTA;
    VersionComponent.upgradeAction := "";
    VersionComponent.displayVersion := DeviceAdapter.GetDisplayVersion e;
    VersionComponent.innerVersion := DeviceAdapter.GetRealVersion e;
    VersionComponent.size := 0;
    VersionComponent.effectiveMode := EffectiveMode.COLD;
    VersionComponent.otaMode := OtaMode.REGULAR_OTA;
    VersionComponent.descriptionInfo := {| DescriptionInfo.descriptionType := DescriptionType.ID;
                                           DescriptionInfo.content := "" |};
    VersionComponent.componentExtra := "" |}] |}.

(*@ firmware/common/src/firmware_update_helper.cpp FirmwareUpdateHelper::IsUpgradePackagesReady *)
Definition IsUpgradePackagesReady (e : E) (componentList : list FirmwareComponent.t) : bool :=
  match componentList with
  | [] => false
  | _ => forallb (λ component,
      if negb (FileUtils.IsFileExist e (FirmwareComponent.spath component)) then false
      else FileUtils.RetrieveFileSize e (FirmwareComponent.spath component) =? FirmwareComponent.size component)
      componentList
  end.
End ops.
End FirmwareUpdateHelper.

(** ** What the helpers compute *)

(** The names the versions of an update are joined into: version ids separated
    by underscores, leading empty ones dropped. *)
Definition joined_version_ids (ids : list string) : string :=
  join "_" (drop_while (String.eqb "") ids).

Lemma app_string_nonempty (s t : string) : s ≠ "" → s +:+ t ≠ "".
Proof. destruct s; [done|]. intros _ Hs. discriminate Hs. Qed.

Lemma BuildTaskId_loop_join cs s :
  s ≠ "" →
  FirmwareUpdateHelper.BuildTaskId_loop cs s = join "_" (s :: map FirmwareComponent.versionId cs).
Proof.
  unfold FirmwareUpdateHelper.BuildTaskId_loop.
  revert s. induction cs as [|c cs IH]; intros s Hs; [done|].
  cbn [fold_left map]. rewrite (proj2 (String.eqb_neq s "") Hs), IH by by repeat apply app_string_nonempty.
  destruct cs as [|c' cs]; cbn [map join]; by rewrite <- !str_assoc.
Qed.

Lemma BuildTaskId_loop_spec cs :
  FirmwareUpdateHelper.BuildTaskId_loop cs "" = joined_version_ids (map FirmwareComponent.versionId cs).
Proof.
  unfold joined_version_ids. induction cs as [|c cs IH]; [done|]. cbn [map drop_while].
  destruct (String.eqb_spec "" (FirmwareComponent.versionId c)) as [Hc|Hc].
  - rewrite <- IH. unfold FirmwareUpdateHelper.BuildTaskId_loop. cbn [fold_left]. by rewrite <- Hc.
  - rewrite <- BuildTaskId_loop_join by done. done.
Qed.

Section correctness.
Context {R E : Type} `{RdbLaws R, Platform E, Sha256, Downloads E, Preferences E}.
Implicit Types (w : World R E) (ts : list FirmwareTask.t) (cs : list FirmwareComponent.t).
Import FirmwareUpdateHelper.

(** The environment after [DeleteDownloadFiles] and after [ClearFirmwareInfo]. *)
Definition files_deleted (e : E) : E :=
  if FileUtils.IsFileExist e Firmware.PACKAGE_PATH then exec (remove_entries Firmware.PACKAGE_PATH) e else e.
Definition cleared ts (e : E) : E :=
  files_deleted (exec (RemoveTask (FirmwareTask.downloadTaskId (queried FirmwareTask.default ts))) e).

Lemma wp_DeleteDownloadFiles w ts cs e o (Q : unit → World R E → Prop) :
  at_state w ts cs e o → (∀ w', at_state w' ts cs (files_deleted e) o → Q tt w') →
  wp FirmwareFileUtils.DeleteDownloadFiles w Q.
Proof.
  intros Hw HQ. unfold FirmwareFileUtils.DeleteDownloadFiles, files_deleted in *. wp_step. wp_step.
  case_if; [|by apply wp_ret, HQ]. eapply wp_on_env; [exact Hw|]. intros w' Hw'. destruct (eval _ e). auto.
Qed.

(** Clearing empties both tables, removes the download task of the stored task
    and deletes the downloaded files. *)
Lemma wp_ClearFirmwareInfo w ts cs e o (Q : unit → World R E → Prop) :
  at_state w ts cs e o → (∀ w', at_state w' [] [] (cleared ts e) o → Q tt w') →
  wp ClearFirmwareInfo w Q.
Proof. intros Hw HQ. unfold ClearFirmwareInfo. wp_steps. by eapply wp_DeleteDownloadFiles. Qed.

(** The installer the state selects. *)
Definition install_type cs (e : E) : InstallType :=
  if String.eqb (DeviceAdapter.GetBootSlot e) Firmware.BOOTSLOTS_AB_UPDATE_VALUE
  then if IsStreamUpgrade_list cs then STREAM_INSTALLLER else SYS_INSTALLER
  else UPDATER.
Lemma wp_GetInstallType w ts cs e o (Q : InstallType → World R E → Prop) :
  at_state w ts cs e o → (∀ w', at_state w' ts cs e o → Q (install_type cs e) w') →
  wp GetInstallType w Q.
Proof.
  intros Hw HQ. unfold GetInstallType, install_type in *. wp_step. wp_step.
  case_if; [|by apply wp_ret, HQ]. unfold IsStreamUpgrade. wp_steps. by apply HQ.
Qed.
End correctness.

Section version_info.
Context {R E : Type} `{RdbLaws R, Platform E}.
Import FirmwareUpdateHelper.

(** Is the component part of a system update. *)
Definition is_hota (c : FirmwareComponent.t) : bool :=
  (FirmwareComponent.blVersionType c =? BlType.HOTA_TYPE) ||
  (FirmwareComponent.blVersionType c =? BlType.DYNAMIC_TYPE).
Definition total_size (cs : list FirmwareComponent.t) : Z :=
  foldr (λ c n, FirmwareComponent.size c + n) 0 cs.

Lemma size_loop cs n :
  fold_left (λ size c, to_uint64 (size + to_uint64 (FirmwareComponent.size c))) cs (to_uint64 n) =
  to_uint64 (n + total_size cs).
Proof.
  revert n. induction cs as [|c cs IH]; intros n; cbn [fold_left total_size foldr]; [by rewrite Z.add_0_r|].
  fold (total_size cs). replace (to_uint64 (to_uint64 n + to_uint64 (FirmwareComponent.size c)))
    with (to_uint64 (n + FirmwareComponent.size c)) by (apply Zplus_mod).
  rewrite IH. f_equal. lia.
Qed.

(** The version component shown for the stored components: taken from the first
    one of a system update, its size the sum of all their sizes. *)
Definition shown_version (t : InstallType) (c : FirmwareComponent.t) (hs : list FirmwareComponent.t) :
    VersionComponent.t := {|
  VersionComponent.componentId := FirmwareComponent.componentId c;
  VersionComponent.componentType := ComponentType.OTA;
  VersionComponent.upgradeAction := UpgradeAction.UPGRADE;
  VersionComponent.displayVersion := FirmwareComponent.targetBlDisplayVersionNumber c;
  VersionComponent.innerVersion := FirmwareComponent.targetBlVersionNumber c;
  VersionComponent.size := to_uint64 (total_size hs);
  VersionComponent.effectiveMode := if decide (t = UPDATER) then EffectiveMode.COLD else EffectiveMode.LIVE_AND_COLD;
  VersionComponent.otaMode :=
    if decide (t = SYS_INSTALLER) then OtaMode.AB_REGULAR_OTA
    else if decide (t = STREAM_INSTALLLER) then OtaMode.AB_STREAM_OTA else OtaMode.REGULAR_OTA;
  VersionComponent.descriptionInfo := DescriptionInfo.default;
  VersionComponent.componentExtra := "" |}.

Lemma install_type_not_quick_fix cs (e : E) : install_type cs e ≠ QUICK_FIX.
Proof. unfold install_type. by repeat case_if. Qed.

Definition version_info cs (e : E) : list VersionComponent.t :=
  match List.filter is_hota cs with [] => [] | c :: hs => [shown_version (install_type cs e) c (c :: hs)] end.

Lemma wp_BuildNewVersionInfo (w : World R E) ts cs e o vcs (Q : list VersionComponent.t → World R E → Prop) :
  at_state w ts cs e o → (∀ w', at_state w' ts cs e o → Q (vcs ++ version_info cs e) w') →
  wp (BuildNewVersionInfo cs vcs) w Q.
Proof.
  intros Hw HQ. unfold BuildNewVersionInfo. change (λ component, _ || _) with is_hota.
  unfold version_info in HQ. destruct cs as [|c0 cs].
  { apply wp_ret. rewrite <- (app_nil_r vcs). by apply HQ. }
  destruct (List.filter is_hota (c0 :: cs)) as [|c hs].
  { apply wp_ret. rewrite <- (app_nil_r vcs). by apply HQ. }
  wp_step. unfold BuildHotaVersionComponent. wp_step. eapply wp_GetInstallType; [exact Hw|]. intros w1 Hw1.
  do 2 apply wp_ret.
  match goal with |- Q (_ ++ [?x]) _ => replace x with (shown_version (install_type (c0 :: cs) e) c (c :: hs)) end; [by apply HQ|].
  unfold shown_version. rewrite <- (Z.add_0_l (total_size (c :: hs))), <- (size_loop (c :: hs) 0).
  pose proof (install_type_not_quick_fix (c0 :: cs) e). by destruct (install_type _ _).
Qed.

(** The packages are ready when there are some and each is on disk with the
    size the database has for it. *)
Lemma IsUpgradePackagesReady_spec (e : E) cs :
  IsUpgradePackagesReady e cs = true ↔
  cs ≠ [] ∧ ∀ c, c ∈ cs → FileUtils.IsFileExist e (FirmwareComponent.spath c) = true ∧
    FileUtils.RetrieveFileSize e (FirmwareComponent.spath c) = FirmwareComponent.size c.
Proof.
  destruct cs as [|c cs]; cbn [IsUpgradePackagesReady]; [naive_solver|].
  rewrite forallb_forall. setoid_rewrite list_elem_of_In. split.
  - intros Hf. split; [done|]. intros x Hx%Hf. cbn in Hx.
    destruct (FileUtils.IsFileExist _ _); [|done]. by apply Z.eqb_eq in Hx.
  - intros [_ Hf] x [-> ->]%Hf. cbn. by rewrite Z.eqb_refl.
Qed.
End version_info.
