(* ===== verification/CheckProcessor.v ===== *)
(** * What a check for a new version does to the stored state

    Models [firmware_check_data_processor.cpp].  A processor object keeps the last
    answer of the server; handling it compares the answer with the database,
    and either refreshes the stored version, replaces it by the new one, or
    clears it.  The methods take the object and return the new one. *)
From Stdlib Require Import ZArith Lia Ascii String.
From stdpp Require Import base tactics list strings gmap.
From S2P Require Import Prelude CppString Models Database FirmwareDb FirmwareStore FirmwareWorld FirmwareHelper.
Import FirmwareWorld.World (on_db, on_env, asks, send).

#[local] Open Scope Z_scope.

Module Duration.
(*@ firmware/common/include/firmware_common.h Duration *)
Record t := { duration : Z }.
(*@ firmware/common/include/firmware_common.h Duration *)
Definition default : t := {| duration := -1 |}.
End Duration.

Module FirmwareCheckDataProcessor.
(*@ data_processor/include/firmware_check_data_processor.h FirmwareCheckDataProcessor *)
Record t := {
  componentList_ : list FirmwareComponent.t;
  duration_ : Duration.t;
  isSameWithDb_ : bool;
  status_ : CheckStatus
}.
(*@ data_processor/include/firmware_check_data_processor.h FirmwareCheckDataProcessor *)
Definition initial : t := {|
  componentList_ := []; duration_ := Duration.default; isSameWithDb_ := true; status_ := CHECK_FAIL |}.
Definition set_isSameWithDb (b : bool) (this : t) : t := {|
  componentList_ := componentList_ this; duration_ := duration_ this;
  isSameWithDb_ := b; status_ := status_ this |}.
Definition set_componentList (l : list FirmwareComponent.t) (this : t) : t := {|
  componentList_ := l; duration_ := duration_ this;
  isSameWithDb_ := isSameWithDb_ this; status_ := status_ this |}.

(*@ data_processor/src/firmware_check_data_processor.cpp FirmwareCheckDataProcessor::IsCheckFailed *)
Definition IsCheckFailed (this : t) : bool :=
  match status_ this with
  | CHECK_FAIL | FILE_LIST_REQUEST_FAIL | CHANGELOG_REQUEST_FAIL => true
  | _ => false
  end.
(*@ data_processor/src/firmware_check_data_processor.cpp FirmwareCheckDataProcessor::HasNewVersion *)
Definition HasNewVersion (this : t) : bool := match componentList_ this with [] => false | _ => true end.
(*@ data_processor/src/firmware_check_data_processor.cpp FirmwareCheckDataProcessor::IsSameWithDb *)
Definition IsSameWithDb (this : t) : bool := isSameWithDb_ this.

(** [component.spath = ...] *)
(*@ data_processor/src/firmware_check_data_processor.cpp FirmwareCheckDataProcessor::BuildComponentSPath *)
Definition set_spath (spath : string) (c : FirmwareComponent.t) : FirmwareComponent.t :=
  {| FirmwareComponent.id := FirmwareComponent.id c;
     FirmwareComponent.versionId := FirmwareComponent.versionId c;
     FirmwareComponent.packageIndex := FirmwareComponent.packageIndex c;
     FirmwareComponent.versionPackageType := FirmwareComponent.versionPackageType c;
     FirmwareComponent.otaType := FirmwareComponent.otaType c;
     FirmwareComponent.targetBlVersionNumber := FirmwareComponent.targetBlVersionNumber c;
     FirmwareComponent.targetBlDisplayVersionNumber := FirmwareComponent.targetBlDisplayVersionNumber c;
     FirmwareComponent.versionNumber := FirmwareComponent.versionNumber c;
     FirmwareComponent.blVersionInfo := FirmwareComponent.blVersionInfo c;
     FirmwareComponent.componentId := FirmwareComponent.componentId c;
     FirmwareComponent.descriptPackageId := FirmwareComponent.descriptPackageId c;
     FirmwareComponent.changelogUrl := FirmwareComponent.changelogUrl c;
     FirmwareComponent.blVersionType := FirmwareComponent.blVersionType c;
     FirmwareComponent.isNeedRestart := FirmwareComponent.isNeedRestart c;
     FirmwareComponent.patchType := FirmwareComponent.patchType c;
     FirmwareComponent.url := FirmwareComponent.url c;
     FirmwareComponent.reserveUrl := FirmwareComponent.reserveUrl c;
     FirmwareComponent.storageType := FirmwareComponent.storageType c;
     FirmwareComponent.fileName := FirmwareComponent.fileName c;
     FirmwareComponent.size := FirmwareComponent.size c;
     FirmwareComponent.verifyInfo := FirmwareComponent.verifyInfo c;
     FirmwareComponent.spath := spath;
     FirmwareComponent.status := FirmwareComponent.status c;
     FirmwareComponent.progress := FirmwareComponent.progress c;
     FirmwareComponent.recordPoint := FirmwareComponent.recordPoint c |}.
(*@ data_processor/src/firmware_check_data_processor.cpp FirmwareCheckDataProcessor::BuildComponentSPath *)
Definition BuildComponentSPath (this : t) : t :=
  set_componentList (map (λ component,
    set_spath (Firmware.PACKAGE_PATH +:+ "/" +:+ FirmwareComponent.fileName component) component)
    (componentList_ this)) this.

(*@ data_processor/src/firmware_check_data_processor.cpp FirmwareCheckDataProcessor::GetCombinationType *)
Definition GetCombinationType (this : t) : Z :=
  fold_left (λ combinationType component,
    if FirmwareComponent.blVersionType component =? BlType.HOTA_TYPE
    then Z.lor combinationType CombinationType.HOTA else combinationType)
    (componentList_ this) CombinationType.INVALLID_TYPE.

Section ops.
Context {R E : Type} `{Rdb R, Platform E, Sha256, Downloads E, Preferences E, Subscribers E}.

(*@ data_processor/src/firmware_check_data_processor.cpp FirmwareCheckDataProcessor::HasUndoneTask *)
Definition HasUndoneTask : ST (World R E) bool :=
  let* task := on_db (FirmwareTaskOperator.QueryTask FirmwareTask.default) in
  if negb (FirmwareTask.isExistTask task) then ret false
  else
    let taskStatus := FirmwareTask.status task in
    ret ((taskStatus =? UpgradeStatus.DOWNLOADING) || (taskStatus =? UpgradeStatus.DOWNLOAD_PAUSE) ||
         (taskStatus =? UpgradeStatus.VERIFYING) || (taskStatus =? UpgradeStatus.INSTALLING) ||
         (taskStatus =? UpgradeStatus.UPDATING)).

(*@ data_processor/src/firmware_check_data_processor.cpp FirmwareCheckDataProcessor::IsUpdateOnStatus *)
Definition IsUpdateOnStatus : ST (World R E) bool :=
  let* task := on_db (FirmwareTaskOperator.QueryTask FirmwareTask.default) in
  if negb (FirmwareTask.isExistTask task) then ret false
  else ret (FirmwareTask.status task =? UpgradeStatus.UPDATING).

(** The comparison of one component of the answer with the stored one. *)
(*@ data_processor/src/firmware_check_data_processor.cpp:177-178 FirmwareCheckDataProcessor::IsVersionSameWithDb *)
Definition component_differs (hasResult : bool) (dbResult serverResult : FirmwareComponent.t) : bool :=
  negb hasResult || negb (FirmwareComponent.size dbResult =? FirmwareComponent.size serverResult) ||
  negb (String.eqb (FirmwareComponent.verifyInfo dbResult) (FirmwareComponent.verifyInfo serverResult)) ||
  negb (String.eqb (FirmwareComponent.url dbResult) (FirmwareComponent.url serverResult)) ||
  negb (FirmwareComponent.otaType dbResult =? FirmwareComponent.otaType serverResult).
(*@ data_processor/src/firmware_check_data_processor.cpp:173-187 FirmwareCheckDataProcessor::IsVersionSameWithDb *)
Fixpoint IsVersionSameWithDb_loop (componentList : list FirmwareComponent.t) : ST (World R E) bool :=
  match componentList with
  | [] => ret true
  | serverResult :: rest =>
      let* (hasResult, dbResult) :=
        on_db (FirmwareComponentOperator.QueryByVersionId (FirmwareComponent.versionId serverResult)
                 (FirmwareComponent.default false)) in
      if component_differs hasResult dbResult serverResult then ret false
      else IsVersionSameWithDb_loop rest
  end.
(*@ data_processor/src/firmware_check_data_processor.cpp FirmwareCheckDataProcessor::IsVersionSameWithDb *)
Definition IsVersionSameWithDb (this : t) : ST (World R E) bool :=
  let* (_, dbComponentList) := on_db (FirmwareComponentOperator.QueryAll []) in
  if negb (List.length dbComponentList =? List.length (componentList_ this))%nat then ret false
  else IsVersionSameWithDb_loop (componentList_ this).

(*@ data_processor/src/firmware_check_data_processor.cpp FirmwareCheckDataProcessor::UpdateFirmwareComponent *)
Definition UpdateFirmwareComponent (this : t) : ST (World R E) unit :=
  let* task := on_db (FirmwareTaskOperator.QueryTask FirmwareTask.default) in
  if negb (FirmwareTask.isExistTask task) then ret tt
  else if negb (FirmwareTask.status task =? UpgradeStatus.CHECK_VERSION_SUCCESS) then ret tt
  else for_each (componentList_ this) (λ serverResult,
    on_db (FirmwareComponentOperator.UpdateUrlByVersionId (FirmwareComponent.versionId serverResult)
             (FirmwareComponent.url serverResult)) ;;; ret tt).

(** The task stored for a new version. *)
(*@ data_processor/src/firmware_check_data_processor.cpp:146-150 FirmwareCheckDataProcessor::HandleNewVersion *)
Definition new_task (taskId : string) (isStream : bool) (combinationType : Z) : FirmwareTask.t :=
  let task := FirmwareTask.default in
  {| FirmwareTask.taskId := taskId;
     FirmwareTask.status := UpgradeStatus.CHECK_VERSION_SUCCESS;
     FirmwareTask.progress := FirmwareTask.progress task;
     FirmwareTask.errorCode := FirmwareTask.errorCode task;
     FirmwareTask.errorMsg := FirmwareTask.errorMsg task;
     FirmwareTask.isExistTask := FirmwareTask.isExistTask task;
     FirmwareTask.downloadTaskId := FirmwareTask.downloadTaskId task;
     FirmwareTask.combinationType := combinationType;
     FirmwareTask.downloadOrder := FirmwareTask.downloadOrder task;
     FirmwareTask.downloadAllowNetwork := FirmwareTask.downloadAllowNetwork task;
     FirmwareTask.downloadMode := FirmwareTask.downloadMode task;
     FirmwareTask.upgradeOrder := FirmwareTask.upgradeOrder task;
     FirmwareTask.upgradeMode := FirmwareTask.upgradeMode task;
     FirmwareTask.authResult := FirmwareTask.authResult task;
     FirmwareTask.updateToken := FirmwareTask.updateToken task;
     FirmwareTask.deviceToken := FirmwareTask.deviceToken task;
     FirmwareTask.tokenHMac := FirmwareTask.tokenHMac task;
     FirmwareTask.currentVersionList := FirmwareTask.currentVersionList task;
     FirmwareTask.authTime := FirmwareTask.authTime task;
     FirmwareTask.isStreamUpgrade := isStream |}.

(*@ data_processor/src/firmware_check_data_processor.cpp FirmwareCheckDataProcessor::HandleNewVersion *)
Definition HandleNewVersion (this : t) : ST (World R E) t :=
  let* same := IsVersionSameWithDb this in
  let this := set_isSameWithDb same this in
  if same : bool then UpdateFirmwareComponent this ;;; ret this
  else
    FirmwareUpdateHelper.ClearFirmwareInfo ;;;
    let this := BuildComponentSPath this in
    on_db (FirmwareComponentOperator.Insert (componentList_ this)) ;;;
    on_db (FirmwareTaskOperator.Insert
      (new_task (FirmwareUpdateHelper.BuildTaskId (componentList_ this))
         (FirmwareUpdateHelper.IsStreamUpgrade_list (componentList_ this)) (GetCombinationType this))) ;;;
    ret this.

(*@ data_processor/src/firmware_check_data_processor.cpp FirmwareCheckDataProcessor::HandleNoNewVersion *)
Definition HandleNoNewVersion : ST (World R E) unit :=
  let* task := on_db (FirmwareTaskOperator.QueryTask FirmwareTask.default) in
  (when FirmwareTask.isExistTask task do
    FirmwareCallbackUtils.NotifyEvent (FirmwareTask.taskId task) EventId.EVENT_TASK_CANCEL UpgradeStatus.INIT
      ErrorMessage.default [] 0) ;;;
  FirmwareUpdateHelper.ClearFirmwareInfo.

(** [RefreshPollingCycle] and [HandleUndoneEvent] do nothing. *)
(*@ data_processor/src/firmware_check_data_processor.cpp FirmwareCheckDataProcessor::HandleCheckResult *)
Definition HandleCheckResult (this : t) : ST (World R E) t :=
  if IsCheckFailed this then ret this
  else
    let* undone := HasUndoneTask in
    if undone : bool then ret this
    else if HasNewVersion this then HandleNewVersion this
    else HandleNoNewVersion ;;; ret this.

(*@ data_processor/src/firmware_check_data_processor.cpp FirmwareCheckDataProcessor::SetCheckResult *)
Definition SetCheckResult (this : t) (status : CheckStatus) (duration : Duration.t)
    (componentList : list FirmwareComponent.t) : ST (World R E) t :=
  HandleCheckResult {| componentList_ := componentList; duration_ := duration;
                       isSameWithDb_ := isSameWithDb_ this; status_ := status |}.

(*@ data_processor/src/firmware_check_data_processor.cpp FirmwareCheckDataProcessor::BuildCheckResult *)
Definition BuildCheckResult (this : t) (checkResult : CheckResult.t) : ST (World R E) CheckResult.t :=
  if IsCheckFailed this then ret checkResult
  else
    let* (_, dbComponentList) := on_db (FirmwareComponentOperator.QueryAll []) in
    match dbComponentList with
    | [] => ret {| CheckResult.isExistNewVersion := false;
                   CheckResult.newVersionInfo := CheckResult.newVersionInfo checkResult |}
    | _ =>
        let info := CheckResult.newVersionInfo checkResult in
        let* versionComponents := FirmwareUpdateHelper.BuildNewVersionInfo dbComponentList
                                    (NewVersionInfo.versionComponents info) in
        ret {| CheckResult.isExistNewVersion := true;
               CheckResult.newVersionInfo := {|
                 NewVersionInfo.versionDigestInfo :=
                   {| VersionDigestInfo.versionDigest := FirmwareUpdateHelper.BuildTaskId dbComponentList |};
                 NewVersionInfo.versionComponents := versionComponents |} |}
    end.
End ops.
End FirmwareCheckDataProcessor.

(** ** What the methods do *)
Section correctness.
Context {R E : Type} `{RdbLaws R, Platform E, Sha256, Downloads E, Preferences E, Subscribers E}.
Import FirmwareCheckDataProcessor.
Implicit Types (w : World R E) (ts : list FirmwareTask.t) (cs new : list FirmwareComponent.t).

(** A download or an installation of the stored task is in progress. *)
Definition undone ts : bool :=
  match ts with
  | [] => false
  | t :: _ => bool_decide (FirmwareTask.status t ∈
      [UpgradeStatus.DOWNLOADING; UpgradeStatus.DOWNLOAD_PAUSE; UpgradeStatus.VERIFYING;
       UpgradeStatus.INSTALLING; UpgradeStatus.UPDATING])
  end.
(** The answer [new] names as many components as are stored, and each agrees
    with the stored component of its version id. *)
Definition same_as_db cs new : bool :=
  (List.length cs =? List.length new)%nat &&
  forallb (λ s, let (ok, d) := found (FirmwareComponent.default false) (version_is (FirmwareComponent.versionId s)) cs in
                negb (component_differs ok d s)) new.
Definition refreshed new cs : list FirmwareComponent.t :=
  fold_left (λ cs s, update_where (version_is (FirmwareComponent.versionId s))
                       (Component.with_url (FirmwareComponent.url s)) cs) new cs.
(** The component with the url the answer [new] gives last for its version id. *)
Definition renewed new (c : FirmwareComponent.t) : FirmwareComponent.t :=
  match last (List.filter (λ s, FirmwareComponent.versionId c =? FirmwareComponent.versionId s)%string new) with
  | Some s => Component.with_url (FirmwareComponent.url s) c
  | None => c
  end.
(** What an answer that agrees with the stored components leaves of them: as long as
    nothing was downloaded of them, their urls are brought up to date. *)
Definition kept ts new cs : list FirmwareComponent.t :=
  match ts with
  | t :: _ => if FirmwareTask.status t =? UpgradeStatus.CHECK_VERSION_SUCCESS then map (renewed new) cs else cs
  | [] => cs
  end.
(** A component of the answer, with the path its package is downloaded to. *)
Definition with_path (c : FirmwareComponent.t) : FirmwareComponent.t :=
  set_spath (Firmware.PACKAGE_PATH +:+ "/" +:+ FirmwareComponent.fileName c) c.
Definition task_for new : FirmwareTask.t :=
  new_task (FirmwareUpdateHelper.BuildTaskId new) (FirmwareUpdateHelper.IsStreamUpgrade_list new)
    (if existsb (λ c, FirmwareComponent.blVersionType c =? BlType.HOTA_TYPE) new
     then CombinationType.HOTA else CombinationType.INVALLID_TYPE).

Lemma undone_spec ts :
  (let task := queried FirmwareTask.default ts in
   if negb (FirmwareTask.isExistTask task) then false else
   let taskStatus := FirmwareTask.status task in
   (taskStatus =? UpgradeStatus.DOWNLOADING) || (taskStatus =? UpgradeStatus.DOWNLOAD_PAUSE) ||
   (taskStatus =? UpgradeStatus.VERIFYING) || (taskStatus =? UpgradeStatus.INSTALLING) ||
   (taskStatus =? UpgradeStatus.UPDATING)) = undone ts.
Proof.
  destruct ts as [|t ts]; [done|]. cbn [queried]. cbn [undone]. symmetry.
  change (FirmwareTask.isExistTask _) with true. cbn [negb].
  change (FirmwareTask.status (FirmwareTaskOperator.set_isExistTask true t)) with (FirmwareTask.status t).
  unfold bool_decide. cbn zeta. repeat match goal with |- context [?a =? ?b] => destruct (Z.eqb_spec a b) end;
    case_decide; set_solver.
Qed.

Lemma wp_HasUndoneTask w ts cs e o (Q : bool → World R E → Prop) :
  at_state w ts cs e o → (∀ w', at_state w' ts cs e o → Q (undone ts) w') → wp HasUndoneTask w Q.
Proof.
  intros Hw HQ. unfold HasUndoneTask. wp_step. wp_step. rewrite <- undone_spec in HQ. cbv zeta in HQ.
  destruct (negb _); wp_step; by apply HQ.
Qed.

Lemma wp_IsVersionSameWithDb_loop w ts cs new e o (Q : bool → World R E → Prop) :
  at_state w ts cs e o →
  (∀ w', at_state w' ts cs e o →
    Q (forallb (λ s, let (ok, d) := found (FirmwareComponent.default false) (version_is (FirmwareComponent.versionId s)) cs in
                     negb (component_differs ok d s)) new) w') →
  wp (IsVersionSameWithDb_loop new) w Q.
Proof.
  revert w. induction new as [|s new IH]; intros w Hw HQ; cbn [IsVersionSameWithDb_loop forallb] in *.
  - by apply wp_ret, HQ.
  - wp_step. wp_step. destruct (found _ _ cs) as [ok d].
    destruct (component_differs ok d s); cbn [negb andb] in HQ; [by apply wp_ret, HQ|]. by apply IH.
Qed.
Lemma wp_IsVersionSameWithDb this w ts cs e o (Q : bool → World R E → Prop) :
  at_state w ts cs e o → (∀ w', at_state w' ts cs e o → Q (same_as_db cs (componentList_ this)) w') →
  wp (IsVersionSameWithDb this) w Q.
Proof.
  intros Hw HQ. unfold IsVersionSameWithDb, same_as_db in *. wp_step. wp_step.
  destruct (_ =? _)%nat; cbn [negb andb] in *; [by eapply wp_IsVersionSameWithDb_loop|by apply wp_ret, HQ].
Qed.

Lemma refreshed_renewed new cs : refreshed new cs = map (renewed new) cs.
Proof.
  unfold refreshed. induction new as [|s new IH] using rev_ind; [by rewrite map_id|].
  rewrite fold_left_app. cbn [fold_left]. rewrite IH. unfold update_where. rewrite map_map.
  apply map_ext. intros c. unfold renewed. rewrite List.filter_app. cbn [List.filter].
  assert (FirmwareComponent.versionId (match last (List.filter (λ s0, FirmwareComponent.versionId c =? FirmwareComponent.versionId s0)%string new) with
    | Some s0 => Component.with_url (FirmwareComponent.url s0) c | None => c end) = FirmwareComponent.versionId c) as Hv
    by by destruct (last _).
  unfold version_is. rewrite Hv. destruct (String.eqb _ _); [|by rewrite app_nil_r].
  rewrite last_snoc. by destruct (last _).
Qed.

Lemma wp_UpdateFirmwareComponent this w ts cs e o (Q : unit → World R E → Prop) :
  at_state w ts cs e o →
  (∀ w', at_state w' ts
     (kept ts (componentList_ this) cs) e o → Q tt w') →
  wp (UpdateFirmwareComponent this) w Q.
Proof.
  intros Hw HQ. unfold UpdateFirmwareComponent. wp_step. wp_step.
  destruct ts as [|t ts]; [by apply wp_ret, HQ|]. cbn [queried].
  change (FirmwareTask.isExistTask _) with true. cbn [negb].
  change (FirmwareTask.status (FirmwareTaskOperator.set_isExistTask true t)) with (FirmwareTask.status t).
  cbn [kept] in HQ. destruct (_ =? _); cbn [negb]; [|by apply wp_ret, HQ]. rewrite <- refreshed_renewed in HQ.
  eapply (wp_for_each (λ l w, at_state w (t :: ts) (refreshed l cs) e o)); [done| |exact HQ].
  intros l1 s l2 w1 _ Hw1. wp_steps. unfold refreshed. by rewrite fold_left_app.
Qed.

Lemma BuildComponentSPath_list this :
  componentList_ (BuildComponentSPath this) = map with_path (componentList_ this).
Proof. done. Qed.
Lemma with_path_wf new : Forall Component.wf new → Forall Component.wf (map with_path new).
Proof. intros Hn. apply Forall_fmap. eapply Forall_impl; [exact Hn|]. by intros []. Qed.

Lemma combination_type_spec this :
  GetCombinationType this =
  if existsb (λ c, FirmwareComponent.blVersionType c =? BlType.HOTA_TYPE) (componentList_ this)
  then CombinationType.HOTA else CombinationType.INVALLID_TYPE.
Proof.
  unfold GetCombinationType. generalize (componentList_ this) as l. intros l.
  assert (∀ n, n = CombinationType.INVALLID_TYPE ∨ n = CombinationType.HOTA →
    fold_left (λ combinationType component,
      if FirmwareComponent.blVersionType component =? BlType.HOTA_TYPE
      then Z.lor combinationType CombinationType.HOTA else combinationType) l n =
    if existsb (λ c, FirmwareComponent.blVersionType c =? BlType.HOTA_TYPE) l then CombinationType.HOTA else n)
    as Hl; [|by apply Hl; left].
  induction l as [|c l IH]; intros n Hn; cbn [fold_left existsb]; [done|].
  destruct (_ =? _); cbn [orb]; [|by apply IH].
  rewrite IH by (right; by destruct Hn as [-> | ->]).
  destruct (existsb _ l); [done|]. by destruct Hn as [-> | ->].
Qed.

Lemma stored_task_for this :
  let this' := BuildComponentSPath this in
  new_task (FirmwareUpdateHelper.BuildTaskId (componentList_ this'))
    (FirmwareUpdateHelper.IsStreamUpgrade_list (componentList_ this')) (GetCombinationType this') =
  task_for (map with_path (componentList_ this)).
Proof. cbn zeta. rewrite combination_type_spec. done. Qed.
Lemma task_for_wf new : Task.wf (task_for new).
Proof. unfold task_for. destruct (existsb _ new); split_and?; apply (bool_decide_unpack _); by vm_compute. Qed.

Lemma wp_HandleNewVersion this w ts cs e o (Q : t → World R E → Prop) :
  at_state w ts cs e o → Forall Component.wf (componentList_ this) →
  (same_as_db cs (componentList_ this) = true → ∀ w',
    at_state w' ts
     (kept ts (componentList_ this) cs) e o → Q (set_isSameWithDb true this) w') →
  (same_as_db cs (componentList_ this) = false → ∀ w' cs',
    numbered (map with_path (componentList_ this)) cs' →
    at_state w' [task_for (map with_path (componentList_ this))] cs' (cleared ts e) o →
    Q (BuildComponentSPath (set_isSameWithDb false this)) w') →
  wp (HandleNewVersion this) w Q.
Proof.
  intros Hw Hwf Hsame Hdiff. unfold HandleNewVersion. wp_step.
  eapply wp_IsVersionSameWithDb; [exact Hw|]. intros w1 Hw1.
  destruct (same_as_db cs (componentList_ this)) eqn:Hs.
  - wp_step. eapply wp_UpdateFirmwareComponent; [exact Hw1|]. intros w2 Hw2. wp_step. by apply Hsame.
  - wp_step. eapply wp_ClearFirmwareInfo; [exact Hw1|]. intros w2 Hw2.
    rewrite stored_task_for, BuildComponentSPath_list.
    do 2 wp_step; [by apply with_path_wf|]. do 2 wp_step; [by apply task_for_wf|]. wp_step.
    eapply Hdiff; eauto.
Qed.

Definition cancel_event (t : FirmwareTask.t) : EventInfo.t :=
  BaseCallbackUtils.notify_event (FirmwareTask.taskId t) EventId.EVENT_TASK_CANCEL UpgradeStatus.INIT
    ErrorMessage.default [] 0.
Lemma wp_HandleNoNewVersion w ts cs e o (Q : unit → World R E → Prop) :
  at_state w ts cs e o →
  (∀ w', at_state w' [] [] (cleared ts e)
    (o ++ match ts with [] => [] | t :: _ => [notification (cancel_event t)] end) → Q tt w') →
  wp HandleNoNewVersion w Q.
Proof.
  intros Hw HQ. unfold HandleNoNewVersion. wp_step. wp_step. wp_step. destruct ts as [|t ts].
  - change (FirmwareTask.isExistTask _) with false. cbv iota. wp_step.
    eapply wp_ClearFirmwareInfo; [eassumption|]. rewrite app_nil_r in HQ. exact HQ.
  - cbn [queried]. change (FirmwareTask.isExistTask _) with true. cbv iota. wp_step.
    eapply wp_ClearFirmwareInfo; [eassumption|]. exact HQ.
Qed.

(** The stored version ids are distinct. *)
Definition distinct_versions cs : Prop := NoDup (map FirmwareComponent.versionId cs).

Lemma found_first cs c v d x :
  found d (version_is v) cs = (c, x) → c = true → x ∈ cs ∧ FirmwareComponent.versionId x = v.
Proof.
  unfold found. intros Hf ->. destruct (List.filter (version_is v) cs) as [|y l] eqn:El; [done|]. injection Hf as ->.
  assert (x ∈ List.filter (version_is v) cs) as Hy by (rewrite El; set_solver).
  rewrite list_elem_of_In, filter_In, <- list_elem_of_In in Hy. destruct Hy as [Hy Hv].
  split; [done|]. by apply String.eqb_eq in Hv.
Qed.

(** A refresh after a successful comparison writes the urls already stored, as long as
    the stored version ids are distinct. *)
Lemma kept_same ts cs new :
  distinct_versions cs → same_as_db cs new = true → kept ts new cs = cs.
Proof.
  intros Hd Hs. destruct ts as [|t ts]; [done|]. cbn [kept]. destruct (_ =? _); [|done].
  rewrite <- refreshed_renewed. apply andb_true_iff in Hs as [_ Hs]. unfold refreshed.
  induction new as [|s new IH]; [done|]. cbn [fold_left forallb] in *. apply andb_true_iff in Hs as [Hs Hnew].
  replace (update_where _ _ cs) with cs; [by apply IH|]. symmetry.
  destruct (found _ _ cs) as [ok d] eqn:Hf. unfold component_differs in Hs.
  rewrite !negb_orb, !negb_involutive, !andb_true_iff in Hs. destruct Hs as [[[[-> _] _] Hu] _].
  apply String.eqb_eq in Hu. destruct (found_first _ _ _ _ _ Hf eq_refl) as [Hin Hv].
  apply map_id_on. intros x Hx. destruct (version_is _ x) eqn:Ex; [|done]. apply String.eqb_eq in Ex.
  assert (x = d) as -> by (eapply NoDup_map_inj; [exact Hd|done..|congruence]).
  rewrite <- Hu. by destruct d.
Qed.

Lemma numbered_versions new cs' :
  numbered (map with_path new) cs' → map FirmwareComponent.versionId cs' = map FirmwareComponent.versionId new.
Proof.
  unfold numbered. rewrite Forall2_fmap_l. induction 1 as [|s x new cs' [id ->] _ IH]; [done|].
  cbn [map]. by rewrite IH.
Qed.

(** The answer just stored is found to be stored. *)
Lemma numbered_same new cs' :
  numbered (map with_path new) cs' → distinct_versions new →
  distinct_versions cs' ∧ same_as_db cs' new = true.
Proof.
  intros Hn Hd. assert (distinct_versions cs') as Hd'
    by (unfold distinct_versions; by rewrite (numbered_versions _ _ Hn)).
  split; [done|]. apply andb_true_iff. split.
  { apply Nat.eqb_eq. apply Forall2_length in Hn. by rewrite length_map in Hn. }
  apply forallb_forall. intros s Hs%list_elem_of_In.
  assert (∃ id, Component.with_id id (with_path s) ∈ cs') as [id Hid].
  { clear Hd Hd'. unfold numbered in Hn. rewrite Forall2_fmap_l in Hn.
    induction Hn as [|s' x new cs' [id ->] Hn IH]; [set_solver|].
    rewrite list_elem_of_In in Hs. destruct Hs as [->|Hs]; [exists id; set_solver|].
    destruct IH as [id' ?]; [by apply list_elem_of_In|]. exists id'. set_solver. }
  destruct (found _ _ cs') as [ok d] eqn:Hf. assert (ok = true) as ->.
  { unfold found in Hf. destruct (List.filter _ cs') as [|y l] eqn:El; [|congruence].
    assert (Component.with_id id (with_path s) ∈ ([] : list FirmwareComponent.t)); [|set_solver].
    rewrite <- El, list_elem_of_In, filter_In, <- list_elem_of_In. split; [done|].
    apply String.eqb_refl. }
  destruct (found_first _ _ _ _ _ Hf eq_refl) as [Hin Hv].
  assert (d = Component.with_id id (with_path s)) as ->
    by (eapply NoDup_map_inj; [exact Hd'|done..|by rewrite Hv]).
  unfold component_differs. cbn. by rewrite !Z.eqb_refl, !String.eqb_refl.
Qed.

Definition check_failed (st : CheckStatus) : bool :=
  match st with CHECK_FAIL | FILE_LIST_REQUEST_FAIL | CHANGELOG_REQUEST_FAIL => true | _ => false end.

(** What handling the answer [new] of a check leaves. *)
Definition answered st new ts cs (e : E) o (this' : t) w' : Prop :=
  if check_failed st || undone ts then at_state w' ts cs e o
  else match new with
  | [] => at_state w' [] [] (cleared ts e)
            (o ++ match ts with [] => [] | t :: _ => [notification (cancel_event t)] end)
  | _ =>
      isSameWithDb_ this' = same_as_db cs new ∧
      if same_as_db cs new then at_state w' ts (kept ts new cs) e o
      else ∃ cs', numbered (map with_path new) cs' ∧
             at_state w' [task_for (map with_path new)] cs' (cleared ts e) o
  end.
Lemma wp_SetCheckResult this st d new w ts cs e o (Q : t → World R E → Prop) :
  at_state w ts cs e o → Forall Component.wf new →
  (∀ this' w', status_ this' = st → HasNewVersion this' = bool_decide (new ≠ []) →
     (check_failed st || undone ts = true → isSameWithDb_ this' = isSameWithDb_ this) →
     answered st new ts cs e o this' w' → Q this' w') →
  wp (SetCheckResult this st d new) w Q.
Proof.
  intros Hw Hwf HQ. unfold SetCheckResult, HandleCheckResult, answered in *.
  change (IsCheckFailed _) with (check_failed st).
  destruct (check_failed st); cbn [orb] in HQ; [by apply wp_ret, HQ; [|destruct new|..]|].
  wp_step. eapply wp_HasUndoneTask; [exact Hw|]. intros w1 Hw1.
  destruct (undone ts); [by apply wp_ret, HQ; [|destruct new|..]|].
  destruct new as [|c new]; cbn [HasNewVersion componentList_].
  - wp_step. eapply wp_HandleNoNewVersion; [exact Hw1|]. intros w2 Hw2. by apply wp_ret, HQ.
  - eapply wp_HandleNewVersion; [exact Hw1|done| |]; cbn [componentList_]; intros Hs; rewrite Hs in HQ.
    + intros w2 Hw2. by apply HQ.
    + intros w2 cs' Hn Hw2. apply HQ; [done..|]. split; [done|]. by exists cs'.
Qed.

(** C13: handling the answer of a check.  A failed check and an update in progress
    leave everything alone.  An empty answer clears the stored version and
    cancels its task.  An answer that agrees with the stored components keeps
    them and the task; before the download their urls are brought up to date, which
    changes none when their version ids are distinct.  Any other answer replaces them, after clearing what was there, by its
    components and one task in state [CHECK_VERSION_SUCCESS] whose id is the
    digest of the version ids. *)
Theorem check_result_handled this st d new w ts cs e o :
  at_state w ts cs e o → Forall Component.wf new →
  wp (SetCheckResult this st d new) w (λ this' w',
    if check_failed st || undone ts then at_state w' ts cs e o
    else match new with
    | [] => at_state w' [] [] (cleared ts e)
              (o ++ match ts with [] => [] | t :: _ => [notification (cancel_event t)] end)
    | _ =>
        isSameWithDb_ this' = same_as_db cs new ∧
        if same_as_db cs new
        then at_state w' ts (kept ts new cs) e o ∧ (distinct_versions cs → kept ts new cs = cs)
        else ∃ cs', numbered (map with_path new) cs' ∧
               at_state w' [task_for (map with_path new)] cs' (cleared ts e) o
    end).
Proof.
  intros Hw Hwf. eapply wp_SetCheckResult; [done..|]. intros this' w' _ _ _ Ha. unfold answered in Ha.
  destruct (_ || _); [done|]. destruct new as [|c new]; [done|]. destruct Ha as [Hs Ha]. split; [done|].
  destruct (same_as_db cs _) eqn:Hdb; [|done]. split; [done|]. intros Hd. by apply kept_same.
Qed.

(** Checking is stable: when the server repeats its answer, the second
    handling recognises it and changes nothing, whatever the first one did. *)
Theorem recheck_stable this st d new w ts cs e o :
  at_state w ts cs e o → Forall Component.wf new → new ≠ [] → distinct_versions new → distinct_versions cs →
  check_failed st = false → undone ts = false →
  wp (SetCheckResult this st d new) w (λ this' w1,
    ∃ ts1 cs1 e1 o1, at_state w1 ts1 cs1 e1 o1 ∧
      wp (SetCheckResult this' st d new) w1 (λ this'' w2, isSameWithDb_ this'' = true ∧ at_state w2 ts1 cs1 e1 o1)).
Proof.
  intros Hw Hwf Hne Hd Hdc Hst Hu.
  assert (∀ this w ts cs e o, at_state w ts cs e o → distinct_versions cs → undone ts = false →
    same_as_db cs new = true →
    wp (SetCheckResult this st d new) w (λ this' w', isSameWithDb_ this' = true ∧ at_state w' ts cs e o)) as Hagain.
  { clear -Hwf Hne Hst. intros this w ts cs e o Hw Hdc Hu Hs. unfold SetCheckResult, HandleCheckResult.
    change (IsCheckFailed _) with (check_failed st). rewrite Hst. wp_step.
    eapply wp_HasUndoneTask; [exact Hw|]. intros w1 Hw1. rewrite Hu. destruct new as [|c new]; [done|].
    cbn [HasNewVersion componentList_]. eapply wp_HandleNewVersion; [exact Hw1|done| |];
      cbn [componentList_]; rewrite Hs; [|done].
    intros _ w2 Hw2. split; [done|]. by rewrite kept_same in Hw2. }
  destruct (same_as_db cs new) eqn:Hs.
  - eapply wp_mono; [|by apply Hagain]. intros this' w1 [_ Hw1]. exists ts, cs, e, o. eauto.
  - unfold SetCheckResult at 1, HandleCheckResult.
    change (IsCheckFailed _) with (check_failed st). rewrite Hst. wp_step.
    eapply wp_HasUndoneTask; [exact Hw|]. intros w1 Hw1. rewrite Hu. destruct new as [|c new]; [done|].
    cbn [HasNewVersion componentList_]. eapply wp_HandleNewVersion; [exact Hw1|done| |];
      cbn [componentList_]; rewrite Hs; [done|].
    intros _ w2 cs' Hn Hw2. destruct (numbered_same _ _ Hn Hd) as [Hd' Hs'].
    do 4 eexists. split; [exact Hw2|]. by apply Hagain.
Qed.

(** The result built from the stored version. *)
Definition stored_result cs (e : E) : CheckResult.t := {|
  CheckResult.isExistNewVersion := bool_decide (cs ≠ []);
  CheckResult.newVersionInfo :=
    match cs with
    | [] => CheckResult.newVersionInfo CheckResult.default
    | _ => {|
        NewVersionInfo.versionDigestInfo :=
          {| VersionDigestInfo.versionDigest :=
               CalculateHashCode (joined_version_ids (map FirmwareComponent.versionId cs)) |};
        NewVersionInfo.versionComponents := version_info cs e |}
    end |}.
Lemma wp_BuildCheckResult this w ts cs e o (Q : CheckResult.t → World R E → Prop) :
  at_state w ts cs e o →
  (∀ w', at_state w' ts cs e o →
     Q (if check_failed (status_ this) then CheckResult.default else stored_result cs e) w') →
  wp (BuildCheckResult this CheckResult.default) w Q.
Proof.
  intros Hw HQ. unfold BuildCheckResult. change (IsCheckFailed this) with (check_failed (status_ this)).
  destruct (check_failed (status_ this)); [by apply wp_ret, HQ|]. wp_step. wp_step.
  destruct cs as [|c cs]; [by apply wp_ret, HQ|]. wp_step.
  eapply wp_BuildNewVersionInfo; [eassumption|]. intros w2 Hw2. apply wp_ret.
  unfold FirmwareUpdateHelper.BuildTaskId. rewrite BuildTaskId_loop_spec. by apply HQ.
Qed.

(** What a check reports: nothing when it failed; otherwise the stored
    version, not the answer, with the digest of its version ids and the version
    component built from its system components. *)
Theorem check_reports_stored this w ts cs e o :
  at_state w ts cs e o →
  wp (BuildCheckResult this CheckResult.default) w (λ r w', at_state w' ts cs e o ∧
    if check_failed (status_ this) then r = CheckResult.default
    else CheckResult.isExistNewVersion r = bool_decide (cs ≠ []) ∧
         (cs ≠ [] → CheckResult.newVersionInfo r = {|
            NewVersionInfo.versionDigestInfo :=
              {| VersionDigestInfo.versionDigest :=
                   CalculateHashCode (joined_version_ids (map FirmwareComponent.versionId cs)) |};
            NewVersionInfo.versionComponents := version_info cs e |})).
Proof.
  intros Hw. eapply wp_BuildCheckResult; [exact Hw|]. intros w' Hw'. split; [done|].
  destruct (check_failed _); [done|]. split; [done|]. by destruct cs.
Qed.
End correctness.

(** ** Witnesses *)
Definition sample_component (v : string) : FirmwareComponent.t :=
  {| FirmwareComponent.id := 0;
     FirmwareComponent.versionId := v;
     FirmwareComponent.packageIndex := 1;
     FirmwareComponent.versionPackageType := PackageType.DYNAMIC;
     FirmwareComponent.otaType := OtaMode.AB_REGULAR_OTA;
     FirmwareComponent.targetBlVersionNumber := "2.0";
     FirmwareComponent.targetBlDisplayVersionNumber := "OS 2.0";
     FirmwareComponent.versionNumber := "2.0";
     FirmwareComponent.blVersionInfo := "";
     FirmwareComponent.componentId := "c";
     FirmwareComponent.descriptPackageId := "";
     FirmwareComponent.changelogUrl := "";
     FirmwareComponent.blVersionType := BlType.HOTA_TYPE;
     FirmwareComponent.isNeedRestart := true;
     FirmwareComponent.patchType := 0;
     FirmwareComponent.url := "https://" +:+ v;
     FirmwareComponent.reserveUrl := "";
     FirmwareComponent.storageType := 1;
     FirmwareComponent.fileName := v +:+ ".zip";
     FirmwareComponent.size := 100;
     FirmwareComponent.verifyInfo := "";
     FirmwareComponent.spath := "";
     FirmwareComponent.status := UpgradeStatus.CHECK_VERSION_SUCCESS;
     FirmwareComponent.progress := 0;
     FirmwareComponent.recordPoint := 0 |}.
Definition sample_answer : list FirmwareComponent.t := [sample_component "v1"; sample_component "v2"].
Lemma sample_answer_wf : Forall Component.wf sample_answer.
Proof. apply (bool_decide_unpack _). by vm_compute. Qed.

Lemma check_result_handled_witness :
  let w := SampleEnv.world [] [] in
  let w' := exec (FirmwareCheckDataProcessor.SetCheckResult FirmwareCheckDataProcessor.initial
                    CHECK_SUCCESS Duration.default sample_answer) w in
  ∃ cs', numbered (map with_path sample_answer) cs' ∧
    at_state w' [task_for (map with_path sample_answer)] cs' (cleared [] SampleEnv.initial) [].
Proof.
  refine (proj2 (check_result_handled FirmwareCheckDataProcessor.initial CHECK_SUCCESS Duration.default sample_answer
    (SampleEnv.world [] []) [] [] SampleEnv.initial [] _ _)).
  - apply sample_tasks_at_state. constructor.
  - apply sample_answer_wf.
Defined.

Lemma recheck_stable_witness :
  wp (FirmwareCheckDataProcessor.SetCheckResult FirmwareCheckDataProcessor.initial CHECK_SUCCESS
        Duration.default sample_answer) (SampleEnv.world [] []) (λ this' w1,
    ∃ ts1 cs1 e1 o1, at_state w1 ts1 cs1 e1 o1 ∧
      wp (FirmwareCheckDataProcessor.SetCheckResult this' CHECK_SUCCESS Duration.default sample_answer) w1
        (λ this'' w2, FirmwareCheckDataProcessor.isSameWithDb_ this'' = true ∧ at_state w2 ts1 cs1 e1 o1)).
Proof.
  apply (recheck_stable FirmwareCheckDataProcessor.initial CHECK_SUCCESS Duration.default sample_answer
    (SampleEnv.world [] []) [] [] SampleEnv.initial []);
    [apply sample_tasks_at_state; constructor|apply sample_answer_wf|done| |constructor|done|done].
  apply (bool_decide_unpack _). by vm_compute.
Defined.

Lemma check_reports_stored_witness :
  let this := {| FirmwareCheckDataProcessor.componentList_ := []; FirmwareCheckDataProcessor.duration_ := Duration.default;
                 FirmwareCheckDataProcessor.isSameWithDb_ := true; FirmwareCheckDataProcessor.status_ := CHECK_SUCCESS |} in
  ∃ zs, numbered sample_answer zs ∧
    CheckResult.isExistNewVersion
      (eval (FirmwareCheckDataProcessor.BuildCheckResult this CheckResult.default) (SampleEnv.world [] sample_answer)) =
    bool_decide (zs ≠ []).
Proof.
  intros this. destruct (sample_at_state [] sample_answer) as (zs & Hz & Hw);
    [constructor|apply sample_answer_wf|]. exists zs. split; [done|].
  exact (proj1 (proj2 (check_reports_stored this _ _ _ _ _ Hw))).
Defined.
