(* ===== verification/ProgressProcessor.v ===== *)
(** * Progress of a download and of an installation

    Models [firmware_download_data_processor.cpp] and
    [firmware_install_data_processor.cpp]: the objects that record the progress
    the executors report in the database and pass it to the application. *)
From Stdlib Require Import ZArith Lia Ascii String SpecFloat.
From stdpp Require Import base tactics list strings gmap sorting.
From S2P Require Import Prelude CppString Models Database DownloadData FirmwareDb FirmwareStore FirmwareWorld FirmwareHelper.
Import FirmwareWorld.World (on_db, on_env, asks, send).

#[local] Open Scope Z_scope.

(** ** Structures *)

Module FirmwareDownloadProgress.
(*@ firmware/common/include/firmware_common.h FirmwareDownloadProgress *)
Record t := {
  versionId : string;
  startTime : Z;
  endTime : Z;
  effectiveTime : Z;
  progress : Progress.t;
  downloadErrorInfo : DownloadErrorInfo.t;
  downloadUrl : string;
  packageSize : Z;
  downloadedSize : Z;
  verifiedSize : Z;
  isCombineVerifyProgress : bool
}.
End FirmwareDownloadProgress.

Module FirmwareDownloadCallbackInfo.
(*@ firmware/common/include/firmware_common.h FirmwareDownloadCallbackInfo *)
Record t := {
  downloadTaskId : string;
  taskProgress : Progress.t;
  progressList : list FirmwareDownloadProgress.t
}.
End FirmwareDownloadCallbackInfo.

Module InstallCallbackInfo.
(*@ upgrade/executor/include/firmware_iexecutor.h InstallCallbackInfo *)
Record t := { progress : Progress.t; errorMessage : ErrorMessage.t }.
(*@ upgrade/executor/include/firmware_iexecutor.h InstallCallbackInfo *)
Definition default : t := {| progress := Progress.default; errorMessage := ErrorMessage.default |}.
End InstallCallbackInfo.

(** ** FirmwareDownloadDataProcessor *)
Module FirmwareDownloadDataProcessor.
(*@ data_processor/include/firmware_download_data_processor.h FirmwareDownloadDataProcessor *)
Record t := { tasks_ : FirmwareTask.t; downloadProgress_ : Progress.t }.

Section ops.
Context {R E : Type} `{Rdb R, Platform E, Subscribers E}.

(*@ data_processor/src/firmware_download_data_processor.cpp FirmwareDownloadDataProcessor::GetTask *)
Definition GetTask (this : t) : ST (World R E) t :=
  let* task := on_db (FirmwareTaskOperator.QueryTask (tasks_ this)) in
  ret {| tasks_ := task; downloadProgress_ := downloadProgress_ this |}.

(** The constructor resumes from the stored progress. *)
(*@ data_processor/src/firmware_download_data_processor.cpp FirmwareDownloadDataProcessor::FirmwareDownloadDataProcessor *)
Definition new : ST (World R E) t :=
  let* this := GetTask {| tasks_ := FirmwareTask.default; downloadProgress_ := Progress.default |} in
  ret {| tasks_ := tasks_ this;
         downloadProgress_ := {|
           Progress.percent := to_uint32 (FirmwareTask.progress (tasks_ this));
           Progress.status := FirmwareTask.status (tasks_ this);
           Progress.endReason := Progress.endReason (downloadProgress_ this) |} |}.

(*@ data_processor/src/firmware_download_data_processor.cpp FirmwareDownloadDataProcessor::IsDownloadSuccess *)
Definition IsDownloadSuccess : ST (World R E) bool :=
  let* task := on_db (FirmwareTaskOperator.QueryTask FirmwareTask.default) in
  if negb (FirmwareTask.isExistTask task) then ret false
  else ret (FirmwareTask.status task =? UpgradeStatus.DOWNLOAD_SUCCESS).

(** The space still to be downloaded; [/] truncates. Signed overflow, which is
    undefined, wraps here. *)
(*@ data_processor/src/firmware_download_data_processor.cpp:63-65 FirmwareDownloadDataProcessor::IsSpaceEnough *)
Definition required_size (components : list FirmwareComponent.t) (requireTotalSize : Z) : Z :=
  fold_left (λ requireTotalSize component,
    to_int64 (requireTotalSize +
      Z.quot (to_int64 (to_int32 (Firmware.ONE_HUNDRED - FirmwareComponent.progress component) *
                        FirmwareComponent.size component)) Firmware.ONE_HUNDRED))
    components requireTotalSize.
(** The result, and the total passed by reference. *)
(*@ data_processor/src/firmware_download_data_processor.cpp FirmwareDownloadDataProcessor::IsSpaceEnough *)
Definition IsSpaceEnough (requireTotalSize : Z) : ST (World R E) (bool * Z) :=
  let* (_, components) := on_db (FirmwareComponentOperator.QueryAll []) in
  let requireTotalSize := required_size components requireTotalSize in
  let* isDownloadSpaceEnough := asks (λ e, FirmwareFileUtils.IsSpaceEnough e requireTotalSize) in
  ret (isDownloadSpaceEnough, requireTotalSize).

(*@ data_processor/src/firmware_download_data_processor.cpp FirmwareDownloadDataProcessor::SetDownloadCallbackInfo *)
Definition SetDownloadCallbackInfo (this : t) (callbackInfo : FirmwareDownloadCallbackInfo.t) :
    ST (World R E) t :=
  let* this := GetTask this in
  let recordedProgress := Progress.percent (downloadProgress_ this) in
  let taskProgress := FirmwareDownloadCallbackInfo.taskProgress callbackInfo in
  let downloadProgress := {|
    Progress.percent := Z.max (Progress.percent taskProgress) recordedProgress;
    Progress.status := Progress.status taskProgress;
    Progress.endReason := Progress.endReason taskProgress |} in
  for_each (FirmwareDownloadCallbackInfo.progressList callbackInfo) (λ componentProgress,
    let progress := FirmwareDownloadProgress.progress componentProgress in
    on_db (FirmwareComponentOperator.UpdateProgressByVersionId
      (FirmwareDownloadProgress.versionId componentProgress)
      (Progress.status progress) (to_int32 (Progress.percent progress))) ;;;
    ret tt) ;;;
  on_db (FirmwareTaskOperator.UpdateProgressByTaskId (FirmwareTask.taskId (tasks_ this))
    (Progress.status downloadProgress) (to_int32 (Progress.percent downloadProgress))) ;;;
  FirmwareCallbackUtils.ProgressCallback (FirmwareTask.taskId (tasks_ this)) downloadProgress ;;;
  ret {| tasks_ := tasks_ this; downloadProgress_ := downloadProgress |}.

(*@ data_processor/src/firmware_download_data_processor.cpp FirmwareDownloadDataProcessor::SetDownloadEvent *)
Definition SetDownloadEvent (this : t) (downloadTaskId : string) (eventId : Z) : ST (World R E) t :=
  let* this := GetTask this in
  let taskId := FirmwareTask.taskId (tasks_ this) in
  if eventId =? EventId.EVENT_DOWNLOAD_START then
    on_db (FirmwareTaskOperator.UpdateDownloadTaskIdByTaskId taskId downloadTaskId) ;;;
    on_db (FirmwareTaskOperator.UpdateStatusByTaskId taskId UpgradeStatus.DOWNLOADING) ;;;
    FirmwareCallbackUtils.NotifyEvent taskId EventId.EVENT_DOWNLOAD_START UpgradeStatus.DOWNLOADING
      ErrorMessage.default [] 0 ;;;
    ret this
  else if eventId =? EventId.EVENT_DOWNLOAD_RESUME then
    on_db (FirmwareTaskOperator.UpdateStatusByTaskId taskId UpgradeStatus.DOWNLOADING) ;;;
    FirmwareCallbackUtils.NotifyEvent taskId EventId.EVENT_DOWNLOAD_RESUME UpgradeStatus.DOWNLOADING
      ErrorMessage.default [] (FirmwareTask.progress (tasks_ this)) ;;;
    ret this
  else ret this.

(*@ data_processor/src/firmware_download_data_processor.cpp FirmwareDownloadDataProcessor::GetDownloadProgress *)
Definition GetDownloadProgress (this : t) : Progress.t := downloadProgress_ this.
End ops.
End FirmwareDownloadDataProcessor.

(** ** FirmwareInstallDataProcessor *)
Module FirmwareInstallDataProcessor.
(*@ data_processor/include/firmware_install_data_processor.h FirmwareInstallDataProcessor *)
Record t := { tasks_ : FirmwareTask.t }.
Definition initial : t := {| tasks_ := FirmwareTask.default |}.

(*@ data_processor/src/firmware_install_data_processor.cpp SPACE_OFFSET *)
Definition SPACE_OFFSET : Z := 100 * 1024 * 1024.

(** IEEE single precision, round to nearest even: 24 bits, exponents to 128. *)
Definition float32_of_Z (z : Z) : spec_float := binary_normalize 24 128 z 0 false.
(** 0.2 in single precision is 13421773 / 2^26. *)
(*@ firmware/common/include/firmware_constant.h COMPRESSION_RATIO *)
Definition COMPRESSION_RATIO : spec_float := S754_finite false 13421773 (-26).
(** Conversion to [int64_t] drops the fraction; undefined, here 0, on values
    that do not fit. *)
Definition Z_of_float (x : spec_float) : Z :=
  match x with
  | S754_finite s m e =>
      let v := if 0 <=? e then Z.pos m * 2 ^ e else Z.pos m / 2 ^ (- e) in
      if s then - v else v
  | _ => 0
  end.
(** [requireTotalSize * COMPRESSION_RATIO + SPACE_OFFSET] *)
(*@ data_processor/src/firmware_install_data_processor.cpp:39-40 FirmwareInstallDataProcessor::IsSpaceEnough *)
Definition install_space (requireTotalSize : Z) : Z :=
  Z_of_float (SFadd 24 128 (SFmul 24 128 (float32_of_Z requireTotalSize) COMPRESSION_RATIO) (float32_of_Z SPACE_OFFSET)).

Section ops.
Context {R E : Type} `{Rdb R, Platform E, Subscribers E}.

(*@ data_processor/src/firmware_install_data_processor.cpp FirmwareInstallDataProcessor::IsSpaceEnough *)
Definition IsSpaceEnough (requireTotalSize : Z) : ST (World R E) (bool * Z) :=
  let* (_, components) := on_db (FirmwareComponentOperator.QueryAll []) in
  let requireTotalSize :=
    fold_left (λ n component, to_int64 (n + FirmwareComponent.size component)) components requireTotalSize in
  let* isSpaceEnough := asks (λ e, FirmwareFileUtils.IsSpaceEnough e (install_space requireTotalSize)) in
  ret (isSpaceEnough, requireTotalSize).

(** The three queries re-read the task and test its status. *)
Definition query_status (this : t) (status : Z) : ST (World R E) (bool * t) :=
  let* task := on_db (FirmwareTaskOperator.QueryTask (tasks_ this)) in
  let this := {| tasks_ := task |} in
  if negb (FirmwareTask.isExistTask task) then ret (false, this)
  else ret (FirmwareTask.status task =? status, this).
(*@ data_processor/src/firmware_install_data_processor.cpp FirmwareInstallDataProcessor::HasInstallSuccess *)
Definition HasInstallSuccess (this : t) : ST (World R E) (bool * t) := query_status this UpgradeStatus.INSTALL_SUCCESS.
(*@ data_processor/src/firmware_install_data_processor.cpp FirmwareInstallDataProcessor::HasInstallFail *)
Definition HasInstallFail (this : t) : ST (World R E) (bool * t) := query_status this UpgradeStatus.INSTALL_FAIL.
(*@ data_processor/src/firmware_install_data_processor.cpp FirmwareInstallDataProcessor::HasUpdateSuccess *)
Definition HasUpdateSuccess (this : t) : ST (World R E) (bool * t) := query_status this UpgradeStatus.UPDATE_SUCCESS.

(*@ data_processor/src/firmware_install_data_processor.cpp FirmwareInstallDataProcessor::GetTask *)
Definition GetTask (this : t) : ST (World R E) t :=
  if negb (FirmwareTask.isExistTask (tasks_ this)) then
    let* task := on_db (FirmwareTaskOperator.QueryTask (tasks_ this)) in ret {| tasks_ := task |}
  else ret this.

(*@ data_processor/src/firmware_install_data_processor.cpp FirmwareInstallDataProcessor::SetInstallResult *)
Definition SetInstallResult (this : t) (installCallbackInfo : InstallCallbackInfo.t) : ST (World R E) t :=
  let progress := InstallCallbackInfo.progress installCallbackInfo in
  let errorMessage := InstallCallbackInfo.errorMessage installCallbackInfo in
  let* this := GetTask this in
  let taskId := FirmwareTask.taskId (tasks_ this) in
  if (Progress.status progress =? UpgradeStatus.UPDATE_FAIL) || (Progress.status progress =? UpgradeStatus.INSTALL_FAIL)
  then
    FirmwareCallbackUtils.NotifyEvent taskId EventId.EVENT_UPGRADE_FAIL (Progress.status progress) errorMessage [] 0 ;;;
    ret this
  else
    (when Progress.status progress =? UpgradeStatus.INSTALL_PAUSE do
      FirmwareCallbackUtils.NotifyEvent taskId EventId.EVENT_UPGRADE_PAUSE UpgradeStatus.INSTALL_PAUSE errorMessage [] 0) ;;;
    FirmwareCallbackUtils.ProgressCallback taskId progress ;;;
    ret this.

(*@ data_processor/src/firmware_install_data_processor.cpp FirmwareInstallDataProcessor::IsUpgradeFileCheckSuccess *)
Definition IsUpgradeFileCheckSuccess : ST (World R E) bool :=
  let* (_, components) := on_db (FirmwareComponentOperator.QueryAll []) in
  asks (λ e, FirmwareUpdateHelper.IsUpgradePackagesReady e components).
End ops.
End FirmwareInstallDataProcessor.

(** ** What the methods do *)
Section correctness.
Context {R E : Type} `{RdbLaws R, Platform E, Subscribers E}.
Implicit Types (w : World R E) (ts : list FirmwareTask.t) (cs : list FirmwareComponent.t).
Import FirmwareDownloadDataProcessor.

(** Statuses are values of the 32-bit enumeration. *)
Definition wf_report (info : FirmwareDownloadCallbackInfo.t) : Prop :=
  is_int32 (Progress.status (FirmwareDownloadCallbackInfo.taskProgress info)) ∧
  Forall (λ c, is_int32 (Progress.status (FirmwareDownloadProgress.progress c)))
    (FirmwareDownloadCallbackInfo.progressList info).

(** The progress kept after a report: it never goes back. *)
Definition bump (recorded : Z) (info : FirmwareDownloadCallbackInfo.t) : Progress.t :=
  let p := FirmwareDownloadCallbackInfo.taskProgress info in
  {| Progress.percent := Z.max (Progress.percent p) recorded;
     Progress.status := Progress.status p; Progress.endReason := Progress.endReason p |}.
Definition components_reported (info : FirmwareDownloadCallbackInfo.t) cs : list FirmwareComponent.t :=
  fold_left (λ cs c, update_where (version_is (FirmwareDownloadProgress.versionId c))
    (Component.with_progress (Progress.status (FirmwareDownloadProgress.progress c))
       (to_int32 (Progress.percent (FirmwareDownloadProgress.progress c)))) cs)
    (FirmwareDownloadCallbackInfo.progressList info) cs.

Lemma wp_SetDownloadCallbackInfo this info w ts cs e o (Q : t → World R E → Prop) :
  at_state w ts cs e o → wf_report info →
  (let task := queried (tasks_ this) ts in
   let p := bump (Progress.percent (downloadProgress_ this)) info in
   ∀ w', at_state w'
     (update_where (task_is (FirmwareTask.taskId task))
        (Task.with_progress (Progress.status p) (to_int32 (Progress.percent p))) ts)
     (components_reported info cs) e
     (o ++ [reported e (BaseCallbackUtils.progress_event (FirmwareTask.taskId task) p)]) →
   Q {| tasks_ := task; downloadProgress_ := p |} w') →
  wp (SetDownloadCallbackInfo this info) w Q.
Proof.
  intros Hw [Hst Hcs] HQ. unfold SetDownloadCallbackInfo, GetTask. wp_steps.
  cbn [tasks_ downloadProgress_]. cbv zeta in HQ.
  eapply (wp_for_each (λ l w, at_state w ts
    (fold_left (λ cs c, update_where (version_is (FirmwareDownloadProgress.versionId c))
      (Component.with_progress (Progress.status (FirmwareDownloadProgress.progress c))
         (to_int32 (Progress.percent (FirmwareDownloadProgress.progress c)))) cs) l cs) e o)); [done| |].
  - intros l1 c l2 w1 Hl Hw1.
    assert (is_int32 (Progress.status (FirmwareDownloadProgress.progress c))) as Hc
      by (rewrite Forall_forall in Hcs; apply Hcs; rewrite Hl; set_solver).
    wp_steps. by rewrite fold_left_app.
  - intros w1 Hw1. wp_steps. by apply HQ.
Qed.

(** A sequence of reports, and the progress kept after each of them. *)
Fixpoint reports (this : t) (infos : list FirmwareDownloadCallbackInfo.t) : ST (World R E) t :=
  match infos with
  | [] => ret this
  | info :: rest => let* this' := SetDownloadCallbackInfo this info in reports this' rest
  end.
Fixpoint running (recorded : Z) (infos : list FirmwareDownloadCallbackInfo.t) : list Progress.t :=
  match infos with
  | [] => []
  | info :: rest => let p := bump recorded info in p :: running (Progress.percent p) rest
  end.

Lemma running_sorted n infos : Sorted Z.le (n :: map Progress.percent (running n infos)).
Proof.
  revert n. induction infos as [|info infos IH]; intros n; cbn [running map]; [by repeat constructor|].
  constructor; [apply IH|]. constructor. cbn. lia.
Qed.
Lemma running_covers n infos :
  Forall2 (λ info p, Progress.status p = Progress.status (FirmwareDownloadCallbackInfo.taskProgress info) ∧
                     Progress.percent (FirmwareDownloadCallbackInfo.taskProgress info) ≤ Progress.percent p)
    infos (running n infos).
Proof. revert n. induction infos as [|info infos IH]; intros n; constructor; [cbn; split; [done|lia]|apply IH]. Qed.

Lemma with_progress_twice st p st' p' (x : FirmwareTask.t) :
  Task.with_progress st p (Task.with_progress st' p' x) = Task.with_progress st p x.
Proof. done. Qed.

Lemma wp_reports infos this w t cs e o (Q : FirmwareDownloadDataProcessor.t → World R E → Prop) :
  at_state w [t] cs e o → Forall wf_report infos →
  (∀ this' w' cs',
    let ps := running (Progress.percent (downloadProgress_ this)) infos in
    downloadProgress_ this' = default (downloadProgress_ this) (last ps) →
    at_state w'
      [match last ps with
       | Some p => Task.with_progress (Progress.status p) (to_int32 (Progress.percent p)) t
       | None => t end] cs' e
      (o ++ map (λ p, reported e (BaseCallbackUtils.progress_event (FirmwareTask.taskId t) p)) ps) →
    Q this' w') →
  wp (reports this infos) w Q.
Proof.
  revert this w t cs o Q. induction infos as [|info infos IH]; intros this w t cs o Q Hw Hwf HQ; cbn [reports].
  - apply wp_ret. apply (HQ this w cs); [done|]. cbn. by rewrite app_nil_r.
  - inversion Hwf as [|?? Hi Hrest]; subst. wp_step.
    eapply wp_SetDownloadCallbackInfo; [exact Hw|exact Hi|]. intros task p w' Hw'. subst task. cbn [queried] in *.
    unfold update_where in Hw'. cbn [map] in Hw'.
    change (FirmwareTask.taskId (FirmwareTaskOperator.set_isExistTask true t)) with (FirmwareTask.taskId t) in *.
    unfold task_is in Hw'. rewrite String.eqb_refl in Hw'.
    cbv beta. eapply IH; [exact Hw'|done|]. intros this' w2 cs' Hp Hw2. cbn [downloadProgress_] in Hp, Hw2.
    set (ps := running (Progress.percent p) infos) in *.
    apply (HQ this' w2 cs').
    + rewrite Hp. cbn [running]. fold p. fold ps. rewrite last_cons. by destruct (last ps).
    + cbn [running map]. fold p. fold ps. rewrite <- app_assoc in Hw2. cbn [app] in Hw2.
      rewrite last_cons. destruct (last ps); exact Hw2.
Qed.

(** C14: the progress of a download never goes back: over any sequence of reports
    from the download service, the percentages sent to the application form a
    non-decreasing sequence that starts from the recorded one and dominates
    each report, the statuses are the reported ones, and the task in the
    database ends with the last of them. *)
Theorem download_progress_monotone this infos w t cs e o :
  at_state w [t] cs e o → Forall wf_report infos → infos ≠ [] →
  wp (reports this infos) w (λ this' w', ∃ ps cs',
    Sorted Z.le (Progress.percent (downloadProgress_ this) :: map Progress.percent ps) ∧
    Forall2 (λ info p, Progress.status p = Progress.status (FirmwareDownloadCallbackInfo.taskProgress info) ∧
                       Progress.percent (FirmwareDownloadCallbackInfo.taskProgress info) ≤ Progress.percent p)
      infos ps ∧
    last ps = Some (downloadProgress_ this') ∧
    at_state w'
      [Task.with_progress (Progress.status (downloadProgress_ this'))
         (to_int32 (Progress.percent (downloadProgress_ this'))) t] cs' e
      (o ++ map (λ p, reported e (BaseCallbackUtils.progress_event (FirmwareTask.taskId t) p)) ps)).
Proof.
  intros Hw Hwf Hne. eapply wp_reports; [done..|]. intros this' w' cs' ps Hp Hw'.
  exists ps, cs'. split; [apply running_sorted|]. split; [apply running_covers|].
  destruct (last ps) as [p|] eqn:El; [cbn in Hp; rewrite Hp; by split|].
  apply last_None in El. subst ps. by destruct infos.
Qed.

(** The bytes still to be downloaded, per component rounded down. *)
Definition remaining (c : FirmwareComponent.t) : Z :=
  (100 - FirmwareComponent.progress c) * FirmwareComponent.size c / 100.

(** The space check of a download does not overflow: with percentages in
    range and packages of up to 2^56 bytes in all, the space required is the sum
    of the bytes that remain, it is between 0 and the total size, and the check
    passes exactly when that many bytes are free. *)
Theorem download_space_correct w ts cs e o bsize bavail :
  at_state w ts cs e o →
  Forall (λ c, 0 ≤ FirmwareComponent.progress c ≤ 100 ∧ 0 ≤ FirmwareComponent.size c) cs →
  total_size cs < 2 ^ 56 →
  statfs e Constant.DUPDATE_ENGINE_PACKAGE_ROOT_PATH = Some (bsize, bavail) → is_uint64 (bsize * bavail) →
  wp (IsSpaceEnough 0) w (λ r w', at_state w' ts cs e o ∧
    let need := foldr (λ c n, remaining c + n) 0 cs in
    0 ≤ need ≤ total_size cs ∧ r = (bool_decide (need ≤ bsize * bavail), need)).
Proof.
  intros Hw Hcs Htot Hfs Hfree.
  assert (∀ l n, Forall (λ c, 0 ≤ FirmwareComponent.progress c ≤ 100 ∧ 0 ≤ FirmwareComponent.size c) l →
    0 ≤ n → n + total_size l < 2 ^ 56 →
    0 ≤ foldr (λ c n, remaining c + n) 0 l ≤ total_size l ∧
    required_size l n = n + foldr (λ c n, remaining c + n) 0 l) as Hreq.
  { clear. induction l as [|c l IH]; intros n Hl Hn Ht; [cbn; lia|].
    inversion Hl as [|?? [Hp Hs] Hl']; subst. change (total_size (c :: l)) with (FirmwareComponent.size c + total_size l) in *.
    assert (0 ≤ total_size l) as Htl.
    { clear -Hl'. induction Hl' as [|x l [_ Hx] _ IHl]; [done|].
      change (0 ≤ FirmwareComponent.size x + total_size l). lia. }
    assert (0 ≤ remaining c ≤ FirmwareComponent.size c) as Hr.
    { unfold remaining. split; [apply Z.div_pos; nia|]. apply Z.div_le_upper_bound; nia. }
    cbn [foldr]. destruct (IH (n + remaining c) Hl' ltac:(lia) ltac:(lia)) as [Hb Hreq]. split; [lia|].
    unfold required_size in *. cbn [fold_left]. change Firmware.ONE_HUNDRED with 100 in *.
    assert (is_int64 ((100 - FirmwareComponent.progress c) * FirmwareComponent.size c)) as Hprod
      by (unfold_widths; nia).
    rewrite (to_int32_id (_ - _)) by (unfold_widths; lia).
    rewrite (to_int64_id (_ * _)) by done.
    rewrite Z.quot_div_nonneg by nia. fold (remaining c).
    rewrite to_int64_id by (unfold_widths; lia). rewrite Hreq. lia. }
  destruct (Hreq cs 0 Hcs ltac:(lia) ltac:(lia)) as [Hb Hneed].
  unfold IsSpaceEnough. wp_steps. split; [done|]. cbv zeta. split; [done|].
  rewrite Hneed, Z.add_0_l. f_equal.
  unfold FirmwareFileUtils.IsSpaceEnough, FileUtils.IsSpaceEnough. rewrite Hfs.
  rewrite !to_uint64_id by (try done; unfold_widths; lia). unfold bool_decide.
  case_decide; [by apply Z.leb_le|by apply Z.leb_gt, Z.nle_gt].
Qed.

(** What a download event does: at its start the task takes the id of the
    download task and the status [DOWNLOADING] and the application is told with
    progress 0; on resumption only the status changes and the application is
    told the stored progress; any other event does nothing. *)
Theorem download_event_correct this id ev w t cs e o :
  at_state w [t] cs e o →
  wp (SetDownloadEvent this id ev) w (λ this' w',
    let notify p := notification (BaseCallbackUtils.notify_event (FirmwareTask.taskId t) ev
                                    UpgradeStatus.DOWNLOADING ErrorMessage.default [] p) in
    if decide (ev = EventId.EVENT_DOWNLOAD_START) then
      at_state w' [Task.with_status UpgradeStatus.DOWNLOADING (Task.with_downloadTaskId id t)] cs e (o ++ [notify 0])
    else if decide (ev = EventId.EVENT_DOWNLOAD_RESUME) then
      at_state w' [Task.with_status UpgradeStatus.DOWNLOADING t] cs e (o ++ [notify (FirmwareTask.progress t)])
    else at_state w' [t] cs e o).
Proof.
  intros Hw. unfold SetDownloadEvent, GetTask. wp_steps. cbn [queried tasks_].
  change (FirmwareTask.taskId (FirmwareTaskOperator.set_isExistTask true t)) with (FirmwareTask.taskId t).
  change (FirmwareTask.progress (FirmwareTaskOperator.set_isExistTask true t)) with (FirmwareTask.progress t).
  assert (∀ (x : FirmwareTask.t) upd, FirmwareTask.taskId x = FirmwareTask.taskId t →
    update_where (task_is (FirmwareTask.taskId t)) upd [x] = [upd x]) as Hupd.
  { intros x upd Hx. unfold update_where, task_is. cbn [map]. by rewrite Hx, String.eqb_refl. }
  destruct (Z.eqb_spec ev EventId.EVENT_DOWNLOAD_START) as [->|Hs].
  { wp_steps. rewrite decide_True by done. by rewrite !Hupd in *. }
  destruct (Z.eqb_spec ev EventId.EVENT_DOWNLOAD_RESUME) as [->|Hr]; wp_steps; rewrite decide_False by done.
  - rewrite decide_True by done. by rewrite !Hupd in *.
  - by rewrite decide_False.
Qed.

(** The events sent for an installation result. *)
Definition install_events (taskId : string) (info : InstallCallbackInfo.t) (e : E) : list Message :=
  let p := InstallCallbackInfo.progress info in
  let notify ev st := notification (BaseCallbackUtils.notify_event taskId ev st (InstallCallbackInfo.errorMessage info) [] 0) in
  if decide (Progress.status p ∈ [UpgradeStatus.UPDATE_FAIL; UpgradeStatus.INSTALL_FAIL])
  then [notify EventId.EVENT_UPGRADE_FAIL (Progress.status p)]
  else if decide (Progress.status p = UpgradeStatus.INSTALL_PAUSE)
  then [notify EventId.EVENT_UPGRADE_PAUSE UpgradeStatus.INSTALL_PAUSE;
        reported e (BaseCallbackUtils.progress_event taskId p)]
  else [reported e (BaseCallbackUtils.progress_event taskId p)].

Lemma wp_SetInstallResult (this : FirmwareInstallDataProcessor.t) info w ts cs e o
    (Q : FirmwareInstallDataProcessor.t → World R E → Prop) :
  at_state w ts cs e o →
  (let task := FirmwareInstallDataProcessor.tasks_ this in
   let task' := if FirmwareTask.isExistTask task then task else queried task ts in
   ∀ w', at_state w' ts cs e (o ++ install_events (FirmwareTask.taskId task') info e) →
     Q {| FirmwareInstallDataProcessor.tasks_ := task' |} w') →
  wp (FirmwareInstallDataProcessor.SetInstallResult this info) w Q.
Proof.
  intros Hw HQ. unfold FirmwareInstallDataProcessor.SetInstallResult. cbv zeta in HQ. cbv zeta.
  assert (∀ (this' : FirmwareInstallDataProcessor.t) w1, at_state w1 ts cs e o →
    (∀ w', at_state w' ts cs e
       (o ++ install_events (FirmwareTask.taskId (FirmwareInstallDataProcessor.tasks_ this')) info e) → Q this' w') →
    wp (let taskId := FirmwareTask.taskId (FirmwareInstallDataProcessor.tasks_ this') in
        let progress := InstallCallbackInfo.progress info in
        let errorMessage := InstallCallbackInfo.errorMessage info in
        if (Progress.status progress =? UpgradeStatus.UPDATE_FAIL) || (Progress.status progress =? UpgradeStatus.INSTALL_FAIL)
        then
          FirmwareCallbackUtils.NotifyEvent taskId EventId.EVENT_UPGRADE_FAIL (Progress.status progress) errorMessage [] 0 ;;;
          ret this'
        else
          (when Progress.status progress =? UpgradeStatus.INSTALL_PAUSE do
            FirmwareCallbackUtils.NotifyEvent taskId EventId.EVENT_UPGRADE_PAUSE UpgradeStatus.INSTALL_PAUSE errorMessage [] 0) ;;;
          FirmwareCallbackUtils.ProgressCallback taskId progress ;;;
          ret this') w1 Q) as Hrest.
  { clear w Hw HQ. intros this' w Hw HQ. cbv zeta. unfold install_events in HQ.
    destruct (Z.eqb_spec (Progress.status (InstallCallbackInfo.progress info)) UpgradeStatus.UPDATE_FAIL) as [E1|E1];
      destruct (Z.eqb_spec (Progress.status (InstallCallbackInfo.progress info)) UpgradeStatus.INSTALL_FAIL) as [E2|E2];
      cbn [orb]; try (rewrite decide_True in HQ by set_solver; wp_steps; by apply HQ).
    rewrite decide_False in HQ by set_solver.
    destruct (Z.eqb_spec (Progress.status (InstallCallbackInfo.progress info)) UpgradeStatus.INSTALL_PAUSE) as [E3|E3].
    - rewrite decide_True in HQ by done. wp_steps. apply HQ. by rewrite <- app_assoc in *.
    - rewrite decide_False in HQ by done. wp_steps. by apply HQ. }
  wp_step. unfold FirmwareInstallDataProcessor.GetTask.
  destruct (FirmwareTask.isExistTask (FirmwareInstallDataProcessor.tasks_ this)) eqn:Ex; cbn [negb].
  - wp_step. apply (Hrest this w Hw). by destruct this.
  - wp_steps. by eapply Hrest.
Qed.

(** What the application is told of an installation: a failure is one
    [EVENT_UPGRADE_FAIL] with the installer's error; any other status is the
    event the status maps to; a pause is told twice, both times as
    [EVENT_UPGRADE_PAUSE], once with the installer's error and once with the
    progress.  The database is not touched. *)
Theorem install_result_reported info w t cs e o :
  at_state w [t] cs e o → GetUpgradeCallback e BusinessSubType.FIRMWARE = false →
  let p := InstallCallbackInfo.progress info in
  let id := FirmwareTask.taskId t in
  let fails := [UpgradeStatus.UPDATE_FAIL; UpgradeStatus.INSTALL_FAIL] in
  wp (FirmwareInstallDataProcessor.SetInstallResult FirmwareInstallDataProcessor.initial info) w (λ _ w',
    ∃ events, at_state w' [t] cs e (o ++ map notification events) ∧
      map EventInfo.eventId events =
        (if decide (Progress.status p ∈ fails) then [EventId.EVENT_UPGRADE_FAIL]
         else if decide (Progress.status p = UpgradeStatus.INSTALL_PAUSE)
         then [EventId.EVENT_UPGRADE_PAUSE; EventId.EVENT_UPGRADE_PAUSE]
         else [default EventId.EVENT_TASK_BASE (BaseCallbackUtils.statusMap !! Progress.status p)]) ∧
      Forall (λ ev, VersionDigestInfo.versionDigest (TaskBody.versionDigestInfo (EventInfo.taskBody ev)) = id ∧
                    TaskBody.status (EventInfo.taskBody ev) = Progress.status p) events).
Proof.
  intros Hw Hcb. cbv zeta. eapply wp_SetInstallResult; [exact Hw|]. cbv zeta.
  change (FirmwareTask.isExistTask _) with false. cbn [queried].
  change (FirmwareTask.taskId (FirmwareTaskOperator.set_isExistTask true t)) with (FirmwareTask.taskId t).
  intros w' Hw'. unfold install_events, reported in Hw'. rewrite Hcb in Hw'.
  set (ev1 st ev := BaseCallbackUtils.notify_event (FirmwareTask.taskId t) ev st (InstallCallbackInfo.errorMessage info) [] 0) in *.
  set (ev2 := BaseCallbackUtils.progress_event (FirmwareTask.taskId t) (InstallCallbackInfo.progress info)) in *.
  case_decide as Hf; [|case_decide as Hp].
  - exists [ev1 (Progress.status (InstallCallbackInfo.progress info)) EventId.EVENT_UPGRADE_FAIL].
    split; [exact Hw'|]. split; [done|]. by repeat constructor.
  - exists [ev1 UpgradeStatus.INSTALL_PAUSE EventId.EVENT_UPGRADE_PAUSE; ev2].
    split; [exact Hw'|]. split; [subst ev2; cbn; by rewrite Hp|]. by repeat constructor.
  - exists [ev2]. split; [exact Hw'|]. split; [done|]. by repeat constructor.
Qed.
End correctness.

(** ** Witnesses *)
Definition sample_report (percent : Z) : FirmwareDownloadCallbackInfo.t := {|
  FirmwareDownloadCallbackInfo.downloadTaskId := "d";
  FirmwareDownloadCallbackInfo.taskProgress :=
    {| Progress.percent := percent; Progress.status := UpgradeStatus.DOWNLOADING; Progress.endReason := "" |};
  FirmwareDownloadCallbackInfo.progressList := [] |}.
Definition sample_processor : FirmwareDownloadDataProcessor.t := {|
  FirmwareDownloadDataProcessor.tasks_ := FirmwareTask.default;
  FirmwareDownloadDataProcessor.downloadProgress_ := Progress.default |}.
Lemma sample_task_at_state :
  at_state (SampleEnv.world [sample_task] []) [sample_task] [] SampleEnv.initial [].
Proof. apply sample_tasks_at_state. repeat constructor; apply sample_task_wf. Qed.

Lemma download_progress_monotone_witness :
  let this' := eval (reports sample_processor [sample_report 30; sample_report 20]) (SampleEnv.world [sample_task] []) in
  ∃ ps, Sorted Z.le (0 :: map Progress.percent ps) ∧
    last ps = Some (FirmwareDownloadDataProcessor.downloadProgress_ this').
Proof.
  intros this'.
  edestruct (download_progress_monotone sample_processor [sample_report 30; sample_report 20]) as (ps & _ & Hs & _ & Hl & _).
  - apply sample_task_at_state.
  - repeat constructor; by vm_compute.
  - done.
  - exists ps. split; [exact Hs|exact Hl].
Defined.

Lemma download_space_correct_witness :
  eval (FirmwareDownloadDataProcessor.IsSpaceEnough 0) (SampleEnv.world [sample_task] []) = (true, 0).
Proof.
  apply (download_space_correct (SampleEnv.world [sample_task] []) [sample_task] [] SampleEnv.initial [] 4096 1000000);
    [apply sample_task_at_state|constructor|done|done|by vm_compute].
Defined.

Lemma download_event_correct_witness :
  at_state (exec (FirmwareDownloadDataProcessor.SetDownloadEvent sample_processor "d" EventId.EVENT_TASK_CANCEL)
              (SampleEnv.world [sample_task] [])) [sample_task] [] SampleEnv.initial [].
Proof.
  exact (download_event_correct sample_processor "d" EventId.EVENT_TASK_CANCEL _ _ _ _ _ sample_task_at_state).
Defined.

Lemma sample_unsubscribed :
  at_state {| World.db := MemoryDb.db [sample_task] []; World.env := exec (SampleEnv.unsubscribe) SampleEnv.initial;
              World.outbox := [] |} [sample_task] [] (exec SampleEnv.unsubscribe SampleEnv.initial) [].
Proof. destruct sample_task_at_state as (? & ? & ? & _). done. Qed.
Lemma install_result_reported_witness :
  wp (FirmwareInstallDataProcessor.SetInstallResult FirmwareInstallDataProcessor.initial
       {| InstallCallbackInfo.progress := {| Progress.percent := 5; Progress.status := UpgradeStatus.INSTALL_PAUSE;
                                             Progress.endReason := "" |};
          InstallCallbackInfo.errorMessage := ErrorMessage.default |})
    {| World.db := MemoryDb.db [sample_task] []; World.env := exec (SampleEnv.unsubscribe) SampleEnv.initial;
       World.outbox := [] |}
    (λ _ w', ∃ events, at_state w' [sample_task] [] (exec SampleEnv.unsubscribe SampleEnv.initial) (map notification events) ∧
      map EventInfo.eventId events = [EventId.EVENT_UPGRADE_PAUSE; EventId.EVENT_UPGRADE_PAUSE]).
Proof.
  pose proof (install_result_reported
    {| InstallCallbackInfo.progress := {| Progress.percent := 5; Progress.status := UpgradeStatus.INSTALL_PAUSE;
                                             Progress.endReason := "" |};
       InstallCallbackInfo.errorMessage := ErrorMessage.default |} _ _ _ _ _ sample_unsubscribed eq_refl) as Hp.
  unfold wp in *. destruct Hp as (events & Hw & Hev & _). exists events. split; [exact Hw|]. rewrite Hev. vm_compute. reflexivity.
Defined.

(** The space an installation asks for is computed in single precision: for this
    package it is 8 bytes off a fifth of the size plus 100 MiB. *)
Example install_space_rounds :
  FirmwareInstallDataProcessor.install_space 5000000600 - (5000000600 / 5 + 100 * 1024 * 1024) = 8.
Proof. vm_compute. reflexivity. Qed.
