(* ===== verification/Installer.v ===== *)
(** * The installers

    Models [services/firmware/upgrade/install]: the template method
    [FirmwareInstall::StartInstall] and its three implementations, chosen by
    [InstallFactory]: the updater (reboot into the updater), the system
    installer (A/B update) and the stream installer (A/B update while
    downloading).

    The outer state [W] is that of the caller, which passes its callbacks; the
    kits of the platform are reached through the class [InstallKits].

    The system installer reports from threads of its own.  A report is first
    recorded in the fields of the installer, under its lock, which is what ends the
    wait; only then, outside the lock, is it passed on to the caller, and by then the
    wait may be over.  So what these threads do is a sequence of the two actions
    [Recorded] and [Passed], an answer of the environment: while the installer waits,
    [wait_install], and in its other calls, [other_install], up to the call that ends
    the installation.  What has been recorded and not passed on when the installer
    returns is its result, [pending_].  Two calls of the caller's functions are not
    interleaved.

    The callback of a stream refers to a variable of the attempt to install: it must
    not be called after the attempt.  Nothing in the code sees to that; the model has
    the reports up to the end of [StopStreamUpdate]. *)
From Stdlib Require Import ZArith Lia Ascii String SpecFloat.
From stdpp Require Import base tactics list strings sorting.
From S2P Require Import Prelude CppString Models FirmwareDb FirmwareStore FirmwareWorld FirmwareHelper.

#[local] Open Scope Z_scope.

Module DUpdateErrno.
(*@* services/service/include/dupdate_errno.h = *)
Definition OHOS_FAILURE : Z := -1.
Definition OHOS_SUCCESS : Z := 0.
Definition DUPDATE_ERR_UPDATE_COMMON_ERROR : Z := -400.
Definition DUPDATE_ERR_SYSTEM_BUSY_ON_INSTALL : Z := -407.
Definition DUPDATE_ERR_IPC_ERROR : Z := -410.
Definition DUPDATE_ERR_UPDATE_PRECHECK_FAIL : Z := -420.
Definition DUPDATE_ERR_UPDATE_REBOOT_FAIL : Z := -421.
Definition DUPDATE_ERR_DOWNLOAD_COMMON_ERROR : Z := -300.
Definition DUPDATE_ERR_DLOAD_REQUEST_FAIL : Z := -301.
Definition DUPDATE_ERR_DLOAD_NET_CHANGED : Z := 3148800.
Definition DUPDATE_ERR_NO_ENOUGH_MEMORY : Z := -304.
Definition DUPDATE_ERR_VERIFY_PACKAGE_FAIL : Z := -305.
Definition DUPDATE_ERR_SYSTEM_BUSY_ON_DOWNLOAD : Z := -307.
Definition DUPDATE_ERR_IO_EXCEPTION : Z := -312.
Definition DUPDATE_ERR_SYSTEM_BUSY_ON_CHECK : Z := -207.
Definition DUPDATE_ERR_INTERNAL_ERROR : Z := -100.
Definition DUPDATE_ERR_INPUT_PARA_ERROR : Z := -106.
Definition DUPDATE_ERR_LOW_BATTERY_LEVEL : Z := -830.
End DUpdateErrno.
Import DUpdateErrno.

Module InstallProgress.
(*@ upgrade/install/include/firmware_install.h InstallProgress *)
Record t := { progress : Progress.t; dealLen : Z; errMsg : ErrorMessage.t }.
End InstallProgress.

(** What the system installer reports: [OnUpgradeProgress] and [OnUpgradeDealLen]
    with their arguments; and what the download thread of a stream reports. *)
Inductive SysReport :=
  | OnUpgradeProgress (updateStatus percent : Z) (resultMsg : string)
  | OnUpgradeDealLen (updateStatus dealLen : Z) (resultMsg : string).
(** What a reporting thread does: the callback that was registered with the [k]-th
    component records a report; the [n]-th of the recorded reports is passed on. *)
Inductive SysAction :=
  | Recorded (k : nat) (r : SysReport)
  | Passed (n : nat).
Inductive StreamReport :=
  | Installed (r : SysReport)
  | Downloaded (progress : Progress.t).

(** The kits: [SysInstallerKitsImpl], [RebootAndInstallUpgradePackage], the
    stream thread, and what the reporting threads do during a wait and at other times. *)
Class InstallKits (W : Type) := {
  UPDATE_STATE_INIT : Z;
  UPDATE_STATE_ONGOING : Z;
  UPDATE_STATE_SUCCESSFUL : Z;
  SysInstallerInit : string → bool → ST W Z;
  GetUpdateStatus : string → ST W Z;
  SetUpdateCallback : string → ST W Z;
  InstallKits_StartUpdatePackageZip : string → string → ST W Z;
  GetUpdateResult : string → ST W unit;
  StopStreamUpdate : ST W unit;
  StartStreamUpdate : ST W Z;
  StartDownload : string → Z → Z → ST W Z;
  StopDownload : ST W unit;
  wait_install : ST W (list SysAction);
  other_install : ST W (list SysAction);
  wait_stream : ST W (list StreamReport);
  other_stream : ST W (list StreamReport);
  RebootAndInstallUpgradePackage : string → list string → ST W Z
}.
(** What the installers use of the rest of the service: the check of the packages,
    and the stored component of a url (a fresh one if there is none). *)
Class InstallStore (W : Type) := {
  packages_ready : list FirmwareComponent.t → ST W bool;
  query_by_url : string → ST W FirmwareComponent.t
}.

(** The callbacks of the caller.  [onFirmwareEvent] is called without a test. *)
Record FirmwareInstallCallback (W : Type) := {
  onFirmwareProgress : option (FirmwareComponent.t → ST W unit);
  onFirmwareEvent : bool → ErrorMessage.t → Z → ST W unit;
  onFirmwareStatus : option (Z → ST W unit)
}.
Arguments onFirmwareProgress {W} _.
Arguments onFirmwareEvent {W} _ _ _ _.
Arguments onFirmwareStatus {W} _.

(** The fields of an installer object, those of the subclasses included; and the
    callbacks the system installer has, with the component each was made for, and the
    components that recorded reports are still to be passed on with. *)
Module Fields.
(*@ upgrade/install/include/firmware_install.h FirmwareInstall *)
Record t := {
  errMsg_ : ErrorMessage.t;
  isInstalling_ : bool;
  sysInstallProgress_ : Progress.t;
  downloadProgress_ : Progress.t;
  resultReady_ : bool;
  registered_ : list FirmwareComponent.t;
  pending_ : list FirmwareComponent.t
}.
(*@ upgrade/install/include/firmware_install.h FirmwareInstall *)
Definition initial : t := {|
  errMsg_ := ErrorMessage.default; isInstalling_ := false; sysInstallProgress_ := Progress.default;
  downloadProgress_ := Progress.default; resultReady_ := false; registered_ := []; pending_ := [] |}.
Definition set_errMsg (x : ErrorMessage.t) (f : t) : t := {|
  errMsg_ := x; isInstalling_ := isInstalling_ f; sysInstallProgress_ := sysInstallProgress_ f;
  downloadProgress_ := downloadProgress_ f; resultReady_ := resultReady_ f; registered_ := registered_ f; pending_ := pending_ f |}.
Definition set_isInstalling (x : bool) (f : t) : t := {|
  errMsg_ := errMsg_ f; isInstalling_ := x; sysInstallProgress_ := sysInstallProgress_ f;
  downloadProgress_ := downloadProgress_ f; resultReady_ := resultReady_ f; registered_ := registered_ f; pending_ := pending_ f |}.
Definition set_sysInstallProgress (x : Progress.t) (f : t) : t := {|
  errMsg_ := errMsg_ f; isInstalling_ := isInstalling_ f; sysInstallProgress_ := x;
  downloadProgress_ := downloadProgress_ f; resultReady_ := resultReady_ f; registered_ := registered_ f; pending_ := pending_ f |}.
Definition set_downloadProgress (x : Progress.t) (f : t) : t := {|
  errMsg_ := errMsg_ f; isInstalling_ := isInstalling_ f; sysInstallProgress_ := sysInstallProgress_ f;
  downloadProgress_ := x; resultReady_ := resultReady_ f; registered_ := registered_ f; pending_ := pending_ f |}.
Definition set_resultReady (x : bool) (f : t) : t := {|
  errMsg_ := errMsg_ f; isInstalling_ := isInstalling_ f; sysInstallProgress_ := sysInstallProgress_ f;
  downloadProgress_ := downloadProgress_ f; resultReady_ := x; registered_ := registered_ f; pending_ := pending_ f |}.
Definition set_registered (x : list FirmwareComponent.t) (f : t) : t := {|
  errMsg_ := errMsg_ f; isInstalling_ := isInstalling_ f; sysInstallProgress_ := sysInstallProgress_ f;
  downloadProgress_ := downloadProgress_ f; resultReady_ := resultReady_ f; registered_ := x; pending_ := pending_ f |}.
Definition set_pending (x : list FirmwareComponent.t) (f : t) : t := {|
  errMsg_ := errMsg_ f; isInstalling_ := isInstalling_ f; sysInstallProgress_ := sysInstallProgress_ f;
  downloadProgress_ := downloadProgress_ f; resultReady_ := resultReady_ f; registered_ := registered_ f; pending_ := x |}.
End Fields.
Import Fields.

Section lifts.
Context {W : Type}.
(** The state while an installer runs: its fields and the caller's state. *)
Definition outer {A} (m : ST W A) : ST (Fields.t * W) A := λ s,
  let (a, w) := m s.2 in (a, (s.1, w)).
Definition field {A} (f : Fields.t → A) : ST (Fields.t * W) A := λ s, (f s.1, s).
Definition set_field (f : Fields.t → Fields.t) : ST (Fields.t * W) unit := λ s, (tt, (f s.1, s.2)).
Definition set_error (code : Z) (msg : string) : ST (Fields.t * W) unit :=
  set_field (set_errMsg {| ErrorMessage.errorCode := code; ErrorMessage.errorMessage := msg |}).
End lifts.

(** ** FirmwareInstall *)
Module FirmwareInstall.
Section ops.
Context {W : Type} (cb : FirmwareInstallCallback W)
  (IsComponentLegal : list FirmwareComponent.t → ST (Fields.t * W) bool)
  (PerformInstall : list FirmwareComponent.t → Z → ST (Fields.t * W) (bool * Z)).

(*@ install/src/firmware_install.cpp FirmwareInstall::CallbackFailedResult *)
Definition CallbackFailedResult (errorMsg : string) (errCode : Z) : ST (Fields.t * W) unit :=
  outer (onFirmwareEvent cb false
    {| ErrorMessage.errorCode := errCode; ErrorMessage.errorMessage := errorMsg |} UpgradeStatus.INSTALL_FAIL).
(*@ install/src/firmware_install.cpp FirmwareInstall::CallbackResult *)
Definition CallbackResult (result : bool) (status : Z) : ST (Fields.t * W) unit :=
  let* errMsg := field errMsg_ in outer (onFirmwareEvent cb result errMsg status).

(** [UpgradeStatus status;] has no initialiser: its value is [indeterminate]. *)
(*@ install/src/firmware_install.cpp FirmwareInstall::StartInstall *)
Definition StartInstall (indeterminate : Z) (componentList : list FirmwareComponent.t) : ST (Fields.t * W) unit :=
  let* busy := field isInstalling_ in
  if busy : bool then CallbackFailedResult "install is busying" DUPDATE_ERR_SYSTEM_BUSY_ON_INSTALL
  else
    let* legal := IsComponentLegal componentList in
    if negb legal then CallbackFailedResult "check component failed!" DUPDATE_ERR_UPDATE_PRECHECK_FAIL
    else
      set_field (set_isInstalling true) ;;;
      let* (result, status) := PerformInstall componentList indeterminate in
      set_field (set_isInstalling false) ;;;
      CallbackResult result status.
End ops.
End FirmwareInstall.

(** ** UpdaterInstall *)
Module UpdaterInstall.
(** [operator<] of the pairs [std::sort] compares, as a total preorder. *)
Definition pair_le (a b : Z * string) : Prop :=
  a.1 < b.1 ∨ (a.1 = b.1 ∧ String.leb a.2 b.2 = true).
#[global] Instance pair_le_dec : RelDecision pair_le.
Proof. intros a b. unfold pair_le. apply _. Defined.

Section ops.
Context {W : Type} `{InstallKits W, InstallStore W} (cb : FirmwareInstallCallback W).

(*@ install/src/firmware_updater_install.cpp UpdaterInstall::IsComponentLegal *)
Definition IsComponentLegal (componentList : list FirmwareComponent.t) : ST (Fields.t * W) bool :=
  outer (packages_ready componentList).

(*@ install/src/firmware_updater_install.cpp:49-57 UpdaterInstall::DoUpdaterInstall *)
Definition installFiles (componentList : list FirmwareComponent.t) : list string :=
  map snd (merge_sort pair_le
    (map (λ c, (FirmwareComponent.blVersionType c, FirmwareComponent.spath c)) componentList)).
(*@ install/src/firmware_updater_install.cpp UpdaterInstall::DoUpdaterInstall *)
Definition DoUpdaterInstall (componentList : list FirmwareComponent.t) : ST (Fields.t * W) Z :=
  let* r := outer (RebootAndInstallUpgradePackage "/misc" (installFiles componentList)) in
  if negb (r =? 0) then
    set_error DUPDATE_ERR_UPDATE_REBOOT_FAIL ("updater install is failed, ret = " +:+ to_string r) ;;;
    ret OHOS_FAILURE
  else ret OHOS_SUCCESS.

(*@ install/src/firmware_updater_install.cpp UpdaterInstall::PerformInstall *)
Definition PerformInstall (componentList : list FirmwareComponent.t) (status : Z) : ST (Fields.t * W) (bool * Z) :=
  match onFirmwareStatus cb with
  | Some f => outer (f UpgradeStatus.UPDATING)
  | None => ret tt
  end ;;;
  let* r := DoUpdaterInstall componentList in
  ret (r =? OHOS_SUCCESS, status).
End ops.
End UpdaterInstall.

(** ** SysInstallerCallback *)
Module SysInstallerCallback.
Section ops.
Context {W : Type} `{InstallKits W}.
(** The status and the error message a report stands for. *)
Definition install_status (updateStatus : Z) : Z :=
  if (updateStatus =? UPDATE_STATE_INIT) || (updateStatus =? UPDATE_STATE_ONGOING) then UpgradeStatus.INSTALLING
  else if updateStatus =? UPDATE_STATE_SUCCESSFUL then UpgradeStatus.INSTALL_SUCCESS
  else UpgradeStatus.INSTALL_FAIL.
Definition error_text (updateStatus : Z) (resultMsg : string) : string :=
  if install_status updateStatus =? UpgradeStatus.INSTALL_FAIL then resultMsg else "".

(*@ install/src/firmware_sys_installer_callback.cpp SysInstallerCallback::OnUpgradeProgress *)
Definition on_progress (updateStatus percent : Z) (resultMsg : string) : InstallProgress.t := {|
  InstallProgress.progress := {|
    Progress.percent := to_uint32 percent;
    Progress.status := install_status updateStatus;
    Progress.endReason := "" |};
  InstallProgress.dealLen := 0;
  InstallProgress.errMsg := {|
    ErrorMessage.errorCode := updateStatus;
    ErrorMessage.errorMessage := error_text updateStatus resultMsg |} |}.
(*@ install/src/firmware_sys_installer_callback.cpp SysInstallerCallback::OnUpgradeDealLen *)
Definition on_deal_len (updateStatus dealLen : Z) (resultMsg : string) : InstallProgress.t := {|
  InstallProgress.progress := {|
    Progress.percent := if install_status updateStatus =? UpgradeStatus.INSTALL_SUCCESS
                        then Firmware.ONE_HUNDRED else 0;
    Progress.status := install_status updateStatus;
    Progress.endReason := "" |};
  InstallProgress.dealLen := to_uint32 dealLen;
  InstallProgress.errMsg := {|
    ErrorMessage.errorCode := updateStatus;
    ErrorMessage.errorMessage := error_text updateStatus resultMsg |} |}.
(** The argument the executor callback receives. *)
Definition install_progress (r : SysReport) : InstallProgress.t :=
  match r with
  | OnUpgradeProgress st pct msg => on_progress st pct msg
  | OnUpgradeDealLen st n msg => on_deal_len st n msg
  end.
End ops.
End SysInstallerCallback.

(** [component.status = status; component.progress = progress; component.recordPoint = recordPoint] *)
Definition set_reported (status progress recordPoint : Z) (c : FirmwareComponent.t) : FirmwareComponent.t :=
  FirmwareStore.Component.with_recordPoint recordPoint (FirmwareStore.Component.with_progress status progress c).

(** ** SysInstallerInstall *)
Module SysInstallerInstall.
Section ops.
Context {W : Type} `{InstallKits W, InstallStore W} (cb : FirmwareInstallCallback W).

(*@ install/src/firmware_sys_installer_install.cpp SysInstallerInstall::IsComponentLegal *)
Definition IsComponentLegal (componentList : list FirmwareComponent.t) : ST (Fields.t * W) bool :=
  outer (packages_ready componentList).

(** The lambda the installer registers, for the component it was made with: the
    fields are set under the lock, which makes the report one to pass on, ... *)
(*@ install/src/firmware_sys_installer_install.cpp:83-88 SysInstallerInstall::SetupInstallCallback *)
Definition reported_fields (p : InstallProgress.t) : ST (Fields.t * W) unit :=
  set_field (set_sysInstallProgress (InstallProgress.progress p)) ;;;
  set_field (set_errMsg (InstallProgress.errMsg p)) ;;;
  set_field (set_resultReady true).
(*@ install/src/firmware_sys_installer_install.cpp:91-92 SysInstallerInstall::SetupInstallCallback *)
Definition shown (p : InstallProgress.t) (c : FirmwareComponent.t) : FirmwareComponent.t :=
  FirmwareStore.Component.with_progress (Progress.status (InstallProgress.progress p))
    (to_int32 (Progress.percent (InstallProgress.progress p))) c.
(*@ install/src/firmware_sys_installer_install.cpp:78-88 SysInstallerInstall::SetupInstallCallback *)
Definition recorded (k : nat) (r : SysReport) : ST (Fields.t * W) unit :=
  let* registered := field registered_ in
  match registered !! k with
  | None => ret tt
  | Some c =>
      let p := SysInstallerCallback.install_progress r in
      reported_fields p ;;; set_field (λ f, set_pending (pending_ f ++ [shown p c]) f)
  end.
(** ... and then the caller is told, if it wants to know. *)
(*@ install/src/firmware_sys_installer_install.cpp:95-99 SysInstallerInstall::SetupInstallCallback *)
Definition report (c : FirmwareComponent.t) : ST (Fields.t * W) unit :=
  match onFirmwareProgress cb with
  | None => ret tt
  | Some f => outer (f c)
  end.
(*@ install/src/firmware_sys_installer_install.cpp:90-99 SysInstallerInstall::SetupInstallCallback *)
Definition passed (n : nat) : ST (Fields.t * W) unit :=
  let* pending := field pending_ in
  match pending !! n with
  | None => ret tt
  | Some c => set_field (set_pending (delete n pending)) ;;; report c
  end.
(*@ install/src/firmware_sys_installer_install.cpp:77-100 SysInstallerInstall::SetupInstallCallback *)
Definition act (a : SysAction) : ST (Fields.t * W) unit :=
  match a with Recorded k r => recorded k r | Passed n => passed n end.
(** What the threads do while the installer does something else. *)
Definition others : ST (Fields.t * W) unit := let* actions := outer other_install in for_each actions act.
Definition during {A} (m : ST W A) : ST (Fields.t * W) A := let* a := outer m in others ;;; ret a.

(*@ install/src/firmware_sys_installer_install.cpp SysInstallerInstall::InitSysInstaller *)
Definition InitSysInstaller (c : FirmwareComponent.t) : ST (Fields.t * W) Z :=
  let* r := during (SysInstallerInit (FirmwareComponent.versionId c) false) in
  if negb (r =? OHOS_SUCCESS) then
    set_error DUPDATE_ERR_IPC_ERROR "sys installer init failed" ;;; ret OHOS_FAILURE
  else ret OHOS_SUCCESS.

(** [new] does not return null; a refused callback is not called. *)
(*@ install/src/firmware_sys_installer_install.cpp SysInstallerInstall::SetupInstallCallback *)
Definition SetupInstallCallback (c : FirmwareComponent.t) : ST (Fields.t * W) Z :=
  let* r := during (SetUpdateCallback (FirmwareComponent.versionId c)) in
  if negb (r =? OHOS_SUCCESS) then
    set_error r "set sys installer callback failed" ;;; ret OHOS_FAILURE
  else set_field (λ f, set_registered (registered_ f ++ [c]) f) ;;; ret OHOS_SUCCESS.

(*@ install/src/firmware_sys_installer_install.cpp SysInstallerInstall::StartUpdatePackageZip *)
Definition StartUpdatePackageZip (versionId path : string) : ST (Fields.t * W) Z :=
  let* r := during (InstallKits_StartUpdatePackageZip versionId path) in
  if negb (r =? OHOS_SUCCESS) then
    set_error r "sys installer StartUpdatePackageZip failed" ;;; ret OHOS_FAILURE
  else ret r.

(*@ install/src/firmware_sys_installer_install.cpp SysInstallerInstall::InitInstallProgress *)
Definition InitInstallProgress : ST (Fields.t * W) unit :=
  set_field (set_sysInstallProgress
    {| Progress.status := UpgradeStatus.INSTALLING; Progress.percent := 0; Progress.endReason := "" |}) ;;;
  set_field (set_errMsg ErrorMessage.default) ;;;
  set_field (set_resultReady false).

Definition install_success (p : Progress.t) : bool :=
  (Progress.status p =? UpgradeStatus.INSTALL_SUCCESS) && (Progress.percent p =? Firmware.ONE_HUNDRED).
(** The threads act during the wait; at its end the predicate tells an answer from
    a time-out. *)
(*@ install/src/firmware_sys_installer_install.cpp SysInstallerInstall::WaitInstallResult *)
Definition WaitInstallResult (c : FirmwareComponent.t) : ST (Fields.t * W) Z :=
  let* actions := outer wait_install in
  for_each actions act ;;;
  let* ready := field resultReady_ in
  let* p := field sysInstallProgress_ in
  if negb (ready && (install_success p || (Progress.status p =? UpgradeStatus.INSTALL_FAIL)))
  then ret OHOS_FAILURE
  else
    during (GetUpdateResult (FirmwareComponent.versionId c)) ;;;
    ret (if install_success p then OHOS_SUCCESS else OHOS_FAILURE).

(*@ install/src/firmware_sys_installer_install.cpp SysInstallerInstall::DoSysInstall *)
Definition DoSysInstall (c : FirmwareComponent.t) : ST (Fields.t * W) Z :=
  InitInstallProgress ;;;
  let* r := InitSysInstaller c in
  if negb (r =? OHOS_SUCCESS) then ret OHOS_FAILURE
  else
    let* updateStatus := during (GetUpdateStatus (FirmwareComponent.versionId c)) in
    if negb (updateStatus =? UPDATE_STATE_INIT) then
      set_error DUPDATE_ERR_SYSTEM_BUSY_ON_INSTALL "sys installer is busy" ;;; ret OHOS_FAILURE
    else
      let* r := SetupInstallCallback c in
      if negb (r =? OHOS_SUCCESS) then ret OHOS_FAILURE
      else
        let* r := StartUpdatePackageZip (FirmwareComponent.versionId c) (FirmwareComponent.spath c) in
        if negb (r =? OHOS_SUCCESS) then ret OHOS_FAILURE
        else WaitInstallResult c.

(** The loop over the components, with the number of successes (an unsigned
    counter that cannot overflow). *)
(*@ install/src/firmware_sys_installer_install.cpp:47-57 SysInstallerInstall::PerformInstall *)
Fixpoint PerformInstall_loop (componentList : list FirmwareComponent.t) (successCount : nat) : ST (Fields.t * W) nat :=
  match componentList with
  | [] => ret successCount
  | component :: rest =>
      match onFirmwareStatus cb with
      | None => PerformInstall_loop rest successCount
      | Some f =>
          during (f UpgradeStatus.INSTALLING) ;;;
          let* r := DoSysInstall component in
          others ;;;
          PerformInstall_loop rest (if r =? OHOS_SUCCESS then S successCount else successCount)
      end
  end.
(*@ install/src/firmware_sys_installer_install.cpp SysInstallerInstall::PerformInstall *)
Definition PerformInstall (componentList : list FirmwareComponent.t) (status : Z) : ST (Fields.t * W) (bool * Z) :=
  match componentList with
  | [] => ret (false, status)
  | _ =>
      let* successCount := PerformInstall_loop componentList 0 in
      ret ((successCount =? List.length componentList)%nat, status)
  end.
End ops.
End SysInstallerInstall.

(** ** StreamInstallerInstall *)
Module StreamInstallerInstall.
(*@ upgrade/install/include/firmware_stream_installer_install.h = *)
Definition MAX_RETRY_COUNT : nat := 3.

(** Double precision, and the percentage of a stream computed in it:
    [static_cast<double>(recordPoint) / size * 100], converted to [int]. *)
Definition float64_of_Z (z : Z) : spec_float := binary_normalize 53 1024 z 0 false.
(*@ install/src/firmware_stream_installer_install.cpp:144-144 StreamInstallerInstall::SetInstallerCallback *)
Definition stream_percent (recordPoint size : Z) : Z :=
  let q := SFdiv 53 1024 (float64_of_Z recordPoint) (float64_of_Z size) in
  match SFmul 53 1024 q (float64_of_Z Firmware.ONE_HUNDRED) with
  | S754_finite s m e =>
      let v := if 0 <=? e then Z.pos m * 2 ^ e else Z.pos m / 2 ^ (- e) in
      to_int32 (if s then - v else v)
  | _ => 0
  end.

Section ops.
Context {W : Type} `{InstallKits W, InstallStore W} (cb : FirmwareInstallCallback W).

(*@ install/src/firmware_stream_installer_install.cpp StreamInstallerInstall::IsComponentLegal *)
Definition IsComponentLegal (componentList : list FirmwareComponent.t) : ST (Fields.t * W) bool := ret true.

Definition set_sys_status (status : Z) (f : Fields.t) : Fields.t :=
  set_sysInstallProgress {| Progress.percent := Progress.percent (sysInstallProgress_ f); Progress.status := status;
                            Progress.endReason := Progress.endReason (sysInstallProgress_ f) |} f.
Definition set_download_status (status : Z) (f : Fields.t) : Fields.t :=
  set_downloadProgress {| Progress.percent := Progress.percent (downloadProgress_ f); Progress.status := status;
                          Progress.endReason := Progress.endReason (downloadProgress_ f) |} f.

(*@ install/src/firmware_stream_installer_install.cpp StreamInstallerInstall::InitSysInstaller *)
Definition InitSysInstaller (versionId : string) : ST (Fields.t * W) Z :=
  let* r := outer (SysInstallerInit versionId true) in
  if negb (r =? OHOS_SUCCESS) then
    set_error DUPDATE_ERR_IPC_ERROR "sys installer init failed" ;;; ret OHOS_FAILURE
  else
    let* updateStatus := outer (GetUpdateStatus versionId) in
    if negb (updateStatus =? UPDATE_STATE_INIT) then
      set_error r "sys installer is busy" ;;; ret OHOS_FAILURE
    else ret OHOS_SUCCESS.

(** The lambda of the installer's reports; it updates the component of
    [DoSysInstall], which it holds by reference. *)
(*@ install/src/firmware_stream_installer_install.cpp:140-160 StreamInstallerInstall::SetInstallerCallback *)
Definition on_installed (c : FirmwareComponent.t) (p : InstallProgress.t) : ST (Fields.t * W) FirmwareComponent.t :=
  let recordPoint := to_int64 (FirmwareComponent.recordPoint c + InstallProgress.dealLen p) in
  let percent := if 0 <? FirmwareComponent.size c then stream_percent recordPoint (FirmwareComponent.size c)
                 else FirmwareComponent.progress c in
  let c := set_reported (Progress.status (InstallProgress.progress p)) percent recordPoint c in
  match onFirmwareProgress cb with
  | None => ret c
  | Some f =>
      outer (f c) ;;;
      set_field (set_sysInstallProgress (InstallProgress.progress p)) ;;;
      (when Firmware.ONE_HUNDRED =? FirmwareComponent.progress c do
        set_field (set_sys_status UpgradeStatus.INSTALL_SUCCESS)) ;;;
      set_field (set_errMsg (InstallProgress.errMsg p)) ;;;
      ret c
  end.
(** The lambda of the download thread. *)
(*@ install/src/firmware_stream_installer_install.cpp:192-202 StreamInstallerInstall::StartInstallProcess *)
Definition on_downloaded (progress : Progress.t) : ST (Fields.t * W) unit :=
  set_field (set_downloadProgress progress) ;;;
  when Progress.status progress =? UpgradeStatus.DOWNLOAD_FAIL do set_error (-1) "download fail".
Fixpoint on_reports (c : FirmwareComponent.t) (reports : list StreamReport) : ST (Fields.t * W) FirmwareComponent.t :=
  match reports with
  | [] => ret c
  | Installed r :: rest => let* c := on_installed c (SysInstallerCallback.install_progress r) in on_reports c rest
  | Downloaded p :: rest => on_downloaded p ;;; on_reports c rest
  end.

(*@ install/src/firmware_stream_installer_install.cpp StreamInstallerInstall::SetInstallerCallback *)
Definition SetInstallerCallback (c : FirmwareComponent.t) : ST (Fields.t * W) Z :=
  let* r := outer (SetUpdateCallback (FirmwareComponent.versionId c)) in
  (when negb (r =? OHOS_SUCCESS) do set_error r "set sys installer callback failed") ;;;
  ret r.

(*@ install/src/firmware_stream_installer_install.cpp StreamInstallerInstall::StartInstallProcess *)
Definition StartInstallProcess (c : FirmwareComponent.t) : ST (Fields.t * W) Z :=
  let* r := outer StartStreamUpdate in
  if negb (r =? OHOS_SUCCESS) then
    set_error r "sys installer StartStreamUpdate failed" ;;; ret OHOS_FAILURE
  else
    let* r := outer (StartDownload (FirmwareComponent.url c) (FirmwareComponent.size c) (FirmwareComponent.recordPoint c)) in
    if negb (r =? OHOS_SUCCESS) then
      set_error r "StartDownload failed" ;;; ret OHOS_FAILURE
    else ret OHOS_SUCCESS.

(*@ install/src/firmware_stream_installer_install.cpp StreamInstallerInstall::WaitInstallResult *)
Definition WaitInstallResult (c : FirmwareComponent.t) : ST (Fields.t * W) Z :=
  let* reports := outer wait_stream in
  let* c := on_reports c reports in
  let* sys := field sysInstallProgress_ in
  let* down := field downloadProgress_ in
  let timely := (Progress.status sys =? UpgradeStatus.INSTALL_SUCCESS) || (Progress.status sys =? UpgradeStatus.INSTALL_FAIL) ||
    (Progress.status down =? UpgradeStatus.DOWNLOAD_FAIL) || (Progress.status down =? UpgradeStatus.DOWNLOAD_CANCEL) in
  let r := if negb timely then OHOS_FAILURE
           else if Progress.status sys =? UpgradeStatus.INSTALL_SUCCESS then OHOS_SUCCESS else OHOS_FAILURE in
  outer StopDownload ;;;
  outer StopStreamUpdate ;;;
  let* reports := outer other_stream in
  on_reports c reports ;;;
  ret r.

(*@ install/src/firmware_stream_installer_install.cpp StreamInstallerInstall::DoSysInstall *)
Definition DoSysInstall (c : FirmwareComponent.t) : ST (Fields.t * W) Z :=
  outer StopStreamUpdate ;;;
  set_field (set_download_status UpgradeStatus.INIT) ;;;
  set_field (set_sys_status UpgradeStatus.INIT) ;;;
  let* r := InitSysInstaller (FirmwareComponent.versionId c) in
  if negb (r =? OHOS_SUCCESS) then ret r
  else
    let* r := SetInstallerCallback c in
    if negb (r =? OHOS_SUCCESS) then ret r
    else
      let* r := StartInstallProcess c in
      if negb (r =? OHOS_SUCCESS) then ret r else WaitInstallResult c.

(** At most [retries] attempts, fewer after a cancelled download. *)
(*@ install/src/firmware_stream_installer_install.cpp StreamInstallerInstall::InstallComponentWithRetry *)
Fixpoint attempts (retries : nat) (component : FirmwareComponent.t) : ST (Fields.t * W) bool :=
  match retries with
  | O => ret false
  | S retries =>
      let* refreshComponent := outer (query_by_url (FirmwareComponent.url component)) in
      let* r := DoSysInstall refreshComponent in
      if r =? OHOS_SUCCESS then ret true
      else
        let* down := field downloadProgress_ in
        if Progress.status down =? UpgradeStatus.DOWNLOAD_CANCEL then ret false
        else attempts retries component
  end.
(*@ install/src/firmware_stream_installer_install.cpp StreamInstallerInstall::InstallComponentWithRetry *)
Definition InstallComponentWithRetry : FirmwareComponent.t → ST (Fields.t * W) bool := attempts MAX_RETRY_COUNT.

(*@ install/src/firmware_stream_installer_install.cpp:47-56 StreamInstallerInstall::PerformInstall *)
Fixpoint PerformInstall_loop (componentList : list FirmwareComponent.t) (successCount : nat) : ST (Fields.t * W) nat :=
  match componentList with
  | [] => ret successCount
  | component :: rest =>
      match onFirmwareStatus cb with
      | None => PerformInstall_loop rest successCount
      | Some f =>
          outer (f UpgradeStatus.INSTALLING) ;;;
          let* ok := InstallComponentWithRetry component in
          PerformInstall_loop rest (if ok : bool then S successCount else successCount)
      end
  end.
(*@ install/src/firmware_stream_installer_install.cpp StreamInstallerInstall::PerformInstall *)
Definition PerformInstall (componentList : list FirmwareComponent.t) (status : Z) : ST (Fields.t * W) (bool * Z) :=
  match componentList with
  | [] => ret (false, status)
  | _ =>
      let* successCount := PerformInstall_loop componentList 0 in
      let* sys := field sysInstallProgress_ in
      let* down := field downloadProgress_ in
      ret ((successCount =? List.length componentList)%nat,
           if negb (Progress.status sys =? UpgradeStatus.INSTALL_FAIL) then Progress.status down else status)
  end.
End ops.
End StreamInstallerInstall.

(** ** InstallFactory *)
Module InstallFactory.
Section ops.
Context {W : Type} `{InstallKits W, InstallStore W}.
(** [InstallFactory::GetInstance(type)->StartInstall(componentList, cb)]: every
    call works on a new object, which lives until the call has returned; the threads
    go on while the result is handled.  The result is what is still to be passed on. *)
(*@ install/src/firmware_install_factory.cpp InstallFactory::GetInstance *)
Definition install (type : InstallType) (indeterminate : Z) (componentList : list FirmwareComponent.t)
    (cb : FirmwareInstallCallback W) : ST W (list FirmwareComponent.t) := λ w,
  let run := match type with
    | SYS_INSTALLER =>
        FirmwareInstall.StartInstall cb SysInstallerInstall.IsComponentLegal (SysInstallerInstall.PerformInstall cb)
          indeterminate componentList ;;;
        SysInstallerInstall.others cb
    | STREAM_INSTALLLER =>
        FirmwareInstall.StartInstall cb StreamInstallerInstall.IsComponentLegal (StreamInstallerInstall.PerformInstall cb)
          indeterminate componentList
    | _ =>
        FirmwareInstall.StartInstall cb UpdaterInstall.IsComponentLegal (UpdaterInstall.PerformInstall cb)
          indeterminate componentList
    end in
  let s := exec run (Fields.initial, w) in (pending_ s.1, s.2).
End ops.
End InstallFactory.

(** ** What an installation does with its caller

    A property of the caller's state that the kits, the reports of progress and
    the announcements keep holds until the one call of [onFirmwareEvent] that
    ends the installation; after it only the system installer's reports go on. *)
(** A computation that keeps the property. *)
Definition keeps {W A : Type} (I : W → Prop) (m : ST (Fields.t * W) A) : Prop := stable (λ s, I s.2) m.

(** [P] holds of every component in play; the reports that are passed on keep [I]. *)
Class Reporting {W : Type} `{InstallKits W} (cb : FirmwareInstallCallback W)
    (P : FirmwareComponent.t → Prop) (I : W → Prop) : Prop := {
  reporting_shown c st p : P c → is_int32 st → is_int32 p → P (FirmwareStore.Component.with_progress st p c);
  reporting_others : keeps I (outer other_install);
  reporting_progress f c : onFirmwareProgress cb = Some f → P c → keeps I (outer (f c))
}.
(** So does everything before the result. *)
Class Steady {W : Type} `{InstallKits W, InstallStore W} (cb : FirmwareInstallCallback W)
    (P : FirmwareComponent.t → Prop) (I : W → Prop) : Prop := {
  steady_reporting :: Reporting cb P I;
  steady_reported c st p n :
    P c → is_int32 st → is_int32 p ∨ p = FirmwareComponent.progress c → is_int64 n → P (set_reported st p n c);
  steady_init v b : keeps I (outer (SysInstallerInit v b));
  steady_status v : keeps I (outer (GetUpdateStatus v));
  steady_callback v : keeps I (outer (SetUpdateCallback v));
  steady_package v p : keeps I (outer (InstallKits_StartUpdatePackageZip v p));
  steady_result v : keeps I (outer (GetUpdateResult v));
  steady_stop_stream : keeps I (outer StopStreamUpdate);
  steady_stream : keeps I (outer StartStreamUpdate);
  steady_download u n r : keeps I (outer (StartDownload u n r));
  steady_stop_download : keeps I (outer StopDownload);
  steady_wait_install : keeps I (outer wait_install);
  steady_wait_stream : keeps I (outer wait_stream);
  steady_other_stream : keeps I (outer other_stream);
  steady_reboot d fs : keeps I (outer (RebootAndInstallUpgradePackage d fs));
  steady_ready cs : keeps I (outer (packages_ready cs));
  steady_query u s : I s.2 → P (eval (outer (query_by_url u)) s) ∧ I (exec (outer (query_by_url u)) s).2;
  steady_started f st : onFirmwareStatus cb = Some f → keeps I (outer (f st))
}.
(** While an installer runs, [Q] holds of the callbacks it registered and of the
    reports to pass on besides. *)
Definition along {W : Type} (Q : list FirmwareComponent.t → list FirmwareComponent.t → Prop) (I : W → Prop)
    (s : Fields.t * W) : Prop := Q (registered_ s.1) (pending_ s.1) ∧ I s.2.
(** A field that has nothing to do with them. *)
Definition apart (f : Fields.t → Fields.t) : Prop := ∀ x, registered_ (f x) = registered_ x ∧ pending_ (f x) = pending_ x.
Create HintDb keeps.
#[export] Hint Extern 1 (apart _) => (by intros ?) : keeps.

Lemma keeps_outer {W A} (I : W → Prop) (m : ST W A) : (∀ w, I w → I (exec m w)) → keeps I (outer m).
Proof. intros Hm s Hs. specialize (Hm _ Hs). unfold wp, eval, exec, outer in *. by destruct (m _). Qed.

Section steady.
Context {W : Type} `{InstallKits W, InstallStore W} (cb : FirmwareInstallCallback W)
  (Q : list FirmwareComponent.t → list FirmwareComponent.t → Prop) (P : FirmwareComponent.t → Prop) (I : W → Prop).
#[local] Notation keepsQ := (stable (along Q I)).

Lemma along_outer {A} (m : ST W A) : keeps I (outer m) → keepsQ (outer m).
Proof. intros Hm s [Hq Hs]. specialize (Hm s Hs). unfold wp, eval, exec, outer, along in *. by destruct (m _). Qed.
Lemma along_field {A} (f : Fields.t → A) : keepsQ (field f).
Proof. by intros s Hs. Qed.
Lemma along_set_field f : apart f → keepsQ (set_field f).
Proof. intros Hf [x w] Hs. destruct (Hf x) as [Hr Hp]. unfold wp, along. cbn. by rewrite Hr, Hp. Qed.
Lemma along_set_error code msg : keepsQ (set_error code msg).
Proof. by apply along_set_field. Qed.
Lemma along_progress `{!Reporting cb P I} c :
  P c → keepsQ (match onFirmwareProgress cb with None => ret tt | Some f => outer (f c) end).
Proof. intros Hc. destruct (onFirmwareProgress cb) eqn:E; [by eapply along_outer, reporting_progress|apply stable_ret]. Qed.
End steady.
#[export] Hint Resolve stable_ret along_field along_set_field along_set_error stable_for_each along_outer reporting_others
  steady_init steady_status steady_callback steady_package steady_result steady_stop_stream steady_stream
  steady_download steady_stop_download steady_wait_install steady_wait_stream steady_other_stream steady_reboot steady_ready : keeps.

(** Split a computation into the calls it makes. *)
Ltac solve_keeps :=
  repeat first
    [ progress intros | solve [eauto 4 with keeps nocore]
    | apply stable_bind; [|intros ?] | apply stable_if ].

Lemma install_status_range `{InstallKits W} st : is_int32 (SysInstallerCallback.install_status st).
Proof. unfold SysInstallerCallback.install_status. repeat case_if; by apply is_int32_closed. Qed.
Lemma reported_status_range `{InstallKits W} r :
  is_int32 (Progress.status (InstallProgress.progress (SysInstallerCallback.install_progress r))).
Proof. destruct r; apply install_status_range. Qed.

(** *** The threads of the system installer *)
Definition all_in (P : FirmwareComponent.t → Prop) (registered pending : list FirmwareComponent.t) : Prop :=
  Forall P registered ∧ Forall P pending.
Section threads.
Context {W : Type} `{InstallKits W} (cb : FirmwareInstallCallback W)
  (P : FirmwareComponent.t → Prop) (I : W → Prop) `{!Reporting cb P I}.
#[local] Notation keepsP := (stable (along (all_in P) I)).
Import SysInstallerInstall.

Lemma wp_fields_get {A} (f : Fields.t → A) (s : Fields.t * W) (R : A → Fields.t * W → Prop) : R (f s.1) s → wp (field f) s R.
Proof. done. Qed.
Lemma wp_fields_set (f : Fields.t → Fields.t) (s : Fields.t * W) (R : unit → Fields.t * W → Prop) :
  R tt (f s.1, s.2) → wp (set_field f) s R.
Proof. done. Qed.
Lemma keeps_recorded k r : keepsP (recorded k r).
Proof.
  intros s [[Hr Hp] Hs]. unfold recorded, reported_fields. apply wp_bind, wp_fields_get.
  destruct (registered_ s.1 !! k) as [c|] eqn:Hk; [|by apply wp_ret].
  repeat (apply wp_bind || apply wp_fields_set); cbn. split; [|done]. split; [done|]. cbn. apply Forall_app. split; [done|].
  constructor; [|constructor]. rewrite Forall_lookup in Hr. specialize (Hr _ _ Hk).
  eapply reporting_shown; [done|apply reported_status_range|apply to_int32_range].
Qed.
Lemma keeps_passed n : keepsP (passed cb n).
Proof.
  intros s [[Hr Hp] Hs]. unfold passed. apply wp_bind, wp_fields_get.
  destruct (pending_ s.1 !! n) as [c|] eqn:Hn; [|by apply wp_ret]. apply wp_bind, wp_fields_set.
  apply (along_progress cb (all_in P) P I c).
  - rewrite Forall_lookup in Hp. by eapply Hp.
  - split; [|done]. split; [done|]. by apply Forall_delete.
Qed.
Lemma keeps_act a : keepsP (act cb a).
Proof. destruct a; [apply keeps_recorded|apply keeps_passed]. Qed.
Lemma keeps_others : keepsP (others cb).
Proof.
  unfold others. apply stable_bind; [by eapply along_outer, reporting_others|]. intros l. apply stable_for_each, keeps_act.
Qed.
Lemma keeps_during {A} (m : ST W A) : keeps I (outer m) → keepsP (during cb m).
Proof.
  intros Hm. apply stable_bind; [by apply along_outer|]. intros a. apply stable_bind; [apply keeps_others|intros; apply stable_ret].
Qed.
End threads.

Section one_event.
Context {W : Type} `{InstallKits W, InstallStore W} (cb : FirmwareInstallCallback W)
  (P : FirmwareComponent.t → Prop) (I : W → Prop) `{!Steady cb P I}.
(** Only the system installer has anything to pass on. *)
Definition none (registered pending : list FirmwareComponent.t) : Prop := pending = [].
#[local] Notation keepsN := (stable (along none I)).
#[local] Notation keepsP := (stable (along (all_in P) I)).

Lemma keeps_updater cs st : keepsN (UpdaterInstall.PerformInstall cb cs st).
Proof.
  unfold UpdaterInstall.PerformInstall, UpdaterInstall.DoUpdaterInstall.
  apply stable_bind; [|solve_keeps]. destruct (onFirmwareStatus cb) eqn:E; [|solve_keeps]. by eapply along_outer, steady_started.
Qed.

Lemma keeps_sys_component c : P c → keepsP (SysInstallerInstall.DoSysInstall cb c).
Proof.
  unfold SysInstallerInstall.DoSysInstall, SysInstallerInstall.InitInstallProgress, SysInstallerInstall.InitSysInstaller,
    SysInstallerInstall.SetupInstallCallback, SysInstallerInstall.StartUpdatePackageZip,
    SysInstallerInstall.WaitInstallResult. intros Hc.
  pose proof (keeps_act cb P I). pose proof (λ A, @keeps_during _ _ cb P I _ A).
  assert (keepsP (set_field (λ f, set_registered (registered_ f ++ [c]) f))) as Hreg.
  { intros s [[Hr Hp] Hs]. apply wp_fields_set. split; [|done]. split; [|done]. apply Forall_app. by repeat constructor. }
  solve_keeps.
Qed.
Lemma keeps_sys cs st : Forall P cs → keepsP (SysInstallerInstall.PerformInstall cb cs st).
Proof.
  intros Hcs. pose proof (keeps_others cb P I).
  assert (∀ n, keepsP (SysInstallerInstall.PerformInstall_loop cb cs n)) as Hl.
  { induction Hcs as [|c cs Hc Hcs IH]; intros n; cbn [SysInstallerInstall.PerformInstall_loop]; [solve_keeps|].
    destruct (onFirmwareStatus cb) eqn:E; [|apply IH]. apply stable_bind; [apply (keeps_during cb P I); by eapply steady_started|intros _].
    apply stable_bind; [by apply keeps_sys_component|intros r]. by apply stable_bind. }
  unfold SysInstallerInstall.PerformInstall. destruct cs; solve_keeps.
Qed.

Lemma set_sys_status_of r c p n : P c → is_int32 p ∨ p = FirmwareComponent.progress c → is_int64 n →
  P (set_reported (Progress.status (InstallProgress.progress (SysInstallerCallback.install_progress r))) p n c).
Proof. intros. apply (steady_reported (cb := cb) (I := I)); [done|apply reported_status_range|done..]. Qed.

(** The component of the reports stays in play. *)
Lemma keeps_stream_report c r s : P c → along none I s →
  let m := StreamInstallerInstall.on_installed cb c (SysInstallerCallback.install_progress r) in
  P (eval m s) ∧ along none I (exec m s).
Proof.
  intros Hc Hs. cbv zeta. unfold StreamInstallerInstall.on_installed. cbv zeta.
  set (rp := to_int64 _). set (c' := set_reported _ _ rp c).
  assert (P c') as Hc'.
  { apply set_sys_status_of; [done| |apply to_int64_range]. case_if; [left|by right].
    unfold StreamInstallerInstall.stream_percent. destruct (SFmul _ _ _ _); [by vm_compute..|apply to_int32_range]. }
  clearbody c'. destruct (onFirmwareProgress cb) as [f|] eqn:E; [|done]. split.
  - rewrite !eval_bind. done.
  - rewrite exec_bind. assert (keepsN (outer (f c'))) as Hf by by eapply along_outer, reporting_progress.
    match goal with |- along none I (exec ?m ?s') => assert (keepsN m) as Hk by solve_keeps; apply Hk, Hf, Hs end.
Qed.
(** It does through any sequence of reports. *)
Lemma keeps_stream_reports rs c s : P c → along none I s →
  wp (StreamInstallerInstall.on_reports cb c rs) s (λ c' s', P c' ∧ along none I s').
Proof.
  revert c s. induction rs as [|[r|p] rs IH]; intros c s Hc Hs; cbn [StreamInstallerInstall.on_reports]; [by apply wp_ret|..]; apply wp_bind.
  - destruct (keeps_stream_report c r s Hc Hs). by apply IH.
  - assert (keepsN (StreamInstallerInstall.on_downloaded p)) as Hd by (unfold StreamInstallerInstall.on_downloaded; solve_keeps).
    eapply wp_mono; [|by apply Hd]. intros ? s' Hs'. by apply IH.
Qed.
Lemma keeps_stream_wait c : P c → keepsN (StreamInstallerInstall.WaitInstallResult cb c).
Proof.
  intros Hc. unfold StreamInstallerInstall.WaitInstallResult. apply stable_bind; [solve_keeps|]. intros rs s Hs. apply wp_bind.
  eapply wp_mono; [|by apply keeps_stream_reports]. cbv beta. intros c1 s1 [Hc1 Hs1]. revert s1 Hs1.
  match goal with |- ∀ s1, along none I s1 → wp ?m s1 _ => change (keepsN m) end.
  assert (∀ rs, keepsN (StreamInstallerInstall.on_reports cb c1 rs)) as Hr.
  { intros rs' s2 Hs2. eapply wp_mono; [|by apply keeps_stream_reports]. by intros ? ? []. }
  solve_keeps.
Qed.
Lemma keeps_stream_component c : P c → keepsN (StreamInstallerInstall.DoSysInstall cb c).
Proof.
  unfold StreamInstallerInstall.DoSysInstall, StreamInstallerInstall.InitSysInstaller,
    StreamInstallerInstall.SetInstallerCallback, StreamInstallerInstall.StartInstallProcess.
  intros Hc. pose proof (keeps_stream_wait _ Hc). solve_keeps.
Qed.
Lemma keeps_stream cs st : keepsN (StreamInstallerInstall.PerformInstall cb cs st).
Proof.
  assert (∀ n c, keepsN (StreamInstallerInstall.attempts cb n c)) as Ha.
  { induction n as [|n IH]; intros c; cbn [StreamInstallerInstall.attempts]; [apply stable_ret|].
    intros s [Hq Hs]. apply wp_bind. destruct (steady_query (FirmwareComponent.url c) s Hs) as [Hc Hs'].
    pose proof (keeps_stream_component _ Hc). assert (∀ c, keepsN (StreamInstallerInstall.attempts cb n c)) by done.
    unfold wp at 1. match goal with |- wp ?m ?s' _ => assert (keepsN m) as Hk by solve_keeps; apply Hk end.
    split; [|done]. unfold exec, outer. by destruct (query_by_url _ _). }
  assert (∀ n, keepsN (StreamInstallerInstall.PerformInstall_loop cb cs n)) as Hl.
  { induction cs as [|c cs IH]; intros n; cbn [StreamInstallerInstall.PerformInstall_loop]; [solve_keeps|].
    destruct (onFirmwareStatus cb) eqn:E; [|apply IH]. apply stable_bind; [apply along_outer; by eapply steady_started|intros _].
    apply stable_bind; [apply Ha|intros r]. apply IH. }
  unfold StreamInstallerInstall.PerformInstall. destruct cs; solve_keeps.
Qed.

(** The template ends with one event. *)
Lemma StartInstall_event Q legal perform ind cs s :
  stable (along Q I) (legal cs) → (∀ st, stable (along Q I) (perform cs st)) → along Q I s →
  ∃ x w r e st, along Q I (x, w) ∧
    exec (FirmwareInstall.StartInstall cb legal perform ind cs) s = (x, exec (onFirmwareEvent cb r e st) w).
Proof.
  intros Hl Hp Hs. unfold FirmwareInstall.StartInstall, FirmwareInstall.CallbackFailedResult, FirmwareInstall.CallbackResult.
  assert (∀ r e st t, exec (outer (onFirmwareEvent cb r e st)) t = (t.1, exec (onFirmwareEvent cb r e st) t.2)) as Hev
    by (intros; unfold exec, outer; by destruct (onFirmwareEvent _ _ _ _ _)).
  assert (∀ r e st t, along Q I t → ∃ x w r' e' st', along Q I (x, w) ∧
    exec (outer (onFirmwareEvent cb r e st)) t = (x, exec (onFirmwareEvent cb r' e' st') w)) as Hend.
  { intros r e st [x w] Ht. rewrite Hev. by exists x, w, r, e, st. }
  rewrite exec_bind. destruct (eval (field isInstalling_) s); [by apply Hend|].
  rewrite exec_bind. change (exec (field isInstalling_) s) with s.
  pose proof (Hl s Hs) as Hs1. destruct (eval (legal cs) s); cbn [negb]; [|by apply Hend].
  assert (∀ b, stable (along Q I) (set_field (set_isInstalling b))) as Hset by (intros b; by apply along_set_field).
  rewrite exec_bind. set (s1 := exec (set_field (set_isInstalling true)) (exec (legal cs) s)).
  assert (along Q I s1) as Hs1' by by apply Hset.
  rewrite exec_bind. pose proof (Hp ind s1 Hs1') as Hs2. destruct (eval (perform cs ind) s1) as [r st].
  rewrite !exec_bind. apply Hend. by apply Hset.
Qed.

(** Before its result an installation keeps what its caller keeps; after it, only the
    reports of the system installer go on. *)
Lemma install_event type ind cs w :
  Forall P cs → I w → ∃ w' r e st, I w' ∧
    let w1 := exec (onFirmwareEvent cb r e st) w' in
    wp (InstallFactory.install type ind cs cb) w (λ pending w2,
      Forall P pending ∧ (type ≠ SYS_INSTALLER → pending = [] ∧ w2 = w1) ∧ ∀ J, Reporting cb P J → J w1 → J w2).
Proof.
  intros Hcs Hw. assert (along (all_in P) I (Fields.initial, w)) as Hi by by repeat split.
  assert (along none I (Fields.initial, w)) as Hi' by by split.
  assert (∀ legal perform, stable (along none I) (legal cs) → (∀ st, stable (along none I) (perform cs st)) →
    ∃ w' r e st, I w' ∧
      let s := exec (FirmwareInstall.StartInstall cb legal perform ind cs) (Fields.initial, w) in
      pending_ s.1 = [] ∧ s.2 = exec (onFirmwareEvent cb r e st) w') as Hother.
  { intros legal perform Hl Hp. destruct (StartInstall_event none legal perform ind cs _ Hl Hp Hi') as (x & w' & r & e & st & [Hq Hw'] & ->).
    by exists w', r, e, st. }
  destruct (decide (type = SYS_INSTALLER)) as [->|Hne].
  - destruct (StartInstall_event (all_in P) SysInstallerInstall.IsComponentLegal (SysInstallerInstall.PerformInstall cb) ind cs _
      ltac:(unfold SysInstallerInstall.IsComponentLegal; solve_keeps) (λ st, keeps_sys cs st Hcs) Hi) as (x & w' & r & e & st & [Hx Hw'] & Hex).
    exists w', r, e, st. split; [exact Hw'|]. cbv zeta.
    set (s2 := exec (SysInstallerInstall.others cb) (x, exec (onFirmwareEvent cb r e st) w')).
    assert (InstallFactory.install SYS_INSTALLER ind cs cb w = (pending_ s2.1, s2.2)) as Hin
      by (unfold InstallFactory.install; by rewrite exec_bind, Hex).
    assert (eval (InstallFactory.install SYS_INSTALLER ind cs cb) w = pending_ s2.1 ∧
      exec (InstallFactory.install SYS_INSTALLER ind cs cb) w = s2.2) as [Hp Hx2]
      by (split; [unfold eval|unfold exec at 1]; by rewrite Hin).
    unfold wp. rewrite Hp, Hx2.
    assert (∀ J, Reporting cb P J → J (exec (onFirmwareEvent cb r e st) w') →
      along (all_in P) J s2) as Hlate.
    { intros J HJ Hw1. by apply keeps_others. }
    split; [|split; [done|]].
    + assert (Reporting cb P (λ _, True)) as HT.
      { destruct Steady0 as [[Hsh _ _] _ _ _ _ _ _ _ _ _ _ _ _ _ _ _ _ _]. split; [exact Hsh|..]; intros; by apply keeps_outer. }
      by apply (Hlate (λ _, True)).
    + intros J HJ Hw1. by apply Hlate.
  - assert (∃ w' r e st, I w' ∧ eval (InstallFactory.install type ind cs cb) w = [] ∧
      exec (InstallFactory.install type ind cs cb) w = exec (onFirmwareEvent cb r e st) w') as (w' & r & e & st & Hw' & Hp & Hx).
    { unfold InstallFactory.install, eval, exec at 1. cbn [fst snd]. destruct type; try done; apply Hother.
      all: unfold UpdaterInstall.IsComponentLegal, StreamInstallerInstall.IsComponentLegal; try (solve [eauto 4 with keeps nocore]).
      all: auto using keeps_updater, keeps_stream. }
    exists w', r, e, st. split; [exact Hw'|]. unfold wp. rewrite Hp, Hx. split; [constructor|]. split; [done|]. by intros.
Qed.
End one_event.

(** ** One result per installation

    The callbacks of the caller are traced: every call is logged, next to the
    state of the kits. *)
Inductive Call :=
  | Started (status : Z)
  | Reported (c : FirmwareComponent.t)
  | Finished (result : bool) (errMsg : ErrorMessage.t) (status : Z).
Definition is_final (c : Call) : bool := match c with Finished _ _ _ => true | _ => false end.
Definition is_report (c : Call) : bool := match c with Reported _ => true | _ => false end.

(** Kits that act on a part of the state. *)
Section lift_kits.
Context {X W : Type} `{InstallKits X} (on : ∀ A, ST X A → ST W A).
Definition lift_kits : InstallKits W := {|
  UPDATE_STATE_INIT := UPDATE_STATE_INIT;
  UPDATE_STATE_ONGOING := UPDATE_STATE_ONGOING;
  UPDATE_STATE_SUCCESSFUL := UPDATE_STATE_SUCCESSFUL;
  SysInstallerInit v b := on _ (SysInstallerInit v b);
  GetUpdateStatus v := on _ (GetUpdateStatus v);
  SetUpdateCallback v := on _ (SetUpdateCallback v);
  InstallKits_StartUpdatePackageZip v p := on _ (InstallKits_StartUpdatePackageZip v p);
  GetUpdateResult v := on _ (GetUpdateResult v);
  StopStreamUpdate := on _ StopStreamUpdate;
  StartStreamUpdate := on _ StartStreamUpdate;
  StartDownload u n r := on _ (StartDownload u n r);
  StopDownload := on _ StopDownload;
  wait_install := on _ wait_install;
  other_install := on _ other_install;
  wait_stream := on _ wait_stream;
  other_stream := on _ other_stream;
  RebootAndInstallUpgradePackage d fs := on _ (RebootAndInstallUpgradePackage d fs)
|}.
End lift_kits.

Section one_result.
Context {X : Type} `{InstallKits X, InstallStore X}.

Definition on_rest A (m : ST X A) : ST (list Call * X) A := λ s, let (a, x) := m s.2 in (a, (s.1, x)).
Definition log (c : Call) : ST (list Call * X) unit := λ s, (tt, (s.1 ++ [c], s.2)).
#[local] Instance traced_kits : InstallKits (list Call * X) := lift_kits on_rest.
#[local] Instance traced_store : InstallStore (list Call * X) := {
  packages_ready cs := on_rest _ (packages_ready cs);
  query_by_url u := on_rest _ (query_by_url u)
}.
Definition tracer : FirmwareInstallCallback (list Call * X) := {|
  onFirmwareProgress := Some (λ c, log (Reported c));
  onFirmwareEvent b e st := log (Finished b e st);
  onFirmwareStatus := Some (λ st, log (Started st)) |}.

Definition no_result (w : list Call * X) : Prop := Forall (λ c, is_final c = false) w.1.
(** After the calls [l], only reports of progress. *)
Definition then_reports (l : list Call) (w : list Call * X) : Prop :=
  ∃ late, w.1 = l ++ late ∧ Forall (λ c, is_report c = true) late.
Lemma traced_rest {A} (m : ST X A) (I : list Call → Prop) : keeps (λ w, I w.1) (outer (on_rest _ m)).
Proof. apply keeps_outer. intros w. unfold exec, on_rest. by destruct (m _). Qed.
#[local] Instance reports_follow l : Reporting tracer (λ _, True) (then_reports l).
Proof.
  split; [done|apply (traced_rest _ (λ c, ∃ late, c = l ++ late ∧ Forall (λ c, is_report c = true) late))|].
  intros f c [= <-] _ s (late & Hl & Hlate). exists (late ++ [Reported c]). cbn. rewrite Hl, <- app_assoc. split; [done|].
  apply Forall_app. by repeat constructor.
Qed.
#[local] Instance tracer_steady : Steady tracer (λ _, True) no_result.
Proof.
  assert (∀ A (m : ST X A), keeps no_result (outer (on_rest _ m))) as Hon
    by (intros A m; apply (traced_rest m (Forall (λ c, is_final c = false)))).
  assert (∀ c, is_final c = false → keeps no_result (outer (log c))) as Hlog.
  { intros c Hc w Hw. unfold no_result in *. cbn. apply Forall_app. by repeat constructor. }
  split; intros; try done; try apply Hon; try (split; [done|by apply Hon]).
  - split; [done|apply Hon|]. intros f c [= <-] _. by apply Hlog.
  - match goal with Hf : _ = Some _ |- _ => injection Hf as <- end. by apply Hlog.
Qed.

(** C16: every installation, by whichever installer, tells its caller exactly one
    result.  Before it come its starts and reports; after it comes nothing, except
    with the system installer, whose threads may pass on reports late. *)
Theorem install_one_result type ind cs (x : X) :
  ∃ pre r e st late,
    (exec (InstallFactory.install type ind cs tracer) ([], x)).1 = pre ++ [Finished r e st] ++ late ∧
    Forall (λ c, is_final c = false) pre ∧ Forall (λ c, is_report c = true) late ∧
    (type ≠ SYS_INSTALLER → late = []).
Proof.
  destruct (install_event tracer (λ _, True) no_result type ind cs ([], x)) as (w & r & e & st & Hw & _ & Hne & Hlate);
    [by apply Forall_true|constructor|].
  exists w.1, r, e, st. destruct (decide (type = SYS_INSTALLER)) as [->|Ht].
  - destruct (Hlate (then_reports (w.1 ++ [Finished r e st])) _) as (late & Hl & Hf); [exists []; by rewrite app_nil_r|].
    exists late. by rewrite Hl, <- app_assoc.
  - destruct (Hne Ht) as [_ ->]. by exists [].
Qed.
End one_result.

(** ** The system installer's verdict *)
Section verdicts.
Context {W : Type} `{InstallKits W, InstallStore W} (cb : FirmwareInstallCallback W).
Implicit Types (s : Fields.t * W).
Import SysInstallerInstall.

(** The callbacks the system installer has, and what it recorded last. *)
Definition recorded_of (registered : list FirmwareComponent.t) (a : SysAction) : option SysReport :=
  match a with Recorded k r => if registered !! k then Some r else None | Passed _ => None end.
Definition last_recorded (f : Fields.t) (r : option SysReport) (f' : Fields.t) : Prop :=
  registered_ f' = registered_ f ∧
  match r with
  | None => sysInstallProgress_ f' = sysInstallProgress_ f ∧ resultReady_ f' = resultReady_ f
  | Some r => sysInstallProgress_ f' = InstallProgress.progress (SysInstallerCallback.install_progress r) ∧ resultReady_ f' = true
  end.
Lemma act_fields a s : last_recorded s.1 (recorded_of (registered_ s.1) a) (exec (act cb a) s).1.
Proof.
  destruct a as [k r|n]; cbn [act recorded_of].
  - unfold recorded. rewrite exec_bind. change (eval (field registered_) s) with (registered_ s.1).
    by destruct (registered_ s.1 !! k).
  - unfold passed. rewrite exec_bind. change (eval (field pending_) s) with (pending_ s.1).
    destruct (pending_ s.1 !! n) as [c|]; [|done]. rewrite exec_bind. unfold report.
    destruct (onFirmwareProgress cb) as [f|]; [|done]. unfold exec at 1, outer.
    match goal with |- context [f c ?w] => by destruct (f c w) end.
Qed.
(** After what the threads did the fields are those of the last report recorded. *)
Lemma acts_fields l s :
  last_recorded s.1 (last (omap (recorded_of (registered_ s.1)) l)) (exec (for_each l (act cb)) s).1.
Proof.
  revert s. induction l as [|a l IH]; intros s; [done|].
  rewrite exec_for_each_cons. pose proof (act_fields a s) as [Hr Ha]. specialize (IH (exec (act cb a) s)). rewrite Hr in IH.
  destruct IH as [Hr' IH]. split; [congruence|]. cbn [omap list_omap].
  destruct (recorded_of (registered_ s.1) a) as [r|]; [rewrite last_cons|]; destruct (last _); try done; destruct Ha, IH; split; congruence.
Qed.

(** Does a report say that the installation is complete. *)
Definition says_success (r : SysReport) : bool :=
  match r with
  | OnUpgradeProgress st pct _ => (st =? UPDATE_STATE_SUCCESSFUL) && (to_uint32 pct =? 100)
  | OnUpgradeDealLen st _ _ => st =? UPDATE_STATE_SUCCESSFUL
  end.
Lemma says_success_spec r :
  UPDATE_STATE_SUCCESSFUL ≠ UPDATE_STATE_INIT → UPDATE_STATE_SUCCESSFUL ≠ UPDATE_STATE_ONGOING →
  install_success (InstallProgress.progress (SysInstallerCallback.install_progress r)) = says_success r.
Proof.
  intros H1 H2. unfold install_success.
  destruct r as [st pct msg|st n msg]; cbn; unfold SysInstallerCallback.install_status;
    destruct (Z.eqb_spec st UPDATE_STATE_INIT), (Z.eqb_spec st UPDATE_STATE_ONGOING),
      (Z.eqb_spec st UPDATE_STATE_SUCCESSFUL); subst; try done.
Qed.

(** The wait for the system installer ends with success exactly when the last
    report recorded before its end says that the update is complete, at 100 percent; a
    wait without such a report, timed out or not, is a failure. *)
Theorem sys_install_verdict c s :
  UPDATE_STATE_SUCCESSFUL ≠ UPDATE_STATE_INIT → UPDATE_STATE_SUCCESSFUL ≠ UPDATE_STATE_ONGOING →
  resultReady_ s.1 = false →
  eval (WaitInstallResult cb c) s =
    match last (omap (recorded_of (registered_ s.1)) (eval wait_install s.2)) with
    | Some r => if says_success r then OHOS_SUCCESS else OHOS_FAILURE
    | None => OHOS_FAILURE
    end.
Proof.
  intros H1 H2 Hready. unfold WaitInstallResult. rewrite eval_bind.
  assert (eval (outer wait_install) s = eval wait_install s.2 ∧ (exec (outer wait_install) s).1 = s.1) as [-> Hf]
    by (unfold eval, exec, outer; by destruct (wait_install s.2)).
  set (l := eval wait_install s.2). set (s1 := exec (outer wait_install) s) in *.
  rewrite eval_bind. pose proof (acts_fields l s1) as [_ Hr]. rewrite Hf in Hr.
  set (s2 := exec (for_each l (act cb)) s1) in *.
  rewrite !eval_bind. change (exec (field _) s2) with s2. change (eval (field ?g) s2) with (g s2.1).
  destruct (last _) as [r|]; destruct Hr as [Hp ->].
  - rewrite Hp, (says_success_spec r) by done. cbn [andb].
    destruct (says_success r); cbn [orb negb].
    + rewrite eval_bind. done.
    + destruct (_ =? _); cbn [negb]; [rewrite eval_bind|]; done.
  - by rewrite Hready.
Qed.
End verdicts.

(** ** The order of the updater *)
Lemma pair_le_total : Total UpdaterInstall.pair_le.
Proof.
  intros [a s] [b t]. unfold UpdaterInstall.pair_le. cbn.
  destruct (Z.lt_trichotomy a b) as [?|[->|?]]; [by left; left| |by right; left].
  destruct (String.leb_total s t); [left|right]; by right.
Qed.

(** The updater is handed every package exactly once, ordered by the type of
    the version and then by path. *)
Theorem updater_install_order cs :
  ∃ l, l ≡ₚ map (λ c, (FirmwareComponent.blVersionType c, FirmwareComponent.spath c)) cs ∧
       Sorted UpdaterInstall.pair_le l ∧ UpdaterInstall.installFiles cs = map snd l.
Proof.
  exists (merge_sort UpdaterInstall.pair_le (map (λ c, (FirmwareComponent.blVersionType c, FirmwareComponent.spath c)) cs)).
  split; [apply merge_sort_Permutation|]. split; [|done].
  pose proof pair_le_total. apply Sorted_merge_sort, _.
Qed.

(** ** A sample installation *)
Module SampleKits.
(** The kits answer every call with success; the state is what the threads of the
    system installer do during the wait, and in the other calls, one after the other. *)
#[local] Instance kits : InstallKits (list SysAction * list (list SysAction)) := {
  UPDATE_STATE_INIT := 0;
  UPDATE_STATE_ONGOING := 1;
  UPDATE_STATE_SUCCESSFUL := 2;
  SysInstallerInit _ _ := ret 0;
  GetUpdateStatus _ := ret 0;
  SetUpdateCallback _ := ret 0;
  InstallKits_StartUpdatePackageZip _ _ := ret 0;
  GetUpdateResult _ := ret tt;
  StopStreamUpdate := ret tt;
  StartStreamUpdate := ret 0;
  StartDownload _ _ _ := ret 0;
  StopDownload := ret tt;
  wait_install s := (s.1, ([], s.2));
  other_install s := match s.2 with [] => ([], s) | l :: rest => (l, (s.1, rest)) end;
  wait_stream := ret [];
  other_stream := ret [];
  RebootAndInstallUpgradePackage _ _ := ret 0
}.
#[local] Instance store : InstallStore (list SysAction * list (list SysAction)) := {
  packages_ready _ := ret true;
  query_by_url _ := ret (FirmwareComponent.default false)
}.
Definition callbacks : FirmwareInstallCallback (list SysAction * list (list SysAction)) := {|
  onFirmwareProgress := Some (λ _, ret tt); onFirmwareEvent _ _ _ := ret tt; onFirmwareStatus := None |}.
Definition actions : list SysAction :=
  [Recorded 0 (OnUpgradeProgress 1 40 ""); Passed 0; Recorded 0 (OnUpgradeProgress 2 100 ""); Passed 0].
(** The wait ends before the last report is passed on; that happens in the eighth of the
    other calls. *)
Definition late_actions : list SysAction * list (list SysAction) := (take 3 actions, replicate 7 [] ++ [drop 3 actions]).
Definition waiting : Fields.t := set_registered [FirmwareComponent.default false] Fields.initial.

Lemma sys_install_verdict_witness :
  eval (SysInstallerInstall.WaitInstallResult callbacks (FirmwareComponent.default false)) (waiting, (actions, [])) = OHOS_SUCCESS.
Proof.
  rewrite (sys_install_verdict callbacks (FirmwareComponent.default false) (waiting, (actions, [])));
    [by vm_compute|by vm_compute..].
Defined.
(** The last report follows the result. *)
Example report_after_result :
  map (λ c, (is_report c, is_final c))
    (exec (InstallFactory.install (H := traced_kits) (H0 := traced_store) SYS_INSTALLER 0 [FirmwareComponent.default false] tracer)
       ([], late_actions)).1 =
  [(false, false); (true, false); (false, true); (true, false)].
Proof. by vm_compute. Qed.
End SampleKits.
