(* ===== verification/Executor.v ===== *)
(** * The executors

    Models [services/firmware/upgrade/executor]: the objects that carry out one
    step of an upgrade on a thread of their own and report to the callbacks they
    were given.  [FirmwareInstallExecutor] runs an installer and records its
    progress in the database; [FirmwareDownloadExecutor] drives the download
    service and translates its progress; [FirmwareApplyExecutor] reboots.

    The state while an executor runs has three parts: the fields of the
    executor, the state [C] of the owner of the callbacks, and the world.
    [Execute] hands the work to a thread pool: the model starts with the work.  What the
    system installer has still to report when an installation returns is its result. *)
From Stdlib Require Import ZArith Lia Ascii String.
From stdpp Require Import base tactics list strings gmap.
From S2P Require Import Prelude CppString Models Database FirmwareDb FirmwareStore FirmwareWorld FirmwareHelper ProgressProcessor Installer.
Import FirmwareWorld.World (on_db, on_env, asks, send).

#[local] Open Scope Z_scope.

(** ** FirmwareInstallExecutor *)
Module FirmwareInstallExecutor.
(*@ upgrade/executor/include/firmware_install_executor.h FirmwareInstallExecutor *)
Record t := {
  installCallbackInfo_ : InstallCallbackInfo.t;
  components_ : list FirmwareComponent.t;
  tasks_ : FirmwareTask.t;
  taskProgress_ : Progress.t
}.
(*@ upgrade/executor/include/firmware_install_executor.h FirmwareInstallExecutor *)
Definition new : t := {|
  installCallbackInfo_ := InstallCallbackInfo.default; components_ := [];
  tasks_ := FirmwareTask.default; taskProgress_ := Progress.default |}.
Definition set_components (x : list FirmwareComponent.t) (this : t) : t := {|
  installCallbackInfo_ := installCallbackInfo_ this; components_ := x;
  tasks_ := tasks_ this; taskProgress_ := taskProgress_ this |}.
Definition set_tasks (x : FirmwareTask.t) (this : t) : t := {|
  installCallbackInfo_ := installCallbackInfo_ this; components_ := components_ this;
  tasks_ := x; taskProgress_ := taskProgress_ this |}.
Definition set_taskProgress (status percent : Z) (this : t) : t := {|
  installCallbackInfo_ := installCallbackInfo_ this; components_ := components_ this; tasks_ := tasks_ this;
  taskProgress_ := {| Progress.percent := percent; Progress.status := status;
                      Progress.endReason := Progress.endReason (taskProgress_ this) |} |}.
Definition set_info_progress (x : Progress.t) (this : t) : t := {|
  installCallbackInfo_ := {| InstallCallbackInfo.progress := x;
                             InstallCallbackInfo.errorMessage := InstallCallbackInfo.errorMessage (installCallbackInfo_ this) |};
  components_ := components_ this; tasks_ := tasks_ this; taskProgress_ := taskProgress_ this |}.
Definition set_info_error (x : ErrorMessage.t) (this : t) : t := {|
  installCallbackInfo_ := {| InstallCallbackInfo.progress := InstallCallbackInfo.progress (installCallbackInfo_ this);
                             InstallCallbackInfo.errorMessage := x |};
  components_ := components_ this; tasks_ := tasks_ this; taskProgress_ := taskProgress_ this |}.

Section ops.
Context {R E C : Type} `{Rdb R, Platform E, Subscribers E, InstallKits E}
  (installType_ : InstallType) (installCallback_ : option (InstallCallbackInfo.t → ST (C * World R E) unit)).
#[local] Notation Exec := (ST (t * (C * World R E))).

(** The installers act on the environment and read the database. *)
#[global] Instance kits : InstallKits (t * (C * World R E)) := lift_kits (λ _ m, on_world (on_env m)).
#[global] Instance store : InstallStore (t * (C * World R E)) := {
  packages_ready cs := on_world (asks (λ e, FirmwareUpdateHelper.IsUpgradePackagesReady e cs));
  query_by_url url :=
    on_world (let* (_, c) := on_db (FirmwareComponentOperator.QueryByUrl url (FirmwareComponent.default false)) in ret c)
}.

(*@ upgrade/executor/src/firmware_install_executor.cpp FirmwareInstallExecutor::GetTask *)
Definition GetTask : Exec unit :=
  let* task := this_ tasks_ in
  if negb (FirmwareTask.isExistTask task) then
    let* task := on_world (on_db (FirmwareTaskOperator.QueryTask task)) in set_this (set_tasks task)
  else ret tt.

Definition is_stream : bool := bool_decide (installType_ = STREAM_INSTALLLER).
Definition is_live : bool := bool_decide (installType_ = SYS_INSTALLER) || is_stream.

(*@ upgrade/executor/src/firmware_install_executor.cpp FirmwareInstallExecutor::HandleInstallProgress *)
Definition HandleInstallProgress (component : FirmwareComponent.t) : Exec unit :=
  on_world (on_db (FirmwareComponentOperator.UpdateProgressByUrl (FirmwareComponent.url component)
                     (FirmwareComponent.status component) (FirmwareComponent.progress component))) ;;;
  set_this (set_taskProgress UpgradeStatus.INSTALLING (to_uint32 (FirmwareComponent.progress component))) ;;;
  let* taskProgress := this_ taskProgress_ in
  set_this (set_info_progress taskProgress) ;;;
  match installCallback_ with
  | None => ret tt
  | Some _ =>
      (if is_stream then
         on_world (on_db (FirmwareComponentOperator.UpdateRecordPointByUrl (FirmwareComponent.url component)
                            (FirmwareComponent.recordPoint component)))
       else
         let* task := this_ tasks_ in
         on_world (on_db (FirmwareTaskOperator.UpdateProgressByTaskId (FirmwareTask.taskId task)
                            (Progress.status taskProgress) (to_int32 (Progress.percent taskProgress))))) ;;;
      let* info := this_ installCallbackInfo_ in
      call installCallback_ info
  end.

(** The status a result stands for. *)
(*@ upgrade/executor/src/firmware_install_executor.cpp:138-150 FirmwareInstallExecutor::HandleInstallResult *)
Definition result_status (result : bool) (status : Z) : Z :=
  if result then UpgradeStatus.INSTALL_SUCCESS
  else if bool_decide (installType_ = SYS_INSTALLER) then UpgradeStatus.INSTALL_FAIL
  else if is_stream then
    (if status =? UpgradeStatus.DOWNLOAD_CANCEL then UpgradeStatus.INSTALL_PAUSE else UpgradeStatus.INSTALL_FAIL)
  else UpgradeStatus.UPDATE_FAIL.
(*@ upgrade/executor/src/firmware_install_executor.cpp FirmwareInstallExecutor::HandleInstallResult *)
Definition HandleInstallResult (result : bool) (errMsg : ErrorMessage.t) (status : Z) : Exec unit :=
  let* taskProgress := this_ taskProgress_ in
  set_this (set_taskProgress (result_status result status)
              (if result then Firmware.ONE_HUNDRED else Progress.percent taskProgress)) ;;;
  let* taskProgress := this_ taskProgress_ in
  let* task := this_ tasks_ in
  on_world (on_db (FirmwareTaskOperator.UpdateProgressByTaskId (FirmwareTask.taskId task)
                     (Progress.status taskProgress) (to_int32 (Progress.percent taskProgress)))) ;;;
  set_this (set_info_progress taskProgress) ;;;
  set_this (set_info_error errMsg) ;;;
  let* info := this_ installCallbackInfo_ in
  call installCallback_ info.

(*@ upgrade/executor/src/firmware_install_executor.cpp:82-94 FirmwareInstallExecutor::StartInstall *)
Definition callbacks : FirmwareInstallCallback (t * (C * World R E)) := {|
  onFirmwareProgress := Some HandleInstallProgress;
  onFirmwareEvent := HandleInstallResult;
  onFirmwareStatus := Some (λ status,
    let* task := this_ tasks_ in
    on_world (FirmwareCallbackUtils.NotifyEvent (FirmwareTask.taskId task) EventId.EVENT_UPGRADE_START status
                ErrorMessage.default [] 0)) |}.
(** [GetInstance] does not return null.  The result is what the threads of the
    installer have still to report, to an executor that is gone by then. *)
(*@ upgrade/executor/src/firmware_install_executor.cpp FirmwareInstallExecutor::StartInstall *)
Definition StartInstall (indeterminate : Z) : Exec (list FirmwareComponent.t) :=
  let* components := this_ components_ in
  InstallFactory.install installType_ indeterminate components callbacks.

(** The initial status, and the one announced; an illegal type keeps the default. *)
(*@ upgrade/executor/src/firmware_install_executor.cpp:63-70 FirmwareInstallExecutor::DoInstall *)
Definition start_status : Z :=
  if is_live then UpgradeStatus.INSTALLING
  else if bool_decide (installType_ = UPDATER) then UpgradeStatus.UPDATING
  else Progress.status Progress.default.
(*@ upgrade/executor/src/firmware_install_executor.cpp FirmwareInstallExecutor::DoInstall *)
Definition DoInstall (indeterminate : Z) : Exec (list FirmwareComponent.t) :=
  let* components := this_ components_ in
  let* (_, components) := on_world (on_db (FirmwareComponentOperator.QueryAll components)) in
  set_this (set_components components) ;;;
  match components with
  | [] =>
      set_this (set_info_progress {|
        Progress.percent := Progress.percent Progress.default;
        Progress.status := if is_live then UpgradeStatus.INSTALL_FAIL else UpgradeStatus.UPDATE_FAIL;
        Progress.endReason := "no task" |}) ;;;
      let* info := this_ installCallbackInfo_ in
      call installCallback_ info ;;;
      ret []
  | _ =>
      GetTask ;;;
      let percent := to_int32 (Progress.percent Progress.default) in
      let* task := this_ tasks_ in
      on_world (on_db (FirmwareTaskOperator.UpdateProgressByTaskId (FirmwareTask.taskId task) start_status percent)) ;;;
      for_each components (λ component,
        on_world (on_db (FirmwareComponentOperator.UpdateProgressByUrl (FirmwareComponent.url component)
                           start_status percent)) ;;; ret tt) ;;;
      StartInstall indeterminate
  end.
End ops.
End FirmwareInstallExecutor.

(** One step of a computation on the three parts. *)
Ltac wp_part :=
  lazymatch goal with
  | |- wp (bind _ _) _ _ => apply wp_bind
  | |- wp (ret _) _ _ => apply wp_ret
  | |- wp (this_ _) _ _ => apply wp_this
  | |- wp (set_this _) _ _ => apply wp_set_this
  | |- wp (on_world _) _ _ => apply wp_on_world
  | |- _ => wp_step
  end; cbv beta iota; cbn [fst snd].
Ltac wp_parts := repeat wp_part.

(** ** What the install executor does *)
Section handlers.
Context {R E C : Type} `{RdbLaws R, Platform E, Subscribers E, InstallKits E} (installType_ : InstallType)
  (told : InstallCallbackInfo.t → ST (C * World R E) unit).
Import FirmwareInstallExecutor.
#[local] Notation State := (t * (C * World R E))%type.
Implicit Types (s : State).

(** The executor works on the stored task [x]. *)
Definition works_on s (x : FirmwareTask.t) cs e o : Prop :=
  at_state s.2.2 [x] cs e o ∧ FirmwareTask.taskId (tasks_ s.1) = FirmwareTask.taskId x.
Lemma update_own s x cs e o upd :
  works_on s x cs e o → update_where (task_is (FirmwareTask.taskId (tasks_ s.1))) upd [x] = [upd x].
Proof. intros (_ & ->). unfold update_where, task_is. cbn. by rewrite String.eqb_refl. Qed.

(** The components after a report, and after its resume point is stored. *)
Definition component_progressed (c : FirmwareComponent.t) cs : list FirmwareComponent.t :=
  let cs := update_where (url_is (FirmwareComponent.url c))
    (Component.with_progress (FirmwareComponent.status c) (FirmwareComponent.progress c)) cs in
  if is_stream installType_
  then update_where (url_is (FirmwareComponent.url c)) (Component.with_recordPoint (to_int32 (FirmwareComponent.recordPoint c))) cs
  else cs.
(** The progress the executor keeps. *)
Definition kept_progress (status percent : Z) s : Progress.t := {|
  Progress.percent := percent; Progress.status := status; Progress.endReason := Progress.endReason (taskProgress_ s.1) |}.

(** The owner is told after the database has been written. *)
Lemma wp_HandleInstallProgress c s x cs e o (Q : unit → State → Prop) :
  works_on s x cs e o → is_int32 (FirmwareComponent.status c) → is_int32 (FirmwareComponent.progress c) →
  (∀ s' em,
     let p := kept_progress UpgradeStatus.INSTALLING (to_uint32 (FirmwareComponent.progress c)) s in
     taskProgress_ s'.1 = p → s'.2.1 = s.2.1 →
     works_on s' (if is_stream installType_ then x
                  else Task.with_progress UpgradeStatus.INSTALLING (FirmwareComponent.progress c) x)
       (component_progressed c cs) e o →
     wp (call (Some told) {| InstallCallbackInfo.progress := p; InstallCallbackInfo.errorMessage := em |}) s' Q) →
  wp (HandleInstallProgress installType_ (Some told) c) s Q.
Proof.
  intros Hs Hst Hp HQ. pose proof Hs as (Hw & Ht). unfold HandleInstallProgress. wp_parts.
  unfold component_progressed in HQ. cbv zeta in HQ. destruct (is_stream installType_) eqn:Hstream.
  - wp_parts. eapply HQ; [done|done|by split].
  - wp_parts. eapply HQ; [done|done|]. split; [|done].
    cbn [set_taskProgress set_info_progress taskProgress_ tasks_ Progress.percent Progress.status] in *.
    rewrite (update_own _ _ _ _ _ _ Hs), to_int32_to_uint32 in * by done. done.
Qed.

Lemma wp_HandleInstallResult r em st s x cs e o (Q : unit → State → Prop) :
  works_on s x cs e o →
  (∀ s',
     let p := kept_progress (result_status installType_ r st)
                (if r then Firmware.ONE_HUNDRED else Progress.percent (taskProgress_ s.1)) s in
     taskProgress_ s'.1 = p → s'.2.1 = s.2.1 →
     works_on s' (Task.with_progress (Progress.status p) (to_int32 (Progress.percent p)) x) cs e o →
     wp (call (Some told) {| InstallCallbackInfo.progress := p; InstallCallbackInfo.errorMessage := em |}) s' Q) →
  wp (HandleInstallResult installType_ (Some told) r em st) s Q.
Proof.
  intros Hs HQ. pose proof Hs as (Hw & Ht). unfold HandleInstallResult.
  assert (is_int32 (result_status installType_ r st)) by
    (unfold result_status; repeat case_if; by apply is_int32_closed).
  wp_parts. eapply HQ; [done|done|]. split; [|done].
  cbn [set_taskProgress set_info_progress taskProgress_ tasks_ kept_progress Progress.percent Progress.status] in *.
  by rewrite (update_own _ _ _ _ _ _ Hs) in *.
Qed.

Lemma start_status_range : is_int32 (start_status installType_).
Proof. unfold start_status. repeat case_if; by apply is_int32_closed. Qed.
Lemma update_where_versions sel upd cs :
  (∀ c, FirmwareComponent.versionId (upd c) = FirmwareComponent.versionId c) →
  map FirmwareComponent.versionId (update_where sel upd cs) = map FirmwareComponent.versionId cs.
Proof. intros Hu. unfold update_where. rewrite map_map. apply map_ext. intros c. by case_if. Qed.
Lemma component_progressed_versions c cs :
  map FirmwareComponent.versionId (component_progressed c cs) = map FirmwareComponent.versionId cs.
Proof. unfold component_progressed. case_if; rewrite !update_where_versions; done. Qed.

(** ** A whole installation

    What the owner is, and was told, as long as the installation goes on: [J].  It is
    kept by every report and by the announcement of a start. *)
Context (t : FirmwareTask.t) (J : C → list Message → Prop).
Class Listening : Prop := {
  hears_report info c w x cs e o :
    Progress.status (InstallCallbackInfo.progress info) = UpgradeStatus.INSTALLING →
    FirmwareTask.taskId x = FirmwareTask.taskId t → at_state w [x] cs e o → J c o →
    wp (told info) (c, w) (λ _ y, ∃ o', at_state y.2 [x] cs e o' ∧ J y.1 o');
  hears_start c o st : J c o → J c (o ++ [notification (BaseCallbackUtils.notify_event (FirmwareTask.taskId t)
    EventId.EVENT_UPGRADE_START st ErrorMessage.default [] 0)])
}.
Context `{!Listening}.

(** The installation of task [t] is under way: the stored task differs from [t] in its
    progress alone, and no component came or went. *)
Definition installing cs s : Prop := ∃ st p cs' e o,
  works_on s (Task.with_progress st p t) cs' e o ∧ J s.2.1 o ∧
  map FirmwareComponent.versionId cs' = map FirmwareComponent.versionId cs.

(** Close the goal after calls that left the executor alone. *)
Ltac still_installing := do 5 eexists; split; [split; [eassumption|done]|by split].

Lemma installing_kept cs (m : ST State unit) :
  (∀ s, installing cs s → wp m s (λ _ s', installing cs s')) → keeps (installing cs) (outer m).
Proof. intros Hm. apply keeps_outer. exact Hm. Qed.
Lemma installing_env cs s {A} (m : ST E A) : installing cs s → installing cs (exec (on_world (on_env m)) s).
Proof.
  intros (st & p & cs' & e & o & (Hw & Ht) & Hi & Hv).
  enough (wp (on_world (on_env m)) s (λ _ s', installing cs s')) as He by exact He.
  wp_part. wp_part. still_installing.
Qed.

#[local] Notation cbs := (callbacks (R := R) (E := E) installType_ (Some told)).
(** A report that is passed on. *)
Lemma installing_reported cs f c :
  onFirmwareProgress cbs = Some f → Component.wf c → keeps (installing cs) (outer (f c)).
Proof.
  intros [= <-] Hc. apply installing_kept. intros s (st & p & cs' & e & o & Hs & Hi & Hv).
  eapply wp_HandleInstallProgress; [exact Hs|apply Hc|apply Hc|]. intros s' em q _ Hc' [Hw' Ht'].
  destruct s' as [this' [c' w']]. cbn [fst snd] in *. subst c'. apply wp_call. cbn [fst snd]. destruct (is_stream installType_).
  + eapply wp_mono; [|eapply hears_report; [..|exact Hw'|exact Hi]; done]. intros _ y (o' & Hy & HJ). do 5 eexists.
    split; [by split|]. split; [exact HJ|]. by rewrite component_progressed_versions.
  + eapply wp_mono; [|eapply hears_report; [..|exact Hw'|exact Hi]; done]. intros _ y (o' & Hy & HJ). do 5 eexists.
    split; [by split|]. split; [exact HJ|]. by rewrite component_progressed_versions.
Qed.
#[local] Instance installing_steady cs : Steady cbs Component.wf (installing cs).
Proof.
  assert (∀ A (m : ST E A), keeps (installing cs) (outer (on_world (on_env m)))) as Henv
    by (intros A m; apply keeps_outer; intros; by apply installing_env).
  split; try (intros; apply Henv).
  - split; [intros [] st p (?&?&?&?&?&?&?&?&?&?) ??; by split_and!|apply Henv|exact (installing_reported cs)].
  - intros [] st p n (?&?&?&?&?&?&?&?&?&?) ? Hp ?. split_and!; try done. destruct Hp as [|Hp]; [done|by cbn in *; subst].
  - intros l s (st & p & cs' & e & o & Hs & Hi). by do 5 eexists.
  - intros u s (st & p & cs' & e & o & (Hw & Ht) & Hi & Hv).
    enough (wp (query_by_url u) s.2 (λ c s', Component.wf c ∧ installing cs s')) as Hq.
    { unfold wp in Hq. unfold eval, exec, outer in *. by destruct (query_by_url u s.2). }
    pose proof (at_state_wf _ _ _ _ _ Hw) as [_ Hcs]. cbn [query_by_url store]. do 3 wp_part.
    pose proof (found_wf (FirmwareComponent.default false) (url_is u) cs' ltac:(by split_and!; vm_compute) Hcs) as Hf.
    destruct (found _ _ _) as [ok c]. wp_parts. split; [exact Hf|still_installing].
  - intros f st' [= <-]. apply installing_kept. intros s (st & p & cs' & e & o & (Hw & Ht) & Hi & Hv).
    wp_parts. do 5 eexists. split; [split; [eassumption|done]|]. split; [|done]. rewrite Ht. by apply hears_start.
Qed.

(** An installation of stored components handles one result, and after it no more than
    the late reports of the system installer. *)
Lemma wp_DoInstall ind w c cs e o (Q : list FirmwareComponent.t → State → Prop) :
  at_state w [t] cs e o → cs ≠ [] → J c o →
  (∀ s r em st, installing cs s → wp (HandleInstallResult installType_ (Some told) r em st) s (λ _ s1,
     ∀ l s', Forall Component.wf l → (installType_ ≠ SYS_INSTALLER → l = [] ∧ s' = s1) →
       (∀ K, Reporting cbs Component.wf K → K s1 → K s') → Q l s')) →
  wp (DoInstall installType_ (Some told) ind) (new, (c, w)) Q.
Proof.
  intros Hw Hne HJ HQ. pose proof start_status_range. unfold DoInstall. do 2 wp_part. change (components_ new) with (@nil FirmwareComponent.t). wp_parts.
  destruct cs as [|c0 cs]; [done|]. set (cs0 := c0 :: cs) in *. clearbody cs0.
  unfold GetTask. do 3 wp_part. change (FirmwareTask.isExistTask (tasks_ (set_components cs0 new))) with false.
  cbn [negb]. wp_parts. cbn [queried]. wp_parts. change (FirmwareTask.taskId _) with (FirmwareTask.taskId t) in *.
  eapply (wp_for_each (λ _ s, installing cs0 s ∧ components_ s.1 = cs0)).
  - split; [|done]. eexists _, _, cs0, e, o. split; [split; [|done]|by split].
    unfold update_where, task_is in *. cbn in *. by rewrite String.eqb_refl in *.
  - intros l1 c' l2 s1 _ [(st & p & cs' & e' & o' & (Hw1 & Ht) & Hi & Hv) Hcs]. wp_parts. split; [|done].
    do 5 eexists. split; [split; [eassumption|done]|]. split; [done|]. by rewrite update_where_versions.
  - intros s1 [Hs1 Hcs]. unfold StartInstall. wp_parts. rewrite Hcs.
    destruct (install_event cbs Component.wf (installing cs0) installType_ ind cs0 s1) as (s2 & r & em & st & Hs2 & Hex);
      [by apply at_state_wf in Hw as [_ ?]|done|]. destruct Hex as (Hl & Hn & Hlate).
    exact (HQ s2 r em st Hs2 _ _ Hl Hn Hlate).
Qed.
End handlers.

(** ** An owner that keeps what it is told

    The owner of the callback keeps the list of the calls it received. *)
Section install.
Context {R E : Type} `{RdbLaws R, Platform E, Subscribers E, InstallKits E} (installType_ : InstallType).
Import FirmwareInstallExecutor.
#[local] Notation State := (t * (list InstallCallbackInfo.t * World R E))%type.
Implicit Types (s : State).

#[local] Notation HandleProgress := (HandleInstallProgress (C := list InstallCallbackInfo.t) (R := R) (E := E) installType_ (Some logged)).
#[local] Notation HandleResult := (HandleInstallResult (C := list InstallCallbackInfo.t) (R := R) (E := E) installType_ (Some logged)).
#[local] Notation component_progressed := (component_progressed installType_).

Definition executing s (log : list InstallCallbackInfo.t) (x : FirmwareTask.t) cs e o : Prop :=
  s.2.1 = log ∧ works_on s x cs e o.
Lemma wp_progress_logged c s log x cs e o (Q : unit → State → Prop) :
  executing s log x cs e o → is_int32 (FirmwareComponent.status c) → is_int32 (FirmwareComponent.progress c) →
  (∀ s' em,
     let p := kept_progress UpgradeStatus.INSTALLING (to_uint32 (FirmwareComponent.progress c)) s in
     executing s' (log ++ [{| InstallCallbackInfo.progress := p; InstallCallbackInfo.errorMessage := em |}])
       (if is_stream installType_ then x
        else Task.with_progress UpgradeStatus.INSTALLING (FirmwareComponent.progress c) x)
       (component_progressed c cs) e o → Q tt s') →
  wp (HandleProgress c) s Q.
Proof.
  intros [Hl Hs] Hst Hp HQ. eapply wp_HandleInstallProgress; [done..|]. intros s' em p Hp' Hl' Hs'. apply wp_logged.
  eapply HQ. split; [|exact Hs']. cbn. by rewrite Hl', Hl.
Qed.
Lemma wp_result_logged r em st s log x cs e o (Q : unit → State → Prop) :
  executing s log x cs e o →
  (∀ s',
     let p := kept_progress (result_status installType_ r st)
                (if r then Firmware.ONE_HUNDRED else Progress.percent (taskProgress_ s.1)) s in
     executing s' (log ++ [{| InstallCallbackInfo.progress := p; InstallCallbackInfo.errorMessage := em |}])
       (Task.with_progress (Progress.status p) (to_int32 (Progress.percent p)) x) cs e o → Q tt s') →
  wp (HandleResult r em st) s Q.
Proof.
  intros [Hl Hs] HQ. eapply wp_HandleInstallResult; [done..|]. intros s' p Hp' Hl' Hs'. apply wp_logged.
  eapply HQ. split; [|exact Hs']. cbn. by rewrite Hl', Hl.
Qed.

(** ** The handlers in any order

    Reports arrive on the threads of the system installer, before and after the result,
    which is handled on the thread of the executor. *)
Inductive Handled := Progressed (c : FirmwareComponent.t) | Resulted (r : bool) (em : ErrorMessage.t) (st : Z).
Definition handle (h : Handled) : ST State unit :=
  match h with Progressed c => HandleProgress c | Resulted r em st => HandleResult r em st end.
(** The status a call reports, and the one it stores, if any. *)
Definition told_status (h : Handled) : Z :=
  match h with Progressed _ => UpgradeStatus.INSTALLING | Resulted r _ st => result_status installType_ r st end.
Definition stored_status (h : Handled) : option Z :=
  match h with
  | Progressed _ => if is_stream installType_ then None else Some UpgradeStatus.INSTALLING
  | Resulted r _ st => Some (result_status installType_ r st)
  end.
Definition wf_handled (h : Handled) : Prop :=
  match h with
  | Progressed c => is_int32 (FirmwareComponent.status c) ∧ is_int32 (FirmwareComponent.progress c)
  | Resulted _ _ _ => True
  end.

Lemma with_progress_same (x : FirmwareTask.t) : Task.with_progress (FirmwareTask.status x) (FirmwareTask.progress x) x = x.
Proof. by destruct x. Qed.

Lemma wp_handle h s log x cs e o (Q : unit → State → Prop) :
  executing s log x cs e o → wf_handled h →
  (∀ s' info st p cs',
     executing s' (log ++ [info]) (Task.with_progress st p x) cs' e o →
     Progress.status (InstallCallbackInfo.progress info) = told_status h →
     st = default (FirmwareTask.status x) (stored_status h) → Q tt s') →
  wp (handle h) s Q.
Proof.
  intros Hs Hwf HQ. destruct h as [c|r em st]; cbn [handle].
  - destruct Hwf. eapply wp_progress_logged; [done..|]. intros s' em p Hs'.
    destruct (is_stream installType_) eqn:Hstream.
    + rewrite <- (with_progress_same x) in Hs'. eapply HQ; [exact Hs'|done|]. cbn. by rewrite Hstream.
    + eapply HQ; [exact Hs'|done|]. cbn. by rewrite Hstream.
  - eapply wp_result_logged; [done|]. intros s' p Hs'. by eapply HQ.
Qed.

(** However the reports of an installation and its result are ordered, the
    owner is told each of them, in that order.  The status stored for the task
    is that of the last call that stores one: with the stream installer only
    results do, so a result is never overwritten by a report; with the others
    every call does, so a report handled after the result, on its own thread,
    puts the task back to [INSTALLING]. *)
Theorem install_calls_recorded hs s log x cs e o :
  executing s log x cs e o → Forall wf_handled hs →
  wp (for_each hs handle) s (λ _ s', ∃ infos st p cs',
    executing s' (log ++ infos) (Task.with_progress st p x) cs' e o ∧
    map (λ i, Progress.status (InstallCallbackInfo.progress i)) infos = map told_status hs ∧
    st = default (FirmwareTask.status x) (last (omap stored_status hs))).
Proof.
  intros Hs Hwf. revert s log x cs Hs. induction Hwf as [|h hs Hh Hwf IH]; intros s log x cs Hs.
  { apply wp_ret. exists [], (FirmwareTask.status x), (FirmwareTask.progress x), cs.
    by rewrite app_nil_r, with_progress_same. }
  cbn [for_each]. apply wp_bind. eapply wp_handle; [done..|]. intros s1 info st p cs1 Hs1 Hinfo Hst.
  eapply wp_mono; [|eapply IH; exact Hs1]. intros _ s2 (infos & st2 & p2 & cs2 & Hs2 & Hm & Hst2).
  exists (info :: infos), st2, p2, cs2. rewrite <- app_assoc in Hs2. split; [exact Hs2|].
  split; [cbn [map]; by rewrite Hinfo, Hm|]. subst st2 st. cbn [omap list_omap].
  destruct (stored_status h) as [st|]; cbn [default from_option]; [|done].
  rewrite last_cons. by destruct (last _).
Qed.

(** Such an owner was only told [INSTALLING]. *)
Definition only_installing (log : list InstallCallbackInfo.t) (_ : list Message) : Prop :=
  Forall (λ i, Progress.status (InstallCallbackInfo.progress i) = UpgradeStatus.INSTALLING) log.
#[local] Instance logged_listening t : Listening (R := R) (E := E) logged t only_installing.
Proof.
  split; [|done]. intros info c w x cs e o Hi _ Hw HJ. exists o. split; [exact Hw|]. by apply Forall_app; repeat constructor.
Qed.

(** After the result: what the owner was told last is what the task has stored. *)
Definition resulted t (v : list string) infos info s : Prop := ∃ late cs' e o,
  let p := InstallCallbackInfo.progress (default info (last late)) in
  s.2.1 = infos ++ info :: late ∧
  Forall (λ i, Progress.status (InstallCallbackInfo.progress i) = UpgradeStatus.INSTALLING) late ∧
  works_on s (Task.with_progress (Progress.status p) (to_int32 (Progress.percent p)) t) cs' e o ∧
  map FirmwareComponent.versionId cs' = v.
Lemma resulted_reporting t v infos info : is_stream installType_ = false →
  Reporting (callbacks (R := R) (E := E) installType_ (Some logged)) Component.wf (resulted t v infos info).
Proof.
  intros Hstream.
  assert (∀ (m : ST State unit), (∀ s, resulted t v infos info s → wp m s (λ _ s', resulted t v infos info s')) →
    keeps (resulted t v infos info) (outer m)) as Hkept by (intros m Hm; by apply keeps_outer).
  split; [intros [] st p (?&?&?&?&?&?&?&?&?&?) ??; by split_and!| |].
  - apply keeps_outer. intros s (late & cs' & e & o & Hl & Hf & (Hw & Ht) & Hv).
    enough (wp (on_world (on_env other_install)) s (λ _ s', resulted t v infos info s')) as He by exact He.
    wp_part. wp_part. by exists late, cs', (exec other_install e), o.
  - intros f c [= <-] Hc. apply Hkept. intros s (late & cs' & e & o & Hl & Hf & Hs & Hv).
    eapply wp_progress_logged; [by split|apply Hc|apply Hc|]. rewrite Hstream. intros s' em p [Hl' Hs'].
    exists (late ++ [{| InstallCallbackInfo.progress := p; InstallCallbackInfo.errorMessage := em |}]), (component_progressed c cs'), e, o.
    rewrite last_snoc, Hl', <- app_assoc. split; [done|]. split; [by apply Forall_app; repeat constructor|].
    split; [|by rewrite component_progressed_versions]. cbn. by rewrite to_int32_to_uint32 by apply Hc.
Qed.

(** C15: an installation started on the stored components tells its owner
    [INSTALLING] any number of times and then one result, which is one of the
    outcomes of its type and is at 100 percent if it is a success.  After the result
    come at most late reports of the system installer, told as [INSTALLING].  The stored
    task ends with the status and percentage of the last call - of the result, unless a
    report was late - and is otherwise unchanged, and the components stored are still the
    same versions.  Without stored components nothing is written, and the owner is told
    the failure. *)
Theorem installation_recorded ind w t cs e o :
  at_state w [t] cs e o →
  wp (DoInstall installType_ (Some logged) ind) (new, ([], w)) (λ _ s',
    match cs with
    | [] => at_state s'.2.2 [t] cs e o ∧
        ∃ info, s'.2.1 = [info] ∧ Progress.status (InstallCallbackInfo.progress info) =
          (if decide (installType_ = SYS_INSTALLER ∨ installType_ = STREAM_INSTALLLER)
           then UpgradeStatus.INSTALL_FAIL else UpgradeStatus.UPDATE_FAIL)
    | _ => ∃ infos info late r st cs' e' o',
        let p := InstallCallbackInfo.progress (default info (last late)) in
        s'.2.1 = infos ++ info :: late ∧
        Forall (λ i, Progress.status (InstallCallbackInfo.progress i) = UpgradeStatus.INSTALLING) (infos ++ late) ∧
        (installType_ ≠ SYS_INSTALLER → late = []) ∧
        Progress.status (InstallCallbackInfo.progress info) = result_status installType_ r st ∧
        (r = true → Progress.percent (InstallCallbackInfo.progress info) = 100) ∧
        at_state s'.2.2 [Task.with_progress (Progress.status p) (to_int32 (Progress.percent p)) t] cs' e' o' ∧
        map FirmwareComponent.versionId cs' = map FirmwareComponent.versionId cs
    end).
Proof.
  intros Hw. destruct cs as [|c cs].
  { unfold DoInstall. do 2 wp_part. change (components_ new) with (@nil FirmwareComponent.t). wp_parts.
    apply wp_logged, wp_ret. cbn [fst snd]. split; [done|]. eexists. split; [reflexivity|]. cbn.
    unfold is_live, is_stream. repeat case_bool_decide; repeat case_decide; naive_solver. }
  eapply (wp_DoInstall installType_ logged t only_installing); [exact Hw|done|constructor|].
  intros s r em st (st2 & p2 & cs2 & e2 & o2 & Hs & Hi & Hv).
  eapply wp_result_logged; [by split|]. intros s1 p (Hl & Hw' & Ht) l s' _ Hne Hlate.
  set (info := {| InstallCallbackInfo.progress := p; InstallCallbackInfo.errorMessage := em |}) in *.
  assert (resulted t (map FirmwareComponent.versionId (c :: cs)) s.2.1 info s1) as Hs1 by by exists [], cs2, e2, o2.
  assert (resulted t (map FirmwareComponent.versionId (c :: cs)) s.2.1 info s' ∧
    (installType_ ≠ SYS_INSTALLER → s' = s1)) as [(late & cs3 & e3 & o3 & Hl3 & Hf & [Hw3 _] & Hv3) Hsame].
  { split; [|intros Hsys; by apply Hne]. destruct (decide (installType_ = SYS_INSTALLER)) as [Hsys|Hsys].
    - apply Hlate; [|done]. apply resulted_reporting. unfold is_stream. by rewrite Hsys.
    - by destruct (Hne Hsys) as [_ ->]. }
  exists s.2.1, info, late, r, st, cs3, e3, o3. split; [exact Hl3|]. split; [by apply Forall_app|]. split.
  { intros Hsys. rewrite (Hsame Hsys), Hl in Hl3. apply app_inv_head in Hl3. by injection Hl3. }
  split; [done|]. split; [by intros ->|]. by split.
Qed.
End install.

(** ** A sample installation *)
Module SampleInstall.
#[local] Instance env_kits : InstallKits SampleEnv.t :=
  lift_kits (H := SampleKits.kits) (λ _ m e, (eval m (SampleKits.actions, []), e)).
Definition component : FirmwareComponent.t := set_reported UpgradeStatus.DOWNLOAD_SUCCESS 100 0 (FirmwareComponent.default false).
Definition start : FirmwareInstallExecutor.t * (list InstallCallbackInfo.t * World MemoryDb.t SampleEnv.t) :=
  (FirmwareInstallExecutor.new, ([], SampleEnv.world [sample_task] [component])).

Lemma component_stored : ∃ z, at_state start.2.2 [sample_task] [z] SampleEnv.initial [].
Proof.
  destruct (sample_at_state [sample_task] [component]) as (zs & Hz & Hw);
    [by repeat constructor; apply sample_task_wf|repeat constructor; by vm_compute|].
  apply Forall2_cons_inv_l in Hz as (z & l & _ & Hl & ->). apply Forall2_nil_inv_l in Hl as ->. by exists z.
Qed.

Lemma installation_recorded_witness :
  let s := exec (FirmwareInstallExecutor.DoInstall SYS_INSTALLER (Some logged) 0) start in
  ∃ infos info late, s.2.1 = infos ++ info :: late ∧
    Forall (λ i, Progress.status (InstallCallbackInfo.progress i) = UpgradeStatus.INSTALLING) (infos ++ late).
Proof.
  destruct component_stored as (z & Hw).
  pose proof (installation_recorded SYS_INSTALLER 0 _ _ _ _ _ Hw) as Hp. unfold wp in Hp. cbv beta iota zeta in Hp.
  destruct Hp as (infos & info & late & r & st & cs' & e' & o' & Hl & Hi & Hrest). exists infos, info, late. exact (conj Hl Hi).
Defined.

(** A report that arrives after the result of the system installer. *)
Lemma install_calls_recorded_witness :
  let result := Resulted true ErrorMessage.default UpgradeStatus.INIT in
  ∃ z p cs', executing
    (exec (for_each [Progressed component; result; Progressed component] (handle SYS_INSTALLER))
       (FirmwareInstallExecutor.set_tasks sample_task FirmwareInstallExecutor.new, start.2))
    z (Task.with_progress UpgradeStatus.INSTALLING p sample_task) cs' SampleEnv.initial [].
Proof.
  intros result. destruct component_stored as (z & Hw).
  pose proof (install_calls_recorded SYS_INSTALLER [Progressed component; result; Progressed component]
    (FirmwareInstallExecutor.set_tasks sample_task FirmwareInstallExecutor.new, start.2)
    [] sample_task [z] SampleEnv.initial [] ltac:(by split_and!) ltac:(repeat constructor; by vm_compute)) as Hp.
  unfold wp in Hp. destruct Hp as (infos & st & p & cs' & Hs & _ & ->). by eexists _, p, cs'.
Defined.
End SampleInstall.
