(* ===== verification/DownloadExecutor.v ===== *)
(** * The download, check and apply executors

    Models [firmware_download_executor.cpp], [firmware_check_executor.cpp] and
    [firmware_apply_executor.cpp].  As in [Executor], the state while an executor runs
    has three parts, its fields, the state [C] of the owner of its callbacks, and the
    world; and the model starts with the work that [Execute] hands to a thread.

    The executor asks the manager of the download tasks ([DownloadManager]) through the
    class [DownloadTasks].  What the tasks report later arrives one report at a time
    as a call of [CallbackProgress], for as long as the executor lives. *)
From Stdlib Require Import ZArith Lia Ascii String.
From stdpp Require Import base tactics list strings gmap.
From S2P Require Import Prelude CppString Models Database FirmwareDb FirmwareStore FirmwareWorld DownloadData DownloadManager FirmwareHelper CheckProcessor ProgressProcessor Installer Device Executor.
Import FirmwareWorld.World (on_db, on_env, asks, send).
Import DUpdateErrno.

#[local] Open Scope Z_scope.

(** [DownloadTaskManager], as its users see it: the error passed by reference is an
    argument and a result. *)
Class DownloadTasks (E : Type) := {
  StartTask : list DownloadInfo.t → DownloadError.t → ST E (string * DownloadError.t);
  ResumeTask : string → Z → DownloadError.t → ST E DownloadError.t;
  CancelTask : string → DownloadError.t → bool → ST E DownloadError.t;
  TaskProgress : string → DownloadError.t → ST E (ProgressInfo.t * DownloadError.t)
}.

(** ** FirmwareDownloadExecutor *)
Module FirmwareDownloadExecutor.
(*@ upgrade/executor/include/firmware_download_executor.h:50-55 FirmwareDownloadExecutor *)
Record t := {
  downloadOptions_ : DownloadOptions.t;
  components_ : list FirmwareComponent.t;
  tasks_ : FirmwareTask.t
}.
(*@ upgrade/executor/include/firmware_download_executor.h:30-32 FirmwareDownloadExecutor *)
Definition new (options : DownloadOptions.t) : t := {|
  downloadOptions_ := options; components_ := []; tasks_ := FirmwareTask.default |}.
Definition set_components (x : list FirmwareComponent.t) (this : t) : t := {|
  downloadOptions_ := downloadOptions_ this; components_ := x; tasks_ := tasks_ this |}.
Definition set_tasks (x : FirmwareTask.t) (this : t) : t := {|
  downloadOptions_ := downloadOptions_ this; components_ := components_ this; tasks_ := x |}.

(*@ upgrade/executor/src/firmware_download_executor.cpp FirmwareDownloadExecutor::BuildDownloadInfos *)
Definition BuildDownloadInfo (netType : Z) (component : FirmwareComponent.t) : DownloadInfo.t :=
  let d := DownloadInfo.default in {|
  DownloadInfo.id := DownloadInfo.id d;
  DownloadInfo.downloadId := DownloadInfo.downloadId d;
  DownloadInfo.versionId := FirmwareComponent.versionId component;
  DownloadInfo.taskId := DownloadInfo.taskId d;
  DownloadInfo.url := FirmwareComponent.url component;
  DownloadInfo.reserveUrl := DownloadInfo.reserveUrl d;
  DownloadInfo.path := FirmwareComponent.spath component;
  DownloadInfo.verifyInfo := FirmwareComponent.verifyInfo component;
  DownloadInfo.header := DownloadInfo.header d;
  DownloadInfo.requestBody := DownloadInfo.requestBody d;
  DownloadInfo.sha256StrategyKey := DownloadInfo.sha256StrategyKey d;
  DownloadInfo.endReason := DownloadInfo.endReason d;
  DownloadInfo.status := DownloadInfo.status d;
  DownloadInfo.dirType := DownloadInfo.dirType d;
  DownloadInfo.netType := netType;
  DownloadInfo.method := RequestMethod.GET;
  DownloadInfo.retryTimes := DownloadInfo.retryTimes d;
  DownloadInfo.packageSize := FirmwareComponent.size component;
  DownloadInfo.downloadedSize := DownloadInfo.downloadedSize d;
  DownloadInfo.startTime := DownloadInfo.startTime d;
  DownloadInfo.endTime := DownloadInfo.endTime d;
  DownloadInfo.effectiveTime := DownloadInfo.effectiveTime d;
  DownloadInfo.isNeedAutoResume := false;
  DownloadInfo.downloadErrorInfo := DownloadInfo.downloadErrorInfo d;
  DownloadInfo.isConcurrentLimited := DownloadInfo.isConcurrentLimited d;
  DownloadInfo.isCombineVerifyProgress := DownloadInfo.isCombineVerifyProgress d;
  DownloadInfo.verifiedSize := DownloadInfo.verifiedSize d;
  DownloadInfo.isIgnoredFail := DownloadInfo.isIgnoredFail d;
  DownloadInfo.reportInterval := DownloadInfo.reportInterval d |}.
(*@ upgrade/executor/src/firmware_download_executor.cpp FirmwareDownloadExecutor::BuildDownloadInfos *)
Definition BuildDownloadInfos (this : t) : list DownloadInfo.t :=
  map (BuildDownloadInfo (DownloadOptions.allowNetwork (downloadOptions_ this))) (components_ this).

(*@ upgrade/executor/src/firmware_download_executor.cpp FirmwareDownloadExecutor::BuildFirmwareDownloadProgress *)
Definition BuildFirmwareDownloadProgress (progress : Progress.t) (downloadProgress : DownloadProgress.t) :
    FirmwareDownloadProgress.t := {|
  FirmwareDownloadProgress.versionId := DownloadProgress.id downloadProgress;
  FirmwareDownloadProgress.startTime := DownloadProgress.startTime downloadProgress;
  FirmwareDownloadProgress.endTime := DownloadProgress.endTime downloadProgress;
  FirmwareDownloadProgress.effectiveTime := DownloadProgress.effectiveTime downloadProgress;
  FirmwareDownloadProgress.progress := progress;
  FirmwareDownloadProgress.downloadErrorInfo := DownloadProgress.downloadErrorInfo downloadProgress;
  FirmwareDownloadProgress.downloadUrl := DownloadProgress.downloadUrl downloadProgress;
  FirmwareDownloadProgress.packageSize := DownloadProgress.packageSize downloadProgress;
  FirmwareDownloadProgress.downloadedSize := DownloadProgress.downloadedSize downloadProgress;
  FirmwareDownloadProgress.verifiedSize := DownloadProgress.verifiedSize downloadProgress;
  FirmwareDownloadProgress.isCombineVerifyProgress := DownloadProgress.isCombineVerifyProgress downloadProgress |}.

(*@ upgrade/executor/src/firmware_download_executor.cpp:207-216 FirmwareDownloadExecutor::CallbackProgress *)
Definition statusMap : gmap Z Z := list_to_map [
  (DownloadStatus.DOWNLOADING, UpgradeStatus.DOWNLOADING);
  (DownloadStatus.PAUSE, UpgradeStatus.DOWNLOAD_PAUSE);
  (DownloadStatus.CANCEL, UpgradeStatus.DOWNLOAD_CANCEL);
  (DownloadStatus.FAIL, UpgradeStatus.DOWNLOAD_FAIL);
  (DownloadStatus.SUCCESS, UpgradeStatus.DOWNLOAD_SUCCESS);
  (DownloadStatus.VERIFYING, UpgradeStatus.VERIFYING);
  (DownloadStatus.AUTO_PAUSE, UpgradeStatus.DOWNLOAD_PAUSE);
  (DownloadStatus.INIT, UpgradeStatus.DOWNLOADING)].

(*@ upgrade/executor/src/firmware_download_executor.cpp FirmwareDownloadExecutor::GetEndReason *)
Definition GetEndReason (status reason : Z) : string :=
  if (status =? UpgradeStatus.DOWNLOAD_PAUSE) && (reason =? DownloadEndReason.NET_CHANGE)
  then to_string DUPDATE_ERR_DLOAD_NET_CHANGED
  else if (status =? UpgradeStatus.DOWNLOAD_PAUSE) && (reason =? DownloadEndReason.NET_NOT_AVAILIABLE)
  then to_string DUPDATE_ERR_DLOAD_REQUEST_FAIL
  else if (status =? UpgradeStatus.DOWNLOAD_FAIL) && (reason =? DownloadEndReason.VERIFY_FAIL)
  then to_string DUPDATE_ERR_VERIFY_PACKAGE_FAIL
  else if (status =? UpgradeStatus.DOWNLOAD_FAIL) && (reason =? DownloadEndReason.NO_ENOUGH_MEMORY)
  then to_string DUPDATE_ERR_NO_ENOUGH_MEMORY
  else if (status =? UpgradeStatus.DOWNLOAD_FAIL) && (reason =? DownloadEndReason.IO_EXCEPTION)
  then to_string DUPDATE_ERR_IO_EXCEPTION
  else "".

(** The loop over the progresses: an unknown status is passed over. *)
(*@ upgrade/executor/src/firmware_download_executor.cpp:218-231 FirmwareDownloadExecutor::CallbackProgress *)
Definition progressList (progresses : list DownloadProgress.t) : list FirmwareDownloadProgress.t :=
  omap (λ downloadProgress,
    status ← statusMap !! DownloadProgress.status downloadProgress;
    Some (BuildFirmwareDownloadProgress {|
      Progress.percent := DownloadProgress.percent downloadProgress;
      Progress.status := status;
      Progress.endReason := to_string (DownloadProgress.reason downloadProgress) |} downloadProgress)) progresses.

Section ops.
Context {R E C : Type} `{Rdb R, Platform E, Subscribers E, DownloadTasks E, Sha256}.
(** [FirmwareDownloadCallback] *)
#[local] Notation Exec := (ST (t * (C * World R E))).
Context (progressCallback : option (FirmwareDownloadCallbackInfo.t → ST (C * World R E) unit))
        (eventCallback : option (string * Z → ST (C * World R E) unit)).

(*@ upgrade/executor/src/firmware_download_executor.cpp FirmwareDownloadExecutor::GetTask *)
Definition GetTask : Exec unit :=
  let* task := this_ tasks_ in
  let* task := on_world (on_db (FirmwareTaskOperator.QueryTask task)) in
  set_this (set_tasks task).

(*@ upgrade/executor/src/firmware_download_executor.cpp FirmwareDownloadExecutor::CallbackProgress *)
Definition CallbackProgress (taskId : string) (progressInfo : ProgressInfo.t) : Exec unit :=
  match statusMap !! ProgressInfo.taskStatus progressInfo with
  | None => ret tt
  | Some status =>
      call progressCallback {|
        FirmwareDownloadCallbackInfo.downloadTaskId := taskId;
        FirmwareDownloadCallbackInfo.taskProgress := {|
          Progress.percent := to_uint32 (ProgressInfo.taskProgress progressInfo);
          Progress.status := status;
          Progress.endReason := GetEndReason status (ProgressInfo.reason progressInfo) |};
        FirmwareDownloadCallbackInfo.progressList := progressList (ProgressInfo.progresses progressInfo) |}
  end.

(** [CAST_INT(error.errorNum)] *)
(*@ upgrade/executor/src/firmware_download_executor.cpp FirmwareDownloadExecutor::CallbackDownloadFailProgress *)
Definition fail_info (error : DownloadError.t) : FirmwareDownloadCallbackInfo.t := {|
  FirmwareDownloadCallbackInfo.downloadTaskId := "";
  FirmwareDownloadCallbackInfo.taskProgress := {|
    Progress.percent := Progress.percent Progress.default;
    Progress.status := UpgradeStatus.DOWNLOAD_FAIL;
    Progress.endReason := to_string (match DownloadError.errorNum error with CALL_SUCCESS => 0 | CALL_FAIL => 1 end) |};
  FirmwareDownloadCallbackInfo.progressList := [] |}.
(*@ upgrade/executor/src/firmware_download_executor.cpp FirmwareDownloadExecutor::CallbackDownloadFailProgress *)
Definition CallbackDownloadFailProgress (error : DownloadError.t) : Exec unit := call progressCallback (fail_info error).

(** The result, and the error passed by reference. *)
(*@ upgrade/executor/src/firmware_download_executor.cpp FirmwareDownloadExecutor::IsNeedResumeDownload *)
Definition IsNeedResumeDownload (progressInfo : ProgressInfo.t) (downloadError : DownloadError.t) :
    Exec (bool * DownloadError.t) :=
  if ProgressInfo.IsDownloadFinished progressInfo then
    let* task := this_ tasks_ in
    CallbackProgress (FirmwareTask.downloadTaskId task) progressInfo ;;;
    ret (false, downloadError)
  else if negb (ProgressInfo.taskStatus progressInfo =? DownloadStatus.PAUSE) &&
          negb (ProgressInfo.taskStatus progressInfo =? DownloadStatus.AUTO_PAUSE) then
    let downloadError := {| DownloadError.endReason := DownloadError.endReason downloadError;
                            DownloadError.errorNum := CALL_FAIL |} in
    CallbackDownloadFailProgress downloadError ;;;
    ret (false, downloadError)
  else ret (true, downloadError).

(*@ upgrade/executor/src/firmware_download_executor.cpp FirmwareDownloadExecutor::PerformDownload *)
Definition PerformDownload : Exec unit :=
  let* downloadInfos := this_ BuildDownloadInfos in
  match downloadInfos with
  | [] => ret tt
  | _ =>
      let downloadTaskId := DownloadTaskManager.GetTaskId downloadInfos in
      call eventCallback (downloadTaskId, EventId.EVENT_DOWNLOAD_START) ;;;
      let* (_, downloadError) := on_world (on_env (StartTask downloadInfos DownloadError.default)) in
      if bool_decide (DownloadError.errorNum downloadError = CALL_SUCCESS) then ret tt
      else CallbackDownloadFailProgress downloadError
  end.

Definition set_reason (reason : Z) (progressInfo : ProgressInfo.t) : ProgressInfo.t := {|
  ProgressInfo.taskProgress := ProgressInfo.taskProgress progressInfo;
  ProgressInfo.taskStatus := ProgressInfo.taskStatus progressInfo;
  ProgressInfo.reason := reason;
  ProgressInfo.progresses := ProgressInfo.progresses progressInfo;
  ProgressInfo.packageSize := ProgressInfo.packageSize progressInfo;
  ProgressInfo.downloadedSize := ProgressInfo.downloadedSize progressInfo;
  ProgressInfo.verifiedSize := ProgressInfo.verifiedSize progressInfo |}.
(*@ upgrade/executor/src/firmware_download_executor.cpp FirmwareDownloadExecutor::PerformResumeDownload *)
Definition PerformResumeDownload : Exec unit :=
  let* task := this_ tasks_ in
  let downloadTaskId := FirmwareTask.downloadTaskId task in
  let* (progressInfo, downloadError) := on_world (on_env (TaskProgress downloadTaskId DownloadError.default)) in
  if negb (bool_decide (DownloadError.errorNum downloadError = CALL_SUCCESS)) then
    if DownloadError.endReason downloadError =? DownloadEndReason.DOWNLOAD_INFO_EMPTY then PerformDownload
    else CallbackDownloadFailProgress downloadError
  else
    let* (needed, downloadError) := IsNeedResumeDownload progressInfo downloadError in
    if negb needed then ret tt
    else
      call eventCallback (downloadTaskId, EventId.EVENT_DOWNLOAD_RESUME) ;;;
      let* options := this_ downloadOptions_ in
      let* downloadError := on_world (on_env (ResumeTask downloadTaskId (DownloadOptions.allowNetwork options) downloadError)) in
      if bool_decide (DownloadError.errorNum downloadError = CALL_SUCCESS) then ret tt
      else if DownloadError.endReason downloadError =? DownloadEndReason.NET_NOT_AVAILIABLE then
        CallbackProgress downloadTaskId (set_reason DownloadEndReason.NET_NOT_AVAILIABLE progressInfo)
      else CallbackDownloadFailProgress downloadError.

(** [firmwareProgressCallback_] is never assigned: calling it throws, which is the
    result [false]. *)
(*@ upgrade/executor/src/firmware_download_executor.cpp FirmwareDownloadExecutor::DoDownload *)
Definition DoDownload : Exec bool :=
  let* components := this_ components_ in
  let* (_, components) := on_world (on_db (FirmwareComponentOperator.QueryAll components)) in
  set_this (set_components components) ;;;
  match components with
  | [] => ret false
  | _ =>
      GetTask ;;;
      let* task := this_ tasks_ in
      (if String.eqb (FirmwareTask.downloadTaskId task) "" then PerformDownload
       else PerformResumeDownload) ;;;
      ret true
  end.
End ops.
End FirmwareDownloadExecutor.

(** ** FirmwareCheckExecutor *)

Module CheckAndAuthInfo.
(*@ firmware/common/include/firmware_common.h CheckAndAuthInfo *)
Record t := { responseStatus : string }.
End CheckAndAuthInfo.

(** [FirmwareICheck::DoAction]: the request to the server.  It calls back at most
    once, with the answer. *)
Class CheckKits (E : Type) := {
  DoAction : ST E (option (CheckStatus * Duration.t * list FirmwareComponent.t * CheckAndAuthInfo.t))
}.
(** The packages it tells can be stored. *)
Class CheckKitsLaws (E : Type) `{CheckKits E} : Prop :=
  answer_wf e st d new ai : eval DoAction e = Some (st, d, new, ai) → Forall Component.wf new.
(** [FirmwareStatusCache] *)
Class CheckCache (E : Type) := {
  IsChecking : E → bool;
  SetIsChecking : bool → ST E unit
}.

Module FirmwareCheckExecutor.
(*@ upgrade/executor/include/firmware_check_executor.h:37-41 FirmwareCheckExecutor *)
Record t := {
  duration_ : Duration.t;
  checkAndAuthInfo_ : CheckAndAuthInfo.t;
  componentList_ : list FirmwareComponent.t;
  status_ : CheckStatus
}.
(*@ upgrade/executor/include/firmware_check_executor.h:37-41 FirmwareCheckExecutor *)
Definition new : t := {|
  duration_ := Duration.default; checkAndAuthInfo_ := {| CheckAndAuthInfo.responseStatus := "" |};
  componentList_ := []; status_ := CHECK_SUCCESS |}.

Definition set_status (status : Z) (component : FirmwareComponent.t) : FirmwareComponent.t :=
  Component.with_progress status (FirmwareComponent.progress component) component.
(*@ upgrade/executor/src/firmware_check_executor.cpp FirmwareCheckExecutor::SetComponentCheckStatus *)
Definition SetComponentCheckStatus (componentList : list FirmwareComponent.t) : list FirmwareComponent.t :=
  map (set_status UpgradeStatus.CHECK_VERSION_SUCCESS) componentList.

Section ops.
Context {R E C : Type} `{CheckKits E, CheckCache E}.
#[local] Notation Exec := (ST (t * (C * World R E))).
Context (firmwareComponentCallback :
  option (CheckStatus * Duration.t * list FirmwareComponent.t * CheckAndAuthInfo.t → ST (C * World R E) unit)).

(*@ upgrade/executor/src/firmware_check_executor.cpp FirmwareCheckExecutor::Complete *)
Definition Complete : Exec unit :=
  on_world (on_env (SetIsChecking false)) ;;;
  let* this := this_ (λ this, this) in
  call firmwareComponentCallback (status_ this, duration_ this, componentList_ this, checkAndAuthInfo_ this).
(*@ upgrade/executor/src/firmware_check_executor.cpp FirmwareCheckExecutor::DoCheck *)
Definition DoCheck : Exec unit :=
  let* answer := on_world (on_env DoAction) in
  match answer with
  | None => ret tt
  | Some (status, duration, firmwareCheckResultList, checkAndAuthInfo) =>
      let nothing := match status, firmwareCheckResultList with CHECK_FAIL, _ | _, [] => true | _, _ => false end in
      set_this (λ _, {| duration_ := duration; checkAndAuthInfo_ := checkAndAuthInfo;
                        componentList_ :=
                          if nothing then firmwareCheckResultList else SetComponentCheckStatus firmwareCheckResultList;
                        status_ := status |}) ;;;
      Complete
  end.
End ops.
End FirmwareCheckExecutor.

(** ** FirmwareApplyExecutor *)

(** [DoReboot(NULL)] of the init service, after a wait of two seconds. *)
Class RebootKits (E : Type) := { DoReboot : ST E unit }.

Module FirmwareApplyExecutor.
(*@ firmware/common/include/firmware_constant.h SLEEP_TIME_BEFORE_REBOOT *)
Definition SLEEP_TIME_BEFORE_REBOOT : Z := 2.
Section ops.
Context {R E C : Type} `{Rdb R, RebootKits E}.
#[local] Notation Exec := (ST (list FirmwareComponent.t * (C * World R E))).
Context (applyCallback : option (bool → ST (C * World R E) unit)).
(** The only field that matters is [components_]. *)
(*@ upgrade/executor/src/firmware_apply_executor.cpp FirmwareApplyExecutor::DoInstall *)
Definition DoInstall : Exec unit :=
  let* components := this_ (λ components, components) in
  let* (_, components) := on_world (on_db (FirmwareComponentOperator.QueryAll components)) in
  set_this (λ _, components) ;;;
  match components with
  | [] => call applyCallback false
  | _ => on_world (on_env DoReboot)
  end.
End ops.
End FirmwareApplyExecutor.
