(* ===== verification/CheckAnalysis.v ===== *)
(** * The answer of the server

    Models [firmware_check_analyze_utils.cpp], which makes the components of a new
    version from the JSON text of an answer and writes the changelog,
    [firmware_combine_version_utils.cpp], and the request itself,
    [firmware_icheck.h].  Sockets and TLS are a class.  The counts of [ret], one for
    each member that is missing or has another type, are not wrapped: an answer has at
    most 4096 bytes. *)
From Stdlib Require Import ZArith Lia Ascii String.
From stdpp Require Import base tactics list strings gmap sets.
From S2P Require Import Prelude CppString StringUtils Files JsonUtils Models Database FirmwareDb FirmwareStore FirmwareWorld FirmwareHelper CheckProcessor DownloadData DownloadManager DownloadExecutor.
Import StringUtils (int32_t, int64_t).
Import UpdateServiceJsonUtils.

#[local] Open Scope Z_scope.

Module CheckResultStatus.
(*@* firmware/common/include/firmware_common.h CheckResultStatus *)
Definition STATUS_SYSTEM_ERROR : Z := -1.
Definition STATUS_NEW_VERSION_AVAILABLE : Z := 0.
Definition STATUS_NEW_VERSION_NOT_AVAILABLE : Z := 1.
Definition STATUS_SERVER_IS_BUSY : Z := 2.
End CheckResultStatus.

(** ** What the answer says of the bootloader versions *)
Module UpdatePackage.
(*@ firmware/common/include/firmware_common.h UpdatePackage *)
Record t := { versionId : string; packageIndex : Z; versionPackageType : Z }.
End UpdatePackage.
Module TargetBlComponent.
(*@ firmware/common/include/firmware_common.h TargetBlComponent *)
Record t := { versionNumber : string; displayVersionNumber : string; versionPackageType : Z }.
End TargetBlComponent.
Module BlVersionCheckResult.
(*@ firmware/common/include/firmware_common.h BlVersionCheckResult *)
Record t := {
  status : string; pollingPeriod : string; blVersionInfo : string; blVersionType : Z; descriptPackageId : string;
  updatePackages : list UpdatePackage.t; targetBlComponents : list TargetBlComponent.t
}.
End BlVersionCheckResult.
Module Version.
(*@ firmware/common/include/firmware_common.h Version *)
Record t := { url : string; reserveUrl : string; storageType : Z; versionId : string; versionNumber : string }.
End Version.
Module BlCheckResponse.
(*@ firmware/common/include/firmware_common.h BlCheckResponse *)
Record t := { status : string; blVersionCheckResults : list BlVersionCheckResult.t; versionList : list Version.t }.
(*@ firmware/common/include/firmware_common.h BlCheckResponse *)
Definition default : t := {| status := ""; blVersionCheckResults := []; versionList := [] |}.
End BlCheckResponse.

(** ** FirmwareCheckAnalyzeUtils *)
Module FirmwareCheckAnalyzeUtils.
(*@ firmware/utils/src/firmware_check_analyze_utils.cpp MAX_FILE_NAME_LENGTH *)
Definition MAX_FILE_NAME_LENGTH : nat := 255.

(** The patterns a file name must not contain. *)
Definition invalidPattens : list string := [".."; "/"; String (ascii_of_nat 92) ""].
(*@ firmware/utils/src/firmware_check_analyze_utils.cpp FirmwareCheckAnalyzeUtils::IsValidFileName *)
Definition IsValidFileName (fileName : string) : bool :=
  if String.eqb fileName "" then false
  else if (MAX_FILE_NAME_LENGTH <? len fileName)%nat then false
  else negb (existsb (λ pattern, bool_decide (is_Some (find fileName pattern 0))) invalidPattens).
(*@ firmware/utils/src/firmware_check_analyze_utils.cpp FirmwareCheckAnalyzeUtils::IsLegalStatus *)
Definition IsLegalStatus (status : Z) : bool :=
  (status =? CheckResultStatus.STATUS_NEW_VERSION_AVAILABLE) || (status =? CheckResultStatus.STATUS_NEW_VERSION_NOT_AVAILABLE).
(** The name after the last slash: the search cannot fail past the end. *)
Definition file_name (url : string) : string := default "" (StringUtils.GetLastSplitString url "/").

Section ops.
Context {E J : Type} `{Platform E, FileSystem E, CJson J}.
(** The first values of the two variables without an initialiser,
    [FirmwareComponent::isNeedRestart] and [descriptInfoType]. *)
Context (isNeedRestart : bool) (descriptInfoType : Z).
Implicit Types (root item : J).

#[local] Notation text := (GetValueAndSetTo as_string).
#[local] Notation int32 := (GetValueAndSetTo (as_integer int32_t)).
#[local] Notation int64 := (GetValueAndSetTo (as_integer int64_t)).
(** The elements [cJSON_GetArrayItem] gives for the indices below the size. *)
Definition array_items (items : J) : list (option J) :=
  map (λ i, cJSON_GetArrayItem items (Z.of_nat i)) (seq 0 (Z.to_nat (cJSON_GetArraySize items))).

(** One turn of the loop: what it adds to [ret], and to the response. *)
(*@ firmware/utils/src/firmware_check_analyze_utils.cpp:88-109 FirmwareCheckAnalyzeUtils::AnalyzeBlVersionCheckResults *)
Definition bl_item (status : Z) (item : J) : Z * BlVersionCheckResult.t * Version.t :=
  let (r1, descriptPackageId) := text (Some item) "descriptPackageId" "" in
  let (r2, versionPackageType) := int32 (Some item) "packageType" PackageType.DYNAMIC in
  let package := {| UpdatePackage.versionId := "1"; UpdatePackage.packageIndex := 0;
                    UpdatePackage.versionPackageType := versionPackageType |} in
  let (r3, displayVersionNumber) := text (Some item) "versionName" "" in
  let (r4, componentVersion) := text (Some item) "versionName" "" in
  let component := {| TargetBlComponent.versionNumber := componentVersion;
                      TargetBlComponent.displayVersionNumber := displayVersionNumber;
                      TargetBlComponent.versionPackageType := versionPackageType |} in
  let (r5, versionNumber) := text (Some item) "versionCode" "" in
  let (r6, url) := text (Some item) "url" "" in
  (r1 + r2 + r3 + r4 + r5 + r6,
   {| BlVersionCheckResult.status := to_string status; BlVersionCheckResult.pollingPeriod := "";
      BlVersionCheckResult.blVersionInfo := ""; BlVersionCheckResult.blVersionType := 1;
      BlVersionCheckResult.descriptPackageId := descriptPackageId; BlVersionCheckResult.updatePackages := [package];
      BlVersionCheckResult.targetBlComponents := [component] |},
   {| Version.url := url; Version.reserveUrl := ""; Version.storageType := 0; Version.versionId := "1";
      Version.versionNumber := versionNumber |}).
(*@ firmware/utils/src/firmware_check_analyze_utils.cpp FirmwareCheckAnalyzeUtils::AnalyzeBlVersionCheckResults *)
Fixpoint AnalyzeBlVersionCheckResults_loop (status : Z) (items : list (option J)) (ret : Z) (response : BlCheckResponse.t) :
    Z * BlCheckResponse.t :=
  match items with
  | [] => (ret, response)
  | None :: items => AnalyzeBlVersionCheckResults_loop status items ret response
  | Some item :: items =>
      let '(r, checkResult, version) := bl_item status item in
      AnalyzeBlVersionCheckResults_loop status items (ret + r)
        {| BlCheckResponse.status := BlCheckResponse.status response;
           BlCheckResponse.blVersionCheckResults := BlCheckResponse.blVersionCheckResults response ++ [checkResult];
           BlCheckResponse.versionList := BlCheckResponse.versionList response ++ [version] |}
  end.
(*@ firmware/utils/src/firmware_check_analyze_utils.cpp FirmwareCheckAnalyzeUtils::AnalyzeBlVersionCheckResults *)
Definition AnalyzeBlVersionCheckResults (root : J) (response : BlCheckResponse.t) : Z * BlCheckResponse.t :=
  match cJSON_GetObjectItemCaseSensitive root "checkResults" with
  | None => (json_error MISSING_PROP, response)
  | Some itemCheckResults =>
      let (_, status) := int32 (Some root) "searchStatus" CheckResultStatus.STATUS_SYSTEM_ERROR in
      if status =? CheckResultStatus.STATUS_NEW_VERSION_AVAILABLE then
        AnalyzeBlVersionCheckResults_loop status (array_items itemCheckResults) (json_error ERR_OK) response
      else (json_error ERR_OK, response)
  end.

(** One turn of the loop over the packages: what it adds to [ret], and the component,
    when it is kept. *)
(*@ firmware/utils/src/firmware_check_analyze_utils.cpp:189-221 FirmwareCheckAnalyzeUtils::ProcessCheckResults *)
Definition check_result (itemResult : J) : Z * option FirmwareComponent.t :=
  let d := FirmwareComponent.default isNeedRestart in
  let (r1, descriptPackageId) := text (Some itemResult) "descriptPackageId" (FirmwareComponent.descriptPackageId d) in
  let (r2, url) := text (Some itemResult) "url" (FirmwareComponent.url d) in
  let (r3, size) := int64 (Some itemResult) "size" (FirmwareComponent.size d) in
  if size <=? 0 then (r1 + r2 + r3, None)
  else
    let fileName := file_name url in
    if negb (IsValidFileName fileName) then (r1 + r2 + r3, None)
    else
      let (r4, verifyInfo) := text (Some itemResult) "verifyInfo" (FirmwareComponent.verifyInfo d) in
      let (r5, versionNumber) := text (Some itemResult) "versionCode" (FirmwareComponent.versionNumber d) in
      let (r6, targetBlVersionNumber) := text (Some itemResult) "versionName" (FirmwareComponent.targetBlVersionNumber d) in
      let (r7, versionPackageType) := int32 (Some itemResult) "packageType" PackageType.DYNAMIC in
      let (r8, otaType) := int32 (Some itemResult) "otaType" OtaMode.REGULAR_OTA in
      (r1 + r2 + r3 + r4 + r5 + r6 + r7 + r8,
       Some {|
         FirmwareComponent.id := FirmwareComponent.id d;
         FirmwareComponent.versionId := FirmwareComponent.versionId d;
         FirmwareComponent.packageIndex := FirmwareComponent.packageIndex d;
         FirmwareComponent.versionPackageType := versionPackageType;
         FirmwareComponent.otaType := otaType;
         FirmwareComponent.targetBlVersionNumber := targetBlVersionNumber;
         FirmwareComponent.targetBlDisplayVersionNumber := targetBlVersionNumber;
         FirmwareComponent.versionNumber := versionNumber;
         FirmwareComponent.blVersionInfo := FirmwareComponent.blVersionInfo d;
         FirmwareComponent.componentId := descriptPackageId;
         FirmwareComponent.descriptPackageId := descriptPackageId;
         FirmwareComponent.changelogUrl := FirmwareComponent.changelogUrl d;
         FirmwareComponent.blVersionType := 1;
         FirmwareComponent.isNeedRestart := FirmwareComponent.isNeedRestart d;
         FirmwareComponent.patchType := FirmwareComponent.patchType d;
         FirmwareComponent.url := url;
         FirmwareComponent.reserveUrl := FirmwareComponent.reserveUrl d;
         FirmwareComponent.storageType := FirmwareComponent.storageType d;
         FirmwareComponent.fileName := fileName;
         FirmwareComponent.size := size;
         FirmwareComponent.verifyInfo := verifyInfo;
         FirmwareComponent.spath := FirmwareComponent.spath d;
         FirmwareComponent.status := FirmwareComponent.status d;
         FirmwareComponent.progress := FirmwareComponent.progress d;
         FirmwareComponent.recordPoint := FirmwareComponent.recordPoint d |}).
(*@ firmware/utils/src/firmware_check_analyze_utils.cpp FirmwareCheckAnalyzeUtils::ProcessCheckResults *)
Fixpoint ProcessCheckResults_loop (items : list (option J)) (ret : Z) (components_ : list FirmwareComponent.t) :
    Z * list FirmwareComponent.t :=
  match items with
  | [] => (ret, components_)
  | None :: items => ProcessCheckResults_loop items ret components_
  | Some itemResult :: items =>
      let (r, component) := check_result itemResult in
      ProcessCheckResults_loop items (ret + r) (components_ ++ option_list component)
  end.
(*@ firmware/utils/src/firmware_check_analyze_utils.cpp FirmwareCheckAnalyzeUtils::ProcessCheckResults *)
Definition ProcessCheckResults (checkResults : J) (components_ : list FirmwareComponent.t) : Z * list FirmwareComponent.t :=
  ProcessCheckResults_loop (array_items checkResults) (json_error ERR_OK) components_.

(** The word that stands for a quotation mark, and the mark. *)
Definition subString : string := "quota".
Definition replString : string := String (ascii_of_nat 34) "".
(*@ firmware/utils/src/firmware_check_analyze_utils.cpp:238-254 FirmwareCheckAnalyzeUtils::ProcessDescriptInfo *)
Definition descript_item (componentId : string) (itemInfo : J) : ST E Z :=
  let (r1, descriptInfoType) := int32 (Some itemInfo) "descriptionType" descriptInfoType in
  let (r2, descContent) := text (Some itemInfo) "content" "" in
  let descContent := default descContent (StringUtils.ReplaceStringAll descContent subString replString) in
  let changelogFilePath := Firmware.CHANGELOG_PATH +:+ "/" +:+ componentId +:+ ".xml" in
  let data := to_string descriptInfoType +:+ "|" +:+ descContent in
  Files.FileUtils.SaveDataToFile changelogFilePath data ;;;
  ret (r1 + r2).
(*@ firmware/utils/src/firmware_check_analyze_utils.cpp FirmwareCheckAnalyzeUtils::ProcessDescriptInfo *)
Fixpoint ProcessDescriptInfo_loop (componentId : string) (items : list (option J)) (acc : Z) : ST E Z :=
  match items with
  | [] => ret acc
  | None :: items => ProcessDescriptInfo_loop componentId items acc
  | Some itemInfo :: items =>
      let* r := descript_item componentId itemInfo in
      ProcessDescriptInfo_loop componentId items (acc + r)
  end.
(*@ firmware/utils/src/firmware_check_analyze_utils.cpp FirmwareCheckAnalyzeUtils::ProcessDescriptInfo *)
Definition ProcessDescriptInfo (descriptInfo : J) (components_ : list FirmwareComponent.t) : ST E Z :=
  let componentId := match last components_ with None => "" | Some c => FirmwareComponent.descriptPackageId c end in
  ProcessDescriptInfo_loop componentId (array_items descriptInfo) (json_error ERR_OK).

(** [false] when the sum of the sizes exceeds an [int64_t]. *)
(*@ firmware/utils/src/firmware_check_analyze_utils.cpp:133-140 FirmwareCheckAnalyzeUtils::AnalyzeComponents *)
Fixpoint total_size_fits (components_ : list FirmwareComponent.t) (totalSize : Z) : bool :=
  match components_ with
  | [] => true
  | component :: rest =>
      if INT64_MAX - FirmwareComponent.size component <? totalSize then false
      else total_size_fits rest (totalSize + FirmwareComponent.size component)
  end.
(*@ firmware/utils/src/firmware_check_analyze_utils.cpp FirmwareCheckAnalyzeUtils::AnalyzeComponents *)
Definition AnalyzeComponents (root : J) (components_ : list FirmwareComponent.t) : ST E (Z * list FirmwareComponent.t) :=
  match cJSON_GetObjectItemCaseSensitive root "checkResults" with
  | None => ret (json_error MISSING_PROP, components_)
  | Some itemCheckResults =>
      let (r, components_) := ProcessCheckResults itemCheckResults components_ in
      if negb (total_size_fits components_ 0) then ret (json_error MISSING_PROP, components_)
      else
        match cJSON_GetObjectItemCaseSensitive root "descriptInfo" with
        | None => ret (json_error MISSING_PROP, components_)
        | Some itemDescriptInfo =>
            let* r' := ProcessDescriptInfo itemDescriptInfo components_ in
            ret (json_error ERR_OK + r + r', components_)
        end
  end.
(** The duration is left alone. *)
(*@ firmware/utils/src/firmware_check_analyze_utils.cpp FirmwareCheckAnalyzeUtils::DoAnalyze *)
Definition DoAnalyze (rawJson : string) (components : list FirmwareComponent.t) (checkAndAuthInfo : CheckAndAuthInfo.t) :
    ST E (list FirmwareComponent.t * CheckAndAuthInfo.t) :=
  match ParseJson rawJson with
  | None => ret (components, checkAndAuthInfo)
  | Some root =>
      let (_, status) := int32 (Some root) "searchStatus" CheckResultStatus.STATUS_SYSTEM_ERROR in
      let checkAndAuthInfo := {| CheckAndAuthInfo.responseStatus := to_string status |} in
      if negb (IsLegalStatus status) then ret (components, checkAndAuthInfo)
      else
        let* (r, components_) :=
          if status =? CheckResultStatus.STATUS_NEW_VERSION_AVAILABLE then
            let (r, _) := AnalyzeBlVersionCheckResults root BlCheckResponse.default in
            let* (r', components_) := AnalyzeComponents root [] in
            ret (json_error ERR_OK + r + r', components_)
          else ret (json_error ERR_OK, []) in
        ret (if r =? json_error ERR_OK then components_ else components, checkAndAuthInfo)
  end.
End ops.
End FirmwareCheckAnalyzeUtils.

(** ** What an answer means *)
Section analysis.
Context {E J : Type} `{Platform E, FileSystem E, CJson J}.
Context (isNeedRestart : bool) (descriptInfoType : Z).
Import FirmwareCheckAnalyzeUtils.
Implicit Types (root item : J) (items : list (option J)) (cs : list FirmwareComponent.t) (e : E).

(** The object has the member, and the member the type. *)
Definition has {A} (check : J → option A) item (key : string) : Prop :=
  ∃ j, cJSON_GetObjectItemCaseSensitive item key = Some j ∧ is_Some (check j).
Lemma get_error {A} (check : J → option A) item key v : key ≠ "" →
  let r := (GetValueAndSetTo check (Some item) key v).1 in 0 ≤ r ∧ (r = 0 ↔ has check item key).
Proof.
  intros Hk. unfold GetValueAndSetTo, has. apply String.eqb_neq in Hk. rewrite Hk.
  destruct (cJSON_GetObjectItemCaseSensitive item key) as [j|]; [|cbn; split; [lia|]; split; [lia|naive_solver]].
  destruct (check j) as [a|] eqn:Hj; cbn; (split; [lia|]); split; [eauto|done|lia|].
  intros (j' & [= <-] & [a Ha]). congruence.
Qed.
(** What every package must tell. *)
Definition tells_version item : Prop :=
  has as_string item "descriptPackageId" ∧ has (as_integer int32_t) item "packageType" ∧
  has as_string item "versionName" ∧ has as_string item "versionCode" ∧ has as_string item "url".
(** The package is kept: its size is positive and its name is that of a file. *)
Definition package_size item : Z := (GetValueAndSetTo (as_integer int64_t) (Some item) "size" 0).2.
Definition package_name item : string := file_name (GetValueAndSetTo as_string (Some item) "url" "").2.
Definition kept item : bool := (0 <? package_size item) && IsValidFileName (package_name item).
(** It tells all it must; one that is not kept need not tell everything. *)
Definition complete item : Prop :=
  tells_version item ∧ has (as_integer int64_t) item "size" ∧
  (kept item = true → has as_string item "verifyInfo" ∧ has (as_integer int32_t) item "otaType").
Definition component item : option FirmwareComponent.t := (check_result isNeedRestart item).2.
Definition components_of items : list FirmwareComponent.t := omap (λ x, x ≫= component) items.

(** The errors of the members read so far. *)
Ltac errors :=
  repeat case_match; cbn [fst snd] in *;
  repeat match goal with Hq : GetValueAndSetTo ?c (Some ?i) ?k ?v = (?r, _) |- _ =>
    let Hr := fresh in let Hp := fresh in
    destruct (get_error c i k v ltac:(done)) as [Hp Hr]; rewrite Hq in Hp, Hr; cbn [fst] in Hp, Hr;
    rewrite <- ?Hr; clear Hq Hr end; lia.
Lemma bl_item_error status item : let r := (bl_item status item).1.1 in 0 ≤ r ∧ (r = 0 ↔ tells_version item).
Proof.
  cbv zeta. unfold tells_version, bl_item. errors.
Qed.
(** What the second pass adds. *)
Definition tells_rest item : Prop :=
  has as_string item "verifyInfo" ∧ has as_string item "versionCode" ∧ has as_string item "versionName" ∧
  has (as_integer int32_t) item "packageType" ∧ has (as_integer int32_t) item "otaType".
Lemma check_result_error item :
  let r := (check_result isNeedRestart item).1 in
  0 ≤ r ∧ (r = 0 ↔ has as_string item "descriptPackageId" ∧ has as_string item "url" ∧ has (as_integer int64_t) item "size" ∧
                   (kept item = true → tells_rest item)).
Proof.
  cbv zeta. unfold check_result, kept, package_size, package_name, tells_rest. cbn [FirmwareComponent.size FirmwareComponent.url FirmwareComponent.default].
  destruct (GetValueAndSetTo as_string (Some item) "url" "") as [ru url] eqn:Hu.
  destruct (GetValueAndSetTo (as_integer int64_t) (Some item) "size" 0) as [rs size] eqn:Hs. cbn [snd].
  destruct (Z.leb_spec size 0) as [Hle|Hle].
  - rewrite (proj2 (Z.ltb_ge _ _)) by lia. cbn [andb]. errors.
  - rewrite (proj2 (Z.ltb_lt _ _)) by lia. cbn [andb]. destruct (IsValidFileName _); cbn [negb]; errors.
Qed.
(** A component that is kept is safe to download. *)
Definition safe (c : FirmwareComponent.t) : Prop :=
  IsValidFileName (FirmwareComponent.fileName c) = true ∧ FirmwareComponent.fileName c = file_name (FirmwareComponent.url c) ∧
  0 < FirmwareComponent.size c ∧ FirmwareComponent.componentId c = FirmwareComponent.descriptPackageId c ∧
  FirmwareComponent.versionId c = "" ∧ FirmwareComponent.status c = UpgradeStatus.INIT.
Lemma component_kept item :
  match component item with
  | Some c => kept item = true ∧ safe c ∧ FirmwareComponent.size c = package_size item ∧ FirmwareComponent.fileName c = package_name item
  | None => kept item = false
  end.
Proof.
  unfold component, check_result, kept, package_size, package_name. cbn [FirmwareComponent.size FirmwareComponent.url FirmwareComponent.default].
  destruct (GetValueAndSetTo as_string (Some item) "descriptPackageId" _) as [rd descr].
  destruct (GetValueAndSetTo as_string (Some item) "url" "") as [ru url].
  destruct (GetValueAndSetTo (as_integer int64_t) (Some item) "size" 0) as [rs size]. cbn [snd].
  destruct (Z.leb_spec size 0); [cbn [snd]; by rewrite (proj2 (Z.ltb_ge _ _)) by lia|].
  rewrite (proj2 (Z.ltb_lt _ _)) by lia. cbn [andb].
  destruct (IsValidFileName _) eqn:Hv; cbn [negb snd]; [|done].
  repeat match goal with |- context [GetValueAndSetTo ?c ?i ?k ?v] => destruct (GetValueAndSetTo c i k v) end.
  cbn [snd]. unfold safe. by repeat split.
Qed.

(** It can be stored. *)
Lemma component_wf `{!CJsonLaws J} item c : component item = Some c → Component.wf c.
Proof.
  unfold component, check_result. intros Hc.
  pose proof (λ key v, GetValueAndSetTo_bounds int32_t (Some item) key v IntegerFacts.integral_int32) as H32.
  pose proof (λ key v, GetValueAndSetTo_bounds int64_t (Some item) key v IntegerFacts.integral_int64) as H64.
  destruct (GetValueAndSetTo as_string (Some item) "descriptPackageId" _) as [rd descr].
  destruct (GetValueAndSetTo as_string (Some item) "url" _) as [ru url].
  specialize (H64 "size" (FirmwareComponent.size (FirmwareComponent.default isNeedRestart)) ltac:(by vm_compute)).
  destruct (GetValueAndSetTo (as_integer int64_t) (Some item) "size" _) as [rs size]. cbn [snd] in H64.
  destruct (size <=? 0); [done|]. destruct (negb _); [done|].
  repeat match type of Hc with context [GetValueAndSetTo as_string ?i ?k ?v] => destruct (GetValueAndSetTo as_string i k v) end.
  pose proof (H32 "packageType" PackageType.DYNAMIC ltac:(by vm_compute)) as Hp.
  pose proof (H32 "otaType" OtaMode.REGULAR_OTA ltac:(by vm_compute)) as Ho.
  destruct (GetValueAndSetTo (as_integer int32_t) (Some item) "packageType" _) as [rp type].
  destruct (GetValueAndSetTo (as_integer int32_t) (Some item) "otaType" _) as [ro ota]. cbn [snd] in *. injection Hc as <-.
  unfold Component.wf. cbn. by split_and!.
Qed.
Lemma components_of_wf `{!CJsonLaws J} items : Forall Component.wf (components_of items).
Proof.
  unfold components_of. apply Forall_forall. intros c Hc. apply list_elem_of_omap in Hc as ([item|] & _ & Hc); [|done]. by eapply component_wf.
Qed.

(** The loops. *)
Lemma sum_zero a b (P Q : Prop) : 0 ≤ a ∧ (a = 0 ↔ P) → 0 ≤ b ∧ (b = 0 ↔ Q) → 0 ≤ a + b ∧ (a + b = 0 ↔ P ∧ Q).
Proof. intros [Ha HP] [Hb HQ]. rewrite <- HP, <- HQ. lia. Qed.
Lemma Forall_option_cons (P : J → Prop) (o : option J) items :
  Forall (λ x, from_option P True x) (o :: items) ↔ from_option P True o ∧ Forall (λ x, from_option P True x) items.
Proof. apply Forall_cons. Qed.
(** All the items that are there satisfy [P]. *)
Definition all_items (P : J → Prop) items : Prop := Forall (λ x, from_option P True x) items.
Lemma bl_loop_error status items r response (P : Prop) : 0 ≤ r ∧ (r = 0 ↔ P) →
  let r' := (AnalyzeBlVersionCheckResults_loop status items r response).1 in
  0 ≤ r' ∧ (r' = 0 ↔ P ∧ all_items tells_version items).
Proof.
  revert r response P. unfold all_items. induction items as [|[item|] items IH]; intros r response P Hr; cbn [AnalyzeBlVersionCheckResults_loop fst].
  - rewrite Forall_nil. intuition.
  - pose proof (bl_item_error status item) as Hi. destruct (bl_item status item) as [[ri cr] v]. cbn [fst] in Hi.
    pose proof (λ rs, IH (r + ri) rs (P ∧ tells_version item) (sum_zero _ _ _ _ Hr Hi)) as IH'. rewrite Forall_option_cons. cbn [from_option].
    rewrite (assoc (∧)). apply IH'.
  - rewrite Forall_option_cons. specialize (IH r response P Hr). cbn [from_option]. intuition.
Qed.
(** What the second pass asks of an item. *)
Definition tells_more item : Prop :=
  has as_string item "descriptPackageId" ∧ has as_string item "url" ∧ has (as_integer int64_t) item "size" ∧
  (kept item = true → tells_rest item).
Lemma check_loop items r cs (P : Prop) : 0 ≤ r ∧ (r = 0 ↔ P) →
  let (r', cs') := ProcessCheckResults_loop isNeedRestart items r cs in
  cs' = cs ++ components_of items ∧ 0 ≤ r' ∧ (r' = 0 ↔ P ∧ all_items tells_more items).
Proof.
  revert r cs P. unfold all_items, components_of. induction items as [|[item|] items IH]; intros r cs P Hr; cbn [ProcessCheckResults_loop omap list_omap].
  - rewrite app_nil_r, Forall_nil. intuition.
  - pose proof (check_result_error item) as Hi. unfold component. cbn [mbind option_bind].
    destruct (check_result isNeedRestart item) as [ri c]. cbn [fst snd] in *.
    specialize (IH (r + ri) (cs ++ option_list c) (P ∧ tells_more item) (sum_zero _ _ _ _ Hr Hi)).
    destruct (ProcessCheckResults_loop _ _ _ _) as [r' cs']. destruct IH as (-> & H0' & Hr'). rewrite Forall_option_cons. cbn [from_option].
    split; [rewrite <- app_assoc; by destruct c|]. split; [done|]. by rewrite (assoc (∧)).
  - specialize (IH r cs P Hr). destruct (ProcessCheckResults_loop _ _ _ _) as [r' cs']. rewrite Forall_option_cons.
    cbn [from_option mbind option_bind]. intuition.
Qed.
Lemma complete_passes items : all_items complete items ↔ all_items tells_version items ∧ all_items tells_more items.
Proof.
  unfold all_items. rewrite <- Forall_and. apply Forall_iff. intros [item|]; cbn; [|done].
  unfold complete, tells_more, tells_rest, tells_version. tauto.
Qed.

(** The descriptions, and what is written to the changelog for each. *)
Definition describes item : Prop := has (as_integer int32_t) item "descriptionType" ∧ has as_string item "content".
Definition description item : string :=
  let type := (GetValueAndSetTo (as_integer int32_t) (Some item) "descriptionType" descriptInfoType).2 in
  let content := (GetValueAndSetTo as_string (Some item) "content" "").2 in
  to_string type +:+ "|" +:+ default content (StringUtils.ReplaceStringAll content subString replString).
Definition changelog (componentId : string) : string := Firmware.CHANGELOG_PATH +:+ "/" +:+ componentId +:+ ".xml".
Definition write_changelog (componentId : string) items : ST E unit :=
  for_each (omap id items) (λ item, ofstream_trunc (changelog componentId) (description item) ;;; ret tt).
Lemma descript_item_run componentId item e :
  let r := eval (descript_item descriptInfoType componentId item) e in
  (0 ≤ r ∧ (r = 0 ↔ describes item)) ∧
  exec (descript_item descriptInfoType componentId item) e = exec (ofstream_trunc (changelog componentId) (description item)) e.
Proof.
  unfold descript_item, description, changelog, describes, Files.FileUtils.SaveDataToFile.
  pose proof (get_error (as_integer int32_t) item "descriptionType" descriptInfoType ltac:(done)) as H1'.
  pose proof (get_error as_string item "content" "" ltac:(done)) as H2'.
  destruct (GetValueAndSetTo (as_integer int32_t) _ _ _) as [r1 ty]. destruct (GetValueAndSetTo as_string _ _ _) as [r2 content].
  cbn [fst snd] in *. rewrite !eval_bind, !exec_bind. rewrite eval_ret, exec_ret. split; [by apply sum_zero|].
  by destruct (eval (ofstream_trunc _ _) _).
Qed.
Lemma descript_loop componentId items r e (P : Prop) : 0 ≤ r ∧ (r = 0 ↔ P) →
  let m := ProcessDescriptInfo_loop descriptInfoType componentId items r in
  (0 ≤ eval m e ∧ (eval m e = 0 ↔ P ∧ all_items describes items)) ∧ exec m e = exec (write_changelog componentId items) e.
Proof.
  revert r e P. unfold all_items, write_changelog. induction items as [|[item|] items IH]; intros r e P Hr; cbn [ProcessDescriptInfo_loop omap list_omap id].
  - rewrite eval_ret, Forall_nil. split; [intuition|done].
  - destruct (descript_item_run componentId item e) as [Hi He]. rewrite eval_bind, exec_bind, He.
    rewrite Forall_option_cons. cbn [from_option]. rewrite exec_for_each_cons, exec_bind, exec_ret, (assoc (∧)).
    exact (IH _ _ (P ∧ describes item) (sum_zero _ _ _ _ Hr Hi)).
  - rewrite Forall_option_cons. cbn [from_option]. destruct (IH r e P Hr) as [? Hx]. split; [intuition|exact Hx].
Qed.

(** The sum of the sizes. *)
Definition total_size cs : Z := foldr (λ c n, FirmwareComponent.size c + n) 0 cs.
Lemma total_size_pos cs : Forall safe cs → 0 ≤ total_size cs.
Proof. induction 1 as [|c cs (_ & _ & Hc & _) _ IH]; cbn; [done|]. fold (total_size cs). lia. Qed.
Lemma total_size_fits_spec cs acc : Forall safe cs → acc ≤ INT64_MAX →
  total_size_fits cs acc = (acc + total_size cs <=? INT64_MAX).
Proof.
  intros Hs. revert acc. induction Hs as [|c cs (_ & _ & Hc & _) Hs IH]; intros acc Ha; cbn; [symmetry; apply Z.leb_le; lia|].
  fold (total_size cs). pose proof (total_size_pos cs Hs).
  destruct (Z.ltb_spec (INT64_MAX - FirmwareComponent.size c) acc).
  - symmetry. apply Z.leb_gt. lia.
  - rewrite IH by lia. f_equal. lia.
Qed.
Lemma components_of_safe items : Forall safe (components_of items).
Proof.
  unfold components_of. induction items as [|[item|] items IH]; cbn [omap list_omap mbind option_bind]; [constructor| |exact IH].
  pose proof (component_kept item) as Hc. destruct (component item); [|exact IH]. constructor; [apply Hc|exact IH].
Qed.

(** The parts of an answer. *)
Definition member_items root (key : string) : list (option J) := from_option array_items [] (cJSON_GetObjectItemCaseSensitive root key).
Definition search_status root : Z :=
  (GetValueAndSetTo (as_integer int32_t) (Some root) "searchStatus" CheckResultStatus.STATUS_SYSTEM_ERROR).2.
Definition new_version root : list FirmwareComponent.t := components_of (member_items root "checkResults").
Definition fits root : Prop := total_size (new_version root) ≤ INT64_MAX.
(** It has all its parts, and they tell all they must. *)
Definition answer_complete root : Prop :=
  is_Some (cJSON_GetObjectItemCaseSensitive root "checkResults") ∧ is_Some (cJSON_GetObjectItemCaseSensitive root "descriptInfo") ∧
  all_items complete (member_items root "checkResults") ∧ fits root ∧ all_items describes (member_items root "descriptInfo").
(** The changelog is written once the packages have been read and their sizes added up. *)
Definition changelogs_written root : ST E unit :=
  match cJSON_GetObjectItemCaseSensitive root "checkResults" with
  | Some _ =>
      if total_size (new_version root) <=? INT64_MAX
      then write_changelog (from_option FirmwareComponent.descriptPackageId "" (last (new_version root))) (member_items root "descriptInfo")
      else ret tt
  | None => ret tt
  end.

Lemma analyse_new_version root e : search_status root = 0 →
  let m := AnalyzeComponents isNeedRestart descriptInfoType root [] in
  let r := (AnalyzeBlVersionCheckResults root BlCheckResponse.default).1 + (eval m e).1 in
  (r = 0 ↔ answer_complete root) ∧ (r = 0 → (eval m e).2 = new_version root) ∧ exec m e = exec (changelogs_written root) e.
Proof.
  intros Hst. unfold AnalyzeBlVersionCheckResults, AnalyzeComponents, answer_complete, changelogs_written, fits, new_version, member_items.
  destruct (cJSON_GetObjectItemCaseSensitive root "checkResults") as [results|] eqn:Hres; cbn [from_option].
  2:{ rewrite eval_ret, exec_ret. cbn. split; [|done]. split; [done|]. intros [[? ?] _]. done. }
  unfold search_status in Hst. destruct (GetValueAndSetTo (as_integer int32_t) (Some root) "searchStatus" _) as [rs status]. cbn [snd] in Hst. subst status.
  change (0 =? _) with true. cbv iota.
  pose proof (bl_loop_error 0 (array_items results) (json_error ERR_OK) BlCheckResponse.default True ltac:(cbn; lia)) as Hb. cbv zeta in Hb.
  set (rb := (AnalyzeBlVersionCheckResults_loop _ _ _ _).1) in *.
  unfold ProcessCheckResults. pose proof (check_loop (array_items results) (json_error ERR_OK) [] True ltac:(cbn; lia)) as Hc.
  destruct (ProcessCheckResults_loop _ _ _ _) as [rc cs']. destruct Hc as (-> & Hc0 & Hc). cbn [app].
  set (cs' := components_of (array_items results)) in *. rewrite (total_size_fits_spec cs' 0 (components_of_safe _)) by (unfold INT64_MAX; lia).
  rewrite Z.add_0_l.
  destruct (Z.leb_spec (total_size cs') INT64_MAX) as [Hf|Hf]; cbn [negb].
  2:{ rewrite eval_ret, !exec_ret. cbn [fst snd]. split; [|split; [cbn; lia|done]].
      split; [cbn; lia|]. intros (_ & _ & _ & ? & _). lia. }
  destruct (cJSON_GetObjectItemCaseSensitive root "descriptInfo") as [descr|] eqn:Hdes; cbn [from_option].
  2:{ rewrite eval_ret, exec_ret. cbn [fst snd]. unfold write_changelog. cbn [omap list_omap]. rewrite exec_for_each_nil. cbn [json_error]. split; [|split; [lia|done]]. split; [lia|].
      intros (_ & [? ?] & _). done. }
  unfold ProcessDescriptInfo. rewrite eval_bind, exec_bind, eval_ret, exec_ret. cbn [fst snd].
  assert (from_option FirmwareComponent.descriptPackageId "" (last cs') =
    match last cs' with None => "" | Some c => FirmwareComponent.descriptPackageId c end) as -> by by destruct (last cs').
  destruct (descript_loop (match last cs' with None => "" | Some c => FirmwareComponent.descriptPackageId c end) (array_items descr)
    (json_error ERR_OK) e True ltac:(cbn; lia)) as [[Hd0 Hd] Hx].
  split; [|split; [done|exact Hx]]. rewrite complete_passes. change (json_error ERR_OK) with 0 in *.
  set (rd := eval _ e) in *. clearbody rd rb. split.
  - intros Hr. assert (rb = 0 ∧ rc = 0 ∧ rd = 0) as (-> & -> & ->) by lia. naive_solver.
  - intros (_ & _ & [Hv Hm] & _ & Hds). destruct Hb as [_ Hb]. rewrite (proj2 Hb), (proj2 Hc), (proj2 Hd) by done. done.
Qed.

(** What the analysis gives. *)
Definition analysed raw cs (ai : CheckAndAuthInfo.t) e (r : list FirmwareComponent.t * CheckAndAuthInfo.t) (e' : E) : Prop :=
  match ParseJson raw with
  | None => r = (cs, ai) ∧ e' = e
  | Some root =>
      let status := search_status root in
      r.2 = {| CheckAndAuthInfo.responseStatus := to_string status |} ∧
      if status =? CheckResultStatus.STATUS_NEW_VERSION_AVAILABLE then
        (answer_complete root ∧ r.1 = new_version root ∧ Forall safe r.1 ∨ ¬ answer_complete root ∧ r.1 = cs) ∧
        e' = exec (changelogs_written root) e
      else r.1 = (if status =? CheckResultStatus.STATUS_NEW_VERSION_NOT_AVAILABLE then [] else cs) ∧ e' = e
  end.
Lemma analysis_result raw cs ai e : wp (DoAnalyze isNeedRestart descriptInfoType raw cs ai) e (analysed raw cs ai e).
Proof.
  unfold wp, analysed, DoAnalyze. destruct (ParseJson raw) as [root|]; [|by split].
  pose proof (analyse_new_version root e) as Hnew. unfold search_status in *.
  destruct (GetValueAndSetTo (as_integer int32_t) (Some root) "searchStatus" _) as [rs status]. cbn [fst snd] in *.
  unfold IsLegalStatus. destruct (Z.eqb_spec status CheckResultStatus.STATUS_NEW_VERSION_AVAILABLE) as [->|Hs]; cbn [orb negb].
  - destruct (Hnew eq_refl) as (Hc & Hv & Hx). rewrite !eval_bind, !exec_bind.
    destruct (AnalyzeBlVersionCheckResults root BlCheckResponse.default) as [rb ?]. cbn [fst] in *.
    rewrite !eval_bind, !exec_bind. destruct (eval (AnalyzeComponents _ _ _ _) e) as [r' cs']. cbn [fst snd] in *.
    rewrite !eval_ret, !exec_ret, Hx. cbn [fst snd]. change (json_error ERR_OK) with 0 in *. rewrite Z.add_0_l. split; [done|]. split; [|done].
    destruct (Z.eqb_spec (rb + r') 0) as [Hr|Hr].
    + left. split; [by apply Hc|]. rewrite (Hv Hr). split; [done|apply components_of_safe].
    + right. split; [by rewrite <- Hc|done].
  - destruct (Z.eqb_spec status CheckResultStatus.STATUS_NEW_VERSION_NOT_AVAILABLE) as [->|]; cbn [negb].
    + by rewrite !eval_bind, !exec_bind, !eval_ret, !exec_ret.
    + by rewrite !eval_ret, !exec_ret.
Qed.

(** *** An abstract reading of an answer

    It speaks of the JSON of the answer and of characters only. *)
Definition member item (key : string) : option J := cJSON_GetObjectItemCaseSensitive item key.
Definition elements root (key : string) : list (option J) :=
  match member root key with
  | Some array => map (λ i, cJSON_GetArrayItem array (Z.of_nat i)) (seq 0 (Z.to_nat (cJSON_GetArraySize array)))
  | None => []
  end.
(** The string, and the integer of a type, of a member; which numbers are integers of a type is said by [json_integer_bounds]. *)
Definition told item (key : string) : string :=
  match member item key with Some j => if cJSON_IsString j then valuestring j else "" | None => "" end.
Definition told_number (T : StringUtils.IntType) item (key : string) (otherwise : Z) : Z :=
  match member item key with Some j => default otherwise (as_integer T j) | None => otherwise end.
Definition has_text item (key : string) : Prop := ∃ j, member item key = Some j ∧ cJSON_IsString j = true.
Definition has_number (T : StringUtils.IntType) item (key : string) : Prop := ∃ j, member item key = Some j ∧ is_Some (as_integer T j).
(** What follows the last slash. *)
Definition last_part (url : string) : string :=
  if decide ("/"%char ∈ chars url) then str (reverse (take_while (λ c, negb (Ascii.eqb c "/")) (reverse (chars url)))) else "".
(** The name of a file in the directory it is put into, and of none outside it. *)
Definition backslash : ascii := ascii_of_nat 92.
Definition plain_name (name : string) : Prop :=
  name ≠ "" ∧ (len name <= 255)%nat ∧ "/"%char ∉ chars name ∧ backslash ∉ chars name ∧
  ¬ ∃ l k, chars name = l ++ ["."; "."]%char ++ k.
Definition acceptable item : Prop := 0 < told_number int64_t item "size" 0 ∧ plain_name (last_part (told item "url")).
(** The component for a package. *)
Definition package item : FirmwareComponent.t := {|
  FirmwareComponent.id := 0;
  FirmwareComponent.versionId := "";
  FirmwareComponent.packageIndex := 0;
  FirmwareComponent.versionPackageType := told_number int32_t item "packageType" PackageType.DYNAMIC;
  FirmwareComponent.otaType := told_number int32_t item "otaType" OtaMode.REGULAR_OTA;
  FirmwareComponent.targetBlVersionNumber := told item "versionName";
  FirmwareComponent.targetBlDisplayVersionNumber := told item "versionName";
  FirmwareComponent.versionNumber := told item "versionCode";
  FirmwareComponent.blVersionInfo := "";
  FirmwareComponent.componentId := told item "descriptPackageId";
  FirmwareComponent.descriptPackageId := told item "descriptPackageId";
  FirmwareComponent.changelogUrl := "";
  FirmwareComponent.blVersionType := 1;
  FirmwareComponent.isNeedRestart := isNeedRestart;
  FirmwareComponent.patchType := 0;
  FirmwareComponent.url := told item "url";
  FirmwareComponent.reserveUrl := "";
  FirmwareComponent.storageType := 0;
  FirmwareComponent.fileName := last_part (told item "url");
  FirmwareComponent.size := told_number int64_t item "size" 0;
  FirmwareComponent.verifyInfo := told item "verifyInfo";
  FirmwareComponent.spath := "";
  FirmwareComponent.status := UpgradeStatus.INIT;
  FirmwareComponent.progress := 0;
  FirmwareComponent.recordPoint := 0 |}.
(** The packages that are kept of those the answer lists. *)
Inductive packages : list (option J) → list FirmwareComponent.t → Prop :=
  | packages_nil : packages [] []
  | packages_hole items cs : packages items cs → packages (None :: items) cs
  | packages_kept item items cs : acceptable item → packages items cs → packages (Some item :: items) (package item :: cs)
  | packages_left item items cs : ¬ acceptable item → packages items cs → packages (Some item :: items) cs.
(** What a package must tell; one that is not kept need not tell everything. *)
Definition package_told item : Prop :=
  has_text item "descriptPackageId" ∧ has_number int32_t item "packageType" ∧ has_text item "versionName" ∧ has_text item "versionCode" ∧
  has_text item "url" ∧ has_number int64_t item "size" ∧
  (acceptable item → has_text item "verifyInfo" ∧ has_number int32_t item "otaType").
Definition description_told item : Prop := has_number int32_t item "descriptionType" ∧ has_text item "content".
Definition sizes cs : Z := fold_right Z.add 0 (map FirmwareComponent.size cs).
(** An answer with the packages [cs] has both its parts, and they tell all they must. *)
Definition answer_told root cs : Prop :=
  is_Some (member root "checkResults") ∧ is_Some (member root "descriptInfo") ∧
  (∀ item, Some item ∈ elements root "checkResults" → package_told item) ∧ sizes cs ≤ INT64_MAX ∧
  (∀ item, Some item ∈ elements root "descriptInfo" → description_told item).
(** The file for the changelog of the last package is written once for each description, when the packages were read and their
    sizes add up. *)
Definition changelog_text item : string :=
  to_string (told_number int32_t item "descriptionType" descriptInfoType) +:+ "|" +:+
  default (told item "content") (StringUtils.ReplaceStringAll (told item "content") "quota" (String (ascii_of_nat 34) "")).
Definition changelog_writes root cs : list (string * string) :=
  if bool_decide (is_Some (member root "checkResults")) && (sizes cs <=? INT64_MAX)
  then map (λ item, (Firmware.CHANGELOG_PATH +:+ "/" +:+ match last cs with Some c => FirmwareComponent.descriptPackageId c | None => "" end +:+ ".xml",
                     changelog_text item)) (omap id (elements root "descriptInfo"))
  else [].

Lemma told_read item key : key ≠ "" → (GetValueAndSetTo as_string (Some item) key "").2 = told item key.
Proof.
  intros Hk%String.eqb_neq. unfold GetValueAndSetTo, told, member, as_string. rewrite Hk.
  destruct (cJSON_GetObjectItemCaseSensitive item key) as [j|]; [|done]. by destruct (cJSON_IsString j).
Qed.
Lemma told_number_read T item key v : key ≠ "" → (GetValueAndSetTo (as_integer T) (Some item) key v).2 = told_number T item key v.
Proof.
  intros Hk%String.eqb_neq. unfold GetValueAndSetTo, told_number, member. rewrite Hk.
  destruct (cJSON_GetObjectItemCaseSensitive item key) as [j|]; [|done]. by destruct (as_integer T j).
Qed.
Lemma has_text_read item key : has as_string item key ↔ has_text item key.
Proof.
  unfold has, has_text, member, as_string. split; intros (j & Hj & Hs); exists j; (split; [done|]).
  - by destruct (cJSON_IsString j); [|destruct Hs].
  - rewrite Hs. by eexists.
Qed.
Lemma file_name_last url : file_name url = last_part url.
Proof.
  unfold file_name, StringUtils.GetLastSplitString, last_part.
  destruct (find_last_of url "/") as [found|] eqn:Hf; unfold find_last_of in Hf.
  - apply find_last_index_Some in Hf as (c & Hc & Hs & Hrest). cbn in Hs. rewrite orb_false_r in Hs. apply Ascii.eqb_eq in Hs as ->.
    rewrite decide_True by (by eapply list_elem_of_lookup_2). pose proof (lookup_lt_Some _ _ _ Hc) as Hlt. rewrite len_chars in Hlt.
    unfold substr. rewrite (proj2 (Nat.ltb_ge _ _)) by lia. unfold default. cbn [from_option id]. f_equal. rewrite Nat.add_1_r.
    rewrite take_ge by (rewrite length_drop, len_chars; lia).
    rewrite <- (take_drop_middle _ _ _ Hc) at 2. rewrite reverse_app, reverse_cons, <- app_assoc. cbn [app].
    set (post := drop (S found) (chars url)) in *. rewrite <- (reverse_involutive post) at 1. f_equal.
    assert (Forall (λ c, Ascii.eqb c "/" = false) (reverse post)) as Hall.
    { apply Forall_reverse. eapply Forall_impl; [exact Hrest|]. cbn. intros c. by rewrite orb_false_r. }
    generalize (reverse (take found (chars url))) as pre. intros pre. clear -Hall. induction Hall as [|c l Hcl _ IH]; [done|].
    cbn [app take_while]. rewrite Hcl. cbn [negb]. by rewrite <- IH.
  - apply find_last_index_None in Hf. rewrite decide_False; [done|]. intros Hin. rewrite Forall_forall in Hf. by specialize (Hf _ Hin).
Qed.
Lemma valid_plain name : IsValidFileName name = true ↔ plain_name name.
Proof.
  unfold IsValidFileName, plain_name, MAX_FILE_NAME_LENGTH. destruct (String.eqb_spec name "") as [->|Hne]; [naive_solver|].
  destruct (Nat.ltb_spec 255 (len name)) as [Hl|Hl]; [split; [done|lia]|].
  unfold invalidPattens. cbn [existsb]. rewrite orb_false_r, negb_true_iff, !orb_false_iff, !bool_decide_eq_false.
  rewrite (found_sub name ".."), !found_char. change (chars "..") with ["."; "."]%char. unfold backslash. split.
  - intros (Hdots & Hslash & Hback). by split_and!.
  - intros (_ & _ & Hslash & Hback & Hdots). by split_and!.
Qed.
Lemma kept_acceptable item : kept item = true ↔ acceptable item.
Proof.
  unfold kept, acceptable, package_size, package_name. rewrite told_read, told_number_read, file_name_last, andb_true_iff, Z.ltb_lt, valid_plain by done. done.
Qed.
Lemma component_package item : component item = if kept item then Some (package item) else None.
Proof.
  unfold component, check_result, kept, package_size, package_name, package.
  rewrite <- !file_name_last.
  pose proof (told_read item "descriptPackageId" ltac:(done)) as Hd. pose proof (told_read item "url" ltac:(done)) as Hu.
  pose proof (told_read item "verifyInfo" ltac:(done)) as Hv. pose proof (told_read item "versionCode" ltac:(done)) as Hc.
  pose proof (told_read item "versionName" ltac:(done)) as Hn. pose proof (told_number_read int64_t item "size" 0 ltac:(done)) as Hs.
  pose proof (told_number_read int32_t item "packageType" PackageType.DYNAMIC ltac:(done)) as Hp.
  pose proof (told_number_read int32_t item "otaType" OtaMode.REGULAR_OTA ltac:(done)) as Ho.
  cbn [FirmwareComponent.size FirmwareComponent.url FirmwareComponent.descriptPackageId FirmwareComponent.verifyInfo
    FirmwareComponent.versionNumber FirmwareComponent.targetBlVersionNumber FirmwareComponent.default].
  repeat match goal with |- context [GetValueAndSetTo ?c ?i ?k ?v] => destruct (GetValueAndSetTo c i k v) end. cbn [snd] in *. subst.
  rewrite Z.ltb_antisym. destruct (_ <=? 0); cbn [negb andb]; [done|]. by destruct (IsValidFileName _).
Qed.
Lemma components_packages items : packages items (components_of items).
Proof.
  unfold components_of. induction items as [|[item|] items IH]; cbn [omap list_omap mbind option_bind]; [constructor| |by constructor].
  rewrite component_package. destruct (kept item) eqn:Hk; constructor; try done; [by apply kept_acceptable|].
  rewrite <- kept_acceptable. by rewrite Hk.
Qed.
Lemma package_told_complete item : complete item ↔ package_told item.
Proof.
  unfold complete, package_told, tells_version. rewrite !has_text_read, kept_acceptable. unfold has, has_number, member. tauto.
Qed.
Lemma all_items_elements (P Q : J → Prop) root key : (∀ item, P item ↔ Q item) →
  all_items P (member_items root key) ↔ (∀ item, Some item ∈ elements root key → Q item).
Proof.
  intros HPQ. assert (member_items root key = elements root key) as ->.
  { unfold member_items, elements, member. by destruct (cJSON_GetObjectItemCaseSensitive root key). }
  unfold all_items. rewrite Forall_forall. split.
  - intros Hall item Hin. by apply HPQ, (Hall _ Hin).
  - intros Hall [item|] Hin; [|done]. by apply HPQ, Hall.
Qed.
Lemma sizes_total cs : sizes cs = total_size cs.
Proof. unfold sizes, total_size. induction cs as [|c cs IH]; cbn; [done|]. by rewrite IH. Qed.
Lemma answer_told_complete root : answer_complete root ↔ answer_told root (new_version root).
Proof.
  unfold answer_complete, answer_told, fits. rewrite sizes_total, (all_items_elements _ _ _ _ package_told_complete).
  rewrite (all_items_elements describes description_told); [done|].
  intros item. unfold describes, description_told. by rewrite has_text_read.
Qed.
Lemma changelogs_told root e :
  exec (changelogs_written root) e =
  exec (for_each (changelog_writes root (new_version root)) (λ w, ofstream_trunc w.1 w.2 ;;; ret tt)) e.
Proof.
  unfold changelogs_written, changelog_writes. rewrite sizes_total. unfold member.
  destruct (cJSON_GetObjectItemCaseSensitive root "checkResults") as [results|] eqn:Hres.
  2: { by rewrite bool_decide_eq_false_2 by (by intros [? ?]). }
  rewrite bool_decide_eq_true_2 by (by eexists). cbn [andb]. destruct (_ <=? INT64_MAX); [|done].
  unfold write_changelog. assert (member_items root "descriptInfo" = elements root "descriptInfo") as ->.
  { unfold member_items, elements, member. by destruct (cJSON_GetObjectItemCaseSensitive root "descriptInfo"). }
  assert (∀ c, from_option FirmwareComponent.descriptPackageId "" c = match c with Some c => FirmwareComponent.descriptPackageId c | None => "" end) as -> by by intros [].
  generalize (omap id (elements root "descriptInfo")) as l. intros l. revert e. induction l as [|item l IH]; intros e; [done|].
  cbn [map]. rewrite !exec_for_each_cons. cbn [fst snd]. rewrite IH. do 2 f_equal. unfold changelog_text, description.
  by rewrite told_read, told_number_read by done.
Qed.

(** C10: what the analysis of an answer gives, as an abstract reading of its JSON.  A text that is not JSON
    changes nothing.  Otherwise the status is passed on, and it decides: with a new version the list
    becomes the packages that are kept, in order, each member of a package in the field for it, when the answer tells everything it
    must and the sizes add up, and stays as it was when it does not, although the
    changelog may have been written by then; without a new version it becomes empty; with
    any other status it stays as it was.  A package is kept when its size is positive and the part of its url after the last slash is
    the name of a file of at most 255 bytes, without slashes, backslashes and double dots; no
    component has a version id, whatever the answer says. *)
Theorem answer_analysed raw cs ai e :
  wp (DoAnalyze isNeedRestart descriptInfoType raw cs ai) e (λ r e',
    match ParseJson raw with
    | None => r = (cs, ai) ∧ e' = e
    | Some root =>
        let status := told_number int32_t root "searchStatus" (-1) in
        r.2 = {| CheckAndAuthInfo.responseStatus := to_string status |} ∧
        if status =? CheckResultStatus.STATUS_NEW_VERSION_AVAILABLE then ∃ kept, packages (elements root "checkResults") kept ∧
          (answer_told root kept ∧ r.1 = kept ∨ ¬ answer_told root kept ∧ r.1 = cs) ∧
          e' = exec (for_each (changelog_writes root kept) (λ w, ofstream_trunc w.1 w.2 ;;; ret tt)) e
        else r.1 = (if status =? CheckResultStatus.STATUS_NEW_VERSION_NOT_AVAILABLE then [] else cs) ∧ e' = e
    end).
Proof.
  eapply wp_mono; [|apply analysis_result]. intros r e'. unfold analysed. destruct (ParseJson raw) as [root|]; [|done].
  unfold search_status. rewrite told_number_read by done. intros [Hr Hcs]. split; [exact Hr|].
  destruct (_ =? CheckResultStatus.STATUS_NEW_VERSION_AVAILABLE); [|exact Hcs]. destruct Hcs as [Hcs He]. exists (new_version root).
  split; [|split].
  - unfold new_version. assert (member_items root "checkResults" = elements root "checkResults") as ->
      by (unfold member_items, elements, member; by destruct (cJSON_GetObjectItemCaseSensitive root "checkResults")).
    apply components_packages.
  - rewrite <- answer_told_complete. destruct Hcs as [(? & ? & _)|?]; [left|right]; done.
  - by rewrite He, changelogs_told.
Qed.

(** The packages of an analysed answer have no version id, so the download service
    takes them for one and the same: of a version with several packages only the first is
    ever downloaded, and the task has the same id for every version. *)
Theorem analysed_version_downloads_one `{Sha256} netType raw e :
  let cs := (eval (DoAnalyze isNeedRestart descriptInfoType raw [] {| CheckAndAuthInfo.responseStatus := "" |}) e).1 in
  let infos := DownloadTaskManager.RemoveDuplicateVersionId (map (FirmwareDownloadExecutor.BuildDownloadInfo netType) cs) in
  infos = map (FirmwareDownloadExecutor.BuildDownloadInfo netType) (take 1 cs) ∧
  DownloadTaskManager.GetTaskId infos = CalculateHashCode "".
Proof.
  intros cs infos. assert (Forall safe cs) as Hs.
  { pose proof (analysis_result raw [] {| CheckAndAuthInfo.responseStatus := "" |} e) as Hr. unfold wp, analysed in Hr. fold cs in Hr.
    destruct (ParseJson raw) as [root|]; [|destruct Hr as [Hr _]; unfold cs; rewrite Hr; constructor].
    destruct Hr as [_ Hr]. cbv zeta in Hr. destruct (_ =? CheckResultStatus.STATUS_NEW_VERSION_AVAILABLE).
    - destruct Hr as [[(_ & _ & Hr)|[_ Hr]] _]; [exact Hr|]. rewrite Hr. constructor.
    - destruct Hr as [Hr _]. rewrite Hr. destruct (_ =? _); constructor. }
  assert (∀ l, Forall safe l → DownloadTaskManager.RemoveDuplicateVersionId_loop
    (map (FirmwareDownloadExecutor.BuildDownloadInfo netType) l) {[""]} = []) as Hrest.
  { induction 1 as [|c l (_ & _ & _ & _ & Hc & _) _ IH]; cbn [map DownloadTaskManager.RemoveDuplicateVersionId_loop]; [done|].
    cbn [DownloadInfo.versionId FirmwareDownloadExecutor.BuildDownloadInfo]. rewrite Hc. by rewrite bool_decide_eq_true_2 by set_solver. }
  assert (infos = map (FirmwareDownloadExecutor.BuildDownloadInfo netType) (take 1 cs)) as ->.
  { unfold infos, DownloadTaskManager.RemoveDuplicateVersionId. clearbody cs. destruct Hs as [|c l (_ & _ & _ & _ & Hc & _) Hs]; [done|].
    cbn [map DownloadTaskManager.RemoveDuplicateVersionId_loop take]. rewrite bool_decide_eq_false_2 by set_solver.
    cbn [DownloadInfo.versionId FirmwareDownloadExecutor.BuildDownloadInfo]. rewrite Hc, right_id_L by apply _. by rewrite Hrest. }
  split; [done|]. unfold DownloadTaskManager.GetTaskId. clearbody cs. destruct Hs as [|c l (_ & _ & _ & _ & Hc & _) _]; [done|].
  cbn [take map]. cbn [DownloadInfo.versionId FirmwareDownloadExecutor.BuildDownloadInfo]. rewrite Hc. done.
Qed.
End analysis.

(** ** The names of combined versions *)
Module CombinePackageVersionUtils.
(** A difference of [size_type]s: a negative one is larger than any string. *)
Definition count (from to : nat) (s : string) : nat := if (to <? from)%nat then len s else (to - from)%nat.
(*@ firmware/utils/src/firmware_combine_version_utils.cpp CombinePackageVersionUtils::HandleBaseVersion *)
Definition HandleBaseVersion (baseVersion : string) : option string :=
  match find baseVersion " " 0 with
  | None => Some ""
  | Some start =>
      match find baseVersion "(" 0 with
      | None => substr_from baseVersion start
      | Some end_ => substr baseVersion start (count start end_ baseVersion)
      end
  end.
(** The loop that ends after the first run of digits. *)
(*@ firmware/utils/src/firmware_combine_version_utils.cpp:64-73 CombinePackageVersionUtils::HandleBaseVersionLog *)
Fixpoint end_of_digits (l : list ascii) (mid : nat) (isNumbers : bool) : nat * bool :=
  match l with
  | [] => (mid, isNumbers)
  | c :: l =>
      if isdigit c then end_of_digits l (S mid) true
      else if isNumbers then (mid, isNumbers) else end_of_digits l (S mid) isNumbers
  end.
(** The new values of [base] and [log]. *)
(*@ firmware/utils/src/firmware_combine_version_utils.cpp CombinePackageVersionUtils::HandleBaseVersionLog *)
Definition HandleBaseVersionLog (baseVersion base log : string) : option (string * string) :=
  match find_last_of baseVersion "(", find_last_of baseVersion ")" with
  | Some start, Some end_ =>
      if (end_ <=? start)%nat then Some (base, log)
      else
        let start := S start in
        let (mid, isNumbers) := end_of_digits (take (end_ - start) (drop start (chars baseVersion))) start false in
        if (mid =? end_)%nat && negb isNumbers then
          log ← substr baseVersion start (mid - start); Some ("", log)
        else
          base ← substr baseVersion start (mid - start);
          if (end_ <=? mid)%nat then Some (base, "")
          else log ← substr baseVersion mid (end_ - mid); Some (base, log)
  | _, _ => Some (base, log)
  end.
(*@ firmware/utils/src/firmware_combine_version_utils.cpp CombinePackageVersionUtils::HandleCustVersion *)
Definition HandleCustVersion (custVersion : string) : option string :=
  if String.eqb custVersion "" then Some ""
  else
    match find_last_of custVersion ".", find_last_of custVersion "(", find_last_of custVersion ")" with
    | Some start, Some mid, Some end_ =>
        if (end_ <=? mid + 1)%nat || (mid <=? start + 1)%nat || (INT32_MAX <=? Z.of_nat end_) || (INT32_MAX <=? Z.of_nat mid)
        then Some ""
        else
          cust ← substr custVersion (mid + 1) (end_ - mid - 1);
          getEnum ← substr custVersion (start + 1) (mid - start - 1);
          Some (cust +:+ "E" +:+ getEnum)
    | _, _, _ => Some ""
    end.
(*@ firmware/utils/src/firmware_combine_version_utils.cpp CombinePackageVersionUtils::HandlePreloadVersion *)
Definition HandlePreloadVersion (preloadVersion : string) : option string :=
  if String.eqb preloadVersion "" then Some ""
  else
    match find_last_of preloadVersion "R", find_last_of preloadVersion ")" with
    | Some start, Some end_ =>
        if (end_ <=? start)%nat || (INT32_MAX <=? Z.of_nat end_) then Some ""
        else
          preload ← substr preloadVersion start (end_ - start);
          match find_last_of preloadVersion ".", find_last_of preloadVersion "(" with
          | Some start, Some end_ =>
              if (end_ <=? start + 1)%nat || (INT32_MAX <=? Z.of_nat end_) then Some ""
              else getPnum ← substr preloadVersion (start + 1) (end_ - start - 1); Some (preload +:+ "P" +:+ getPnum)
          | _, _ => Some ""
          end
    | _, _ => Some ""
    end.
Section ops.
Context {E : Type} `{Platform E}.
(*@ firmware/utils/src/firmware_combine_version_utils.cpp CombinePackageVersionUtils::GetPackageVersion *)
Definition GetPackageVersion (e : E) (baseVersion custVersion preloadVersion : string) : option string :=
  base ← HandleBaseVersion baseVersion;
  '(baseLog, log) ← HandleBaseVersionLog baseVersion "" "";
  cust ← HandleCustVersion custVersion;
  preload ← HandlePreloadVersion preloadVersion;
  Some (DeviceAdapter.GetDeviceName e +:+ base +:+ "(" +:+ baseLog +:+ cust +:+ preload +:+ log +:+ ")").
End ops.
End CombinePackageVersionUtils.

(** ** The request to the server *)

(** Sockets, TLS and the parameters of the system.  [SSL_read] gives the number of bytes
    it read and the bytes; [beyond] is the memory after the buffer. *)
Class CheckNet (E : Type) := {
  OS_GetParameter : E → string → string → string;
  socket : ST E Z;
  inet_pton : string → Z;
  connect : Z → string → ST E Z;
  close : Z → ST E unit;
  SSL_CTX_new : ST E bool;
  SSL_new : ST E bool;
  SSL_connect : Z → ST E Z;
  SSL_write : string → ST E Z;
  SSL_read : nat → ST E (Z * list ascii);
  beyond : E → list ascii
}.

Module NetworkResponse.
(*@ net/include/network_response.h NetworkResponse *)
Record t := { status : Z; content : list ascii }.
(*@ net/include/network_response.h NetworkResponse *)
Definition default : t := {| status := -1; content := [] |}.
End NetworkResponse.

Module FirmwareICheck.
(*@ firmware/check/include/firmware_icheck.h JSON_MAX_SIZE *)
Definition JSON_MAX_SIZE : nat := 4096.
(*@ firmware/check/include/firmware_icheck.h DEFAULT_SERVER_IP *)
Definition DEFAULT_SERVER_IP : string := "127.0.0.1".
(*@ firmware/check/include/firmware_icheck.h PARAM_NAME_FOR_SEARCH *)
Definition PARAM_NAME_FOR_SEARCH : string := "update.serverip.search".
(*@ firmware/check/include/firmware_icheck.h PORT_NUMBER *)
Definition PORT_NUMBER : Z := 5022.
(*@ net/include/network_response.h HttpConstant *)
Definition HttpConstant_SUCCESS : Z := 200.

Section ops.
Context {E J : Type} `{Platform E, FileSystem E, CJson J, !CheckNet E}.
Context (isNeedRestart : bool) (descriptInfoType : Z).

(** The buffer after a read: zeros where nothing was read. *)
Definition filled (n : Z) (bytes : list ascii) : list ascii :=
  take JSON_MAX_SIZE (take (Z.to_nat n) bytes ++ replicate JSON_MAX_SIZE Ascii.zero).
(** The buffer is parsed as a string that ends with a zero, wherever that is. *)
(*@ firmware/check/include/firmware_icheck.h ParseJsonFile *)
Definition ParseJsonFile (e : E) (buffer : list ascii) (response : NetworkResponse.t) : Z * NetworkResponse.t :=
  let response := {| NetworkResponse.content := buffer; NetworkResponse.status := HttpConstant_SUCCESS |} in
  match cJSON_Parse (c_str (str (buffer ++ beyond e))) with
  | None => (-1, response)
  | Some root =>
      match cJSON_GetObjectItem root "searchStatus" with
      | None => (-1, response)
      | Some item => if negb (cJSON_IsNumber item) then (-1, response) else (valueint item, response)
      end
  end.
(** The request. *)
Definition crlf : string := String (ascii_of_nat 13) (String (ascii_of_nat 10) "").
Definition request (serverIp : string) : string :=
  "GET /config.json HTTP/1.1" +:+ crlf +:+ "Host: " +:+ serverIp +:+ ":" +:+ to_string PORT_NUMBER +:+ crlf +:+
  "Connection: close" +:+ crlf +:+ crlf.
(*@ firmware/check/include/firmware_icheck.h ReadDataFromSSL *)
Definition ReadDataFromSSL (engineSocket : Z) (response : NetworkResponse.t) : ST E (Z * NetworkResponse.t) :=
  let* sslCtx := SSL_CTX_new in
  if negb sslCtx then ret (-1, response)
  else
    let* ssl := SSL_new in
    if negb ssl then ret (-1, response)
    else
      let* res := SSL_connect engineSocket in
      let* (result, response) :=
        (if res =? 1 then
          let* serverIp := gets (λ e, OS_GetParameter e PARAM_NAME_FOR_SEARCH DEFAULT_SERVER_IP) in
          let* writeLen := SSL_write (request serverIp) in
          if 0 <? writeLen then
            let* (n, bytes) := SSL_read JSON_MAX_SIZE in
            if 0 <? n then
              let* (r, response) := gets (λ e, ParseJsonFile e (filled n bytes) response) in
              ret (if r =? 0 then SearchStatus.HAS_NEW_VERSION else SearchStatus.SYSTEM_ERROR, response)
            else ret (SearchStatus.SYSTEM_ERROR, response)
          else ret (SearchStatus.SYSTEM_ERROR, response)
        else ret (SearchStatus.SYSTEM_ERROR, response)) in
      ret (if result =? SearchStatus.HAS_NEW_VERSION then 0 else -1, response).

(** What the callback hears. *)
#[local] Notation Answer := (CheckStatus * Duration.t * list FirmwareComponent.t * CheckAndAuthInfo.t)%type.
Definition no_info : CheckAndAuthInfo.t := {| CheckAndAuthInfo.responseStatus := "" |}.
Definition failed : Answer := (CHECK_FAIL, Duration.default, [], no_info).
(*@ firmware/check/include/firmware_icheck.h DoAction *)
Definition DoAction : ST E (option Answer) :=
  let* engineSocket := socket in
  if engineSocket <? 0 then ret (Some failed)
  else
    let* serverIp := gets (λ e, OS_GetParameter e PARAM_NAME_FOR_SEARCH DEFAULT_SERVER_IP) in
    let res := inet_pton serverIp in
    if res <=? 0 then close engineSocket ;;; ret (Some failed)
    else
      let* res := connect engineSocket serverIp in
      if negb (res =? 0) then close engineSocket ;;; ret (Some failed)
      else
        let* (res, response) := ReadDataFromSSL engineSocket NetworkResponse.default in
        if negb (res =? 0) then close engineSocket ;;; ret (Some failed)
        else
          close engineSocket ;;;
          if negb (NetworkResponse.status response =? HttpConstant_SUCCESS) ||
             bool_decide (NetworkResponse.content response = [])
          then ret (Some failed)
          else
            let content := str (NetworkResponse.content response) in
            match ParseJson content with
            | None => ret None
            | Some _ =>
                let* (checkResultList_, checkAndAuthInfo_) :=
                  FirmwareCheckAnalyzeUtils.DoAnalyze isNeedRestart descriptInfoType content [] no_info in
                ret (Some (CHECK_SUCCESS, Duration.default, checkResultList_, checkAndAuthInfo_))
            end.
(** The request as the executor of a check sees it. *)
Definition kits : CheckKits E := {| DownloadExecutor.DoAction := DoAction |}.
End ops.
End FirmwareICheck.

Section request.
Context {E J : Type} `{Platform E, FileSystem E, CJson J, !CheckNet E}.
Context (isNeedRestart : bool) (descriptInfoType : Z).
Import FirmwareICheck.

(** The answer the service has read into the buffer. *)
Lemma wp_ReadDataFromSSL n e (Q : Z * NetworkResponse.t → E → Prop) :
  (∀ r e', r.1 = 0 → (∃ e0 buffer root item, r.2 = {| NetworkResponse.status := HttpConstant_SUCCESS; NetworkResponse.content := buffer |} ∧
     List.length buffer = JSON_MAX_SIZE ∧ cJSON_Parse (c_str (str (buffer ++ beyond e0))) = Some root ∧
     cJSON_GetObjectItem root "searchStatus" = Some item ∧ valueint item = 0) → Q r e') →
  (∀ r e', r.1 ≠ 0 → Q r e') → wp (ReadDataFromSSL n NetworkResponse.default) e Q.
Proof.
  intros Hok Hfail. unfold ReadDataFromSSL. apply wp_bind, wp_any. intros [] e1; cbn [negb]; [|by apply wp_ret, Hfail].
  apply wp_bind, wp_any. intros [] e2; cbn [negb]; [|by apply wp_ret, Hfail].
  apply wp_bind, wp_any. intros res e3. apply wp_bind.
  destruct (res =? 1); [|by apply wp_ret, wp_ret, Hfail]. apply wp_bind, wp_gets, wp_bind, wp_any. intros len e4.
  destruct (0 <? len); [|by apply wp_ret, wp_ret, Hfail]. apply wp_bind, wp_any. intros [m bytes] e5.
  destruct (0 <? m); [|by apply wp_ret, wp_ret, Hfail]. apply wp_bind, wp_gets. unfold ParseJsonFile.
  set (buffer := filled m bytes).
  assert (List.length buffer = JSON_MAX_SIZE) as Hlen.
  { unfold buffer, filled. rewrite length_take, length_app, length_replicate. lia. }
  destruct (cJSON_Parse _) as [root|] eqn:Hroot; [|by apply wp_ret, wp_ret, Hfail].
  destruct (cJSON_GetObjectItem root _) as [item|] eqn:Hitem; [|by apply wp_ret, wp_ret, Hfail].
  destruct (cJSON_IsNumber item); cbn [negb]; [|by apply wp_ret, wp_ret, Hfail].
  apply wp_ret. destruct (Z.eqb_spec (valueint item) 0) as [Hv|]; [|by apply wp_ret, Hfail].
  apply wp_ret, Hok; [done|]. by exists e5, buffer, root, item.
Qed.

(** The answer of a request, see [check_request_outcome]. *)
Lemma request_answer e :
  wp (DoAction isNeedRestart descriptInfoType) e (λ r _,
    match r with
    | Some (st, d, cs, ai) => d = Duration.default ∧
        match st with
        | CHECK_SUCCESS => ∃ content root, ParseJson content = Some root ∧
            (cs = [] ∨ search_status root = 0 ∧ answer_complete isNeedRestart root ∧ cs = new_version isNeedRestart root ∧ Forall safe cs)
        | _ => st = CHECK_FAIL ∧ cs = [] ∧ ai = no_info
        end
    | None => ∃ buffer, List.length buffer = JSON_MAX_SIZE ∧ Ascii.zero ∉ buffer
    end).
Proof.
  unfold DoAction. apply wp_bind, wp_any. intros fd e1. destruct (fd <? 0); [by apply wp_ret|].
  apply wp_bind, wp_gets. destruct (_ <=? 0); [by apply wp_bind, wp_any; intros; apply wp_ret|].
  apply wp_bind, wp_any. intros res e2. destruct (negb _); [by apply wp_bind, wp_any; intros; apply wp_ret|].
  apply wp_bind. apply wp_ReadDataFromSSL.
  2:{ intros [r response] e3 Hr. cbn [fst] in Hr. apply Z.eqb_neq in Hr. rewrite Hr. cbn [negb].
      by apply wp_bind, wp_any; intros; apply wp_ret. }
  intros [r response] e3 Hr (e0 & buffer & root & item & Hresp & Hlen & Hparse & _). cbn [fst snd] in Hr, Hresp. subst r response. cbn [negb Z.eqb].
  apply wp_bind, wp_any. intros _ e4. cbn [NetworkResponse.status NetworkResponse.content]. rewrite Z.eqb_refl. cbn [negb orb].
  rewrite bool_decide_eq_false_2 by (intros ->; done).
  destruct (ParseJson (str buffer)) as [root'|] eqn:Hroot'.
  - apply wp_bind. eapply wp_mono; [|apply analysis_result]. intros [cs ai] e5. unfold analysed. rewrite Hroot'. cbn [fst snd]. intros [_ Hcs].
    apply wp_ret. split; [done|]. exists (str buffer), root'. split; [done|].
    destruct (Z.eqb_spec (search_status root') CheckResultStatus.STATUS_NEW_VERSION_AVAILABLE) as [Hs|Hs].
    + destruct Hcs as [[(? & ? & ?)|[_ ->]] _]; [right|by left]. by split_and!.
    + left. destruct Hcs as [-> _]. by case_if.
  - apply wp_ret. exists buffer. split; [done|]. intros Hz. unfold ParseJson in Hroot'.
    assert (c_str (str (buffer ++ beyond e0)) = c_str (str buffer)) as Heq; [|by rewrite Heq, Hroot' in Hparse].
    unfold c_str. rewrite !chars_str. f_equal. clear -Hz. induction buffer as [|c l IH]; [by apply elem_of_nil in Hz|].
    cbn [app take_while]. destruct (Ascii.eqb_spec c Ascii.zero) as [->|Hc]; cbn [negb]; [done|]. f_equal. apply IH.
    apply elem_of_cons in Hz as [<-|Hz]; [done|exact Hz].
Qed.
(** What a request to the server comes to.  It fails, with nothing found, unless the
    server can be reached and sends a text that is JSON and whose status says that there
    is a new version; a success tells the packages of a complete answer, all safe to
    download, or, when the answer lacks a part, none at all, as if there were no new
    version.  The request is always answered, unless the text fills the whole buffer, so
    that the parser runs on behind it. *)
Theorem check_request_outcome e :
  wp (DoAction isNeedRestart descriptInfoType) e (λ r _,
    match r with
    | Some (st, d, cs, ai) => d = Duration.default ∧
        match st with
        | CHECK_SUCCESS => ∃ content root, ParseJson content = Some root ∧
            (cs = [] ∨ search_status root = 0 ∧ answer_complete isNeedRestart root ∧ cs = new_version isNeedRestart root ∧ Forall safe cs)
        | _ => st = CHECK_FAIL ∧ cs = [] ∧ ai = no_info
        end
    | None => ∃ buffer, List.length buffer = JSON_MAX_SIZE ∧ Ascii.zero ∉ buffer
    end).
Proof. exact (request_answer e). Qed.

(** What a check is told can be stored. *)
#[global] Instance kits_laws `{!CJsonLaws J} : CheckKitsLaws E (H := kits isNeedRestart descriptInfoType).
Proof.
  intros e st d cs ai Ha. pose proof (request_answer e) as Hr. unfold wp in Hr. change (eval (DoAction _ _) e) with (eval (DownloadExecutor.DoAction (CheckKits := kits isNeedRestart descriptInfoType)) e) in Hr.
  rewrite Ha in Hr. destruct Hr as [_ Hr]. destruct st; try (destruct Hr as (_ & -> & _); constructor).
  destruct Hr as (_ & root & _ & [->|(_ & _ & -> & _)]); [constructor|by apply components_of_wf].
Qed.
End request.
