(* ===== verification/Modes.v ===== *)
(** * The modes of an upgrade

    Models [services/firmware/upgrade/mode]: a mode decides which step of an upgrade
    comes next and records what the executor of a step reports.  The class
    [FirmwareIExecuteMode] is the interface of the source; the manual check, the
    automatic check, the download and the two kinds of installation are its instances.
    [FirmwareUpgradeProcessor] (from [upgrade/flow]) and [FirmwareDownloadProcess] are
    what they do before and after a step.

    A method of a mode takes the mode and returns it.  The reference to the caller's
    [BusinessError] is a field: only the first step, which runs before the call
    returns, writes it. *)
From Stdlib Require Import ZArith Lia Ascii String.
From stdpp Require Import base tactics list strings gmap.
From S2P Require Import Prelude CppString StringUtils Models Database FirmwareDb FirmwareStore FirmwareWorld DownloadData DownloadService Device Alarms FirmwareHelper CheckProcessor ProgressProcessor Installer DownloadExecutor.
Import FirmwareWorld.World (on_db, on_env, asks, send).
Import DUpdateErrno.

#[local] Open Scope Z_scope.

(*@ firmware/common/include/firmware_common.h FirmwareStep *)
Inductive FirmwareStep := STEP_INIT | CHECK_STEP | DOWNLOAD_STEP | AUTH_STEP | INSTALL_STEP | APPLY_STEP | STEP_COMPLETE.
#[global] Instance FirmwareStep_eq_dec : EqDecision FirmwareStep.
Proof. solve_decision. Defined.

(** What a mode asks of the managers of the alarms. *)
Class UpgradeAlarms (E : Type) := {
  RefreshAutoUpgradeAlarm : ST E unit;
  RefreshAutoUpgradeAlarm_for : CommonEventType → ST E unit;
  SetNightUpgradeAlarm : ST E unit;
  CancelNightUpgradeAlarm : ST E unit
}.

Module FirmwareIExecuteMode.
(*@ upgrade/mode/include/firmware_iexecute_mode.h FirmwareIExecuteMode *)
Class t (R E M : Type) := {
  GetNextStep : M → FirmwareStep → ST (World R E) (M * FirmwareStep);
  SetDownloadEvent : M → string → Z → ST (World R E) M;
  SetCheckResult : M → CheckStatus → Duration.t → list FirmwareComponent.t → ST (World R E) M;
  SetDownloadCallbackInfo : M → FirmwareDownloadCallbackInfo.t → ST (World R E) M;
  SetInstallResult : M → InstallCallbackInfo.t → ST (World R E) M;
  SetApplyResult : M → bool → ST (World R E) M;
  HandleComplete : M → ST (World R E) M;
  GetDownloadOptions : M → DownloadOptions.t;
  GetUpgradeOptions : M → UpgradeOptions.t;
  GetInstallType : M → InstallType
}.
End FirmwareIExecuteMode.

(** ** What surrounds a step *)
Module FirmwareUpgradeProcessor.
Section ops.
Context {E : Type} `{Preferences E, DeviceKits E}.
(*@ upgrade/flow/src/firmware_upgrade_processor.cpp FirmwareUpgradeProcessor::HandleBeforeNightUpgrade *)
Definition HandleBeforeNightUpgrade (task : FirmwareTask.t) : ST E unit :=
  if negb (FirmwareTask.upgradeMode task =? UpgradeMode.NIGHT) then ret tt
  else if negb BellUtils.IsSupported then ret tt
  else
    let* isBellOn := gets BellUtils.GetBellStatus in
    let* saved := FirmwarePreferencesUtil.SaveBellStatus isBellOn in
    if negb saved then ret tt
    else when (isBellOn : bool) do BellUtils.TurnOffBell.
(*@ upgrade/flow/src/firmware_upgrade_processor.cpp FirmwareUpgradeProcessor::ProcessBeforeUpgrade *)
Definition ProcessBeforeUpgrade (task : FirmwareTask.t) : ST E unit := HandleBeforeNightUpgrade task.
(*@ upgrade/flow/src/firmware_upgrade_processor.cpp FirmwareUpgradeProcessor::HandleAfterNightUpgrade *)
Definition HandleAfterNightUpgrade (task : FirmwareTask.t) : ST E unit :=
  if negb (FirmwareTask.upgradeMode task =? UpgradeMode.NIGHT) then ret tt
  else
    let* saved := gets FirmwarePreferencesUtil.GetBellStatus in
    if negb saved then ret tt
    else if negb BellUtils.IsSupported then ret tt
    else BellUtils.TurnOnBell ;;; FirmwarePreferencesUtil.RemoveBellStatus ;;; ret tt.
(*@ upgrade/flow/src/firmware_upgrade_processor.cpp FirmwareUpgradeProcessor::ProcessAfterUpgrade *)
Definition ProcessAfterUpgrade (task : FirmwareTask.t) : ST E unit := HandleAfterNightUpgrade task.
End ops.
End FirmwareUpgradeProcessor.

Module FirmwareDownloadProcess.
Section ops.
Context {R E : Type} `{Rdb R, Platform E, Sha256, Downloads E, Preferences E, Subscribers E, UpgradeAlarms E}.
#[local] Notation NotifyEvent := FirmwareCallbackUtils.NotifyEvent.
(*@ upgrade/mode/src/firmware_download_process.cpp FirmwareDownloadProcess::DownloadPauseProcess *)
Definition DownloadPauseProcess (task : FirmwareTask.t) (errorMessage : ErrorMessage.t) : ST (World R E) unit :=
  NotifyEvent (FirmwareTask.taskId task) EventId.EVENT_DOWNLOAD_PAUSE UpgradeStatus.DOWNLOAD_PAUSE errorMessage [] 0.
(*@ upgrade/mode/src/firmware_download_process.cpp FirmwareDownloadProcess::DownloadFailProcess *)
Definition DownloadFailProcess (task : FirmwareTask.t) (errorMessage : ErrorMessage.t) : ST (World R E) unit :=
  NotifyEvent (FirmwareTask.taskId task) EventId.EVENT_DOWNLOAD_FAIL UpgradeStatus.DOWNLOAD_FAIL errorMessage [] 0 ;;;
  FirmwareUpdateHelper.ClearFirmwareInfo.
(** [isDeleteFiles] is only logged. *)
(*@ upgrade/mode/src/firmware_download_process.cpp FirmwareDownloadProcess::DownloadCancelProcess *)
Definition DownloadCancelProcess (task : FirmwareTask.t) (errorMessage : ErrorMessage.t) : ST (World R E) unit :=
  NotifyEvent (FirmwareTask.taskId task) EventId.EVENT_DOWNLOAD_CANCEL UpgradeStatus.DOWNLOAD_CANCEL errorMessage [] 0 ;;;
  on_db (FirmwareTaskOperator.UpdateProgressByTaskId (FirmwareTask.taskId task) UpgradeStatus.CHECK_VERSION_SUCCESS 0) ;;;
  let* (_, firmwareComponentList) := on_db (FirmwareComponentOperator.QueryAll []) in
  for_each firmwareComponentList (λ component,
    on_db (FirmwareComponentOperator.UpdateProgressByUrl (FirmwareComponent.url component)
             UpgradeStatus.CHECK_VERSION_SUCCESS 0) ;;; ret tt) ;;;
  on_env (RemoveTask (FirmwareTask.downloadTaskId task)) ;;;
  on_db (FirmwareTaskOperator.UpdateDownloadTaskIdByTaskId (FirmwareTask.taskId task) "") ;;;
  FirmwareFileUtils.DeleteDownloadFiles.
(*@ upgrade/mode/src/firmware_download_process.cpp FirmwareDownloadProcess::DownloadSuccessProcess *)
Definition DownloadSuccessProcess (task : FirmwareTask.t) (errorMessage : ErrorMessage.t) : ST (World R E) unit :=
  NotifyEvent (FirmwareTask.taskId task) EventId.EVENT_UPGRADE_WAIT UpgradeStatus.DOWNLOAD_SUCCESS ErrorMessage.default [] 0 ;;;
  let* night := asks FirmwarePreferencesUtil.GetNightUpgradeSwitch in
  (when (night : bool) do on_env SetNightUpgradeAlarm) ;;;
  on_env (RemoveTask (FirmwareTask.downloadTaskId task)).

(** What follows a download, by the status the task ends with: the same switch in
    both modes that download. *)
(*@ upgrade/mode/src/firmware_download_mode.cpp:106-127 FirmwareDownloadMode::GetStepAfterDownload *)
Definition after_download (task : FirmwareTask.t) (errorMessage : ErrorMessage.t) : ST (World R E) unit :=
  if FirmwareTask.status task =? UpgradeStatus.DOWNLOAD_PAUSE then DownloadPauseProcess task errorMessage
  else if FirmwareTask.status task =? UpgradeStatus.DOWNLOAD_FAIL then DownloadFailProcess task errorMessage
  else if FirmwareTask.status task =? UpgradeStatus.DOWNLOAD_CANCEL then DownloadCancelProcess task errorMessage
  else if FirmwareTask.status task =? UpgradeStatus.DOWNLOAD_SUCCESS then DownloadSuccessProcess task errorMessage
  else ret tt.
(** The error code is the number the end reason spells, if it spells one. *)
(*@ upgrade/mode/src/firmware_download_mode.cpp:102-105 FirmwareDownloadMode::GetStepAfterDownload *)
Definition end_error (endReason : string) : ErrorMessage.t := {|
  ErrorMessage.errorCode :=
    (StringUtils.DecStringToNumber StringUtils.int32_t endReason (ErrorMessage.errorCode ErrorMessage.default)).2;
  ErrorMessage.errorMessage := ErrorMessage.errorMessage ErrorMessage.default |}.
End ops.
End FirmwareDownloadProcess.

(** ** The manual check *)
Module FirmwareManualCheckMode.
(** [answers_]: the calls of [onCheckComplete_]. *)
(*@ upgrade/mode/include/firmware_manual_check_mode.h:38-41 FirmwareManualCheckMode *)
Record t := {
  checkDataProcessor_ : FirmwareCheckDataProcessor.t;
  businessError_ : BusinessError.t;
  answers_ : list (BusinessError.t * CheckResult.t)
}.
(*@ upgrade/mode/include/firmware_manual_check_mode.h:27-28 FirmwareManualCheckMode *)
Definition new : t := {|
  checkDataProcessor_ := FirmwareCheckDataProcessor.initial; businessError_ := BusinessError.default; answers_ := [] |}.
Definition set_error (e : BusinessError.t) (this : t) : t := {|
  checkDataProcessor_ := checkDataProcessor_ this; businessError_ := e; answers_ := answers_ this |}.
Definition set_processor (p : FirmwareCheckDataProcessor.t) (this : t) : t := {|
  checkDataProcessor_ := p; businessError_ := businessError_ this; answers_ := answers_ this |}.
(** [businessError_.Build(CallResult::FAIL, msg)] with one more message. *)
Definition failed (this : t) (msg : string) (code : Z) (detail : string) : t :=
  set_error (BusinessError.AddErrorMessage (BusinessError.Build (businessError_ this) CallResult.FAIL msg) code detail) this.

Section ops.
Context {R E : Type} `{Rdb R, Platform E, Sha256, Downloads E, Preferences E, Subscribers E, CheckCache E, ServiceKits E}.

(*@ upgrade/mode/src/firmware_manual_check_mode.cpp FirmwareManualCheckMode::GetStepAfterInit *)
Definition GetStepAfterInit (this : t) : ST (World R E) (t * FirmwareStep) :=
  let* checking := asks IsChecking in
  if checking : bool then
    ret (failed this "system busy!" DUPDATE_ERR_SYSTEM_BUSY_ON_CHECK "checkNewVersion is checking!", STEP_COMPLETE)
  else
    let* updating := FirmwareCheckDataProcessor.IsUpdateOnStatus in
    if updating : bool then
      ret (failed this "system busy!" DUPDATE_ERR_SYSTEM_BUSY_ON_INSTALL "system is updating!", STEP_COMPLETE)
    else
      let* net := asks (λ e, NetManager.IsNetAvailable (GetNetType e) NetType.CELLULAR_AND_WIFI) in
      if negb net then
        ret (failed this "CheckNewVersionService no network!" SearchStatus.NET_ERROR "CheckNewVersionService no network !",
             STEP_COMPLETE)
      else ret (this, CHECK_STEP).
(*@ upgrade/mode/src/firmware_manual_check_mode.cpp FirmwareManualCheckMode::GetStepAfterCheck *)
Definition GetStepAfterCheck (this : t) : ST (World R E) (t * FirmwareStep) :=
  let p := checkDataProcessor_ this in
  if FirmwareCheckDataProcessor.IsCheckFailed p || FirmwareCheckDataProcessor.IsSameWithDb p ||
     negb (FirmwareCheckDataProcessor.HasNewVersion p)
  then ret (this, STEP_COMPLETE)
  else
    let* task := on_db (FirmwareTaskOperator.QueryTask FirmwareTask.default) in
    (when FirmwareTask.status task =? UpgradeStatus.CHECK_VERSION_SUCCESS do
       (FirmwareCallbackUtils.NotifyEvent (FirmwareTask.taskId task) EventId.EVENT_TASK_RECEIVE
          UpgradeStatus.CHECK_VERSION_SUCCESS ErrorMessage.default [] 0 ;;;
        let* auto := asks (λ e, ObtainBool e Firmware.AUTO_DOWNLOAD_SWITCH false) in
        when negb auto do
          FirmwareCallbackUtils.NotifyEvent (FirmwareTask.taskId task) EventId.EVENT_DOWNLOAD_WAIT
            UpgradeStatus.CHECK_VERSION_SUCCESS ErrorMessage.default [] 0)) ;;;
    ret (this, STEP_COMPLETE).
(*@ upgrade/mode/src/firmware_manual_check_mode.cpp FirmwareManualCheckMode::GetNextStep *)
Definition GetNextStep (this : t) (step : FirmwareStep) : ST (World R E) (t * FirmwareStep) :=
  match step with
  | STEP_INIT => GetStepAfterInit this
  | CHECK_STEP => GetStepAfterCheck this
  | _ => ret (this, STEP_COMPLETE)
  end.
(*@ upgrade/mode/src/firmware_manual_check_mode.cpp FirmwareManualCheckMode::SetCheckResult *)
Definition SetCheckResult (this : t) (status : CheckStatus) (duration : Duration.t)
    (componentList : list FirmwareComponent.t) : ST (World R E) t :=
  let* p := FirmwareCheckDataProcessor.SetCheckResult (checkDataProcessor_ this) status duration componentList in
  ret (set_processor p this).
(*@ upgrade/mode/src/firmware_manual_check_mode.cpp FirmwareManualCheckMode::HandleComplete *)
Definition HandleComplete (this : t) : ST (World R E) t :=
  let* checkResult := FirmwareCheckDataProcessor.BuildCheckResult (checkDataProcessor_ this) CheckResult.default in
  ret {| checkDataProcessor_ := checkDataProcessor_ this; businessError_ := businessError_ this;
         answers_ := answers_ this ++ [(businessError_ this, checkResult)] |}.
#[export] Instance mode : FirmwareIExecuteMode.t R E t := {
  FirmwareIExecuteMode.GetNextStep := GetNextStep;
  FirmwareIExecuteMode.SetDownloadEvent this _ _ := ret this;
  FirmwareIExecuteMode.SetCheckResult := SetCheckResult;
  FirmwareIExecuteMode.SetDownloadCallbackInfo this _ := ret this;
  FirmwareIExecuteMode.SetInstallResult this _ := ret this;
  FirmwareIExecuteMode.SetApplyResult this _ := ret this;
  FirmwareIExecuteMode.HandleComplete := HandleComplete;
  FirmwareIExecuteMode.GetDownloadOptions _ := DownloadOptions.default;
  FirmwareIExecuteMode.GetUpgradeOptions _ := UpgradeOptions.default;
  FirmwareIExecuteMode.GetInstallType _ := UPDATER
}.
End ops.
End FirmwareManualCheckMode.

(** ** The download *)
Module FirmwareDownloadMode.
(*@ upgrade/mode/include/firmware_download_mode.h:53-58 FirmwareDownloadMode *)
Record t := {
  downloadDataProcessor_ : FirmwareDownloadDataProcessor.t;
  downloadOptions_ : DownloadOptions.t;
  businessError_ : BusinessError.t;
  tasks_ : FirmwareTask.t
}.
Definition set_processor (p : FirmwareDownloadDataProcessor.t) (this : t) : t := {|
  downloadDataProcessor_ := p; downloadOptions_ := downloadOptions_ this;
  businessError_ := businessError_ this; tasks_ := tasks_ this |}.
Definition set_error (e : BusinessError.t) (this : t) : t := {|
  downloadDataProcessor_ := downloadDataProcessor_ this; downloadOptions_ := downloadOptions_ this;
  businessError_ := e; tasks_ := tasks_ this |}.
Definition set_tasks (x : FirmwareTask.t) (this : t) : t := {|
  downloadDataProcessor_ := downloadDataProcessor_ this; downloadOptions_ := downloadOptions_ this;
  businessError_ := businessError_ this; tasks_ := x |}.
Definition failed (this : t) (msg : string) : t := set_error (BusinessError.Build (businessError_ this) CallResult.FAIL msg) this.
Definition failed_with (this : t) (msg : string) (code : Z) (detail : string) : t :=
  set_error (BusinessError.AddErrorMessage (BusinessError.Build (businessError_ this) CallResult.FAIL msg) code detail) this.

Section ops.
Context {R E : Type} `{Rdb R, Platform E, Sha256, Downloads E, Preferences E, Subscribers E, ServiceKits E, UpgradeAlarms E}.

(** The constructor of the processor reads the recorded progress. *)
(*@ upgrade/mode/include/firmware_download_mode.h:35-39 FirmwareDownloadMode *)
Definition new (downloadOptions : DownloadOptions.t) (businessError : BusinessError.t) : ST (World R E) t :=
  let* processor := FirmwareDownloadDataProcessor.new in
  ret {| downloadDataProcessor_ := processor; downloadOptions_ := downloadOptions;
         businessError_ := businessError; tasks_ := FirmwareTask.default |}.
(*@ upgrade/mode/src/firmware_download_mode.cpp FirmwareDownloadMode::GetTask *)
Definition GetTask (this : t) : ST (World R E) t :=
  if negb (FirmwareTask.isExistTask (tasks_ this)) then
    let* task := on_db (FirmwareTaskOperator.QueryTask (tasks_ this)) in ret (set_tasks task this)
  else ret this.
(*@ upgrade/mode/src/firmware_download_mode.cpp FirmwareDownloadMode::GetStepAfterInit *)
Definition GetStepAfterInit (this : t) : ST (World R E) (t * FirmwareStep) :=
  let* this := GetTask this in
  let taskStatus := FirmwareTask.status (tasks_ this) in
  if negb (FirmwareTask.isExistTask (tasks_ this)) then ret (failed this "no task!", STEP_COMPLETE)
  else if taskStatus =? UpgradeStatus.DOWNLOADING then
    ret (failed_with this "system busy!" DUPDATE_ERR_SYSTEM_BUSY_ON_DOWNLOAD "busy on Downloading!", STEP_COMPLETE)
  else if negb (taskStatus =? UpgradeStatus.CHECK_VERSION_SUCCESS) && negb (taskStatus =? UpgradeStatus.DOWNLOAD_FAIL) &&
          negb (taskStatus =? UpgradeStatus.DOWNLOAD_PAUSE) then
    ret (failed this "status error!", STEP_COMPLETE)
  else
    let* net := asks (λ e, NetManager.IsNetAvailable (GetNetType e) (FirmwareTask.downloadAllowNetwork (tasks_ this))) in
    if negb net then
      ret (failed_with this "download no network!" DUPDATE_ERR_DLOAD_REQUEST_FAIL "download no network!", STEP_COMPLETE)
    else
      let* (isSpaceEnough, requireTotalSize) := FirmwareDownloadDataProcessor.IsSpaceEnough 0 in
      if negb isSpaceEnough then
        ret (failed_with this "download condition fail!" DUPDATE_ERR_NO_ENOUGH_MEMORY (to_string requireTotalSize), STEP_COMPLETE)
      else ret (this, DOWNLOAD_STEP).
(*@ upgrade/mode/src/firmware_download_mode.cpp FirmwareDownloadMode::GetStepAfterDownload *)
Definition GetStepAfterDownload (this : t) : ST (World R E) (t * FirmwareStep) :=
  let* task := on_db (FirmwareTaskOperator.QueryTask FirmwareTask.default) in
  if negb (FirmwareTask.isExistTask task) then ret (this, STEP_COMPLETE)
  else
    let endReason := Progress.endReason (FirmwareDownloadDataProcessor.GetDownloadProgress (downloadDataProcessor_ this)) in
    let errorMessage := if String.eqb endReason "" then ErrorMessage.default else FirmwareDownloadProcess.end_error endReason in
    FirmwareDownloadProcess.after_download task errorMessage ;;;
    ret (this, STEP_COMPLETE).
(*@ upgrade/mode/src/firmware_download_mode.cpp FirmwareDownloadMode::GetNextStep *)
Definition GetNextStep (this : t) (step : FirmwareStep) : ST (World R E) (t * FirmwareStep) :=
  match step with
  | STEP_INIT => GetStepAfterInit this
  | DOWNLOAD_STEP => GetStepAfterDownload this
  | _ => ret (this, STEP_COMPLETE)
  end.
(*@ upgrade/mode/src/firmware_download_mode.cpp FirmwareDownloadMode::SetDownloadCallbackInfo *)
Definition SetDownloadCallbackInfo (this : t) (callbackInfo : FirmwareDownloadCallbackInfo.t) : ST (World R E) t :=
  let* p := FirmwareDownloadDataProcessor.SetDownloadCallbackInfo (downloadDataProcessor_ this) callbackInfo in
  ret (set_processor p this).
(*@ upgrade/mode/src/firmware_download_mode.cpp FirmwareDownloadMode::SetDownloadEvent *)
Definition SetDownloadEvent (this : t) (downloadTaskId : string) (eventId : Z) : ST (World R E) t :=
  let* p := FirmwareDownloadDataProcessor.SetDownloadEvent (downloadDataProcessor_ this) downloadTaskId eventId in
  ret (set_processor p this).
#[export] Instance mode : FirmwareIExecuteMode.t R E t := {
  FirmwareIExecuteMode.GetNextStep := GetNextStep;
  FirmwareIExecuteMode.SetDownloadEvent := SetDownloadEvent;
  FirmwareIExecuteMode.SetCheckResult this _ _ _ := ret this;
  FirmwareIExecuteMode.SetDownloadCallbackInfo := SetDownloadCallbackInfo;
  FirmwareIExecuteMode.SetInstallResult this _ := ret this;
  FirmwareIExecuteMode.SetApplyResult this _ := ret this;
  FirmwareIExecuteMode.HandleComplete := ret;
  FirmwareIExecuteMode.GetDownloadOptions := downloadOptions_;
  FirmwareIExecuteMode.GetUpgradeOptions _ := UpgradeOptions.default;
  FirmwareIExecuteMode.GetInstallType _ := UPDATER
}.
End ops.
End FirmwareDownloadMode.

(** ** The installation *)
Module FirmwareInstallApplyMode.
(*@ upgrade/mode/include/firmware_install_apply_mode.h:57-64 FirmwareInstallApplyMode *)
Record t := {
  installStepDataProcessor_ : FirmwareInstallDataProcessor.t;
  upgradeOptions_ : UpgradeOptions.t;
  businessError_ : BusinessError.t;
  installType_ : InstallType;
  tasks_ : FirmwareTask.t
}.
(*@ upgrade/mode/include/firmware_install_apply_mode.h:33-38 FirmwareInstallApplyMode *)
Definition new (upgradeOptions : UpgradeOptions.t) (businessError : BusinessError.t) (installType : InstallType) : t := {|
  installStepDataProcessor_ := FirmwareInstallDataProcessor.initial; upgradeOptions_ := upgradeOptions;
  businessError_ := businessError; installType_ := installType; tasks_ := FirmwareTask.default |}.
Definition set_processor (p : FirmwareInstallDataProcessor.t) (this : t) : t := {|
  installStepDataProcessor_ := p; upgradeOptions_ := upgradeOptions_ this; businessError_ := businessError_ this;
  installType_ := installType_ this; tasks_ := tasks_ this |}.
Definition set_error (e : BusinessError.t) (this : t) : t := {|
  installStepDataProcessor_ := installStepDataProcessor_ this; upgradeOptions_ := upgradeOptions_ this;
  businessError_ := e; installType_ := installType_ this; tasks_ := tasks_ this |}.
Definition set_tasks (x : FirmwareTask.t) (this : t) : t := {|
  installStepDataProcessor_ := installStepDataProcessor_ this; upgradeOptions_ := upgradeOptions_ this;
  businessError_ := businessError_ this; installType_ := installType_ this; tasks_ := x |}.
Definition failed (this : t) (msg : string) : t := set_error (BusinessError.Build (businessError_ this) CallResult.FAIL msg) this.
Definition failed_with (this : t) (msg : string) (code : Z) (detail : string) : t :=
  set_error (BusinessError.AddErrorMessage (BusinessError.Build (businessError_ this) CallResult.FAIL msg) code detail) this.

Section ops.
Context {R E : Type} `{Rdb R, Platform E, Sha256, Downloads E, Preferences E, Subscribers E, DeviceKits E}.

(*@ upgrade/mode/src/firmware_install_apply_mode.cpp FirmwareInstallApplyMode::GetTask *)
Definition GetTask (this : t) : ST (World R E) t :=
  if negb (FirmwareTask.isExistTask (tasks_ this)) then
    let* task := on_db (FirmwareTaskOperator.QueryTask (tasks_ this)) in ret (set_tasks task this)
  else ret this.
(*@ upgrade/mode/src/firmware_install_apply_mode.cpp FirmwareInstallApplyMode::IsAllowInstall *)
Definition IsAllowInstall (this : t) : ST (World R E) (bool * t) :=
  let* (enough, requireTotalSize) := FirmwareInstallDataProcessor.IsSpaceEnough 0 in
  if negb enough then
    ret (false, failed_with this "install condition fail!" DUPDATE_ERR_NO_ENOUGH_MEMORY (to_string requireTotalSize))
  else
    let* low := asks (λ e, BatteryStateUtils.IsDeviceHasBattery e &&
                           negb (BatteryStateUtils.IsBatteryEnough e BatteryStateUtils.MANUAL_UPGRADE_BATTERY_LEVEL)) in
    if low : bool then ret (false, failed_with this "install condition fail!" DUPDATE_ERR_LOW_BATTERY_LEVEL "battery is low")
    else if FirmwareTask.upgradeMode (tasks_ this) =? UpgradeMode.NIGHT then
      let* idle := asks DeviceIdleUtils.IsDeviceIdle in ret (idle, this)
    else ret (true, this).
(*@ upgrade/mode/src/firmware_install_apply_mode.cpp FirmwareInstallApplyMode::IsUpgradeFilesReady *)
Definition IsUpgradeFilesReady (this : t) : ST (World R E) (bool * t) :=
  let* ready := FirmwareInstallDataProcessor.IsUpgradeFileCheckSuccess in
  if ready : bool then ret (true, this)
  else
    FirmwareUpdateHelper.ClearFirmwareInfo ;;;
    ret (false, failed_with this "check component failed" DUPDATE_ERR_UPDATE_PRECHECK_FAIL "check component failed").
(*@ upgrade/mode/src/firmware_install_apply_mode.cpp FirmwareInstallApplyMode::GetStepForInstallAndApplyOrder *)
Definition GetStepForInstallAndApplyOrder (this : t) : ST (World R E) (t * FirmwareStep) :=
  if negb (FirmwareTask.status (tasks_ this) =? UpgradeStatus.DOWNLOAD_SUCCESS) then
    ret (failed this "status error!", STEP_COMPLETE)
  else
    let* (allowed, this) := IsAllowInstall this in
    if negb allowed then ret (this, STEP_COMPLETE)
    else
      let* (ready, this) := IsUpgradeFilesReady this in
      if negb ready then ret (this, STEP_COMPLETE) else ret (this, INSTALL_STEP).
(*@ upgrade/mode/src/firmware_install_apply_mode.cpp FirmwareInstallApplyMode::GetStepAfterInit *)
Definition GetStepAfterInit (this : t) : ST (World R E) (t * FirmwareStep) :=
  let* this := GetTask this in
  let order := UpgradeOptions.order (upgradeOptions_ this) in
  if negb (FirmwareTask.isExistTask (tasks_ this)) then ret (failed this "no task!", STEP_COMPLETE)
  else if (order =? Order.INSTALL) || (order =? Order.INSTALL_AND_APPLY) then
    let* (this, step) := GetStepForInstallAndApplyOrder this in
    (when bool_decide (step = INSTALL_STEP) do on_env (FirmwareUpgradeProcessor.ProcessBeforeUpgrade (tasks_ this))) ;;;
    ret (this, step)
  else if order =? Order.APPLY then ret (this, APPLY_STEP)
  else ret (failed this "upgradeOptions error", STEP_COMPLETE).
(** The status is read twice: the first part may clear the task. *)
(*@ upgrade/mode/src/firmware_install_apply_mode.cpp FirmwareInstallApplyMode::GetStepAfterInstall *)
Definition GetStepAfterInstall (this : t) : ST (World R E) (t * FirmwareStep) :=
  let* (success, p) := FirmwareInstallDataProcessor.HasInstallSuccess (installStepDataProcessor_ this) in
  let this := set_processor p this in
  (when negb success do
     (on_env (FirmwareUpgradeProcessor.ProcessAfterUpgrade (tasks_ this)) ;;;
      FirmwareUpdateHelper.ClearFirmwareInfo)) ;;;
  let* (success, p) := FirmwareInstallDataProcessor.HasInstallSuccess (installStepDataProcessor_ this) in
  let this := set_processor p this in
  if success && (UpgradeOptions.order (upgradeOptions_ this) =? Order.INSTALL_AND_APPLY)
  then ret (this, APPLY_STEP) else ret (this, STEP_COMPLETE).
(*@ upgrade/mode/src/firmware_install_apply_mode.cpp FirmwareInstallApplyMode::GetNextStep *)
Definition GetNextStep (this : t) (step : FirmwareStep) : ST (World R E) (t * FirmwareStep) :=
  match step with
  | STEP_INIT => GetStepAfterInit this
  | INSTALL_STEP => GetStepAfterInstall this
  | _ => ret (this, STEP_COMPLETE)
  end.
(*@ upgrade/mode/src/firmware_install_apply_mode.cpp FirmwareInstallApplyMode::SetInstallResult *)
Definition SetInstallResult (this : t) (installCallbackInfo : InstallCallbackInfo.t) : ST (World R E) t :=
  let* p := FirmwareInstallDataProcessor.SetInstallResult (installStepDataProcessor_ this) installCallbackInfo in
  ret (set_processor p this).
#[export] Instance mode : FirmwareIExecuteMode.t R E t := {
  FirmwareIExecuteMode.GetNextStep := GetNextStep;
  FirmwareIExecuteMode.SetDownloadEvent this _ _ := ret this;
  FirmwareIExecuteMode.SetCheckResult this _ _ _ := ret this;
  FirmwareIExecuteMode.SetDownloadCallbackInfo this _ := ret this;
  FirmwareIExecuteMode.SetInstallResult := SetInstallResult;
  FirmwareIExecuteMode.SetApplyResult this _ := ret this;
  FirmwareIExecuteMode.HandleComplete := ret;
  FirmwareIExecuteMode.GetDownloadOptions _ := DownloadOptions.default;
  FirmwareIExecuteMode.GetUpgradeOptions := upgradeOptions_;
  FirmwareIExecuteMode.GetInstallType := installType_
}.
End ops.
End FirmwareInstallApplyMode.

(** ** The installation of a stream

    The fields are those of [FirmwareInstallApplyMode]. *)
Module FirmwareStreamInstallApplyMode.
(*@ upgrade/mode/include/firmware_stream_install_apply_mode.h:55-63 FirmwareStreamInstallApplyMode *)
Record t := { base : FirmwareInstallApplyMode.t }.
(*@ upgrade/mode/include/firmware_stream_install_apply_mode.h:33-38 FirmwareStreamInstallApplyMode *)
Definition new (upgradeOptions : UpgradeOptions.t) (businessError : BusinessError.t) (installType : InstallType) : t :=
  {| base := FirmwareInstallApplyMode.new upgradeOptions businessError installType |}.
Import FirmwareInstallApplyMode (upgradeOptions_, installType_, tasks_, installStepDataProcessor_, failed, failed_with, set_processor).

Section ops.
Context {R E : Type} `{Rdb R, Platform E, Sha256, Downloads E, Preferences E, Subscribers E, DeviceKits E, ServiceKits E}.
#[local] Notation Base := FirmwareInstallApplyMode.t.

(*@ upgrade/mode/src/firmware_stream_install_apply_mode.cpp FirmwareStreamInstallApplyMode::GetTask *)
Definition GetTask (this : Base) : ST (World R E) Base :=
  if negb (FirmwareTask.isExistTask (tasks_ this)) then
    let* task := on_db (FirmwareTaskOperator.QueryTask (tasks_ this)) in ret (FirmwareInstallApplyMode.set_tasks task this)
  else ret this.
(*@ upgrade/mode/src/firmware_stream_install_apply_mode.cpp FirmwareStreamInstallApplyMode::IsAllowInstall *)
Definition IsAllowInstall (this : Base) : ST (World R E) (bool * Base) :=
  if negb (bool_decide (installType_ this = STREAM_INSTALLLER)) then
    ret (false, failed_with this "install condition fail!" DUPDATE_ERR_INPUT_PARA_ERROR "install type error")
  else
    let* net := asks (λ e, NetManager.IsNetAvailable (GetNetType e) NetType.CELLULAR_AND_WIFI) in
    if negb net then
      ret (false, failed_with this "download no network!" DUPDATE_ERR_DLOAD_REQUEST_FAIL "download no network!")
    else
      let* low := asks (λ e, BatteryStateUtils.IsDeviceHasBattery e &&
                             negb (BatteryStateUtils.IsBatteryEnough e BatteryStateUtils.MANUAL_UPGRADE_BATTERY_LEVEL)) in
      if low : bool then ret (false, failed_with this "install condition fail!" DUPDATE_ERR_LOW_BATTERY_LEVEL "battery is low")
      else if FirmwareTask.upgradeMode (tasks_ this) =? UpgradeMode.NIGHT then
        let* idle := asks DeviceIdleUtils.IsDeviceIdle in ret (idle, this)
      else ret (true, this).
(*@ upgrade/mode/src/firmware_stream_install_apply_mode.cpp FirmwareStreamInstallApplyMode::GetStepForInstallAndApplyOrder *)
Definition GetStepForInstallAndApplyOrder (this : Base) : ST (World R E) (Base * FirmwareStep) :=
  let* (allowed, this) := IsAllowInstall this in
  if negb allowed then ret (this, STEP_COMPLETE) else ret (this, INSTALL_STEP).
(*@ upgrade/mode/src/firmware_stream_install_apply_mode.cpp FirmwareStreamInstallApplyMode::GetStepAfterInit *)
Definition GetStepAfterInit (this : Base) : ST (World R E) (Base * FirmwareStep) :=
  let* this := GetTask this in
  let order := UpgradeOptions.order (upgradeOptions_ this) in
  if negb (FirmwareTask.isExistTask (tasks_ this)) then ret (failed this "no task!", STEP_COMPLETE)
  else if (order =? Order.INSTALL) || (order =? Order.INSTALL_AND_APPLY) then GetStepForInstallAndApplyOrder this
  else if order =? Order.APPLY then ret (this, APPLY_STEP)
  else ret (failed this "upgradeOptions error", STEP_COMPLETE).
(*@ upgrade/mode/src/firmware_stream_install_apply_mode.cpp FirmwareStreamInstallApplyMode::GetStepAfterInstall *)
Definition GetStepAfterInstall (this : Base) : ST (World R E) (Base * FirmwareStep) :=
  let* (fail, p) := FirmwareInstallDataProcessor.HasInstallFail (installStepDataProcessor_ this) in
  let this := set_processor p this in
  (when (fail : bool) do FirmwareUpdateHelper.ClearFirmwareInfo) ;;;
  let* (success, p) := FirmwareInstallDataProcessor.HasInstallSuccess (installStepDataProcessor_ this) in
  let this := set_processor p this in
  if success && (UpgradeOptions.order (upgradeOptions_ this) =? Order.INSTALL_AND_APPLY)
  then ret (this, APPLY_STEP) else ret (this, STEP_COMPLETE).
(*@ upgrade/mode/src/firmware_stream_install_apply_mode.cpp FirmwareStreamInstallApplyMode::GetNextStep *)
Definition GetNextStep (this : t) (step : FirmwareStep) : ST (World R E) (t * FirmwareStep) :=
  let* (this, step) :=
    match step with
    | STEP_INIT => GetStepAfterInit (base this)
    | INSTALL_STEP => GetStepAfterInstall (base this)
    | _ => ret (base this, STEP_COMPLETE)
    end in
  ret ({| base := this |}, step).
(*@ upgrade/mode/src/firmware_stream_install_apply_mode.cpp FirmwareStreamInstallApplyMode::SetInstallResult *)
Definition SetInstallResult (this : t) (installCallbackInfo : InstallCallbackInfo.t) : ST (World R E) t :=
  let* p := FirmwareInstallDataProcessor.SetInstallResult (installStepDataProcessor_ (base this)) installCallbackInfo in
  ret {| base := set_processor p (base this) |}.
#[export] Instance mode : FirmwareIExecuteMode.t R E t := {
  FirmwareIExecuteMode.GetNextStep := GetNextStep;
  FirmwareIExecuteMode.SetDownloadEvent this _ _ := ret this;
  FirmwareIExecuteMode.SetCheckResult this _ _ _ := ret this;
  FirmwareIExecuteMode.SetDownloadCallbackInfo this _ := ret this;
  FirmwareIExecuteMode.SetInstallResult := SetInstallResult;
  FirmwareIExecuteMode.SetApplyResult this _ := ret this;
  FirmwareIExecuteMode.HandleComplete := ret;
  FirmwareIExecuteMode.GetDownloadOptions _ := DownloadOptions.default;
  FirmwareIExecuteMode.GetUpgradeOptions this := upgradeOptions_ (base this);
  FirmwareIExecuteMode.GetInstallType this := installType_ (base this)
}.
End ops.
End FirmwareStreamInstallApplyMode.

(** ** The automatic check and download *)
Module FirmwareAutoUpgradeMode.
(*@ upgrade/mode/include/check_mode.h CheckMode *)
Inductive CheckMode := AUTO | MANUL | PUSH | DEMO_REBOOT | CHECK_UPGRADE_COMPLETE | DISABLE_COLL_ABILITY | ENABLE_COLL_ABILITY.
(*@ upgrade/mode/include/firmware_auto_upgrade_mode.h:58-65 FirmwareAutoUpgradeMode *)
Record t := {
  checkDataProcessor_ : FirmwareCheckDataProcessor.t;
  installStepDataProcessor_ : FirmwareInstallDataProcessor.t;
  downloadDataProcessor_ : option FirmwareDownloadDataProcessor.t;
  installDataProcessor_ : FirmwareInstallDataProcessor.t;
  autoUpgradeType_ : CommonEventType;
  task_ : FirmwareTask.t
}.
(*@ upgrade/mode/include/firmware_auto_upgrade_mode.h:34-37 FirmwareAutoUpgradeMode *)
Definition new (autoUpgradeType : CommonEventType) : t := {|
  checkDataProcessor_ := FirmwareCheckDataProcessor.initial; installStepDataProcessor_ := FirmwareInstallDataProcessor.initial;
  downloadDataProcessor_ := None; installDataProcessor_ := FirmwareInstallDataProcessor.initial;
  autoUpgradeType_ := autoUpgradeType; task_ := FirmwareTask.default |}.
Definition set_check (p : FirmwareCheckDataProcessor.t) (this : t) : t := {|
  checkDataProcessor_ := p; installStepDataProcessor_ := installStepDataProcessor_ this;
  downloadDataProcessor_ := downloadDataProcessor_ this; installDataProcessor_ := installDataProcessor_ this;
  autoUpgradeType_ := autoUpgradeType_ this; task_ := task_ this |}.
Definition set_install (p : FirmwareInstallDataProcessor.t) (this : t) : t := {|
  checkDataProcessor_ := checkDataProcessor_ this; installStepDataProcessor_ := p;
  downloadDataProcessor_ := downloadDataProcessor_ this; installDataProcessor_ := installDataProcessor_ this;
  autoUpgradeType_ := autoUpgradeType_ this; task_ := task_ this |}.
Definition set_download (p : FirmwareDownloadDataProcessor.t) (this : t) : t := {|
  checkDataProcessor_ := checkDataProcessor_ this; installStepDataProcessor_ := installStepDataProcessor_ this;
  downloadDataProcessor_ := Some p; installDataProcessor_ := installDataProcessor_ this;
  autoUpgradeType_ := autoUpgradeType_ this; task_ := task_ this |}.
Definition set_task (x : FirmwareTask.t) (this : t) : t := {|
  checkDataProcessor_ := checkDataProcessor_ this; installStepDataProcessor_ := installStepDataProcessor_ this;
  downloadDataProcessor_ := downloadDataProcessor_ this; installDataProcessor_ := installDataProcessor_ this;
  autoUpgradeType_ := autoUpgradeType_ this; task_ := x |}.
(*@ upgrade/mode/src/firmware_auto_upgrade_mode.cpp FirmwareAutoUpgradeMode::GetCheckMode *)
Definition GetCheckMode (autoUpgradeType : CommonEventType) : CheckMode := AUTO.
(*@ upgrade/mode/src/firmware_auto_upgrade_mode.cpp FirmwareAutoUpgradeMode::GetUpgradeCompleteCheckMode *)
Definition GetUpgradeCompleteCheckMode : CheckMode := CHECK_UPGRADE_COMPLETE.

Section ops.
Context {R E : Type} `{Rdb R, Platform E, Sha256, Downloads E, Preferences E, Subscribers E, ServiceKits E, CheckCache E, UpgradeAlarms E}.

(*@ upgrade/mode/src/firmware_auto_upgrade_mode.cpp FirmwareAutoUpgradeMode::GetTask *)
Definition GetTask (this : t) : ST (World R E) t :=
  let* task := on_db (FirmwareTaskOperator.QueryTask (task_ this)) in ret (set_task task this).
(** The processor is made when it is first asked for. *)
(*@ upgrade/mode/src/firmware_auto_upgrade_mode.cpp FirmwareAutoUpgradeMode::GetDownloadDataProcessor *)
Definition GetDownloadDataProcessor (this : t) : ST (World R E) (FirmwareDownloadDataProcessor.t * t) :=
  match downloadDataProcessor_ this with
  | Some p => ret (p, this)
  | None => let* p := FirmwareDownloadDataProcessor.new in ret (p, set_download p this)
  end.
(*@ upgrade/mode/src/firmware_auto_upgrade_mode.cpp FirmwareAutoUpgradeMode::GetStepAfterInit *)
Definition GetStepAfterInit (this : t) : ST (World R E) (t * FirmwareStep) :=
  on_env RefreshAutoUpgradeAlarm ;;;
  let* net := asks (λ e, NetManager.IsNetAvailable (GetNetType e) NetType.CELLULAR_AND_WIFI) in
  if negb net then
    on_env (FirmwarePreferencesUtil.SaveNeedRetryCheckFlag true) ;;;
    ret (this, STEP_COMPLETE)
  else
    let* checking := asks IsChecking in
    if checking : bool then ret (this, STEP_COMPLETE)
    else
      let* this := GetTask this in
      if (FirmwareTask.status (task_ this) =? UpgradeStatus.DOWNLOADING) ||
         (FirmwareTask.status (task_ this) =? UpgradeStatus.UPDATING) then ret (this, STEP_COMPLETE)
      else ret (this, CHECK_STEP).
(*@ upgrade/mode/src/firmware_auto_upgrade_mode.cpp FirmwareAutoUpgradeMode::HandlePreDownloadStep *)
Definition HandlePreDownloadStep (this : t) : ST (World R E) (t * FirmwareStep) :=
  let* this := GetTask this in
  let taskStatus := FirmwareTask.status (task_ this) in
  if negb (FirmwareTask.isExistTask (task_ this)) then ret (this, STEP_COMPLETE)
  else if taskStatus =? UpgradeStatus.DOWNLOAD_SUCCESS then
    FirmwareDownloadProcess.DownloadSuccessProcess (task_ this) ErrorMessage.default ;;;
    ret (this, STEP_COMPLETE)
  else if negb (taskStatus =? UpgradeStatus.CHECK_VERSION_SUCCESS) && negb (taskStatus =? UpgradeStatus.DOWNLOAD_FAIL) &&
          negb (taskStatus =? UpgradeStatus.DOWNLOAD_PAUSE) then ret (this, STEP_COMPLETE)
  else if taskStatus =? UpgradeStatus.DOWNLOADING then ret (this, STEP_COMPLETE)
  else
    let* (_, this) := GetDownloadDataProcessor this in
    let* (isSpaceEnough, _) := FirmwareDownloadDataProcessor.IsSpaceEnough 0 in
    if negb isSpaceEnough then ret (this, STEP_COMPLETE) else ret (this, DOWNLOAD_STEP).
(*@ upgrade/mode/src/firmware_auto_upgrade_mode.cpp FirmwareAutoUpgradeMode::GetStepAfterCheck *)
Definition GetStepAfterCheck (this : t) : ST (World R E) (t * FirmwareStep) :=
  let hasNewVersion := FirmwareCheckDataProcessor.HasNewVersion (checkDataProcessor_ this) in
  if FirmwareCheckDataProcessor.IsCheckFailed (checkDataProcessor_ this) then
    on_env (FirmwarePreferencesUtil.SaveNeedRetryCheckFlag true) ;;;
    ret (this, STEP_COMPLETE)
  else
    let* auto := asks FirmwarePreferencesUtil.GetAutoDownloadSwitch in
    if negb auto then
      let* this := GetTask this in
      (when hasNewVersion && FirmwareTask.isExistTask (task_ this) &&
            (FirmwareTask.status (task_ this) =? UpgradeStatus.CHECK_VERSION_SUCCESS) do
         FirmwareCallbackUtils.NotifyEvent (FirmwareTask.taskId (task_ this)) EventId.EVENT_DOWNLOAD_WAIT
           UpgradeStatus.CHECK_VERSION_SUCCESS ErrorMessage.default [] 0) ;;;
      ret (this, STEP_COMPLETE)
    else HandlePreDownloadStep this.
(*@ upgrade/mode/src/firmware_auto_upgrade_mode.cpp FirmwareAutoUpgradeMode::GetStepAfterDownload *)
Definition GetStepAfterDownload (this : t) : ST (World R E) (t * FirmwareStep) :=
  let* task := on_db (FirmwareTaskOperator.QueryTask FirmwareTask.default) in
  if negb (FirmwareTask.isExistTask task) then ret (this, STEP_COMPLETE)
  else
    let* (p, this) := GetDownloadDataProcessor this in
    FirmwareDownloadProcess.after_download task
      (FirmwareDownloadProcess.end_error (Progress.endReason (FirmwareDownloadDataProcessor.GetDownloadProgress p))) ;;;
    ret (this, STEP_COMPLETE).
(*@ upgrade/mode/src/firmware_auto_upgrade_mode.cpp FirmwareAutoUpgradeMode::GetNextStep *)
Definition GetNextStep (this : t) (step : FirmwareStep) : ST (World R E) (t * FirmwareStep) :=
  match step with
  | STEP_INIT => GetStepAfterInit this
  | CHECK_STEP => GetStepAfterCheck this
  | DOWNLOAD_STEP => GetStepAfterDownload this
  | _ => ret (this, STEP_COMPLETE)
  end.
(*@ upgrade/mode/src/firmware_auto_upgrade_mode.cpp FirmwareAutoUpgradeMode::SetCheckResult *)
Definition SetCheckResult (this : t) (status : CheckStatus) (duration : Duration.t)
    (componentList : list FirmwareComponent.t) : ST (World R E) t :=
  let* p := FirmwareCheckDataProcessor.SetCheckResult (checkDataProcessor_ this) status duration componentList in
  ret (set_check p this).
(*@ upgrade/mode/src/firmware_auto_upgrade_mode.cpp FirmwareAutoUpgradeMode::SetDownloadCallbackInfo *)
Definition SetDownloadCallbackInfo (this : t) (callbackInfo : FirmwareDownloadCallbackInfo.t) : ST (World R E) t :=
  let* (p, this) := GetDownloadDataProcessor this in
  let* p := FirmwareDownloadDataProcessor.SetDownloadCallbackInfo p callbackInfo in
  ret (set_download p this).
(*@ upgrade/mode/src/firmware_auto_upgrade_mode.cpp FirmwareAutoUpgradeMode::SetDownloadEvent *)
Definition SetDownloadEvent (this : t) (downloadTaskId : string) (eventId : Z) : ST (World R E) t :=
  let* (p, this) := GetDownloadDataProcessor this in
  let* p := FirmwareDownloadDataProcessor.SetDownloadEvent p downloadTaskId eventId in
  ret (set_download p this).
(*@ upgrade/mode/src/firmware_auto_upgrade_mode.cpp FirmwareAutoUpgradeMode::SetInstallResult *)
Definition SetInstallResult (this : t) (installCallbackInfo : InstallCallbackInfo.t) : ST (World R E) t :=
  let* p := FirmwareInstallDataProcessor.SetInstallResult (installStepDataProcessor_ this) installCallbackInfo in
  ret (set_install p this).
#[export] Instance mode : FirmwareIExecuteMode.t R E t := {
  FirmwareIExecuteMode.GetNextStep := GetNextStep;
  FirmwareIExecuteMode.SetDownloadEvent := SetDownloadEvent;
  FirmwareIExecuteMode.SetCheckResult := SetCheckResult;
  FirmwareIExecuteMode.SetDownloadCallbackInfo := SetDownloadCallbackInfo;
  FirmwareIExecuteMode.SetInstallResult := SetInstallResult;
  FirmwareIExecuteMode.SetApplyResult this _ := ret this;
  FirmwareIExecuteMode.HandleComplete := ret;
  FirmwareIExecuteMode.GetDownloadOptions _ := DownloadOptions.default;
  FirmwareIExecuteMode.GetUpgradeOptions _ := UpgradeOptions.default;
  FirmwareIExecuteMode.GetInstallType _ := UPDATER
}.
End ops.
End FirmwareAutoUpgradeMode.
