(* ===== verification/Flow.v ===== *)
(** * The flow of an upgrade

    Models [firmware_flow_manager.cpp]: the state machine that asks its mode for the
    next step, makes the executor of the step, submits it, and passes what the executor
    reports on to the mode.

    A submitted executor runs later, on a thread of its own: this is the event [Turn].
    The progress of a download arrives even later, as [Report]s, which the executor
    forwards as long as it lives.  The callback of completion deletes the flow, and with
    it the executor; [completed_] counts its calls.  A report of the system installer
    that is passed on late finds the flow as its result has left it, and, once the executor
    has returned - the event [Late] -, no executor any more.  What is used after its
    deletion is recorded by [undefined_]. *)
From Stdlib Require Import ZArith Lia Ascii String.
From stdpp Require Import base tactics list strings gmap.
From S2P Require Import Prelude CppString Models Database FirmwareDb FirmwareStore FirmwareWorld DownloadData DownloadService FirmwareHelper CheckProcessor ProgressProcessor Installer Device Alarms Executor DownloadExecutor Modes.
Import FirmwareWorld.World (on_db, on_env, asks, send).

#[local] Open Scope Z_scope.

(** A method of an object that is made for the call, seen from outside. *)
Definition object {T X A : Type} (init : T) (m : ST (T * X) A) : ST X A := λ x,
  let (a, s) := m (init, x) in (a, s.2).
Lemma wp_object {T X A} (init : T) (m : ST (T * X) A) x (Q : A → X → Prop) :
  wp m (init, x) (λ a s, Q a s.2) → wp (object init m) x Q.
Proof. unfold wp, eval, exec, object. by destruct (m _). Qed.

Module FirmwareFlowManager.
(** The executors [CreateInstance] makes. *)
Inductive Executor :=
  | CheckExecutor
  | DownloadExecutor (options : DownloadOptions.t)
  | InstallExecutor (installType : InstallType)
  | ApplyExecutor.
(*@ upgrade/flow/include/firmware_flow_manager.h:47-50 FirmwareFlowManager *)
Record t {M : Type} := {
  executeMode_ : option M;
  executor_ : option Executor;
  nextStep_ : FirmwareStep;
  submitted_ : list Executor;
  completed_ : nat;
  undefined_ : bool;
  late_ : list FirmwareComponent.t
}.
Arguments t M : clear implicits.
(*@ upgrade/flow/include/firmware_flow_manager.h:47-50 FirmwareFlowManager *)
Definition new {M : Type} : t M :=
  {| executeMode_ := None; executor_ := None; nextStep_ := STEP_INIT; submitted_ := [];
     completed_ := 0; undefined_ := false; late_ := [] |}.

Section ops.
Context {R E M : Type} `{Rdb R, Platform E, Sha256, Subscribers E, !InstallKits E, DownloadTasks E, CheckKits E, CheckCache E,
  RebootKits E, !FirmwareIExecuteMode.t R E M}.
#[local] Notation Flow := (ST (t M * World R E)).
Implicit Types (this : t M).

Definition set_mode (mode : M) this : t M := {|
  executeMode_ := Some mode; executor_ := executor_ this; nextStep_ := nextStep_ this;
  submitted_ := submitted_ this; completed_ := completed_ this; undefined_ := undefined_ this; late_ := late_ this |}.
Definition set_step (step : FirmwareStep) this : t M := {|
  executeMode_ := executeMode_ this; executor_ := executor_ this; nextStep_ := step;
  submitted_ := submitted_ this; completed_ := completed_ this; undefined_ := undefined_ this; late_ := late_ this |}.
Definition set_executor (executor : option Executor) this : t M := {|
  executeMode_ := executeMode_ this; executor_ := executor; nextStep_ := nextStep_ this;
  submitted_ := submitted_ this; completed_ := completed_ this; undefined_ := undefined_ this; late_ := late_ this |}.
Definition set_submitted (l : list Executor) this : t M := {|
  executeMode_ := executeMode_ this; executor_ := executor_ this; nextStep_ := nextStep_ this;
  submitted_ := l; completed_ := completed_ this; undefined_ := undefined_ this; late_ := late_ this |}.
Definition complete this : t M := {|
  executeMode_ := executeMode_ this; executor_ := executor_ this; nextStep_ := nextStep_ this;
  submitted_ := submitted_ this; completed_ := S (completed_ this); undefined_ := undefined_ this; late_ := late_ this |}.
Definition used_after_deletion this : t M := {|
  executeMode_ := executeMode_ this; executor_ := executor_ this; nextStep_ := nextStep_ this;
  submitted_ := submitted_ this; completed_ := completed_ this; undefined_ := true; late_ := late_ this |}.

Definition set_late (l : list FirmwareComponent.t) this : t M := {|
  executeMode_ := executeMode_ this; executor_ := executor_ this; nextStep_ := nextStep_ this;
  submitted_ := submitted_ this; completed_ := completed_ this; undefined_ := undefined_ this; late_ := l |}.

(** A method of the mode; without a mode the caller returns, which is [None].  In a
    flow that was deleted there is nothing to read: [undefined_]. *)
Definition on_mode {A} (f : M → ST (World R E) (M * A)) : Flow (option A) :=
  let* alive := own_ (λ this, completed_ this =? 0)%nat in
  if negb alive then set_own used_after_deletion ;;; ret None
  else
  let* mode := own_ executeMode_ in
  match mode with
  | None => ret None
  | Some mode =>
      let* (mode, a) := env_ (f mode) in
      set_own (set_mode mode) ;;;
      ret (Some a)
  end.
Definition tell_mode (f : M → ST (World R E) M) : Flow (option unit) :=
  on_mode (λ mode, let* mode := f mode in ret (mode, tt)).

(*@ upgrade/flow/src/firmware_flow_manager.cpp FirmwareFlowManager::SetExecuteMode *)
Definition SetExecuteMode (executeMode : M) : Flow unit := set_own (set_mode executeMode).

(*@ upgrade/flow/src/firmware_flow_manager.cpp FirmwareFlowManager::CreateInstance *)
Definition CreateInstance (step : FirmwareStep) (mode : M) : option Executor :=
  match step with
  | CHECK_STEP => Some CheckExecutor
  | DOWNLOAD_STEP => Some (DownloadExecutor (FirmwareIExecuteMode.GetDownloadOptions mode))
  | INSTALL_STEP => Some (InstallExecutor (FirmwareIExecuteMode.GetInstallType mode))
  | APPLY_STEP => Some ApplyExecutor
  | _ => None
  end.
(** [executor->Execute()]: the work goes to a thread; a check is marked as under way
    first. *)
(*@ upgrade/executor/src/firmware_check_executor.cpp FirmwareCheckExecutor::Execute *)
Definition submit (executor : Executor) : Flow unit :=
  match executor with CheckExecutor => env_ (on_env (SetIsChecking true)) | _ => ret tt end ;;;
  set_own (λ this, set_submitted (submitted_ this ++ [executor]) this).

(** The callback of completion deletes the flow. *)
(*@ upgrade/flow/src/firmware_flow_manager.cpp FirmwareFlowManager::Complete *)
Definition Complete : Flow unit :=
  let* told := tell_mode FirmwareIExecuteMode.HandleComplete in
  match told with None => ret tt | Some _ => set_own complete end.

(*@ upgrade/flow/src/firmware_flow_manager.cpp FirmwareFlowManager::Execute *)
Definition Execute : Flow unit :=
  let* step := own_ nextStep_ in
  let* step := on_mode (λ mode, FirmwareIExecuteMode.GetNextStep mode step) in
  match step with
  | None => ret tt
  | Some step =>
      set_own (set_step step) ;;;
      if bool_decide (step = STEP_COMPLETE) then Complete
      else
        let* mode := own_ executeMode_ in
        let executor := mode ≫= CreateInstance step in
        set_own (set_executor executor) ;;;
        match executor with Some executor => submit executor | None => ret tt end
  end.
(*@ upgrade/flow/src/firmware_flow_manager.cpp FirmwareFlowManager::Start *)
Definition Start : Flow unit :=
  let* mode := own_ executeMode_ in
  match mode with None => ret tt | Some _ => Execute end.

(** What the mode hears, and whether the flow goes on. *)
Definition heard (goes_on : bool) (told : option unit) : Flow unit :=
  match told with None => ret tt | Some _ => when goes_on do Execute end.
(*@ upgrade/flow/src/firmware_flow_manager.cpp FirmwareFlowManager::OnCheckCallback *)
Definition OnCheckCallback (answer : CheckStatus * Duration.t * list FirmwareComponent.t * CheckAndAuthInfo.t) : Flow unit :=
  let '(status, duration, componentList, _) := answer in
  let* told := tell_mode (λ mode, FirmwareIExecuteMode.SetCheckResult mode status duration componentList) in
  heard true told.
(*@ upgrade/flow/src/firmware_flow_manager.cpp FirmwareFlowManager::OnDownloadCallback *)
Definition OnDownloadCallback (info : FirmwareDownloadCallbackInfo.t) : Flow unit :=
  let* told := tell_mode (λ mode, FirmwareIExecuteMode.SetDownloadCallbackInfo mode info) in
  heard (negb (Progress.status (FirmwareDownloadCallbackInfo.taskProgress info) =? UpgradeStatus.DOWNLOADING)) told.
(*@ upgrade/flow/src/firmware_flow_manager.cpp FirmwareFlowManager::OnInstallCallback *)
Definition OnInstallCallback (info : InstallCallbackInfo.t) : Flow unit :=
  let* told := tell_mode (λ mode, FirmwareIExecuteMode.SetInstallResult mode info) in
  heard (negb (Progress.status (InstallCallbackInfo.progress info) =? UpgradeStatus.INSTALLING)) told.
(*@ upgrade/flow/src/firmware_flow_manager.cpp FirmwareFlowManager::OnApplyCallback *)
Definition OnApplyCallback (isSuccess : bool) : Flow unit :=
  let* told := tell_mode (λ mode, FirmwareIExecuteMode.SetApplyResult mode isSuccess) in
  heard true told.
(*@ upgrade/flow/src/firmware_flow_manager.cpp FirmwareFlowManager::OnDownloadEventCallback *)
Definition OnDownloadEventCallback (event : string * Z) : Flow unit :=
  let* _ := tell_mode (λ mode, FirmwareIExecuteMode.SetDownloadEvent mode event.1 event.2) in
  ret tt.

(** An executor runs, with the callbacks [CreateInstance] gave it; [false] when it
    throws.  An installation may leave reports that will be late. *)
(*@ upgrade/flow/src/firmware_flow_manager.cpp FirmwareFlowManager::CreateInstance *)
Definition run (indeterminate : Z) (executor : Executor) : Flow bool :=
  match executor with
  | CheckExecutor => object FirmwareCheckExecutor.new (FirmwareCheckExecutor.DoCheck (Some OnCheckCallback)) ;;; ret true
  | DownloadExecutor options =>
      object (FirmwareDownloadExecutor.new options)
        (FirmwareDownloadExecutor.DoDownload (Some OnDownloadCallback) (Some OnDownloadEventCallback))
  | InstallExecutor installType =>
      let* late := object FirmwareInstallExecutor.new
        (FirmwareInstallExecutor.DoInstall installType (Some OnInstallCallback) indeterminate) in
      set_own (λ this, set_late (late_ this ++ late) this) ;;;
      ret true
  | ApplyExecutor => object [] (FirmwareApplyExecutor.DoInstall (Some OnApplyCallback)) ;;; ret true
  end.

(** What happens to a flow that was started. *)
Inductive Event :=
  | Turn (indeterminate : Z)
  | Report (taskId : string) (progressInfo : ProgressInfo.t)
  | Late (n : nat).
(** A download executor hears its task from the time it has run until the flow ends. *)
Definition listening this : bool :=
  (completed_ this =? 0)%nat &&
  match executor_ this, submitted_ this with Some (DownloadExecutor _), [] => true | _, _ => false end.
Definition handle (ev : Event) : Flow bool :=
  match ev with
  | Turn indeterminate =>
      let* l := own_ submitted_ in
      match l with
      | [] => ret true
      | executor :: rest => set_own (set_submitted rest) ;;; run indeterminate executor
      end
  | Report taskId progressInfo =>
      let* live := own_ listening in
      (when (live : bool) do
         object (FirmwareDownloadExecutor.new DownloadOptions.default)
           (FirmwareDownloadExecutor.CallbackProgress (Some OnDownloadCallback) taskId progressInfo)) ;;;
      ret true
  (* The thread calls the functions of an executor that has returned: the flow has let go
     of it for the next step, or is itself gone. *)
  | Late n =>
      let* late := own_ late_ in
      (when bool_decide (n < List.length late)%nat do set_own (λ this, used_after_deletion (set_late (delete n late) this))) ;;;
      ret true
  end.
End ops.
End FirmwareFlowManager.

(** ** Modes that move on *)
Definition rank (step : FirmwareStep) : nat :=
  match step with
  | STEP_INIT => 0 | CHECK_STEP => 1 | DOWNLOAD_STEP => 2 | AUTH_STEP => 3 | INSTALL_STEP => 4 | APPLY_STEP => 5
  | STEP_COMPLETE => 6
  end%nat.
(** A mode never goes back, and never asks for the step that has no executor. *)
Definition moves_on (step step' : FirmwareStep) : Prop := (rank step < rank step')%nat ∧ step' ≠ AUTH_STEP.
Class Forward (R E M : Type) `{!FirmwareIExecuteMode.t R E M} : Prop :=
  forward mode step w : step ≠ STEP_COMPLETE →
    moves_on step (eval (FirmwareIExecuteMode.GetNextStep (R := R) (E := E) (M := M) mode step) w).2.

(** A property of the result, whatever the state. *)
Definition yields {S A : Type} (P : A → Prop) (m : ST S A) : Prop := ∀ s, P (eval m s).
Section yields.
Context {S : Type}.
Lemma yields_now {A} (P : A → Prop) (a : A) : P a → yields (S := S) P (ret a).
Proof. by intros Ha s. Qed.
Lemma yields_then {A B} (P : B → Prop) (m : ST S A) (f : A → ST S B) : (∀ a, yields P (f a)) → yields P (bind m f).
Proof. intros Hf s. rewrite eval_bind. apply Hf. Qed.
Lemma yields_bind_to {A B} (P : B → Prop) (P' : A → Prop) (m : ST S A) (f : A → ST S B) :
  yields P' m → (∀ a, P' a → yields P (f a)) → yields P (bind m f).
Proof. intros Hm Hf s. rewrite eval_bind. apply Hf, Hm. Qed.
Lemma yields_if {A} (P : A → Prop) (b : bool) (m n : ST S A) : yields P m → yields P n → yields P (if b then m else n).
Proof. by destruct b. Qed.
End yields.
(** Look through a computation for the results it can have. *)
Ltac yields :=
  repeat first
    [ apply yields_now; first [assumption | by (split; [cbn; lia|done])]
    | apply yields_if
    | eapply yields_bind_to; [solve [eauto with yields nocore]|intros [? ?] Hr; cbn in Hr]
    | apply yields_then; intros ?; try case_match ].
Create HintDb yields.

#[local] Existing Instances FirmwareManualCheckMode.mode FirmwareDownloadMode.mode FirmwareInstallApplyMode.mode
  FirmwareStreamInstallApplyMode.mode FirmwareAutoUpgradeMode.mode.
Section modes.
Context {R E : Type} `{Rdb R, Platform E, Sha256, Downloads E, Preferences E, Subscribers E, DeviceKits E, CheckCache E,
  !ServiceKits E, UpgradeAlarms E}.
(** The steps a mode can answer with. *)
Ltac forward f :=
  let this := fresh "this" in let step := fresh "step" in let w := fresh "w" in let Hs := fresh "Hs" in
  intros this step; destruct step; intros w Hs; try done; revert w;
  lazymatch goal with |- ∀ w, moves_on ?k (@eval ?S ?A ?m w).2 => change (yields (S := S) (λ r, moves_on k r.2) m) end;
  cbn [FirmwareIExecuteMode.GetNextStep]; f; yields.
#[export] Instance manual_forward : Forward R E FirmwareManualCheckMode.t.
Proof.
  forward ltac:(unfold FirmwareManualCheckMode.GetNextStep, FirmwareManualCheckMode.GetStepAfterInit, FirmwareManualCheckMode.GetStepAfterCheck).
Qed.
#[export] Instance download_forward : Forward R E FirmwareDownloadMode.t.
Proof.
  forward ltac:(unfold FirmwareDownloadMode.GetNextStep, FirmwareDownloadMode.GetStepAfterInit, FirmwareDownloadMode.GetStepAfterDownload).
Qed.
Definition install_or_end {T} (r : T * FirmwareStep) : Prop := moves_on STEP_INIT r.2.
Lemma install_order_yields this : yields install_or_end (FirmwareInstallApplyMode.GetStepForInstallAndApplyOrder (R := R) (E := E) this).
Proof. unfold FirmwareInstallApplyMode.GetStepForInstallAndApplyOrder. yields. Qed.
Lemma stream_order_yields this : yields install_or_end (FirmwareStreamInstallApplyMode.GetStepForInstallAndApplyOrder (R := R) (E := E) this).
Proof. unfold FirmwareStreamInstallApplyMode.GetStepForInstallAndApplyOrder. yields. Qed.
#[local] Hint Resolve install_order_yields stream_order_yields : yields.
#[export] Instance install_forward : Forward R E FirmwareInstallApplyMode.t.
Proof.
  forward ltac:(unfold FirmwareInstallApplyMode.GetNextStep, FirmwareInstallApplyMode.GetStepAfterInit,
    FirmwareInstallApplyMode.GetStepAfterInstall).
Qed.
Definition after_install {T} (r : T * FirmwareStep) : Prop := moves_on INSTALL_STEP r.2.
Lemma stream_init_yields this : yields install_or_end (FirmwareStreamInstallApplyMode.GetStepAfterInit (R := R) (E := E) this).
Proof. unfold FirmwareStreamInstallApplyMode.GetStepAfterInit. yields. Qed.
Lemma stream_install_yields this : yields after_install (FirmwareStreamInstallApplyMode.GetStepAfterInstall (R := R) (E := E) this).
Proof. unfold FirmwareStreamInstallApplyMode.GetStepAfterInstall. yields. Qed.
#[local] Hint Resolve stream_init_yields stream_install_yields : yields.
#[export] Instance stream_forward : Forward R E FirmwareStreamInstallApplyMode.t.
Proof. forward ltac:(unfold FirmwareStreamInstallApplyMode.GetNextStep). Qed.
#[export] Instance auto_forward : Forward R E FirmwareAutoUpgradeMode.t.
Proof.
  forward ltac:(unfold FirmwareAutoUpgradeMode.GetNextStep, FirmwareAutoUpgradeMode.GetStepAfterInit, FirmwareAutoUpgradeMode.GetStepAfterCheck,
    FirmwareAutoUpgradeMode.HandlePreDownloadStep, FirmwareAutoUpgradeMode.GetStepAfterDownload).
Qed.
End modes.

(** ** The life of a flow *)
Section life.
Context {R E M : Type} `{Rdb R, Platform E, Sha256, Subscribers E, !InstallKits E, DownloadTasks E, CheckKits E, CheckCache E,
  RebootKits E, !FirmwareIExecuteMode.t R E M, !Forward R E M}.
Import FirmwareFlowManager.
#[local] Notation State := (t M * World R E)%type.
Implicit Types (this : t M) (s : State).

(** The step an executor carries out. *)
Definition step_of (executor : Executor) : FirmwareStep :=
  match executor with
  | CheckExecutor => CHECK_STEP | DownloadExecutor _ => DOWNLOAD_STEP | InstallExecutor _ => INSTALL_STEP | ApplyExecutor => APPLY_STEP
  end.
(** What may have been used after its deletion, and what may still be late. *)
Definition Use : Type := bool → list FirmwareComponent.t → Prop.
Definition any_use : Use := λ _ _, True.
(** A flow that goes on, at a step, with what it has submitted. *)
Record going_at (u : Use) (k : FirmwareStep) (l : list Executor) this : Prop := {
  going_mode : is_Some (executeMode_ this);
  going_completed : completed_ this = 0%nat;
  going_use : u (undefined_ this) (late_ this);
  going_submitted : submitted_ this = l;
  going_step : nextStep_ this = k
}.
#[global] Arguments going_mode {u} k l this _.
#[global] Arguments going_completed {u} k l this _.
#[global] Arguments going_submitted {u} k l this _.
#[global] Arguments going_step {u} k l this _.
(** An executor is about to run; it runs, or what it began goes on without it; the
    end. *)
Definition pending_at (u : Use) (ex : Executor) this : Prop := going_at u (step_of ex) [ex] this ∧ executor_ this = Some ex.
Definition under_way_at (u : Use) (ex : Executor) this : Prop := going_at u (step_of ex) [] this ∧ executor_ this = Some ex.
Definition finished_at (u : Use) this : Prop := completed_ this = 1%nat ∧ u (undefined_ this) (late_ this) ∧ submitted_ this = [].
(** After a step. *)
Definition settled_at (u : Use) (k : FirmwareStep) this : Prop :=
  finished_at u this ∨ ∃ ex, pending_at u ex this ∧ (rank k < rank (step_of ex))%nat.

(** After an executor has run: only an installation always leads on. *)
Definition progressed_at (u : Use) (ex : Executor) this : Prop :=
  settled_at u (step_of ex) this ∨ under_way_at u ex this ∧ step_of ex ≠ INSTALL_STEP.
Lemma settled_any u k this : settled_at u k this → settled_at any_use k this.
Proof. intros [(?&?&?)|(ex & [[] ?] & ?)]; [by left|right; exists ex; repeat split; done]. Qed.

Section at_use.
Context {u : Use}.
#[local] Notation going := (going_at u).
#[local] Notation pending := (pending_at u).
#[local] Notation under_way := (under_way_at u).
#[local] Notation finished := (finished_at u).
#[local] Notation settled := (settled_at u).
Lemma wp_on_mode {A} (f : M → ST (World R E) (M * A)) k l s (Q : option A → State → Prop) :
  going k l s.1 →
  (∀ m m' a w', executeMode_ s.1 = Some m → a = (eval (f m) s.2).2 → Q (Some a) (set_mode m' s.1, w')) →
  wp (on_mode f) s Q.
Proof.
  intros [[m Hm] Hc _ _ _] HQ. unfold on_mode. apply wp_bind, wp_own_. rewrite Hc. cbn [Nat.eqb negb].
  apply wp_bind, wp_own_. rewrite Hm. apply wp_bind, wp_env_. unfold wp.
  specialize (HQ m). destruct (eval (f m) s.2) as [m' a] eqn:Ha. rewrite exec_bind, eval_bind. by eapply HQ.
Qed.
Lemma wp_tell_mode (f : M → ST (World R E) M) k l s (Q : option unit → State → Prop) :
  going k l s.1 → (∀ m' w', Q (Some tt) (set_mode m' s.1, w')) → wp (tell_mode f) s Q.
Proof. intros Hs HQ. eapply wp_on_mode; [done|]. intros m m' [] w' _ _. apply HQ. Qed.
Lemma going_told k l this m : going k l this → going k l (set_mode m this).
Proof. intros []. by split. Qed.
Lemma under_way_told ex this m : under_way ex this → under_way ex (set_mode m this).
Proof. intros []. split; [by apply going_told|done]. Qed.

Lemma wp_Complete k s (Q : unit → State → Prop) :
  going k [] s.1 → (∀ s', finished s'.1 → Q tt s') → wp Complete s Q.
Proof.
  intros Hs HQ. unfold Complete. apply wp_bind. eapply wp_tell_mode; [done|]. intros m' w'. apply wp_set_own, HQ.
  destruct Hs as [_ Hc Hu Hl _]. split; cbn; [by rewrite Hc|done].
Qed.
Lemma wp_submit ex k s (Q : unit → State → Prop) :
  going k [] s.1 → (∀ w', Q tt (set_submitted [ex] s.1, w')) → wp (submit ex) s Q.
Proof.
  intros [_ _ _ Hl _] HQ. unfold submit. apply wp_bind. destruct ex; [apply wp_env_, wp_any; intros ? w'|apply wp_ret..];
    apply wp_set_own; cbn [fst snd]; rewrite Hl; apply HQ.
Qed.
(** A flow that asks for the next step completes, or submits the executor of a later
    one. *)
Lemma wp_Execute k s (Q : unit → State → Prop) :
  going k [] s.1 → k ≠ STEP_COMPLETE → (∀ s', settled k s'.1 → Q tt s') → wp Execute s Q.
Proof.
  intros Hs Hk HQ. unfold Execute. apply wp_bind, wp_own_. rewrite (going_step _ _ _ Hs). apply wp_bind.
  eapply wp_on_mode; [done|]. intros m m' step w' _ ->.
  destruct (forward m k s.2 Hk) as [Hr Ha]. generalize dependent (eval (FirmwareIExecuteMode.GetNextStep m k) s.2).2.
  intros step Hr Ha. apply wp_bind, wp_set_own. cbn [fst snd].
  assert (going step [] (set_step step (set_mode m' s.1))) as Hg by by destruct Hs.
  case_bool_decide as Hc.
  - eapply wp_Complete; [exact Hg|]. intros s' Hs'. apply HQ. by left.
  - apply wp_bind, wp_own_, wp_bind, wp_set_own. cbn [fst snd executeMode_ set_step set_mode mbind option_bind].
    assert (∃ ex, CreateInstance (R := R) (E := E) step m' = Some ex ∧ step_of ex = step) as (ex & -> & Hex).
    { destruct step; try done; cbn in *; try lia; by eexists. }
    eapply wp_submit; [destruct Hg; by split|]. intros w''. apply HQ. right. exists ex. rewrite Hex.
    split; [|exact Hr]. split; [|done]. destruct Hg. split; cbn in *; try done.
Qed.

Lemma wp_heard ex goes_on s (Q : unit → State → Prop) :
  under_way ex s.1 → (∀ s', (if goes_on : bool then settled (step_of ex) s'.1 else under_way ex s'.1) → Q tt s') →
  wp (heard goes_on (Some tt)) s Q.
Proof.
  intros Hs HQ. unfold heard. destruct goes_on; [|by apply wp_ret, HQ].
  eapply wp_Execute; [apply Hs|by destruct ex|exact HQ].
Qed.
Lemma wp_told ex f goes_on s (Q : unit → State → Prop) :
  under_way ex s.1 → (∀ s', (if goes_on : bool then settled (step_of ex) s'.1 else under_way ex s'.1) → Q tt s') →
  wp (let* told := tell_mode f in heard goes_on told) s Q.
Proof.
  intros Hs HQ. apply wp_bind. eapply wp_tell_mode; [apply Hs|]. intros m' w'.
  eapply wp_heard; [by apply under_way_told|exact HQ].
Qed.

(** The work an executor does on the world alone. *)
Lemma wp_on_world_any {T A} (m : ST (World R E) A) (x : T * State) (Q : A → T * State → Prop) :
  (∀ a w', Q a (x.1, (x.2.1, w'))) → wp (on_world m) x Q.
Proof. intros HQ. apply wp_on_world, wp_any. intros. apply HQ. Qed.

#[local] Notation progressed := (progressed_at u).
Lemma progressed_when ex (b : bool) this :
  (if b then settled (step_of ex) this else under_way ex this) → step_of ex ≠ INSTALL_STEP → progressed ex this.
Proof. destruct b; [by left|by right]. Qed.

Lemma wp_DoCheck s (Q : unit → State → Prop) :
  under_way CheckExecutor s.1 → (∀ s', progressed CheckExecutor s'.1 → Q tt s') →
  wp (object FirmwareCheckExecutor.new (FirmwareCheckExecutor.DoCheck (Some OnCheckCallback))) s Q.
Proof.
  intros Hs HQ. apply wp_object. unfold FirmwareCheckExecutor.DoCheck. apply wp_bind, wp_on_world_any. cbn [fst snd].
  intros [[[[st d] l] ai]|] w'; [|apply wp_ret, HQ; by right].
  apply wp_bind, wp_set_this. unfold FirmwareCheckExecutor.Complete. apply wp_bind, wp_on_world_any. intros _ w''.
  apply wp_bind, wp_this, wp_call. cbn [fst snd]. unfold OnCheckCallback.
  eapply wp_told; [exact Hs|]. intros s' Hs'. apply HQ. by left.
Qed.

Section download.
Context (options : DownloadOptions.t).
#[local] Notation ex := (DownloadExecutor options).
#[local] Notation Obj := (FirmwareDownloadExecutor.t * State)%type.
Implicit Types (x : Obj).
Lemma wp_told_progress info x (Q : unit → Obj → Prop) :
  under_way ex x.2.1 → (∀ s', progressed ex s'.1 → Q tt (x.1, s')) →
  wp (call (Some OnDownloadCallback) info) x Q.
Proof.
  intros Hx HQ. apply wp_call. unfold OnDownloadCallback. eapply wp_told; [exact Hx|]. intros s' Hs'.
  apply HQ. by eapply progressed_when.
Qed.
Lemma wp_flow_progress taskId p x (Q : unit → Obj → Prop) :
  under_way ex x.2.1 → (∀ s', progressed ex s'.1 → Q tt (x.1, s')) →
  wp (FirmwareDownloadExecutor.CallbackProgress (Some OnDownloadCallback) taskId p) x Q.
Proof.
  intros Hx HQ. unfold FirmwareDownloadExecutor.CallbackProgress. destruct (_ !! _); [by apply wp_told_progress|].
  apply wp_ret. destruct x as [this s]. apply HQ. by right.
Qed.
Lemma wp_PerformDownload x (Q : unit → Obj → Prop) :
  under_way ex x.2.1 → (∀ o s', progressed ex s'.1 → Q tt (o, s')) →
  wp (FirmwareDownloadExecutor.PerformDownload (Some OnDownloadCallback) (Some OnDownloadEventCallback)) x Q.
Proof.
  intros Hx HQ. unfold FirmwareDownloadExecutor.PerformDownload. apply wp_bind, wp_this. destruct (_ x.1).
  { apply wp_ret. destruct x. apply HQ. by right. }
  apply wp_bind, wp_call. unfold OnDownloadEventCallback. apply wp_bind. eapply wp_tell_mode; [apply Hx|]. intros m' w'.
  apply wp_ret, wp_bind, wp_on_world_any. intros [? err] w''. case_bool_decide.
  - apply wp_ret, HQ. right. split; [by apply under_way_told|done].
  - apply wp_told_progress; [by apply under_way_told|auto].
Qed.
Lemma wp_PerformResumeDownload x (Q : unit → Obj → Prop) :
  under_way ex x.2.1 → (∀ o s', progressed ex s'.1 → Q tt (o, s')) →
  wp (FirmwareDownloadExecutor.PerformResumeDownload (Some OnDownloadCallback) (Some OnDownloadEventCallback)) x Q.
Proof.
  intros Hx HQ. unfold FirmwareDownloadExecutor.PerformResumeDownload. apply wp_bind, wp_this, wp_bind, wp_on_world_any.
  intros [p err] w'. case_bool_decide; cbn [negb].
  2:{ case_if; [by apply wp_PerformDownload|by apply wp_told_progress; [|auto]]. }
  unfold FirmwareDownloadExecutor.IsNeedResumeDownload. apply wp_bind. case_if; [|case_if].
  - apply wp_bind, wp_this, wp_bind, wp_flow_progress; [done|]. intros s' Hs'. apply wp_ret, wp_ret. by apply HQ.
  - apply wp_bind, wp_told_progress; [done|]. intros s' Hs'. apply wp_ret, wp_ret. by apply HQ.
  - apply wp_ret. cbn [negb]. apply wp_bind, wp_call. unfold OnDownloadEventCallback. apply wp_bind.
    eapply wp_tell_mode; [apply Hx|]. intros m' w''. apply wp_ret, wp_bind, wp_this, wp_bind, wp_on_world_any. intros err' w3.
    assert (under_way ex (set_mode m' x.2.1)) as Hx' by by apply under_way_told.
    case_bool_decide; [apply wp_ret, HQ; by right|]. case_if; [by apply wp_flow_progress; [|auto]|by apply wp_told_progress; [|auto]].
Qed.
Lemma wp_DoDownload s (Q : bool → State → Prop) :
  under_way ex s.1 → (∀ b s', progressed ex s'.1 → Q b s') →
  wp (object (FirmwareDownloadExecutor.new options)
       (FirmwareDownloadExecutor.DoDownload (Some OnDownloadCallback) (Some OnDownloadEventCallback))) s Q.
Proof.
  intros Hs HQ. apply wp_object. unfold FirmwareDownloadExecutor.DoDownload. apply wp_bind, wp_this, wp_bind, wp_on_world_any.
  intros [? components] w'. apply wp_bind, wp_set_this. cbn [fst snd].
  destruct components; [apply wp_ret, HQ; by right|]. unfold FirmwareDownloadExecutor.GetTask.
  apply wp_bind, wp_bind, wp_this, wp_bind, wp_on_world_any. intros task w''. apply wp_set_this, wp_bind, wp_this, wp_bind. cbn [fst snd].
  case_if; [apply wp_PerformDownload|apply wp_PerformResumeDownload]; try done; intros this s' Hs'; by apply wp_ret, HQ.
Qed.
End download.

Lemma wp_apply s (Q : unit → State → Prop) :
  under_way ApplyExecutor s.1 → (∀ s', progressed ApplyExecutor s'.1 → Q tt s') →
  wp (object [] (FirmwareApplyExecutor.DoInstall (Some OnApplyCallback))) s Q.
Proof.
  intros Hs HQ. apply wp_object. unfold FirmwareApplyExecutor.DoInstall. apply wp_bind, wp_this, wp_bind, wp_on_world_any.
  intros [? components] w'. apply wp_bind, wp_set_this. cbn [fst snd]. destruct components.
  - apply wp_call. unfold OnApplyCallback. eapply wp_told; [exact Hs|]. intros s' Hs'. apply HQ. by left.
  - apply wp_on_world_any. intros [] w''. apply HQ. by right.
Qed.

End at_use.

Section install.
Context {u : Use} (installType : InstallType).
#[local] Notation under_way := (under_way_at u).
#[local] Notation settled := (settled_at u).
#[local] Notation ex := (InstallExecutor installType).
#[local] Notation Obj := (FirmwareInstallExecutor.t * State)%type.
#[local] Notation cbs := (FirmwareInstallExecutor.callbacks installType (Some (OnInstallCallback (R := R) (E := E) (M := M)))).
Implicit Types (x : Obj).
Definition installing x : Prop := under_way ex x.2.1.
Lemma installing_world {A} (m : ST (World R E) A) : keeps installing (outer (on_world m)).
Proof. apply keeps_outer. intros x Hx. enough (wp (on_world m) x (λ _ x', installing x')) as Hw by exact Hw. by apply wp_on_world_any. Qed.
Lemma wp_told_install info x (Q : unit → Obj → Prop) :
  installing x →
  (∀ s', (if negb (Progress.status (InstallCallbackInfo.progress info) =? UpgradeStatus.INSTALLING)
          then settled INSTALL_STEP s'.1 else under_way ex s'.1) → Q tt (x.1, s')) →
  wp (call (Some OnInstallCallback) info) x Q.
Proof. intros Hx HQ. apply wp_call. unfold OnInstallCallback. eapply wp_told; [exact Hx|exact HQ]. Qed.
Lemma installing_progress c x :
  installing x → wp (FirmwareInstallExecutor.HandleInstallProgress installType (Some OnInstallCallback) c) x (λ _ x', installing x').
Proof.
  intros Hx. unfold FirmwareInstallExecutor.HandleInstallProgress. apply wp_bind, wp_on_world_any. intros _ w1.
  apply wp_bind, wp_set_this, wp_bind, wp_this, wp_bind, wp_set_this, wp_bind. cbn [fst snd].
  destruct (FirmwareInstallExecutor.is_stream _); [|apply wp_bind, wp_this]; apply wp_on_world_any; intros _ w2;
    (apply wp_bind, wp_this; apply wp_told_install; [exact Hx|]; intros s' Hs'; exact Hs').
Qed.
(** A report that comes when the result has already moved the flow on: the flow stays
    where it is, or it is gone. *)
Definition moved_on x : Prop := settled_at any_use INSTALL_STEP x.2.1.
Lemma moved_on_told info s (Q : unit → State → Prop) :
  settled_at any_use INSTALL_STEP s.1 → Progress.status (InstallCallbackInfo.progress info) = UpgradeStatus.INSTALLING →
  (∀ s', settled_at any_use INSTALL_STEP s'.1 → Q tt s') → wp (OnInstallCallback info) s Q.
Proof.
  intros [(Hc & Hu & Hl)|(ex' & [Hg He] & Hr)] Hi HQ; unfold OnInstallCallback; rewrite Hi; apply wp_bind.
  - unfold tell_mode, on_mode. apply wp_bind, wp_own_. rewrite Hc. apply wp_bind, wp_set_own, wp_ret, wp_ret, HQ. by left.
  - eapply wp_tell_mode; [exact Hg|]. intros m' w'. apply wp_ret, HQ. right. exists ex'.
    split; [|exact Hr]. split; [by apply going_told|exact He].
Qed.
Lemma moved_on_reported f c :
  onFirmwareProgress cbs = Some f → keeps moved_on (outer (f c)).
Proof.
  intros [= <-]. apply keeps_outer. intros x Hx.
  enough (wp (FirmwareInstallExecutor.HandleInstallProgress installType (Some OnInstallCallback) c) x (λ _ x', moved_on x')) as Hw by exact Hw.
  unfold FirmwareInstallExecutor.HandleInstallProgress. apply wp_bind, wp_on_world_any. intros _ w1.
  apply wp_bind, wp_set_this, wp_bind, wp_this, wp_bind, wp_set_this, wp_bind. cbn [fst snd].
  destruct (FirmwareInstallExecutor.is_stream _); [|apply wp_bind, wp_this]; apply wp_on_world_any; intros _ w2;
    (apply wp_bind, wp_this, wp_call; apply moved_on_told; [exact Hx|done|]; intros s' Hs'; exact Hs').
Qed.
#[local] Instance moved_on_reporting : Reporting cbs (λ _, True) moved_on.
Proof.
  split; [done| |by intros; apply moved_on_reported].
  apply keeps_outer. intros x Hx. enough (wp (on_world (on_env other_install)) x (λ _ x', moved_on x')) as Hw by exact Hw.
  by apply wp_on_world_any.
Qed.
#[local] Instance installing_steady : Steady cbs (λ _, True) installing.
Proof.
  split; try done; try (intros; apply installing_world).
  - split; [done|apply installing_world|]. intros f c [= <-] _. apply keeps_outer. intros x Hx. by apply installing_progress.
  - intros v s Hs. split; [done|]. by apply (installing_world _ s).
  - intros f st [= <-]. apply keeps_outer. intros x Hx.
    assert (∀ m : ST Obj unit, wp m x (λ _ x', installing x') → installing (exec m x)) as Hwp by done. apply Hwp.
    apply wp_bind, wp_this, wp_on_world_any. by intros.
Qed.
(** An installation moves the flow on; only late reports of the system installer may use
    what was deleted, or be left. *)
Lemma wp_flow_install ind s (Q : list FirmwareComponent.t → State → Prop) :
  under_way ex s.1 →
  (∀ l s', settled_at any_use INSTALL_STEP s'.1 → (installType ≠ SYS_INSTALLER → settled INSTALL_STEP s'.1 ∧ l = []) → Q l s') →
  wp (object FirmwareInstallExecutor.new (FirmwareInstallExecutor.DoInstall installType (Some OnInstallCallback) ind)) s Q.
Proof.
  intros Hs HQ. apply wp_object. unfold FirmwareInstallExecutor.DoInstall. apply wp_bind, wp_this, wp_bind, wp_on_world_any.
  intros [? components] w'. apply wp_bind, wp_set_this. cbn [fst snd].
  assert (∀ x info, installing x → Progress.status (InstallCallbackInfo.progress info) ≠ UpgradeStatus.INSTALLING →
    wp (call (Some OnInstallCallback) info) x (λ _ x', settled INSTALL_STEP x'.2.1)) as Hend.
  { intros x info Hx Hi. apply wp_told_install; [done|]. rewrite (proj2 (Z.eqb_neq _ _)) by done. auto. }
  destruct components as [|c cs].
  { apply wp_bind, wp_set_this, wp_bind, wp_this, wp_bind. eapply wp_mono; [|apply Hend; [exact Hs|cbn; by case_if]].
    intros ? x Hx. apply wp_ret, HQ; [exact (settled_any _ _ _ Hx)|done]. }
  unfold FirmwareInstallExecutor.GetTask. apply wp_bind, wp_bind, wp_this. cbn [fst snd].
  change (FirmwareTask.isExistTask _) with false. cbn [negb]. apply wp_bind, wp_on_world_any. intros task w1.
  apply wp_set_this, wp_bind, wp_this, wp_bind, wp_on_world_any. cbn [fst snd]. intros _ w2. apply wp_bind.
  apply (wp_for_each (λ _ x, installing x)).
  - exact Hs.
  - intros l1 x l2 s1 _ Hx. apply wp_bind, wp_on_world_any. intros _ w3. by apply wp_ret.
  - intros x Hx. unfold FirmwareInstallExecutor.StartInstall. apply wp_bind, wp_this.
    destruct (install_event cbs (λ _, True) installing installType ind (FirmwareInstallExecutor.components_ x.1) x)
      as (x' & r & e & st & Hx' & _ & Hne & Hlate); [by apply Forall_true|done|].
    enough (wp (FirmwareInstallExecutor.HandleInstallResult installType (Some OnInstallCallback) r e st) x' (λ _ x', settled INSTALL_STEP x'.2.1)) as Hr.
    { pose proof (settled_any _ _ _ Hr). unfold wp. apply HQ; [by apply (Hlate moved_on _)|]. intros Hsys. by destruct (Hne Hsys) as [-> ->]. }
    unfold FirmwareInstallExecutor.HandleInstallResult. apply wp_bind, wp_this, wp_bind, wp_set_this, wp_bind, wp_this, wp_bind, wp_this.
    apply wp_bind, wp_on_world_any. intros _ w4. apply wp_bind, wp_set_this, wp_bind, wp_set_this, wp_bind, wp_this, Hend; [exact Hx'|].
    cbn. unfold FirmwareInstallExecutor.result_status. by repeat case_if.
Qed.
End install.

(** An executor that runs.  Its flow can be used after its deletion only if it installs by
    the system installer. *)
Lemma wp_run (u : Use) ex ind s (Q : bool → State → Prop) :
  under_way_at u ex s.1 →
  (∀ b s', progressed_at any_use ex s'.1 → (ex ≠ InstallExecutor SYS_INSTALLER → progressed_at u ex s'.1) → Q b s') →
  wp (run ind ex) s Q.
Proof.
  intros Hs HQ.
  assert (∀ b s', progressed_at u ex s'.1 → Q b s') as HQ'.
  { intros b s' Hs'. apply HQ; [|done]. destruct Hs' as [Hs'|[[[] ?] ?]]; [left; by eapply settled_any|right; by repeat split]. }
  destruct ex as [|options|ty|]; cbn [run].
  - apply wp_bind. eapply wp_DoCheck; [done|]. intros s' Hs'. by apply wp_ret, HQ'.
  - eapply wp_DoDownload; [done|]. intros b s' Hs'. by apply HQ'.
  - apply wp_bind. eapply wp_flow_install; [done|]. intros l s' Hs' Hu. apply wp_bind, wp_set_own, wp_ret. cbn [fst snd].
    apply HQ; [|intros Hne; destruct Hu as [Hu ->]; [congruence|]; clear Hs'; rename Hu into Hs'; rewrite app_nil_r]; left;
      (destruct Hs' as [Hf|(ex & [[] He] & Hr)]; [by left|right; exists ex; repeat split; done]).
  - apply wp_bind. eapply wp_apply; [done|]. intros s' Hs'. by apply wp_ret, HQ'.
Qed.

Lemma wp_Turn (u : Use) ex ind s (Q : bool → State → Prop) :
  pending_at u ex s.1 →
  (∀ b s', progressed_at any_use ex s'.1 → (ex ≠ InstallExecutor SYS_INSTALLER → progressed_at u ex s'.1) → Q b s') →
  wp (handle (Turn ind)) s Q.
Proof.
  intros [Hg He] HQ. cbn [handle]. apply wp_bind, wp_own_. rewrite (going_submitted _ _ _ Hg).
  apply wp_bind, wp_set_own, (wp_run u); [|exact HQ]. split; [destruct Hg; by split|done].
Qed.
Lemma wp_Report (u : Use) ex taskId p s (Q : bool → State → Prop) :
  under_way_at u ex s.1 → (∀ b s', progressed_at u ex s'.1 ∨ s' = s → Q b s') → wp (handle (Report taskId p)) s Q.
Proof.
  intros [Hg He] HQ. cbn [handle]. apply wp_bind, wp_own_. unfold listening. rewrite (going_completed _ _ _ Hg), (going_submitted _ _ _ Hg), He.
  destruct ex; try (apply wp_bind, wp_ret, wp_ret, HQ; by right). apply wp_bind, wp_object.
  eapply (wp_flow_progress options); [by split|]. intros s' Hs'. apply wp_ret, HQ. by left.
Qed.
(** A late report leaves no trace but the use of what is gone. *)
Definition used_late (n : nat) s : State := (used_after_deletion (set_late (delete n (late_ s.1)) s.1), s.2).
Lemma handle_Late n s : exec (handle (Late n)) s = if decide (n < List.length (late_ s.1))%nat then used_late n s else s.
Proof.
  destruct s as [this w]. cbn [handle]. unfold exec, bind, own_, set_own. cbn. case_bool_decide; by case_decide.
Qed.
Lemma finished_rests u ev s : finished_at u s.1 → exec (handle ev) s = s ∨ ∃ n, ev = Late n ∧ exec (handle ev) s = used_late n s.
Proof.
  intros (Hc & _ & Hl). destruct ev as [ind|taskId p|n].
  - left. destruct s. unfold handle, exec, bind, own_; cbn in *. by rewrite Hl.
  - left. destruct s. unfold handle, exec, bind, own_, listening; cbn in *. by rewrite Hc.
  - rewrite handle_Late. case_decide; [right; by exists n|by left].
Qed.

(** The states of a flow that was started. *)
Inductive lives (u : Use) s : Prop :=
  | lives_finished : finished_at u s.1 → lives u s
  | lives_pending ex : pending_at u ex s.1 → lives u s
  | lives_waiting ex : under_way_at u ex s.1 → step_of ex ≠ INSTALL_STEP → lives u s.
Lemma progressed_lives u ex s : progressed_at u ex s.1 → lives u s.
Proof. intros [[Hf|(ex' & Hex & _)]|[Hu Hi]]; [by apply lives_finished|by eapply lives_pending|by eapply lives_waiting]. Qed.
Lemma lives_mono (u v : Use) s : lives u s → (u (undefined_ s.1) (late_ s.1) → v (undefined_ s.1) (late_ s.1)) → lives v s.
Proof.
  intros Hs Hv. destruct Hs as [(?&?&?)|ex [[] ?]|ex [[] ?] ?]; [apply lives_finished|apply (lives_pending _ _ ex)|apply (lives_waiting _ _ ex)];
    repeat split; auto.
Qed.
Lemma lives_used_late u n s : lives u s → lives any_use (used_late n s).
Proof.
  intros [(?&?&?)|ex [[] ?]|ex [[] ?] ?]; [apply lives_finished|apply (lives_pending _ _ ex)|apply (lives_waiting _ _ ex)]; repeat split; done.
Qed.
Lemma lives_use u s : lives u s → u (undefined_ s.1) (late_ s.1).
Proof. intros [(?&?&?)|ex [[] ?]|ex [[] ?] ?]; done. Qed.

(** An installation by the system installer has run. *)
Definition happens (evs : list Event) : ST State unit := for_each evs (λ ev, handle ev ;;; ret tt).
Definition installed_by_system (start : State) (evs : list Event) : Prop :=
  ∃ evs1 ind evs2, evs = evs1 ++ Turn ind :: evs2 ∧
    submitted_ (exec (happens evs1) start).1 = [InstallExecutor SYS_INSTALLER].
Lemma installed_snoc start evs ev : installed_by_system start evs → installed_by_system start (evs ++ [ev]).
Proof. intros (evs1 & ind & evs2 & -> & Hs). exists evs1, ind, (evs2 ++ [ev]). by rewrite <- app_assoc. Qed.
(** Nothing else is used late. *)
Definition only_late (start : State) (evs : list Event) : Use :=
  λ undefined late, undefined = true ∨ late ≠ [] → installed_by_system start evs.
Lemma lives_step start evs ev s :
  s = exec (happens evs) start → lives (only_late start evs) s → lives (only_late start (evs ++ [ev])) (exec (handle ev) s).
Proof.
  intros Hs Hl. assert (lives (only_late start (evs ++ [ev])) s) as Hl'.
  { eapply lives_mono; [exact Hl|]. intros Hu Hx. by apply installed_snoc, Hu. }
  destruct ev as [ind|taskId p|n].
  - destruct Hl' as [Hf|ex Hex|ex Hex Hi].
    + destruct (finished_rests _ (Turn ind) s Hf) as [->|(n & [=] & _)]. by apply lives_finished.
    + enough (wp (handle (Turn ind)) s (λ _ s', lives (only_late start (evs ++ [Turn ind])) s')) as Hw by exact Hw.
      eapply wp_Turn; [exact Hex|]. intros b s' Hany Hu. assert (ex = InstallExecutor SYS_INSTALLER ∨ ex ≠ InstallExecutor SYS_INSTALLER) as [->|Hne] by (destruct ex as [| |[]|]; auto).
      * eapply lives_mono; [by eapply progressed_lives|]. intros _ _. exists evs, ind, []. split; [done|]. rewrite <- Hs. apply Hex.
      * eapply progressed_lives. by apply Hu.
    + enough (exec (handle (Turn ind)) s = s) as -> by by eapply lives_waiting.
      destruct Hex as [[_ _ _ Hsub _] _], s. unfold handle, exec, bind, own_. cbn in *. by rewrite Hsub.
  - destruct Hl' as [Hf|ex Hex|ex Hex Hi].
    + destruct (finished_rests _ (Report taskId p) s Hf) as [->|(n & [=] & _)]. by apply lives_finished.
    + enough (exec (handle (Report taskId p)) s = s) as -> by by eapply lives_pending.
      destruct Hex as [[_ _ _ Hsub _] He], s. unfold handle, exec, bind, own_, listening. cbn in *. rewrite Hsub, He, andb_comm. by destruct ex.
    + enough (wp (handle (Report taskId p)) s (λ _ s', lives (only_late start (evs ++ [Report taskId p])) s')) as Hw by exact Hw.
      eapply wp_Report; [exact Hex|]. intros b s' [Hs'| ->]; [by eapply progressed_lives|by eapply lives_waiting].
  - rewrite handle_Late. case_decide as Hn; [|done]. eapply lives_mono; [by eapply lives_used_late|].
    intros _ _. apply installed_snoc, (lives_use _ _ Hl). right. intros Hnil. rewrite Hnil in Hn. cbn in Hn. lia.
Qed.
Lemma happens_snoc evs ev s : exec (happens (evs ++ [ev])) s = exec (handle ev) (exec (happens evs) s).
Proof.
  revert s. induction evs as [|ev' evs IH]; intros s; cbn [app]; unfold happens in *; rewrite !exec_for_each_cons; [|apply IH].
  rewrite !exec_for_each_nil. by rewrite exec_bind.
Qed.
Lemma lives_all start evs evs' :
  lives (only_late start evs) (exec (happens evs) start) → lives (only_late start (evs ++ evs')) (exec (happens (evs ++ evs')) start).
Proof.
  revert evs. induction evs' as [|ev evs' IH]; intros evs Hl; [by rewrite app_nil_r|].
  rewrite (app_assoc evs [ev] evs' : evs ++ ev :: evs' = _). apply IH.
  rewrite happens_snoc.
  by apply lives_step.
Qed.

(** C3: whatever its mode decides, as long as the mode moves on, and whatever is
    reported to it, a flow that was started is always in one of three states.  It has
    completed exactly once, and then nothing happens any more; or it has submitted
    exactly one executor, which leads to the end, to an executor of a later step, or to
    a wait; or it waits for what the check, the download or the reboot it has begun
    brings.  An installation never leaves it waiting.  Neither the flow nor its executor
    is used after its deletion, except by late reports of the system installer: only a
    flow that has run an installation with it can have been used so. *)
Theorem flow_completes_once mode w evs :
  let start := exec (SetExecuteMode mode ;;; Start) (new, w) in
  wp (happens evs) start (λ _ s',
    (undefined_ s'.1 = true → installed_by_system start evs) ∧
    (finished_at any_use s'.1 ∧
       (∀ ev, exec (handle ev) s' = s' ∨ ∃ n, ev = Late n ∧ exec (handle ev) s' = used_late n s') ∨
     (∃ ex, pending_at any_use ex s'.1 ∧ ∀ ind, wp (handle (Turn ind)) s' (λ _ s'', progressed_at any_use ex s''.1)) ∨
     (∃ ex, under_way_at any_use ex s'.1 ∧ step_of ex ≠ INSTALL_STEP))).
Proof.
  intros start. assert (lives (only_late start []) start) as Hstart.
  { enough (wp (SetExecuteMode mode ;;; Start) (new, w) (λ _ s, lives (λ undefined late, undefined = false ∧ late = []) s)) as Hw.
    { eapply lives_mono; [exact Hw|]. intros [Hu Hl] [Hx|Hx]; congruence. }
    apply wp_bind. unfold SetExecuteMode. apply wp_set_own. unfold Start. apply wp_bind, wp_own_. cbn [fst snd executeMode_ set_mode].
    eapply (wp_Execute (u := λ undefined late, undefined = false ∧ late = [])); [by split|done|]. intros s0 [Hf|(ex & Hex & _)]; [by apply lives_finished|by eapply lives_pending]. }
  unfold wp. pose proof (lives_all start [] evs Hstart) as Hl. cbn [app] in Hl. set (s' := exec (happens evs) start) in *.
  split; [intros Hu; apply (lives_use _ _ Hl); by left|].
  assert (lives any_use s') as [Hf|ex Hex|ex Hex Hi] by (by eapply lives_mono).
  - left. split; [done|]. intros ev. by eapply finished_rests.
  - right. left. exists ex. split; [done|]. intros ind. by apply (wp_Turn any_use ex ind s' (λ _ s'', progressed_at any_use ex s''.1)); [|intros].
  - right. right. by exists ex.
Qed.
End life.
(** Flows that were used properly. *)
Notation going := (going_at (λ undefined _, undefined = false)).
Notation pending := (pending_at (λ undefined _, undefined = false)).
Notation under_way := (under_way_at (λ undefined _, undefined = false)).
Notation finished := (finished_at (λ undefined _, undefined = false)).
Notation settled := (settled_at (λ undefined _, undefined = false)).
Notation progressed := (progressed_at (λ undefined _, undefined = false)).

(** ** A sample service *)
Module SampleFlow.
#[global] Instance kits : InstallKits SampleEnv.t :=
  lift_kits (H := SampleKits.kits) (λ _ m e, (eval m (SampleKits.actions, []), e)).
Definition accepted : DownloadError.t :=
  {| DownloadError.endReason := DownloadError.endReason DownloadError.default; DownloadError.errorNum := CALL_SUCCESS |}.
#[global] Instance tasks : DownloadTasks SampleEnv.t := {
  StartTask _ _ := ret ("id", accepted);
  ResumeTask _ _ _ := ret accepted;
  CancelTask _ _ _ := ret accepted;
  TaskProgress _ _ := ret (ProgressInfo.default, accepted)
}.
#[global] Instance check : CheckKits SampleEnv.t := {
  DoAction := ret (Some (CHECK_SUCCESS, Duration.default, sample_answer, {| CheckAndAuthInfo.responseStatus := "0" |}))
}.
#[global] Instance check_laws : CheckKitsLaws SampleEnv.t.
Proof. intros e st d new ai [= <- <- <- <-]. apply sample_answer_wf. Qed.
#[global] Instance cache : CheckCache SampleEnv.t := {
  IsChecking e := default false (SampleEnv.flags e !! "checking");
  SetIsChecking b := SampleEnv.set_flag "checking" (Some b) ;;; ret tt
}.
#[global] Instance reboot : RebootKits SampleEnv.t := { DoReboot := ret tt }.
#[global] Instance service : ServiceKits SampleEnv.t := {
  GetNetType _ := NetType.WIFI; lstat_regular _ _ := None; remove_file _ := ret 0
}.
#[global] Instance alarms : UpgradeAlarms SampleEnv.t := {
  RefreshAutoUpgradeAlarm := ret tt; RefreshAutoUpgradeAlarm_for _ := ret tt;
  SetNightUpgradeAlarm := SampleEnv.set_flag "night" (Some true) ;;; ret tt; CancelNightUpgradeAlarm := ret tt
}.

Import FirmwareFlowManager.
Lemma flow_completes_once_witness :
  let start := exec (SetExecuteMode FirmwareManualCheckMode.new ;;; Start) (new, SampleEnv.world [] []) in
  let s' := exec (happens [Turn 0]) start in
  finished_at any_use s'.1 ∨ (∃ ex, pending_at any_use ex s'.1) ∨ ∃ ex, under_way_at any_use ex s'.1.
Proof.
  intros start s'.
  destruct (flow_completes_once FirmwareManualCheckMode.new (SampleEnv.world [] []) [Turn 0]) as [_ [[Hf _]|[(ex & Hex & _)|(ex & Hex & _)]]].
  - by left.
  - right. left. by exists ex.
  - right. right. by exists ex.
Defined.
End SampleFlow.
