(* ===== verification/FlowOutcome.v ===== *)
(** * What the flows of an upgrade achieve

    [Flow] shows that every flow ends at most once; this file shows what the flows of
    the manual check and of the download leave in the database, in the messages to the
    application and with the caller, on every path. *)
From Stdlib Require Import ZArith Lia Ascii String.
From stdpp Require Import base tactics list strings gmap.
From S2P Require Import Prelude CppString StringUtils Models Database FirmwareDb FirmwareStore FirmwareWorld DownloadData DownloadService DownloadManager FirmwareHelper CheckProcessor ProgressProcessor Installer Device Alarms Executor DownloadExecutor Modes Flow.
Import FirmwareWorld.World (on_db, on_env, asks, send).
Import DUpdateErrno FirmwareFlowManager.

#[local] Open Scope Z_scope.
#[local] Existing Instances FirmwareManualCheckMode.mode FirmwareDownloadMode.mode.

(** ** A flow together with its mode *)
Section with_mode.
Context {R E M : Type} `{Rdb R, Platform E, Sha256, Subscribers E, !InstallKits E, DownloadTasks E, CheckKits E, CheckCache E,
  RebootKits E, !FirmwareIExecuteMode.t R E M}.
#[local] Notation State := (t M * World R E)%type.
Implicit Types (s : State).

(** The flow is alive and its mode is [m]. *)
Definition with_mode (m : M) (step : FirmwareStep) (l : list Executor) (this : t M) : Prop :=
  going step l this ∧ executeMode_ this = Some m.
(** The mode an ended flow leaves. *)
Definition ended (m : M) (this : t M) : Prop := finished this ∧ executeMode_ this = Some m.

Lemma wp_on_mode_of {A} (f : M → ST (World R E) (M * A)) m k l s (Q : option A → State → Prop) :
  with_mode m k l s.1 →
  wp (f m) s.2 (λ r w', ∀ this, with_mode r.1 k l this → executor_ this = executor_ s.1 → Q (Some r.2) (this, w')) →
  wp (on_mode f) s Q.
Proof.
  intros [Hg Hm] Hf. unfold on_mode. apply wp_bind, wp_own_. rewrite (going_completed _ _ _ Hg). cbn [Nat.eqb negb].
  apply wp_bind, wp_own_. rewrite Hm. apply wp_bind, wp_env_. eapply wp_mono; [|exact Hf]. intros [m' a] w' Hq.
  apply wp_bind, wp_set_own. cbn [fst snd]. apply Hq; [|done]. split; [by apply going_told|done].
Qed.
Lemma wp_tell_mode_of (f : M → ST (World R E) M) m k l s (Q : option unit → State → Prop) :
  with_mode m k l s.1 →
  wp (f m) s.2 (λ m' w', ∀ this, with_mode m' k l this → executor_ this = executor_ s.1 → Q (Some tt) (this, w')) →
  wp (tell_mode f) s Q.
Proof.
  intros Hs Hf. eapply wp_on_mode_of; [exact Hs|]. apply wp_bind. eapply wp_mono; [|exact Hf]. intros m' w' Hq. by apply wp_ret.
Qed.

Lemma wp_rest ind s (Q : bool → State → Prop) : finished s.1 → (∀ b, Q b s) → wp (handle (Turn ind)) s Q.
Proof. intros (_ & _ & Hl) HQ. cbn [handle]. apply wp_bind, wp_own_. rewrite Hl. by apply wp_ret. Qed.
Lemma wp_handle_Turn ind m k ex s (Q : bool → State → Prop) :
  with_mode m k [ex] s.1 →
  (∀ this, with_mode m k [] this → executor_ this = executor_ s.1 → wp (run ind ex) (this, s.2) Q) →
  wp (handle (Turn ind)) s Q.
Proof.
  intros [Hg Hm] HQ. cbn [handle]. apply wp_bind, wp_own_. rewrite (going_submitted _ _ _ Hg). apply wp_bind, wp_set_own, HQ; [|done].
  split; [destruct Hg; by split|done].
Qed.

(** The flow asks for the next step: it ends, or an executor is submitted. *)
Lemma wp_Execute_of m k s (Q : unit → State → Prop) :
  with_mode m k [] s.1 →
  wp (FirmwareIExecuteMode.GetNextStep m k) s.2 (λ r w',
    match CreateInstance (R := R) (E := E) r.2 r.1 with
    | Some ex =>
        ∀ this, with_mode r.1 r.2 [ex] this → executor_ this = Some ex →
          let start := match ex with CheckExecutor => on_env (SetIsChecking true) | _ => ret tt end in
          r.2 ≠ STEP_COMPLETE ∧ wp start w' (λ _ w'', Q tt (this, w''))
    | None =>
        r.2 = STEP_COMPLETE ∧
        wp (FirmwareIExecuteMode.HandleComplete r.1) w' (λ m' w'', ∀ this, ended m' this → Q tt (this, w''))
    end) →
  wp Execute s Q.
Proof.
  intros Hs Hf. unfold Execute. apply wp_bind, wp_own_. rewrite (going_step _ _ _ (proj1 Hs)). apply wp_bind.
  eapply wp_on_mode_of; [exact Hs|]. eapply wp_mono; [|exact Hf]. cbv beta. intros [m' step] w' Hq this Hthis Hex.
  cbn [fst snd] in *. apply wp_bind, wp_set_own. cbn [fst snd].
  assert (with_mode m' step [] (set_step step this)) as Hset by by destruct Hthis as [[] ?].
  destruct (CreateInstance step m') as [ex|] eqn:Hc.
  - case_bool_decide as Hstep; [by destruct step|].
    apply wp_bind, wp_own_, wp_bind, wp_set_own. cbn [fst snd executeMode_ set_step].
    rewrite (proj2 Hthis : executeMode_ this = Some m'). cbn [mbind option_bind]. rewrite Hc. cbn [fst snd].
    set (this' := set_submitted [ex] (set_executor (Some ex) (set_step step this))).
    assert (with_mode m' step [ex] this') as Ht' by by destruct Hset as [[] ?].
    destruct (Hq this' Ht' eq_refl) as [_ Hstart]. unfold submit. apply wp_bind. destruct ex.
    1: apply wp_env_; eapply wp_mono; [|exact Hstart]; intros a w'' Hq'.
    2-4: apply wp_ret. all: apply wp_set_own; cbn [fst snd submitted_ set_executor set_step].
    all: rewrite (going_submitted _ _ _ (proj1 Hthis) : submitted_ this = []); try exact Hq'; exact Hstart.
  - destruct Hq as [-> Hq]. cbn [bool_decide decide_rel]. rewrite bool_decide_eq_true_2 by done.
    unfold Complete. apply wp_bind. eapply wp_tell_mode_of; [exact Hset|]. cbn [fst snd].
    eapply wp_mono; [|exact Hq]. cbv beta. intros m'' w'' Hq' this' Hthis' _. apply wp_set_own, Hq'.
    destruct Hthis' as [[_ Hc' Hu Hl _] Hm]. split; [|done]. split; cbn; [by rewrite Hc'|done].
Qed.
(** The same after a callback. *)
Lemma wp_heard_of goes_on m k s (Q : unit → State → Prop) :
  (if goes_on : bool then wp Execute s Q else Q tt s) → with_mode m k [] s.1 → wp (heard goes_on (Some tt)) s Q.
Proof. intros HQ _. unfold heard. by destruct goes_on. Qed.
End with_mode.

(** ** The manual check *)
Section check.
Context {R E : Type} `{RdbLaws R, Platform E, Sha256, Downloads E, Preferences E, Subscribers E, !InstallKits E, DownloadTasks E,
  CheckKits E, CheckCache E, RebootKits E, !ServiceKits E}.
Import FirmwareManualCheckMode.
#[local] Notation Mode := FirmwareManualCheckMode.t.
#[local] Notation State := (FirmwareFlowManager.t Mode * World R E)%type.
Implicit Types (s : State) (ts : list FirmwareTask.t) (cs : list FirmwareComponent.t) (m : Mode).

(** An upgrade waits for the device to restart. *)
Definition updating ts : bool :=
  match ts with [] => false | t :: _ => FirmwareTask.status t =? UpgradeStatus.UPDATING end.
(** Why a check is not started. *)
Definition refused ts (e : E) : option BusinessError.t :=
  if IsChecking e then
    Some (businessError_ (failed new "system busy!" DUPDATE_ERR_SYSTEM_BUSY_ON_CHECK "checkNewVersion is checking!"))
  else if updating ts then
    Some (businessError_ (failed new "system busy!" DUPDATE_ERR_SYSTEM_BUSY_ON_INSTALL "system is updating!"))
  else if negb (NetManager.IsNetAvailable (GetNetType e) NetType.CELLULAR_AND_WIFI) then
    Some (businessError_ (failed new "CheckNewVersionService no network!" SearchStatus.NET_ERROR "CheckNewVersionService no network !"))
  else None.

Lemma wp_HandleComplete m w ts cs e o (Q : Mode → World R E → Prop) :
  at_state w ts cs e o →
  (∀ w' r, r = (if check_failed (FirmwareCheckDataProcessor.status_ (checkDataProcessor_ m)) then CheckResult.default else stored_result cs e) →
     at_state w' ts cs e o →
     Q {| checkDataProcessor_ := checkDataProcessor_ m; businessError_ := businessError_ m;
          answers_ := answers_ m ++ [(businessError_ m, r)] |} w') →
  wp (HandleComplete m) w Q.
Proof.
  intros Hw HQ. unfold HandleComplete. apply wp_bind. eapply wp_BuildCheckResult; [exact Hw|]. intros w' Hw'.
  apply wp_ret. by eapply HQ.
Qed.

Lemma wp_GetStepAfterInit w ts cs e o (Q : Mode * FirmwareStep → World R E → Prop) :
  at_state w ts cs e o →
  (∀ w', at_state w' ts cs e o →
     Q (match refused ts e with
        | Some err => (set_error err new, STEP_COMPLETE)
        | None => (new, CHECK_STEP) end) w') →
  wp (GetStepAfterInit new) w Q.
Proof.
  intros Hw HQ. unfold GetStepAfterInit, refused in *. wp_step. wp_step. destruct (IsChecking e); [by apply wp_ret, HQ|].
  wp_step. unfold FirmwareCheckDataProcessor.IsUpdateOnStatus. wp_step. wp_step.
  destruct ts as [|t ts]; cbn [queried updating] in *.
  - change (FirmwareTask.isExistTask _) with false. cbn [negb]. wp_step. wp_step. wp_step. destruct (negb _); apply wp_ret; by apply HQ.
  - change (FirmwareTask.isExistTask _) with true. cbn [negb]. wp_step.
    change (FirmwareTask.status (FirmwareTaskOperator.set_isExistTask true t)) with (FirmwareTask.status t).
    destruct (_ =? _); [by apply wp_ret, HQ|]. wp_step. wp_step. destruct (negb _); apply wp_ret; by apply HQ.
Qed.

(** What the application hears of a new version. *)
Definition announced (t : FirmwareTask.t) (e : E) : list Message :=
  let tell := λ id, notification (BaseCallbackUtils.notify_event (FirmwareTask.taskId t) id UpgradeStatus.CHECK_VERSION_SUCCESS
                                  ErrorMessage.default [] 0) in
  tell EventId.EVENT_TASK_RECEIVE ::
  if ObtainBool e Firmware.AUTO_DOWNLOAD_SWITCH false then [] else [tell EventId.EVENT_DOWNLOAD_WAIT].

Definition silent (p : FirmwareCheckDataProcessor.t) : bool :=
  check_failed (FirmwareCheckDataProcessor.status_ p) || FirmwareCheckDataProcessor.isSameWithDb_ p ||
  negb (FirmwareCheckDataProcessor.HasNewVersion p).
Lemma wp_check_silent m w Q :
  silent (checkDataProcessor_ m) = true → Q (m, STEP_COMPLETE) w → wp (GetStepAfterCheck (R := R) (E := E) m) w Q.
Proof.
  intros Hs HQ. unfold GetStepAfterCheck. change (FirmwareCheckDataProcessor.IsCheckFailed ?p) with (check_failed (FirmwareCheckDataProcessor.status_ p)).
  change (FirmwareCheckDataProcessor.IsSameWithDb ?p) with (FirmwareCheckDataProcessor.isSameWithDb_ p).
  unfold silent in Hs. rewrite Hs. by apply wp_ret.
Qed.
Lemma wp_check_announced m w t cs e o (Q : Mode * FirmwareStep → World R E → Prop) :
  silent (checkDataProcessor_ m) = false → FirmwareTask.status t = UpgradeStatus.CHECK_VERSION_SUCCESS →
  at_state w [t] cs e o → (∀ w', at_state w' [t] cs e (o ++ announced t e) → Q (m, STEP_COMPLETE) w') →
  wp (GetStepAfterCheck m) w Q.
Proof.
  intros Hs Ht Hw HQ. unfold GetStepAfterCheck. change (FirmwareCheckDataProcessor.IsCheckFailed ?p) with (check_failed (FirmwareCheckDataProcessor.status_ p)).
  change (FirmwareCheckDataProcessor.IsSameWithDb ?p) with (FirmwareCheckDataProcessor.isSameWithDb_ p).
  unfold silent in Hs. rewrite Hs. wp_step. wp_step. cbn [queried].
  change (FirmwareTask.status (FirmwareTaskOperator.set_isExistTask true t)) with (FirmwareTask.status t).
  change (FirmwareTask.taskId (FirmwareTaskOperator.set_isExistTask true t)) with (FirmwareTask.taskId t).
  change (FirmwareTask.taskId (FirmwareTaskOperator.set_isExistTask true t)) with (FirmwareTask.taskId t) in *.
  rewrite Ht, Z.eqb_refl. wp_steps. unfold announced in HQ.
  destruct (ObtainBool _ _ _); cbn [negb]; wp_steps; apply HQ; [done|]. by rewrite <- app_assoc in *.
Qed.

(** The environment after the executor of the check has run. *)
Definition marked (e : E) : E := exec (SetIsChecking true) e.
Definition checked (e : E) : E := exec (SetIsChecking false) (exec DoAction (marked e)).

(** What the answer [new'] makes of what was stored and sent. *)
Definition stored_after st (new' : list FirmwareComponent.t) ts cs (e : E) o ts' cs' (e' : E) o' : Prop :=
  let unchanged := ts' = ts ∧ cs' = cs ∧ e' = e ∧ o' = o in
  if check_failed st || undone ts then unchanged
  else match new' with
  | [] => ts' = [] ∧ cs' = [] ∧ e' = cleared ts e ∧
          o' = o ++ match ts with [] => [] | t :: _ => [notification (cancel_event t)] end
  | _ =>
      if same_as_db cs new' then ts' = ts ∧ cs' = kept ts new' cs ∧ e' = e ∧ o' = o
      else let t := task_for (map with_path new') in
           ts' = [t] ∧ numbered (map with_path new') cs' ∧ e' = cleared ts e ∧ o' = o ++ announced t e'
  end.
Lemma wp_SetCheckResult_check st d l m w ts cs e o (Q : Mode → World R E → Prop) :
  at_state w ts cs e o → Forall Component.wf l → FirmwareCheckDataProcessor.isSameWithDb_ (checkDataProcessor_ m) = true →
  (∀ p w' ts' cs' e' o', FirmwareCheckDataProcessor.status_ p = st →
     let shown := if silent p then [] else match ts' with [] => [] | t :: _ => announced t e' end in
     (silent p = false → ∃ t, ts' = [t] ∧ FirmwareTask.status t = UpgradeStatus.CHECK_VERSION_SUCCESS) →
     at_state w' ts' cs' e' o' → stored_after st l ts cs e o ts' cs' e' (o' ++ shown) → Q (set_processor p m) w') →
  wp (SetCheckResult m st d l) w Q.
Proof.
  intros Hw Hwf Hm HQ. unfold SetCheckResult. apply wp_bind. eapply wp_SetCheckResult; [exact Hw|done|].
  intros p w' Hst Hnew Hsame Ha. apply wp_ret. unfold answered in Ha. unfold stored_after, silent in HQ.
  destruct (check_failed st || undone ts) eqn:Hf.
  { eapply (HQ p w'); [done| |exact Ha|]; rewrite (Hsame eq_refl), Hm, orb_true_r; cbn [orb]; [done|].
    rewrite app_nil_r. by split_and!. }
  destruct l as [|c l].
  { eapply (HQ p w'); [done| |exact Ha|]; rewrite Hnew; cbn [bool_decide]; rewrite bool_decide_eq_false_2 by (intros Hn; by apply Hn); cbn [negb]; rewrite orb_true_r; [done|].
    rewrite app_nil_r. by split_and!. }
  rewrite bool_decide_eq_true_2 in Hnew by done. destruct Ha as [Hs Ha]. apply orb_false_iff in Hf as [Hf _].
  destruct (same_as_db cs (c :: l)).
  { eapply (HQ p w'); [done| |exact Ha|]; rewrite Hs, orb_true_r; cbn [orb]; [done|]. rewrite app_nil_r. by split_and!. }
  destruct Ha as (cs' & Hn & Hw'). eapply (HQ p w'); [done| |exact Hw'|]; rewrite Hst, Hf, Hs, Hnew; cbn [orb negb].
  - intros _. by eexists.
  - by split_and!.
Qed.
Lemma wp_OnCheckCallback st d l ai s ts cs e o (Q : unit → State → Prop) :
  with_mode new CHECK_STEP [] s.1 → at_state s.2 ts cs e o → Forall Component.wf l →
  (∀ m this w' r ts' cs' e' o', ended m this → answers_ m = [(BusinessError.default, r)] →
     r = (if check_failed st then CheckResult.default else stored_result cs' e') →
     at_state w' ts' cs' e' o' → stored_after st l ts cs e o ts' cs' e' o' → Q tt (this, w')) →
  wp (OnCheckCallback (st, d, l, ai)) s Q.
Proof.
  intros Hs Hw Hwf HQ. unfold OnCheckCallback. apply wp_bind. eapply wp_tell_mode_of; [exact Hs|].
  eapply wp_SetCheckResult_check; [exact Hw|done..|]. intros p w1 ts' cs' e' o' Hst shown Ht Hw1 Ha this Hthis _.
  unfold heard. eapply wp_Execute_of; [exact Hthis|]. cbn [fst snd].
  assert (∀ Q', (∀ w2, at_state w2 ts' cs' e' (o' ++ shown) → Q' (set_processor p new, STEP_COMPLETE) w2) →
    wp (GetStepAfterCheck (set_processor p new)) w1 Q') as Hstep.
  { intros Q' HQ'. unfold shown in HQ'. destruct (silent p) eqn:Hsil.
    - apply wp_check_silent; [done|]. apply HQ'. by rewrite app_nil_r.
    - destruct (Ht eq_refl) as (t & -> & Hts). by eapply wp_check_announced. }
  change (FirmwareIExecuteMode.GetNextStep ?a CHECK_STEP) with (GetStepAfterCheck (R := R) (E := E) a).
  apply Hstep. intros w2 Hw2. cbn [CreateInstance fst snd]. split; [done|]. eapply wp_HandleComplete; [exact Hw2|].
  intros w3 r Hr Hw3 this' Hthis'. cbn [checkDataProcessor_ set_processor] in Hr. rewrite Hst in Hr.
  eapply HQ; [exact Hthis'|done|exact Hr|exact Hw3|exact Ha].
Qed.

(** The list the executor passes on. *)
Definition checked_list st (l : list FirmwareComponent.t) : list FirmwareComponent.t :=
  if match st, l with CHECK_FAIL, _ | _, [] => true | _, _ => false end then l
  else FirmwareCheckExecutor.SetComponentCheckStatus l.
Lemma checked_list_wf st l : Forall Component.wf l → Forall Component.wf (checked_list st l).
Proof.
  intros Hl. unfold checked_list. case_if; [done|]. apply Forall_fmap. eapply Forall_impl; [exact Hl|].
  intros c (?&?&?&?&?&?&?&?&?&?). by split_and!.
Qed.
Lemma checked_list_after st l ts cs e o ts' cs' e' o' :
  stored_after st (checked_list st l) ts cs e o ts' cs' e' o' →
  stored_after st (FirmwareCheckExecutor.SetComponentCheckStatus l) ts cs e o ts' cs' e' o'.
Proof. by destruct st, l. Qed.

(** C4: a manual check.  While another check runs, while an upgrade waits for the
    restart, and without a network, it is refused at once with the error that says so,
    and nothing changes.  Otherwise the server is asked, and its answer leads to exactly
    one answer to the caller, without an error even when the check failed: the version
    that is stored afterwards.  A failed check and an upgrade under way leave the stored
    version alone, an empty answer clears it and cancels its task, the version already
    stored is kept without a word, with the urls of the answer as long as nothing of it
    was downloaded, and another one replaces it and is announced.  When
    the server never answers, neither does the check. *)
Theorem manual_check_outcome `{!CheckKitsLaws E} w ts cs e o :
  at_state w ts cs e o →
  wp (SetExecuteMode new ;;; Start ;;; handle (Turn 0)) (FirmwareFlowManager.new, w) (λ _ s', ∃ m, executeMode_ s'.1 = Some m ∧
    match refused ts e with
    | Some err => finished s'.1 ∧ answers_ m = [(err, CheckResult.default)] ∧ at_state s'.2 ts cs e o
    | None =>
        match eval DoAction (marked e) with
        | None => under_way CheckExecutor s'.1 ∧ answers_ m = [] ∧ at_state s'.2 ts cs (exec DoAction (marked e)) o
        | Some (st, _, new, _) => ∃ r ts' cs' e' o',
            finished s'.1 ∧ answers_ m = [(BusinessError.default, r)] ∧
            r = (if check_failed st then CheckResult.default else stored_result cs' e') ∧
            at_state s'.2 ts' cs' e' o' ∧
            stored_after st (FirmwareCheckExecutor.SetComponentCheckStatus new) ts cs (checked e) o ts' cs' e' o'
        end
    end).
Proof.
  intros Hw. apply (wp_bind (SetExecuteMode new)). unfold SetExecuteMode. apply wp_set_own, (wp_bind Start). cbn [fst snd].
  unfold Start. apply wp_bind, wp_own_. cbn [fst snd executeMode_ set_mode].
  eapply wp_Execute_of; [by split|]. eapply wp_GetStepAfterInit; [exact Hw|]. intros w1 Hw1.
  destruct (refused ts e) as [err|]; cbn [CreateInstance fst snd].
  - split; [done|]. eapply wp_HandleComplete; [exact Hw1|]. intros w2 r -> Hw2 this [Hf Hm]. apply wp_rest; [done|]. intros _. by eexists.
  - intros this Hthis Hex. split; [done|]. eapply wp_on_env; [exact Hw1|]. fold (marked e). intros w2 Hw2.
    eapply wp_handle_Turn; [exact Hthis|]. cbn [fst snd]. intros this' Hthis' Hex'. rewrite Hex in Hex'. cbn [run]. apply wp_bind, wp_object.
    unfold FirmwareCheckExecutor.DoCheck. apply wp_bind, wp_on_world. cbn [fst snd]. eapply wp_on_env; [exact Hw2|]. intros w3 Hw3.
    destruct (eval DoAction (marked e)) as [[[[st d] new'] ai]|] eqn:Ha; cbn [fst snd].
    2:{ apply wp_ret, wp_ret. eexists. split; [exact (proj2 Hthis')|]. split; [|by split]. split; [exact (proj1 Hthis')|exact Hex']. }
    apply wp_bind, wp_set_this. unfold FirmwareCheckExecutor.Complete. apply wp_bind, wp_on_world. cbn [fst snd].
    eapply wp_on_env; [exact Hw3|]. fold (checked e). intros w4 Hw4. apply wp_bind, wp_this, wp_call. cbn [fst snd].
    eapply wp_OnCheckCallback; [exact Hthis'|exact Hw4|eapply checked_list_wf, answer_wf, Ha|].
    intros m this1 w5 r ts' cs' e' o' [Hf Hm] Hans Hr Hw5 Hafter. apply wp_ret. exists m. split; [exact Hm|].
    do 5 eexists. split; [exact Hf|]. split; [exact Hans|]. split; [exact Hr|]. split; [exact Hw5|].
    by apply checked_list_after in Hafter.
Qed.
End check.

(** ** The download *)
Section download.
Context {R E : Type} `{RdbLaws R, Platform E, Sha256, Downloads E, Preferences E, Subscribers E, !InstallKits E, DownloadTasks E,
  CheckKits E, CheckCache E, RebootKits E, !ServiceKits E, UpgradeAlarms E}.
#[local] Notation Mode := FirmwareDownloadMode.t.
#[local] Notation State := (FirmwareFlowManager.t Mode * World R E)%type.
Implicit Types (s : State) (ts : list FirmwareTask.t) (cs : list FirmwareComponent.t) (t : FirmwareTask.t) (m : Mode).

(** An update of every component whose url is among those of [l]. *)
Lemma update_urls upd (l cs : list FirmwareComponent.t) :
  (∀ x, FirmwareComponent.url (upd x) = FirmwareComponent.url x) → (∀ x, upd (upd x) = upd x) →
  fold_left (λ cs c, update_where (url_is (FirmwareComponent.url c)) upd cs) l cs =
  map (λ x, if existsb (λ c, url_is (FirmwareComponent.url c) x) l then upd x else x) cs.
Proof.
  intros Hu Hi. revert cs. induction l as [|c l IH]; intros cs; cbn [fold_left existsb]; [by rewrite map_id|].
  rewrite IH. unfold update_where. rewrite map_map. apply map_ext. intros x. unfold url_is.
  destruct (String.eqb (FirmwareComponent.url x) _) eqn:Hx; cbn [orb]; [|done]. rewrite Hu. by case_if.
Qed.
Lemma update_all_urls upd (cs : list FirmwareComponent.t) :
  (∀ x, FirmwareComponent.url (upd x) = FirmwareComponent.url x) → (∀ x, upd (upd x) = upd x) →
  fold_left (λ cs c, update_where (url_is (FirmwareComponent.url c)) upd cs) cs cs = map upd cs.
Proof.
  intros Hu Hi. rewrite update_urls by done. apply map_ext_in. intros x Hx.
  assert (existsb (λ c, url_is (FirmwareComponent.url c) x) cs = true) as ->; [|done].
  apply existsb_exists. exists x. split; [done|apply String.eqb_refl].
Qed.

(** What the end of a download with status [t] leaves of the task, the components, the
    environment and the messages. *)
Definition download_ended t cs (e : E) o (err : ErrorMessage.t) : list FirmwareTask.t * list FirmwareComponent.t * E * list Message :=
  let tell id err := o ++ [notification (BaseCallbackUtils.notify_event (FirmwareTask.taskId t) id (FirmwareTask.status t) err [] 0)] in
  let task_removed e := exec (RemoveTask (FirmwareTask.downloadTaskId t)) e in
  if FirmwareTask.status t =? UpgradeStatus.DOWNLOAD_PAUSE then ([t], cs, e, tell EventId.EVENT_DOWNLOAD_PAUSE err)
  else if FirmwareTask.status t =? UpgradeStatus.DOWNLOAD_FAIL then ([], [], cleared [t] e, tell EventId.EVENT_DOWNLOAD_FAIL err)
  else if FirmwareTask.status t =? UpgradeStatus.DOWNLOAD_CANCEL then
    ([Task.with_downloadTaskId "" (Task.with_progress UpgradeStatus.CHECK_VERSION_SUCCESS 0 t)],
     map (Component.with_progress UpgradeStatus.CHECK_VERSION_SUCCESS 0) cs, files_deleted (task_removed e),
     tell EventId.EVENT_DOWNLOAD_CANCEL err)
  else if FirmwareTask.status t =? UpgradeStatus.DOWNLOAD_SUCCESS then
    ([t], cs, task_removed (if FirmwarePreferencesUtil.GetNightUpgradeSwitch e then exec SetNightUpgradeAlarm e else e),
     tell EventId.EVENT_UPGRADE_WAIT ErrorMessage.default)
  else ([t], cs, e, o).

Lemma wp_after_download t err w cs e o (Q : unit → World R E → Prop) :
  at_state w [t] cs e o →
  (∀ w', let '(ts', cs', e', o') := download_ended t cs e o err in at_state w' ts' cs' e' o' → Q tt w') →
  wp (FirmwareDownloadProcess.after_download (FirmwareTaskOperator.set_isExistTask true t) err) w Q.
Proof.
  intros Hw HQ. unfold FirmwareDownloadProcess.after_download, download_ended in *.
  set (t' := FirmwareTaskOperator.set_isExistTask true t).
  change (FirmwareTask.status t') with (FirmwareTask.status t). cbv zeta in HQ.
  assert (∀ upd, update_where (task_is (FirmwareTask.taskId t')) upd [t] = [upd t]) as Hown.
  { intros upd. unfold update_where, task_is, t'. cbn. by rewrite String.eqb_refl. }
  repeat case_if; breflect.
  - unfold FirmwareDownloadProcess.DownloadPauseProcess. wp_step. apply HQ. by rewrite E0.
  - unfold FirmwareDownloadProcess.DownloadFailProcess. wp_step. wp_step. eapply wp_ClearFirmwareInfo; [eassumption|]. intros w9 Hw9. apply HQ. by rewrite E1.
  - unfold FirmwareDownloadProcess.DownloadCancelProcess. wp_steps. rewrite Hown in *.
    eapply (wp_for_each (λ l w, at_state w [Task.with_progress UpgradeStatus.CHECK_VERSION_SUCCESS 0 t]
      (fold_left (λ cs c, update_where (url_is (FirmwareComponent.url c)) (Component.with_progress UpgradeStatus.CHECK_VERSION_SUCCESS 0) cs) l cs) e
      (o ++ [notification (BaseCallbackUtils.notify_event (FirmwareTask.taskId t) EventId.EVENT_DOWNLOAD_CANCEL UpgradeStatus.DOWNLOAD_CANCEL err [] 0)]))).
    + done.
    + intros l1 c l2 w1 _ Hw1. wp_steps. by rewrite fold_left_app.
    + intros w1 Hw1. rewrite update_all_urls in Hw1 by done. wp_steps. eapply wp_DeleteDownloadFiles; [eassumption|].
      intros w2 Hw2. apply HQ. rewrite E2. unfold update_where, task_is in Hw2. cbn in Hw2. rewrite String.eqb_refl in Hw2. exact Hw2.
  - unfold FirmwareDownloadProcess.DownloadSuccessProcess. wp_steps. destruct (FirmwarePreferencesUtil.GetNightUpgradeSwitch e); wp_steps;
      match goal with |- Q ?u _ => destruct u end; apply HQ; by rewrite E3.
  - apply wp_ret. by apply HQ.
Qed.

(** The report a progress of the download task becomes. *)
Definition download_info (taskId : string) (st : Z) (p : ProgressInfo.t) : FirmwareDownloadCallbackInfo.t := {|
  FirmwareDownloadCallbackInfo.downloadTaskId := taskId;
  FirmwareDownloadCallbackInfo.taskProgress := {|
    Progress.percent := to_uint32 (ProgressInfo.taskProgress p);
    Progress.status := st;
    Progress.endReason := FirmwareDownloadExecutor.GetEndReason st (ProgressInfo.reason p) |};
  FirmwareDownloadCallbackInfo.progressList := FirmwareDownloadExecutor.progressList (ProgressInfo.progresses p) |}.
Lemma mapped_status k st : FirmwareDownloadExecutor.statusMap !! k = Some st → is_int32 st.
Proof.
  intros Hk. apply elem_of_list_to_map_2 in Hk.
  repeat (apply elem_of_cons in Hk as [[= _ ->]|Hk]; [by apply is_int32_closed|]). by apply not_elem_of_nil in Hk.
Qed.
Lemma download_info_wf taskId st p k :
  FirmwareDownloadExecutor.statusMap !! k = Some st → wf_report (download_info taskId st p).
Proof.
  intros Hk. split; [by eapply mapped_status|]. cbn. unfold FirmwareDownloadExecutor.progressList.
  apply Forall_forall. intros x (d & Hd & Hx)%list_elem_of_omap. 
  apply bind_Some in Hx as (st' & Hst & [= <-]). by eapply mapped_status.
Qed.

Lemma wp_GetStepAfterDownload m t w cs e o (Q : Mode * FirmwareStep → World R E → Prop) :
  at_state w [t] cs e o →
  (let endReason := Progress.endReason (FirmwareDownloadDataProcessor.downloadProgress_ (FirmwareDownloadMode.downloadDataProcessor_ m)) in
   let err := if String.eqb endReason "" then ErrorMessage.default else FirmwareDownloadProcess.end_error endReason in
   ∀ w', let '(ts', cs', e', o') := download_ended t cs e o err in at_state w' ts' cs' e' o' → Q (m, STEP_COMPLETE) w') →
  wp (FirmwareDownloadMode.GetStepAfterDownload m) w Q.
Proof.
  intros Hw HQ. unfold FirmwareDownloadMode.GetStepAfterDownload. wp_step. wp_step. cbn [queried].
  change (FirmwareTask.isExistTask _) with true. cbn [negb]. apply wp_bind. eapply wp_after_download; [eassumption|].
  intros w9. specialize (HQ w9). cbv zeta in HQ. destruct (download_ended _ _ _ _ _) as [[[ts' cs'] e'] o']. intros Hw9. by apply wp_ret, HQ.
Qed.

(** A report reaches the flow of the download. *)
Definition report_heard m (info : FirmwareDownloadCallbackInfo.t) t cs (e : E) o s : Prop :=
  let p := FirmwareDownloadCallbackInfo.taskProgress info in
  let q := bump (Progress.percent (FirmwareDownloadDataProcessor.downloadProgress_ (FirmwareDownloadMode.downloadDataProcessor_ m))) info in
  let t' := Task.with_progress (Progress.status p) (to_int32 (Progress.percent q)) t in
  let cs' := components_reported info cs in
  let o' := o ++ [reported e (BaseCallbackUtils.progress_event (FirmwareTask.taskId t) q)] in
  if Progress.status p =? UpgradeStatus.DOWNLOADING then
    (∃ m', with_mode m' DOWNLOAD_STEP [] s.1) ∧ at_state s.2 [t'] cs' e o'
  else
    let err := if String.eqb (Progress.endReason p) "" then ErrorMessage.default
               else FirmwareDownloadProcess.end_error (Progress.endReason p) in
    finished s.1 ∧ let '(ts', cs', e', o') := download_ended t' cs' e o' err in at_state s.2 ts' cs' e' o'.
Lemma wp_OnDownloadCallback m info t cs e o s (Q : unit → State → Prop) :
  wf_report info → with_mode m DOWNLOAD_STEP [] s.1 → at_state s.2 [t] cs e o →
  (∀ s', report_heard m info t cs e o s' → Q tt s') → wp (OnDownloadCallback info) s Q.
Proof.
  intros Hinfo Hs Hw HQ. unfold OnDownloadCallback. apply wp_bind. eapply wp_tell_mode_of; [exact Hs|].
  cbn [FirmwareIExecuteMode.SetDownloadCallbackInfo FirmwareDownloadMode.mode]. unfold FirmwareDownloadMode.SetDownloadCallbackInfo.
  apply wp_bind. eapply wp_SetDownloadCallbackInfo; [exact Hw|exact Hinfo|].
  intros task q w1 Hw1. apply wp_ret. intros this Hthis _. unfold report_heard in HQ.
  assert (∀ upd, update_where (task_is (FirmwareTask.taskId task)) upd [t] = [upd t]) as Hown.
  { intros upd. unfold update_where, task_is, task. cbn. by rewrite String.eqb_refl. }
  rewrite Hown in Hw1. change (FirmwareTask.taskId task) with (FirmwareTask.taskId t) in Hw1.
  change (Progress.status q) with (Progress.status (FirmwareDownloadCallbackInfo.taskProgress info)) in Hw1.
  unfold heard. destruct (_ =? UpgradeStatus.DOWNLOADING); cbn [negb]; cbv zeta in HQ.
  { apply wp_ret, HQ. split; [by eexists|exact Hw1]. }
  eapply wp_Execute_of; [exact Hthis|].
  change (FirmwareIExecuteMode.GetNextStep ?a DOWNLOAD_STEP) with (FirmwareDownloadMode.GetStepAfterDownload (R := R) (E := E) a).
  eapply wp_GetStepAfterDownload; [exact Hw1|]. intros endReason err w2.
  cbv zeta in HQ. match goal with |- context [download_ended ?a ?b ?c ?d ?x] => set (r := download_ended a b c d x) in * end.
  match type of HQ with context [download_ended ?a ?b ?c ?d ?x] => change (download_ended a b c d x) with r in HQ end.
  destruct r as [[[ts' cs'] e'] o']. intros Hw2. cbn [CreateInstance fst snd]. split; [done|]. apply wp_ret. intros this' [Hf _]. by apply HQ.
Qed.

(** C6: each progress of the download task that reaches its flow is stored with the
    task and the components and sent to the application.  While the task is downloading
    the flow goes on; any other status ends it: a pause is announced with its reason, a
    failure is announced and clears the stored version, a cancellation is announced and
    takes task and components back to the state after the check, and a success is
    announced, asks for the night if upgrades happen at night, and lets the download
    task go. *)
Theorem download_report_outcome m options taskId st p t cs e o s :
  with_mode m DOWNLOAD_STEP [] s.1 → executor_ s.1 = Some (DownloadExecutor options) → at_state s.2 [t] cs e o →
  FirmwareDownloadExecutor.statusMap !! ProgressInfo.taskStatus p = Some st →
  wp (handle (Report taskId p)) s (λ _ s',
    let info := download_info taskId st p in
    let q := bump (Progress.percent (FirmwareDownloadDataProcessor.downloadProgress_ (FirmwareDownloadMode.downloadDataProcessor_ m))) info in
    let t' := Task.with_progress st (to_int32 (Progress.percent q)) t in
    let cs' := components_reported info cs in
    let o' := o ++ [reported e (BaseCallbackUtils.progress_event (FirmwareTask.taskId t) q)] in
    if st =? UpgradeStatus.DOWNLOADING then
      (∃ m', with_mode m' DOWNLOAD_STEP [] s'.1) ∧ at_state s'.2 [t'] cs' e o'
    else
      let endReason := FirmwareDownloadExecutor.GetEndReason st (ProgressInfo.reason p) in
      let err := if String.eqb endReason "" then ErrorMessage.default else FirmwareDownloadProcess.end_error endReason in
      finished s'.1 ∧ let '(ts', cs', e', o') := download_ended t' cs' e o' err in at_state s'.2 ts' cs' e' o').
Proof.
  intros Hs Hex Hw Hst. cbn [handle]. apply wp_bind, wp_own_. unfold listening.
  rewrite (going_completed _ _ _ (proj1 Hs)), (going_submitted _ _ _ (proj1 Hs)), Hex. apply wp_bind, wp_object.
  unfold FirmwareDownloadExecutor.CallbackProgress. rewrite Hst. fold (download_info taskId st p). apply wp_call. cbn [fst snd].
  eapply wp_OnDownloadCallback; [by eapply download_info_wf|exact Hs|exact Hw|]. intros s' Hs'. apply wp_ret. exact Hs'.
Qed.

(** Why a download is not started: the error of the mode. *)
Definition download_refused m ts cs (e : E) : option Mode :=
  match ts with
  | [] => Some (FirmwareDownloadMode.failed m "no task!")
  | t :: _ =>
      let m := FirmwareDownloadMode.set_tasks (FirmwareTaskOperator.set_isExistTask true t) m in
      let status := FirmwareTask.status t in
      let size := FirmwareDownloadDataProcessor.required_size cs 0 in
      if status =? UpgradeStatus.DOWNLOADING then
        Some (FirmwareDownloadMode.failed_with m "system busy!" DUPDATE_ERR_SYSTEM_BUSY_ON_DOWNLOAD "busy on Downloading!")
      else if negb (status =? UpgradeStatus.CHECK_VERSION_SUCCESS) && negb (status =? UpgradeStatus.DOWNLOAD_FAIL) &&
              negb (status =? UpgradeStatus.DOWNLOAD_PAUSE) then Some (FirmwareDownloadMode.failed m "status error!")
      else if negb (NetManager.IsNetAvailable (GetNetType e) (FirmwareTask.downloadAllowNetwork t)) then
        Some (FirmwareDownloadMode.failed_with m "download no network!" DUPDATE_ERR_DLOAD_REQUEST_FAIL "download no network!")
      else if negb (FirmwareFileUtils.IsSpaceEnough e size) then
        Some (FirmwareDownloadMode.failed_with m "download condition fail!" DUPDATE_ERR_NO_ENOUGH_MEMORY (to_string size))
      else None
  end.
Lemma wp_download_init m w ts cs e o (Q : Mode * FirmwareStep → World R E → Prop) :
  FirmwareTask.isExistTask (FirmwareDownloadMode.tasks_ m) = false → at_state w ts cs e o →
  (∀ w', at_state w' ts cs e o →
     match download_refused m ts cs e with
     | Some m' => ∀ m'', FirmwareDownloadMode.businessError_ m'' = FirmwareDownloadMode.businessError_ m' → Q (m'', STEP_COMPLETE) w'
     | None => ∀ m', FirmwareDownloadMode.downloadDataProcessor_ m' = FirmwareDownloadMode.downloadDataProcessor_ m →
         FirmwareDownloadMode.downloadOptions_ m' = FirmwareDownloadMode.downloadOptions_ m → Q (m', DOWNLOAD_STEP) w'
     end) →
  wp (FirmwareDownloadMode.GetStepAfterInit m) w Q.
Proof.
  intros Hm Hw HQ. unfold FirmwareDownloadMode.GetStepAfterInit, FirmwareDownloadMode.GetTask, download_refused in *. rewrite Hm. cbn [negb].
  wp_steps. destruct ts as [|t ts]; cbn [queried].
  - change (FirmwareTask.isExistTask (FirmwareDownloadMode.tasks_ _)) with false. cbn [negb]. apply wp_ret. by eapply HQ.
  - set (m1 := FirmwareDownloadMode.set_tasks _ m) in *. change (FirmwareTask.isExistTask (FirmwareDownloadMode.tasks_ m1)) with true. cbn [negb].
    change (FirmwareTask.status (FirmwareDownloadMode.tasks_ m1)) with (FirmwareTask.status t).
    change (FirmwareTask.downloadAllowNetwork (FirmwareDownloadMode.tasks_ m1)) with (FirmwareTask.downloadAllowNetwork t).
    case_if; [apply wp_ret; by eapply HQ|]. case_if; [apply wp_ret; by eapply HQ|]. wp_steps. case_if; [apply wp_ret; by eapply HQ|].
    unfold FirmwareDownloadDataProcessor.IsSpaceEnough. wp_steps. case_if; apply wp_ret; by eapply HQ.
Qed.

(** The download task of the components, and the event of its start. *)
Definition first_infos m cs : list DownloadInfo.t :=
  map (FirmwareDownloadExecutor.BuildDownloadInfo (DownloadOptions.allowNetwork (FirmwareDownloadMode.downloadOptions_ m))) cs.
Definition start_event t : Message :=
  notification (BaseCallbackUtils.notify_event (FirmwareTask.taskId t) EventId.EVENT_DOWNLOAD_START UpgradeStatus.DOWNLOADING ErrorMessage.default [] 0).
Lemma wp_PerformDownload_of m t cs e o x (Q : unit → FirmwareDownloadExecutor.t * State → Prop) :
  FirmwareDownloadExecutor.downloadOptions_ x.1 = FirmwareDownloadMode.downloadOptions_ m →
  FirmwareDownloadExecutor.components_ x.1 = cs → cs ≠ [] →
  with_mode m DOWNLOAD_STEP [] x.2.1 → at_state x.2.2 [t] cs e o →
  (∀ x', let infos := first_infos m cs in
     let id := DownloadTaskManager.GetTaskId infos in
     let t1 := Task.with_status UpgradeStatus.DOWNLOADING (Task.with_downloadTaskId id t) in
     let err := (eval (StartTask infos DownloadError.default) e).2 in
     let e1 := exec (StartTask infos DownloadError.default) e in
     (if bool_decide (DownloadError.errorNum err = CALL_SUCCESS) then
        (∃ m', with_mode m' DOWNLOAD_STEP [] x'.2.1) ∧ executor_ x'.2.1 = executor_ x.2.1 ∧ at_state x'.2.2 [t1] cs e1 (o ++ [start_event t])
      else ∃ m', FirmwareDownloadDataProcessor.downloadProgress_ (FirmwareDownloadMode.downloadDataProcessor_ m') =
                 FirmwareDownloadDataProcessor.downloadProgress_ (FirmwareDownloadMode.downloadDataProcessor_ m) ∧
             report_heard m' (FirmwareDownloadExecutor.fail_info err) t1 cs e1 (o ++ [start_event t]) x'.2) → Q tt x') →
  wp (FirmwareDownloadExecutor.PerformDownload (Some OnDownloadCallback) (Some OnDownloadEventCallback)) x Q.
Proof.
  intros Hopt Hcs Hne Hs Hw HQ. unfold FirmwareDownloadExecutor.PerformDownload. apply wp_bind, wp_this.
  unfold FirmwareDownloadExecutor.BuildDownloadInfos. rewrite Hopt, Hcs. fold (first_infos m cs). cbv zeta in HQ.
  set (infos := first_infos m cs) in *. assert (infos ≠ []) as Hinfos by (unfold infos, first_infos; by destruct cs).
  destruct infos as [|i infos0] eqn:Hi; [done|]. rewrite <- Hi in *. clear Hi i infos0 Hinfos.
  apply wp_bind, wp_call. unfold OnDownloadEventCallback. apply wp_bind. eapply wp_tell_mode_of; [exact Hs|].
  cbn [fst snd FirmwareIExecuteMode.SetDownloadEvent FirmwareDownloadMode.mode]. unfold FirmwareDownloadMode.SetDownloadEvent, FirmwareDownloadDataProcessor.SetDownloadEvent, FirmwareDownloadDataProcessor.GetTask.
  wp_steps. rewrite Z.eqb_refl. wp_steps. intros this Hthis Hex. apply wp_ret, wp_bind, wp_on_world. cbn [fst snd].
  eapply wp_on_env; [eassumption|]. intros w1 Hw1. unfold update_where, task_is in Hw1. cbn in Hw1. rewrite !String.eqb_refl in Hw1.
  destruct (eval (StartTask infos DownloadError.default) e) as [id' err] eqn:Hstart. cbn [fst snd] in *.
  case_bool_decide.
  - apply wp_ret, HQ. split; [by eexists|]. by split.
  - unfold FirmwareDownloadExecutor.CallbackDownloadFailProgress. apply wp_call. eapply wp_OnDownloadCallback; [|exact Hthis|exact Hw1|].
    + split; [by apply is_int32_closed|constructor].
    + intros s' Hs'. apply HQ. eexists. split; [|exact Hs']. done.
Qed.

(** Every refusal of the download service looks the same to the flow. *)
Lemma fail_info_of err :
  DownloadError.errorNum err ≠ CALL_SUCCESS →
  FirmwareDownloadExecutor.fail_info err = {|
    FirmwareDownloadCallbackInfo.downloadTaskId := "";
    FirmwareDownloadCallbackInfo.taskProgress :=
      {| Progress.percent := 0; Progress.status := UpgradeStatus.DOWNLOAD_FAIL; Progress.endReason := "1" |};
    FirmwareDownloadCallbackInfo.progressList := [] |}.
Proof. unfold FirmwareDownloadExecutor.fail_info. by destruct (DownloadError.errorNum err). Qed.

Lemma download_ended_fail t cs e o err :
  FirmwareTask.status t = UpgradeStatus.DOWNLOAD_FAIL →
  download_ended t cs e o err = ([], [], cleared [t] e,
    o ++ [notification (BaseCallbackUtils.notify_event (FirmwareTask.taskId t) EventId.EVENT_DOWNLOAD_FAIL UpgradeStatus.DOWNLOAD_FAIL err [] 0)]).
Proof. intros Ht. unfold download_ended. by rewrite Ht. Qed.

(** Starting the first download of the stored version.  Without a stored task, while
    a download runs, in another state than after a check, a pause or a failure, without
    an allowed network and without the space for what remains, it is refused with the
    error that says so and nothing changes.  Otherwise the task is recorded as
    downloading under the id of its packages, the application hears of the start, and the
    download service is asked; when the service refuses, the flow ends at once: the
    failure is announced, with the error code 1 whatever its reason was, and the stored
    version is cleared. *)
Theorem download_started m w ts cs e o :
  FirmwareTask.isExistTask (FirmwareDownloadMode.tasks_ m) = false → at_state w ts cs e o → cs ≠ [] →
  (length ts ≤ 1)%nat → Forall (λ t, FirmwareTask.downloadTaskId t = "") ts →
  wp (SetExecuteMode m ;;; Start ;;; handle (Turn 0)) (FirmwareFlowManager.new, w) (λ _ s',
    match download_refused m ts cs e, ts with
    | Some m', _ => finished s'.1 ∧ at_state s'.2 ts cs e o ∧
        ∃ m'', executeMode_ s'.1 = Some m'' ∧ FirmwareDownloadMode.businessError_ m'' = FirmwareDownloadMode.businessError_ m'
    | None, [] => False
    | None, t :: _ =>
        let infos := first_infos m cs in
        let t1 := Task.with_status UpgradeStatus.DOWNLOADING (Task.with_downloadTaskId (DownloadTaskManager.GetTaskId infos) t) in
        let err := (eval (StartTask infos DownloadError.default) e).2 in
        let e1 := exec (StartTask infos DownloadError.default) e in
        if bool_decide (DownloadError.errorNum err = CALL_SUCCESS) then
          under_way (DownloadExecutor (FirmwareDownloadMode.downloadOptions_ m)) s'.1 ∧ at_state s'.2 [t1] cs e1 (o ++ [start_event t])
        else
          let q := {| Progress.percent := Z.max 0 (Progress.percent (FirmwareDownloadDataProcessor.downloadProgress_ (FirmwareDownloadMode.downloadDataProcessor_ m)));
                      Progress.status := UpgradeStatus.DOWNLOAD_FAIL; Progress.endReason := "1" |} in
          finished s'.1 ∧
          at_state s'.2 [] [] (cleared [t1] e1)
            (o ++ [start_event t; reported e1 (BaseCallbackUtils.progress_event (FirmwareTask.taskId t) q);
                   notification (BaseCallbackUtils.notify_event (FirmwareTask.taskId t) EventId.EVENT_DOWNLOAD_FAIL
                     UpgradeStatus.DOWNLOAD_FAIL (FirmwareDownloadProcess.end_error "1") [] 0)])
    end).
Proof.
  intros Hm Hw Hne Hlen Hids. apply (wp_bind (SetExecuteMode m)). unfold SetExecuteMode. apply wp_set_own, (wp_bind Start). cbn [fst snd].
  unfold Start. apply wp_bind, wp_own_. cbn [fst snd executeMode_ set_mode].
  eapply wp_Execute_of; [by split|].
  change (FirmwareIExecuteMode.GetNextStep ?a STEP_INIT) with (FirmwareDownloadMode.GetStepAfterInit (R := R) (E := E) a).
  eapply wp_download_init; [exact Hm|exact Hw|]. intros w1 Hw1.
  destruct (download_refused m ts cs e) as [m'|] eqn:Hr.
  - intros m'' Hm''. cbn [CreateInstance fst snd]. split; [done|]. apply wp_ret. intros this [Hf Hthis]. apply wp_rest; [done|]. intros _.
    split; [done|]. split; [exact Hw1|]. by exists m''.
  - intros m1 Hp Ho. cbn [CreateInstance fst snd]. intros this Hthis Hex. split; [done|]. apply wp_ret.
    destruct ts as [|t [|? ?]]; cbn in Hlen; [done| |lia]. apply Forall_cons in Hids as [Hid _].
    eapply wp_handle_Turn; [exact Hthis|]. cbn [fst snd]. intros this' Hthis' Hex'. rewrite Hex in Hex'. cbn [run]. apply wp_object.
    unfold FirmwareDownloadExecutor.DoDownload. apply wp_bind, wp_this, wp_bind, wp_on_world. cbn [fst snd].
    change (FirmwareDownloadExecutor.components_ (FirmwareDownloadExecutor.new _)) with (@nil FirmwareComponent.t). wp_step.
    apply wp_bind, wp_set_this. cbn [fst snd]. destruct cs as [|c cs']; [done|]. set (cs := c :: cs') in *.
    unfold FirmwareDownloadExecutor.GetTask. apply wp_bind, wp_bind, wp_this, wp_bind, wp_on_world. cbn [fst snd]. wp_step.
    apply wp_set_this, wp_bind, wp_this, wp_bind. cbn [fst snd queried]. change (FirmwareTask.downloadTaskId _) with (FirmwareTask.downloadTaskId t).
    rewrite Hid. cbn [String.eqb]. eapply (wp_PerformDownload_of m1 t cs); [done|done|done|exact Hthis'|eassumption|].
    cbv zeta. intros x' Hx'. apply wp_ret. unfold first_infos in *. rewrite Ho in Hx'. cbv zeta in Hx' |- *.
    case_bool_decide as Herr.
    + destruct Hx' as ((m' & Hm' & _) & Hex1 & Hw'). split; [|exact Hw']. split; [exact Hm'|].
      rewrite Hex1. cbn [fst snd]. rewrite Hex'. by rewrite <- Ho.
    + destruct Hx' as (m' & Hp' & Hheard). unfold report_heard in Hheard. rewrite Hp', Hp in Hheard.
      destruct Hheard as [Hf Hw']. split; [exact Hf|].
      rewrite fail_info_of, download_ended_fail in Hw' by done. rewrite <- !app_assoc in Hw'. exact Hw'.
Qed.
End download.

(** ** Sample flows *)
Module SampleOutcome.
(** The first check of a device that has nothing stored. *)
Lemma manual_check_outcome_witness :
  let s' := exec (SetExecuteMode FirmwareManualCheckMode.new ;;; Start ;;; handle (Turn 0)) (FirmwareFlowManager.new, SampleEnv.world [] []) in
  ∃ m r, executeMode_ s'.1 = Some m ∧ FirmwareManualCheckMode.answers_ m = [(BusinessError.default, r)] ∧ finished s'.1.
Proof.
  intros s'.
  pose proof (manual_check_outcome (SampleEnv.world [] []) [] [] SampleEnv.initial []
    (sample_tasks_at_state [] (Forall_nil_2 _))) as Hp.
  unfold wp in Hp. change (exec _ (FirmwareFlowManager.new, SampleEnv.world [] [])) with s' in Hp. clearbody s'.
  destruct Hp as (m & Hm & Hp). change (refused [] SampleEnv.initial) with (@None BusinessError.t) in Hp.
  destruct Hp as (r & ts' & cs' & e' & o' & Hf & Ha & _). exists m, r. exact (conj Hm (conj Ha Hf)).
Defined.

(** A version ready for its download. *)
Definition stored_task : FirmwareTask.t := Task.with_status UpgradeStatus.CHECK_VERSION_SUCCESS sample_task.
Lemma stored : ∃ z, numbered [sample_component "v1"] [z] ∧
  at_state (SampleEnv.world [stored_task] [sample_component "v1"]) [stored_task] [z] SampleEnv.initial [].
Proof.
  destruct (sample_at_state [stored_task] [sample_component "v1"]) as (zs & Hz & Hw);
    [by repeat constructor; apply (bool_decide_unpack _); vm_compute|by repeat constructor; apply (bool_decide_unpack _); vm_compute|].
  pose proof Hz as Hz'. apply Forall2_cons_inv_l in Hz' as (z & l & _ & Hl & ->). apply Forall2_nil_inv_l in Hl as ->. by exists z.
Qed.
Definition download_mode : FirmwareDownloadMode.t := {|
  FirmwareDownloadMode.downloadDataProcessor_ := {|
    FirmwareDownloadDataProcessor.tasks_ := FirmwareTask.default;
    FirmwareDownloadDataProcessor.downloadProgress_ := Progress.default |};
  FirmwareDownloadMode.downloadOptions_ := DownloadOptions.default;
  FirmwareDownloadMode.businessError_ := BusinessError.default;
  FirmwareDownloadMode.tasks_ := FirmwareTask.default |}.

Lemma download_started_witness :
  let s' := exec (SetExecuteMode download_mode ;;; Start ;;; handle (Turn 0))
                 (FirmwareFlowManager.new, SampleEnv.world [stored_task] [sample_component "v1"]) in
  under_way (DownloadExecutor DownloadOptions.default) s'.1.
Proof.
  intros s'. destruct stored as (z & Hz & Hw). apply Forall2_cons_inv_l in Hz as (z' & l & [id Hid] & _ & [= <- <-]).
  pose proof (download_started download_mode _ _ _ _ _ eq_refl Hw ltac:(done) (le_n 1)
    ltac:(by repeat constructor)) as Hp.
  unfold wp in Hp. change (exec _ (FirmwareFlowManager.new, SampleEnv.world [stored_task] [sample_component "v1"])) with s' in Hp. clearbody s'.
  subst z. cbv zeta in Hp.
  change (download_refused download_mode [stored_task] _ SampleEnv.initial) with (@None FirmwareDownloadMode.t) in Hp.
  cbv beta iota in Hp. change (bool_decide _) with true in Hp. exact (proj1 Hp).
Defined.

(** The download of that version succeeds. *)
Definition downloading : FirmwareFlowManager.t FirmwareDownloadMode.t := {|
  executeMode_ := Some download_mode; executor_ := Some (DownloadExecutor DownloadOptions.default); nextStep_ := DOWNLOAD_STEP;
  submitted_ := []; completed_ := 0; undefined_ := false; late_ := [] |}.
Definition success : ProgressInfo.t := {|
  ProgressInfo.taskProgress := 100; ProgressInfo.taskStatus := DownloadStatus.SUCCESS; ProgressInfo.reason := DownloadEndReason.INIT;
  ProgressInfo.progresses := []; ProgressInfo.packageSize := 100; ProgressInfo.downloadedSize := 100; ProgressInfo.verifiedSize := 0 |}.
Lemma download_report_outcome_witness :
  let s := (downloading, SampleEnv.world [sample_task] [sample_component "v1"]) in
  let s' := exec (handle (Report "id" success)) s in
  finished s'.1 ∧ ∃ cs e o, at_state s'.2 [Task.with_progress UpgradeStatus.DOWNLOAD_SUCCESS 100 sample_task] cs e o.
Proof.
  intros s s'. destruct (sample_at_state [sample_task] [sample_component "v1"]) as (zs & Hz & Hw);
    [by repeat constructor; apply (bool_decide_unpack _); vm_compute|by repeat constructor; apply (bool_decide_unpack _); vm_compute|].
  pose proof (download_report_outcome download_mode DownloadOptions.default "id" UpgradeStatus.DOWNLOAD_SUCCESS success sample_task zs
    SampleEnv.initial [] s ltac:(by repeat split) eq_refl Hw eq_refl) as Hp.
  unfold wp in Hp. change (exec (handle (Report "id" success)) s) with s' in Hp. clearbody s'.
  destruct Hp as [Hf Hp]. split; [exact Hf|]. do 3 eexists. exact Hp.
Defined.
End SampleOutcome.
