(* ===== verification/FlowInstall.v ===== *)
(** * What the flow of an installation achieves

    The flow of [FirmwareInstallApplyMode]: what the application hears while the installer
    works, what its result leaves, and what late reports of the system installer make of
    that. *)
From Stdlib Require Import ZArith Lia Ascii String.
From stdpp Require Import base tactics list strings gmap.
From S2P Require Import Prelude CppString Models Database FirmwareDb FirmwareStore FirmwareWorld FirmwareHelper CheckProcessor ProgressProcessor Installer Device Alarms Executor DownloadExecutor Modes Flow FlowOutcome.
Import FirmwareWorld.World (on_db, on_env, asks, send).
Import DUpdateErrno FirmwareFlowManager FirmwareInstallApplyMode.

#[local] Open Scope Z_scope.
#[local] Existing Instance FirmwareInstallApplyMode.mode.

Section install.
Context {R E : Type} `{RdbLaws R, Platform E, Sha256, Downloads E, Preferences E, Subscribers E, !InstallKits E, DownloadTasks E,
  CheckKits E, CheckCache E, RebootKits E, DeviceKits E}.
#[local] Notation Mode := FirmwareInstallApplyMode.t.
#[local] Notation State := (FirmwareFlowManager.t Mode * World R E)%type.
Implicit Types (s : State) (ts : list FirmwareTask.t) (cs : list FirmwareComponent.t) (t : FirmwareTask.t) (m : Mode).

(** The processor of the mode knows the task, if any. *)
Definition knows t (p : FirmwareInstallDataProcessor.t) : Prop :=
  FirmwareTask.isExistTask (FirmwareInstallDataProcessor.tasks_ p) = true →
  FirmwareTask.taskId (FirmwareInstallDataProcessor.tasks_ p) = FirmwareTask.taskId t.
(** Two states of the mode that differ in what its processor knows of the task. *)
Definition same_mode t m m' : Prop :=
  upgradeOptions_ m' = upgradeOptions_ m ∧ tasks_ m' = tasks_ m ∧ knows t (installStepDataProcessor_ m').

(** A message that says that the installation goes on. *)
Definition goes_on t (x : Message) : Prop :=
  (∃ e q, x = reported (E := E) e (BaseCallbackUtils.progress_event (FirmwareTask.taskId t) q) ∧ Progress.status q = UpgradeStatus.INSTALLING) ∨
  (∃ st, x = notification (BaseCallbackUtils.notify_event (FirmwareTask.taskId t) EventId.EVENT_UPGRADE_START st ErrorMessage.default [] 0)).
(** The flow while the installer works. *)
Definition flow_installs m t o (ex : option Executor) (this : FirmwareFlowManager.t Mode) (o' : list Message) : Prop :=
  (∃ m', with_mode m' INSTALL_STEP [] this ∧ same_mode t m m') ∧ executor_ this = ex ∧
  ∃ shown, o' = o ++ shown ∧ Forall (goes_on t) shown.

(** Telling the mode a result of the installer. *)
Lemma wp_tell_install m info t x w cs e o this (Q : option unit → State → Prop) :
  with_mode m INSTALL_STEP [] this → knows t (installStepDataProcessor_ m) → FirmwareTask.taskId x = FirmwareTask.taskId t →
  at_state w [x] cs e o →
  (∀ m' this' w', with_mode m' INSTALL_STEP [] this' → same_mode t m m' → executor_ this' = executor_ this →
     at_state w' [x] cs e (o ++ install_events (FirmwareTask.taskId t) info e) → Q (Some tt) (this', w')) →
  wp (tell_mode (λ mode, FirmwareIExecuteMode.SetInstallResult mode info)) (this, w) Q.
Proof.
  intros Hthis Hk Hx Hw HQ. eapply wp_tell_mode_of; [exact Hthis|].
  cbn [FirmwareIExecuteMode.SetInstallResult FirmwareInstallApplyMode.mode fst snd]. unfold SetInstallResult.
  apply wp_bind. eapply wp_SetInstallResult; [exact Hw|]. intros task task' w' Hw'. apply wp_ret. intros this' Hthis' Hex.
  assert (FirmwareTask.taskId task' = FirmwareTask.taskId t) as Ht.
  { unfold task', task, knows in *. destruct (FirmwareTask.isExistTask _) eqn:He; [exact (Hk eq_refl)|exact Hx]. }
  rewrite Ht in Hw'. eapply HQ; [exact Hthis'| |exact Hex|exact Hw']. split; [done|]. split; [done|]. by intros _.
Qed.

#[local] Instance flow_listening m t o ex : Listening (R := R) (E := E) OnInstallCallback t (flow_installs m t o ex).
Proof.
  split.
  - intros info this w x cs e o' Hi Hx Hw ((m' & Hm' & Hsame) & Hex & shown & -> & Hshown). unfold OnInstallCallback. apply wp_bind.
    eapply wp_tell_install; [exact Hm'|apply Hsame|exact Hx|exact Hw|]. intros m2 this' w' Hm2 Hs2 Hex2 Hw'.
    rewrite Hi. apply wp_ret. eexists. split; [exact Hw'|]. split; [|split; [by cbn; rewrite Hex2|]].
    + exists m2. split; [exact Hm2|]. destruct Hsame as (Ho & Ht & _), Hs2 as (Ho2 & Ht2 & Hk2). split; [congruence|]. split; [congruence|done].
    + eexists. rewrite <- app_assoc. split; [reflexivity|]. apply Forall_app. split; [exact Hshown|].
      unfold install_events. rewrite Hi, decide_False by set_solver. rewrite decide_False by done. constructor; [|constructor].
      left. by eexists _, _.
  - intros this o' st (Hm & Hex & shown & -> & Hshown). split; [done|]. split; [done|]. eexists. rewrite <- app_assoc. split; [reflexivity|].
    apply Forall_app. split; [exact Hshown|]. constructor; [|constructor]. right. by eexists.
Qed.

(** The next step of the mode, by the stored status. *)
Lemma wp_GetStepAfterInstall m t w cs e o (Q : Mode * FirmwareStep → World R E → Prop) :
  at_state w [t] cs e o →
  (∀ w' m', let success := FirmwareTask.status t =? UpgradeStatus.INSTALL_SUCCESS in
     (if success then at_state w' [t] cs e o
      else at_state w' [] [] (cleared [t] (exec (FirmwareUpgradeProcessor.ProcessAfterUpgrade (tasks_ m)) e)) o) →
     (success = true → knows t (installStepDataProcessor_ m')) → Q (m', if success && (UpgradeOptions.order (upgradeOptions_ m) =? Order.INSTALL_AND_APPLY) then APPLY_STEP else STEP_COMPLETE) w') →
  wp (GetStepAfterInstall m) w Q.
Proof.
  intros Hw HQ. unfold GetStepAfterInstall, FirmwareInstallDataProcessor.HasInstallSuccess, FirmwareInstallDataProcessor.query_status in *.
  wp_steps. cbn [queried]. change (FirmwareTask.isExistTask (FirmwareTaskOperator.set_isExistTask true t)) with true. cbn [negb]. wp_steps.
  change (FirmwareTask.status (FirmwareTaskOperator.set_isExistTask true t)) with (FirmwareTask.status t). cbv zeta in HQ.
  destruct (FirmwareTask.status t =? UpgradeStatus.INSTALL_SUCCESS) eqn:Hst; cbn [negb andb] in *.
  - wp_steps. cbn [queried]. change (FirmwareTask.isExistTask (FirmwareTaskOperator.set_isExistTask true t)) with true. cbn [negb]. wp_steps.
    change (FirmwareTask.status (FirmwareTaskOperator.set_isExistTask true t)) with (FirmwareTask.status t). rewrite Hst. cbn [andb].
    change (upgradeOptions_ (set_processor _ _)) with (upgradeOptions_ m).
    destruct (_ =? Order.INSTALL_AND_APPLY) in HQ |- *; apply wp_ret; by apply HQ.
  - wp_steps. eapply wp_ClearFirmwareInfo; [eassumption|]. intros w2 Hw2. wp_steps. cbn [queried].
    change (FirmwareTask.isExistTask (FirmwareTaskOperator.set_isExistTask false _)) with false. cbn [negb]. wp_steps. cbn [andb]. wp_steps. by eapply HQ.
Qed.

(** The flow ends, or goes on to apply what was installed; [n] reports were late, and
    used the flow that had ended. *)
Definition applies (order : Z) (success : bool) : bool := success && (order =? Order.INSTALL_AND_APPLY).
Definition leads_to (order : Z) (success : bool) (n : nat) (this : FirmwareFlowManager.t Mode) : Prop :=
  if applies order success then pending ApplyExecutor this
  else finished_at (λ undefined _, undefined = negb (n =? 0)%nat) this.
Lemma wp_OnInstallCallback m info t x w cs e o this (Q : unit → State → Prop) :
  with_mode m INSTALL_STEP [] this → knows t (installStepDataProcessor_ m) → FirmwareTask.taskId x = FirmwareTask.taskId t →
  at_state w [x] cs e o → FirmwareTask.status x = Progress.status (InstallCallbackInfo.progress info) →
  FirmwareTask.status x ≠ UpgradeStatus.INSTALLING →
  (∀ s', let success := FirmwareTask.status x =? UpgradeStatus.INSTALL_SUCCESS in
     let o' := o ++ install_events (FirmwareTask.taskId t) info e in
     leads_to (UpgradeOptions.order (upgradeOptions_ m)) success 0 s'.1 →
     (applies (UpgradeOptions.order (upgradeOptions_ m)) success = true →
        ∃ m', with_mode m' APPLY_STEP [ApplyExecutor] s'.1 ∧ knows t (installStepDataProcessor_ m')) →
     (if success then at_state s'.2 [x] cs e o'
      else at_state s'.2 [] [] (cleared [x] (exec (FirmwareUpgradeProcessor.ProcessAfterUpgrade (tasks_ m)) e)) o') → Q tt s') →
  wp (OnInstallCallback info) (this, w) Q.
Proof.
  intros Hthis Hk Hx Hw Hst Hni HQ. unfold OnInstallCallback. apply wp_bind. eapply wp_tell_install; [exact Hthis|exact Hk|exact Hx|exact Hw|].
  intros m' this' w' Hm' (Ho & Ht & _) Hex Hw'. rewrite <- Hst, (proj2 (Z.eqb_neq _ _)) by done. cbn [negb heard].
  eapply wp_Execute_of; [exact Hm'|].
  change (FirmwareIExecuteMode.GetNextStep ?a INSTALL_STEP) with (GetStepAfterInstall (R := R) (E := E) a).
  eapply wp_GetStepAfterInstall; [exact Hw'|]. intros w2 m2 success Hw2 Hk2. rewrite Ho, Ht in *. cbv zeta in HQ. fold success in HQ.
  unfold leads_to, applies in HQ. destruct (success && _) eqn:Happ; cbn [CreateInstance fst snd].
  - intros this2 Hthis2 Hex2. split; [done|]. apply wp_ret, HQ; [split; [exact (proj1 Hthis2)|exact Hex2]| |exact Hw2].
    intros _. exists m2. split; [exact Hthis2|]. apply andb_true_iff in Happ as [Hs _]. unfold knows in *.
    intros He. rewrite <- Hx. by apply Hk2.
  - split; [done|]. apply wp_ret. intros this2 [Hf _]. by apply HQ.
Qed.

(** *** Late reports

    What the result has left, after [n] reports that came late and [k] calls in which
    they did: a success is put back to [INSTALLING], and the application hears of it if the
    flow goes on. *)
Definition waited (k : nat) (e : E) : E := Nat.iter k (exec other_install) e.
Definition after_result t (order : Z) (success : bool) (v : list string) e o (n k : nat) s : Prop :=
  leads_to order success n s.1 ∧
  if success then ∃ q cs late,
    (if decide (n = 0%nat) then q = (UpgradeStatus.INSTALL_SUCCESS, 100) else q.1 = UpgradeStatus.INSTALLING) ∧
    Forall (goes_on t) late ∧ List.length late = (if applies order success then n else 0%nat) ∧
    map FirmwareComponent.versionId cs = v ∧ at_state s.2 [Task.with_progress q.1 q.2 t] cs (waited k e) (o ++ late)
  else at_state s.2 [] [] (waited k e) o.
(** The mode that hears of them. *)
Definition hearing t (order : Z) (success : bool) (this : FirmwareFlowManager.t Mode) : Prop :=
  applies order success = true → ∃ m, with_mode m APPLY_STEP [ApplyExecutor] this ∧ knows t (installStepDataProcessor_ m).
(** The state of the executor, the flow and the world. *)
#[local] Notation Obj := (FirmwareInstallExecutor.t * State)%type.
Definition late_state t (order : Z) (success : bool) (v : list string) e o (x : Obj) : Prop :=
  FirmwareTask.taskId (FirmwareInstallExecutor.tasks_ x.1) = FirmwareTask.taskId t ∧ hearing t order success x.2.1 ∧
  ∃ n k, after_result t order success v e o n k x.2.

(** The flow hears of a late report. *)
Lemma wp_late_told t order success n info this w ts cs e o (Q : unit → State → Prop) :
  leads_to order success n this → hearing t order success this →
  Progress.status (InstallCallbackInfo.progress info) = UpgradeStatus.INSTALLING →
  at_state w ts cs e o → (applies order success = true → ∃ x, ts = [x] ∧ FirmwareTask.taskId x = FirmwareTask.taskId t) →
  (∀ this' w' late, leads_to order success (S n) this' → hearing t order success this' →
     Forall (goes_on t) late → List.length late = (if applies order success then 1 else 0)%nat →
     at_state w' ts cs e (o ++ late) → Q tt (this', w')) →
  wp (OnInstallCallback info) (this, w) Q.
Proof.
  intros Hl Hh Hi Hw Hx HQ. unfold OnInstallCallback. rewrite Hi. apply wp_bind. unfold leads_to, hearing in *.
  destruct (applies order success).
  - destruct (Hh eq_refl) as (m & Hm & Hk), (Hx eq_refl) as (x & -> & Hid). eapply wp_tell_mode_of; [exact Hm|].
    cbn [FirmwareIExecuteMode.SetInstallResult FirmwareInstallApplyMode.mode fst snd]. unfold SetInstallResult.
    apply wp_bind. eapply wp_SetInstallResult; [exact Hw|]. intros task task' w' Hw'. apply wp_ret. intros this' Hthis' Hex. apply wp_ret.
    assert (FirmwareTask.taskId task' = FirmwareTask.taskId t) as Ht.
    { unfold task', task, knows in *. destruct (FirmwareTask.isExistTask _) eqn:He; [exact (Hk eq_refl)|exact Hid]. }
    eapply HQ; [split; [exact (proj1 Hthis')|by rewrite Hex; apply Hl]| | | |exact Hw'].
    + intros _. eexists. split; [exact Hthis'|]. by intros _.
    + unfold install_events. rewrite Hi, decide_False by set_solver. rewrite decide_False by done. rewrite Ht.
      constructor; [|constructor]. left. by eexists _, _.
    + unfold install_events. rewrite Hi, decide_False by set_solver. by rewrite decide_False.
  - destruct Hl as (Hc & Hu & Hs). unfold tell_mode, on_mode. apply wp_bind, wp_own_. cbn [fst]. rewrite Hc. apply wp_bind, wp_set_own, wp_ret, wp_ret.
    eapply (HQ _ _ []); [by repeat split|done|constructor|done|]. by rewrite app_nil_r.
Qed.

Section late.
Context t (installType : InstallType) (order : Z) (success : bool) (v : list string) (e : E) (o : list Message).
#[local] Notation late_state := (late_state t order success v e o).
#[local] Notation cbs := (FirmwareInstallExecutor.callbacks installType (Some (OnInstallCallback (R := R) (E := E) (M := Mode)))).
Lemma waited_S k : exec other_install (waited k e) = waited (S k) e.
Proof. done. Qed.
Lemma late_waits x : late_state x → late_state (exec (on_world (on_env other_install)) x).
Proof.
  intros (Hid & Hh & n & k & Hl & Hs).
  enough (wp (on_world (on_env other_install)) x (λ _ x', late_state x')) as Hw by exact Hw. apply wp_on_world. destruct success eqn:Hr.
  - destruct Hs as (q & cs & late & Hq & Hf & Hn & Hv & Hw). eapply wp_on_env; [exact Hw|]. intros w' Hw'. cbn.
    split; [exact Hid|]. split; [exact Hh|]. exists n, (S k). split; [exact Hl|]. by exists q, cs, late.
  - eapply wp_on_env; [exact Hs|]. intros w' Hw'. split; [exact Hid|]. split; [exact Hh|]. exists n, (S k). by split.
Qed.
Lemma late_reported f c :
  FirmwareInstallExecutor.is_stream installType = false → onFirmwareProgress cbs = Some f → Component.wf c → keeps late_state (outer (f c)).
Proof.
  intros Hstream [= <-] Hc. apply keeps_outer. intros [ex [this w]] (Hid & Hh & n & k & Hl & Hs). cbn [fst snd] in *.
  enough (wp (FirmwareInstallExecutor.HandleInstallProgress installType (Some OnInstallCallback) c) (ex, (this, w))
    (λ _ x', late_state x')) as Hw by exact Hw.
  destruct success eqn:Hr.
  - destruct Hs as ([st p] & cs & late & Hq & Hf & Hn & Hv & Hw). cbn [fst snd] in *.
    eapply wp_HandleInstallProgress; [by split|apply Hc|apply Hc|]. rewrite Hstream. intros [ex' [this' w']] em q _ Hc' [Hw' Hid'].
    cbn [fst snd] in *. subst this'. apply wp_call. cbn [fst snd].
    eapply wp_late_told; [exact Hl|exact Hh|done|exact Hw'|by eexists|].
    intros this' w2 late' Hl' Hh' Hf' Hn' Hw2. split; [exact Hid'|]. split; [exact Hh'|]. exists (S n), k. split; [exact Hl'|].
    exists (UpgradeStatus.INSTALLING, FirmwareComponent.progress c), (component_progressed installType c cs), (late ++ late').
    split; [by case_decide|]. split; [by apply Forall_app|]. split; [rewrite length_app, Hn, Hn'; case_match; lia|].
    split; [by rewrite component_progressed_versions|]. rewrite app_assoc. exact Hw2.
  - unfold FirmwareInstallExecutor.HandleInstallProgress. assert (is_int32 (FirmwareComponent.status c)) by apply Hc. assert (is_int32 (FirmwareComponent.progress c)) by apply Hc. rewrite Hstream. wp_parts.
    apply wp_call. eapply wp_late_told; [exact Hl|exact Hh|done|eassumption|done|].
    intros this' w2 late' Hl' Hh' _ Hn' Hw2. split; [exact Hid|]. split; [exact Hh'|]. exists (S n), k. split; [exact Hl'|].
    unfold applies in Hn'. cbn [andb] in Hn'. destruct late'; [|done]. by rewrite app_nil_r in Hw2.
Qed.
Lemma late_reporting : FirmwareInstallExecutor.is_stream installType = false → Reporting cbs Component.wf late_state.
Proof.
  intros Hstream. split; [intros [] st p (?&?&?&?&?&?&?&?&?&?) ??; by split_and!| |by intros; apply late_reported].
  apply keeps_outer. intros x Hx. by apply late_waits.
Qed.
End late.

(** C5: what an installation that is not streamed leads to.  Until its result the
    application hears of its starts and progress only; then it hears the events of the
    result, once.  After a success the task is stored as installed, the components are
    still the same versions, and the flow goes on to apply them if that was asked for and
    ends otherwise.  After anything else the flow ends, what was done before a nightly
    upgrade is undone, and the stored version is cleared.
    Reports of the system installer that are passed on after the result, [n] of them, put
    a success back to [INSTALLING]; if the flow goes on the application hears of each of
    them, and if it has ended they use what it has deleted.  With the other installers
    there are none. *)
Theorem install_flow_outcome m installType ind t cs e o s :
  with_mode m INSTALL_STEP [InstallExecutor installType] s.1 → installStepDataProcessor_ m = FirmwareInstallDataProcessor.initial →
  at_state s.2 [t] cs e o → cs ≠ [] →
  wp (handle (Turn ind)) s (λ _ s', ∃ info r st shown e' n k,
    let p := InstallCallbackInfo.progress info in
    let order := UpgradeOptions.order (upgradeOptions_ m) in
    let o' := o ++ shown ++ install_events (FirmwareTask.taskId t) info e' in
    Progress.status p = FirmwareInstallExecutor.result_status installType r st ∧ Forall (goes_on t) shown ∧
    (installType ≠ SYS_INSTALLER → n = 0%nat ∧ k = 0%nat) ∧
    leads_to order r n s'.1 ∧
    if r then ∃ q cs' late,
      (if decide (n = 0%nat) then q = (UpgradeStatus.INSTALL_SUCCESS, 100) else q.1 = UpgradeStatus.INSTALLING) ∧
      Forall (goes_on t) late ∧ List.length late = (if applies order r then n else 0%nat) ∧
      map FirmwareComponent.versionId cs' = map FirmwareComponent.versionId cs ∧
      at_state s'.2 [Task.with_progress q.1 q.2 t] cs' (waited k e') (o' ++ late)
    else at_state s'.2 [] [] (waited k (cleared [t] (exec (FirmwareUpgradeProcessor.ProcessAfterUpgrade (tasks_ m)) e'))) o').
Proof.
  intros Hs Hp Hw Hne. eapply wp_handle_Turn; [exact Hs|]. intros this Hthis Hex. cbn [run]. apply wp_bind, wp_object.
  eapply (Executor.wp_DoInstall installType OnInstallCallback t (flow_installs m t o (executor_ s.1))); [exact Hw|exact Hne| |].
  { split; [|split; [exact Hex|exists []; rewrite app_nil_r; by split]]. exists m. split; [exact Hthis|]. split; [done|]. split; [done|].
    rewrite Hp. by intros ?. }
  intros s1 r em st (st1 & p1 & cs' & e' & o' & Hs1 & ((m' & Hm' & Hsame) & Hex' & shown & -> & Hshown) & Hv).
  eapply wp_HandleInstallResult; [exact Hs1|]. intros [x' [this' w']] p _ Hc [Hw' Hid']. cbn [fst snd] in Hc, Hw', Hid'. subst this'.
  apply wp_call. cbn [fst snd]. destruct Hsame as (Ho & Ht & Hk).
  set (x := Task.with_progress (Progress.status p) (to_int32 (Progress.percent p)) (Task.with_progress st1 p1 t)) in *.
  assert (FirmwareTask.status x = FirmwareInstallExecutor.result_status installType r st) as Hx by done.
  assert (FirmwareTask.status x ≠ UpgradeStatus.INSTALLING ∧ (FirmwareTask.status x =? UpgradeStatus.INSTALL_SUCCESS) = r) as [Hni Hr].
  { rewrite Hx. unfold FirmwareInstallExecutor.result_status. by repeat case_if. }
  set (info := {| InstallCallbackInfo.progress := p; InstallCallbackInfo.errorMessage := em |}).
  set (o2 := o ++ shown ++ install_events (FirmwareTask.taskId t) info e').
  set (order := UpgradeOptions.order (upgradeOptions_ m)).
  set (e2 := if r then e' else cleared [t] (exec (FirmwareUpgradeProcessor.ProcessAfterUpgrade (tasks_ m)) e')).
  set (v := map FirmwareComponent.versionId cs).
  eapply wp_OnInstallCallback; [exact Hm'|exact Hk| |exact Hw'| |exact Hni|]; [done..|]. cbv zeta. rewrite Hr, Ho, Ht, <- app_assoc.
  intros s' Hl Hh Hs' l x2 _ Hnone Hlate.
  assert (after_result t order r v e2 o2 0 0 s') as Hst.
  { split; [exact Hl|]. destruct r; [|exact Hs'].
    exists (UpgradeStatus.INSTALL_SUCCESS, 100), cs', []. split; [done|]. split; [constructor|]. split; [by case_match|]. split; [exact Hv|].
    rewrite app_nil_r. exact Hs'. }
  assert (∃ n k, (installType ≠ SYS_INSTALLER → n = 0%nat ∧ k = 0%nat) ∧ after_result t order r v e2 o2 n k x2.2) as (n & k & Hnk & Hl2 & Hs2).
  { destruct (decide (installType = SYS_INSTALLER)) as [Hsys|Hsys].
    - destruct (Hlate _ (late_reporting t installType order r v e2 o2 ltac:(unfold FirmwareInstallExecutor.is_stream; by rewrite Hsys)))
        as (_ & _ & n & k & Hnk); [|by exists n, k]. split; [exact Hid'|]. split; [exact Hh|]. by exists 0%nat, 0%nat.
    - destruct (Hnone Hsys) as [_ ->]. by exists 0%nat, 0%nat. }
  apply wp_bind, wp_set_own, wp_ret. cbn [fst snd]. exists info, r, st, shown, e', n, k. split; [exact Hx|]. split; [done|]. split; [done|].
  split; [|by destruct r].
  unfold leads_to in Hl2 |- *. destruct (applies order r); [|exact Hl2]. destruct Hl2 as [[] ?]. repeat split; done.
Qed.
End install.

(** ** A sample installation *)
Module SampleFlowInstall.
Definition install_mode : FirmwareInstallApplyMode.t := FirmwareInstallApplyMode.new UpgradeOptions.default BusinessError.default SYS_INSTALLER.
Definition ready : FirmwareFlowManager.t FirmwareInstallApplyMode.t := {|
  executeMode_ := Some install_mode; executor_ := Some (InstallExecutor SYS_INSTALLER); nextStep_ := INSTALL_STEP;
  submitted_ := [InstallExecutor SYS_INSTALLER]; completed_ := 0; undefined_ := false; late_ := [] |}.
Lemma install_flow_outcome_witness :
  let s := (ready, SampleEnv.world [sample_task] [sample_component "v1"]) in
  let s' := exec (handle (Turn 0)) s in
  finished_at any_use s'.1.
Proof.
  intros s s'. destruct (sample_at_state [sample_task] [sample_component "v1"]) as (zs & Hz & Hw);
    [by repeat constructor; apply (bool_decide_unpack _); vm_compute|by repeat constructor; apply (bool_decide_unpack _); vm_compute|].
  assert (zs ≠ []) as Hne by by inversion Hz.
  pose proof (install_flow_outcome install_mode SYS_INSTALLER 0 sample_task zs SampleEnv.initial [] s ltac:(by repeat split) eq_refl Hw Hne) as Hp.
  unfold wp in Hp. change (exec (handle (Turn 0)) s) with s' in Hp. clearbody s'.
  destruct Hp as (info & r & st & shown & e' & n & k & _ & _ & _ & Hl & _). unfold leads_to in Hl.
  destruct r; destruct Hl as (? & ? & ?); by repeat split.
Defined.
End SampleFlowInstall.
