(* ===== verification/FirmwareManager.v ===== *)
(** * The firmware manager

    Models [firmware_manager.cpp] and [firmware_event_manager.cpp]: what the service does
    for each request of a client and each event of the device, and
    [firmware_changelog_utils.cpp].

    A request that starts an upgrade makes a flow ([Flow]); the state is the flows that
    were made, of whichever mode, and the world they share.  The caller's
    [BusinessError] is an argument and a result.  The process that terminates itself, and
    the wait of five seconds after a start of the device, are left out. *)
From Stdlib Require Import ZArith Lia Ascii String.
From stdpp Require Import base tactics list strings gmap sorting.
From S2P Require Import Prelude CppString StringUtils Json Models Database FirmwareDb FirmwareStore FirmwareResult FirmwareWorld Files JsonUtils DownloadData DownloadService FirmwareHelper Device Alarms Startup CheckProcessor ProgressProcessor Installer Executor DownloadExecutor Modes Flow.
Import FirmwareWorld.World (on_db, on_env, asks, send).
Import DUpdateErrno.

#[local] Open Scope Z_scope.
#[local] Existing Instances FirmwareManualCheckMode.mode FirmwareDownloadMode.mode FirmwareInstallApplyMode.mode
  FirmwareStreamInstallApplyMode.mode FirmwareAutoUpgradeMode.mode.

(** A flow that was made, by its mode. *)
Inductive AnyFlow :=
  | CheckFlow (flow : FirmwareFlowManager.t FirmwareManualCheckMode.t)
  | DownloadFlow (flow : FirmwareFlowManager.t FirmwareDownloadMode.t)
  | InstallFlow (flow : FirmwareFlowManager.t FirmwareInstallApplyMode.t)
  | StreamFlow (flow : FirmwareFlowManager.t FirmwareStreamInstallApplyMode.t)
  | AutoFlow (flow : FirmwareFlowManager.t FirmwareAutoUpgradeMode.t).
Definition Flows : Type := list AnyFlow.

(** The listener for changes of the network. *)
Class NetEvents (E : Type) := { RegisterNetChangedListener : ST E unit }.

(** ** Component ids *)
Module FirmwareChangelogUtils.
(*@ utils/src/firmware_changelog_utils.cpp FirmwareChangelogUtils::GetChangelogDir *)
Definition GetChangelogDir : string := Firmware.CHANGELOG_PATH.
Section ops.
Context {R E : Type} `{Rdb R, Preferences E}.
(*@ utils/src/firmware_changelog_utils.cpp:33-38 FirmwareChangelogUtils::GetNewVersionComponentIds *)
Definition new_ids (dbComponentList : list FirmwareComponent.t) (componentIds : list string) : list string :=
  fold_left (λ componentIds component,
    if existsb (String.eqb (FirmwareComponent.componentId component)) componentIds then componentIds
    else componentIds ++ [FirmwareComponent.componentId component]) dbComponentList componentIds.
(*@ utils/src/firmware_changelog_utils.cpp FirmwareChangelogUtils::GetNewVersionComponentIds *)
Definition GetNewVersionComponentIds : ST (World R E) (list string) :=
  let* (_, dbComponentList) := on_db (FirmwareComponentOperator.QueryAll []) in
  ret (new_ids dbComponentList []).
(*@ utils/src/firmware_changelog_utils.cpp FirmwareChangelogUtils::GetCurrentVersionComponentIds *)
Definition GetCurrentVersionComponentIds (e : E) : list string :=
  if IsExist e Firmware.HOTA_CURRENT_COMPONENT_ID then [ObtainString e Firmware.HOTA_CURRENT_COMPONENT_ID ""] else [].
(*@ utils/src/firmware_changelog_utils.cpp FirmwareChangelogUtils::SaveHotaCurrentVersionComponentId *)
Definition SaveHotaCurrentVersionComponentId : ST (World R E) unit :=
  let* (_, components) := on_db (FirmwareComponentOperator.QueryAll []) in
  match List.find (λ component, FirmwareComponent.versionPackageType component =? PackageType.NORMAL) components with
  | None => ret tt
  | Some component => on_env (SaveString Firmware.HOTA_CURRENT_COMPONENT_ID (FirmwareComponent.componentId component)) ;;; ret tt
  end.
(*@ utils/src/firmware_changelog_utils.cpp FirmwareChangelogUtils::GetAllComponentIds *)
Definition GetAllComponentIds (componentIds : list string) : ST (World R E) (list string) :=
  let* curComponentIds := asks GetCurrentVersionComponentIds in
  let* newComponentIds := GetNewVersionComponentIds in
  ret (componentIds ++ curComponentIds ++ newComponentIds).
End ops.
End FirmwareChangelogUtils.

Module FirmwareManager.
(*@ upgrade/flow/src/firmware_manager.cpp PULLUP_AFTER_TERMINATE_INTERVAL *)
Definition PULLUP_AFTER_TERMINATE_INTERVAL : Z := 5.
(*@ upgrade/flow/src/firmware_manager.cpp MIN_SCHEDULE_TIME *)
Definition MIN_SCHEDULE_TIME : Z := 0.

Section ops.
Context {R E : Type} `{Rdb R, Platform E, Sha256, Downloads E, Preferences E, Subscribers E, !InstallKits E, DownloadTasks E, CheckKits E,
  CheckCache E, RebootKits E, !ServiceKits E, UpgradeAlarms E, DeviceKits E, AbilityKits E}.
#[local] Notation Service := (ST (Flows * World R E)).
#[local] Notation Query := (on_db (FirmwareTaskOperator.QueryTask FirmwareTask.default)).

(** [new FirmwareFlowManager] with a mode, started; the mode it has afterwards. *)
Definition start {M} `{!FirmwareIExecuteMode.t R E M} (wrap : FirmwareFlowManager.t M → AnyFlow) (executeMode : M) : Service M := λ s,
  let s' := exec (FirmwareFlowManager.SetExecuteMode executeMode ;;; FirmwareFlowManager.Start) (FirmwareFlowManager.new, s.2) in
  (default executeMode (FirmwareFlowManager.executeMode_ s'.1), (s.1 ++ [wrap s'.1], s'.2)).

(*@ upgrade/flow/src/firmware_manager.cpp FirmwareManager::IsIdle *)
Definition IsIdle : ST (World R E) bool :=
  let* checking := asks IsChecking in
  if checking : bool then ret false
  else
    let* task := Query in
    if negb (FirmwareTask.isExistTask task) then ret true
    else if UpgradeStatus.CHECK_VERSION_SUCCESS <? FirmwareTask.status task then ret false
    else ret true.
(*@ upgrade/flow/src/firmware_manager.cpp FirmwareManager::GetAutoUpgradeScheduleTask *)
Definition GetAutoUpgradeScheduleTask (e : E) : ScheduleTask.t :=
  let scheduleTask := ScheduleTask.default in
  let autoUpgradeTime := FirmwareAutoUpgradeAlarmManager.GetAutoUpgradeTime e in
  let autoUpgradeDuration := FirmwareAutoUpgradeAlarmManager.GetEffectiveAutoUpgradeDuration in
  let timestamp := GetTimestamp e in
  if autoUpgradeTime <=? 0 then scheduleTask
  else
    let minDelayTime := Z.max MIN_SCHEDULE_TIME (to_int64 (autoUpgradeTime - timestamp)) in
    {| ScheduleTask.priority := ScheduleTask.priority scheduleTask;
       ScheduleTask.minDelayTime := to_uint64 (Z.min minDelayTime autoUpgradeDuration);
       ScheduleTask.maxDelayTime := ScheduleTask.maxDelayTime scheduleTask; ScheduleTask.netType := ScheduleTask.netType scheduleTask;
       ScheduleTask.batteryLevel := ScheduleTask.batteryLevel scheduleTask; ScheduleTask.deviceIdle := ScheduleTask.deviceIdle scheduleTask;
       ScheduleTask.taskExtra := "Firmware Auto Upgrade"; ScheduleTask.startupReason := ScheduleTask.startupReason scheduleTask |}.
(*@ upgrade/flow/src/firmware_manager.cpp FirmwareManager::GetScheduleTasks *)
Definition GetScheduleTasks (e : E) : list ScheduleTask.t :=
  let scheduleAutoUpgradeTask := GetAutoUpgradeScheduleTask e in
  if negb (String.eqb (ScheduleTask.taskExtra scheduleAutoUpgradeTask) "") then [scheduleAutoUpgradeTask] else [].
(*@ upgrade/flow/src/firmware_manager.cpp FirmwareManager::Exit *)
Definition Exit : bool := true.

(** A failure with one message. *)
Definition failed (businessError : BusinessError.t) (msg : string) (code : Z) (detail : string) : BusinessError.t :=
  BusinessError.AddErrorMessage (BusinessError.Build businessError CallResult.FAIL msg) code detail.
(*@ upgrade/flow/src/firmware_manager.cpp FirmwareManager::DoCancel *)
Definition DoCancel (businessError : BusinessError.t) : ST (World R E) BusinessError.t :=
  let* task := Query in
  let status := FirmwareTask.status task in
  if negb (FirmwareTask.isExistTask task) then
    ret (failed businessError "no download task to cancel!" DUPDATE_ERR_DOWNLOAD_COMMON_ERROR "no download task to cancel!")
  else if negb (status =? UpgradeStatus.DOWNLOADING) && negb (status =? UpgradeStatus.DOWNLOAD_SUCCESS) &&
          negb (status =? UpgradeStatus.DOWNLOAD_PAUSE) then
    ret (failed businessError "download task status invalid" DUPDATE_ERR_DOWNLOAD_COMMON_ERROR "download task status invalid!")
  else
    let* businessError :=
      (if status =? UpgradeStatus.DOWNLOADING then
        let* downloadError := on_env (CancelTask (FirmwareTask.downloadTaskId task) DownloadError.default true) in
        ret (if negb (bool_decide (DownloadError.errorNum downloadError = CALL_SUCCESS))
             then failed businessError "cancel download error!" (DownloadError.endReason downloadError) "cancel download error!"
             else businessError)
      else ret businessError) in
    on_db (FirmwareTaskOperator.UpdateProgressByTaskId (FirmwareTask.taskId task) UpgradeStatus.CHECK_VERSION_SUCCESS 0) ;;;
    let* (_, components) := on_db (FirmwareComponentOperator.QueryAll []) in
    for_each components (λ component,
      on_db (FirmwareComponentOperator.UpdateProgressByVersionId (FirmwareComponent.versionId component)
               UpgradeStatus.CHECK_VERSION_SUCCESS 0) ;;; ret tt) ;;;
    on_env (RemoveTask (FirmwareTask.downloadTaskId task)) ;;;
    ret businessError.
(** Whether the process will end: a second after the answer. *)
(*@ upgrade/flow/src/firmware_manager.cpp FirmwareManager::DoTerminateUpgrade *)
Definition DoTerminateUpgrade (businessError : BusinessError.t) : ST (World R E) (BusinessError.t * bool) :=
  let d := ScheduleTask.default in
  let scheduleTask := {|
    ScheduleTask.priority := ScheduleTask.priority d; ScheduleTask.minDelayTime := PULLUP_AFTER_TERMINATE_INTERVAL;
    ScheduleTask.maxDelayTime := ScheduleTask.maxDelayTime d; ScheduleTask.netType := ScheduleTask.netType d;
    ScheduleTask.batteryLevel := ScheduleTask.batteryLevel d; ScheduleTask.deviceIdle := ScheduleTask.deviceIdle d;
    ScheduleTask.taskExtra := ScheduleTask.taskExtra d; ScheduleTask.startupReason := StartupReason.PROCESS_ENV_RESET |} in
  let* scheduled := on_env (StartupSchedule.Schedule scheduleTask) in
  if negb scheduled
  then ret (BusinessError.AddErrorMessage businessError DUPDATE_ERR_INTERNAL_ERROR "terminate upgrade error!", false)
  else ret (businessError, true).

(*@ upgrade/flow/src/firmware_manager.cpp FirmwareManager::DoCheck *)
Definition DoCheck : Service unit := start CheckFlow FirmwareManualCheckMode.new ;;; ret tt.
(*@ upgrade/flow/src/firmware_manager.cpp FirmwareManager::DoDownload *)
Definition DoDownload (downloadOptions : DownloadOptions.t) (businessError : BusinessError.t) : Service BusinessError.t :=
  let* mode := env_ (FirmwareDownloadMode.new downloadOptions businessError) in
  let* mode := start DownloadFlow mode in
  ret (FirmwareDownloadMode.businessError_ mode).
(*@ upgrade/flow/src/firmware_manager.cpp FirmwareManager::CanInstall *)
Definition CanInstall : ST (World R E) bool :=
  let* task := Query in
  let* installType := FirmwareUpdateHelper.GetInstallType in
  let status := FirmwareTask.status task in
  ret match installType with
      | SYS_INSTALLER => (status =? UpgradeStatus.DOWNLOAD_SUCCESS) || (status =? UpgradeStatus.INSTALL_SUCCESS)
      | STREAM_INSTALLLER => negb (status =? UpgradeStatus.INSTALLING)
      | _ => status =? UpgradeStatus.DOWNLOAD_SUCCESS
      end.
(*@ upgrade/flow/src/firmware_manager.cpp FirmwareManager::DoInstall *)
Definition DoInstall (upgradeOptions : UpgradeOptions.t) (businessError : BusinessError.t) (installType : InstallType) :
    Service BusinessError.t :=
  let* can := env_ CanInstall in
  if negb can then ret businessError
  else
    let* stream := env_ FirmwareUpdateHelper.IsStreamUpgrade in
    if stream : bool then
      let* mode := start StreamFlow (FirmwareStreamInstallApplyMode.new upgradeOptions businessError installType) in
      ret (FirmwareInstallApplyMode.businessError_ (FirmwareStreamInstallApplyMode.base mode))
    else
      let* mode := start InstallFlow (FirmwareInstallApplyMode.new upgradeOptions businessError installType) in
      ret (FirmwareInstallApplyMode.businessError_ mode).

(*@ upgrade/flow/src/firmware_manager.cpp FirmwareManager::DoAutoDownloadSwitchChanged *)
Definition DoAutoDownloadSwitchChanged (isDownloadSwitchOn : bool) : ST (World R E) unit :=
  on_env (FirmwarePreferencesUtil.SaveAutoDownloadSwitch isDownloadSwitchOn) ;;;
  let* task := Query in
  if negb (FirmwareTask.isExistTask task) then ret tt
  else if negb (FirmwareTask.status task =? UpgradeStatus.CHECK_VERSION_SUCCESS) then ret tt
  else when negb isDownloadSwitchOn do
    FirmwareCallbackUtils.NotifyEvent (FirmwareTask.taskId task) EventId.EVENT_DOWNLOAD_WAIT UpgradeStatus.CHECK_VERSION_SUCCESS
      ErrorMessage.default [] 0.
(*@ upgrade/flow/src/firmware_manager.cpp FirmwareManager::DoAutoUpgradeSwitchChanged *)
Definition DoAutoUpgradeSwitchChanged (isNightUpgradeSwitchOn : bool) : ST (World R E) unit :=
  on_env (FirmwarePreferencesUtil.SaveNightUpgradeSwitch isNightUpgradeSwitchOn) ;;;
  let* task := Query in
  if negb (FirmwareTask.isExistTask task) then ret tt
  else if negb isNightUpgradeSwitchOn then on_env CancelNightUpgradeAlarm
  else when FirmwareTask.status task =? UpgradeStatus.DOWNLOAD_SUCCESS do
    (FirmwareCallbackUtils.NotifyEvent (FirmwareTask.taskId task) EventId.EVENT_UPGRADE_WAIT (FirmwareTask.status task)
       ErrorMessage.default [] 0 ;;;
     on_env SetNightUpgradeAlarm).
(*@ upgrade/flow/src/firmware_manager.cpp FirmwareManager::DoClearError *)
Definition DoClearError (businessError : BusinessError.t) : ST (World R E) BusinessError.t :=
  let* task := Query in
  if negb (FirmwareTask.isExistTask task) then ret businessError
  else if negb (FirmwareUpdateHelper.IsUpgradeFailed (FirmwareTask.status task)) then
    ret (failed businessError "please check status before clear error" DUPDATE_ERR_UPDATE_COMMON_ERROR
           "please check status before clear error")
  else FirmwareUpdateHelper.ClearFirmwareInfo ;;; ret businessError.

(** The records of an installation that was cut off by a restart of the process. *)
(*@ upgrade/flow/src/firmware_manager.cpp:371-391 FirmwareManager::HandleBootInstallOnStatusProcess *)
Definition roll_back (task : FirmwareTask.t) : ST (World R E) unit :=
  let* stream := FirmwareUpdateHelper.IsStreamUpgrade in
  (if stream : bool
   then on_db (FirmwareTaskOperator.UpdateStatusByTaskId (FirmwareTask.taskId task) UpgradeStatus.INSTALL_PAUSE)
   else on_db (FirmwareTaskOperator.UpdateProgressByTaskId (FirmwareTask.taskId task) UpgradeStatus.DOWNLOAD_SUCCESS
                 Firmware.ONE_HUNDRED)) ;;;
  let* (_, firmwareComponentList) := on_db (FirmwareComponentOperator.QueryAll []) in
  for_each firmwareComponentList (λ component,
    when FirmwareComponent.status component =? UpgradeStatus.INSTALLING do
      (let* stream := FirmwareUpdateHelper.IsStreamUpgrade in
       (if stream : bool
        then on_db (FirmwareComponentOperator.UpdateStatusByUrl (FirmwareComponent.url component) UpgradeStatus.INSTALL_PAUSE)
        else on_db (FirmwareComponentOperator.UpdateProgressByUrl (FirmwareComponent.url component)
                      UpgradeStatus.DOWNLOAD_SUCCESS Firmware.ONE_HUNDRED)) ;;;
       ret tt)).
(** [upgradeOptions] with another order. *)
Definition with_order (order : Z) : UpgradeOptions.t :=
  {| UpgradeOptions.order := order |}.
(*@ upgrade/flow/src/firmware_manager.cpp FirmwareManager::HandleBootInstallOnStatusProcess *)
Definition HandleBootInstallOnStatusProcess (task : FirmwareTask.t) : Service unit :=
  env_ (roll_back task) ;;;
  let* installType := env_ FirmwareUpdateHelper.GetInstallType in
  DoInstall (with_order Order.INSTALL_AND_APPLY) BusinessError.default installType ;;; ret tt.
(*@ upgrade/flow/src/firmware_manager.cpp FirmwareManager::HandleBootDownloadOnStatusProcess *)
Definition HandleBootDownloadOnStatusProcess (task : FirmwareTask.t) : ST (World R E) unit :=
  on_db (FirmwareTaskOperator.UpdateStatusByTaskId (FirmwareTask.taskId task) UpgradeStatus.DOWNLOAD_PAUSE) ;;; ret tt.
(*@ upgrade/flow/src/firmware_manager.cpp FirmwareManager::HandleBootDownloadedStatusProcess *)
Definition HandleBootDownloadedStatusProcess (task : FirmwareTask.t) : ST (World R E) unit :=
  let* night := asks FirmwarePreferencesUtil.GetNightUpgradeSwitch in
  when (night : bool) do on_env SetNightUpgradeAlarm.
(*@ upgrade/flow/src/firmware_manager.cpp FirmwareManager::RestoreUpdate *)
Definition RestoreUpdate : Service unit :=
  let* firmwareTask := env_ Query in
  let status := FirmwareTask.status firmwareTask in
  if status =? UpgradeStatus.DOWNLOADING then env_ (HandleBootDownloadOnStatusProcess firmwareTask)
  else if status =? UpgradeStatus.DOWNLOAD_SUCCESS then env_ (HandleBootDownloadedStatusProcess firmwareTask)
  else when status =? UpgradeStatus.INSTALLING do HandleBootInstallOnStatusProcess firmwareTask.
(*@ upgrade/flow/src/firmware_manager.cpp FirmwareManager::NotifyInitEvent *)
Definition NotifyInitEvent : ST (World R E) unit :=
  let* dueInitFlag := asks (λ e, ObtainBool e Constant.DUE_INIT_FLAG false) in
  when negb dueInitFlag do
    (on_env (SaveBool Constant.DUE_INIT_FLAG true) ;;;
     FirmwareCallbackUtils.NotifyEvent "" EventId.EVENT_INITIALIZE UpgradeStatus.INIT ErrorMessage.default [] 0).
End ops.
End FirmwareManager.

(** ** The events of the device *)
Module FirmwareEventManager.
Section ops.
Context {R E : Type} `{Rdb R, Platform E, Sha256, Downloads E, Preferences E, Subscribers E, !InstallKits E, DownloadTasks E, CheckKits E,
  CheckCache E, RebootKits E, !ServiceKits E, UpgradeAlarms E, DeviceKits E, FileSystem E}.
#[local] Notation Service := (ST (Flows * World R E)).
#[local] Notation Query := (on_db (FirmwareTaskOperator.QueryTask FirmwareTask.default)).

(*@ upgrade/flow/src/firmware_event_manager.cpp FirmwareEventManager::DoAutoUpgrade *)
Definition DoAutoUpgrade (event : CommonEventType) : Service unit :=
  let* task := env_ Query in
  if FirmwareTask.isExistTask task && (FirmwareTask.status task =? UpgradeStatus.UPDATING) then ret tt
  else FirmwareManager.start AutoFlow (FirmwareAutoUpgradeMode.new event) ;;; ret tt.
(** [options], whose order is set, is not the object that is passed on. *)
(*@ upgrade/flow/src/firmware_event_manager.cpp FirmwareEventManager::DoNightUpgrade *)
Definition DoNightUpgrade : Service unit :=
  let* installType := env_ FirmwareUpdateHelper.GetInstallType in
  FirmwareManager.DoInstall UpgradeOptions.default BusinessError.default installType ;;; ret tt.
(*@ upgrade/flow/src/firmware_event_manager.cpp FirmwareEventManager::HandleNightUpgrade *)
Definition HandleNightUpgrade : Service unit :=
  let* night := env_ (asks FirmwarePreferencesUtil.GetNightUpgradeSwitch) in
  if negb night then ret tt
  else
    let* task := env_ Query in
    if negb (FirmwareTask.isExistTask task) then ret tt
    else if negb (FirmwareTask.status task =? UpgradeStatus.DOWNLOAD_SUCCESS) then ret tt
    else
      env_ (on_db (FirmwareTaskOperator.UpdateUpgradeModeByTaskId (FirmwareTask.taskId task) UpgradeMode.NIGHT)) ;;;
      DoNightUpgrade.
(*@ upgrade/flow/src/firmware_event_manager.cpp FirmwareEventManager::HandleResumeDownload *)
Definition HandleResumeDownload (task : FirmwareTask.t) : Service unit :=
  let downloadOptions := {| DownloadOptions.allowNetwork := FirmwareTask.downloadAllowNetwork task;
                            DownloadOptions.order := DownloadOptions.order DownloadOptions.default |} in
  let* mode := env_ (FirmwareDownloadMode.new downloadOptions BusinessError.default) in
  FirmwareManager.start DownloadFlow mode ;;; ret tt.
(*@ upgrade/flow/src/firmware_event_manager.cpp FirmwareEventManager::DoAutoDownload *)
Definition DoAutoDownload (task : FirmwareTask.t) : Service unit := HandleResumeDownload task.
(*@ upgrade/flow/src/firmware_event_manager.cpp FirmwareEventManager::HandleNetChanged *)
Definition HandleNetChanged : Service unit :=
  let* task := env_ Query in
  if negb (FirmwareTask.isExistTask task) then ret tt
  else
    let* net := env_ (asks (λ e, NetManager.IsNetAvailable (GetNetType e) (FirmwareTask.downloadAllowNetwork task))) in
    if negb net then ret tt
    else if FirmwareTask.status task =? UpgradeStatus.DOWNLOAD_PAUSE then HandleResumeDownload task
    else when FirmwareTask.status task =? UpgradeStatus.CHECK_VERSION_SUCCESS do
      (let* isDownloadSwitchOn := env_ (asks FirmwarePreferencesUtil.GetAutoDownloadSwitch) in
       when (isDownloadSwitchOn : bool) do DoAutoDownload task).

(** The version a component was updated to. *)
(*@ upgrade/flow/src/firmware_event_manager.cpp:212-219 FirmwareEventManager::HandleBootUpdateSuccess *)
Definition version_of (component : FirmwareComponent.t) : VersionComponent.t :=
  let d := VersionComponent.default in {|
  VersionComponent.componentId := FirmwareComponent.componentId component;
  VersionComponent.componentType := ComponentType.OTA;
  VersionComponent.upgradeAction := UpgradeAction.UPGRADE;
  VersionComponent.displayVersion := FirmwareComponent.targetBlDisplayVersionNumber component;
  VersionComponent.innerVersion := FirmwareComponent.targetBlVersionNumber component;
  VersionComponent.size := VersionComponent.size d; VersionComponent.effectiveMode := VersionComponent.effectiveMode d;
  VersionComponent.otaMode := VersionComponent.otaMode d; VersionComponent.descriptionInfo := VersionComponent.descriptionInfo d;
  VersionComponent.componentExtra := JsonBuilder.ToJson (JsonBuilder.Append JsonBuilder.new "{}") |}.
(*@ upgrade/flow/src/firmware_event_manager.cpp FirmwareEventManager::HandleBootUpdateSuccess *)
Definition HandleBootUpdateSuccess (task : FirmwareTask.t) : ST (World R E) unit :=
  on_env (SaveString Firmware.UPDATE_ACTION "upgrade") ;;;
  let* (_, components) := on_db (FirmwareComponentOperator.QueryAll []) in
  let versionComponents := map version_of components in
  FirmwareChangelogUtils.SaveHotaCurrentVersionComponentId ;;;
  when FirmwareTask.combinationType task =? CombinationType.HOTA do
    (FirmwareCallbackUtils.NotifyEvent (FirmwareTask.taskId task) EventId.EVENT_UPGRADE_SUCCESS UpgradeStatus.UPDATE_SUCCESS
       ErrorMessage.default versionComponents 0 ;;;
     FirmwareUpdateHelper.ClearFirmwareInfo).
(*@ upgrade/status/include/firmware_result_process.h UpdateComponentResultCode *)
Definition result_code (c : UpdateComponentResultCode) : Z :=
  match c with COMPONENT_SUCCESS => 0 | COMPONENT_FAILURE => 1 | COMPONENT_UNEXECUTED => 2 end.
(** The first failure, in the order in which the map is traversed. *)
(*@ upgrade/flow/src/firmware_event_manager.cpp:250-257 FirmwareEventManager::HandleBootUpdateFail *)
Definition first_failure (resultMap : gmap string UpdateResult.t) : ErrorMessage.t :=
  match List.find (λ result, String.eqb (UpdateResult.result result) UpdateResult.UPDATER_RESULT_FAILURE)
          (omap (λ k, resultMap !! k) (sorted_keys resultMap)) with
  | Some result => {| ErrorMessage.errorCode := result_code (UpdateResult.GetUpdateResultCode result);
                      ErrorMessage.errorMessage := UpdateResult.reason result |}
  | None => ErrorMessage.default
  end.
(*@ upgrade/flow/src/firmware_event_manager.cpp FirmwareEventManager::HandleBootUpdateFail *)
Definition HandleBootUpdateFail (task : FirmwareTask.t) (resultMap : gmap string UpdateResult.t) : ST (World R E) unit :=
  on_env (SaveString Firmware.UPDATE_ACTION "recovery") ;;;
  let* (_, components) := on_db (FirmwareComponentOperator.QueryAll []) in
  let versionComponents := map version_of components in
  FirmwareCallbackUtils.NotifyEvent (FirmwareTask.taskId task) EventId.EVENT_UPGRADE_FAIL UpgradeStatus.UPDATE_FAIL
    (first_failure resultMap) versionComponents 0 ;;;
  FirmwareUpdateHelper.ClearFirmwareInfo.
(*@ upgrade/status/src/firmware_result_process.cpp UPDATER_RESULT_FILE *)
Definition UPDATER_RESULT_FILE : string := "/data/updater/updater_result".
(** [false]: an exception of the parser leaves the function. *)
(*@ upgrade/flow/src/firmware_event_manager.cpp FirmwareEventManager::HandleBootUpdateOnStatusProcess *)
Definition HandleBootUpdateOnStatusProcess (task : FirmwareTask.t) : ST (World R E) bool :=
  let* (_, components) := on_db (FirmwareComponentOperator.QueryAll []) in
  let* file := asks (λ e, contents e UPDATER_RESULT_FILE) in
  let* displayVersion := asks DeviceAdapter.GetDisplayVersion in
  let* result := on_db (FirmwareResultProcess.GetUpdaterResult displayVersion file components ∅) in
  match result with
  | None => ret false
  | Some (RESULT_SUCCESS, _) => HandleBootUpdateSuccess task ;;; ret true
  | Some (RESULT_FAILURE, resultMap) => HandleBootUpdateFail task resultMap ;;; ret true
  | Some (RESULT_PART_SUCCESS, _) => ret true
  end.
(*@ upgrade/flow/src/firmware_event_manager.cpp FirmwareEventManager::HandleBootComplete *)
Definition HandleBootComplete : ST (World R E) bool :=
  let* task := Query in
  if negb (FirmwareTask.isExistTask task) then ret true
  else if FirmwareTask.status task =? UpgradeStatus.UPDATING then
    on_env (FirmwareUpgradeProcessor.ProcessAfterUpgrade task) ;;;
    HandleBootUpdateOnStatusProcess task
  else if FirmwareTask.status task =? UpgradeStatus.INSTALL_SUCCESS then
    on_env (FirmwareUpgradeProcessor.ProcessAfterUpgrade task) ;;;
    HandleBootUpdateSuccess task ;;; ret true
  else ret true.

(*@ upgrade/flow/src/firmware_event_manager.cpp FirmwareEventManager::DistributeEventBusiness *)
Definition DistributeEventBusiness (event : CommonEventType) : Service bool :=
  match event with
  | AUTO_UPGRADE => DoAutoUpgrade event ;;; ret true
  | NIGHT_UPGRADE => HandleNightUpgrade ;;; ret true
  | NET_CHANGED => HandleNetChanged ;;; ret true
  | BOOT_COMPLETE => env_ HandleBootComplete
  | _ => ret true
  end.
(*@ upgrade/flow/src/firmware_event_manager.cpp FirmwareEventManager::HandleEvent *)
Definition HandleEvent (event : CommonEventType) : Service bool :=
  env_ (on_env (RefreshAutoUpgradeAlarm_for event)) ;;;
  DistributeEventBusiness event.
(*@ upgrade/flow/src/firmware_event_manager.cpp FirmwareEventManager::DoCheckSuccessAutoDownload *)
Definition DoCheckSuccessAutoDownload (task : FirmwareTask.t) : ST (World R E) unit := ret tt.
End ops.
End FirmwareEventManager.

(** ** The start of the firmware service *)
Module FirmwareService.
(** The singletons the start touches, and the flows. *)
Record t := { configInfo_ : ConfigParse.ConfigInfo; baseDirMap_ : gmap string Z; flows_ : Flows }.
Definition set_config (c : ConfigParse.ConfigInfo) (this : t) : t := {|
  configInfo_ := c; baseDirMap_ := baseDirMap_ this; flows_ := flows_ this |}.
Section ops.
Context {R E J : Type} `{Rdb R, Platform E, Sha256, Downloads E, Preferences E, Subscribers E, !InstallKits E, DownloadTasks E, CheckKits E,
  CheckCache E, RebootKits E, !ServiceKits E, UpgradeAlarms E, DeviceKits E, FileSystem E, CJson J, NetEvents E, !AbilityKits E}.
#[local] Notation Op := (ST (t * World R E)).

(** The manager's methods on the flows, and what the file utilities do to their map. *)
Definition flows {A} (m : ST (Flows * World R E) A) : Op A := λ s,
  let (a, x) := m (flows_ s.1, s.2) in
  (a, ({| configInfo_ := configInfo_ s.1; baseDirMap_ := baseDirMap_ s.1; flows_ := x.1 |}, x.2)).
Definition dirs {A} (m : ST (gmap string Z * E) A) : Op A := λ s,
  let (a, x) := m (baseDirMap_ s.1, FirmwareWorld.World.env s.2) in
  (a, ({| configInfo_ := configInfo_ s.1; baseDirMap_ := x.1; flows_ := flows_ s.1 |},
       exec (on_env (λ _, (tt, x.2))) s.2)).

(*@ firmware/event/src/firmware_event_listener.cpp:44-44 FirmwareEventListener::RegisterNetChangedListener *)
Definition on_NetChanged (netType : Z) : ST (Flows * World R E) bool := FirmwareEventManager.HandleEvent NET_CHANGED.
(*@ upgrade/flow/src/firmware_manager.cpp FirmwareManager::RegisterAllListeners *)
Definition RegisterAllListeners : ST (Flows * World R E) unit := env_ (on_env RegisterNetChangedListener).
(** Five seconds pass before the event after a start of the device. *)
(*@ upgrade/flow/src/firmware_manager.cpp FirmwareManager::DelayInit *)
Definition DelayInit (startupReason : Z) : ST (Flows * World R E) bool :=
  FirmwareManager.RestoreUpdate ;;;
  RegisterAllListeners ;;;
  let eventType := if startupReason =? StartupReason.DEVICE_REBOOT then BOOT_COMPLETE else PROCESS_INIT in
  env_ FirmwareManager.NotifyInitEvent ;;;
  FirmwareEventManager.HandleEvent eventType.
(** [DelayInit] runs on a thread of its own. *)
(*@ upgrade/flow/src/firmware_manager.cpp FirmwareManager::Init *)
Definition Init (startupReason : Z) : Op bool :=
  (λ s, (tt, (set_config (ConfigParse.LoadConfigInfo (FirmwareWorld.World.env s.2) (configInfo_ s.1)) s.1, s.2))) ;;;
  (when startupReason =? StartupReason.PROCESS_ENV_RESET do
    (env_ (on_env (Files.FileUtils.DestroyBaseDirectory FIRMWARE_DIR_INFOS)) ;;;
     env_ (on_env RemoveAllKeys) ;;;
     env_ (on_db SqliteDb.DeleteDbStore) ;;; ret tt)) ;;;
  dirs (Files.FileUtils.InitAndCreateBaseDirs FIRMWARE_DIR_INFOS) ;;;
  flows (DelayInit startupReason).

(*@ startup/access/src/firmware_access.cpp:42-54 FirmwareAccess *)
Definition access : IAccess.t (t * World R E) := {|
  IAccess.IsIdle := env_ FirmwareManager.IsIdle;
  IAccess.GetScheduleTasks := env_ (asks FirmwareManager.GetScheduleTasks);
  IAccess.Exit := ret FirmwareManager.Exit |}.
(*@ startup/access/src/firmware_access.cpp FirmwareAccess::Init *)
Definition FirmwareAccess_Init (startupReason : Z) : ST (AccessManager.t (t * World R E) * (t * World R E)) unit :=
  env_ (Init startupReason) ;;;
  set_own (λ manager, (AccessManager.Register AccessType.FIRMWARE (Some access) manager).2).

(*@ firmware/alarm/src/firmware_auto_upgrade_alarm_manager.cpp FirmwareAutoUpgradeAlarmManager::CheckAndHandleAutoUpgradeAlarm *)
Definition CheckAndHandleAutoUpgradeAlarm : ST (Flows * World R E) bool := FirmwareEventManager.HandleEvent AUTO_UPGRADE.
(*@ firmware/alarm/src/firmware_night_upgrade_alarm_manager.cpp FirmwareNightUpgradeAlarmManager::OnNightUpgradeTimeUp *)
Definition OnNightUpgradeTimeUp : ST (Flows * World R E) bool := FirmwareEventManager.HandleEvent NIGHT_UPGRADE.
End ops.
End FirmwareService.

(** ** The classes of the modes, implemented *)

(** The cache and the two managers of alarms, beside the environment they use. *)
Module Singletons.
Record t := {
  status_cache : StatusCache.t;
  auto_alarm : FirmwareAutoUpgradeAlarmManager.t;
  night_alarm : NightUpgradeAlarmManager.t FirmwareNightUpgradeAlarmManager.Callback
}.
Definition initial : t := {|
  status_cache := StatusCache.initial; auto_alarm := {| FirmwareAutoUpgradeAlarmManager.autoTimerId_ := 0 |};
  night_alarm := NightUpgradeAlarmManager.initial |}.
Section ops.
Context {E : Type}.
Definition on_cache {A} (m : ST (StatusCache.t * E) A) : ST (t * E) A := λ s,
  let (a, x) := m (status_cache s.1, s.2) in
  (a, ({| status_cache := x.1; auto_alarm := auto_alarm s.1; night_alarm := night_alarm s.1 |}, x.2)).
Definition on_auto {A} (m : ST (FirmwareAutoUpgradeAlarmManager.t * E) A) : ST (t * E) A := λ s,
  let (a, x) := m (auto_alarm s.1, s.2) in
  (a, ({| status_cache := status_cache s.1; auto_alarm := x.1; night_alarm := night_alarm s.1 |}, x.2)).
Definition on_night {A} (m : ST (NightUpgradeAlarmManager.t FirmwareNightUpgradeAlarmManager.Callback * E) A) : ST (t * E) A := λ s,
  let (a, x) := m (night_alarm s.1, s.2) in
  (a, ({| status_cache := status_cache s.1; auto_alarm := auto_alarm s.1; night_alarm := x.1 |}, x.2)).
#[export] Instance check_cache `{Platform E} : CheckCache (t * E) := {
  IsChecking s := FirmwareStatusCache.IsChecking (status_cache s.1, s.2);
  SetIsChecking b := on_cache (FirmwareStatusCache.SetIsChecking b)
}.
#[export] Instance upgrade_alarms `{Platform E, Preferences E, !TimeService E, DeviceKits E, Calendar} : UpgradeAlarms (t * E) := {
  RefreshAutoUpgradeAlarm := on_auto FirmwareAutoUpgradeAlarmManager.RefreshAutoUpgradeAlarm;
  RefreshAutoUpgradeAlarm_for ev := on_auto (FirmwareAutoUpgradeAlarmManager.RefreshAutoUpgradeAlarm_for ev);
  SetNightUpgradeAlarm := on_night FirmwareNightUpgradeAlarmManager.SetNightUpgradeAlarm;
  CancelNightUpgradeAlarm := on_night FirmwareNightUpgradeAlarmManager.CancelNightUpgradeAlarm
}.
End ops.
End Singletons.

(** ** What the requests and the events do *)

(** A loop that updates the rows a component selects, for every component of a list. *)
Section update_each.
Context {R E : Type} `{RdbLaws R}.
Implicit Types (w : World R E) (ts : list FirmwareTask.t) (cs : list FirmwareComponent.t).
Context (sel : FirmwareComponent.t → FirmwareComponent.t → bool) (upd : FirmwareComponent.t → FirmwareComponent.t).

Lemma wp_update_each (body : FirmwareComponent.t → ST (World R E) unit) (goes : list FirmwareComponent.t → Prop) l w ts cs e o Q :
  (∀ c w cs Q, at_state w ts cs e o → goes cs →
     (∀ w', at_state w' ts (update_where (sel c) upd cs) e o → goes (update_where (sel c) upd cs) → Q tt w') → wp (body c) w Q) →
  at_state w ts cs e o → goes cs →
  (∀ w', at_state w' ts (fold_left (λ cs c, update_where (sel c) upd cs) l cs) e o → Q tt w') →
  wp (for_each l body) w Q.
Proof.
  intros Hb. revert w cs. induction l as [|c l IH]; intros w cs Hw Hg HQ; cbn [for_each fold_left] in *; [by apply wp_ret, HQ|].
  apply wp_bind. eapply Hb; [exact Hw|exact Hg|]. intros w' Hw' Hg'. by eapply IH.
Qed.
Lemma update_where_each l cs :
  (∀ c x, sel c (upd x) = sel c x) → (∀ x, upd (upd x) = upd x) →
  fold_left (λ cs c, update_where (sel c) upd cs) l cs = update_where (λ x, existsb (λ c, sel c x) l) upd cs.
Proof.
  intros Hs Hu. revert cs. induction l as [|c l IH]; intros cs; cbn [fold_left existsb].
  { unfold update_where. by rewrite map_id. }
  rewrite IH. unfold update_where. rewrite map_map. apply map_ext. intros x.
  destruct (sel c x) eqn:Ec; cbn [orb]; [|done]. destruct (existsb _ l); by rewrite ?Hu.
Qed.
End update_each.

Section requests.
Context {R E : Type} `{RdbLaws R, Platform E, Sha256, Downloads E, Preferences E, Subscribers E, !InstallKits E, DownloadTasks E, CheckKits E,
  CheckCache E, RebootKits E, !ServiceKits E, UpgradeAlarms E, DeviceKits E, FileSystem E}.
Implicit Types (w : World R E) (ts : list FirmwareTask.t) (cs : list FirmwareComponent.t).

Lemma queried_status task t ts : FirmwareTask.status (queried task (t :: ts)) = FirmwareTask.status t.
Proof. done. Qed.
Lemma queried_id task t ts : FirmwareTask.taskId (queried task (t :: ts)) = FirmwareTask.taskId t.
Proof. done. Qed.
Lemma queried_exists task t ts : FirmwareTask.isExistTask (queried task (t :: ts)) = true.
Proof. done. Qed.

(** *** Cancelling a download *)

(** A status a cancellation is accepted in. *)
Definition cancellable (st : Z) : bool :=
  (st =? UpgradeStatus.DOWNLOADING) || (st =? UpgradeStatus.DOWNLOAD_SUCCESS) || (st =? UpgradeStatus.DOWNLOAD_PAUSE).
(** The answer of the download manager, which is asked about a running download. *)
Definition cancelled t (e : E) : DownloadError.t * E :=
  if FirmwareTask.status t =? UpgradeStatus.DOWNLOADING
  then CancelTask (FirmwareTask.downloadTaskId t) DownloadError.default true e else (DownloadError.default, e).
Definition back_to_start (x : FirmwareComponent.t) : FirmwareComponent.t :=
  Component.with_progress UpgradeStatus.CHECK_VERSION_SUCCESS 0 x.

(** C9: Cancelling refuses without a task, and with a task that is not downloading,
    paused or downloaded, and then changes nothing.  Otherwise a running download is
    cancelled, the task and every component go back to the state after the check and the
    download is forgotten - also when the download manager refuses, whose error the
    caller gets. *)
Theorem cancel_outcome be w ts cs e o :
  at_state w ts cs e o →
  wp (FirmwareManager.DoCancel be) w (λ be' w',
    match ts with
    | t :: _ =>
        if cancellable (FirmwareTask.status t) then
          at_state w' (update_where (task_is (FirmwareTask.taskId t)) (Task.with_progress UpgradeStatus.CHECK_VERSION_SUCCESS 0) ts)
            (map back_to_start cs) (exec (RemoveTask (FirmwareTask.downloadTaskId t)) (cancelled t e).2) o ∧
          be' = if decide (DownloadError.errorNum (cancelled t e).1 = CALL_SUCCESS) then be
                else FirmwareManager.failed be "cancel download error!" (DownloadError.endReason (cancelled t e).1) "cancel download error!"
        else
          at_state w' ts cs e o ∧
          be' = FirmwareManager.failed be "download task status invalid" DUPDATE_ERR_DOWNLOAD_COMMON_ERROR "download task status invalid!"
    | [] =>
        at_state w' ts cs e o ∧
        be' = FirmwareManager.failed be "no download task to cancel!" DUPDATE_ERR_DOWNLOAD_COMMON_ERROR "no download task to cancel!"
    end).
Proof.
  intros Hw. unfold FirmwareManager.DoCancel. wp_step. wp_step.
  destruct ts as [|t ts]; [by apply wp_ret|]. rewrite queried_exists, queried_status, queried_id. cbn [negb].
  set (st := FirmwareTask.status t) in *.
  assert (negb (st =? UpgradeStatus.DOWNLOADING) && negb (st =? UpgradeStatus.DOWNLOAD_SUCCESS) &&
          negb (st =? UpgradeStatus.DOWNLOAD_PAUSE) = negb (cancellable st)) as ->
    by (unfold cancellable; by rewrite !negb_orb).
  destruct (cancellable st); cbn [negb]; [|by apply wp_ret].
  apply wp_bind. apply (wp_mono _ _ (λ be' w', at_state w' (t :: ts) cs (cancelled t e).2 o ∧ be' =
     if decide (DownloadError.errorNum (cancelled t e).1 = CALL_SUCCESS) then be
     else FirmwareManager.failed be "cancel download error!" (DownloadError.endReason (cancelled t e).1) "cancel download error!")).
  2: { unfold cancelled. fold st. case_if; [|apply wp_ret; case_decide; done]. wp_step. wp_step. apply wp_ret.
       split; [done|]. unfold eval. rewrite bool_decide_decide. by repeat case_decide. }
  intros be' w1 [Hw1 ->]. wp_step. wp_step. wp_step. wp_step.
  apply wp_bind. eapply (wp_update_each (λ c, version_is (FirmwareComponent.versionId c)) back_to_start _ (λ _, True));
    [|eassumption|done|].
  - intros c w3 cs3 Q Hw3 _ HQ. apply wp_bind. eapply wp_component_update; [|exact Hw3|intros w4 Hw4; apply wp_ret; by apply HQ].
    apply component_UpdateProgressByVersionId; by apply is_int32_closed.
  - intros w3 Hw3. wp_step. wp_step. apply wp_ret. split; [|done].
    rewrite update_where_each in * by done.
    replace (map back_to_start cs) with (update_where (λ x, existsb (λ c, version_is (FirmwareComponent.versionId c) x) cs) back_to_start cs); [done|].
    unfold update_where. apply map_ext_in. intros x Hx.
    rewrite (proj2 (existsb_exists _ _)); [done|]. exists x. split; [done|]. apply String.eqb_refl.
Qed.

(** *** The first start after an update *)
Section boot.
Import FirmwareEventManager.
Lemma exec_HandleFileResults dv m comps (x : SqliteDb.t R) :
  exec (FirmwareResultProcess.HandleFileResults dv m comps) x = exec (FirmwareTaskOperator.QueryTask FirmwareTask.default) x.
Proof.
  unfold FirmwareResultProcess.HandleFileResults. rewrite exec_bind. case_if; [done|].
  destruct (FirmwareResultProcess.HandleFileResults_loop _ _ _ _). by repeat case_if.
Qed.

(** [m'] is what the update left for each component: no records without components,
    otherwise the records of the file, completed. *)
Definition update_results (e : E) cs (m' : gmap string UpdateResult.t) : Prop :=
  let dv := DeviceAdapter.GetDisplayVersion e in
  match cs with
  | [] => m' = ∅
  | _ => ∃ m0, recorded dv (contents e UPDATER_RESULT_FILE) cs m0 ∧ completes dv cs m0 m'
  end.
Definition updated cs (m' : gmap string UpdateResult.t) : bool := bool_decide (cs ≠ [] ∧ Forall (passed m') cs).

Lemma wp_GetUpdaterResult w t ts cs e o (Q : option (UpdateResultCode * gmap string UpdateResult.t) → World R E → Prop) :
  at_state w (t :: ts) cs e o →
  (∀ w' m', at_state w' (t :: ts) cs e o → update_results e cs m' →
     Q (Some (if updated cs m' then RESULT_SUCCESS else RESULT_FAILURE, m')) w') →
  wp (on_db (FirmwareResultProcess.GetUpdaterResult (DeviceAdapter.GetDisplayVersion e) (contents e UPDATER_RESULT_FILE) cs ∅)) w Q.
Proof.
  intros (Hr & Ht & Hc & He & Ho) HQ. apply wp_on_db.
  destruct (QueryTask_correct _ _ FirmwareTask.default Hr Ht) as (_ & Hr' & Hrows).
  unfold FirmwareResultProcess.GetUpdaterResult, update_results, updated in *. destruct cs as [|c cs].
  { specialize (λ w' Hw', HQ w' ∅ Hw' eq_refl) as HQ0. rewrite bool_decide_false in HQ0 by naive_solver. by apply HQ0. }
  set (dv := DeviceAdapter.GetDisplayVersion e) in *. set (all := c :: cs) in *.
  assert (∀ m0, recorded dv (contents e UPDATER_RESULT_FILE) all m0 →
    let m := (let* r := FirmwareResultProcess.HandleFileResults dv m0 all in ret (Some r)) in
    Q (eval m (World.db w)) {| World.db := exec m (World.db w); World.env := World.env w; World.outbox := World.outbox w |}) as Hm.
  { intros m0 Hm0. cbv zeta. rewrite exec_bind, eval_bind, exec_ret, eval_ret, exec_HandleFileResults.
    destruct (HandleFileResults_correct dv m0 all _ _ Hr Ht) as (m' & code & -> & Hcomp & ->); [done|].
    replace (if decide (Forall (passed m') all) then RESULT_SUCCESS else RESULT_FAILURE)
      with (if bool_decide (all ≠ [] ∧ Forall (passed m') all) then RESULT_SUCCESS else RESULT_FAILURE)
      by (rewrite bool_decide_decide; repeat case_decide; naive_solver).
    apply HQ; [|by exists m0]. split_and!; [done|..|done|done]; unfold holds; cbn; by rewrite Hrows. }
  unfold recorded in Hm. destruct (contents e UPDATER_RESULT_FILE) as [file|]; [|by apply Hm].
  destruct (ParseRecords_total (FirmwareResultProcess.file_lines [] (chars file)) ∅) as [m0 Hm0]. rewrite Hm0. by apply Hm.
Qed.

(** The event that ends an update. *)
Definition end_of_update t cs (ok : bool) (m' : gmap string UpdateResult.t) : Message :=
  notification (BaseCallbackUtils.notify_event (FirmwareTask.taskId t)
    (if ok then EventId.EVENT_UPGRADE_SUCCESS else EventId.EVENT_UPGRADE_FAIL)
    (if ok then UpgradeStatus.UPDATE_SUCCESS else UpgradeStatus.UPDATE_FAIL)
    (if ok then ErrorMessage.default else first_failure m') (map version_of cs) 0).
(** The bell that was turned off for a nightly upgrade. *)
Definition bell_restored t (e : E) : E :=
  if (FirmwareTask.upgradeMode t =? UpgradeMode.NIGHT) && FirmwarePreferencesUtil.GetBellStatus e && BellUtils.IsSupported
  then exec FirmwarePreferencesUtil.RemoveBellStatus (exec BellUtils.TurnOnBell e) else e.
Lemma ProcessAfterUpgrade_exec t e : exec (FirmwareUpgradeProcessor.ProcessAfterUpgrade (FirmwareTaskOperator.set_isExistTask true t)) e = bell_restored t e.
Proof.
  unfold FirmwareUpgradeProcessor.ProcessAfterUpgrade, FirmwareUpgradeProcessor.HandleAfterNightUpgrade, bell_restored.
  change (FirmwareTask.upgradeMode (FirmwareTaskOperator.set_isExistTask true t)) with (FirmwareTask.upgradeMode t).
  destruct (_ =? _); cbn [negb andb]; [|done]. unfold gets, bind, exec. cbn [fst snd].
  destruct (FirmwarePreferencesUtil.GetBellStatus e); cbn [negb andb]; [|done]. destruct BellUtils.IsSupported; cbn [negb]; [|done].
  destruct (BellUtils.TurnOnBell e) as [a e1]. cbn [snd]. by destruct (FirmwarePreferencesUtil.RemoveBellStatus e1).
Qed.
(** The preferences after it: the action, and the component a new version was installed of. *)
Definition remembered t cs (ok : bool) (e : E) : E :=
  let e := bell_restored t e in
  let e := exec (SaveString Firmware.UPDATE_ACTION (if ok then "upgrade" else "recovery")) e in
  match List.find (λ c, FirmwareComponent.versionPackageType c =? PackageType.NORMAL) cs with
  | Some c => if ok then exec (SaveString Firmware.HOTA_CURRENT_COMPONENT_ID (FirmwareComponent.componentId c)) e else e
  | None => e
  end.

Lemma wp_HandleBootUpdateSuccess t w ts cs e o (Q : unit → World R E → Prop) :
  at_state w ts cs e o →
  let e1 := exec (SaveString Firmware.UPDATE_ACTION "upgrade") e in
  let e2 := match List.find (λ c, FirmwareComponent.versionPackageType c =? PackageType.NORMAL) cs with
            | Some c => exec (SaveString Firmware.HOTA_CURRENT_COMPONENT_ID (FirmwareComponent.componentId c)) e1
            | None => e1
            end in
  (∀ w', (if FirmwareTask.combinationType t =? CombinationType.HOTA
          then at_state w' [] [] (cleared ts e2) (o ++ [end_of_update t cs true ∅]) else at_state w' ts cs e2 o) → Q tt w') →
  wp (HandleBootUpdateSuccess t) w Q.
Proof.
  intros Hw e1 e2 HQ. unfold HandleBootUpdateSuccess. wp_step. wp_step. wp_step. wp_step.
  apply wp_bind. apply (wp_mono _ _ (λ _ w', at_state w' ts cs e2 o)).
  - intros [] w1 Hw1. case_if; [|by apply wp_ret, HQ]. wp_step. wp_step.
    eapply wp_ClearFirmwareInfo; [eassumption|]. intros w2 Hw2. by apply HQ.
  - unfold FirmwareChangelogUtils.SaveHotaCurrentVersionComponentId. wp_step. wp_step.
    unfold e2. destruct (List.find _ cs); [|by apply wp_ret]. wp_step. wp_step. by apply wp_ret.
Qed.

(** C7: The first start after an update.  Without a stored version, and unless its task is in the state of updating or, on a device with two systems,
    of a successful installation, nothing happens.  Otherwise the decision is always reached: after an installation it is a success, after an
    update it is one when every component has a passing record.  The bell of a nightly upgrade is restored and the outcome is
    remembered.  Then exactly one event is sent, success or failure with the first failed record as its error, and the stored version is cleared
    with its files; only after a success of a task that is not of the combination HOTA neither happens: the task stays as it is. *)
Theorem boot_update_outcome w ts cs e o :
  at_state w ts cs e o →
  wp HandleBootComplete w (λ handled w', handled = true ∧
    let ended t (ok : bool) m' :=
      let e' := remembered t cs ok e in
      if ok && negb (FirmwareTask.combinationType t =? CombinationType.HOTA) then at_state w' ts cs e' o
      else at_state w' [] [] (cleared ts e') (o ++ [end_of_update t cs ok m']) in
    match ts with
    | [] => at_state w' ts cs e o
    | t :: _ =>
        if FirmwareTask.status t =? UpgradeStatus.UPDATING
        then ∃ m', update_results (bell_restored t e) cs m' ∧ ended t (updated cs m') m'
        else if FirmwareTask.status t =? UpgradeStatus.INSTALL_SUCCESS then ended t true ∅
        else at_state w' ts cs e o
    end).
Proof.
  intros Hw. unfold HandleBootComplete. wp_step. wp_step. destruct ts as [|t ts].
  { change (FirmwareTask.isExistTask (queried FirmwareTask.default [])) with false. by apply wp_ret. }
  rewrite queried_exists, queried_status. cbn [negb].
  destruct (FirmwareTask.status t =? UpgradeStatus.UPDATING); [|destruct (FirmwareTask.status t =? UpgradeStatus.INSTALL_SUCCESS)].
  - wp_step. wp_step. unfold HandleBootUpdateOnStatusProcess. wp_step. wp_step. wp_step. wp_step. wp_step. wp_step.
    cbn [queried] in *. rewrite ProcessAfterUpgrade_exec in *.
    apply wp_bind. eapply wp_GetUpdaterResult; [eassumption|]. intros w1 m' Hw1 Hm'. cbv iota.
    unfold remembered. destruct (updated cs m') eqn:Eu; cbv iota.
    + apply wp_bind. eapply wp_HandleBootUpdateSuccess; [exact Hw1|]. cbv zeta. intros w2 Hw2. apply wp_ret. split; [done|].
      exists m'. split; [done|]. rewrite Eu. change (FirmwareTask.combinationType (FirmwareTaskOperator.set_isExistTask true t)) with (FirmwareTask.combinationType t) in Hw2.
      cbn [andb]. destruct (FirmwareTask.combinationType t =? _); exact Hw2.
    + unfold HandleBootUpdateFail. wp_steps.
      eapply wp_ClearFirmwareInfo; [eassumption|]. intros w2 Hw2. apply wp_ret. split; [done|]. exists m'. rewrite Eu.
      split; [done|]. cbn [andb]. destruct (List.find _ cs); exact Hw2.
  - wp_step. wp_step. cbn [queried] in *. rewrite ProcessAfterUpgrade_exec in *.
    apply wp_bind. eapply wp_HandleBootUpdateSuccess; [eassumption|]. cbv zeta. intros w2 Hw2. apply wp_ret. split; [done|].
    change (FirmwareTask.combinationType (FirmwareTaskOperator.set_isExistTask true t)) with (FirmwareTask.combinationType t) in Hw2.
    unfold remembered. cbn [andb]. destruct (FirmwareTask.combinationType t =? _); exact Hw2.
  - by apply wp_ret.
Qed.
End boot.

(** *** A restart in the middle of something *)

(** The record of an installation that was cut off: paused in a stream installation,
    otherwise downloaded. *)
Definition task_rolled_back (stream : bool) (t : FirmwareTask.t) : FirmwareTask.t :=
  if stream then Task.with_status UpgradeStatus.INSTALL_PAUSE t
  else Task.with_progress UpgradeStatus.DOWNLOAD_SUCCESS Firmware.ONE_HUNDRED t.
Definition component_rolled_back (stream : bool) (c : FirmwareComponent.t) : FirmwareComponent.t :=
  if stream then Component.with_status UpgradeStatus.INSTALL_PAUSE c
  else Component.with_progress UpgradeStatus.DOWNLOAD_SUCCESS Firmware.ONE_HUNDRED c.
(** The components whose url is that of one being installed. *)
Definition installing_urls cs (c : FirmwareComponent.t) : bool :=
  existsb (λ c', (FirmwareComponent.status c' =? UpgradeStatus.INSTALLING) && url_is (FirmwareComponent.url c') c) cs.

#[local] Notation stream := FirmwareUpdateHelper.IsStreamUpgrade_list.
Lemma stream_update_where sel upd cs :
  (∀ c, FirmwareComponent.otaType (upd c) = FirmwareComponent.otaType c) → stream (update_where sel upd cs) = stream cs.
Proof. intros Hu. destruct cs as [|c cs]; cbn; [done|]. by destruct (sel c); rewrite ?Hu. Qed.
Lemma component_rolled_back_same b c :
  FirmwareComponent.otaType (component_rolled_back b c) = FirmwareComponent.otaType c ∧
  FirmwareComponent.url (component_rolled_back b c) = FirmwareComponent.url c ∧
  component_rolled_back b (component_rolled_back b c) = component_rolled_back b c.
Proof. by destruct b. Qed.
Lemma wp_IsStreamUpgrade w ts cs e o (Q : bool → World R E → Prop) :
  at_state w ts cs e o → (∀ w', at_state w' ts cs e o → Q (stream cs) w') → wp FirmwareUpdateHelper.IsStreamUpgrade w Q.
Proof. intros Hw HQ. unfold FirmwareUpdateHelper.IsStreamUpgrade. wp_steps. by apply HQ. Qed.

Lemma wp_roll_back task w ts cs e o (Q : unit → World R E → Prop) :
  at_state w ts cs e o →
  (∀ w', at_state w' (update_where (task_is (FirmwareTask.taskId task)) (task_rolled_back (stream cs)) ts)
           (update_where (installing_urls cs) (component_rolled_back (stream cs)) cs) e o → Q tt w') →
  wp (FirmwareManager.roll_back task) w Q.
Proof.
  intros Hw HQ. unfold FirmwareManager.roll_back. apply wp_bind. eapply wp_IsStreamUpgrade; [exact Hw|]. intros w1 Hw1.
  set (b := stream cs) in *.
  apply wp_bind, (wp_mono _ _ (λ _ w', at_state w' (update_where (task_is (FirmwareTask.taskId task)) (task_rolled_back b) ts) cs e o)).
  2: { unfold task_rolled_back. destruct b; wp_step; assumption. }
  intros _ w2 Hw2. wp_step. wp_step.
  eapply (wp_update_each (λ c x, (FirmwareComponent.status c =? UpgradeStatus.INSTALLING) && url_is (FirmwareComponent.url c) x)
            (component_rolled_back b) _ (λ cs', stream cs' = b)); [|eassumption|done|].
  - intros c w4 cs4 Q4 Hw4 Hb HQ4. destruct (FirmwareComponent.status c =? UpgradeStatus.INSTALLING) eqn:Ec; cbn [andb] in *.
    + apply wp_bind. eapply wp_IsStreamUpgrade; [exact Hw4|]. intros w5 Hw5. rewrite Hb in *. apply wp_bind.
      apply (wp_mono _ _ (λ _ w', at_state w' (update_where (task_is (FirmwareTask.taskId task)) (task_rolled_back b) ts)
               (update_where (url_is (FirmwareComponent.url c)) (component_rolled_back b) cs4) e o)).
      2: { unfold component_rolled_back. destruct b; wp_step; assumption. }
      intros _ w6 Hw6. apply wp_ret, HQ4; [exact Hw6|].
      rewrite stream_update_where; [done|]. intros x. apply component_rolled_back_same.
    + apply wp_ret. unfold update_where in HQ4. rewrite map_id in HQ4. by apply HQ4.
  - intros w4 Hw4. rewrite update_where_each in Hw4; [by apply HQ| |].
    + intros c x. unfold url_is. destruct (component_rolled_back_same b x) as (_ & -> & _). done.
    + intros x. apply component_rolled_back_same.
Qed.

(** The installation that is started again; a stream can only be resumed with A/B slots. *)
Definition reinstall (b : bool) (installType : InstallType) : ST (Flows * World R E) unit :=
  let options := FirmwareManager.with_order Order.INSTALL_AND_APPLY in
  if b && bool_decide (installType = UPDATER) then ret tt
  else if b then FirmwareManager.start StreamFlow (FirmwareStreamInstallApplyMode.new options BusinessError.default installType) ;;; ret tt
  else FirmwareManager.start InstallFlow (FirmwareInstallApplyMode.new options BusinessError.default installType) ;;; ret tt.

(** C8: A restart of the service leaves nothing under way in the records: a download is
    paused, a finished download gets its night again if upgrades happen at night, and an
    installation is rolled back - task and components - and started anew in one flow, of
    the kind the components ask for (a stream that finds no A/B slots stays paused);
    anything else is left as it is. *)
Theorem restart_restores s t ts cs e o :
  at_state s.2 (t :: ts) cs e o →
  let b := stream cs in
  wp (FirmwareManager.RestoreUpdate (R := R) (E := E)) s (λ _ s',
    if FirmwareTask.status t =? UpgradeStatus.DOWNLOADING then
      s'.1 = s.1 ∧
      at_state s'.2 (update_where (task_is (FirmwareTask.taskId t)) (Task.with_status UpgradeStatus.DOWNLOAD_PAUSE) (t :: ts)) cs e o
    else if FirmwareTask.status t =? UpgradeStatus.DOWNLOAD_SUCCESS then
      s'.1 = s.1 ∧
      at_state s'.2 (t :: ts) cs (if FirmwarePreferencesUtil.GetNightUpgradeSwitch e then exec SetNightUpgradeAlarm e else e) o
    else if FirmwareTask.status t =? UpgradeStatus.INSTALLING then
      ∃ w, at_state w (update_where (task_is (FirmwareTask.taskId t)) (task_rolled_back b) (t :: ts))
             (update_where (installing_urls cs) (component_rolled_back b) cs) e o ∧
           s' = exec (reinstall b (install_type cs e)) (s.1, w)
    else s'.1 = s.1 ∧ at_state s'.2 (t :: ts) cs e o).
Proof.
  intros Hw b. unfold FirmwareManager.RestoreUpdate. apply wp_bind, wp_env_. wp_step. rewrite queried_status.
  case_if; [|case_if; [|case_if]].
  - apply wp_env_. unfold FirmwareManager.HandleBootDownloadOnStatusProcess. wp_step. wp_step. by apply wp_ret.
  - apply wp_env_. unfold FirmwareManager.HandleBootDownloadedStatusProcess. wp_step. wp_step.
    destruct (FirmwarePreferencesUtil.GetNightUpgradeSwitch e); [|by apply wp_ret]. wp_step. done.
  - unfold FirmwareManager.HandleBootInstallOnStatusProcess. apply wp_bind, wp_env_.
    eapply wp_roll_back; [eassumption|]. rewrite queried_id. fold b. intros w2 Hw2. cbn [fst snd].
    assert (stream (update_where (installing_urls cs) (component_rolled_back b) cs) = b) as Hb
      by (apply stream_update_where; intros c; apply component_rolled_back_same).
    assert (install_type (update_where (installing_urls cs) (component_rolled_back b) cs) e =
            install_type cs e) as Hi by (unfold install_type; by rewrite Hb).
    apply wp_bind, wp_env_. eapply wp_GetInstallType; [exact Hw2|]. intros w3 Hw3. rewrite Hi. cbn [fst snd].
    apply wp_bind. unfold FirmwareManager.DoInstall. apply wp_bind, wp_env_. unfold FirmwareManager.CanInstall.
    wp_step. wp_step. apply wp_bind. eapply wp_GetInstallType; [eassumption|]. intros w5 Hw5. rewrite Hi. apply wp_ret. cbn [fst snd].
    assert (FirmwareTask.status (queried FirmwareTask.default
              (update_where (task_is (FirmwareTask.taskId t)) (task_rolled_back b) (t :: ts))) =
            if b then UpgradeStatus.INSTALL_PAUSE else UpgradeStatus.DOWNLOAD_SUCCESS) as ->.
    { unfold update_where. cbn [map]. unfold task_is at 1. rewrite String.eqb_refl. by destruct b. }
    assert (Hset : install_type cs e = UPDATER ∨ install_type cs e = if b then STREAM_INSTALLLER else SYS_INSTALLER).
    { unfold install_type. change (stream cs) with b. case_if; auto. }
    unfold reinstall. clearbody b.
    destruct Hset as [-> | ->], b; cbn [andb orb negb].
    all: try (apply wp_ret, wp_ret; eexists; split; [eassumption|by rewrite surjective_pairing]).
    all: apply wp_bind, wp_env_; eapply wp_IsStreamUpgrade; [eassumption|]; rewrite Hb; intros w6 Hw6; cbn [fst snd].
    all: eexists; split; [exact Hw6|]; cbv iota.
    all: rewrite ?exec_bind, ?exec_ret; done.
  - by apply wp_ret.
Qed.
End requests.

(** ** Witnesses *)
Module SampleManager.
Definition task (st : Z) : FirmwareTask.t := Task.with_status st sample_task.
Lemma sample_state st cs : is_int32 st → Forall Component.wf cs →
  ∃ zs, numbered cs zs ∧ at_state (SampleEnv.world [task st] cs) [task st] zs SampleEnv.initial [].
Proof.
  intros Hst Hcs. apply sample_at_state; [|done]. constructor; [|done].
  assert (Task.wf sample_task) as Hwf by (apply (bool_decide_unpack _); by vm_compute).
  revert Hwf. unfold Task.wf. cbn. naive_solver.
Qed.
Lemma cancel_outcome_witness :
  let w := SampleEnv.world [task UpgradeStatus.DOWNLOADING] [sample_component "v1"] in
  let w' := exec (FirmwareManager.DoCancel BusinessError.default) w in
  ∃ cs e, at_state w' [Task.with_progress UpgradeStatus.CHECK_VERSION_SUCCESS 0 (task UpgradeStatus.DOWNLOADING)] cs e [].
Proof.
  intros w w'. destruct (sample_state UpgradeStatus.DOWNLOADING [sample_component "v1"]) as (zs & _ & Hw);
    [by apply is_int32_closed|by repeat constructor; apply (bool_decide_unpack _); vm_compute|].
  pose proof (cancel_outcome BusinessError.default w _ _ _ _ Hw) as Hp. unfold wp in Hp.
  change (exec (FirmwareManager.DoCancel BusinessError.default) w) with w' in Hp. clearbody w'.
  destruct Hp as [Hp _]. eauto.
Defined.
Definition hota : FirmwareTask.t := Task.with_combinationType CombinationType.HOTA (task UpgradeStatus.UPDATING).
Lemma boot_update_outcome_witness :
  let w := SampleEnv.world [hota] [] in
  let w' := exec FirmwareEventManager.HandleBootComplete w in
  ∃ e, at_state w' [] [] e [end_of_update hota [] false ∅].
Proof.
  intros w w'.
  assert (at_state w [hota] [] SampleEnv.initial []) as Hw
    by (apply sample_tasks_at_state; repeat constructor; apply (bool_decide_unpack _); by vm_compute).
  pose proof (boot_update_outcome w [hota] [] SampleEnv.initial [] Hw) as (_ & m & Hm & Hp).
  change (exec FirmwareEventManager.HandleBootComplete w) with w' in Hp. clearbody w'. cbn in Hm. subst m. eexists. exact Hp.
Defined.
Lemma restart_restores_witness :
  let s := ([], SampleEnv.world [task UpgradeStatus.INSTALLING] [sample_component "v1"]) in
  ∃ w, exec FirmwareManager.RestoreUpdate s = exec (reinstall false SYS_INSTALLER) ([], w) ∧
       ∃ cs e, at_state w [Task.with_progress UpgradeStatus.DOWNLOAD_SUCCESS 100 (task UpgradeStatus.INSTALLING)] cs e [].
Proof.
  intros s. destruct (sample_state UpgradeStatus.INSTALLING [sample_component "v1"]) as (zs & Hz & Hw);
    [by apply is_int32_closed|by repeat constructor; apply (bool_decide_unpack _); vm_compute|].
  assert (FirmwareUpdateHelper.IsStreamUpgrade_list zs = false) as Hb.
  { destruct zs as [|z zs]; [done|]. apply Forall2_cons in Hz as [[id ->] _]. by vm_compute. }
  destruct (restart_restores s (task UpgradeStatus.INSTALLING) [] zs _ _ Hw) as (w & Hp & Hs).
  assert (install_type zs SampleEnv.initial = SYS_INSTALLER) as Hi by (unfold install_type; rewrite Hb; by vm_compute).
  rewrite Hb, ?Hi in *. exists w. split; [exact Hs|]. eauto.
Defined.
End SampleManager.
