(* ===== verification/Stream.v ===== *)
(** * The download of a streamed installation

    Models [services/engine/src/progress_thread.cpp] ([ProgressThread], the worker
    thread that can be started, stopped and joined) and
    [stream_progress_thread.cpp] ([StreamProgressThread], which downloads a package
    in memory and hands it block by block to the system installer).  A transfer is
    the sequence of the callbacks libcurl makes ([StreamEvent]); libcurl and the
    system installer are reached through the class [StreamKits].  The model is of
    a 64-bit device: [size_t] has 64 bits.  Of [progress_thread.cpp] the class
    [DownloadThread] is left out: nothing creates one (the service's download
    thread is the class of the same name in [download_thread.cpp]). *)
From Stdlib Require Import ZArith Lia Ascii String.
From stdpp Require Import base tactics list strings.
From S2P Require Import Prelude CppString StringUtils Json Models DownloadData.

#[local] Open Scope Z_scope.

(** ** The worker thread *)
Module ProgressThread.
(** [pDealThread_]: has a thread object been created. *)
(*@ engine/include/progress_thread.h:61-65 ProgressThread *)
Record t := { pDealThread_ : bool; isWake_ : bool; isExitThread_ : bool }.
(*@ engine/include/progress_thread.h:61-65 ProgressThread *)
Definition default : t := {| pDealThread_ := false; isWake_ := false; isExitThread_ := false |}.

(** [created]: the allocation of the thread succeeds. *)
(*@ engine/src/progress_thread.cpp ProgressThread::StartProgress *)
Definition StartProgress (created : bool) (this : t) : Z * t :=
  if pDealThread_ this || created
  then (0, {| pDealThread_ := true; isWake_ := true; isExitThread_ := isExitThread_ this |})
  else (-1, this).
(*@ engine/src/progress_thread.cpp ProgressThread::StopProgress *)
Definition StopProgress (this : t) : t :=
  {| pDealThread_ := pDealThread_ this; isWake_ := true; isExitThread_ := false |}.

(** Where the worker is in [ExecuteThreadFunc]: there is none, it is at the head of
    its loop (waiting for the lock or the condition), it runs
    [ProcessThreadExecute], it has returned, it has left the loop. *)
Inductive Worker := NoWorker | AtLoop | Executing | Returned | LeftLoop.
(** [quitting]: is a thread in [QuitDownloadThread], joining with the lock held. *)
Record sys := { vars : t; worker : Worker; quitting : bool }.
Definition initial : sys := {| vars := default; worker := NoWorker; quitting := false |}.
Definition ended (w : Worker) : bool :=
  match w with NoWorker | Returned | LeftLoop => true | AtLoop | Executing => false end.

(** The steps of the callers and of the worker.  Each holds the lock, so none but the
    execution itself happens while [QuitDownloadThread] joins. *)
(*@ engine/src/progress_thread.cpp:34-94 ProgressThread::ExecuteThreadFunc *)
Inductive step : sys → sys → Prop :=
  | do_start s created :
      quitting s = false →
      step s {| vars := (StartProgress created (vars s)).2;
                worker := match worker s with
                          | NoWorker => if created then AtLoop else NoWorker
                          | w => w end;
                quitting := false |}
  | do_stop s :
      quitting s = false →
      step s {| vars := StopProgress (vars s); worker := worker s; quitting := false |}
  | do_execute s :
      worker s = AtLoop → quitting s = false → isWake_ (vars s) = true → isExitThread_ (vars s) = false →
      step s {| vars := {| pDealThread_ := pDealThread_ (vars s); isWake_ := false; isExitThread_ := false |};
                worker := Executing; quitting := false |}
  | do_break s :
      worker s = AtLoop → quitting s = false → isWake_ (vars s) = true → isExitThread_ (vars s) = true →
      step s {| vars := vars s; worker := LeftLoop; quitting := false |}
  | do_executed s (again : bool) :
      worker s = Executing →
      step s {| vars := vars s; worker := if again then AtLoop else Returned; quitting := quitting s |}
  | do_quit s :
      quitting s = false →
      step s {| vars := {| pDealThread_ := pDealThread_ (vars s); isWake_ := true; isExitThread_ := true |};
                worker := worker s; quitting := true |}
  | do_joined s :
      quitting s = true → ended (worker s) = true →
      step s {| vars := {| pDealThread_ := false; isWake_ := isWake_ (vars s); isExitThread_ := isExitThread_ (vars s) |};
                worker := NoWorker; quitting := false |}.
Definition reachable : sys → Prop := star step initial.

(** A step that is not one of [QuitDownloadThread]. *)
Definition no_quit (a b : sys) : Prop := step a b ∧ quitting a = false ∧ quitting b = false.

(** *** Properties *)

(** The thread object exists exactly as long as the worker is known. *)
Definition inv (s : sys) : Prop :=
  pDealThread_ (vars s) = negb (match worker s with NoWorker => true | _ => false end).
Lemma inv_reachable s : reachable s → inv s.
Proof.
  intros Hs. refine (star_invariant step inv _ _ _ Hs eq_refl). clear.
  intros a b Hab. unfold inv. destruct Hab as [s [] Hq|s Hq|s Hw Hq He Hx|s Hw Hq He Hx|s [] Hw|s Hq|s Hq Hw]; cbn;
    try rewrite Hw; destruct (vars s) as [[] ? ?], (worker s); cbn in *; intros; congruence.
Qed.

Lemma returned_stays a b : no_quit a b → worker a = Returned → worker b = Returned.
Proof. intros (Hab & Hqa & Hqb) Hw. destruct Hab; cbn in *; by rewrite ?Hw in *; congruence. Qed.

(** Ending the worker: once it has returned from [ProcessThreadExecute] with false, it
    never runs again: every later [StartProgress] succeeds and starts nothing, until the object is
    quit.  [QuitDownloadThread] holds the lock of the worker while it joins: if the worker is
    at the head of its loop then, nothing moves any more; if it is executing, the join
    ends when, and only when, the execution returns false. *)
Theorem worker_ended s :
  reachable s →
  (worker s = Returned → quitting s = false →
     (∀ created, (StartProgress created (vars s)).1 = 0) ∧ (∀ s', star no_quit s s' → worker s' = Returned)) ∧
  (quitting s = true →
     (worker s = AtLoop → ∀ s', ¬ step s s') ∧
     (worker s = Executing → ∀ s', step s s' → ∃ again, s' = {| vars := vars s; worker := if again : bool then AtLoop else Returned; quitting := true |}) ∧
     (ended (worker s) = true → ∀ s', step s s' → quitting s' = false ∧ worker s' = NoWorker ∧ pDealThread_ (vars s') = false)).
Proof.
  intros Hs%inv_reachable. split.
  - intros Hw Hq. split.
    + intros created. unfold StartProgress. unfold inv in Hs. rewrite Hw in Hs. cbn in Hs. by rewrite Hs.
    + intros s' Hs'. by refine (star_invariant no_quit (λ s, worker s = Returned) returned_stays _ _ Hs' Hw).
  - intros Hq. split_and!; intros Hw s' Hs'; destruct Hs'; cbn in *; try congruence; try (by rewrite Hw in *); try done.
    + exists again. by rewrite Hq.
    + match goal with H : worker _ = Executing |- _ => by rewrite H in Hw end.
Qed.

(** The worker has returned, and is asked to start again. *)
Example worker_ended_witness :
  let s := {| vars := {| pDealThread_ := true; isWake_ := false; isExitThread_ := false |}; worker := Returned; quitting := false |} in
  reachable s ∧ ∀ s', star no_quit s s' → worker s' = Returned.
Proof.
  intros s. assert (reachable s) as Hs.
  { eapply star_step; [exact (do_start initial true eq_refl)|].
    eapply star_step; [apply do_execute; reflexivity|]. cbn.
    eapply star_step; [refine (do_executed _ false _); reflexivity|]. apply star_refl. }
  split; [exact Hs|]. exact (proj2 (proj1 (worker_ended s Hs) eq_refl eq_refl)).
Defined.
End ProgressThread.

(** ** libcurl and the system installer *)

(** Where libcurl writes the headers: the variable [headerData] of the method that
    set the option, or the object. *)
Inductive CallbackData := local_headerData | this_object.
Inductive CurlOpt :=
  | CURLOPT_URL (url : string)
  | CURLOPT_NOBODY (x : Z)
  | CURLOPT_FOLLOWLOCATION (x : Z)
  | CURLOPT_HEADER (x : Z)
  | CURLOPT_HEADERFUNCTION
  | CURLOPT_HEADERDATA (x : CallbackData)
  | CURLOPT_WRITEFUNCTION
  | CURLOPT_WRITEDATA (x : CallbackData)
  | CURLOPT_RESUME_FROM_LARGE (x : Z)
  | CURLOPT_NOPROGRESS (x : Z)
  | CURLOPT_PROGRESSFUNCTION
  | CURLOPT_PROGRESSDATA (x : CallbackData).

(** What happens during a transfer: data arrive, libcurl reports the progress (the
    numbers are whole), and the owner calls [StopDownload]. *)
Inductive StreamEvent :=
  | BodyData (data : list ascii)
  | BodyProgress (dlTotal dlNow : Z)
  | StopCalled.

(** [curl_head] and [curl_body] are [curl_easy_perform] without and with a body: the
    first gives the lines passed to the header callback, the second the events;
    both the result libcurl ends with unless a callback stops the transfer, in
    which case it is [curl_write_error] or [curl_aborted_by_callback]. *)
Class StreamKits (W : Type) := {
  curl_ok : Z;
  curl_write_error : Z;
  curl_aborted_by_callback : Z;
  curl_global_init : ST W unit;
  curl_global_cleanup : ST W unit;
  curl_easy_init : ST W bool;
  curl_easy_cleanup : ST W unit;
  curl_head : list CurlOpt → ST W (list string * Z);
  curl_body : list CurlOpt → ST W (list StreamEvent * Z);
  ProcessStreamData : list ascii → ST W Z;
  new_thread : ST W bool
}.
(** libcurl's error codes are not [CURLE_OK]. *)
Class StreamLaws (W : Type) `{!StreamKits W} : Prop := {
  curl_write_error_not_ok : curl_write_error ≠ curl_ok;
  curl_aborted_not_ok : curl_aborted_by_callback ≠ curl_ok
}.

Module StreamProgressThread.
(*@* engine/include/progress_thread.h = *)
Definition BUFFER_SIZE : Z := 50 * 1024.
Definition DOWNLOAD_FINISH_PERCENT : Z := 100.

(** [downloadHandle_]: the options set on the open handle.  [buffer_]: the bytes below
    [bufferPos_]; the rest of the buffer is never read.  [isCancel_] is static in
    the source; only [StartDownload] writes it. *)
(*@ engine/include/progress_thread.h:140-148 StreamProgressThread *)
Record t := {
  downloadProgress_ : Progress.t;
  downloadHandle_ : option (list CurlOpt);
  buffer_ : list ascii;
  serverUrl_ : string;
  totalFileSize_ : Z;
  downloadedSize_ : Z;
  exitDownload_ : bool;
  isCancel_ : bool;
  thread_ : ProgressThread.t
}.
Definition bufferPos_ (this : t) : Z := Z.of_nat (length (buffer_ this)).

Definition set_handle (x : option (list CurlOpt)) (this : t) : t := {|
  downloadProgress_ := downloadProgress_ this; downloadHandle_ := x; buffer_ := buffer_ this; serverUrl_ := serverUrl_ this;
  totalFileSize_ := totalFileSize_ this; downloadedSize_ := downloadedSize_ this; exitDownload_ := exitDownload_ this;
  isCancel_ := isCancel_ this; thread_ := thread_ this |}.
Definition set_progress (x : Progress.t) (this : t) : t := {|
  downloadProgress_ := x; downloadHandle_ := downloadHandle_ this; buffer_ := buffer_ this; serverUrl_ := serverUrl_ this;
  totalFileSize_ := totalFileSize_ this; downloadedSize_ := downloadedSize_ this; exitDownload_ := exitDownload_ this;
  isCancel_ := isCancel_ this; thread_ := thread_ this |}.
Definition set_buffer (x : list ascii) (this : t) : t := {|
  downloadProgress_ := downloadProgress_ this; downloadHandle_ := downloadHandle_ this; buffer_ := x; serverUrl_ := serverUrl_ this;
  totalFileSize_ := totalFileSize_ this; downloadedSize_ := downloadedSize_ this; exitDownload_ := exitDownload_ this;
  isCancel_ := isCancel_ this; thread_ := thread_ this |}.
Definition set_downloaded (x : Z) (this : t) : t := {|
  downloadProgress_ := downloadProgress_ this; downloadHandle_ := downloadHandle_ this; buffer_ := buffer_ this; serverUrl_ := serverUrl_ this;
  totalFileSize_ := totalFileSize_ this; downloadedSize_ := x; exitDownload_ := exitDownload_ this;
  isCancel_ := isCancel_ this; thread_ := thread_ this |}.
Definition set_exit (x : bool) (this : t) : t := {|
  downloadProgress_ := downloadProgress_ this; downloadHandle_ := downloadHandle_ this; buffer_ := buffer_ this; serverUrl_ := serverUrl_ this;
  totalFileSize_ := totalFileSize_ this; downloadedSize_ := downloadedSize_ this; exitDownload_ := x;
  isCancel_ := isCancel_ this; thread_ := thread_ this |}.
Definition set_thread (x : ProgressThread.t) (this : t) : t := {|
  downloadProgress_ := downloadProgress_ this; downloadHandle_ := downloadHandle_ this; buffer_ := buffer_ this; serverUrl_ := serverUrl_ this;
  totalFileSize_ := totalFileSize_ this; downloadedSize_ := downloadedSize_ this; exitDownload_ := exitDownload_ this;
  isCancel_ := isCancel_ this; thread_ := x |}.

(** [memcpy_s] fails on an empty destination and on a count above its size. *)
Definition memcpy_s (destMax count : Z) : bool := (0 <? destMax) && (count <=? destMax).

(*@ engine/src/stream_progress_thread.cpp StreamProgressThread::HeaderCallback *)
Definition HeaderCallback (header buffer : string) : string := (header +:+ buffer)%string.

(** The length in the headers: [None] when [std::stoll] throws, [Some None] when there is none. *)
(*@ engine/src/stream_progress_thread.cpp:108-122 StreamProgressThread::CheckFileSize *)
Definition ContentLength (headerData : string) : option (option Z) :=
  let key := "Content-Length:" in
  match find headerData key 0 with
  | None => Some None
  | Some pos =>
      lenStr ← substr_from headerData (pos + len key)%nat;
      let match_ := take_while isdigit (drop_while (λ c, negb (isdigit c)) (chars lenStr)) in
      if decide (match_ = []) then Some None
      else
        match from_chars true INT64_MIN INT64_MAX match_ with
        | (errc_ok, fileSize, _) => Some (Some fileSize)
        | _ => None
        end
  end.

Section ops.
Context {C W : Type} `{StreamKits W} (callback_ : option (Progress.t → ST (C * W) unit)).
#[local] Notation Thread := (ST (t * (C * W))).

Definition curl_easy_setopt (o : CurlOpt) : Thread unit :=
  set_this (λ this, set_handle (option_map (λ opts, opts ++ [o]) (downloadHandle_ this)) this).
Definition options (this : t) : list CurlOpt := default [] (downloadHandle_ this).

(*@ engine/src/stream_progress_thread.cpp StreamProgressThread::DownloadCallback *)
Definition DownloadCallback (percent status : Z) (error : string) : Thread unit :=
  let progress := {| Progress.percent := percent; Progress.status := status; Progress.endReason := error |} in
  set_this (set_progress progress) ;;;
  call callback_ progress.

(*@ engine/src/stream_progress_thread.cpp StreamProgressThread::ProcessThreadExit *)
Definition ProcessThreadExit : Thread unit :=
  let* handle := this_ downloadHandle_ in
  (when bool_decide (is_Some handle) do on_world curl_easy_cleanup) ;;;
  set_this (set_handle None).

(*@ engine/src/stream_progress_thread.cpp StreamProgressThread::DealExitOrCancel *)
Definition DealExitOrCancel (this : t) : bool := exitDownload_ this || isCancel_ this.

(** The loop of [WriteFunc]: [ptr] is what is left to process.  [None]: out of fuel. *)
(*@ engine/src/stream_progress_thread.cpp:211-240 StreamProgressThread::WriteFunc *)
Fixpoint WriteLoop (fuel : nat) (ptr : list ascii) (processed totalSize : Z) : Thread (option bool) :=
  if negb (processed <? totalSize) then ret (Some true)
  else
    match fuel with
    | O => ret None
    | S fuel =>
        let* bufferPos := this_ bufferPos_ in
        let spaceLeft := to_uint64 (BUFFER_SIZE - bufferPos - 1) in
        let bytesToCopy := Z.min spaceLeft (totalSize - processed) in
        if negb (memcpy_s (to_uint64 (BUFFER_SIZE - bufferPos)) bytesToCopy) then ret (Some false)
        else
          set_this (λ this, set_buffer (buffer_ this ++ take (Z.to_nat bytesToCopy) ptr) this) ;;;
          let processed := processed + bytesToCopy in
          let ptr := drop (Z.to_nat bytesToCopy) ptr in
          let* bufferPos := this_ bufferPos_ in
          let* total := this_ totalFileSize_ in
          let* downloaded := this_ downloadedSize_ in
          if (bufferPos =? BUFFER_SIZE - 1) || (to_uint64 (downloaded + processed) =? to_uint64 total) then
            let* buffer := this_ buffer_ in
            let* r := on_world (ProcessStreamData buffer) in
            if negb (r =? 0) then ret (Some false)
            else set_this (set_buffer []) ;;; WriteLoop fuel ptr processed totalSize
          else WriteLoop fuel ptr processed totalSize
    end.
(** The bytes accepted, or (size_t)-1. *)
(*@ engine/src/stream_progress_thread.cpp StreamProgressThread::WriteFunc *)
Definition WriteFunc (ptr : list ascii) : Thread (option Z) :=
  let totalSize := Z.of_nat (length ptr) in
  let* r := WriteLoop (S (length ptr)) ptr 0 totalSize in
  match r with
  | None => ret None
  | Some false => ret (Some (to_uint64 (-1)))
  | Some true =>
      set_this (λ this, set_downloaded (to_int64 (downloadedSize_ this + totalSize)) this) ;;;
      ret (Some totalSize)
  end.

(*@ engine/src/stream_progress_thread.cpp StreamProgressThread::DownloadProgress *)
Definition DownloadProgress (dlTotal dlNow : Z) : Thread Z :=
  if 0 <? dlTotal then
    let* stop := this_ DealExitOrCancel in
    ret (if stop then -1 else 0)
  else ret 0.

(*@ engine/src/stream_progress_thread.cpp StreamProgressThread::StopDownload *)
Definition StopDownload : Thread unit :=
  set_this (set_exit true) ;;;
  set_this (λ this, set_thread (ProgressThread.StopProgress (thread_ this)) this) ;;;
  on_world curl_global_cleanup.

(** libcurl calls back until a callback refuses; [None] when [WriteFunc] does not end. *)
Fixpoint perform (events : list StreamEvent) (code : Z) : Thread (option Z) :=
  match events with
  | [] => ret (Some code)
  | BodyData data :: events =>
      let* written := WriteFunc data in
      match written with
      | None => ret None
      | Some n => if n =? Z.of_nat (length data) then perform events code else ret (Some curl_write_error)
      end
  | BodyProgress dlTotal dlNow :: events =>
      let* r := DownloadProgress dlTotal dlNow in
      if r =? 0 then perform events code else ret (Some curl_aborted_by_callback)
  | StopCalled :: events => StopDownload ;;; perform events code
  end.

(** [None]: [std::stoll] throws, which ends the process. *)
(*@ engine/src/stream_progress_thread.cpp StreamProgressThread::CheckFileSize *)
Definition CheckFileSize : Thread (option bool) :=
  let* url := this_ serverUrl_ in
  curl_easy_setopt (CURLOPT_URL url) ;;;
  curl_easy_setopt (CURLOPT_NOBODY 1) ;;;
  curl_easy_setopt (CURLOPT_FOLLOWLOCATION 1) ;;;
  curl_easy_setopt CURLOPT_HEADERFUNCTION ;;;
  curl_easy_setopt (CURLOPT_HEADERDATA local_headerData) ;;;
  let* opts := this_ options in
  let* answer := on_world (curl_head opts) in
  if negb (answer.2 =? curl_ok) then ret (Some false)
  else
    match ContentLength (fold_left HeaderCallback answer.1 "") with
    | None => ret None
    | Some None => ret (Some false)
    | Some (Some fileSize) =>
        let* total := this_ totalFileSize_ in
        ret (Some (negb ((fileSize <=? 0) || negb (fileSize =? total))))
    end.

(*@ engine/src/stream_progress_thread.cpp StreamProgressThread::DownloadFile *)
Definition DownloadFile : Thread (option bool) :=
  curl_easy_setopt (CURLOPT_NOBODY 0) ;;;
  curl_easy_setopt (CURLOPT_HEADER 0) ;;;
  curl_easy_setopt (CURLOPT_WRITEDATA this_object) ;;;
  curl_easy_setopt CURLOPT_WRITEFUNCTION ;;;
  let* downloaded := this_ downloadedSize_ in
  (when 0 <? downloaded do curl_easy_setopt (CURLOPT_RESUME_FROM_LARGE downloaded)) ;;;
  curl_easy_setopt (CURLOPT_NOPROGRESS 0) ;;;
  curl_easy_setopt (CURLOPT_PROGRESSDATA this_object) ;;;
  curl_easy_setopt CURLOPT_PROGRESSFUNCTION ;;;
  let* opts := this_ options in
  let* body := on_world (curl_body opts) in
  let* res := perform body.1 body.2 in
  ret (option_map (λ res, res =? curl_ok) res).

(** The result says whether the worker goes on. *)
(*@ engine/src/stream_progress_thread.cpp StreamProgressThread::ProcessThreadExecute *)
Definition ProcessThreadExecute : Thread (option bool) :=
  let* opened := on_world curl_easy_init in
  set_this (set_handle (if opened then Some [] else None)) ;;;
  if negb opened then
    ProcessThreadExit ;;;
    DownloadCallback 0 UpgradeStatus.DOWNLOAD_FAIL "Failed to init curl" ;;;
    ret (Some true)
  else
    let* checked := CheckFileSize in
    match checked with
    | None => ret None
    | Some false =>
        ProcessThreadExit ;;;
        DownloadCallback 0 UpgradeStatus.DOWNLOAD_FAIL (to_string DownloadEndReason.CURL_ERROR) ;;;
        ret (Some false)
    | Some true =>
        let* downloaded := DownloadFile in
        match downloaded with
        | None => ret None
        | Some false =>
            ProcessThreadExit ;;;
            DownloadCallback 0 UpgradeStatus.DOWNLOAD_CANCEL (to_string DownloadEndReason.CANCEL) ;;;
            ret (Some false)
        | Some true =>
            ProcessThreadExit ;;;
            DownloadCallback DOWNLOAD_FINISH_PERCENT UpgradeStatus.DOWNLOAD_SUCCESS "" ;;;
            ret (Some false)
        end
    end.

(*@ engine/src/stream_progress_thread.cpp StreamProgressThread::StartDownload *)
Definition StartDownload (url : string) (size recordPoint : Z) : Thread Z :=
  set_this (λ this, {|
    downloadProgress_ := downloadProgress_ this; downloadHandle_ := downloadHandle_ this; buffer_ := [];
    serverUrl_ := url; totalFileSize_ := size; downloadedSize_ := recordPoint; exitDownload_ := false; isCancel_ := false;
    thread_ := thread_ this |}) ;;;
  on_world curl_global_init ;;;
  let* exists_ := this_ (λ this, ProgressThread.pDealThread_ (thread_ this)) in
  let* created := (if exists_ : bool then ret true else on_world new_thread) in
  let* r := this_ (λ this, ProgressThread.StartProgress created (thread_ this)) in
  set_this (set_thread r.2) ;;;
  ret r.1.
End ops.
End StreamProgressThread.

(** ** The blocks of a stream *)
Section cuts.
Implicit Types (n : Z) (d b r : list ascii) (bs : list (list ascii)).

(** [d] cut into blocks of [n] bytes, and what is left. *)
Definition cuts n d bs r : Prop :=
  d = concat bs ++ r ∧ Forall (λ b, Z.of_nat (length b) = n) bs ∧ Z.of_nat (length r) < n.

Lemma cuts_short n d bs r : cuts n d bs r → Z.of_nat (length d) < n → bs = [] ∧ r = d.
Proof.
  intros (-> & Hbs & _) Hd. destruct bs as [|b bs]; [done|].
  apply Forall_cons in Hbs as [Hb _]. cbn in Hd. rewrite !length_app in Hd. lia.
Qed.
Lemma cuts_cons n b d bs r : 0 < n → Z.of_nat (length b) = n → cuts n (b ++ d) bs r → ∃ bs', bs = b :: bs' ∧ cuts n d bs' r.
Proof.
  intros Hn Hb (Hd & Hbs & Hr). destruct bs as [|c bs].
  - apply (f_equal length) in Hd. cbn in Hd. rewrite length_app in Hd. lia.
  - apply Forall_cons in Hbs as [Hc Hbs]. cbn in Hd. rewrite <- app_assoc in Hd.
    apply app_inj_1 in Hd as [-> ->]; [|lia]. by exists bs.
Qed.
Lemma cuts_app n d1 d2 bs1 r1 bs r :
  0 < n → cuts n d1 bs1 r1 → cuts n (d1 ++ d2) bs r → ∃ bs2, bs = bs1 ++ bs2 ∧ cuts n (r1 ++ d2) bs2 r.
Proof.
  intros Hn (-> & Hbs1 & Hr1). revert bs. induction Hbs1 as [|b bs1 Hb _ IH]; intros bs Hcut.
  - by exists bs.
  - cbn in Hcut. rewrite <- !app_assoc in Hcut. apply cuts_cons in Hcut as (bs' & -> & Hcut); [|done..].
    rewrite app_assoc in Hcut. apply IH in Hcut as (bs2 & -> & Hcut). by exists bs2.
Qed.
Lemma cuts_exist n d : 0 < n → ∃ bs r, cuts n d bs r.
Proof.
  intros Hn. remember (length d) as m eqn:Hm. revert d Hm.
  induction (Nat.lt_wf_0 m) as [m _ IH]. intros d ->.
  destruct (decide (Z.of_nat (length d) < n)) as [Hd|Hd]; [by exists [], d|].
  destruct (IH (length (drop (Z.to_nat n) d))) with (d := drop (Z.to_nat n) d) as (bs & r & Hcut & Hbs & Hr); [|done|].
  { rewrite length_drop. lia. }
  exists (take (Z.to_nat n) d :: bs), r. split; [|split; [|done]].
  - cbn. rewrite <- app_assoc, <- Hcut. symmetry. apply take_drop.
  - constructor; [|done]. rewrite length_take. lia.
Qed.
End cuts.

Section deliver.
Context {W : Type} `{StreamKits W}.

(** The blocks, handed to the system installer until it refuses one. *)
Fixpoint deliver (bs : list (list ascii)) : ST W bool :=
  match bs with
  | [] => ret true
  | b :: bs => let* r := ProcessStreamData b in if r =? 0 then deliver bs else ret false
  end.
Lemma deliver_app bs1 bs2 w :
  deliver (bs1 ++ bs2) w = if eval (deliver bs1) w then deliver bs2 (exec (deliver bs1) w) else (false, exec (deliver bs1) w).
Proof.
  revert w. induction bs1 as [|b bs1 IH]; intros w; [done|].
  cbn [app deliver]. unfold eval, exec, bind in *. destruct (ProcessStreamData b w) as [r w']. case_if; [apply IH|done].
Qed.
Lemma deliver_app_eval bs1 bs2 w :
  eval (deliver (bs1 ++ bs2)) w = eval (deliver bs1) w && eval (deliver bs2) (exec (deliver bs1) w).
Proof. unfold eval at 1. rewrite deliver_app. by destruct (eval (deliver bs1) w). Qed.
Lemma deliver_app_exec bs1 bs2 w :
  exec (deliver (bs1 ++ bs2)) w = if eval (deliver bs1) w then exec (deliver bs2) (exec (deliver bs1) w) else exec (deliver bs1) w.
Proof. unfold exec at 1. rewrite deliver_app. by destruct (eval (deliver bs1) w). Qed.
End deliver.

Import StreamProgressThread.
Section stream.
Context {C W : Type} `{StreamKits W, !StreamLaws W} (callback_ : option (Progress.t → ST (C * W) unit)).
Implicit Types (this : t) (o : C) (w : W).
#[local] Notation N := (BUFFER_SIZE - 1).

(** What is handed over: the full blocks, and the rest once the file is complete. *)
Definition handed (reached : bool) (bs : list (list ascii)) (r : list ascii) : list (list ascii) :=
  bs ++ (if reached && negb (bool_decide (r = [])) then [r] else []).

Lemma memcpy_fits b k : 0 <= b < N → 0 <= k <= N - b → memcpy_s (to_uint64 (BUFFER_SIZE - b)) k = true.
Proof.
  intros Hb Hk. unfold memcpy_s, BUFFER_SIZE in *. rewrite to_uint64_id by (unfold_widths; lia).
  apply andb_true_iff. split; [apply Z.ltb_lt|apply Z.leb_le]; lia.
Qed.

Lemma set_buffer_same this : set_buffer (buffer_ this) this = this.
Proof. by destruct this. Qed.

(** One flush, by the continuation of the loop. *)
Lemma wp_flush (k : ST (t * (C * W)) (option bool)) this o w Q :
  (eval (ProcessStreamData (buffer_ this)) w ≠ 0 → Q (Some false) (this, (o, exec (ProcessStreamData (buffer_ this)) w))) →
  (eval (ProcessStreamData (buffer_ this)) w = 0 → wp k (set_buffer [] this, (o, exec (ProcessStreamData (buffer_ this)) w)) Q) →
  wp (let* buffer := this_ buffer_ in
      let* r := on_world (ProcessStreamData buffer) in
      if negb (r =? 0) then ret (Some false) else set_this (set_buffer []) ;;; k) (this, (o, w)) Q.
Proof.
  intros Hno Hyes. apply wp_bind, wp_this, wp_bind, wp_on_world. unfold wp at 1. cbn [fst snd].
  destruct (eval _ w =? 0) eqn:E; breflect; cbn [negb].
  - apply wp_bind, wp_set_this. by apply Hyes.
  - apply wp_ret. by apply Hno.
Qed.

(** A block that is handed over, before others. *)
Lemma deliver_cons b bs w :
  (eval (ProcessStreamData b) w ≠ 0 → deliver (b :: bs) w = (false, exec (ProcessStreamData b) w)) ∧
  (eval (ProcessStreamData b) w = 0 → deliver (b :: bs) w = deliver bs (exec (ProcessStreamData b) w)).
Proof.
  cbn [deliver]. unfold eval, exec, bind. destruct (ProcessStreamData b w) as [x w']. cbn.
  split; intros Hx; case_if; breflect; done.
Qed.
Lemma deliver_one b w :
  eval (deliver [b]) w = (eval (ProcessStreamData b) w =? 0) ∧ exec (deliver [b]) w = exec (ProcessStreamData b) w.
Proof.
  destruct (deliver_cons b [] w) as [H0 H1]. unfold eval at 1, exec at 1.
  destruct (eval (ProcessStreamData b) w =? 0) eqn:E; breflect; [by rewrite H1|by rewrite H0].
Qed.

Lemma WriteLoop_end fuel ptr total : WriteLoop (C := C) fuel ptr total total = ret (Some true).
Proof. by destruct fuel; cbn [WriteLoop]; rewrite (proj2 (Z.ltb_ge total total)) by lia. Qed.

Lemma reached_test d p total : 0 <= d → 0 <= p → d + p <= total → total <= INT64_MAX →
  (to_uint64 (d + p) =? to_uint64 total) = (d + p =? total).
Proof. intros. by rewrite !to_uint64_id by (unfold_widths; lia). Qed.

Lemma handed_short reached ptr : ptr ≠ [] → handed reached [] ptr = if reached then [ptr] else [].
Proof. intros Hne. unfold handed. rewrite bool_decide_false by done. by destruct reached. Qed.

Lemma handed_nil reached bs : handed reached bs [] = bs.
Proof. unfold handed. by rewrite andb_false_r, app_nil_r. Qed.

Lemma WriteLoop_empty fuel total this o w bs r :
  bufferPos_ this < N → cuts N (buffer_ this ++ []) bs r →
  (downloadedSize_ this + total = totalFileSize_ this → buffer_ this = []) →
  let reached := downloadedSize_ this + total =? totalFileSize_ this in
  wp (WriteLoop (C := C) fuel [] total total) (this, (o, w)) (λ ok s',
    ok = Some (eval (deliver (handed reached bs r)) w) ∧
    s'.2 = (o, exec (deliver (handed reached bs r)) w) ∧
    (ok = Some true → s'.1 = set_buffer (if reached then [] else r) this)).
Proof.
  intros Hbuf Hcut Hptr reached. rewrite app_nil_r in Hcut.
  apply cuts_short in Hcut as [-> ->]; [|done]. rewrite WriteLoop_end. apply wp_ret.
  destruct reached eqn:E; unfold reached in E; breflect.
  - rewrite (Hptr E), handed_nil. split_and!; [done..|intros _]. by rewrite <- (Hptr E), set_buffer_same.
  - unfold handed. cbn. by rewrite set_buffer_same.
Qed.

Lemma WriteLoop_spec fuel ptr p total this o w bs r :
  (length ptr <= fuel)%nat → 0 <= p → total = p + Z.of_nat (length ptr) →
  0 <= downloadedSize_ this → downloadedSize_ this + total <= totalFileSize_ this → totalFileSize_ this <= INT64_MAX →
  bufferPos_ this < N → cuts N (buffer_ this ++ ptr) bs r →
  (ptr = [] → downloadedSize_ this + total = totalFileSize_ this → buffer_ this = []) →
  let reached := downloadedSize_ this + total =? totalFileSize_ this in
  wp (WriteLoop (C := C) fuel ptr p total) (this, (o, w)) (λ ok s',
    ok = Some (eval (deliver (handed reached bs r)) w) ∧
    s'.2 = (o, exec (deliver (handed reached bs r)) w) ∧
    (ok = Some true → s'.1 = set_buffer (if reached then [] else r) this)).
Proof.
  revert ptr p this w bs. induction fuel as [|fuel IH]; intros ptr p this w bs Hfuel Hp -> Hd Htotal Hmax Hbuf Hcut Hptr reached.
  all: destruct (decide (ptr = [])) as [->|Hne].
  1,3: subst reached; cbn [length Z.of_nat] in *; rewrite Z.add_0_r in *; apply WriteLoop_empty; auto.
  { destruct ptr; [done|cbn in Hfuel; lia]. }
  assert (0 < Z.of_nat (length ptr)) as Hlen by (destruct ptr; [done|cbn; lia]).
  cbn [WriteLoop]. rewrite (proj2 (Z.ltb_lt p _)) by lia. cbn [negb].
  apply wp_bind, wp_this. cbn [fst]. set (b := bufferPos_ this) in *.
  assert (0 <= b) by (unfold b, bufferPos_; lia).
  rewrite (to_uint64_id (BUFFER_SIZE - b - 1)) by (unfold BUFFER_SIZE in *; unfold_widths; lia).
  set (k := Z.min (BUFFER_SIZE - b - 1) (p + Z.of_nat (length ptr) - p)).
  rewrite memcpy_fits by lia. cbn [negb].
  apply wp_bind, wp_set_this, wp_bind, wp_this, wp_bind, wp_this, wp_bind, wp_this. cbn [fst snd].
  set (block := buffer_ this ++ take (Z.to_nat k) ptr).
  assert (Z.of_nat (length block) = b + k) as Hblock.
  { unfold block. rewrite length_app, length_take. unfold b, bufferPos_ in *. lia. }
  change (bufferPos_ (set_buffer block this)) with (Z.of_nat (length block)). rewrite Hblock.
  change (downloadedSize_ (set_buffer block this)) with (downloadedSize_ this).
  change (totalFileSize_ (set_buffer block this)) with (totalFileSize_ this).
  rewrite reached_test by lia.
  assert (k = Z.of_nat (length ptr) ∧ b + k < N ∨ b + k = N) as [[Hk Hshort]|Hfull] by lia.
  - assert (Z.to_nat k = length ptr) as Hk' by lia.
    unfold block in *. rewrite Hk', firstn_all, drop_all in *. clear Hk'.
    apply cuts_short in Hcut as [-> ->]; [|lia].
    rewrite handed_short by (intros [_ ?]%app_nil; done). fold reached. rewrite Hk.
    rewrite (proj2 (Z.eqb_neq _ _)) by lia. cbn [orb]. fold reached.
    destruct reached.
    + destruct (deliver_one (buffer_ this ++ ptr) w) as [-> ->].
      rewrite WriteLoop_end. apply wp_flush; cbn [buffer_ set_buffer]; intros Hx; [|apply wp_ret].
      * by rewrite (proj2 (Z.eqb_neq _ _) Hx).
      * by rewrite Hx.
    + by rewrite WriteLoop_end.
  - rewrite Hfull, Z.eqb_refl. cbn [orb].
    rewrite <- (take_drop (Z.to_nat k) ptr), app_assoc in Hcut. fold block in Hcut.
    apply cuts_cons in Hcut as (bs' & -> & Hcut); [|unfold BUFFER_SIZE; lia|lia].
    change (handed reached (block :: bs') r) with (block :: handed reached bs' r).
    destruct (deliver_cons block (handed reached bs' r) w) as [Hno Hyes].
    apply wp_flush; cbn [buffer_ set_buffer]; intros Hx; unfold eval, exec; [rewrite Hno by done; done|].
    rewrite Hyes by done. eapply wp_mono; [|eapply (IH (drop (Z.to_nat k) ptr) (p + k) (set_buffer [] (set_buffer block this)))]; cbn [set_buffer buffer_ downloadedSize_ totalFileSize_]; try done; try lia.
    + rewrite length_drop. lia.
    + rewrite length_drop. lia.
Qed.

Lemma set_downloaded_same this : set_downloaded (downloadedSize_ this) this = this.
Proof. by destruct this. Qed.

(** One piece of data, as libcurl delivers it. *)
Lemma WriteFunc_spec ptr this o w bs r :
  0 <= downloadedSize_ this → downloadedSize_ this + Z.of_nat (length ptr) <= totalFileSize_ this → totalFileSize_ this <= INT64_MAX →
  bufferPos_ this < N → cuts N (buffer_ this ++ ptr) bs r →
  (downloadedSize_ this = totalFileSize_ this → buffer_ this = []) →
  let reached := downloadedSize_ this + Z.of_nat (length ptr) =? totalFileSize_ this in
  wp (WriteFunc (C := C) ptr) (this, (o, w)) (λ n s',
    n = Some (if eval (deliver (handed reached bs r)) w then Z.of_nat (length ptr) else UINT64_MAX) ∧
    s'.2 = (o, exec (deliver (handed reached bs r)) w) ∧
    (eval (deliver (handed reached bs r)) w = true →
     s'.1 = set_downloaded (downloadedSize_ this + Z.of_nat (length ptr)) (set_buffer (if reached then [] else r) this))).
Proof.
  intros Hd Htotal Hmax Hbuf Hcut Hptr reached. unfold WriteFunc. apply wp_bind.
  eapply wp_mono; [|apply (WriteLoop_spec (S (length ptr)) ptr 0 (Z.of_nat (length ptr)) this o w bs r); try done; try lia].
  2:{ intros -> Hx. apply Hptr. cbn in Hx. lia. }
  intros ok [this' [o' w']] (Hok & Hw & Hthis). fold reached in Hok, Hw, Hthis. cbn [fst snd] in *. inversion Hw; subst o' w'; clear Hw.
  destruct (eval (deliver _) w); subst ok; [|by apply wp_ret].
  rewrite (Hthis eq_refl). apply wp_bind, wp_set_this, wp_ret. cbn [fst snd set_buffer downloadedSize_].
  rewrite to_int64_id by (unfold_widths; lia). done.
Qed.

(** The data of a transfer. *)
Definition body (events : list StreamEvent) : list ascii :=
  concat (map (λ ev, match ev with BodyData d => d | _ => [] end) events).

Lemma perform_spec events code this o w bs r :
  StopCalled ∉ events → DealExitOrCancel this = false →
  0 <= downloadedSize_ this → downloadedSize_ this + Z.of_nat (length (body events)) <= totalFileSize_ this → totalFileSize_ this <= INT64_MAX →
  bufferPos_ this < N → cuts N (buffer_ this ++ body events) bs r →
  (downloadedSize_ this = totalFileSize_ this → buffer_ this = []) →
  let reached := downloadedSize_ this + Z.of_nat (length (body events)) =? totalFileSize_ this in
  wp (perform (C := C) events code) (this, (o, w)) (λ c s',
    c = Some (if eval (deliver (handed reached bs r)) w then code else curl_write_error) ∧
    s'.2 = (o, exec (deliver (handed reached bs r)) w)).
Proof.
  assert (∀ ev evs, StopCalled ∉ ev :: evs → StopCalled ∉ evs) as Htail by (intros ??; rewrite not_elem_of_cons; tauto).
  revert this w bs r. induction events as [|[d|x y|] events IH]; intros this w bs r Hstop Hexit Hd Htotal Hmax Hbuf Hcut Hend reached.
  - apply cuts_short in Hcut as [-> ->]; [|unfold bufferPos_ in Hbuf; by rewrite app_nil_r].
    apply wp_ret. unfold handed. cbn in reached. destruct reached eqn:E; [|done]. unfold reached in E. breflect.
    rewrite app_nil_r, Hend by lia. done.
  - cbn [perform]. change (body (BodyData d :: events)) with (d ++ body events) in *. apply wp_bind.
    rewrite length_app, Nat2Z.inj_add in *. rewrite app_assoc in Hcut.
    destruct (cuts_exist N (buffer_ this ++ d) eq_refl) as (bs1 & r1 & Hcut1).
    apply (cuts_app N _ _ bs1 r1) in Hcut as (bs2 & -> & Hcut2); [|done|done].
    set (k := downloadedSize_ this + Z.of_nat (length d) =? totalFileSize_ this).
    assert (k = true → body events = []) as Hnil.
    { intros Hk. unfold k in Hk. breflect. apply nil_length_inv. lia. }
    assert (handed reached (bs1 ++ bs2) r = handed k bs1 r1 ++ (if k then [] else handed reached bs2 r)) as ->.
    { destruct k eqn:Hk; unfold k in Hk; breflect.
      - specialize (Hnil eq_refl). rewrite Hnil, app_nil_r in Hcut2.
        apply cuts_short in Hcut2 as [-> ->]; [|by apply Hcut1]. rewrite !app_nil_r.
        unfold reached. by rewrite Hnil, app_nil_r, Hk, Z.eqb_refl.
      - unfold handed at 2. cbn. unfold handed. by rewrite app_nil_r, <- app_assoc. }
    eapply wp_mono; [|apply (WriteFunc_spec d this o w bs1 r1); try done; lia]. fold k.
    intros n [this' [o' w']] (-> & Hw & Hthis). cbn [fst snd] in *. inversion Hw; subst o' w'; clear Hw.
    rewrite deliver_app_eval, deliver_app_exec. destruct (eval (deliver (handed k bs1 r1)) w).
    2:{ rewrite (proj2 (Z.eqb_neq _ _)) by (unfold UINT64_MAX; unfold_widths; lia). by apply wp_ret. }
    rewrite Z.eqb_refl, (Hthis eq_refl). cbn [andb].
    assert ((if k then [] else handed reached bs2 r) = handed reached (if k then [] else bs2) (if k then [] else r)) as ->.
    { destruct k; [by rewrite handed_nil|done]. }
    replace reached with (downloadedSize_ this + Z.of_nat (length d) + Z.of_nat (length (body events)) =? totalFileSize_ this)
      by (unfold reached; rewrite length_app; f_equal; lia).
    apply (IH (set_downloaded (downloadedSize_ this + Z.of_nat (length d)) (set_buffer (if k then [] else r1) this)));
      cbn [set_downloaded set_buffer buffer_ downloadedSize_ totalFileSize_]; try done; try lia.
    + by apply Htail in Hstop.
    + unfold bufferPos_. cbn. destruct k; [done|apply Hcut1].
    + destruct k; [|done]. by rewrite Hnil.
    + intros Hx. unfold k. by rewrite Hx, Z.eqb_refl.
  - cbn [perform]. apply wp_bind. unfold DownloadProgress. change (body (BodyProgress x y :: events)) with (body events) in *.
    assert (wp (perform (C := C) events code) (this, (o, w)) (λ c s',
      c = Some (if eval (deliver (handed reached bs r)) w then code else curl_write_error) ∧
      s'.2 = (o, exec (deliver (handed reached bs r)) w))) as Hk by (apply IH; try done; by apply Htail in Hstop).
    destruct (0 <? x); [|by apply wp_ret].
    apply wp_bind, wp_this, wp_ret. cbn [fst]. by rewrite Hexit.
  - destruct Hstop. apply list_elem_of_here.
Qed.

(** *** The loops end *)
Lemma WriteLoop_total fuel ptr p total s :
  (length ptr <= fuel)%nat → total = p + Z.of_nat (length ptr) → bufferPos_ s.1 < N →
  wp (WriteLoop (C := C) (W := W) fuel ptr p total) s (λ r s', is_Some r ∧ (r = Some true → bufferPos_ s'.1 < N)).
Proof.
  revert ptr p s. induction fuel as [|fuel IH]; intros ptr p [this [o w]] Hfuel -> Hbuf.
  all: destruct ptr as [|c ptr]; [cbn [length Z.of_nat]; rewrite Z.add_0_r, WriteLoop_end; by apply wp_ret|].
  { cbn in Hfuel. lia. }
  set (l := c :: ptr) in *. assert (0 < Z.of_nat (length l)) as Hlen by (unfold l; cbn; lia).
  cbn [WriteLoop fst] in *. rewrite (proj2 (Z.ltb_lt p _)) by lia. cbn [negb].
  apply wp_bind, wp_this. cbn [fst]. set (b := bufferPos_ this) in *. assert (0 <= b) by (unfold b, bufferPos_; lia).
  rewrite (to_uint64_id (BUFFER_SIZE - b - 1)) by (unfold BUFFER_SIZE in *; unfold_widths; lia).
  set (k := Z.min (BUFFER_SIZE - b - 1) (p + Z.of_nat (length l) - p)).
  rewrite memcpy_fits by lia. cbn [negb].
  apply wp_bind, wp_set_this, wp_bind, wp_this, wp_bind, wp_this, wp_bind, wp_this. cbn [fst snd].
  set (block := buffer_ this ++ take (Z.to_nat k) l).
  assert (bufferPos_ (set_buffer block this) = b + k) as Hblock.
  { unfold bufferPos_, block. cbn. rewrite length_app, length_take. unfold b, bufferPos_ in *. lia. }
  rewrite Hblock.
  assert (∀ x, bufferPos_ x.1 < N →
    wp (WriteLoop (C := C) (W := W) fuel (drop (Z.to_nat k) l) (p + k) (p + Z.of_nat (length l))) x
       (λ r s', is_Some r ∧ (r = Some true → bufferPos_ s'.1 < N))) as Hrest.
  { intros x Hx. apply IH; [rewrite length_drop; lia|rewrite length_drop; lia|done]. }
  destruct ((b + k =? N) || _) eqn:E.
  - apply wp_flush; intros _; [by split|]. by apply Hrest.
  - breflect. apply Hrest. cbn [fst]. lia.
Qed.
Lemma WriteFunc_total ptr s :
  bufferPos_ s.1 < N →
  wp (WriteFunc (C := C) (W := W) ptr) s (λ n s', n = Some UINT64_MAX ∨ n = Some (Z.of_nat (length ptr)) ∧ bufferPos_ s'.1 < N).
Proof.
  intros Hs. unfold WriteFunc. apply wp_bind. eapply wp_mono; [|by apply (WriteLoop_total (S (length ptr)) ptr 0); [lia| |]].
  intros ok [this' x] [[[|] ->] Hok]; [|by apply wp_ret; left].
  apply wp_bind, wp_set_this, wp_ret. right. split; [done|]. exact (Hok eq_refl).
Qed.

(** No piece has as many bytes as the memory: libcurl bounds them. *)
Definition pieces_small (events : list StreamEvent) : Prop :=
  Forall (λ ev, match ev with BodyData d => Z.of_nat (length d) < UINT64_MAX | _ => True end) events.
Lemma perform_total events code s :
  pieces_small events → bufferPos_ s.1 < N → wp (perform (C := C) (W := W) events code) s (λ r _, is_Some r).
Proof.
  intros Hev. revert s. induction Hev as [|[d|x y|] events Hd _ IH]; intros s Hs; cbn [perform].
  - by apply wp_ret.
  - apply wp_bind. eapply wp_mono; [|by apply WriteFunc_total].
    intros n s' [->|[-> Hs']]; [|rewrite Z.eqb_refl; auto].
    rewrite (proj2 (Z.eqb_neq _ _)) by lia. by apply wp_ret.
  - apply wp_bind. unfold DownloadProgress. destruct (0 <? x); [|by apply wp_ret, IH].
    apply wp_bind, wp_this, wp_ret. destruct (DealExitOrCancel s.1); [by apply wp_ret|by apply IH].
  - apply wp_bind. unfold StopDownload. apply wp_bind, wp_set_this, wp_bind, wp_set_this, wp_on_world.
    by apply wp_any; intros ??; apply IH.
Qed.

(** What a transfer leaves alone: the fields other than the buffer and the sizes. *)
Lemma set_handle_same this opts : downloadHandle_ this = Some opts → this = set_handle (Some opts) this.
Proof. destruct this. cbn. by intros ->. Qed.
Lemma wp_setopt x this opts y (Q : unit → t * (C * W) → Prop) :
  Q tt (set_handle (Some (opts ++ [x])) this, y) → wp (curl_easy_setopt x) (set_handle (Some opts) this, y) Q.
Proof. done. Qed.

(** The options of the two requests.  Those of the first stay set for the second. *)
Definition head_options (url : string) : list CurlOpt :=
  [CURLOPT_URL url; CURLOPT_NOBODY 1; CURLOPT_FOLLOWLOCATION 1; CURLOPT_HEADERFUNCTION; CURLOPT_HEADERDATA local_headerData].
Definition body_options (recordPoint : Z) : list CurlOpt :=
  [CURLOPT_NOBODY 0; CURLOPT_HEADER 0; CURLOPT_WRITEDATA this_object; CURLOPT_WRITEFUNCTION] ++
  (if 0 <? recordPoint then [CURLOPT_RESUME_FROM_LARGE recordPoint] else []) ++
  [CURLOPT_NOPROGRESS 0; CURLOPT_PROGRESSDATA this_object; CURLOPT_PROGRESSFUNCTION].

Lemma wp_DownloadFile this opts o w (Q : option bool → t * (C * W) → Prop) :
  downloadHandle_ this = Some opts →
  let opts' := opts ++ body_options (downloadedSize_ this) in
  let answer := eval (curl_body opts') w in
  wp (perform answer.1 answer.2) (set_handle (Some opts') this, (o, exec (curl_body opts') w))
    (λ res s', Q (option_map (λ res, res =? curl_ok) res) s') →
  wp DownloadFile (this, (o, w)) Q.
Proof.
  intros Hopts opts' answer HQ. rewrite (set_handle_same this opts Hopts) at 1. unfold DownloadFile.
  do 4 apply wp_bind, wp_setopt. apply wp_bind, wp_this.
  assert (∀ l, l = opts' → wp (let* opts := this_ (C := C) (W := W) options in
    let* body := on_world (curl_body opts) in let* res := perform body.1 body.2 in
    ret (option_map (λ res, res =? curl_ok) res)) (set_handle (Some l) this, (o, w)) Q) as Hrest.
  { intros ? ->. apply wp_bind, wp_this, wp_bind, wp_on_world. unfold wp at 1. cbn [fst snd].
    change (options (set_handle (Some opts') this)) with opts'. fold answer.
    apply wp_bind. eapply wp_mono; [|exact HQ]. intros res s' HQ'. by apply wp_ret. }
  apply wp_bind. cbn [fst set_handle downloadedSize_]. unfold opts', body_options in *. clear HQ answer.
  destruct (0 <? downloadedSize_ this).
  - apply wp_setopt. do 3 apply wp_bind, wp_setopt. apply Hrest. by rewrite <- !app_assoc.
  - apply wp_ret. do 3 apply wp_bind, wp_setopt. apply Hrest. by rewrite <- !app_assoc.
Qed.

Lemma handed_blocks n d bs r reached :
  0 < n → cuts n d bs r →
  Forall (λ b, 0 < Z.of_nat (length b) <= n) (handed reached bs r) ∧ (reached = true → concat (handed reached bs r) = d).
Proof.
  intros Hn (-> & Hbs & Hr). unfold handed. split.
  - apply Forall_app. split; [eapply Forall_impl; [exact Hbs|cbn; lia]|].
    case_if; [|done]. breflect. constructor; [|done]. destruct r; [done|cbn in *; lia].
  - intros ->. rewrite concat_app. f_equal. cbn. case_if; breflect; [|done].
    apply app_nil_r.
Qed.

(** C26: A streamed package reaches the system installer in blocks of at most
    [BUFFER_SIZE - 1] bytes: the data from the record point on, cut into full blocks, and the
    rest once the whole file has arrived.  They do not depend on the pieces
    libcurl delivers nor on the progress it reports in between.  Handing over stops at
    the first block the installer refuses; the download succeeds exactly when all
    blocks are accepted and libcurl reports no error.  The copying loop ends. *)
Theorem stream_delivered this opts o w events code w1 bs r :
  downloadHandle_ this = Some opts → buffer_ this = [] → DealExitOrCancel this = false →
  curl_body (opts ++ body_options (downloadedSize_ this)) w = ((events, code), w1) → StopCalled ∉ events →
  0 <= downloadedSize_ this → downloadedSize_ this + Z.of_nat (length (body events)) <= totalFileSize_ this →
  totalFileSize_ this <= INT64_MAX → cuts N (body events) bs r →
  let complete := downloadedSize_ this + Z.of_nat (length (body events)) =? totalFileSize_ this in
  let blocks := handed complete bs r in
  wp (DownloadFile (C := C)) (this, (o, w)) (λ ok s',
    ok = Some (eval (deliver blocks) w1 && (code =? curl_ok)) ∧ s'.2 = (o, exec (deliver blocks) w1)) ∧
  Forall (λ b, 0 < Z.of_nat (length b) <= N) blocks ∧ (complete = true → concat blocks = body events).
Proof.
  intros Hopts Hbuf Hexit Hbody Hstop Hd Htotal Hmax Hcut complete blocks.
  split; [|by apply handed_blocks].
  assert (eval (curl_body (opts ++ body_options (downloadedSize_ this))) w = (events, code)) as He by (unfold eval; by rewrite Hbody).
  assert (exec (curl_body (opts ++ body_options (downloadedSize_ this))) w = w1) as Hw by (unfold exec; by rewrite Hbody).
  eapply wp_DownloadFile; [done|]. rewrite He, Hw. cbn [fst snd].
  eapply wp_mono; [|apply (perform_spec events code _ o w1 bs r); cbn [set_handle downloadedSize_ totalFileSize_ buffer_]; try done].
  - intros res s' [-> Hs']. split; [|done]. cbn [option_map]. f_equal.
    change (eval (deliver (handed _ bs r)) w1) with (eval (deliver blocks) w1).
    destruct (eval (deliver blocks) w1); [done|]. apply Z.eqb_neq, curl_write_error_not_ok.
  - unfold bufferPos_. cbn. by rewrite Hbuf.
  - by rewrite Hbuf.
Qed.

(** What the header callback of the second request writes to. *)
Definition header_target (opts : list CurlOpt) : option CallbackData :=
  fold_left (λ a x, match x with CURLOPT_HEADERDATA d => Some d | _ => a end) opts None.
(** The header callback of the download writes to a local variable of [CheckFileSize], which has returned. *)
Lemma header_data_dangling url recordPoint :
  header_target (head_options url ++ body_options recordPoint) = Some local_headerData.
Proof. unfold body_options. by destruct (0 <? recordPoint). Qed.
End stream.

(** *** One report for each run *)
Section report.
Context {W : Type} `{StreamKits W, !StreamLaws W}.
Implicit Types (this : t) (w : W).

(** The verdict on the first answer: [None] when the process ends. *)
Definition length_agrees (answer : list string * Z) (total : Z) : option bool :=
  if negb (answer.2 =? curl_ok) then Some false
  else option_map (λ n, match n with Some n => (0 <? n) && (n =? total) | None => false end)
         (ContentLength (fold_left HeaderCallback answer.1 "")).

Definition failed (reason : string) : Progress.t :=
  {| Progress.percent := 0; Progress.status := UpgradeStatus.DOWNLOAD_FAIL; Progress.endReason := reason |}.
Definition cancelled : Progress.t :=
  {| Progress.percent := 0; Progress.status := UpgradeStatus.DOWNLOAD_CANCEL; Progress.endReason := to_string DownloadEndReason.CANCEL |}.
Definition succeeded : Progress.t :=
  {| Progress.percent := 100; Progress.status := UpgradeStatus.DOWNLOAD_SUCCESS; Progress.endReason := "" |}.

Lemma wp_CheckFileSize {C} this o w (Q : option bool → t * (C * W) → Prop) :
  downloadHandle_ this = Some [] →
  let opts := head_options (serverUrl_ this) in
  Q (length_agrees (eval (curl_head opts) w) (totalFileSize_ this)) (set_handle (Some opts) this, (o, exec (curl_head opts) w)) →
  wp CheckFileSize (this, (o, w)) Q.
Proof.
  intros Hnil opts HQ. rewrite (set_handle_same this [] Hnil) at 1. unfold CheckFileSize. apply wp_bind, wp_this. cbn [fst].
  do 5 apply wp_bind, wp_setopt. apply wp_bind, wp_this, wp_bind, wp_on_world. unfold wp at 1. cbn [fst snd].
  change (options _) with opts. change (serverUrl_ (set_handle (Some []) this)) with (serverUrl_ this).
  revert HQ. unfold length_agrees. case_if; [done|].
  destruct (ContentLength _) as [[n|]|]; intros HQ; [|by apply wp_ret..].
  apply wp_bind, wp_this, wp_ret. cbn in HQ. cbn [fst set_handle totalFileSize_].
  by rewrite negb_orb, negb_involutive, Z.leb_antisym, negb_involutive.
Qed.

Lemma wp_exit_and_report {B} opts p st r (b : B) this log w (Q : B → t * (list Progress.t * W) → Prop) :
  downloadHandle_ this = opts →
  Q b (set_progress {| Progress.percent := p; Progress.status := st; Progress.endReason := r |} (set_handle None this),
       (log ++ [{| Progress.percent := p; Progress.status := st; Progress.endReason := r |}],
        if bool_decide (is_Some opts) then exec curl_easy_cleanup w else w)) →
  wp (ProcessThreadExit ;;; DownloadCallback (Some logged) p st r ;;; ret b) (this, (log, w)) Q.
Proof.
  intros Hopts HQ. apply wp_bind. unfold ProcessThreadExit. apply wp_bind, wp_this. cbn [fst]. rewrite Hopts. apply wp_bind.
  case_if; [apply wp_on_world; unfold wp at 1; cbn [fst snd]|apply wp_ret]; apply wp_set_this, wp_bind; unfold DownloadCallback;
    apply wp_bind, wp_set_this, wp_logged, wp_ret; exact HQ.
Qed.

(** Nothing but the report itself reaches the owner. *)
Definition owner_is {C} (o : C) (s : t * (C * W)) : Prop := s.2.1 = o.
Lemma stable_this {C A} (o : C) (f : t → A) : stable (owner_is o) (this_ (C := C) (W := W) f).
Proof. by intros s Hs. Qed.
Lemma stable_set_this {C} (o : C) f : stable (owner_is o) (set_this (T := t) (C := C) (W := W) f).
Proof. by intros s Hs. Qed.
Lemma stable_on_world {C A} (o : C) (m : ST W A) : stable (owner_is o) (on_world (T := t) m).
Proof. intros s Hs. apply wp_on_world. by apply wp_any. Qed.
Ltac stable_step :=
  repeat first [ apply stable_ret | apply stable_this | apply stable_set_this | apply stable_on_world | apply stable_if
               | apply stable_bind; [|intros ?] | progress cbn zeta ].
Lemma stable_WriteLoop {C} (o : C) fuel ptr p total : stable (owner_is o) (WriteLoop (W := W) fuel ptr p total).
Proof. revert ptr p. induction fuel as [|fuel IH]; intros ptr p; cbn [WriteLoop]; stable_step; apply IH. Qed.
Lemma stable_WriteFunc {C} (o : C) ptr : stable (owner_is o) (WriteFunc (W := W) ptr).
Proof. unfold WriteFunc. apply stable_bind; [apply stable_WriteLoop|]. intros [[|]|]; stable_step. Qed.
Lemma stable_perform {C} (o : C) events code : stable (owner_is o) (perform (W := W) events code).
Proof.
  induction events as [|[d|x y|] events IH]; cbn [perform].
  - stable_step.
  - apply stable_bind; [apply stable_WriteFunc|]. intros [n|]; stable_step; exact IH.
  - unfold DownloadProgress. stable_step; exact IH.
  - unfold StopDownload. stable_step; exact IH.
Qed.

(** One run of the worker tells its owner exactly one thing, and closes the handle first: a
    failure when libcurl cannot be initialised (the only case in which the worker goes
    on) or when the length the server announces is not that of the package, else that
    the download was cancelled or has succeeded: an error of the network is reported
    as a cancellation.  The run always ends; the process ends instead when the
    announced length does not fit 64 bits. *)
Theorem stream_reported this log w :
  bufferPos_ this < BUFFER_SIZE - 1 → (∀ opts w, pieces_small (eval (curl_body opts) w).1) →
  let opened := eval curl_easy_init w in
  let checked := length_agrees (eval (curl_head (head_options (serverUrl_ this))) (exec curl_easy_init w)) (totalFileSize_ this) in
  wp (ProcessThreadExecute (Some logged)) (this, (log, w)) (λ again s',
    again = None ∧ opened = true ∧ checked = None ∨
    again = Some (negb opened) ∧ downloadHandle_ s'.1 = None ∧ s'.2.1 = log ++ [downloadProgress_ s'.1] ∧
    if opened
    then checked = Some false ∧ downloadProgress_ s'.1 = failed (to_string DownloadEndReason.CURL_ERROR) ∨
         checked = Some true ∧ (downloadProgress_ s'.1 = cancelled ∨ downloadProgress_ s'.1 = succeeded)
    else downloadProgress_ s'.1 = failed "Failed to init curl").
Proof.
  intros Hbuf Hsmall opened checked. unfold ProcessThreadExecute.
  apply wp_bind, wp_on_world. unfold wp at 1. cbn [fst snd]. fold opened. apply wp_bind, wp_set_this. cbn [fst snd].
  destruct opened; cbn [negb]; [|eapply wp_exit_and_report; [reflexivity|]; by right].
  apply wp_bind, wp_CheckFileSize; [done|]. cbn zeta. cbn [serverUrl_ totalFileSize_ set_handle]. fold checked. destruct checked as [[|]|]; [|eapply wp_exit_and_report; [reflexivity|]; right; split_and!; try reflexivity; by left|by apply wp_ret; left].
  apply wp_bind, (wp_DownloadFile _ (head_options (serverUrl_ this))); [done|]. cbn zeta.
  match goal with |- wp (perform ?e ?c) ?s _ =>
    assert (wp (perform e c) s (λ r _, is_Some r)) as Htotal by (apply perform_total; [apply Hsmall|exact Hbuf]);
    assert (wp (perform e c) s (λ _ s', owner_is log s')) as Howner by (by apply stable_perform) end.
  unfold wp at 1. revert Htotal Howner. unfold wp at 1 2. destruct (eval (perform _ _) _) as [res|]; [intros _|by intros [??]].
  destruct (exec _ _) as [this' [log' w']]. unfold owner_is. cbn [fst snd option_map]. intros ->.
  destruct (res =? curl_ok); (eapply wp_exit_and_report; [reflexivity|]); right; split_and!; try reflexivity; right; (split; [done|]); [by right|by left].
Qed.
End report.

(** ** A package of five bytes, in two pieces *)
Module SampleStream.
#[local] Instance kits : StreamKits (list (list ascii)) := {
  curl_ok := 0; curl_write_error := 23; curl_aborted_by_callback := 42;
  curl_global_init := ret tt; curl_global_cleanup := ret tt;
  curl_easy_init := ret true; curl_easy_cleanup := ret tt;
  curl_head _ := ret (["HTTP/1.1 200 OK"; "Content-Length: 5"], 0);
  curl_body _ := ret ([BodyData (chars "he"); BodyProgress 5 2; BodyData (chars "llo")], 0);
  ProcessStreamData b := λ w, (0, w ++ [b]);
  new_thread := ret true
}.
#[local] Instance laws : StreamLaws (list (list ascii)).
Proof. split; done. Qed.

Definition fresh : t := {|
  downloadProgress_ := Progress.default; downloadHandle_ := None; buffer_ := []; serverUrl_ := ""; totalFileSize_ := 0;
  downloadedSize_ := 0; exitDownload_ := false; isCancel_ := false; thread_ := ProgressThread.default |}.
Definition started : t * (list Progress.t * list (list ascii)) := exec (StartDownload (C := list Progress.t) "http://server" 5 0) (fresh, ([], [])).

Lemma stream_delivered_witness :
  let this := set_handle (Some []) started.1 in
  (exec (DownloadFile (C := list Progress.t)) (this, ([], []))).2 = ([], [chars "hello"]).
Proof.
  intros this.
  assert (cuts (BUFFER_SIZE - 1) (body [BodyData (chars "he"); BodyProgress 5 2; BodyData (chars "llo")]) [] (chars "hello")) as Hcut
    by (split; [reflexivity|split; [constructor|reflexivity]]).
  refine (proj2 (proj1 (stream_delivered this [] [] [] _ 0 [] [] (chars "hello") eq_refl eq_refl eq_refl eq_refl _ _ _ _ Hcut))).
  - rewrite !not_elem_of_cons. split_and!; [discriminate..|]. apply not_elem_of_nil.
  - vm_compute. discriminate.
  - vm_compute. discriminate.
  - vm_compute. discriminate.
Defined.

Lemma stream_reported_witness :
  (exec (ProcessThreadExecute (Some logged)) started).2.1 = [succeeded].
Proof.
  assert (∀ (opts : list CurlOpt) (w : list (list ascii)), pieces_small (eval (curl_body opts) w).1) as Hsmall
    by (intros; repeat constructor; vm_compute; done).
  destruct (stream_reported started.1 [] [] eq_refl Hsmall) as [(_ & _ & H)|(_ & _ & Hlog & [[H _]|[_ [H|H]]])];
    [discriminate H|discriminate H| |].
  - vm_compute in H. discriminate H.
  - change (exec (ProcessThreadExecute (Some logged)) started) with (exec (ProcessThreadExecute (Some logged)) (started.1, ([] : list Progress.t, [] : list (list ascii)))).
    rewrite Hlog, H. reflexivity.
Defined.
End SampleStream.
