(* ===== verification/Net.v ===== *)
(** * The network

    Models [services/utils]: [dupdate_net_manager.cpp] (the current network type and
    the listeners of its changes) and [dupdate_net_observer.cpp] (what the system
    tells about networks).  A listener is a computation on the state of the rest of
    the service; it reaches the manager only through its argument, since the
    manager holds its lock while it calls.  The queue of the calls made at a
    registration is a list, run by [run_queue].  A build without the network service
    of the system has [dupdate_net_manager_empty.cpp] instead, whose methods do nothing
    and for which a network is always there; it is not modelled. *)
From Stdlib Require Import ZArith Lia.
From stdpp Require Import base tactics list gmap sets sorting.
From S2P Require Import Prelude Models DownloadService.

#[local] Open Scope Z_scope.

Module NetChangeCallbackType.
(*@* services/utils/include/dupdate_inet_observer.h NetChangeCallbackType *)
Definition HOTA_BI_REPORT : Z := 0.
Definition HOTA_DOWNLOAD : Z := 1.
Definition PARAM_AUTO_UPGRADE : Z := 2.
Definition COMMON_DOWNLOAD : Z := 3.
End NetChangeCallbackType.

(** [function] may be empty. *)
Module NetChangeCallback.
(*@ services/utils/include/dupdate_net_manager.h NetChangeCallback *)
Record t (W : Type) := { netTypes : gset Z; function : option (Z → ST W unit) }.
Arguments netTypes {W} _.
Arguments function {W} _.
End NetChangeCallback.

Module NetManager.
(** A [std::map] and a [std::set] are traversed in the order of their keys. *)
Definition ordered (s : gset Z) : list Z := merge_sort Z.le (elements s).

(** [onNetChangeQueue_]: the calls submitted and not yet made. *)
(*@ services/utils/include/dupdate_net_manager.h:60-63 NetManager *)
Record t (W : Type) := {
  netType_ : Z;
  netChangeCallbackMap_ : gmap Z (NetChangeCallback.t W);
  onNetChangeQueue_ : list (option (Z → ST W unit) * Z)
}.
Arguments netType_ {W} _.
Arguments netChangeCallbackMap_ {W} _.
Arguments onNetChangeQueue_ {W} _.
(*@ services/utils/include/dupdate_net_manager.h:60-63 NetManager *)
Definition new {W} : t W := {| netType_ := NetType.NO_NET; netChangeCallbackMap_ := ∅; onNetChangeQueue_ := [] |}.

#[local] Notation IsNetAvailable := DownloadService.NetManager.IsNetAvailable.
(*@ services/utils/src/dupdate_net_manager.cpp NetManager::IsBaseNetType *)
Definition IsBaseNetType (netType : Z) : bool :=
  (netType =? NetType.NO_NET) || (netType =? NetType.CELLULAR) || (netType =? NetType.METERED_WIFI) ||
  (netType =? NetType.NOT_METERED_WIFI).
(*@ services/utils/src/dupdate_net_manager.cpp NetManager::GetNetType *)
Definition GetNetType {W} (this : t W) : Z := netType_ this.

Section ops.
Context {W : Type}.
#[local] Notation Manager := (ST (t W * W)).

Definition set_map (m : gmap Z (NetChangeCallback.t W)) (this : t W) : t W :=
  {| netType_ := netType_ this; netChangeCallbackMap_ := m; onNetChangeQueue_ := onNetChangeQueue_ this |}.
Definition set_type (netType : Z) (this : t W) : t W :=
  {| netType_ := netType; netChangeCallbackMap_ := netChangeCallbackMap_ this; onNetChangeQueue_ := onNetChangeQueue_ this |}.
Definition set_queue (q : list (option (Z → ST W unit) * Z)) (this : t W) : t W :=
  {| netType_ := netType_ this; netChangeCallbackMap_ := netChangeCallbackMap_ this; onNetChangeQueue_ := q |}.

(*@ services/utils/src/dupdate_net_manager.cpp NetManager::RegisterCallback *)
Definition RegisterCallback (callbackType : Z) (netTypes : gset Z) (cb : option (Z → ST W unit)) : Manager bool :=
  if bool_decide (netTypes = ∅) then ret false
  else if negb (forallb IsBaseNetType (ordered netTypes)) then ret false
  else
    set_own (λ this, set_map (<[callbackType := {| NetChangeCallback.netTypes := netTypes; NetChangeCallback.function := cb |}]>
                               (netChangeCallbackMap_ this)) this) ;;;
    let* current := own_ netType_ in
    (match List.find (IsNetAvailable current) (ordered netTypes) with
     | Some netType => set_own (λ this, set_queue (onNetChangeQueue_ this ++ [(cb, netType)]) this)
     | None => ret tt
     end) ;;;
    ret true.
(*@ services/utils/src/dupdate_net_manager.cpp NetManager::UnregisterCallback *)
Definition UnregisterCallback (callbackType : Z) : Manager unit :=
  set_own (λ this, set_map (delete callbackType (netChangeCallbackMap_ this)) this).

(** The loop over the listeners: an empty one that is interested is never passed
    ([continue] skips the increment), so that the loop does not end: [None]. *)
(*@ services/utils/src/dupdate_net_manager.cpp:106-116 NetManager::OnNetChange *)
Fixpoint notify_each (netType : Z) (l : list (NetChangeCallback.t W)) : Manager (option unit) :=
  match l with
  | [] => ret (Some tt)
  | c :: l =>
      if bool_decide (netType ∈ NetChangeCallback.netTypes c) then
        match NetChangeCallback.function c with
        | None => ret None
        | Some f => env_ (f netType) ;;; notify_each netType l
        end
      else notify_each netType l
  end.
Definition callbacks (m : gmap Z (NetChangeCallback.t W)) : list (NetChangeCallback.t W) :=
  omap (λ k, m !! k) (ordered (dom m)).
(** [None]: does not return. *)
(*@ services/utils/src/dupdate_net_manager.cpp NetManager::OnNetChange *)
Definition OnNetChange (netType : Z) : Manager (option bool) :=
  if negb (IsBaseNetType netType) then ret (Some false)
  else
    let* current := own_ netType_ in
    if netType =? current then ret (Some true)
    else
      set_own (set_type netType) ;;;
      let* m := own_ netChangeCallbackMap_ in
      let* r := notify_each netType (callbacks m) in
      ret (option_map (λ _, true) r).

(** The queue makes a submitted call; an empty function throws, which the queue does not survive: [None]. *)
Definition run_queue : Manager (option unit) :=
  let* q := own_ onNetChangeQueue_ in
  match q with
  | [] => ret (Some tt)
  | (cb, netType) :: q =>
      set_own (set_queue q) ;;;
      match cb with None => ret None | Some f => env_ (f netType) ;;; ret (Some tt) end
  end.
End ops.
End NetManager.

(** ** The observer of the system *)
(** The constants of the network service of the system, and the registration with it. *)
Class NetConnKits (W : Type) := {
  NET_CONN_SUCCESS : Z;
  NET_CAPABILITY_INTERNET : Z;
  BEARER_CELLULAR : Z;
  BEARER_WIFI : Z;
  BEARER_ETHERNET : Z;
  BEARER_WIFI_AWARE : Z;
  RegisterNetConnCallback : ST W Z;
  sleep : Z → ST W unit
}.
(** The capabilities of a network. *)
Record NetAllCapabilities := { netCaps_ : gset Z; bearerTypes_ : gset Z }.

Module NetObserver.
(** [alive]: has the manager not been released. *)
(*@ services/utils/include/dupdate_net_observer.h:39-39 NetObserver *)
Record t := { alive : bool }.
Section ops.
Context {W : Type} `{NetConnKits W}.
#[local] Notation Manager := (ST (NetManager.t W * W)).

(*@ services/utils/src/dupdate_net_observer.cpp NetObserver::OnNetChange *)
Definition OnNetChange (this : t) (netType : Z) : Manager (option unit) :=
  if negb (alive this) then ret (Some tt)
  else let* r := NetManager.OnNetChange netType in ret (option_map (λ _, tt) r).
(** [None]: does not return. *)
(*@ services/utils/src/dupdate_net_observer.cpp NetObserver::NetCapabilitiesChange *)
Definition NetCapabilitiesChange (this : t) (netAllCap : option NetAllCapabilities) : Manager (option Z) :=
  let told netType := let* r := OnNetChange this netType in ret (option_map (λ _, 0) r) in
  match netAllCap with
  | None => ret (Some 0)
  | Some c =>
      if negb (bool_decide (NET_CAPABILITY_INTERNET ∈ netCaps_ c)) then told NetType.NO_NET
      else if bool_decide (BEARER_ETHERNET ∈ bearerTypes_ c) || bool_decide (BEARER_WIFI ∈ bearerTypes_ c) then
        told NetType.NOT_METERED_WIFI
      else if bool_decide (BEARER_WIFI_AWARE ∈ bearerTypes_ c) then told NetType.METERED_WIFI
      else if bool_decide (BEARER_CELLULAR ∈ bearerTypes_ c) then told NetType.CELLULAR
      else ret (Some 0)
  end.
(*@ services/utils/src/dupdate_net_observer.cpp NetObserver::NetLost *)
Definition NetLost (this : t) : Manager (option Z) :=
  let* r := OnNetChange this NetType.NO_NET in ret (option_map (λ _, 0) r).

(*@ services/utils/src/dupdate_net_observer.cpp:54-54 RETRY_MAX_TIMES *)
Definition RETRY_MAX_TIMES : nat := 10.
(** The loop of the registering thread, which runs on its own. *)
(*@ services/utils/src/dupdate_net_observer.cpp:57-65 NetObserver::StartObserver *)
Fixpoint register_loop (times : nat) : ST W bool :=
  match times with
  | O => ret false
  | S times =>
      let* r := RegisterNetConnCallback in
      if r =? NET_CONN_SUCCESS then ret true
      else sleep 1 ;;; register_loop times
  end.
(** [observed]: does the observer still exist when the thread runs. *)
(*@ services/utils/src/dupdate_net_observer.cpp NetObserver::StartObserver *)
Definition StartObserver (observed : bool) : ST W bool :=
  if negb observed then ret false else register_loop RETRY_MAX_TIMES.
End ops.
End NetObserver.

(** ** Properties *)
Import NetManager.
Section changes.
Context {W : Type}.
#[local] Notation IsNetAvailable := DownloadService.NetManager.IsNetAvailable.
Implicit Types (this : t W) (w : W) (c : NetChangeCallback.t W).

(** The changes among the types the observer tells, from the current one. *)
Fixpoint changes (current : Z) (told : list Z) : list Z :=
  match told with
  | [] => []
  | n :: told => if IsBaseNetType n && negb (n =? current) then n :: changes n told else changes current told
  end.
(** The type kept. *)
Definition last_told (current : Z) (told : list Z) : Z := List.last (changes current told) current.
(** One change, told to each listener that is interested, in the order of the map. *)
Definition hear (n : Z) (c : NetChangeCallback.t W) : ST W unit :=
  if bool_decide (n ∈ NetChangeCallback.netTypes c)
  then match NetChangeCallback.function c with Some f => f n | None => ret tt end else ret tt.
Definition tell (m : gmap Z (NetChangeCallback.t W)) (n : Z) : ST W unit := for_each (callbacks m) (hear n).
Definition no_empty_listener (m : gmap Z (NetChangeCallback.t W)) : Prop :=
  ∀ k c, m !! k = Some c → is_Some (NetChangeCallback.function c).

Lemma notify_each_tells n l this w :
  Forall (λ c, is_Some (NetChangeCallback.function c)) l →
  notify_each n l (this, w) =
    (Some tt, (this, exec (for_each l (hear n)) w)).
Proof.
  intros Hl. revert w. induction Hl as [|c l [f Hf] Hl IH]; intros w; [done|].
  cbn [notify_each for_each]. rewrite exec_bind. unfold hear at 2. rewrite Hf. case_bool_decide; [|by rewrite exec_ret, IH].
  unfold bind, env_, exec at 2. cbn [fst snd]. destruct (f n w) as [[] w']. cbn [snd]. apply IH.
Qed.
Lemma callbacks_some m : no_empty_listener m → Forall (λ c, is_Some (NetChangeCallback.function c)) (callbacks m).
Proof.
  intros Hm. apply Forall_forall. intros c Hc. unfold callbacks in Hc.
  apply list_elem_of_omap in Hc as (k & _ & Hk). by eapply Hm.
Qed.

Lemma OnNetChange_outcome n this w :
  no_empty_listener (netChangeCallbackMap_ this) →
  wp (OnNetChange n) (this, w) (λ r s',
    r = Some (IsBaseNetType n) ∧
    s' = if IsBaseNetType n && negb (n =? netType_ this)
         then (set_type n this, exec (tell (netChangeCallbackMap_ this) n) w) else (this, w)).
Proof.
  intros Hm. unfold OnNetChange. destruct (IsBaseNetType n); cbn [negb andb]; [|by apply wp_ret].
  apply wp_bind, wp_own_. cbn [fst]. destruct (n =? netType_ this) eqn:E; cbn [negb]; [by apply wp_ret|].
  apply wp_bind, wp_set_own, wp_bind, wp_own_, wp_bind. unfold wp at 1, eval, exec. cbn [fst snd].
  rewrite notify_each_tells; [|by apply callbacks_some]. by apply wp_ret.
Qed.

(** All that the observer tells, in order. *)
Fixpoint told_all (told : list Z) : ST (t W * W) (list (option bool)) :=
  match told with
  | [] => ret []
  | n :: told => let* r := OnNetChange n in let* rs := told_all told in ret (r :: rs)
  end.

Lemma last_cons {A} (x d : A) l : List.last (x :: l) d = List.last l x.
Proof. revert x d. induction l as [|y l IH]; intros x d; [done|]. change (List.last (y :: l) d = List.last (y :: l) x). by rewrite !IH. Qed.

(** C27: Whatever sequence of network types the observer tells, the listeners are called exactly
    for its changes, each listener once for each change it has registered for, in the
    order of the kinds of listener; a type told again, or one that is not a basic type,
    calls nobody; the type kept is the last basic one told. *)
Theorem changes_notified told this w :
  no_empty_listener (netChangeCallbackMap_ this) →
  wp (told_all told) (this, w) (λ rs s',
    rs = map (λ n, Some (IsBaseNetType n)) told ∧
    s' = (set_type (last_told (netType_ this) told) this, exec (for_each (changes (netType_ this) told) (tell (netChangeCallbackMap_ this))) w)).
Proof.
  intros Hm. revert this w Hm. induction told as [|n told IH]; intros this w Hm.
  - apply wp_ret. split; [done|]. unfold last_told. cbn. by destruct this.
  - cbn [told_all map changes]. apply wp_bind. eapply wp_mono; [|by apply OnNetChange_outcome].
    intros r s' [-> ->]. apply wp_bind. unfold last_told. cbn [changes].
    destruct (IsBaseNetType n && negb (n =? netType_ this)).
    + eapply wp_mono; [|by apply (IH (set_type n this))]. intros rs s'' [-> ->]. apply wp_ret. split; [done|].
      rewrite exec_for_each_cons, last_cons. done.
    + eapply wp_mono; [|by apply IH]. intros rs s'' [-> ->]. by apply wp_ret.
Qed.

Lemma find_app_first {A} (p : A → bool) l x : List.find p l = Some x → ∃ l1 l2, l = l1 ++ x :: l2 ∧ forallb (λ y, negb (p y)) l1 = true ∧ p x = true.
Proof.
  induction l as [|y l IH]; cbn; [done|]. destruct (p y) eqn:E.
  - intros [= ->]. by exists [], l.
  - intros (l1 & l2 & -> & Hl1 & Hx)%IH. exists (y :: l1), l2. cbn. by rewrite E, Hl1.
Qed.

(** Registering a listener: it is refused, and changes nothing, without types or with a type
    that is not a basic one; otherwise it replaces the listener of its kind, is told at
    once (through the queue) the first of its types that is available now, and is never called for
    the absence of a network at that point. *)
Theorem register_outcome callbackType netTypes cb this w :
  wp (RegisterCallback callbackType netTypes cb) (this, w) (λ r s',
    if negb (bool_decide (netTypes = ∅)) && forallb IsBaseNetType (ordered netTypes)
    then r = true ∧ s'.2 = w ∧ netType_ s'.1 = netType_ this ∧
         netChangeCallbackMap_ s'.1 = <[callbackType := {| NetChangeCallback.netTypes := netTypes; NetChangeCallback.function := cb |}]> (netChangeCallbackMap_ this) ∧
         (onNetChangeQueue_ s'.1 = onNetChangeQueue_ this ∧ Forall (λ n, IsNetAvailable (netType_ this) n = false) (ordered netTypes) ∨
          ∃ n before after, onNetChangeQueue_ s'.1 = onNetChangeQueue_ this ++ [(cb, n)] ∧ ordered netTypes = before ++ n :: after ∧
            Forall (λ n, IsNetAvailable (netType_ this) n = false) before ∧ IsNetAvailable (netType_ this) n = true ∧ n ≠ NetType.NO_NET)
    else r = false ∧ s' = (this, w)).
Proof.
  unfold RegisterCallback. case_bool_decide; cbn [negb andb]; [by apply wp_ret|].
  destruct (forallb IsBaseNetType (ordered netTypes)); cbn [negb]; [|by apply wp_ret].
  apply wp_bind, wp_set_own, wp_bind, wp_own_, wp_bind. cbn [fst snd set_map netType_].
  assert (∀ l, forallb (λ y, negb (IsNetAvailable (netType_ this) y)) l = true → Forall (λ n, IsNetAvailable (netType_ this) n = false) l) as Hno.
  { intros l Hl. apply Forall_forall. intros n Hn. rewrite forallb_forall in Hl. apply negb_true_iff, Hl. by apply list_elem_of_In. }
  destruct (List.find _ _) as [n|] eqn:Hfind.
  - apply wp_set_own, wp_ret. split_and!; [done..|]. right.
    apply find_app_first in Hfind as (l1 & l2 & Hl & Hl1 & Hn). exists n, l1, l2. split_and!; auto.
    intros ->. unfold IsNetAvailable in Hn. by rewrite Z.land_0_r in Hn.
  - apply wp_ret, wp_ret. split_and!; [done..|]. left. split; [done|]. apply Forall_forall. intros n Hn.
    eapply find_none; [exact Hfind|]. by apply list_elem_of_In.
Qed.

(** A listener whose function is empty: a change it is interested in is never told to the end. *)
Lemma empty_listener_hangs m c n this w :
  netChangeCallbackMap_ this = m → callbacks m = [c] → NetChangeCallback.function c = None → n ∈ NetChangeCallback.netTypes c →
  IsBaseNetType n = true → n ≠ netType_ this → eval (OnNetChange n) (this, w) = None.
Proof.
  intros Hm Hc Hf Hn Hbase Hne. unfold OnNetChange. rewrite Hbase. cbn [negb]. unfold eval, bind, own_, set_own. cbn [fst snd].
  rewrite (proj2 (Z.eqb_neq _ _) Hne). cbn [fst snd set_type netChangeCallbackMap_]. rewrite Hm, Hc. cbn [notify_each].
  rewrite bool_decide_true by done. by rewrite Hf.
Qed.
End changes.


(** The registering thread asks at most ten times and stops at the first success. *)
Lemma register_loop_asks {W : Type} `{NetConnKits W} (asked : W → nat) times w :
  (∀ w, asked (exec RegisterNetConnCallback w) = S (asked w)) → (∀ n w, asked (exec (sleep n) w) = asked w) →
  wp (NetObserver.register_loop times) w (λ r w', (asked w' <= asked w + times)%nat ∧ (r = false → asked w' = (asked w + times)%nat)).
Proof.
  intros Hreg Hsleep. revert w. induction times as [|times IH]; intros w; cbn [NetObserver.register_loop]; [apply wp_ret; lia|].
  apply wp_bind. unfold wp at 1. case_if; [apply wp_ret; rewrite Hreg; split; [lia|done]|].
  apply wp_bind. unfold wp at 1. eapply wp_mono; [|apply IH]. intros r w'. cbn beta. rewrite Hsleep, Hreg.
  intros [Hle Hr]. split; [lia|]. intros Hf. rewrite (Hr Hf). lia.
Qed.

(** ** Two listeners *)
Module SampleNet.
Definition log := list (Z * Z).
Definition listener (k : Z) (types : gset Z) : NetChangeCallback.t log :=
  {| NetChangeCallback.netTypes := types; NetChangeCallback.function := Some (λ n, modify (λ l, l ++ [(k, n)])) |}.
Definition this : t log := {|
  netType_ := NetType.NO_NET;
  netChangeCallbackMap_ := <[NetChangeCallbackType.COMMON_DOWNLOAD := listener 3 {[0; 1; 2; 4]}]> (<[NetChangeCallbackType.HOTA_DOWNLOAD := listener 1 {[1; 4]}]> ∅);
  onNetChangeQueue_ := [] |}.

Lemma changes_notified_witness :
  exec (told_all [4; 4; 7; 0; 1]) (this, []) =
    (set_type NetType.CELLULAR this, [(1, 4); (3, 4); (3, 0); (1, 1); (3, 1)]).
Proof.
  assert (no_empty_listener (netChangeCallbackMap_ this)) as Hm.
  { intros k c. cbn. rewrite !lookup_insert_Some. intros [[_ <-]|[_ [[_ <-]|[_ Hk]]]]; [by eexists..|]. by rewrite lookup_empty in Hk. }
  refine (eq_trans (proj2 (changes_notified [4; 4; 7; 0; 1] this [] Hm)) _). vm_compute. reflexivity.
Defined.
End SampleNet.
