(* ===== verification/Sha.v ===== *)
(** * SHA-256 of files and strings

    Models [core/ability/utils/src/sha256_utils.cpp].  OpenSSL's hash functions are
    the class [OpenSsl] with its laws: the calls succeed, and hashing the pieces of
    some data hashes the data.  An opened file is its content and whether reading
    fails after it ([std::ifstream] then sets the bad bit, not the end-of-file bit).
    A loop that may not end has fuel: one unit per read. *)
From Stdlib Require Import ZArith Lia Ascii String.
From stdpp Require Import base tactics list strings gmap.
From S2P Require Import Prelude CppString Models Database FirmwareDb FirmwareStore FirmwareWorld Files.

#[local] Open Scope Z_scope.

Class OpenSsl := {
  SHA256_CTX : Type;
  SHA256_Init : Z * SHA256_CTX;
  SHA256_Update : SHA256_CTX → list ascii → Z * SHA256_CTX;
  SHA256_Final : SHA256_CTX → Z * list Z
}.
Class OpenSslLaws `{OpenSsl} : Prop := {
  init_ok : SHA256_Init.1 = 1;
  update_ok c d : (SHA256_Update c d).1 = 1;
  final_ok c : (SHA256_Final c).1 = 1;
  update_app c d1 d2 : (SHA256_Update (SHA256_Update c d1).2 d2).2 = (SHA256_Update c (d1 ++ d2)).2;
  digest_length c : length (SHA256_Final c).2 = 32%nat;
  digest_bytes c : Forall (λ b, 0 <= b < 256) (SHA256_Final c).2
}.
(** Files, memory and time. *)
Class ShaKits (E : Type) := {
  open_binary : E → string → option (list ascii * bool);
  malloc : E → Z → bool;
  sleep_for : Z → ST E unit
}.

Module Sha256ErrCode.
(*@* core/ability/utils/include/sha256_utils.h Sha256ErrCode *)
Definition SUCCESS : Z := 0.
Definition FILE_NOT_EXIST : Z := -1.
Definition SHA256_NOT_MATCH : Z := -2.
Definition OBTAIN_FILE_SHA256_FAIL : Z := -3.
End Sha256ErrCode.
(*@ core/ability/utils/include/sha256_utils.h Sha256DelayScene *)
Inductive Sha256DelayScene := SCREEN_ON_AND_OUC_NOT_DISPLAY | SCREEN_OFF_OR_OUC_DISPLAY.
Module Sha256VerifyResult.
(*@ core/ability/utils/include/sha256_utils.h Sha256VerifyResult *)
Record t := { sha256ErrCode : Z; sha256Result : string }.
End Sha256VerifyResult.
Module Sha256DelayParam.
(*@ core/ability/utils/include/sha256_utils.h Sha256DelayParam *)
Record t := { isNeedDelay : bool; delayCycleCount : Z; sleepDurationPerTimes : Z }.
End Sha256DelayParam.

Module Sha256Utils.
(** [Sha256DelayStrategyMap_] has an entry for each scene. *)
(*@ core/ability/utils/include/sha256_utils.h:72-77 Sha256Utils *)
Record t := { sha256DelayScene_ : Sha256DelayScene; isNeedStop_ : bool }.
(*@ core/ability/utils/include/sha256_utils.h:73-76 Sha256DelayStrategyMap_ *)
Definition Sha256DelayStrategyMap_ (scene : Sha256DelayScene) : Sha256DelayParam.t :=
  match scene with
  | SCREEN_ON_AND_OUC_NOT_DISPLAY =>
      {| Sha256DelayParam.isNeedDelay := true; Sha256DelayParam.delayCycleCount := 1300; Sha256DelayParam.sleepDurationPerTimes := 1 |}
  | SCREEN_OFF_OR_OUC_DISPLAY =>
      {| Sha256DelayParam.isNeedDelay := true; Sha256DelayParam.delayCycleCount := 4000; Sha256DelayParam.sleepDurationPerTimes := 1 |}
  end.
(*@* core/ability/utils/src/sha256_utils.cpp = *)
Definition OPENSSL_SUCCESS : Z := 1.
Definition SHA256_STRING_LEN : Z := 65.
Definition SHA256_LENGTH : Z := 32.
Definition MAX_BUFFER_LENGTH : Z := 1024.
Definition SHA256_TO_STRING_STEP : Z := 2.

(*@ core/ability/utils/src/sha256_utils.cpp Sha256Utils::SetDelayStatus *)
Definition SetDelayStatus (scene : Sha256DelayScene) (this : t) : t :=
  {| sha256DelayScene_ := scene; isNeedStop_ := isNeedStop_ this |}.

(** [%02x] of a byte. *)
Definition hex_digit (d : Z) : ascii := ascii_of_nat (Z.to_nat (if d <? 10 then 48 + d else 87 + d)).
Definition hex_byte (b : Z) : list ascii := [hex_digit (b / 16); hex_digit (b mod 16)].

(** The digits written and the verdict; [sprintf_s] needs room for two digits and a NUL. *)
(*@ core/ability/utils/src/sha256_utils.cpp Sha256Utils::TransDigestToSha256Result *)
Fixpoint TransDigest_loop (i : Z) (digest : list Z) (componentIdLen : Z) (sha256Result : list ascii) : bool * list ascii :=
  match digest with
  | [] => (true, sha256Result)
  | b :: digest =>
      let deviation := i * SHA256_TO_STRING_STEP in
      if componentIdLen <=? deviation then (false, sha256Result)
      else if componentIdLen - deviation <? 3 then (false, sha256Result)
      else TransDigest_loop (i + 1) digest componentIdLen (sha256Result ++ hex_byte b)
  end.
(*@ core/ability/utils/src/sha256_utils.cpp Sha256Utils::TransDigestToSha256Result *)
Definition TransDigestToSha256Result (componentIdLen : Z) (digest : list Z) : bool * list ascii :=
  TransDigest_loop 0 digest componentIdLen [].

(** A C string ends at the first NUL; [strcasecmp] ignores the case of letters. *)
Definition c_str (s : string) : list ascii := take_while (λ c, negb (Ascii.eqb c "000"%char)) (chars s).
Definition tolower (c : ascii) : ascii :=
  let n := nat_of_ascii c in if (65 <=? n)%nat && (n <=? 90)%nat then ascii_of_nat (n + 32) else c.
Definition same_ignoring_case (a b : list ascii) : bool := bool_decide (map tolower a = map tolower b).

(** The digest before anything has been written to it. *)
Definition zero_digest : list Z := replicate 32 0.

Section strings.
Context `{OpenSsl}.
(*@ core/ability/utils/src/sha256_utils.cpp Sha256Utils::Sha256Calculate *)
Definition Sha256Calculate (input : list ascii) (componentIdLen : Z) : bool * list ascii :=
  if negb (SHA256_Init.1 =? OPENSSL_SUCCESS) then (false, [])
  else
    let (updateRet, ctx) := SHA256_Update SHA256_Init.2 input in
    if negb (updateRet =? OPENSSL_SUCCESS) then (false, [])
    else
      let (finishRet, digest) := SHA256_Final ctx in
      if negb (finishRet =? OPENSSL_SUCCESS) then (false, [])
      else TransDigestToSha256Result componentIdLen digest.
(*@ core/ability/utils/src/sha256_utils.cpp Sha256Utils::CalculateHashCode *)
Definition CalculateHashCode (inputStr : string) : string :=
  let (ok, result) := Sha256Calculate (chars inputStr) SHA256_STRING_LEN in
  if negb ok then "" else str result.
End strings.

Section files.
Context {E : Type} `{OpenSsl, ShaKits E, FileSystem E, Platform E}.

(** The loop of the method with a callback.  [content]: what is left in the file. *)
(*@ core/ability/utils/src/sha256_utils.cpp:121-136 Sha256Utils::GetDigestFromFile *)
Fixpoint read_loop (fuel : nat) (this : t) (delayParam : Sha256DelayParam.t) (callback : option (Z → ST E unit))
    (content : list ascii) (bad : bool) (ctx : SHA256_CTX) (cycleCount bytesRead : Z) : ST E (option SHA256_CTX) :=
  match fuel with
  | O => ret None
  | S fuel =>
      let buffer := take (Z.to_nat MAX_BUFFER_LENGTH) content in
      let gcount := Z.of_nat (length buffer) in
      let eof := (gcount <? MAX_BUFFER_LENGTH) && negb bad in
      let ctx := (SHA256_Update ctx buffer).2 in
      if isNeedStop_ this then ret (Some ctx)
      else
        let cycleCount := cycleCount + 1 in
        (when Sha256DelayParam.isNeedDelay delayParam && (Z.rem cycleCount (Sha256DelayParam.delayCycleCount delayParam) =? 0)
         do sleep_for (Sha256DelayParam.sleepDurationPerTimes delayParam)) ;;;
        let bytesRead := bytesRead + gcount in
        (match callback with None => ret tt | Some f => f bytesRead end) ;;;
        if eof then ret (Some ctx)
        else read_loop fuel this delayParam callback (drop (Z.to_nat MAX_BUFFER_LENGTH) content) bad ctx cycleCount bytesRead
  end.
(** One read for each full buffer, and the last. *)
Definition reads (content : list ascii) : nat := S (length content / 1024).

(** The result and the digest; [None] when the loop does not end. *)
(*@ core/ability/utils/src/sha256_utils.cpp:93-141 Sha256Utils::GetDigestFromFile *)
Definition GetDigestFromFile (this : t) (fileName : string) (digest : list Z) (callback : option (Z → ST E unit)) : ST E (option (bool * list Z)) :=
  let* realPath := gets (λ e, realpath e fileName) in
  match realPath with
  | None => ret (Some (false, digest))
  | Some realPath =>
      let* file := gets (λ e, open_binary e realPath) in
      match file with
      | None => ret (Some (false, digest))
      | Some (content, bad) =>
          let* buffer := gets (λ e, malloc e 1024) in
          if negb buffer then ret (Some (false, digest))
          else
            let* ctx := read_loop (reads content) this (Sha256DelayStrategyMap_ (sha256DelayScene_ this)) callback
                          content bad SHA256_Init.2 0 0 in
            ret (option_map (λ ctx, (true, (SHA256_Final ctx).2)) ctx)
      end
  end.
(** The result of [GetDigestFromFile] is not looked at. *)
(*@ core/ability/utils/src/sha256_utils.cpp:160-166 Sha256Utils::GetFileSha256Str *)
Definition GetFileSha256Str (this : t) (fileName : string) (len : Z) (callback : option (Z → ST E unit)) : ST E (option (bool * list ascii)) :=
  let* r := GetDigestFromFile this fileName zero_digest callback in
  ret (option_map (λ r, TransDigestToSha256Result len r.2) r).

(*@ core/ability/utils/src/sha256_utils.cpp Sha256Utils::GetFileSha256VerifyResult *)
Definition GetFileSha256VerifyResult (this : t) (fileName sha256String : string) (callback : option (Z → ST E unit)) : ST E (option Sha256VerifyResult.t) :=
  let* there := gets (λ e, FirmwareWorld.FileUtils.IsFileExist e fileName) in
  if negb there then
    ret (Some {| Sha256VerifyResult.sha256ErrCode := Sha256ErrCode.FILE_NOT_EXIST; Sha256VerifyResult.sha256Result := "" |})
  else
    let* r := GetFileSha256Str this fileName SHA256_STRING_LEN callback in
    ret (option_map (λ r : bool * list ascii,
      let (ok, sha256Result) := r in
      if negb ok then
        {| Sha256VerifyResult.sha256ErrCode := Sha256ErrCode.OBTAIN_FILE_SHA256_FAIL; Sha256VerifyResult.sha256Result := str sha256Result |}
      else if negb (same_ignoring_case sha256Result (c_str sha256String)) then
        {| Sha256VerifyResult.sha256ErrCode := Sha256ErrCode.SHA256_NOT_MATCH; Sha256VerifyResult.sha256Result := str sha256Result |}
      else {| Sha256VerifyResult.sha256ErrCode := Sha256ErrCode.SUCCESS; Sha256VerifyResult.sha256Result := "" |}) r).

(** The static methods, without a callback, check what OpenSSL returns. *)
(*@ core/ability/utils/src/sha256_utils.cpp:196-204 Sha256Utils::GetDigestFromFile *)
Fixpoint read_checked (fuel : nat) (content : list ascii) (bad : bool) (ctx : SHA256_CTX) : option (option SHA256_CTX) :=
  match fuel with
  | O => None
  | S fuel =>
      let buffer := take (Z.to_nat MAX_BUFFER_LENGTH) content in
      let eof := (Z.of_nat (length buffer) <? MAX_BUFFER_LENGTH) && negb bad in
      let (updateRet, ctx) := SHA256_Update ctx buffer in
      if negb (updateRet =? OPENSSL_SUCCESS) then Some None
      else if eof then Some (Some ctx)
      else read_checked fuel (drop (Z.to_nat MAX_BUFFER_LENGTH) content) bad ctx
  end.
(*@ core/ability/utils/src/sha256_utils.cpp:168-213 Sha256Utils::GetDigestFromFile *)
Definition GetDigestFromFile_checked (e : E) (fileName : string) (digest : list Z) : option (bool * list Z) :=
  match realpath e fileName with
  | None => Some (false, digest)
  | Some realPath =>
      match open_binary e realPath with
      | None => Some (false, digest)
      | Some (content, bad) =>
          if negb (malloc e MAX_BUFFER_LENGTH) then Some (false, digest)
          else if negb (SHA256_Init.1 =? OPENSSL_SUCCESS) then Some (false, digest)
          else
            match read_checked (reads content) content bad SHA256_Init.2 with
            | None => None
            | Some None => Some (false, digest)
            | Some (Some ctx) =>
                let (finishRet, digest) := SHA256_Final ctx in
                Some (finishRet =? OPENSSL_SUCCESS, digest)
            end
      end
  end.
(*@ core/ability/utils/src/sha256_utils.cpp:215-220 Sha256Utils::GetFileSha256Str *)
Definition GetFileSha256Str_checked (e : E) (fileName : string) (len : Z) : option (bool * list ascii) :=
  option_map (λ r, TransDigestToSha256Result len r.2) (GetDigestFromFile_checked e fileName zero_digest).
(*@ core/ability/utils/src/sha256_utils.cpp Sha256Utils::CheckFileSha256String *)
Definition CheckFileSha256String (e : E) (fileName sha256String : string) : option bool :=
  if negb (FirmwareWorld.FileUtils.IsFileExist e fileName) then Some false
  else
    option_map (λ r : bool * list ascii, r.1 && same_ignoring_case r.2 (c_str sha256String))
      (GetFileSha256Str_checked e fileName SHA256_STRING_LEN).
End files.
End Sha256Utils.

(** ** Properties *)
Import Sha256Utils.
Section digests.
Context `{OpenSslLaws}.
Implicit Types (content : list ascii) (d : list Z).

(** The digest of some bytes. *)
Definition sha256 content : list Z := (SHA256_Final (SHA256_Update SHA256_Init.2 content).2).2.
Definition hex d : list ascii := concat (map hex_byte d).

Lemma TransDigest_loop_hex i d len acc :
  0 <= i → 2 * (i + Z.of_nat (length d)) < len → TransDigest_loop i d len acc = (true, acc ++ hex d).
Proof.
  revert i acc. induction d as [|b d IH]; intros i acc Hi Hlen; cbn [TransDigest_loop]; [by rewrite app_nil_r|].
  cbn [length] in Hlen. unfold SHA256_TO_STRING_STEP.
  rewrite (proj2 (Z.leb_gt _ _)), (proj2 (Z.ltb_ge _ 3)) by lia.
  rewrite IH by lia. unfold hex. cbn. by rewrite <- app_assoc.
Qed.
Lemma TransDigest_hex d : length d = 32%nat → TransDigestToSha256Result SHA256_STRING_LEN d = (true, hex d).
Proof. intros Hd. apply TransDigest_loop_hex; [lia|]. rewrite Hd. unfold SHA256_STRING_LEN. lia. Qed.
Lemma sha256_length content : length (sha256 content) = 32%nat.
Proof. apply digest_length. Qed.

Lemma CalculateHashCode_hex s : Sha256Utils.CalculateHashCode s = str (hex (sha256 (chars s))).
Proof.
  unfold Sha256Utils.CalculateHashCode, Sha256Calculate. rewrite init_ok, Z.eqb_refl. cbn [negb].
  pose proof (update_ok SHA256_Init.2 (chars s)) as Hu. unfold sha256.
  destruct (SHA256_Update SHA256_Init.2 (chars s)) as [u c]. cbn in Hu. subst u. cbn [snd]. rewrite Z.eqb_refl. cbn [negb].
  pose proof (final_ok c) as Hf. pose proof (digest_length c) as Hl. destruct (SHA256_Final c) as [f g]. cbn in Hf, Hl. subst f.
  cbn [snd]. rewrite Z.eqb_refl. cbn [negb]. by rewrite TransDigest_hex.
Qed.

(** The digits determine the digest, whatever their case. *)
Lemma all_bytes (p : Z → bool) : forallb p (map Z.of_nat (seq 0 256)) = true → ∀ b, 0 <= b < 256 → p b = true.
Proof.
  rewrite forallb_forall. intros Hall b Hb. apply Hall, in_map_iff. exists (Z.to_nat b). rewrite in_seq. split; lia.
Qed.
Definition hex_value (l : list ascii) : Z :=
  fold_left (λ v c, 16 * v + let n := Z.of_nat (nat_of_ascii c) in if n <? 58 then n - 48 else n - 87) l 0.
Lemma hex_byte_value b : 0 <= b < 256 → hex_value (map tolower (hex_byte b)) = b.
Proof. intros Hb. apply Z.eqb_eq. revert b Hb. apply all_bytes. vm_compute. reflexivity. Qed.
Lemma hex_byte_inj b1 b2 : 0 <= b1 < 256 → 0 <= b2 < 256 → map tolower (hex_byte b1) = map tolower (hex_byte b2) → b1 = b2.
Proof. intros H1 H2 Heq. rewrite <- (hex_byte_value b1), <- (hex_byte_value b2) by done. by rewrite Heq. Qed.
Lemma hex_inj d1 d2 :
  length d1 = length d2 → Forall (λ b, 0 <= b < 256) d1 → Forall (λ b, 0 <= b < 256) d2 →
  same_ignoring_case (hex d1) (hex d2) = true → d1 = d2.
Proof.
  unfold same_ignoring_case. rewrite bool_decide_eq_true. revert d2.
  induction d1 as [|b1 d1 IH]; intros [|b2 d2] Hl H1 H2; try done.
  apply Forall_cons in H1 as [Hb1 H1]. apply Forall_cons in H2 as [Hb2 H2].
  unfold hex in *. cbn [map concat]. rewrite !map_app. intros [Hb Hd]%app_inj_1; [|done].
  f_equal; [by apply hex_byte_inj|]. apply IH; auto.
Qed.
End digests.

Section verified.
Context {E : Type} `{OpenSslLaws, ShaKits E, FileSystem E, Platform E}.
Implicit Types (e : E) (this : t) (content : list ascii).

(** What a caller learns from the callback: it is told sizes that do not decrease. *)
Record follows (told : Z → E → Prop) (f : Z → ST E unit) : Prop := {
  told_more n n' e : n <= n' → told n e → told n' (exec (f n') e);
  told_sleep ms n e : told n e → told n (exec (sleep_for ms) e)
}.

Lemma reads_short content : Z.of_nat (length content) < 1024 → reads content = 1%nat.
Proof. intros Hlen. unfold reads. rewrite Nat.div_small by lia. done. Qed.
Lemma reads_full content : 1024 <= Z.of_nat (length content) → reads content = S (reads (drop (Z.to_nat MAX_BUFFER_LENGTH) content)).
Proof.
  intros Hlen. unfold reads. rewrite length_drop. change (Z.to_nat MAX_BUFFER_LENGTH) with 1024%nat.
  assert (length content = length content - 1024 + 1 * 1024)%nat as Heq by lia. rewrite Heq at 1. rewrite Nat.div_add by lia. lia.
Qed.
Lemma take_short content : Z.of_nat (length content) < 1024 → take (Z.to_nat MAX_BUFFER_LENGTH) content = content.
Proof. intros Hlen. apply take_ge. change (Z.to_nat MAX_BUFFER_LENGTH) with 1024%nat. lia. Qed.
Lemma take_full content : 1024 <= Z.of_nat (length content) → Z.of_nat (length (take (Z.to_nat MAX_BUFFER_LENGTH) content)) = 1024.
Proof. intros Hlen. rewrite length_take. change (Z.to_nat MAX_BUFFER_LENGTH) with 1024%nat. lia. Qed.

Lemma read_loop_digest told f this param content ctx cycle n e :
  follows told f → isNeedStop_ this = false → told n e →
  wp (read_loop (reads content) this param (Some f) content false ctx cycle n) e (λ r e',
    r = Some (SHA256_Update ctx content).2 ∧ told (n + Z.of_nat (length content)) e').
Proof.
  intros Hf Hstop. remember (reads content) as fuel eqn:Hfuel. revert content Hfuel ctx cycle n e.
  induction fuel as [|fuel IH]; intros content Hfuel ctx cycle n e Hn; [done|].
  cbn [read_loop]. rewrite Hstop, andb_true_r. apply wp_bind.
  match goal with |- wp (when ?b do sleep_for ?ms) e ?Q =>
    assert (∀ e1, told n e1 → Q tt e1) as Hnext; [|destruct b; [apply Hnext; by apply (told_sleep told f)|by apply Hnext]] end.
  intros e1 He1. apply wp_bind. unfold wp at 1. set (e2 := exec (f _) e1).
  assert (told (n + Z.of_nat (length (take (Z.to_nat MAX_BUFFER_LENGTH) content))) e2) as He2 by (apply (told_more told f Hf n); [lia|done]).
  clearbody e2.
  destruct (decide (Z.of_nat (length content) < 1024)) as [Hlen|Hlen].
  - rewrite take_short in * by done. rewrite (proj2 (Z.ltb_lt _ MAX_BUFFER_LENGTH)) by done. by apply wp_ret.
  - apply Z.nlt_ge in Hlen. rewrite reads_full in Hfuel by done. injection Hfuel as Hfuel.
    rewrite (proj2 (Z.ltb_ge _ _)) by (rewrite take_full by done; done).
    eapply wp_mono; [|by apply (IH _ Hfuel)]. intros r e' [-> He']. rewrite update_app, take_drop. split; [done|].
    revert He'. rewrite <- Z.add_assoc, <- Nat2Z.inj_add, <- length_app, take_drop. done.
Qed.

Lemma read_checked_digest content ctx : read_checked (reads content) content false ctx = Some (Some (SHA256_Update ctx content).2).
Proof.
  remember (reads content) as fuel eqn:Hfuel. revert content Hfuel ctx.
  induction fuel as [|fuel IH]; intros content Hfuel ctx; [done|]. cbn [read_checked]. rewrite andb_true_r.
  pose proof (update_ok ctx (take (Z.to_nat MAX_BUFFER_LENGTH) content)) as Hu.
  destruct (SHA256_Update ctx (take (Z.to_nat MAX_BUFFER_LENGTH) content)) as [u c] eqn:Hc. cbn in Hu. subst u. cbn [negb Z.eqb OPENSSL_SUCCESS].
  destruct (decide (Z.of_nat (length content) < 1024)) as [Hlen|Hlen].
  - rewrite take_short in * by done. rewrite (proj2 (Z.ltb_lt _ MAX_BUFFER_LENGTH)) by done. by rewrite Hc.
  - apply Z.nlt_ge in Hlen. rewrite reads_full in Hfuel by done. injection Hfuel as Hfuel.
    rewrite (proj2 (Z.ltb_ge _ _)) by (rewrite take_full by done; done).
    rewrite (IH _ Hfuel). do 2 f_equal. rewrite <- (take_drop (Z.to_nat MAX_BUFFER_LENGTH) content) at 2. rewrite <- update_app. by rewrite Hc.
Qed.
(** A file whose reads fail is read for ever. *)
Lemma read_bad fuel content ctx : read_checked fuel content true ctx = None.
Proof.
  revert content ctx. induction fuel as [|fuel IH]; intros content ctx; [done|]. cbn [read_checked]. rewrite andb_false_r.
  pose proof (update_ok ctx (take (Z.to_nat MAX_BUFFER_LENGTH) content)) as Hu.
  destruct (SHA256_Update _ _) as [u c]. cbn in Hu. subst u. apply IH.
Qed.

Lemma read_loop_bad fuel this param f content ctx cycle n e :
  isNeedStop_ this = false → eval (read_loop fuel this param (Some f) content true ctx cycle n) e = None.
Proof.
  intros Hstop. revert content ctx cycle n e. induction fuel as [|fuel IH]; intros content ctx cycle n e; [done|].
  cbn [read_loop]. rewrite Hstop, andb_false_r, !eval_bind. apply IH.
Qed.

(** The file is there, can be opened and read to its end. *)
Definition readable e (fileName : string) content : Prop :=
  FirmwareWorld.FileUtils.IsFileExist e fileName = true ∧ malloc e 1024 = true ∧
  ∃ realPath, realpath e fileName = Some realPath ∧ open_binary e realPath = Some (content, false).
(** The file is there and is opened, but its reads fail, as those of a directory do. *)
Definition unreadable e (fileName : string) content : Prop :=
  FirmwareWorld.FileUtils.IsFileExist e fileName = true ∧ malloc e 1024 = true ∧
  ∃ realPath, realpath e fileName = Some realPath ∧ open_binary e realPath = Some (content, true).
(** The file is there, but cannot be opened. *)
Definition unopenable e (fileName : string) : Prop :=
  FirmwareWorld.FileUtils.IsFileExist e fileName = true ∧
  match realpath e fileName with
  | None => True
  | Some realPath => match open_binary e realPath with None => True | Some _ => malloc e 1024 = false end
  end.

(** The digest of a file is that of its content, however it is cut into reads: the check
    of a readable file with an expected digest succeeds exactly when the expected
    string is, up to the case of its letters, the hash code of the content; with the hash code
    of another content, when the digests are equal.  A file that is there but cannot
    be opened is compared too, with 32 zero bytes, and the check of one whose reads fail
    (a directory) does not end. *)
Theorem file_checked e fileName expected :
  (∀ content, readable e fileName content →
     CheckFileSha256String e fileName expected =
       Some (same_ignoring_case (chars (Sha256Utils.CalculateHashCode (str content))) (c_str expected)) ∧
     (∀ other, c_str expected = chars (Sha256Utils.CalculateHashCode other) →
        (CheckFileSha256String e fileName expected = Some true ↔ sha256 content = sha256 (chars other)))) ∧
  (unopenable e fileName →
     CheckFileSha256String e fileName expected = Some (same_ignoring_case (replicate 64 "0"%char) (c_str expected))) ∧
  (FirmwareWorld.FileUtils.IsFileExist e fileName = false → CheckFileSha256String e fileName expected = Some false).
Proof.
  assert (∀ content, readable e fileName content → CheckFileSha256String e fileName expected =
       Some (same_ignoring_case (hex (sha256 content)) (c_str expected))) as Hread.
  { intros content (Hthere & Hmem & realPath & Hpath & Hfile). unfold CheckFileSha256String, GetFileSha256Str_checked, GetDigestFromFile_checked.
    rewrite Hthere, Hpath, Hfile. change (malloc e MAX_BUFFER_LENGTH) with (malloc e 1024). rewrite Hmem, init_ok. cbn [negb Z.eqb OPENSSL_SUCCESS].
    rewrite read_checked_digest. unfold sha256. pose proof (digest_length (SHA256_Update SHA256_Init.2 content).2) as Hl.
    destruct (SHA256_Final _) as [f g]. change (negb (1 =? 1)%positive) with false. cbn [snd option_map] in *. by rewrite TransDigest_hex. }
  split; [|split].
  - intros content Hc. rewrite (Hread content Hc), CalculateHashCode_hex, !chars_str. split; [done|].
    intros other ->. rewrite CalculateHashCode_hex, chars_str. split.
    + intros [= Hs]. apply hex_inj in Hs; [done|by rewrite !sha256_length|apply digest_bytes..].
    + intros ->. f_equal. by apply bool_decide_eq_true.
  - intros [Hthere Hopen]. unfold CheckFileSha256String, GetFileSha256Str_checked. rewrite Hthere. cbn [negb].
    assert (GetDigestFromFile_checked e fileName zero_digest = Some (false, zero_digest)) as ->.
    { unfold GetDigestFromFile_checked. destruct (realpath e fileName) as [p|]; [|done].
      destruct (open_binary e p) as [[content bad]|]; [|done]. change (malloc e MAX_BUFFER_LENGTH) with (malloc e 1024). by rewrite Hopen. }
    cbn [option_map snd]. rewrite TransDigest_hex by done. done.
  - intros Hthere. unfold CheckFileSha256String. by rewrite Hthere.
Qed.

(** The verdict on a digest that was found in its digits. *)
Definition verdict (found : list ascii) (expected : string) : Sha256VerifyResult.t :=
  if same_ignoring_case found (c_str expected)
  then {| Sha256VerifyResult.sha256ErrCode := Sha256ErrCode.SUCCESS; Sha256VerifyResult.sha256Result := "" |}
  else {| Sha256VerifyResult.sha256ErrCode := Sha256ErrCode.SHA256_NOT_MATCH; Sha256VerifyResult.sha256Result := str found |}.
Definition no_file : Sha256VerifyResult.t :=
  {| Sha256VerifyResult.sha256ErrCode := Sha256ErrCode.FILE_NOT_EXIST; Sha256VerifyResult.sha256Result := "" |}.

(** C28: The check of a downloaded package (by an object that is not told to stop; nothing in the source tells it), in each state of its file: a file that can be read to its end gets the verdict its content deserves,
    and the callback has been told all of its size by then, never a smaller size after a
    larger one; a file that cannot be opened is not reported as such, but
    compared as if its digest were 32 zero bytes; a file that is not there is reported as missing;
    and the check of a file whose reads fail gives no verdict, however many of them are made: its loop does not end. *)
Theorem package_verified this fileName expected told f e :
  follows told f → isNeedStop_ this = false → told 0 e →
  let check := GetFileSha256VerifyResult this fileName expected (Some f) in
  (∀ content, readable e fileName content → wp check e (λ r e',
     r = Some (verdict (chars (Sha256Utils.CalculateHashCode (str content))) expected) ∧ told (Z.of_nat (length content)) e')) ∧
  (∀ content, unreadable e fileName content → eval check e = None ∧
     ∀ reads param, eval (read_loop reads this param (Some f) content true SHA256_Init.2 0 0) e = None) ∧
  (unopenable e fileName → wp check e (λ r e', r = Some (verdict (replicate 64 "0"%char) expected) ∧ e' = e)) ∧
  (FirmwareWorld.FileUtils.IsFileExist e fileName = false → wp check e (λ r e', r = Some no_file ∧ e' = e)).
Proof.
  intros Hf Hstop Htold check. unfold check, GetFileSha256VerifyResult, GetFileSha256Str. split_and!.
  - intros content (Hthere & Hmem & realPath & Hpath & Hfile). unfold GetDigestFromFile.
    apply wp_bind, wp_gets. rewrite Hthere. cbn [negb]. apply wp_bind, wp_bind, wp_bind, wp_gets. rewrite Hpath.
    apply wp_bind, wp_gets. rewrite Hfile. apply wp_bind, wp_gets. rewrite Hmem. cbn [negb]. apply wp_bind.
    eapply wp_mono; [|by apply read_loop_digest]. intros r e' [-> He']. do 3 apply wp_ret. split; [|done].
    cbn [option_map]. rewrite CalculateHashCode_hex, chars_str. change (SHA256_Final _).2 with (sha256 content).
    rewrite TransDigest_hex by apply sha256_length. unfold verdict. cbn [negb]. rewrite chars_str. by destruct (same_ignoring_case _ _).
  - intros content (Hthere & Hmem & realPath & Hpath & Hfile). split; [|intros; by apply read_loop_bad].
    assert (eval (GetDigestFromFile this fileName zero_digest (Some f)) e = None) as Hnone.
    2: { rewrite eval_bind, eval_gets, exec_gets, Hthere. cbn [negb]. rewrite !eval_bind, Hnone. done. }
    unfold GetDigestFromFile, eval, bind, gets. cbn [fst snd]. rewrite Hpath, Hfile, Hmem. cbn [negb].
    pose proof (read_loop_bad (reads content) this (Sha256DelayStrategyMap_ (sha256DelayScene_ this)) f content SHA256_Init.2 0 0 e Hstop) as Hb.
    unfold eval in Hb. destruct (read_loop _ _ _ _ _ _ _ _ _ e) as [r e']. cbn [fst] in Hb. by rewrite Hb.
  - intros [Hthere Hopen]. apply wp_bind, wp_gets. rewrite Hthere. cbn [negb]. apply wp_bind, wp_bind.
    assert (wp (GetDigestFromFile this fileName zero_digest (Some f)) e (λ r e', e' = e ∧ r = Some (false, zero_digest))) as Hdig.
    { unfold GetDigestFromFile. apply wp_bind, wp_gets. destruct (realpath e fileName) as [p|]; [|by apply wp_ret].
      apply wp_bind, wp_gets. destruct (open_binary e p) as [[content bad]|]; [|by apply wp_ret].
      apply wp_bind, wp_gets. rewrite Hopen. by apply wp_ret. }
    eapply wp_mono; [|exact Hdig]. intros r e' [-> ->]. do 2 apply wp_ret. split; [|done].
    cbn [option_map snd]. rewrite TransDigest_hex by done. cbn [negb]. change (hex zero_digest) with (replicate 64 "0"%char).
    unfold verdict. by destruct (same_ignoring_case _ _).
  - intros Hthere. apply wp_bind, wp_gets. rewrite Hthere. by apply wp_ret.
Qed.
End verified.

(** ** A hash that adds the bytes, and a small package *)
Module SampleSha.
#[local] Instance openssl : OpenSsl := {
  SHA256_CTX := list ascii;
  SHA256_Init := (1, []);
  SHA256_Update c d := (1, c ++ d);
  SHA256_Final c := (1, replicate 31 0 ++ [fold_right (λ x s, Z.of_nat (nat_of_ascii x) + s) 0 c mod 256])
}.
#[local] Instance laws : OpenSslLaws.
Proof.
  split; try done.
  - intros c d1 d2. cbn. by rewrite app_assoc.
  - intros c. apply Forall_app. split; [by apply Forall_replicate|]. apply Forall_singleton, Z.mod_pos_bound. done.
Qed.
#[local] Instance kits : ShaKits SampleEnv.t := {
  open_binary e p := option_map (λ s, (chars s, false)) (SampleEnv.texts e !! p);
  malloc _ _ := true;
  sleep_for _ := ret tt
}.
Definition package : string := "/data/update/ota_package/firmware/versions/p".
Definition env : SampleEnv.t := exec (SampleEnv.set_text package "abc") SampleEnv.initial.
Lemma package_readable : readable env package (chars "abc").
Proof. split; [|split]; [by vm_compute|done|]. exists package. by split. Qed.
Definition expected : string := Sha256Utils.CalculateHashCode "abc".
Definition this : t := {| sha256DelayScene_ := SCREEN_ON_AND_OUC_NOT_DISPLAY; isNeedStop_ := false |}.
Definition told (n : Z) (e : SampleEnv.t) : Prop := default 0 (SampleEnv.longs e !! "told") = n.
Definition tell (n : Z) : ST SampleEnv.t unit := SampleEnv.set_long "told" n ;;; ret tt.

Lemma file_checked_witness : CheckFileSha256String env package expected = Some true.
Proof.
  apply (proj2 (proj1 (file_checked env package expected) (chars "abc") package_readable) "abc"); vm_compute; reflexivity.
Defined.

Lemma package_verified_witness : told 3 (exec (GetFileSha256VerifyResult this package expected (Some tell)) env).
Proof.
  assert (follows told tell) as Hf.
  { split; [intros n n' e _ _|intros ms n e Hn; exact Hn]. unfold told, tell. cbn. by rewrite lookup_insert_eq. }
  exact (proj2 (proj1 (package_verified this package expected told tell env Hf eq_refl eq_refl) (chars "abc") package_readable)).
Defined.
End SampleSha.
