(* ===== verification/Preference.v ===== *)
(** * The key-value store

    Models [core/ability/preference] ([preference_utils.cpp]): saving and obtaining
    values of the five types by key.  The store of the system
    ([NativePreferences]) is a class; [path] is the result of the virtual method
    [GetPath].  The file discharges the interface [Preferences] the firmware service
    is modelled on. *)
From Stdlib Require Import ZArith Lia Ascii String.
From stdpp Require Import base tactics list strings gmap.
From S2P Require Import Prelude CppString Models Database FirmwareDb FirmwareStore FirmwareWorld.

#[local] Open Scope Z_scope.

(** A value of the store. *)
Inductive PrefValue (F : Type) :=
  | VString (s : string)
  | VInt (n : Z)
  | VBool (b : bool)
  | VLong (n : Z)
  | VFloat (x : F).
Arguments VString {F} s.
Arguments VInt {F} n.
Arguments VBool {F} b.
Arguments VLong {F} n.
Arguments VFloat {F} x.

(** [GetPreferences] gives the store of a path, or null; the other operations are
    those of the store. *)
Class NativePreferences (E : Type) := {
  float : Type;
  E_OK : Z;
  GetPreferences : E → string → bool;
  DeletePreferences : string → ST E Z;
  PutString : string → string → string → ST E Z;
  PutInt : string → string → Z → ST E Z;
  PutBool : string → string → bool → ST E Z;
  PutLong : string → string → Z → ST E Z;
  PutFloat : string → string → float → ST E Z;
  GetString : E → string → string → string → string;
  GetInt : E → string → string → Z → Z;
  GetBool : E → string → string → bool → bool;
  GetLong : E → string → string → Z → Z;
  GetFloat : E → string → string → float → float;
  HasKey : E → string → string → bool;
  Delete : string → string → ST E Z;
  Clear : string → ST E Z;
  FlushSync : string → ST E Z
}.

Module PreferencesUtil.
Section ops.
Context {E : Type} `{NativePreferences E} (path : string).

(** Is the pointer not null. *)
(*@ core/ability/preference/src/preference_utils.cpp PreferencesUtil::GetPreference *)
Definition GetPreference (e : E) : bool :=
  if (path =? "")%string then false else GetPreferences e path.
(*@ core/ability/preference/src/preference_utils.cpp PreferencesUtil::DeletePreference *)
Definition DeletePreference : ST E bool :=
  if (path =? "")%string then ret false
  else let* r := DeletePreferences path in ret (r =? E_OK).
(*@ core/ability/preference/src/preference_utils.cpp PreferencesUtil::RefreshSync *)
Definition RefreshSync : ST E bool :=
  let* ptr := gets GetPreference in
  if negb ptr then ret false
  else
    let* r := FlushSync path in
    if negb (r =? E_OK) then ret false else ret true.
(** The five overloads. *)
(*@ core/ability/preference/src/preference_utils.cpp:87-135 PreferencesUtil::SaveInner *)
Definition SaveInner (ptr : bool) (key : string) (value : PrefValue float) : ST E bool :=
  if negb ptr then ret false
  else
    let* r := match value with
              | VString s => PutString path key s
              | VInt n => PutInt path key n
              | VBool b => PutBool path key b
              | VLong n => PutLong path key n
              | VFloat x => PutFloat path key x
              end in
    ret (r =? E_OK).
(*@ core/ability/preference/src/preference_utils.cpp PreferencesUtil::Save *)
Definition Save (key : string) (value : PrefValue float) : ST E bool :=
  let* ptr := gets GetPreference in
  if negb ptr then ret false
  else
    let* saved := SaveInner ptr key value in
    if negb saved then ret false else RefreshSync.
(*@* core/ability/preference/src/preference_utils.cpp PreferencesUtil::= *)
Definition SaveString (key value : string) : ST E bool := Save key (VString value).
Definition SaveInt (key : string) (value : Z) : ST E bool := Save key (VInt value).
Definition SaveBool (key : string) (value : bool) : ST E bool := Save key (VBool value).
Definition SaveLong (key : string) (value : Z) : ST E bool := Save key (VLong value).
Definition SaveFloat (key : string) (value : float) : ST E bool := Save key (VFloat value).

(** The five overloads: the type of the default value. *)
(*@ core/ability/preference/src/preference_utils.cpp:173-221 PreferencesUtil::ObtainInner *)
Definition ObtainInner (e : E) (ptr : bool) (key : string) (defValue : PrefValue float) : PrefValue float :=
  if negb ptr then defValue
  else
    match defValue with
    | VString d => VString (GetString e path key d)
    | VInt d => VInt (GetInt e path key d)
    | VBool d => VBool (GetBool e path key d)
    | VLong d => VLong (GetLong e path key d)
    | VFloat d => VFloat (GetFloat e path key d)
    end.
(*@ core/ability/preference/src/preference_utils.cpp PreferencesUtil::Obtain *)
Definition Obtain (e : E) (key : string) (defValue : PrefValue float) : PrefValue float :=
  let ptr := GetPreference e in
  if negb ptr then defValue else ObtainInner e ptr key defValue.
(*@* core/ability/preference/src/preference_utils.cpp PreferencesUtil::= *)
Definition ObtainString (e : E) (key defValue : string) : string :=
  match Obtain e key (VString defValue) with VString s => s | _ => defValue end.
Definition ObtainInt (e : E) (key : string) (defValue : Z) : Z :=
  match Obtain e key (VInt defValue) with VInt n => n | _ => defValue end.
Definition ObtainBool (e : E) (key : string) (defValue : bool) : bool :=
  match Obtain e key (VBool defValue) with VBool b => b | _ => defValue end.
Definition ObtainLong (e : E) (key : string) (defValue : Z) : Z :=
  match Obtain e key (VLong defValue) with VLong n => n | _ => defValue end.
Definition ObtainFloat (e : E) (key : string) (defValue : float) : float :=
  match Obtain e key (VFloat defValue) with VFloat x => x | _ => defValue end.

Definition IsExist (e : E) (key : string) : bool :=
  if negb (GetPreference e) then false else HasKey e path key.
Definition Remove (key : string) : ST E bool :=
  let* ptr := gets GetPreference in
  if negb ptr then ret false
  else
    let* r := Delete path key in
    if negb (r =? E_OK) then ret false else RefreshSync.
Definition RemoveAll : ST E bool :=
  let* ptr := gets GetPreference in
  if negb ptr then ret false
  else
    let* r := Clear path in
    if negb (r =? E_OK) then ret false else RefreshSync.
End ops.
End PreferencesUtil.

(** The store the firmware service uses. *)
Section interface.
Context {E : Type} `{NativePreferences E} (path : string).
Definition preferences : Preferences E := {|
  FirmwareWorld.ObtainString := PreferencesUtil.ObtainString path;
  FirmwareWorld.ObtainInt := PreferencesUtil.ObtainInt path;
  FirmwareWorld.ObtainBool := PreferencesUtil.ObtainBool path;
  FirmwareWorld.ObtainLong := PreferencesUtil.ObtainLong path;
  FirmwareWorld.SaveString := PreferencesUtil.SaveString path;
  FirmwareWorld.SaveInt := PreferencesUtil.SaveInt path;
  FirmwareWorld.SaveBool := PreferencesUtil.SaveBool path;
  FirmwareWorld.SaveLong := PreferencesUtil.SaveLong path;
  FirmwareWorld.IsExist := PreferencesUtil.IsExist path;
  FirmwareWorld.RemoveKey := PreferencesUtil.Remove path;
  FirmwareWorld.RemoveAllKeys := PreferencesUtil.RemoveAll path
|}.
End interface.

(** ** Properties *)
Section laws.
Context {E : Type} `{NativePreferences E}.
Definition put (path key : string) (value : PrefValue float) : ST E Z :=
  match value with
  | VString s => PutString path key s
  | VInt n => PutInt path key n
  | VBool b => PutBool path key b
  | VLong n => PutLong path key n
  | VFloat x => PutFloat path key x
  end.
Definition get (e : E) (path key : string) (d : PrefValue float) : PrefValue float :=
  match d with
  | VString d => VString (GetString e path key d)
  | VInt d => VInt (GetInt e path key d)
  | VBool d => VBool (GetBool e path key d)
  | VLong d => VLong (GetLong e path key d)
  | VFloat d => VFloat (GetFloat e path key d)
  end.
Definition same_type (v d : PrefValue float) : Prop :=
  match v, d with
  | VString _, VString _ | VInt _, VInt _ | VBool _, VBool _ | VLong _, VLong _ | VFloat _, VFloat _ => True
  | _, _ => False
  end.
(** The documented behaviour of the store: a value put is got by its type, a deleted key
    is gone, and the other keys keep their values; writing the file changes nothing
    that can be got. *)
Class NativeLaws : Prop := {
  put_there p k v e : GetPreferences (exec (put p k v) e) p = GetPreferences e p;
  put_get p k v d e : eval (put p k v) e = E_OK → same_type v d → get (exec (put p k v) e) p k d = v;
  put_has p k v e : eval (put p k v) e = E_OK → HasKey (exec (put p k v) e) p k = true;
  put_get_other p k k' v d e : k' ≠ k → get (exec (put p k v) e) p k' d = get e p k' d;
  flush_there p e : GetPreferences (exec (FlushSync p) e) p = GetPreferences e p;
  flush_get p k d e : get (exec (FlushSync p) e) p k d = get e p k d;
  flush_has p k e : HasKey (exec (FlushSync p) e) p k = HasKey e p k;
  delete_there p k e : GetPreferences (exec (Delete p k) e) p = GetPreferences e p;
  delete_get p k d e : eval (Delete p k) e = E_OK → get (exec (Delete p k) e) p k d = d;
  delete_has p k e : eval (Delete p k) e = E_OK → HasKey (exec (Delete p k) e) p k = false;
  delete_get_other p k k' d e : k' ≠ k → get (exec (Delete p k) e) p k' d = get e p k' d
}.
End laws.
Arguments NativeLaws E {H}.

Section store.
Context {E : Type} `{NativePreferences E, !NativeLaws E} (path : string).
Import PreferencesUtil.
Implicit Types (e : E) (key : string).

Lemma Obtain_get e key d : Obtain path e key d = if GetPreference path e then get e path key d else d.
Proof. unfold Obtain. by destruct (GetPreference path e), d. Qed.
Lemma GetPreference_same e e' : GetPreferences e' path = GetPreferences e path → GetPreference path e' = GetPreference path e.
Proof. unfold GetPreference. by intros ->. Qed.

(** Writing the file, after a change of the memory. *)
Lemma wp_RefreshSync e (Q : bool → E → Prop) :
  (∀ r e', (∀ key d, Obtain path e' key d = Obtain path e key d) → (∀ key, IsExist path e' key = IsExist path e key) → Q r e') →
  wp (RefreshSync path) e Q.
Proof.
  intros HQ. unfold RefreshSync. apply wp_bind, wp_gets. destruct (GetPreference path e) eqn:Hp; cbn [negb]; [|apply wp_ret; by apply HQ].
  apply wp_bind. unfold wp at 1.
  assert (∀ r, Q r (exec (FlushSync path) e)) as HQ'.
  { intros r. pose proof (GetPreference_same e _ (flush_there path e)) as Hs. apply HQ.
    - intros key d. by rewrite !Obtain_get, Hs, flush_get.
    - intros key. unfold IsExist. by rewrite Hs, flush_has. }
  case_if; apply wp_ret, HQ'.
Qed.
Lemma wp_SaveInner key value e (Q : bool → E → Prop) :
  Q (eval (put path key value) e =? E_OK) (exec (put path key value) e) → wp (SaveInner path true key value) e Q.
Proof. intros HQ. unfold SaveInner. cbn [negb]. by apply wp_bind. Qed.

(** A value saved is obtained, until its key is saved again or removed: a save or a removal
    that reports success is seen by the next [Obtain] of the type and by [IsExist]; the
    other keys keep their values whatever happens.  A value that could be put but not
    written to the file is reported as not saved, and is obtained all the same. *)
Theorem saved_is_obtained key value d e :
  wp (Save path key value) e (λ r e',
    (r = true → GetPreference path e = true ∧ eval (put path key value) e = E_OK) ∧
    (GetPreference path e = true → eval (put path key value) e = E_OK → same_type value d →
       Obtain path e' key d = value ∧ IsExist path e' key = true) ∧
    (∀ k' d', k' ≠ key → Obtain path e' k' d' = Obtain path e k' d')) ∧
  wp (Remove path key) e (λ r e',
    (r = true → Obtain path e' key d = d ∧ IsExist path e' key = false) ∧
    (∀ k' d', k' ≠ key → Obtain path e' k' d' = Obtain path e k' d')).
Proof.
  split.
  - unfold Save. apply wp_bind, wp_gets. destruct (GetPreference path e) eqn:Hp; cbn [negb]; [|by apply wp_ret].
    apply wp_bind, wp_SaveInner. set (e1 := exec (put path key value) e).
    assert (GetPreference path e1 = true) as Hp1 by (rewrite <- Hp; apply GetPreference_same, put_there).
    destruct (_ =? E_OK) eqn:Hok; breflect; cbn [negb].
    + apply wp_RefreshSync. intros r e' Hobtain Hexist. split; [done|]. split.
      * intros _ _ Htype. rewrite Hobtain, Hexist, Obtain_get, Hp1. unfold IsExist. rewrite Hp1. cbn [negb].
        split; [by apply put_get|by apply put_has].
      * intros k' d' Hk. rewrite Hobtain, !Obtain_get, Hp, Hp1. by apply put_get_other.
    + apply wp_ret. split_and!; [done..|]. intros k' d' Hk. rewrite !Obtain_get, Hp, Hp1. by apply put_get_other.
  - unfold Remove. apply wp_bind, wp_gets. destruct (GetPreference path e) eqn:Hp; cbn [negb]; [|by apply wp_ret].
    apply wp_bind. unfold wp at 1. set (e1 := exec (Delete path key) e).
    assert (GetPreference path e1 = true) as Hp1 by (rewrite <- Hp; apply GetPreference_same, delete_there).
    destruct (_ =? E_OK) eqn:Hok; breflect; cbn [negb].
    + apply wp_RefreshSync. intros r e' Hobtain Hexist. split.
      * intros _. rewrite Hobtain, Hexist, Obtain_get, Hp1. unfold IsExist. rewrite Hp1. cbn [negb].
        split; [by apply delete_get|by apply delete_has].
      * intros k' d' Hk. rewrite Hobtain, !Obtain_get, Hp, Hp1. by apply delete_get_other.
    + apply wp_ret. split; [done|]. intros k' d' Hk. rewrite !Obtain_get, Hp, Hp1. by apply delete_get_other.
Qed.
End store.

(** ** A store in memory *)
Module SamplePreferences.
#[local] Notation t := (gmap string (PrefValue unit)).
Definition of_type (m : t) (key : string) (d : PrefValue unit) : PrefValue unit :=
  match m !! key, d with
  | Some (VString s), VString _ => VString s
  | Some (VInt n), VInt _ => VInt n
  | Some (VBool b), VBool _ => VBool b
  | Some (VLong n), VLong _ => VLong n
  | Some (VFloat x), VFloat _ => VFloat x
  | _, d => d
  end.
Definition set (key : string) (v : PrefValue unit) : ST t Z := λ m, (0, <[key := v]> m).
#[local] Instance native : NativePreferences t := {
  float := unit; E_OK := 0;
  GetPreferences _ _ := true;
  DeletePreferences _ := λ _, (0, ∅);
  PutString _ k s := set k (VString s);
  PutInt _ k n := set k (VInt n);
  PutBool _ k b := set k (VBool b);
  PutLong _ k n := set k (VLong n);
  PutFloat _ k x := set k (VFloat x);
  GetString m _ k d := match of_type m k (VString d) with VString s => s | _ => d end;
  GetInt m _ k d := match of_type m k (VInt d) with VInt n => n | _ => d end;
  GetBool m _ k d := match of_type m k (VBool d) with VBool b => b | _ => d end;
  GetLong m _ k d := match of_type m k (VLong d) with VLong n => n | _ => d end;
  GetFloat m _ k d := match of_type m k (VFloat d) with VFloat x => x | _ => d end;
  HasKey m _ k := bool_decide (is_Some (m !! k));
  Delete _ k := λ m, (0, delete k m);
  Clear _ := λ _, (0, ∅);
  FlushSync _ := ret 0
}.
Lemma put_set p k v (m : t) : put (E := t) p k v m = (0, <[k := v]> m).
Proof. by destruct v. Qed.
Lemma get_of_type p k d (m : t) : get (E := t) m p k d = of_type m k d.
Proof. unfold of_type. destruct d; cbn; unfold of_type; by destruct (m !! k) as [[]|]. Qed.
#[local] Instance laws : NativeLaws t.
Proof.
  split; intros; unfold exec, eval in *; rewrite ?put_set, ?get_of_type in *; cbn [fst snd] in *; try done; unfold of_type.
  - rewrite (lookup_insert_eq e k (v : PrefValue unit)). by destruct v, d.
  - apply bool_decide_eq_true. rewrite (lookup_insert_eq e k (v : PrefValue unit)). done.
  - by rewrite lookup_insert_ne.
  - cbn. by rewrite lookup_delete_eq.
  - cbn. rewrite bool_decide_eq_false, lookup_delete_eq. by intros [].
  - cbn. by rewrite lookup_delete_ne.
Qed.
Lemma saved_is_obtained_witness :
  let e := exec (PreferencesUtil.SaveInt (E := t) "/p" "n" 3) ∅ in
  PreferencesUtil.Obtain (E := t) "/p" e "n" (VInt 0) = VInt 3.
Proof.
  exact (proj1 (proj1 (proj2 (proj1 (saved_is_obtained "/p" "n" (VInt 3) (VInt 0) (∅ : t)))) eq_refl eq_refl I)).
Defined.
End SamplePreferences.
