(* ===== verification/Unlock.v ===== *)
(** * The unlocking of the user

    Models [core/ability/user_unlock]: [user_account_helper.cpp] (the active user and
    whether it is unlocked) and [update_user_unlock_observer.cpp], which starts the
    business of the service once, when the user is unlocked.  [Start], the events and the
    tasks submitted to ffrt run concurrently: each is a thread of [Thread]s, whose
    atomic parts are the steps of [step].  The listener of the events is registered
    and withdrawn under the lock of the observer. *)
From Stdlib Require Import ZArith Lia Ascii String.
From stdpp Require Import base tactics list strings.
From S2P Require Import Prelude.

#[local] Open Scope Z_scope.

(** The accounts of the system and its common events. *)
Class AccountKits (E : Type) := {
  ERR_OK : Z;
  GetForegroundOsAccountLocalId : ST E (Z * Z);
  IsOsAccountVerified : E → Z → Z * bool;
  account_sleep : Z → ST E unit;
  SubscribeCommonEvent : ST E bool;
  UnSubscribeCommonEvent : ST E bool;
  COMMON_EVENT_USER_UNLOCKED : string
}.

Module UserAccountHelper.
Section ops.
Context {E : Type} `{AccountKits E}.
(*@* core/ability/user_unlock/src/user_account_helper.cpp = *)
Definition retryInterval : Z := 1000.
Definition maxRetryTimes : nat := 10.
(** The result and the id: a failing call may write the id too. *)
(*@ core/ability/user_unlock/src/user_account_helper.cpp:32-43 UserAccountHelper::GetActiveUserId *)
Fixpoint user_id_loop (times : nat) (currentUserId : Z) : ST E Z :=
  match times with
  | O => ret currentUserId
  | S times =>
      let* r := GetForegroundOsAccountLocalId in
      if r.1 =? ERR_OK then ret r.2
      else account_sleep retryInterval ;;; user_id_loop times r.2
  end.
(*@ core/ability/user_unlock/src/user_account_helper.cpp UserAccountHelper::GetActiveUserId *)
Definition GetActiveUserId : ST E Z := user_id_loop maxRetryTimes (-1).
(*@ core/ability/user_unlock/src/user_account_helper.cpp UserAccountHelper::IsActiveUserUnlocked *)
Definition IsActiveUserUnlocked (e : E) (userId : Z) : bool :=
  if userId <? 0 then false
  else
    let (ret_, isVerified) := IsOsAccountVerified e userId in
    if negb (ret_ =? ERR_OK) then false else isVerified.
End ops.
End UserAccountHelper.

Module UpdateUserUnlockObserver.
(** [userUnlockSubscriber_]: is a listener registered. *)
(*@ core/ability/user_unlock/include/update_user_unlock_observer.h:64-68 UpdateUserUnlockObserver *)
Record t := { initialized_ : bool; userUnlockSubscriber_ : bool }.
(*@ core/ability/user_unlock/include/update_user_unlock_observer.h:64-68 UpdateUserUnlockObserver *)
Definition new : t := {| initialized_ := false; userUnlockSubscriber_ := false |}.

(*@ core/ability/user_unlock/src/update_user_unlock_observer.cpp UpdateUserUnlockObserver::HasUserUnlocked *)
Definition HasUserUnlocked (this : t) : bool := initialized_ this.

Section ops.
Context {E : Type} `{AccountKits E}.
#[local] Notation Observer := (ST (t * E)).
Definition set_subscriber (x : bool) (this : t) : t := {| initialized_ := initialized_ this; userUnlockSubscriber_ := x |}.
Definition set_initialized (x : bool) (this : t) : t := {| initialized_ := x; userUnlockSubscriber_ := userUnlockSubscriber_ this |}.

(** Under the lock. *)
(*@ core/ability/user_unlock/src/update_user_unlock_observer.cpp UpdateUserUnlockObserver::RegisterUserUnlockListener *)
Definition RegisterUserUnlockListener : Observer unit :=
  let* there := own_ userUnlockSubscriber_ in
  if there : bool then ret tt
  else
    set_own (set_subscriber true) ;;;
    let* subscribed := env_ SubscribeCommonEvent in
    if negb subscribed then set_own (set_subscriber false) else ret tt.
(** Under the lock. *)
(*@ core/ability/user_unlock/src/update_user_unlock_observer.cpp UpdateUserUnlockObserver::UnregisterUserUnlockListener *)
Definition UnregisterUserUnlockListener : Observer unit :=
  let* there := own_ userUnlockSubscriber_ in
  if negb there then ret tt
  else env_ UnSubscribeCommonEvent ;;; set_own (set_subscriber false).
(** [compare_exchange_strong(false, true)] *)
(*@ core/ability/user_unlock/src/update_user_unlock_observer.cpp:139-161 UpdateUserUnlockObserver::TryNotifyUnlocked *)
Definition first_to_initialize : Observer bool :=
  let* initialized := own_ initialized_ in
  if initialized : bool then ret false else set_own (set_initialized true) ;;; ret true.
(** Is the event the one that starts the callback. *)
(*@ core/ability/user_unlock/src/update_user_unlock_observer.cpp UserUnlockSubscriber::OnReceiveEvent *)
Definition is_unlock_event (action : string) : bool := (action =? COMMON_EVENT_USER_UNLOCKED)%string.

(** *** Threads

    Where a thread is: in [Start], before the first look at the user, before the
    registration, before the second look; in [TryNotifyUnlocked], before the exchange,
    before the call of [onUnlocked_]; before [UnregisterUserUnlockListener]. *)
Inductive Thread := Starting | Registering (userId : Z) | Looking (userId : Z) | Notifying | Calling | Unregistering.
(** [calls]: how often [onUnlocked_] has been called; [seen]: has an unlocked user been noticed. *)
Record sys := { vars : t; env : E; threads : list Thread; calls : nat; seen : bool }.
Definition initial (e : E) : sys := {| vars := new; env := e; threads := [Starting]; calls := 0; seen := false |}.

(** The next atomic part of a thread, and the threads it becomes. *)
(*@ core/ability/user_unlock/src/update_user_unlock_observer.cpp UpdateUserUnlockObserver::Start *)
Definition run (p : Thread) (s : t * E) : list Thread * (t * E) :=
  match p with
  | Starting =>
      let (userId, s) := env_ UserAccountHelper.GetActiveUserId s in
      if UserAccountHelper.IsActiveUserUnlocked s.2 userId then ([Notifying], s) else ([Registering userId], s)
  | Registering userId => ([Looking userId], exec RegisterUserUnlockListener s)
  | Looking userId =>
      if UserAccountHelper.IsActiveUserUnlocked s.2 userId then ([Notifying], s) else ([], s)
  | Notifying =>
      let (first, s) := first_to_initialize s in
      if first then ([Calling], s) else ([Unregistering], s)
  | Calling => ([Unregistering], s)
  | Unregistering => ([], exec UnregisterUserUnlockListener s)
  end.
Definition is_calling (p : Thread) : bool := match p with Calling => true | _ => false end.
Definition is_notifying (p : Thread) : bool := match p with Notifying => true | _ => false end.

(** A thread runs its next part; the environment changes; an event of a user that is unlocked
    arrives (the system may have sent it before the listener was withdrawn); the observer is
    started again, or stopped. *)
Inductive step : sys → sys → Prop :=
  | step_run v e l1 p l2 n b l v' e' :
      run p (v, e) = (l, (v', e')) →
      step {| vars := v; env := e; threads := l1 ++ p :: l2; calls := n; seen := b |}
           {| vars := v'; env := e'; threads := l1 ++ l ++ l2; calls := if is_calling p then S n else n;
              seen := b || existsb is_notifying l |}
  | step_env v e e' ts n b :
      step {| vars := v; env := e; threads := ts; calls := n; seen := b |} {| vars := v; env := e'; threads := ts; calls := n; seen := b |}
  | step_event v e ts n b action :
      is_unlock_event action = true →
      step {| vars := v; env := e; threads := ts; calls := n; seen := b |} {| vars := v; env := e; threads := ts ++ [Notifying]; calls := n; seen := true |}
  | step_start v e ts n b :
      step {| vars := v; env := e; threads := ts; calls := n; seen := b |} {| vars := v; env := e; threads := ts ++ [Starting]; calls := n; seen := b |}
  | step_stop v e ts n b :
      step {| vars := v; env := e; threads := ts; calls := n; seen := b |}
           {| vars := (exec UnregisterUserUnlockListener (v, e)).1; env := (exec UnregisterUserUnlockListener (v, e)).2;
              threads := ts; calls := n; seen := b |}.

(** *** Properties *)
Definition count (p : Thread → bool) (ts : list Thread) : nat := length (List.filter p ts).
#[local] Arguments count : simpl never.
Lemma count_app p l1 l2 : count p (l1 ++ l2) = (count p l1 + count p l2)%nat.
Proof. unfold count. by rewrite List.filter_app, length_app. Qed.
Lemma count_cons p x l : count p (x :: l) = ((if p x then 1 else 0) + count p l)%nat.
Proof. unfold count. cbn. by destruct (p x). Qed.

(** The callback has been called, or one thread is about to call it, exactly when the flag is
    set; who has noticed an unlocked user has set it or is about to. *)
Definition inv (s : sys) : Prop :=
  (calls s + count is_calling (threads s))%nat = (if initialized_ (vars s) then 1 else 0)%nat ∧
  (seen s = true → initialized_ (vars s) = true ∨ (0 < count is_notifying (threads s))%nat).
Lemma unregister_initialized s : initialized_ (exec UnregisterUserUnlockListener s).1 = initialized_ s.1.
Proof.
  destruct s as [v e]. unfold UnregisterUserUnlockListener, exec, bind, own_. cbn. destruct (userUnlockSubscriber_ v); cbn; [|done].
  unfold env_, set_own. cbn. by destruct (UnSubscribeCommonEvent e).
Qed.
Lemma register_initialized s : initialized_ (exec RegisterUserUnlockListener s).1 = initialized_ s.1.
Proof.
  destruct s as [v e]. unfold RegisterUserUnlockListener, exec, bind, own_. cbn. destruct (userUnlockSubscriber_ v); cbn; [done|].
  unfold env_, set_own. cbn. by destruct (SubscribeCommonEvent e) as [[] ?].
Qed.
(** What running a thread does to the flag and the threads that count. *)
Lemma run_inv p v e l v' e' :
  run p (v, e) = (l, (v', e')) →
  match p with
  | Notifying => initialized_ v' = true ∧ l = (if initialized_ v then [Unregistering] else [Calling])
  | Calling => v' = v ∧ l = [Unregistering]
  | _ => initialized_ v' = initialized_ v ∧ count is_calling l = 0%nat
  end.
Proof.
  destruct p as [|u|u| | |]; cbn [run].
  - unfold env_. cbn [fst snd]. destruct (UserAccountHelper.GetActiveUserId e) as [u e1]. cbn [fst snd]. case_if; by intros [= <- <- <-].
  - pose proof (register_initialized (v, e)) as Hr. destruct (exec RegisterUserUnlockListener (v, e)). by intros [= <- <- <-].
  - cbn [fst snd]. case_if; by intros [= <- <- <-].
  - unfold first_to_initialize, bind, own_. cbn. destruct (initialized_ v) eqn:Hv; cbn; intros [= <- <- <-]; by rewrite ?Hv.
  - by intros [= <- <- <-].
  - pose proof (unregister_initialized (v, e)) as Hr. destruct (exec UnregisterUserUnlockListener (v, e)). by intros [= <- <- <-].
Qed.
Lemma unlock_inv_step a b : step a b → inv a → inv b.
Proof.
  unfold inv. intros Hstep [Hc Hs]. destruct Hstep as [v e l1 p l2 n b l v' e' Hrun|v e e' ts n b|v e ts n b act Hact|v e ts n b|v e ts n b]; cbn in *.
  - rewrite ?count_app, ?count_cons in *. pose proof (run_inv _ _ _ _ _ _ Hrun) as Hp.
    assert (existsb is_notifying l = true → (0 < count is_notifying l)%nat) as Hl.
    { unfold count. rewrite existsb_exists. intros (x & Hx & Hn). apply List.in_split in Hx as (k1 & k2 & ->).
      rewrite List.filter_app, length_app. cbn. rewrite Hn. cbn. lia. }
    rewrite orb_true_iff. destruct p as [|u|u| | |]; cbn [is_calling is_notifying] in *.
    4: { destruct Hp as [-> ->]. destruct (initialized_ v); rewrite ?count_cons; change (count is_calling []) with 0%nat; cbn [is_calling]; split; try lia; auto. }
    4: { destruct Hp as [-> ->]. rewrite ?count_cons. change (count is_calling []) with 0%nat. cbn [is_calling is_notifying]. split; [lia|].
      intros [Hb|[=]]. destruct (Hs Hb); [by left|right; lia]. }
    all: destruct Hp as [-> ->]; split; [lia|]; intros [Hb|Hb]; [destruct (Hs Hb) as [?|?]; [by left|right; lia]|right; apply Hl in Hb; lia].
  - done.
  - rewrite !count_app. rewrite !count_cons. cbn [is_calling is_notifying]. change (count is_calling []) with 0%nat. split; [lia|]. intros _. right. lia.
  - rewrite !count_app, !count_cons. cbn [is_calling is_notifying]. change (count is_calling []) with 0%nat. split; [lia|]. intros Hb. destruct (Hs Hb); [by left|right; lia].
  - pose proof (unregister_initialized (v, e)) as Hu. cbn [fst] in Hu. by rewrite Hu.
Qed.

Lemma unlock_inv_reachable e s : star step (initial e) s → inv s.
Proof. intros Hs. refine (star_invariant step inv unlock_inv_step _ _ Hs _). by split. Qed.

(** However the start, the events, the tasks and the stops interleave, the business of the
    service is started at most once, and [HasUserUnlocked] tells that it has been or is just
    being started; when nothing is left to run, it has been started exactly if an
    unlocked user was noticed, by an event or by a look at the accounts. *)
Theorem unlocked_once e s :
  star step (initial e) s →
  (calls s <= 1)%nat ∧
  (HasUserUnlocked (vars s) = true ↔ (calls s + count is_calling (threads s))%nat = 1%nat) ∧
  (threads s = [] → seen s = true → calls s = 1%nat).
Proof.
  intros [Hc Hs]%unlock_inv_reachable. unfold HasUserUnlocked. split_and!.
  - destruct (initialized_ _); lia.
  - destruct (initialized_ _); split; [done|done|lia|lia].
  - intros Ht Hseen. rewrite Ht in *. destruct (Hs Hseen) as [Hi|Hn]; [|by apply Nat.lt_irrefl in Hn]. rewrite Hi in Hc. change (count is_calling []) with 0%nat in Hc. lia.
Qed.
End ops.
End UpdateUserUnlockObserver.

(** ** A device whose event service refuses the listener

    The environment says whether the user is unlocked and whether listeners are accepted. *)
Module SampleUnlock.
Import UpdateUserUnlockObserver.
#[local] Instance kits : AccountKits (bool * bool) := {
  ERR_OK := 0;
  GetForegroundOsAccountLocalId := ret (0, 100);
  IsOsAccountVerified e _ := (0, e.1);
  account_sleep _ := ret tt;
  SubscribeCommonEvent e := (e.2, e);
  UnSubscribeCommonEvent := ret true;
  COMMON_EVENT_USER_UNLOCKED := "usual.event.USER_UNLOCKED"
}.
(** The user is locked at the start, the listener is accepted, and the event comes. *)
Lemma unlocked_once_witness :
  ∃ s, star step (initial (false, true)) s ∧ threads s = [] ∧ calls s = 1%nat.
Proof.
  eexists. assert (∀ s, star step (initial (false, true)) s → threads s = [] → seen s = true → threads s = [] ∧ calls s = 1%nat) as Honce
    by (intros s Hs Ht Hseen; split; [exact Ht|]; exact (proj2 (proj2 (unlocked_once (false, true) s Hs)) Ht Hseen)).
  refine ((λ Hs, conj Hs (Honce _ Hs _ _)) _); cycle 2.
  { eapply star_step; [refine (step_run new (false, true) [] Starting [] 0 false _ _ _ _); reflexivity|].
    eapply star_step; [refine (step_run _ _ [] (Registering 100) [] _ _ _ _ _ _); reflexivity|].
    eapply star_step; [refine (step_run _ _ [] (Looking 100) [] _ _ _ _ _ _); reflexivity|].
    eapply star_step; [refine (step_event _ _ _ _ _ "usual.event.USER_UNLOCKED" _); reflexivity|].
    eapply star_step; [refine (step_run _ _ [] Notifying [] _ _ _ _ _ _); reflexivity|].
    eapply star_step; [refine (step_run _ _ [] Calling [] _ _ _ _ _ _); reflexivity|].
    eapply star_step; [refine (step_run _ _ [] Unregistering [] _ _ _ _ _ _); reflexivity|].
    apply star_refl. }
  - reflexivity.
  - reflexivity.
Defined.
(** With the listener refused nobody waits for the event any more: the user is unlocked,
    no listener is registered, nothing is left to run, and the business has not been started. *)
Lemma refused_listener_misses_unlock :
  ∃ s, star step (initial (false, false)) s ∧ env s = (true, false) ∧ threads s = [] ∧
       userUnlockSubscriber_ (vars s) = false ∧ calls s = 0%nat.
Proof.
  eexists. split.
  { eapply star_step; [refine (step_run new (false, false) [] Starting [] 0 false _ _ _ _); reflexivity|].
    eapply star_step; [refine (step_run _ _ [] (Registering 100) [] _ _ _ _ _ _); reflexivity|].
    eapply star_step; [refine (step_run _ _ [] (Looking 100) [] _ _ _ _ _ _); reflexivity|].
    eapply star_step; [apply (step_env _ _ (true, false))|]. apply star_refl. }
  done.
Qed.
End SampleUnlock.
