(* ===== verification/Tasks.v ===== *)
(** * Tasks and timers

    Models [core/ability/async_task]: [async_task_emitter.cpp] (tasks that run in parallel
    and are waited for) and [serial_async_task_emitter.cpp] (queues of tasks by name, on
    which the reports of a download wait); and [timer_manager.cpp].  The
    runtime ffrt and the timer are classes; what they have not run yet is observable. *)
From Stdlib Require Import ZArith Lia Ascii String.
From stdpp Require Import base tactics list strings gmap sets.
From S2P Require Import Prelude.

#[local] Open Scope Z_scope.

(** ** The queues of ffrt

    [task_handle], and a task of a queue: was it submitted with a delay. *)
Definition Handle := Z.
Record Entry (T : Type) := { handle : Handle; task : T; delayed : bool }.
Arguments handle {T}. Arguments task {T}. Arguments delayed {T}.
(** A queue is known by its address.  [pending]: the tasks it has not started, in the order
    it will; [start]: it starts the next one, if that is due and no other runs.  Tearing a
    queue down drops what is pending and waits for what runs. *)
Class FfrtQueues (T W : Type) := {
  make_queue : string → ST W Z;
  submit_h : Z → T → Z → ST W (option Handle);
  cancel : Z → Handle → ST W Z;
  get_task_cnt : W → Z → Z;
  destroy_queue : Z → ST W unit;
  start : Z → ST W (option (Entry T));
  alive : W → Z → Prop;
  pending : W → Z → list (Entry T)
}.
(** What every operation on the queue [q] leaves alone. *)
Definition others_kept {T W} `{FfrtQueues T W} (q : Z) (w w' : W) : Prop :=
  ∀ q', q' ≠ q → alive w q' → alive w' q' ∧ pending w' q' = pending w q'.
(** A task without a delay is put after all others without one. *)
Class FfrtLaws (T W : Type) `{FfrtQueues T W} : Prop := {
  make_queue_new name w : let r := make_queue name w in
    ¬ alive w r.1 ∧ alive r.2 r.1 ∧ pending r.2 r.1 = [] ∧ others_kept r.1 w r.2;
  submit_h_adds q t d w : alive w q → let r := submit_h q t d w in
    alive r.2 q ∧ others_kept q w r.2 ∧
    match r.1 with
    | None => pending r.2 q = pending w q
    | Some h => ∃ l1 l2, pending w q = l1 ++ l2 ∧
        pending r.2 q = l1 ++ {| handle := h; task := t; delayed := bool_decide (0 < d) |} :: l2 ∧
        (d = 0 → Forall (λ e, delayed e = true) l2)
    end;
  cancel_removes q h w : alive w q → let r := cancel q h w in
    alive r.2 q ∧ others_kept q w r.2 ∧
    if r.1 =? 0 then ∃ l1 e l2, handle e = h ∧ pending w q = l1 ++ e :: l2 ∧ pending r.2 q = l1 ++ l2
    else pending r.2 q = pending w q;
  start_next q w : alive w q → let r := start q w in
    alive r.2 q ∧ others_kept q w r.2 ∧ pending w q = option_list r.1 ++ pending r.2 q;
  get_task_cnt_pending w q : alive w q → get_task_cnt w q = Z.of_nat (length (pending w q));
  destroy_queue_others q w : others_kept q w (exec (destroy_queue q) w)
}.

(** ** Queues by name *)
Module SerialAsyncTaskQueueEmitter.
(*@ core/ability/async_task/src/serial_async_task_emitter.cpp TASK_CLEAN_CYCLE *)
Definition TASK_CLEAN_CYCLE : Z := 32.
(** A null [unique_ptr] is [None]. *)
(*@ core/ability/async_task/include/serial_async_task_emitter.h SerialAsyncTaskQueueEmitter *)
Record t := { queueMap_ : gmap string (option Z); submittedTaskCnt : Z }.
(*@ core/ability/async_task/include/serial_async_task_emitter.h SerialAsyncTaskQueueEmitter *)
Definition new : t := {| queueMap_ := ∅; submittedTaskCnt := 0 |}.
Definition set_count (n : Z) (this : t) : t := {| queueMap_ := queueMap_ this; submittedTaskCnt := n |}.
Definition erase (name : string) (this : t) : t :=
  {| queueMap_ := delete name (queueMap_ this); submittedTaskCnt := submittedTaskCnt this |}.
Definition insert_queue (name : string) (q : Z) (this : t) : t :=
  {| queueMap_ := <[name := Some q]> (queueMap_ this); submittedTaskCnt := submittedTaskCnt this |}.

Section ops.
Context {T W : Type} `{FfrtQueues T W}.
#[local] Notation Emitter := (ST (t * W)).

(** One turn of the loop; the order of the visits does not matter. *)
(*@ core/ability/async_task/src/serial_async_task_emitter.cpp:83-94 SerialAsyncTaskQueueEmitter::ClearUselessQueue *)
Definition clear_queue (it : string * option Z) : Emitter unit :=
  match it.2 with
  | None => set_own (erase it.1)
  | Some queue =>
      let* cnt := env_ (gets (λ w, get_task_cnt w queue)) in
      if cnt =? 0 then set_own (erase it.1) ;;; env_ (destroy_queue queue) else ret tt
  end.
(*@ core/ability/async_task/src/serial_async_task_emitter.cpp SerialAsyncTaskQueueEmitter::ClearUselessQueue *)
Definition ClearUselessQueue : Emitter unit :=
  let* queueMap := own_ queueMap_ in
  if bool_decide (queueMap = ∅) || (Z.of_nat (size queueMap) <? TASK_CLEAN_CYCLE) then ret tt
  else for_each (map_to_list queueMap) clear_queue.
(** [emplace] drops the new queue when the name is taken. *)
Definition emplace (queueName : string) : Emitter unit :=
  let* q := env_ (make_queue queueName) in
  let* queueMap := own_ queueMap_ in
  match queueMap !! queueName with
  | Some _ => env_ (destroy_queue q)
  | None => set_own (insert_queue queueName q)
  end.
(*@ core/ability/async_task/src/serial_async_task_emitter.cpp SerialAsyncTaskQueueEmitter::Submit *)
Definition Submit (queueName : string) (asyncTask : T) (delay : Z) : Emitter (option Handle) :=
  let* cnt := own_ submittedTaskCnt in
  set_own (set_count (to_int32 (cnt + 1))) ;;;
  let* cnt := own_ submittedTaskCnt in
  (when Z.rem cnt TASK_CLEAN_CYCLE =? 0 do (set_own (set_count 0) ;;; ClearUselessQueue)) ;;;
  let* queueMap := own_ queueMap_ in
  (when bool_decide (queueMap !! queueName = None) || bool_decide (queueMap !! queueName = Some None) do emplace queueName) ;;;
  let* queueMap := own_ queueMap_ in
  match queueMap !! queueName with
  | Some (Some serialQueue) => env_ (submit_h serialQueue asyncTask delay)
  | _ => ret None
  end.
(*@ core/ability/async_task/src/serial_async_task_emitter.cpp SerialAsyncTaskQueueEmitter::Cancel *)
Definition Cancel (queueName : string) (handle : option Handle) : Emitter Z :=
  match handle with
  | None => ret (-1)
  | Some handle =>
      let* queueMap := own_ queueMap_ in
      match queueMap !! queueName with
      | None => ret (-1)
      | Some None => set_own (erase queueName) ;;; ret (-1)
      | Some (Some serialQueue) => env_ (cancel serialQueue handle)
      end
  end.

(** *** Histories

    What happens to the tasks of a name: they are submitted and cancelled by the
    program, and started by the runtime. *)
Inductive Event :=
  | Submitted (queueName : string) (e : Entry T)
  | Cancelled (queueName : string) (h : Handle)
  | Started (queueName : string) (e : Entry T).
Inductive Label :=
  | DoSubmit (queueName : string) (asyncTask : T) (delay : Z)
  | DoCancel (queueName : string) (h : option Handle)
  | DoStart (queueName : string).
Definition run_label (l : Label) : Emitter (list Event) :=
  match l with
  | DoSubmit n t d =>
      let* r := Submit n t d in
      ret (match r with Some h => [Submitted n {| handle := h; task := t; delayed := bool_decide (0 < d) |}] | None => [] end)
  | DoCancel n h =>
      let* r := Cancel n h in
      ret (match h with Some h => if r =? 0 then [Cancelled n h] else [] | None => [] end)
  | DoStart n =>
      let* queueMap := own_ queueMap_ in
      match queueMap !! n with
      | Some (Some q) => let* r := env_ (start q) in ret (match r with Some e => [Started n e] | None => [] end)
      | _ => ret []
      end
  end.
(** The history [evs] goes on. *)
Fixpoint run_labels (evs : list Event) (ls : list Label) : Emitter (list Event) :=
  match ls with
  | [] => ret evs
  | l :: ls => let* new := run_label l in run_labels (evs ++ new) ls
  end.

Definition submitted (n : string) : list Event → list (Entry T) :=
  omap (λ ev, match ev with Submitted n' e => if decide (n' = n) then Some e else None | _ => None end).
Definition started (n : string) : list Event → list (Entry T) :=
  omap (λ ev, match ev with Started n' e => if decide (n' = n) then Some e else None | _ => None end).
Definition cancelled (n : string) : list Event → list Handle :=
  omap (λ ev, match ev with Cancelled n' h => if decide (n' = n) then Some h else None | _ => None end).
(** The tasks of a name that wait for their turn. *)
Definition waiting (s : t * W) (n : string) : list (Entry T) :=
  match queueMap_ s.1 !! n with Some (Some q) => pending s.2 q | _ => [] end.
Definition undelayed (l : list (Entry T)) : list (Entry T) := List.filter (λ e, negb (delayed e)) l.

(** Of the tasks submitted each is cancelled, started or waiting, and those without a delay
    are started in the order of their submission. *)
Definition in_turn (sub run wait : list (Entry T)) (can : list Handle) : Prop :=
  map handle (run ++ wait) ++ can ≡ₚ map handle sub ∧ undelayed (run ++ wait) `sublist_of` undelayed sub.
Record inv (evs : list Event) (s : t * W) : Prop := {
  count_range : 0 ≤ submittedTaskCnt s.1 < TASK_CLEAN_CYCLE;
  queue_there n : queueMap_ s.1 !! n ≠ Some None;
  queue_alive n q : queueMap_ s.1 !! n = Some (Some q) → alive s.2 q;
  queue_own n n' q : queueMap_ s.1 !! n = Some (Some q) → queueMap_ s.1 !! n' = Some (Some q) → n = n';
  tasks_in_turn n : in_turn (submitted n evs) (started n evs) (waiting s n) (cancelled n evs)
}.
End ops.
End SerialAsyncTaskQueueEmitter.

(** *** Nothing is lost *)
Section queues.
Context {T W : Type} `{FfrtLaws T W}.
Import SerialAsyncTaskQueueEmitter.
Implicit Types (s : t * W) (evs : list (Event (T := T))) (l : list (Entry T)).

Lemma undelayed_app l1 l2 : undelayed (l1 ++ l2) = undelayed l1 ++ undelayed l2.
Proof. apply List.filter_app. Qed.
Lemma undelayed_none l : Forall (λ e, delayed e = true) l → undelayed l = [].
Proof. induction 1 as [|e l He _ IH]; [done|]. unfold undelayed in *. cbn. by rewrite He. Qed.
Lemma undelayed_cons (e : Entry T) l : undelayed (e :: l) = (if delayed e then [] else [e]) ++ undelayed l.
Proof. unfold undelayed. cbn. by destruct (delayed e). Qed.
Lemma undelayed_remove l1 (e : Entry T) l2 : undelayed (l1 ++ l2) `sublist_of` undelayed (l1 ++ e :: l2).
Proof.
  rewrite !undelayed_app, undelayed_cons. apply sublist_app; [done|]. destruct (delayed e); [done|]. by apply sublist_cons.
Qed.

(** What an operation does to the tasks of a name. *)
Lemma in_turn_submit sub run l1 l2 can (e : Entry T) :
  (delayed e = false → Forall (λ e, delayed e = true) l2) →
  in_turn sub run (l1 ++ l2) can → in_turn (sub ++ [e]) run (l1 ++ e :: l2) can.
Proof.
  intros Hl2 [Hp Hs]. split.
  - rewrite (map_app _ sub), <- Hp, !map_app. cbn [map]. solve_Permutation.
  - rewrite !undelayed_app, !undelayed_cons in *. destruct (delayed e); cbn [app]; change (undelayed []) with (@nil (Entry T)).
    + by rewrite app_nil_r.
    + rewrite (undelayed_none l2) in * by auto. rewrite app_nil_r in Hs. rewrite app_assoc. by apply sublist_app.
Qed.
Lemma in_turn_cancel sub run l1 (e : Entry T) l2 can :
  in_turn sub run (l1 ++ e :: l2) can → in_turn sub run (l1 ++ l2) (can ++ [handle e]).
Proof.
  intros [Hp Hs]. split.
  - rewrite <- Hp, !map_app. cbn [map]. solve_Permutation.
  - etrans; [|exact Hs]. rewrite !app_assoc. apply undelayed_remove.
Qed.
Lemma in_turn_start sub run (e : Entry T) wait can : in_turn sub run (e :: wait) can → in_turn sub (run ++ [e]) wait can.
Proof. unfold in_turn. by rewrite <- app_assoc. Qed.

(** Events about other names. *)
Definition about (n : string) (ev : Event (T := T)) : Prop :=
  match ev with Submitted n' _ | Cancelled n' _ | Started n' _ => n' = n end.
Lemma elsewhere n n' evs new : Forall (about n) new → n' ≠ n →
  submitted n' (evs ++ new) = submitted n' evs ∧ started n' (evs ++ new) = started n' evs ∧ cancelled n' (evs ++ new) = cancelled n' evs.
Proof.
  intros Hnew Hn. unfold submitted, started, cancelled. rewrite !omap_app.
  assert (∀ {A} (f : Event (T := T) → option A), (∀ ev, about n ev → f ev = None) → omap f new = []) as Hnone.
  { intros A f Hf. clear -Hnew Hf. induction Hnew as [|ev new Hev _ IH]; cbn; [done|]. by rewrite Hf. }
  rewrite !Hnone, !app_nil_r; [done|..]; intros [] ->; by try rewrite decide_False.
Qed.

Lemma inv_queue evs new s n q w' :
  inv evs s → queueMap_ s.1 !! n = Some (Some q) → alive w' q → others_kept q s.2 w' → Forall (about n) new →
  in_turn (submitted n (evs ++ new)) (started n (evs ++ new)) (pending w' q) (cancelled n (evs ++ new)) → inv (evs ++ new) (s.1, w').
Proof.
  intros Hs Hn Hq Hothers Hnew Hturn. destruct Hs. split; cbn [fst snd]; [done|done| |done|].
  - intros n' q' Hn'. destruct (decide (q' = q)) as [->|Hq']; [done|]. eapply Hothers; [done|by eapply queue_alive0].
  - intros n'. destruct (decide (n' = n)) as [->|Hn']; [unfold waiting; cbn [fst snd]; by rewrite Hn|].
    destruct (elsewhere n n' evs new Hnew Hn') as (-> & -> & ->). specialize (tasks_in_turn0 n'). unfold waiting in *. cbn [fst snd].
    destruct (queueMap_ s.1 !! n') as [[q'|]|] eqn:Hq'; [|done..].
    assert (q' ≠ q) as Hne by (intros ->; by eapply Hn', queue_own0).
    by rewrite (proj2 (Hothers q' Hne (queue_alive0 _ _ Hq'))).
Qed.
Lemma inv_erase evs s n q w' :
  inv evs s → queueMap_ s.1 !! n = Some (Some q) → pending s.2 q = [] → others_kept q s.2 w' → inv evs (erase n s.1, w').
Proof.
  intros Hs Hn Hq Hothers. destruct Hs.
  assert (∀ n' q', queueMap_ (erase n s.1) !! n' = Some (Some q') → n' ≠ n ∧ queueMap_ s.1 !! n' = Some (Some q') ∧ q' ≠ q) as Hlook.
  { intros n' q'. cbn [erase queueMap_]. intros [Hne Hn']%lookup_delete_Some. split_and!; [done|done|]. intros ->. by eapply Hne, queue_own0. }
  split; cbn [fst snd]; [done| | | |].
  - intros n'. cbn [erase queueMap_]. intros [_ Hn']%lookup_delete_Some. by eapply queue_there0.
  - intros n' q' (_ & Hn' & Hne)%Hlook. eapply Hothers; [done|by eapply queue_alive0].
  - intros n1 n2 q' (_ & H1 & _)%Hlook (_ & H2 & _)%Hlook. by eapply queue_own0.
  - intros n'. specialize (tasks_in_turn0 n'). unfold waiting in *. cbn [fst snd]. destruct (decide (n' = n)) as [->|Hn'].
    + rewrite Hn, Hq in tasks_in_turn0. unfold erase. cbn [queueMap_]. by rewrite lookup_delete_eq.
    + unfold erase. cbn [queueMap_]. rewrite lookup_delete_ne by done. destruct (queueMap_ s.1 !! n') as [[q'|]|] eqn:Hq'; [|done..].
      assert (q' ≠ q) as Hne by (intros ->; by eapply Hn', queue_own0).
      by rewrite (proj2 (Hothers q' Hne (queue_alive0 _ _ Hq'))).
Qed.
Lemma inv_insert evs s n q w' :
  inv evs s → queueMap_ s.1 !! n = None → ¬ alive s.2 q → alive w' q → pending w' q = [] → others_kept q s.2 w' →
  inv evs (insert_queue n q s.1, w').
Proof.
  intros Hs Hn Hfresh Hq Hpend Hothers. destruct Hs.
  assert (∀ n' q', queueMap_ (insert_queue n q s.1) !! n' = Some (Some q') →
    n' = n ∧ q' = q ∨ n' ≠ n ∧ queueMap_ s.1 !! n' = Some (Some q') ∧ q' ≠ q) as Hlook.
  { intros n' q'. cbn [insert_queue queueMap_]. intros [[-> [= ->]]|[Hne Hn']]%lookup_insert_Some; [by left|right]. split_and!; [done|done|]. intros ->. by eapply Hfresh, queue_alive0. }
  split; cbn [fst snd]; [done| | | |].
  - intros n'. cbn [insert_queue queueMap_]. intros [[_ [=]]|[_ Hn']]%lookup_insert_Some. by eapply queue_there0.
  - intros n' q' [[-> ->]|(_ & Hn' & Hne)]%Hlook; [done|]. eapply Hothers; [done|by eapply queue_alive0].
  - intros n1 n2 q' [[-> ->]|(_ & H1 & Hq1)]%Hlook [[-> Hq2]|(_ & H2 & Hq2)]%Hlook; [done..|]. by eapply queue_own0.
  - intros n'. specialize (tasks_in_turn0 n'). unfold waiting in *. cbn [fst snd insert_queue queueMap_]. destruct (decide (n' = n)) as [->|Hn'].
    + rewrite Hn in tasks_in_turn0. by rewrite lookup_insert_eq, Hpend.
    + rewrite lookup_insert_ne by done. destruct (queueMap_ s.1 !! n') as [[q'|]|] eqn:Hq'; [|done..].
      assert (q' ≠ q) as Hne by (intros ->; by eapply Hfresh, queue_alive0).
      by rewrite (proj2 (Hothers q' Hne (queue_alive0 _ _ Hq'))).
Qed.

(** The operations. *)
Lemma inv_count evs s n : inv evs s → 0 ≤ n < TASK_CLEAN_CYCLE → inv evs (set_count n s.1, s.2).
Proof. by intros [] Hn. Qed.
Lemma wp_ClearUselessQueue evs s : inv evs s → wp ClearUselessQueue s (λ _ s', inv evs s').
Proof.
  intros Hs. unfold ClearUselessQueue. apply wp_bind, wp_own_. case_if; [by apply wp_ret|].
  set (m := queueMap_ s.1).
  apply (wp_for_each (λ k s', inv evs s' ∧ ∀ n, n ∉ k.*1 → queueMap_ s'.1 !! n = m !! n)); [done| |by intros s' [? _]].
  intros k1 [n o] k2 [this w] Hl [Hs' Hrest]. cbn [fst] in Hrest.
  assert (n ∉ k1.*1) as Hfresh.
  { pose proof (NoDup_fst_map_to_list m) as Hnd. rewrite Hl, fmap_app, fmap_cons in Hnd. cbn [fst] in Hnd.
    apply NoDup_app in Hnd as (_ & Hnd & _). intros Hn. apply (Hnd n Hn). by left. }
  assert (queueMap_ this !! n = Some o) as Hn.
  { rewrite Hrest by done. apply elem_of_map_to_list. rewrite Hl. set_solver. }
  assert (∀ m' : gmap string (option Z), (∀ n', n' ≠ n → m' !! n' = queueMap_ this !! n') → ∀ n', n' ∉ (k1 ++ [(n, o)]).*1 → m' !! n' = m !! n') as Hkeep.
  { intros m' Hm' n'. rewrite fmap_app, not_elem_of_app. cbn. rewrite not_elem_of_cons. intros (Hn1 & Hn2 & _). rewrite Hm' by done. by apply Hrest. }
  unfold clear_queue. cbn [fst snd]. destruct o as [q|]; [|by destruct (queue_there _ _ Hs' _ Hn)].
  apply wp_bind, wp_env_, wp_gets. pose proof (queue_alive _ _ Hs' _ _ Hn) as Hq. cbn [fst snd] in *. rewrite get_task_cnt_pending by done.
  destruct (Z.eqb_spec (Z.of_nat (length (pending w q))) 0) as [Hz|]; [|apply wp_ret; split; [done|by apply Hkeep]].
  apply wp_bind, wp_set_own, wp_env_. cbn [fst snd]. unfold wp. split.
  - apply (inv_erase evs (this, w) n q); [done|done|apply nil_length_inv; cbn [snd]; lia|apply destroy_queue_others].
  - apply Hkeep. cbn [fst erase queueMap_]. intros n' Hn'. by rewrite lookup_delete_ne.
Qed.

(** A queue is made for the name when there is none. *)
Lemma wp_find_queue {A} evs s n (k : ST (t * W) A) (Q : A → t * W → Prop) :
  inv evs s → (∀ s' q, inv evs s' → queueMap_ s'.1 !! n = Some (Some q) → wp k s' Q) →
  wp (let* queueMap := own_ queueMap_ in
      (when bool_decide (queueMap !! n = None) || bool_decide (queueMap !! n = Some None) do emplace n) ;;; k) s Q.
Proof.
  intros Hs Hk. apply wp_bind, wp_own_, wp_bind. destruct (queueMap_ s.1 !! n) as [[q|]|] eqn:Hn.
  - rewrite !bool_decide_eq_false_2 by done. apply wp_ret. by eapply Hk.
  - by destruct (queue_there _ _ Hs _ Hn).
  - rewrite bool_decide_eq_true_2 by done. cbn [orb]. unfold emplace. apply wp_bind, wp_env_. unfold wp at 1.
    pose proof (make_queue_new n s.2) as Hnew. unfold eval, exec in *.
    destruct (make_queue n s.2) as [q w']. cbn [fst snd] in *. destruct Hnew as (Hfresh & Hq & Hpend & Hothers).
    apply wp_bind, wp_own_. cbn [fst snd]. rewrite Hn. apply wp_set_own. apply (Hk _ q); [by apply (inv_insert evs s n q)|].
    cbn [fst insert_queue queueMap_]. by rewrite lookup_insert_eq.
Qed.
Lemma submitted_one n (e : Entry T) evs : submitted n (evs ++ [Submitted n e]) = submitted n evs ++ [e].
Proof. unfold submitted. rewrite omap_app. cbn. by rewrite decide_True. Qed.
Lemma started_one n (e : Entry T) evs : started n (evs ++ [Started n e]) = started n evs ++ [e].
Proof. unfold started. rewrite omap_app. cbn. by rewrite decide_True. Qed.
Lemma cancelled_one n h evs : cancelled n (evs ++ [Cancelled n h]) = cancelled n evs ++ [h].
Proof. unfold cancelled. rewrite omap_app. cbn. by rewrite decide_True. Qed.

(** The runtime does something to the queue of a name. *)
Lemma inv_op {A} (m : ST W A) (f : A → list Event) evs s n q :
  inv evs s → queueMap_ s.1 !! n = Some (Some q) → (∀ a, Forall (about n) (f a)) →
  (alive s.2 q → let r := m s.2 in alive r.2 q ∧ others_kept q s.2 r.2 ∧
     (in_turn (submitted n evs) (started n evs) (pending s.2 q) (cancelled n evs) →
      in_turn (submitted n (evs ++ f r.1)) (started n (evs ++ f r.1)) (pending r.2 q) (cancelled n (evs ++ f r.1)))) →
  wp (env_ m) s (λ a s', inv (evs ++ f a) s').
Proof.
  intros Hs Hn Habout Hm. apply wp_env_. unfold wp, eval, exec.
  destruct (Hm (queue_alive _ _ Hs _ _ Hn)) as (Hq & Hothers & Hturn). apply (inv_queue evs (f (m s.2).1) s n q); [done..|].
  apply Hturn. pose proof (tasks_in_turn _ _ Hs n) as Ht. unfold waiting in Ht. by rewrite Hn in Ht.
Qed.
Lemma wp_Submit evs s n (t : T) d : inv evs s → 0 ≤ d →
  wp (Submit n t d) s (λ r s', inv (evs ++ match r with Some h => [Submitted n {| handle := h; task := t; delayed := bool_decide (0 < d) |}] | None => [] end) s').
Proof.
  intros Hs Hd. unfold Submit. apply wp_bind, wp_own_, wp_bind, wp_set_own. cbn [fst snd]. apply wp_bind, wp_own_, wp_bind. cbn [fst snd set_count submittedTaskCnt].
  pose proof (count_range _ _ Hs) as Hc. unfold TASK_CLEAN_CYCLE in Hc.
  rewrite to_int32_id by (unfold_widths; lia).
  apply (wp_mono _ _ (λ _ s', inv evs s')).
  2:{ destruct (Z.eqb_spec (Z.rem (submittedTaskCnt s.1 + 1) TASK_CLEAN_CYCLE) 0) as [Hr|Hr].
      - apply wp_bind, wp_set_own. cbn [fst snd]. apply wp_ClearUselessQueue. apply (inv_count evs s 0); [done|by vm_compute].
      - apply wp_ret. apply (inv_count evs s); [done|]. unfold TASK_CLEAN_CYCLE in *.
        destruct (Z.eq_dec (submittedTaskCnt s.1) 31) as [He|]; [rewrite He in Hr; by destruct Hr|lia]. }
  intros _ s1 Hs1. apply (wp_find_queue evs); [done|]. intros s2 q Hs2 Hq. apply wp_bind, wp_own_. rewrite Hq.
  apply (inv_op _ (λ r, match r with Some h => [Submitted n {| handle := h; task := t; delayed := bool_decide (0 < d) |}] | None => [] end) _ _ n q); [done..| |].
  { intros [h|]; repeat constructor. }
  intros Halive. destruct (submit_h_adds q t d s2.2 Halive) as (Ha & Ho & Hadd). destruct (submit_h q t d s2.2) as [[h|] w']; cbn [fst snd] in *.
  - destruct Hadd as (l1 & l2 & -> & -> & Hl2). split_and!; [done..|]. rewrite submitted_one. unfold started, cancelled. rewrite !omap_app. cbn [omap list_omap]. rewrite !app_nil_r.
    apply in_turn_submit. cbn [delayed]. intros Hd0. apply Hl2. apply bool_decide_eq_false in Hd0. lia.
  - rewrite Hadd, app_nil_r. by split_and!.
Qed.
Lemma wp_Cancel evs s n o : inv evs s →
  wp (Cancel n o) s (λ r s', inv (evs ++ match o with Some h => if r =? 0 then [Cancelled n h] else [] | None => [] end) s').
Proof.
  intros Hs. destruct o as [h|]; cbn [Cancel]; [|apply wp_ret; by rewrite app_nil_r].
  apply wp_bind, wp_own_. destruct (queueMap_ s.1 !! n) as [[q|]|] eqn:Hn.
  - apply (inv_op _ (λ r : Z, if r =? 0 then [Cancelled n h] else []) _ _ n q); [done..| |].
    { intros r. case_if; repeat constructor. }
    intros Halive. destruct (cancel_removes q h s.2 Halive) as (Ha & Ho & Hrem). split_and!; [done..|].
    destruct (_ =? 0); [|by rewrite Hrem, app_nil_r].
    destruct Hrem as (l1 & e & l2 & <- & -> & ->). rewrite cancelled_one. unfold submitted, started. rewrite !omap_app. cbn [omap list_omap]. rewrite !app_nil_r.
    apply in_turn_cancel.
  - by destruct (queue_there _ _ Hs _ Hn).
  - apply wp_ret. cbn. by rewrite app_nil_r.
Qed.

(** What the program asks for: a delay is not negative. *)
Definition wf_label (l : Label (T := T)) : Prop := match l with DoSubmit _ _ d => 0 ≤ d | _ => True end.
Lemma wp_run_label evs (l : Label (T := T)) s : inv evs s → wf_label l → wp (run_label l) s (λ new s', inv (evs ++ new) s').
Proof.
  intros Hs Hl. destruct l as [n t d|n o|n]; cbn [run_label].
  - apply wp_bind. eapply wp_mono; [|by apply wp_Submit]. intros r s' Hs'. by apply wp_ret.
  - apply wp_bind. eapply wp_mono; [|by apply wp_Cancel]. intros r s' Hs'. by apply wp_ret.
  - apply wp_bind, wp_own_. destruct (queueMap_ s.1 !! n) as [[q|]|] eqn:Hn; [|apply wp_ret; by rewrite app_nil_r..].
    apply wp_bind. eapply wp_mono; [|apply (inv_op _ (λ r, match r with Some e => [Started n e] | None => [] end) evs s n q); [done..| |]].
    + intros r s' Hs'. by apply wp_ret.
    + intros [e|]; repeat constructor.
    + intros Halive. destruct (start_next q s.2 Halive) as (Ha & Ho & Hp). split_and!; [done..|]. rewrite Hp.
      destruct (start q s.2).1 as [e|]; cbn [option_list app]; [|by rewrite app_nil_r].
      rewrite started_one. unfold submitted, cancelled. rewrite !omap_app. cbn [omap list_omap]. rewrite !app_nil_r. apply in_turn_start.
Qed.
Lemma inv_new w : inv [] (new, w).
Proof. by split. Qed.

(** C39: Whatever is submitted to the queues, cancelled and run, in any order: of the tasks
    submitted under a name each has been cancelled, started or still waits in the queue of
    the name, so that none is lost with a queue that is cleared away and none is started twice;
    and those without a delay start in the order in which they were submitted. *)
Theorem queued_tasks_in_turn ls w : Forall wf_label ls →
  wp (run_labels [] ls) (new, w) (λ evs s, ∀ n,
    map handle (started n evs ++ waiting s n) ++ cancelled n evs ≡ₚ map handle (submitted n evs) ∧
    undelayed (started n evs ++ waiting s n) `sublist_of` undelayed (submitted n evs)).
Proof.
  intros Hls. eapply (wp_mono _ _ inv); [intros evs s Hs n; exact (tasks_in_turn _ _ Hs n)|].
  generalize (inv_new w). generalize (@nil (Event (T := T))) as evs. generalize (new, w) as s.
  induction Hls as [|l ls Hl _ IH]; intros s evs Hs; [by apply wp_ret|]. cbn [run_labels]. apply wp_bind.
  eapply wp_mono; [|by apply wp_run_label]. intros new s' Hs'. by apply IH.
Qed.
End queues.

(** ** A runtime

    Queues and handles are numbered; a queue starts what is at its head. *)
Module SampleFfrt.
Record W := { next : Z; queues : gmap Z (list (Entry string)) }.
#[export] Instance ffrt : FfrtQueues string W := {
  make_queue _ w := (next w, {| next := next w + 1; queues := <[next w := []]> (queues w) |});
  submit_h q t d w :=
    match queues w !! q with
    | None => (None, w)
    | Some l => (Some (next w), {| next := next w + 1;
        queues := <[q := l ++ [{| handle := next w; task := t; delayed := bool_decide (0 < d) |}]]> (queues w) |})
    end;
  cancel q h w :=
    match list_find (λ e, handle e = h) (default [] (queues w !! q)) with
    | None => (1, w)
    | Some (i, _) => (0, {| next := next w; queues := alter (delete i) q (queues w) |})
    end;
  get_task_cnt w q := Z.of_nat (length (default [] (queues w !! q)));
  destroy_queue q w := (tt, {| next := next w; queues := delete q (queues w) |});
  start q w :=
    match queues w !! q with
    | Some (e :: l) => (Some e, {| next := next w; queues := <[q := l]> (queues w) |})
    | _ => (None, w)
    end;
  alive w q := is_Some (queues w !! q) ∧ q < next w;
  pending w q := default [] (queues w !! q)
}.
Lemma other_queues q w f z : (∀ q', q' ≠ q → f !! q' = queues w !! q') → next w ≤ z → others_kept q w {| next := z; queues := f |}.
Proof. intros Hf Hz q' Hq' [? ?]. cbn. rewrite Hf by done. split; [|done]. split; [done|lia]. Qed.
#[export] Instance laws : FfrtLaws string W.
Proof.
  split; cbn.
  - intros name w. rewrite lookup_insert_eq. split_and!; [lia|done|lia|done|]. apply other_queues; [|lia]. intros q' Hq'. by rewrite lookup_insert_ne.
  - intros q t d w [[l Hl] Hq]. rewrite Hl. cbn. rewrite lookup_insert_eq. split_and!; [done|lia| |].
    + apply other_queues; [|lia]. intros q' Hq'. by rewrite lookup_insert_ne.
    + exists l, []. by rewrite app_nil_r.
  - intros q h w [[l Hl] Hq]. rewrite Hl. cbn. destruct (list_find _ l) as [[i e]|] eqn:Hf; cbn [fst snd].
    + rewrite Z.eqb_refl. cbn [next queues]. rewrite lookup_alter_eq, Hl. cbn. split_and!; [done|done| |].
      * apply other_queues; [|lia]. intros q' Hq'. by rewrite lookup_alter_ne.
      * apply list_find_Some in Hf as (He & Hh & _). exists (take i l), e, (drop (S i) l).
        split; [done|]. split; [by rewrite take_drop_middle|apply delete_take_drop].
    + cbn. rewrite Hl. split_and!; [done|done| |done]. by intros q' _ ?.
  - intros q w [[l Hl] Hq]. rewrite Hl. cbn. destruct l as [|e l]; cbn [fst snd next queues].
    + rewrite Hl. split_and!; [done|done| |done]. by intros q' _ ?.
    + rewrite lookup_insert_eq. split_and!; [done|done| |done]. apply other_queues; [|lia]. intros q' Hq'. by rewrite lookup_insert_ne.
  - done.
  - intros q w. apply other_queues; [|lia]. intros q' Hq'. by rewrite lookup_delete_ne.
Qed.
Import SerialAsyncTaskQueueEmitter.
Definition two_reports : list (Label (T := string)) :=
  [DoSubmit "task" "first" 0; DoStart "task"; DoSubmit "task" "second" 0; DoSubmit "task" "later" 10; DoCancel "task" (Some 2)].
Lemma queued_tasks_in_turn_witness :
  let r := run_labels [] two_reports (new, {| next := 0; queues := ∅ |}) in
  map task (started "task" r.1) = ["first"] ∧ map task (waiting r.2 "task") = ["later"] ∧ cancelled "task" r.1 = [2] ∧
  map handle (started "task" r.1 ++ waiting r.2 "task") ++ cancelled "task" r.1 ≡ₚ map handle (submitted "task" r.1).
Proof.
  intros r. split; [by vm_compute|]. split; [by vm_compute|]. split; [by vm_compute|].
  exact (proj1 (queued_tasks_in_turn two_reports {| next := 0; queues := ∅ |} ltac:(repeat constructor; by vm_compute) "task")).
Defined.
End SampleFfrt.

(** ** Tasks that run in parallel

    [submitted_ w]: the tasks handed to the runtime, [ended]: has the task of a handle ended. *)
Class FfrtTasks (T W : Type) := {
  ffrt_submit_h : T → ST W Handle;
  ffrt_wait : list Handle → ST W unit;
  submitted_ : W → list T;
  ended : W → Handle → Prop
}.
Class FfrtTasksLaws (T W : Type) `{FfrtTasks T W} : Prop := {
  ffrt_submit_h_adds t w : submitted_ (exec (ffrt_submit_h t) w) = submitted_ w ++ [t];
  ffrt_wait_ends hs w h : h ∈ hs → ended (exec (ffrt_wait hs) w) h;
  ffrt_wait_adds hs w : submitted_ (exec (ffrt_wait hs) w) = submitted_ w
}.
Module AsyncTaskEmitter.
(*@ core/ability/async_task/include/async_task_emitter.h AsyncTaskEmitter *)
Record t := { asyncTaskHandles_ : list Handle }.
(*@ core/ability/async_task/src/async_task_emitter.cpp AsyncTaskEmitter::AsyncTaskEmitter *)
Definition new : t := {| asyncTaskHandles_ := [] |}.
Definition set_handles (hs : list Handle) (_ : t) : t := {| asyncTaskHandles_ := hs |}.
Section ops.
Context {T W : Type} `{FfrtTasks T W}.
#[local] Notation Emitter := (ST (t * W)).
(** A null function is [None]. *)
(*@ core/ability/async_task/src/async_task_emitter.cpp:35-44 AsyncTaskEmitter::Emit *)
Definition Emit (task : option T) : Emitter unit :=
  match task with
  | None => ret tt
  | Some task =>
      let* h := env_ (ffrt_submit_h task) in
      let* hs := own_ asyncTaskHandles_ in
      set_own (set_handles (hs ++ [h]))
  end.
(*@ core/ability/async_task/src/async_task_emitter.cpp:46-57 AsyncTaskEmitter::Emit *)
Definition Emit_all (tasks : list (option T)) : Emitter unit :=
  if bool_decide (length tasks = 0%nat) then ret tt else for_each tasks Emit.
(*@ core/ability/async_task/src/async_task_emitter.cpp AsyncTaskEmitter::Wait *)
Definition Wait : Emitter unit :=
  let* hs := own_ asyncTaskHandles_ in
  if bool_decide (length hs = 0%nat) then ret tt
  else env_ (ffrt_wait hs) ;;; set_own (set_handles []).
End ops.
End AsyncTaskEmitter.
Section parallel.
Context {T W : Type} `{FfrtTasksLaws T W}.
Import AsyncTaskEmitter.
Lemma wp_Emit_all (tasks : list (option T)) (s : t * W) :
  wp (Emit_all tasks) s (λ _ s', ∃ hs, asyncTaskHandles_ s'.1 = asyncTaskHandles_ s.1 ++ hs ∧
    length hs = length (omap id tasks) ∧ submitted_ s'.2 = submitted_ s.2 ++ omap id tasks).
Proof.
  unfold Emit_all. destruct tasks as [|task tasks].
  { apply wp_ret. exists []. by rewrite !app_nil_r. }
  rewrite bool_decide_eq_false_2 by done. set (all := task :: tasks).
  apply (wp_for_each (λ l s', ∃ hs, asyncTaskHandles_ s'.1 = asyncTaskHandles_ s.1 ++ hs ∧
    length hs = length (omap id l) ∧ submitted_ s'.2 = submitted_ s.2 ++ omap id l)); [| |done].
  { exists []. by rewrite !app_nil_r. }
  intros l1 [x|] l2 s' _ (hs & Hhs & Hlen & Hsub); rewrite omap_app; cbn [omap list_omap id Emit].
  - apply wp_bind, wp_env_. unfold wp at 1. apply wp_bind, wp_own_, wp_set_own. cbn [fst snd set_handles asyncTaskHandles_].
    rewrite Hhs, ffrt_submit_h_adds, Hsub. exists (hs ++ [eval (ffrt_submit_h x) s'.2]). rewrite !length_app, Hlen. by rewrite <- !app_assoc.
  - apply wp_ret. exists hs. by rewrite app_nil_r.
Qed.
(** After the wait every task that was emitted has ended; the null ones were skipped, and
    the emitter can be used again. *)
Theorem emitted_tasks_ended (tasks : list (option T)) w :
  wp (Emit_all tasks) (new, w) (λ _ s1,
    submitted_ s1.2 = submitted_ w ++ omap id tasks ∧ length (asyncTaskHandles_ s1.1) = length (omap id tasks) ∧
    wp Wait s1 (λ _ s2, s2.1 = new ∧ submitted_ s2.2 = submitted_ s1.2 ∧ Forall (ended s2.2) (asyncTaskHandles_ s1.1))).
Proof.
  eapply wp_mono; [|apply wp_Emit_all]. intros _ [this w1] (hs & Hhs & Hlen & Hsub). cbn [fst snd app] in *. rewrite Hhs. split; [done|]. split; [done|].
  unfold Wait. apply wp_bind, wp_own_. cbn [fst]. destruct this as [hs']. cbn [asyncTaskHandles_ app] in *. subst hs'. destruct hs as [|h hs].
  { by apply wp_ret. }
  rewrite bool_decide_eq_false_2 by done. apply wp_bind, wp_env_. unfold wp at 1. apply wp_set_own. cbn [fst snd]. split; [done|].
  split; [apply ffrt_wait_adds|]. apply Forall_forall. intros h'. apply ffrt_wait_ends.
Qed.
End parallel.

(** ** Timers

    [Utils::Timer]: [Register] gives the id of a timer that comes again and again; [timers]:
    the ids of those that run. *)
Class TimerKits (E : Type) := {
  Timer_Register : Z → ST E Z;
  Timer_Unregister : Z → ST E unit;
  Timer_Shutdown : ST E unit;
  timers : E → gset Z
}.
Class TimerLaws (E : Type) `{TimerKits E} : Prop := {
  Register_new interval e : let r := Timer_Register interval e in r.1 ∉ timers e ∧ timers r.2 = {[r.1]} ∪ timers e;
  Unregister_ends id e : timers (exec (Timer_Unregister id) e) = timers e ∖ {[id]}
}.
Module TimerManager.
(*@ core/ability/alarm/src/timer_manager.cpp ONE_SECOND_MILLISECONDS *)
Definition ONE_SECOND_MILLISECONDS : Z := 1000.
(*@ core/ability/alarm/include/timer_manager.h EventType *)
Definition STARTUP_IDLE_LOOPER_EVENT : Z := 1.
(*@ core/ability/alarm/include/timer_manager.h TimerManager *)
Record t := { registeredTimerIdMap_ : gmap Z Z }.
(*@ core/ability/alarm/src/timer_manager.cpp TimerManager::TimerManager *)
Definition new : t := {| registeredTimerIdMap_ := ∅ |}.
Section ops.
Context {E : Type} `{TimerKits E}.
#[local] Notation Manager := (ST (t * E)).
(** Under the lock. *)
(*@ core/ability/alarm/src/timer_manager.cpp TimerManager::UnregisterLooperEvent *)
Definition UnregisterLooperEvent (eventType : Z) : Manager unit :=
  let* ids := own_ registeredTimerIdMap_ in
  match ids !! eventType with
  | None => ret tt
  | Some timerId =>
      env_ (Timer_Unregister timerId) ;;;
      set_own (λ this, {| registeredTimerIdMap_ := delete eventType (registeredTimerIdMap_ this) |})
  end.
(** [emplace], under the lock, leaves an id that is there. *)
(*@ core/ability/alarm/src/timer_manager.cpp:63-66 TimerManager::RegisterLooperEvent *)
Definition record_timer (eventType registerTimerId : Z) : Manager unit :=
  set_own (λ this, match registeredTimerIdMap_ this !! eventType with
                   | Some _ => this
                   | None => {| registeredTimerIdMap_ := <[eventType := registerTimerId]> (registeredTimerIdMap_ this) |}
                   end).
(** The interval is an [uint32_t] of the timer. *)
(*@ core/ability/alarm/src/timer_manager.cpp:53-62 TimerManager::RegisterLooperEvent *)
Definition make_timer (looperInterval : Z) : Manager Z :=
  env_ (Timer_Register (to_uint32 (to_int64 (looperInterval * ONE_SECOND_MILLISECONDS)))).
(*@ core/ability/alarm/src/timer_manager.cpp TimerManager::RegisterLooperEvent *)
Definition RegisterLooperEvent (eventType looperInterval : Z) : Manager bool :=
  UnregisterLooperEvent eventType ;;;
  let* registerTimerId := make_timer looperInterval in
  record_timer eventType registerTimerId ;;;
  ret true.
(*@ core/ability/alarm/src/timer_manager.cpp TimerManager::~TimerManager *)
Definition destroy : Manager unit :=
  let* ids := own_ registeredTimerIdMap_ in
  for_each (map_to_list ids) (λ it, env_ (Timer_Unregister it.2)) ;;;
  env_ Timer_Shutdown.

(** *** Calls from several threads

    [RegisterLooperEvent] is not one section under the lock: a thread is before its
    first part, its second or its third. *)
Inductive Thread := Replacing (eventType looperInterval : Z) | Making (eventType looperInterval : Z) | Recording (eventType id : Z) | Removing (eventType : Z).
Definition run (p : Thread) : Manager (list Thread) :=
  match p with
  | Replacing ev i => UnregisterLooperEvent ev ;;; ret [Making ev i]
  | Making ev i => let* id := make_timer i in ret [Recording ev id]
  | Recording ev id => record_timer ev id ;;; ret []
  | Removing ev => UnregisterLooperEvent ev ;;; ret []
  end.
Inductive step : list Thread * (t * E) → list Thread * (t * E) → Prop :=
  | step_run l1 p l2 s l s' : run p s = (l, s') → step (l1 ++ p :: l2, s) (l1 ++ l ++ l2, s')
  | step_call ps p s : step (ps, s) (ps ++ [p], s).
End ops.
End TimerManager.

Section timers.
Context {E : Type} `{TimerLaws E}.
Import TimerManager.
(** The timers that run are those of the events, one for each. *)
Definition one_timer_each (s : TimerManager.t * E) : Prop :=
  (∀ id, id ∈ timers s.2 ↔ ∃ ev, registeredTimerIdMap_ s.1 !! ev = Some id) ∧
  ∀ ev ev' id, registeredTimerIdMap_ s.1 !! ev = Some id → registeredTimerIdMap_ s.1 !! ev' = Some id → ev = ev'.
Definition timer_of (this : TimerManager.t) (ev : Z) : gset Z := from_option singleton ∅ (registeredTimerIdMap_ this !! ev).
Lemma wp_UnregisterLooperEvent ev s : one_timer_each s →
  wp (UnregisterLooperEvent ev) s (λ _ s', one_timer_each s' ∧ registeredTimerIdMap_ s'.1 = delete ev (registeredTimerIdMap_ s.1) ∧
    timers s'.2 = timers s.2 ∖ timer_of s.1 ev).
Proof.
  intros [Hids Hone]. unfold UnregisterLooperEvent, timer_of. apply wp_bind, wp_own_. destruct (registeredTimerIdMap_ s.1 !! ev) as [id|] eqn:Hev.
  2:{ apply wp_ret. split; [by split|]. rewrite delete_id by done. split; [done|]. cbn [from_option]. set_solver. }
  apply wp_bind, wp_env_. unfold wp at 1. apply wp_set_own. cbn [fst snd registeredTimerIdMap_ from_option]. split; [|split; [done|apply Unregister_ends]]. split; cbn [fst snd registeredTimerIdMap_].
  - intros id'. rewrite Unregister_ends, elem_of_difference, elem_of_singleton, Hids. split.
    + intros [[ev' Hev'] Hid]. exists ev'. apply lookup_delete_Some. split; [|done]. intros <-. congruence.
    + intros [ev' [Hne Hev']%lookup_delete_Some]. split; [by exists ev'|]. intros ->. by destruct (Hone ev ev' id).
  - intros ev1 ev2 id' [_ H1]%lookup_delete_Some [_ H2]%lookup_delete_Some. by eapply Hone.
Qed.
(** A looper of an event takes the place of the one the event had, and no other timer
    starts or ends. *)
Theorem looper_replaced ev interval s : one_timer_each s →
  wp (RegisterLooperEvent ev interval) s (λ r s', r = true ∧ one_timer_each s' ∧
    ∃ id, id ∉ timers s.2 ∖ timer_of s.1 ev ∧ timers s'.2 = {[id]} ∪ timers s.2 ∖ timer_of s.1 ev ∧
      registeredTimerIdMap_ s'.1 = <[ev := id]> (registeredTimerIdMap_ s.1)).
Proof.
  intros Hs. unfold RegisterLooperEvent. apply wp_bind. eapply wp_mono; [|by apply wp_UnregisterLooperEvent].
  intros _ s1 ([Hids Hone] & Hm & Ht). unfold make_timer. apply wp_bind, wp_env_. unfold wp at 1.
  destruct (Register_new (to_uint32 (to_int64 (interval * ONE_SECOND_MILLISECONDS))) s1.2) as [Hfresh Htimers]. unfold eval, exec.
  destruct (Timer_Register _ s1.2) as [id e']. cbn [fst snd] in *.
  apply wp_bind, wp_set_own, wp_ret. cbn [fst snd]. rewrite Hm, lookup_delete_eq. cbn [registeredTimerIdMap_].
  assert (∀ ev', registeredTimerIdMap_ s1.1 !! ev' ≠ Some id) as Hnew by (intros ev' Hev'; apply Hfresh, Hids; by exists ev').
  split; [done|]. split; [|exists id; rewrite <- Ht; by rewrite insert_delete_eq].
  rewrite Hm in *. split; cbn [fst snd registeredTimerIdMap_].
  - intros id'. rewrite Htimers, elem_of_union, elem_of_singleton, Hids. split.
    + intros [->|[ev' Hev']]; [exists ev; by rewrite lookup_insert_eq|]. exists ev'. apply lookup_insert_Some. right. split; [|done].
      apply lookup_delete_Some in Hev' as [? _]. done.
    + intros [ev' [[-> ->]|[_ Hev']]%lookup_insert_Some]; [by left|]. right. by exists ev'.
  - intros ev1 ev2 id' [[-> ->]|[_ H1]]%lookup_insert_Some [[-> Hid]|[_ H2]]%lookup_insert_Some; [done| | |by eapply Hone].
    + by destruct (Hnew ev2).
    + subst. by destruct (Hnew ev1).
Qed.
End timers.

(** ** A timer that counts its ids *)
Module SampleTimer.
Import TimerManager.
Record E := { next : Z; running : gset Z }.
#[export] Instance kits : TimerKits E := {
  Timer_Register _ e := (next e, {| next := next e + 1; running := {[next e]} ∪ filter (λ id, id < next e) (running e) |});
  Timer_Unregister id e := (tt, {| next := next e; running := running e ∖ {[id]} |});
  Timer_Shutdown := ret tt;
  timers e := filter (λ id, id < next e) (running e)
}.
#[export] Instance laws : TimerLaws E.
Proof. split; intros; cbn; set_solver by lia. Qed.
Definition off : TimerManager.t * E := (new, {| next := 0; running := ∅ |}).
Lemma looper_replaced_witness :
  let s1 := exec (RegisterLooperEvent STARTUP_IDLE_LOOPER_EVENT 60) off in
  let s2 := exec (RegisterLooperEvent STARTUP_IDLE_LOOPER_EVENT 30) s1 in
  one_timer_each s1 ∧ one_timer_each s2 ∧ registeredTimerIdMap_ s2.1 = {[1 := 1]}.
Proof.
  intros s1 s2.
  assert (one_timer_each off) as H0 by (split; [intros id; cbn; split; [set_solver|intros [ev [=]]]|by intros ? ? ? [=]]).
  pose proof (looper_replaced STARTUP_IDLE_LOOPER_EVENT 60 off H0) as (_ & H1 & _).
  pose proof (looper_replaced STARTUP_IDLE_LOOPER_EVENT 30 s1 H1) as (_ & H2 & _).
  split; [exact H1|]. split; [exact H2|]. by vm_compute.
Defined.
(** Two threads that register a looper of the same event at once: when both are done, a
    timer runs that no event leads to, so that nothing ends it any more. *)
Theorem looper_timer_leaks :
  ∃ s, star step ([], off) ([], s) ∧ timers s.2 = {[0; 1]} ∧ registeredTimerIdMap_ s.1 = {[1 := 0]}.
Proof.
  eexists. split.
  { eapply star_step; [apply (step_call [] (Replacing 1 60))|].
    eapply star_step; [apply (step_call _ (Replacing 1 60))|].
    eapply star_step; [refine (step_run [] (Replacing 1 60) [Replacing 1 60] _ _ _ _); reflexivity|].
    eapply star_step; [refine (step_run [Making 1 60] (Replacing 1 60) [] _ _ _ _); reflexivity|].
    eapply star_step; [refine (step_run [] (Making 1 60) [Making 1 60] _ _ _ _); reflexivity|].
    eapply star_step; [refine (step_run [Recording 1 0] (Making 1 60) [] _ _ _ _); reflexivity|].
    eapply star_step; [refine (step_run [] (Recording 1 0) [Recording 1 1] _ _ _ _); reflexivity|].
    eapply star_step; [refine (step_run [] (Recording 1 1) [] _ _ _ _); reflexivity|].
    apply star_refl. }
  split; [|by vm_compute]. cbn. apply leibniz_equiv. set_solver by lia.
Qed.
End SampleTimer.
