(* ===== verification/Notify.v ===== *)
(** * Messages to the update application

    Models [update_notify.cpp]: an event without a registered callback is sent to the
    service of the update application, over a connection that is made when it is first needed
    and dropped when a message cannot be sent.  [HandleMessage] runs on several threads; the
    connection is told from another one that it is up or down.  The sections under
    [connectLock_] and [connectMutex_] are the steps of [step]; the ability manager and the
    remote object are a class. *)
From Stdlib Require Import ZArith Lia Ascii String.
From stdpp Require Import base tactics list strings sets.
From S2P Require Import Prelude JsonUtils Parcel.

#[local] Open Scope Z_scope.

Module Want.
Record t := { bundleName : string; abilityName : string; Timeout : Z }.
End Want.
(** A connection object is known by a number; a remote object by its address. *)
Class NotifyKits (E : Type) := {
  ConnectServiceExtensionAbility : Want.t → nat → ST E Z;
  DisconnectServiceAbility : nat → ST E Z;
  WriteString16 : u16string → ST E bool;
  SendRequest : Z → Z → u16string → ST E Z
}.
(** Building and printing JSON. *)
Class CJsonPrint (J : Type) := {
  cJSON_CreateObject : option J;
  cJSON_CreateNull : J;
  cJSON_AddItemToObject : J → string → J → J;
  cJSON_PrintUnformatted : J → option string
}.

(** ** The connection *)
Module NotifyConnection.
(*@ engine/include/update_notify.h NotifyConnection *)
Record t := { remoteObject_ : option Z }.
(*@ engine/include/update_notify.h NotifyConnection *)
Definition new : t := {| remoteObject_ := None |}.
(*@ engine/src/update_notify.cpp NotifyConnection::IsConnected *)
Definition IsConnected (this : t) : bool := bool_decide (is_Some (remoteObject_ this)).
(*@ engine/src/update_notify.cpp NotifyConnection::OnAbilityConnectDone *)
Definition OnAbilityConnectDone (remoteObject : option Z) (resultCode : Z) (_ : t) : t :=
  {| remoteObject_ := if (resultCode =? 0) && bool_decide (is_Some remoteObject) then remoteObject else None |}.
(*@ engine/src/update_notify.cpp NotifyConnection::OnAbilityDisconnectDone *)
Definition OnAbilityDisconnectDone (_ : t) : t := {| remoteObject_ := None |}.
End NotifyConnection.

Module UpdateNotify.
(*@* engine/include/update_notify.h UpdateAppCode *)
Definition UPDATE_APP : Z := 5.
(*@* interfaces/inner_api/feature/update/model/subscribe/subscribe_info.h = *)
Definition UPDATE_APP_PACKAGE_NAME : string := "com.ohos.updateapp".
Definition UPDATE_APP_SERVICE_EXT_ABILITY_NAME : string := "ServiceExtAbility".
Definition UPDATE_APP_TIMEOUT : Z := 15.
(** [connections]: the connection objects made so far; the threads hold some of them. *)
(*@ engine/include/update_notify.h:51-52 UpdateNotify *)
Record t := { connectionStub_ : option nat; connections : list NotifyConnection.t }.
(*@ engine/include/update_notify.h:51-52 UpdateNotify *)
Definition new : t := {| connectionStub_ := None; connections := [] |}.
Definition set_stub (s : option nat) (this : t) : t := {| connectionStub_ := s; connections := connections this |}.
Definition on_connection (f : NotifyConnection.t → NotifyConnection.t) (s : nat) (this : t) : t :=
  {| connectionStub_ := connectionStub_ this; connections := alter f s (connections this) |}.
(** [MakeSptr] *)
Definition make_stub (this : t) : t :=
  {| connectionStub_ := Some (length (connections this)); connections := connections this ++ [NotifyConnection.new] |}.

Section ops.
Context {E : Type} `{NotifyKits E, StringEx}.
#[local] Notation Notify := (ST (t * E)).
(** What the ability manager and the application hear, and what a call of
    [HandleMessage] (the [call]th one) returns. *)
Inductive Event := Connecting (stub : nat) | Disconnected (stub : nat) | Sent (call : nat) (result : Z) | Done (call : nat) (result : bool).

(*@ engine/src/update_notify.cpp:105-117 UpdateNotify::ConnectAbility *)
Definition ConnectAbility (connect : nat) : ST E bool :=
  let* result := ConnectServiceExtensionAbility
    {| Want.bundleName := UPDATE_APP_PACKAGE_NAME; Want.abilityName := UPDATE_APP_SERVICE_EXT_ABILITY_NAME; Want.Timeout := UPDATE_APP_TIMEOUT |} connect in
  ret (result =? 0).
(** Up to the wait for the remote object: the connection to wait for. *)
(*@ engine/src/update_notify.cpp UpdateNotify::GetRemoteConnectObj *)
Definition GetRemoteConnectObj : Notify (option nat * list Event) :=
  let* stub := own_ connectionStub_ in
  (when bool_decide (stub = None) do set_own make_stub) ;;;
  let* stub := own_ connectionStub_ in
  match stub with
  | None => ret (None, [])
  | Some stub =>
      let* connection := own_ (λ this, connections this !! stub) in
      if from_option NotifyConnection.IsConnected false connection then ret (Some stub, [])
      else
        let* connected := env_ (ConnectAbility stub) in
        ret (if connected : bool then Some stub else None, [Connecting stub])
  end.
(*@ engine/src/update_notify.cpp:159-164 UpdateNotify::HandleMessage *)
Definition take_connection : Notify (option nat) :=
  let* stubToDisconnect := own_ connectionStub_ in
  set_own (set_stub None) ;;;
  ret stubToDisconnect.
(*@ engine/src/update_notify.cpp:68-74 UpdateNotify::DisconnectAbility *)
Definition DisconnectAbility (connect : nat) : ST E unit := let* _ := DisconnectServiceAbility connect in ret tt.
(*@ engine/src/update_notify.cpp UpdateNotify::~UpdateNotify *)
Definition destroy : Notify unit :=
  let* stub := take_connection in
  match stub with None => ret tt | Some stub => env_ (DisconnectAbility stub) end.

(** Where a call of [HandleMessage] is: before it looks for the connection, waiting for
    the remote object, before it sends, before it takes the connection away, before it
    disconnects that. *)
Inductive Stage := Getting (message : string) | Waiting (stub : nat) (message : string) | Sending (remote : Z) (message : string)
  | Dropping | Ending (stub : nat).
Definition Thread : Type := nat * Stage.
(** The next part of a call.  The wait ends when there is a remote object or with the time. *)
(*@ engine/src/update_notify.cpp UpdateNotify::HandleMessage *)
Definition run (p : Thread) : Notify (option Stage * list Event) :=
  let k := p.1 in
  match p.2 with
  | Getting message =>
      let* (stub, evs) := GetRemoteConnectObj in
      ret (match stub with
           | Some stub => (Some (Waiting stub message), evs)
           | None => (None, evs ++ [Done k false])
           end)
  | Waiting stub message =>
      let* connection := own_ (λ this, connections this !! stub) in
      match connection ≫= NotifyConnection.remoteObject_ with
      | Some remote => ret (Some (Sending remote message), [])
      | None => ret (None, [Done k false])
      end
  | Sending remote message =>
      let* written := env_ (WriteString16 (Str8ToStr16 message)) in
      if negb written then ret (None, [Done k false])
      else
        let* result := env_ (SendRequest remote UPDATE_APP (Str8ToStr16 message)) in
        if negb (result =? 0) then ret (Some Dropping, [Sent k result])
        else ret (None, [Sent k result; Done k true])
  | Dropping =>
      let* stub := take_connection in
      ret (match stub with Some stub => (Some (Ending stub), []) | None => (None, [Done k false]) end)
  | Ending stub => env_ (DisconnectAbility stub) ;;; ret (None, [Disconnected stub; Done k false])
  end.

(** [calls]: how many calls there have been. *)
Record sys := { vars : t; env : E; threads : list Thread; calls : nat; history : list Event }.
Definition initial (e : E) : sys := {| vars := new; env := e; threads := []; calls := 0; history := [] |}.
(** A thread goes on; [HandleMessage] is called; the ability manager tells that a connection
    is up, or not, or down; the environment changes. *)
Inductive step : sys → sys → Prop :=
  | step_run v e l1 k p l2 n h p' evs v' e' :
      run (k, p) (v, e) = ((p', evs), (v', e')) →
      step {| vars := v; env := e; threads := l1 ++ (k, p) :: l2; calls := n; history := h |}
           {| vars := v'; env := e'; threads := l1 ++ (pair k <$> option_list p') ++ l2; calls := n; history := h ++ evs |}
  | step_call v e ts n h message :
      step {| vars := v; env := e; threads := ts; calls := n; history := h |}
           {| vars := v; env := e; threads := ts ++ [(n, Getting message)]; calls := S n; history := h |}
  | step_connected v e ts n h stub remote code :
      step {| vars := v; env := e; threads := ts; calls := n; history := h |}
           {| vars := on_connection (NotifyConnection.OnAbilityConnectDone remote code) stub v; env := e; threads := ts; calls := n; history := h |}
  | step_disconnected v e ts n h stub :
      step {| vars := v; env := e; threads := ts; calls := n; history := h |}
           {| vars := on_connection NotifyConnection.OnAbilityDisconnectDone stub v; env := e; threads := ts; calls := n; history := h |}
  | step_env v e e' ts n h :
      step {| vars := v; env := e; threads := ts; calls := n; history := h |} {| vars := v; env := e'; threads := ts; calls := n; history := h |}.
End ops.

(** *** The message *)
Section message.
Context {J : Type} `{CJson J, CJsonPrint J}.
Definition parsed (text : string) : J := default cJSON_CreateNull (cJSON_Parse (UpdateServiceJsonUtils.c_str text)).
(** The text handed to [HandleMessage]; [false] to the caller when there is none. *)
(*@ engine/src/update_notify.cpp UpdateNotify::ConnectToAppService *)
Definition ConnectToAppService (eventInfo subscribeInfo : string) : option string :=
  if (eventInfo =? "")%string then None
  else
    match cJSON_CreateObject with
    | None => None
    | Some root =>
        let root := cJSON_AddItemToObject root "EventInfo" (parsed eventInfo) in
        let root := cJSON_AddItemToObject root "SubscribeInfo" (parsed subscribeInfo) in
        cJSON_PrintUnformatted root
    end.
End message.

(** *** Properties *)
Section calls.
Context {E : Type} `{NotifyKits E, StringEx}.
Implicit Types (h : list Event) (s : sys (E := E)).

(** What a call has sent and returned. *)
Definition of_call (k : nat) : list Event → list (Z + bool) :=
  omap (λ ev, match ev with
              | Sent k' r => if decide (k' = k) then Some (inl r) else None
              | Done k' b => if decide (k' = k) then Some (inr b) else None
              | _ => None
              end).
Definition stage_ok (p : Stage) (tr : list (Z + bool)) : Prop :=
  match p with
  | Getting _ | Waiting _ _ | Sending _ _ => tr = []
  | Dropping | Ending _ => ∃ r, r ≠ 0 ∧ tr = [inl r]
  end.
Definition finished (tr : list (Z + bool)) : Prop :=
  tr = [inr false] ∨ (∃ r, r ≠ 0 ∧ tr = [inl r; inr false]) ∨ tr = [inl 0; inr true].
(** The connections that are in use, about to be ended, or ended. *)
Definition ending (p : Thread) : option nat := match p.2 with Ending stub => Some stub | _ => None end.
Definition disconnected : list Event → list nat := omap (λ ev, match ev with Disconnected stub => Some stub | _ => None end).
Definition known s : list nat := option_list (connectionStub_ (vars s)) ++ omap ending (threads s) ++ disconnected (history s).

Lemma find_connection_facts (v v' : t) (e e' : E) o evs :
  GetRemoteConnectObj (v, e) = ((o, evs), (v', e')) →
  ∃ stub, connectionStub_ v' = Some stub ∧ (evs = [] ∨ evs = [Connecting stub]) ∧
    (connectionStub_ v = Some stub ∧ v' = v ∨
     connectionStub_ v = None ∧ stub = length (connections v) ∧ v' = make_stub v).
Proof.
  unfold GetRemoteConnectObj. intros Hrun. unfold bind at 1, own_ at 1 in Hrun. cbn [fst] in Hrun.
  destruct (connectionStub_ v) as [stub|] eqn:Hv.
  - rewrite bool_decide_eq_false_2 in Hrun by done. unfold bind, own_, ret in Hrun. cbn [fst snd] in Hrun. rewrite Hv in Hrun. exists stub.
    destruct (from_option NotifyConnection.IsConnected false _).
    + injection Hrun as <- <- <- <-. split; [done|]. split; [by left|by left].
    + unfold env_ in Hrun. cbn [fst snd] in Hrun. destruct (ConnectAbility stub e) as [b e1]. injection Hrun as <- <- <- <-. split; [done|]. split; [by right|by left].
  - rewrite bool_decide_eq_true_2 in Hrun by done. unfold bind, own_, set_own, ret in Hrun. cbn [fst snd] in Hrun. exists (length (connections v)).
    cbn [make_stub connectionStub_] in Hrun.
    destruct (from_option NotifyConnection.IsConnected false _).
    + injection Hrun as <- <- <- <-. split; [done|]. split; [by left|by right].
    + unfold env_ in Hrun. cbn [fst snd] in Hrun. destruct (ConnectAbility _ e) as [b e1]. injection Hrun as <- <- <- <-. split; [done|]. split; [by right|by right].
Qed.
(** What a part of a call does to the connections and to its own history. *)
Definition run_facts (k : nat) (p : Stage) (v v' : t) (p' : option Stage) (evs : list Event) : Prop :=
  (∃ fresh, option_list (connectionStub_ v') ++ omap ending (pair k <$> option_list p') ++ disconnected evs
              ≡ₚ (option_list (connectionStub_ v) ++ omap ending [(k, p)]) ++ fresh ∧
     (fresh = [] ∧ length (connections v') = length (connections v) ∨
      fresh = [length (connections v)] ∧ length (connections v') = S (length (connections v)))) ∧
  (∀ stub, Connecting stub ∈ evs → connectionStub_ v' = Some stub) ∧
  (∀ k', k' ≠ k → of_call k' evs = []) ∧
  (∀ tr, stage_ok p tr → match p' with Some p' => stage_ok p' (tr ++ of_call k evs) | None => finished (tr ++ of_call k evs) end).
Lemma of_call_app k h1 h2 : of_call k (h1 ++ h2) = of_call k h1 ++ of_call k h2.
Proof. apply omap_app. Qed.
Lemma of_call_other k k' h : k' ≠ k → Forall (λ ev, match ev with Sent c _ | Done c _ => c = k | _ => True end) h → of_call k' h = [].
Proof. intros Hk. unfold of_call. induction 1 as [|[] h Hev _ IH]; cbn; [done|exact IH..| |]; subst; by rewrite decide_False. Qed.
(** A part that makes no connection. *)
Lemma run_quiet k p v v' p' evs :
  length (connections v') = length (connections v) →
  option_list (connectionStub_ v') ++ omap ending (pair k <$> option_list p') ++ disconnected evs
    ≡ₚ option_list (connectionStub_ v) ++ omap ending [(k, p)] →
  Forall (λ ev, match ev with Sent c _ | Done c _ => c = k | Connecting _ => False | _ => True end) evs →
  (∀ tr, stage_ok p tr → match p' with Some p' => stage_ok p' (tr ++ of_call k evs) | None => finished (tr ++ of_call k evs) end) →
  run_facts k p v v' p' evs.
Proof.
  intros Hlen Hperm Hevs Htr. split_and!; [|  | |exact Htr].
  - exists []. rewrite app_nil_r. split; [exact Hperm|]. by left.
  - intros stub Hs. by destruct (proj1 (Forall_forall _ _) Hevs _ Hs).
  - intros k' Hk'. apply (of_call_other k); [done|]. eapply Forall_impl; [exact Hevs|]. by intros [].
Qed.
Ltac trace k := intros tr Htr; cbn in Htr; destruct_and?; try destruct Htr as (? & ? & ->); subst; unfold of_call; cbn; rewrite ?decide_True by done; cbn; unfold finished; eauto 7.
Lemma run_correct k p (v v' : t) (e e' : E) p' evs :
  run (k, p) (v, e) = ((p', evs), (v', e')) → run_facts k p v v' p' evs.
Proof.
  destruct p as [message|stub message|remote message| |stub]; cbn [run fst snd].
  - unfold bind at 1. destruct (GetRemoteConnectObj (v, e)) as [[o evs0] [v1 e1]] eqn:Hget. intros Hrun.
    apply find_connection_facts in Hget as (stub & Hv' & Hevs & Hv).
    assert (v1 = v' ∧ ∃ end_, evs = evs0 ++ end_ ∧ (p' = Some (Waiting (default stub o) message) ∧ end_ = [] ∨ p' = None ∧ end_ = [Done k false])) as (-> & end_ & -> & Hend).
    { destruct o as [o|]; injection Hrun as <- <- <- <-; (split; [done|]); eexists; [|eauto]. split; [by rewrite app_nil_r|]. by left. }
    assert (∀ k', of_call k' (evs0 ++ end_) = of_call k' end_) as Hof by (intros k'; rewrite of_call_app; by destruct Hevs as [-> | ->]).
    assert (disconnected (evs0 ++ end_) = [] ∧ omap ending (pair k <$> option_list p') = []) as [Hdis Hnone]
      by (destruct Hevs as [-> | ->], Hend as [[-> ->]|[-> ->]]; done).
    split_and!.
    + rewrite Hdis, Hnone, Hv'. destruct Hv as [[-> ->]|(-> & -> & ->)]; [exists []; split; [done|by left]|].
      exists [length (connections v)]. split; [done|]. right. split; [done|]. cbn. rewrite length_app. cbn. lia.
    + intros stub' Hs. rewrite Hv'. destruct Hevs as [-> | ->], Hend as [[_ ->]|[_ ->]]; set_solver.
    + intros k' Hk'. rewrite Hof. destruct Hend as [[_ ->]|[_ ->]]; [done|]. cbn. by rewrite decide_False.
    + intros tr ->. rewrite Hof. destruct Hend as [[-> ->]|[-> ->]]; [done|]. cbn. rewrite decide_True by done. by left.
  - unfold bind, own_, ret. cbn [fst]. destruct (connections v !! stub ≫= NotifyConnection.remoteObject_); intros [= <- <- <- <-];
      (apply run_quiet; [done|done|by repeat constructor|trace k]).
  - unfold bind, env_, ret. cbn [fst snd]. destruct (WriteString16 _ e) as [[] e1]; cbn [negb fst snd].
    + destruct (SendRequest _ _ _ e1) as [r e2]. destruct (Z.eqb_spec r 0) as [->|Hr]; intros [= <- <- <- <-];
        (apply run_quiet; [done|done|by repeat constructor|trace k]).
    + intros [= <- <- <- <-]. apply run_quiet; [done|done|by repeat constructor|trace k].
  - unfold bind, take_connection, own_, set_own, ret. cbn. destruct (connectionStub_ v) as [stub|] eqn:Hv; intros [= <- <- <- <-];
      (apply run_quiet; [done|by rewrite Hv|by repeat constructor|trace k]).
  - unfold bind, env_, ret. cbn [fst snd]. destruct (DisconnectAbility stub e) as [[] e1]. intros [= <- <- <- <-].
    apply run_quiet; [done|done|by repeat constructor|trace k].
Qed.

(** *** In every state *)
Definition made s : nat := length (connections (vars s)).
Record inv s : Prop := {
  known_made : Forall (λ stub, (stub < made s)%nat) (known s);
  known_once : NoDup (known s);
  asked_known stub : Connecting stub ∈ history s → stub ∈ known s;
  calls_once : NoDup (threads s).*1;
  calls_made : Forall (λ p, (p.1 < calls s)%nat) (threads s);
  calls_staged : Forall (λ p, stage_ok p.2 (of_call p.1 (history s))) (threads s);
  calls_done k : (k < calls s)%nat → k ∉ (threads s).*1 → finished (of_call k (history s));
  calls_later k : (calls s <= k)%nat → of_call k (history s) = []
}.
Lemma disconnected_app h1 h2 : disconnected (h1 ++ h2) = disconnected h1 ++ disconnected h2.
Proof. apply omap_app. Qed.
Lemma inv_run v e l1 k p l2 n h p' evs v' e' :
  run_facts k p v v' p' evs →
  inv {| vars := v; env := e; threads := l1 ++ (k, p) :: l2; calls := n; history := h |} →
  inv {| vars := v'; env := e'; threads := l1 ++ (pair k <$> option_list p') ++ l2; calls := n; history := h ++ evs |}.
Proof.
  intros ((fresh & Hperm & Hfresh) & Hasked & Hother & Hown) [H1 H2 H3 H4 H5 H6 H7 H8].
  unfold known, made in *. cbn [vars threads history calls] in *.
  assert (option_list (connectionStub_ v') ++ omap ending (l1 ++ (pair k <$> option_list p') ++ l2) ++ disconnected (h ++ evs) ≡ₚ
    (option_list (connectionStub_ v) ++ omap ending (l1 ++ (k, p) :: l2) ++ disconnected h) ++ fresh) as Hknown.
  { rewrite disconnected_app, (cons_middle (k, p) l1 l2), !omap_app.
    transitivity ((option_list (connectionStub_ v') ++ omap ending (pair k <$> option_list p') ++ disconnected evs) ++ omap ending l1 ++ omap ending l2 ++ disconnected h);
      [solve_Permutation|]. rewrite Hperm. solve_Permutation. }
  apply Forall_app in H6 as [H6a [H6k H6b]%Forall_cons], H5 as [H5a [H5k H5b]%Forall_cons].
  rewrite fmap_app, fmap_cons in H4, H7. cbn [fst] in H4, H5k, H6k, H7. apply NoDup_app in H4 as (Ha & Hb & [Hc Hd]%NoDup_cons).
  assert (Forall (λ q, of_call q.1 (h ++ evs) = of_call q.1 h) l1 ∧ Forall (λ q, of_call q.1 (h ++ evs) = of_call q.1 h) l2) as [Hl1 Hl2].
  { split; apply Forall_forall; intros [k' q] Hq; cbn [fst]; rewrite of_call_app, Hother, app_nil_r; [done|intros ->|done|intros ->].
    - apply (Hb k); [by apply (list_elem_of_fmap_2 fst _ _ Hq)|by left].
    - apply Hc. by apply (list_elem_of_fmap_2 fst _ _ Hq). }
  specialize (Hown _ H6k). rewrite <- of_call_app in Hown.
  split; unfold known, made; cbn [vars threads history calls].
  - rewrite Hknown. apply Forall_app. split.
    + eapply Forall_impl; [exact H1|]. cbn. intros x Hx. destruct Hfresh as [[_ ->]|[_ ->]]; lia.
    + destruct Hfresh as [[-> _]|[-> ->]]; repeat constructor.
  - rewrite Hknown. destruct Hfresh as [[-> _]|[-> _]]; [by rewrite app_nil_r|]. apply NoDup_app. split; [done|]. split; [|apply NoDup_singleton].
    intros x Hx ->%list_elem_of_singleton. rewrite Forall_forall in H1. specialize (H1 _ Hx). cbn in H1. lia.
  - intros stub [Hs|Hs]%elem_of_app; [|apply elem_of_app; left; rewrite (Hasked stub Hs); by left].
    rewrite Hknown. apply elem_of_app. left. by apply H3.
  - rewrite !fmap_app, <- list_fmap_compose. apply NoDup_app. split; [done|]. destruct p' as [p'|]; cbn; [split; [|by apply NoDup_cons]|split; [|done]].
    + intros x Hx [->|Hx2]%elem_of_cons; apply (Hb _ Hx); [by left|by right].
    + intros x Hx Hx2. apply (Hb _ Hx). by right.
  - rewrite !Forall_app. split_and!; [done| |done]. by destruct p'; repeat constructor.
  - rewrite !Forall_app. split_and!.
    + eapply Forall_impl; [exact (proj2 (Forall_and _ _) (conj H6a Hl1))|]. by intros q [Hq ->].
    + destruct p'; repeat constructor. exact Hown.
    + eapply Forall_impl; [exact (proj2 (Forall_and _ _) (conj H6b Hl2))|]. by intros q [Hq ->].
  - intros k' Hk' Hnot. rewrite !fmap_app, !not_elem_of_app in Hnot. destruct Hnot as (N1 & N2 & N3).
    destruct (decide (k' = k)) as [->|Hk].
    + destruct p'; [|done]. destruct N2. by left.
    + rewrite of_call_app, Hother, app_nil_r by done. apply H7; [done|]. rewrite not_elem_of_app, not_elem_of_cons. done.
  - intros k' Hk'. rewrite of_call_app, Hother, app_nil_r by lia. by apply H8.
Qed.
Lemma inv_vars v v' e e' ts n h :
  connectionStub_ v' = connectionStub_ v → length (connections v') = length (connections v) →
  inv {| vars := v; env := e; threads := ts; calls := n; history := h |} → inv {| vars := v'; env := e'; threads := ts; calls := n; history := h |}.
Proof.
  intros Hs Hl [H1 H2 H3 H4 H5 H6 H7 H8]. split; try done; unfold known, made in *; cbn [vars threads history] in *; rewrite ?Hs, ?Hl; done.
Qed.
Lemma inv_call v e ts n h message :
  inv {| vars := v; env := e; threads := ts; calls := n; history := h |} →
  inv {| vars := v; env := e; threads := ts ++ [(n, Getting message)]; calls := S n; history := h |}.
Proof.
  intros [H1 H2 H3 H4 H5 H6 H7 H8]. unfold known, made in *. split; unfold known, made; cbn [vars threads history calls] in *.
  1-3: by rewrite omap_app, app_nil_r.
  - rewrite fmap_app. apply NoDup_app. split; [done|]. split; [|apply NoDup_singleton].
    intros k [[k' q] [-> Hq]]%list_elem_of_fmap Hk%list_elem_of_singleton. rewrite Forall_forall in H5. specialize (H5 _ Hq). cbn in *. lia.
  - rewrite Forall_app. split; [|repeat constructor; cbn; lia]. eapply Forall_impl; [exact H5|]. cbn. lia.
  - rewrite Forall_app. split; [done|]. repeat constructor. by apply H8.
  - intros k Hk. rewrite fmap_app, not_elem_of_app. cbn. rewrite not_elem_of_cons. intros (Hk1 & Hk2 & _). apply H7; [lia|done].
  - intros k Hk. apply H8. lia.
Qed.
Lemma notify_inv_step s s' : step s s' → inv s → inv s'.
Proof.
  intros Hs. destruct Hs as [v e l1 k p l2 n h p' evs v' e' Hrun| | | |].
  - eapply inv_run. by eapply run_correct.
  - apply inv_call.
  - apply inv_vars; [done|]. cbn. by rewrite length_alter.
  - apply inv_vars; [done|]. cbn. by rewrite length_alter.
  - by apply inv_vars.
Qed.
Lemma notify_inv_reachable e s : star step (initial e) s → inv s.
Proof.
  intros Hs. refine (star_invariant step inv notify_inv_step _ _ Hs _).
  split; unfold known, made; cbn; try constructor; try set_solver. lia.
Qed.

(** C40: However the calls, the answers of the ability manager and the failures of messages
    interleave: no connection that was asked for is forgotten, it is the current one, about
    to be ended or has been ended, and none is ended twice or while it is the current one;
    each message is sent at most once and never again, and its sender is told that it arrived
    exactly when the application took it.  A connection that is no longer current may still
    be the one a call waits for or sends over: that call loses it
    ([SampleNotify.newer_connection_dropped]). *)
Theorem notifications_sent_once e s :
  star step (initial e) s →
  (∀ stub, Connecting stub ∈ history s →
     connectionStub_ (vars s) = Some stub ∨ stub ∈ omap ending (threads s) ∨ stub ∈ disconnected (history s)) ∧
  NoDup (option_list (connectionStub_ (vars s)) ++ omap ending (threads s) ++ disconnected (history s)) ∧
  (∀ k, (k < calls s)%nat →
     k ∈ (threads s).*1 ∧ (of_call k (history s) = [] ∨ ∃ r, r ≠ 0 ∧ of_call k (history s) = [inl r]) ∨
     finished (of_call k (history s))).
Proof.
  intros Hs%notify_inv_reachable. split_and!.
  - intros stub Hstub%asked_known; [|done]. unfold known in Hstub. rewrite !elem_of_app in Hstub.
    destruct Hstub as [Hstub|Hstub]; [left|by right]. destruct (connectionStub_ _); cbn in Hstub; [|by apply elem_of_nil in Hstub].
    apply list_elem_of_singleton in Hstub. by subst.
  - by apply known_once.
  - intros k Hk. destruct (decide (k ∈ (threads s).*1)) as [Hin|Hin]; [left|right; by apply calls_done].
    split; [done|]. apply list_elem_of_fmap in Hin as ([k' p] & -> & Hp). pose proof (calls_staged _ Hs) as Hst.
    rewrite Forall_forall in Hst. specialize (Hst _ Hp). cbn [fst snd] in *. destruct p; cbn in Hst; [by left..|by right|by right].
Qed.
End calls.
End UpdateNotify.

(** ** An application that takes messages or not

    The environment is the result of the next message. *)
Module SampleNotify.
Import UpdateNotify.
#[local] Instance strings : StringEx := { Str8ToStr16 _ := []; Str16ToStr8 _ := "" }.
#[local] Instance kits : NotifyKits Z := {
  ConnectServiceExtensionAbility _ _ := ret 0;
  DisconnectServiceAbility _ := ret 0;
  WriteString16 _ := ret true;
  SendRequest _ _ _ := λ e, (e, e)
}.
Ltac go l1 p l2 := eapply star_step; [refine (step_run _ _ l1 p.1 p.2 l2 _ _ _ _ _ _ _); reflexivity|cbn [app option_list fmap list_fmap]].
Lemma notifications_sent_once_witness :
  ∃ s, star step (initial 0) s ∧ history s = [Connecting 0; Sent 0 0; Done 0 true] ∧ connectionStub_ (vars s) = Some 0%nat ∧
       NoDup (option_list (connectionStub_ (vars s)) ++ omap ending (threads s) ++ disconnected (history s)).
Proof.
  assert (star step (initial 0) {| vars := {| connectionStub_ := Some 0%nat; connections := [{| NotifyConnection.remoteObject_ := Some 7 |}] |};
    env := 0; threads := []; calls := 1; history := [Connecting 0; Sent 0 0; Done 0 true] |}) as Hs.
  { eapply star_step; [apply (step_call _ _ _ _ _ "event")|]. cbn [app].
    go (@nil Thread) (0%nat, Getting "event") (@nil Thread).
    eapply star_step; [apply (step_connected _ _ _ _ _ 0 (Some 7) 0)|].
    go (@nil Thread) (0%nat, Waiting 0 "event") (@nil Thread).
    go (@nil Thread) (0%nat, Sending 7 "event") (@nil Thread).
    apply star_refl. }
  eexists. split; [exact Hs|]. split; [reflexivity|]. split; [reflexivity|].
  exact (proj1 (proj2 (notifications_sent_once 0 _ Hs))).
Defined.
(** Two messages fail over the first connection.  One of the calls ends it, and a third
    message is about to go over a new one; then the other call ends the new connection, over
    which nothing has failed. *)
Theorem newer_connection_dropped :
  ∃ s, star step (initial 1) s ∧
       history s = [Connecting 0; Connecting 0; Sent 0 1; Sent 1 1; Disconnected 0; Done 0 false; Connecting 1; Disconnected 1; Done 1 false] ∧
       connectionStub_ (vars s) = None ∧ connections (vars s) !! 1%nat = Some {| NotifyConnection.remoteObject_ := Some 8 |} ∧
       threads s = [(2%nat, Waiting 1 "c")].
Proof.
  eexists. split.
  { eapply star_step; [apply (step_call _ _ _ _ _ "a")|]. cbn [app].
    eapply star_step; [apply (step_call _ _ _ _ _ "b")|]. cbn [app].
    go (@nil Thread) (0%nat, Getting "a") [(1%nat, Getting "b")].
    go [(0%nat, Waiting 0 "a")] (1%nat, Getting "b") (@nil Thread).
    eapply star_step; [apply (step_connected _ _ _ _ _ 0 (Some 7) 0)|].
    go (@nil Thread) (0%nat, Waiting 0 "a") [(1%nat, Waiting 0 "b")].
    go [(0%nat, Sending 7 "a")] (1%nat, Waiting 0 "b") (@nil Thread).
    go (@nil Thread) (0%nat, Sending 7 "a") [(1%nat, Sending 7 "b")].
    go [(0%nat, Dropping)] (1%nat, Sending 7 "b") (@nil Thread).
    go (@nil Thread) (0%nat, Dropping) [(1%nat, Dropping)].
    go (@nil Thread) (0%nat, Ending 0) [(1%nat, Dropping)].
    eapply star_step; [apply (step_call _ _ _ _ _ "c")|]. cbn [app].
    go [(1%nat, Dropping)] (2%nat, Getting "c") (@nil Thread).
    eapply star_step; [apply (step_connected _ _ _ _ _ 1 (Some 8) 0)|].
    go (@nil Thread) (1%nat, Dropping) [(2%nat, Waiting 1 "c")].
    go (@nil Thread) (1%nat, Ending 1) [(2%nat, Waiting 1 "c")].
    apply star_refl. }
  by repeat split.
Qed.
End SampleNotify.
