(* ===== verification/OnlineUpdater.v ===== *)
(** * The requests of a client

    Models [services/engine/src/update_service_impl_firmware.cpp]: what the service does
    for each request an application makes about firmware, on the flows and the world of
    [FirmwareManager].  Every method returns [INT_CALL_SUCCESS]; what it tells the client
    is the [BusinessError] and the out parameters, which are arguments and results here.
    The answer of a check arrives on another thread: [CheckNewVersion] is given the
    answers that arrive before and during its wait. *)
From Stdlib Require Import ZArith Lia Ascii String.
From stdpp Require Import base tactics list strings gmap sorting.
From S2P Require Import Prelude CppString StringUtils Json Models Database FirmwareDb FirmwareStore FirmwareResult FirmwareWorld Files JsonUtils DownloadData DownloadService FirmwareHelper Device Alarms Startup CheckProcessor ProgressProcessor Installer Executor DownloadExecutor Modes Flow FirmwareManager.
Import FirmwareWorld.World (on_db, on_env, asks, send).
Import DUpdateErrno.

#[local] Open Scope Z_scope.
#[local] Existing Instances FirmwareManualCheckMode.mode FirmwareDownloadMode.mode FirmwareInstallApplyMode.mode
  FirmwareStreamInstallApplyMode.mode FirmwareAutoUpgradeMode.mode.

(** The tests for requests repeated within a second ([FirmwareStatusCache]). *)
Class TriggerCache (E : Type) := {
  IsDownloadTriggered : ST E bool;
  IsUpgradeTriggered : ST E bool
}.
#[export] Instance singletons_trigger {E} `{Platform E} : TriggerCache (Singletons.t * E) := {
  IsDownloadTriggered := Singletons.on_cache FirmwareStatusCache.IsDownloadTriggered;
  IsUpgradeTriggered := Singletons.on_cache FirmwareStatusCache.IsUpgradeTriggered
}.

Module UpdateServiceImplFirmware.
(*@* engine/src/update_service_impl_firmware.cpp = *)
Definition LANGUAGE_CHINESE : string :=
  "<language name=" +:+ String (ascii_of_nat 34) "zh-cn" +:+ String (ascii_of_nat 34) " code=" +:+
  String (ascii_of_nat 34) "2052" +:+ String (ascii_of_nat 34) ">".
Definition LANGUAGE_ENGLISH : string :=
  "<language name=" +:+ String (ascii_of_nat 34) "en-us" +:+ String (ascii_of_nat 34) " code=" +:+
  String (ascii_of_nat 34) "1033" +:+ String (ascii_of_nat 34) ">".
Definition LANGUAGE_END : string := "</language>".
(*@* firmware/common/include/firmware_constant.h = *)
Definition NIGHT_UPGRADE_START_HOUR : Z := 2.
Definition NIGHT_UPGRADE_END_HOUR : Z := 4.

(*@ services/service/include/dupdate_errno.h DUPDATE_ERR_CANCEL_TASK_ERROR *)
Definition DUPDATE_ERR_CANCEL_TASK_ERROR : Z := -413.

(** An answer to a check: to the request that waits, or to one that has timed out, whose
    variables no longer exist. *)
Inductive Arrival := Mine (error : BusinessError.t) (result : CheckResult.t) | Stale.

(** The callback of [CheckNewVersion], on [checkComplete_] and the caller's variables. *)
(*@ engine/src/update_service_impl_firmware.cpp:45-55 UpdateServiceImplFirmware::CheckNewVersion *)
Definition on_answer (x : bool * (BusinessError.t * CheckResult.t)) (a : Arrival) : bool * (BusinessError.t * CheckResult.t) :=
  match a with
  | Mine error result => (true, (error, result))
  | Stale => (true, x.2)
  end.
(** The wait: [before] has arrived when the flag is first looked at; of [during], what comes
    first ends the wait. *)
(*@ engine/src/update_service_impl_firmware.cpp:56-65 UpdateServiceImplFirmware::CheckNewVersion *)
Definition wait_answer (before during : list Arrival) (checkComplete_ : bool) (businessError : BusinessError.t)
    (checkResult : CheckResult.t) : bool * (BusinessError.t * CheckResult.t) :=
  let x := fold_left on_answer before (checkComplete_, (businessError, checkResult)) in
  let x := if x.1 then x else match during with [] => x | a :: _ => on_answer x a end in
  if x.1 then (false, x.2)
  else (false, ({| BusinessError.message := "CheckNewVersion TimeOut"; BusinessError.errorNum := CallResult.TIME_OUT;
                   BusinessError.data := BusinessError.data x.2.1 |}, x.2.2)).

(*@ engine/src/update_service_impl_firmware.cpp UpdateServiceImplFirmware::GetChangelogContent *)
Definition GetChangelogContent (dataXml language : string) : option string :=
  let languageStart := if (language =? "zh-cn")%string then LANGUAGE_ENGLISH else LANGUAGE_CHINESE in
  StringUtils.StringRemove dataXml languageStart LANGUAGE_END.
(** [[a-zA-Z0-9_-]] *)
Definition id_char (c : ascii) : bool :=
  let n := nat_of_ascii c in
  ((97 <=? n)%nat && (n <=? 122)%nat) || ((65 <=? n)%nat && (n <=? 90)%nat) || isdigit c ||
  Ascii.eqb c "_"%char || Ascii.eqb c "-"%char.
(*@ engine/src/update_service_impl_firmware.cpp UpdateServiceImplFirmware::IsValidComponentId *)
Definition IsValidComponentId (componentId : string) : bool :=
  if (componentId =? "")%string then false else forallb id_char (chars componentId).

Section ops.
Context {R E : Type} `{Rdb R, Platform E, Sha256, Downloads E, Preferences E, Subscribers E, !InstallKits E, DownloadTasks E, CheckKits E,
  CheckCache E, RebootKits E, !ServiceKits E, UpgradeAlarms E, DeviceKits E, AbilityKits E, FileSystem E, TriggerCache E}.
#[local] Notation Service := (ST (Flows * World R E)).
#[local] Notation Query := (on_db (FirmwareTaskOperator.QueryTask FirmwareTask.default)).

(*@ engine/src/update_service_impl_firmware.cpp UpdateServiceImplFirmware::CheckNewVersion *)
Definition CheckNewVersion (before during : list Arrival) (checkComplete_ : bool) (businessError : BusinessError.t)
    (checkResult : CheckResult.t) : Service (bool * (BusinessError.t * CheckResult.t)) :=
  FirmwareManager.DoCheck ;;;
  ret (wait_answer before during checkComplete_ businessError checkResult).

(*@ engine/src/update_service_impl_firmware.cpp UpdateServiceImplFirmware::Download *)
Definition Download (downloadOptions : DownloadOptions.t) (businessError : BusinessError.t) : Service BusinessError.t :=
  let* triggered := env_ (on_env IsDownloadTriggered) in
  if triggered : bool then ret (BusinessError.Build businessError CallResult.FAIL "repeat download error")
  else
    let* task := env_ Query in
    if negb (FirmwareTask.status task =? UpgradeStatus.CHECK_VERSION_SUCCESS) then
      ret (BusinessError.Build businessError CallResult.FAIL "download error")
    else
      env_ (on_db (FirmwareTaskOperator.UpdateDownloadOptionByTaskId (FirmwareTask.taskId task) DownloadMode.MANUAL
                     (DownloadOptions.allowNetwork downloadOptions) (DownloadOptions.order downloadOptions))) ;;;
      FirmwareManager.DoDownload downloadOptions businessError.
(*@ engine/src/update_service_impl_firmware.cpp UpdateServiceImplFirmware::PauseDownload *)
Definition PauseDownload (businessError : BusinessError.t) : BusinessError.t :=
  BusinessError.Build businessError CallResult.UN_SUPPORT "pause download not support".
(*@ engine/src/update_service_impl_firmware.cpp UpdateServiceImplFirmware::ResumeDownload *)
Definition ResumeDownload (resumeDownloadOptions : ResumeDownloadOptions.t) (businessError : BusinessError.t) : Service BusinessError.t :=
  let* task := env_ Query in
  if negb (FirmwareTask.status task =? UpgradeStatus.CHECK_VERSION_SUCCESS) && negb (FirmwareTask.status task =? UpgradeStatus.DOWNLOAD_PAUSE) then
    ret (BusinessError.Build businessError CallResult.FAIL "download error")
  else
    let downloadOptions := {| DownloadOptions.order := FirmwareTask.downloadOrder task;
                              DownloadOptions.allowNetwork := ResumeDownloadOptions.allowNetwork resumeDownloadOptions |} in
    env_ (on_db (FirmwareTaskOperator.UpdateDownloadOptionByTaskId (FirmwareTask.taskId task) DownloadMode.MANUAL
                   (ResumeDownloadOptions.allowNetwork resumeDownloadOptions) (FirmwareTask.upgradeOrder task))) ;;;
    FirmwareManager.DoDownload downloadOptions businessError.
(*@ engine/src/update_service_impl_firmware.cpp UpdateServiceImplFirmware::Upgrade *)
Definition Upgrade (upgradeOptions : UpgradeOptions.t) (businessError : BusinessError.t) : Service BusinessError.t :=
  let* triggered := env_ (on_env IsUpgradeTriggered) in
  if triggered : bool then ret (BusinessError.Build businessError CallResult.FAIL "repeat upgrade error")
  else
    let* task := env_ Query in
    env_ (on_db (FirmwareTaskOperator.UpdateUpgradeModeByTaskId (FirmwareTask.taskId task) UpgradeMode.MANUAL)) ;;;
    let* installType := env_ FirmwareUpdateHelper.GetInstallType in
    FirmwareManager.DoInstall upgradeOptions businessError installType.
(*@ engine/src/update_service_impl_firmware.cpp UpdateServiceImplFirmware::ClearError *)
Definition ClearError (businessError : BusinessError.t) : ST (World R E) BusinessError.t := FirmwareManager.DoClearError businessError.
(** Whether the process will end, too. *)
(*@ engine/src/update_service_impl_firmware.cpp UpdateServiceImplFirmware::TerminateUpgrade *)
Definition TerminateUpgrade (businessError : BusinessError.t) : ST (World R E) (BusinessError.t * bool) :=
  FirmwareManager.DoTerminateUpgrade businessError.

(*@ engine/src/update_service_impl_firmware.cpp UpdateServiceImplFirmware::GetNewVersionInfo *)
Definition GetNewVersionInfo (newVersionInfo : NewVersionInfo.t) : ST (World R E) NewVersionInfo.t :=
  let* task := Query in
  let* (_, components) := on_db (FirmwareComponentOperator.QueryAll []) in
  let* versionComponents := FirmwareUpdateHelper.BuildNewVersionInfo components (NewVersionInfo.versionComponents newVersionInfo) in
  ret {| NewVersionInfo.versionDigestInfo := {| VersionDigestInfo.versionDigest := FirmwareTask.taskId task |};
         NewVersionInfo.versionComponents := versionComponents |}.

(** A real path under [CHANGELOG_PATH]. *)
(*@ engine/src/update_service_impl_firmware.cpp UpdateServiceImplFirmware::IsCoverBasePath *)
Definition IsCoverBasePath (e : E) (fullPath : string) : bool :=
  if (fullPath =? "")%string then false
  else
    match realpath e fullPath with
    | None => false
    | Some resolvedFullPath => bool_decide (find resolvedFullPath Firmware.CHANGELOG_PATH 0 = Some 0%nat)
    end.
(*@ engine/src/update_service_impl_firmware.cpp UpdateServiceImplFirmware::CheckFilePathValid *)
Definition CheckFilePathValid (e : E) (changelogFilePath : string) (businessError : BusinessError.t) : bool * BusinessError.t :=
  if negb (FirmwareWorld.FileUtils.IsFileExist e changelogFilePath) || negb (IsCoverBasePath e changelogFilePath)
  then (false, BusinessError.Build businessError CallResult.FAIL "GetDescription failed")
  else (true, businessError).
(** The body both descriptions share, which the source writes twice: the description of a
    component, or the error.  [None]: an exception. *)
(*@ engine/src/update_service_impl_firmware.cpp:198-222 UpdateServiceImplFirmware::GetNewVersionDescription *)
Definition describe (e : E) (componentId language failure : string) (businessError : BusinessError.t) :
    option (ComponentDescription.t + BusinessError.t) :=
  let failed := inr (BusinessError.Build businessError CallResult.FAIL failure) in
  if negb (IsValidComponentId componentId) then Some failed
  else
    let changelogFilePath := Firmware.CHANGELOG_PATH +:+ "/" +:+ componentId +:+ ".xml" in
    let (valid, businessError) := CheckFilePathValid e changelogFilePath businessError in
    if negb valid then Some (inr businessError)
    else
      let dataXml := FileUtils.ReadDataFromFile e changelogFilePath in
      match find_first_of dataXml "|" with
      | None => Some failed
      | Some startIndex =>
          if (len dataXml <=? startIndex + 1)%nat then Some failed
          else
            dataXmlFinal ← substr_from dataXml (startIndex + 1)%nat;
            content ← GetChangelogContent dataXmlFinal language;
            type ← substr dataXml 0 startIndex;
            let descType := (StringUtils.DecStringToNumber StringUtils.int32_t type 0).2 in
            Some (inl {| ComponentDescription.componentId := componentId;
                         ComponentDescription.descriptionInfo :=
                           {| DescriptionInfo.descriptionType := descType; DescriptionInfo.content := content |};
                         ComponentDescription.notifyDescriptionInfo := DescriptionInfo.default |})
      end.
(** The loop over the components; what was described before a failure stays in the out parameter. *)
(*@ engine/src/update_service_impl_firmware.cpp:197-224 UpdateServiceImplFirmware::GetNewVersionDescription *)
Fixpoint describe_each (e : E) (components : list FirmwareComponent.t) (language : string) (out : VersionDescriptionInfo.t)
    (businessError : BusinessError.t) : option (VersionDescriptionInfo.t * BusinessError.t) :=
  match components with
  | [] => Some (out, businessError)
  | component :: components =>
      r ← describe e (FirmwareComponent.componentId component) language "GetNewVersionDescription failed" businessError;
      match r with
      | inr businessError => Some (out, businessError)
      | inl d =>
          describe_each e components language
            {| VersionDescriptionInfo.componentDescriptions := VersionDescriptionInfo.componentDescriptions out ++ [d] |} businessError
      end
  end.
(*@ engine/src/update_service_impl_firmware.cpp UpdateServiceImplFirmware::GetNewVersionDescription *)
Definition GetNewVersionDescription (descriptionOptions : DescriptionOptions.t) (newVersionDescriptionInfo : VersionDescriptionInfo.t)
    (businessError : BusinessError.t) : ST (World R E) (option (VersionDescriptionInfo.t * BusinessError.t)) :=
  let businessError := BusinessError.Build businessError CallResult.SUCCESS "start GetNewVersionDescription" in
  let* (_, components) := on_db (FirmwareComponentOperator.QueryAll []) in
  if (length components =? 0)%nat then
    ret (Some (newVersionDescriptionInfo, BusinessError.Build businessError CallResult.FAIL "GetNewVersionDescription failed"))
  else
    asks (λ e, describe_each e components (DescriptionOptions.language descriptionOptions) newVersionDescriptionInfo businessError).
(*@ engine/src/update_service_impl_firmware.cpp UpdateServiceImplFirmware::GetCurrentVersionInfo *)
Definition GetCurrentVersionInfo (e : E) (currentVersionInfo : CurrentVersionInfo.t) (businessError : BusinessError.t) :
    CurrentVersionInfo.t * BusinessError.t :=
  (FirmwareUpdateHelper.BuildCurrentVersionInfo e currentVersionInfo,
   {| BusinessError.message := BusinessError.message businessError; BusinessError.errorNum := CallResult.SUCCESS;
      BusinessError.data := BusinessError.data businessError |}).
(*@ engine/src/update_service_impl_firmware.cpp UpdateServiceImplFirmware::GetCurrentVersionDescription *)
Definition GetCurrentVersionDescription (e : E) (descriptionOptions : DescriptionOptions.t)
    (currentVersionDescriptionInfo : VersionDescriptionInfo.t) (businessError : BusinessError.t) :
    option (VersionDescriptionInfo.t * BusinessError.t) :=
  let componentId := ObtainString e Firmware.HOTA_CURRENT_COMPONENT_ID "" in
  let failure := "GetCurrentVersionDescription failed" in
  if (componentId =? "")%string then Some (currentVersionDescriptionInfo, BusinessError.Build businessError CallResult.FAIL failure)
  else
    r ← describe e componentId (DescriptionOptions.language descriptionOptions) failure businessError;
    match r with
    | inr businessError => Some (currentVersionDescriptionInfo, businessError)
    | inl d =>
        Some ({| VersionDescriptionInfo.componentDescriptions := VersionDescriptionInfo.componentDescriptions currentVersionDescriptionInfo ++ [d] |},
              BusinessError.Build businessError CallResult.SUCCESS "GetCurrentVersionDescription ok")
    end.

(*@ engine/src/update_service_impl_firmware.cpp UpdateServiceImplFirmware::GetTaskInfo *)
Definition GetTaskInfo (taskInfo : TaskInfo.t) (businessError : BusinessError.t) : ST (World R E) (TaskInfo.t * BusinessError.t) :=
  let businessError := {| BusinessError.message := BusinessError.message businessError; BusinessError.errorNum := CallResult.SUCCESS;
                          BusinessError.data := BusinessError.data businessError |} in
  let* task := Query in
  if negb (FirmwareTask.isExistTask task) then ret (taskInfo, businessError)
  else
    let body := TaskInfo.taskBody taskInfo in
    ret ({| TaskInfo.existTask := true;
            TaskInfo.taskBody := {|
              TaskBody.versionDigestInfo := {| VersionDigestInfo.versionDigest := FirmwareTask.taskId task |};
              TaskBody.status := FirmwareTask.status task; TaskBody.subStatus := TaskBody.subStatus body;
              TaskBody.progress := FirmwareTask.progress task; TaskBody.installMode := TaskBody.installMode body;
              TaskBody.errorMessages := TaskBody.errorMessages body; TaskBody.versionComponents := TaskBody.versionComponents body |} |},
         businessError).
(*@ engine/src/update_service_impl_firmware.cpp UpdateServiceImplFirmware::SetUpgradePolicy *)
Definition SetUpgradePolicy (policy : UpgradePolicy.t) (businessError : BusinessError.t) : ST (World R E) BusinessError.t :=
  let businessError := {| BusinessError.message := BusinessError.message businessError; BusinessError.errorNum := CallResult.SUCCESS;
                          BusinessError.data := BusinessError.data businessError |} in
  let* isAutoDownloadSwitchOn := asks FirmwarePreferencesUtil.GetAutoDownloadSwitch in
  let* isNightUpgradeSwitchOn := asks FirmwarePreferencesUtil.GetNightUpgradeSwitch in
  (when negb (Bool.eqb isNightUpgradeSwitchOn (UpgradePolicy.autoUpgradeStrategy policy)) do
    FirmwareManager.DoAutoUpgradeSwitchChanged (UpgradePolicy.autoUpgradeStrategy policy)) ;;;
  (when negb (Bool.eqb isAutoDownloadSwitchOn (UpgradePolicy.downloadStrategy policy)) do
    FirmwareManager.DoAutoDownloadSwitchChanged (UpgradePolicy.downloadStrategy policy)) ;;;
  ret businessError.
(*@ engine/src/update_service_impl_firmware.cpp UpdateServiceImplFirmware::GetUpgradePolicy *)
Definition GetUpgradePolicy (e : E) (policy : UpgradePolicy.t) : UpgradePolicy.t := {|
  UpgradePolicy.downloadStrategy := FirmwarePreferencesUtil.GetAutoDownloadSwitch e;
  UpgradePolicy.autoUpgradeStrategy := FirmwarePreferencesUtil.GetNightUpgradeSwitch e;
  UpgradePolicy.autoUpgradePeriods :=
    ({| UpgradePeriod.start := to_uint32 (Constant.ONE_HOUR_MINUTES * NIGHT_UPGRADE_START_HOUR);
        UpgradePeriod.end_ := to_uint32 (Constant.ONE_HOUR_MINUTES * NIGHT_UPGRADE_END_HOUR) |},
     (UpgradePolicy.autoUpgradePeriods policy).2);
  UpgradePolicy.customPolicyType := UpgradePolicy.customPolicyType policy |}.
(*@ engine/src/update_service_impl_firmware.cpp UpdateServiceImplFirmware::Cancel *)
Definition Cancel (businessError : BusinessError.t) : ST (World R E) BusinessError.t :=
  let businessError := {| BusinessError.message := BusinessError.message businessError; BusinessError.errorNum := CallResult.SUCCESS;
                          BusinessError.data := BusinessError.data businessError |} in
  let* task := Query in
  let* stream := FirmwareUpdateHelper.IsStreamUpgrade in
  if stream : bool then
    if negb (FirmwareTask.status task =? UpgradeStatus.INSTALLING) then
      ret (BusinessError.AddErrorMessage (BusinessError.Build businessError CallResult.FAIL "Cancel install error")
             DUPDATE_ERR_CANCEL_TASK_ERROR "no install task to cancel!")
    else FirmwareManager.DoCancel businessError
  else
    if negb (FirmwareTask.status task =? UpgradeStatus.DOWNLOADING) && negb (FirmwareTask.status task =? UpgradeStatus.DOWNLOAD_PAUSE) then
      ret (BusinessError.AddErrorMessage (BusinessError.Build businessError CallResult.FAIL "Cancel download error")
             DUPDATE_ERR_CANCEL_TASK_ERROR "no download task to cancel!")
    else FirmwareManager.DoCancel businessError.
End ops.
End UpdateServiceImplFirmware.

(** ** What the requests do *)
Section requests.
Import UpdateServiceImplFirmware.
Context {R E : Type} `{RdbLaws R, Platform E, Sha256, Downloads E, Preferences E, Subscribers E, !InstallKits E, DownloadTasks E, CheckKits E,
  CheckCache E, RebootKits E, !ServiceKits E, UpgradeAlarms E, DeviceKits E, AbilityKits E, FileSystem E, TriggerCache E}.
Implicit Types (w : World R E) (ts : list FirmwareTask.t) (cs : list FirmwareComponent.t) (fl : Flows) (be : BusinessError.t).

Definition told_success be : BusinessError.t :=
  {| BusinessError.message := BusinessError.message be; BusinessError.errorNum := CallResult.SUCCESS; BusinessError.data := BusinessError.data be |}.
(** The status a request sees: that of the stored task. *)
Definition stored_status ts : Z := FirmwareTask.status (queried FirmwareTask.default ts).

(** Cancelling: with a streamed version every request fails and changes nothing, whatever the
    stored status: the one the request accepts, INSTALLING, is refused by the
    manager.  Otherwise the request is passed on exactly for a download that runs or is
    paused, and fails without a change in every other state. *)
Theorem cancel_request_outcome be w ts cs e o :
  at_state w ts cs e o →
  wp (Cancel be) w (λ be' w',
    if negb (FirmwareUpdateHelper.IsStreamUpgrade_list cs) &&
       ((stored_status ts =? UpgradeStatus.DOWNLOADING) || (stored_status ts =? UpgradeStatus.DOWNLOAD_PAUSE))
    then ∃ w1, at_state w1 ts cs e o ∧ FirmwareManager.DoCancel (told_success be) w1 = (be', w')
    else at_state w' ts cs e o ∧ BusinessError.errorNum be' = CallResult.FAIL).
Proof.
  intros Hw. unfold Cancel. fold (told_success be). wp_step. wp_step.
  fold (stored_status ts). unfold FirmwareUpdateHelper.IsStreamUpgrade. wp_steps. cbn [snd].
  destruct (FirmwareUpdateHelper.IsStreamUpgrade_list cs); cbn [negb andb].
  - destruct (stored_status ts =? UpgradeStatus.INSTALLING) eqn:Hst; cbn [negb]; [|by apply wp_ret].
    unfold FirmwareManager.DoCancel. wp_step. wp_step. fold (stored_status ts).
    apply Z.eqb_eq in Hst. rewrite Hst. destruct (FirmwareTask.isExistTask _); cbn [negb]; by apply wp_ret.
  - rewrite <- negb_orb. destruct (_ || _); cbn [negb]; [|by apply wp_ret].
    unfold wp. eexists. split; [eassumption|]. by rewrite surjective_st at 1.
Qed.

(** Starting and resuming a download: a request within a second of the one before, or in a status
    other than after a check (for resuming: or paused), fails and changes nothing but the
    time of the request; otherwise the options are recorded and the download is
    started with them - a resumed one is started with the recorded download order, but the
    upgrade order is recorded in its place. *)
Theorem download_requests_outcome opts ropts be fl w ts cs e o :
  at_state w ts cs e o →
  is_int32 (DownloadOptions.allowNetwork opts) → is_int32 (DownloadOptions.order opts) → is_int32 (ResumeDownloadOptions.allowNetwork ropts) →
  let id := FirmwareTask.taskId (queried FirmwareTask.default ts) in
  wp (Download opts be) (fl, w) (λ be' s',
    let e1 := exec IsDownloadTriggered e in
    if eval IsDownloadTriggered e then
      be' = BusinessError.Build be CallResult.FAIL "repeat download error" ∧ s'.1 = fl ∧ at_state s'.2 ts cs e1 o
    else if stored_status ts =? UpgradeStatus.CHECK_VERSION_SUCCESS then
      ∃ w1, at_state w1 (update_where (task_is id)
              (Task.with_downloadOption DownloadMode.MANUAL (DownloadOptions.allowNetwork opts) (DownloadOptions.order opts)) ts) cs e1 o ∧
            FirmwareManager.DoDownload opts be (fl, w1) = (be', s')
    else be' = BusinessError.Build be CallResult.FAIL "download error" ∧ s'.1 = fl ∧ at_state s'.2 ts cs e1 o) ∧
  wp (ResumeDownload ropts be) (fl, w) (λ be' s',
    if (stored_status ts =? UpgradeStatus.CHECK_VERSION_SUCCESS) || (stored_status ts =? UpgradeStatus.DOWNLOAD_PAUSE) then
      ∃ w1, at_state w1 (update_where (task_is id)
              (Task.with_downloadOption DownloadMode.MANUAL (ResumeDownloadOptions.allowNetwork ropts)
                 (FirmwareTask.upgradeOrder (queried FirmwareTask.default ts))) ts) cs e o ∧
            FirmwareManager.DoDownload {| DownloadOptions.allowNetwork := ResumeDownloadOptions.allowNetwork ropts;
              DownloadOptions.order := FirmwareTask.downloadOrder (queried FirmwareTask.default ts) |} be (fl, w1) = (be', s')
    else be' = BusinessError.Build be CallResult.FAIL "download error" ∧ s'.1 = fl ∧ at_state s'.2 ts cs e o).
Proof.
  intros Hw Hnet Horder Hrnet id. split.
  - unfold Download. apply wp_bind, wp_env_. wp_step. destruct (eval IsDownloadTriggered e); [by apply wp_ret|].
    apply wp_bind, wp_env_. wp_step. fold (stored_status ts). destruct (_ =? _); cbn [negb]; [|by apply wp_ret].
    apply wp_bind, wp_env_. cbn [fst snd].
    eapply wp_task_update; [by apply task_UpdateDownloadOption; [apply is_int32_closed|..]|eassumption|]. intros w3 Hw3.
    unfold wp. exists w3. split; [exact Hw3|]. by rewrite surjective_st at 1.
  - unfold ResumeDownload. apply wp_bind, wp_env_. wp_step. fold (stored_status ts). rewrite <- negb_orb.
    destruct (_ || _); cbn [negb]; [|by apply wp_ret].
    apply wp_bind, wp_env_. cbn [fst snd].
    eapply wp_task_update; [apply task_UpdateDownloadOption; [by apply is_int32_closed|done|]|eassumption|].
    2: { intros w3 Hw3. unfold wp. exists w3. split; [exact Hw3|]. by rewrite surjective_st at 1. }
    destruct (at_state_wf _ _ _ _ _ Hw) as [Hts _]. destruct ts as [|t ts]; [by apply is_int32_closed|].
    apply Forall_cons in Hts as [Ht _]. revert Ht. unfold Task.wf. cbn. naive_solver.
Qed.

End requests.

(** *** Descriptions *)
Section descriptions.
Import UpdateServiceImplFirmware.

Lemma find_in s sub pos i : find s sub pos = Some i → (pos ≤ i ∧ i + len sub ≤ len s)%nat.
Proof.
  unfold find. destruct (len s <? pos)%nat eqn:E; [done|]. apply Nat.ltb_ge in E.
  destruct (find_sub _ _) as [j|] eqn:Hj; cbn; [|done]. intros [= <-].
  apply find_sub_Some in Hj as (_ & _ & Hle). rewrite length_drop, !len_chars in Hle. lia.
Qed.
Lemma find_prefix s sub : find s sub 0 = Some 0%nat → ∃ k, chars s = chars sub ++ k.
Proof.
  unfold find. rewrite (proj2 (Nat.ltb_ge _ 0)) by lia. rewrite drop_0.
  destruct (find_sub _ _) as [j|] eqn:Hj; cbn; [|done]. intros [= ->].
  apply find_sub_Some in Hj as (k & Hk & _). by exists k.
Qed.
Lemma substr_from_ok s pos : (pos ≤ len s)%nat → substr_from s pos = Some (str (drop pos (chars s))).
Proof.
  intros Hpos. unfold substr_from, substr. rewrite (proj2 (Nat.ltb_ge _ _)) by lia.
  by rewrite take_ge by (rewrite length_drop, len_chars; lia).
Qed.
(** What is removed is one block, from the start mark to the end of the first end mark after it. *)
Lemma StringRemove_block s st en :
  ∃ r, StringUtils.StringRemove s st en = Some r ∧
    (r = s ∨ ∃ i j, find s st 0 = Some i ∧ find s en i = Some j ∧ chars r = take i (chars s) ++ drop (j + len en) (chars s)).
Proof.
  unfold StringUtils.StringRemove. destruct (len s =? 0)%nat; [eauto|].
  destruct (find s st 0) as [i|] eqn:Hi; [|eauto]. destruct (find s en i) as [j|] eqn:Hj; [|eauto].
  pose proof (find_in _ _ _ _ Hj) as [Hij Hle].
  rewrite substr_0. unfold substr. rewrite (proj2 (Nat.ltb_ge _ _)) by lia. cbn.
  eexists. split; [done|]. right. exists i, j. split_and!; [done..|].
  rewrite chars_app, !chars_str. f_equal. apply take_ge. rewrite length_drop, len_chars. lia.
Qed.

(** A description of a component, from a file of the change log: what the file holds after
    the first bar, without the text in the other language; the type is before the bar. *)
Record described {E} `{FileSystem E} (e : E) (componentId language : string) (d : ComponentDescription.t) : Prop := {
  described_id : ComponentDescription.componentId d = componentId;
  described_safe : componentId ≠ "" ∧ Forall (λ c, id_char c = true) (chars componentId);
  described_file : ∃ real file before after,
    realpath e (Firmware.CHANGELOG_PATH +:+ "/" +:+ componentId +:+ ".xml") = Some real ∧
    (∃ k, chars real = chars Firmware.CHANGELOG_PATH ++ k) ∧ contents e real = Some file ∧
    chars file = before ++ "|"%char :: after ∧ Forall (λ c, c ≠ "|"%char) before ∧ after ≠ [] ∧
    GetChangelogContent (str after) language = Some (DescriptionInfo.content (ComponentDescription.descriptionInfo d)) ∧
    DescriptionInfo.descriptionType (ComponentDescription.descriptionInfo d) =
      (StringUtils.DecStringToNumber StringUtils.int32_t (str before) 0).2
}.

Context {R E : Type} `{RdbLaws R, Platform E, Sha256, Downloads E, Preferences E, Subscribers E, !InstallKits E, DownloadTasks E, CheckKits E,
  CheckCache E, RebootKits E, !ServiceKits E, UpgradeAlarms E, DeviceKits E, AbilityKits E, FileSystem E, TriggerCache E}.
Implicit Types (e : E) (be : BusinessError.t).

Lemma describe_outcome e id lang failure be :
  ∃ r, describe e id lang failure be = Some r ∧
    match r with inl d => described e id lang d | inr be' => BusinessError.errorNum be' = CallResult.FAIL end.
Proof.
  unfold describe. destruct (IsValidComponentId id) eqn:Hid; cbn [negb]; [|by eexists].
  unfold CheckFilePathValid. destruct (_ || _) eqn:Hpath; cbn [negb]; [by eexists|]. breflect.
  match goal with H : IsCoverBasePath e _ = true |- _ => rename H into Hcover end.
  set (path := (Firmware.CHANGELOG_PATH +:+ "/" +:+ id +:+ ".xml")%string) in *.
  destruct (find_first_of (FileUtils.ReadDataFromFile e path) "|") as [i|] eqn:Hi; [|by eexists].
  destruct (len _ <=? i + 1)%nat eqn:Hlen; [by eexists|]. apply Nat.leb_gt in Hlen.
  unfold IsCoverBasePath in Hcover. destruct (path =? "")%string; [done|].
  destruct (realpath e path) as [real|] eqn:Hreal; [|done]. apply bool_decide_eq_true, find_prefix in Hcover.
  unfold FileUtils.ReadDataFromFile in *. rewrite Hreal in *.
  destruct (contents e real) as [file|] eqn:Hfile; [|by cbn in Hlen].
  rewrite substr_from_ok by lia. cbn [mbind option_bind].
  set (after := drop (i + 1) (chars file)) in *.
  destruct (StringRemove_block (str after) (if (lang =? "zh-cn")%string then LANGUAGE_ENGLISH else LANGUAGE_CHINESE) LANGUAGE_END) as (content & Hcontent & _).
  change (StringUtils.StringRemove (str after) _ LANGUAGE_END) with (GetChangelogContent (str after) lang) in Hcontent.
  rewrite Hcontent. cbn [mbind option_bind]. rewrite substr_0. cbn [mbind option_bind].
  eexists. split; [done|]. cbn beta iota.
  apply find_index_Some in Hi as (x & Hx & Hbar & Hbefore). cbn in Hbar. rewrite orb_false_r in Hbar. apply Ascii.eqb_eq in Hbar. subst x.
  unfold IsValidComponentId in Hid. destruct (id =? "")%string eqn:Hempty; [done|]. apply String.eqb_neq in Hempty.
  split; [done|split; [done|]|].
  - apply Forall_forall. intros c Hc. rewrite forallb_forall in Hid. apply Hid. by apply list_elem_of_In.
  - exists real, file, (take i (chars file)), after. split_and!; eauto.
    + unfold after. rewrite Nat.add_1_r. symmetry. by apply take_drop_middle.
    + eapply Forall_impl; [exact Hbefore|]. cbn. intros c Hc ->. by rewrite Ascii.eqb_refl in Hc.
    + intros Hnil. apply (f_equal length) in Hnil. unfold after in Hnil. rewrite length_drop, len_chars in Hnil. cbn in Hnil. lia.
Qed.

Lemma describe_each_outcome e comps lang out be :
  ∃ ds be', describe_each e comps lang out be =
      Some ({| VersionDescriptionInfo.componentDescriptions := VersionDescriptionInfo.componentDescriptions out ++ ds |}, be') ∧
    (be' = be ∧ Forall2 (λ c d, described e (FirmwareComponent.componentId c) lang d) comps ds ∨
     BusinessError.errorNum be' = CallResult.FAIL ∧
     ∃ done_ rest, comps = done_ ++ rest ∧ rest ≠ [] ∧ Forall2 (λ c d, described e (FirmwareComponent.componentId c) lang d) done_ ds).
Proof.
  revert out. induction comps as [|c comps IH]; intros out; cbn [describe_each].
  - exists [], be. rewrite app_nil_r. destruct out. split; [done|]. left. by split; [|constructor].
  - destruct (describe_outcome e (FirmwareComponent.componentId c) lang "GetNewVersionDescription failed" be) as (r & -> & Hr).
    cbn [mbind option_bind]. destruct r as [d|be'].
    + destruct (IH {| VersionDescriptionInfo.componentDescriptions := VersionDescriptionInfo.componentDescriptions out ++ [d] |})
        as (ds & be' & -> & Hds). exists (d :: ds), be'. cbn [VersionDescriptionInfo.componentDescriptions]. rewrite <- app_assoc. split; [done|].
      destruct Hds as [[-> Hds]|(Hf & k & rest & -> & Hrest & Hds)]; [left; split; [done|by constructor]|].
      right. split; [done|]. exists (c :: k), rest. split_and!; [done..|by constructor].
    + exists [], be'. rewrite app_nil_r. destruct out. split; [done|]. right. split; [exact Hr|].
      exists [], (c :: comps). split_and!; [done..|constructor].
Qed.

(** The descriptions of the new version: the request never throws.  It succeeds exactly when there
    are components and each has a description, and then gives them in order; when one
    has none it fails with the descriptions before it.  Whatever it gives was read
    from a file whose real path begins with that of the change logs and whose name is made of letters, digits,
    underscores and hyphens: no component id leads elsewhere. *)
Theorem descriptions_contained opts be w ts cs e o :
  at_state w ts cs e o →
  wp (GetNewVersionDescription opts VersionDescriptionInfo.default be) w (λ r w',
    at_state w' ts cs e o ∧
    ∃ ds be', r = Some ({| VersionDescriptionInfo.componentDescriptions := ds |}, be') ∧
      (BusinessError.errorNum be' = CallResult.SUCCESS ∧ cs ≠ [] ∧
         Forall2 (λ c d, described e (FirmwareComponent.componentId c) (DescriptionOptions.language opts) d) cs ds ∨
       BusinessError.errorNum be' = CallResult.FAIL ∧
         ∃ done_ rest, cs = done_ ++ rest ∧ Forall2 (λ c d, described e (FirmwareComponent.componentId c) (DescriptionOptions.language opts) d) done_ ds)).
Proof.
  intros Hw. unfold GetNewVersionDescription. wp_step. wp_step.
  destruct (length cs =? 0)%nat eqn:Hlen.
  - apply Nat.eqb_eq, nil_length_inv in Hlen. subst cs. apply wp_ret. split; [done|]. exists [], (BusinessError.Build
      (BusinessError.Build be CallResult.SUCCESS "start GetNewVersionDescription") CallResult.FAIL "GetNewVersionDescription failed").
    split; [done|]. right. split; [done|]. exists [], []. split; [done|constructor].
  - apply Nat.eqb_neq in Hlen. wp_step. split; [done|].
    destruct (describe_each_outcome e cs (DescriptionOptions.language opts) VersionDescriptionInfo.default
      (BusinessError.Build be CallResult.SUCCESS "start GetNewVersionDescription")) as (ds & be' & -> & Hds).
    exists ds, be'. split; [done|]. destruct Hds as [[-> Hds]|(Hf & k & rest & -> & _ & Hds)].
    + left. split_and!; [done| |done]. by destruct cs.
    + right. split; [done|]. by exists k, rest.
Qed.

(** An answer that comes after the wait has timed out sets the flag: the next check does not
    wait and answers what its variables held, which is a success without a version. *)
Lemma late_answer_ends_next_check before during be cr :
  wait_answer before during (on_answer (false, (be, cr)) Stale).1 BusinessError.default CheckResult.default =
    (false, (fold_left on_answer before (true, (BusinessError.default, CheckResult.default))).2).
Proof.
  unfold wait_answer. cbn [on_answer fst snd].
  assert (∀ l x, x.1 = true → (fold_left on_answer l x).1 = true) as Hset.
  { intros l. induction l as [|a l IH]; intros x Hx; [done|]. cbn. apply IH. by destruct a. }
  pose proof (Hset before (true, (BusinessError.default, CheckResult.default)) eq_refl) as Hb. by rewrite Hb, Hb.
Qed.
End descriptions.

(** ** Witnesses *)
Module SampleUpdater.
Import UpdateServiceImplFirmware.
#[local] Instance trigger : TriggerCache SampleEnv.t := { IsDownloadTriggered := ret false; IsUpgradeTriggered := ret false }.
Lemma cancel_request_outcome_witness :
  let w := SampleEnv.world [SampleManager.task UpgradeStatus.INSTALLING] [sample_component "v1"] in
  BusinessError.errorNum (eval (Cancel BusinessError.default) w) = CallResult.FAIL.
Proof.
  intros w. destruct (SampleManager.sample_state UpgradeStatus.INSTALLING [sample_component "v1"]) as (zs & _ & Hw);
    [by apply is_int32_closed|by repeat constructor; apply (bool_decide_unpack _); vm_compute|].
  pose proof (cancel_request_outcome BusinessError.default w _ _ _ _ Hw) as Hp. unfold wp in Hp.
  rewrite andb_false_r in Hp. exact (proj2 Hp).
Defined.
Lemma download_requests_outcome_witness :
  let w := SampleEnv.world [SampleManager.task UpgradeStatus.DOWNLOADING] [sample_component "v1"] in
  eval (Download DownloadOptions.default BusinessError.default) ([], w) = BusinessError.Build BusinessError.default CallResult.FAIL "download error".
Proof.
  intros w. destruct (SampleManager.sample_state UpgradeStatus.DOWNLOADING [sample_component "v1"]) as (zs & _ & Hw);
    [by apply is_int32_closed|by repeat constructor; apply (bool_decide_unpack _); vm_compute|].
  assert (is_int32 6) as H6 by (by apply is_int32_closed). assert (is_int32 1) as H1 by (by apply is_int32_closed).
  exact (proj1 (proj1 (download_requests_outcome DownloadOptions.default ResumeDownloadOptions.default BusinessError.default [] w _ _ _ _ Hw
    H6 H1 H6))).
Defined.
(** The change log of the stored component is there, with the type 1. *)
Definition path : string := Firmware.CHANGELOG_PATH +:+ "/c.xml".
Lemma descriptions_contained_witness :
  let w := exec (on_env (ofstream_trunc path "1|news")) (SampleEnv.world [SampleManager.task UpgradeStatus.DOWNLOADING] [sample_component "v1"]) in
  ∃ e d, described e "c" "" d ∧
    eval (GetNewVersionDescription DescriptionOptions.default VersionDescriptionInfo.default BusinessError.default) w =
      Some ({| VersionDescriptionInfo.componentDescriptions := [d] |}, BusinessError.Build BusinessError.default CallResult.SUCCESS "start GetNewVersionDescription").
Proof.
  intros w. destruct (SampleManager.sample_state UpgradeStatus.DOWNLOADING [sample_component "v1"]) as (zs & Hz & Hw);
    [by apply is_int32_closed|by repeat constructor; apply (bool_decide_unpack _); vm_compute|].
  assert (∃ e, at_state w [SampleManager.task UpgradeStatus.DOWNLOADING] zs e []) as [e He].
  { eexists. exact (wp_on_env (ofstream_trunc path "1|news") _ _ _ _ _ (λ _ w', at_state w' _ _ _ _) Hw (λ w' Hw', Hw')). }
  destruct (descriptions_contained DescriptionOptions.default BusinessError.default w _ _ _ _ He) as (_ & ds & be' & Hr & Hds).
  set (r := eval _ w) in *.
  assert (option_map (λ x, BusinessError.errorNum x.2) r = Some CallResult.SUCCESS) as Hs by (vm_compute; reflexivity).
  assert (option_map snd r = Some (BusinessError.Build BusinessError.default CallResult.SUCCESS "start GetNewVersionDescription")) as Hbe by (vm_compute; reflexivity).
  clearbody r. subst r. cbn in Hs, Hbe. injection Hs as Hs. injection Hbe as ->. destruct Hds as [(_ & _ & Hds)|[Hf _]]; [|discriminate Hf].
  destruct zs as [|z [|z' zs]]; [inversion Hz| |by apply Forall2_length in Hz]. apply Forall2_cons in Hz as [[id ->] _].
  destruct ds as [|d [|d' ds]]; [inversion Hds| |by apply Forall2_length in Hds]. apply Forall2_cons in Hds as [Hd _].
  exists e, d. split; [exact Hd|reflexivity].
Defined.
End SampleUpdater.
