(* ===== verification/Lifecycle.v ===== *)
(** * The life of the stored version

    Composes the parts of the firmware service: the requests of [OnlineUpdater], the events of the
    device and the restarts of [FirmwareManager], and the flows these make, which go on
    step by step, in any interleaving.  The file states what each of them may do to the
    version that is stored - a table of causes - and proves that nothing else happens
    to it. *)
From Stdlib Require Import ZArith Lia Ascii String.
From stdpp Require Import base tactics list strings gmap sorting.
From S2P Require Import Prelude CppString StringUtils Json Models Database FirmwareDb FirmwareStore FirmwareResult FirmwareWorld Files JsonUtils DownloadData DownloadService FirmwareHelper Device Alarms Startup CheckProcessor ProgressProcessor Installer Executor DownloadExecutor CheckAnalysis Modes Flow FlowOutcome FlowInstall FirmwareManager OnlineUpdater.
Import FirmwareWorld.World (on_db, on_env, asks, send).

#[local] Open Scope Z_scope.
#[local] Existing Instances FirmwareManualCheckMode.mode FirmwareDownloadMode.mode FirmwareInstallApplyMode.mode
  FirmwareStreamInstallApplyMode.mode FirmwareAutoUpgradeMode.mode.

(** ** The specification *)

(** Why a stored version changes: the answer of the server, a download, an installation, a
    cancellation, the request to clear an error, the start of the device after an update,
    the restart of the service. *)
Inductive Cause := Answer | Transfer | Installing | Cancelled | Cleared | Booted | Restarted.
#[export] Instance Cause_eq_dec : EqDecision Cause.
Proof. solve_decision. Defined.

(** The statuses of an interrupted upgrade: an answer does not touch it. *)
Definition under_way_statuses : list Z :=
  [UpgradeStatus.DOWNLOADING; UpgradeStatus.DOWNLOAD_PAUSE; UpgradeStatus.VERIFYING; UpgradeStatus.INSTALLING; UpgradeStatus.UPDATING].
(** The statuses a download and an installation give; [INIT] is that of an installation of
    another type than the installers', which nothing starts. *)
Definition transfer_statuses : list Z :=
  [UpgradeStatus.DOWNLOADING; UpgradeStatus.DOWNLOAD_PAUSE; UpgradeStatus.DOWNLOAD_CANCEL; UpgradeStatus.DOWNLOAD_FAIL;
   UpgradeStatus.DOWNLOAD_SUCCESS; UpgradeStatus.VERIFYING].
Definition install_statuses : list Z :=
  [UpgradeStatus.INSTALLING; UpgradeStatus.UPDATING; UpgradeStatus.INSTALL_SUCCESS; UpgradeStatus.INSTALL_FAIL;
   UpgradeStatus.INSTALL_PAUSE; UpgradeStatus.UPDATE_FAIL; UpgradeStatus.INIT].
(** The status may change from [st] to [st']. *)
Definition changes (c : Cause) (st st' : Z) : bool :=
  match c with
  | Transfer =>
      bool_decide (st' ∈ transfer_statuses) ||
      ((st =? UpgradeStatus.DOWNLOAD_CANCEL) && (st' =? UpgradeStatus.CHECK_VERSION_SUCCESS))
  | Installing => bool_decide (st' ∈ install_statuses)
  | Cancelled =>
      ((st =? UpgradeStatus.DOWNLOADING) || (st =? UpgradeStatus.DOWNLOAD_SUCCESS) || (st =? UpgradeStatus.DOWNLOAD_PAUSE)) &&
      (st' =? UpgradeStatus.CHECK_VERSION_SUCCESS)
  | Restarted =>
      (st =? UpgradeStatus.DOWNLOADING) && (st' =? UpgradeStatus.DOWNLOAD_PAUSE) ||
      (st =? UpgradeStatus.INSTALLING) && bool_decide (st' ∈ [UpgradeStatus.INSTALL_PAUSE; UpgradeStatus.DOWNLOAD_SUCCESS])
  | Answer | Cleared | Booted => false
  end.
(** The version may be removed. *)
Definition removes (c : Cause) (st : Z) : bool :=
  match c with
  | Answer => negb (bool_decide (st ∈ under_way_statuses))
  | Transfer => st =? UpgradeStatus.DOWNLOAD_FAIL
  | Installing => negb (st =? UpgradeStatus.INSTALL_SUCCESS)
  | Cleared => FirmwareUpdateHelper.IsUpgradeFailed st
  | Booted => (st =? UpgradeStatus.UPDATING) || (st =? UpgradeStatus.INSTALL_SUCCESS)
  | Cancelled | Restarted => false
  end.

(** What is stored. *)
Definition Stored : Type := list FirmwareTask.t * list FirmwareComponent.t.
Definition same_versions (cs cs' : list FirmwareComponent.t) : Prop :=
  map FirmwareComponent.versionId cs' = map FirmwareComponent.versionId cs.
Definition same_task (t t' : FirmwareTask.t) : Prop :=
  FirmwareTask.taskId t' = FirmwareTask.taskId t ∧ FirmwareTask.status t' = FirmwareTask.status t.
(** Changes that leave the version and its status alone. *)
Definition touched (x y : Stored) : Prop := Forall2 same_task x.1 y.1 ∧ same_versions x.2 y.2.
Section spec.
Context `{Sha256}.
Inductive moved (c : Cause) : Stored → Stored → Prop :=
  | moved_status t t' cs cs' :
      changes c (FirmwareTask.status t) (FirmwareTask.status t') = true → FirmwareTask.taskId t' = FirmwareTask.taskId t →
      same_versions cs cs' → moved c ([t], cs) ([t'], cs')
  | moved_away t cs : removes c (FirmwareTask.status t) = true → moved c ([t], cs) ([], [])
  | moved_new ts cs new cs' :
      c = Answer → Forall (λ t, removes c (FirmwareTask.status t) = true) ts → new ≠ [] → numbered (map with_path new) cs' →
      moved c (ts, cs) ([task_for (map with_path new)], cs').
Definition moves (C : Cause → Prop) (x y : Stored) : Prop := touched x y ∨ ∃ c, C c ∧ moved c x y.

(** Nothing, or one task that is the task of the stored components. *)
Definition known_statuses : list Z := UpgradeStatus.CHECK_VERSION_SUCCESS :: transfer_statuses ++ install_statuses.
Definition coherent (x : Stored) : Prop :=
  x = ([], []) ∨
  ∃ t cs, x = ([t], cs) ∧ cs ≠ [] ∧ FirmwareTask.taskId t = FirmwareUpdateHelper.BuildTaskId cs ∧ FirmwareTask.status t ∈ known_statuses.

Lemma BuildTaskId_versions cs cs' : same_versions cs cs' → FirmwareUpdateHelper.BuildTaskId cs' = FirmwareUpdateHelper.BuildTaskId cs.
Proof.
  intros Hv. unfold same_versions in Hv.
  assert (∀ id, FirmwareUpdateHelper.BuildTaskId_loop cs' id = FirmwareUpdateHelper.BuildTaskId_loop cs id) as Hl.
  { revert cs Hv. induction cs' as [|c' cs' IH]; intros [|c cs] Hv id; try done. injection Hv as Hc Hv.
    unfold FirmwareUpdateHelper.BuildTaskId_loop. cbn [fold_left]. rewrite Hc. by apply IH. }
  destruct cs, cs'; try done. cbn [FirmwareUpdateHelper.BuildTaskId]. by rewrite Hl.
Qed.
Lemma same_versions_nonempty cs cs' : same_versions cs cs' → cs ≠ [] → cs' ≠ [].
Proof. unfold same_versions. intros Hv Hn ->. by destruct cs. Qed.
Lemma same_versions_refl cs : same_versions cs cs.
Proof. done. Qed.
Lemma touched_refl x : touched x x.
Proof. split; [|done]. induction x.1; constructor; done. Qed.

Lemma changes_known c st st' : changes c st st' = true → st' ∈ known_statuses.
Proof.
  destruct c; cbn; rewrite ?orb_true_iff, ?andb_true_iff, ?bool_decide_eq_true, ?Z.eqb_eq; intros Hc;
    repeat match goal with
    | H : _ ∨ _ |- _ => destruct H
    | H : _ ∧ _ |- _ => destruct H
    | H : st' ∈ [_; _] |- _ => apply elem_of_cons in H
    | H : st' ∈ [_] |- _ => apply list_elem_of_singleton in H
    end; subst; try done; try (apply (bool_decide_unpack _); vm_compute; exact I);
    unfold known_statuses; rewrite elem_of_cons, elem_of_app; auto.
Qed.
Lemma moves_coherent C x y : coherent x → moves C x y → coherent y.
Proof.
  intros Hx [[Ht Hv]|(c & _ & Hm)].
  - destruct y as [ts' cs'], Hx as [->|(t & cs & -> & Hne & Hid & Hst)]; cbn [fst snd] in *.
    + apply Forall2_nil_inv_l in Ht as ->. left. unfold same_versions in Hv. by destruct cs'.
    + apply Forall2_cons_inv_l in Ht as (t' & l & [Hi Hs] & Hl & ->). apply Forall2_nil_inv_l in Hl as ->.
      right. exists t', cs'. split_and!; [done|by eapply same_versions_nonempty| |by rewrite Hs].
      by rewrite Hi, Hid, (BuildTaskId_versions _ _ Hv).
  - destruct Hm as [t t' cs cs' Hc Hi Hv|t cs Hr|ts cs new cs' -> Hr Hne Hn].
    + destruct Hx as [[= ]|(t0 & cs0 & [= <- <-] & Hne & Hid & Hst)]. right. exists t', cs'.
      split_and!; [done|by eapply same_versions_nonempty| |by eapply changes_known].
      by rewrite Hi, Hid, (BuildTaskId_versions _ _ Hv).
    + by left.
    + right. eexists _, _. split; [done|]. unfold numbered in Hn. split_and!.
      * intros ->. apply Forall2_nil_inv_r in Hn. by destruct new.
      * cbn. symmetry. apply BuildTaskId_versions. unfold same_versions. rewrite (numbered_versions _ _ Hn). by rewrite map_map.
      * apply elem_of_cons. by left.
Qed.
Context (C : Cause → Prop).
Implicit Types (ts : list FirmwareTask.t) (cs : list FirmwareComponent.t).
Lemma moves_refl y : moves C y y.
Proof. left. apply touched_refl. Qed.
(** An update of the task that only changes its status as [C] allows. *)
Definition allowed_change st st' : Prop := st' = st ∨ ∃ c, C c ∧ changes c st st' = true.
Lemma moves_task t t' cs cs' :
  FirmwareTask.taskId t' = FirmwareTask.taskId t → same_versions cs cs' →
  allowed_change (FirmwareTask.status t) (FirmwareTask.status t') → moves C ([t], cs) ([t'], cs').
Proof.
  intros Hi Hv [Hs|(c & Hc & Hs)]; [left; by repeat constructor|]. right. exists c. split; [done|]. by constructor.
Qed.
Lemma moves_update sel upd ts cs cs' :
  coherent (ts, cs) → (∀ t, FirmwareTask.taskId (upd t) = FirmwareTask.taskId t) →
  (∀ t, t ∈ ts → allowed_change (FirmwareTask.status t) (FirmwareTask.status (upd t))) → same_versions cs cs' →
  moves C (ts, cs) (update_where sel upd ts, cs').
Proof.
  intros [[= -> ->]|(t & cs0 & [= -> ->] & _)] Hi Hst Hv; [left; by split|].
  unfold update_where. cbn [map]. apply moves_task; [by case_if|done|]. case_if; [|by left]. apply Hst. set_solver.
Qed.
(** Clearing, when every stored task may be removed. *)
Lemma moves_cleared c ts cs :
  coherent (ts, cs) → C c → Forall (λ t, removes c (FirmwareTask.status t) = true) ts → moves C (ts, cs) ([], []).
Proof.
  intros [[= -> ->]|(t & cs0 & [= -> ->] & _)] Hc Hr; [apply moves_refl|]. apply Forall_cons in Hr as [Hr _].
  right. exists c. split; [done|]. by constructor.
Qed.
Lemma star_coherent x y : coherent x → star (moves C) x y → coherent y.
Proof. intros Hx Hs. induction Hs; [done|]. eauto using moves_coherent. Qed.
End spec.

(** ** Computations that respect the table

    [Inv]: from [x], which is coherent, the store was only moved by the causes in [C]. *)
Section world.
Context {R E : Type} `{RdbLaws R, Platform E, Sha256, Downloads E, Preferences E, Subscribers E} (C : Cause → Prop) (x : Stored)
  (Hx : coherent x).
Implicit Types (w : World R E) (ts : list FirmwareTask.t) (cs : list FirmwareComponent.t).

Definition Inv w : Prop := ∃ ts cs e o, at_state w ts cs e o ∧ star (moves C) x (ts, cs).
#[local] Notation fine := (stable Inv).

Lemma inv_at {A} (m : ST (World R E) A) :
  (∀ w ts cs e o, at_state w ts cs e o → coherent (ts, cs) →
     wp m w (λ _ w', ∃ ts' cs' e' o', at_state w' ts' cs' e' o' ∧ star (moves C) (ts, cs) (ts', cs'))) → fine m.
Proof.
  intros Hm w (ts & cs & e & o & Hw & Hs). eapply wp_mono; [|apply (Hm w ts cs e o Hw); by eapply star_coherent].
  intros _ w' (ts' & cs' & e' & o' & Hw' & Hs'). do 4 eexists. split; [exact Hw'|]. by eapply star_trans.
Qed.
(** At most one change. *)
Lemma inv_at_once {A} (m : ST (World R E) A) :
  (∀ w ts cs e o, at_state w ts cs e o → coherent (ts, cs) →
     wp m w (λ _ w', ∃ ts' cs' e' o', at_state w' ts' cs' e' o' ∧ moves C (ts, cs) (ts', cs'))) → fine m.
Proof.
  intros Hm. apply inv_at. intros w ts cs e o Hw Hc. eapply wp_mono; [|by apply (Hm w ts cs e o)].
  intros _ w' (ts' & cs' & e' & o' & Hw' & Hs'). do 4 eexists. split; [exact Hw'|]. econstructor; [exact Hs'|constructor].
Qed.
Ltac unmoved := do 4 eexists; split; [eassumption|apply moves_refl].

Lemma fine_env {A} (m : ST E A) : fine (on_env m).
Proof. apply inv_at_once. intros w ts cs e o Hw _. wp_step. unmoved. Qed.
Lemma fine_asks {A} (f : E → A) : fine (asks f).
Proof. apply inv_at_once. intros w ts cs e o Hw _. wp_step. unmoved. Qed.
Lemma fine_notify d id st em vcs p : fine (FirmwareCallbackUtils.NotifyEvent d id st em vcs p).
Proof. apply inv_at_once. intros w ts cs e o Hw _. wp_step. unmoved. Qed.
Lemma fine_progress d p : fine (FirmwareCallbackUtils.ProgressCallback d p).
Proof. apply inv_at_once. intros w ts cs e o Hw _. wp_step. unmoved. Qed.
Lemma fine_query_task t : fine (on_db (FirmwareTaskOperator.QueryTask t)).
Proof. apply inv_at_once. intros w ts cs e o Hw _. wp_step. unmoved. Qed.
Lemma fine_query_all : fine (on_db (FirmwareComponentOperator.QueryAll [])).
Proof. apply inv_at_once. intros w ts cs e o Hw _. wp_step. unmoved. Qed.

Lemma fine_task_update m sel upd :
  updates (R := R) m sel upd → (∀ t, FirmwareTask.taskId (upd t) = FirmwareTask.taskId t) →
  (∀ t, allowed_change C (FirmwareTask.status t) (FirmwareTask.status (upd t))) → fine (on_db m).
Proof.
  intros Hu Hi Hst. apply inv_at_once. intros w ts cs e o Hw Hc. eapply wp_task_update; [exact Hu|exact Hw|]. intros w' Hw'.
  do 4 eexists. split; [exact Hw'|]. apply moves_update; auto using same_versions_refl.
Qed.
Lemma fine_component_update m sel upd :
  updates (R := R) m sel upd → (∀ c, FirmwareComponent.versionId (upd c) = FirmwareComponent.versionId c) → fine (on_db m).
Proof.
  intros Hu Hi. apply inv_at_once. intros w ts cs e o Hw Hc. eapply wp_component_update; [exact Hu|exact Hw|]. intros w' Hw'.
  do 4 eexists. split; [exact Hw'|]. left. split; [apply (touched_refl (ts, cs))|by apply update_where_versions].
Qed.
End world.

Create HintDb fine.
#[export] Hint Resolve stable_ret stable_gets fine_env fine_asks fine_notify fine_progress fine_query_task fine_query_all : fine.
#[export] Hint Extern 3 (stable _ (on_db _)) => (eapply fine_component_update; [|solve [eauto 3 with store]|done]) : fine.
(** Split a computation into its calls. *)
Ltac fine :=
  repeat first
    [ progress intros | solve [eauto 4 with fine nocore]
    | apply stable_bind; [|intros ?] | apply stable_if | apply stable_for_each
    | lazymatch goal with |- stable _ (match ?a with _ => _ end) => destruct a end ].
(** What a query finds. *)
Ltac no_task := cbn [queried]; change (FirmwareTask.isExistTask (FirmwareTaskOperator.set_isExistTask false _)) with false;
  cbn [negb]; wp_steps; cbn [negb andb]; wp_steps.
Ltac one_task t :=
  cbn [queried]; change (FirmwareTask.isExistTask (FirmwareTaskOperator.set_isExistTask true t)) with true;
  change (FirmwareTask.status (FirmwareTaskOperator.set_isExistTask true t)) with (FirmwareTask.status t); cbn [negb]; wp_steps.
Ltac unmoved := do 4 eexists; split; [eassumption|apply moves_refl].

(** ** The processors *)
Section processors.
Context {R E : Type} `{RdbLaws R, Platform E, Sha256, Downloads E, Preferences E, Subscribers E, UpgradeAlarms E} (C : Cause → Prop)
  (x : Stored) (Hx : coherent x).
Implicit Types (w : World R E) (ts : list FirmwareTask.t) (cs : list FirmwareComponent.t).
#[local] Notation fine := (stable (Inv (R := R) (E := E) C x)).

Lemma not_undone ts : undone ts = false → (length ts ≤ 1)%nat → Forall (λ t, removes Answer (FirmwareTask.status t) = true) ts.
Proof.
  intros Hu Hl. destruct ts as [|t [|? ?]]; [done| |cbn in Hl; lia]. constructor; [|done].
  change (negb (undone [t]) = true). by rewrite Hu.
Qed.
Lemma coherent_length ts cs : coherent (ts, cs) → (length ts ≤ 1)%nat.
Proof. intros [[= -> ->]|(t & cs0 & [= -> ->] & _)]; cbn; lia. Qed.

Lemma kept_versions ts new cs : same_versions cs (CheckProcessor.kept ts new cs).
Proof.
  destruct ts as [|t ts]; [done|]. cbn [CheckProcessor.kept]. case_if; [|done]. unfold same_versions. rewrite map_map. apply map_ext.
  intros c. unfold renewed. by destruct (last _).
Qed.
Lemma fine_SetCheckResult this st d new :
  C Answer → Forall Component.wf new → fine (FirmwareCheckDataProcessor.SetCheckResult this st d new).
Proof.
  intros HC Hwf. apply inv_at_once; [done|]. intros w ts cs e o Hw Hc.
  assert (∀ w', at_state w' ts cs e o → ∃ ts' cs' e' o', at_state w' ts' cs' e' o' ∧ moves C (ts, cs) (ts', cs')) as Hsame
    by (intros; do 4 eexists; split; [eassumption|apply moves_refl]).
  unfold FirmwareCheckDataProcessor.SetCheckResult, FirmwareCheckDataProcessor.HandleCheckResult. case_if; [by apply wp_ret, Hsame|].
  wp_step. eapply wp_HasUndoneTask; [exact Hw|]. intros w1 Hw1. destruct (undone ts) eqn:Hu; [by apply wp_ret, Hsame|].
  pose proof (not_undone _ Hu (coherent_length _ _ Hc)) as Hr.
  destruct new as [|c new]; cbn [FirmwareCheckDataProcessor.HasNewVersion FirmwareCheckDataProcessor.componentList_].
  - wp_step. eapply wp_HandleNoNewVersion; [exact Hw1|]. intros w2 Hw2. apply wp_ret. do 4 eexists. split; [exact Hw2|]. by eapply moves_cleared.
  - eapply wp_HandleNewVersion; [exact Hw1|done| |]; cbn [FirmwareCheckDataProcessor.componentList_].
    + intros _ w2 Hw2. do 4 eexists. split; [exact Hw2|]. left. split; [apply (touched_refl (ts, cs))|].
      apply kept_versions.
    + intros _ w2 cs' Hn Hw2. do 4 eexists. split; [exact Hw2|]. right. exists Answer. split; [done|]. by econstructor.
Qed.
Lemma fine_BuildCheckResult this : fine (FirmwareCheckDataProcessor.BuildCheckResult this CheckResult.default).
Proof.
  apply inv_at_once; [done|]. intros w ts cs e o Hw _. eapply wp_BuildCheckResult; [exact Hw|]. intros.
  do 4 eexists. split; [eassumption|apply moves_refl].
Qed.

Lemma transfer_allowed st st' : C Transfer → st' ∈ transfer_statuses → allowed_change C st st'.
Proof. intros HC Hs. right. exists Transfer. split; [done|]. cbn. by rewrite bool_decide_true. Qed.
(** A report of a download. *)
Definition good_report (info : FirmwareDownloadCallbackInfo.t) : Prop :=
  wf_report info ∧ Progress.status (FirmwareDownloadCallbackInfo.taskProgress info) ∈ transfer_statuses.
Lemma components_reported_versions info cs : same_versions cs (components_reported info cs).
Proof.
  unfold components_reported. generalize (FirmwareDownloadCallbackInfo.progressList info). intros l. revert cs.
  induction l as [|c l IH]; intros cs; [done|]. cbn [fold_left]. unfold same_versions in *. rewrite IH. by apply update_where_versions.
Qed.
Lemma fine_SetDownloadCallbackInfo this info :
  C Transfer → good_report info → fine (FirmwareDownloadDataProcessor.SetDownloadCallbackInfo this info).
Proof.
  intros HC [Hwf Hst]. apply inv_at_once; [done|]. intros w ts cs e o Hw Hc. eapply wp_SetDownloadCallbackInfo; [exact Hw|exact Hwf|].
  intros task p w' Hw'. do 4 eexists. split; [exact Hw'|].
  apply moves_update; [done|done| |apply components_reported_versions]. intros t _. by apply transfer_allowed.
Qed.
Lemma fine_get_task (this : FirmwareDownloadDataProcessor.t) : fine (FirmwareDownloadDataProcessor.GetTask this).
Proof. unfold FirmwareDownloadDataProcessor.GetTask. fine. Qed.
Lemma fine_SetDownloadEvent this id ev : C Transfer → fine (FirmwareDownloadDataProcessor.SetDownloadEvent this id ev).
Proof.
  intros HC. pose proof fine_get_task. unfold FirmwareDownloadDataProcessor.SetDownloadEvent.
  assert (∀ taskId, fine (on_db (FirmwareTaskOperator.UpdateStatusByTaskId taskId UpgradeStatus.DOWNLOADING))).
  { intros id'. eapply fine_task_update; [done|eauto with store|done|]. intros t. apply transfer_allowed; [done|].
    apply (bool_decide_unpack _); vm_compute; exact I. }
  assert (∀ taskId d, fine (on_db (FirmwareTaskOperator.UpdateDownloadTaskIdByTaskId taskId d))).
  { intros id' d. eapply fine_task_update; [done|eauto with store|done|]. by left. }
  fine.
Qed.
Lemma fine_new_processor : fine FirmwareDownloadDataProcessor.new.
Proof. unfold FirmwareDownloadDataProcessor.new. fine. Qed.
Lemma fine_download_space n : fine (FirmwareDownloadDataProcessor.IsSpaceEnough n).
Proof. unfold FirmwareDownloadDataProcessor.IsSpaceEnough. fine. Qed.
Lemma fine_install_space n : fine (FirmwareInstallDataProcessor.IsSpaceEnough n).
Proof. unfold FirmwareInstallDataProcessor.IsSpaceEnough. fine. Qed.
Lemma fine_SetInstallResult this info : fine (FirmwareInstallDataProcessor.SetInstallResult this info).
Proof. unfold FirmwareInstallDataProcessor.SetInstallResult, FirmwareInstallDataProcessor.GetTask. fine. Qed.

(** What follows a download. *)
Lemma after_download_moves t cs (e : E) o err ts' cs' e' o' :
  C Transfer → download_ended t cs e o err = (ts', cs', e', o') → moves C ([t], cs) (ts', cs').
Proof.
  intros HC. unfold download_ended.
  repeat case_if; breflect; intros [= <- <- <- <-]; try apply moves_refl.
  - right. exists Transfer. split; [done|]. constructor. cbn [removes]. by apply Z.eqb_eq.
  - apply moves_task; [done| |].
    + unfold same_versions. rewrite map_map. by apply map_ext.
    + right. exists Transfer. split; [done|]. cbn -[bool_decide]. rewrite E2. apply orb_true_iff. by right.
Qed.
Lemma wp_after_download_moves t err w cs e o :
  C Transfer → at_state w [t] cs e o →
  wp (FirmwareDownloadProcess.after_download (FirmwareTaskOperator.set_isExistTask true t) err) w (λ _ w',
    ∃ ts' cs' e' o', at_state w' ts' cs' e' o' ∧ moves C ([t], cs) (ts', cs')).
Proof.
  intros HC Hw. eapply wp_after_download; [eassumption|]. intros w2.
  destruct (download_ended _ _ _ _ _) as [[[ts' cs'] e'] o'] eqn:Ed. intros Hw2. do 4 eexists. split; [exact Hw2|]. by eapply after_download_moves.
Qed.
End processors.
#[export] Hint Resolve fine_SetCheckResult fine_BuildCheckResult fine_SetDownloadCallbackInfo fine_SetDownloadEvent fine_new_processor
  fine_download_space fine_install_space fine_SetInstallResult : fine.

(** ** The modes *)

(** The steps a flow with the causes [C] carries out. *)
Definition permitted (C : Cause → Prop) (step : FirmwareStep) : Prop :=
  match step with
  | STEP_INIT => False
  | CHECK_STEP => C Answer
  | DOWNLOAD_STEP => C Transfer
  | INSTALL_STEP => C Installing
  | _ => True
  end.
(** A mode that moves the store by [C] only; what it does first is left to [first_fine]. *)
Class Respectful (R E M : Type) `{RdbLaws R, Platform E, Sha256, !FirmwareIExecuteMode.t R E M} (C : Cause → Prop) (x : Stored) := {
  next_fine (m : M) step : step ≠ STEP_INIT → stable (Inv C x) (FirmwareIExecuteMode.GetNextStep (R := R) (E := E) m step);
  next_permitted (m : M) step : yields (λ r, permitted C r.2) (FirmwareIExecuteMode.GetNextStep (R := R) (E := E) m step);
  check_fine (m : M) st d new :
    C Answer → Forall Component.wf new → stable (Inv C x) (FirmwareIExecuteMode.SetCheckResult (R := R) (E := E) m st d new);
  report_fine (m : M) info :
    C Transfer → good_report info → stable (Inv C x) (FirmwareIExecuteMode.SetDownloadCallbackInfo (R := R) (E := E) m info);
  event_fine (m : M) id ev : C Transfer → stable (Inv C x) (FirmwareIExecuteMode.SetDownloadEvent (R := R) (E := E) m id ev);
  install_fine (m : M) info : stable (Inv C x) (FirmwareIExecuteMode.SetInstallResult (R := R) (E := E) m info);
  apply_fine (m : M) ok : stable (Inv C x) (FirmwareIExecuteMode.SetApplyResult (R := R) (E := E) m ok);
  complete_fine (m : M) : stable (Inv C x) (FirmwareIExecuteMode.HandleComplete (R := R) (E := E) m)
}.

(** The steps a computation answers with. *)
Ltac permitted :=
  repeat first
    [ apply yields_now; cbn [snd permitted]; first [exact I|assumption]
    | apply yields_if
    | eapply yields_bind_to; [solve [eauto with permitted nocore]|intros [? ?] Hr; cbn [snd] in Hr]
    | apply yields_then; intros ?; try case_match ].
Create HintDb permitted.

Section modes.
Context {R E : Type} `{RdbLaws R, Platform E, Sha256, Downloads E, Preferences E, Subscribers E, DeviceKits E, CheckCache E,
  !ServiceKits E, UpgradeAlarms E} (C : Cause → Prop) (x : Stored) (Hx : coherent x).
#[local] Notation fine := (stable (Inv (R := R) (E := E) C x)).

Lemma manual_respectful : C Answer → Respectful R E FirmwareManualCheckMode.t C x.
Proof.
  intros HC. split.
  - intros m step Hs. destruct step; [done|cbn; unfold FirmwareManualCheckMode.GetStepAfterCheck; fine..].
  - intros m step. destruct step; cbn; unfold FirmwareManualCheckMode.GetStepAfterInit, FirmwareManualCheckMode.GetStepAfterCheck; permitted.
  - intros. cbn. unfold FirmwareManualCheckMode.SetCheckResult. fine.
  - intros. cbn. fine.
  - intros. cbn. fine.
  - intros. cbn. fine.
  - intros. cbn. fine.
  - intros. cbn. unfold FirmwareManualCheckMode.HandleComplete. fine.
Qed.
Lemma manual_first (m : FirmwareManualCheckMode.t) : fine (FirmwareManualCheckMode.GetStepAfterInit m).
Proof. unfold FirmwareManualCheckMode.GetStepAfterInit, FirmwareCheckDataProcessor.IsUpdateOnStatus. fine. Qed.

(** After a download: there is no task any more, or it ends by its status. *)
Ltac after_download :=
  apply inv_at_once; [done|]; intros w ts cs e o Hw Hc; wp_step; wp_step;
  destruct Hc as [[= -> ->]|(t & cs0 & [= -> ->] & _)]; cbn [queried];
  [ change (FirmwareTask.isExistTask _) with false; cbn [negb]; wp_step; do 4 eexists; split; [eassumption|apply moves_refl]
  | change (FirmwareTask.isExistTask _) with true; cbn [negb] ].
Lemma fine_download_step (m : FirmwareDownloadMode.t) : C Transfer → fine (FirmwareDownloadMode.GetStepAfterDownload m).
Proof.
  intros HC. unfold FirmwareDownloadMode.GetStepAfterDownload. after_download. apply wp_bind.
  eapply wp_mono; [|by eapply wp_after_download_moves]. intros [] w2 Hw2. by apply wp_ret.
Qed.
Lemma download_respectful : C Transfer → Respectful R E FirmwareDownloadMode.t C x.
Proof.
  intros HC. pose proof fine_download_step. split.
  - intros m step Hs. destruct step; [done|cbn; fine..].
  - intros m step. destruct step; cbn; unfold FirmwareDownloadMode.GetStepAfterInit, FirmwareDownloadMode.GetStepAfterDownload; permitted.
  - intros. cbn. fine.
  - intros. cbn. unfold FirmwareDownloadMode.SetDownloadCallbackInfo. fine.
  - intros. cbn. unfold FirmwareDownloadMode.SetDownloadEvent. fine.
  - intros. cbn. fine.
  - intros. cbn. fine.
  - intros. cbn. fine.
Qed.
Lemma download_first (m : FirmwareDownloadMode.t) : fine (FirmwareDownloadMode.GetStepAfterInit m).
Proof. unfold FirmwareDownloadMode.GetStepAfterInit, FirmwareDownloadMode.GetTask. fine. Qed.

Lemma fine_download_processor this : fine (FirmwareAutoUpgradeMode.GetDownloadDataProcessor this).
Proof. unfold FirmwareAutoUpgradeMode.GetDownloadDataProcessor. fine. Qed.
Lemma fine_download_success task err : fine (FirmwareDownloadProcess.DownloadSuccessProcess task err).
Proof. unfold FirmwareDownloadProcess.DownloadSuccessProcess. fine. Qed.
Lemma fine_auto_step m : C Transfer → fine (FirmwareAutoUpgradeMode.GetStepAfterDownload m).
Proof.
  intros HC. unfold FirmwareAutoUpgradeMode.GetStepAfterDownload. after_download. apply wp_bind.
  apply (wp_mono _ _ (λ _ w', at_state w' [t] cs0 e o)).
  - intros [p m'] w2 Hw2. apply wp_bind. eapply wp_mono; [|by eapply wp_after_download_moves]. intros [] w3 Hw3. by apply wp_ret.
  - unfold FirmwareAutoUpgradeMode.GetDownloadDataProcessor. destruct (FirmwareAutoUpgradeMode.downloadDataProcessor_ m); [by apply wp_ret|].
    unfold FirmwareDownloadDataProcessor.new, FirmwareDownloadDataProcessor.GetTask. by wp_steps.
Qed.
Lemma fine_pre_download m : fine (FirmwareAutoUpgradeMode.HandlePreDownloadStep m).
Proof.
  pose proof fine_download_processor. pose proof fine_download_success.
  unfold FirmwareAutoUpgradeMode.HandlePreDownloadStep, FirmwareAutoUpgradeMode.GetTask. fine.
Qed.
Lemma auto_respectful : C Answer → C Transfer → Respectful R E FirmwareAutoUpgradeMode.t C x.
Proof.
  intros HA HC. pose proof fine_download_processor. pose proof fine_auto_step. pose proof fine_pre_download. split.
  - intros m step Hs. destruct step; [done|cbn; unfold FirmwareAutoUpgradeMode.GetStepAfterCheck, FirmwareAutoUpgradeMode.GetTask; fine..].
  - intros m step. destruct step; cbn; unfold FirmwareAutoUpgradeMode.GetStepAfterInit, FirmwareAutoUpgradeMode.GetStepAfterCheck,
      FirmwareAutoUpgradeMode.HandlePreDownloadStep, FirmwareAutoUpgradeMode.GetStepAfterDownload; permitted.
  - intros. cbn. unfold FirmwareAutoUpgradeMode.SetCheckResult. fine.
  - intros. cbn. unfold FirmwareAutoUpgradeMode.SetDownloadCallbackInfo. fine.
  - intros. cbn. unfold FirmwareAutoUpgradeMode.SetDownloadEvent. fine.
  - intros. cbn. unfold FirmwareAutoUpgradeMode.SetInstallResult. fine.
  - intros. cbn. fine.
  - intros. cbn. fine.
Qed.
Lemma auto_first m : fine (FirmwareAutoUpgradeMode.GetStepAfterInit m).
Proof. unfold FirmwareAutoUpgradeMode.GetStepAfterInit, FirmwareAutoUpgradeMode.GetTask. fine. Qed.

(** After an installation: what did not succeed is removed; a stream only when it failed. *)
Lemma fine_install_step m : C Installing → fine (FirmwareInstallApplyMode.GetStepAfterInstall m).
Proof.
  intros HC. apply inv_at_once; [done|]. intros w ts cs e o Hw Hc. destruct Hc as [[= -> ->]|(t & cs0 & [= -> ->] & _)].
  - unfold FirmwareInstallApplyMode.GetStepAfterInstall, FirmwareInstallDataProcessor.HasInstallSuccess, FirmwareInstallDataProcessor.query_status.
    wp_steps. no_task. eapply wp_ClearFirmwareInfo; [eassumption|]. intros w2 Hw2. wp_steps. no_task. unmoved.
  - eapply wp_GetStepAfterInstall; [exact Hw|]. intros w' m' success Hw'. destruct success eqn:Hs; do 4 eexists; (split; [exact Hw'|]).
    + apply moves_refl.
    + right. exists Installing. split; [done|]. constructor. cbn [removes]. unfold success in Hs. by rewrite Hs.
Qed.
Lemma fine_stream_step m : C Installing → fine (FirmwareStreamInstallApplyMode.GetStepAfterInstall m).
Proof.
  intros HC. apply inv_at_once; [done|]. intros w ts cs e o Hw Hc.
  unfold FirmwareStreamInstallApplyMode.GetStepAfterInstall, FirmwareInstallDataProcessor.HasInstallFail,
    FirmwareInstallDataProcessor.HasInstallSuccess, FirmwareInstallDataProcessor.query_status.
  wp_steps. destruct Hc as [[= -> ->]|(t & cs0 & [= -> ->] & _)].
  - no_task. unmoved.
  - one_task t. destruct (FirmwareTask.status t =? UpgradeStatus.INSTALL_FAIL) eqn:Hf; wp_steps.
    + eapply wp_ClearFirmwareInfo; [eassumption|]. intros w2 Hw2. wp_steps. no_task.
      do 4 eexists. split; [eassumption|]. right. exists Installing. split; [done|]. constructor. by apply Z.eqb_eq in Hf as ->.
    + one_task t. case_if; wp_steps; unmoved.
Qed.

(** A fresh mode looks at the stored task: only a downloaded version is removed, when its
    packages are not ready. *)
Lemma wp_order_fresh (m : FirmwareInstallApplyMode.t) w ts cs e o :
  C Installing → coherent (ts, cs) → at_state w ts cs e o → FirmwareInstallApplyMode.tasks_ m = queried FirmwareTask.default ts →
  FirmwareTask.isExistTask (FirmwareInstallApplyMode.tasks_ m) = true →
  wp (FirmwareInstallApplyMode.GetStepForInstallAndApplyOrder m) w (λ _ w',
    ∃ ts' cs' e' o', at_state w' ts' cs' e' o' ∧ moves C (ts, cs) (ts', cs')).
Proof.
  intros HC Hc Hw Hm Hex. unfold FirmwareInstallApplyMode.GetStepForInstallAndApplyOrder. rewrite Hm in *.
  destruct (FirmwareTask.status (queried FirmwareTask.default ts) =? UpgradeStatus.DOWNLOAD_SUCCESS) eqn:Hst; cbn [negb]; [|wp_steps; unmoved].
  apply Z.eqb_eq in Hst. apply wp_bind, (wp_mono _ _ (λ _ w', at_state w' ts cs e o)).
  - intros [allowed m'] w2 Hw2. destruct allowed; cbn [negb]; [|wp_steps; unmoved].
    unfold FirmwareInstallApplyMode.IsUpgradeFilesReady, FirmwareInstallDataProcessor.IsUpgradeFileCheckSuccess. wp_steps.
    case_if; wp_steps; [unmoved|]. eapply wp_ClearFirmwareInfo; [eassumption|]. intros w3 Hw3. wp_steps. cbn [negb]. wp_steps.
    do 4 eexists. split; [eassumption|]. eapply (moves_cleared C Installing); [done|done|].
    destruct Hc as [[= -> ->]|(t & cs0 & [= -> ->] & _)]; [done|]. constructor; [|done].
    change (FirmwareTask.status t = UpgradeStatus.DOWNLOAD_SUCCESS) in Hst. by rewrite Hst.
  - unfold FirmwareInstallApplyMode.IsAllowInstall, FirmwareInstallDataProcessor.IsSpaceEnough. wp_steps.
    repeat (case_if; wp_steps); done.
Qed.
Lemma install_first opts be type :
  C Installing → fine (FirmwareInstallApplyMode.GetStepAfterInit (FirmwareInstallApplyMode.new opts be type)).
Proof.
  intros HC. apply inv_at_once; [done|]. intros w ts cs e o Hw Hc.
  unfold FirmwareInstallApplyMode.GetStepAfterInit, FirmwareInstallApplyMode.GetTask. wp_steps.
  change (FirmwareInstallApplyMode.tasks_ (FirmwareInstallApplyMode.new opts be type)) with FirmwareTask.default.
  change (FirmwareTask.isExistTask FirmwareTask.default) with false. cbn [negb]. wp_steps.
  set (m := FirmwareInstallApplyMode.set_tasks _ _).
  change (FirmwareInstallApplyMode.tasks_ m) with (queried FirmwareTask.default ts).
  destruct (FirmwareTask.isExistTask (queried FirmwareTask.default ts)) eqn:Hex; cbn [negb]; [|wp_steps; unmoved].
  case_if; [|case_if; wp_steps; unmoved]. wp_step. eapply wp_mono; [|by eapply (wp_order_fresh m _ ts cs e o)].
  intros [m' step] w2 (ts' & cs' & e' & o' & Hw2 & Hs). case_if; wp_steps; do 4 eexists; (split; [eassumption|exact Hs]).
Qed.
Lemma install_order_permitted m : C Installing →
  yields (λ r, permitted C r.2) (FirmwareInstallApplyMode.GetStepForInstallAndApplyOrder (R := R) (E := E) m).
Proof. intros HC. unfold FirmwareInstallApplyMode.GetStepForInstallAndApplyOrder. permitted. Qed.
Lemma stream_order_permitted m : C Installing →
  yields (λ r, permitted C r.2) (FirmwareStreamInstallApplyMode.GetStepForInstallAndApplyOrder (R := R) (E := E) m).
Proof. intros HC. unfold FirmwareStreamInstallApplyMode.GetStepForInstallAndApplyOrder. permitted. Qed.
#[local] Hint Resolve install_order_permitted stream_order_permitted : permitted.
Lemma stream_init_permitted m : C Installing →
  yields (λ r, permitted C r.2) (FirmwareStreamInstallApplyMode.GetStepAfterInit (R := R) (E := E) m).
Proof. intros HC. unfold FirmwareStreamInstallApplyMode.GetStepAfterInit. permitted. Qed.
Lemma stream_install_permitted m :
  yields (λ r, permitted C r.2) (FirmwareStreamInstallApplyMode.GetStepAfterInstall (R := R) (E := E) m).
Proof. unfold FirmwareStreamInstallApplyMode.GetStepAfterInstall. permitted. Qed.
#[local] Hint Resolve stream_init_permitted stream_install_permitted : permitted.
Lemma install_respectful : C Installing → Respectful R E FirmwareInstallApplyMode.t C x.
Proof.
  intros HC. pose proof fine_install_step. split.
  - intros m step Hs. destruct step; [done|cbn; fine..].
  - intros m step. destruct step; cbn; unfold FirmwareInstallApplyMode.GetStepAfterInit, FirmwareInstallApplyMode.GetStepAfterInstall; permitted.
  - intros. cbn. fine.
  - intros. cbn. fine.
  - intros. cbn. fine.
  - intros. cbn. unfold FirmwareInstallApplyMode.SetInstallResult. fine.
  - intros. cbn. fine.
  - intros. cbn. fine.
Qed.
Lemma stream_first m : fine (FirmwareStreamInstallApplyMode.GetStepAfterInit m).
Proof.
  unfold FirmwareStreamInstallApplyMode.GetStepAfterInit, FirmwareStreamInstallApplyMode.GetTask,
    FirmwareStreamInstallApplyMode.GetStepForInstallAndApplyOrder, FirmwareStreamInstallApplyMode.IsAllowInstall. fine.
Qed.
Lemma stream_respectful : C Installing → Respectful R E FirmwareStreamInstallApplyMode.t C x.
Proof.
  intros HC. pose proof fine_stream_step. split.
  - intros m step Hs. destruct step; [done|cbn; unfold FirmwareStreamInstallApplyMode.GetNextStep; fine..].
  - intros m step. destruct step; cbn; unfold FirmwareStreamInstallApplyMode.GetNextStep; permitted.
  - intros. cbn. fine.
  - intros. cbn. fine.
  - intros. cbn. fine.
  - intros. cbn. unfold FirmwareStreamInstallApplyMode.SetInstallResult. fine.
  - intros. cbn. fine.
  - intros. cbn. fine.
Qed.
End modes.

(** ** The flows *)

(** [P] is what the flow may do at all, [C] what is done to the store now. *)
Section execute.
Context {R E M : Type} `{RdbLaws R, Platform E, Sha256, Downloads E, Preferences E, Subscribers E, !InstallKits E, DownloadTasks E,
  CheckKits E, CheckCache E, RebootKits E, !FirmwareIExecuteMode.t R E M} (P C : Cause → Prop) (x : Stored) (Hx : coherent x).
Import FirmwareFlowManager.
#[local] Notation State := (t M * World R E)%type.
Implicit Types (s : State) (this : t M).
#[local] Notation fine := (stable (Inv (R := R) (E := E) C x)).

(** What a flow has submitted and waits for is permitted. *)
Definition within this : Prop :=
  Forall (λ ex, permitted P (step_of ex)) (submitted_ this) ∧ (∀ ex, executor_ this = Some ex → permitted P (step_of ex)).
(** Besides, it has taken its first step. *)
Definition started this : Prop := within this ∧ nextStep_ this ≠ STEP_INIT.
Definition good s : Prop := started s.1 ∧ Inv C x s.2.

Lemma good_env {A} (m : ST (World R E) A) : fine m → stable good (env_ m).
Proof. intros Hm s [Hs Hw]. apply wp_env_. eapply wp_mono; [|by apply Hm]. intros a w' Hw'. by split. Qed.
Lemma good_set f : (∀ this, started this → started (f this)) → stable good (set_own f).
Proof. intros Hf s [Hs Hw]. apply wp_set_own. split; [by apply Hf|done]. Qed.
Lemma good_own {A} (f : t M → A) : stable good (own_ f).
Proof. by intros s Hs. Qed.
Lemma good_on_mode {A} (f : M → ST (World R E) (M * A)) : (∀ m, fine (f m)) → stable good (on_mode f).
Proof.
  intros Hf. unfold on_mode. apply stable_bind; [apply good_own|]. intros [].
  - apply stable_bind; [apply good_own|]. intros [m|]; [|apply stable_ret].
    apply stable_bind; [by apply good_env|]. intros [m' a]. apply stable_bind; [|intros; apply stable_ret]. by apply good_set.
  - apply stable_bind; [by apply good_set|intros; apply stable_ret].
Qed.
Lemma good_tell (f : M → ST (World R E) M) : (∀ m, fine (f m)) → stable good (tell_mode f).
Proof. intros Hf. apply good_on_mode. intros m. apply stable_bind; [done|]. intros m'. apply stable_ret. Qed.

Context (Hnext : ∀ (m : M) step, yields (λ r, permitted P r.2) (FirmwareIExecuteMode.GetNextStep (R := R) (E := E) m step))
  (Hcomplete : ∀ m : M, fine (FirmwareIExecuteMode.HandleComplete m)).
Lemma good_complete : stable good Complete.
Proof.
  apply stable_bind; [by apply good_tell|]. intros []; [|apply stable_ret]. by apply good_set.
Qed.
Lemma good_submit ex : permitted P (step_of ex) → stable good (submit ex).
Proof.
  intros Hp. apply stable_bind.
  - destruct ex; try apply stable_ret. apply good_env. fine.
  - intros _. apply good_set. intros this [[Hs He] Hn]. split; [|done]. split; [|done]. cbn. apply Forall_app. by repeat constructor.
Qed.
(** One step of a flow, whose mode answers as it should. *)
Lemma wp_Execute_good s :
  within s.1 → Inv C x s.2 → nextStep_ s.1 ≠ STEP_INIT ∨ is_Some (executeMode_ s.1) ∧ completed_ s.1 = 0%nat →
  (∀ m, executeMode_ s.1 = Some m → fine (FirmwareIExecuteMode.GetNextStep m (nextStep_ s.1))) →
  wp Execute s (λ _ s', good s').
Proof.
  intros Hin Hw Hn Hf. unfold Execute. apply wp_bind, wp_own_, wp_bind. unfold on_mode. apply wp_bind, wp_own_.
  destruct (completed_ s.1 =? 0)%nat eqn:Hc; cbn [negb].
  2:{ apply wp_bind, wp_set_own, wp_ret, wp_ret. split; [|done]. split; [done|]. destruct Hn as [Hn|[_ Hn]]; [done|by rewrite Hn in Hc]. }
  apply wp_bind, wp_own_. destruct (executeMode_ s.1) as [m|] eqn:Hm.
  2:{ apply wp_ret, wp_ret. split; [|done]. split; [done|]. destruct Hn as [Hn|[[? [=]] _]]. done. }
  assert (wp (FirmwareIExecuteMode.GetNextStep m (nextStep_ s.1)) s.2 (λ r w', permitted P r.2 ∧ Inv C x w')) as Hstep
    by (split; [apply (Hnext m (nextStep_ s.1) s.2)|by apply Hf]).
  apply wp_bind, wp_env_. eapply wp_mono; [|exact Hstep]. intros [m' step] w' [Hp Hw']. cbn [snd] in Hp.
  apply wp_bind, wp_set_own, wp_ret, wp_bind, wp_set_own. cbn [fst snd].
  assert (good (set_step step (set_mode m' s.1), w')) as Hg by (split; [split; [exact Hin|cbn; by intros ->]|done]).
  case_bool_decide; [by apply good_complete|]. apply wp_bind, wp_own_. cbn [fst snd executeMode_ set_step set_mode mbind option_bind].
  assert (∀ ex, CreateInstance (R := R) (E := E) step m' = Some ex → permitted P (step_of ex)) as Hex
    by (intros ex; by destruct step; intros [= <-]).
  apply wp_bind, wp_set_own. cbn [fst snd].
  assert (good (set_executor (CreateInstance step m') (set_step step (set_mode m' s.1)), w')) as Hg'.
  { destruct Hg as [[[Hs _] Hn'] _]. split; [|done]. split; [|done]. split; [done|]. exact Hex. }
  destruct (CreateInstance step m') as [ex|]; [|by apply wp_ret]. apply good_submit; [by apply Hex|done].
Qed.
End execute.

Section flow.
Context {R E M : Type} `{RdbLaws R, Platform E, Sha256, Downloads E, Preferences E, Subscribers E, !InstallKits E, DownloadTasks E,
  CheckKits E, CheckCache E, RebootKits E, !FirmwareIExecuteMode.t R E M} (C : Cause → Prop) (x : Stored) (Hx : coherent x).
Import FirmwareFlowManager.
#[local] Notation State := (t M * World R E)%type.
Implicit Types (s : State) (this : t M).
#[local] Notation fine := (stable (Inv (R := R) (E := E) C x)).
#[local] Notation good := (good (R := R) (E := E) (M := M) C C x).
Context `{!Respectful R E M C x}.
Lemma good_Execute : stable good Execute.
Proof. intros s [[Hin Hn] Hw]. eapply wp_Execute_good; [done|apply next_permitted|apply complete_fine|done|done|by left|].
  intros m _. by apply next_fine. Qed.
Lemma good_heard b told : stable good (heard b told).
Proof. unfold heard. destruct told; [|apply stable_ret]. destruct b; [apply good_Execute|apply stable_ret]. Qed.
Lemma good_then_heard (f : M → ST (World R E) M) b :
  (∀ m, fine (f m)) → stable good (let* told := tell_mode f in heard b told).
Proof. intros Hf. apply stable_bind; [by apply good_tell|]. intros told. apply good_heard. Qed.

(** What an executor tells the flow. *)
Lemma good_check st d l ai : C Answer → Forall Component.wf l → stable good (OnCheckCallback (st, d, l, ai)).
Proof. intros HC Hl. apply good_then_heard. intros m. by apply check_fine. Qed.
Lemma good_download info : C Transfer → good_report info → stable good (OnDownloadCallback info).
Proof. intros HC Hi. apply good_then_heard. intros m. by apply report_fine. Qed.
Lemma good_event ev : C Transfer → stable good (OnDownloadEventCallback ev).
Proof. intros HC. apply stable_bind; [|intros; apply stable_ret]. apply good_tell. intros m. by apply event_fine. Qed.
Lemma good_install info : stable good (OnInstallCallback info).
Proof. apply good_then_heard. intros m. apply install_fine. Qed.
Lemma good_apply b : stable good (OnApplyCallback b).
Proof. apply good_then_heard. intros m. apply apply_fine. Qed.

(** *** The executors, which run on a third part *)
Section object.
Context {T : Type}.
#[local] Notation Obj := (T * State)%type.
Definition good_obj (y : Obj) : Prop := good y.2.
Lemma obj_world {A} (m : ST (World R E) A) : fine m → stable good_obj (on_world m).
Proof. intros Hm y [Hs Hw]. apply wp_on_world. eapply wp_mono; [|by apply Hm]. intros a w' Hw'. by split. Qed.
Lemma obj_this {A} (f : T → A) : stable good_obj (this_ f).
Proof. by intros y Hy. Qed.
Lemma obj_set f : stable good_obj (set_this f).
Proof. by intros y Hy. Qed.
Lemma obj_call {B} (f : B → ST State unit) b : stable good (f b) → stable good_obj (call (Some f) b).
Proof. intros Hf y Hy. apply wp_call. eapply wp_mono; [|by apply Hf]. done. Qed.
Lemma good_object {A} (init : T) (m : ST Obj A) : stable good_obj m → stable good (object init m).
Proof. intros Hm s Hs. apply wp_object. by apply (Hm (init, s)). Qed.
End object.

Context `{!CheckKitsLaws E}.

Lemma good_DoCheck :
  C Answer → stable good (object FirmwareCheckExecutor.new (FirmwareCheckExecutor.DoCheck (Some OnCheckCallback))).
Proof.
  intros HC s [Hs (ts & cs & e & o & Hw & Hst)]. apply wp_object. unfold FirmwareCheckExecutor.DoCheck. apply wp_bind, wp_on_world. cbn [fst snd].
  eapply wp_on_env; [exact Hw|]. intros w1 Hw1. pose proof (answer_wf e) as Ha.
  assert (Inv C x w1) as Hi1 by (do 4 eexists; by split).
  destruct (eval DoAction e) as [[[[st d] new] ai]|]; [|by apply wp_ret].
  apply wp_bind, wp_set_this. unfold FirmwareCheckExecutor.Complete. apply wp_bind, wp_on_world. cbn [fst snd].
  eapply wp_mono; [|by apply fine_env]. intros ? w2 Hw2. apply wp_bind, wp_this, wp_call. cbn [fst snd].
  eapply wp_mono; [|apply good_check; [done| |by split]]; [done|]. cbn. apply (checked_list_wf st). by eapply Ha.
Qed.
(** The executors first read the stored components into an empty list. *)
Lemma good_read_all {T A} (comps : T → list FirmwareComponent.t) (init : T)
    (k : list FirmwareComponent.t → ST (T * State) A) :
  comps init = [] → (∀ l, Forall Component.wf l → stable good_obj (k l)) →
  stable good (object init (let* l := this_ comps in
                            let* (_, l) := on_world (on_db (FirmwareComponentOperator.QueryAll l)) in k l)).
Proof.
  intros Hi Hk s [Hs (ts & cs & e & o & Hw & Hst)]. apply wp_object, wp_bind, wp_this. cbn [fst snd]. rewrite Hi.
  apply wp_bind, wp_on_world. cbn [fst snd]. eapply wp_QueryAll; [exact Hw|]. intros w' Hw'.
  apply at_state_wf in Hw as [_ Hwf]. apply (Hk cs Hwf). split; [done|]. do 4 eexists. by split.
Qed.
Lemma good_DoApply : stable good (object [] (FirmwareApplyExecutor.DoInstall (Some OnApplyCallback))).
Proof.
  unfold FirmwareApplyExecutor.DoInstall. apply (good_read_all (λ c, c)); [done|]. intros l _.
  apply stable_bind; [apply obj_set|]. intros _. destruct l; [apply obj_call, good_apply|apply obj_world; fine].
Qed.

Lemma good_info taskId st p k : FirmwareDownloadExecutor.statusMap !! k = Some st → good_report (download_info taskId st p).
Proof.
  intros Hk. split; [by eapply download_info_wf|]. cbn. apply elem_of_list_to_map_2 in Hk.
  repeat (apply elem_of_cons in Hk as [[= _ ->]|Hk]; [apply (bool_decide_unpack _); vm_compute; exact I|]). by apply not_elem_of_nil in Hk.
Qed.
Lemma good_fail_info err : good_report (FirmwareDownloadExecutor.fail_info err).
Proof.
  split; [split; [by apply is_int32_closed|constructor]|]. apply (bool_decide_unpack _); vm_compute; exact I.
Qed.
Lemma obj_progress (taskId : string) p : C Transfer →
  stable good_obj (FirmwareDownloadExecutor.CallbackProgress (Some OnDownloadCallback) taskId p).
Proof.
  intros HC. unfold FirmwareDownloadExecutor.CallbackProgress.
  destruct (FirmwareDownloadExecutor.statusMap !! ProgressInfo.taskStatus p) as [st|] eqn:Hk; [|apply stable_ret].
  apply obj_call, good_download; [done|]. by eapply (good_info taskId).
Qed.
Lemma obj_fail err : C Transfer → stable good_obj (FirmwareDownloadExecutor.CallbackDownloadFailProgress (Some OnDownloadCallback) err).
Proof. intros HC. apply obj_call, good_download; [done|apply good_fail_info]. Qed.
Lemma good_DoDownload options : C Transfer →
  stable good (object (FirmwareDownloadExecutor.new options)
    (FirmwareDownloadExecutor.DoDownload (Some OnDownloadCallback) (Some OnDownloadEventCallback))).
Proof.
  intros HC. unfold FirmwareDownloadExecutor.DoDownload. apply (good_read_all FirmwareDownloadExecutor.components_); [done|]. intros l _.
  pose proof (λ id p, obj_progress id p HC). pose proof (λ err, obj_fail err HC).
  assert (∀ ev, stable good_obj (call (T := FirmwareDownloadExecutor.t) (Some OnDownloadEventCallback) ev))
    by (intros; by apply obj_call, good_event).
  assert (∀ A (m : ST E A), stable good_obj (on_world (T := FirmwareDownloadExecutor.t) (on_env m))) by (intros; apply obj_world; fine).
  assert (∀ t, stable good_obj (on_world (T := FirmwareDownloadExecutor.t) (on_db (FirmwareTaskOperator.QueryTask t))))
    by (intros; apply obj_world; fine).
  unfold FirmwareDownloadExecutor.GetTask, FirmwareDownloadExecutor.PerformResumeDownload, FirmwareDownloadExecutor.PerformDownload,
    FirmwareDownloadExecutor.IsNeedResumeDownload.
  pose proof (@obj_this FirmwareDownloadExecutor.t). pose proof (@obj_set FirmwareDownloadExecutor.t). fine.
Qed.

(** *** The installation *)
Section install.
Context (installType_ : InstallType) (HC : C Installing).
#[local] Notation Obj := (FirmwareInstallExecutor.t * State)%type.
#[local] Notation good_obj := (good_obj (T := FirmwareInstallExecutor.t)).
#[local] Notation HandleProgress := (FirmwareInstallExecutor.HandleInstallProgress installType_ (Some OnInstallCallback)).
#[local] Notation HandleResult := (FirmwareInstallExecutor.HandleInstallResult installType_ (Some OnInstallCallback)).

Lemma wp_world_fine {A} (m : ST (World R E) A) (y : Obj) (Q : A → Obj → Prop) :
  fine m → good_obj y → (∀ a w', good_obj (y.1, (y.2.1, w')) → Q a (y.1, (y.2.1, w'))) → wp (on_world m) y Q.
Proof.
  intros Hm [Hs Hw] HQ. apply wp_on_world. eapply wp_mono; [|by apply Hm]. intros a w' Hw'. apply HQ. by split.
Qed.
Lemma fine_task_status taskId st p :
  is_int32 st → is_int32 p → st ∈ install_statuses → fine (on_db (FirmwareTaskOperator.UpdateProgressByTaskId taskId st p)).
Proof.
  intros Hst Hp Hin. eapply fine_task_update; [done|by apply task_UpdateProgress|done|]. intros t. right. exists Installing.
  split; [done|]. cbn [changes]. by rewrite bool_decide_true.
Qed.
Lemma result_status_known r st :
  is_int32 (FirmwareInstallExecutor.result_status installType_ r st) ∧ FirmwareInstallExecutor.result_status installType_ r st ∈ install_statuses.
Proof. unfold FirmwareInstallExecutor.result_status. repeat case_if; (split; apply (bool_decide_unpack _); vm_compute; exact I). Qed.
Lemma start_status_known :
  is_int32 (FirmwareInstallExecutor.start_status installType_) ∧ FirmwareInstallExecutor.start_status installType_ ∈ install_statuses.
Proof.
  unfold FirmwareInstallExecutor.start_status, FirmwareInstallExecutor.is_live, FirmwareInstallExecutor.is_stream.
  destruct installType_; split; apply (bool_decide_unpack _); vm_compute; exact I.
Qed.
Lemma obj_install_call info : stable good_obj (call (T := FirmwareInstallExecutor.t) (Some OnInstallCallback) info).
Proof. apply obj_call, good_install. Qed.
Lemma obj_progress_handled c : Component.wf c → stable good_obj (HandleProgress c).
Proof.
  intros Hc y Hy. pose proof obj_install_call as Hcall. unfold FirmwareInstallExecutor.HandleInstallProgress.
  apply wp_bind, wp_world_fine; [|exact Hy|].
  { eapply fine_component_update; [done|apply component_UpdateProgressByUrl; apply Hc|done]. }
  intros a w1 Hy1. do 3 wp_part. wp_part. wp_part. apply wp_bind. destruct (FirmwareInstallExecutor.is_stream installType_).
  - apply wp_world_fine; [|done|].
    { eapply fine_component_update; [done|apply component_UpdateRecordPointByUrl|done]. }
    intros a' w2 Hy2. wp_part. wp_part. by apply Hcall.
  - wp_part. wp_part. apply wp_world_fine; [|done|].
    { apply fine_task_status; [by apply is_int32_closed|apply to_int32_range|apply (bool_decide_unpack _); vm_compute; exact I]. }
    intros a' w2 Hy2. wp_part. wp_part. by apply Hcall.
Qed.
Lemma obj_result_handled r em st : stable good_obj (HandleResult r em st).
Proof.
  intros y Hy. pose proof obj_install_call as Hcall. unfold FirmwareInstallExecutor.HandleInstallResult.
  do 8 wp_part. apply wp_bind, wp_world_fine; [|exact Hy|].
  { destruct (result_status_known r st). apply fine_task_status; [done|apply to_int32_range|done]. }
  intros a w1 Hy1. wp_parts. by apply Hcall.
Qed.

#[local] Notation cbs := (FirmwareInstallExecutor.callbacks (R := R) (E := E) installType_ (Some OnInstallCallback)).
#[local] Instance good_steady : Steady cbs Component.wf good_obj.
Proof.
  assert (∀ A (m : ST Obj A), stable good_obj m → keeps good_obj (outer m)) as Hout.
  { intros A m Hm. apply keeps_outer. intros y Hy. exact (Hm y Hy). }
  assert (∀ A (m : ST E A), keeps good_obj (outer (on_world (on_env m)))) as Henv by (intros; apply Hout, obj_world; fine).
  split; try (intros; apply Henv).
  - split; [intros [] st p (?&?&?&?&?&?&?&?&?&?) ??; by split_and!|apply Henv|].
    intros f c [= <-] Hc. by apply Hout, obj_progress_handled.
  - intros [] st p n (?&?&?&?&?&?&?&?&?&?) ? Hp ?. split_and!; try done. destruct Hp as [|Hp]; [done|by cbn in *; subst].
  - intros l. apply Hout. intros y Hy. exact Hy.
  - intros u y [Hs (ts & cs & e & o & Hw & Hst)].
    enough (wp (query_by_url u) y.2 (λ c y', Component.wf c ∧ good_obj y')) as Hq.
    { unfold wp in Hq. unfold eval, exec, outer in *. by destruct (query_by_url u y.2). }
    pose proof (at_state_wf _ _ _ _ _ Hw) as [_ Hcs]. cbn [query_by_url FirmwareInstallExecutor.store]. do 3 wp_part.
    pose proof (found_wf (FirmwareComponent.default false) (url_is u) cs ltac:(by split_and!; vm_compute) Hcs) as Hf.
    destruct (found _ _ _) as [ok c]. wp_parts. split; [exact Hf|]. split; [done|]. do 4 eexists. by split.
  - intros f st' [= <-]. apply Hout. apply stable_bind; [apply obj_this|]. intros t. apply obj_world. fine.
Qed.
Lemma good_DoInstall ind : stable good (object FirmwareInstallExecutor.new
  (FirmwareInstallExecutor.DoInstall installType_ (Some OnInstallCallback) ind)).
Proof.
  unfold FirmwareInstallExecutor.DoInstall. apply (good_read_all FirmwareInstallExecutor.components_); [done|]. intros l Hl.
  destruct start_status_known as [Hst Hin]. pose proof obj_install_call as Hcall. intros y Hy. wp_part. wp_part.
  destruct l as [|c l].
  { wp_parts. eapply wp_mono; [|by apply Hcall]. intros ? y' Hy'. by apply wp_ret. } set (l0 := c :: l) in *. clearbody l0.
  set (K := λ y : Obj, good_obj y ∧ FirmwareInstallExecutor.components_ y.1 = l0).
  assert (K ((FirmwareInstallExecutor.set_components l0 y.1), y.2)) as Hk by by split.
  assert (∀ A (m : ST (World R E) A), fine m → stable K (on_world m)) as Hworld.
  { intros A m Hm y' [Hy' Hl']. apply wp_world_fine; [done|done|]. by split. }
  assert (stable K FirmwareInstallExecutor.GetTask) as Hget.
  { unfold FirmwareInstallExecutor.GetTask. apply stable_bind; [by intros y' Hy'|]. intros t. apply stable_if; [|apply stable_ret].
    apply stable_bind; [apply Hworld; fine|]. intros t'. intros y' [Hy' Hl']. by apply wp_set_this. }
  apply wp_bind. eapply wp_mono; [|by apply Hget]. intros ? y1 Hy1. apply wp_bind, wp_this.
  apply wp_bind. eapply wp_mono; [|apply (Hworld _ _ (fine_task_status _ _ _ Hst (to_int32_range _) Hin)), Hy1]. intros ? y2 Hy2.
  apply wp_bind. eapply wp_mono; [|apply (stable_for_each K); [|exact Hy2]].
  - intros ? y3 [Hy3 Hl3]. unfold FirmwareInstallExecutor.StartInstall. apply wp_bind, wp_this. rewrite Hl3.
    destruct (install_event cbs Component.wf good_obj installType_ ind l0 y3) as (y4 & r & em & st & Hy4 & _ & _ & Hlate); [done|done|].
    apply (Hlate good_obj _). by apply obj_result_handled.
  - intros c'. apply stable_bind; [|intros; apply stable_ret]. apply Hworld.
    eapply fine_component_update; [done|by apply component_UpdateProgressByUrl|done].
Qed.
End install.

Lemma good_run ind ex : permitted C (step_of ex) → stable good (run ind ex).
Proof.
  destruct ex; cbn [step_of permitted run]; intros HC.
  - apply stable_bind; [by apply good_DoCheck|intros; apply stable_ret].
  - by apply good_DoDownload.
  - apply stable_bind; [by apply good_DoInstall|]. intros l. apply stable_bind; [|intros; apply stable_ret].
    intros s [[[? ?] ?] ?]. by apply wp_set_own.
  - apply stable_bind; [apply good_DoApply|intros; apply stable_ret].
Qed.
(** Whatever happens to a flow. *)
Lemma good_handle ev : stable good (handle ev).
Proof.
  destruct ev as [ind|taskId p|n]; cbn [handle]; intros s Hs; apply wp_bind, wp_own_.
  - destruct (submitted_ s.1) as [|ex l] eqn:Hl; [by apply wp_ret|].
    destruct Hs as [[[Hp He] Hn] Hw]. rewrite Hl in Hp. apply Forall_cons in Hp as [Hex Hp].
    apply wp_bind, wp_set_own. apply good_run; [done|]. by split.
  - destruct (listening s.1) eqn:Hlive; [|by apply wp_bind, wp_ret, wp_ret].
    apply wp_bind. eapply wp_mono; [|apply good_object; [|exact Hs]]; [by intros; apply wp_ret|]. apply obj_progress.
    unfold listening in Hlive. apply andb_true_iff in Hlive as [_ Hlive].
    destruct (executor_ s.1) as [[]|] eqn:Hex; try done. destruct Hs as [[[_ He] _] _]. exact (He _ Hex).
  - apply wp_bind. case_bool_decide; [apply wp_set_own|]; apply wp_ret, Hs.
Qed.
End flow.

(** ** The firmware service as a whole *)

(** What the flow of a mode may do. *)
Definition flow_causes (f : AnyFlow) : list Cause :=
  match f with
  | CheckFlow _ => [Answer]
  | DownloadFlow _ => [Transfer]
  | InstallFlow _ | StreamFlow _ => [Installing]
  | AutoFlow _ => [Answer; Transfer]
  end.

Module FirmwareSystem.
Section ops.
Context {R E : Type} `{Rdb R, Platform E, Sha256, Downloads E, Preferences E, Subscribers E, !InstallKits E, DownloadTasks E, CheckKits E,
  CheckCache E, RebootKits E, !ServiceKits E, UpgradeAlarms E, DeviceKits E, AbilityKits E, FileSystem E, TriggerCache E, NetEvents E}.
#[local] Notation Service := (ST (Flows * World R E)).

(** What happens next: a request of a client, an event of the device, a restart of the
    service's process, or something that happens to one of the flows that were made. *)
Inductive Label :=
  | CheckNewVersion (before during : list UpdateServiceImplFirmware.Arrival) (checkComplete : bool)
      (businessError : BusinessError.t) (checkResult : CheckResult.t)
  | Download (options : DownloadOptions.t) (businessError : BusinessError.t)
  | ResumeDownload (options : ResumeDownloadOptions.t) (businessError : BusinessError.t)
  | Upgrade (options : UpgradeOptions.t) (businessError : BusinessError.t)
  | ClearError (businessError : BusinessError.t)
  | TerminateUpgrade (businessError : BusinessError.t)
  | Cancel (businessError : BusinessError.t)
  | SetUpgradePolicy (policy : UpgradePolicy.t) (businessError : BusinessError.t)
  | GetTaskInfo (taskInfo : TaskInfo.t) (businessError : BusinessError.t)
  | DeviceEvent (event : CommonEventType)
  | Restart (startupReason : Z)
  | FlowEvent (i : nat) (event : FirmwareFlowManager.Event).

(** The [i]-th flow that was made. *)
Definition on_flow {M} `{!FirmwareIExecuteMode.t R E M} (wrap : FirmwareFlowManager.t M → AnyFlow) (event : FirmwareFlowManager.Event)
    (flow : FirmwareFlowManager.t M) : ST (World R E) AnyFlow := λ w,
  let s := exec (FirmwareFlowManager.handle event) (flow, w) in (wrap s.1, s.2).
Definition handle_any (event : FirmwareFlowManager.Event) (flow : AnyFlow) : ST (World R E) AnyFlow :=
  match flow with
  | CheckFlow flow => on_flow CheckFlow event flow
  | DownloadFlow flow => on_flow DownloadFlow event flow
  | InstallFlow flow => on_flow InstallFlow event flow
  | StreamFlow flow => on_flow StreamFlow event flow
  | AutoFlow flow => on_flow AutoFlow event flow
  end.
Definition handle_flow (i : nat) (event : FirmwareFlowManager.Event) : Service unit :=
  let* flows := own_ (λ flows, flows) in
  match flows !! i with
  | None => ret tt
  | Some flow =>
      let* flow := env_ (handle_any event flow) in
      set_own (λ flows, <[i := flow]> flows)
  end.
(** The flows end with the process. *)
Definition restart (startupReason : Z) : Service unit :=
  set_own (λ _, []) ;;;
  FirmwareService.DelayInit startupReason ;;; ret tt.

Definition step (l : Label) : Service unit :=
  match l with
  | CheckNewVersion before during checkComplete businessError checkResult =>
      UpdateServiceImplFirmware.CheckNewVersion before during checkComplete businessError checkResult ;;; ret tt
  | Download options businessError => UpdateServiceImplFirmware.Download options businessError ;;; ret tt
  | ResumeDownload options businessError => UpdateServiceImplFirmware.ResumeDownload options businessError ;;; ret tt
  | Upgrade options businessError => UpdateServiceImplFirmware.Upgrade options businessError ;;; ret tt
  | ClearError businessError => env_ (UpdateServiceImplFirmware.ClearError businessError) ;;; ret tt
  | TerminateUpgrade businessError => env_ (UpdateServiceImplFirmware.TerminateUpgrade businessError) ;;; ret tt
  | Cancel businessError => env_ (UpdateServiceImplFirmware.Cancel businessError) ;;; ret tt
  | SetUpgradePolicy policy businessError => env_ (UpdateServiceImplFirmware.SetUpgradePolicy policy businessError) ;;; ret tt
  | GetTaskInfo taskInfo businessError => env_ (UpdateServiceImplFirmware.GetTaskInfo taskInfo businessError) ;;; ret tt
  | DeviceEvent event => FirmwareEventManager.HandleEvent event ;;; ret tt
  | Restart startupReason => restart startupReason
  | FlowEvent i event => handle_flow i event
  end.
End ops.

(** The causes of what happens. *)
Definition causes (flows : Flows) (l : Label) : list Cause :=
  match l with
  | Upgrade _ _ => [Installing]
  | ClearError _ => [Cleared]
  | Cancel _ => [Cancelled]
  | DeviceEvent BOOT_COMPLETE => [Booted]
  | DeviceEvent NIGHT_UPGRADE => [Installing]
  | Restart _ => [Restarted; Installing; Booted]
  | FlowEvent i _ => match flows !! i with None => [] | Some flow => flow_causes flow end
  | _ => []
  end.
(** Options are 32-bit numbers. *)
Definition wf_label (l : Label) : Prop :=
  match l with
  | Download options _ => is_int32 (DownloadOptions.allowNetwork options) ∧ is_int32 (DownloadOptions.order options)
  | ResumeDownload options _ => is_int32 (ResumeDownloadOptions.allowNetwork options)
  | _ => True
  end.
End FirmwareSystem.

Section system.
Import FirmwareSystem.
Context {R E : Type} `{RdbLaws R, Platform E, Sha256, Downloads E, Preferences E, Subscribers E, !InstallKits E, DownloadTasks E, CheckKits E,
  CheckCache E, RebootKits E, !ServiceKits E, UpgradeAlarms E, DeviceKits E, AbilityKits E, FileSystem E, TriggerCache E, NetEvents E}.
Implicit Types (s : Flows * World R E).
Context `{!CheckKitsLaws E}.

Definition flow_ok (f : AnyFlow) : Prop :=
  let C c := c ∈ flow_causes f in
  match f with
  | CheckFlow flow => started C flow
  | DownloadFlow flow => started C flow
  | InstallFlow flow => started C flow
  | StreamFlow flow => started C flow
  | AutoFlow flow => started C flow
  end.

Section step.
Context (C : Cause → Prop) (x : Stored) (Hx : coherent x).
#[local] Notation fine := (stable (Inv (R := R) (E := E) C x)).
Definition sound s : Prop := Forall flow_ok s.1 ∧ Inv C x s.2.

Lemma sound_env {A} (m : ST (World R E) A) : fine m → stable sound (env_ m).
Proof. intros Hm s [Hs Hw]. apply wp_env_. eapply wp_mono; [|by apply Hm]. intros a w' Hw'. by split. Qed.

(** A flow is started: its first step moves the store by [C] only, and what it may do later
    is what its mode may do, [P]. *)
Lemma sound_start {M} `{!FirmwareIExecuteMode.t R E M} (P : Cause → Prop) (wrap : FirmwareFlowManager.t M → AnyFlow) (m : M) :
  Respectful R E M P x → (∀ f, started P f → flow_ok (wrap f)) →
  (∀ m, fine (FirmwareIExecuteMode.HandleComplete (R := R) (E := E) (M := M) m)) →
  fine (FirmwareIExecuteMode.GetNextStep m STEP_INIT) → stable sound (FirmwareManager.start (R := R) (E := E) wrap m).
Proof.
  intros Hr Hok Hcomplete Hfirst s [Hs Hw]. unfold wp, exec, FirmwareManager.start. cbn [snd].
  assert (wp (FirmwareFlowManager.SetExecuteMode m ;;; FirmwareFlowManager.Start) (FirmwareFlowManager.new, s.2)
             (λ _ y, good (R := R) (E := E) P C x y)) as Hg.
  { apply wp_bind, wp_set_own. unfold FirmwareFlowManager.Start. apply wp_bind, wp_own_. cbn [fst snd FirmwareFlowManager.executeMode_ FirmwareFlowManager.set_mode].
    eapply wp_Execute_good; [done|apply next_permitted|done|split; [constructor|done]|done|right; split; [by eexists|done]|].
    intros m' [= <-]. exact Hfirst. }
  unfold wp, exec in Hg. destruct Hg as [Hst Hw']. split; [|exact Hw']. cbn [fst]. apply Forall_app. split; [done|]. by repeat constructor; apply Hok.
Qed.
Lemma sound_check : stable sound (FirmwareManager.start CheckFlow FirmwareManualCheckMode.new).
Proof.
  eapply sound_start; [apply (manual_respectful (λ c, c ∈ [Answer])); [done|set_solver]|done| |apply manual_first; done].
  intros m. cbn. unfold FirmwareManualCheckMode.HandleComplete. fine.
Qed.
Lemma sound_download m : stable sound (FirmwareManager.start DownloadFlow m).
Proof.
  eapply sound_start; [apply (download_respectful (λ c, c ∈ [Transfer])); [done|set_solver]|done| |apply download_first; done].
  intros m'. cbn. fine.
Qed.
Lemma sound_auto m : stable sound (FirmwareManager.start AutoFlow m).
Proof.
  eapply sound_start; [apply (auto_respectful (λ c, c ∈ [Answer; Transfer])); [done|set_solver..]|done| |apply auto_first; done].
  intros m'. cbn. fine.
Qed.
Lemma sound_install opts be type : C Installing → stable sound (FirmwareManager.start InstallFlow (FirmwareInstallApplyMode.new opts be type)).
Proof.
  intros HC.
  eapply sound_start; [apply (install_respectful (λ c, c ∈ [Installing])); [done|set_solver]|done| |by apply install_first].
  intros m'. cbn. fine.
Qed.
Lemma sound_stream m : stable sound (FirmwareManager.start StreamFlow m).
Proof.
  eapply sound_start; [apply (stream_respectful (λ c, c ∈ [Installing])); [done|set_solver]|done| |].
  - intros m'. cbn. fine.
  - cbn. unfold FirmwareStreamInstallApplyMode.GetNextStep. pose proof (stream_first C x Hx). fine.
Qed.

(** *** The requests *)
Lemma fine_task_option m upd taskId :
  updates (R := R) m (task_is taskId) upd → (∀ t, same_task t (upd t)) → fine (on_db m).
Proof. intros Hu Hs. eapply fine_task_update; [done|exact Hu|apply Hs|]. intros t. left. apply Hs. Qed.
Lemma fine_is_stream : fine FirmwareUpdateHelper.IsStreamUpgrade.
Proof. unfold FirmwareUpdateHelper.IsStreamUpgrade. fine. Qed.
Lemma fine_install_type : fine FirmwareUpdateHelper.GetInstallType.
Proof. pose proof fine_is_stream. unfold FirmwareUpdateHelper.GetInstallType. fine. Qed.
Lemma sound_DoDownload opts be : stable sound (FirmwareManager.DoDownload opts be).
Proof.
  unfold FirmwareManager.DoDownload. apply stable_bind.
  { apply sound_env. unfold FirmwareDownloadMode.new. fine. }
  intros m. apply stable_bind; [apply sound_download|]. intros m'. apply stable_ret.
Qed.
Lemma sound_DoInstall opts be type : C Installing → stable sound (FirmwareManager.DoInstall opts be type).
Proof.
  intros HC. pose proof fine_is_stream. pose proof fine_install_type. unfold FirmwareManager.DoInstall. apply stable_bind.
  { apply sound_env. unfold FirmwareManager.CanInstall. fine. }
  intros can. apply stable_if; [apply stable_ret|]. apply stable_bind; [by apply sound_env|]. intros b. apply stable_if.
  - apply stable_bind; [apply sound_stream|]. intros. apply stable_ret.
  - apply stable_bind; [by apply sound_install|]. intros. apply stable_ret.
Qed.

Lemma inv_now ts cs (w : World R E) e o : at_state w ts cs e o → Inv C (ts, cs) w.
Proof. intros Hw. do 4 eexists. split; [exact Hw|constructor]. Qed.
Lemma inv_next ts cs ts' cs' (w : World R E) e o : at_state w ts' cs' e o → moves C (ts, cs) (ts', cs') → Inv C (ts, cs) w.
Proof. intros Hw Hm. do 4 eexists. split; [exact Hw|]. econstructor; [exact Hm|constructor]. Qed.
Lemma inv_from {A} (m : ST (World R E) A) :
  (∀ w ts cs e o, at_state w ts cs e o → coherent (ts, cs) → wp m w (λ _ w', Inv C (ts, cs) w')) → fine m.
Proof. intros Hm. by apply inv_at. Qed.
End step.

Section requests.
Context (C : Cause → Prop) (x : Stored) (Hx : coherent x).
#[local] Notation fine := (stable (Inv (R := R) (E := E) C x)).
(** A request finds no task, or one. *)
Ltac stored t cs :=
  match goal with H : coherent _ |- _ =>
    destruct (id H) as [[= -> ->]|(t & cs & [= -> ->] & _)] end; [no_task|one_task t].

Lemma fine_DoCancel be : C Cancelled → fine (FirmwareManager.DoCancel be).
Proof.
  intros HC. apply inv_from; [done|]. intros w ts cs e o Hw Hc. unfold FirmwareManager.DoCancel. wp_steps.
  stored t cs0; [by eapply inv_now|]. rewrite <- !negb_orb.
  destruct ((FirmwareTask.status t =? UpgradeStatus.DOWNLOADING) || (FirmwareTask.status t =? UpgradeStatus.DOWNLOAD_SUCCESS) ||
            (FirmwareTask.status t =? UpgradeStatus.DOWNLOAD_PAUSE)) eqn:Hst; cbn [negb]; [|wp_steps; by eapply inv_now].
  apply wp_bind, (wp_mono _ _ (λ _ w', ∃ e', at_state w' [t] cs0 e' o)).
  - intros be' w1 [e1 Hw1]. wp_step. wp_step.
    eapply wp_stable; [fine|]. eapply inv_next; [eassumption|]. apply moves_update; [done|done| |done].
    intros t' ->%list_elem_of_singleton. right. exists Cancelled. split; [done|]. cbn [changes]. by rewrite Hst.
  - case_if; wp_steps; by eexists.
Qed.
Lemma fine_Cancel be : C Cancelled → fine (UpdateServiceImplFirmware.Cancel be).
Proof.
  intros HC. unfold UpdateServiceImplFirmware.Cancel. pose proof (λ be, fine_DoCancel be HC).
  assert (fine FirmwareUpdateHelper.IsStreamUpgrade) by by apply fine_is_stream. fine.
Qed.
Lemma fine_DoClearError be : C Cleared → fine (FirmwareManager.DoClearError be).
Proof.
  intros HC. apply inv_from; [done|]. intros w ts cs e o Hw Hc. unfold FirmwareManager.DoClearError. wp_steps.
  stored t cs0; [by eapply inv_now|].
  destruct (FirmwareUpdateHelper.IsUpgradeFailed (FirmwareTask.status t)) eqn:Hf; cbn [negb]; wp_steps; [|by eapply inv_now].
  eapply wp_ClearFirmwareInfo; [eassumption|]. intros w2 Hw2. wp_steps. eapply inv_next; [exact Hw2|].
  right. exists Cleared. split; [done|]. by constructor.
Qed.
Lemma fine_policy policy be : fine (UpdateServiceImplFirmware.SetUpgradePolicy policy be).
Proof.
  unfold UpdateServiceImplFirmware.SetUpgradePolicy, FirmwareManager.DoAutoUpgradeSwitchChanged, FirmwareManager.DoAutoDownloadSwitchChanged. fine.
Qed.
Lemma fine_task_info i be : fine (UpdateServiceImplFirmware.GetTaskInfo i be).
Proof. unfold UpdateServiceImplFirmware.GetTaskInfo. fine. Qed.
Lemma fine_terminate be : fine (UpdateServiceImplFirmware.TerminateUpgrade be).
Proof. unfold UpdateServiceImplFirmware.TerminateUpgrade, FirmwareManager.DoTerminateUpgrade. fine. Qed.

Lemma sound_Download opts be :
  is_int32 (DownloadOptions.allowNetwork opts) → is_int32 (DownloadOptions.order opts) →
  stable (sound C x) (UpdateServiceImplFirmware.Download opts be).
Proof.
  intros Hn Ho. unfold UpdateServiceImplFirmware.Download. apply stable_bind; [apply sound_env; fine|]. intros b.
  apply stable_if; [apply stable_ret|]. apply stable_bind; [apply sound_env; fine|]. intros t. apply stable_if; [apply stable_ret|].
  apply stable_bind; [|intros; by apply sound_DoDownload]. apply sound_env. eapply fine_task_option; [done|eauto 3 with store|done].
Qed.
Lemma sound_Upgrade opts be : C Installing → stable (sound C x) (UpdateServiceImplFirmware.Upgrade opts be).
Proof.
  intros HC. unfold UpdateServiceImplFirmware.Upgrade. apply stable_bind; [apply sound_env; fine|]. intros b.
  apply stable_if; [apply stable_ret|]. apply stable_bind; [apply sound_env; fine|]. intros t.
  apply stable_bind; [|intros; apply stable_bind; [apply sound_env; by apply fine_install_type|intros; by apply sound_DoInstall]].
  apply sound_env. eapply fine_task_option; [done|eauto 3 with store|done].
Qed.

(** *** The events *)
Lemma sound_resume t : stable (sound C x) (FirmwareEventManager.HandleResumeDownload t).
Proof.
  unfold FirmwareEventManager.HandleResumeDownload. apply stable_bind.
  { apply sound_env. unfold FirmwareDownloadMode.new. fine. }
  intros m. apply stable_bind; [by apply sound_download|]. intros. apply stable_ret.
Qed.
Lemma sound_net : stable (sound C x) FirmwareEventManager.HandleNetChanged.
Proof.
  pose proof sound_resume. unfold FirmwareEventManager.HandleNetChanged, FirmwareEventManager.DoAutoDownload.
  apply stable_bind; [apply sound_env; fine|]. intros t. apply stable_if; [apply stable_ret|].
  apply stable_bind; [apply sound_env; fine|]. intros b. apply stable_if; [apply stable_ret|]. apply stable_if; [done|].
  apply stable_if; [|apply stable_ret]. apply stable_bind; [apply sound_env; fine|]. intros d. apply stable_if; [done|apply stable_ret].
Qed.
Lemma sound_night : C Installing → stable (sound C x) FirmwareEventManager.HandleNightUpgrade.
Proof.
  intros HC. unfold FirmwareEventManager.HandleNightUpgrade, FirmwareEventManager.DoNightUpgrade.
  apply stable_bind; [apply sound_env; fine|]. intros b. apply stable_if; [apply stable_ret|].
  apply stable_bind; [apply sound_env; fine|]. intros t. do 2 (apply stable_if; [apply stable_ret|]).
  apply stable_bind; [apply sound_env; eapply fine_task_option; [done|eauto 3 with store|done]|]. intros _.
  apply stable_bind; [apply sound_env; by apply fine_install_type|]. intros type.
  apply stable_bind; [by apply sound_DoInstall|intros; apply stable_ret].
Qed.
Lemma sound_auto_upgrade ev : stable (sound C x) (FirmwareEventManager.DoAutoUpgrade ev).
Proof.
  unfold FirmwareEventManager.DoAutoUpgrade. apply stable_bind; [apply sound_env; fine|]. intros t.
  apply stable_if; [apply stable_ret|]. apply stable_bind; [by apply sound_auto|intros; apply stable_ret].
Qed.

Lemma removed_at_boot t cs : C Booted →
  FirmwareTask.status t = UpgradeStatus.UPDATING ∨ FirmwareTask.status t = UpgradeStatus.INSTALL_SUCCESS → moves C ([t], cs) ([], []).
Proof. intros HC Hst. right. exists Booted. split; [done|]. constructor. cbn [removes]. by destruct Hst as [-> | ->]. Qed.
Lemma fine_boot : C Booted → fine FirmwareEventManager.HandleBootComplete.
Proof.
  intros HC. apply inv_from; [done|]. intros w ts cs e o Hw Hc. unfold FirmwareEventManager.HandleBootComplete. wp_steps.
  stored t cs0; [by eapply inv_now|].
  assert (∀ task w1 e1 o1, FirmwareTask.status t = UpgradeStatus.UPDATING ∨ FirmwareTask.status t = UpgradeStatus.INSTALL_SUCCESS →
    at_state w1 [t] cs0 e1 o1 → wp (FirmwareEventManager.HandleBootUpdateSuccess task) w1 (λ _ w', Inv C ([t], cs0) w')) as Hsuccess.
  { intros task w1 e1 o1 Hst Hw1. eapply wp_HandleBootUpdateSuccess; [exact Hw1|]. cbv zeta. intros w2 Hw2.
    destruct (FirmwareTask.combinationType task =? CombinationType.HOTA); [|by eapply inv_now].
    eapply inv_next; [exact Hw2|]. by apply removed_at_boot. }
  destruct (FirmwareTask.status t =? UpgradeStatus.UPDATING) eqn:Hst; [|destruct (FirmwareTask.status t =? UpgradeStatus.INSTALL_SUCCESS) eqn:Hst'].
  - apply Z.eqb_eq in Hst. wp_steps. unfold FirmwareEventManager.HandleBootUpdateOnStatusProcess. wp_steps.
    eapply wp_GetUpdaterResult; [eassumption|]. intros w2 m Hw2 _. destruct (updated cs0 m); cbv iota.
    + apply wp_bind. eapply wp_mono; [|eapply Hsuccess; [by left|exact Hw2]]. intros ? w3 Hw3. by apply wp_ret.
    + unfold FirmwareEventManager.HandleBootUpdateFail. wp_steps. eapply wp_ClearFirmwareInfo; [eassumption|]. intros w3 Hw3.
      wp_steps. eapply inv_next; [exact Hw3|]. apply removed_at_boot; auto.
  - apply Z.eqb_eq in Hst'. wp_steps. eapply wp_mono; [|eapply Hsuccess; [by right|eassumption]]. intros ? w3 Hw3. by apply wp_ret.
  - wp_steps. by eapply inv_now.
Qed.
Lemma sound_event ev :
  (ev = BOOT_COMPLETE → C Booted) → (ev = NIGHT_UPGRADE → C Installing) → stable (sound C x) (FirmwareEventManager.HandleEvent ev).
Proof.
  intros Hb Hn. unfold FirmwareEventManager.HandleEvent. apply stable_bind; [apply sound_env; fine|]. intros _.
  pose proof sound_auto_upgrade. pose proof sound_net.
  destruct ev; cbn [FirmwareEventManager.DistributeEventBusiness]; try apply stable_ret.
  - apply stable_bind; [done|intros; apply stable_ret].
  - apply stable_bind; [done|intros; apply stable_ret].
  - apply sound_env. by apply fine_boot, Hb.
  - apply stable_bind; [by apply sound_night, Hn|intros; apply stable_ret].
Qed.

(** *** The restart *)
Lemma rolled_back_versions f b cs : same_versions cs (update_where f (component_rolled_back b) cs).
Proof. apply update_where_versions. intros c. by destruct b. Qed.
Lemma restored_moves t upd cs cs' :
  C Restarted → changes Restarted (FirmwareTask.status t) (FirmwareTask.status (upd t)) = true →
  FirmwareTask.taskId (upd t) = FirmwareTask.taskId t → same_versions cs cs' →
  moves C ([t], cs) (update_where (task_is (FirmwareTask.taskId t)) upd [t], cs').
Proof.
  intros HC Hch Hid Hv. unfold update_where, task_is. cbn. rewrite String.eqb_refl. right. exists Restarted. split; [done|]. by constructor.
Qed.
Lemma fine_boot_download t (w : World R E) cs e o :
  C Restarted → FirmwareTask.status t = UpgradeStatus.DOWNLOADING → at_state w [t] cs e o →
  wp (FirmwareManager.HandleBootDownloadOnStatusProcess (FirmwareTaskOperator.set_isExistTask true t)) w (λ _ w', Inv C ([t], cs) w').
Proof.
  intros HC Hst Hw. unfold FirmwareManager.HandleBootDownloadOnStatusProcess. wp_steps. eapply inv_next; [eassumption|].
  apply (restored_moves t); [done| |done|done]. by rewrite Hst.
Qed.
Lemma fine_roll_back t (w : World R E) cs e o :
  C Restarted → FirmwareTask.status t = UpgradeStatus.INSTALLING → at_state w [t] cs e o →
  wp (FirmwareManager.roll_back (FirmwareTaskOperator.set_isExistTask true t)) w (λ _ w', Inv C ([t], cs) w').
Proof.
  intros HC Hst Hw. eapply wp_roll_back; [exact Hw|]. intros w' Hw'. eapply inv_next; [exact Hw'|].
  apply (restored_moves t); [done| | |apply rolled_back_versions]; rewrite ?Hst; unfold task_rolled_back; by case_if.
Qed.
Lemma sound_restore : C Restarted → C Installing → stable (sound C x) FirmwareManager.RestoreUpdate.
Proof.
  intros HC HI s [Hs (ts & cs & e & o & Hw & Hst)]. unfold FirmwareManager.RestoreUpdate. apply wp_bind, wp_env_. wp_step.
  assert (coherent (ts, cs)) as Hc by by eapply star_coherent.
  assert (∀ w' : World R E, Inv C (ts, cs) w' → sound C x (s.1, w')) as Hnext.
  { intros w1 (ts' & cs' & e' & o' & Hw1 & Hst'). split; [done|]. do 4 eexists. split; [exact Hw1|]. by eapply star_trans. }
  stored t cs0; [apply Hnext; by eapply inv_now|].
  destruct (FirmwareTask.status t =? UpgradeStatus.DOWNLOADING) eqn:H1s; [|destruct (_ =? UpgradeStatus.DOWNLOAD_SUCCESS);
    [|destruct (FirmwareTask.status t =? UpgradeStatus.INSTALLING) eqn:H2s]].
  - apply Z.eqb_eq in H1s. apply wp_env_. eapply wp_mono; [|by eapply fine_boot_download]. intros ? w1 Hw1. by apply Hnext.
  - apply wp_env_. unfold FirmwareManager.HandleBootDownloadedStatusProcess. wp_steps. case_if; wp_steps; apply Hnext; by eapply inv_now.
  - apply Z.eqb_eq in H2s. unfold FirmwareManager.HandleBootInstallOnStatusProcess. apply wp_bind, wp_env_.
    eapply wp_mono; [|by eapply fine_roll_back]. intros ? w1 Hw1. cbn [fst snd]. eapply wp_stable; [|by apply Hnext].
    apply stable_bind; [apply sound_env; by apply fine_install_type|]. intros type.
    apply stable_bind; [by apply sound_DoInstall|intros; apply stable_ret].
  - apply wp_ret. apply Hnext. by eapply inv_now.
Qed.
Lemma sound_delay_init reason : C Restarted → C Installing → C Booted → stable (sound C x) (FirmwareService.DelayInit reason).
Proof.
  intros HC HI HB. unfold FirmwareService.DelayInit. apply stable_bind; [by apply sound_restore|]. intros _.
  apply stable_bind; [apply sound_env; fine|]. intros _.
  apply stable_bind; [apply sound_env; unfold FirmwareManager.NotifyInitEvent; fine|]. intros _. by apply sound_event.
Qed.

(** The options a download resumes with are those of the stored task. *)
Lemma queried_wf ts : Forall Task.wf ts → Task.wf (queried FirmwareTask.default ts).
Proof.
  intros Hts. destruct ts as [|t ts]; [apply (bool_decide_unpack _); by vm_compute|]. apply Forall_cons in Hts as [Ht _].
  destruct Ht as (?&?&?&?&?&?&?&?&?&?). by split_and!.
Qed.
Lemma sound_Resume opts be :
  is_int32 (ResumeDownloadOptions.allowNetwork opts) → stable (sound C x) (UpdateServiceImplFirmware.ResumeDownload opts be).
Proof.
  intros Hn s [Hs (ts & cs & e & o & Hw & Hst)]. unfold UpdateServiceImplFirmware.ResumeDownload. apply wp_bind, wp_env_.
  pose proof (queried_wf _ (proj1 (at_state_wf _ _ _ _ _ Hw))) as Hwf. wp_step.
  assert (sound C x (s.1, w')) as Hsound by (split; [done|]; do 4 eexists; by split).
  set (task := queried FirmwareTask.default ts) in *. clearbody task. case_if; [by apply wp_ret|].
  eapply wp_stable; [|exact Hsound]. apply stable_bind; [|intros; by apply sound_DoDownload]. apply sound_env.
  assert (is_int32 (FirmwareTask.upgradeOrder task)) by apply Hwf. eapply fine_task_option; [done|eauto 3 with store|done].
Qed.
Lemma sound_handle ev f (w : World R E) :
  flow_ok f → Inv (λ c, c ∈ flow_causes f) x w →
  wp (handle_any ev f) w (λ f' w', flow_ok f' ∧ Inv (λ c, c ∈ flow_causes f) x w').
Proof.
  destruct f as [f|f|f|f|f]; cbn [flow_ok flow_causes handle_any]; intros Hf Hw; unfold on_flow, wp, eval, exec; cbn [fst snd].
  - refine (good_handle (M := FirmwareManualCheckMode.t) _ x Hx (Respectful0 := manual_respectful _ x Hx _) ev (f, w) (conj Hf Hw)). set_solver.
  - refine (good_handle (M := FirmwareDownloadMode.t) _ x Hx (Respectful0 := download_respectful _ x Hx _) ev (f, w) (conj Hf Hw)). set_solver.
  - refine (good_handle (M := FirmwareInstallApplyMode.t) _ x Hx (Respectful0 := install_respectful _ x Hx _) ev (f, w) (conj Hf Hw)). set_solver.
  - refine (good_handle (M := FirmwareStreamInstallApplyMode.t) _ x Hx (Respectful0 := stream_respectful _ x Hx _) ev (f, w) (conj Hf Hw)). set_solver.
  - refine (good_handle (M := FirmwareAutoUpgradeMode.t) _ x Hx (Respectful0 := auto_respectful _ x Hx _ _) ev (f, w) (conj Hf Hw)); set_solver.
Qed.
End requests.

(** Each step respects the table. *)
Lemma sound_step l x s :
  wf_label l → coherent x → sound (λ c, c ∈ causes s.1 l) x s → wp (step l) s (λ _ s', sound (λ c, c ∈ causes s.1 l) x s').
Proof.
  intros Hl Hx Hs. set (C := λ c, c ∈ causes s.1 l) in *.
  assert (∀ {A} (m : ST (Flows * World R E) A), stable (sound C x) m → wp (m ;;; ret tt) s (λ _ s', sound C x s')) as Hdone.
  { intros A m Hm. apply wp_bind. eapply wp_mono; [|by apply Hm]. intros a s' Hs'. by apply wp_ret. }
  destruct l as [before during cc be r|opts be|opts be|opts be|be|be|be|policy be|i be|ev|reason|i ev]; cbn [step].
  - apply Hdone. apply stable_bind; [|intros; apply stable_ret]. apply stable_bind; [by apply sound_check|intros; apply stable_ret].
  - destruct Hl. apply Hdone. by apply sound_Download.
  - apply Hdone. by apply sound_Resume.
  - apply Hdone. apply sound_Upgrade; [done|]. set_solver.
  - apply Hdone. apply sound_env, fine_DoClearError; [done|]. set_solver.
  - apply Hdone. apply sound_env. by apply fine_terminate.
  - apply Hdone. apply sound_env, fine_Cancel; [done|]. set_solver.
  - apply Hdone. apply sound_env. by apply fine_policy.
  - apply Hdone. apply sound_env. by apply fine_task_info.
  - apply Hdone. apply sound_event; [done|intros ->; set_solver..].
  - apply wp_bind, wp_set_own. apply (wp_stable (sound C x)).
    + apply stable_bind; [|intros; apply stable_ret]. apply sound_delay_init; [done|set_solver..].
    + split; [constructor|apply Hs].
  - unfold handle_flow. apply wp_bind, wp_own_. unfold causes in C. destruct (s.1 !! i) as [f|] eqn:Hf; [|by apply wp_ret].
    apply wp_bind, wp_env_. destruct Hs as [Hall Hw]. rewrite Forall_lookup in Hall.
    eapply wp_mono; [|by apply sound_handle; [|eapply Hall|]]. intros f' w' [Hf' Hw']. apply wp_set_own. split; [|done]. cbn [fst].
    apply Forall_insert; [by apply Forall_lookup|done].
Qed.

(** C2: In every run of the service - whatever clients request, whatever happens to the device,
    however often the process restarts, and however the executors, reports and ends of the
    flows interleave with all of that - there is at most one version stored, it is complete
    (its task is the one of its components) and its status is one of the life of a version;
    and whatever happens next changes its status or removes it only as the table of
    causes allows, and replaces it only as the answer of a check. *)
Theorem version_lifecycle ls l s ts cs e o :
  s.1 = [] → at_state s.2 ts cs e o → coherent (ts, cs) → Forall wf_label ls → wf_label l →
  wp (for_each ls step) s (λ _ s1, ∃ ts1 cs1 e1 o1,
    at_state s1.2 ts1 cs1 e1 o1 ∧ coherent (ts1, cs1) ∧
    wp (step l) s1 (λ _ s2, ∃ ts2 cs2 e2 o2,
      at_state s2.2 ts2 cs2 e2 o2 ∧ star (moves (λ c, c ∈ causes s1.1 l)) (ts1, cs1) (ts2, cs2))).
Proof.
  intros Hflows Hw Hc Hls Hl.
  set (J := λ s : Flows * World R E, Forall flow_ok s.1 ∧ ∃ ts cs e o, at_state s.2 ts cs e o ∧ coherent (ts, cs)).
  assert (∀ l s ts cs e o, wf_label l → Forall flow_ok s.1 → at_state s.2 ts cs e o → coherent (ts, cs) →
    wp (step l) s (λ _ s', Forall flow_ok s'.1 ∧ ∃ ts' cs' e' o', at_state s'.2 ts' cs' e' o' ∧
      star (moves (λ c, c ∈ causes s.1 l)) (ts, cs) (ts', cs'))) as Hstep.
  { intros l1 s1 ts1 cs1 e1 o1 Hl1 Hf1 Hw1 Hc1. apply (sound_step l1 (ts1, cs1) s1); [done|done|]. split; [done|by eapply inv_now]. }
  eapply (wp_mono _ _ (λ _ s1, J s1)).
  - intros _ s1 (Hf1 & ts1 & cs1 & e1 & o1 & Hw1 & Hc1). do 4 eexists. split; [exact Hw1|]. split; [exact Hc1|].
    eapply wp_mono; [|by eapply Hstep]. by intros ? s2 [_ Hs2].
  - assert (J s) as Hs by (split; [by rewrite Hflows|by do 4 eexists]). clear Hflows Hw Hc. revert s Hs.
    induction Hls as [|l1 ls Hl1 _ IH]; intros s Hs; [by apply wp_ret|]. cbn [for_each]. apply wp_bind.
    destruct Hs as (Hf1 & ts1 & cs1 & e1 & o1 & Hw1 & Hc1). eapply wp_mono; [|by eapply Hstep].
    intros ? s2 (Hf2 & ts2 & cs2 & e2 & o2 & Hw2 & Hs2). apply IH. split; [done|]. do 4 eexists. split; [exact Hw2|]. by eapply star_coherent.
Qed.

(** An answer leaves an upgrade alone: a version that is being downloaded or installed keeps
    its task, its status and its components whatever a check answers. *)
Lemma answers_touch t cs y :
  FirmwareTask.status t ∈ under_way_statuses → star (moves (λ c, c ∈ [Answer])) ([t], cs) y → touched ([t], cs) y.
Proof.
  intros Hst Hs. remember ([t], cs) as x eqn:Hx. revert t cs Hst Hx.
  induction Hs as [x|x y z Hm Hs IH]; intros t cs Hst ->; [apply touched_refl|].
  assert (removes Answer (FirmwareTask.status t) = false) as Hno by (cbn [removes]; by rewrite bool_decide_true).
  destruct Hm as [[Ht Hv]|(c & ->%list_elem_of_singleton & Hm)].
  - destruct y as [ts' cs']. cbn [fst snd] in *. apply Forall2_cons_inv_l in Ht as (t' & l & [Hi Hst'] & Hl & ->).
    apply Forall2_nil_inv_l in Hl as ->. destruct (IH t' cs') as [Ht2 Hv2]; [by rewrite Hst'|done|].
    destruct z as [ts2 cs2]. cbn [fst snd] in *. apply Forall2_cons_inv_l in Ht2 as (t2 & l & [Hi2 Hst2] & Hl & ->).
    apply Forall2_nil_inv_l in Hl as ->. split; cbn [fst snd]; [|by unfold same_versions in *; congruence].
    repeat constructor; congruence.
  - exfalso. inversion Hm as [t0 t' cs0 cs' Hch|t0 cs0 Hr|ts cs0 new cs' _ Hr]; subst; [done|congruence|].
    apply Forall_cons in Hr as [Hr _]. congruence.
Qed.
End system.

(** ** A sample run *)
Module SampleLife.
#[local] Instance trigger : TriggerCache SampleEnv.t := { IsDownloadTriggered := ret false; IsUpgradeTriggered := ret false }.
#[local] Instance net_events : NetEvents SampleEnv.t := { RegisterNetChangedListener := ret tt }.
#[local] Instance ability_kits : AbilityKits SampleEnv.t := {
  steady_seconds _ := 3600; StartServiceByTimer _ _ := ret 0; UpdateOnDemandPolicy _ := ret (Some 0);
  GetOnDemandPolicy _ := Some (0, []); UnloadSystemAbility := ret (Some 0)
}.
(** The answer of the server, and the request that gets it: any text stands for the answer. *)
Import SampleJson.
Definition answer : SampleJson.t :=
  let package := Object [("descriptPackageId", Text "p"); ("url", Text "http://server/p.zip"); ("size", Number (Finite 100 0));
    ("verifyInfo", Text "digest"); ("versionCode", Text "2"); ("versionName", Text "v2"); ("packageType", Number (Finite 1 0));
    ("otaType", Number (Finite 1 0))] in
  Object [("searchStatus", Number (Finite 0 0)); ("checkResults", Array [package]); ("descriptInfo", Array [])].
#[local] Instance server_json : CJson SampleJson.t := cjson (λ _, Some answer).
#[local] Instance server : CheckNet SampleEnv.t := {|
  OS_GetParameter _ _ v := v; socket := ret 3; inet_pton _ := 1; connect _ _ := ret 0; close _ := ret tt;
  SSL_CTX_new := ret true; SSL_new := ret true; SSL_connect _ := ret 1; SSL_write s := ret (Z.of_nat (len s));
  SSL_read _ := ret (2, ["{"%char; "}"%char]); beyond _ := []
|}.
#[local] Instance request : CheckKits SampleEnv.t := FirmwareICheck.kits false 0.
Import FirmwareSystem.
(** A device checks for a version. *)
Definition run : list Label := [CheckNewVersion [] [] false BusinessError.default CheckResult.default; FlowEvent 0 (FirmwareFlowManager.Turn 0)].
Lemma version_lifecycle_witness :
  let s1 := exec (for_each run step) ([], SampleEnv.world [] []) in
  FirmwareTask.status (eval (on_db (FirmwareTaskOperator.QueryTask FirmwareTask.default)) s1.2) = UpgradeStatus.CHECK_VERSION_SUCCESS ∧
  map FirmwareComponent.url (eval (on_db (FirmwareComponentOperator.QueryAll [])) s1.2).2 = ["http://server/p.zip"] ∧
  ∃ ts cs e o, at_state s1.2 ts cs e o ∧ coherent (ts, cs).
Proof.
  intros s1. split; [by vm_compute|]. split; [by vm_compute|].
  pose proof (version_lifecycle run (GetTaskInfo TaskInfo.default BusinessError.default) ([], SampleEnv.world [] []) [] []
    SampleEnv.initial [] eq_refl (sample_tasks_at_state [] (Forall_nil_2 _)) (or_introl eq_refl)
    ltac:(by repeat constructor) I) as Hp.
  unfold wp at 1 in Hp. change (exec (for_each run step) ([], SampleEnv.world [] [])) with s1 in Hp. clearbody s1.
  destruct Hp as (ts & cs & e & o & Hw & Hc & _). by exists ts, cs, e, o.
Defined.
End SampleLife.
