(* ===== verification/ModuleManager.v ===== *)
(** * The registry of extensions

    Models [interfaces/inner_api/modulemgr/src/module_manager.cpp]: the library that extends
    the service is loaded at start, and hooks handlers of requests and of the phases of the
    service; [UpdateService] passes requests and phases to them.  A handler is a pointer to a
    function, which may be null: an [option].  The dynamic loader is a class; what the initialisers
    of a library hook while it is loaded is part of the result of [dlopen]. *)
From Stdlib Require Import ZArith Lia Ascii String.
From stdpp Require Import base tactics list strings gmap.
From S2P Require Import Prelude CppString.

#[local] Open Scope Z_scope.

Module ModuleManager.
(** The handlers: of requests, with their parcels; of the start and the end of the service;
    of its idling; of a dump. *)
(*@ interfaces/inner_api/modulemgr/include/update_service_module.h:35-37 RequestFuncType *)
Definition RequestFuncType (E Parcels : Type) := Z → Parcels → ST E Z.
(*@ interfaces/inner_api/modulemgr/include/update_service_module.h:38-38 LifeCycleFuncType *)
Definition LifeCycleFuncType (E Reason : Type) := Reason → ST E unit.
(*@ interfaces/inner_api/modulemgr/include/update_service_module.h:39-39 LifeCycleFuncReturnType *)
Definition LifeCycleFuncReturnType (E Reason : Type) := Reason → ST E Z.
(*@ interfaces/inner_api/modulemgr/include/update_service_module.h:40-40 LifeCycleFuncDumpType *)
Definition LifeCycleFuncDumpType (E : Type) := Z → list string → ST E Z.

(** A call of one of the [Hook] methods. *)
Inductive Hook (E Parcels Reason : Type) :=
  | OnRequests (codes : list Z) (f : option (RequestFuncType E Parcels))
  | OnStartOnStop (phase : string) (f : option (LifeCycleFuncType E Reason))
  | OnIdle (phase : string) (f : option (LifeCycleFuncReturnType E Reason))
  | OnDump (phase : string) (f : option (LifeCycleFuncDumpType E)).
Arguments OnRequests {_ _ _}. Arguments OnStartOnStop {_ _ _}. Arguments OnIdle {_ _ _}. Arguments OnDump {_ _ _}.

Class Loader (E Parcels Reason : Type) := {
  lib_realpath : E → string → option string;
  dlopen : string → ST E (option Z * list (Hook E Parcels Reason));
  module_sleep : Z → ST E unit
}.

(*@ interfaces/inner_api/modulemgr/include/module_manager.h:54-61 ModuleManager *)
Record t (E Parcels Reason : Type) := {
  isLoaded : bool;
  dueModuleHandler : option Z;
  onStartOnStopFuncMap_ : gmap string (option (LifeCycleFuncType E Reason));
  onIdleFuncMap_ : gmap string (option (LifeCycleFuncReturnType E Reason));
  onRemoteRequestFuncMap_ : gmap Z (option (RequestFuncType E Parcels));
  onDumpFuncMap_ : gmap string (option (LifeCycleFuncDumpType E))
}.
Arguments isLoaded {_ _ _}. Arguments dueModuleHandler {_ _ _}. Arguments onStartOnStopFuncMap_ {_ _ _}. Arguments onIdleFuncMap_ {_ _ _}.
Arguments onRemoteRequestFuncMap_ {_ _ _}. Arguments onDumpFuncMap_ {_ _ _}. Arguments Build_t {_ _ _}.
(*@ interfaces/inner_api/modulemgr/include/module_manager.h:54-61 ModuleManager *)
Definition new (E Parcels Reason : Type) : t E Parcels Reason := Build_t false None ∅ ∅ ∅ ∅.
Section ops.
Context {E Parcels Reason : Type}.
#[local] Notation T := (t E Parcels Reason).
Implicit Types (this : T) (code : Z) (phase : string).
Definition set_loaded (h : option Z) this : T := Build_t true h (onStartOnStopFuncMap_ this) (onIdleFuncMap_ this) (onRemoteRequestFuncMap_ this) (onDumpFuncMap_ this).
Definition set_requests (m : gmap Z (option (RequestFuncType E Parcels))) this : T :=
  Build_t (isLoaded this) (dueModuleHandler this) (onStartOnStopFuncMap_ this) (onIdleFuncMap_ this) m (onDumpFuncMap_ this).
Definition set_lifecycle (m : gmap string (option (LifeCycleFuncType E Reason))) this : T :=
  Build_t (isLoaded this) (dueModuleHandler this) m (onIdleFuncMap_ this) (onRemoteRequestFuncMap_ this) (onDumpFuncMap_ this).
Definition set_idle (m : gmap string (option (LifeCycleFuncReturnType E Reason))) this : T :=
  Build_t (isLoaded this) (dueModuleHandler this) (onStartOnStopFuncMap_ this) m (onRemoteRequestFuncMap_ this) (onDumpFuncMap_ this).
Definition set_dump (m : gmap string (option (LifeCycleFuncDumpType E))) this : T :=
  Build_t (isLoaded this) (dueModuleHandler this) (onStartOnStopFuncMap_ this) (onIdleFuncMap_ this) (onRemoteRequestFuncMap_ this) m.

(*@* interfaces/inner_api/modulemgr/include/module_manager.h = *)
Definition retryInterval_ : Z := 0.
(*@* interfaces/inner_api/modulemgr/src/module_manager.cpp = *)
Definition prefix : string := "/system/lib64/updateext".
Definition modulePrefix : string := "/module_update/3006/lib64/updateext".
Definition suffix : string := ".so".
Definition maxRetryTimes : nat := 1.
(*@* interfaces/inner_api/modulemgr/src/module_manager.cpp ModuleManager::= *)
Definition IsModuleLoaded this : bool := isLoaded this.
Definition IsMapFuncExist code this : bool := bool_decide (is_Some (onRemoteRequestFuncMap_ this !! code)).
Definition HookFunc (codes : list Z) (handleRemoteRequest : option (RequestFuncType E Parcels)) this : T :=
  match handleRemoteRequest with
  | None => this
  | Some _ =>
      fold_left (λ this code,
        if negb (IsMapFuncExist code this) then set_requests (<[code := handleRemoteRequest]> (onRemoteRequestFuncMap_ this)) this else this)
        codes this
  end.
Definition HandleFunc code (data : Parcels) this : ST E Z :=
  if negb (IsMapFuncExist code this) then ret 0
  else
    match default None (onRemoteRequestFuncMap_ this !! code) with
    | None => ret (-1)
    | Some func => func code data
    end.
(** Both branches of the source leave the new handler in the map. *)
Definition HookOnStartOnStopFunc phase (handleSAOnStartOnStop : option (LifeCycleFuncType E Reason)) this : T :=
  match handleSAOnStartOnStop with
  | None => this
  | Some _ => set_lifecycle (<[phase := handleSAOnStartOnStop]> (onStartOnStopFuncMap_ this)) this
  end.
Definition HandleOnStartOnStopFunc phase (reason : Reason) this : ST E unit :=
  match onStartOnStopFuncMap_ this !! phase with
  | None => ret tt
  | Some None => ret tt
  | Some (Some func) => func reason
  end.
Definition HookOnIdleFunc phase (handleSAOnIdle : option (LifeCycleFuncReturnType E Reason)) this : T :=
  match handleSAOnIdle with
  | None => this
  | Some _ => set_idle (<[phase := handleSAOnIdle]> (onIdleFuncMap_ this)) this
  end.
Definition HandleOnIdleFunc phase (reason : Reason) this : ST E Z :=
  match onIdleFuncMap_ this !! phase with
  | None => ret 0
  | Some None => ret (-1)
  | Some (Some func) => func reason
  end.
Definition HookDumpFunc phase (handleSADump : option (LifeCycleFuncDumpType E)) this : T :=
  match handleSADump with
  | None => this
  | Some _ => set_dump (<[phase := handleSADump]> (onDumpFuncMap_ this)) this
  end.
Definition HandleDumpFunc phase (fd : Z) (args : list string) this : ST E Z :=
  match onDumpFuncMap_ this !! phase with
  | None => ret 0
  | Some None => ret (-1)
  | Some (Some func) => func fd args
  end.

(*@ interfaces/inner_api/modulemgr/src/update_service_module.cpp:25-43 RegisterFunc *)
Definition hooked (this : T) (h : Hook E Parcels Reason) : T :=
  match h with
  | OnRequests codes f => HookFunc codes f this
  | OnStartOnStop phase f => HookOnStartOnStopFunc phase f this
  | OnIdle phase f => HookOnIdleFunc phase f this
  | OnDump phase f => HookDumpFunc phase f this
  end.

Context `{Loader E Parcels Reason}.
(** One attempt, and [more] others when it fails. *)
(*@ interfaces/inner_api/modulemgr/src/module_manager.cpp:55-67 ModuleManager::LoadModule *)
Fixpoint open_loop (more : nat) (dealPath : string) : ST (T * E) unit :=
  let* (handler, hooks) := env_ (dlopen dealPath) in
  set_own (λ this, fold_left hooked hooks this) ;;;
  match handler with
  | Some h => set_own (set_loaded (Some h))
  | None =>
      match more with
      | O => ret tt
      | S more =>
          (when 0 <? retryInterval_ do env_ (module_sleep retryInterval_)) ;;;
          open_loop more dealPath
      end
  end.
(** [libPath.substr(0, p.length()) == p], and the same at the end. *)
Definition starts_with (p libPath : string) : bool := bool_decide (take (len p) (chars libPath) = chars p).
Definition ends_with (p libPath : string) : bool := bool_decide (drop (len libPath - len p) (chars libPath) = chars p).
(*@ interfaces/inner_api/modulemgr/src/module_manager.cpp ModuleManager::LoadModule *)
Definition LoadModule (libPath : string) : ST (T * E) unit :=
  if (libPath =? "")%string || (len libPath <? len suffix)%nat then ret tt
  else if (negb (starts_with prefix libPath) && negb (starts_with modulePrefix libPath)) || negb (ends_with suffix libPath) then ret tt
  else
    let* handler := own_ dueModuleHandler in
    match handler with
    | None =>
        let* path := (λ s, (lib_realpath s.2 libPath, s)) in
        match path with
        | None => ret tt
        | Some dealPath => open_loop maxRetryTimes dealPath
        end
    | Some h => set_own (set_loaded (Some h))
    end.
End ops.

(** ** Properties *)
Section properties.
Context {E Parcels Reason : Type}.
#[local] Notation T := (t E Parcels Reason).
#[local] Notation Hooks := (list (Hook E Parcels Reason)).
Implicit Types (this : T) (hooks : Hooks).

(** *** What the registry promises: for a request the first handler hooked for its code, for a phase the last *)
Fixpoint first_request (code : Z) hooks : option (RequestFuncType E Parcels) :=
  match hooks with
  | [] => None
  | OnRequests codes (Some f) :: hooks => if bool_decide (code ∈ codes) then Some f else first_request code hooks
  | _ :: hooks => first_request code hooks
  end.
(** The last handler that [sel] selects. *)
Fixpoint last_of {F} (sel : Hook E Parcels Reason → option F) hooks : option F :=
  match hooks with
  | [] => None
  | h :: hooks => match last_of sel hooks with Some f => Some f | None => sel h end
  end.
Definition lifecycle_of (phase : string) (h : Hook E Parcels Reason) :=
  match h with OnStartOnStop p f => if (p =? phase)%string then f else None | _ => None end.
Definition idle_of (phase : string) (h : Hook E Parcels Reason) :=
  match h with OnIdle p f => if (p =? phase)%string then f else None | _ => None end.
Definition dump_of (phase : string) (h : Hook E Parcels Reason) :=
  match h with OnDump p f => if (p =? phase)%string then f else None | _ => None end.
Lemma last_of_snoc {F} (sel : Hook E Parcels Reason → option F) hooks h :
  last_of sel (hooks ++ [h]) = match sel h with Some f => Some f | None => last_of sel hooks end.
Proof.
  induction hooks as [|x hooks IH]; cbn; [by destruct (sel h)|]. rewrite IH. by destruct (sel h).
Qed.
Lemma first_request_snoc code hooks h :
  first_request code (hooks ++ [h]) = match first_request code hooks with Some f => Some f | None => first_request code [h] end.
Proof.
  induction hooks as [|x hooks IH]; cbn; [done|]. destruct x as [codes [f|]| | |]; try exact IH.
  by case_bool_decide.
Qed.

Lemma HookFunc_requests codes (f : RequestFuncType E Parcels) this code :
  onRemoteRequestFuncMap_ (HookFunc codes (Some f) this) !! code =
    match onRemoteRequestFuncMap_ this !! code with Some g => Some g | None => if bool_decide (code ∈ codes) then Some (Some f) else None end ∧
  onStartOnStopFuncMap_ (HookFunc codes (Some f) this) = onStartOnStopFuncMap_ this ∧
  onIdleFuncMap_ (HookFunc codes (Some f) this) = onIdleFuncMap_ this ∧ onDumpFuncMap_ (HookFunc codes (Some f) this) = onDumpFuncMap_ this.
Proof.
  cbn [HookFunc]. revert this. induction codes as [|c codes IH]; intros this; cbn [fold_left].
  { destruct (_ !! code); [done|]. by rewrite bool_decide_eq_false_2 by set_solver. }
  destruct (IH (if negb (IsMapFuncExist c this) then set_requests (<[c:=Some f]> (onRemoteRequestFuncMap_ this)) this else this)) as (-> & -> & -> & ->).
  unfold IsMapFuncExist. destruct (bool_decide (is_Some _)) eqn:Hc; breflect; cbn [negb]; (split; [|split_and!; reflexivity]).
  - destruct (onRemoteRequestFuncMap_ this !! code) eqn:Hcode; [done|].
    assert (code ≠ c) as Hne by (intros ->; rewrite Hcode in Hc; by destruct Hc).
    erewrite bool_decide_ext; [done|]. set_solver.
  - apply eq_None_not_Some in Hc. cbn [onRemoteRequestFuncMap_ set_requests].
    destruct (decide (code = c)) as [->|Hne].
    + rewrite lookup_insert, Hc. destruct (decide (c = c)); [|done]. by rewrite bool_decide_eq_true_2 by set_solver.
    + rewrite lookup_insert_ne by done. destruct (_ !! code); [done|]. erewrite bool_decide_ext; [done|]. set_solver.
Qed.
Definition registered (hooks : Hooks) : T := fold_left hooked hooks (new E Parcels Reason).
(** The maps hold what the specification selects, and no null pointer. *)
Lemma registered_spec hooks :
  (∀ code, onRemoteRequestFuncMap_ (registered hooks) !! code = Some <$> first_request code hooks) ∧
  (∀ phase, onStartOnStopFuncMap_ (registered hooks) !! phase = Some <$> last_of (lifecycle_of phase) hooks) ∧
  (∀ phase, onIdleFuncMap_ (registered hooks) !! phase = Some <$> last_of (idle_of phase) hooks) ∧
  (∀ phase, onDumpFuncMap_ (registered hooks) !! phase = Some <$> last_of (dump_of phase) hooks).
Proof.
  induction hooks as [|h hooks IH] using rev_ind; [unfold registered; cbn; split_and!; intros; by rewrite lookup_empty|].
  unfold registered in *. rewrite fold_left_app. cbn [fold_left]. set (this := fold_left hooked hooks _) in *. destruct IH as (Hr & Hl & Hi & Hd).
  split_and!; intros k.
  1: rewrite first_request_snoc. 2-4: rewrite last_of_snoc.
  all: destruct h as [codes [f|]|p [f|]|p [f|]|p [f|]].
  all: cbn [hooked lifecycle_of idle_of dump_of HookOnStartOnStopFunc HookOnIdleFunc HookDumpFunc set_lifecycle set_idle set_dump
    onRemoteRequestFuncMap_ onStartOnStopFuncMap_ onIdleFuncMap_ onDumpFuncMap_ first_request].
  1: try rewrite (proj1 (HookFunc_requests codes f this k)).
  all: try (destruct (HookFunc_requests codes f this 0) as (_ & E2 & E3 & E4); rewrite ?E2, ?E3, ?E4).
  all: rewrite ?Hr, ?Hl, ?Hi, ?Hd.
  all: try by (destruct (first_request k hooks); [done|]; try done; case_bool_decide).
  all: try by repeat destruct (_ =? _)%string.
  all: destruct (String.eqb_spec p k) as [->|Hne]; [by rewrite lookup_insert, decide_True|rewrite lookup_insert_ne by done; by rewrite ?Hl, ?Hi, ?Hd].
Qed.

(** Whatever is hooked, in whatever order: a request goes to the first handler hooked for its code, a phase
    to the last hooked for it; what nobody handles has no effect and the answer 0, and no null pointer is called. *)
Theorem hooks_dispatched hooks :
  let this := registered hooks in
  (∀ code data, IsMapFuncExist code this = bool_decide (is_Some (first_request code hooks)) ∧
     HandleFunc code data this = match first_request code hooks with Some f => f code data | None => ret 0 end) ∧
  (∀ phase reason, HandleOnStartOnStopFunc phase reason this = match last_of (lifecycle_of phase) hooks with Some f => f reason | None => ret tt end) ∧
  (∀ phase reason, HandleOnIdleFunc phase reason this = match last_of (idle_of phase) hooks with Some f => f reason | None => ret 0 end) ∧
  (∀ phase fd args, HandleDumpFunc phase fd args this = match last_of (dump_of phase) hooks with Some f => f fd args | None => ret 0 end).
Proof.
  intros this. destruct (registered_spec hooks) as (Hr & Hl & Hi & Hd). fold this in Hr, Hl, Hi, Hd. split_and!.
  - intros code data. unfold HandleFunc, IsMapFuncExist. rewrite !Hr. destruct (first_request code hooks); cbn [fmap option_fmap option_map].
    + rewrite !bool_decide_eq_true_2; [by split|by eexists..].
    + rewrite !bool_decide_eq_false_2 by (by intros [? ?]). done.
  - intros phase reason. unfold HandleOnStartOnStopFunc. rewrite Hl. by destruct (last_of _ _).
  - intros phase reason. unfold HandleOnIdleFunc. rewrite Hi. by destruct (last_of _ _).
  - intros phase fd args. unfold HandleDumpFunc. rewrite Hd. by destruct (last_of _ _).
Qed.

Context `{Loader E Parcels Reason}.
(** A path that is not below one of the two directories or does not end in [.so] is not
    opened.  What is opened is what the path resolves to, which is not tested. *)
Lemma LoadModule_rejects libPath s :
  (starts_with prefix libPath = false ∧ starts_with modulePrefix libPath = false) ∨ ends_with suffix libPath = false →
  LoadModule libPath s = (tt, s).
Proof.
  intros Hpath. unfold LoadModule. destruct (_ || _); [done|].
  by destruct Hpath as [[-> ->]| ->]; rewrite ?orb_true_r.
Qed.
(** A library that is opened at the first or the second attempt counts as loaded, with what it hooked. *)
Lemma open_loop_loaded path (this : T) e h hooks e' :
  dlopen path e = ((Some h, hooks), e') →
  open_loop maxRetryTimes path (this, e) = (tt, (set_loaded (Some h) (fold_left hooked hooks this), e')).
Proof. intros Hd. cbn [open_loop maxRetryTimes]. unfold bind, env_, set_own. cbn. by rewrite Hd. Qed.
End properties.
End ModuleManager.
