(* ===== verification/Clients.v ===== *)
(** * The clients of the service

    Models the registration of clients: [RegisterUpdateCallback] and its companions of
    [services/engine/src/update_service.cpp], the classes [ClientProxy] and
    [ClientDeathRecipient] of [update_service_common.cpp], and [update_service_cache.cpp].
    [clientProxyMap_] is a [gmap]: by [upgrade_info_equiv] two keys of the [std::map] share an entry exactly
    when they are equal.  Its lock is held for a section of a method, and
    the sections of concurrent calls interleave: they are the [Event]s of a transition
    system, with the deaths of clients and the notifications of their deaths. *)
From Stdlib Require Import ZArith Lia Ascii String.
From stdpp Require Import base tactics list strings gmap sorting.
From S2P Require Import Prelude CppString Json Models FirmwareWorld Startup.

#[local] Open Scope Z_scope.

(** ** [UpgradeInfo] as a key *)
#[export] Instance business_type_eq_dec : EqDecision BusinessType.t.
Proof. solve_decision. Defined.
#[export] Instance upgrade_info_eq_dec : EqDecision UpgradeInfo.t.
Proof. solve_decision. Defined.
#[export] Instance upgrade_info_countable : Countable UpgradeInfo.t.
Proof.
  refine (inj_countable' upgrade_info_key (λ k, {| UpgradeInfo.upgradeApp := k.1;
    UpgradeInfo.businessType := {| BusinessType.vendor := k.2.1.1; BusinessType.subType := k.2.1.2 |};
    UpgradeInfo.upgradeDevId := k.2.2.1; UpgradeInfo.controlDevId := k.2.2.2.1; UpgradeInfo.processId := k.2.2.2.2.1;
    UpgradeInfo.deviceType := k.2.2.2.2.2 |}) _).
  by intros [? [? ?] ? ? ? ?].
Defined.
(** Two keys of a [std::map] that are not ordered are equal. *)
Lemma upgrade_info_equiv u v : UpgradeInfo.lt u v = false → UpgradeInfo.lt v u = false → u = v.
Proof.
  rewrite !upgrade_info_lt_key. intros Huv Hvu. destruct key_lt_strict_total as (_ & _ & Htotal).
  destruct (Htotal (upgrade_info_key u) (upgrade_info_key v)) as [E|[E|E]]; [|congruence..].
  destruct u as [? [? ?] ? ? ? ?], v as [? [? ?] ? ? ? ?]. unfold upgrade_info_key in E. cbn in E. by simplify_eq.
Qed.

(** The entries of a [std::map] in the order of its iterators. *)
Section in_order.
Context {A : Type}.
Definition entry_le (x y : UpgradeInfo.t * A) : Prop := UpgradeInfo.lt y.1 x.1 = false.
#[local] Instance entry_le_dec : RelDecision entry_le.
Proof. intros x y. unfold entry_le. apply _. Defined.
Definition in_order (m : gmap UpgradeInfo.t A) : list (UpgradeInfo.t * A) := merge_sort entry_le (map_to_list m).
Lemma elem_of_in_order m k x : (k, x) ∈ in_order m ↔ m !! k = Some x.
Proof. unfold in_order. by rewrite merge_sort_Permutation, elem_of_map_to_list. Qed.
End in_order.

(** ** The cache *)
Module UpgradeInterval.
(*@* update/model/upgrade/upgrade_interval.h UpgradeInterval *)
Record t := { timeStart : Z; timeEnd : Z }.
Definition default : t := {| timeStart := 0; timeEnd := 0 |}.
End UpgradeInterval.

Module UpdateServiceCache.
(** The four variables of one type of business: the source has them twice, for [FIRMWARE]
    and, with the prefix [param], for [PARAM]. *)
(*@ engine/include/update_service_cache.h:44-47 UpdateServiceCache *)
Record Slot := { upgradeInfo_ : UpgradeInfo.t; checkInterval_ : Z; downloadInterval_ : Z; upgradeInterval_ : UpgradeInterval.t }.
(*@ engine/src/update_service_cache.cpp:26-29 UpdateServiceCache *)
Definition slot : Slot := {| upgradeInfo_ := UpgradeInfo.default; checkInterval_ := 0; downloadInterval_ := 0; upgradeInterval_ := UpgradeInterval.default |}.
(*@ engine/include/update_service_cache.h:44-52 UpdateServiceCache *)
Record t := { firmware : Slot; param : Slot }.
(*@ engine/src/update_service_cache.cpp:26-34 UpdateServiceCache *)
Definition initial : t := {| firmware := slot; param := slot |}.

(*@* engine/src/update_service_cache.cpp UpdateServiceCache::= *)
Definition IsTypelegal (businessSubType : Z) : bool :=
  (businessSubType =? BusinessSubType.FIRMWARE) || (businessSubType =? BusinessSubType.PARAM).
Definition IsParamType (businessSubType : Z) : bool := businessSubType =? BusinessSubType.PARAM.
(*@ engine/src/update_service_cache.cpp:60-60 UpdateServiceCache::GetUpgradeInfo *)
Definition get {A} (f : Slot → A) (none : A) (businessSubType : Z) (this : t) : A :=
  if negb (IsTypelegal businessSubType) then none
  else if IsParamType businessSubType then f (param this) else f (firmware this).
(*@ engine/src/update_service_cache.cpp:63-75 UpdateServiceCache::SetUpgradeInfo *)
Definition set (f : Slot → Slot) (businessSubType : Z) (this : t) : t :=
  if negb (IsTypelegal businessSubType) then this
  else if IsParamType businessSubType then {| firmware := firmware this; param := f (param this) |}
  else {| firmware := f (firmware this); param := param this |}.
(*@* engine/src/update_service_cache.cpp UpdateServiceCache::= *)
Definition GetUpgradeInfo : Z → t → UpgradeInfo.t := get upgradeInfo_ UpgradeInfo.default.
Definition SetUpgradeInfo (upgradeInfo : UpgradeInfo.t) : t → t :=
  set (λ s, {| upgradeInfo_ := upgradeInfo; checkInterval_ := checkInterval_ s; downloadInterval_ := downloadInterval_ s; upgradeInterval_ := upgradeInterval_ s |})
    (BusinessType.subType (UpgradeInfo.businessType upgradeInfo)).
Definition GetCheckInterval : Z → t → Z := get checkInterval_ 0.
Definition SetCheckInterval (businessSubType interval : Z) : t → t :=
  set (λ s, {| upgradeInfo_ := upgradeInfo_ s; checkInterval_ := interval; downloadInterval_ := downloadInterval_ s; upgradeInterval_ := upgradeInterval_ s |})
    businessSubType.
Definition GetDownloadInterval : Z → t → Z := get downloadInterval_ 0.
Definition SetDownloadInterval (businessSubType interval : Z) : t → t :=
  set (λ s, {| upgradeInfo_ := upgradeInfo_ s; checkInterval_ := checkInterval_ s; downloadInterval_ := interval; upgradeInterval_ := upgradeInterval_ s |})
    businessSubType.
Definition GetUpgradeInterval : Z → t → UpgradeInterval.t := get upgradeInterval_ UpgradeInterval.default.
Definition SetUpgradeStartTime (businessSubType time : Z) : t → t :=
  set (λ s, {| upgradeInfo_ := upgradeInfo_ s; checkInterval_ := checkInterval_ s; downloadInterval_ := downloadInterval_ s;
               upgradeInterval_ := {| UpgradeInterval.timeStart := time; UpgradeInterval.timeEnd := UpgradeInterval.timeEnd (upgradeInterval_ s) |} |})
    businessSubType.
Definition SetUpgradeEndTime (businessSubType time : Z) : t → t :=
  set (λ s, {| upgradeInfo_ := upgradeInfo_ s; checkInterval_ := checkInterval_ s; downloadInterval_ := downloadInterval_ s;
               upgradeInterval_ := {| UpgradeInterval.timeStart := UpgradeInterval.timeStart (upgradeInterval_ s); UpgradeInterval.timeEnd := time |} |})
    businessSubType.

(** What is set for a type that is known is read for that type and for no other. *)
Lemma get_set {A} (f : Slot → A) none g b b' this :
  get f none b (set g b' this) = if bool_decide (b = b') && IsTypelegal b then f (g (if IsParamType b then param this else firmware this)) else get f none b this.
Proof.
  unfold get, set, IsTypelegal, IsParamType, BusinessSubType.FIRMWARE, BusinessSubType.PARAM.
  destruct (Z.eqb_spec b 1), (Z.eqb_spec b 2), (Z.eqb_spec b' 1), (Z.eqb_spec b' 2); subst; cbn;
    try lia; rewrite ?andb_false_r; try done; by case_bool_decide.
Qed.
End UpdateServiceCache.

(** ** Clients *)

(** A [ClientDeathRecipient]: its address and its field. *)
(*@ engine/include/update_service.h:150-158 ClientDeathRecipient *)
Record Recipient := { address : Z; upgradeInfo_ : UpgradeInfo.t }.
#[export] Instance recipient_eq_dec : EqDecision Recipient.
Proof. solve_decision. Defined.

(** The IPC objects: a callback is an address, [AsObject] its remote object, which may be
    null; [new_recipient] tells whether there is memory. *)
Class RemoteObjects (E : Type) := {
  AsObject : Z → option Z;
  new_recipient : ST E bool;
  AddDeathRecipient : Z → Recipient → ST E bool;
  RemoveDeathRecipient : Z → Recipient → ST E bool
}.

Module ClientProxy.
(*@ engine/include/update_service.h:160-169 ClientProxy *)
Record t := { proxy_ : option Z; deathRecipient_ : option Recipient }.
Section ops.
Context {E : Type} `{RemoteObjects E}.
(** The addresses of the recipients are counted. *)
(*@ engine/src/update_service_common.cpp UpdateService::ClientProxy::ClientProxy *)
Definition make (fresh : Z) (info : UpgradeInfo.t) (callback : option Z) : ST E t :=
  let* there := new_recipient in
  ret {| proxy_ := callback; deathRecipient_ := if there : bool then Some {| address := fresh; upgradeInfo_ := info |} else None |}.
(** The object and the recipient, when there are both. *)
(*@ engine/src/update_service_common.cpp:78-80 UpdateService::ClientProxy::AddDeathRecipient *)
Definition both (this : t) : option (Z * Recipient) :=
  proxy ← proxy_ this; remoteObject ← AsObject (E := E) proxy; recipient ← deathRecipient_ this; Some (remoteObject, recipient).
(** Is the recipient told of the death: the result of the system, which the source drops. *)
(*@ engine/src/update_service_common.cpp UpdateService::ClientProxy::AddDeathRecipient *)
Definition AddDeathRecipient (this : t) : ST E bool :=
  match both this with Some (remoteObject, recipient) => AddDeathRecipient remoteObject recipient | None => ret false end.
(*@ engine/src/update_service_common.cpp UpdateService::ClientProxy::RemoveDeathRecipient *)
Definition RemoveDeathRecipient (this : t) : ST E unit :=
  match both this with Some (remoteObject, recipient) => RemoveDeathRecipient remoteObject recipient ;;; ret tt | None => ret tt end.
(*@ engine/src/update_service_common.cpp UpdateService::ClientProxy::Get *)
Definition Get (this : t) : option Z := proxy_ this.
End ops.
End ClientProxy.

Module Clients.
(** [clientProxyMap_], how many recipients were made, and the singletons that are told. *)
(*@ engine/include/update_service.h:172-173 UpdateService *)
Record t (S : Type) := {
  clientProxyMap_ : gmap UpgradeInfo.t ClientProxy.t;
  made : Z;
  accessManager : AccessManager.t S;
  cache : UpdateServiceCache.t
}.
Arguments clientProxyMap_ {_}. Arguments made {_}. Arguments accessManager {_}. Arguments cache {_}. Arguments Build_t {_}.
(*@ engine/include/update_service.h:172-173 UpdateService *)
Definition initial (S : Type) (accessManager : AccessManager.t S) : t S := Build_t ∅ 0 accessManager UpdateServiceCache.initial.

Section ops.
Context {S E : Type} `{RemoteObjects E}.
#[local] Notation Op := (ST (t S * E)).
Definition set_clients (m : gmap UpgradeInfo.t ClientProxy.t) (this : t S) : t S := Build_t m (made this) (accessManager this) (cache this).
Definition set_made (n : Z) (this : t S) : t S := Build_t (clientProxyMap_ this) n (accessManager this) (cache this).
Definition set_access (a : AccessManager.t S) (this : t S) : t S := Build_t (clientProxyMap_ this) (made this) a (cache this).
Definition set_cache (c : UpdateServiceCache.t) (this : t S) : t S := Build_t (clientProxyMap_ this) (made this) (accessManager this) c.
(** [SetRemoteIdle(clientProxyMap_.empty())] *)
Definition tell_idle (this : t S) : t S :=
  set_access (AccessManager.SetRemoteIdle (bool_decide (clientProxyMap_ this = ∅)) (accessManager this)) this.

(** One section of the lock. *)
(*@ engine/src/update_service.cpp UpdateService::UnregisterUpdateCallback *)
Definition UnregisterUpdateCallback (info : UpgradeInfo.t) : Op Z :=
  let* proxy := own_ (λ this, clientProxyMap_ this !! info) in
  match proxy with
  | None => ret CallResult.SUCCESS
  | Some proxy =>
      env_ (ClientProxy.RemoveDeathRecipient proxy) ;;;
      set_own (λ this, set_clients (delete info (clientProxyMap_ this)) this) ;;;
      set_own tell_idle ;;;
      ret CallResult.SUCCESS
  end.
(** The other section of [RegisterUpdateCallback].  [insert] does nothing when the key is
    there.  The result: is the death of the client told. *)
(*@ engine/src/update_service.cpp:68-74 UpdateService::RegisterUpdateCallback *)
Definition insert_client (info : UpgradeInfo.t) (updateCallback : option Z) : Op bool :=
  let* fresh := own_ made in
  set_own (set_made (fresh + 1)) ;;;
  let* clientProxy := env_ (ClientProxy.make fresh info updateCallback) in
  let* watched := env_ (ClientProxy.AddDeathRecipient clientProxy) in
  set_own (λ this, match clientProxyMap_ this !! info with
                   | Some _ => this
                   | None => set_clients (<[info := clientProxy]> (clientProxyMap_ this)) this
                   end) ;;;
  set_own tell_idle ;;;
  ret watched.
(*@ engine/src/update_service.cpp UpdateService::RegisterUpdateCallback *)
Definition RegisterUpdateCallback (info : UpgradeInfo.t) (updateCallback : option Z) : Op Z :=
  UnregisterUpdateCallback info ;;;
  insert_client info updateCallback ;;;
  (when negb (UpgradeInfo.IsLocal info) do set_own (λ this, set_cache (UpdateServiceCache.SetUpgradeInfo info (cache this)) this)) ;;;
  ret CallResult.SUCCESS.
(*@ engine/src/update_service.cpp UpdateService::GetUpgradeCallback *)
Definition GetUpgradeCallback (info : UpgradeInfo.t) (this : t S) : option Z :=
  match clientProxyMap_ this !! info with None => None | Some proxy => ClientProxy.Get proxy end.
(*@ engine/src/update_service_common.cpp UpdateService::ClientDeathRecipient::OnRemoteDied *)
Definition OnRemoteDied (r : Recipient) : Op unit := UnregisterUpdateCallback (upgradeInfo_ r) ;;; ret tt.
(** The destructor. *)
(*@ engine/src/update_service_common.cpp:104-110 UpdateService::~UpdateService *)
Definition destroy : Op unit :=
  let* clients := own_ clientProxyMap_ in
  for_each (in_order clients) (λ x, env_ (ClientProxy.RemoveDeathRecipient x.2)).
End ops.
End Clients.

(** ** The deaths of clients *)

(** What the IPC framework promises: a recipient that was added to an object and not removed is told of its death,
    once.  [die] is the death of an object. *)
Class RemoteLaws (E : Type) `{RemoteObjects E} := {
  linked : E → Z → Recipient → Prop;
  die : Z → ST E (list Recipient);
  linked_new e o r : linked (exec new_recipient e) o r ↔ linked e o r;
  linked_add e o r o' r' :
    linked (exec (AddDeathRecipient o r) e) o' r' ↔ linked e o' r' ∨ (eval (AddDeathRecipient o r) e = true ∧ o' = o ∧ r' = r);
  linked_remove e o r o' r' : linked (exec (RemoveDeathRecipient o r) e) o' r' ↔ linked e o' r' ∧ ¬ (o' = o ∧ r' = r);
  linked_die e o o' r : linked (exec (die o) e) o' r ↔ linked e o' r ∧ o' ≠ o;
  die_tells e o r : r ∈ eval (die o) e ↔ linked e o r
}.

Section deaths.
Import Clients.
Context {S E : Type} `{RemoteLaws E}.
#[local] Notation State := (t S * E)%type.
Implicit Types (info : UpgradeInfo.t) (this : t S) (e : E) (p : ClientProxy.t) (r : Recipient).

(** The service, the notifications of deaths under way, and the addresses of the recipients
    the framework refused. *)
Record sys := { state : State; pending : list Recipient; unwatched : list Z }.
(** The sections of the lock that the calls of clients consist of, in any order;
    a client dies; a notification arrives; the rest of the system goes on. *)
Inductive step : sys → sys → Prop :=
  | step_unregister s info :
      step s {| state := exec (UnregisterUpdateCallback info) (state s); pending := pending s; unwatched := unwatched s |}
  | step_insert s info callback :
      step s {| state := exec (insert_client info callback) (state s); pending := pending s;
                unwatched := if eval (insert_client info callback) (state s) then unwatched s else made (state s).1 :: unwatched s |}
  | step_cache s c :
      step s {| state := (set_cache c (state s).1, (state s).2); pending := pending s; unwatched := unwatched s |}
  | step_dies s o :
      step s {| state := ((state s).1, exec (die o) (state s).2); pending := pending s ++ eval (die o) (state s).2; unwatched := unwatched s |}
  | step_told s l1 r l2 :
      pending s = l1 ++ r :: l2 →
      step s {| state := exec (OnRemoteDied r) (state s); pending := l1 ++ l2; unwatched := unwatched s |}
  | step_other s e :
      (∀ o r, linked (state s).2 o r → linked e o r) →
      step s {| state := ((state s).1, e); pending := pending s; unwatched := unwatched s |}.
Definition start (accessManager : AccessManager.t S) (e : E) : sys :=
  {| state := (initial S (AccessManager.SetRemoteIdle true accessManager), e); pending := []; unwatched := [] |}.

(** *** What the operations do *)
(** The flag of the access manager: no client is registered. *)
Definition idle_told this : Prop := AccessManager.isRemoteIdle_ (accessManager this) = bool_decide (clientProxyMap_ this = ∅).
(** The recipient of a client carries the key of the client, and was made before. *)
Definition own_recipients this : Prop :=
  ∀ info p r, clientProxyMap_ this !! info = Some p → ClientProxy.deathRecipient_ p = Some r → upgradeInfo_ r = info ∧ address r < made this.

Lemma both_recipient p o r : ClientProxy.both (E := E) p = Some (o, r) → ClientProxy.deathRecipient_ p = Some r.
Proof.
  unfold ClientProxy.both. destruct (ClientProxy.proxy_ p) as [x|]; cbn; [|done]. destruct (AsObject x); cbn; [|done].
  destruct (ClientProxy.deathRecipient_ p); cbn; [|done]. by intros [= -> ->].
Qed.
Lemma wp_RemoveDeathRecipient p e (Q : unit → E → Prop) :
  (∀ e', (∀ o r, linked e' o r ↔ linked e o r ∧ ClientProxy.both (E := E) p ≠ Some (o, r)) → Q tt e') → wp (ClientProxy.RemoveDeathRecipient p) e Q.
Proof.
  intros HQ. unfold ClientProxy.RemoveDeathRecipient. destruct (ClientProxy.both p) as [[o r]|] eqn:Hboth.
  - apply wp_bind. unfold wp at 1. apply wp_ret, HQ. intros o' r'. rewrite linked_remove. naive_solver.
  - apply wp_ret, HQ. naive_solver.
Qed.
Lemma wp_AddDeathRecipient p e (Q : bool → E → Prop) :
  (∀ b e', (∀ o r, linked e' o r ↔ linked e o r ∨ (b = true ∧ ClientProxy.both (E := E) p = Some (o, r))) →
     (b = true → is_Some (ClientProxy.both (E := E) p)) → Q b e') → wp (ClientProxy.AddDeathRecipient p) e Q.
Proof.
  intros HQ. unfold ClientProxy.AddDeathRecipient. destruct (ClientProxy.both p) as [[o r]|] eqn:Hboth.
  - unfold wp. apply HQ; [|by eexists]. intros o' r'. rewrite linked_add. naive_solver.
  - apply wp_ret, HQ; [|done]. naive_solver.
Qed.

Lemma wp_Unregister info this e (Q : Z → State → Prop) :
  (∀ this' e',
     clientProxyMap_ this' = delete info (clientProxyMap_ this) → made this' = made this → cache this' = cache this →
     (idle_told this → idle_told this') →
     (∀ o r, linked e' o r ↔ linked e o r ∧ ∀ p, clientProxyMap_ this !! info = Some p → ClientProxy.both (E := E) p ≠ Some (o, r)) →
     Q CallResult.SUCCESS (this', e')) →
  wp (UnregisterUpdateCallback info) (this, e) Q.
Proof.
  intros HQ. unfold UnregisterUpdateCallback. apply wp_bind, wp_own_. cbn [fst]. destruct (clientProxyMap_ this !! info) as [p|] eqn:Hp.
  - apply wp_bind, wp_env_, wp_RemoveDeathRecipient. intros e' He'. cbn [fst snd].
    apply wp_bind, wp_set_own, wp_bind, wp_set_own, wp_ret. apply HQ; try done. naive_solver.
  - apply wp_ret, HQ; try done; [|naive_solver]. by rewrite delete_id.
Qed.
Lemma wp_insert info cb this e (Q : bool → State → Prop) :
  (∀ watched this' e' p,
     ClientProxy.proxy_ p = cb → (∀ r, ClientProxy.deathRecipient_ p = Some r → r = {| address := made this; upgradeInfo_ := info |}) →
     clientProxyMap_ this' = match clientProxyMap_ this !! info with Some _ => clientProxyMap_ this | None => <[info := p]> (clientProxyMap_ this) end →
     made this' = made this + 1 → cache this' = cache this → idle_told this' →
     (∀ o r, linked e' o r ↔ linked e o r ∨ (watched = true ∧ ClientProxy.both (E := E) p = Some (o, r))) →
     (watched = true → is_Some (ClientProxy.both (E := E) p)) →
     Q watched (this', e')) →
  wp (insert_client info cb) (this, e) Q.
Proof.
  intros HQ. unfold insert_client. apply wp_bind, wp_own_, wp_bind, wp_set_own. cbn [fst snd].
  apply wp_bind, wp_env_. cbn [fst snd]. unfold ClientProxy.make. apply wp_bind. unfold wp at 1. apply wp_ret.
  set (p := {| ClientProxy.proxy_ := cb; ClientProxy.deathRecipient_ := _ |}).
  apply wp_bind, wp_env_, wp_AddDeathRecipient. cbn [fst snd]. intros watched e' Hlinks Hsome.
  apply wp_bind, wp_set_own, wp_bind, wp_set_own, wp_ret. cbn [fst snd]. change (clientProxyMap_ (set_made _ _)) with (clientProxyMap_ this).
  apply (HQ _ _ _ p); try done.
  - unfold p. cbn. destruct (eval new_recipient e); naive_solver.
  - by destruct (clientProxyMap_ this !! info).
  - by destruct (clientProxyMap_ this !! info).
  - by destruct (clientProxyMap_ this !! info).
  - intros o r. by rewrite Hlinks, linked_new.
Qed.

(** *** In every interleaving *)
(** The recipient of a client is refused, waits for the death of its object, or has been told of it. *)
Definition watched (s : sys) : Prop :=
  ∀ info p r, clientProxyMap_ (state s).1 !! info = Some p → ClientProxy.deathRecipient_ p = Some r →
    address r ∈ unwatched s ∨ (∃ o, ClientProxy.both (E := E) p = Some (o, r) ∧ linked (state s).2 o r) ∨ r ∈ pending s.
Definition inv (s : sys) : Prop := idle_told (state s).1 ∧ own_recipients (state s).1 ∧ watched s.

Lemma clients_inv_start a e : inv (start a e).
Proof. split_and!; [done|intros ? ? ?; cbn; by rewrite lookup_empty..]. Qed.
Lemma watched_unregister s info l :
  inv s → (∀ r, r ∈ pending s → r ∈ l ∨ upgradeInfo_ r = info) →
  inv {| state := exec (UnregisterUpdateCallback info) (state s); pending := l; unwatched := unwatched s |}.
Proof.
  destruct s as [[this e] pend unw]. intros (Hidle & Hown & Hw) Hl. cbn in *.
  pose proof (wp_Unregister info this e (λ _ s', inv {| state := s'; pending := l; unwatched := unw |})) as Hp. unfold wp in Hp. apply Hp. clear Hp.
  intros this' e' Hmap Hmade _ Hidle' Hlinks. split_and!; [by apply Hidle'| |].
  - intros i p r. cbn. rewrite Hmap, Hmade, lookup_delete_Some. intros [_ Hi]. by eapply Hown.
  - intros i p r. cbn. rewrite Hmap, lookup_delete_Some. intros [Hne Hi] Hr. destruct (Hown i p r Hi Hr) as [Hkey _].
    destruct (Hw i p r Hi Hr) as [Hu|[(o & Hboth & Hlink)|Hpend]]; [by left| |].
    + right. left. exists o. split; [done|]. apply Hlinks. split; [done|]. intros p' Hp' Hboth'.
      apply both_recipient in Hboth'. destruct (Hown info p' r Hp' Hboth') as [Hkey' _]. congruence.
    + right. right. destruct (Hl r Hpend) as [?|Hkey']; [done|congruence].
Qed.
Lemma clients_inv_step a b : step a b → inv a → inv b.
Proof.
  destruct 1 as [s info|s info cb|s c|s o|s l1 r l2 Hpend|s e' He']; intros Hinv.
  - apply watched_unregister; [done|]. by left.
  - destruct s as [[this e] pend unw], Hinv as (Hidle & Hown & Hw). cbn in *.
    pose proof (wp_insert info cb this e (λ b s', inv {| state := s'; pending := pend; unwatched := if b then unw else made this :: unw |})) as Hp.
    unfold wp in Hp. apply Hp. clear Hp.
    intros b this' e' p Hcb Hrec Hmap Hmade _ Hidle' Hlinks Hsome. split_and!; [done| |].
    + intros i p' r. cbn. rewrite Hmap, Hmade. destruct (clientProxyMap_ this !! info) eqn:Hthere.
      * intros Hi Hr. destruct (Hown i p' r Hi Hr). split; [done|lia].
      * rewrite lookup_insert_Some. intros [[<- <-]|[_ Hi]] Hr; [apply Hrec in Hr as ->; split; [done|cbn; lia]|].
        destruct (Hown i p' r Hi Hr). split; [done|lia].
    + intros i p' r. cbn. rewrite Hmap. intros Hi Hr.
      assert (clientProxyMap_ this !! i = Some p' ∨ i = info ∧ p' = p) as [Hold|[-> ->]].
      { destruct (clientProxyMap_ this !! info) eqn:Hthere; [by left|]. apply lookup_insert_Some in Hi as [[<- <-]|[_ Hi]]; [by right|by left]. }
      * destruct (Hw i p' r Hold Hr) as [Hu|[(o & Hboth & Hlink)|Hpend]]; [left; destruct b; set_solver| |by right; right].
        right. left. exists o. split; [done|]. apply Hlinks. by left.
      * destruct b; [|left; rewrite (Hrec _ Hr); cbn; set_solver]. right. left. destruct (Hsome eq_refl) as [[o r'] Hboth].
        pose proof (both_recipient _ _ _ Hboth) as Hr'. rewrite Hr in Hr'. injection Hr' as <-. exists o. split; [done|]. apply Hlinks. by right.
  - destruct Hinv as (Hidle & Hown & Hw). by split_and!.
  - destruct s as [[this e] pend unw], Hinv as (Hidle & Hown & Hw). cbn in *. split_and!; [done..|].
    intros i p r Hi Hr. cbn in *. destruct (Hw i p r Hi Hr) as [Hu|[(o' & Hboth & Hlink)|Hpend]]; [by left| |right; right; set_solver].
    cbn in Hlink. right. destruct (decide (o' = o)) as [->|Hne]; [right; rewrite elem_of_app; right; by apply die_tells|].
    left. exists o'. split; [done|]. by apply linked_die.
  - assert (exec (OnRemoteDied r) (state s) = exec (UnregisterUpdateCallback (upgradeInfo_ r)) (state s)) as -> by (unfold OnRemoteDied; by st_simpl).
    apply watched_unregister; [done|]. intros r'. rewrite Hpend, !elem_of_app, elem_of_cons. naive_solver.
  - destruct s as [[this e] pend unw], Hinv as (Hidle & Hown & Hw). cbn in *. split_and!; [done..|].
    intros i p r Hi Hr. cbn in *. destruct (Hw i p r Hi Hr) as [Hu|[(o' & Hboth & Hlink)|Hpend]]; [by left| |by right; right].
    right. left. exists o'. split; [done|]. by apply He'.
Qed.

(** C30: However the calls of clients, their deaths and the notifications of their deaths
    interleave: the access manager is told that no client is there exactly when none is
    registered, so the service is not unloaded under a client and is not kept by none; and
    when no notification is under way, every registered client that has a recipient is alive and watched for its
    death, unless the framework refused the recipient when the client registered, as it does for a client that
    is dead already: the service drops that answer, and such a client stays until it is unregistered. *)
Theorem clients_tracked a e s :
  star step (start a e) s →
  AccessManager.isRemoteIdle_ (accessManager (state s).1) = bool_decide (clientProxyMap_ (state s).1 = ∅) ∧
  (pending s = [] → ∀ info p r, clientProxyMap_ (state s).1 !! info = Some p → ClientProxy.deathRecipient_ p = Some r →
     upgradeInfo_ r = info ∧ (address r ∈ unwatched s ∨ ∃ o, ClientProxy.both (E := E) p = Some (o, r) ∧ linked (state s).2 o r)).
Proof.
  intros Hs. pose proof (star_invariant _ _ clients_inv_step _ _ Hs (clients_inv_start a e)) as (Hidle & Hown & Hw).
  split; [exact Hidle|]. intros Hnone info p r Hp Hr. split; [by eapply Hown|].
  destruct (Hw info p r Hp Hr) as [?|[?|Hpend]]; [by left|by right|]. rewrite Hnone in Hpend. by apply elem_of_nil in Hpend.
Qed.

(** *** One call *)
(** Registering a client, when no other call comes in between: its callback is the one events go to, in the
    place of the client that had the same key, whose death will not be told any more; the other clients stay, the
    access manager is told of a client, and the cache keeps the key of the last client of its type of
    business unless it is local. *)
Theorem client_registered info cb this e :
  own_recipients this →
  wp (RegisterUpdateCallback info cb) (this, e) (λ res s',
    res = CallResult.SUCCESS ∧
    (∀ i, GetUpgradeCallback i s'.1 = if decide (i = info) then cb else GetUpgradeCallback i this) ∧
    AccessManager.isRemoteIdle_ (accessManager s'.1) = false ∧
    (∀ p o r, clientProxyMap_ this !! info = Some p → ClientProxy.both (E := E) p = Some (o, r) → ¬ linked s'.2 o r) ∧
    (∀ o r, linked e o r → upgradeInfo_ r ≠ info → linked s'.2 o r) ∧
    (∀ b, UpdateServiceCache.GetUpgradeInfo b (cache s'.1) =
       if negb (UpgradeInfo.IsLocal info) && bool_decide (b = BusinessType.subType (UpgradeInfo.businessType info)) && UpdateServiceCache.IsTypelegal b
       then info else UpdateServiceCache.GetUpgradeInfo b (cache this)) ∧
    own_recipients s'.1).
Proof.
  intros Hown. unfold RegisterUpdateCallback. apply wp_bind, wp_Unregister. intros this1 e1 Hmap1 Hmade1 Hcache1 _ Hlinks1.
  apply wp_bind, wp_insert. intros b this2 e2 p Hcb Hrec Hmap2 Hmade2 Hcache2 Hidle2 Hlinks2 _.
  rewrite Hmap1, lookup_delete_eq in Hmap2. rewrite insert_delete_eq in Hmap2.
  apply wp_bind. eapply (wp_mono _ _ (λ _ s', clientProxyMap_ s'.1 = clientProxyMap_ this2 ∧ made s'.1 = made this2 ∧
    AccessManager.isRemoteIdle_ (accessManager s'.1) = false ∧ s'.2 = e2 ∧
    cache s'.1 = if UpgradeInfo.IsLocal info then cache this else UpdateServiceCache.SetUpgradeInfo info (cache this))).
  2: { assert (AccessManager.isRemoteIdle_ (accessManager this2) = false) as Hidle.
       { rewrite Hidle2. apply bool_decide_eq_false. rewrite Hmap2. apply insert_non_empty. }
       destruct (UpgradeInfo.IsLocal info); cbn [negb]; [apply wp_ret|apply wp_set_own]; split_and!; try done; cbn; by rewrite ?Hcache2, ?Hcache1. }
  intros [] [this3 e3] (Hmap3 & Hmade3 & Hidle3 & He3 & Hcache3). cbn [fst snd] in *. subst e3. apply wp_ret. cbn [fst snd].
  split_and!; [done| |done| | | |].
  - intros i. unfold GetUpgradeCallback. rewrite Hmap3, Hmap2. destruct (decide (i = info)) as [->|Hne].
    + by rewrite lookup_insert_eq.
    + by rewrite lookup_insert_ne.
  - intros p' o r Hp' Hboth. rewrite Hlinks2, Hlinks1. intros [[_ Hnot]|[_ Hp]]; [by eapply Hnot|].
    apply both_recipient in Hp, Hboth. apply Hrec in Hp as ->. destruct (Hown info p' _ Hp' Hboth) as [_ Hlt]. cbn in Hlt. lia.
  - intros o r Hlink Hne. rewrite Hlinks2, Hlinks1. left. split; [done|]. intros p' Hp' Hboth. apply both_recipient in Hboth.
    by destruct (Hown info p' r Hp' Hboth).
  - intros c. rewrite Hcache3. destruct (UpgradeInfo.IsLocal info); cbn [negb andb]; [done|].
    unfold UpdateServiceCache.GetUpgradeInfo, UpdateServiceCache.SetUpgradeInfo. by rewrite UpdateServiceCache.get_set.
  - intros i p' r. rewrite Hmap3, Hmap2, Hmade3, Hmade2. rewrite lookup_insert_Some. intros [[<- <-]|[_ Hi]] Hr.
    + apply Hrec in Hr as ->. cbn. split; [done|lia].
    + destruct (Hown i p' r Hi Hr). split; [done|lia].
Qed.
End deaths.

(** ** Witnesses *)
Module SampleClients.
Import Clients.
(** The recipients each object will tell, and the objects that are dead. *)
Record env := { links : list (Z * Recipient); dead : list Z }.
#[local] Instance kits : RemoteObjects env := {
  AsObject x := Some x;
  new_recipient := ret true;
  AddDeathRecipient o r := λ e,
    if bool_decide (o ∈ dead e) then (false, e) else (true, {| links := (o, r) :: links e; dead := dead e |});
  RemoveDeathRecipient o r := λ e, (true, {| links := filter (λ x, x ≠ (o, r)) (links e); dead := dead e |})
}.
#[local] Program Instance laws : RemoteLaws env := {
  linked e o r := (o, r) ∈ links e;
  die o := λ e, ((filter (λ x, x.1 = o) (links e)).*2, {| links := filter (λ x, x.1 ≠ o) (links e); dead := o :: dead e |})
}.
Next Obligation. done. Qed.
Next Obligation.
  intros e o r o' r'. unfold exec, eval, AddDeathRecipient, kits. case_bool_decide; cbn; [naive_solver|]. rewrite elem_of_cons. naive_solver.
Qed.
Next Obligation. intros e o r o' r'. cbn. rewrite list_elem_of_filter. naive_solver. Qed.
Next Obligation. intros e o o' r. cbn. rewrite list_elem_of_filter. naive_solver. Qed.
Next Obligation.
  intros e o r. cbn. rewrite list_elem_of_fmap. split.
  - intros ([o' r'] & -> & Hx). apply list_elem_of_filter in Hx as [Ho Hx]. cbn in *. by subst.
  - intros Hx. exists (o, r). split; [done|]. by apply list_elem_of_filter.
Qed.

Definition none : env := {| links := []; dead := [] |}.
Definition access : AccessManager.t env := AccessManager.initial env.
Definition app : UpgradeInfo.t := UpgradeInfo.default.
(** A client that has died and whose notification is under way. *)
Definition died : sys (S := env) :=
  {| state := ((exec (insert_client app (Some 1)) (initial env access, none)).1, {| links := []; dead := [1] |});
     pending := [{| address := 0; upgradeInfo_ := app |}]; unwatched := [] |}.
Lemma died_reachable : star step (start access none) died.
Proof.
  eapply star_step; [apply (step_insert _ app (Some 1))|]. eapply star_step; [apply (step_dies _ 1)|]. apply star_refl.
Qed.
Lemma clients_tracked_witness :
  ∃ s, star step (start access none) s ∧ pending s = [] ∧ AccessManager.isRemoteIdle_ (accessManager (state s).1) = true.
Proof.
  pose (s := {| state := exec (OnRemoteDied {| address := 0; upgradeInfo_ := app |}) (state died); pending := []; unwatched := [] |} : sys (S := env)).
  assert (star step (start access none) s) as Hs.
  { eapply star_trans; [exact died_reachable|]. eapply star_step; [|apply star_refl].
    exact (step_told died [] {| address := 0; upgradeInfo_ := app |} [] eq_refl). }
  exists s. split_and!; [exact Hs|done|].
  destruct (clients_tracked access none s Hs) as [-> _]. vm_compute. reflexivity.
Defined.
Lemma client_registered_witness :
  GetUpgradeCallback app (exec (RegisterUpdateCallback app (Some 2)) (state died)).1 = Some 2.
Proof.
  destruct (star_invariant _ _ clients_inv_step _ _ died_reachable (clients_inv_start access none)) as (_ & Hown & _).
  pose proof (client_registered app (Some 2) (state died).1 (state died).2 Hown) as (_ & -> & _). reflexivity.
Defined.
(** The notification of a death removes whoever has the key by then: a client that registers
    with the key of one that has died, before the service is told, is removed although it is alive. *)
Lemma late_notice_removes_successor :
  let registered := exec (RegisterUpdateCallback app (Some 2)) (state died) in
  GetUpgradeCallback app registered.1 = Some 2 ∧
  GetUpgradeCallback app (exec (OnRemoteDied {| address := 0; upgradeInfo_ := app |}) registered).1 = None ∧
  2 ∉ dead registered.2.
Proof. split_and!; [vm_compute; reflexivity..|]. vm_compute. set_solver. Qed.
End SampleClients.
