(* ===== verification/Access.v ===== *)
(** * Who may ask for what

    Models the tests a request passes before the service handles it ([CallbackEnter] of
    [services/engine/src/update_service.cpp], [PermissionCheck] and what it calls of
    [update_service_common.cpp]), the dispatch to the extension
    ([CallbackParcel]), the audit of a refused reset ([audit_event_report.cpp]), and
    what the requests for a reset and for a local package do ([update_service_restorer.cpp],
    [update_service_local_updater.cpp]).  The generated stub calls [CallbackEnter] with the code of a
    request first.  The access tokens, the updater and the storage manager are classes. *)
From Stdlib Require Import ZArith Lia Ascii String.
From stdpp Require Import base tactics list strings gmap.
From S2P Require Import Prelude CppString Json Models FirmwareWorld Unlock ModuleManager.

#[local] Open Scope Z_scope.

Module UpdaterSaInterfaceCode.
(*@* interfaces/inner_api/include/updater_sa_ipc_interface_code.h UpdaterSaInterfaceCode *)
Definition CHECK_VERSION : Z := 1.
Definition DOWNLOAD : Z := 2.
Definition PAUSE_DOWNLOAD : Z := 3.
Definition RESUME_DOWNLOAD : Z := 4.
Definition UPGRADE : Z := 5.
Definition CLEAR_ERROR : Z := 6.
Definition TERMINATE_UPGRADE : Z := 7.
Definition SET_POLICY : Z := 8.
Definition GET_POLICY : Z := 9.
Definition GET_NEW_VERSION : Z := 10.
Definition GET_NEW_VERSION_DESCRIPTION : Z := 11.
Definition GET_CURRENT_VERSION : Z := 12.
Definition GET_CURRENT_VERSION_DESCRIPTION : Z := 13.
Definition GET_TASK_INFO : Z := 14.
Definition REGISTER_CALLBACK : Z := 15.
Definition UNREGISTER_CALLBACK : Z := 16.
Definition CANCEL : Z := 17.
Definition FACTORY_RESET : Z := 18.
Definition APPLY_NEW_VERSION : Z := 19.
Definition VERIFY_UPGRADE_PACKAGE : Z := 20.
Definition FORCE_FACTORY_RESET : Z := 21.
Definition DEEP_FACTORY_RESET : Z := 22.
Definition GET_DEEP_FACTORY_RESET_INFO : Z := 23.
End UpdaterSaInterfaceCode.

(** The calling process, its token and permissions; the system parameters.  [GetHapTokenInfo]
    gives a result and the bundle name. *)
Class TokenKits (E : Type) := {
  TOKEN_HAP : Z;
  TOKEN_NATIVE : Z;
  PERMISSION_GRANTED : Z;
  GetCallingTokenID : E → Z;
  GetCallingFullTokenID : E → Z;
  GetCallingUid : E → Z;
  GetTokenType : E → Z → Z;
  IsSystemAppByFullTokenID : E → Z → bool;
  VerifyAccessToken : E → Z → string → Z;
  GetHapTokenInfo : E → Z → Z * string;
  GetBoolParameter : E → string → bool → bool
}.
(** The audit: the text of a cJSON object with these members ([None] without memory), and the report
    of an event; the system events. *)
Class AuditKits (E : Type) := {
  print_object : E → list (string * (Z + string)) → option string;
  ReportSecurityInfo : Z → string → string → ST E Z;
  SYS_EVENT_SYSTEM_RESET : string → ST E unit;
  SYS_EVENT_SYSTEM_UPGRADE : string → ST E unit
}.

Module UpdateSystemEvent.
(*@* foundations/ability/sys_event/include/update_system_event.h = *)
Definition UPGRADE_START : string := "upgrade start".
Definition RESET_START : string := "reset start".
Definition EVENT_FAILED_RESULT : string := "failed".
Definition EVENT_SUCCESS_RESULT : string := "success".
End UpdateSystemEvent.

Module AuditEventReport.
(*@ engine/src/audit_event_report.cpp eventId *)
Definition eventId : Z := 0x36000001.
(*@ engine/src/audit_event_report.cpp AuditEventReport::ReportResetAuditEvent *)
Definition ReportResetAuditEvent {E} `{AuditKits E} (caller : string) : ST E Z :=
  if (caller =? "")%string then ret CallResult.FAIL
  else
    let* text := gets (λ e, print_object e [("type", inl 0); ("subType", inl (-1)); ("caller", inr caller); ("objectInfo", inr "")]) in
    match text with
    | None => ret CallResult.FAIL
    | Some reportContent =>
        let* ret_ := ReportSecurityInfo eventId "1.0" reportContent in
        if negb (ret_ =? 0) then ret CallResult.FAIL else ret CallResult.SUCCESS
    end.
End AuditEventReport.

Module UpdateService.
(*@* engine/src/update_service_common.cpp = *)
Definition ROOT_UID : Z := 0.
Definition EDM_UID : Z := 3057.
Definition CDM_UID : Z := 8011.
Definition MDM_DISABLE_RESET_PARA : string := "persist.edm.reset_factory_disallowed".

Section ops.
Import UpdaterSaInterfaceCode.
Context {E Parcels Reason : Type} `{TokenKits E, AuditKits E}.
(*@* engine/src/update_service_common.cpp UpdateService::= *)
Definition IsCallerValid (e : E) : bool :=
  let callerToken := GetCallingTokenID e in
  let callerTokenType := GetTokenType e callerToken in
  if callerTokenType =? TOKEN_HAP then IsSystemAppByFullTokenID e (GetCallingFullTokenID e)
  else if callerTokenType =? TOKEN_NATIVE then
    let callerUid := GetCallingUid e in
    (callerUid =? ROOT_UID) || (callerUid =? EDM_UID) || (callerUid =? CDM_UID)
  else false.
Definition IsPermissionGranted (e : E) (code : Z) : bool :=
  let callerToken := GetCallingTokenID e in
  let permission := "ohos.permission.UPDATE_SYSTEM" in
  let permission :=
    if (code =? FACTORY_RESET) || (code =? DEEP_FACTORY_RESET) || (code =? GET_DEEP_FACTORY_RESET_INFO)
    then "ohos.permission.FACTORY_RESET" else permission in
  let permission := if code =? FORCE_FACTORY_RESET then "ohos.permission.FORCE_FACTORY_RESET" else permission in
  VerifyAccessToken e callerToken permission =? PERMISSION_GRANTED.
Definition IsResetDisabledByMdm (e : E) (code : Z) : bool :=
  let resetCodes := [FORCE_FACTORY_RESET; FACTORY_RESET; DEEP_FACTORY_RESET] in
  if existsb (Z.eqb code) resetCodes then GetBoolParameter e MDM_DISABLE_RESET_PARA false else false.
Definition GetCallingAppId (e : E) : string :=
  let callerToken := GetCallingTokenID e in
  let callerTokenType := GetTokenType e callerToken in
  if callerTokenType =? TOKEN_HAP then
    let (ret_, bundleName) := GetHapTokenInfo e callerToken in
    if negb (ret_ =? 0) then "" else bundleName
  else if callerTokenType =? TOKEN_NATIVE then to_string (GetCallingUid e)
  else "".
Definition PermissionCheck (code : Z) : ST E Z :=
  let* valid := gets IsCallerValid in
  if negb valid then ret CallResult.NOT_SYSTEM_APP
  else
    let* granted := gets (λ e, IsPermissionGranted e code) in
    if negb granted then ret CallResult.APP_NOT_GRANTED
    else
      let* disabled := gets (λ e, IsResetDisabledByMdm e code) in
      if disabled : bool then
        let* appId := gets GetCallingAppId in
        AuditEventReport.ReportResetAuditEvent appId ;;;
        ret CallResult.MDM_DISABLE_RESET
      else
        (when code =? FACTORY_RESET do SYS_EVENT_SYSTEM_RESET UpdateSystemEvent.RESET_START) ;;;
        ret CallResult.SUCCESS.
(*@* engine/src/update_service.cpp UpdateService::= *)
Definition IsUserUnlockRequired (code : Z) : bool :=
  negb (existsb (Z.eqb code)
    [FACTORY_RESET; APPLY_NEW_VERSION; VERIFY_UPGRADE_PACKAGE; FORCE_FACTORY_RESET; DEEP_FACTORY_RESET; GET_DEEP_FACTORY_RESET_INFO]).
Definition CallbackEnter (modules : ModuleManager.t E Parcels Reason) (userUnlockObserver_ : option UpdateUserUnlockObserver.t) (code : Z) : ST E Z :=
  if negb (ModuleManager.IsModuleLoaded modules) then
    if IsUserUnlockRequired code &&
       match userUnlockObserver_ with None => true | Some observer => negb (UpdateUserUnlockObserver.HasUserUnlocked observer) end
    then ret CallResult.FORBIDDEN
    else PermissionCheck code
  else if negb (ModuleManager.IsMapFuncExist code modules) then PermissionCheck code
  else ret CallResult.SUCCESS.
(*@ engine/src/update_service_common.cpp UpdateService::CallbackParcel *)
Definition CallbackParcel (modules : ModuleManager.t E Parcels Reason) (code : Z) (data : Parcels) : ST E Z :=
  if negb (ModuleManager.IsModuleLoaded modules) then ret CallResult.SUCCESS
  else if negb (ModuleManager.IsMapFuncExist code modules) then ret CallResult.SUCCESS
  else
    let* ret_ := ModuleManager.HandleFunc code data modules in
    if negb (ret_ =? CallResult.SUCCESS) then ret ret_ else ret CallResult.FAIL.
(*@ engine/src/update_service_common.cpp UpdateService::OnIdle *)
Definition OnIdle (modules : ModuleManager.t E Parcels Reason) (idleReason : Reason) : ST E Z :=
  ModuleManager.HandleOnIdleFunc "OnIdle" idleReason modules.
End ops.
End UpdateService.

(** ** The factory reset and the local package *)

(** The updater, its mount points, and the storage manager, whose proxy may be missing. *)
Class RestoreKits (E : Type) := {
  GetBlockDeviceByMountPoint : E → string → string;
  RebootAndCleanUserData : string → string → ST E bool;
  RebootAndSecureErase : string → string → ST E bool;
  EstimatedEraseTime : E → string → Z;
  EraseAllUserEncryptedKeys : option (ST E Z);
  RebootAndInstallSdcardPackage : string → list string → ST E bool;
  VerifyPackageWithCallback : string → string → ST E Z
}.

Module UpdateServiceRestorer.
(*@* engine/src/update_service_restorer.cpp = *)
Definition MISC_PATH : string := "/misc".
Definition MISC_FILE : string := "/dev/block/by-name/misc".
Definition CMD_WIPE_DATA : string := "--user_wipe_data".
Section ops.
Context {E : Type} `{TokenKits E, AuditKits E, RestoreKits E}.
(** The same as that of [UpdateService]. *)
(*@ engine/src/update_service_restorer.cpp GetCallingAppId *)
Definition GetCallingAppId (e : E) : string :=
  let callerToken := GetCallingTokenID e in
  let callerTokenType := GetTokenType e callerToken in
  if callerTokenType =? TOKEN_HAP then
    let (ret_, bundleName) := GetHapTokenInfo e callerToken in
    if negb (ret_ =? 0) then "" else bundleName
  else if callerTokenType =? TOKEN_NATIVE then to_string (GetCallingUid e)
  else "".
Definition newline : string := String (ascii_of_nat 10) "".
Definition errorNum_set (n : Z) (businessError : BusinessError.t) : BusinessError.t :=
  {| BusinessError.message := BusinessError.message businessError; BusinessError.errorNum := n; BusinessError.data := BusinessError.data businessError |}.
(*@ engine/src/update_service_restorer.cpp ExecReset *)
Definition ExecReset (businessError : BusinessError.t) (forceFlag : bool) : ST E (Z * BusinessError.t) :=
  let businessError := errorNum_set CallResult.SUCCESS businessError in
  let* miscBlockDev := gets (λ e, GetBlockDeviceByMountPoint e MISC_PATH) in
  let miscBlockDev := if (miscBlockDev =? "")%string then MISC_FILE else miscBlockDev in
  let suffix := newline +:+ if forceFlag then "--reset_enter:forceFactoryReset|" else "--reset_enter:factoryReset|" in
  let* appId := gets GetCallingAppId in
  let paramData := CMD_WIPE_DATA +:+ suffix +:+ appId in
  let* done_ := RebootAndCleanUserData miscBlockDev paramData in
  let ret_ := if done_ : bool then CallResult.SUCCESS else CallResult.FAIL in
  SYS_EVENT_SYSTEM_RESET (if ret_ =? CallResult.SUCCESS then UpdateSystemEvent.EVENT_SUCCESS_RESULT else UpdateSystemEvent.EVENT_FAILED_RESULT) ;;;
  ret (ret_, businessError).
Definition erase_type (factoryResetStrategy : FactoryResetStrategy.t) : string :=
  if FactoryResetStrategy.scope factoryResetStrategy =? FactoryResetScope.DATA then "DATA" else "DATA_AND_OS".
(*@ engine/src/update_service_restorer.cpp ExecuteDeepReset *)
Definition ExecuteDeepReset (factoryResetStrategy : FactoryResetStrategy.t) : ST E Z :=
  let* appId := gets GetCallingAppId in
  let paramData := newline +:+ "--reset_enter:deepFactoryReset|" +:+ appId in
  let* result := RebootAndSecureErase (erase_type factoryResetStrategy) paramData in
  ret (if result : bool then CallResult.SUCCESS else CallResult.FAIL).
(*@ engine/src/update_service_restorer.cpp UpdateServiceRestorer::FileManagerEraseKeys *)
Definition FileManagerEraseKeys : ST E Z :=
  match EraseAllUserEncryptedKeys with None => ret CallResult.FAIL | Some erase => erase end.
(*@ engine/src/update_service_restorer.cpp UpdateServiceRestorer::FactoryReset *)
Definition FactoryReset (businessError : BusinessError.t) : ST E (Z * BusinessError.t) := ExecReset businessError false.
(*@ engine/src/update_service_restorer.cpp UpdateServiceRestorer::ForceFactoryReset *)
Definition ForceFactoryReset (businessError : BusinessError.t) : ST E (Z * BusinessError.t) :=
  let* ret_ := FileManagerEraseKeys in
  if negb (ret_ =? 0) then ret (CallResult.FAIL, businessError) else ExecReset businessError true.
Definition scope_error (businessError : BusinessError.t) : BusinessError.t :=
  {| BusinessError.message := "strategy scope type error"; BusinessError.errorNum := CallResult.FAIL; BusinessError.data := BusinessError.data businessError |}.
Definition known_scope (factoryResetStrategy : FactoryResetStrategy.t) : bool :=
  (FactoryResetStrategy.scope factoryResetStrategy =? FactoryResetScope.DATA) ||
  (FactoryResetStrategy.scope factoryResetStrategy =? FactoryResetScope.DATA_AND_OS).
(*@ engine/src/update_service_restorer.cpp UpdateServiceRestorer::DeepFactoryReset *)
Definition DeepFactoryReset (factoryResetStrategy : FactoryResetStrategy.t) (businessError : BusinessError.t) : ST E (Z * BusinessError.t) :=
  let businessError := errorNum_set CallResult.SUCCESS businessError in
  if negb (known_scope factoryResetStrategy) then ret (CallResult.FAIL, scope_error businessError)
  else
    let* ret_ := ExecuteDeepReset factoryResetStrategy in
    ret (ret_, businessError).
(*@ engine/src/update_service_restorer.cpp UpdateServiceRestorer::GetDeepFactoryResetInfo *)
Definition GetDeepFactoryResetInfo (e : E) (factoryResetStrategy : FactoryResetStrategy.t) (factoryResetInfo : FactoryResetInfo.t)
    (businessError : BusinessError.t) : Z * (FactoryResetInfo.t * BusinessError.t) :=
  let businessError := errorNum_set CallResult.SUCCESS businessError in
  if negb (known_scope factoryResetStrategy) then (CallResult.FAIL, (factoryResetInfo, scope_error businessError))
  else (CallResult.SUCCESS, ({| FactoryResetInfo.duration := to_int32 (EstimatedEraseTime e (erase_type factoryResetStrategy)) |}, businessError)).
End ops.
End UpdateServiceRestorer.

Module UpdateServiceLocalUpdater.
Section ops.
Context {E : Type} `{AuditKits E, RestoreKits E}.
(*@ engine/src/update_service_local_updater.cpp UpdateServiceLocalUpdater::ApplyNewVersion *)
Definition ApplyNewVersion (miscFile : string) (packageNames : list string) (businessError : BusinessError.t) : ST E (Z * BusinessError.t) :=
  SYS_EVENT_SYSTEM_UPGRADE UpdateSystemEvent.UPGRADE_START ;;;
  let businessError := UpdateServiceRestorer.errorNum_set CallResult.SUCCESS businessError in
  let* done_ := RebootAndInstallSdcardPackage miscFile packageNames in
  let ret_ := if done_ : bool then CallResult.SUCCESS else CallResult.FAIL in
  SYS_EVENT_SYSTEM_UPGRADE (if ret_ =? CallResult.SUCCESS then UpdateSystemEvent.EVENT_SUCCESS_RESULT else UpdateSystemEvent.EVENT_FAILED_RESULT) ;;;
  ret (ret_, businessError).
(*@ engine/src/update_service_local_updater.cpp UpdateServiceLocalUpdater::VerifyUpgradePackage *)
Definition VerifyUpgradePackage (packagePath keyPath : string) (businessError : BusinessError.t) : ST E (Z * BusinessError.t) :=
  let businessError := UpdateServiceRestorer.errorNum_set CallResult.SUCCESS businessError in
  let* ret_ := VerifyPackageWithCallback packagePath keyPath in
  ret (if ret_ =? 0 then CallResult.SUCCESS else CallResult.FAIL, businessError).
End ops.
End UpdateServiceLocalUpdater.

(** ** Who is let through *)
Section admitted.
Import UpdaterSaInterfaceCode UpdateService.
Context {E Parcels Reason : Type} `{TokenKits E, AuditKits E}.
Implicit Types (e : E) (code : Z) (modules : ModuleManager.t E Parcels Reason).

(** The processes that may call: system applications, and the native processes of root, of the
    device management and of its counterpart 8011. *)
Definition caller_allowed e : Prop :=
  let type := GetTokenType e (GetCallingTokenID e) in
  (type = TOKEN_HAP ∧ IsSystemAppByFullTokenID e (GetCallingFullTokenID e) = true) ∨
  (type = TOKEN_NATIVE ∧ GetCallingUid e ∈ [0; 3057; 8011]).
(** The permission a request needs. *)
Definition permission_of code : string :=
  if decide (code = FORCE_FACTORY_RESET) then "ohos.permission.FORCE_FACTORY_RESET"
  else if decide (code ∈ [FACTORY_RESET; DEEP_FACTORY_RESET; GET_DEEP_FACTORY_RESET_INFO]) then "ohos.permission.FACTORY_RESET"
  else "ohos.permission.UPDATE_SYSTEM".
(** The requests that erase the data of the user. *)
Definition erases code : Prop := code ∈ [FACTORY_RESET; FORCE_FACTORY_RESET; DEEP_FACTORY_RESET].
Record allowed e code : Prop := {
  allowed_caller : caller_allowed e;
  allowed_permission : VerifyAccessToken e (GetCallingTokenID e) (permission_of code) = PERMISSION_GRANTED;
  allowed_by_management : erases code → GetBoolParameter e MDM_DISABLE_RESET_PARA false = false
}.
(** The requests of resets and of local packages work before a user has unlocked the device. *)
Definition exempt code : Prop :=
  erases code ∨ code ∈ [GET_DEEP_FACTORY_RESET_INFO; APPLY_NEW_VERSION; VERIFY_UPGRADE_PACKAGE].
Definition extended modules code : Prop := ModuleManager.isLoaded modules = true ∧ is_Some (ModuleManager.onRemoteRequestFuncMap_ modules !! code).
Definition unlocked (observer : option UpdateUserUnlockObserver.t) : Prop :=
  ∃ o, observer = Some o ∧ UpdateUserUnlockObserver.initialized_ o = true.

Lemma existsb_eqb code codes : existsb (Z.eqb code) codes = bool_decide (code ∈ codes).
Proof.
  apply eq_true_iff_eq. rewrite bool_decide_eq_true, existsb_exists. setoid_rewrite Z.eqb_eq. setoid_rewrite <- list_elem_of_In. naive_solver.
Qed.
Lemma caller_valid e : (TOKEN_HAP : Z) ≠ TOKEN_NATIVE → IsCallerValid e = true ↔ caller_allowed e.
Proof.
  intros Htypes. unfold IsCallerValid, caller_allowed. cbv zeta. unfold ROOT_UID, EDM_UID, CDM_UID.
  destruct (Z.eqb_spec (GetTokenType e (GetCallingTokenID e)) TOKEN_HAP) as [->|Hhap]; [naive_solver|].
  destruct (Z.eqb_spec (GetTokenType e (GetCallingTokenID e)) TOKEN_NATIVE) as [->|Hnative]; [|naive_solver].
  rewrite !orb_true_iff, !Z.eqb_eq. set_solver.
Qed.
Lemma permission_granted e code : IsPermissionGranted e code = true ↔ VerifyAccessToken e (GetCallingTokenID e) (permission_of code) = PERMISSION_GRANTED.
Proof.
  unfold IsPermissionGranted, permission_of. cbv zeta. rewrite Z.eqb_eq. do 2 f_equiv.
  destruct (decide (code = FORCE_FACTORY_RESET)) as [->|Hforce]; [done|]. rewrite (proj2 (Z.eqb_neq _ _) Hforce).
  assert ((code =? FACTORY_RESET) || (code =? DEEP_FACTORY_RESET) || (code =? GET_DEEP_FACTORY_RESET_INFO) =
    existsb (Z.eqb code) [FACTORY_RESET; DEEP_FACTORY_RESET; GET_DEEP_FACTORY_RESET_INFO]) as -> by (cbn; by rewrite orb_false_r, orb_assoc).
  rewrite existsb_eqb. by case_bool_decide as Hin; destruct (decide _).
Qed.
Lemma unlock_required code : IsUserUnlockRequired code = false ↔ exempt code.
Proof. unfold IsUserUnlockRequired, exempt, erases. rewrite existsb_eqb, negb_false_iff, bool_decide_eq_true. set_solver. Qed.
Lemma reset_disabled e code : IsResetDisabledByMdm e code = false ↔ (erases code → GetBoolParameter e MDM_DISABLE_RESET_PARA false = false).
Proof.
  unfold IsResetDisabledByMdm, erases. cbv zeta. rewrite existsb_eqb. case_bool_decide as Hin; [|set_solver].
  split; [done|]. intros Hp. apply Hp. set_solver.
Qed.

Lemma PermissionCheck_success e code : (TOKEN_HAP : Z) ≠ TOKEN_NATIVE →
  wp (PermissionCheck code) e (λ r e',
    (r = CallResult.SUCCESS ↔ allowed e code) ∧ r ∈ [CallResult.SUCCESS; CallResult.NOT_SYSTEM_APP; CallResult.APP_NOT_GRANTED; CallResult.MDM_DISABLE_RESET] ∧
    (r = CallResult.NOT_SYSTEM_APP ↔ ¬ caller_allowed e) ∧ (r ∈ [CallResult.NOT_SYSTEM_APP; CallResult.APP_NOT_GRANTED] → e' = e)).
Proof.
  intros Htypes. unfold PermissionCheck. apply wp_bind, wp_gets. pose proof (caller_valid e Htypes) as Hcaller.
  destruct (IsCallerValid e); cbn [negb].
  2: { apply wp_ret. split_and!; [split; [done|]| |naive_solver|done]; [|set_solver]. intros [Hc _ _]. by apply Hcaller in Hc. }
  apply wp_bind, wp_gets. pose proof (permission_granted e code) as Hgranted. destruct (IsPermissionGranted e code); cbn [negb].
  2: { apply wp_ret. split_and!; [split; [done|]| |naive_solver|done]; [|set_solver]. intros [_ Hg _]. by apply Hgranted in Hg. }
  apply wp_bind, wp_gets. pose proof (reset_disabled e code) as Hreset. destruct (IsResetDisabledByMdm e code).
  - apply wp_bind, wp_gets, wp_bind, wp_any. intros n e'. apply wp_ret.
    split_and!; [split; [done|]|set_solver|naive_solver|set_solver]. intros [_ _ Hm]. by apply Hreset in Hm.
  - apply wp_bind, wp_any. intros [] e'. apply wp_ret. split_and!; [|set_solver|naive_solver|set_solver].
    split; [|done]. intros _. split; naive_solver.
Qed.

(** C29: Whatever the code of a request: the service lets it through exactly when the extension handles it, or the
    caller is a system application or one of the three native processes, holds the permission of the code, no
    device management forbids it if it erases the data, and, unless an extension is loaded, the user has
    unlocked the device or the code is exempt.  A refused caller changes nothing unless the
    refusal is audited.  A request that the extension handles never reaches the service's own
    handler, so its own handlers only run for callers that are allowed. *)
Theorem request_admitted modules observer code data e : (TOKEN_HAP : Z) ≠ TOKEN_NATIVE →
  wp (CallbackEnter modules observer code) e (λ r e',
    (r = CallResult.SUCCESS ↔
       extended modules code ∨
       (ModuleManager.isLoaded modules = true ∨ exempt code ∨ unlocked observer) ∧ allowed e code) ∧
    r ∈ [CallResult.SUCCESS; CallResult.FORBIDDEN; CallResult.NOT_SYSTEM_APP; CallResult.APP_NOT_GRANTED; CallResult.MDM_DISABLE_RESET] ∧
    (r ∈ [CallResult.FORBIDDEN; CallResult.NOT_SYSTEM_APP; CallResult.APP_NOT_GRANTED] → e' = e) ∧
    (eval (CallbackParcel modules code data) e' = CallResult.SUCCESS → r = CallResult.SUCCESS → allowed e code)).
Proof.
  intros Htypes. unfold CallbackEnter, extended, ModuleManager.IsModuleLoaded.
  assert (∀ e', (ModuleManager.isLoaded modules = true ∧ is_Some (ModuleManager.onRemoteRequestFuncMap_ modules !! code)) →
    eval (CallbackParcel modules code data) e' ≠ CallResult.SUCCESS) as Hparcel.
  { intros e' [Hl Hc]. unfold CallbackParcel, ModuleManager.IsModuleLoaded, ModuleManager.IsMapFuncExist. rewrite Hl, bool_decide_eq_true_2 by done.
    cbn [negb]. st_simpl. destruct (_ =? _) eqn:Hr; cbn; [done|]. by apply Z.eqb_neq. }
  destruct (ModuleManager.isLoaded modules); cbn [negb].
  - unfold ModuleManager.IsMapFuncExist. case_bool_decide as Hc; cbn [negb].
    + apply wp_ret. split_and!; [naive_solver|set_solver|set_solver|]. intros Hp. by destruct (Hparcel e).
    + eapply wp_mono; [|by apply PermissionCheck_success]. intros r e' (Hr & Hin & _ & Hsame).
      split_and!; [naive_solver|set_solver| |naive_solver]. intros Hf. apply Hsame. set_solver.
  - pose proof (unlock_required code) as Hreq.
    assert (match observer with None => true | Some o => negb (UpdateUserUnlockObserver.HasUserUnlocked o) end = false ↔ unlocked observer) as Hunl.
    { unfold unlocked, UpdateUserUnlockObserver.HasUserUnlocked. destruct observer as [o|]; [rewrite negb_false_iff|]; naive_solver. }
    set (locked := match observer with None => true | Some o => _ end) in *.
    destruct (IsUserUnlockRequired code && locked) eqn:Hforbidden.
    + apply andb_true_iff in Hforbidden as [Hq Hl]. rewrite Hq in Hreq. rewrite Hl in Hunl.
      apply wp_ret. split_and!; [split; [done|]|set_solver|done|done]. intros [[[=] _]|[[[=]|[Hx|Hu]] _]]; [by apply Hreq in Hx|by apply Hunl in Hu].
    + apply andb_false_iff in Hforbidden.
      eapply wp_mono; [|by apply PermissionCheck_success]. intros r e' (Hr & Hin & _ & Hsame).
      split_and!; [|set_solver| |naive_solver].
      * rewrite Hr. split; [|naive_solver]. intros Ha. right. split; [|done]. destruct Hforbidden as [Hf|Hf]; [right; left; by apply Hreq|right; right; by apply Hunl].
      * intros Hf. apply Hsame. set_solver.
Qed.
End admitted.

(** ** Witness *)
Module SampleAccess.
Import UpdaterSaInterfaceCode UpdateService.
(** A native process with a user id; no device management. *)
#[local] Instance tokens : TokenKits Z := {
  TOKEN_HAP := 0; TOKEN_NATIVE := 1; PERMISSION_GRANTED := 0;
  GetCallingTokenID _ := 7; GetCallingFullTokenID _ := 7; GetCallingUid uid := uid; GetTokenType _ _ := 1;
  IsSystemAppByFullTokenID _ _ := false; VerifyAccessToken _ _ p := if (p =? "ohos.permission.UPDATE_SYSTEM")%string then -1 else 0;
  GetHapTokenInfo _ _ := (-1, ""); GetBoolParameter _ _ d := d
}.
#[local] Instance audit : AuditKits Z := {
  print_object _ _ := None; ReportSecurityInfo _ _ _ := ret 0; SYS_EVENT_SYSTEM_RESET _ := ret tt; SYS_EVENT_SYSTEM_UPGRADE _ := ret tt
}.
Definition modules : ModuleManager.t Z unit unit := ModuleManager.new Z unit unit.
(** The device management may reset before the user has unlocked the device, but not download. *)
Lemma request_admitted_witness :
  eval (CallbackEnter modules None FACTORY_RESET) 3057 = CallResult.SUCCESS ∧ eval (CallbackEnter modules None DOWNLOAD) 3057 ≠ CallResult.SUCCESS.
Proof.
  assert ((TOKEN_HAP : Z) ≠ TOKEN_NATIVE) as Htypes by (vm_compute; discriminate).
  split.
  - apply (proj1 (request_admitted modules None FACTORY_RESET tt 3057 Htypes)). right. split; [right; left; left; apply (bool_decide_unpack _); vm_compute; exact I|].
    split; [|reflexivity|reflexivity]. right. split; [reflexivity|]. apply (bool_decide_unpack _); vm_compute; exact I.
  - intros Hr. apply (proj1 (request_admitted modules None DOWNLOAD tt 3057 Htypes)) in Hr as [[[=] _]|[_ [_ [=] _]]].
Defined.
End SampleAccess.
