(* ===== verification/UpdateService.v ===== *)
(** * The service

    Models what is left of [services/engine/src/update_service.cpp] and
    [update_service_common.cpp]: the requests about firmware, which go to an online
    updater ([update_service_impl_manager.cpp], [OnlineUpdater]), the requests of [Access],
    the dump, and the start and the end of the service.  Every request has a result of the call besides its
    out parameters; [funcResult] is never set. *)
From Stdlib Require Import ZArith Lia Ascii String.
From stdpp Require Import base tactics list strings gmap sorting.
From S2P Require Import Prelude CppString StringUtils Json Models Database FirmwareDb FirmwareWorld Files JsonUtils DownloadData DownloadService FirmwareHelper Device Alarms Startup CheckProcessor Installer DownloadExecutor Modes Flow FirmwareManager Unlock OnlineUpdater ModuleManager Clients Access.
Import FirmwareWorld.World (on_db, on_env, asks, send).

#[local] Open Scope Z_scope.

Module UpdateServiceImplManager.
(** The updaters by the client they serve, each with its [checkComplete_]; only objects are
    inserted. *)
(*@ engine/include/update_service_impl_manager.h:39-40 UpdateServiceImplManager *)
Definition t : Type := gmap UpgradeInfo.t bool.
(** Is there an updater, when the request returns. *)
(*@ engine/src/update_service_impl_manager.cpp UpdateServiceImplManager::GetOnlineUpdater *)
Definition GetOnlineUpdater {E} (info : UpgradeInfo.t) : ST (t * E) bool :=
  let* there := own_ (λ updateImpMap_ : t, bool_decide (is_Some (updateImpMap_ !! info))) in
  if there : bool then ret true
  else if BusinessType.subType (UpgradeInfo.businessType info) =? BusinessSubType.FIRMWARE then
    set_own (λ updateImpMap_ : t, <[info := false]> updateImpMap_) ;;;
    ret true
  else ret false.
End UpdateServiceImplManager.

Module Requests.
Section ops.
Context {R E : Type} `{Rdb R, Platform E, Sha256, Downloads E, Preferences E, Subscribers E, !InstallKits E, DownloadTasks E, CheckKits E,
  CheckCache E, RebootKits E, !ServiceKits E, UpgradeAlarms E, DeviceKits E, AbilityKits E, FileSystem E, TriggerCache E}.
#[local] Notation Manager := (ST (UpdateServiceImplManager.t * (Flows * World R E))).
Implicit Types (info : UpgradeInfo.t) (businessError : BusinessError.t).

(** A request is passed to the updater of the client; without one the call fails and the out
    parameters stay as they were. *)
(*@ engine/src/update_service.cpp:108-113 UpdateService::GetNewVersionInfo *)
Definition delegate {A} info (out : A) (m : Manager A) : Manager (Z * A) :=
  let* onlineUpdater := UpdateServiceImplManager.GetOnlineUpdater info in
  if negb onlineUpdater then ret (CallResult.FAIL, out)
  else let* out := m in ret (CallResult.SUCCESS, out).
(** What concerns the stored version, and what reads the device. *)
Definition on_version {A} (m : ST (World R E) A) : Manager A := env_ (env_ m).
Definition on_device {A} (f : E → A) : Manager A := on_version (asks f).
(*@* engine/src/update_service.cpp UpdateService::= *)
Definition GetNewVersionInfo info (newVersionInfo : NewVersionInfo.t) businessError : Manager (Z * (NewVersionInfo.t * BusinessError.t)) :=
  delegate info (newVersionInfo, businessError)
    (let* v := on_version (UpdateServiceImplFirmware.GetNewVersionInfo newVersionInfo) in ret (v, businessError)).
(** [None]: an exception. *)
Definition GetNewVersionDescription info (descriptionOptions : DescriptionOptions.t) (newVersionDescriptionInfo : VersionDescriptionInfo.t)
    businessError : Manager (Z * option (VersionDescriptionInfo.t * BusinessError.t)) :=
  delegate info (Some (newVersionDescriptionInfo, businessError))
    (on_version (UpdateServiceImplFirmware.GetNewVersionDescription descriptionOptions newVersionDescriptionInfo businessError)).
Definition GetCurrentVersionInfo info (currentVersionInfo : CurrentVersionInfo.t) businessError : Manager (Z * (CurrentVersionInfo.t * BusinessError.t)) :=
  delegate info (currentVersionInfo, businessError)
    (on_device (λ e, UpdateServiceImplFirmware.GetCurrentVersionInfo e currentVersionInfo businessError)).
Definition GetCurrentVersionDescription info (descriptionOptions : DescriptionOptions.t) (currentVersionDescriptionInfo : VersionDescriptionInfo.t)
    businessError : Manager (Z * option (VersionDescriptionInfo.t * BusinessError.t)) :=
  delegate info (Some (currentVersionDescriptionInfo, businessError))
    (on_device (λ e, UpdateServiceImplFirmware.GetCurrentVersionDescription e descriptionOptions currentVersionDescriptionInfo businessError)).
Definition GetTaskInfo info (taskInfo : TaskInfo.t) businessError : Manager (Z * (TaskInfo.t * BusinessError.t)) :=
  delegate info (taskInfo, businessError) (on_version (UpdateServiceImplFirmware.GetTaskInfo taskInfo businessError)).
Definition SetUpgradePolicy info (policy : UpgradePolicy.t) businessError : Manager (Z * BusinessError.t) :=
  delegate info businessError (on_version (UpdateServiceImplFirmware.SetUpgradePolicy policy businessError)).
Definition GetUpgradePolicy info (policy : UpgradePolicy.t) businessError : Manager (Z * (UpgradePolicy.t * BusinessError.t)) :=
  delegate info (policy, businessError) (on_device (λ e, (UpdateServiceImplFirmware.GetUpgradePolicy e policy, businessError))).
(** The answers that arrive before and while the request waits; its flag is the updater's. *)
Definition CheckNewVersion (before during : list UpdateServiceImplFirmware.Arrival) info businessError (checkResult : CheckResult.t) :
    Manager (Z * (BusinessError.t * CheckResult.t)) :=
  delegate info (businessError, checkResult)
    (let* checkComplete := own_ (λ updateImpMap_, default false (updateImpMap_ !! info)) in
     let* (checkComplete, out) := env_ (UpdateServiceImplFirmware.CheckNewVersion before during checkComplete businessError checkResult) in
     set_own (λ updateImpMap_ : UpdateServiceImplManager.t, <[info := checkComplete]> updateImpMap_) ;;;
     ret out).
Definition Download info (downloadOptions : DownloadOptions.t) businessError : Manager (Z * BusinessError.t) :=
  delegate info businessError (env_ (UpdateServiceImplFirmware.Download downloadOptions businessError)).
(** The next two are answered without the updater, which has methods for them. *)
Definition PauseDownload businessError : Z * BusinessError.t :=
  let businessError := UpdateServiceRestorer.errorNum_set CallResult.SUCCESS businessError in
  (CallResult.SUCCESS, BusinessError.Build businessError CallResult.UN_SUPPORT "PauseDownload unsupport").
Definition ResumeDownload businessError : Z * BusinessError.t :=
  (CallResult.SUCCESS, BusinessError.Build businessError CallResult.UN_SUPPORT "ResumeDownload unsupport").
Definition Upgrade info (upgradeOptions : UpgradeOptions.t) businessError : Manager (Z * BusinessError.t) :=
  delegate info businessError (env_ (UpdateServiceImplFirmware.Upgrade upgradeOptions businessError)).
Definition ClearError info businessError : Manager (Z * BusinessError.t) :=
  delegate info businessError (on_version (UpdateServiceImplFirmware.ClearError businessError)).
(** Whether the process will end, too. *)
Definition TerminateUpgrade info businessError : Manager (Z * (BusinessError.t * bool)) :=
  delegate info (businessError, false) (on_version (UpdateServiceImplFirmware.TerminateUpgrade businessError)).
Definition Cancel info businessError : Manager (Z * BusinessError.t) :=
  delegate info businessError (on_version (UpdateServiceImplFirmware.Cancel businessError)).
End ops.

(** Resets and local packages: the objects that serve them are made for one request. *)
Section restorer.
Context {E : Type} `{TokenKits E, AuditKits E, RestoreKits E}.
Implicit Types (businessError : BusinessError.t).
(*@ engine/src/update_service_common.cpp UpdateService::FactoryReset *)
Definition FactoryReset businessError : ST E (Z * BusinessError.t) := UpdateServiceRestorer.FactoryReset businessError.
(*@ engine/src/update_service_common.cpp UpdateService::ForceFactoryReset *)
Definition ForceFactoryReset businessError : ST E (Z * BusinessError.t) := UpdateServiceRestorer.ForceFactoryReset businessError.
(*@ engine/src/update_service_common.cpp UpdateService::DeepFactoryReset *)
Definition DeepFactoryReset (factoryResetStrategy : FactoryResetStrategy.t) businessError : ST E (Z * BusinessError.t) :=
  UpdateServiceRestorer.DeepFactoryReset factoryResetStrategy businessError.
(*@ engine/src/update_service_common.cpp UpdateService::GetDeepFactoryResetInfo *)
Definition GetDeepFactoryResetInfo (e : E) (factoryResetStrategy : FactoryResetStrategy.t) (factoryResetInfo : FactoryResetInfo.t) businessError :
    Z * (FactoryResetInfo.t * BusinessError.t) :=
  UpdateServiceRestorer.GetDeepFactoryResetInfo e factoryResetStrategy factoryResetInfo businessError.
(*@ engine/src/update_service.cpp UpdateService::ApplyNewVersion *)
Definition ApplyNewVersion (miscFile : string) (packageNames : list string) businessError : ST E (Z * BusinessError.t) :=
  UpdateServiceLocalUpdater.ApplyNewVersion miscFile packageNames businessError.
(*@ engine/src/update_service.cpp UpdateService::VerifyUpgradePackage *)
Definition VerifyUpgradePackage (packagePath keyPath : string) businessError : ST E (Z * BusinessError.t) :=
  UpdateServiceLocalUpdater.VerifyUpgradePackage packagePath keyPath businessError.
End restorer.
End Requests.

(** ** The dump

    [dprintf] lines, the text of [%s] up to its first zero byte. *)
Module Dump.
Definition line (label value : string) : string := label +:+ value +:+ String (ascii_of_nat 10) "".
Definition number (n : Z) : string := to_string n.
(*@* engine/src/update_service_common.cpp = *)
Definition BuildUpgradeInfoDump (info : UpgradeInfo.t) : list string := [
  line "---------------------upgrade info info--------------------" "";
  line "UpgradeApp: " (UpdateServiceJsonUtils.c_str (UpgradeInfo.upgradeApp info));
  line "vendor: " (UpdateServiceJsonUtils.c_str (BusinessType.vendor (UpgradeInfo.businessType info)));
  line "subType: " (number (BusinessType.subType (UpgradeInfo.businessType info)))].
(** Nothing calls it. *)
Definition BuildVersionInfoDump (checkResult : CheckResult.t) : list string :=
  [line "---------------------version info--------------------" "";
   line "isExistNewVersion: " (number (if CheckResult.isExistNewVersion checkResult then 1 else 0))] ++
  match NewVersionInfo.versionComponents (CheckResult.newVersionInfo checkResult) with
  | [] => []
  | c :: _ => [
      line "PackageSize: " (number (to_uint64 (VersionComponent.size c)));
      line "ComponentType: " (number (VersionComponent.componentType c));
      line "UpgradeAction: " (UpdateServiceJsonUtils.c_str (VersionComponent.upgradeAction c));
      line "DisplayVersion: " (UpdateServiceJsonUtils.c_str (VersionComponent.displayVersion c));
      line "InnerVersion: " (UpdateServiceJsonUtils.c_str (VersionComponent.innerVersion c));
      line "Content: " (UpdateServiceJsonUtils.c_str (DescriptionInfo.content (VersionComponent.descriptionInfo c)))]
  end.
(** The task of the client with the default [UpgradeInfo]. *)
Definition BuildTaskInfoDump (taskInfo : TaskInfo.t) : list string :=
  if negb (TaskInfo.existTask taskInfo) then [line "TaskInfo is empty" ""]
  else
    let body := TaskInfo.taskBody taskInfo in
    [line "---------------------OTA status info--------------------" "";
     line "Progress: " (number (TaskBody.progress body));
     line "UpgradeStatus: " (number (TaskBody.status body));
     line "SubStatus: " (number (TaskBody.subStatus body))] ++
    flat_map (λ m, [line "ErrorCode: " (number (ErrorMessage.errorCode m)); line "ErrorMsg: " (UpdateServiceJsonUtils.c_str (ErrorMessage.errorMessage m))])
      (TaskBody.errorMessages body).
(*@ engine/src/update_service_common.cpp UpdateService::DumpUpgradeCallback *)
Definition DumpUpgradeCallback (clients : gmap UpgradeInfo.t ClientProxy.t) : list string :=
  line "---------------------callback info--------------------" "" :: map (λ x, line (UpdateServiceJsonUtils.c_str (UpgradeInfo.ToString x.1)) "") (in_order clients).
(** The result, and what is written to the descriptor. *)
(*@ engine/src/update_service_common.cpp UpdateService::Dump *)
Definition Dump {E Parcels Reason S} (modules : ModuleManager.t E Parcels Reason) (clients : Clients.t S) (task : ST E TaskInfo.t) (fd : Z)
    (args : list string) : ST E (Z * list string) :=
  if negb (ModuleManager.IsModuleLoaded modules) then
    if fd <? 0 then ret (-1, [])
    else if (length args =? 0)%nat then
      let* taskInfo := task in
      ret (0, BuildUpgradeInfoDump (UpdateServiceCache.GetUpgradeInfo BusinessSubType.FIRMWARE (Clients.cache clients)) ++
              BuildTaskInfoDump taskInfo ++ DumpUpgradeCallback (Clients.clientProxyMap_ clients))
    else ret (0, [line "input error, no parameters required" ""])
  else
    let* ret_ := ModuleManager.HandleDumpFunc "Dump" fd args modules in
    ret (ret_, []).
End Dump.

(** ** The start and the end *)
Class AbilityHost (E : Type) := { Publish : ST E bool }.

Module Ability.
(** The members and singletons of the process. *)
(*@ engine/include/update_service.h:174-174 UpdateService *)
Record t (E Parcels Reason : Type) := {
  configInfo_ : ConfigParse.ConfigInfo;
  modules : ModuleManager.t E Parcels Reason;
  userUnlockObserver_ : option UpdateUserUnlockObserver.t
}.
Arguments configInfo_ {_ _ _}. Arguments modules {_ _ _}. Arguments userUnlockObserver_ {_ _ _}. Arguments Build_t {_ _ _}.
(*@ engine/include/update_service.h:174-174 UpdateService *)
Definition fresh (E Parcels Reason : Type) : t E Parcels Reason := Build_t ConfigParse.initial (ModuleManager.new E Parcels Reason) None.

Section ops.
Context {E Parcels Reason J : Type} `{FileSystem E, CJson J, AccountKits E, !ModuleManager.Loader E Parcels Reason, AbilityHost E}.
#[local] Notation Op := (ST (t E Parcels Reason * E)).
(** [NetManager::Init] and [StartupManager::Start]. *)
Context (InitBusinessAfterUnlock : ST E unit).
Definition set_config (c : ConfigParse.ConfigInfo) (this : t E Parcels Reason) : t E Parcels Reason := Build_t c (modules this) (userUnlockObserver_ this).
Definition set_modules (m : ModuleManager.t E Parcels Reason) (this : t E Parcels Reason) : t E Parcels Reason := Build_t (configInfo_ this) m (userUnlockObserver_ this).
Definition set_observer (o : UpdateUserUnlockObserver.t) (this : t E Parcels Reason) : t E Parcels Reason := Build_t (configInfo_ this) (modules this) (Some o).

(** The threads of the observer, one after the other: when nothing else runs, these are [Start] and the task
    it submits.  The result counts the calls of [InitBusinessAfterUnlock]. *)
(*@ core/ability/user_unlock/src/update_user_unlock_observer.cpp UpdateUserUnlockObserver::TryNotifyUnlocked *)
Fixpoint run_threads (fuel : nat) (ps : list UpdateUserUnlockObserver.Thread) : ST (UpdateUserUnlockObserver.t * E) nat :=
  match fuel, ps with
  | S fuel, p :: ps =>
      let* l := UpdateUserUnlockObserver.run p in
      (when UpdateUserUnlockObserver.is_calling p do env_ InitBusinessAfterUnlock) ;;;
      let* calls := run_threads fuel (l ++ ps) in
      ret ((if UpdateUserUnlockObserver.is_calling p then 1 else 0) + calls)%nat
  | _, _ => ret 0%nat
  end.
(** [Start] takes at most its three parts and three of the notification. *)
(*@ core/ability/user_unlock/src/update_user_unlock_observer.cpp UpdateUserUnlockObserver::Start *)
Definition Start : ST (UpdateUserUnlockObserver.t * E) nat := run_threads 6 [UpdateUserUnlockObserver.Starting].

(** A method of the module manager, and one of the observer. *)
Definition on_modules {A} (m : ST (ModuleManager.t E Parcels Reason * E) A) : Op A := λ s,
  let (a, y) := m (modules s.1, s.2) in (a, (set_modules y.1 s.1, y.2)).
Definition on_observer {A} (none : A) (m : ST (UpdateUserUnlockObserver.t * E) A) : Op A := λ s,
  match userUnlockObserver_ s.1 with
  | None => (none, s)
  | Some o => let (a, y) := m (o, s.2) in (a, (set_observer y.1 s.1, y.2))
  end.
(** How often the business of the service was started. *)
(*@ engine/src/update_service.cpp UpdateService::OnStart *)
Definition OnStart (startReason : Reason) : Op nat :=
  (λ s, (tt, (set_config (ConfigParse.LoadConfigInfo s.2 (configInfo_ s.1)) s.1, s.2))) ;;;
  let* libPath := own_ (λ this, ConfigParse.GetModuleLibPath (configInfo_ this)) in
  on_modules (ModuleManager.LoadModule libPath) ;;;
  let* loaded := own_ (λ this, ModuleManager.IsModuleLoaded (modules this)) in
  let* calls :=
    if negb loaded then
      let* observer := own_ userUnlockObserver_ in
      (match observer with None => set_own (set_observer UpdateUserUnlockObserver.new) | Some _ => ret tt end) ;;;
      on_observer 0%nat Start
    else ret 0%nat in
  env_ Publish ;;;
  let* modules := own_ modules in
  (when ModuleManager.IsModuleLoaded modules do env_ (ModuleManager.HandleOnStartOnStopFunc "OnStart" startReason modules)) ;;;
  ret calls.
(*@ engine/src/update_service.cpp UpdateService::OnStop *)
Definition OnStop (stopReason : Reason) : Op unit :=
  on_observer tt UpdateUserUnlockObserver.UnregisterUserUnlockListener ;;;
  let* modules := own_ modules in
  env_ (ModuleManager.HandleOnStartOnStopFunc "OnStop" stopReason modules).

(** *** Before the user has unlocked the device *)
Import UpdateUserUnlockObserver.
(** The accounts are asked for the active user at most [n] times, until they answer: the user [u],
    and the environment afterwards. *)
Inductive asked : nat → E → Z → E → Prop :=
  | asked_answered n e u e' : GetForegroundOsAccountLocalId e = ((ERR_OK, u), e') → asked (S n) e u e'
  | asked_again n e r v e1 u e' :
      GetForegroundOsAccountLocalId e = ((r, v), e1) → r ≠ ERR_OK → asked n (exec (account_sleep 1000) e1) u e' → asked (S n) e u e'
  | asked_last e r v e1 : GetForegroundOsAccountLocalId e = ((r, v), e1) → r ≠ ERR_OK → asked 1 e v (exec (account_sleep 1000) e1).
Lemma user_asked n v e : asked (S n) e (eval (UserAccountHelper.user_id_loop (S n) v) e) (exec (UserAccountHelper.user_id_loop (S n) v) e).
Proof.
  revert v e. induction n as [|n IH]; intros v e; unfold eval, exec; cbn [UserAccountHelper.user_id_loop]; unfold bind;
    destruct (GetForegroundOsAccountLocalId e) as [[r u] e1] eqn:Hget; cbn [fst snd]; destruct (Z.eqb_spec r ERR_OK) as [->|Hr].
  - by apply asked_answered.
  - unfold UserAccountHelper.retryInterval. pose proof (asked_last e r u e1 Hget Hr) as Hlast. unfold exec in Hlast. by destruct (account_sleep 1000 e1).
  - by apply asked_answered.
  - unfold UserAccountHelper.retryInterval. specialize (IH u (exec (account_sleep 1000) e1)). unfold exec, eval in IH.
    destruct (account_sleep 1000 e1) as [[] e2] eqn:Hsleep. apply (asked_again _ _ r u e1); [done|done|]. unfold exec. by rewrite Hsleep.
Qed.
(** The accounts say that the user is unlocked. *)
Definition unlocked (e : E) (u : Z) : Prop := 0 ≤ u ∧ IsOsAccountVerified e u = (ERR_OK, true).
Lemma unlocked_spec e u : UserAccountHelper.IsActiveUserUnlocked e u = bool_decide (unlocked e u).
Proof.
  unfold UserAccountHelper.IsActiveUserUnlocked, unlocked. destruct (Z.ltb_spec u 0) as [Hu|Hu]; [symmetry; apply bool_decide_eq_false; lia|].
  destruct (IsOsAccountVerified e u) as [r b]. destruct (Z.eqb_spec r ERR_OK) as [->|Hr]; cbn [negb]; symmetry.
  - destruct b; [by apply bool_decide_eq_true|]. apply bool_decide_eq_false. by intros [_ [=]].
  - apply bool_decide_eq_false. by intros [_ [=]].
Qed.
(** A user is found unlocked when the observer starts, or after it has registered its listener. *)
Definition found_unlocked (e : E) (u : Z) : Prop := unlocked e u ∨ unlocked (exec SubscribeCommonEvent e) u.
Lemma wp_run_thread fuel p l s s1 (Q : nat → UpdateUserUnlockObserver.t * E → Prop) :
  run p s = (l, s1) →
  (∀ e', (is_calling p = false → e' = s1.2) →
     wp (run_threads fuel l) (s1.1, e') (λ n s', Q ((if is_calling p then 1 else 0) + n)%nat s')) →
  wp (run_threads (S fuel) [p]) s Q.
Proof.
  intros Hrun HQ. cbn [run_threads]. apply wp_bind. unfold wp at 1, eval, exec. rewrite Hrun. cbn [fst snd]. rewrite app_nil_r.
  apply wp_bind. destruct s1 as [v e1], (is_calling p).
  - apply wp_env_, wp_any. intros _ e'. apply wp_bind. eapply wp_mono; [|by apply HQ]. intros n s' Hn. by apply wp_ret.
  - apply wp_ret, wp_bind. eapply wp_mono; [|by apply HQ]. intros n s' Hn. by apply wp_ret.
Qed.
Lemma wp_no_threads fuel s (Q : nat → UpdateUserUnlockObserver.t * E → Prop) : Q 0%nat s → wp (run_threads fuel []) s Q.
Proof. intros HQ. by destruct fuel; apply wp_ret. Qed.
Lemma wp_notified fuel v e (Q : nat → UpdateUserUnlockObserver.t * E → Prop) :
  initialized_ v = false → (∀ o e', initialized_ o = true → Q 1%nat (o, e')) → wp (run_threads (3 + fuel) [Notifying]) (v, e) Q.
Proof.
  intros Hv HQ. cbn [Nat.add]. destruct (run Notifying (v, e)) as [l [v1 e1]] eqn:Hrun. pose proof (run_inv _ _ _ _ _ _ Hrun) as [Hi ->].
  rewrite Hv in *. eapply wp_run_thread; [exact Hrun|]. intros e2 _. eapply wp_run_thread; [reflexivity|]. intros e3 _.
  eapply wp_run_thread; [reflexivity|]. intros e4 _. apply wp_no_threads. cbn [is_calling fst snd]. apply HQ.
  by rewrite unregister_initialized.
Qed.
Lemma wp_Start e (Q : nat → UpdateUserUnlockObserver.t * E → Prop) :
  (∀ u e1 o e', asked 10 e u e1 →
     (initialized_ o = true ↔ found_unlocked e1 u) → (¬ found_unlocked e1 u → userUnlockSubscriber_ o = eval SubscribeCommonEvent e1) →
     Q (if initialized_ o then 1 else 0)%nat (o, e')) →
  wp Start (new, e) Q.
Proof.
  intros HQ. pose proof (user_asked 9 (-1) e) as Hasked. unfold eval, exec in Hasked. unfold Start.
  destruct (UserAccountHelper.GetActiveUserId e) as [u e1] eqn:Hget. unfold UserAccountHelper.GetActiveUserId, UserAccountHelper.maxRetryTimes in Hget.
  rewrite Hget in Hasked. cbn [fst snd] in Hasked.
  assert (run Starting (new, e) = if bool_decide (unlocked e1 u) then ([Notifying], (new, e1)) else ([Registering u], (new, e1))) as Hrun.
  { cbn [run]. unfold env_. cbn [fst snd]. unfold UserAccountHelper.GetActiveUserId, UserAccountHelper.maxRetryTimes. rewrite Hget. cbn [fst snd]. by rewrite unlocked_spec. }
  assert (∀ o e', initialized_ o = true → found_unlocked e1 u → Q 1%nat (o, e')) as Hyes.
  { intros o e' Ho Hf. specialize (HQ u e1 o e' Hasked). rewrite Ho in HQ. by apply HQ. }
  case_bool_decide as H1st.
  { eapply wp_run_thread; [exact Hrun|]. intros e2 He2. apply (wp_notified 2); [done|]. intros o e' Ho. apply Hyes; [done|by left]. }
  eapply wp_run_thread; [exact Hrun|]. intros e2 He2. rewrite (He2 eq_refl). cbn [fst snd is_calling Nat.add].
  assert (∃ v, exec RegisterUserUnlockListener (new, e1) = (v, exec SubscribeCommonEvent e1) ∧ initialized_ v = false ∧
    userUnlockSubscriber_ v = eval SubscribeCommonEvent e1) as (v & Hreg & Hv & Hsub).
  { unfold RegisterUserUnlockListener, exec, eval, bind, own_, set_own, env_. cbn. destruct (SubscribeCommonEvent e1) as [[] e3]; cbn; by eexists. }
  eapply (wp_run_thread _ (Registering u)); [cbn [run]; by rewrite Hreg|]. intros e3 He3. rewrite (He3 eq_refl). cbn [fst snd is_calling Nat.add].
  assert (run (Looking u) (v, exec SubscribeCommonEvent e1) =
    (if bool_decide (unlocked (exec SubscribeCommonEvent e1) u) then [Notifying] else [], (v, exec SubscribeCommonEvent e1))) as Hlook.
  { cbn [run fst snd]. rewrite unlocked_spec. by case_bool_decide. }
  eapply wp_run_thread; [exact Hlook|]. intros e4 He4. case_bool_decide as H2nd.
  { apply (wp_notified 0); [done|]. intros o e' Ho. apply Hyes; [done|by right]. }
  apply wp_no_threads. cbn [is_calling fst snd Nat.add]. specialize (HQ u e1 v e4 Hasked). rewrite Hv in HQ. apply HQ; [|done].
  split; [done|]. by intros [?|?].
Qed.

(** The service when its business is to be started: the configured extension was looked for. *)
Definition loaded (e : E) : E :=
  snd (exec (ModuleManager.LoadModule (ConfigParse.GetModuleLibPath (ConfigParse.LoadConfigInfo e ConfigParse.initial))) (ModuleManager.new E Parcels Reason, e)).

(** C31: The start of the process. With an extension the service leaves its business to it. Without one the
    accounts are asked for the active user, ten times at most, and the business is started once if they say that
    this user is unlocked, at once or after the listener was registered, and not at all otherwise; then the
    listener waits for the user, unless the system refused it.  As long as the business is not started, every
    request that is not exempt is refused, and neither asked for its permissions nor audited. *)
Theorem start_gates_requests `{TokenKits E, AuditKits E} startReason e :
  wp (OnStart startReason) (fresh E Parcels Reason, e) (λ calls s',
    if ModuleManager.isLoaded (modules s'.1) then calls = 0%nat ∧ userUnlockObserver_ s'.1 = None
    else ∃ o u e1, userUnlockObserver_ s'.1 = Some o ∧ asked 10 (loaded e) u e1 ∧
      (found_unlocked e1 u → calls = 1%nat ∧ initialized_ o = true) ∧
      (¬ found_unlocked e1 u → calls = 0%nat ∧ initialized_ o = false ∧ userUnlockSubscriber_ o = eval SubscribeCommonEvent e1 ∧
        ∀ code e', ¬ exempt code →
          UpdateService.CallbackEnter (modules s'.1) (userUnlockObserver_ s'.1) code e' = (CallResult.FORBIDDEN, e'))).
Proof.
  unfold OnStart. apply wp_bind. unfold wp at 1. cbn [eval exec fst snd].
  apply wp_bind, wp_own_, wp_bind. unfold on_modules at 1, wp at 1, eval, exec. unfold loaded, exec. cbn [fst snd modules set_config fresh configInfo_].
  destruct (ModuleManager.LoadModule _ _) as [[] [m e1]]. cbn [fst snd].
  apply wp_bind, wp_own_. cbn [fst snd modules set_modules]. unfold ModuleManager.IsModuleLoaded.
  destruct (ModuleManager.isLoaded m) eqn:Hloaded; cbn [negb].
  - apply wp_bind, wp_ret, wp_bind, wp_env_, wp_any. intros _ e2. apply wp_bind, wp_own_. cbn [fst snd modules set_modules].
    rewrite Hloaded. apply wp_bind, wp_env_, wp_any. intros _ e3. apply wp_ret. cbn [fst snd modules set_modules]. by rewrite Hloaded.
  - apply wp_bind, wp_bind, wp_own_. cbn [fst snd userUnlockObserver_ set_modules set_config fresh].
    apply wp_bind, wp_set_own. cbn [fst snd]. unfold wp at 1, eval, exec, on_observer. cbn [fst snd userUnlockObserver_ set_observer].
    assert (wp Start (UpdateUserUnlockObserver.new, e1) (λ n x, ∃ u e2, asked 10 e1 u e2 ∧ n = (if initialized_ x.1 then 1 else 0)%nat ∧
      (initialized_ x.1 = true ↔ found_unlocked e2 u) ∧ (¬ found_unlocked e2 u → userUnlockSubscriber_ x.1 = eval SubscribeCommonEvent e2))) as Hstart
      by (apply wp_Start; intros; do 2 eexists; by split_and!).
    unfold wp, eval, exec in Hstart. destruct (Start _) as [n [o e2]]. cbn [fst snd] in Hstart |- *. destruct Hstart as (u & e3 & Hasked & Hn & Hi & Hs).
    apply wp_bind, wp_env_, wp_any. intros _ e4. apply wp_bind, wp_own_. cbn [fst snd modules set_modules set_observer]. rewrite Hloaded.
    apply wp_bind, wp_ret, wp_ret. cbn [fst snd modules userUnlockObserver_ set_modules set_observer]. rewrite Hloaded.
    exists o, u, e3. split_and!; [done..| |].
    + intros Hf%Hi. by rewrite Hf in Hn.
    + intros Hf. assert (initialized_ o = false) as Ho by (destruct (initialized_ o); [by destruct Hf; apply Hi|done]).
      rewrite Ho in Hn. split_and!; [done..|by apply Hs|].
      intros code e' Hcode. unfold UpdateService.CallbackEnter, ModuleManager.IsModuleLoaded, HasUserUnlocked. rewrite Hloaded, Ho. cbn [negb].
      pose proof (unlock_required code) as Hreq. destruct (UpdateService.IsUserUnlockRequired code); [done|]. by destruct Hcode; apply Hreq.
Qed.
End ops.
End Ability.
