(* ===== verification/Client.v ===== *)
(** * The client of the service

    Models the library an application links to reach the service:
    [interfaces/inner_api/engine/src/update_service_kits_impl.cpp], with the connection of
    [foundations/ability/sa_loader/include/base_service_kits_impl.h] and
    [load_sa_service.cpp].  The generated proxy of the service, the system ability
    manager and the remote objects are classes; a remote object is a number. *)
From Stdlib Require Import ZArith Lia Ascii String.
From stdpp Require Import base tactics list strings gmap sorting.
From S2P Require Import Prelude CppString Json Models Clients.

#[local] Open Scope Z_scope.

(** The system ability manager, which may be missing, and the remote objects. *)
Class SystemAbilities (E : Type) := {
  UPDATE_DISTRIBUTED_SERVICE_ID : Z;
  samgr_there : E → bool;
  CheckSystemAbility : Z → ST E (option Z);
  GetSystemAbility : Z → ST E (option Z);
  LoadSystemAbility : Z → Z → ST E bool;
  iface_cast : E → Z → bool;
  IsProxyObject : E → Z → bool;
  add_recipient : Z → ST E bool;
  remove_recipient : Z → ST E bool
}.
(** The generated proxy: each request with its out parameters; the first argument is the
    remote object. *)
Class ServiceProxy (E : Type) := {
  proxy_RegisterUpdateCallback : Z → UpgradeInfo.t → Z → ST E Z;
  proxy_UnregisterUpdateCallback : Z → UpgradeInfo.t → ST E Z;
  proxy_CheckNewVersion : Z → UpgradeInfo.t → BusinessError.t * CheckResult.t → ST E (Z * (BusinessError.t * CheckResult.t));
  proxy_Download : Z → UpgradeInfo.t → VersionDigestInfo.t → DownloadOptions.t → BusinessError.t → ST E (Z * BusinessError.t);
  proxy_PauseDownload : Z → UpgradeInfo.t → VersionDigestInfo.t → PauseDownloadOptions.t → BusinessError.t → ST E (Z * BusinessError.t);
  proxy_ResumeDownload : Z → UpgradeInfo.t → VersionDigestInfo.t → ResumeDownloadOptions.t → BusinessError.t → ST E (Z * BusinessError.t);
  proxy_Upgrade : Z → UpgradeInfo.t → VersionDigestInfo.t → UpgradeOptions.t → BusinessError.t → ST E (Z * BusinessError.t);
  proxy_ClearError : Z → UpgradeInfo.t → VersionDigestInfo.t → ClearOptions.t → BusinessError.t → ST E (Z * BusinessError.t);
  proxy_TerminateUpgrade : Z → UpgradeInfo.t → BusinessError.t → ST E (Z * BusinessError.t);
  proxy_GetNewVersionInfo : Z → UpgradeInfo.t → NewVersionInfo.t * BusinessError.t → ST E (Z * (NewVersionInfo.t * BusinessError.t));
  proxy_GetNewVersionDescription : Z → UpgradeInfo.t → VersionDigestInfo.t → DescriptionOptions.t → VersionDescriptionInfo.t * BusinessError.t →
    ST E (Z * (VersionDescriptionInfo.t * BusinessError.t));
  proxy_GetCurrentVersionInfo : Z → UpgradeInfo.t → CurrentVersionInfo.t * BusinessError.t → ST E (Z * (CurrentVersionInfo.t * BusinessError.t));
  proxy_GetCurrentVersionDescription : Z → UpgradeInfo.t → DescriptionOptions.t → VersionDescriptionInfo.t * BusinessError.t →
    ST E (Z * (VersionDescriptionInfo.t * BusinessError.t));
  proxy_GetTaskInfo : Z → UpgradeInfo.t → TaskInfo.t * BusinessError.t → ST E (Z * (TaskInfo.t * BusinessError.t));
  proxy_SetUpgradePolicy : Z → UpgradeInfo.t → UpgradePolicy.t → BusinessError.t → ST E (Z * BusinessError.t);
  proxy_GetUpgradePolicy : Z → UpgradeInfo.t → UpgradePolicy.t * BusinessError.t → ST E (Z * (UpgradePolicy.t * BusinessError.t));
  proxy_Cancel : Z → UpgradeInfo.t → Z → BusinessError.t → ST E (Z * BusinessError.t);
  proxy_FactoryReset : Z → BusinessError.t → ST E (Z * BusinessError.t);
  proxy_ForceFactoryReset : Z → BusinessError.t → ST E (Z * BusinessError.t);
  proxy_DeepFactoryReset : Z → FactoryResetStrategy.t → BusinessError.t → ST E (Z * BusinessError.t);
  proxy_GetDeepFactoryResetInfo : Z → FactoryResetStrategy.t → FactoryResetInfo.t * BusinessError.t → ST E (Z * (FactoryResetInfo.t * BusinessError.t));
  proxy_ApplyNewVersion : Z → UpgradeInfo.t → string → list string → BusinessError.t → ST E (Z * BusinessError.t);
  proxy_VerifyUpgradePackage : Z → string → string → BusinessError.t → ST E (Z * BusinessError.t)
}.

Module LoadSaService.
(*@ sa_loader/src/load_sa_service.cpp loadTimeSeconds *)
Definition loadTimeSeconds : Z := 5.
(*@ sa_loader/src/load_sa_service.cpp LoadSaService::TryLoadSa *)
Definition TryLoadSa {E} `{SystemAbilities E} (systemAbilityId : Z) : ST E bool :=
  let* there := gets samgr_there in
  if negb there then ret false else LoadSystemAbility systemAbilityId loadTimeSeconds.
End LoadSaService.

Module UpdateServiceKitsImpl.
(** [deathRecipient_]: is there one. *)
(*@ interfaces/inner_api/engine/include/update_service_kits_impl.h:107-109 UpdateServiceKitsImpl *)
Record t := {
  remoteServer_ : option Z;
  deathRecipient_ : bool;
  remoteUpdateCallbackMap_ : gmap UpgradeInfo.t Z;
  retryTimes_ : Z
}.
(*@ interfaces/inner_api/engine/include/update_service_kits_impl.h:107-109 UpdateServiceKitsImpl *)
Definition new : t := {| remoteServer_ := None; deathRecipient_ := false; remoteUpdateCallbackMap_ := ∅; retryTimes_ := 0 |}.
(*@ interfaces/inner_api/engine/src/update_service_kits_impl.cpp retryMaxTimes *)
Definition retryMaxTimes : Z := 3.

Section ops.
Context {E : Type} `{SystemAbilities E, ServiceProxy E}.
#[local] Notation Op := (ST (t * E)).
Implicit Types (this : t) (info : UpgradeInfo.t) (businessError : BusinessError.t).
Definition set_server (x : option Z) this : t := Build_t x (deathRecipient_ this) (remoteUpdateCallbackMap_ this) (retryTimes_ this).
Definition set_recipient (x : bool) this : t := Build_t (remoteServer_ this) x (remoteUpdateCallbackMap_ this) (retryTimes_ this).
Definition set_callbacks (x : gmap UpgradeInfo.t Z) this : t := Build_t (remoteServer_ this) (deathRecipient_ this) x (retryTimes_ this).
Definition set_retries (x : Z) this : t := Build_t (remoteServer_ this) (deathRecipient_ this) (remoteUpdateCallbackMap_ this) x.

(** *** The connection *)
(*@ base_service_kits_impl.h BaseServiceKitsImpl<SERVICE>::AddDeathRecipient *)
Definition AddDeathRecipient (object : Z) : Op unit :=
  set_own (set_recipient true) ;;;
  let* proxy := env_ (gets (λ e, IsProxyObject e object)) in
  when proxy : bool do (env_ (add_recipient object) ;;; ret tt).
(** The results of the calls are dropped. *)
(*@ interfaces/inner_api/engine/src/update_service_kits_impl.cpp UpdateServiceKitsImpl::RegisterCallback *)
Definition RegisterCallback : Op unit :=
  let* server := own_ remoteServer_ in
  let* callbacks := own_ remoteUpdateCallbackMap_ in
  match server with
  | None => ret tt
  | Some remote => for_each (in_order callbacks) (λ x, env_ (proxy_RegisterUpdateCallback remote x.1 x.2) ;;; ret tt)
  end.
(** The object of the service, which is loaded when it is not there. *)
(*@ base_service_kits_impl.h:81-87 BaseServiceKitsImpl<SERVICE>::GetService *)
Definition find_object : ST E (option Z) :=
  let* object := CheckSystemAbility (UPDATE_DISTRIBUTED_SERVICE_ID (E := E)) in
  match object with
  | Some object => ret (Some object)
  | None =>
      let* loaded := LoadSaService.TryLoadSa (UPDATE_DISTRIBUTED_SERVICE_ID (E := E)) in
      if negb loaded then ret None else GetSystemAbility (UPDATE_DISTRIBUTED_SERVICE_ID (E := E))
  end.
(*@ base_service_kits_impl.h BaseServiceKitsImpl<SERVICE>::GetService *)
Definition GetService : Op (option Z) :=
  let* server := own_ remoteServer_ in
  match server with
  | Some remote => ret (Some remote)
  | None =>
      let* there := env_ (gets samgr_there) in
      if negb there then ret None
      else
        let* object := env_ find_object in
        match object with
        | None => ret None
        | Some object =>
            AddDeathRecipient object ;;;
            let* cast := env_ (gets (λ e, iface_cast e object)) in
            if negb cast then ret None
            else
              set_own (set_server (Some object)) ;;;
              RegisterCallback ;;;
              own_ remoteServer_
        end
  end.
(*@ base_service_kits_impl.h BaseServiceKitsImpl<SERVICE>::ResetRemoteService *)
Definition ResetRemoteService : Op unit := set_own (set_server None).
(** The notification of the death of an object, which may be gone by then. *)
(*@ base_service_kits_impl.h BaseServiceKitsImpl<SERVICE>::ResetService *)
Definition BaseResetService (remote : option Z) : Op unit :=
  let* recipient := own_ deathRecipient_ in
  (match remote with Some o => when recipient : bool do (env_ (remove_recipient o) ;;; ret tt) | None => ret tt end) ;;;
  set_own (set_server None) ;;;
  set_own (set_recipient false).
(*@ interfaces/inner_api/engine/src/update_service_kits_impl.cpp UpdateServiceKitsImpl::ResetService *)
Definition ResetService (remote : option Z) : Op unit :=
  BaseResetService remote ;;;
  let* callbacks := own_ remoteUpdateCallbackMap_ in
  let* retryTimes := own_ retryTimes_ in
  if negb (bool_decide (callbacks = ∅)) && (retryTimes <? retryMaxTimes) then
    GetService ;;;
    set_own (set_retries (retryTimes + 1))
  else ret tt.

(** *** The callbacks *)
(** With the lock, on the object [GetService] gave before. *)
(*@ interfaces/inner_api/engine/src/update_service_kits_impl.cpp:42-51 UpdateServiceKitsImpl::RegisterUpdateCallback *)
Definition register_on (updateService : Z) info (remoteUpdateCallback : Z) : Op Z :=
  let* ret_ := env_ (proxy_RegisterUpdateCallback updateService info remoteUpdateCallback) in
  set_own (λ this, set_callbacks (<[info := remoteUpdateCallback]> (remoteUpdateCallbackMap_ this)) this) ;;;
  (when negb (ret_ =? CallResult.SUCCESS) do ResetRemoteService) ;;;
  ret ret_.
(*@ interfaces/inner_api/engine/src/update_service_kits_impl.cpp:60-63 UpdateServiceKitsImpl::UnregisterUpdateCallback *)
Definition unregister_on (updateService : Z) info : Op Z :=
  set_own (λ this, set_callbacks (delete info (remoteUpdateCallbackMap_ this)) this) ;;;
  let* ret_ := env_ (proxy_UnregisterUpdateCallback updateService info) in
  (when negb (ret_ =? CallResult.SUCCESS) do ResetRemoteService) ;;;
  ret ret_.
(** A call on the service, when there is one. *)
(*@ base_service_kits_impl.h RETURN_FAIL_WHEN_SERVICE_NULL *)
Definition with_service {A} (none : A) (f : Z → Op A) : Op A :=
  let* updateService := GetService in
  match updateService with None => ret none | Some remote => f remote end.
(*@ interfaces/inner_api/engine/src/update_service_kits_impl.cpp UpdateServiceKitsImpl::RegisterUpdateCallback *)
Definition RegisterUpdateCallback info (remoteUpdateCallback : Z) : Op Z :=
  with_service CallResult.IPC_ERR (λ updateService, register_on updateService info remoteUpdateCallback).
(*@ interfaces/inner_api/engine/src/update_service_kits_impl.cpp UpdateServiceKitsImpl::UnregisterUpdateCallback *)
Definition UnregisterUpdateCallback info : Op Z :=
  with_service CallResult.IPC_ERR (λ updateService, unregister_on updateService info).

(** *** The requests: the result of the call and the out parameters *)
(*@ interfaces/inner_api/engine/src/update_service_kits_impl.cpp:72-76 UpdateServiceKitsImpl::CheckNewVersion *)
Definition request {A} (out : A) (f : Z → A → ST E (Z * A)) : Op (Z * A) :=
  with_service (CallResult.IPC_ERR, out) (λ updateService,
    let* (ret_, out) := env_ (f updateService out) in
    (when negb (ret_ =? CallResult.SUCCESS) do ResetRemoteService) ;;;
    ret (ret_, out)).
(*@* interfaces/inner_api/engine/src/update_service_kits_impl.cpp UpdateServiceKitsImpl::= *)
Definition CheckNewVersion info businessError (checkResult : CheckResult.t) : Op (Z * (BusinessError.t * CheckResult.t)) :=
  request (businessError, checkResult) (λ s, proxy_CheckNewVersion s info).
Definition Download info (versionDigestInfo : VersionDigestInfo.t) (downloadOptions : DownloadOptions.t) businessError : Op (Z * BusinessError.t) :=
  request businessError (λ s, proxy_Download s info versionDigestInfo downloadOptions).
Definition PauseDownload info (versionDigestInfo : VersionDigestInfo.t) (pauseDownloadOptions : PauseDownloadOptions.t) businessError : Op (Z * BusinessError.t) :=
  request businessError (λ s, proxy_PauseDownload s info versionDigestInfo pauseDownloadOptions).
Definition ResumeDownload info (versionDigestInfo : VersionDigestInfo.t) (resumeDownloadOptions : ResumeDownloadOptions.t) businessError : Op (Z * BusinessError.t) :=
  request businessError (λ s, proxy_ResumeDownload s info versionDigestInfo resumeDownloadOptions).
Definition Upgrade info (versionDigest : VersionDigestInfo.t) (upgradeOptions : UpgradeOptions.t) businessError : Op (Z * BusinessError.t) :=
  request businessError (λ s, proxy_Upgrade s info versionDigest upgradeOptions).
Definition ClearError info (versionDigest : VersionDigestInfo.t) (clearOptions : ClearOptions.t) businessError : Op (Z * BusinessError.t) :=
  request businessError (λ s, proxy_ClearError s info versionDigest clearOptions).
Definition TerminateUpgrade info businessError : Op (Z * BusinessError.t) := request businessError (λ s, proxy_TerminateUpgrade s info).
Definition GetNewVersionInfo info (newVersionInfo : NewVersionInfo.t) businessError : Op (Z * (NewVersionInfo.t * BusinessError.t)) :=
  request (newVersionInfo, businessError) (λ s, proxy_GetNewVersionInfo s info).
Definition GetNewVersionDescription info (versionDigestInfo : VersionDigestInfo.t) (descriptionOptions : DescriptionOptions.t)
    (newVersionDescriptionInfo : VersionDescriptionInfo.t) businessError : Op (Z * (VersionDescriptionInfo.t * BusinessError.t)) :=
  request (newVersionDescriptionInfo, businessError) (λ s, proxy_GetNewVersionDescription s info versionDigestInfo descriptionOptions).
Definition GetCurrentVersionInfo info (currentVersionInfo : CurrentVersionInfo.t) businessError : Op (Z * (CurrentVersionInfo.t * BusinessError.t)) :=
  request (currentVersionInfo, businessError) (λ s, proxy_GetCurrentVersionInfo s info).
Definition GetCurrentVersionDescription info (descriptionOptions : DescriptionOptions.t) (currentVersionDescriptionInfo : VersionDescriptionInfo.t)
    businessError : Op (Z * (VersionDescriptionInfo.t * BusinessError.t)) :=
  request (currentVersionDescriptionInfo, businessError) (λ s, proxy_GetCurrentVersionDescription s info descriptionOptions).
Definition GetTaskInfo info (taskInfo : TaskInfo.t) businessError : Op (Z * (TaskInfo.t * BusinessError.t)) :=
  request (taskInfo, businessError) (λ s, proxy_GetTaskInfo s info).
Definition SetUpgradePolicy info (policy : UpgradePolicy.t) businessError : Op (Z * BusinessError.t) :=
  request businessError (λ s, proxy_SetUpgradePolicy s info policy).
Definition GetUpgradePolicy info (policy : UpgradePolicy.t) businessError : Op (Z * (UpgradePolicy.t * BusinessError.t)) :=
  request (policy, businessError) (λ s, proxy_GetUpgradePolicy s info).
Definition Cancel info (service : Z) businessError : Op (Z * BusinessError.t) := request businessError (λ s, proxy_Cancel s info service).
Definition FactoryReset businessError : Op (Z * BusinessError.t) := request businessError proxy_FactoryReset.
Definition ForceFactoryReset businessError : Op (Z * BusinessError.t) := request businessError proxy_ForceFactoryReset.
Definition DeepFactoryReset (factoryResetStrategy : FactoryResetStrategy.t) businessError : Op (Z * BusinessError.t) :=
  request businessError (λ s, proxy_DeepFactoryReset s factoryResetStrategy).
Definition GetDeepFactoryResetInfo (factoryResetStrategy : FactoryResetStrategy.t) (factoryResetInfo : FactoryResetInfo.t) businessError :
    Op (Z * (FactoryResetInfo.t * BusinessError.t)) :=
  request (factoryResetInfo, businessError) (λ s, proxy_GetDeepFactoryResetInfo s factoryResetStrategy).
Definition ApplyNewVersion info (miscFile : string) (packageNames : list string) businessError : Op (Z * BusinessError.t) :=
  request businessError (λ s, proxy_ApplyNewVersion s info miscFile packageNames).
Definition VerifyUpgradePackage (packagePath keyPath : string) businessError : Op (Z * BusinessError.t) :=
  request businessError (λ s, proxy_VerifyUpgradePackage s packagePath keyPath).
(** The destructor. *)
(*@ base_service_kits_impl.h BaseServiceKitsImpl<SERVICE>::~BaseServiceKitsImpl *)
Definition destroy : Op unit :=
  let* server := own_ remoteServer_ in
  let* recipient := own_ deathRecipient_ in
  (match server with Some o => when recipient : bool do (env_ (remove_recipient o) ;;; ret tt) | None => ret tt end) ;;;
  set_own (set_recipient false) ;;;
  set_own (set_server None).
End ops.
End UpdateServiceKitsImpl.

(** ** The requests of the application

    Which callbacks it has asked the service for: the requests it has made of each object, with
    their answers, the latest last. *)
Inductive Asked := Registration (callback answer : Z) | Withdrawal (answer : Z).
Class RequestLog (E : Type) := { requests : E → list (Z * UpgradeInfo.t * Asked) }.
(** Only the two calls of the proxy are such requests. *)
Definition silent {E A} `{RequestLog E} (m : ST E A) : Prop := ∀ e, requests (exec m e) = requests e.
Class RequestLaws (E : Type) `{SystemAbilities E, ServiceProxy E, RequestLog E} : Prop := {
  register_logged o info cb e :
    requests (exec (proxy_RegisterUpdateCallback o info cb) e) =
    requests e ++ [((o, info), Registration cb (eval (proxy_RegisterUpdateCallback o info cb) e))];
  unregister_logged o info e :
    requests (exec (proxy_UnregisterUpdateCallback o info) e) =
    requests e ++ [((o, info), Withdrawal (eval (proxy_UnregisterUpdateCallback o info) e))];
  check_silent id : silent (CheckSystemAbility id);
  get_silent id : silent (GetSystemAbility id);
  load_silent id n : silent (LoadSystemAbility id n);
  add_silent o : silent (add_recipient o);
  remove_silent o : silent (remove_recipient o)
}.
(** The last request of those that concern [p]: the object and the upgrade information. *)
Definition last_request (p : Z * UpgradeInfo.t → bool) (l : list (Z * UpgradeInfo.t * Asked)) : option Asked :=
  last (omap (λ x, if p x.1 then Some x.2 else None) l).
Lemma last_request_snoc p l x a : last_request p (l ++ [(x, a)]) = if p x then Some a else last_request p l.
Proof. unfold last_request. rewrite omap_app. cbn. destruct (p x); [by rewrite last_snoc|by rewrite app_nil_r]. Qed.
(** Made of the object [o] for [info], and made of any object for [info]. *)
Definition last_asked (o : Z) (info : UpgradeInfo.t) : list (Z * UpgradeInfo.t * Asked) → option Asked :=
  last_request (λ x, bool_decide (x = (o, info))).
Definition last_of (info : UpgradeInfo.t) : list (Z * UpgradeInfo.t * Asked) → option Asked :=
  last_request (λ x, bool_decide (x.2 = info)).

(** ** Lives of the service

    The object of the running service, the callbacks it has registered ([Clients]), and how
    many objects there have been: a later object has a larger number. *)
Class ServiceState (E : Type) := { live : E → option Z; served : E → gmap UpgradeInfo.t Z; born : E → Z }.
(** Time passes: the service may have ended, or another be running. *)
Definition moved {E} `{ServiceState E} (e e' : E) : Prop :=
  born e ≤ born e' ∧ ∀ o, live e' = Some o → born e ≤ o ∨ (live e = Some o ∧ served e' = served e).
Definition undisturbed {E} `{ServiceState E, RequestLog E} (e e' : E) : Prop := moved e e' ∧ requests e' = requests e.
(** A call on the object [o] that leaves the callbacks [now] if it is running and stays so. *)
Definition called {E} `{ServiceState E} (o : Z) (now : gmap UpgradeInfo.t Z) (e e' : E) : Prop :=
  born e ≤ born e' ∧ ∀ o', live e' = Some o' → born e ≤ o' ∨ (live e = Some o' ∧ served e' = if decide (o' = o) then now else served e).
(** What the system promises, and the service: it has the callback of a registration it answers with SUCCESS
    ([Clients.client_registered]), and a request leaves the callbacks of other upgrade informations, whatever its answer: the service may
    refuse it ([Access.request_admitted]); who answers with SUCCESS is not dead. *)
Class ServiceLaws (E : Type) `{SystemAbilities E, ServiceProxy E, ServiceState E} := {
  live_born e o : live e = Some o → o < born e;
  check_moved id e : moved e (exec (CheckSystemAbility id) e);
  check_born id e o : eval (CheckSystemAbility id) e = Some o → o < born (exec (CheckSystemAbility id) e);
  get_moved id e : moved e (exec (GetSystemAbility id) e);
  get_born id e o : eval (GetSystemAbility id) e = Some o → o < born (exec (GetSystemAbility id) e);
  load_moved id n e : moved e (exec (LoadSystemAbility id n) e);
  add_moved o e : moved e (exec (add_recipient o) e);
  remove_moved o e : moved e (exec (remove_recipient o) e);
  register_called o info cb e : ∃ now,
    called o now e (exec (proxy_RegisterUpdateCallback o info cb) e) ∧ (∀ i, i ≠ info → now !! i = served e !! i) ∧
    (eval (proxy_RegisterUpdateCallback o info cb) e = CallResult.SUCCESS → now !! info = Some cb);
  register_answered o info cb e o' :
    eval (proxy_RegisterUpdateCallback o info cb) e = CallResult.SUCCESS →
    live (exec (proxy_RegisterUpdateCallback o info cb) e) = Some o' → o' = o ∨ born e ≤ o';
  unregister_called o info e : ∃ now,
    called o now e (exec (proxy_UnregisterUpdateCallback o info) e) ∧ ∀ i, i ≠ info → now !! i = served e !! i
}.

Section lives.
Import UpdateServiceKitsImpl.
Context {E : Type} `{ServiceLaws E, !RequestLog E, !RequestLaws E}.
Implicit Types (this : t) (e : E) (s : t * E) (o : Z) (info : UpgradeInfo.t).

Lemma moved_refl e : moved e e.
Proof. split; [lia|]. intros o Ho. by right. Qed.
Lemma moved_trans e1 e2 e3 : moved e1 e2 → moved e2 e3 → moved e1 e3.
Proof.
  intros [Hb1 Hl1] [Hb2 Hl2]. split; [lia|]. intros o Ho. destruct (Hl2 o Ho) as [?|[Ho2 Hs]]; [left; lia|].
  destruct (Hl1 o Ho2) as [?|[Ho1 Hs']]; [by left|]. right. split; [done|congruence].
Qed.

Lemma undisturbed_refl e : undisturbed e e.
Proof. split; [apply moved_refl|done]. Qed.
Lemma undisturbed_trans e1 e2 e3 : undisturbed e1 e2 → undisturbed e2 e3 → undisturbed e1 e3.
Proof. intros [Hm1 Hr1] [Hm2 Hr2]. split; [by eapply moved_trans|congruence]. Qed.

(** The callback [cb] is the one last asked of [o] for [info], and the service has it if it has answered so. *)
Definition asked o e info (cb : Z) : Prop := ∃ answer,
  last_asked o info (requests e) = Some (Registration cb answer) ∧ (answer = CallResult.SUCCESS → served e !! info = Some cb).
(** The connection of an application: while the object it holds is that of the running service, the service has been asked for all its callbacks. *)
Definition synced this e : Prop :=
  ∀ o, remoteServer_ this = Some o → o < born e ∧
    (live e = Some o → ∀ info cb, remoteUpdateCallbackMap_ this !! info = Some cb → asked o e info cb).
Lemma synced_undisturbed this e e' : undisturbed e e' → synced this e → synced this e'.
Proof.
  intros [[Hb Hl] Hr] Hs o Ho. destruct (Hs o Ho) as [Hlt Hserved]. split; [lia|]. intros Ho' info cb Hcb.
  destruct (Hl o Ho') as [?|[Ho1 Hsv]]; [lia|]. unfold asked. rewrite Hr, Hsv. by apply Hserved.
Qed.
Lemma synced_none this e : remoteServer_ this = None → synced this e.
Proof. intros Hnone o. by rewrite Hnone. Qed.
(** A request for another upgrade information *)
Lemma asked_other o e e' now x a info cb :
  requests e' = requests e ++ [(x, a)] → x ≠ (o, info) → served e' = now → now !! info = served e !! info →
  asked o e info cb → asked o e' info cb.
Proof.
  intros Hr Hx Hsv Hnow (answer & Hl & Hs). exists answer. unfold last_asked. rewrite Hr, last_request_snoc, bool_decide_false by done. split; [done|].
  rewrite Hsv, Hnow. done.
Qed.

(** *** The operations *)
Lemma wp_silent {A} (m : ST E A) e (Q : A → E → Prop) :
  moved e (exec m e) → silent m → (∀ a e', undisturbed e e' → Q a e') → wp m e Q.
Proof. intros Hm Hr HQ. apply HQ. split; [done|apply Hr]. Qed.
Lemma wp_RegisterCallback this e o (Q : unit → t * E → Prop) :
  remoteServer_ this = Some o → o < born e → (∀ e', synced this e' → Q tt (this, e')) → wp RegisterCallback (this, e) Q.
Proof.
  intros Ho Hborn HQ. unfold RegisterCallback. apply wp_bind, wp_own_, wp_bind, wp_own_. cbn [fst]. rewrite Ho.
  set (l := in_order (remoteUpdateCallbackMap_ this)).
  apply (wp_for_each (λ vis s, s.1 = this ∧ o < born s.2 ∧ (live s.2 = Some o → ∀ x, x ∈ vis → asked o s.2 x.1 x.2))).
  - split_and!; [done..|]. intros _ x Hx. by apply elem_of_nil in Hx.
  - intros vis x rest [this' e1] Hl (Hthis & Hb & Hvis). cbn in Hthis, Hb, Hvis. subst this'. apply wp_bind, wp_env_.
    destruct (register_called o x.1 x.2 e1) as (now & [Hb' Hcall] & Hother & Hnow). pose proof (register_logged o x.1 x.2 e1) as Hr.
    unfold wp at 1. cbn [fst snd] in *. apply wp_ret. cbn [fst snd].
    split_and!; [done|lia|]. intros Hlive y Hy. destruct (Hcall o Hlive) as [?|[Hlive1 Hsv]]; [lia|]. rewrite decide_True in Hsv by done.
    assert (∀ z, z ∈ vis ++ [x] → remoteUpdateCallbackMap_ this !! z.1 = Some z.2) as Hin.
    { intros [k z] Hz. apply elem_of_in_order. fold l. rewrite Hl. set_solver. }
    destruct (decide (y.1 = x.1)) as [Heq|Hne].
    + assert (y.2 = x.2) as Hcb by (pose proof (Hin x ltac:(set_solver)) as Hx; pose proof (Hin y Hy) as Hy'; rewrite Heq in Hy'; congruence).
      eexists. unfold last_asked. rewrite Hr, last_request_snoc, Heq, Hcb, bool_decide_true by (by rewrite <- Heq; destruct x). split; [reflexivity|]. by rewrite Hsv.
    + eapply asked_other; [exact Hr|by intros [= ?]|exact Hsv|by apply Hother|]. apply Hvis; [done|].
      apply elem_of_app in Hy as [Hy|Hy]; [done|]. set_solver.
  - intros [this' e'] (Hthis & Hb & Hall). cbn in Hthis, Hb, Hall. subst this'. apply HQ. intros o' Ho'. rewrite Ho in Ho'. injection Ho' as <-.
    split; [done|]. intros Hlive info cb Hcb. by apply (Hall Hlive (info, cb)), elem_of_in_order.
Qed.
Lemma wp_find_object e (Q : option Z → E → Prop) :
  (∀ r e', undisturbed e e' → (∀ o, r = Some o → o < born e') → Q r e') → wp find_object e Q.
Proof.
  intros HQ. unfold find_object. set (id := UPDATE_DISTRIBUTED_SERVICE_ID). apply wp_bind.
  assert (undisturbed e (exec (CheckSystemAbility id) e)) as Hm1 by (split; [apply check_moved|apply check_silent]). pose proof (check_born id e) as Hb1. unfold wp at 1.
  destruct (eval (CheckSystemAbility id) e) as [o|]; [apply wp_ret; apply HQ; [done|]; intros o' [= <-]; by apply Hb1|].
  set (e1 := exec (CheckSystemAbility id) e) in *. unfold LoadSaService.TryLoadSa. apply wp_bind, wp_bind, wp_gets.
  destruct (samgr_there e1); cbn [negb]; [|by apply wp_ret, wp_ret, HQ].
  apply wp_silent; [apply load_moved|apply load_silent|]. intros loaded e2 Hm2. destruct loaded; cbn [negb]; [|apply wp_ret, HQ; [by eapply undisturbed_trans|done]].
  unfold wp. apply HQ; [|intros o Ho; by apply get_born].
  eapply undisturbed_trans; [exact Hm1|]. eapply undisturbed_trans; [exact Hm2|]. split; [apply get_moved|apply get_silent].
Qed.
(** Getting the service keeps the connection in order, and the callbacks of the application. *)
Lemma wp_GetService this e (Q : option Z → t * E → Prop) :
  synced this e →
  (∀ r this' e', synced this' e' → remoteUpdateCallbackMap_ this' = remoteUpdateCallbackMap_ this → retryTimes_ this' = retryTimes_ this →
     r = remoteServer_ this' → Q r (this', e')) → wp GetService (this, e) Q.
Proof.
  intros Hs HQ. unfold GetService. apply wp_bind, wp_own_. cbn [fst].
  destruct (remoteServer_ this) as [o|] eqn:Hserver; [apply wp_ret; by apply HQ|].
  apply wp_bind, wp_env_, wp_gets. cbn [fst snd]. destruct (samgr_there e); cbn [negb]; [|apply wp_ret; by apply HQ].
  apply wp_bind, wp_env_, wp_find_object. cbn [fst snd]. intros [o|] e1 Hm1 Hb1; [|apply wp_ret, HQ; [by apply synced_none|done..]].
  apply wp_bind. unfold AddDeathRecipient. apply wp_bind, wp_set_own. cbn [fst snd]. apply wp_bind, wp_env_, wp_gets. cbn [fst snd].
  eapply (wp_mono _ _ (λ _ s', s'.1 = set_recipient true this ∧ undisturbed e1 s'.2)).
  2: { destruct (IsProxyObject e1 o); [|apply wp_ret; split; [done|apply undisturbed_refl]].
       apply wp_bind, wp_env_, wp_silent; [apply add_moved|apply add_silent|]. intros _ e2 Hm2. by apply wp_ret. }
  intros _ [this' e2] [Hthis Hm2]. cbn in Hthis, Hm2. subst this'. apply wp_bind, wp_env_, wp_gets. cbn [fst snd].
  destruct (iface_cast e2 o); cbn [negb]; [|apply wp_ret, HQ; [by apply synced_none|done..]].
  apply wp_bind, wp_set_own. cbn [fst snd]. apply wp_bind, (wp_RegisterCallback _ _ o); [done| |].
  - destruct Hm2 as [[Hb2 _] _]. specialize (Hb1 o eq_refl). lia.
  - intros e3 Hs3. apply wp_own_. by apply HQ.
Qed.

(** *** In every interleaving *)
(** The sections of the lock that the calls of the application consist of, on whatever object a
    thread has got before, the notifications of deaths, late ones too, and the passing of time. *)
Inductive client_step : t * E → t * E → Prop :=
  | step_get s : client_step s (exec GetService s)
  | step_register s o info cb : client_step s (exec (register_on o info cb) s)
  | step_withdraw s o info : client_step s (exec (unregister_on o info) s)
  | step_reset s : client_step s (exec ResetRemoteService s)
  | step_died s remote : client_step s (exec (ResetService remote) s)
  | step_moves this e e' : undisturbed e e' → client_step (this, e) (this, e').
Lemma synced_register o info cb this e : synced this e → wp (register_on o info cb) (this, e) (λ _ s', synced s'.1 s'.2).
Proof.
  intros Hs. unfold register_on. apply wp_bind, wp_env_. cbn [fst snd]. unfold wp at 1.
  destruct (register_called o info cb e) as (now & [Hb Hl] & Hother & Hnow). pose proof (register_answered o info cb e) as Ha.
  pose proof (register_logged o info cb e) as Hr0.
  set (r := eval _ e) in *. set (e1 := exec (proxy_RegisterUpdateCallback o info cb) e) in *.
  apply wp_bind, wp_set_own. cbn [fst snd]. apply wp_bind. destruct (r =? CallResult.SUCCESS) eqn:Hr; cbn [negb]; [|apply wp_set_own, wp_ret; by apply synced_none].
  apply Z.eqb_eq in Hr. apply wp_ret, wp_ret. cbn [fst snd]. intros o' Ho'. destruct (Hs o' Ho') as [Hlt Hserved]. split; [lia|]. intros Hlive i c.
  destruct (Ha o' Hr Hlive) as [->|?]; [|lia]. destruct (Hl o Hlive) as [?|[Hlive0 Hsv]]; [lia|]. rewrite decide_True in Hsv by done.
  cbn [remoteUpdateCallbackMap_ set_callbacks]. rewrite lookup_insert_Some. intros [[<- <-]|[Hne Hc]].
  - exists r. unfold last_asked. rewrite Hr0, last_request_snoc, bool_decide_true by done. split; [done|]. by rewrite Hsv.
  - eapply asked_other; [exact Hr0|congruence|exact Hsv|by apply Hother|by apply Hserved].
Qed.
Lemma synced_unregister o info this e : synced this e → wp (unregister_on o info) (this, e) (λ _ s', synced s'.1 s'.2).
Proof.
  intros Hs. unfold unregister_on. apply wp_bind, wp_set_own. cbn [fst snd]. apply wp_bind, wp_env_. cbn [fst snd]. unfold wp at 1.
  destruct (unregister_called o info e) as (now & [Hb Hl] & Hother). pose proof (unregister_logged o info e) as Hr0.
  set (e1 := exec (proxy_UnregisterUpdateCallback o info) e) in *.
  apply wp_bind. destruct (negb _); [apply wp_set_own, wp_ret; by apply synced_none|].
  apply wp_ret, wp_ret. cbn [fst snd]. intros o' Ho'. destruct (Hs o' Ho') as [Hlt Hserved]. split; [lia|]. intros Hlive i c.
  destruct (Hl o' Hlive) as [?|[Hlive0 Hsv]]; [lia|]. cbn [remoteUpdateCallbackMap_ set_callbacks]. rewrite lookup_delete_Some. intros [Hne Hc].
  eapply asked_other; [exact Hr0|congruence|exact Hsv| |by apply Hserved]. case_decide; [by apply Hother|done].
Qed.
(** What a notification of a death leaves: the old connection is gone; a new one is made if there are callbacks to
    register again, three times in the life of the process. *)
Lemma wp_ResetService remote this e :
  wp (ResetService remote) (this, e) (λ _ s',
    synced s'.1 s'.2 ∧ remoteUpdateCallbackMap_ s'.1 = remoteUpdateCallbackMap_ this ∧
    if negb (bool_decide (remoteUpdateCallbackMap_ this = ∅)) && (retryTimes_ this <? retryMaxTimes)
    then retryTimes_ s'.1 = retryTimes_ this + 1 else retryTimes_ s'.1 = retryTimes_ this ∧ remoteServer_ s'.1 = None).
Proof.
  unfold ResetService, BaseResetService. apply wp_bind, wp_bind, wp_own_. cbn [fst snd]. apply wp_bind.
  eapply (wp_mono _ _ (λ _ s', s'.1 = this)).
  2: { destruct remote; [|by apply wp_ret]. destruct (deathRecipient_ this); [|by apply wp_ret]. apply wp_bind, wp_env_, wp_any. intros _ e1. by apply wp_ret. }
  intros _ [this' e1] Hthis. cbn in Hthis. subst this'. apply wp_bind, wp_set_own, wp_set_own. cbn [fst snd].
  apply wp_bind, wp_own_, wp_bind, wp_own_. cbn [fst snd set_server set_recipient remoteUpdateCallbackMap_ retryTimes_].
  destruct (_ && _); [|apply wp_ret; split_and!; [by apply synced_none|done..]].
  apply wp_bind, wp_GetService; [by apply synced_none|]. intros r this2 e2 Hs2 Hmap2 Hretry2 _. apply wp_set_own. by split_and!.
Qed.
Lemma synced_step a b : client_step a b → synced a.1 a.2 → synced b.1 b.2.
Proof.
  destruct 1 as [[this e]|[this e] o info cb|[this e] o info|[this e]|[this e] remote|this e e' Hm]; cbn [fst snd]; intros Hs.
  - change (wp GetService (this, e) (λ _ s', synced s'.1 s'.2)). apply wp_GetService; [done|]. by intros.
  - by apply (synced_register o info cb).
  - by apply (synced_unregister o info).
  - by apply synced_none.
  - by destruct (wp_ResetService remote this e).
  - by eapply synced_undisturbed.
Qed.

(** C32: However the calls of an application, the deaths of the service and the notifications of them
    interleave: whenever the object the application holds is that of the running service, each
    callback it wants, one given to an earlier life of the service too, has been asked for there, by the last request made
    of that object for its upgrade information, and is registered there unless that request was answered with another result than SUCCESS.
    (A registration that is refused after a reconnection is not tried again; one refused at first drops the connection.) *)
Theorem callbacks_resumed e s :
  star client_step (new, e) s →
  ∀ o, remoteServer_ s.1 = Some o → live s.2 = Some o →
    ∀ info cb, remoteUpdateCallbackMap_ s.1 !! info = Some cb → ∃ answer,
      last_asked o info (requests s.2) = Some (Registration cb answer) ∧ (answer = CallResult.SUCCESS → served s.2 !! info = Some cb).
Proof.
  intros Hs o Ho Hlive. pose proof (star_invariant client_step (λ s, synced s.1 s.2) synced_step (new, e) s Hs (synced_none new e eq_refl)) as Hinv.
  destruct (Hinv o Ho) as [_ Hserved]. by apply Hserved.
Qed.

(** Once the service has died three times under an application with callbacks, its next death is not
    answered: the callbacks are registered again only when the application makes another call. *)
Lemma fourth_death_ignored remote this e :
  retryMaxTimes ≤ retryTimes_ this → remoteServer_ (exec (ResetService remote) (this, e)).1 = None.
Proof.
  intros Hretry. destruct (wp_ResetService remote this e) as (_ & _ & Hr).
  rewrite (proj2 (Z.ltb_ge _ _)), andb_false_r in Hr by done. apply Hr.
Qed.
(** Without a connection a callback cannot be withdrawn, and comes back with the next connection. *)
Lemma withdrawn_callback_stays info this e :
  remoteServer_ this = None → samgr_there e = false → UnregisterUpdateCallback info (this, e) = (CallResult.IPC_ERR, (this, e)).
Proof.
  intros Hnone Hsamgr. unfold UnregisterUpdateCallback, with_service, GetService, bind, own_, env_, gets. cbn. rewrite Hnone. cbn. by rewrite Hsamgr.
Qed.
End lives.

(** ** Witness *)
Module SampleClient.
Import UpdateServiceKitsImpl.
(** The running service with its callbacks; the next object; the requests made. *)
Record env := { running : option (Z * gmap UpgradeInfo.t Z); next : Z; made : list (Z * UpgradeInfo.t * Asked) }.
(** A number that is not born yet is not that of a running service. *)
Definition live_object (e : env) : option Z := match running e with Some (o, _) => if decide (o < next e) then Some o else None | None => None end.
#[local] Instance abilities : SystemAbilities env := {
  UPDATE_DISTRIBUTED_SERVICE_ID := 3006;
  samgr_there _ := true;
  CheckSystemAbility _ := gets live_object;
  GetSystemAbility _ := gets live_object;
  LoadSystemAbility _ _ := λ e,
    match live_object e with Some _ => (true, e) | None => (true, {| running := Some (next e, ∅); next := next e + 1; made := made e |}) end;
  iface_cast _ _ := true; IsProxyObject _ _ := true; add_recipient _ := ret true; remove_recipient _ := ret true
}.
Definition on_running (o : Z) (info : UpgradeInfo.t) (f : gmap UpgradeInfo.t Z → gmap UpgradeInfo.t Z) (asked : Z → Asked) : ST env Z := λ e,
  let answer := match running e with Some (o', _) => if decide (o' = o) then CallResult.SUCCESS else CallResult.IPC_ERR | None => CallResult.IPC_ERR end in
  (answer, {|
    running := match running e with Some (o', m) => Some (o', if decide (o' = o) then f m else m) | None => None end;
    next := next e; made := made e ++ [((o, info), asked answer)] |}).
Definition unused {A} (out : A) : ST env (Z * A) := ret (CallResult.SUCCESS, out).
#[local] Instance proxy : ServiceProxy env := {
  proxy_RegisterUpdateCallback o info cb := on_running o info (insert info cb) (Registration cb);
  proxy_UnregisterUpdateCallback o info := on_running o info (delete info) Withdrawal;
  proxy_CheckNewVersion _ _ := unused; proxy_Download _ _ _ _ := unused; proxy_PauseDownload _ _ _ _ := unused;
  proxy_ResumeDownload _ _ _ _ := unused; proxy_Upgrade _ _ _ _ := unused; proxy_ClearError _ _ _ _ := unused;
  proxy_TerminateUpgrade _ _ := unused; proxy_GetNewVersionInfo _ _ := unused; proxy_GetNewVersionDescription _ _ _ _ := unused;
  proxy_GetCurrentVersionInfo _ _ := unused; proxy_GetCurrentVersionDescription _ _ _ := unused; proxy_GetTaskInfo _ _ := unused;
  proxy_SetUpgradePolicy _ _ _ := unused; proxy_GetUpgradePolicy _ _ := unused; proxy_Cancel _ _ _ := unused;
  proxy_FactoryReset _ := unused; proxy_ForceFactoryReset _ := unused; proxy_DeepFactoryReset _ _ := unused;
  proxy_GetDeepFactoryResetInfo _ _ := unused; proxy_ApplyNewVersion _ _ _ _ := unused; proxy_VerifyUpgradePackage _ _ _ := unused
}.
#[local] Instance state : ServiceState env := {
  live := live_object;
  served e := match running e with Some (_, m) => m | None => ∅ end;
  born := next
}.
#[local] Instance request_log : RequestLog env := { requests := made }.
#[local] Instance request_laws : RequestLaws env.
Proof. split; try done. intros id n e. unfold exec, LoadSystemAbility, abilities. by destruct (live_object e). Qed.
Lemma on_running_called o info f a e : called o (f (served e)) e (exec (on_running o info f a) e).
Proof.
  unfold called, exec, on_running, live, served, born, state, live_object. destruct e as [[[o1 m]|] n l]; cbn; [|split; [lia|done]].
  split; [lia|]. intros o'. destruct (decide (o1 < n)); [|done]. intros [= <-]. by right.
Qed.
Lemma on_running_answered o info f a e o' :
  eval (on_running o info f a) e = CallResult.SUCCESS → live (exec (on_running o info f a) e) = Some o' → o' = o ∨ born e ≤ o'.
Proof.
  unfold eval, exec, on_running, live, born, state, live_object. destruct e as [[[o1 m]|] n l]; cbn; [|done]. destruct (decide (o1 = o)) as [->|Hne]; cbn; [|done].
  intros _. destruct (decide (o < n)); [|done]. intros [= <-]. by left.
Qed.
Lemma live_object_born e o : live_object e = Some o → o < next e.
Proof. unfold live_object. destruct (running e) as [[o1 m]|]; [|done]. destruct (decide _); [|done]. by intros [= <-]. Qed.
#[local] Program Instance laws : ServiceLaws env.
Next Obligation. exact live_object_born. Qed.
Next Obligation. intros id e. apply moved_refl. Qed.
Next Obligation. intros id e o. apply live_object_born. Qed.
Next Obligation. intros id e. apply moved_refl. Qed.
Next Obligation. intros id e o. apply live_object_born. Qed.
Next Obligation.
  intros id n e. unfold exec, LoadSystemAbility, abilities. destruct (live_object e) eqn:Hl; [apply moved_refl|]. cbn.
  split; [cbn; lia|]. cbn. intros o Ho. left. unfold live_object in Ho. cbn in Ho. destruct (decide _); [|done]. injection Ho as <-. lia.
Qed.
Next Obligation. intros o e. apply moved_refl. Qed.
Next Obligation. intros o e. apply moved_refl. Qed.
Next Obligation.
  intros o info cb e. exists (<[info := cb]> (served e)). split_and!; [apply on_running_called|intros; by apply lookup_insert_ne|intros _; apply lookup_insert_eq].
Qed.
Next Obligation. intros o info cb e o'. apply on_running_answered. Qed.
Next Obligation. intros o info e. exists (delete info (served e)). split; [apply on_running_called|intros; by apply lookup_delete_ne]. Qed.

(** The service dies under an application with a callback, and is loaded again when the death
    is notified. *)
Definition app : UpgradeInfo.t := UpgradeInfo.default.
Definition nothing : env := {| running := None; next := 0; made := [] |}.
Definition dead (e : env) : env := {| running := None; next := next e; made := made e |}.
Definition registered : t * env := exec (register_on 0 app 7) (exec GetService (new, nothing)).
Definition resumed : t * env := exec (ResetService (Some 0)) (registered.1, dead registered.2).
Lemma callbacks_resumed_witness : remoteServer_ resumed.1 = Some 1 ∧ served resumed.2 !! app = Some 7.
Proof.
  assert (star client_step (new, nothing) resumed) as Hs.
  { eapply star_step; [apply step_get|]. eapply star_step; [apply (step_register _ 0 app 7)|].
    eapply star_step; [|eapply star_step; [apply (step_died (registered.1, dead registered.2) (Some 0))|apply star_refl]].
    unfold registered. destruct (exec (register_on 0 app 7) _) as [v e]. apply step_moves. split; [|done]. split; [cbn; lia|]. by intros. }
  assert (remoteServer_ resumed.1 = Some 1) as Hserver by (vm_compute; reflexivity).
  split; [exact Hserver|]. destruct (callbacks_resumed nothing resumed Hs 1 Hserver ltac:(vm_compute; reflexivity) app 7 ltac:(vm_compute; reflexivity)) as (answer & Hl & Hserved).
  apply Hserved. assert (last_asked 1 app (requests resumed.2) = Some (Registration 7 CallResult.SUCCESS)) as Hl' by (vm_compute; reflexivity).
  rewrite Hl' in Hl. by injection Hl.
Defined.
End SampleClient.
