(* ===== verification/HttpRequest.v ===== *)
(** * Requests over HTTP

    Models [services/core/ability/net]: [network_base_request.cpp] (the options of a
    request, its attempts) and [download_request.cpp] (what is done with the headers, the data
    and the progress of a download).  An attempt is a sequence of callbacks libcurl makes, which
    ends early when one refuses; libcurl and the file are a class.  The callback of the owner
    runs on the environment, and may stop the request. *)
From Stdlib Require Import ZArith Lia Ascii String.
From stdpp Require Import base tactics list strings gmap.
From S2P Require Import Prelude CppString StringUtils DownloadThread.

#[local] Open Scope Z_scope.

Module RequestMethod.
(*@* core/ability/net/include/network_response.h RequestMethod *)
Definition POST : Z := 0.
Definition GET : Z := 1.
End RequestMethod.

Module NetworkResponse.
(*@* core/ability/net/include/network_response.h NetworkResponse *)
Record t := { status : Z; result : Z; content : string; retryInfo : string }.
(*@ core/ability/net/include/network_response.h:57-62 NetworkResponse *)
Definition default : t := {| status := -1; result := 0; content := ""; retryInfo := "" |}.
(*@* core/ability/net/include/network_response.h = *)
Definition IsContentValid (this : t) : bool := negb (content this =? "")%string.
Definition IsRequestSuccess (this : t) : bool := status this =? HttpRespondCode.CODE_SUCCESS.
End NetworkResponse.

(** The options of a transfer; the callbacks are those of this file. *)
Inductive HttpOpt :=
  | OPT_URL (url : string)
  | OPT_LOW_SPEED_LIMIT (n : Z) | OPT_LOW_SPEED_TIME (n : Z) | OPT_NOSIGNAL (n : Z) | OPT_FOLLOWLOCATION (n : Z) | OPT_MAXREDIRS (n : Z)
  | OPT_HTTPHEADER (headers : list string)
  | OPT_COPYPOSTFIELDS (body : string) | OPT_POST (n : Z)
  | OPT_WRITEFUNCTION | OPT_XFERINFOFUNCTION | OPT_HEADERFUNCTION
  | OPT_NOPROGRESS (n : Z) | OPT_FAILONERROR (n : Z) | OPT_CONNECTTIMEOUT (n : Z)
  | OPT_RESUME_FROM_LARGE (n : Z).
(** The callbacks of an attempt, in order. *)
Inductive HttpEvent := HeaderLine (contents : list ascii) | Body (data : list ascii) | Progress (dlTotal dlNow : Z).

(** [attempt] is [curl_easy_perform] and [curl_easy_getinfo]: the events, the code unless a callback refuses, and
    the status of the response.  [fwrite size nmemb] returns how many items were written. *)
Class HttpKits (E : Type) := {
  CURL_MAX_WRITE_SIZE : Z;
  curle_ok : Z;
  curle_write_error : Z;
  curle_aborted : Z;
  http_init : ST E bool;
  attempt : list HttpOpt → ST E (list HttpEvent * (Z * Z));
  http_cleanup : ST E unit;
  http_sleep : Z → ST E unit;
  fwrite : list ascii → Z → Z → ST E Z;
  fflush : ST E Z;
  fsync : ST E Z
}.

Module DownloadRequest.
(** [file_]: is a file open. *)
(*@ core/ability/net/include/network_base_request.h:39-45 NetworkBaseRequest *)
Record t := {
  url_ : string;
  method_ : Z;
  headerParameters_ : list (string * string); (* in the order of the keys *)
  requestBody_ : string;
  maxRetryTimes_ : Z;
  retryInterval_ : Z;
  requestTimeout_ : Z;
  file_ : bool;
  downloadedSize_ : Z;
  isNeedStop_ : bool;
  headersBuffer_ : list string;
  fsyncSize_ : Z
}.
(*@* core/ability/net/include/network_base_request.h = *)
Definition DEFAULT_REQUEST_TIMEOUT : Z := 20.
(*@* core/ability/net/src/network_base_request.cpp = *)
Definition LOW_SPEED_LIMIT : Z := 1.
Definition LOW_SPEED_TIME : Z := 6.
Definition MAXREDIRS_SIZE : Z := 5.
Definition HTTPS_PREFIX : string := "https://".
Definition HTTP_PREFIX : string := "http://".
(*@* core/ability/net/src/download_request.cpp = *)
Definition CONNECT_TIMEOUT : Z := 20.
Definition maxSize : Z := 16 * 1024.

Section ops.
Implicit Types (this : t).
(** *** The setters *)
(*@* core/ability/net/src/download_request.cpp DownloadRequest::= *)
Definition SetUrl (url : string) this : t := Build_t url (method_ this) (headerParameters_ this) (requestBody_ this) (maxRetryTimes_ this)
  (retryInterval_ this) (requestTimeout_ this) (file_ this) (downloadedSize_ this) (isNeedStop_ this) (headersBuffer_ this) (fsyncSize_ this).
Definition SetHeader (header : list (string * string)) this : t := Build_t (url_ this) (method_ this) header (requestBody_ this) (maxRetryTimes_ this)
  (retryInterval_ this) (requestTimeout_ this) (file_ this) (downloadedSize_ this) (isNeedStop_ this) (headersBuffer_ this) (fsyncSize_ this).
Definition SetMethod (method : Z) this : t := Build_t (url_ this) method (headerParameters_ this) (requestBody_ this) (maxRetryTimes_ this)
  (retryInterval_ this) (requestTimeout_ this) (file_ this) (downloadedSize_ this) (isNeedStop_ this) (headersBuffer_ this) (fsyncSize_ this).
Definition SetRequestBody (params : string) this : t := Build_t (url_ this) (method_ this) (headerParameters_ this) params (maxRetryTimes_ this)
  (retryInterval_ this) (requestTimeout_ this) (file_ this) (downloadedSize_ this) (isNeedStop_ this) (headersBuffer_ this) (fsyncSize_ this).
Definition SetFile (file : bool) this : t := Build_t (url_ this) (method_ this) (headerParameters_ this) (requestBody_ this) (maxRetryTimes_ this)
  (retryInterval_ this) (requestTimeout_ this) file (downloadedSize_ this) (isNeedStop_ this) (headersBuffer_ this) (fsyncSize_ this).
Definition SetDownloadedSize (downloadedSize : Z) this : t := Build_t (url_ this) (method_ this) (headerParameters_ this) (requestBody_ this) (maxRetryTimes_ this)
  (retryInterval_ this) (requestTimeout_ this) (file_ this) downloadedSize (isNeedStop_ this) (headersBuffer_ this) (fsyncSize_ this).
Definition SetDownloadStopStatus (isNeedStop : bool) this : t := Build_t (url_ this) (method_ this) (headerParameters_ this) (requestBody_ this) (maxRetryTimes_ this)
  (retryInterval_ this) (requestTimeout_ this) (file_ this) (downloadedSize_ this) isNeedStop (headersBuffer_ this) (fsyncSize_ this).
Definition AddFsyncSize (writeSize : Z) this : t := Build_t (url_ this) (method_ this) (headerParameters_ this) (requestBody_ this) (maxRetryTimes_ this)
  (retryInterval_ this) (requestTimeout_ this) (file_ this) (downloadedSize_ this) (isNeedStop_ this) (headersBuffer_ this) (to_uint64 (fsyncSize_ this + writeSize)).
Definition ClearSyncSize this : t := Build_t (url_ this) (method_ this) (headerParameters_ this) (requestBody_ this) (maxRetryTimes_ this)
  (retryInterval_ this) (requestTimeout_ this) (file_ this) (downloadedSize_ this) (isNeedStop_ this) (headersBuffer_ this) 0.
Definition GetDownloadStopStatus this : bool := isNeedStop_ this.
Definition GetDownloadedSize this : Z := downloadedSize_ this.
Definition GetFile this : bool := file_ this.
Definition GetFsyncSize this : Z := fsyncSize_ this.
Definition GetHeadersBuffer this : list string := headersBuffer_ this.
(*@* core/ability/net/src/network_base_request.cpp NetworkBaseRequest::= *)
Definition SetRetry (maxRetryTimes retryInterval : Z) this : t := Build_t (url_ this) (method_ this) (headerParameters_ this) (requestBody_ this) maxRetryTimes
  retryInterval (requestTimeout_ this) (file_ this) (downloadedSize_ this) (isNeedStop_ this) (headersBuffer_ this) (fsyncSize_ this).
Definition SetTimeOut (timeOut : Z) this : t := Build_t (url_ this) (method_ this) (headerParameters_ this) (requestBody_ this) (maxRetryTimes_ this)
  (retryInterval_ this) (if 0 <? timeOut then timeOut else DEFAULT_REQUEST_TIMEOUT) (file_ this) (downloadedSize_ this) (isNeedStop_ this) (headersBuffer_ this)
  (fsyncSize_ this).

(** *** The options *)
Definition IsUrlValid this : bool := AnonymousUtils.starts_with (url_ this) HTTP_PREFIX || AnonymousUtils.starts_with (url_ this) HTTPS_PREFIX.
Definition IsHttpsUrl this : bool := AnonymousUtils.starts_with (url_ this) HTTPS_PREFIX.
Definition InitCurl this : list HttpOpt :=
  [OPT_URL (url_ this); OPT_LOW_SPEED_LIMIT LOW_SPEED_LIMIT; OPT_LOW_SPEED_TIME LOW_SPEED_TIME; OPT_NOSIGNAL 1; OPT_FOLLOWLOCATION 1; OPT_MAXREDIRS MAXREDIRS_SIZE].
Definition SetCurlPostBody this : list HttpOpt :=
  if negb (method_ this =? RequestMethod.POST) then [] else [OPT_COPYPOSTFIELDS (requestBody_ this); OPT_POST 1].
(*@* core/ability/net/src/download_request.cpp DownloadRequest::= *)
Definition SetPostResumeOption this : list string :=
  if downloadedSize_ this <=? 0 then [] else ["Range: bytes=" +:+ to_string (downloadedSize_ this) +:+ "-"].
Definition SetExtraHeader this : list string := SetPostResumeOption this.
Definition SetGetResumeOption this : list HttpOpt :=
  if (0 <? downloadedSize_ this) && (method_ this =? RequestMethod.GET) then [OPT_RESUME_FROM_LARGE (downloadedSize_ this)] else [].
Definition PerformExtraCurlRequest this : list HttpOpt :=
  [OPT_WRITEFUNCTION; OPT_NOPROGRESS 0; OPT_FAILONERROR 1; OPT_XFERINFOFUNCTION; OPT_HEADERFUNCTION; OPT_CONNECTTIMEOUT CONNECT_TIMEOUT] ++
  SetGetResumeOption this.
(*@ core/ability/net/src/network_base_request.cpp NetworkBaseRequest::SetCurlHeaders *)
Definition SetCurlHeaders this : list HttpOpt :=
  if negb (method_ this =? RequestMethod.POST) && (length (headerParameters_ this) =? 0)%nat then []
  else [OPT_HTTPHEADER ("Content-Type:application/json;charset=UTF-8" ::
          map (λ x, x.1 +:+ ":" +:+ x.2) (headerParameters_ this) ++ SetExtraHeader this)].

(** *** The callbacks *)
Context {E : Type} `{HttpKits E}.
(** The progress callback of the owner, if there is one. *)
Context (onProgress : option (Z → Z → ST (t * E) unit)).
#[local] Notation Request := (ST (t * E)).
(*@ core/ability/net/src/download_request.cpp FILE_SIZE_MB *)
Definition FILE_SIZE_MB : Z := to_int32 (MIN_FILE_DOWNLOAD_SIZE - CURL_MAX_WRITE_SIZE (E := E) * 2).
Definition set_headers (l : list string) this : t := Build_t (url_ this) (method_ this) (headerParameters_ this) (requestBody_ this) (maxRetryTimes_ this)
  (retryInterval_ this) (requestTimeout_ this) (file_ this) (downloadedSize_ this) (isNeedStop_ this) l (fsyncSize_ this).
(*@ core/ability/net/src/download_request.cpp DownloadRequest::HeaderCallback *)
Definition HeaderCallback (contents : list ascii) (size nmemb : Z) : Request Z :=
  if (size =? 0) || (nmemb =? 0) then ret 0
  else if maxSize <? to_uint64 (size * nmemb) then ret 0
  else
    set_own (λ this, set_headers (headersBuffer_ this ++ [StringUtils.Trim (str contents)]) this) ;;;
    ret (to_uint64 (size * nmemb)).
(** 0: go on. *)
(*@ core/ability/net/src/download_request.cpp DownloadRequest::CallbackProgress *)
Definition CallbackProgress (dlTotal dlNow : Z) : Request Z :=
  if (dlTotal =? 0) && (dlNow =? 0) then ret 0
  else
    let* stop := own_ GetDownloadStopStatus in
    if stop : bool then ret 1
    else
      let* downloadedSize := own_ GetDownloadedSize in
      match onProgress with
      | None => ret 1
      | Some callback => callback (to_int64 (dlTotal + downloadedSize)) (to_int64 (dlNow + downloadedSize)) ;;; ret 0
      end.
(*@ core/ability/net/src/download_request.cpp DownloadRequest::WriteFun *)
Definition WriteFun (buffer : list ascii) (size nmemb : Z) : Request Z :=
  if (size =? 0) || (nmemb =? 0) || (CURL_MAX_WRITE_SIZE (E := E) <? to_int64 size * to_int64 nmemb) then ret 0
  else
    let rSize := to_uint64 (size * nmemb) in
    let* stop := own_ GetDownloadStopStatus in
    if stop : bool then ret 0
    else
      let* fp := own_ GetFile in
      if negb fp then ret 0
      else
        let* n := env_ (fwrite buffer size nmemb) in
        if negb (n =? nmemb) then ret 0
        else
          set_own (AddFsyncSize rSize) ;;;
          let* fsyncSize := own_ GetFsyncSize in
          if to_uint64 FILE_SIZE_MB <=? fsyncSize then
            let* ret_ := env_ fflush in
            if negb (ret_ =? 0) then ret 0
            else
              let* ret_ := env_ fsync in
              if negb (ret_ =? 0) then ret 0
              else set_own ClearSyncSize ;;; ret rSize
          else ret rSize.

(** *** The attempts *)
(** libcurl calls back, with items of one byte, until a callback refuses. *)
Fixpoint perform (events : list HttpEvent) (code : Z) : Request Z :=
  match events with
  | [] => ret code
  | HeaderLine contents :: events =>
      let* n := HeaderCallback contents 1 (Z.of_nat (length contents)) in
      if n =? Z.of_nat (length contents) then perform events code else ret curle_write_error
  | Body data :: events =>
      let* n := WriteFun data 1 (Z.of_nat (length data)) in
      if n =? Z.of_nat (length data) then perform events code else ret curle_write_error
  | Progress dlTotal dlNow :: events =>
      let* r := CallbackProgress dlTotal dlNow in
      if r =? 0 then perform events code else ret curle_aborted
  end.
(** [response.retryInfo.append(...)] *)
Definition answered (code status : Z) (response : NetworkResponse.t) : NetworkResponse.t := {|
  NetworkResponse.status := status; NetworkResponse.result := to_int32 code; NetworkResponse.content := NetworkResponse.content response;
  NetworkResponse.retryInfo := NetworkResponse.retryInfo response +:+ to_string (to_int32 code) +:+ "," |}.
(** The fuel is the number of attempts that may still be made. *)
(*@ core/ability/net/src/network_base_request.cpp:113-133 NetworkBaseRequest::PerformCurlRequest *)
Fixpoint attempts (fuel : nat) (opts : list HttpOpt) (retryTimes : Z) (response : NetworkResponse.t) : Request (Z * NetworkResponse.t) :=
  match fuel with
  | O => ret (retryTimes, response)
  | S fuel =>
      let* (events, (code, status)) := env_ (attempt opts) in
      let* retCurlCode := perform events code in
      let response := answered retCurlCode status response in
      if retCurlCode =? curle_ok then ret (retryTimes, response)
      else
        let* this := own_ (λ this, this) in
        if (retryTimes <? maxRetryTimes_ this) && (0 <? retryInterval_ this) then
          env_ (http_sleep (retryInterval_ this)) ;;;
          attempts fuel opts (retryTimes + 1) response
        else ret (retryTimes + 1, response)
  end.
(** [pop_back] *)
Definition pop_back (s : string) : string := str (removelast (chars s)).
Definition set_retryInfo (s : string) (response : NetworkResponse.t) : NetworkResponse.t := {|
  NetworkResponse.status := NetworkResponse.status response; NetworkResponse.result := NetworkResponse.result response;
  NetworkResponse.content := NetworkResponse.content response; NetworkResponse.retryInfo := s |}.
(*@ core/ability/net/src/network_base_request.cpp NetworkBaseRequest::PerformCurlRequest *)
Definition PerformCurlRequest (opts : list HttpOpt) (response : NetworkResponse.t) : Request NetworkResponse.t :=
  let* this := own_ (λ this, this) in
  let opts := opts ++ PerformExtraCurlRequest this in
  let response := set_retryInfo (NetworkResponse.retryInfo response +:+ url_ this +:+ ":") response in
  let* (retryTimes, response) := attempts (S (Z.to_nat (maxRetryTimes_ this))) opts 0 response in
  let response := set_retryInfo (pop_back (NetworkResponse.retryInfo response) +:+ "|" +:+ to_string retryTimes) response in
  ret (if retryTimes =? 0 then set_retryInfo "" response else response).
(*@ core/ability/net/src/network_base_request.cpp NetworkBaseRequest::DoNetRequest *)
Definition DoNetRequest : Request NetworkResponse.t :=
  let* this := own_ (λ this, this) in
  if negb (IsUrlValid this) then ret NetworkResponse.default
  else
    let* curl := env_ http_init in
    if negb curl then ret NetworkResponse.default
    else
      let opts := InitCurl this ++ SetCurlHeaders this ++ SetCurlPostBody this in
      let* response := PerformCurlRequest opts NetworkResponse.default in
      env_ http_cleanup ;;;
      ret response.
End ops.
End DownloadRequest.

(** ** What a request leaves in the file *)

(** The bytes of the file, and the attempts that were made, with the callbacks libcurl had to
    make and its result when they all agree; [fwrite] writes the whole buffer or a part of it. *)
Class HttpLaws (E : Type) `{HttpKits E} := {
  written : E → list ascii;
  made_attempts : E → list (list HttpEvent * Z);
  write_error_not_ok : curle_write_error ≠ curle_ok;
  aborted_not_ok : curle_aborted ≠ curle_ok;
  fwrite_part buffer size nmemb e : ∃ k, written (exec (fwrite buffer size nmemb) e) = written e ++ take k buffer;
  fwrite_whole buffer size nmemb e :
    eval (fwrite buffer size nmemb) e = nmemb → size * nmemb = Z.of_nat (length buffer) → written (exec (fwrite buffer size nmemb) e) = written e ++ buffer;
  fwrite_attempts buffer size nmemb e : made_attempts (exec (fwrite buffer size nmemb) e) = made_attempts e;
  attempt_made opts e : made_attempts (exec (attempt opts) e) = made_attempts e ++ [let r := eval (attempt opts) e in (r.1, r.2.1)];
  attempt_written opts e : written (exec (attempt opts) e) = written e;
  init_same e : written (exec http_init e) = written e ∧ made_attempts (exec http_init e) = made_attempts e;
  cleanup_same e : written (exec http_cleanup e) = written e ∧ made_attempts (exec http_cleanup e) = made_attempts e;
  sleep_same n e : written (exec (http_sleep n) e) = written e ∧ made_attempts (exec (http_sleep n) e) = made_attempts e;
  fflush_same e : written (exec fflush e) = written e ∧ made_attempts (exec fflush e) = made_attempts e;
  fsync_same e : written (exec fsync e) = written e ∧ made_attempts (exec fsync e) = made_attempts e
}.

Section appends.
Import DownloadRequest.
Context {E : Type} `{HttpLaws E}.
Context (onProgress : option (Z → Z → ST (t * E) unit)).
Implicit Types (this : t) (e : E) (events : list HttpEvent).

(** The fields a running request does not change. *)
Record kept this this' : Prop := {
  kept_url : url_ this' = url_ this;
  kept_retries : maxRetryTimes_ this' = maxRetryTimes_ this;
  kept_interval : retryInterval_ this' = retryInterval_ this
}.
Lemma kept_refl this : kept this this.
Proof. done. Qed.
Lemma kept_trans a b c : kept a b → kept b c → kept a c.
Proof. intros [] []. split; congruence. Qed.
(** The owner does not touch the file, start attempts or change the request: it may stop it. *)
Context (owner_keeps : ∀ callback a b s, onProgress = Some callback →
  wp (callback a b) s (λ _ s', kept s.1 s'.1 ∧ written s'.2 = written s.2 ∧ made_attempts s'.2 = made_attempts s.2)).

(** The data of an attempt. *)
Definition data_of events : list ascii := flat_map (λ ev, match ev with Body data => data | _ => [] end) events.

Lemma wp_WriteFun data this e (Q : Z → t * E → Prop) :
  (∀ r this' e' part rest, kept this this' → made_attempts e' = made_attempts e → data = part ++ rest → written e' = written e ++ part →
     (r = Z.of_nat (length data) → rest = []) → Q r (this', e')) →
  wp (WriteFun data 1 (Z.of_nat (length data))) (this, e) Q.
Proof.
  intros HQ. unfold WriteFun. destruct (_ || _) eqn:Hsize.
  - apply wp_ret, (HQ _ _ _ [] data); rewrite ?app_nil_r; try done. intros Hr. destruct data; [done|cbn in Hr; lia].
  - apply orb_false_iff in Hsize as [[_ Hn]%orb_false_iff _]. apply Z.eqb_neq in Hn.
    assert (∀ this' e', kept this this' → written e' = written e → made_attempts e' = made_attempts e → Q 0 (this', e')) as Hnone.
    { intros this' e' Hk Hw Ha. apply (HQ _ _ _ [] data); rewrite ?app_nil_r; try done; lia. }
    apply wp_bind, wp_own_. cbn [fst]. destruct (GetDownloadStopStatus this); [by apply wp_ret, Hnone|].
    apply wp_bind, wp_own_. cbn [fst]. destruct (GetFile this); cbn [negb]; [|by apply wp_ret, Hnone].
    apply wp_bind, wp_env_. cbn [fst snd]. unfold wp at 1. set (len := Z.of_nat (length data)) in *.
    pose proof (fwrite_part data 1 len e) as [k Hk]. pose proof (fwrite_whole data 1 len e) as Hwhole. pose proof (fwrite_attempts data 1 len e) as Ha.
    destruct (eval (fwrite data 1 len) e =? len) eqn:Heq; cbn [negb].
    2: { apply wp_ret, (HQ _ _ _ (take k data) (drop k data)); [done|done|by rewrite take_drop|done|]. intros Hr. lia. }
    apply Z.eqb_eq in Heq. specialize (Hwhole Heq ltac:(unfold len; lia)). clear Hk.
    assert (∀ r this' e', kept this this' → written e' = written e ++ data → made_attempts e' = made_attempts e → Q r (this', e')) as Hall.
    { intros r this' e' Hk Hw Ha'. by apply (HQ _ _ _ data []); rewrite ?app_nil_r. }
    apply wp_bind, wp_set_own, wp_bind, wp_own_. cbn [fst snd]. destruct (_ <=? _); [|by apply wp_ret, Hall].
    apply wp_bind, wp_env_. cbn [fst snd]. unfold wp at 1. set (e1 := exec (fwrite _ _ _) e) in *. destruct (fflush_same e1) as [Hw2 Ha2].
    destruct (_ =? 0); cbn [negb]; [|apply wp_ret, Hall; [done|congruence..]].
    apply wp_bind, wp_env_. cbn [fst snd]. unfold wp at 1. set (e2 := exec fflush e1) in *. destruct (fsync_same e2) as [Hw3 Ha3].
    destruct (_ =? 0); cbn [negb]; [|apply wp_ret, Hall; [done|congruence..]].
    apply wp_bind, wp_set_own, wp_ret, Hall; [done|cbn [fst snd]; congruence..].
Qed.
Lemma wp_http_progress dlTotal dlNow this e (Q : Z → t * E → Prop) :
  (∀ r this' e', kept this this' → written e' = written e → made_attempts e' = made_attempts e → Q r (this', e')) →
  wp (CallbackProgress onProgress dlTotal dlNow) (this, e) Q.
Proof using owner_keeps.
  intros HQ. unfold CallbackProgress. destruct (_ && _); [by apply wp_ret, HQ|]. apply wp_bind, wp_own_. cbn [fst].
  destruct (GetDownloadStopStatus this); [by apply wp_ret, HQ|]. apply wp_bind, wp_own_. cbn [fst].
  destruct onProgress as [callback|] eqn:Hcb; [|by apply wp_ret, HQ]. apply wp_bind.
  eapply wp_mono; [|by apply owner_keeps]. intros _ [this' e'] (Hk & Hw & Ha). cbn [fst snd] in *. by apply wp_ret, HQ.
Qed.
Lemma wp_HeaderCallback contents n this e (Q : Z → t * E → Prop) :
  (∀ r this', kept this this' → Q r (this', e)) → wp (HeaderCallback contents 1 n) (this, e) Q.
Proof.
  intros HQ. unfold HeaderCallback. destruct (_ || _); [by apply wp_ret, HQ|]. destruct (_ <? _); [by apply wp_ret, HQ|].
  apply wp_bind, wp_set_own, wp_ret. by apply HQ.
Qed.

(** An attempt writes a prefix of its data, all of it if it succeeds. *)
Lemma wp_perform events code this e (Q : Z → t * E → Prop) :
  (∀ r this' e' part rest, kept this this' → made_attempts e' = made_attempts e → data_of events = part ++ rest → written e' = written e ++ part →
     (r = curle_ok → rest = []) → r ∈ [code; curle_write_error; curle_aborted] → Q r (this', e')) →
  wp (perform onProgress events code) (this, e) Q.
Proof using owner_keeps.
  revert this e. induction events as [|ev events IH]; intros this e HQ; cbn [perform].
  - apply wp_ret, (HQ _ _ _ [] []); rewrite ?app_nil_r; try done. apply list_elem_of_here.
  - destruct ev as [contents|data|dlTotal dlNow]; cbn [data_of flat_map] in HQ; fold (data_of events) in HQ.
    + apply wp_bind, wp_HeaderCallback. intros r this' Hk. destruct (r =? _).
      * apply IH. intros r' this2 e2 part rest Hk2 Ha Hd Hw Hok Hr. apply (HQ _ _ _ part rest); try done. by eapply kept_trans.
      * apply wp_ret, (HQ _ _ _ [] (data_of events)); rewrite ?app_nil_r; try done; [intros Hr; by destruct write_error_not_ok|set_solver].
    + apply wp_bind, wp_WriteFun. intros r this' e' part rest Hk Ha Hd Hw Hall. destruct (r =? _) eqn:Hr.
      * apply Z.eqb_eq in Hr. rewrite (Hall Hr), app_nil_r in Hd. subst part. apply IH.
        intros r' this2 e2 part2 rest2 Hk2 Ha2 Hd2 Hw2 Hok Hr2. apply (HQ _ _ _ (data ++ part2) rest2); [by eapply kept_trans|congruence|by rewrite Hd2, app_assoc|by rewrite Hw2, Hw, app_assoc|done..].
      * apply wp_ret, (HQ _ _ _ part (rest ++ data_of events)); [done|done|by rewrite Hd, app_assoc|done|intros Hok; by destruct write_error_not_ok|set_solver].
    + apply wp_bind, wp_http_progress. intros r this' e' Hk Hw Ha. destruct (r =? 0).
      * apply IH. intros r' this2 e2 part rest Hk2 Ha2 Hd2 Hw2 Hok Hr. apply (HQ _ _ _ part rest); [by eapply kept_trans|congruence|done|congruence|done..].
      * apply wp_ret, (HQ _ _ _ [] (data_of events)); rewrite ?app_nil_r; try done; [intros Hok; by destruct aborted_not_ok|set_solver].
Qed.
Definition Attempt : Type := (list HttpEvent * Z) * (list ascii * Z).
Definition parts (l : list Attempt) : list (list ascii) := map (λ a, a.2.1) l.
Definition results (l : list Attempt) : list Z := map (λ a, a.2.2) l.
(** What an attempt did: the callbacks libcurl makes and its own result [run], the data it has left, and its result:
    that of libcurl unless a callback refuses. *)
Definition outcome (a : Attempt) : Prop :=
  let '((events, code), (part, result)) := a in
  part `prefix_of` data_of events ∧ (result = curle_ok → part = data_of events) ∧ result ∈ [code; curle_write_error; curle_aborted].
(** How many attempts are made at most. *)
Definition limit this (retries : Z) : nat := if 0 <? retryInterval_ this then S (Z.to_nat (maxRetryTimes_ this - retries)) else 1%nat.
(** A series of attempts, with their outcomes: all but the last one have failed, there are no more than the limit, and as
    many as that if none succeeds. *)
Definition series this (retries : Z) (l : list Attempt) : Prop :=
  Forall outcome l ∧ (length l ≤ limit this retries)%nat ∧
  ∃ before final, results l = before ++ [final] ∧ Forall (λ result, result ≠ curle_ok) before ∧ (final ≠ curle_ok → length l = limit this retries).
(** Did the last attempt succeed; what is noted of the attempts; how many of them have failed. *)
Definition succeeded (l : list Attempt) : bool := bool_decide (last (results l) = Some curle_ok).
Definition note (l : list Attempt) : list string := map (λ result, to_string (to_int32 result)) (results l).
Definition failures (l : list Attempt) : Z := Z.of_nat (length l) - (if succeeded l then 1 else 0).
Lemma series_cons this this' retries a l :
  0 < retryInterval_ this → retries < maxRetryTimes_ this → kept this this' → outcome a → a.2.2 ≠ curle_ok →
  series this' (retries + 1) l → series this retries (a :: l).
Proof.
  intros Hi Hmax [_ Hm Hint] Ha Hfail (Hall & Hlen & before & final & Hl & Hbefore & Hend).
  assert (limit this retries = S (limit this' (retries + 1))) as Hlim.
  { unfold limit. rewrite Hm, Hint, (proj2 (Z.ltb_lt 0 _)) by done. f_equal. lia. }
  split_and!; [by constructor|rewrite Hlim; cbn; lia|]. exists (a.2.2 :: before), final. split_and!.
  - change (results (a :: l)) with (a.2.2 :: results l). by rewrite Hl.
  - by constructor.
  - intros Hf. rewrite Hlim. cbn. by rewrite Hend.
Qed.
Lemma series_last l before final : results l = before ++ [final] → last (results l) = Some final.
Proof. intros ->. apply last_snoc. Qed.
Lemma series_nonempty this retries l : series this retries l → l ≠ [].
Proof. intros (_ & _ & before & final & Hl & _) ->. by destruct before. Qed.
Lemma succeeded_cons this retries a l : series this retries l → succeeded (a :: l) = succeeded l.
Proof. intros (_ & _ & before & final & Hl & _). unfold succeeded.
  change (results (a :: l)) with (a.2.2 :: results l). by rewrite last_cons, (series_last _ _ _ Hl). Qed.

Lemma wp_attempts opts retries this e response (Q : Z * NetworkResponse.t → t * E → Prop) :
  0 ≤ retries →
  (∀ response' this' e' l,
     kept this this' → series this retries l →
     made_attempts e' = made_attempts e ++ l.*1 → written e' = written e ++ concat (parts l) →
     Some (NetworkResponse.result response') = to_int32 <$> last (results l) →
     NetworkResponse.retryInfo response' = NetworkResponse.retryInfo response +:+ foldr (λ text rest, text +:+ "," +:+ rest) "" (note l) →
     Q (retries + failures l, response') (this', e')) →
  wp (attempts onProgress (S (Z.to_nat (maxRetryTimes_ this - retries))) opts retries response) (this, e) Q.
Proof using owner_keeps.
  remember (Z.to_nat (maxRetryTimes_ this - retries)) as fuel eqn:Hfuel.
  revert retries this e response Hfuel Q. induction fuel as [|fuel IH]; intros retries this e response Hfuel Q Hretries HQ.
  all: cbn [attempts]; apply wp_bind, wp_env_; cbn [fst snd]; unfold wp at 1;
    pose proof (attempt_made opts e) as Ha; pose proof (attempt_written opts e) as Hw;
    destruct (eval (attempt opts) e) as [events [code status]]; set (e1 := exec (attempt opts) e) in *; cbn [fst snd] in Ha;
    apply wp_bind, wp_perform; intros r this2 e2 part rest Hk2 Ha2 Hd2 Hw2 Hok2 Hr2.
  all: (assert (outcome ((events, code), (part, r))) as Hout
    by (split_and!; [by exists rest|intros Hr; by rewrite Hd2, (Hok2 Hr), app_nil_r|exact Hr2])).
  all: assert (∀ response', NetworkResponse.result response' = to_int32 r →
      NetworkResponse.retryInfo response' = NetworkResponse.retryInfo response +:+ to_string (to_int32 r) +:+ "," →
      (r ≠ curle_ok → 0 < retryInterval_ this → maxRetryTimes_ this ≤ retries) →
      Q (if r =? curle_ok then retries else retries + 1, response') (this2, e2)) as Hlast.
  1, 3: intros response' Hresult Hinfo Hstop;
    (replace (if r =? curle_ok then retries else retries + 1) with (retries + failures [((events, code), (part, r))])
      by (unfold failures, succeeded; cbn; destruct (Z.eqb_spec r curle_ok) as [->|Hr];
          [rewrite bool_decide_eq_true_2 by done; lia|rewrite bool_decide_eq_false_2 by (intros [=]; done); lia]));
    apply (HQ response' this2 e2); [done| |by rewrite Ha2, Ha|by rewrite Hw2, Hw; cbn; rewrite app_nil_r|by rewrite Hresult|exact Hinfo];
    (split_and!; [by constructor|unfold limit; cbn; destruct (0 <? _); lia|exists [], r; split_and!; [done|constructor|]]); intros Hr;
    unfold limit; destruct (0 <? retryInterval_ this) eqn:Hi; [apply Z.ltb_lt in Hi; specialize (Hstop Hr Hi); cbn; lia|done].
  all: destruct (r =? curle_ok) eqn:Hr; [apply wp_ret, Hlast; [done|done|]; apply Z.eqb_eq in Hr; by intros Hn|]; apply Z.eqb_neq in Hr;
    apply wp_bind, wp_own_; cbn [fst]; rewrite (kept_retries _ _ Hk2), (kept_interval _ _ Hk2);
    destruct ((retries <? maxRetryTimes_ this) && (0 <? retryInterval_ this)) eqn:Hagain;
    [apply andb_true_iff in Hagain as [Hmax%Z.ltb_lt Hi%Z.ltb_lt]
    |apply wp_ret, Hlast; [done|done|]; intros _ Hi; apply andb_false_iff in Hagain as [Hx|Hx]; [by apply Z.ltb_ge|apply Z.ltb_ge in Hx; lia]].
  - lia.
  - apply wp_bind, wp_env_. cbn [fst snd]. unfold wp at 1. destruct (sleep_same (retryInterval_ this) e2) as [Hw3 Ha3]. set (e3 := exec (http_sleep _) e2) in *.
    apply IH; [rewrite (kept_retries _ _ Hk2); lia|lia|].
    intros response' this4 e4 l Hk4 Hseries Ha4 Hw4 Hresult Hinfo.
    replace (retries + 1 + failures l) with (retries + failures (((events, code), (part, r)) :: l))
      by (unfold failures; rewrite (succeeded_cons _ _ _ _ Hseries); cbn; lia).
    apply HQ.
    + by eapply kept_trans.
    + by apply (series_cons this this2).
    + rewrite Ha4, Ha3, Ha2, Ha, <- app_assoc. done.
    + rewrite Hw4, Hw3, Hw2, Hw. cbn. by rewrite app_assoc.
    + rewrite Hresult. destruct Hseries as (_ & _ & before & final & Hl & _).
      change (results (?a :: l)) with (a.2.2 :: results l). by rewrite last_cons, (series_last _ _ _ Hl).
    + rewrite Hinfo. cbn. by rewrite !str_assoc.
Qed.
(** The last comma is taken away again. *)
Lemma note_joined prefix texts :
  texts ≠ [] → pop_back (prefix +:+ foldr (λ text rest, text +:+ "," +:+ rest) "" texts) = prefix +:+ String.concat "," texts.
Proof.
  intros Hne. assert (∀ x texts, foldr (λ text rest, text +:+ "," +:+ rest) "" (x :: texts) = String.concat "," (x :: texts) +:+ ",") as Hjoin.
  { intros x l. revert x. induction l as [|y l IH]; intros x; [cbn; by rewrite ?str_nil_r|].
    change (x +:+ "," +:+ foldr (λ text rest, text +:+ "," +:+ rest) "" (y :: l) = (x +:+ "," +:+ String.concat "," (y :: l)) +:+ ",").
    by rewrite IH, !str_assoc. }
  destruct texts as [|x texts]; [done|]. rewrite Hjoin.
  unfold pop_back. rewrite str_assoc, chars_app. change (chars ",") with [","%char]. by rewrite removelast_last, str_chars.
Qed.

(** C33: A request for a url that is neither http nor https makes no attempt, and neither does one when libcurl cannot be
    initialised.  Otherwise attempts are made one after the other, all for the same range, until one succeeds or
    the limit is reached: one attempt without a retry interval, with one as many as may be retried and one more.  Every attempt leaves
    a prefix of its data at the end of the file, a successful one all of it: what failed attempts have left stays
    there.  The answer has the result of the last attempt, and unless the first one succeeds, the results of all of
    them and the number of those that failed. *)
Theorem request_appends this e :
  wp (DoNetRequest onProgress) (this, e) (λ response s',
    if negb (IsUrlValid this) then response = NetworkResponse.default ∧ s' = (this, e)
    else if negb (eval http_init e) then response = NetworkResponse.default ∧ written s'.2 = written e ∧ made_attempts s'.2 = made_attempts e
    else ∃ l,
      made_attempts s'.2 = made_attempts e ++ l.*1 ∧ written s'.2 = written e ++ concat (parts l) ∧
      Forall outcome l ∧ (length l ≤ limit this 0)%nat ∧
      (∃ before final, results l = before ++ [final] ∧ Forall (λ result, result ≠ curle_ok) before ∧
         (final ≠ curle_ok → length l = limit this 0) ∧
         NetworkResponse.result response = to_int32 final ∧
         NetworkResponse.retryInfo response =
           if failures l =? 0 then "" else url_ this +:+ ":" +:+ String.concat "," (note l) +:+ "|" +:+ to_string (failures l))).
Proof using owner_keeps.
  unfold DoNetRequest. apply wp_bind, wp_own_. cbn [fst]. destruct (IsUrlValid this); cbn [negb]; [|by apply wp_ret].
  apply wp_bind, wp_env_. cbn [fst snd]. unfold wp at 1. destruct (init_same e) as [Hw1 Ha1]. set (e1 := exec http_init e) in *.
  destruct (eval http_init e); cbn [negb]; [|by apply wp_ret].
  apply wp_bind. unfold PerformCurlRequest. apply wp_bind, wp_own_. cbn [fst]. apply wp_bind.
  replace (Z.to_nat (maxRetryTimes_ this)) with (Z.to_nat (maxRetryTimes_ this - 0)) by (f_equal; lia).
  apply wp_attempts; [done|]. intros response this2 e2 l Hk Hseries Ha Hw Hresult Hinfo. apply wp_ret.
  apply wp_bind, wp_env_. cbn [fst snd]. unfold wp at 1. destruct (cleanup_same e2) as [Hw3 Ha3]. apply wp_ret. cbn [fst snd].
  pose proof (series_nonempty _ _ _ Hseries) as Hne. destruct Hseries as (Hall & Hlen & before & final & Hl & Hbefore & Hend).
  exists l. split_and!; [by rewrite Ha3, Ha, Ha1|by rewrite Hw3, Hw, Hw1|done|done|].
  exists before, final. split_and!; [done..| |].
  - rewrite (series_last _ _ _ Hl) in Hresult. injection Hresult as Hresult. by destruct (_ =? 0).
  - rewrite Z.add_0_l. destruct (failures l =? 0); [done|]. cbn [NetworkResponse.retryInfo set_retryInfo]. rewrite Hinfo.
    cbn [NetworkResponse.retryInfo set_retryInfo NetworkResponse.default].
    rewrite note_joined by (unfold note; by destruct l). by rewrite !str_assoc.
Qed.
End appends.

(** ** Witness *)
Module SampleHttp.
Import DownloadRequest.
(** The file, the attempts made, and those libcurl will make. *)
Record env := { file : list ascii; made : list (list HttpEvent * Z); script : list (list HttpEvent * (Z * Z)) }.
#[local] Instance kits : HttpKits env := {
  CURL_MAX_WRITE_SIZE := 16384; curle_ok := 0; curle_write_error := 23; curle_aborted := 42;
  http_init := ret true; http_cleanup := ret tt; http_sleep _ := ret tt; fflush := ret 0; fsync := ret 0;
  attempt _ := λ e, let a := hd ([], (0, 200)) (script e) in (a, {| file := file e; made := made e ++ [(a.1, a.2.1)]; script := tl (script e) |});
  fwrite buffer size nmemb := λ e, (nmemb, {| file := file e ++ buffer; made := made e; script := script e |})
}.
#[local] Program Instance laws : HttpLaws env := { written := file; made_attempts := made }.
Next Obligation. done. Qed.
Next Obligation. done. Qed.
Next Obligation. intros buffer size n e. exists (length buffer). cbn. by rewrite firstn_all. Qed.
Next Obligation. done. Qed.
Next Obligation. done. Qed.
Next Obligation. done. Qed.
Next Obligation. done. Qed.
Next Obligation. done. Qed.
Next Obligation. done. Qed.
Next Obligation. done. Qed.
Next Obligation. done. Qed.
Next Obligation. done. Qed.

(** A request that may be repeated once; the connection is lost after two of three bytes. *)
Definition request : t := {| url_ := "http://a"; method_ := RequestMethod.GET; headerParameters_ := []; requestBody_ := ""; maxRetryTimes_ := 1;
  retryInterval_ := 1; requestTimeout_ := 20; file_ := true; downloadedSize_ := 0; isNeedStop_ := false; headersBuffer_ := []; fsyncSize_ := 0 |}.
Definition lossy : env := {| file := []; made := []; script := [([Body (chars "ab")], (56, 200)); ([Body (chars "abc")], (0, 200))] |}.
Lemma request_appends_witness :
  let x := exec (DoNetRequest None) (request, lossy) in
  ∃ l, written x.2 = concat (parts l) ∧ Forall outcome l ∧ length l = 2%nat ∧
    NetworkResponse.retryInfo (eval (DoNetRequest None) (request, lossy)) = "http://a:" +:+ String.concat "," (note l) +:+ "|" +:+ to_string (failures l).
Proof.
  assert (∀ callback a b s, (None : option (Z → Z → ST (t * env) unit)) = Some callback →
    wp (callback a b) s (λ _ s', kept s.1 s'.1 ∧ written s'.2 = written s.2 ∧ made_attempts s'.2 = made_attempts s.2)) as Howner by discriminate.
  pose proof (request_appends None Howner request lossy) as Hp. unfold wp in Hp.
  change (negb (IsUrlValid request)) with false in Hp. change (negb (eval http_init lossy)) with false in Hp. cbn iota in Hp.
  destruct Hp as (l & Hruns & Hw & Hall & _ & before & final & _ & _ & _ & _ & Hinfo).
  change (made_attempts (exec (DoNetRequest None) (request, lossy)).2) with [([Body (chars "ab")], 56); ([Body (chars "abc")], 0)] in Hruns.
  assert (length l = 2%nat) as Hl by (apply (f_equal length) in Hruns; cbn in Hruns; by rewrite length_map in Hruns).
  exists l. split_and!; [exact Hw|exact Hall|exact Hl|]. rewrite Hinfo. destruct (Z.eqb_spec (failures l) 0) as [Hz|_]; [|reflexivity].
  unfold failures, Attempt in *. rewrite Hl in Hz. by destruct (succeeded l).
Defined.
(** What the lost connection had left is not overwritten: the file holds it twice. *)
Lemma retry_repeats_data : str (written (exec (DoNetRequest None) (request, lossy)).2) = "ababc".
Proof. vm_compute. reflexivity. Qed.
End SampleHttp.
