(* ===== verification/Napi.v ===== *)
(** * JavaScript values

    Models [frameworks/js/napi/session/src/napi_common_utils.cpp]: reading the properties
    of the objects an application passes, and building the objects it gets.  The
    interface to the JavaScript engine (Node-API) is a class: a value is what the engine
    knows of it, and creating one does not fail. *)
From Stdlib Require Import ZArith Lia Ascii String.
From stdpp Require Import base tactics list strings.
From S2P Require Import Prelude CppString StringUtils JsonUtils Models Access.

#[local] Open Scope Z_scope.

Inductive napi_valuetype :=
  napi_undefined | napi_null | napi_boolean | napi_number | napi_string | napi_symbol | napi_object | napi_function | napi_external | napi_bigint.
#[global] Instance napi_valuetype_eq_dec : EqDecision napi_valuetype.
Proof. solve_decision. Defined.

(** [None]: the call fails, and leaves its out parameter alone. *)
Class Napi (V : Type) := {
  napi_typeof : V → napi_valuetype;
  napi_has_named_property : V → string → bool;
  napi_get_named_property : V → string → option V;
  napi_get_value_int32 : V → option Z;
  napi_get_value_uint32 : V → option Z;
  napi_get_value_bool : V → option bool;
  napi_get_value_string_utf8 : V → nat → option string;
  napi_is_array : V → bool;
  napi_get_array_length : V → option Z;
  napi_get_element : V → Z → option V;
  napi_strict_equals : V → V → bool;
  napi_get_undefined : V;
  napi_get_boolean : bool → V;
  napi_create_int32 : Z → V;
  napi_create_uint32 : Z → V;
  napi_create_int64 : Z → V;
  napi_create_string_utf8 : string → V;
  napi_create_object : V;
  napi_create_array_with_length : nat → V;
  napi_create_error : V → V;
  napi_set_named_property : V → string → V → V;
  napi_set_element : V → nat → V → V
}.
(** What the engine promises of the values it makes, the properties of objects and the elements of arrays. *)
Class NapiLaws (V : Type) `{Napi V} : Prop := {
  typeof_object : napi_typeof (napi_create_object (V := V)) = napi_object;
  typeof_array n : napi_typeof (napi_create_array_with_length (V := V) n) = napi_object;
  typeof_set (o : V) k v : napi_typeof (napi_set_named_property o k v) = napi_typeof o;
  typeof_element (a : V) i v : napi_typeof (napi_set_element a i v) = napi_typeof a;
  has_set (o : V) k v : napi_typeof o = napi_object → napi_has_named_property (napi_set_named_property o k v) k = true;
  has_set_ne (o : V) k k' v : k ≠ k' → napi_has_named_property (napi_set_named_property o k v) k' = napi_has_named_property o k';
  get_set (o : V) k v : napi_typeof o = napi_object → napi_get_named_property (napi_set_named_property o k v) k = Some v;
  get_set_ne (o : V) k k' v : k ≠ k' → napi_get_named_property (napi_set_named_property o k v) k' = napi_get_named_property o k';
  array_created n : napi_is_array (napi_create_array_with_length (V := V) n) = true;
  array_element (a : V) i v : napi_is_array (napi_set_element a i v) = napi_is_array a;
  element_set (a : V) i v : napi_is_array a = true → napi_get_element (napi_set_element a i v) (Z.of_nat i) = Some v;
  element_set_ne (a : V) i j v : i ≠ j → napi_get_element (napi_set_element a i v) (Z.of_nat j) = napi_get_element a (Z.of_nat j);
  length_created n : napi_get_array_length (napi_create_array_with_length (V := V) n) = Some (Z.of_nat n);
  length_element (a : V) n i v : napi_get_array_length a = Some (Z.of_nat n) → (i < n)%nat → napi_get_array_length (napi_set_element a i v) = Some (Z.of_nat n);
  int32_value z : is_int32 z → napi_get_value_int32 (napi_create_int32 (V := V) z) = Some z;
  bool_value b : napi_get_value_bool (napi_get_boolean (V := V) b) = Some b;
  uint32_number (v : V) z : napi_get_value_uint32 v = Some z → napi_typeof v = napi_number;
  equals_spec (v w : V) : napi_typeof w = napi_function → napi_strict_equals v w = true ↔ v = w;
  typeof_undefined : napi_typeof (napi_get_undefined (V := V)) = napi_undefined
}.

Module ClientStatus.
(*@* js/napi/session/include/napi_common_define.h ClientStatus *)
Definition CLIENT_SUCCESS : Z := 0.
Definition CLIENT_INVALID_PARAM : Z := 1000.
Definition CLIENT_INVALID_TYPE : Z := 1001.
Definition CLIENT_REPEAT_REQ : Z := 1002.
Definition CLIENT_FAIL : Z := 1003.
Definition CLIENT_CHECK_NEW_FIRST : Z := 1004.
End ClientStatus.
(*@ js/napi/session/include/napi_common_define.h COMPONENT_ERR *)
Definition COMPONENT_ERR : Z := 11500000.
(*@ js/napi/session/include/napi_common_define.h IsValidEnum *)
Definition IsValidEnum (enumList : list Z) (number : Z) : bool := existsb (λ key, number =? key) enumList.

Module NapiCommonUtils.
Import ClientStatus.
(*@ js/napi/session/src/napi_common_utils.cpp STRING_MAX_LENGTH *)
Definition STRING_MAX_LENGTH : nat := Z.to_nat 81920.
Section ops.
Context {V : Type} `{Napi V}.
Implicit Types (arg obj error : V) (attrName name : string).

(** *** Reading: the status, and the new value of the out parameter *)
(** The property, when there is one: a null value when it cannot be read. *)
Definition property arg attrName : option (option V) :=
  if napi_has_named_property arg attrName then Some (napi_get_named_property arg attrName) else None.
(*@ js/napi/session/src/napi_common_utils.cpp:31-42 NapiCommonUtils::GetInt32 *)
Definition GetInt32 arg attrName (intValue : Z) : Z * Z :=
  match property arg attrName with
  | Some value => (CLIENT_SUCCESS, default intValue (value ≫= napi_get_value_int32))
  | None => (CLIENT_FAIL, intValue)
  end.
(*@ js/napi/session/src/napi_common_utils.cpp:44-53 NapiCommonUtils::GetInt32 *)
Definition GetInt32_of arg (intValue : Z) : Z * Z :=
  if negb (bool_decide (napi_typeof arg = napi_number)) then (CLIENT_INVALID_TYPE, intValue)
  else (CLIENT_SUCCESS, default intValue (napi_get_value_int32 arg)).
(*@ js/napi/session/src/napi_common_utils.cpp NapiCommonUtils::GetUInt32 *)
Definition GetUInt32 arg (uintValue : Z) : Z * Z :=
  if negb (bool_decide (napi_typeof arg = napi_number)) then (CLIENT_INVALID_TYPE, uintValue)
  else (CLIENT_SUCCESS, default uintValue (napi_get_value_uint32 arg)).
(*@ js/napi/session/src/napi_common_utils.cpp NapiCommonUtils::GetBool *)
Definition GetBool arg attrName (value : bool) : Z * bool :=
  match property arg attrName with
  | Some obj => (CLIENT_SUCCESS, default value (obj ≫= napi_get_value_bool))
  | None => (CLIENT_FAIL, value)
  end.
(** At most [STRING_MAX_LENGTH - 1] bytes, the rest is dropped; a null value has no type. *)
(*@ js/napi/session/src/napi_common_utils.cpp:91-104 NapiCommonUtils::GetString *)
Definition GetString_of (arg : option V) (strValue : string) : Z * string :=
  match arg with
  | None => (CLIENT_FAIL, strValue)
  | Some arg =>
      if negb (bool_decide (napi_typeof arg = napi_string)) then (CLIENT_INVALID_TYPE, strValue)
      else
        match napi_get_value_string_utf8 arg STRING_MAX_LENGTH with
        | None => (CLIENT_INVALID_TYPE, strValue)
        | Some s => (CLIENT_SUCCESS, s)
        end
  end.
(*@ js/napi/session/src/napi_common_utils.cpp:79-89 NapiCommonUtils::GetString *)
Definition GetString arg attrName (strValue : string) : Z * string :=
  match property arg attrName with
  | Some value => GetString_of value strValue
  | None => (CLIENT_FAIL, strValue)
  end.
(*@ js/napi/session/src/napi_common_utils.cpp NapiCommonUtils::IsTypeOf *)
Definition IsTypeOf arg (type : napi_valuetype) : Z :=
  if negb (bool_decide (napi_typeof arg = type)) then CLIENT_INVALID_TYPE else CLIENT_SUCCESS.
(*@ js/napi/session/src/napi_common_utils.cpp NapiCommonUtils::CheckNapiObjectType *)
Definition CheckNapiObjectType arg : Z :=
  if negb (bool_decide (napi_typeof arg = napi_object)) then CLIENT_INVALID_TYPE else CLIENT_SUCCESS.

(** *** Building *)
(*@* js/napi/session/src/napi_common_utils.cpp NapiCommonUtils::= *)
Definition SetString arg attrName (string : string) : V := napi_set_named_property arg attrName (napi_create_string_utf8 string).
Definition SetUint32 arg attrName (intValue : Z) : V := napi_set_named_property arg attrName (napi_create_uint32 intValue).
Definition SetInt32 arg attrName (intValue : Z) : V := napi_set_named_property arg attrName (napi_create_int32 intValue).
Definition SetInt64 arg attrName (intValue : Z) : V := napi_set_named_property arg attrName (napi_create_int64 intValue).
Definition SetBool arg attrName (value : bool) : V := napi_set_named_property arg attrName (napi_get_boolean value).
Definition CreateUint32 (code : Z) : V := napi_create_uint32 code.
Definition CreateStringUtf8 (s : string) : V := napi_create_string_utf8 (UpdateServiceJsonUtils.c_str s).
Definition IsCommonError (callResult : Z) : bool :=
  (callResult =? CallResult.UN_SUPPORT) || (callResult =? CallResult.NOT_SYSTEM_APP) ||
  (callResult =? CallResult.APP_NOT_GRANTED) || (callResult =? CallResult.PARAM_ERR) ||
  (callResult =? CallResult.MDM_DISABLE_RESET).
Definition ConvertToErrorCode (callResult : Z) : Z :=
  if IsCommonError callResult || (callResult =? CallResult.SUCCESS) then callResult else COMPONENT_ERR + callResult.
Definition GetValidDataCount (list : list ErrorMessage.t) : nat :=
  length (List.filter (λ m, negb (ErrorMessage.errorCode m =? 0)) list).
(** One turn of the loop over [errorMessages]: the array and the next index. *)
(*@ js/napi/session/src/napi_common_utils.cpp:381-390 NapiCommonUtils::BuildErrorMessages *)
Definition add_message (r : V * nat) (m : ErrorMessage.t) : V * nat :=
  if negb (ErrorMessage.errorCode m =? 0) then
    let napiErrorMessage := napi_create_object in
    let napiErrorMessage := SetInt32 napiErrorMessage "errorCode" (ErrorMessage.errorCode m) in
    let napiErrorMessage := SetString napiErrorMessage "errorMessage" (ErrorMessage.errorMessage m) in
    (napi_set_element r.1 r.2 napiErrorMessage, S r.2)
  else r.
(*@ js/napi/session/src/napi_common_utils.cpp NapiCommonUtils::BuildErrorMessages *)
Definition BuildErrorMessages obj name (errorMessages : list ErrorMessage.t) : V :=
  let validErrorMsgCount := GetValidDataCount errorMessages in
  if (validErrorMsgCount =? 0)%nat then obj
  else
    let napiErrorMessages := (fold_left add_message errorMessages (napi_create_array_with_length validErrorMsgCount, 0%nat)).1 in
    napi_set_named_property obj name napiErrorMessages.
(*@ js/napi/session/src/napi_common_utils.cpp NapiCommonUtils::BuildThrowError *)
Definition BuildThrowError (businessError : BusinessError.t) : V :=
  let message := napi_create_string_utf8 (UpdateServiceJsonUtils.c_str (BusinessError.message businessError)) in
  let error := napi_create_error message in
  let error := SetInt32 error "code" (ConvertToErrorCode (BusinessError.errorNum businessError)) in
  let error := SetString error "message" (BusinessError.message businessError) in
  BuildErrorMessages error "data" (BusinessError.data businessError).
(** The status and the object; no object without an error. *)
(*@ js/napi/session/src/napi_common_utils.cpp NapiCommonUtils::BuildBusinessError *)
Definition BuildBusinessError (businessError : BusinessError.t) : Z * option V :=
  if BusinessError.errorNum businessError =? CallResult.SUCCESS then (CLIENT_SUCCESS, None)
  else
    let obj := napi_create_object in
    let obj := SetString obj "message" (BusinessError.message businessError) in
    let obj := SetInt32 obj "code" (ConvertToErrorCode (BusinessError.errorNum businessError)) in
    let obj := BuildErrorMessages obj "data" (BusinessError.data businessError) in
    (CLIENT_SUCCESS, Some obj).
(*@ js/napi/session/src/napi_common_utils.cpp NapiCommonUtils::BuildCallFuncResult *)
Definition BuildCallFuncResult (businessError : BusinessError.t) : V :=
  napi_get_boolean (BusinessError.errorNum businessError =? CallResult.SUCCESS).

(** *** The errors that are thrown at the caller *)
Definition error_of (errCode : Z) (errMsg : string) : V :=
  BuildThrowError {| BusinessError.message := errMsg; BusinessError.errorNum := errCode; BusinessError.data := [] |}.
(*@ js/napi/session/src/napi_common_utils.cpp NapiCommonUtils::ConvertVectorToStr *)
Fixpoint ConvertVectorToStr (strVector : list (string * string)) (isFirst : bool) (strValue : string) : string :=
  match strVector with
  | [] => strValue
  | str :: strVector =>
      let strValue := if negb (strValue =? "")%string then strValue +:+ ", " else strValue in
      ConvertVectorToStr strVector isFirst (strValue +:+ if isFirst then str.1 else str.2)
  end.
(*@* js/napi/session/src/napi_common_utils.cpp NapiCommonUtils::= *)
Definition GetParamNames (strVector : list (string * string)) : string := ConvertVectorToStr strVector true "".
Definition GetParamTypes (strVector : list (string * string)) : string := ConvertVectorToStr strVector false "".
Definition NapiThrowParamError (paramInfos : list (string * string)) : V :=
  error_of CallResult.PARAM_ERR
    ("BusinessError " +:+ to_string CallResult.PARAM_ERR +:+ ": Parameter error. The type of { " +:+ GetParamNames paramInfos +:+ " }" +:+
     "must be { " +:+ GetParamTypes paramInfos +:+ " }.").
Definition NapiThrowNotSystemAppError : V :=
  error_of CallResult.NOT_SYSTEM_APP
    ("BusinessError " +:+ to_string CallResult.NOT_SYSTEM_APP +:+ ": Permission verification failed. A non-system application calls a system API.").
Definition NapiThrowUnSupportError : V :=
  error_of CallResult.UN_SUPPORT
    ("BusinessError " +:+ to_string CallResult.UN_SUPPORT +:+ ": Capability not supported. Failed to call the API due to limited device capabilities.").
Definition NapiThrowPermissionError : V :=
  error_of CallResult.APP_NOT_GRANTED ("BusinessError " +:+ to_string CallResult.APP_NOT_GRANTED +:+ ": Permission not granted.").
End ops.
Section caller.
Context {E : Type} `{TokenKits E}.
Definition IsPermissionGranted (e : E) (permission : string) : bool :=
  VerifyAccessToken e (GetCallingTokenID e) permission =? PERMISSION_GRANTED.
(** Only applications of the system. *)
Definition IsCallerValid (e : E) : bool :=
  let callerToken := GetCallingTokenID e in
  if GetTokenType e callerToken =? TOKEN_HAP then IsSystemAppByFullTokenID e (GetCallingFullTokenID e) else false.
End caller.
End NapiCommonUtils.

(** ** An engine

    The values of JavaScript without prototypes: an array is an object with elements, and a
    function is known by a number. *)
Module SampleJs.
Inductive js :=
  Undefined | Null | Bool (b : bool) | Number (z : Z) | Str (s : string) | Fun (n : nat)
  | Obj (props : list (string * js)) (elements : option (list js)).
Fixpoint assoc (k : string) (l : list (string * js)) : option js :=
  match l with [] => None | (k', v) :: l => if (k =? k')%string then Some v else assoc k l end.
Definition props (v : js) : list (string * js) := match v with Obj p _ => p | _ => [] end.
Definition elements (v : js) : option (list js) := match v with Obj _ e => e | _ => None end.
Definition typeof (v : js) : napi_valuetype :=
  match v with
  | Undefined => napi_undefined | Null => napi_null | Bool _ => napi_boolean | Number _ => napi_number
  | Str _ => napi_string | Fun _ => napi_function | Obj _ _ => napi_object
  end.
Definition set_nth (l : list js) (i : nat) (v : js) : list js := <[i := v]> (l ++ replicate (S i - length l) Undefined).
Definition equals (v w : js) : bool :=
  match v, w with
  | Undefined, Undefined | Null, Null => true
  | Bool a, Bool b => Bool.eqb a b
  | Number a, Number b => a =? b
  | Str a, Str b => (a =? b)%string
  | Fun a, Fun b => (a =? b)%nat
  | _, _ => false
  end.
#[export] Instance napi : Napi js := {|
  napi_typeof := typeof;
  napi_has_named_property v k := bool_decide (is_Some (assoc k (props v)));
  napi_get_named_property v k := match v with Undefined | Null => None | _ => Some (default Undefined (assoc k (props v))) end;
  napi_get_value_int32 v := match v with Number z => Some (to_int32 z) | _ => None end;
  napi_get_value_uint32 v := match v with Number z => Some (to_uint32 z) | _ => None end;
  napi_get_value_bool v := match v with Bool b => Some b | _ => None end;
  napi_get_value_string_utf8 v n := match v with Str s => Some (str (take (n - 1) (chars s))) | _ => None end;
  napi_is_array v := bool_decide (is_Some (elements v));
  napi_get_array_length v := Z.of_nat ∘ length <$> elements v;
  napi_get_element v i := match v with Obj _ e => Some (default Undefined (e ≫= (.!! Z.to_nat i))) | _ => None end;
  napi_strict_equals := equals;
  napi_get_undefined := Undefined;
  napi_get_boolean := Bool;
  napi_create_int32 := Number;
  napi_create_uint32 := Number;
  napi_create_int64 := Number;
  napi_create_string_utf8 := Str;
  napi_create_object := Obj [] None;
  napi_create_array_with_length n := Obj [] (Some (replicate n Undefined));
  napi_create_error v := Obj [("message", v)] None;
  napi_set_named_property v k w := match v with Obj p e => Obj ((k, w) :: p) e | _ => v end;
  napi_set_element v i w := match v with Obj p (Some e) => Obj p (Some (set_nth e i w)) | _ => v end
|}.
Lemma set_nth_eq l i v : set_nth l i v !! i = Some v.
Proof. apply list_lookup_insert_eq. rewrite length_app, length_replicate. lia. Qed.
Lemma set_nth_ne l i j v : i ≠ j → default Undefined (set_nth l i v !! j) = default Undefined (l !! j).
Proof.
  intros Hij. unfold set_nth. rewrite list_lookup_insert_ne by done. destruct (decide (j < length l)%nat) as [Hj|Hj].
  - by rewrite lookup_app_l.
  - rewrite lookup_app_r, (lookup_ge_None_2 l) by lia. destruct (replicate _ _ !! _) eqn:Hr; [|done]. by apply lookup_replicate in Hr as [-> _].
Qed.
#[export] Instance napi_laws : NapiLaws js.
Proof.
  split; cbn.
  - done.
  - done.
  - by intros [] k v.
  - by intros [| | | | | |p [e|]] i v.
  - intros [] k v; try done. intros _. cbn. by rewrite String.eqb_refl.
  - intros [] k k' v Hk; cbn; try done. by destruct (String.eqb_spec k' k) as [->|_].
  - intros [] k v; try done. intros _. cbn. by rewrite String.eqb_refl.
  - intros [] k k' v Hk; cbn; try done. by destruct (String.eqb_spec k' k) as [->|_].
  - done.
  - by intros [| | | | | |p [e|]] i v.
  - intros [| | | | | |p [e|]] i v; cbn; try done. intros _. by rewrite Nat2Z.id, set_nth_eq.
  - intros [| | | | | |p [e|]] i j v Hij; cbn; try done. by rewrite Nat2Z.id, set_nth_ne.
  - intros n. by rewrite length_replicate.
  - intros [| | | | | |p [e|]] m i v; cbn; try done. intros [= Hn%Nat2Z.inj] Hi. unfold set_nth.
    rewrite length_insert, length_app, length_replicate. do 2 f_equal. lia.
  - intros z Hz. by rewrite to_int32_id.
  - done.
  - by intros [].
  - intros [] []; cbn; try done; intros _. rewrite Nat.eqb_eq. split; [by intros ->|by intros [= ->]].
  - done.
Qed.
(** The caller is an application of the system, with every permission. *)
Definition system_app (E : Type) : TokenKits E := {|
  TOKEN_HAP := 0; TOKEN_NATIVE := 1; PERMISSION_GRANTED := 0;
  GetCallingTokenID _ := 7; GetCallingFullTokenID _ := 7; GetCallingUid _ := 0; GetTokenType _ _ := 0;
  IsSystemAppByFullTokenID _ _ := true; VerifyAccessToken _ _ _ := 0;
  GetHapTokenInfo _ _ := (-1, ""); GetBoolParameter _ _ d := d
|}.
End SampleJs.
