(* ===== verification/JsArgs.v ===== *)
(** * What JavaScript passes and gets

    Models [frameworks/js/napi/update/common/src/client_helper.cpp]: the options, paths and
    policies read from the arguments of a call, and the objects made of the results and
    events of the service.  A reader takes the old value of its out parameter and gives the
    status and the new value; a builder of a result gives the status and the object, if any. *)
From Stdlib Require Import ZArith Lia Ascii String.
From stdpp Require Import base tactics list strings gmap.
From S2P Require Import Prelude CppString StringUtils Json JsonUtils Models Napi.

#[local] Open Scope Z_scope.

(*@ update/model/event/event_classify.h g_eventClassifyList *)
Definition g_eventClassifyList : list Z := [EventClassify.TASK; EventClassify.SYSTEM; EventClassify.COMMAND].
Module EventClassifyInfo.
(*@ update/model/event/on_off/event_classify_info.h EventClassifyInfo *)
Record t := { eventClassify : Z; extraInfo : string }.
(*@* update/model/event/on_off/event_classify_info.h EventClassifyInfo *)
Definition default : t := {| eventClassify := EventClassify.TASK; extraInfo := "" |}.
Definition of_classify (classify : Z) : t := {| eventClassify := classify; extraInfo := "" |}.
End EventClassifyInfo.
Module UpgradeFile.
(*@* js/napi/update/common/include/upgrade_file.h UpgradeFile *)
Record t := { fileType : Z; filePath : string }.
Definition default : t := {| fileType := ComponentType.INVALID; filePath := "" |}.
End UpgradeFile.
Module SessionType.
(*@* js/napi/update/include/session_type.h = *)
Definition SESSION_CHECK_VERSION : Z := 0.
Definition SESSION_DOWNLOAD : Z := 1.
Definition SESSION_PAUSE_DOWNLOAD : Z := 2.
Definition SESSION_RESUME_DOWNLOAD : Z := 3.
Definition SESSION_UPGRADE : Z := 4.
Definition SESSION_SET_POLICY : Z := 5.
Definition SESSION_GET_POLICY : Z := 6.
Definition SESSION_CLEAR_ERROR : Z := 7.
Definition SESSION_TERMINATE_UPGRADE : Z := 8.
Definition SESSION_GET_NEW_VERSION : Z := 9.
Definition SESSION_GET_NEW_VERSION_DESCRIPTION : Z := 10.
Definition SESSION_SUBSCRIBE : Z := 11.
Definition SESSION_UNSUBSCRIBE : Z := 12.
Definition SESSION_GET_UPDATER : Z := 13.
Definition SESSION_APPLY_NEW_VERSION : Z := 14.
Definition SESSION_FACTORY_RESET : Z := 15.
Definition SESSION_VERIFY_PACKAGE : Z := 16.
Definition SESSION_CANCEL_UPGRADE : Z := 17.
Definition SESSION_GET_CUR_VERSION : Z := 18.
Definition SESSION_GET_CUR_VERSION_DESCRIPTION : Z := 19.
Definition SESSION_GET_TASK_INFO : Z := 20.
Definition SESSION_REPLY_PARAM_ERROR : Z := 21.
Definition SESSION_FORCE_FACTORY_RESET : Z := 22.
Definition SESSION_DEEP_FACTORY_RESET : Z := 23.
Definition SESSION_GET_DEEP_FACTORY_RESET_INFO : Z := 24.
Definition SESSION_MAX : Z := UINT32_MAX.
End SessionType.

Module ClientHelper.
Import ClientStatus NapiCommonUtils SessionType.

(** ** Paths *)
Definition is_space (c : ascii) : bool := Ascii.eqb c " ".
(*@ client_helper.cpp ClientHelper::TrimString *)
Definition TrimString (s : string) : string := str (reverse (drop_while is_space (reverse (drop_while is_space (chars s))))).
Definition tolower (c : ascii) : ascii :=
  let n := nat_of_ascii c in if ((65 <=? n) && (n <=? 90))%nat then ascii_of_nat (n + 32) else c.
Definition upgrade_postfixes : list string := ["bin"; "zip"; "lz4"; "gz"].
(*@ client_helper.cpp ClientHelper::IsValidUpgradeFile *)
Definition IsValidUpgradeFile (upgradeFile : string) : bool :=
  if (upgradeFile =? "")%string then false
  else if negb (bool_decide (find_char upgradeFile "/" 0 = Some 0%nat)) then false
  else
    match find_last_of upgradeFile "." with
    | None => false
    | Some pos =>
        let postfix := str (map tolower (chars (default "" (substr_from upgradeFile (pos + 1))))) in
        existsb (λ p, (postfix =? p)%string) upgrade_postfixes
    end.

Section napi.
Context {V : Type} `{Napi V}.
Implicit Types (arg value obj element : V).

(** ** Reading arguments *)
(*@ client_helper.cpp ParseUpgradeFile *)
Definition ParseUpgradeFile arg (upgradeFile : UpgradeFile.t) : Z * UpgradeFile.t :=
  if negb (bool_decide (napi_typeof arg = napi_object)) then (CLIENT_INVALID_TYPE, upgradeFile)
  else
    let fileType := (GetInt32 arg "fileType" 0).2 in
    if negb (IsValidEnum [ComponentType.OTA; ComponentType.PATCH; ComponentType.COTA; ComponentType.PARAM] fileType)
    then (CLIENT_INVALID_PARAM, upgradeFile)
    else
      let filePath := TrimString (GetString arg "filePath" (UpgradeFile.filePath upgradeFile)).2 in
      let upgradeFile := {| UpgradeFile.fileType := fileType; UpgradeFile.filePath := filePath |} in
      (if negb (IsValidUpgradeFile filePath) then CLIENT_INVALID_PARAM else CLIENT_SUCCESS, upgradeFile).
(*@ client_helper.cpp ClientHelper::GetUpgradeFileFromArg *)
Definition GetUpgradeFileFromArg arg (upgradeFile : UpgradeFile.t) : Z * UpgradeFile.t := ParseUpgradeFile arg upgradeFile.
(** From the [idx]th element on, [n] elements. *)
(*@ client_helper.cpp:609-618 ClientHelper::GetUpgradeFilesFromArg *)
Fixpoint parse_files arg (n : nat) (idx : Z) (upgradeFiles : list UpgradeFile.t) : Z * list UpgradeFile.t :=
  match n with
  | O => (CLIENT_SUCCESS, upgradeFiles)
  | S n =>
      match napi_get_element arg idx with
      | None => (CLIENT_INVALID_TYPE, upgradeFiles)
      | Some element =>
          let (ret, upgradeFile) := ParseUpgradeFile element UpgradeFile.default in
          if negb (ret =? CLIENT_SUCCESS) then (ret, upgradeFiles) else parse_files arg n (idx + 1) (upgradeFiles ++ [upgradeFile])
      end
  end.
(*@ client_helper.cpp ClientHelper::GetUpgradeFilesFromArg *)
Definition GetUpgradeFilesFromArg arg (upgradeFiles : list UpgradeFile.t) : Z * list UpgradeFile.t :=
  if negb (napi_is_array arg) then (CLIENT_FAIL, upgradeFiles)
  else
    match napi_get_array_length arg with
    | None => (CLIENT_FAIL, upgradeFiles)
    | Some count => if negb (0 <? count) then (CLIENT_FAIL, upgradeFiles) else parse_files arg (Z.to_nat count) 0 upgradeFiles
    end.
(** An enumeration member, if it is one of the list. *)
Definition get_enum arg (name : string) (list : list Z) (old : Z) : Z * Z :=
  let tmp := (GetInt32 arg name 0).2 in
  if negb (IsValidEnum list tmp) then (CLIENT_INVALID_TYPE, old) else (CLIENT_SUCCESS, tmp).
(*@* client_helper.cpp ClientHelper::= *)
Definition GetDescriptionFormat arg (format : Z) : Z * Z :=
  get_enum arg "format" [DescriptionFormat.STANDARD; DescriptionFormat.SIMPLIFIED] format.
Definition GetNetType arg (netType : Z) : Z * Z :=
  get_enum arg "allowNetwork" [NetType.CELLULAR; NetType.METERED_WIFI; NetType.NOT_METERED_WIFI; NetType.WIFI; NetType.CELLULAR_AND_WIFI] netType.
Definition GetOrder arg (order : Z) : Z * Z :=
  get_enum arg "order"
    [Order.DOWNLOAD; Order.INSTALL; Order.APPLY; Order.DOWNLOAD_AND_INSTALL; Order.INSTALL_AND_APPLY; Order.TRANSFER; Order.TRANSFER_AND_APPLY] order.
(** [GetOptionsFromArg], by the type of the options. *)
(*@ client_helper.cpp:495-502 ClientHelper::GetOptionsFromArg *)
Definition GetDescriptionOptions arg (o : DescriptionOptions.t) : Z * DescriptionOptions.t :=
  let (ret, format) := GetDescriptionFormat arg (DescriptionOptions.format o) in
  let o := {| DescriptionOptions.format := format; DescriptionOptions.language := DescriptionOptions.language o |} in
  if negb (ret =? CLIENT_SUCCESS) then (CLIENT_INVALID_TYPE, o)
  else (CLIENT_SUCCESS, {| DescriptionOptions.format := format;
                           DescriptionOptions.language := (GetString arg "language" (DescriptionOptions.language o)).2 |}).
(*@ client_helper.cpp:504-514 ClientHelper::GetOptionsFromArg *)
Definition GetDownloadOptions arg (o : DownloadOptions.t) : Z * DownloadOptions.t :=
  let (ret, allowNetwork) := GetNetType arg (DownloadOptions.allowNetwork o) in
  let o := {| DownloadOptions.allowNetwork := allowNetwork; DownloadOptions.order := DownloadOptions.order o |} in
  if negb (ret =? CLIENT_SUCCESS) then (CLIENT_INVALID_TYPE, o)
  else
    let (ret, order) := GetOrder arg (DownloadOptions.order o) in
    let o := {| DownloadOptions.allowNetwork := allowNetwork; DownloadOptions.order := order |} in
    if negb (ret =? CLIENT_SUCCESS) then (CLIENT_INVALID_TYPE, o) else (CLIENT_SUCCESS, o).
(*@ client_helper.cpp:516-521 ClientHelper::GetOptionsFromArg *)
Definition GetPauseDownloadOptions arg (o : PauseDownloadOptions.t) : Z * PauseDownloadOptions.t :=
  (CLIENT_SUCCESS, {| PauseDownloadOptions.isAllowAutoResume := (GetBool arg "isAllowAutoResume" (PauseDownloadOptions.isAllowAutoResume o)).2 |}).
(*@ client_helper.cpp:523-527 ClientHelper::GetOptionsFromArg *)
Definition GetResumeDownloadOptions arg (o : ResumeDownloadOptions.t) : Z * ResumeDownloadOptions.t :=
  let (ret, allowNetwork) := GetNetType arg (ResumeDownloadOptions.allowNetwork o) in (ret, {| ResumeDownloadOptions.allowNetwork := allowNetwork |}).
(*@ client_helper.cpp ClientHelper::GetVersionDigestInfoFromArg *)
Definition GetVersionDigestInfoFromArg arg (o : VersionDigestInfo.t) : Z * VersionDigestInfo.t :=
  (CLIENT_SUCCESS, {| VersionDigestInfo.versionDigest := (GetString arg "versionDigest" (VersionDigestInfo.versionDigest o)).2 |}).
(*@ client_helper.cpp:537-540 ClientHelper::GetOptionsFromArg *)
Definition GetUpgradeOptions arg (o : UpgradeOptions.t) : Z * UpgradeOptions.t :=
  let (ret, order) := GetOrder arg (UpgradeOptions.order o) in (ret, {| UpgradeOptions.order := order |}).
(*@ client_helper.cpp:542-566 ClientHelper::GetOptionsFromArg *)
Definition GetClearOptions arg (o : ClearOptions.t) : Z * ClearOptions.t :=
  let (ret, status) := get_enum arg "status"
    [UpgradeStatus.INIT; UpgradeStatus.CHECKING_VERSION; UpgradeStatus.CHECK_VERSION_FAIL; UpgradeStatus.CHECK_VERSION_SUCCESS;
     UpgradeStatus.DOWNLOADING; UpgradeStatus.DOWNLOAD_PAUSE; UpgradeStatus.DOWNLOAD_CANCEL; UpgradeStatus.DOWNLOAD_FAIL;
     UpgradeStatus.DOWNLOAD_SUCCESS; UpgradeStatus.VERIFYING; UpgradeStatus.VERIFY_FAIL; UpgradeStatus.VERIFY_SUCCESS;
     UpgradeStatus.WAIT_TRANSFER; UpgradeStatus.TRANSFER_START; UpgradeStatus.PACKAGE_TRANSING; UpgradeStatus.PACKAGE_TRANS_FAIL;
     UpgradeStatus.PACKAGE_TRANS_SUCCESS; UpgradeStatus.INSTALLING; UpgradeStatus.INSTALL_FAIL; UpgradeStatus.INSTALL_SUCCESS;
     UpgradeStatus.INSTALL_PAUSE; UpgradeStatus.UPDATING; UpgradeStatus.UPDATE_FAIL; UpgradeStatus.UPDATE_SUCCESS;
     UpgradeStatus.UPGRADE_REBOOT; UpgradeStatus.UPGRADE_COUNT_DOWN; UpgradeStatus.UPGRADE_CANCEL; UpgradeStatus.ERROR] (ClearOptions.status o) in
  (ret, {| ClearOptions.status := status |}).
(*@ client_helper.cpp ClientHelper::GetEventClassifyInfoFromArg *)
Definition GetEventClassifyInfoFromArg arg (o : EventClassifyInfo.t) : Z * EventClassifyInfo.t :=
  if negb (bool_decide (napi_typeof arg = napi_object)) then (CLIENT_INVALID_TYPE, o)
  else
    let eventClassify := (GetInt32 arg "eventClassify" 0).2 in
    if negb (IsValidEnum g_eventClassifyList eventClassify) then (CLIENT_INVALID_TYPE, o)
    else (CLIENT_SUCCESS, {| EventClassifyInfo.eventClassify := eventClassify;
                             EventClassifyInfo.extraInfo := (GetString arg "extraInfo" (EventClassifyInfo.extraInfo o)).2 |}).
(*@ client_helper.cpp ClientHelper::GetFactoryResetStrategyFromArg *)
Definition GetFactoryResetStrategyFromArg arg (o : FactoryResetStrategy.t) : Z * FactoryResetStrategy.t :=
  if negb (CheckNapiObjectType arg =? CLIENT_SUCCESS) then (CLIENT_INVALID_TYPE, o)
  else
    let scope := (GetInt32 arg "scope" 0).2 in
    if negb (IsValidEnum [FactoryResetScope.DATA; FactoryResetScope.DATA_AND_OS] scope) then (CLIENT_INVALID_TYPE, o)
    else (CLIENT_SUCCESS, {| FactoryResetStrategy.scope := scope;
                             FactoryResetStrategy.strategy := (GetString arg "strategy" (FactoryResetStrategy.strategy o)).2 |}).
(** Who asks: the members of [upgradeInfo] that are there. *)
(*@ client_helper.cpp ParseBusinessType *)
Definition ParseBusinessType arg (b : BusinessType.t) : BusinessType.t :=
  let b :=
    match property arg "businessType" with
    | Some (Some v) => {| BusinessType.vendor := (GetString v "vendor" (BusinessType.vendor b)).2; BusinessType.subType := (GetInt32 v "subType" 0).2 |}
    | _ => b
    end in
  let subType := BusinessType.subType b in
  if (subType =? BusinessSubType.ROLLBACK) || (subType =? BusinessSubType.ASSIST) || (subType =? BusinessSubType.ACCESSORY) then b
  else if negb (subType =? BusinessSubType.PARAM) then {| BusinessType.vendor := BusinessType.vendor b; BusinessType.subType := BusinessSubType.FIRMWARE |}
  else b.
(** [pid]: of this process. *)
(*@ client_helper.cpp ClientHelper::GetUpgradeInfoFromArg *)
Definition GetUpgradeInfoFromArg (pid : Z) arg (o : UpgradeInfo.t) : Z * UpgradeInfo.t :=
  if negb (CheckNapiObjectType arg =? CLIENT_SUCCESS) then (CLIENT_INVALID_TYPE, o)
  else (CLIENT_SUCCESS, {|
    UpgradeInfo.upgradeApp := (GetString arg "upgradeApp" (UpgradeInfo.upgradeApp o)).2;
    UpgradeInfo.businessType := ParseBusinessType arg (UpgradeInfo.businessType o);
    UpgradeInfo.upgradeDevId := (GetString arg "upgradeDevId" (UpgradeInfo.upgradeDevId o)).2;
    UpgradeInfo.controlDevId := (GetString arg "controlDevId" (UpgradeInfo.controlDevId o)).2;
    UpgradeInfo.processId := pid;
    UpgradeInfo.deviceType := (GetInt32 arg "deviceType" 0).2 |}).
(** Both bounds are read from the element itself. *)
(*@ client_helper.cpp:445-448 ClientHelper::GetUpgradePolicyFromArg *)
Definition read_period value (i : Z) (p : UpgradePeriod.t) : UpgradePeriod.t :=
  let number := napi_get_element value i ≫= napi_get_value_uint32 in
  {| UpgradePeriod.start := default (UpgradePeriod.start p) number; UpgradePeriod.end_ := default (UpgradePeriod.end_ p) number |}.
(*@ client_helper.cpp ClientHelper::GetUpgradePolicyFromArg *)
Definition GetUpgradePolicyFromArg arg (o : UpgradePolicy.t) : Z * UpgradePolicy.t :=
  if negb (CheckNapiObjectType arg =? CLIENT_SUCCESS) then (CLIENT_INVALID_TYPE, o)
  else
    let with_periods periods := {|
      UpgradePolicy.downloadStrategy := (GetBool arg "downloadStrategy" (UpgradePolicy.downloadStrategy o)).2;
      UpgradePolicy.autoUpgradeStrategy := (GetBool arg "autoUpgradeStrategy" (UpgradePolicy.autoUpgradeStrategy o)).2;
      UpgradePolicy.autoUpgradePeriods := periods;
      UpgradePolicy.customPolicyType := UpgradePolicy.customPolicyType o |} in
    let periods := UpgradePolicy.autoUpgradePeriods o in
    match property arg "autoUpgradePeriods" with
    | None => (CLIENT_SUCCESS, with_periods periods)
    | Some value =>
        match value, value ≫= napi_get_array_length with
        | Some value, Some count =>
            let first := read_period value 0 periods.1 in
            (CLIENT_SUCCESS, with_periods (first, if 1 <? count then read_period value 1 periods.2 else periods.2))
        | _, _ => (CLIENT_FAIL, with_periods periods)
        end
    end.

(** ** Building results *)
Definition c_string (s : string) : string := UpdateServiceJsonUtils.c_str s.
Definition description_object (d : DescriptionInfo.t) : V :=
  let napiDescriptInfo := napi_create_object in
  let napiDescriptInfo := SetInt32 napiDescriptInfo "descriptionType" (DescriptionInfo.descriptionType d) in
  SetString napiDescriptInfo "content" (c_string (DescriptionInfo.content d)).
(*@ client_helper.cpp BuildDescInfo *)
Definition BuildDescInfo obj (d : ComponentDescription.t) : V :=
  let obj := napi_set_named_property obj "descriptionInfo" (description_object (ComponentDescription.descriptionInfo d)) in
  napi_set_named_property obj "notifyDescriptionInfo" (description_object (ComponentDescription.notifyDescriptionInfo d)).
(*@ client_helper.cpp:87-90 IsValidData *)
Definition IsValidMessage (m : ErrorMessage.t) : bool := negb (ErrorMessage.errorCode m =? 0).
(*@ client_helper.cpp:92-95 IsValidData *)
Definition IsValidDescription (d : ComponentDescription.t) : bool := negb (ComponentDescription.componentId d =? "")%string.
(*@ client_helper.cpp:97-100 IsValidData *)
Definition IsValidComponent (c : VersionComponent.t) : bool := negb (VersionComponent.componentType c =? ComponentType.INVALID).
(*@ client_helper.cpp GetValidDataCount *)
Definition GetValidDataCount {A} (IsValidData : A → bool) (list : list A) : nat := length (List.filter IsValidData list).
(** The array of the objects of the valid data, and the next index. *)
(*@* client_helper.cpp:216-226 BuildErrorMessages *)
Definition add_valid {A} (IsValidData : A → bool) (object : A → V) (r : V * nat) (x : A) : V * nat :=
  if IsValidData x then (napi_set_element r.1 r.2 (object x), S r.2) else r.
Definition valid_array {A} (IsValidData : A → bool) (object : A → V) (list : list A) : V :=
  (fold_left (add_valid IsValidData object) list (napi_create_array_with_length (GetValidDataCount IsValidData list), 0%nat)).1.
(*@ client_helper.cpp:126-132 BuildComponentDescriptions *)
Definition component_description_object (d : ComponentDescription.t) : V :=
  BuildDescInfo (SetString napi_create_object "componentId" (c_string (ComponentDescription.componentId d))) d.
(** Nothing is built without valid data. *)
(*@ client_helper.cpp BuildComponentDescriptions *)
Definition BuildComponentDescriptions (obj : option V) (ds : list ComponentDescription.t) : option V :=
  if (GetValidDataCount IsValidDescription ds =? 0)%nat then obj
  else Some (valid_array IsValidDescription component_description_object ds).
(*@ client_helper.cpp:150-168 BuildVersionComponents *)
Definition version_component_object (c : VersionComponent.t) : V :=
  let o := napi_create_object in
  let o := SetString o "componentId" (c_string (VersionComponent.componentId c)) in
  let o := SetInt32 o "componentType" (to_int32 (VersionComponent.componentType c)) in
  let o := SetString o "upgradeAction" (c_string (VersionComponent.upgradeAction c)) in
  let o := SetString o "displayVersion" (c_string (VersionComponent.displayVersion c)) in
  let o := SetString o "innerVersion" (c_string (VersionComponent.innerVersion c)) in
  let o := SetInt64 o "size" (to_int64 (VersionComponent.size c)) in
  let o := SetInt32 o "effectiveMode" (to_int32 (VersionComponent.effectiveMode c)) in
  let o := SetInt32 o "otaMode" (to_int32 (VersionComponent.otaMode c)) in
  let o := BuildDescInfo o {| ComponentDescription.componentId := ""; ComponentDescription.descriptionInfo := VersionComponent.descriptionInfo c;
                              ComponentDescription.notifyDescriptionInfo := DescriptionInfo.default |} in
  SetString o "componentExtra" (c_string (VersionComponent.componentExtra c)).
(*@ client_helper.cpp BuildVersionComponents *)
Definition BuildVersionComponents obj (cs : list VersionComponent.t) : V :=
  if (GetValidDataCount IsValidComponent cs =? 0)%nat then obj
  else napi_set_named_property obj "versionComponents" (valid_array IsValidComponent version_component_object cs).
(*@ client_helper.cpp BuildVersionDigestInfo *)
Definition BuildVersionDigestInfo obj (d : VersionDigestInfo.t) : V :=
  napi_set_named_property obj "versionDigestInfo" (SetString napi_create_object "versionDigest" (VersionDigestInfo.versionDigest d)).
(*@ client_helper.cpp:219-222 BuildErrorMessages *)
Definition error_message_object (m : ErrorMessage.t) : V :=
  SetString (SetInt32 napi_create_object "errorCode" (ErrorMessage.errorCode m)) "errorMessage" (ErrorMessage.errorMessage m).
(*@ client_helper.cpp BuildErrorMessages *)
Definition BuildErrorMessages obj (name : string) (ms : list ErrorMessage.t) : V :=
  if (GetValidDataCount IsValidMessage ms =? 0)%nat then obj
  else napi_set_named_property obj name (valid_array IsValidMessage error_message_object ms).
(*@ client_helper.cpp:230-242 BuildTaskBody *)
Definition BuildTaskBody obj (taskBody : TaskBody.t) : V :=
  let b := napi_create_object in
  let b := BuildVersionDigestInfo b (TaskBody.versionDigestInfo taskBody) in
  let b := SetInt32 b "status" (TaskBody.status taskBody) in
  let b := SetInt32 b "subStatus" (TaskBody.subStatus taskBody) in
  let b := SetInt32 b "progress" (TaskBody.progress taskBody) in
  let b := SetInt32 b "installMode" (TaskBody.installMode taskBody) in
  let b := BuildErrorMessages b "errorMessages" (TaskBody.errorMessages taskBody) in
  let b := BuildVersionComponents b (TaskBody.versionComponents taskBody) in
  napi_set_named_property obj "taskBody" b.

(** [UpdateResult]: the member of the union with the builder that reads it; [None]: no
    result. *)
(*@ js/napi/update/include/update_result.h:31-47 UpdateResult *)
Inductive Result :=
  | CheckResultOf (r : option CheckResult.t) | NewVersionInfoOf (r : option NewVersionInfo.t)
  | VersionDescriptionInfoOf (r : option VersionDescriptionInfo.t) | TaskInfoOf (r : option TaskInfo.t)
  | CurrentVersionInfoOf (r : option CurrentVersionInfo.t) | UpgradePolicyOf (r : option UpgradePolicy.t)
  | FactoryResetInfoOf (r : option FactoryResetInfo.t) | UndefinedStatus.
(*@ client_helper.cpp:342-346 ClientHelper::BuildUpgradePolicy *)
Definition period_object (p : UpgradePeriod.t) : V :=
  SetInt32 (SetInt32 napi_create_object "start" (to_int32 (UpgradePeriod.start p))) "end" (to_int32 (UpgradePeriod.end_ p)).
(** The status, 0 for success, and the object. *)
(*@* client_helper.cpp ClientHelper::= *)
Definition BuildCurrentVersionInfo (type : Z) (r : option CurrentVersionInfo.t) : Z * option V :=
  match r with
  | None => (CLIENT_SUCCESS, None)
  | Some info =>
      if negb (type =? SESSION_GET_CUR_VERSION) then (CLIENT_INVALID_TYPE, None)
      else
        let obj := napi_create_object in
        let obj := SetString obj "osVersion" (CurrentVersionInfo.osVersion info) in
        let obj := SetString obj "deviceName" (CurrentVersionInfo.deviceName info) in
        (CLIENT_SUCCESS, Some (BuildVersionComponents obj (CurrentVersionInfo.versionComponents info)))
  end.
Definition BuildTaskInfo (r : option TaskInfo.t) : Z * option V :=
  match r with
  | None => (CLIENT_SUCCESS, None)
  | Some taskInfo =>
      let obj := SetBool napi_create_object "existTask" (TaskInfo.existTask taskInfo) in
      (CLIENT_SUCCESS, Some (if TaskInfo.existTask taskInfo then BuildTaskBody obj (TaskInfo.taskBody taskInfo) else obj))
  end.
Definition BuildNewVersionInfo (type : Z) (r : option NewVersionInfo.t) : Z * option V :=
  match r with
  | None => (CLIENT_SUCCESS, None)
  | Some info =>
      if negb (type =? SESSION_GET_NEW_VERSION) then (CLIENT_INVALID_TYPE, None)
      else
        let obj := BuildVersionDigestInfo napi_create_object (NewVersionInfo.versionDigestInfo info) in
        (CLIENT_SUCCESS, Some (BuildVersionComponents obj (NewVersionInfo.versionComponents info)))
  end.
Definition BuildVersionDescriptionInfo (type : Z) (r : option VersionDescriptionInfo.t) : Z * option V :=
  match r with
  | None => (CLIENT_SUCCESS, None)
  | Some info =>
      if negb ((type =? SESSION_GET_NEW_VERSION_DESCRIPTION) || (type =? SESSION_GET_CUR_VERSION_DESCRIPTION)) then (CLIENT_INVALID_TYPE, None)
      else (CLIENT_SUCCESS, BuildComponentDescriptions None (VersionDescriptionInfo.componentDescriptions info))
  end.
Definition BuildCheckResult (type : Z) (r : option CheckResult.t) : Z * option V :=
  match r with
  | None => (CLIENT_SUCCESS, None)
  | Some checkResult =>
      if negb (type =? SESSION_CHECK_VERSION) then (CLIENT_INVALID_TYPE, None)
      else
        let obj := SetBool napi_create_object "isExistNewVersion" (CheckResult.isExistNewVersion checkResult) in
        let obj :=
          if CheckResult.isExistNewVersion checkResult then
            let newVersionInfo := BuildVersionDigestInfo napi_create_object (NewVersionInfo.versionDigestInfo (CheckResult.newVersionInfo checkResult)) in
            let newVersionInfo := BuildVersionComponents newVersionInfo (NewVersionInfo.versionComponents (CheckResult.newVersionInfo checkResult)) in
            napi_set_named_property obj "newVersionInfo" newVersionInfo
          else obj in
        (CLIENT_SUCCESS, Some obj)
  end.
Definition BuildUpgradePolicy (type : Z) (r : option UpgradePolicy.t) : Z * option V :=
  match r with
  | None => (CLIENT_SUCCESS, None)
  | Some upgradePolicy =>
      if negb (type =? SESSION_GET_POLICY) then (CLIENT_INVALID_TYPE, None)
      else
        let obj := SetBool napi_create_object "downloadStrategy" (UpgradePolicy.downloadStrategy upgradePolicy) in
        let obj := SetBool obj "autoUpgradeStrategy" (UpgradePolicy.autoUpgradeStrategy upgradePolicy) in
        let obj := SetInt32 obj "customPolicyType" (UpgradePolicy.customPolicyType upgradePolicy) in
        let periods := napi_create_array_with_length 2 in
        let periods := napi_set_element periods 0 (period_object (UpgradePolicy.autoUpgradePeriods upgradePolicy).1) in
        let periods := napi_set_element periods 1 (period_object (UpgradePolicy.autoUpgradePeriods upgradePolicy).2) in
        (CLIENT_SUCCESS, Some (napi_set_named_property obj "autoUpgradePeriods" periods))
  end.
Definition BuildFactoryResetInfo (type : Z) (r : option FactoryResetInfo.t) : Z * option V :=
  match r with
  | None => (CLIENT_FAIL, None)
  | Some info =>
      if negb (type =? SESSION_GET_DEEP_FACTORY_RESET_INFO) then (CLIENT_INVALID_TYPE, None)
      else (CLIENT_SUCCESS, Some (SetInt32 napi_create_object "duration" (FactoryResetInfo.duration info)))
  end.
Definition BuildUndefinedStatus : Z * option V := (CLIENT_SUCCESS, Some napi_get_undefined).
(** [result.buildJSObject(env, obj, result)] on a null object. *)
(*@ js/napi/update/include/update_result.h:33-34 UpdateResult::buildJSObject *)
Definition buildJSObject (type : Z) (r : Result) : Z * option V :=
  match r with
  | CheckResultOf r => BuildCheckResult type r
  | NewVersionInfoOf r => BuildNewVersionInfo type r
  | VersionDescriptionInfoOf r => BuildVersionDescriptionInfo type r
  | TaskInfoOf r => BuildTaskInfo r
  | CurrentVersionInfoOf r => BuildCurrentVersionInfo type r
  | UpgradePolicyOf r => BuildUpgradePolicy type r
  | FactoryResetInfoOf r => BuildFactoryResetInfo type r
  | UndefinedStatus => BuildUndefinedStatus
  end.

(** ** Building events *)
Section event.
Import TaskBodyMemberMask.
(** [if (taskBodyTemplate & mask)] *)
(*@ client_helper.cpp:653-655 BuildTaskBody *)
Definition set_if (taskBodyTemplate mask : Z) (f : V → V) (b : V) : V := if negb (Z.land taskBodyTemplate mask =? 0) then f b else b.
(*@ client_helper.cpp:650-672 BuildTaskBody *)
Definition event_body (taskBodyTemplate : Z) (taskBody : TaskBody.t) : V :=
  let b := napi_create_object in
  let b := set_if taskBodyTemplate VERSION_DIGEST_INFO (λ b, BuildVersionDigestInfo b (TaskBody.versionDigestInfo taskBody)) b in
  let b := set_if taskBodyTemplate UPGRADE_STATUS (λ b, SetInt32 b "status" (TaskBody.status taskBody)) b in
  let b := set_if taskBodyTemplate SUB_STATUS (λ b, SetInt32 b "subStatus" (TaskBody.subStatus taskBody)) b in
  let b := set_if taskBodyTemplate PROGRESS (λ b, SetInt32 b "progress" (TaskBody.progress taskBody)) b in
  let b := set_if taskBodyTemplate INSTALL_MODE (λ b, SetInt32 b "installMode" (TaskBody.installMode taskBody)) b in
  let b := set_if taskBodyTemplate ERROR_MESSAGE (λ b, BuildErrorMessages b "errorMessages" (TaskBody.errorMessages taskBody)) b in
  set_if taskBodyTemplate VERSION_COMPONENT (λ b, BuildVersionComponents b (TaskBody.versionComponents taskBody)) b.
(*@ client_helper.cpp:645-676 BuildTaskBody *)
Definition BuildEventTaskBody obj (eventId : Z) (taskBody : TaskBody.t) : Z * V :=
  match g_taskBodyTemplateMap !! eventId with
  | None => (CLIENT_INVALID_PARAM, obj)
  | Some taskBodyTemplate => (CLIENT_SUCCESS, napi_set_named_property obj "taskBody" (event_body taskBodyTemplate taskBody))
  end.
(*@ client_helper.cpp ClientHelper::BuildEventInfo *)
Definition BuildEventInfo (eventInfo : EventInfo.t) : Z * V :=
  let obj := SetInt32 napi_create_object "eventId" (EventInfo.eventId eventInfo) in
  let (ret, obj) := BuildEventTaskBody obj (EventInfo.eventId eventInfo) (EventInfo.taskBody eventInfo) in
  (if negb (ret =? CLIENT_SUCCESS) then CLIENT_FAIL else CLIENT_SUCCESS, obj).
End event.
End napi.
End ClientHelper.

(** ** Properties *)
Section facts.
Import ClientStatus NapiCommonUtils ClientHelper TaskBodyMemberMask.
Context {V : Type} `{NapiLaws V}.
Implicit Types (o a : V).

(** *** Objects *)
(** A member of an object that is built from a template: its mask, its name and its value, if it has one. *)
Definition member : Type := Z * string * option V.
Definition add_member (template : Z) o (x : member) : V :=
  match x with (mask, k, v) => if negb (Z.land template mask =? 0) then from_option (napi_set_named_property o k) o v else o end.
Lemma typeof_add template o x : napi_typeof (add_member template o x) = napi_typeof o.
Proof. destruct x as [[m k] [v|]]; cbn; case_match; try done. apply typeof_set. Qed.
Lemma get_add_ne template o m k v k' : k ≠ k' → napi_get_named_property (add_member template o (m, k, v)) k' = napi_get_named_property o k'.
Proof. intros Hk. cbn. case_match; [|done]. destruct v; [|done]. by apply get_set_ne. Qed.
Lemma get_members_other template l o k :
  k ∉ (λ x : member, x.1.2) <$> l → napi_get_named_property (fold_left (add_member template) l o) k = napi_get_named_property o k.
Proof.
  revert o. induction l as [|[[m k'] v] l IH]; intros o Hk; [done|]. rewrite fmap_cons, not_elem_of_cons in Hk. destruct Hk as [Hk Hl].
  cbn [fold_left]. rewrite IH by done. apply get_add_ne. done.
Qed.
Lemma get_members template l o m k v :
  napi_typeof o = napi_object → NoDup ((λ x : member, x.1.2) <$> l) → (m, k, v) ∈ l →
  napi_get_named_property (fold_left (add_member template) l o) k =
  (if negb (Z.land template m =? 0) then from_option Some (napi_get_named_property o k) v else napi_get_named_property o k).
Proof.
  revert o. induction l as [|x l IH]; intros o Ho Hnd Hin; [by apply elem_of_nil in Hin|].
  rewrite fmap_cons in Hnd. apply NoDup_cons in Hnd as [Hx Hnd]. apply elem_of_cons in Hin as [<-|Hin]; cbn [fold_left].
  - rewrite get_members_other by done. cbn. case_match; [|done]. destruct v; [|done]. by apply get_set.
  - rewrite IH; [|by rewrite typeof_add|done|done]. destruct x as [[m' k'] v']. rewrite get_add_ne; [done|].
    intros ->. apply Hx. apply list_elem_of_fmap. exists (m, k, v). by split.
Qed.
(** *** Arrays *)
(** The array that has these elements. *)
Definition array_of a (l : list V) : Prop :=
  napi_is_array a = true ∧ napi_get_array_length a = Some (Z.of_nat (length l)) ∧ ∀ i v, l !! i = Some v → napi_get_element a (Z.of_nat i) = Some v.
Lemma fold_valid {A} (P : A → bool) (object : A → V) l a (done_ : list V) n :
  napi_is_array a = true → napi_get_array_length a = Some (Z.of_nat n) → (length done_ + length (List.filter P l) = n)%nat →
  (∀ i v, done_ !! i = Some v → napi_get_element a (Z.of_nat i) = Some v) →
  array_of (fold_left (add_valid P object) l (a, length done_)).1 (done_ ++ map object (List.filter P l)).
Proof.
  revert a done_. induction l as [|x l IH]; intros a done_ Ha Hl Hn Hd; cbn [fold_left List.filter map fst].
  - rewrite app_nil_r. cbn in Hn. split_and!; [done| |done]. rewrite Hl. f_equal. lia.
  - unfold add_valid at 2. cbn [List.filter fst snd] in *. destruct (P x); cbn [map]; [|by apply IH].
    specialize (IH (napi_set_element a (length done_) (object x)) (done_ ++ [object x])).
    rewrite length_app, <- app_assoc in IH. cbn [length app] in *. rewrite Nat.add_1_r in IH. apply IH.
    + by rewrite array_element.
    + apply length_element; [done|lia].
    + lia.
    + intros i v Hi. apply lookup_app_Some in Hi as [Hi|[Hi Hv]].
      * pose proof (lookup_lt_Some _ _ _ Hi). rewrite element_set_ne by lia. by apply Hd.
      * apply list_lookup_singleton_Some in Hv as [Hz <-]. replace i with (length done_) by lia. by apply element_set.
Qed.
Lemma valid_array_of {A} (P : A → bool) (object : A → V) l : array_of (valid_array P object l) (map object (List.filter P l)).
Proof.
  apply (fold_valid P object l _ [] (GetValidDataCount P l)); [apply array_created|apply length_created|done|]. intros i v Hi. by rewrite lookup_nil in Hi.
Qed.

(** *** Events *)
Definition valid_list {A} (P : A → bool) (object : A → V) (l : list A) : option V :=
  if (GetValidDataCount P l =? 0)%nat then None else Some (valid_array P object l).
Definition event_members (b : TaskBody.t) : list member := [
  (VERSION_DIGEST_INFO, "versionDigestInfo",
    Some (napi_set_named_property napi_create_object "versionDigest" (napi_create_string_utf8 (VersionDigestInfo.versionDigest (TaskBody.versionDigestInfo b)))));
  (UPGRADE_STATUS, "status", Some (napi_create_int32 (TaskBody.status b)));
  (SUB_STATUS, "subStatus", Some (napi_create_int32 (TaskBody.subStatus b)));
  (PROGRESS, "progress", Some (napi_create_int32 (TaskBody.progress b)));
  (INSTALL_MODE, "installMode", Some (napi_create_int32 (TaskBody.installMode b)));
  (ERROR_MESSAGE, "errorMessages", valid_list IsValidMessage error_message_object (TaskBody.errorMessages b));
  (VERSION_COMPONENT, "versionComponents", valid_list IsValidComponent version_component_object (TaskBody.versionComponents b))].
Lemma event_body_members template b : event_body template b = fold_left (add_member template) (event_members b) napi_create_object.
Proof.
  unfold event_body, event_members, set_if. cbn [fold_left add_member from_option]. unfold BuildErrorMessages, BuildVersionComponents, valid_list.
  by destruct (GetValidDataCount IsValidMessage _ =? 0)%nat, (GetValidDataCount IsValidComponent _ =? 0)%nat.
Qed.
(** The object an event handler gets: it has the id of the event and a body with exactly the
    members the event's template selects, the same template the printed event uses; the errors and
    components are arrays of the valid ones, in their order, left out when there are none.  An event
    without a template makes no object. *)
Theorem event_object_members (e : EventInfo.t) :
  match g_taskBodyTemplateMap !! EventInfo.eventId e with
  | None => (BuildEventInfo e).1 ≠ CLIENT_SUCCESS
  | Some template =>
      ∃ o body, BuildEventInfo e = (CLIENT_SUCCESS, o) ∧
        napi_get_named_property o "eventId" = Some (napi_create_int32 (EventInfo.eventId e)) ∧
        napi_get_named_property o "taskBody" = Some body ∧
        (∀ m k v, (m, k, v) ∈ event_members (EventInfo.taskBody e) →
           napi_get_named_property body k =
           if negb (Z.land template m =? 0) then from_option Some (napi_get_named_property napi_create_object k) v
           else napi_get_named_property napi_create_object k) ∧
        (∀ k, k ∉ (λ x : member, x.1.2) <$> event_members (EventInfo.taskBody e) →
           napi_get_named_property body k = napi_get_named_property napi_create_object k) ∧
        array_of (valid_array IsValidMessage error_message_object (TaskBody.errorMessages (EventInfo.taskBody e)))
          (map error_message_object (List.filter IsValidMessage (TaskBody.errorMessages (EventInfo.taskBody e)))) ∧
        array_of (valid_array IsValidComponent version_component_object (TaskBody.versionComponents (EventInfo.taskBody e)))
          (map version_component_object (List.filter IsValidComponent (TaskBody.versionComponents (EventInfo.taskBody e))))
  end.
Proof.
  unfold BuildEventInfo, BuildEventTaskBody. destruct (g_taskBodyTemplateMap !! _) as [template|]; [|done].
  eexists _, (event_body template (EventInfo.taskBody e)). split; [reflexivity|]. split_and!.
  - rewrite get_set_ne by done. apply get_set, typeof_object.
  - apply get_set. unfold SetInt32. rewrite typeof_set. apply typeof_object.
  - intros m k v Hm. rewrite event_body_members. apply get_members; [apply typeof_object| |done].
    apply (bool_decide_unpack _). by vm_compute.
  - intros k Hk. rewrite event_body_members. by apply get_members_other.
  - apply valid_array_of.
  - apply valid_array_of.
Qed.

(** *** Paths *)
(** An absolute path whose last postfix is one of a package, in any case. *)
Definition upgrade_path (s : string) : Prop :=
  ∃ l pre post, chars s = "/"%char :: l ∧ chars s = pre ++ "."%char :: post ∧ "."%char ∉ post ∧ str (map tolower post) ∈ upgrade_postfixes.
Lemma slash_first s : find_char s "/" 0 = Some 0%nat ↔ ∃ l, chars s = "/"%char :: l.
Proof.
  unfold find_char. rewrite drop_0. destruct (chars s) as [|c l]; [cbn; naive_solver|]. cbn [find_index].
  destruct (Ascii.eqb_spec "/" c) as [<-|Hc]; cbn; [naive_solver|]. split; [|naive_solver]. by destruct (find_index _ l).
Qed.
Lemma last_dot s pos :
  find_last_of s "." = Some pos ↔ ∃ pre post, chars s = pre ++ "."%char :: post ∧ "."%char ∉ post ∧ pos = length pre.
Proof.
  unfold find_last_of. split.
  - intros (x & Hx & Hp & Hrest)%find_last_index_Some. cbn in Hp. rewrite orb_false_r in Hp. apply Ascii.eqb_eq in Hp as ->.
    exists (take pos (chars s)), (drop (S pos) (chars s)). rewrite take_drop_middle by done. split; [done|]. split.
    + intros Hin. rewrite Forall_forall in Hrest. specialize (Hrest _ Hin). cbn in Hrest. done.
    + rewrite length_take_le; [done|]. apply lookup_lt_Some in Hx. lia.
  - intros (pre & post & -> & Hpost & ->). set (p := λ c, existsb (Ascii.eqb c) (chars ".")).
    assert (find_last_index p post = None) as Hnone.
    { induction post as [|c post IH]; [done|]. rewrite not_elem_of_cons in Hpost. destruct Hpost as [Hc Hpost]. cbn. rewrite IH by done.
      destruct (Ascii.eqb_spec c ".") as [->|_]; done. }
    induction pre as [|c pre IH]; cbn; [by rewrite Hnone|]. by rewrite IH.
Qed.
Lemma IsValidUpgradeFile_spec s : IsValidUpgradeFile s = true ↔ upgrade_path s.
Proof.
  unfold IsValidUpgradeFile, upgrade_path.
  assert ((∃ l, chars s = "/"%char :: l) → (s =? "")%string = false) as Hempty by (intros [l Hl]; by destruct s).
  destruct (bool_decide_reflect (find_char s "/" 0 = Some 0%nat)) as [Hslash|Hslash]; rewrite slash_first in Hslash; cbn [negb].
  2: { split; [by destruct (s =? "")%string|]. intros (l & pre & post & Hl & _). destruct Hslash. by exists l. }
  rewrite Hempty by done. destruct (find_last_of s ".") as [pos|] eqn:Hdot.
  - apply last_dot in Hdot as (pre & post & Hs & Hpost & ->).
    assert (chars (default "" (substr_from s (length pre + 1))) = post) as ->.
    { unfold substr_from, substr. rewrite <- len_chars, Hs, length_app. cbn [length]. rewrite (proj2 (Nat.ltb_ge _ _)) by lia. cbn [from_option]. unfold id.
      rewrite chars_str, drop_app_ge by lia. replace (length pre + 1 - length pre)%nat with 1%nat by lia. cbn. rewrite drop_0, take_ge; [done|lia]. }
    rewrite existsb_exists. split.
    + intros (p & Hp%list_elem_of_In & Heq%String.eqb_eq). destruct Hslash as [l Hl]. exists l, pre, post. by rewrite Heq.
    + intros (_ & pre' & post' & _ & Hs' & Hpost' & Hin).
      assert (post' = post) as ->.
      { assert (find_last_of s "." = Some (length pre)) as H1 by (apply last_dot; eauto). assert (find_last_of s "." = Some (length pre')) as H2 by (apply last_dot; eauto).
        rewrite H1 in H2. injection H2 as Hlen. rewrite Hs in Hs'. by apply app_inj_1 in Hs' as [_ [= ->]]. }
      exists (str (map tolower post)). split; [by apply list_elem_of_In|by apply String.eqb_eq].
  - split; [done|]. intros (_ & pre & post & _ & Hs & Hpost & _). assert (find_last_of s "." = Some (length pre)) by (apply last_dot; eauto). congruence.
Qed.
(** What is read of one element, and when it is accepted. *)
Definition file_of element : UpgradeFile.t :=
  {| UpgradeFile.fileType := (GetInt32 element "fileType" 0).2; UpgradeFile.filePath := TrimString (GetString element "filePath" "").2 |}.
Definition acceptable element : Prop :=
  napi_typeof element = napi_object ∧
  UpgradeFile.fileType (file_of element) ∈ [ComponentType.OTA; ComponentType.PATCH; ComponentType.COTA; ComponentType.PARAM] ∧
  upgrade_path (UpgradeFile.filePath (file_of element)).
Lemma IsValidEnum_spec l z : IsValidEnum l z = true ↔ z ∈ l.
Proof.
  unfold IsValidEnum. rewrite existsb_exists. split.
  - intros (k & Hk & ->%Z.eqb_eq). by apply list_elem_of_In.
  - intros Hz. exists z. split; [by apply list_elem_of_In|by apply Z.eqb_eq].
Qed.
Lemma ParseUpgradeFile_accepts element :
  (ParseUpgradeFile element UpgradeFile.default).1 = CLIENT_SUCCESS ↔ acceptable element.
Proof.
  unfold ParseUpgradeFile, acceptable. rewrite <- IsValidUpgradeFile_spec, <- IsValidEnum_spec. cbn [UpgradeFile.fileType UpgradeFile.filePath file_of UpgradeFile.default].
  destruct (bool_decide_reflect (napi_typeof element = napi_object)); cbn [negb fst]; [|naive_solver].
  destruct (IsValidEnum _ _); cbn [negb fst]; [|naive_solver]. destruct (IsValidUpgradeFile _); cbn; naive_solver.
Qed.
Lemma ParseUpgradeFile_value element : acceptable element → ParseUpgradeFile element UpgradeFile.default = (CLIENT_SUCCESS, file_of element).
Proof.
  intros Ha. pose proof (proj2 (ParseUpgradeFile_accepts element) Ha) as Hs. unfold ParseUpgradeFile in *.
  repeat (case_match; cbn [fst] in Hs; try done).
Qed.
Lemma parse_files_spec a n idx files files' :
  parse_files a n idx files = (CLIENT_SUCCESS, files') ↔
  ∃ elements, length elements = n ∧ files' = files ++ map file_of elements ∧
    ∀ i element, elements !! i = Some element → napi_get_element a (idx + Z.of_nat i) = Some element ∧ acceptable element.
Proof.
  revert idx files. induction n as [|n IH]; intros idx files; cbn [parse_files].
  - split; [intros [= <-]; exists []; by rewrite app_nil_r|]. intros ([|] & Hlen & -> & _); [by rewrite app_nil_r|done].
  - split.
    + destruct (napi_get_element a idx) as [element|] eqn:Hget; [|done].
      pose proof (ParseUpgradeFile_accepts element) as Hacc. pose proof (ParseUpgradeFile_value element) as Hval.
      destruct (ParseUpgradeFile element _) as [r f]. cbn [fst] in Hacc. destruct (Z.eqb_spec r CLIENT_SUCCESS) as [Hr|Hr]; cbn [negb]; [|naive_solver].
      apply Hacc in Hr. specialize (Hval Hr). injection Hval as _ ->. intros (es & Hlen & -> & Hes)%IH. exists (element :: es). cbn. split; [by rewrite Hlen|].
      split; [by rewrite <- app_assoc|]. intros [|i] e; cbn; [intros [= <-]; rewrite Z.add_0_r; by split|]. intros Hi. specialize (Hes i e Hi).
      replace (idx + Z.of_nat (S i)) with (idx + 1 + Z.of_nat i) by lia. done.
    + intros ([|element es] & Hlen & -> & Hes); [done|]. destruct (Hes 0%nat element eq_refl) as [Hget Hacc]. rewrite Z.add_0_r in Hget. rewrite Hget.
      rewrite (ParseUpgradeFile_value _ Hacc). cbn [negb Z.eqb]. change (CLIENT_SUCCESS =? CLIENT_SUCCESS) with true. cbn [negb].
      apply IH. exists es. cbn in Hlen. split; [lia|]. split; [by rewrite <- app_assoc|]. intros i e Hi.
      replace (idx + 1 + Z.of_nat i) with (idx + Z.of_nat (S i)) by lia. by apply Hes.
Qed.
(** Which local packages an application may hand over: a non-empty array whose elements are all
    objects with a known type and, apart from spaces around it, an absolute path that ends in the
    postfix of a package, in any case; the paths are read in their order and nothing else is accepted. *)
Theorem upgrade_files_accepted a files :
  GetUpgradeFilesFromArg a [] = (CLIENT_SUCCESS, files) ↔
  napi_is_array a = true ∧
  ∃ elements, elements ≠ [] ∧ napi_get_array_length a = Some (Z.of_nat (length elements)) ∧ files = map file_of elements ∧
    ∀ i element, elements !! i = Some element → napi_get_element a (Z.of_nat i) = Some element ∧ acceptable element.
Proof.
  unfold GetUpgradeFilesFromArg. destruct (napi_is_array a); cbn [negb]; [|naive_solver].
  destruct (napi_get_array_length a) as [count|]; [|naive_solver].
  destruct (Z.ltb_spec 0 count) as [Hc|Hc]; cbn [negb].
  - rewrite parse_files_spec. split.
    + intros (es & Hlen & -> & Hes). split; [done|]. exists es. split; [by intros ->; cbn in Hlen; lia|]. split; [f_equal; lia|]. by split.
    + intros (_ & es & _ & [= ->] & -> & Hes). exists es. rewrite Nat2Z.id. by split_and!.
  - split; [done|]. intros (_ & [|] & Hne & [= ->] & _); [done|]. cbn in Hc. lia.
Qed.

(** *** Policies *)
Lemma period_unread a i o p : napi_get_element a i = Some o → napi_typeof o = napi_object → read_period a i p = p.
Proof.
  intros Hget Ho. unfold read_period. rewrite Hget. cbn [mbind option_bind]. destruct (napi_get_value_uint32 o) eqn:Hu; [|by destruct p].
  apply uint32_number in Hu. congruence.
Qed.
Lemma GetBool_set o k b old : napi_typeof o = napi_object → GetBool (SetBool o k b) k old = (CLIENT_SUCCESS, b).
Proof. intros Ho. unfold GetBool, property, SetBool. rewrite has_set, get_set by done. cbn. by rewrite bool_value. Qed.
Lemma GetBool_ne o k k' v old : k ≠ k' → GetBool (napi_set_named_property o k v) k' old = GetBool o k' old.
Proof. intros Hk. unfold GetBool, property. by rewrite has_set_ne, get_set_ne. Qed.
(** Handing back the policy that [getUpgradePolicy] gave to [setUpgradePolicy] sets the two
    strategies and nothing else: its periods, which are objects, are read as numbers and stay what they
    were, and so does the type of the policy. *)
Theorem policy_periods_unread (policy old : UpgradePolicy.t) :
  ∃ o, BuildUpgradePolicy SessionType.SESSION_GET_POLICY (Some policy) = (CLIENT_SUCCESS, Some o) ∧
    GetUpgradePolicyFromArg o old =
    (CLIENT_SUCCESS, {| UpgradePolicy.downloadStrategy := UpgradePolicy.downloadStrategy policy;
                        UpgradePolicy.autoUpgradeStrategy := UpgradePolicy.autoUpgradeStrategy policy;
                        UpgradePolicy.autoUpgradePeriods := UpgradePolicy.autoUpgradePeriods old;
                        UpgradePolicy.customPolicyType := UpgradePolicy.customPolicyType old |}).
Proof.
  unfold BuildUpgradePolicy. change (negb (SessionType.SESSION_GET_POLICY =? SessionType.SESSION_GET_POLICY)) with false. cbv iota zeta.
  eexists. split; [reflexivity|]. set (p1 := period_object (UpgradePolicy.autoUpgradePeriods policy).1). set (p2 := period_object (UpgradePolicy.autoUpgradePeriods policy).2).
  assert (∀ p, napi_typeof (period_object (V := V) p) = napi_object) as Hp by (intros p; unfold period_object, SetInt32; rewrite !typeof_set; apply typeof_object).
  set (ps := napi_set_element _ 1 p2). set (obj := SetInt32 (SetBool _ "autoUpgradeStrategy" _) "customPolicyType" _).
  assert (napi_typeof obj = napi_object) as Hobj by (unfold obj, SetInt32, SetBool; rewrite !typeof_set; apply typeof_object).
  unfold GetUpgradePolicyFromArg, CheckNapiObjectType. rewrite typeof_set, Hobj, bool_decide_eq_true_2 by done. cbn [negb].
  change (negb (CLIENT_SUCCESS =? CLIENT_SUCCESS)) with false. unfold property. rewrite has_set, get_set by done. cbn [mbind option_bind].
  assert (napi_get_array_length ps = Some (Z.of_nat 2)) as Hlen by (repeat (apply length_element; [|lia]); apply length_created).
  assert (napi_get_element ps 0 = Some p1) as H0'.
  { unfold ps. change 0 with (Z.of_nat 0). rewrite element_set_ne by done. apply element_set, array_created. }
  assert (napi_get_element ps 1 = Some p2) as H1'.
  { unfold ps. change 1 with (Z.of_nat 1). apply element_set. rewrite array_element. apply array_created. }
  rewrite Hlen. change (1 <? Z.of_nat 2) with true. rewrite (period_unread ps 0 p1), (period_unread ps 1 p2) by (done || apply Hp).
  rewrite <- surjective_pairing. do 2 f_equal; rewrite GetBool_ne by done; unfold obj, SetInt32; rewrite GetBool_ne by done.
  - unfold SetBool at 1. rewrite GetBool_ne, GetBool_set by (done || apply typeof_object). done.
  - rewrite GetBool_set; [done|]. unfold SetBool. rewrite typeof_set. apply typeof_object.
Qed.
End facts.

(** ** Sample arguments *)
Module SampleArgs.
Import ClientStatus ClientHelper SampleJs.
Definition object (l : list (string * js)) : js := Obj l None.
Definition array (l : list js) : js := Obj [] (Some l).
Definition two_files : js :=
  array [object [("fileType", Number 1); ("filePath", Str "  /data/updater/update.ZIP ")];
         object [("filePath", Str "/data/../cust.v2.gz"); ("fileType", Number 4)]].
Definition accepted : list UpgradeFile.t :=
  [{| UpgradeFile.fileType := 1; UpgradeFile.filePath := "/data/updater/update.ZIP" |};
   {| UpgradeFile.fileType := 4; UpgradeFile.filePath := "/data/../cust.v2.gz" |}].
Lemma upgrade_files_accepted_witness :
  GetUpgradeFilesFromArg two_files [] = (CLIENT_SUCCESS, accepted) ∧
  ∃ elements, elements ≠ [] ∧ accepted = map file_of elements ∧ ∀ i element, elements !! i = Some element → acceptable element.
Proof.
  assert (GetUpgradeFilesFromArg two_files [] = (CLIENT_SUCCESS, accepted)) as Hrun by (vm_compute; reflexivity). split; [exact Hrun|].
  destruct (proj1 (upgrade_files_accepted two_files accepted) Hrun) as (_ & es & Hne & _ & Hmap & Hes).
  exists es. split_and!; [exact Hne|exact Hmap|]. intros i e Hi. exact (proj2 (Hes i e Hi)).
Defined.
(** A path must be absolute and end in a known postfix. *)
Example relative_refused : (ParseUpgradeFile (object [("fileType", Number 1); ("filePath", Str "update.zip")]) UpgradeFile.default).1 = CLIENT_INVALID_PARAM.
Proof. vm_compute. reflexivity. Qed.
Example postfix_refused : (ParseUpgradeFile (object [("fileType", Number 1); ("filePath", Str "/data/a.zip.txt")]) UpgradeFile.default).1 = CLIENT_INVALID_PARAM.
Proof. vm_compute. reflexivity. Qed.

Definition failed : EventInfo.t := {|
  EventInfo.eventId := EventId.EVENT_UPGRADE_FAIL;
  EventInfo.taskBody := {|
    TaskBody.versionDigestInfo := {| VersionDigestInfo.versionDigest := "digest" |}; TaskBody.status := UpgradeStatus.UPDATE_FAIL; TaskBody.subStatus := 0;
    TaskBody.progress := 40; TaskBody.installMode := 0;
    TaskBody.errorMessages := [ErrorMessage.default; {| ErrorMessage.errorCode := 7; ErrorMessage.errorMessage := "verify" |}];
    TaskBody.versionComponents := [VersionComponent.default] |} |}.
(** The template of a failure selects neither the progress nor the status; the only component is not valid. *)
Lemma event_object_members_witness :
  ∃ o body, BuildEventInfo failed = (CLIENT_SUCCESS, o) ∧ napi_get_named_property o "taskBody" = Some body ∧
    napi_get_named_property body "progress" = Some Undefined ∧ napi_get_named_property body "versionComponents" = Some Undefined ∧
    napi_get_named_property body "errorMessages" = Some (array [error_message_object {| ErrorMessage.errorCode := 7; ErrorMessage.errorMessage := "verify" |}]).
Proof.
  destruct (event_object_members (V := js) failed) as (o & body & Hbuild & _ & Hbody & Hmembers & _).
  exists o, body. split_and!; [exact Hbuild|exact Hbody|..].
  - rewrite (Hmembers TaskBodyMemberMask.PROGRESS "progress" (Some (Number 40))); [vm_compute; reflexivity|]. do 3 right. left.
  - rewrite (Hmembers TaskBodyMemberMask.VERSION_COMPONENT "versionComponents" None); [vm_compute; reflexivity|]. do 6 right. left.
  - rewrite (Hmembers TaskBodyMemberMask.ERROR_MESSAGE "errorMessages"
      (Some (array [error_message_object {| ErrorMessage.errorCode := 7; ErrorMessage.errorMessage := "verify" |}]))); [vm_compute; reflexivity|]. do 5 right. left.
Defined.

Definition weekly : UpgradePolicy.t := {|
  UpgradePolicy.downloadStrategy := true; UpgradePolicy.autoUpgradeStrategy := false;
  UpgradePolicy.autoUpgradePeriods := ({| UpgradePeriod.start := 120; UpgradePeriod.end_ := 240 |}, UpgradePeriod.default);
  UpgradePolicy.customPolicyType := PolicyType.WINDOWS |}.
Lemma policy_periods_unread_witness :
  ∃ o : js, BuildUpgradePolicy SessionType.SESSION_GET_POLICY (Some weekly) = (CLIENT_SUCCESS, Some o) ∧
    UpgradePolicy.autoUpgradePeriods (GetUpgradePolicyFromArg o UpgradePolicy.default).2 = (UpgradePeriod.default, UpgradePeriod.default).
Proof.
  destruct (policy_periods_unread (V := js) weekly UpgradePolicy.default) as (o & Hbuild & Hread).
  exists o. split; [exact Hbuild|]. by rewrite Hread.
Defined.
End SampleArgs.
