(* ===== verification/JsSession.v ===== *)
(** * Calls from JavaScript

    Models [frameworks/js/napi]: [napi_session.h], [napi_session.cpp],
    [base_async_session.h], [base_promise_session.h], [update_session.h],
    [update_session.cpp], [session_manager.cpp] and [iupdater.cpp].  A call of an
    application makes a session, whose work runs on a worker thread and whose result is
    given to a callback or a promise on the thread of the engine; a listener is a session
    that stays until it is taken away.

    A session object is known by its address, its place in [objects]; [sessions_] holds the
    [shared_ptr]s that keep it alive, while the work only has its address.  [calls] are the
    calls into the engine that JavaScript sees.  Calls of the engine that make values do not
    fail; queueing work, sending an event and calling a function may.  What a handler does
    when it is called comes after the call. *)
From Stdlib Require Import ZArith Lia Ascii String.
From stdpp Require Import base tactics list strings sets.
From S2P Require Import Prelude CppString Models Access Napi JsArgs.

#[local] Open Scope Z_scope.

(** The queues of the engine, and the functions of the application; the promise of a session. *)
Class JsEngine (V C : Type) := {
  napi_queue_async_work_with_qos : ST C bool;
  napi_send_event : ST C bool;
  napi_call_function : V → list (option V) → ST C bool;
  napi_create_promise : nat → V
}.
(** The virtual methods of [IUpdater], on the members of its subclass and their environment
    [C].  [W]: the closures handed to [StartSession]; their argument is the [BusinessError] of the session,
    or null. *)
Class Updater (C W : Type) := {
  RegisterCallback : ST C unit;
  UnRegisterCallback : ST C unit;
  GetUpdateResult : Z → C → ClientHelper.Result;
  run_worker : W → option BusinessError.t → ST C (Z * option BusinessError.t)
}.
(** What [StartSession] needs of them: a result fits its builder. *)
Class UpdaterLaws (V C W : Type) `{Napi V, Updater C W} : Prop :=
  result_built type (c : C) : (ClientHelper.buildJSObject (V := V) type (GetUpdateResult type c)).1 = ClientStatus.CLIENT_SUCCESS.

Module SessionParams.
(*@ js/napi/session/include/napi_structs_base.h SessionParams *)
Record t := { type : Z; callbackStartIndex : nat; isNeedBusinessError : bool; isAsyncCompleteWork : bool }.
(*@ js/napi/session/include/napi_structs_base.h:31-38 SessionParams::SessionParams *)
Definition new (typeValue : Z) (callbackPosition : nat) (isNeedBusinessErrorValue isAsyncCompleteWorkValue : bool) : t := {|
  type := typeValue;
  callbackStartIndex := if (callbackPosition <? 1)%nat then 1 else callbackPosition - 1;
  isNeedBusinessError := isNeedBusinessErrorValue;
  isAsyncCompleteWork := isAsyncCompleteWorkValue |}.
End SessionParams.
Module SessionFuncHelper.
Import SessionType.
(*@ js/napi/update/src/update_session.cpp SessionFuncHelper::sessionFuncMap_ *)
Definition sessionFuncMap_ : list (Z * string) := [
  (SESSION_CHECK_VERSION, "checkNewVersion"); (SESSION_DOWNLOAD, "download"); (SESSION_PAUSE_DOWNLOAD, "pauseDownload");
  (SESSION_RESUME_DOWNLOAD, "resumeDownload"); (SESSION_UPGRADE, "upgrade"); (SESSION_SET_POLICY, "setUpgradePolicy");
  (SESSION_GET_POLICY, "getUpgradePolicy"); (SESSION_CLEAR_ERROR, "clearError"); (SESSION_TERMINATE_UPGRADE, "terminateUpgrade");
  (SESSION_GET_NEW_VERSION, "getNewVersionInfo"); (SESSION_GET_NEW_VERSION_DESCRIPTION, "getNewVersionDescription");
  (SESSION_SUBSCRIBE, "subscribe"); (SESSION_UNSUBSCRIBE, "unsubscribe"); (SESSION_GET_UPDATER, "getUpdater");
  (SESSION_APPLY_NEW_VERSION, "applyNewVersion"); (SESSION_FACTORY_RESET, "factoryReset"); (SESSION_FORCE_FACTORY_RESET, "forceFactoryReset");
  (SESSION_DEEP_FACTORY_RESET, "deepFactoryReset"); (SESSION_GET_DEEP_FACTORY_RESET_INFO, "getDeepFactoryResetInfo");
  (SESSION_VERIFY_PACKAGE, "verifyPackage"); (SESSION_CANCEL_UPGRADE, "cancel"); (SESSION_GET_CUR_VERSION, "getCurrentVersionInfo");
  (SESSION_GET_CUR_VERSION_DESCRIPTION, "getCurrentVersionDescription"); (SESSION_GET_TASK_INFO, "getTaskInfo");
  (SESSION_REPLY_PARAM_ERROR, "replyParamError"); (SESSION_MAX, "max")].
(*@ js/napi/update/src/update_session.cpp SessionFuncHelper::GetFuncName *)
Definition GetFuncName (sessionType : Z) : string := default "" (snd <$> List.find (λ x, x.1 =? sessionType) sessionFuncMap_).
End SessionFuncHelper.

Module NapiSession.
Section session.
Context {V W : Type}.
(** The class of the object: [UpdateAsyncession], [UpdatePromiseSession] or [UpdateListener]. *)
Inductive Kind := Async (callbackRef_ : option V) | Promise | Listener (eventClassifyInfo_ : EventClassifyInfo.t) (handlerRef_ : option V).
(** [doWorker_]: of a listener, that is the registration of the updater. *)
(*@ js/napi/session/include/napi_session.h:166-177 NapiSession *)
Record t := {
  sessionId : Z;
  kind : Kind;
  sessionParams_ : SessionParams.t;
  totalArgc_ : nat;
  doWorker_ : option W;
  businessError_ : BusinessError.t;
  workResult_ : Z;
  asyncExecuteComplete_ : bool
}.
(*@ js/napi/session/src/napi_session.cpp NapiSession::NapiSession *)
Definition new (id : Z) (k : Kind) (sessionParams : SessionParams.t) (argc : nat) (worker : option W) : t := {|
  sessionId := id; kind := k; sessionParams_ := sessionParams; totalArgc_ := argc; doWorker_ := worker;
  businessError_ := BusinessError.default; workResult_ := CallResult.SUCCESS; asyncExecuteComplete_ := false |}.
Definition set_kind (k : Kind) (this : t) : t :=
  Build_t (sessionId this) k (sessionParams_ this) (totalArgc_ this) (doWorker_ this) (businessError_ this) (workResult_ this) (asyncExecuteComplete_ this).
Definition set_work (r : Z) (be : BusinessError.t) (this : t) : t :=
  Build_t (sessionId this) (kind this) (sessionParams_ this) (totalArgc_ this) (doWorker_ this) be r (asyncExecuteComplete_ this).
Definition set_complete (this : t) : t :=
  Build_t (sessionId this) (kind this) (sessionParams_ this) (totalArgc_ this) (doWorker_ this) (businessError_ this) (workResult_ this) true.
(*@ js/napi/session/include/napi_session.h:49-52 NapiSession::GetType *)
Definition GetType (this : t) : Z := SessionParams.type (sessionParams_ this).
(*@ js/napi/session/include/napi_session.h NapiSession::OnAsyncComplete *)
Definition OnAsyncComplete (businessError : BusinessError.t) (this : t) : t := set_complete (set_work (workResult_ this) businessError this).
(*@ js/napi/session/include/napi_session.h NapiSession::IsWorkExecuteSuccess *)
Definition IsWorkExecuteSuccess (this : t) : bool := workResult_ this =? CallResult.SUCCESS.
(** A callback and a promise name different permissions. *)
(*@ js/napi/update/include/update_session.h BaseUpdateSession::GetFunctionPermissionName *)
Definition async_permission (type : Z) : string :=
  if type =? SessionType.SESSION_FACTORY_RESET then "ohos.permission.FACTORY_RESET" else "ohos.permission.UPDATE_SYSTEM".
(*@ js/napi/update/include/update_session.h BaseMigratePromiseSession::GetFunctionPermissionName *)
Definition promise_permission (type : Z) : string :=
  if (type =? SessionType.SESSION_FACTORY_RESET) || (type =? SessionType.SESSION_DEEP_FACTORY_RESET) ||
     (type =? SessionType.SESSION_GET_DEEP_FACTORY_RESET_INFO)
  then "ohos.permission.FACTORY_RESET" else "ohos.permission.UPDATE_SYSTEM".
(*@ js/napi/session/src/napi_session.cpp NapiSession::GetSessionFuncParameter *)
Definition GetSessionFuncParameter (this : t) : string * string :=
  match kind this with
  | Async _ => (SessionFuncHelper.GetFuncName (GetType this), async_permission (GetType this))
  | Promise => (SessionFuncHelper.GetFuncName (GetType this), promise_permission (GetType this))
  | Listener _ _ => ("", "")
  end.
(*@ js/napi/session/include/napi_session.h NapiSession::GetIpcErrorMessage *)
Definition GetIpcErrorMessage (workResult : Z) (funcName permissionName msg : string) : string :=
  let common := "BusinessError " +:+ to_string workResult in
  let component := "BusinessError " +:+ to_string (COMPONENT_ERR + workResult) in
  if workResult =? CallResult.NOT_SYSTEM_APP then common +:+ ": Permission verification failed. A non-system application calls a system API."
  else if workResult =? CallResult.APP_NOT_GRANTED then
    common +:+ ": Permission denied. An attempt was made to " +:+ funcName +:+ " forbidden by permission: " +:+ permissionName +:+ "."
  else if workResult =? CallResult.IPC_ERR then component +:+ ": IPC error."
  else if workResult =? CallResult.UN_SUPPORT then
    common +:+ ": Capability not supported. function " +:+ funcName +:+ " can not work correctly due to limited device capabilities."
  else if workResult =? CallResult.PARAM_ERR then common +:+ ": Parameter verification failed."
  else if workResult =? CallResult.MDM_DISABLE_RESET then common +:+ ": This function is prohibited by enterprise management policies."
  else if workResult =? CallResult.FAIL then component +:+ ": Execute fail."
  else if workResult =? CallResult.FORBIDDEN then component +:+ ": Forbidden execution."
  else if workResult =? CallResult.DEV_UPG_INFO_ERR then component +:+ ": Device info error."
  else if workResult =? CallResult.TIME_OUT then component +:+ ": Execute timeout."
  else if workResult =? CallResult.DB_ERROR then component +:+ ": DB error."
  else if workResult =? CallResult.IO_ERROR then component +:+ ": IO error."
  else if workResult =? CallResult.NET_ERROR then component +:+ ": Network error."
  else msg.
(*@ js/napi/session/include/napi_session.h NapiSession::BuildWorkBusinessErr *)
Definition BuildWorkBusinessErr (this : t) : BusinessError.t :=
  let (funcName, permissionName) := GetSessionFuncParameter this in
  BusinessError.Build BusinessError.default (workResult_ this) (GetIpcErrorMessage (workResult_ this) funcName permissionName "execute error").
(*@ js/napi/session/include/napi_session.h NapiSession::GetBusinessError *)
Definition GetBusinessError (this : t) : BusinessError.t :=
  if IsWorkExecuteSuccess this then businessError_ this else BuildWorkBusinessErr this.
End session.
Arguments Kind : clear implicits.
Arguments t : clear implicits.
End NapiSession.

(** ** The sessions of an updater *)
Module SessionManager.
(** [std::map::insert]: nothing when the key is there. *)
Fixpoint map_insert (k : Z) (p : nat) (l : list (Z * nat)) : list (Z * nat) :=
  match l with
  | [] => [(k, p)]
  | (k', p') :: r => if k <? k' then (k, p) :: l else if k =? k' then l else (k', p') :: map_insert k p r
  end.
(** The sessions that are not erased. *)
Definition erase (p : Z * nat → bool) (l : list (Z * nat)) : list (Z * nat) := List.filter (λ x, negb (p x)) l.

(** Where the work of a session is: in the queue, waiting for an answer, done. *)
Inductive Stage := Queued | Waiting | Executed.
#[export] Instance stage_eq_dec : EqDecision Stage.
Proof. solve_decision. Defined.
Section ops.
Context {V C W : Type} `{Napi V, JsEngine V C, Updater C W, TokenKits C}.
Import NapiSession NapiCommonUtils ClientStatus.
#[local] Notation Session := (NapiSession.t V W).
(** What JavaScript sees of a session: what the call returned ([None]: a null value), the call of a
    function, and a promise that is resolved or rejected, where a null value has no effect; an error
    that is thrown at the caller. *)
Inductive Call :=
  | Returned (a : nat) (v : option V) | Called (a : nat) (f : V) (args : list (option V))
  | Resolved (a : nat) (v : option V) | Rejected (a : nat) (v : option V) | Thrown (v : V).
(** [created]: the sessions made in the process, whose low 32 bits are [g_sessionId]; [works]: the work
    that is not completed; [events]: what was sent to the thread of the engine. *)
(*@ js/napi/update/include/session_manager.h:51-55 SessionManager *)
Record t := {
  objects : list Session;
  sessions_ : list (Z * nat);
  created : Z;
  works : list (nat * Stage);
  events : list (EventClassifyInfo.t * EventInfo.t);
  calls : list Call
}.
Definition make x1 x2 x3 x4 x5 x6 : t := Build_t x1 x2 x3 x4 x5 x6.
Definition initial : t := {| objects := []; sessions_ := []; created := 0; works := []; events := []; calls := [] |}.
#[local] Notation Js := (ST (t * C)).
Definition set_objects x (s : t) : t := Build_t x (sessions_ s) (created s) (works s) (events s) (calls s).
Definition set_sessions x (s : t) : t := Build_t (objects s) x (created s) (works s) (events s) (calls s).
Definition set_created x (s : t) : t := Build_t (objects s) (sessions_ s) x (works s) (events s) (calls s).
Definition set_works x (s : t) : t := Build_t (objects s) (sessions_ s) (created s) x (events s) (calls s).
Definition set_events x (s : t) : t := Build_t (objects s) (sessions_ s) (created s) (works s) x (calls s).
Definition set_calls x (s : t) : t := Build_t (objects s) (sessions_ s) (created s) (works s) (events s) x.
Definition log (x : Call) : Js unit := set_own (λ s, set_calls (calls s ++ [x]) s).
Definition on_object (a : nat) (f : Session → Session) : Js unit := set_own (λ s, set_objects (alter f a (objects s)) s).
(** The object at an address. *)
Definition with_object {A} (a : nat) (none : A) (f : Session → Js A) : Js A :=
  let* o := own_ (λ s, objects s !! a) in
  match o with None => ret none | Some o => f o end.

(*@ js/napi/session/src/napi_session.cpp NapiSession::NapiSession *)
Definition make_session (k : NapiSession.Kind V) (params : SessionParams.t) (argc : nat) (w : option W) : Js nat :=
  let* n := own_ created in
  set_own (set_created (n + 1)) ;;;
  let* a := own_ (λ s, length (objects s)) in
  set_own (λ s, set_objects (objects s ++ [NapiSession.new (to_uint32 (n + 1)) k params argc w]) s) ;;;
  ret a.
(*@ js/napi/update/src/session_manager.cpp SessionManager::AddSession *)
Definition AddSession (a : nat) : Js unit :=
  with_object a tt (λ o, set_own (λ s, set_sessions (map_insert (sessionId o) a (sessions_ s)) s)).
(*@ js/napi/update/src/session_manager.cpp SessionManager::RemoveSession *)
Definition RemoveSession (sessionId : Z) : Js unit := set_own (λ s, set_sessions (erase (λ x, x.1 =? sessionId) (sessions_ s)) s).

(** *** Starting work *)
Definition queue_work (a : nat) : Js bool :=
  let* ok := env_ napi_queue_async_work_with_qos in
  (when ok : bool do set_own (λ s, set_works (works s ++ [(a, Queued)]) s)) ;;;
  ret ok.
(*@ js/napi/session/include/base_async_session.h BaseAsyncSession::ReleaseNapiReference *)
Definition ReleaseNapiReference (a : nat) : Js unit := on_object a (set_kind (Async None)).
(** The arguments the caller did not give are [undefined]. *)
Definition argument (args : list V) (i : nat) : V := default napi_get_undefined (args !! i).
(*@ js/napi/session/include/base_async_session.h BaseAsyncSession::StartWork *)
Definition start_async (a : nat) (o : Session) (args : list V) : Js (option V) :=
  let startIndex := SessionParams.callbackStartIndex (sessionParams_ o) in
  if (totalArgc_ o <? startIndex)%nat then ret None
  else
    let callback := argument args startIndex in
    let there := (0 <? totalArgc_ o - startIndex)%nat in
    if there && negb (IsTypeOf callback napi_function =? CLIENT_SUCCESS) then
      log (Thrown (NapiThrowParamError [("callback", "napi_function")])) ;;; ret None
    else
      (when there do on_object a (set_kind (Async (Some callback)))) ;;;
      let* ok := queue_work a in
      if negb ok then ReleaseNapiReference a ;;; ret None else ret (Some (napi_create_int32 0)).
(*@ js/napi/session/include/base_promise_session.h BasePromiseSession::StartWork *)
Definition start_promise (a : nat) : Js (option V) :=
  let* ok := queue_work a in
  ret (if ok : bool then Some (napi_create_promise a) else None).
(** An event type given as a string is only kept for the listeners of older interfaces, which are
    not part of the objects here. *)
(*@ js/napi/update/src/update_session.cpp UpdateListener::StartWork *)
Definition start_listener (a : nat) (o : Session) (args : list V) : Js (option V) :=
  let startIndex := SessionParams.callbackStartIndex (sessionParams_ o) in
  if (totalArgc_ o <=? startIndex)%nat then ret None
  else
    let first := argument args 0 in
    let handler := argument args startIndex in
    let old := match kind o with Listener info _ => info | _ => EventClassifyInfo.default end in
    let (ok, info) :=
      if IsTypeOf first napi_string =? CLIENT_SUCCESS then ((GetString_of (Some first) "").1 =? 0, old)
      else let (r, info) := ClientHelper.GetEventClassifyInfoFromArg first old in (r =? CLIENT_SUCCESS, info) in
    on_object a (set_kind (Listener info None)) ;;;
    if negb ok then ret None
    else if negb (IsTypeOf handler napi_function =? CLIENT_SUCCESS) then ret None
    else
      on_object a (set_kind (Listener info (Some handler))) ;;;
      env_ RegisterCallback ;;;
      ret (Some (napi_create_int32 0)).
(*@ js/napi/session/src/napi_session.cpp NapiSession::StartWork *)
Definition StartWork (a : nat) (args : list V) : Js (option V) :=
  with_object a None (λ o,
    match kind o with
    | Async _ => start_async a o args
    | Promise => start_promise a
    | Listener _ _ => start_listener a o args
    end).
(** With a callback if there is an argument at its place, with a promise if not. *)
(*@ js/napi/update/common/src/iupdater.cpp IUpdater::StartSession *)
Definition StartSession (args : list V) (sessionParams : SessionParams.t) (function : W) : Js (option V) :=
  let argc := length args in
  let* a := make_session (if (SessionParams.callbackStartIndex sessionParams <? argc)%nat then Async None else Promise) sessionParams argc (Some function) in
  AddSession a ;;;
  let* retValue := StartWork a args in
  (when bool_decide (retValue = None) do with_object a tt (λ o, RemoveSession (sessionId o))) ;;;
  log (Returned a retValue) ;;;
  ret retValue.

(** *** Doing the work *)
Definition set_stage (a : nat) (st : Stage) : Js unit := set_own (λ s, set_works (map (λ x, if (x.1 =? a)%nat then (a, st) else x) (works s)) s).
(** On a worker thread, up to the wait. *)
(*@ js/napi/session/src/napi_session.cpp:50-62 NapiSession::ExecuteWork *)
Definition ExecuteWork (a : nat) : Js unit :=
  with_object a tt (λ o,
    match doWorker_ o with
    | None => set_stage a Executed
    | Some w =>
        let need := SessionParams.isNeedBusinessError (sessionParams_ o) in
        let* (r, be) := env_ (run_worker w (if need then Some (businessError_ o) else None)) in
        on_object a (λ o, set_work r (if need then default (businessError_ o) be else businessError_ o) o) ;;;
        set_stage a (if SessionParams.isAsyncCompleteWork (sessionParams_ o) && (r =? CallResult.SUCCESS) then Waiting else Executed)
    end).
(** The wait ends, with an answer or with the time. *)
(*@ js/napi/session/src/napi_session.cpp:62-73 NapiSession::ExecuteWork *)
Definition EndWait (a : nat) : Js unit :=
  on_object a (λ o,
    if asyncExecuteComplete_ o then o
    else set_work (workResult_ o) {| BusinessError.message := BusinessError.message (businessError_ o); BusinessError.errorNum := CallResult.TIME_OUT;
                                     BusinessError.data := BusinessError.data (businessError_ o) |} o) ;;;
  set_stage a Executed.

(** *** Giving the result *)
(*@ js/napi/session/include/base_async_session.h BaseAsyncSession::NotifyJS *)
Definition notify_async (a : nat) (o : Session) (callbackRef : option V) (result : ClientHelper.Result) : Js unit :=
  let businessError := GetBusinessError o in
  let (status, retArgs) :=
    if negb (BusinessError.errorNum businessError =? CallResult.SUCCESS) then
      let (r, e) := BuildBusinessError businessError in (r, [e; None])
    else let (r, v) := ClientHelper.buildJSObject (GetType o) result in (r, [None; v]) in
  if negb (status =? 0) then ret tt
  else
    match callbackRef with
    | None => ret tt
    | Some callback =>
        log (Called a callback retArgs) ;;;
        let* ok := env_ (napi_call_function callback retArgs) in
        when ok : bool do ReleaseNapiReference a
    end.
(*@ js/napi/session/include/base_promise_session.h BasePromiseSession::NotifyJS *)
Definition notify_promise (a : nat) (o : Session) (result : ClientHelper.Result) : Js unit :=
  let businessError := GetBusinessError o in
  if BusinessError.errorNum businessError =? CallResult.SUCCESS then
    log (Resolved a (ClientHelper.buildJSObject (GetType o) result).2)
  else log (Rejected a (BuildBusinessError businessError).2).
(*@ js/napi/update/src/update_session.cpp:27-34 UpdateAsyncession::CompleteWork *)
Definition notify (a : nat) (o : Session) : Js unit :=
  let* result := env_ (gets (GetUpdateResult (GetType o))) in
  match kind o with
  | Async callbackRef => notify_async a o callbackRef result
  | Promise => notify_promise a o result
  | Listener _ _ => ret tt
  end.
(** On the thread of the engine. *)
(*@ js/napi/session/src/napi_session.cpp:82-92 NapiSession::CompleteWork *)
Definition CompleteWork (a : nat) : Js unit :=
  set_own (λ s, set_works (List.filter (λ x, negb (x.1 =? a)%nat) (works s)) s) ;;;
  with_object a tt (λ o, notify a o ;;; RemoveSession (sessionId o)).

(** *** Listeners *)
(*@ js/napi/update/include/update_session.h UpdateListener::IsSubscribeEvent *)
Definition IsSubscribeEvent (info : EventClassifyInfo.t) (o : Session) : bool :=
  match kind o with Listener i _ => EventClassifyInfo.eventClassify i =? EventClassifyInfo.eventClassify info | _ => false end.
(*@ js/napi/update/src/update_session.cpp UpdateListener::IsSameListener *)
Definition IsSameListener (info : EventClassifyInfo.t) (handler : V) (o : Session) : bool :=
  match kind o with
  | Listener i (Some current) => (EventClassifyInfo.eventClassify i =? EventClassifyInfo.eventClassify info) && napi_strict_equals handler current
  | _ => false
  end.
Definition is_listener (o : Session) : bool := GetType o =? SessionType.SESSION_SUBSCRIBE.
(** The objects of the sessions, in the order of the map. *)
Definition session_objects (s : t) : list (nat * Session) := omap (λ x, pair x.2 <$> objects s !! x.2) (sessions_ s).
(*@ js/napi/update/src/session_manager.cpp:184-203 SessionManager::FindSessionByHandle *)
Definition FindSessionByHandle (info : EventClassifyInfo.t) (handler : V) (s : t) : option nat :=
  fst <$> List.find (λ x, is_listener x.2 && IsSameListener info handler x.2) (session_objects s).
(** The sessions [Unsubscribe] erases: of the events, or with this handler. *)
Definition unsubscribed (info : EventClassifyInfo.t) (handle : option V) (o : Session) : bool :=
  is_listener o &&
  (bool_decide (handle = None) && IsSubscribeEvent info o || from_option (λ h, IsSameListener info h o) false handle).
(*@ js/napi/update/src/update_session.cpp UpdateListener::RemoveHandlerRef *)
Definition RemoveHandlerRef (o : Session) : Session :=
  match kind o with Listener i _ => set_kind (Listener i None) o | _ => o end.
(*@ js/napi/update/src/session_manager.cpp:124-155 SessionManager::Unsubscribe *)
Definition Unsubscribe (info : EventClassifyInfo.t) (handle : option V) : Js unit :=
  let* l := own_ session_objects in
  let gone := List.filter (λ x, unsubscribed info handle x.2) l in
  for_each gone (λ x, on_object x.1 RemoveHandlerRef ;;; set_own (λ s, set_sessions (erase (λ y, (y.2 =? x.1)%nat) (sessions_ s)) s)).
(*@ js/napi/update/common/src/iupdater.cpp IUpdater::On *)
Definition On (args : list V) : Js (option V) :=
  if (length args <? 2)%nat then ret None
  else
    let* valid := env_ (gets IsCallerValid) in
    if negb valid then log (Thrown NapiThrowNotSystemAppError) ;;; ret None
    else
      let (r, info) := ClientHelper.GetEventClassifyInfoFromArg (argument args 0) EventClassifyInfo.default in
      if negb (r =? CLIENT_SUCCESS) then log (Thrown (NapiThrowParamError [("eventClassifyInfo", "EventClassifyInfo")])) ;;; ret None
      else
        let* found := own_ (FindSessionByHandle info (argument args 1)) in
        if negb (bool_decide (found = None)) then ret None
        else
          let* a := make_session (Listener EventClassifyInfo.default None) (SessionParams.new SessionType.SESSION_SUBSCRIBE 2 false false) (length args) None in
          AddSession a ;;;
          let* retValue := StartWork a args in
          (when bool_decide (retValue = None) do with_object a tt (λ o, RemoveSession (sessionId o))) ;;;
          ret retValue.
(*@ js/napi/update/common/src/iupdater.cpp IUpdater::Off *)
Definition Off (args : list V) : Js (option V) :=
  let* valid := env_ (gets IsCallerValid) in
  if negb valid then log (Thrown NapiThrowNotSystemAppError) ;;; ret None
  else
    let (r, info) := ClientHelper.GetEventClassifyInfoFromArg (argument args 0) EventClassifyInfo.default in
    if negb (r =? CLIENT_SUCCESS) then log (Thrown (NapiThrowParamError [("eventClassifyInfo", "EventClassifyInfo")])) ;;; ret None
    else if (2 <=? length args)%nat && negb (IsTypeOf (argument args 1) napi_function =? CLIENT_SUCCESS) then
      log (Thrown (NapiThrowParamError [("callback", "napi_function")])) ;;; ret None
    else
      Unsubscribe info (if (2 <=? length args)%nat then Some (argument args 1) else None) ;;;
      env_ UnRegisterCallback ;;;
      ret (Some (napi_create_int32 0)).

(** *** Events *)
(** The class of an event: the first that has a bit in common with its id. *)
(*@ js/napi/update/common/src/iupdater.cpp:135-141 IUpdater::NotifyEventInfo *)
Definition classify_of (eventId : Z) : Z :=
  default EventClassify.TASK (List.find (λ item, negb (Z.land (to_uint32 eventId) (to_uint32 item) =? 0)) g_eventClassifyList).
(*@ js/napi/update/src/session_manager.cpp SessionManager::Emit *)
Definition Emit (info : EventClassifyInfo.t) (eventInfo : EventInfo.t) : Js unit :=
  let* ok := env_ napi_send_event in
  when ok : bool do set_own (λ s, set_events (events s ++ [(info, eventInfo)]) s).
(*@ js/napi/update/common/src/iupdater.cpp IUpdater::NotifyEventInfo *)
Definition NotifyEventInfo (eventInfo : EventInfo.t) : Js unit :=
  Emit (EventClassifyInfo.of_classify (classify_of (EventInfo.eventId eventInfo))) eventInfo.
(*@ js/napi/update/src/update_session.cpp:98-114 UpdateListener::NotifyJS *)
Definition notify_listener (a : nat) (o : Session) (eventInfo : EventInfo.t) : Js unit :=
  let (r, jsEvent) := ClientHelper.BuildEventInfo eventInfo in
  if negb (r =? CLIENT_SUCCESS) then ret tt
  else
    match kind o with
    | Listener _ (Some handler) =>
        log (Called a handler [Some jsEvent]) ;;;
        let* _ := env_ (napi_call_function handler [Some jsEvent]) in
        ret tt
    | _ => ret tt
    end.
(*@ js/napi/update/src/session_manager.cpp SessionManager::PublishToJS *)
Definition PublishToJS (info : EventClassifyInfo.t) (eventInfo : EventInfo.t) : Js unit :=
  let* l := own_ session_objects in
  for_each l (λ x, if is_listener x.2 && IsSubscribeEvent info x.2 then notify_listener x.1 x.2 eventInfo else ret tt).
(** The next task of the thread of the engine. *)
Definition publish_next : Js unit :=
  let* l := own_ events in
  match l with
  | [] => ret tt
  | (info, eventInfo) :: l => set_own (set_events l) ;;; PublishToJS info eventInfo
  end.
(** *** Every interleaving

    JavaScript starts a call, subscribes and unsubscribes; a worker thread does queued work; work that
    waits is answered, or not waited for any longer; the thread of the engine completes work and publishes an event;
    an event arrives; a call is refused with an error; the members of the updater and its environment change;
    other updaters of the process make sessions.  A step says what happened to a call: what the application asked for,
    what the request it made of the service returned, the answer a waiting call was given, the end of its wait, and with which members of the
    updater it was completed. *)
Inductive Outcome :=
  | Asked (args : list V) (params : SessionParams.t) (w : W) | Requested (w : W) (r : Z) (be : option BusinessError.t)
  | Answered (be : BusinessError.t) | WaitOver | Completed (c : C).
(** The request the work of a call is going to make. *)
Definition request_made (a : nat) (s : t * C) : list (nat * Outcome) :=
  match objects s.1 !! a with
  | Some o =>
      match doWorker_ o with
      | Some w =>
          let need := SessionParams.isNeedBusinessError (sessionParams_ o) in
          let (r, be) := eval (run_worker w (if need then Some (businessError_ o) else None)) s.2 in
          [(a, Requested w r (if need then be else None))]
      | None => []
      end
  | None => []
  end.
Inductive labelled : t * C → list (nat * Outcome) → t * C → Prop :=
  | on_start s args params w : SessionParams.type params ≠ SessionType.SESSION_SUBSCRIBE →
      labelled s [(length (objects s.1), Asked args params w)] (exec (StartSession args params w) s)
  | on_on s args : labelled s [] (exec (On args) s)
  | on_off s args : labelled s [] (exec (Off args) s)
  | on_execute s a : (a, Queued) ∈ works s.1 → labelled s (request_made a s) (exec (ExecuteWork a) s)
  | on_answer s a be : (a, Waiting) ∈ works s.1 → labelled s [(a, Answered be)] (exec (on_object a (OnAsyncComplete be)) s)
  | on_wait s a : (a, Waiting) ∈ works s.1 → labelled s [(a, WaitOver)] (exec (EndWait a) s)
  | on_complete s a : (a, Executed) ∈ works s.1 → labelled s [(a, Completed s.2)] (exec (CompleteWork a) s)
  | on_event s eventInfo : labelled s [] (exec (NotifyEventInfo eventInfo) s)
  | on_publish s : labelled s [] (exec publish_next s)
  | on_thrown s error : labelled s [] (exec (log (Thrown error)) s)
  | on_client s c : labelled s [] (s.1, c)
  | on_other s n : 0 ≤ n → labelled s [] (set_created (created s.1 + n) s.1, s.2).
Definition step (p p' : t * C) : Prop := ∃ l, labelled p l p'.
(** A run from the beginning, and what happened in it. *)
Inductive course (c : C) : list (nat * Outcome) → t * C → Prop :=
  | course_begin : course c [] (initial, c)
  | course_go h l p p' : course c h p → labelled p l p' → course c (h ++ l) p'.

Lemma step_start s args params w : SessionParams.type params ≠ SessionType.SESSION_SUBSCRIBE → step s (exec (StartSession args params w) s).
Proof. eexists. by apply on_start. Qed.
Lemma step_on s args : step s (exec (On args) s).
Proof. eexists. apply on_on. Qed.
Lemma step_off s args : step s (exec (Off args) s).
Proof. eexists. apply on_off. Qed.
Lemma step_execute s a : (a, Queued) ∈ works s.1 → step s (exec (ExecuteWork a) s).
Proof. eexists. by apply on_execute. Qed.
Lemma step_wait s a : (a, Waiting) ∈ works s.1 → step s (exec (EndWait a) s).
Proof. eexists. by apply on_wait. Qed.
Lemma step_complete s a : (a, Executed) ∈ works s.1 → step s (exec (CompleteWork a) s).
Proof. eexists. by apply on_complete. Qed.
Lemma step_event s eventInfo : step s (exec (NotifyEventInfo eventInfo) s).
Proof. eexists. apply on_event. Qed.
Lemma step_thrown s error : step s (exec (log (Thrown error)) s).
Proof. eexists. apply on_thrown. Qed.
Lemma step_client s c : step s (s.1, c).
Proof. eexists. apply on_client. Qed.
(** Every run of steps has a history, which goes on with it. *)
Lemma course_star c h p p' : course c h p → star step p p' → ∃ h', course c (h ++ h') p'.
Proof.
  intros Hc Hs. revert h Hc. induction Hs as [p|p q p' [l Hl] _ IH]; intros h Hc; [exists []; by rewrite app_nil_r|].
  destruct (IH (h ++ l)) as (h' & Hh'); [by econstructor|]. exists (l ++ h'). by rewrite app_assoc.
Qed.
End ops.
Arguments Outcome : clear implicits.
Arguments Call : clear implicits.
Arguments t : clear implicits.
End SessionManager.
