(* ===== verification/JsSessionFacts.v ===== *)
(** * Calls from JavaScript: what holds in every interleaving

    Proves of the sessions of [JsSession]: an invariant of the reachable states, and from it
    that work never outlives its object, that every call is answered exactly once, and that the
    listeners implement a list of handlers ([subscriptions_refined]). *)
From Stdlib Require Import ZArith Lia Ascii String Sorted.
From stdpp Require Import base tactics list strings sets.
From S2P Require Import Prelude CppString Models Access Napi JsArgs JsSession.

#[local] Open Scope Z_scope.

Module Sessions.
Import SessionManager.
Section facts.
Context {V C W : Type} `{NapiLaws V, JsEngine V C, Updater C W, TokenKits C}.
#[local] Notation T := (SessionManager.t V W).
Import NapiSession NapiCommonUtils ClientStatus.
#[local] Notation Session := (NapiSession.t V W).
Implicit Types (s : T) (c : C) (o : Session) (a b : nat) (x : Call V).

(** *** Objects and traces *)
Definition is_request o : Prop := match kind o with Listener _ _ => False | _ => True end.
(** Work can be completed. *)
Definition ready o : Prop := match kind o with Async f => is_Some f | Promise => True | Listener _ _ => False end.
Definition session_of x : option nat :=
  match x with Returned a _ | Called a _ _ | Resolved a _ | Rejected a _ => Some a | Thrown _ => None end.
Definition of_session a (l : list (Call V)) : list (Call V) := filter (λ x, session_of x = Some a) l.
(** The call that ends a session: a result for its type, or its error. *)
Definition answers a o x : Prop :=
  let e := GetBusinessError o in
  if BusinessError.errorNum e =? CallResult.SUCCESS then
    ∃ c : C, let v := (ClientHelper.buildJSObject (GetType o) (GetUpdateResult (GetType o) c)).2 in
      match kind o with Async _ => ∃ f, x = Called a f [None; v] | Promise => x = Resolved a v | Listener _ _ => False end
  else ∃ v, (BuildBusinessError e).2 = Some v ∧
      match kind o with Async _ => ∃ f, x = Called a f [Some v; None] | Promise => x = Rejected a (Some v) | Listener _ _ => False end.
Definition trace_ok s a o : Prop :=
  (a ∈ (works s).*1 ∧ ∃ v, of_session a (calls s) = [Returned a (Some v)]) ∨
  (a ∉ (works s).*1 ∧
     (of_session a (calls s) = [Returned a None] ∨ ∃ v x, of_session a (calls s) = [Returned a (Some v); x] ∧ answers a o x)).
Definition handler_of o : option (Z * V) :=
  match kind o with Listener i (Some f) => Some (EventClassifyInfo.eventClassify i, f) | _ => None end.
(** The listeners in the map, by the class of their events. *)
Definition handlers s : list (Z * V) := omap (λ y, handler_of y.2) (session_objects s).

Record inv s : Prop := {
  inv_created : 0 ≤ created s;
  inv_ids a o : objects s !! a = Some o → sessionId o ≤ created s;
  inv_order a b o o' : (a < b)%nat → objects s !! a = Some o → objects s !! b = Some o' → sessionId o < sessionId o';
  inv_entries id a : (id, a) ∈ sessions_ s → ∃ o, objects s !! a = Some o ∧ sessionId o = id;
  inv_sorted : StronglySorted (λ y z, y.1 < z.1) (sessions_ s);
  inv_kinds a o : objects s !! a = Some o → is_listener o = true ↔ ¬ is_request o;
  inv_works : NoDup (works s).*1;
  inv_alive a : a ∈ (works s).*1 → a ∈ (sessions_ s).*2 ∧ ∃ o, objects s !! a = Some o ∧ ready o;
  inv_started a o : a ∈ (sessions_ s).*2 → objects s !! a = Some o → is_request o → a ∈ (works s).*1;
  inv_traces a o : objects s !! a = Some o → is_request o → trace_ok s a o;
  inv_later a : (length (objects s) ≤ a)%nat → of_session a (calls s) = [];
  inv_handlers a o : a ∈ (sessions_ s).*2 → objects s !! a = Some o → is_listener o = true →
    ∃ i f, kind o = Listener i (Some f) ∧ napi_typeof f = napi_function;
  inv_distinct : NoDup (handlers s)
}.
Lemma filter_sorted (P : Z * nat → bool) l : StronglySorted (λ y z, y.1 < z.1) l → StronglySorted (λ y z, y.1 < z.1) (List.filter P l).
Proof.
  induction 1 as [|y l Hl IH Hy]; cbn; [constructor|]. destruct (P y); [|done]. constructor; [done|]. apply Forall_forall. intros z Hz.
  rewrite Forall_forall in Hy. apply Hy. apply list_elem_of_In, List.filter_In in Hz as [Hz _]. by apply list_elem_of_In.
Qed.
Lemma filter_fst_NoDup {B} (P : nat * B → bool) (l : list (nat * B)) : NoDup l.*1 → NoDup (List.filter P l).*1.
Proof.
  intros Hnd. induction l as [|y l IH]; [constructor|]. rewrite fmap_cons in Hnd. apply NoDup_cons in Hnd as [Hy Hnd]. cbn.
  destruct (P y); [|by apply IH]. rewrite fmap_cons. apply NoDup_cons. split; [|by apply IH].
  intros (z & Hz & Hin)%list_elem_of_fmap. apply Hy. rewrite Hz. apply list_elem_of_fmap_2. apply list_elem_of_In, List.filter_In in Hin as [Hin _]. by apply list_elem_of_In.
Qed.
Lemma of_session_app a l l' : of_session a (l ++ l') = of_session a l ++ of_session a l'.
Proof. apply filter_app. Qed.
Lemma of_session_none a l : Forall (λ x, session_of x ≠ Some a) l → of_session a l = [].
Proof. unfold of_session. induction 1; [done|]. by rewrite filter_cons, decide_False. Qed.
Lemma alter_last {A} (f : A → A) (l : list A) (y : A) : alter f (length l) (l ++ [y]) = l ++ [f y].
Proof. induction l as [|z l IH]; [done|]. cbn. f_equal. exact IH. Qed.
Lemma lookup_last {A} (l : list A) (y : A) : (l ++ [y]) !! length l = Some y.
Proof. by apply list_lookup_middle. Qed.
Lemma map_insert_last k p l : Forall (λ y, y.1 < k) l → map_insert k p l = l ++ [(k, p)].
Proof.
  induction 1 as [|[k' p'] l Hk _ IH]; [done|]. cbn in *. rewrite IH.
  destruct (Z.ltb_spec k k'); [lia|]. by destruct (Z.eqb_spec k k'); [lia|].
Qed.
Lemma erase_last k p l : Forall (λ y, y.1 < k) l → erase (λ y, y.1 =? k) (l ++ [(k, p)]) = l.
Proof.
  intros Hl. unfold erase. rewrite List.filter_app. cbn. rewrite Z.eqb_refl. cbn. rewrite app_nil_r.
  induction Hl as [|y l Hy _ IH]; [done|]. cbn. rewrite (proj2 (Z.eqb_neq _ _)) by lia. cbn. by rewrite IH.
Qed.
Lemma keys_below s : inv s → Forall (λ y, y.1 < created s + 1) (sessions_ s).
Proof.
  intros Hs. apply Forall_forall. intros [id a] Hy. destruct (inv_entries _ Hs _ _ Hy) as (o & Ho & <-). cbn.
  pose proof (inv_ids _ Hs _ _ Ho). lia.
Qed.

(** *** What starting a session does *)
Lemma wp_with_object {A} a o (none : A) f s c Q :
  objects s !! a = Some o → wp (f o) (s, c) Q → wp (with_object (W := W) a none f) (s, c) Q.
Proof. intros Ho Hf. unfold with_object. apply wp_bind, wp_own_. cbn [fst]. by rewrite Ho. Qed.
Lemma wp_queue_work a s c Q :
  (∀ c', Q true (set_works (works s ++ [(a, Queued)]) s, c')) → (∀ c', Q false (s, c')) → wp (queue_work (W := W) a) (s, c) Q.
Proof.
  intros Ht Hf. unfold queue_work. apply wp_bind, wp_env_, wp_any. intros [] c'; apply wp_bind.
  - apply wp_set_own, wp_ret, Ht.
  - apply wp_ret, wp_ret, Hf.
Qed.
Definition thrown (l : list (Call V)) : Prop := Forall (λ x, session_of x = None) l.
(** A session for a call with these arguments. *)
Definition made_for (args : list V) params (w : W) o : Prop :=
  sessionParams_ o = params ∧ doWorker_ o = Some w ∧
  let i := SessionParams.callbackStartIndex params in
  match kind o with
  | Async f => (i < length args)%nat ∧ (f = None ∨ f = Some (argument args i))
  | Promise => (length args ≤ i)%nat
  | Listener _ _ => False
  end.
Definition fresh o : Prop := workResult_ o = CallResult.SUCCESS ∧ businessError_ o = BusinessError.default ∧ asyncExecuteComplete_ o = false.
Lemma made_request args params w o : made_for args params w o → is_request o.
Proof. intros (_ & _ & Hk). unfold is_request. by destruct (kind o). Qed.
(** A new session with its work in the queue, or one that could not be started. *)
Definition started s s' (r : option V) (args : list V) params (w : W) : Prop :=
  let a := length (objects s) in
  ∃ o l, sessionId o = created s + 1 ∧ made_for args params w o ∧ fresh o ∧ thrown l ∧
    ((∃ v, r = Some v ∧ ready o ∧
        s' = make (objects s ++ [o]) (sessions_ s ++ [(created s + 1, a)]) (created s + 1) (works s ++ [(a, Queued)]) (events s)
               (calls s ++ l ++ [Returned a (Some v)])) ∨
     (r = None ∧
        s' = make (objects s ++ [o]) (sessions_ s) (created s + 1) (works s) (events s) (calls s ++ l ++ [Returned a None]))).
(** After [StartWork] of the session just added. *)
Definition work_started s o' args params (w : W) (r : option V) s' : Prop :=
  let a := length (objects s) in
  ∃ o l, sessionId o = sessionId o' ∧ made_for args params w o ∧ fresh o ∧ thrown l ∧
    ((∃ v, r = Some v ∧ ready o ∧
        s' = make (objects s ++ [o]) (sessions_ s ++ [(created s + 1, a)]) (created s + 1) (works s ++ [(a, Queued)]) (events s) (calls s ++ l)) ∨
     (r = None ∧
        s' = make (objects s ++ [o]) (sessions_ s ++ [(created s + 1, a)]) (created s + 1) (works s) (events s) (calls s ++ l))).
Lemma wp_start_async args params w o s c :
  totalArgc_ o = length args → kind o = Async None → made_for args params w o → fresh o →
  wp (start_async (W := W) (length (objects s)) o args)
     (make (objects s ++ [o]) (sessions_ s ++ [(created s + 1, length (objects s))]) (created s + 1) (works s) (events s) (calls s), c)
     (λ r p, work_started s o args params w r p.1).
Proof.
  intros Hargc Hkind Hmade Hfresh. pose proof Hmade as (Hparams & Hwork & Hk). rewrite Hkind in Hk. destruct Hk as [Hidx _].
  unfold start_async. rewrite Hargc, Hparams, (proj2 (Nat.ltb_ge _ _)) by lia. rewrite (proj2 (Nat.ltb_lt 0 _)) by lia. cbn [andb].
  destruct (negb _).
  - apply wp_bind, wp_set_own, wp_ret. exists o, [Thrown (NapiThrowParamError [("callback", "napi_function")])].
    split_and!; [done|done|done|by constructor|]. right. by split.
  - apply wp_bind, wp_set_own, wp_bind, wp_queue_work; intros c'; cbn [fst snd negb].
    + apply wp_ret. exists (set_kind (Async (Some (argument args (SessionParams.callbackStartIndex params)))) o), [].
      rewrite app_nil_r. split_and!; [done| |done|by constructor|].
      { split; [done|]. split; [done|]. cbn. split; [done|by right]. }
      left. eexists. split; [reflexivity|]. split; [by eexists|].
      unfold set_works, set_objects, make. cbn. by rewrite alter_last.
    + apply wp_bind, wp_set_own, wp_ret. exists (set_kind (Async None) o), []. rewrite app_nil_r.
      split_and!; [done| |done|by constructor|].
      { split; [done|]. split; [done|]. cbn. split; [done|by left]. }
      right. split; [done|]. unfold set_objects, make. cbn. by rewrite !alter_last.
Qed.
Lemma wp_start_promise args params w o s c :
  kind o = Promise → made_for args params w o → fresh o →
  wp (start_promise (W := W) (length (objects s)))
     (make (objects s ++ [o]) (sessions_ s ++ [(created s + 1, length (objects s))]) (created s + 1) (works s) (events s) (calls s), c)
     (λ r p, work_started s o args params w r p.1).
Proof.
  intros Hkind Hmade Hfresh. unfold start_promise. apply wp_bind, wp_queue_work; intros c'; apply wp_ret; exists o, []; rewrite app_nil_r;
    (split_and!; [done|done|done|by constructor|]); [left|right; by split].
  eexists. split; [reflexivity|]. split; [by unfold ready; rewrite Hkind|done].
Qed.
Lemma wp_StartSession args params (w : W) s c :
  inv s → created s + 1 < 2 ^ 32 →
  wp (StartSession args params w) (s, c) (λ r p, started s p.1 r args params w).
Proof.
  intros Hs Hcreated. pose proof (inv_created _ Hs) as Hnonneg. unfold StartSession. set (k := if (_ <? _)%nat then _ else _).
  set (o := NapiSession.new (created s + 1) k params (length args) (Some w)).
  assert (made_for args params w o) as Hmade.
  { split; [done|]. split; [done|]. cbn. unfold k. destruct (Nat.ltb_spec (SessionParams.callbackStartIndex params) (length args)); [split; [done|by left]|done]. }
  unfold make_session. apply wp_bind, wp_bind, wp_own_, wp_bind, wp_set_own, wp_bind, wp_own_, wp_bind, wp_set_own, wp_ret. cbn [fst snd].
  rewrite to_uint32_id by (unfold_widths; lia). fold o. cbn [set_created set_objects objects].
  apply wp_bind. eapply wp_with_object; [apply lookup_last|]. apply wp_set_own. cbn [fst snd].
  rewrite map_insert_last by (cbn; by apply keys_below). cbn [set_sessions sessionId o NapiSession.new].
  apply wp_bind. eapply (wp_mono _ _ (λ r p, work_started s o args params w r p.1)).
  - intros r [s' c'] (o' & l & Hid & Htype & Hfresh & Hl & Hcase). cbn [fst] in Hcase. destruct Hcase as [(v & -> & Hready & ->)|[-> ->]].
    + apply wp_bind, wp_ret, wp_bind, wp_set_own, wp_ret. exists o', l. split_and!; [done..|]. left. exists v. split_and!; [done..|].
      unfold set_calls, make. cbn. by rewrite <- app_assoc.
    + apply wp_bind. cbn [bool_decide]. rewrite bool_decide_eq_true_2 by done. eapply wp_with_object; [apply lookup_last|].
      apply wp_set_own, wp_bind, wp_set_own, wp_ret. exists o', l. split_and!; [done..|]. right. split; [done|]. cbn [fst].
      unfold set_sessions, set_calls, make. cbn [objects sessions_ created works events calls]. rewrite Hid. cbn [o NapiSession.new sessionId]. rewrite erase_last by (by apply keys_below).
      by rewrite <- app_assoc.
  - unfold StartWork. eapply wp_with_object; [apply lookup_last|]. cbn [kind o NapiSession.new]. unfold k at 1.
    destruct (Nat.ltb_spec (SessionParams.callbackStartIndex params) (length args)) as [Hlt|Hge].
    + by apply wp_start_async.
    + by apply wp_start_promise.
Qed.

(** *** A session is added *)
Lemma entry_object s id a : inv s → (id, a) ∈ sessions_ s → ∃ o, objects s !! a = Some o ∧ sessionId o = id ∧ (a < length (objects s))%nat.
Proof. intros Hs Hin. destruct (inv_entries _ Hs _ _ Hin) as (o & Ho & Hid). exists o. split_and!; [done..|]. by apply lookup_lt_Some in Ho. Qed.
Lemma in_map_lt s a : inv s → a ∈ (sessions_ s).*2 → (a < length (objects s))%nat.
Proof. intros Hs ([id a'] & -> & Hin)%list_elem_of_fmap. by destruct (entry_object _ _ _ Hs Hin) as (o & _ & _ & ?). Qed.
Lemma session_objects_ext s s' :
  sessions_ s' = sessions_ s → (∀ a, a ∈ (sessions_ s).*2 → objects s' !! a = objects s !! a) → session_objects s' = session_objects s.
Proof.
  unfold session_objects. intros ->. intros Hext. apply list_omap_ext, Forall2_same_length_lookup_2; [done|]. intros i y z Hy Hz.
  assert (y = z) as -> by congruence. rewrite Hext; [done|]. apply list_elem_of_fmap. exists z. split; [done|]. by apply list_elem_of_lookup_2 in Hz.
Qed.
Definition option_sessions s (in_map : bool) : list (Z * nat) := if in_map then [(created s + 1, length (objects s))] else [].
Definition option_works s (in_works : bool) : list (nat * Stage) := if in_works then [(length (objects s), Queued)] else [].
Definition with_session s o (in_map in_works : bool) l : T :=
  make (objects s ++ [o]) (sessions_ s ++ option_sessions s in_map) (created s + 1) (works s ++ option_works s in_works) (events s) (calls s ++ l).
Lemma handlers_with_session s o (in_map in_works : bool) l :
  inv s → handlers (with_session s o in_map in_works l) = handlers s ++ (if in_map then option_list (handler_of o) else []).
Proof.
  intros Hs. unfold handlers, session_objects, with_session. cbn [objects sessions_ make]. rewrite !omap_app. f_equal.
  - f_equal. apply list_omap_ext, Forall2_same_length_lookup_2; [done|]. intros i y z Hy Hz.
    assert (y = z) as -> by congruence. rewrite lookup_app_l; [done|]. apply (in_map_lt s); [done|]. apply list_elem_of_fmap. exists z.
    split; [done|]. by apply list_elem_of_lookup_2 in Hz.
  - unfold option_sessions. destruct in_map; [|done]. cbn. rewrite lookup_last. cbn. by destruct (handler_of o).
Qed.
Lemma sorted_snoc {A} (R : A → A → Prop) (l : list A) (y : A) : StronglySorted R l → Forall (λ z, R z y) l → StronglySorted R (l ++ [y]).
Proof.
  induction 1 as [|z l Hl IH Hz]; intros Hy; cbn; [by repeat constructor|]. apply Forall_cons in Hy as [Hzy Hy]. constructor; [by apply IH|].
  apply Forall_app. split; [done|by constructor].
Qed.
Record addable s o (in_map in_works : bool) (l : list (Call V)) : Prop := {
  add_id : sessionId o = created s + 1;
  add_kind : is_listener o = true ↔ ¬ is_request o;
  add_others b : b ≠ length (objects s) → of_session b l = [];
  add_works : in_works = true → in_map = true ∧ ready o;
  add_map : in_map = true → is_request o → in_works = true;
  add_trace : is_request o →
    (in_works = true ∧ ∃ v, of_session (length (objects s)) l = [Returned (length (objects s)) (Some v)]) ∨
    (in_works = false ∧ of_session (length (objects s)) l = [Returned (length (objects s)) None]);
  add_handler : in_map = true → is_listener o = true →
    ∃ i f, kind o = Listener i (Some f) ∧ napi_typeof f = napi_function ∧ (EventClassifyInfo.eventClassify i, f) ∉ handlers s
}.
Lemma lookup_snoc {A} (l : list A) (y z : A) i : (l ++ [y]) !! i = Some z → l !! i = Some z ∨ i = length l ∧ z = y.
Proof.
  intros [Hi|[Hi Hz]]%lookup_app_Some; [by left|right]. apply list_lookup_singleton_Some in Hz as [Hz <-]. split; [lia|done].
Qed.
Lemma ready_request o : ready o → is_request o.
Proof. unfold ready, is_request. by destruct (kind o). Qed.
Lemma inv_add s o in_map in_works l : inv s → addable s o in_map in_works l → inv (with_session s o in_map in_works l).
Proof.
  intros Hs Ha. set (n := length (objects s)) in *. pose proof (inv_created _ Hs). pose proof (keys_below _ Hs) as Hkeys.
  assert (n ∉ (sessions_ s).*2) as Hn by (intros Hin%(in_map_lt _ _ Hs); lia).
  assert (n ∉ (works s).*1) as Hnw by (intros [Hin _]%(inv_alive _ Hs); done).
  assert (∀ a, a ∈ (sessions_ s ++ option_sessions s in_map).*2 ↔ a ∈ (sessions_ s).*2 ∨ in_map = true ∧ a = n) as Hmem.
  { intros a. unfold option_sessions. rewrite fmap_app, elem_of_app. destruct in_map; cbn; set_solver. }
  assert (∀ a, a ∈ (works s ++ option_works s in_works).*1 ↔ a ∈ (works s).*1 ∨ in_works = true ∧ a = n) as Hwork.
  { intros a. unfold option_works. rewrite fmap_app, elem_of_app. destruct in_works; cbn; set_solver. }
  assert (∀ a, a ≠ n → of_session a (calls s ++ l) = of_session a (calls s)) as Hcalls.
  { intros a Hne. rewrite of_session_app, (add_others _ _ _ _ _ Ha) by done. by rewrite app_nil_r. }
  assert (∀ a, a ∈ (sessions_ s).*2 → a ≠ n) as Hne by (intros a Hin ->; done).
  split; unfold with_session; cbn [objects sessions_ created works events calls make].
  - lia.
  - intros a o' [Ho|[-> ->]]%lookup_snoc; [pose proof (inv_ids _ Hs _ _ Ho); lia|]. rewrite (add_id _ _ _ _ _ Ha). lia.
  - intros a b o1 o2 Hab [Ho1|[-> ->]]%lookup_snoc [Ho2|[-> ->]]%lookup_snoc.
    + by apply (inv_order _ Hs a b).
    + rewrite (add_id _ _ _ _ _ Ha). pose proof (inv_ids _ Hs _ _ Ho1). lia.
    + apply lookup_lt_Some in Ho2. lia.
    + lia.
  - intros id a [Hin|Hin]%elem_of_app.
    + destruct (entry_object _ _ _ Hs Hin) as (o' & Ho' & Hid & Hlt). exists o'. by rewrite lookup_app_l.
    + unfold option_sessions in Hin. destruct in_map; [|by apply elem_of_nil in Hin]. apply list_elem_of_singleton in Hin as [= -> ->].
      exists o. split; [apply lookup_last|apply (add_id _ _ _ _ _ Ha)].
  - unfold option_sessions. destruct in_map; [|rewrite app_nil_r; by apply inv_sorted]. apply sorted_snoc; [by apply inv_sorted|done].
  - intros a o' [Ho|[-> ->]]%lookup_snoc; [by apply (inv_kinds _ Hs a)|apply (add_kind _ _ _ _ _ Ha)].
  - rewrite fmap_app. apply NoDup_app. split; [by apply inv_works|]. unfold option_works. destruct in_works; cbn; [|split; [set_solver|constructor]].
    split; [|apply NoDup_singleton]. intros a Hin ->%list_elem_of_singleton. done.
  - intros a [Hin|[Hw ->]]%Hwork.
    + destruct (inv_alive _ Hs _ Hin) as (Hmap & o' & Ho' & Hr). split; [apply Hmem; by left|]. exists o'. split; [|done].
      rewrite lookup_app_l; [done|]. by apply lookup_lt_Some in Ho'.
    + destruct (add_works _ _ _ _ _ Ha Hw) as [Hm Hr]. split; [apply Hmem; by right|]. exists o. split; [apply lookup_last|done].
  - intros a o' Hin Ho' Hr. apply Hwork. apply lookup_snoc in Ho' as [Ho'|[-> ->]]; apply Hmem in Hin as [Hin|[Hm Heq]].
    + left. by apply (inv_started _ Hs a o').
    + subst a. apply lookup_lt_Some in Ho'. unfold n in Ho'. lia.
    + done.
    + right. split; [|done]. by apply (add_map _ _ _ _ _ Ha).
  - intros a o' Ho' Hr. unfold trace_ok. cbn [works calls make]. apply lookup_snoc in Ho' as [Ho'|[-> ->]].
    + assert (a ≠ n) as Hane by (apply lookup_lt_Some in Ho'; unfold n; lia). rewrite Hcalls, Hwork by done.
      destruct (inv_traces _ Hs _ _ Ho' Hr) as [[Hw Ht]|[Hw Ht]]; [left; split; [by left|done]|right]. split; [|done]. intros [?|[_ ?]]; done.
    + fold n. rewrite of_session_app, (inv_later _ Hs n) by done. rewrite Hwork. destruct (add_trace _ _ _ _ _ Ha Hr) as [[Hw Ht]|[Hw Ht]]; fold n in Ht; cbn [app].
      * left. split; [by right|exact Ht].
      * right. split; [|by left]. intros [?|[? _]]; [done|congruence].
  - intros a. rewrite length_app. cbn. intros Hge. rewrite Hcalls by (unfold n; lia). apply (inv_later _ Hs). lia.
  - intros a o' Hin Ho' Hl. apply lookup_snoc in Ho' as [Ho'|[-> ->]]; apply Hmem in Hin as [Hin|[Hm Heq]].
    + by apply (inv_handlers _ Hs a o').
    + subst a. apply lookup_lt_Some in Ho'. unfold n in Ho'. lia.
    + done.
    + destruct (add_handler _ _ _ _ _ Ha Hm Hl) as (i & f & Hk & Hf & _). by exists i, f.
  - fold (with_session s o in_map in_works l). rewrite handlers_with_session by done. apply NoDup_app. split; [by apply inv_distinct|].
    destruct in_map; [|split; [set_solver|constructor]]. destruct (handler_of o) as [h|] eqn:Hh; cbn; [|split; [set_solver|constructor]].
    split; [|apply NoDup_singleton]. intros y Hy ->%list_elem_of_singleton. destruct (is_listener o) eqn:Hl.
    + destruct (add_handler _ _ _ _ _ Ha eq_refl Hl) as (i & f & Hk & _ & Hnot). unfold handler_of in Hh. rewrite Hk in Hh. injection Hh as <-. done.
    + pose proof (add_kind _ _ _ _ _ Ha) as Hkind. unfold handler_of, is_request in *. destruct (kind o); try done. destruct Hkind as [_ Hkind]. rewrite Hkind in Hl; [done|auto].
Qed.
Lemma inv_session_started s s' r args params w : inv s → SessionParams.type params ≠ SessionType.SESSION_SUBSCRIBE → started s s' r args params w → inv s'.
Proof.
  intros Hs Htype (o & l & Hid & Hmade & _ & Hl & Hcase). pose proof (made_request _ _ _ _ Hmade) as Hreq.
  assert (is_listener o = true ↔ ¬ is_request o) as Hkind.
  { unfold is_listener, GetType. rewrite (proj1 Hmade). split; [intros ?%Z.eqb_eq; done|done]. }
  assert (∀ b x, session_of x = Some (length (objects s)) → b ≠ length (objects s) → of_session b (l ++ [x]) = []) as Hother.
  { intros b x Hx Hb. apply of_session_none, Forall_app. split; [|constructor; [congruence|constructor]].
    eapply Forall_impl; [exact Hl|]. cbn. intros y Hy. congruence. }
  assert (∀ x, session_of x = Some (length (objects s)) → of_session (length (objects s)) (l ++ [x]) = [x]) as Hown.
  { intros x Hx. rewrite of_session_app, of_session_none by (eapply Forall_impl; [exact Hl|]; cbn; intros y Hy; congruence).
    unfold of_session. rewrite filter_cons_True by done. done. }
  destruct Hcase as [(v & _ & Hready & ->)|[_ ->]].
  - apply (inv_add s o true true); [done|]. split; [done|done|intros b; by apply Hother|done|done| |].
    + intros _. left. split; [done|]. exists v. by apply Hown.
    + intros _ Hl'. by apply Hkind in Hl'.
  - pose proof (inv_add s o false false (l ++ [Returned (length (objects s)) None]) Hs) as Hadd.
    unfold with_session, option_sessions, option_works in Hadd. rewrite !app_nil_r in Hadd. apply Hadd.
    split; [done|done|intros b; by apply Hother|done|done| |done]. intros _. right. split; [done|]. by apply Hown.
Qed.

(** *** Subscribing *)
(** What a call of [on] asks for: events of a class to be given to a function. *)
Definition on_request c (args : list V) : option (Z * V) :=
  let (r, info) := ClientHelper.GetEventClassifyInfoFromArg (argument args 0) EventClassifyInfo.default in
  if ((2 <=? length args)%nat && IsCallerValid c && (r =? CLIENT_SUCCESS) && bool_decide (napi_typeof (argument args 1) = napi_function))
  then Some (EventClassifyInfo.eventClassify info, argument args 1) else None.
Lemma IsTypeOf_spec (v : V) type : IsTypeOf v type = CLIENT_SUCCESS ↔ napi_typeof v = type.
Proof. unfold IsTypeOf. destruct (bool_decide_reflect (napi_typeof v = type)); cbn; naive_solver. Qed.
Lemma elem_of_session_objects s a o : (a, o) ∈ session_objects s ↔ a ∈ (sessions_ s).*2 ∧ objects s !! a = Some o.
Proof.
  unfold session_objects. rewrite list_elem_of_omap. split.
  - intros ([id a'] & Hin & Heq). cbn in Heq. destruct (objects s !! a') as [o'|] eqn:Ho; [|done]. injection Heq as -> ->.
    split; [|done]. apply list_elem_of_fmap. by exists (id, a).
  - intros [([id a'] & -> & Hin)%list_elem_of_fmap Ho]. cbn [snd] in *. exists (id, a'). cbn. by rewrite Ho.
Qed.
Lemma elem_of_handlers s h : h ∈ handlers s ↔ ∃ a o, a ∈ (sessions_ s).*2 ∧ objects s !! a = Some o ∧ handler_of o = Some h.
Proof.
  unfold handlers. rewrite list_elem_of_omap. split.
  - intros ([a o] & [Ha Ho]%elem_of_session_objects & Hh). by exists a, o.
  - intros (a & o & Ha & Ho & Hh). exists (a, o). by rewrite elem_of_session_objects.
Qed.
Lemma same_listener info f o i g : kind o = Listener i (Some g) → napi_typeof g = napi_function →
  IsSameListener info f o = true ↔ EventClassifyInfo.eventClassify i = EventClassifyInfo.eventClassify info ∧ f = g.
Proof.
  intros Hk Hg. unfold IsSameListener. rewrite Hk, andb_true_iff, Z.eqb_eq. by rewrite (equals_spec f g Hg).
Qed.
Lemma FindSessionByHandle_spec s info f : inv s →
  FindSessionByHandle info f s ≠ None ↔ (EventClassifyInfo.eventClassify info, f) ∈ handlers s.
Proof.
  intros Hs. unfold FindSessionByHandle. set (P := λ x : nat * Session, _). split.
  - destruct (List.find P (session_objects s)) as [[a o]|] eqn:Hfind; [|done]. intros _. apply List.find_some in Hfind as [Hin Hp].
    apply list_elem_of_In, elem_of_session_objects in Hin as [Ha Ho]. unfold P in Hp. cbn in Hp. apply andb_true_iff in Hp as [Hl Hsame].
    destruct (inv_handlers _ Hs _ _ Ha Ho Hl) as (i & g & Hk & Hg). destruct (proj1 (same_listener info f o i g Hk Hg) Hsame) as [Hi ->].
    apply elem_of_handlers. exists a, o. unfold handler_of. by rewrite Hk, Hi.
  - intros (a & o & Ha & Ho & Hh)%elem_of_handlers Hnone. destruct (List.find P (session_objects s)) eqn:Hfind; [done|].
    pose proof (List.find_none _ _ Hfind (a, o)) as Hp. rewrite <- list_elem_of_In, elem_of_session_objects in Hp. specialize (Hp (conj Ha Ho)).
    unfold handler_of in Hh. destruct (kind o) as [| |i [g|]] eqn:Hk; try done. injection Hh as Hi Hgf. subst g.
    assert (is_listener o = true) as Hl by (apply (inv_kinds _ Hs a); [done|unfold is_request; rewrite Hk; by intros []]).
    destruct (inv_handlers _ Hs _ _ Ha Ho Hl) as (i' & g' & Hk' & Hg). rewrite Hk in Hk'. injection Hk' as <- <-.
    unfold P in Hp. cbn in Hp. rewrite Hl in Hp. cbn in Hp. assert (IsSameListener info f o = true) as Ht by (by apply (same_listener info f o i f Hk Hg)). congruence.
Qed.
(** The listener [On] makes. *)
Definition listener_of s (info : EventClassifyInfo.t) (handler : option V) argc : Session :=
  NapiSession.new (created s + 1) (Listener info handler) (SessionParams.new SessionType.SESSION_SUBSCRIBE 2 false false) argc None.
Definition on_outcome s c (args : list V) (r : option V) s' : Prop :=
  match on_request c args with
  | None => r = None ∧ ((∃ l, thrown l ∧ s' = set_calls (calls s ++ l) s) ∨ ∃ info, s' = with_session s (listener_of s info None (length args)) false false [])
  | Some h =>
      h ∈ handlers s ∧ r = None ∧ s' = s ∨
      h ∉ handlers s ∧ ∃ info, EventClassifyInfo.eventClassify info = h.1 ∧ r ≠ None ∧ s' = with_session s (listener_of s info (Some h.2) (length args)) true false []
  end.
Lemma wp_On args s c : inv s → created s + 1 < 2 ^ 32 → wp (On args) (s, c) (λ r p, on_outcome s c args r p.1).
Proof.
  intros Hs Hcreated. pose proof (inv_created _ Hs) as Hnonneg. unfold On, on_outcome, on_request.
  assert (∀ x, session_of x = None → thrown [x]) as Hthrown by (intros x Hx; by constructor).
  destruct (ClientHelper.GetEventClassifyInfoFromArg (argument args 0) _) as [r info] eqn:Hinfo. destruct (Nat.ltb_spec (length args) 2) as [Hlen|Hlen].
  - rewrite (proj2 (Nat.leb_gt _ _)) by lia. apply wp_ret. split; [done|]. left. exists []. split; [constructor|]. rewrite app_nil_r. by destruct s.
  - rewrite (proj2 (Nat.leb_le _ _)) by lia. apply wp_bind, wp_env_, wp_gets. cbn [fst snd andb].
    destruct (IsCallerValid c); cbn [negb andb]; [|apply wp_bind, wp_set_own, wp_ret; split; [done|]; left; eexists; split; [|reflexivity]; by apply Hthrown].
    destruct (Z.eqb_spec r CLIENT_SUCCESS) as [->|Hr]; cbn [negb andb]; [|apply wp_bind, wp_set_own, wp_ret; split; [done|]; left; eexists; split; [|reflexivity]; by apply Hthrown].
    apply wp_bind, wp_own_. cbn [fst]. pose proof (FindSessionByHandle_spec s info (argument args 1) Hs) as Hfind.
    destruct (FindSessionByHandle info (argument args 1) s) as [found|] eqn:Hfound.
    + rewrite bool_decide_eq_false_2 by done. cbn [negb]. apply wp_ret. assert ((EventClassifyInfo.eventClassify info, argument args 1) ∈ handlers s) as Hin by (by apply Hfind).
      pose proof Hin as (a & o & Ha & Ho & Hh)%elem_of_handlers.
      assert (napi_typeof (argument args 1) = napi_function) as Hf.
      { unfold handler_of in Hh. destruct (kind o) as [| |i [g|]] eqn:Hk; try done. injection Hh as _ <-.
        assert (is_listener o = true) as Hl by (apply (inv_kinds _ Hs a); [done|unfold is_request; rewrite Hk; by intros []]).
        destruct (inv_handlers _ Hs _ _ Ha Ho Hl) as (i' & g' & Hk' & Hg). congruence. }
      rewrite (bool_decide_eq_true_2 _ Hf). by left.
    + rewrite bool_decide_eq_true_2 by done. cbn [negb].
      assert ((EventClassifyInfo.eventClassify info, argument args 1) ∉ handlers s) as Hnot by (intros Hin; by apply Hfind in Hin).
      unfold make_session. apply wp_bind, wp_bind, wp_own_, wp_bind, wp_set_own, wp_bind, wp_own_, wp_bind, wp_set_own, wp_ret. cbn [fst snd].
      rewrite to_uint32_id by (unfold_widths; lia). cbn [set_created set_objects objects created].
      apply wp_bind. eapply wp_with_object; [apply lookup_last|]. apply wp_set_own. cbn [fst snd sessionId NapiSession.new].
      rewrite map_insert_last by (cbn; by apply keys_below). apply wp_bind. unfold StartWork. eapply wp_with_object; [apply lookup_last|].
      cbn [kind NapiSession.new]. unfold start_listener. cbn [sessionParams_ NapiSession.new SessionParams.callbackStartIndex SessionParams.new totalArgc_ kind].
      change (if (2 <? 1)%nat then 1%nat else (2 - 1)%nat) with 1%nat. rewrite (proj2 (Nat.leb_gt _ _)) by lia.
      assert (napi_typeof (argument args 0) = napi_object) as Hobj.
      { unfold ClientHelper.GetEventClassifyInfoFromArg in Hinfo. destruct (bool_decide_reflect (napi_typeof (argument args 0) = napi_object)); done. }
      rewrite (proj2 (Z.eqb_neq (IsTypeOf (argument args 0) napi_string) CLIENT_SUCCESS)) by (rewrite IsTypeOf_spec, Hobj; done).
      rewrite Hinfo. change (CLIENT_SUCCESS =? CLIENT_SUCCESS) with true. cbn [negb].
      apply wp_bind, wp_set_own. cbn [fst snd]. destruct (bool_decide_reflect (napi_typeof (argument args 1) = napi_function)) as [Hf|Hf].
      * rewrite (proj2 (Z.eqb_eq _ _)) by (by apply IsTypeOf_spec). cbn [negb]. apply wp_bind, wp_set_own, wp_bind, wp_env_, wp_any. intros _ c'.
        apply wp_ret, wp_bind. rewrite bool_decide_eq_false_2 by done. apply wp_ret, wp_ret. right. split; [done|]. exists info. split; [done|]. split; [done|].
        unfold with_session, make, set_objects, option_sessions, option_works, listener_of. cbn. by rewrite !alter_last, !app_nil_r.
      * rewrite (proj2 (Z.eqb_neq _ _)) by (by rewrite IsTypeOf_spec). cbn [negb]. apply wp_ret, wp_bind. rewrite bool_decide_eq_true_2 by done.
        eapply wp_with_object; [cbn [objects set_objects set_sessions set_created]; rewrite alter_last; apply lookup_last|]. apply wp_set_own, wp_ret. split; [done|]. right. exists info.
        unfold with_session, make, set_objects, set_sessions, set_created, option_sessions, option_works, listener_of. cbn [objects sessions_ created works events calls fst].
        cbn [sessionId set_kind NapiSession.new]. rewrite erase_last by (by apply keys_below). by rewrite alter_last, !app_nil_r.
Qed.

(** *** Changes that leave the sessions *)
Lemma inv_log s l :
  inv s → (∀ a, (∃ o, objects s !! a = Some o ∧ is_request o) ∨ (length (objects s) ≤ a)%nat → of_session a l = []) → inv (set_calls (calls s ++ l) s).
Proof.
  intros [] Hl. split; try done; unfold trace_ok in *; cbn [objects works calls set_calls].
  - intros a o Ho Hr. rewrite of_session_app, Hl, app_nil_r by (left; eauto). by apply inv_traces0.
  - intros a Ha. rewrite of_session_app, Hl, app_nil_r by (by right). by apply inv_later0.
Qed.
Lemma inv_thrown s l : inv s → thrown l → inv (set_calls (calls s ++ l) s).
Proof. intros Hs Hl. apply inv_log; [done|]. intros a _. apply of_session_none. eapply Forall_impl; [exact Hl|]. cbn. congruence. Qed.
Lemma inv_other s n : 0 ≤ n → inv s → inv (set_created (created s + n) s).
Proof. intros Hn []. split; try done; cbn [created set_created objects]; [lia|]. intros a o Ho. specialize (inv_ids0 a o Ho). lia. Qed.
Lemma inv_set_events s l : inv s → inv (set_events l s).
Proof. intros []. by split. Qed.
Lemma listener_kind s (info : EventClassifyInfo.t) h n : is_listener (listener_of s info h n) = true ↔ ¬ is_request (listener_of s info h n).
Proof. split; [by intros _ []|done]. Qed.
Lemma inv_on s c args r s' : inv s → on_outcome s c args r s' → inv s'.
Proof.
  intros Hs. unfold on_outcome, on_request. destruct (ClientHelper.GetEventClassifyInfoFromArg _ _) as [q info]. case_match eqn:Hreq.
  - intros [(_ & _ & ->)|(Hnot & info' & Hi & _ & ->)]; [done|]. case_match eqn:Hcond; [|done]. injection Hreq as <-. breflect.
    apply (inv_add s); [done|]. split; try done; [apply listener_kind|].
    intros _ _. exists info', (argument args 1). split; [done|]. split; [done|]. by rewrite Hi.
  - intros (_ & [(l & Hl & ->)|(info' & ->)]); [by apply inv_thrown|]. apply (inv_add s); [done|]. split; try done. apply listener_kind.
Qed.

(** *** Unsubscribing *)
(** What a call of [off] asks for: no events of a class any more, or not for one function. *)
Definition off_request c (args : list V) : option (Z * option V) :=
  let (r, info) := ClientHelper.GetEventClassifyInfoFromArg (argument args 0) EventClassifyInfo.default in
  let handle := if (2 <=? length args)%nat then Some (argument args 1) else None in
  if IsCallerValid c && (r =? CLIENT_SUCCESS) && from_option (λ f, bool_decide (napi_typeof f = napi_function)) true handle
  then Some (EventClassifyInfo.eventClassify info, handle) else None.
Definition off_removes (q : Z * option V) (h : Z * V) : bool := (h.1 =? q.1) && from_option (λ f, napi_strict_equals f h.2) true q.2.
Lemma unsubscribed_spec s a o (info : EventClassifyInfo.t) (handle : option V) :
  inv s → a ∈ (sessions_ s).*2 → objects s !! a = Some o →
  match handler_of o with
  | Some h => is_listener o = true ∧ unsubscribed info handle o = off_removes (EventClassifyInfo.eventClassify info, handle) h
  | None => unsubscribed info handle o = false
  end.
Proof.
  intros Hs Ha Ho. pose proof (inv_kinds _ Hs _ _ Ho) as Hkind. unfold unsubscribed. destruct (is_listener o) eqn:Hl.
  - destruct (inv_handlers _ Hs _ _ Ha Ho Hl) as (i & f & Hk & Hf). unfold handler_of. rewrite Hk. split; [done|]. cbn [andb].
    unfold off_removes, IsSubscribeEvent, IsSameListener. rewrite Hk. cbn [fst snd]. destruct handle as [g|]; cbn.
    + by rewrite andb_comm.
    + by rewrite orb_false_r, andb_true_r.
  - assert (is_request o) as Hr by (unfold is_request in *; destruct (kind o); try done; destruct Hkind as [_ Hkind]; discriminate Hkind; by intros []). unfold handler_of, is_request in *. by destruct (kind o).
Qed.
Definition removed s s' (gone : list nat) : Prop :=
  length (objects s') = length (objects s) ∧ created s' = created s ∧ works s' = works s ∧ events s' = events s ∧ calls s' = calls s ∧
  sessions_ s' = List.filter (λ y, negb (bool_decide (y.2 ∈ gone))) (sessions_ s) ∧
  ∀ a, objects s' !! a = if decide (a ∈ gone) then RemoveHandlerRef <$> objects s !! a else objects s !! a.
Lemma filter_filter_and {A} (p q : A → bool) (l : list A) : List.filter p (List.filter q l) = List.filter (λ y, q y && p y) l.
Proof. induction l as [|y l IH]; [done|]. cbn. destruct (q y); cbn; by rewrite IH. Qed.
Lemma filter_ext_bool {A} (p q : A → bool) (l : list A) : (∀ y, y ∈ l → p y = q y) → List.filter p l = List.filter q l.
Proof. intros Hpq. apply List.filter_ext_in. intros y Hy%list_elem_of_In. by apply Hpq. Qed.
Lemma wp_Unsubscribe (info : EventClassifyInfo.t) (handle : option V) s c :
  NoDup (session_objects s).*1 →
  wp (Unsubscribe (W := W) info handle) (s, c) (λ _ p,
    removed s p.1 (List.filter (λ y, unsubscribed info handle y.2) (session_objects s)).*1 ∧ p.2 = c).
Proof.
  intros Hnd. unfold Unsubscribe. apply wp_bind, wp_own_. cbn [fst]. set (gone := List.filter _ (session_objects s)).
  assert (NoDup gone.*1) as Hgone.
  { by apply filter_fst_NoDup. }
  apply (wp_for_each (λ vis p, removed s p.1 vis.*1 ∧ p.2 = c)).
  - split; [|done]. split_and!; try done. cbn. induction (sessions_ s) as [|y l IH]; [done|]. cbn. rewrite bool_decide_eq_false_2 by set_solver. cbn. by rewrite <- IH.
  - intros vis y rest [s1 c1] Hl [(H1' & H2' & H3' & H4' & H5' & H6' & H7') Hc]. cbn [fst snd] in *. subst c1. apply wp_bind, wp_set_own, wp_set_own. cbn [fst snd].
    split; [|done]. unfold removed. cbn [set_sessions set_objects objects sessions_ created works events calls fst]. split_and!; try done.
    + by rewrite length_alter.
    + rewrite H6'. unfold erase. rewrite filter_filter_and. apply filter_ext_bool. intros z _. rewrite fmap_app. cbn.
      destruct (Nat.eqb_spec z.2 y.1) as [Hz|Hz]; cbn.
      * rewrite andb_false_r. rewrite bool_decide_eq_true_2 by set_solver. done.
      * rewrite andb_true_r. f_equal. apply bool_decide_ext. set_solver.
    + intros a. rewrite fmap_app. cbn. destruct (decide (a = y.1)) as [->|Hne].
      * rewrite list_lookup_alter_eq, H7'. rewrite Hl, fmap_app, fmap_cons in Hgone. apply NoDup_app in Hgone as (_ & Hdis & _).
        rewrite decide_False by (intros Hin; apply (Hdis _ Hin); by left). by rewrite decide_True by set_solver.
      * rewrite list_lookup_alter_ne, H7' by done. destruct (decide (a ∈ vis.*1)); [by rewrite decide_True by set_solver|rewrite decide_False by set_solver; done].
  - intros [s1 c1] Hs1. exact Hs1.
Qed.
Lemma NoDup_sessions s : inv s → NoDup (sessions_ s).*1 ∧ NoDup (sessions_ s).*2.
Proof.
  intros Hs. assert (NoDup (sessions_ s).*1) as Hkeys.
  { induction (inv_sorted _ Hs) as [|y l Hl IH Hy]; [constructor|]. rewrite fmap_cons. apply NoDup_cons. split; [|done].
    intros (z & Hz & Hin)%list_elem_of_fmap. rewrite Forall_forall in Hy. specialize (Hy _ Hin). lia. }
  split; [done|]. assert (∀ id a, (id, a) ∈ sessions_ s → ∃ o, objects s !! a = Some o ∧ sessionId o = id) as Hent by apply (inv_entries _ Hs).
  clear -Hkeys Hent. induction (sessions_ s) as [|[id a] l IH]; [constructor|]. rewrite fmap_cons in *. apply NoDup_cons in Hkeys as [Hid Hkeys]. apply NoDup_cons. split.
  - intros ([id' a'] & Ha & Hin)%list_elem_of_fmap. cbn in *. subst a'. destruct (Hent id a) as (o & Ho & <-); [by left|]. destruct (Hent id' a) as (o' & Ho' & <-); [by right|].
    apply Hid. rewrite Ho in Ho'. injection Ho' as ->. by apply (list_elem_of_fmap_2 fst) in Hin.
  - apply IH; [done|]. intros id' a' Hin. apply Hent. by right.
Qed.
Lemma session_objects_fst s : inv s → (session_objects s).*1 = (sessions_ s).*2.
Proof.
  intros Hs. pose proof (inv_entries _ Hs) as Hent. unfold session_objects. induction (sessions_ s) as [|[id a] l IH]; [done|]. cbn.
  destruct (Hent id a) as (o & -> & _); [by left|]. cbn. f_equal. apply IH. intros id' a' Hin. apply Hent. by right.
Qed.
Lemma RemoveHandlerRef_keeps o : sessionId (RemoveHandlerRef o) = sessionId o ∧ is_listener (RemoveHandlerRef o) = is_listener o ∧
  (is_request (RemoveHandlerRef o) ↔ is_request o) ∧ (is_request o → RemoveHandlerRef o = o).
Proof. unfold RemoveHandlerRef, is_request. destruct (kind o) eqn:Hk; cbn; rewrite ?Hk; by split_and!. Qed.
Lemma inv_removed s s' gone :
  inv s → removed s s' gone → (∀ a o, a ∈ gone → objects s !! a = Some o → ¬ is_request o) → inv s'.
Proof.
  intros Hs (Hlen & Hcr & Hw & _ & Hcalls & Hsess & Hobj) Hgone.
  assert (∀ a o', objects s' !! a = Some o' → ∃ o, objects s !! a = Some o ∧ o' = if decide (a ∈ gone) then RemoveHandlerRef o else o) as Hback.
  { intros a o'. rewrite Hobj. destruct (decide (a ∈ gone)); [|eauto]. intros (o & -> & Ho)%fmap_Some. eauto. }
  assert (∀ a o', objects s' !! a = Some o' → is_request o' → objects s !! a = Some o' ∧ a ∉ gone) as Hreq.
  { intros a o' Ho' Hr. destruct (Hback a o' Ho') as (o & Ho & ->). destruct (decide (a ∈ gone)) as [Hin|]; [|done].
    destruct (RemoveHandlerRef_keeps o) as (_ & _ & Hk & _). apply Hk in Hr. by destruct (Hgone _ _ Hin Ho). }
  assert (∀ id a, (id, a) ∈ sessions_ s' ↔ (id, a) ∈ sessions_ s ∧ a ∉ gone) as Hmem.
  { intros id a. rewrite Hsess, list_elem_of_In, List.filter_In, <- list_elem_of_In. cbn. by rewrite negb_true_iff, bool_decide_eq_false. }
  assert (∀ a, a ∈ (sessions_ s').*2 ↔ a ∈ (sessions_ s).*2 ∧ a ∉ gone) as Hmap.
  { intros a. rewrite !list_elem_of_fmap. split.
    - intros ([id a'] & -> & [Hin Hn]%Hmem). split; [|done]. by exists (id, a').
    - intros [([id a'] & -> & Hin) Hn]. exists (id, a'). split; [done|]. by apply Hmem. }
  split; rewrite ?Hlen, ?Hcr, ?Hw, ?Hcalls.
  - by apply inv_created.
  - intros a o' (o & Ho & ->)%Hback. case_decide; [rewrite (proj1 (RemoveHandlerRef_keeps o))|]; by apply (inv_ids _ Hs a).
  - intros a b o1 o2 Hab (p1 & Hp1 & ->)%Hback (p2 & Hp2 & ->)%Hback. pose proof (inv_order _ Hs a b p1 p2 Hab Hp1 Hp2).
    repeat case_decide; rewrite ?(proj1 (RemoveHandlerRef_keeps _)); done.
  - intros id a [Hin Hn]%Hmem. destruct (inv_entries _ Hs _ _ Hin) as (o & Ho & Hid). exists o. rewrite Hobj, decide_False by done. done.
  - rewrite Hsess. by apply filter_sorted, inv_sorted.
  - intros a o' (o & Ho & ->)%Hback. pose proof (inv_kinds _ Hs _ _ Ho) as Hk. case_decide; [|done].
    destruct (RemoveHandlerRef_keeps o) as (_ & -> & -> & _). done.
  - by apply inv_works.
  - intros a Hin. destruct (inv_alive _ Hs _ Hin) as (Ha & o & Ho & Hr). assert (a ∉ gone) as Hn by (intros Hg; apply (Hgone _ _ Hg Ho); by apply ready_request).
    split; [by apply Hmap|]. exists o. split; [|done]. by rewrite Hobj, decide_False.
  - intros a o' [Hin _]%Hmap Ho' Hr. destruct (Hreq _ _ Ho' Hr) as [Ho _]. by apply (inv_started _ Hs a o').
  - intros a o' Ho' Hr. destruct (Hreq _ _ Ho' Hr) as [Ho _]. unfold trace_ok. rewrite Hw, Hcalls. by apply (inv_traces _ Hs).
  - by apply inv_later.
  - intros a o' [Hin Hn]%Hmap (o & Ho & ->)%Hback. rewrite decide_False by done. exact (inv_handlers _ Hs a o Hin Ho).
  - enough (handlers s' `sublist_of` handlers s) as Hsub by (eapply sublist_NoDup; [apply (inv_distinct _ Hs)|exact Hsub]).
    unfold handlers, session_objects. rewrite Hsess. clear -Hobj. induction (sessions_ s) as [|[id a] l IH]; [done|]. cbn.
    destruct (bool_decide_reflect (a ∈ gone)) as [Hin|Hn]; cbn.
    + destruct (objects s !! a) as [o|]; cbn; [|done]. destruct (handler_of o); [by constructor|done].
    + rewrite Hobj, decide_False by done. destruct (objects s !! a) as [o|]; cbn; [|done]. destruct (handler_of o); [by constructor|done].
Qed.
Definition gone_of s (info : EventClassifyInfo.t) (handle : option V) : list nat :=
  (List.filter (λ y, unsubscribed info handle y.2) (session_objects s)).*1.
Lemma elem_of_gone s info handle a :
  a ∈ gone_of s info handle ↔ ∃ o, a ∈ (sessions_ s).*2 ∧ objects s !! a = Some o ∧ unsubscribed info handle o = true.
Proof.
  unfold gone_of. rewrite list_elem_of_fmap. split.
  - intros ([a' o] & -> & Hin). apply list_elem_of_In, List.filter_In in Hin as [Hin Hu]. apply list_elem_of_In, elem_of_session_objects in Hin as [Ha Ho]. by exists o.
  - intros (o & Ha & Ho & Hu). exists (a, o). split; [done|]. apply list_elem_of_In, List.filter_In. split; [|done]. by apply list_elem_of_In, elem_of_session_objects.
Qed.
Lemma inv_unsubscribed s s' info handle : inv s → removed s s' (gone_of s info handle) → inv s'.
Proof.
  intros Hs Hr. apply (inv_removed s s' _ Hs Hr). intros a o (o' & Ha & Ho' & Hu)%elem_of_gone Ho. rewrite Ho in Ho'. injection Ho' as <-.
  unfold unsubscribed in Hu. apply andb_true_iff in Hu as [Hl _]. by apply (inv_kinds _ Hs a).
Qed.
(** The handlers that are left. *)
Lemma handlers_removed s s' info handle :
  inv s → removed s s' (gone_of s info handle) →
  handlers s' = List.filter (λ h, negb (off_removes (EventClassifyInfo.eventClassify info, handle) h)) (handlers s).
Proof.
  intros Hs (_ & _ & _ & _ & _ & Hsess & Hobj). unfold handlers, session_objects. rewrite Hsess.
  assert (Forall (λ y, y.2 ∈ (sessions_ s).*2 ∧ is_Some (objects s !! y.2)) (sessions_ s)) as Hall.
  { apply Forall_forall. intros [id a] Hin. cbn. split; [by apply (list_elem_of_fmap_2 snd) in Hin|]. destruct (inv_entries _ Hs _ _ Hin) as (o & -> & _). eauto. }
  assert (∀ l : list (Z * nat), Forall (λ y, y.2 ∈ (sessions_ s).*2 ∧ is_Some (objects s !! y.2)) l →
    omap (λ y, handler_of y.2) (omap (λ y, pair y.2 <$> objects s' !! y.2) (List.filter (λ y, negb (bool_decide (y.2 ∈ gone_of s info handle))) l)) =
    List.filter (λ h, negb (off_removes (EventClassifyInfo.eventClassify info, handle) h))
      (omap (λ y, handler_of y.2) (omap (λ y, pair y.2 <$> objects s !! y.2) l))) as Hgen; [|by apply Hgen].
  induction 1 as [|[id a] l [Ha [o Ho]] _ IH]; [done|]. cbn [snd] in *. cbn.
  rewrite Ho. cbn. pose proof (unsubscribed_spec s a o info handle Hs Ha Ho) as Hspec.
  destruct (bool_decide_reflect (a ∈ gone_of s info handle)) as [Hin|Hn]; cbn.
  - apply elem_of_gone in Hin as (o' & _ & Ho' & Hu). rewrite Ho in Ho'. injection Ho' as <-. destruct (handler_of o) as [h|]; [|congruence].
    destruct Hspec as [_ Heq]. cbn. rewrite <- Heq, Hu. cbn. exact IH.
  - rewrite Hobj, decide_False by done. rewrite Ho. cbn. assert (unsubscribed info handle o = false) as Hu.
    { destruct (unsubscribed info handle o) eqn:Hu; [|done]. destruct Hn. apply elem_of_gone. eauto. }
    destruct (handler_of o) as [h|]; [|exact IH]. destruct Hspec as [_ Heq]. cbn. rewrite <- Heq, Hu. cbn. f_equal. exact IH.
Qed.
Definition off_outcome s c (args : list V) (r : option V) s' : Prop :=
  match off_request c args with
  | None => r = None ∧ ∃ l, thrown l ∧ s' = set_calls (calls s ++ l) s
  | Some q => r ≠ None ∧ ∃ info, EventClassifyInfo.eventClassify info = q.1 ∧ removed s s' (gone_of s info q.2)
  end.
Lemma wp_Off args s c : inv s → wp (Off args) (s, c) (λ r p, off_outcome s c args r p.1).
Proof.
  intros Hs. unfold Off, off_outcome, off_request.
  destruct (ClientHelper.GetEventClassifyInfoFromArg (argument args 0) _) as [r info].
  apply wp_bind, wp_env_, wp_gets. cbn [fst snd].
  assert (∀ x (r : option V), session_of x = None → r = None →
    wp (log x ;;; ret r) (s, c) (λ r p, r = None ∧ ∃ l, thrown l ∧ p.1 = set_calls (calls s ++ l) s)) as Hthrow.
  { intros x r' Hx ->. apply wp_bind, wp_set_own, wp_ret. split; [done|]. exists [x]. split; [by constructor|done]. }
  destruct (IsCallerValid c); cbn [negb andb]; [|by apply Hthrow].
  destruct (r =? CLIENT_SUCCESS); cbn [negb andb]; [|by apply Hthrow].
  set (f := argument args 1). destruct (2 <=? length args)%nat; cbn [negb andb from_option].
  - destruct (bool_decide_reflect (napi_typeof f = napi_function)) as [Hf|Hf].
    + rewrite (proj2 (Z.eqb_eq _ _)) by (by apply IsTypeOf_spec). cbn [negb].
      apply wp_bind. eapply wp_mono; [|apply wp_Unsubscribe; rewrite session_objects_fst by done; by apply NoDup_sessions].
      intros _ [s1 c1] [Hr _]. apply wp_bind, wp_env_, wp_any. intros _ c2. apply wp_ret. split; [done|]. by exists info.
    + rewrite (proj2 (Z.eqb_neq _ _)) by (by rewrite IsTypeOf_spec). by apply Hthrow.
  - apply wp_bind. eapply wp_mono; [|apply wp_Unsubscribe; rewrite session_objects_fst by done; by apply NoDup_sessions].
    intros _ [s1 c1] [Hr _]. apply wp_bind, wp_env_, wp_any. intros _ c2. apply wp_ret. split; [done|]. by exists info.
Qed.
Lemma inv_off s c args r s' : inv s → off_outcome s c args r s' → inv s'.
Proof.
  intros Hs. unfold off_outcome. case_match; [intros (_ & info & _ & Hr); by eapply inv_unsubscribed|]. intros (_ & l & Hl & ->). by apply inv_thrown.
Qed.

(** *** Doing the work *)
Lemma lookup_altered (f : Session → Session) a b o' s :
  alter f a (objects s) !! b = Some o' → ∃ o, objects s !! b = Some o ∧ o' = if decide (b = a) then f o else o.
Proof.
  destruct (decide (b = a)) as [->|Hne].
  - rewrite list_lookup_alter_eq. intros (o & -> & Ho)%fmap_Some. by exists o.
  - rewrite list_lookup_alter_ne by done. eauto.
Qed.
Lemma lookup_altered_eq (f : Session → Session) a b o s :
  objects s !! b = Some o → alter f a (objects s) !! b = Some (if decide (b = a) then f o else o).
Proof. intros Ho. destruct (decide (b = a)) as [->|Hne]; [by rewrite list_lookup_alter_eq, Ho|by rewrite list_lookup_alter_ne]. Qed.
Definition keeps_session (f : Session → Session) : Prop := ∀ o, sessionId (f o) = sessionId o ∧ kind (f o) = kind o ∧ sessionParams_ (f o) = sessionParams_ o.
Definition worked s a s' : Prop :=
  ∃ f w', keeps_session f ∧ w'.*1 = (works s).*1 ∧ s' = make (alter f a (objects s)) (sessions_ s) (created s) w' (events s) (calls s).
Lemma inv_worked s a s' : inv s → a ∈ (works s).*1 → worked s a s' → inv s'.
Proof.
  intros Hs Ha (f & w' & Hf & Hw & ->).
  assert (∀ b o, let o' := if decide (b = a) then f o else o in
    sessionId o' = sessionId o ∧ is_listener o' = is_listener o ∧ kind o' = kind o) as Hsame.
  { intros b o. destruct (decide (b = a)); [|done]. destruct (Hf o) as (Hid & Hk & Hp). split_and!; [done| |done]. unfold is_listener, GetType. by rewrite Hp. }
  split; cbn [objects sessions_ created works events calls make]; rewrite ?Hw, ?length_alter.
  - by apply inv_created.
  - intros b o' (o & Ho & ->)%lookup_altered. rewrite (proj1 (Hsame b o)). by apply (inv_ids _ Hs b).
  - intros b b' o1 o2 Hb (p1 & Hp1 & ->)%lookup_altered (p2 & Hp2 & ->)%lookup_altered.
    rewrite (proj1 (Hsame b p1)), (proj1 (Hsame b' p2)). by apply (inv_order _ Hs b b').
  - intros id b Hin. destruct (inv_entries _ Hs _ _ Hin) as (o & Ho & Hid). eexists. split; [by apply lookup_altered_eq|].
    by rewrite (proj1 (Hsame b o)).
  - by apply inv_sorted.
  - intros b o' (o & Ho & ->)%lookup_altered. destruct (Hsame b o) as (_ & -> & Hk). unfold is_request. rewrite Hk. by apply (inv_kinds _ Hs b).
  - by apply inv_works.
  - intros b Hin. destruct (inv_alive _ Hs _ Hin) as (Hm & o & Ho & Hr). split; [done|]. eexists. split; [by apply lookup_altered_eq|].
    unfold ready. by rewrite (proj2 (proj2 (Hsame b o))).
  - intros b o' Hin (o & Ho & ->)%lookup_altered. unfold is_request. rewrite (proj2 (proj2 (Hsame b o))). intros Hr. by apply (inv_started _ Hs b o).
  - intros b o' (o & Ho & ->)%lookup_altered. unfold is_request at 1. rewrite (proj2 (proj2 (Hsame b o))). intros Hr.
    pose proof (inv_traces _ Hs _ _ Ho Hr) as Ht. unfold trace_ok in *. cbn [works calls make]. rewrite Hw.
    destruct (decide (b = a)) as [->|Hne]; [|done]. destruct Ht as [Ht|[Hn _]]; [by left|done].
  - by apply inv_later.
  - intros b o' Hin (o & Ho & ->)%lookup_altered. destruct (Hsame b o) as (_ & -> & ->). by apply (inv_handlers _ Hs b).
  - enough (handlers (make (alter f a (objects s)) (sessions_ s) (created s) w' (events s) (calls s)) = handlers s) as -> by (by apply inv_distinct).
    unfold handlers, session_objects. cbn [objects sessions_ make]. induction (sessions_ s) as [|[id b] l IH]; [done|]. cbn.
    destruct (objects s !! b) as [o|] eqn:Ho.
    + rewrite (lookup_altered_eq _ _ _ _ _ Ho). cbn. assert (handler_of (if decide (b = a) then f o else o) = handler_of o) as -> by (unfold handler_of; by rewrite (proj2 (proj2 (Hsame b o)))).
      destruct (handler_of o); [by rewrite IH|exact IH].
    + destruct (alter f a (objects s) !! b) as [o'|] eqn:Ho'; [|exact IH]. apply lookup_altered in Ho' as (o & Ho' & _). congruence.
Qed.
Lemma alter_id_on a s : alter (λ o, o) a (objects s) = objects s.
Proof. apply list_eq. intros i. destruct (decide (i = a)) as [->|Hne]; [rewrite list_lookup_alter_eq; by destruct (objects s !! a)|by rewrite list_lookup_alter_ne]. Qed.
Lemma staged_fst a st (l : list (nat * Stage)) : (map (λ y, if (y.1 =? a)%nat then (a, st) else y) l).*1 = l.*1.
Proof. induction l as [|[b q] l IH]; [done|]. cbn. rewrite IH. destruct (Nat.eqb_spec b a) as [->|]; done. Qed.
Lemma keeps_id : keeps_session (λ o, o).
Proof. by intros o. Qed.
Lemma wp_ExecuteWork a s c : inv s → a ∈ (works s).*1 → wp (ExecuteWork a) (s, c) (λ _ p, worked s a p.1).
Proof.
  intros Hs Ha. destruct (inv_alive _ Hs _ Ha) as (_ & o & Ho & _). unfold ExecuteWork. eapply wp_with_object; [exact Ho|]. destruct (doWorker_ o) as [w|].
  - apply wp_bind, wp_env_, wp_any. intros [r be] c1. apply wp_bind, wp_set_own, wp_set_own. cbn [fst snd].
    eexists _, _. split; [|split; [|reflexivity]]; [by intros o'|apply staged_fst].
  - apply wp_set_own. cbn [fst snd]. eexists (λ o, o), _. split; [apply keeps_id|]. split; [|by rewrite alter_id_on]. apply staged_fst.
Qed.
Lemma wp_EndWait a s c : wp (EndWait a) (s, c) (λ _ p, worked s a p.1).
Proof.
  unfold EndWait. apply wp_bind, wp_set_own, wp_set_own. eexists _, _. split; [|split; [|reflexivity]]; [|apply staged_fst].
  intros o. by destruct (asyncExecuteComplete_ o).
Qed.
Lemma wp_answer a be s c : wp (on_object a (OnAsyncComplete be)) (s, c) (λ _ p, worked s a p.1).
Proof. apply wp_set_own. eexists _, (works s). split; [|split; reflexivity]. by intros o. Qed.

(** *** Completing the work *)
Context `{!UpdaterLaws V C W}.
(** What a session is completed with, when the members of its updater are [c]. *)
Definition answer_of a o (c : C) x : Prop :=
  let e := GetBusinessError o in
  if BusinessError.errorNum e =? CallResult.SUCCESS then
    let v := (ClientHelper.buildJSObject (GetType o) (GetUpdateResult (GetType o) c)).2 in
    match kind o with Async (Some f) => x = Called a f [None; v] | Promise => x = Resolved a v | _ => False end
  else ∃ v, (BuildBusinessError e).2 = Some v ∧
      match kind o with Async (Some f) => x = Called a f [Some v; None] | Promise => x = Rejected a (Some v) | _ => False end.
Lemma answer_answers a o c x : answer_of a o c x → answers a o x ∧ session_of x = Some a.
Proof.
  unfold answer_of, answers. destruct (_ =? _).
  - destruct (kind o) as [[f|]| |]; try done; intros ->; (split; [|done]); exists c; eauto.
  - intros (v & Hv & Hx). destruct (kind o) as [[f|]| |]; try done; subst x; (split; [|done]); exists v; eauto.
Qed.
Definition completed s c a o s' : Prop :=
  ∃ f x, (f = (λ o, o) ∨ ∃ g, kind o = Async g ∧ f = set_kind (Async None)) ∧ answer_of a o c x ∧
    s' = make (alter f a (objects s)) (erase (λ y, y.1 =? sessionId o) (sessions_ s)) (created s)
           (List.filter (λ y, negb (y.1 =? a)%nat) (works s)) (events s) (calls s ++ [x]).
Lemma build_error (e : BusinessError.t) :
  BusinessError.errorNum e ≠ CallResult.SUCCESS → ∃ v : V, BuildBusinessError e = (CLIENT_SUCCESS, Some v).
Proof. intros He. unfold BuildBusinessError. rewrite (proj2 (Z.eqb_neq _ _)) by done. eauto. Qed.
Lemma wp_CompleteWork a o s c : objects s !! a = Some o → ready o → wp (CompleteWork (W := W) a) (s, c) (λ _ p, completed s c a o p.1).
Proof.
  intros Ho Hready. unfold CompleteWork. apply wp_bind, wp_set_own. cbn [fst snd]. eapply wp_with_object; [exact Ho|].
  apply wp_bind. unfold notify. apply wp_bind, wp_env_, wp_gets. cbn [fst snd]. unfold ready in Hready. unfold completed, answer_of.
  set (e := GetBusinessError o). set (res := GetUpdateResult (GetType o) c). pose proof (result_built (V := V) (W := W) (GetType o) c) as Hbuilt. fold res in Hbuilt.
  destruct (kind o) as [callback| |] eqn:Hk; [|..]; try done.
  - destruct Hready as [f ->]. unfold notify_async. fold e. destruct (Z.eqb_spec (BusinessError.errorNum e) CallResult.SUCCESS) as [He|He]; cbn [negb].
    + destruct (ClientHelper.buildJSObject (GetType o) res) as [r v] eqn:Hv. cbn [fst] in Hbuilt. rewrite Hbuilt. change (negb (CLIENT_SUCCESS =? 0)) with false. cbv iota.
      apply wp_bind, wp_set_own, wp_bind, wp_env_, wp_any. intros [] c1; [apply wp_set_own|apply wp_ret]; apply wp_set_own; cbn [fst snd].
      * exists (set_kind (Async None)), (Called a f [None; v]). split; [right; eauto|]. split; [done|reflexivity].
      * exists (λ o, o), (Called a f [None; v]). split; [by left|]. split; [done|by rewrite alter_id_on].
    + destruct (build_error e He) as [v Hv]. rewrite Hv. change (negb (CLIENT_SUCCESS =? 0)) with false. cbv iota.
      apply wp_bind, wp_set_own, wp_bind, wp_env_, wp_any. intros [] c1; [apply wp_set_own|apply wp_ret]; apply wp_set_own; cbn [fst snd].
      * exists (set_kind (Async None)), (Called a f [Some v; None]). split; [right; eauto|]. split; [|reflexivity]. exists v. eauto.
      * exists (λ o, o), (Called a f [Some v; None]). split; [by left|]. split; [|by rewrite alter_id_on]. exists v. eauto.
  - unfold notify_promise. fold e. destruct (Z.eqb_spec (BusinessError.errorNum e) CallResult.SUCCESS) as [He|He]; apply wp_set_own, wp_set_own; cbn [fst snd].
    + eexists (λ o, o), _. split; [by left|]. split; [|by rewrite alter_id_on]. done.
    + destruct (build_error e He) as [v Hv]. eexists (λ o, o), _. split; [by left|]. split; [|by rewrite alter_id_on]. exists v. by rewrite Hv.
Qed.
Lemma GetBusinessError_released o g : kind o = Async g → GetBusinessError (set_kind (Async None) o) = GetBusinessError o.
Proof.
  intros Hk. assert (GetSessionFuncParameter (set_kind (Async None) o) = GetSessionFuncParameter o) as Hp.
  { unfold GetSessionFuncParameter. change (kind (set_kind (Async None) o)) with (Async (V := V) None). rewrite Hk. reflexivity. }
  unfold GetBusinessError, BuildWorkBusinessErr. rewrite Hp. reflexivity.
Qed.
Lemma answers_released a o g x : kind o = Async g → answers a o x → answers a (set_kind (Async None) o) x.
Proof.
  intros Hk. unfold answers. rewrite (GetBusinessError_released o g Hk). change (GetType (set_kind (Async None) o)) with (GetType o).
  cbn [kind set_kind]. rewrite Hk. exact (λ Hx, Hx).
Qed.
Lemma id_address s a b o o' : inv s → objects s !! a = Some o → objects s !! b = Some o' → sessionId o = sessionId o' → a = b.
Proof.
  intros Hs Ho Ho' Hid. destruct (Nat.lt_trichotomy a b) as [Hab|[->|Hab]]; [|done|].
  - pose proof (inv_order _ Hs _ _ _ _ Hab Ho Ho'). lia.
  - pose proof (inv_order _ Hs _ _ _ _ Hab Ho' Ho). lia.
Qed.
Lemma inv_completed s c a o s' : inv s → a ∈ (works s).*1 → objects s !! a = Some o → ready o → completed s c a o s' → inv s'.
Proof.
  intros Hs Ha Ho Hready (f & x & Hf & [Hx Hxa]%answer_answers & ->).
  assert (sessionId (f o) = sessionId o ∧ is_listener (f o) = is_listener o ∧ is_request (f o) ∧ is_request o ∧ answers a (f o) x ∧
    handler_of (f o) = None ∧ handler_of o = None) as (Hid & Hlis & Hreq & Hreq0 & Hset & Hh & Hh0).
  { assert (is_request o) as Hr by (by apply ready_request). destruct Hf as [->|(g & Hg & ->)].
    - split_and!; try done; unfold handler_of, is_request in *; by destruct (kind o).
    - split_and!; try done; [by eapply answers_released|unfold handler_of; by rewrite Hg]. }
  assert (∀ b o', alter f a (objects s) !! b = Some o' → b = a ∧ o' = f o ∨ b ≠ a ∧ objects s !! b = Some o') as Hback.
  { intros b o' (p & Hp & ->)%lookup_altered. destruct (decide (b = a)) as [->|]; [left|by right]. split; [done|]. congruence. }
  assert (∀ id b, (id, b) ∈ erase (λ y, y.1 =? sessionId o) (sessions_ s) ↔ (id, b) ∈ sessions_ s ∧ b ≠ a) as Hmem.
  { intros id b. unfold erase. rewrite list_elem_of_In, List.filter_In, <- list_elem_of_In. cbn. rewrite negb_true_iff, Z.eqb_neq.
    split; intros [Hin Hne]; (split; [done|]); destruct (inv_entries _ Hs _ _ Hin) as (p & Hp & Hpid); [intros ->; congruence|].
    intros Heq. apply Hne. apply (id_address s b a p o Hs Hp Ho). congruence. }
  assert (∀ b, b ∈ (erase (λ y, y.1 =? sessionId o) (sessions_ s)).*2 ↔ b ∈ (sessions_ s).*2 ∧ b ≠ a) as Hmap.
  { intros b. rewrite !list_elem_of_fmap. split.
    - intros ([id b'] & -> & [Hin Hn]%Hmem). split; [|done]. by exists (id, b').
    - intros [([id b'] & -> & Hin) Hn]. exists (id, b'). split; [done|]. by apply Hmem. }
  assert (∀ b, b ∈ (List.filter (λ y : nat * Stage, negb (y.1 =? a)%nat) (works s)).*1 ↔ b ∈ (works s).*1 ∧ b ≠ a) as Hwork.
  { intros b. rewrite !list_elem_of_fmap. split.
    - intros (y & -> & [Hin Hn]%list_elem_of_In%List.filter_In). apply negb_true_iff, Nat.eqb_neq in Hn. split; [|done]. exists y. split; [done|by apply list_elem_of_In].
    - intros [(y & -> & Hin) Hn]. exists y. split; [done|]. apply list_elem_of_In, List.filter_In. split; [by apply list_elem_of_In|]. by apply negb_true_iff, Nat.eqb_neq. }
  assert (∀ b, b ≠ a → of_session b (calls s ++ [x]) = of_session b (calls s)) as Hcalls.
  { intros b Hb. rewrite of_session_app, (of_session_none b [x]), app_nil_r; [done|]. constructor; [congruence|constructor]. }
  split; cbn [objects sessions_ created works events calls make]; rewrite ?length_alter.
  - by apply inv_created.
  - intros b o' [[-> ->]|[_ Ho']]%Hback; [rewrite Hid|]; by eapply inv_ids.
  - intros b b' o1 o2 Hb H1' H2'. apply Hback in H1' as [[-> ->]|[_ H1']]; apply Hback in H2' as [[-> ->]|[_ H2']]; rewrite ?Hid; [lia|by eapply inv_order..].
  - intros id b [Hin Hn]%Hmem. destruct (inv_entries _ Hs _ _ Hin) as (p & Hp & Hpid). exists p. by rewrite list_lookup_alter_ne by done.
  - by apply filter_sorted, inv_sorted.
  - intros b o' [[-> ->]|[_ Ho']]%Hback; [|by apply (inv_kinds _ Hs b)]. rewrite Hlis. pose proof (inv_kinds _ Hs _ _ Ho). tauto.
  - by apply filter_fst_NoDup, inv_works.
  - intros b [Hb Hn]%Hwork. destruct (inv_alive _ Hs _ Hb) as (Hm & p & Hp & Hr). split; [by apply Hmap|]. exists p. by rewrite list_lookup_alter_ne by done.
  - intros b o' [Hb Hn]%Hmap [[-> _]|[_ Ho']]%Hback Hr; [done|]. apply Hwork. split; [|done]. by apply (inv_started _ Hs b o').
  - intros b o' [[-> ->]|[Hn Ho']]%Hback Hr; unfold trace_ok; cbn [works calls make]; rewrite Hwork.
    + right. split; [by intros [_ ?]|]. right. destruct (inv_traces _ Hs _ _ Ho Hreq0) as [[_ [v Hv]]|[Hn _]]; [|done]. exists v, x. split; [|done].
      rewrite of_session_app, Hv. unfold of_session. by rewrite filter_cons_True by done.
    + rewrite Hcalls by done. destruct (inv_traces _ Hs _ _ Ho' Hr) as [[Hw Ht]|[Hw Ht]]; [by left|right]. split; [|done]. by intros [? _].
  - intros b Hb. rewrite Hcalls; [by apply inv_later|]. apply lookup_lt_Some in Ho. lia.
  - intros b o' [Hb Hn]%Hmap [[-> _]|[_ Ho']]%Hback; [done|]. exact (inv_handlers _ Hs b o' Hb Ho').
  - enough (handlers (make (alter f a (objects s)) (erase (λ y, y.1 =? sessionId o) (sessions_ s)) (created s)
      (List.filter (λ y, negb (y.1 =? a)%nat) (works s)) (events s) (calls s ++ [x])) `sublist_of` handlers s) as Hsub
      by (eapply sublist_NoDup; [apply (inv_distinct _ Hs)|exact Hsub]).
    unfold handlers, session_objects, erase. cbn [objects sessions_ make]. clear -Ho Hh Hh0. induction (sessions_ s) as [|[id b] l IH]; [done|]. cbn [List.filter].
    destruct (decide (b = a)) as [->|Hb].
    + destruct (negb _); cbn; [rewrite list_lookup_alter_eq|]; rewrite Ho; cbn; rewrite ?Hh, ?Hh0; exact IH.
    + destruct (negb _); cbn; rewrite ?list_lookup_alter_ne by done; destruct (objects s !! b) as [p|]; cbn; try exact IH; destruct (handler_of p); try exact IH; by constructor.
Qed.

(** *** Publishing an event *)
Definition delivery (classify : Z) (event : V) (y : nat * Session) : option (Call V) :=
  h ← handler_of y.2; if h.1 =? classify then Some (Called y.1 h.2 [Some event]) else None.
Definition deliveries s (classify : Z) (event : V) : list (Call V) := omap (delivery classify event) (session_objects s).
Definition published s (info : EventClassifyInfo.t) (eventInfo : EventInfo.t) : list (Call V) :=
  let (r, event) := ClientHelper.BuildEventInfo eventInfo in
  if r =? CLIENT_SUCCESS then deliveries s (EventClassifyInfo.eventClassify info) event else [].
Lemma for_each_nothing {S A} (l : list A) (f : A → ST S unit) (s : S) (Q : unit → S → Prop) :
  (∀ y, y ∈ l → ∀ (s2 : S) (Q2 : unit → S → Prop), Q2 tt s2 → wp (f y) s2 Q2) → Q tt s → wp (for_each l f) s Q.
Proof.
  revert s. induction l as [|y l IH]; intros s Hf HQ; [by apply wp_ret|]. cbn. apply (wp_bind (f y) (λ _, for_each l f)).
  apply Hf; [by left|]. apply IH; [|done]. intros z Hz. apply Hf. by right.
Qed.
Lemma wp_PublishToJS (info : EventClassifyInfo.t) eventInfo s c :
  inv s → wp (PublishToJS (W := W) info eventInfo) (s, c) (λ _ p, p.1 = set_calls (calls s ++ published s info eventInfo) s).
Proof.
  intros Hs. unfold PublishToJS, published. apply wp_bind, wp_own_. cbn [fst].
  destruct (ClientHelper.BuildEventInfo eventInfo) as [r event] eqn:Hbuild. destruct (r =? CLIENT_SUCCESS) eqn:Hr.
  - unfold deliveries. set (g := delivery (EventClassifyInfo.eventClassify info) event).
    apply (wp_for_each (λ vis p, p.1 = set_calls (calls s ++ omap g vis) s)).
    + rewrite app_nil_r. by destruct s.
    + intros vis y rest [s1 c1] Hl Hs1. cbn [fst] in Hs1. subst s1. rewrite omap_app, app_assoc.
      assert (y ∈ session_objects s) as Hy by (rewrite Hl; set_solver). destruct y as [a o]. apply elem_of_session_objects in Hy as [Ha Ho]. cbn [fst snd].
      destruct (is_listener o) eqn:Hlis; cbn [andb].
      * destruct (inv_handlers _ Hs _ _ Ha Ho Hlis) as (i & f & Hk & Hf). unfold IsSubscribeEvent. rewrite Hk.
        assert (omap g [(a, o)] = if EventClassifyInfo.eventClassify i =? EventClassifyInfo.eventClassify info then [Called a f [Some event]] else []) as ->.
        { unfold g, delivery. cbn. unfold handler_of. rewrite Hk. cbn. destruct (EventClassifyInfo.eventClassify i =? EventClassifyInfo.eventClassify info); reflexivity. }
        destruct (EventClassifyInfo.eventClassify i =? EventClassifyInfo.eventClassify info); [|apply wp_ret; cbn; by rewrite app_nil_r]. unfold notify_listener. rewrite Hbuild, Hr, Hk. cbn [negb].
        apply wp_bind, wp_set_own, wp_bind, wp_env_, wp_any. intros _ c2. by apply wp_ret.
      * apply wp_ret. assert (omap g [(a, o)] = []) as ->; [|cbn; by rewrite app_nil_r]. unfold g, delivery. cbn.
        pose proof (inv_kinds _ Hs _ _ Ho) as Hk. unfold handler_of, is_request in *. destruct (kind o); try done.
        destruct Hk as [_ Hk]. rewrite Hk in Hlis by (by intros []). done.
    + by intros [s1 c1].
  - apply for_each_nothing; [|cbn; rewrite app_nil_r; by destruct s]. intros y _ [s1 c1] Q HQ.
    destruct (_ && _); [|by apply wp_ret]. unfold notify_listener. rewrite Hbuild, Hr. by apply wp_ret.
Qed.
Lemma published_listeners s info eventInfo a o : inv s → objects s !! a = Some o → is_request o → of_session a (published s info eventInfo) = [].
Proof.
  intros Hs Ho Hr. unfold published. destruct (ClientHelper.BuildEventInfo eventInfo) as [r event]. destruct (r =? _); [|done].
  apply of_session_none, Forall_forall. intros x ([b p] & [_ Hp]%elem_of_session_objects & Hx)%list_elem_of_omap. unfold delivery in Hx. cbn in Hx.
  destruct (handler_of p) as [h|] eqn:Hh; [|done]. cbn in Hx. destruct (h.1 =? _); [|done]. injection Hx as <-. cbn. intros [= ->].
  rewrite Ho in Hp. injection Hp as ->. unfold handler_of, is_request in *. by destruct (kind p).
Qed.
Lemma inv_published s info eventInfo : inv s → inv (set_calls (calls s ++ published s info eventInfo) s).
Proof.
  intros Hs. apply inv_log; [done|]. intros a [(o & Ho & Hr)|Ha]; [by eapply published_listeners|].
  unfold published. destruct (ClientHelper.BuildEventInfo eventInfo) as [r event]. destruct (r =? _); [|done].
  apply of_session_none, Forall_forall. intros x ([b p] & [_ Hp]%elem_of_session_objects & Hx)%list_elem_of_omap. unfold delivery in Hx. cbn in Hx.
  destruct (handler_of p) as [h|]; [|done]. cbn in Hx. destruct (h.1 =? _); [|done]. injection Hx as <-. cbn. intros [= ->]. apply lookup_lt_Some in Hp. lia.
Qed.

(** *** Every interleaving *)
(** Sessions are only added, and calls are only made. *)
Definition at_least s0 (p : T * C) : Prop := created s0 ≤ created p.1 ∧ calls s0 `prefix_of` calls p.1.
Lemma stable_env s0 {A} (m : ST C A) : stable (at_least s0) (env_ m).
Proof. intros p Hp. by apply wp_env_, wp_any. Qed.
Lemma stable_own s0 {A} (f : T → A) : stable (at_least s0) (own_ f).
Proof. intros p Hp. by apply wp_own_. Qed.
Lemma stable_set s0 (f : T → T) : (∀ s, created s ≤ created (f s) ∧ calls s `prefix_of` calls (f s)) → stable (at_least s0) (set_own f).
Proof. intros Hf p [Hc Hl]. apply wp_set_own. destruct (Hf p.1) as [Hc' Hl']. split; [cbn; lia|by etransitivity]. Qed.
Lemma stable_object s0 {A} a (none : A) f : (∀ o, stable (at_least s0) (f o)) → stable (at_least s0) (with_object a none f).
Proof. intros Hf. apply stable_bind; [apply stable_own|]. intros [o|]; [apply Hf|apply stable_ret]. Qed.
Lemma stable_make s0 k params argc w : stable (at_least s0) (make_session k params argc w).
Proof.
  intros [s c] Hp. unfold make_session. apply wp_bind, wp_own_, wp_bind, wp_set_own, wp_bind, wp_own_, wp_bind, wp_set_own, wp_ret.
  unfold at_least in *. cbn in *. split; [lia|apply Hp].
Qed.
Ltac sessions_grow :=
  repeat first
    [ progress intros
    | apply stable_make | apply stable_env | apply stable_own | apply stable_object
    | (apply stable_set; intros; cbn; split; [lia|first [done|apply prefix_app_r; done]]) | apply stable_ret
    | apply stable_for_each | apply stable_bind
    | match goal with |- stable _ (if ?b then _ else _) => destruct b | |- stable _ (match ?x with _ => _ end) => destruct x end
    | progress cbv beta iota zeta ].
Lemma step_grows p p' : step p p' → at_least p.1 p'.
Proof.
  assert (∀ s (c : C), at_least s (s, c)) as Hrefl by (intros s c; by split).
  intros [lbl Hstep]. destruct Hstep as [p args params w|p args|p args|p a|p a be|p a|p a|p info|p|p error|[s c] c'|[s c] n Hn];
    try (split; [cbn; lia|done]); try apply Hrefl;
    match goal with |- at_least _ (exec ?m ?p) => change (wp m p (λ _ p', at_least p.1 p')); apply wp_stable; [|by destruct p] end.
  all: unfold StartSession, On, Off, Unsubscribe, AddSession, StartWork, start_async, start_promise, start_listener, queue_work, ExecuteWork, EndWait,
    CompleteWork, notify, notify_async, notify_promise, NotifyEventInfo, Emit, publish_next, PublishToJS, notify_listener,
    ReleaseNapiReference, RemoveSession, set_stage, on_object, log; sessions_grow.
Qed.
Lemma created_grows p p' : step p p' → created p.1 ≤ created p'.1.
Proof. intros Hstep. apply (step_grows _ _ Hstep). Qed.
Lemma calls_grow p p' : star step p p' → calls p.1 `prefix_of` calls p'.1.
Proof. induction 1 as [|p q p' Hpq _ IH]; [done|]. etransitivity; [apply (step_grows _ _ Hpq)|exact IH]. Qed.
Lemma inv_publish_next s c : inv s → wp publish_next (s, c) (λ _ p,
  match events s with
  | [] => p.1 = s
  | (info, eventInfo) :: l => p.1 = set_calls (calls s ++ published s info eventInfo) (set_events l s)
  end).
Proof.
  intros Hs. unfold publish_next. apply wp_bind, wp_own_. cbn [fst]. destruct (events s) as [|[info eventInfo] l]; [by apply wp_ret|].
  apply wp_bind, wp_set_own. cbn [fst snd]. eapply wp_mono; [|apply wp_PublishToJS; by apply inv_set_events]. intros _ [s1 c1] H1'. exact H1'.
Qed.
Lemma sessions_inv_step p p' : step p p' → created p'.1 + 1 < 2 ^ 32 → inv p.1 → inv p'.1.
Proof.
  intros Hstep Hbound Hs. pose proof (created_grows _ _ Hstep) as Hgrow. assert (created p.1 + 1 < 2 ^ 32) as Hb by lia. clear Hgrow Hbound.
  destruct Hstep as [lbl Hstep]. destruct Hstep as [[s c] args params w Htype|[s c] args|[s c] args|[s c] a Ha|[s c] a be Ha|[s c] a Ha|[s c] a Ha|[s c] e|[s c]|[s c] error|s c|[s c] n Hn]; cbn [fst snd] in *.
  - pose proof (wp_StartSession args params w s c Hs Hb) as Hw. unfold wp in Hw. by eapply inv_session_started.
  - pose proof (wp_On args s c Hs Hb) as Hw. unfold wp in Hw. by eapply inv_on.
  - pose proof (wp_Off args s c Hs) as Hw. unfold wp in Hw. by eapply inv_off.
  - apply (list_elem_of_fmap_2 fst) in Ha. by eapply inv_worked, (wp_ExecuteWork a s c).
  - apply (list_elem_of_fmap_2 fst) in Ha. by eapply inv_worked, (wp_answer a be s c).
  - apply (list_elem_of_fmap_2 fst) in Ha. by eapply inv_worked, (wp_EndWait a s c).
  - apply (list_elem_of_fmap_2 fst) in Ha. destruct (inv_alive _ Hs _ Ha) as (_ & o & Ho & Hr). by eapply inv_completed, (wp_CompleteWork a o s c).
  - change (wp (NotifyEventInfo (W := W) e) (s, c) (λ _ p, inv p.1)). unfold NotifyEventInfo, Emit. apply wp_bind, wp_env_, wp_any.
    intros [] c1; [apply wp_set_own|apply wp_ret]; cbn [fst]; [by apply inv_set_events|done].
  - pose proof (inv_publish_next s c Hs) as Hw. unfold wp in Hw. destruct (events s) as [|[info eventInfo] l]; [by rewrite Hw|].
    rewrite Hw. change (inv (set_events l (set_calls (calls s ++ published s info eventInfo) s))). by apply inv_set_events, inv_published.
  - by apply (inv_thrown s [Thrown error]), Forall_singleton.
  - done.
  - by apply inv_other.
Qed.
Lemma inv_initial : inv initial.
Proof. split; cbn; try done; try constructor; try (intros; set_solver); lia. Qed.
Lemma sessions_inv_star p p' : star step p p' → created p'.1 + 1 < 2 ^ 32 → inv p.1 → inv p'.1.
Proof.
  induction 1 as [|p q p' Hpq Hqp IH]; [done|]. intros Hb Hp. apply IH; [done|]. eapply sessions_inv_step; [exact Hpq| |done].
  clear -Hqp Hb. induction Hqp as [|a b d Hab _ IH]; [done|]. specialize (IH Hb). pose proof (created_grows _ _ Hab). lia.
Qed.
Lemma sessions_inv_reachable c p : star step (initial, c) p → created p.1 + 1 < 2 ^ 32 → inv p.1.
Proof. intros Hstar Hb. eapply sessions_inv_star; [exact Hstar|exact Hb|apply inv_initial]. Qed.

(** *** Work goes on *)
Lemma staged_elem a st (l : list (nat * Stage)) : a ∈ l.*1 → (a, st) ∈ map (λ y, if (y.1 =? a)%nat then (a, st) else y) l.
Proof.
  induction l as [|[b q] l IH]; [by intros Ha%elem_of_nil|]. cbn. intros [->|Ha]%elem_of_cons; [rewrite Nat.eqb_refl; apply list_elem_of_here|].
  by apply list_elem_of_further, IH.
Qed.
Definition stage_in (l : list Stage) a (n : Z) (p : T * C) : Prop := created p.1 = n ∧ ∃ st, st ∈ l ∧ (a, st) ∈ works p.1.
Lemma ExecuteWork_stage a s c : inv s → a ∈ (works s).*1 → wp (ExecuteWork a) (s, c) (λ _ p, stage_in [Waiting; Executed] a (created s) p).
Proof.
  intros Hs Ha. destruct (inv_alive _ Hs _ Ha) as (_ & o & Ho & _). unfold ExecuteWork. eapply wp_with_object; [exact Ho|]. destruct (doWorker_ o) as [w|].
  - apply wp_bind, wp_env_, wp_any. intros [r be] c1. apply wp_bind, wp_set_own, wp_set_own. cbn [fst snd]. split; [done|].
    eexists. split; [|by apply staged_elem]. case_match; set_solver.
  - apply wp_set_own. cbn [fst snd]. split; [done|]. eexists. split; [|by apply staged_elem]. set_solver.
Qed.
Lemma EndWait_stage a s c : a ∈ (works s).*1 → wp (EndWait a) (s, c) (λ _ p, stage_in [Executed] a (created s) p).
Proof.
  intros Ha. unfold EndWait. apply wp_bind, wp_set_own, wp_set_own. split; [done|]. eexists. split; [|by apply staged_elem]. set_solver.
Qed.
Definition over a (n : Z) (p : T * C) : Prop := created p.1 = n ∧ a ∉ (works p.1).*1.
Lemma over_executed a p : inv p.1 → (a, Executed) ∈ works p.1 → ∃ p', star step p p' ∧ over a (created p.1) p'.
Proof.
  destruct p as [s c]. intros Hs Ha. eexists. split; [eapply star_step; [by apply step_complete|apply star_refl]|]. cbn in Ha.
  apply (list_elem_of_fmap_2 fst) in Ha. destruct (inv_alive _ Hs _ Ha) as (_ & o & Ho & Hr). pose proof (wp_CompleteWork a o s c Ho Hr) as Hw. unfold wp in Hw.
  destruct Hw as (f & x & _ & _ & Hw). unfold over. rewrite Hw. split; [done|]. cbn. intros (y & -> & Hy)%list_elem_of_fmap.
  apply list_elem_of_In, filter_In in Hy as [_ Hy]. by rewrite Nat.eqb_refl in Hy.
Qed.
Lemma over_waiting a p : inv p.1 → created p.1 + 1 < 2 ^ 32 → (a, Waiting) ∈ works p.1 → ∃ p', star step p p' ∧ over a (created p.1) p'.
Proof.
  destruct p as [s c]. intros Hs Hb Ha. pose proof (step_wait (s, c) a Ha) as Hstep. pose proof (list_elem_of_fmap_2 fst _ _ Ha) as Ha'.
  assert (stage_in [Executed] a (created s) (exec (EndWait a) (s, c))) as Hin by exact (EndWait_stage a s c Ha').
  revert Hstep Hin. generalize (exec (EndWait (V := V) (C := C) (W := W) a) (s, c)). intros p1 Hstep (Hc & st & ->%list_elem_of_singleton & Hst).
  destruct (over_executed a p1) as (p' & Hstar & Hover); [eapply sessions_inv_step; [exact Hstep|by rewrite Hc|done]|done|].
  exists p'. split; [by eapply star_step|]. by rewrite Hc in Hover.
Qed.
Lemma over_reachable a p : inv p.1 → created p.1 + 1 < 2 ^ 32 → a ∈ (works p.1).*1 → ∃ p', star step p p' ∧ over a (created p.1) p'.
Proof.
  destruct p as [s c]. intros Hs Hb Ha. pose proof Ha as ([b st] & -> & Hin)%list_elem_of_fmap. cbn in *.
  destruct st; [|by apply (over_waiting b (s, c))|by apply (over_executed b (s, c))]. pose proof (step_execute (s, c) b Hin) as Hstep.
  assert (stage_in [Waiting; Executed] b (created s) (exec (ExecuteWork b) (s, c))) as Hst by exact (ExecuteWork_stage b s c Hs Ha).
  revert Hstep Hst. generalize (exec (ExecuteWork (V := V) (C := C) b) (s, c)). intros p1 Hstep (Hc & st & Hst & Hw).
  assert (inv p1.1) as Hs' by (eapply sessions_inv_step; [exact Hstep|by rewrite Hc|done]).
  assert (∃ p', star step p1 p' ∧ over b (created p1.1) p') as (p' & Hstar & Hover).
  { apply elem_of_cons in Hst as [-> | ->%list_elem_of_singleton]; [apply over_waiting; [done|by rewrite Hc|done]|by apply over_executed]. }
  exists p'. split; [by eapply star_step|]. by rewrite Hc in Hover.
Qed.

(** *** What a call came to

    What has happened to the call with the address [a]; and what its work has come to: the result and the error of the request, the
    error it was answered with while it waited, or that the time was over before. *)
#[local] Notation Outcome := (Outcome V C W).
Definition of_call a (h : list (nat * Outcome)) : list Outcome := omap (λ y, if (y.1 =? a)%nat then Some y.2 else None) h.
Definition conclude (acc : Z * BusinessError.t * bool) (x : Outcome) : Z * BusinessError.t * bool :=
  let '(r, be, answered) := acc in
  match x with
  | Requested _ r' be' => (r', default be be', answered)
  | Answered be' => (r, be', true)
  | WaitOver => if answered then acc
                else (r, {| BusinessError.message := BusinessError.message be; BusinessError.errorNum := CallResult.TIME_OUT; BusinessError.data := BusinessError.data be |}, answered)
  | Asked _ _ _ | Completed _ => acc
  end.
Definition concluded (l : list Outcome) : Z * BusinessError.t * bool := fold_left conclude l (CallResult.SUCCESS, BusinessError.default, false).
(** The error of the service, or that of a request that failed, with the names of its function and permission. *)
Definition told_error (by_callback : bool) (type : Z) (l : list Outcome) : BusinessError.t :=
  let '(r, be, _) := concluded l in
  if r =? CallResult.SUCCESS then be
  else BusinessError.Build BusinessError.default r
         (GetIpcErrorMessage r (SessionFuncHelper.GetFuncName type) (if by_callback then async_permission type else promise_permission type) "execute error").
(** The call [x] into the engine settles a call with these arguments to which [l] happened: its own callback, or its promise when it has none, is given
    the result of its type that the updater had when the work was completed, or the error. *)
Definition settles a (args : list V) params (l : list Outcome) x : Prop :=
  let type := SessionParams.type params in
  let i := SessionParams.callbackStartIndex params in
  let by_callback := (i <? length args)%nat in
  let e := told_error by_callback type l in
  if BusinessError.errorNum e =? CallResult.SUCCESS then
    ∃ c, last l = Some (Completed c) ∧
      let v := (ClientHelper.buildJSObject (V := V) type (GetUpdateResult type c)).2 in
      if by_callback then x = Called a (argument args i) [None; v] else x = Resolved a v
  else ∃ v, (BuildBusinessError e).2 = Some v ∧
      if by_callback then x = Called a (argument args i) [Some v; None] else x = Rejected a (Some v).
Definition requested (w : W) (l : list Outcome) : Prop := match l with Requested w' _ _ :: _ => w' = w | _ => False end.
Definition told s a o (lo : list Outcome) : Prop :=
  ∃ args params w l, lo = Asked args params w :: l ∧ made_for args params w o ∧
    (workResult_ o, businessError_ o, asyncExecuteComplete_ o) = concluded l ∧ (l = [] ∨ requested w l) ∧
    (∀ st, (a, st) ∈ works s → st ≠ Queued → requested w l) ∧
    (∀ v x, of_session a (calls s) = [Returned a (Some v); x] → requested w l ∧ settles a args params l x).
Record faithful (h : list (nat * Outcome)) s : Prop := {
  faithful_told a o : objects s !! a = Some o → is_request o → told s a o (of_call a h);
  faithful_request a : of_call a h ≠ [] → ∃ o, objects s !! a = Some o ∧ is_request o
}.
Lemma of_call_appended a h h' : of_call a (h ++ h') = of_call a h ++ of_call a h'.
Proof. apply omap_app. Qed.
Lemma of_call_one a b (x : Outcome) : of_call a [(b, x)] = if decide (b = a) then [x] else [].
Proof. unfold of_call. cbn. by destruct (Nat.eqb_spec b a); [rewrite decide_True|rewrite decide_False]. Qed.
Lemma concluded_snoc l (x : Outcome) : concluded (l ++ [x]) = conclude (concluded l) x.
Proof. apply fold_left_app. Qed.
Lemma requested_app w l l' : requested w l → requested w (l ++ l').
Proof. by destruct l as [|[] l]. Qed.
(** What is known of a call only depends on its object, its work and its calls. *)
Lemma told_kept s s' a o lo :
  told s a o lo → (∀ st, (a, st) ∈ works s' → (a, st) ∈ works s) → of_session a (calls s') = of_session a (calls s) → told s' a o lo.
Proof.
  intros (args & params & w & l & Hlo & Hm & Hc & Hr & Hw & Hx) Hworks Hcalls. exists args, params, w, l. rewrite Hcalls. split_and!; try done.
  intros st Hst. by apply Hw, Hworks.
Qed.
Lemma faithful_kept h s s' :
  (∀ a o, objects s' !! a = Some o → is_request o → objects s !! a = Some o) →
  (∀ a o, objects s !! a = Some o → is_request o →
     objects s' !! a = Some o ∧ (∀ st, (a, st) ∈ works s' → (a, st) ∈ works s) ∧ of_session a (calls s') = of_session a (calls s)) →
  faithful h s → faithful h s'.
Proof.
  intros Hback Hforth [Htold Hreq]. split.
  - intros a o Ho Hr. pose proof (Hback a o Ho Hr) as Ho'. destruct (Hforth a o Ho' Hr) as (_ & Hw & Hc). apply (told_kept s); auto.
  - intros a Ha. destruct (Hreq a Ha) as (o & Ho & Hr). exists o. split; [|done]. by apply Hforth.
Qed.
Lemma faithful_no_object h s a : faithful h s → objects s !! a = None → of_call a h = [].
Proof.
  intros Hf Hn. destruct (of_call a h) as [|y l] eqn:Hl; [done|]. destruct (faithful_request _ _ Hf a) as (o' & Ho' & _); [by rewrite Hl|congruence].
Qed.
(** Something happens to one call. *)
Lemma faithful_at h s s' a o (x : Outcome) f :
  faithful h s → objects s !! a = Some o → is_request o → objects s' = alter f a (objects s) → is_request (f o) →
  (∀ b st, b ≠ a → (b, st) ∈ works s' → (b, st) ∈ works s) → (∀ b, b ≠ a → of_session b (calls s') = of_session b (calls s)) →
  told s' a (f o) (of_call a h ++ [x]) → faithful (h ++ [(a, x)]) s'.
Proof.
  intros Hf Ho Hr Hobj Hr' Hworks Hcalls Htold. split.
  - intros b o' Hb Hrb. rewrite of_call_appended, of_call_one. rewrite Hobj in Hb. destruct (decide (a = b)) as [<-|Hne].
    + rewrite list_lookup_alter_eq, Ho in Hb. cbn in Hb. injection Hb as <-. done.
    + rewrite list_lookup_alter_ne in Hb by done. rewrite app_nil_r. apply (told_kept s); [by apply faithful_told|intros; by apply Hworks|by apply Hcalls].
  - intros b. rewrite of_call_appended, of_call_one, Hobj. destruct (decide (a = b)) as [<-|Hne].
    + intros _. exists (f o). by rewrite list_lookup_alter_eq, Ho.
    + rewrite app_nil_r. intros (o' & Ho' & Hr2)%(faithful_request _ _ Hf). exists o'. by rewrite list_lookup_alter_ne.
Qed.
Lemma in_staged a b st st' (l : list (nat * Stage)) : b ≠ a → (b, st) ∈ map (λ y, if (y.1 =? a)%nat then (a, st') else y) l → (b, st) ∈ l.
Proof.
  intros Hne. induction l as [|[d q] l IH]; [done|]. cbn. destruct (Nat.eqb_spec d a); rewrite !elem_of_cons; intros [Heq|Hin]; try (by right; apply IH).
  - by injection Heq.
  - by left.
Qed.
(** The work of a call is under way: it has not been answered. *)
Lemma under_way s a o : inv s → a ∈ (works s).*1 → objects s !! a = Some o → is_request o → ∃ v, of_session a (calls s) = [Returned a (Some v)].
Proof. intros Hs Ha Ho Hr. destruct (inv_traces _ Hs _ _ Ho Hr) as [[_ Hv]|[Hn _]]; [done|contradiction]. Qed.

(** *** Every step is recorded *)
Lemma faithful_start h s s' r args params (w : W) :
  inv s → faithful h s → started s s' r args params w → faithful (h ++ [(length (objects s), Asked args params w)]) s'.
Proof.
  intros Hs Hf (o & l & Hid & Hmade & (Hr0 & Hbe0 & Hc0) & Hl & Hcase). set (n := length (objects s)) in *.
  assert (objects s !! n = None) as Hn by (by apply lookup_ge_None_2). pose proof (faithful_no_object _ _ _ Hf Hn) as Hnone.
  assert (objects s' = objects s ++ [o] ∧ (∀ b st, (b, st) ∈ works s' → (b, st) ∈ works s ∨ b = n ∧ st = Queued) ∧
    ∃ x, calls s' = calls s ++ l ++ [x] ∧ session_of x = Some n) as (Hobj & Hworks & x & Hcalls & Hx).
  { destruct Hcase as [(v & _ & _ & ->)|[_ ->]]; cbn [objects works calls make]; (split; [done|]); (split; [|eexists; split; [reflexivity|done]]).
    - intros b st. rewrite elem_of_app, list_elem_of_singleton. intros [?|[= -> ->]]; [by left|by right].
    - by left. }
  assert (∀ b, of_session b (calls s') = of_session b (calls s) ++ of_session b [x]) as Hof.
  { intros b. rewrite Hcalls, !of_session_app. rewrite (of_session_none b l); [done|]. eapply Forall_impl; [exact Hl|]. cbn. congruence. }
  split.
  - intros b o' Hb Hrb. rewrite of_call_appended, of_call_one. rewrite Hobj in Hb. apply lookup_snoc in Hb as [Hb|[-> ->]].
    + assert (b ≠ n) as Hne by (apply lookup_lt_Some in Hb; unfold n; lia). rewrite decide_False, app_nil_r by done. apply (told_kept s).
      * by apply faithful_told.
      * intros st [?|[? _]]%Hworks; done.
      * rewrite Hof, (of_session_none b [x]), app_nil_r; [done|]. constructor; [congruence|constructor].
    + fold n. rewrite Hnone, decide_True by done. exists args, params, w, []. split_and!; try done.
      * unfold concluded. cbn. by rewrite Hr0, Hbe0, Hc0.
      * by left.
      * intros st [Hin|[_ ->]]%Hworks; [|done]. apply (list_elem_of_fmap_2 fst) in Hin. destruct (inv_alive _ Hs _ Hin) as (_ & o' & Ho' & _). cbn in Ho'. congruence.
      * intros v y. rewrite Hof, (inv_later _ Hs n) by done. unfold of_session. rewrite filter_cons_True by done. done.
  - intros b. rewrite of_call_appended, of_call_one, Hobj. destruct (decide (n = b)) as [<-|Hne].
    + intros _. exists o. split; [apply lookup_last|by eapply made_request].
    + rewrite app_nil_r. intros (o' & Ho' & Hr2)%(faithful_request _ _ Hf). exists o'. split; [|done]. rewrite lookup_app_l; [done|]. by apply lookup_lt_Some in Ho'.
Qed.
Lemma faithful_new_listener h s (info : EventClassifyInfo.t) handler n m : faithful h s → faithful h (with_session s (listener_of s info handler n) m false []).
Proof.
  apply faithful_kept; unfold with_session, option_works; cbn [objects works calls make]; rewrite ?app_nil_r.
  - intros a o Ho Hr. apply lookup_snoc in Ho as [Ho|[_ ->]]; [done|]. by destruct Hr.
  - intros a o Ho Hr. split; [|done]. rewrite lookup_app_l; [done|]. by apply lookup_lt_Some in Ho.
Qed.
Lemma faithful_calls h s l : (∀ a o, objects s !! a = Some o → is_request o → of_session a l = []) → faithful h s → faithful h (set_calls (calls s ++ l) s).
Proof.
  intros Hl. apply faithful_kept; cbn [objects works calls set_calls]; [done|]. intros a o Ho Hr. split; [done|]. split; [done|].
  by rewrite of_session_app, (Hl a o), app_nil_r.
Qed.
Lemma faithful_thrown h s l : thrown l → faithful h s → faithful h (set_calls (calls s ++ l) s).
Proof. intros Hl. apply faithful_calls. intros a o _ _. apply of_session_none. eapply Forall_impl; [exact Hl|]. cbn. congruence. Qed.
Lemma faithful_on h s c args r s' : faithful h s → on_outcome s c args r s' → faithful h s'.
Proof.
  intros Hf. unfold on_outcome. destruct (on_request c args) as [q|].
  - intros [(_ & _ & ->)|(_ & info & _ & _ & ->)]; [done|]. by apply faithful_new_listener.
  - intros (_ & [(l & Hl & ->)|(info & ->)]); [by apply faithful_thrown|]. by apply faithful_new_listener.
Qed.
Lemma faithful_off h s c args r s' : faithful h s → off_outcome s c args r s' → faithful h s'.
Proof.
  intros Hf. unfold off_outcome. destruct (off_request c args) as [q|].
  - intros (_ & info & _ & (_ & _ & Hw & _ & Hc & _ & Hobj)). revert Hf. apply faithful_kept; rewrite ?Hw, ?Hc.
    + intros a o. rewrite Hobj. destruct (decide _); [|done]. intros (o' & -> & ->)%fmap_Some Hr. destruct (RemoveHandlerRef_keeps o') as (_ & _ & Hk & Hid).
      by rewrite Hid by (by apply Hk).
    + intros a o Ho Hr. split; [|done]. rewrite Hobj. destruct (decide _); [|done]. rewrite Ho. cbn. by rewrite (proj2 (proj2 (proj2 (RemoveHandlerRef_keeps o)))).
  - intros (_ & l & Hl & ->). by apply faithful_thrown.
Qed.
Lemma faithful_execute h s c a :
  inv s → faithful h s → (a, Queued) ∈ works s → faithful (h ++ request_made a (s, c)) (exec (ExecuteWork a) (s, c)).1.
Proof.
  intros Hs Hf Hin. pose proof (list_elem_of_fmap_2 fst _ _ Hin) as Ha. cbn in Ha. destruct (inv_alive _ Hs _ Ha) as (_ & o & Ho & Hready).
  pose proof (ready_request _ Hready) as Hr. destruct (faithful_told _ _ Hf _ _ Ho Hr) as (args & params & w & l & Hl & Hmade & Hc & Hq & Hst & Hx).
  pose proof (proj1 (proj2 Hmade)) as Hwork. unfold request_made. cbn [fst snd]. rewrite Ho, Hwork.
  set (need := SessionParams.isNeedBusinessError (sessionParams_ o)). destruct (eval (run_worker w _) c) as [r be] eqn:Hrun.
  assert (wp (ExecuteWork a) (s, c) (λ _ p, ∃ st, p.1 =
    set_works (map (λ y, if (y.1 =? a)%nat then (a, st) else y) (works s))
      (set_objects (alter (λ o, set_work r (if need then default (businessError_ o) be else businessError_ o) o) a (objects s)) s))) as Hexec.
  { unfold ExecuteWork. eapply wp_with_object; [exact Ho|]. rewrite Hwork. apply wp_bind, wp_env_. cbn [fst snd]. fold need. unfold wp at 1. rewrite Hrun.
    apply wp_bind, wp_set_own, wp_set_own. cbn [fst snd]. eexists. reflexivity. }
  destruct Hexec as [st Hexec]. rewrite Hexec. eapply faithful_at; [exact Hf|exact Ho|exact Hr|reflexivity|exact Hr| |done|].
  - intros b st' Hb. cbn [works set_works set_objects]. by apply in_staged.
  - rewrite Hl. exists args, params, w, (l ++ [Requested w r (if need then be else None)]). cbn [app].
    assert (requested w (l ++ [Requested w r (if need then be else None)])) as Hreq by (destruct Hq as [->|Hq]; [done|by apply requested_app]).
    split_and!; try done.
    + rewrite concluded_snoc, <- Hc. cbn. by destruct need.
    + by right.
    + intros v x Hcalls. destruct (under_way _ _ _ Hs Ha Ho Hr) as [v' Hv]. cbn [calls set_works set_objects] in Hcalls. congruence.
Qed.
(** Waiting work stays requested. *)
Lemma faithful_waiting h s s' a o (x : Outcome) f :
  inv s → faithful h s → (a, Waiting) ∈ works s → objects s !! a = Some o → is_request o →
  objects s' = alter f a (objects s) → calls s' = calls s → (∀ b st, b ≠ a → (b, st) ∈ works s' → (b, st) ∈ works s) →
  kind (f o) = kind o → sessionParams_ (f o) = sessionParams_ o → doWorker_ (f o) = doWorker_ o →
  (workResult_ (f o), businessError_ (f o), asyncExecuteComplete_ (f o)) = conclude (workResult_ o, businessError_ o, asyncExecuteComplete_ o) x →
  faithful (h ++ [(a, x)]) s'.
Proof.
  intros Hs Hf Hin Ho Hr Hobj Hcalls Hworks Hk Hp Hw Hx. pose proof (list_elem_of_fmap_2 fst _ _ Hin) as Ha. cbn in Ha.
  destruct (faithful_told _ _ Hf _ _ Ho Hr) as (args & params & w & l & Hl & Hmade & Hc & Hq & Hst & Hset).
  assert (requested w l) as Hreq by (by apply (Hst Waiting)).
  eapply faithful_at; [exact Hf|exact Ho|exact Hr|exact Hobj|by unfold is_request in *; rewrite Hk|exact Hworks|by intros; rewrite Hcalls|].
  rewrite Hl. exists args, params, w, (l ++ [x]). split_and!; try done.
  - unfold made_for in *. by rewrite Hk, Hp, Hw.
  - rewrite concluded_snoc, <- Hc. exact Hx.
  - right. by apply requested_app.
  - intros st _ _. by apply requested_app.
  - intros v y. rewrite Hcalls. destruct (under_way _ _ _ Hs Ha Ho Hr) as [v' Hv]. congruence.
Qed.
Lemma told_error_agrees o args params (w : W) l :
  made_for args params w o → (workResult_ o, businessError_ o, asyncExecuteComplete_ o) = concluded l →
  GetBusinessError o = told_error (SessionParams.callbackStartIndex params <? length args)%nat (SessionParams.type params) l.
Proof.
  intros (Hp & _ & Hk) Hc. unfold told_error. rewrite <- Hc. unfold GetBusinessError, IsWorkExecuteSuccess. destruct (_ =? _); [done|].
  unfold BuildWorkBusinessErr, GetSessionFuncParameter, GetType. rewrite Hp. destruct (kind o); cbv iota zeta in *; [..|done].
  - by rewrite (proj2 (Nat.ltb_lt _ _)) by apply Hk.
  - by rewrite (proj2 (Nat.ltb_ge _ _)).
Qed.
Lemma answer_settles a o c x args params (w : W) l :
  made_for args params w o → (workResult_ o, businessError_ o, asyncExecuteComplete_ o) = concluded l → answer_of a o c x →
  settles a args params (l ++ [Completed c]) x.
Proof.
  intros Hmade Hc. unfold answer_of, settles. rewrite (told_error_agrees o args params w (l ++ [Completed c]) Hmade) by (by rewrite concluded_snoc, <- Hc).
  destruct Hmade as (Hp & _ & Hk). unfold GetType. rewrite Hp. set (e := told_error _ _ _). destruct (_ =? _).
  - intros Hx. exists c. split; [apply last_snoc|]. destruct (kind o) as [[f|]| |]; try done.
    + destruct Hk as [Hlt [?|Hfn]]; [done|]. injection Hfn as ->. by rewrite (proj2 (Nat.ltb_lt _ _)).
    + by rewrite (proj2 (Nat.ltb_ge _ _)).
  - intros (v & Hv & Hx). exists v. split; [done|]. destruct (kind o) as [[f|]| |]; try done.
    + destruct Hk as [Hlt [?|Hfn]]; [done|]. injection Hfn as ->. by rewrite (proj2 (Nat.ltb_lt _ _)).
    + by rewrite (proj2 (Nat.ltb_ge _ _)).
Qed.
Lemma faithful_complete h s c a o s' :
  inv s → faithful h s → (a, Executed) ∈ works s → objects s !! a = Some o → is_request o → completed s c a o s' → faithful (h ++ [(a, Completed c)]) s'.
Proof.
  intros Hs Hf Hin Ho Hr (f & x & Hfo & Hx & ->). pose proof (list_elem_of_fmap_2 fst _ _ Hin) as Ha. cbn in Ha.
  destruct (faithful_told _ _ Hf _ _ Ho Hr) as (args & params & w & l & Hl & Hmade & Hc & Hq & Hst & Hset).
  assert (requested w l) as Hreq by (by apply (Hst Executed)).
  assert (made_for args params w (f o) ∧ is_request (f o) ∧
    (workResult_ (f o), businessError_ (f o), asyncExecuteComplete_ (f o)) = (workResult_ o, businessError_ o, asyncExecuteComplete_ o)) as (Hmade' & Hr' & Hfields).
  { destruct Hfo as [->|(g & Hg & ->)]; [done|]. split; [|done]. destruct Hmade as (Hp & Hw & Hk). rewrite Hg in Hk. split; [done|]. split; [done|]. cbn. split; [apply Hk|by left]. }
  destruct (answer_answers _ _ _ _ Hx) as [_ Hxa].
  eapply faithful_at; [exact Hf|exact Ho|exact Hr|reflexivity|exact Hr'| | |]; cbn [works calls make].
  - intros b st _ Hb. apply list_elem_of_In, List.filter_In in Hb as [Hb _]. by apply list_elem_of_In.
  - intros b Hb. rewrite of_session_app, (of_session_none b [x]), app_nil_r; [done|]. constructor; [congruence|constructor].
  - rewrite Hl. exists args, params, w, (l ++ [Completed c]). split_and!; try done.
    + by rewrite concluded_snoc, <- Hc, Hfields.
    + right. by apply requested_app.
    + intros st _ _. by apply requested_app.
    + intros v y. cbn [calls make]. destruct (under_way _ _ _ Hs Ha Ho Hr) as [v' Hv]. rewrite of_session_app, Hv. unfold of_session at 1. rewrite filter_cons_True by done.
      intros [= _ <-]. split; [by apply requested_app|]. eapply answer_settles; [exact Hmade|exact Hc|exact Hx].
Qed.
Lemma faithful_step h l p p' : inv p.1 → created p.1 + 1 < 2 ^ 32 → faithful h p.1 → labelled p l p' → faithful (h ++ l) p'.1.
Proof.
  intros Hs Hb Hf Hstep.
  destruct Hstep as [[s c] args params w Htype|[s c] args|[s c] args|[s c] a Ha|[s c] a be Ha|[s c] a Ha|[s c] a Ha|[s c] e|[s c]|[s c] error|s c|[s c] n Hn]; cbn [fst snd] in *;
    rewrite ?app_nil_r.
  - pose proof (wp_StartSession args params w s c Hs Hb) as Hw. unfold wp in Hw. by eapply faithful_start.
  - pose proof (wp_On args s c Hs Hb) as Hw. unfold wp in Hw. by eapply faithful_on.
  - pose proof (wp_Off args s c Hs) as Hw. unfold wp in Hw. by eapply faithful_off.
  - by apply faithful_execute.
  - pose proof (list_elem_of_fmap_2 fst _ _ Ha) as Ha'. cbn in Ha'. destruct (inv_alive _ Hs _ Ha') as (_ & o & Ho & Hr).
    eapply (faithful_waiting h s _ a o (Answered be) (OnAsyncComplete be)); try done. by apply ready_request.
  - pose proof (list_elem_of_fmap_2 fst _ _ Ha) as Ha'. cbn in Ha'. destruct (inv_alive _ Hs _ Ha') as (_ & o & Ho & Hr).
    eapply (faithful_waiting h s _ a o WaitOver); [done|done|done|done|by apply ready_request|reflexivity|reflexivity|..].
    + intros b st Hne. cbn [works set_works set_objects]. by apply in_staged.
    + cbv beta. by destruct (asyncExecuteComplete_ o).
    + cbv beta. by destruct (asyncExecuteComplete_ o).
    + cbv beta. by destruct (asyncExecuteComplete_ o).
    + cbv beta. cbn [conclude]. destruct (asyncExecuteComplete_ o) eqn:Hc; [by rewrite Hc|]. cbn. by rewrite Hc.
  - pose proof (list_elem_of_fmap_2 fst _ _ Ha) as Ha'. cbn in Ha'. destruct (inv_alive _ Hs _ Ha') as (_ & o & Ho & Hr).
    eapply faithful_complete; try done; [by apply ready_request|]. by apply (wp_CompleteWork a o s c).
  - change (wp (NotifyEventInfo (W := W) e) (s, c) (λ _ p, faithful h p.1)). unfold NotifyEventInfo, Emit. apply wp_bind, wp_env_, wp_any.
    intros [] c1; [apply wp_set_own|by apply wp_ret]. cbn [fst]. revert Hf. by apply faithful_kept.
  - pose proof (inv_publish_next s c Hs) as Hw. unfold wp in Hw. destruct (events s) as [|[info eventInfo] rest]; [by rewrite Hw|].
    rewrite Hw. change (faithful h (set_events rest (set_calls (calls s ++ published s info eventInfo) s))).
    apply (faithful_kept h (set_calls (calls s ++ published s info eventInfo) s)); [done..|]. apply faithful_calls; [|done].
    intros a o Ho Hr. by eapply published_listeners.
  - apply (faithful_thrown h s [Thrown error]); [by apply Forall_singleton|done].
  - done.
  - revert Hf. by apply faithful_kept.
Qed.
Lemma course_inv c h p : course c h p → created p.1 + 1 < 2 ^ 32 → inv p.1 ∧ faithful h p.1.
Proof.
  induction 1 as [|h l p p' _ IH Hl]; intros Hb.
  - split; [apply inv_initial|]. by split.
  - pose proof (created_grows p p' (ex_intro _ l Hl)) as Hg. destruct IH as [Hs Hf]; [lia|].
    split; [by eapply sessions_inv_step; [exists l|..]|]. apply (faithful_step h l p p'); [done|lia|done..].
Qed.

(** What an application sees of its calls: the object a piece of work points to is alive until that work
    is completed; every call that was asked for failed at once, with a null value, or its work is under way, or it was answered
    exactly once, by its callback or its promise, after the request it asked for was made of the service; and work under way can be brought to its end. *)
Definition settled_once (h : list (nat * Outcome)) (p : T * C) : Prop :=
  (∀ a, a ∈ (works p.1).*1 → a ∈ (sessions_ p.1).*2) ∧
  (∀ a args params w l, of_call a h = Asked args params w :: l →
    of_session a (calls p.1) = [Returned a None] ∧ a ∉ (sessions_ p.1).*2 ∨
    ∃ v, of_session a (calls p.1) = [Returned a (Some v)] ∧ a ∈ (works p.1).*1 ∨
         ∃ x, of_session a (calls p.1) = [Returned a (Some v); x] ∧ requested w l ∧ settles a args params l x ∧ a ∉ (sessions_ p.1).*2) ∧
  (∀ a o, objects p.1 !! a = Some o → is_request o → ∃ args params w l, of_call a h = Asked args params w :: l) ∧
  (∀ a, a ∈ (works p.1).*1 → ∃ p', star step p p' ∧ created p'.1 = created p.1 ∧ a ∉ (works p'.1).*1).
Lemma inv_settled h p : inv p.1 → faithful h p.1 → created p.1 + 1 < 2 ^ 32 → settled_once h p.
Proof.
  intros Hs Hf Hb. split_and!; [intros a Ha; by apply inv_alive| | |intros a; by apply over_reachable].
  - intros a args params w l Hl. destruct (faithful_request _ _ Hf a) as (o & Ho & Hr); [by rewrite Hl|].
    destruct (faithful_told _ _ Hf _ _ Ho Hr) as (args' & params' & w' & l' & Hl' & _ & _ & _ & _ & Hset). rewrite Hl in Hl'. injection Hl' as <- <- <- <-.
    destruct (inv_traces _ Hs _ _ Ho Hr) as [[Hw [v Hv]]|[Hw Ht]]; [right; exists v; by left|].
    assert (a ∉ (sessions_ p.1).*2) as Hn by (intros Hin; by apply Hw, (inv_started _ Hs a o)).
    destruct Ht as [Ht|(v & x & Ht & _)]; [by left|right]. exists v. right. exists x. destruct (Hset v x Ht). by split_and!.
  - intros a o Ho Hr. destruct (faithful_told _ _ Hf _ _ Ho Hr) as (args & params & w & l & Hl & _). by exists args, params, w, l.
Qed.
(** C34: However calls, the worker threads and the events interleave (in a process that makes fewer than
    2^32 sessions): the object a piece of work points to is alive until that work is completed; a
    call of the application either fails at once, with a null value, or is answered once its work is
    completed and then exactly once, by its own callback, or by its promise if it has none, and never by both an error and a
    result.  The request that was asked for was made of the service before; the error is the one this request returned, or that the
    service answered with while the call waited, or that of the time being over, with the names of its function and permission if the request failed; the result is the one of its type that the updater had at
    its completion (without one, a promise stays pending); and whatever has happened, work that was started can be brought to its end. *)
Theorem calls_settled_once c h p : course c h p → created p.1 + 1 < 2 ^ 32 → settled_once h p.
Proof. intros Hc Hb. destruct (course_inv c h p Hc Hb) as [Hs Hf]. by apply inv_settled. Qed.

Definition function_called x : option (V * list (option V)) := match x with Called _ f args => Some (f, args) | _ => None end.
Lemma published_handlers s info eventInfo :
  map function_called (published s info eventInfo) =
  let (r, event) := ClientHelper.BuildEventInfo eventInfo in
  if r =? CLIENT_SUCCESS
  then map (λ h : Z * V, Some (h.2, [Some event])) (List.filter (λ h, h.1 =? EventClassifyInfo.eventClassify info) (handlers s)) else [].
Proof.
  unfold published. destruct (ClientHelper.BuildEventInfo eventInfo) as [r event]. destruct (r =? CLIENT_SUCCESS); [|done].
  unfold deliveries, handlers. induction (session_objects s) as [|y l IH]; [done|]. cbn. unfold delivery at 1. destruct (handler_of y.2) as [h|]; cbn; [|exact IH].
  destruct (h.1 =? _); cbn; [by rewrite IH|exact IH].
Qed.
Lemma handlers_ext s s' : objects s' = objects s → sessions_ s' = sessions_ s → handlers s' = handlers s.
Proof. unfold handlers, session_objects. by intros -> ->. Qed.
(** C35: What the listeners implement: a list of handlers, each with the class of the events it is called
    for, without repetition.  [on] adds a handler that is not in it, [off] removes one handler of a class or all,
    a call that is not valid changes nothing; an event calls exactly the handlers of its class, in the
    order in which they were added and once each, with the object of the event. *)
Theorem subscriptions_refined c0 s c :
  star step (initial, c0) (s, c) → created s + 1 < 2 ^ 32 →
  NoDup (handlers s) ∧
  (∀ args, let s' := (exec (On args) (s, c)).1 in
     match on_request c args with
     | None => handlers s' = handlers s
     | Some h => (h ∈ handlers s → handlers s' = handlers s) ∧ (h ∉ handlers s → handlers s' = handlers s ++ [h])
     end) ∧
  (∀ args, handlers (exec (Off args) (s, c)).1 =
     match off_request c args with None => handlers s | Some q => List.filter (λ h, negb (off_removes q h)) (handlers s) end) ∧
  (∀ info eventInfo rest, events s = (info, eventInfo) :: rest →
     let s' := (exec publish_next (s, c)).1 in
     events s' = rest ∧ handlers s' = handlers s ∧
     ∃ made, calls s' = calls s ++ made ∧
       map function_called made =
       let (r, event) := ClientHelper.BuildEventInfo eventInfo in
       if r =? CLIENT_SUCCESS
       then map (λ h : Z * V, Some (h.2, [Some event])) (List.filter (λ h, h.1 =? EventClassifyInfo.eventClassify info) (handlers s)) else []).
Proof.
  intros Hstar Hb. pose proof (sessions_inv_reachable _ _ Hstar Hb) as Hs. cbn [fst] in Hs, Hb. split_and!; [by apply inv_distinct|..].
  - intros args. cbv zeta. pose proof (wp_On args s c Hs Hb) as Hw. unfold wp, on_outcome in Hw. destruct (on_request c args) as [h|].
    + destruct Hw as [(Hin & _ & ->)|(Hnot & info & Hi & _ & ->)]; [by split|]. split; [done|]. intros _. rewrite handlers_with_session by done. cbn.
      rewrite Hi. by destruct h.
    + destruct Hw as (_ & [(l & _ & ->)|(info & ->)]); [done|]. rewrite handlers_with_session by done. by rewrite app_nil_r.
  - intros args. pose proof (wp_Off args s c Hs) as Hw. unfold wp, off_outcome in Hw. destruct (off_request c args) as [[k h]|].
    + destruct Hw as (_ & info & Hi & Hr). rewrite (handlers_removed _ _ _ _ Hs Hr). cbn in Hi. by rewrite Hi.
    + destruct Hw as (_ & l & _ & ->). done.
  - intros info eventInfo rest Hev. pose proof (inv_publish_next s c Hs) as Hw. unfold wp in Hw. rewrite Hev in Hw. rewrite Hw.
    split; [done|]. split; [done|]. exists (published s info eventInfo). split; [done|]. apply published_handlers.
Qed.
End facts.
End Sessions.

(** ** A process

    An updater whose closures are the number their request returns; the queues always have room. *)
Module SampleSessions.
Import SessionManager Sessions SampleJs SampleArgs SessionType.
#[local] Instance tokens : TokenKits Z := system_app Z.
#[local] Instance engine : JsEngine js Z := {
  napi_queue_async_work_with_qos := ret true; napi_send_event := ret true; napi_call_function _ _ := ret true;
  napi_create_promise a := object [("promise", Number (Z.of_nat a))]
}.
#[local] Instance checker : Updater Z Z := {
  RegisterCallback := ret tt; UnRegisterCallback := ret tt;
  GetUpdateResult type _ :=
    if type =? SESSION_CHECK_VERSION then ClientHelper.CheckResultOf (Some CheckResult.default) else ClientHelper.UndefinedStatus;
  run_worker r be := ret (r, be)
}.
#[local] Instance checker_laws : UpdaterLaws js Z Z.
Proof. intros type c. unfold GetUpdateResult, checker. destruct (Z.eqb_spec type SESSION_CHECK_VERSION) as [->|_]; reflexivity. Qed.
#[local] Notation State := (SessionManager.t js Z * Z)%type.

(** A check with a callback succeeds while a check with a promise, started before, is still in the
    queue; a third one, whose callback is no function, is refused. *)
Definition check : SessionParams.t := SessionParams.new SESSION_CHECK_VERSION 1 true false.
Definition one : State := exec (StartSession [] check CallResult.NET_ERROR) (initial, 0).
Definition two : State := exec (StartSession [Fun 5] check CallResult.SUCCESS) one.
Definition three : State := exec (StartSession [Str "f"] check CallResult.SUCCESS) two.
Definition four : State := exec (ExecuteWork 1) three.
Definition five : State := exec (CompleteWork 1) four.
Definition happened : list (nat * Outcome js Z Z) := [
  (0%nat, Asked [] check CallResult.NET_ERROR); (1%nat, Asked [Fun 5] check CallResult.SUCCESS); (2%nat, Asked [Str "f"] check CallResult.SUCCESS);
  (1%nat, Requested CallResult.SUCCESS CallResult.SUCCESS (Some BusinessError.default)); (1%nat, Completed 0)].
Lemma five_course : course 0 happened five.
Proof.
  assert (SessionParams.type check ≠ SESSION_SUBSCRIBE) as Hcheck by (vm_compute; discriminate).
  assert (labelled (initial, 0) [(0%nat, Asked [] check CallResult.NET_ERROR)] one) as H1 by (unfold one; by apply (on_start (initial, 0))).
  assert (labelled one [(1%nat, Asked [Fun 5] check CallResult.SUCCESS)] two) as H2 by (unfold two; by apply (on_start one)).
  assert (labelled two [(2%nat, Asked [Str "f"] check CallResult.SUCCESS)] three) as H3 by (unfold three; by apply (on_start two)).
  assert (labelled three [(1%nat, Requested CallResult.SUCCESS CallResult.SUCCESS (Some BusinessError.default))] four) as H4.
  { assert (request_made 1 three = [(1%nat, Requested CallResult.SUCCESS CallResult.SUCCESS (Some BusinessError.default))]) as <- by (vm_compute; reflexivity).
    unfold four. apply on_execute, (bool_decide_unpack _). vm_compute. exact I. }
  assert (labelled four [(1%nat, Completed 0)] five) as H5.
  { assert (four.2 = 0) as <- by (vm_compute; reflexivity). unfold five. apply on_complete, (bool_decide_unpack _). vm_compute. exact I. }
  exact (course_go 0 _ _ _ _ (course_go 0 _ _ _ _ (course_go 0 _ _ _ _ (course_go 0 _ _ _ _ (course_go 0 _ _ _ _ (course_begin 0) H1) H2) H3) H4) H5).
Qed.
Lemma calls_settled_once_witness :
  (0%nat ∈ (works five.1).*1 ∧ 0%nat ∈ (sessions_ five.1).*2) ∧
  (∃ v, of_session 1 (calls five.1) = [Returned 1 (Some (Number 0)); Called 1 (Fun 5) [None; v]] ∧ 1%nat ∉ (sessions_ five.1).*2) ∧
  of_session 2 (calls five.1) = [Returned 2 None] ∧ 2%nat ∉ (sessions_ five.1).*2.
Proof.
  destruct (calls_settled_once 0 happened five five_course ltac:(vm_compute; reflexivity)) as (Halive & Hsettled & _).
  assert (0%nat ∈ (works five.1).*1) as Hwork by (apply (bool_decide_unpack _); vm_compute; exact I).
  split_and!; [exact Hwork|exact (Halive 0%nat Hwork)|..].
  - destruct (Hsettled 1%nat _ _ _ _ eq_refl) as [[Ht _]|(v & [[Ht _]|(x & Ht & _ & Hx & Hn)])]; [vm_compute in Ht; discriminate..|].
    destruct Hx as (c & _ & Hx). eexists. split; [|exact Hn].
    rewrite Ht, Hx. vm_compute in Ht. injection Ht as Hv _. rewrite <- Hv. reflexivity.
  - destruct (Hsettled 2%nat _ _ _ _ eq_refl) as [Hnone|(v & [[Ht _]|(x & Ht & _)])]; [|vm_compute in Ht; discriminate..]. exact (proj1 Hnone).
  - destruct (Hsettled 2%nat _ _ _ _ eq_refl) as [Hnone|(v & [[Ht _]|(x & Ht & _)])]; [|vm_compute in Ht; discriminate..]. exact (proj2 Hnone).
Defined.

(** Two listeners of the events of the task; an event has arrived. *)
Definition of_task : js := object [("eventClassify", Number EventClassify.TASK)].
Definition first_on : State := exec (On [of_task; Fun 5]) (initial, 0).
Definition second_on : State := exec (On [of_task; Fun 6]) first_on.
Definition arrived : State := exec (NotifyEventInfo failed) second_on.
Lemma arrived_reachable : star step (initial, 0) arrived.
Proof.
  assert (step (initial, 0) first_on) as H1 by (unfold first_on; apply step_on).
  assert (step first_on second_on) as H2 by (unfold second_on; apply step_on).
  assert (step second_on arrived) as H3 by (unfold arrived; apply step_event).
  do 3 (eapply star_step; [eassumption|]). apply star_refl.
Qed.
Lemma subscriptions_refined_witness :
  handlers (exec (On [of_task; Fun 5]) arrived).1 = handlers arrived.1 ∧
  handlers (exec (Off [of_task; Fun 5]) arrived).1 = [(EventClassify.TASK, Fun 6)] ∧
  ∃ event made, calls (exec publish_next arrived).1 = calls arrived.1 ++ made ∧ map function_called made = [Some (Fun 5, [Some event]); Some (Fun 6, [Some event])].
Proof.
  destruct (subscriptions_refined 0 arrived.1 arrived.2 arrived_reachable ltac:(vm_compute; reflexivity)) as (_ & Hon & Hoff & Hpublish).
  split_and!.
  - apply (proj1 (Hon [of_task; Fun 5])). vm_compute. left.
  - etransitivity; [exact (Hoff [of_task; Fun 5])|]. vm_compute. reflexivity.
  - destruct (Hpublish _ _ _ eq_refl) as (_ & _ & made & Hcalls & Hmade). eexists _, made. split; [exact Hcalls|]. rewrite Hmade. vm_compute. reflexivity.
Defined.
End SampleSessions.
