(* ===== verification/JsUpdater.v ===== *)
(** * The objects an application calls

    Models [frameworks/js/napi/update]: [update_client.cpp] (the online updater),
    [local_updater.cpp], [restorer.cpp] and the constructors of [update_module.cpp].  Each is an
    [Updater] ([JsSession]) that asks the service through the library of [Client].  The work of a session is
    a computation on the members of its object at the time it runs, as the closures capture [this]. *)
From Stdlib Require Import ZArith Lia Ascii String.
From stdpp Require Import base tactics list strings gmap.
From S2P Require Import Prelude CppString Models Access Clients Client Napi JsArgs JsSession.

#[local] Open Scope Z_scope.

(** A new callback object; the process. *)
Class CallbackKits (E : Type) := { new_UpdateCallback : UpgradeInfo.t → ST E Z; getpid : E → Z }.

(** [C]: the members of the object and the process, with its connection to the service. *)
#[local] Notation Kits E := (UpdateServiceKitsImpl.t * E)%type.
(** The closures: the error they fill, and what the request returned. *)
#[local] Notation Work T E := (BusinessError.t → ST (T * Kits E) (Z * BusinessError.t)).
(** The error is never null: every session asks for one. *)
Definition run_closure {C : Type} (w : BusinessError.t → ST C (Z * BusinessError.t)) (be : option BusinessError.t) : ST C (Z * option BusinessError.t) :=
  let* (r, be) := w (default BusinessError.default be) in
  ret (r, Some be).
(** The caller, its token and its permissions, as the environment of the object tells them. *)
#[export] Instance token_kits_object {T K E : Type} `{TokenKits E} : TokenKits (T * (K * E)) := {|
  TOKEN_HAP := TOKEN_HAP (E := E); TOKEN_NATIVE := TOKEN_NATIVE (E := E); PERMISSION_GRANTED := PERMISSION_GRANTED (E := E);
  GetCallingTokenID c := GetCallingTokenID c.2.2; GetCallingFullTokenID c := GetCallingFullTokenID c.2.2; GetCallingUid c := GetCallingUid c.2.2;
  GetTokenType c := GetTokenType c.2.2; IsSystemAppByFullTokenID c := IsSystemAppByFullTokenID c.2.2; VerifyAccessToken c := VerifyAccessToken c.2.2;
  GetHapTokenInfo c := GetHapTokenInfo c.2.2; GetBoolParameter c := GetBoolParameter c.2.2 |}.

(** At most [n] attempts, with a pause after a failure. *)
(*@ js/napi/update/src/update_client.cpp:88-101 UpdateClient::RegisterCallback *)
Fixpoint register_attempts {E : Type} `{SystemAbilities E, ServiceProxy E, CallbackKits E} (info : UpgradeInfo.t) (n : nat) : ST (Kits E) unit :=
  match n with
  | O => ret tt
  | S n =>
      let* callback := env_ (new_UpdateCallback info) in
      let* r := UpdateServiceKitsImpl.RegisterUpdateCallback info callback in
      if r =? CallResult.SUCCESS then ret tt else register_attempts info n
  end.

(** ** The online updater *)
Module UpdateClient.
Import SessionType SessionManager NapiCommonUtils ClientStatus.
(*@ js/napi/update/include/update_client.h:95-115 UpdateClient *)
Record t := {
  isInit_ : bool;
  upgradeInfo_ : UpgradeInfo.t;
  upgradePolicy_ : UpgradePolicy.t;
  checkResult_ : CheckResult.t;
  newVersionInfo_ : NewVersionInfo.t;
  newVersionDescriptionInfo_ : VersionDescriptionInfo.t;
  currentVersionInfo_ : CurrentVersionInfo.t;
  currentVersionDescriptionInfo_ : VersionDescriptionInfo.t;
  taskInfo_ : TaskInfo.t;
  versionDigestInfo_ : VersionDigestInfo.t;
  descriptionOptions_ : DescriptionOptions.t;
  upgradeOptions_ : UpgradeOptions.t;
  clearOptions_ : ClearOptions.t;
  downloadOptions_ : DownloadOptions.t;
  resumeDownloadOptions_ : ResumeDownloadOptions.t;
  pauseDownloadOptions_ : PauseDownloadOptions.t
}.
(*@ js/napi/update/include/update_client.h:95-115 UpdateClient *)
Definition new : t := {|
  isInit_ := false;
  upgradeInfo_ := UpgradeInfo.default;
  upgradePolicy_ := UpgradePolicy.default;
  checkResult_ := CheckResult.default;
  newVersionInfo_ := NewVersionInfo.default;
  newVersionDescriptionInfo_ := VersionDescriptionInfo.default;
  currentVersionInfo_ := CurrentVersionInfo.default;
  currentVersionDescriptionInfo_ := VersionDescriptionInfo.default;
  taskInfo_ := TaskInfo.default;
  versionDigestInfo_ := VersionDigestInfo.default;
  descriptionOptions_ := DescriptionOptions.default;
  upgradeOptions_ := UpgradeOptions.default;
  clearOptions_ := ClearOptions.default;
  downloadOptions_ := DownloadOptions.default;
  resumeDownloadOptions_ := ResumeDownloadOptions.default;
  pauseDownloadOptions_ := PauseDownloadOptions.default |}.
Definition set_isInit (x : bool) (this : t) : t :=
  Build_t x (upgradeInfo_ this) (upgradePolicy_ this) (checkResult_ this) (newVersionInfo_ this) (newVersionDescriptionInfo_ this) (currentVersionInfo_ this) (currentVersionDescriptionInfo_ this) (taskInfo_ this) (versionDigestInfo_ this) (descriptionOptions_ this) (upgradeOptions_ this) (clearOptions_ this) (downloadOptions_ this) (resumeDownloadOptions_ this) (pauseDownloadOptions_ this).
Definition set_upgradeInfo (x : UpgradeInfo.t) (this : t) : t :=
  Build_t (isInit_ this) x (upgradePolicy_ this) (checkResult_ this) (newVersionInfo_ this) (newVersionDescriptionInfo_ this) (currentVersionInfo_ this) (currentVersionDescriptionInfo_ this) (taskInfo_ this) (versionDigestInfo_ this) (descriptionOptions_ this) (upgradeOptions_ this) (clearOptions_ this) (downloadOptions_ this) (resumeDownloadOptions_ this) (pauseDownloadOptions_ this).
Definition set_upgradePolicy (x : UpgradePolicy.t) (this : t) : t :=
  Build_t (isInit_ this) (upgradeInfo_ this) x (checkResult_ this) (newVersionInfo_ this) (newVersionDescriptionInfo_ this) (currentVersionInfo_ this) (currentVersionDescriptionInfo_ this) (taskInfo_ this) (versionDigestInfo_ this) (descriptionOptions_ this) (upgradeOptions_ this) (clearOptions_ this) (downloadOptions_ this) (resumeDownloadOptions_ this) (pauseDownloadOptions_ this).
Definition set_checkResult (x : CheckResult.t) (this : t) : t :=
  Build_t (isInit_ this) (upgradeInfo_ this) (upgradePolicy_ this) x (newVersionInfo_ this) (newVersionDescriptionInfo_ this) (currentVersionInfo_ this) (currentVersionDescriptionInfo_ this) (taskInfo_ this) (versionDigestInfo_ this) (descriptionOptions_ this) (upgradeOptions_ this) (clearOptions_ this) (downloadOptions_ this) (resumeDownloadOptions_ this) (pauseDownloadOptions_ this).
Definition set_newVersionInfo (x : NewVersionInfo.t) (this : t) : t :=
  Build_t (isInit_ this) (upgradeInfo_ this) (upgradePolicy_ this) (checkResult_ this) x (newVersionDescriptionInfo_ this) (currentVersionInfo_ this) (currentVersionDescriptionInfo_ this) (taskInfo_ this) (versionDigestInfo_ this) (descriptionOptions_ this) (upgradeOptions_ this) (clearOptions_ this) (downloadOptions_ this) (resumeDownloadOptions_ this) (pauseDownloadOptions_ this).
Definition set_newVersionDescriptionInfo (x : VersionDescriptionInfo.t) (this : t) : t :=
  Build_t (isInit_ this) (upgradeInfo_ this) (upgradePolicy_ this) (checkResult_ this) (newVersionInfo_ this) x (currentVersionInfo_ this) (currentVersionDescriptionInfo_ this) (taskInfo_ this) (versionDigestInfo_ this) (descriptionOptions_ this) (upgradeOptions_ this) (clearOptions_ this) (downloadOptions_ this) (resumeDownloadOptions_ this) (pauseDownloadOptions_ this).
Definition set_currentVersionInfo (x : CurrentVersionInfo.t) (this : t) : t :=
  Build_t (isInit_ this) (upgradeInfo_ this) (upgradePolicy_ this) (checkResult_ this) (newVersionInfo_ this) (newVersionDescriptionInfo_ this) x (currentVersionDescriptionInfo_ this) (taskInfo_ this) (versionDigestInfo_ this) (descriptionOptions_ this) (upgradeOptions_ this) (clearOptions_ this) (downloadOptions_ this) (resumeDownloadOptions_ this) (pauseDownloadOptions_ this).
Definition set_currentVersionDescriptionInfo (x : VersionDescriptionInfo.t) (this : t) : t :=
  Build_t (isInit_ this) (upgradeInfo_ this) (upgradePolicy_ this) (checkResult_ this) (newVersionInfo_ this) (newVersionDescriptionInfo_ this) (currentVersionInfo_ this) x (taskInfo_ this) (versionDigestInfo_ this) (descriptionOptions_ this) (upgradeOptions_ this) (clearOptions_ this) (downloadOptions_ this) (resumeDownloadOptions_ this) (pauseDownloadOptions_ this).
Definition set_taskInfo (x : TaskInfo.t) (this : t) : t :=
  Build_t (isInit_ this) (upgradeInfo_ this) (upgradePolicy_ this) (checkResult_ this) (newVersionInfo_ this) (newVersionDescriptionInfo_ this) (currentVersionInfo_ this) (currentVersionDescriptionInfo_ this) x (versionDigestInfo_ this) (descriptionOptions_ this) (upgradeOptions_ this) (clearOptions_ this) (downloadOptions_ this) (resumeDownloadOptions_ this) (pauseDownloadOptions_ this).
Definition set_versionDigestInfo (x : VersionDigestInfo.t) (this : t) : t :=
  Build_t (isInit_ this) (upgradeInfo_ this) (upgradePolicy_ this) (checkResult_ this) (newVersionInfo_ this) (newVersionDescriptionInfo_ this) (currentVersionInfo_ this) (currentVersionDescriptionInfo_ this) (taskInfo_ this) x (descriptionOptions_ this) (upgradeOptions_ this) (clearOptions_ this) (downloadOptions_ this) (resumeDownloadOptions_ this) (pauseDownloadOptions_ this).
Definition set_descriptionOptions (x : DescriptionOptions.t) (this : t) : t :=
  Build_t (isInit_ this) (upgradeInfo_ this) (upgradePolicy_ this) (checkResult_ this) (newVersionInfo_ this) (newVersionDescriptionInfo_ this) (currentVersionInfo_ this) (currentVersionDescriptionInfo_ this) (taskInfo_ this) (versionDigestInfo_ this) x (upgradeOptions_ this) (clearOptions_ this) (downloadOptions_ this) (resumeDownloadOptions_ this) (pauseDownloadOptions_ this).
Definition set_upgradeOptions (x : UpgradeOptions.t) (this : t) : t :=
  Build_t (isInit_ this) (upgradeInfo_ this) (upgradePolicy_ this) (checkResult_ this) (newVersionInfo_ this) (newVersionDescriptionInfo_ this) (currentVersionInfo_ this) (currentVersionDescriptionInfo_ this) (taskInfo_ this) (versionDigestInfo_ this) (descriptionOptions_ this) x (clearOptions_ this) (downloadOptions_ this) (resumeDownloadOptions_ this) (pauseDownloadOptions_ this).
Definition set_clearOptions (x : ClearOptions.t) (this : t) : t :=
  Build_t (isInit_ this) (upgradeInfo_ this) (upgradePolicy_ this) (checkResult_ this) (newVersionInfo_ this) (newVersionDescriptionInfo_ this) (currentVersionInfo_ this) (currentVersionDescriptionInfo_ this) (taskInfo_ this) (versionDigestInfo_ this) (descriptionOptions_ this) (upgradeOptions_ this) x (downloadOptions_ this) (resumeDownloadOptions_ this) (pauseDownloadOptions_ this).
Definition set_downloadOptions (x : DownloadOptions.t) (this : t) : t :=
  Build_t (isInit_ this) (upgradeInfo_ this) (upgradePolicy_ this) (checkResult_ this) (newVersionInfo_ this) (newVersionDescriptionInfo_ this) (currentVersionInfo_ this) (currentVersionDescriptionInfo_ this) (taskInfo_ this) (versionDigestInfo_ this) (descriptionOptions_ this) (upgradeOptions_ this) (clearOptions_ this) x (resumeDownloadOptions_ this) (pauseDownloadOptions_ this).
Definition set_resumeDownloadOptions (x : ResumeDownloadOptions.t) (this : t) : t :=
  Build_t (isInit_ this) (upgradeInfo_ this) (upgradePolicy_ this) (checkResult_ this) (newVersionInfo_ this) (newVersionDescriptionInfo_ this) (currentVersionInfo_ this) (currentVersionDescriptionInfo_ this) (taskInfo_ this) (versionDigestInfo_ this) (descriptionOptions_ this) (upgradeOptions_ this) (clearOptions_ this) (downloadOptions_ this) x (pauseDownloadOptions_ this).
Definition set_pauseDownloadOptions (x : PauseDownloadOptions.t) (this : t) : t :=
  Build_t (isInit_ this) (upgradeInfo_ this) (upgradePolicy_ this) (checkResult_ this) (newVersionInfo_ this) (newVersionDescriptionInfo_ this) (currentVersionInfo_ this) (currentVersionDescriptionInfo_ this) (taskInfo_ this) (versionDigestInfo_ this) (descriptionOptions_ this) (upgradeOptions_ this) (clearOptions_ this) (downloadOptions_ this) (resumeDownloadOptions_ this) x.

Section ops.
Context {V E : Type} `{Napi V, SystemAbilities E, ServiceProxy E, CallbackKits E, TokenKits E}.
#[local] Notation C := (t * Kits E)%type.
Context `{JsEngine V C}.
#[local] Notation W := (Work t E).

(** *** The virtual methods *)
(*@ js/napi/update/src/update_client.cpp UpdateClient::RegisterCallback *)
Definition RegisterCallback : ST C unit := let* info := own_ upgradeInfo_ in env_ (register_attempts info 5).
(*@ js/napi/update/src/update_client.cpp UpdateClient::UnRegisterCallback *)
Definition UnRegisterCallback : ST C unit :=
  let* info := own_ upgradeInfo_ in
  let* _ := env_ (UpdateServiceKitsImpl.UnregisterUpdateCallback info) in
  ret tt.
(*@ js/napi/update/src/update_client.cpp UpdateClient::GetUpdateResult *)
Definition GetUpdateResult (type : Z) (this : t) : ClientHelper.Result :=
  if type =? SESSION_CHECK_VERSION then ClientHelper.CheckResultOf (Some (checkResult_ this))
  else if type =? SESSION_GET_NEW_VERSION then ClientHelper.NewVersionInfoOf (Some (newVersionInfo_ this))
  else if type =? SESSION_GET_NEW_VERSION_DESCRIPTION then ClientHelper.VersionDescriptionInfoOf (Some (newVersionDescriptionInfo_ this))
  else if type =? SESSION_GET_TASK_INFO then ClientHelper.TaskInfoOf (Some (taskInfo_ this))
  else if type =? SESSION_GET_CUR_VERSION then ClientHelper.CurrentVersionInfoOf (Some (currentVersionInfo_ this))
  else if type =? SESSION_GET_CUR_VERSION_DESCRIPTION then ClientHelper.VersionDescriptionInfoOf (Some (currentVersionDescriptionInfo_ this))
  else if type =? SESSION_GET_POLICY then ClientHelper.UpgradePolicyOf (Some (upgradePolicy_ this))
  else ClientHelper.UndefinedStatus.
#[export] Instance update_client : Updater C W := {|
  JsSession.RegisterCallback := RegisterCallback;
  JsSession.UnRegisterCallback := UnRegisterCallback;
  JsSession.GetUpdateResult type c := GetUpdateResult type c.1;
  JsSession.run_worker := run_closure
|}.
(** Each member fits the builder of its sessions. *)
#[export] Instance update_client_laws : UpdaterLaws V C W.
Proof.
  intros type c. unfold JsSession.GetUpdateResult, update_client, GetUpdateResult.
  repeat match goal with |- context [if type =? ?k then _ else _] => destruct (Z.eqb_spec type k) as [->|_]; [reflexivity|] end. reflexivity.
Qed.
(** Nothing is built when no component has an id. *)
Lemma descriptions_missing (ds : list ComponentDescription.t) :
  ClientHelper.BuildComponentDescriptions (V := V) None ds = None ↔ ∀ d, d ∈ ds → ComponentDescription.componentId d = "".
Proof.
  unfold ClientHelper.BuildComponentDescriptions, ClientHelper.GetValidDataCount. trans (List.filter ClientHelper.IsValidDescription ds = []).
  { destruct (List.filter _ ds); by split. }
  unfold ClientHelper.IsValidDescription. induction ds as [|d ds IH]; [by split; [intros _ d Hd%elem_of_nil|]|]. cbn.
  destruct (String.eqb_spec (ComponentDescription.componentId d) "") as [Hd|Hd]; cbn.
  - rewrite IH. setoid_rewrite elem_of_cons. naive_solver.
  - split; [done|]. intros Hall. destruct Hd. apply Hall, list_elem_of_here.
Qed.
(** A promise is resolved with a null value, which leaves it pending, exactly when a description has no
    component with an id. *)
Lemma result_missing type (c : C) :
  (ClientHelper.buildJSObject (V := V) type (JsSession.GetUpdateResult type c)).2 = None ↔
  ∃ info, (type = SESSION_GET_NEW_VERSION_DESCRIPTION ∧ info = newVersionDescriptionInfo_ c.1 ∨
           type = SESSION_GET_CUR_VERSION_DESCRIPTION ∧ info = currentVersionDescriptionInfo_ c.1) ∧
    ∀ d, d ∈ VersionDescriptionInfo.componentDescriptions info → ComponentDescription.componentId d = "".
Proof.
  destruct (decide (type = SESSION_GET_NEW_VERSION_DESCRIPTION)) as [->|Hnew].
  { change ((_ : Z * option V).2) with (ClientHelper.BuildComponentDescriptions (V := V) None (VersionDescriptionInfo.componentDescriptions (newVersionDescriptionInfo_ c.1))).
    rewrite descriptions_missing. split; [intros Hd; eexists; split; [by left|done]|]. by intros (info & [[_ ->]|[[=] _]] & Hd). }
  destruct (decide (type = SESSION_GET_CUR_VERSION_DESCRIPTION)) as [->|Hcur].
  { change ((_ : Z * option V).2) with (ClientHelper.BuildComponentDescriptions (V := V) None (VersionDescriptionInfo.componentDescriptions (currentVersionDescriptionInfo_ c.1))).
    rewrite descriptions_missing. split; [intros Hd; eexists; split; [by right|done]|]. by intros (info & [[[=] _]|[_ ->]] & Hd). }
  split; [|by intros (info & [[? _]|[? _]] & _)]. unfold JsSession.GetUpdateResult, update_client, GetUpdateResult.
  repeat match goal with |- context [if type =? ?k then _ else _] => destruct (Z.eqb_spec type k) as [->|_]; [done|] end. done.
Qed.
#[local] Notation Js := (ST (SessionManager.t V W * C)).
Definition members : ST C t := own_ (λ this, this).
(** A request that gives back only the error. *)
Definition asking (request : t → BusinessError.t → ST (Kits E) (Z * BusinessError.t)) : W := λ businessError,
  let* this := members in env_ (request this businessError).
(** A request with a result, which becomes a member. *)
Definition obtaining {A} (request : t → BusinessError.t → ST (Kits E) (Z * (A * BusinessError.t))) (keep : A → t → t) : W := λ businessError,
  let* this := members in
  let* (r, (result, businessError)) := env_ (request this businessError) in
  set_own (keep result) ;;;
  ret (r, businessError).
Definition refused (paramInfos : list (string * string)) : Js (option V) := log (Thrown (NapiThrowParamError paramInfos)) ;;; ret None.

(** *** The calls *)
(*@ js/napi/update/src/update_client.cpp UpdateClient::GetOnlineUpdater *)
Definition GetOnlineUpdater (args : list V) : Js (option V) :=
  let paramInfos := [("upgradeInfo", "UpgradeInfo")] in
  if (length args <? 1)%nat then refused paramInfos
  else
    let* (this, c) := env_ (gets (λ c, c)) in
    if isInit_ this then ret (Some (napi_create_int32 0))
    else
      let (r, info) := ClientHelper.GetUpgradeInfoFromArg (getpid c.2) (argument args 0) (upgradeInfo_ this) in
      env_ (set_own (set_upgradeInfo info)) ;;;
      if negb (r =? CLIENT_SUCCESS) then refused paramInfos
      else env_ (set_own (set_isInit true)) ;;; ret (Some (napi_create_int32 0)).
(*@ js/napi/update/src/update_client.cpp UpdateClient::CheckNewVersion *)
Definition CheckNewVersion (args : list V) : Js (option V) :=
  StartSession args (SessionParams.new SESSION_CHECK_VERSION 1 true false) (λ businessError,
    let* this := members in
    let* (r, (businessError, result)) := env_ (UpdateServiceKitsImpl.CheckNewVersion (upgradeInfo_ this) businessError (checkResult_ this)) in
    set_own (set_checkResult result) ;;;
    ret (r, businessError)).
(*@ js/napi/update/src/update_client.cpp UpdateClient::CancelUpgrade *)
Definition CancelUpgrade (args : list V) : Js (option V) :=
  StartSession args (SessionParams.new SESSION_CANCEL_UPGRADE 1 true false)
    (asking (λ this, UpdateServiceKitsImpl.Cancel (upgradeInfo_ this) UpdaterSaInterfaceCode.DOWNLOAD)).
(** The members are overwritten, also when the options are not accepted. *)
(*@ js/napi/update/src/update_client.cpp:138-155 UpdateClient::ParseUpgOptions *)
Definition ParseUpgOptions {T} (args : list V) (parse : V → T → Z * T) (get : t → T) (set : T → t → t) : Js bool :=
  let* this := env_ members in
  let (r, digest) := ClientHelper.GetVersionDigestInfoFromArg (argument args 0) (versionDigestInfo_ this) in
  env_ (set_own (set_versionDigestInfo digest)) ;;;
  if negb (r =? CLIENT_SUCCESS) then ret false
  else
    let (r, options) := parse (argument args 1) (get this) in
    env_ (set_own (set options)) ;;;
    ret (r =? CLIENT_SUCCESS).
(*@ js/napi/update/src/update_client.cpp:157-168 UpdateClient::ParseUpgOptions *)
Definition ParseOptions {T} (args : list V) (parse : V → T → Z * T) (get : t → T) (set : T → t → t) : Js bool :=
  let* this := env_ members in
  let (r, options) := parse (argument args 0) (get this) in
  env_ (set_own (set options)) ;;;
  ret (r =? CLIENT_SUCCESS).
(*@ js/napi/update/src/update_client.cpp UpdateClient::Download *)
Definition Download (args : list V) : Js (option V) :=
  let* parsed := ParseUpgOptions args ClientHelper.GetDownloadOptions downloadOptions_ set_downloadOptions in
  if negb parsed then refused [("versionDigestInfo", "VersionDigestInfo"); ("downloadOptions", "DownloadOptions")]
  else StartSession args (SessionParams.new SESSION_DOWNLOAD 3 true false) (asking (λ this, UpdateServiceKitsImpl.Download (upgradeInfo_ this) (versionDigestInfo_ this) (downloadOptions_ this))).
(*@ js/napi/update/src/update_client.cpp UpdateClient::PauseDownload *)
Definition PauseDownload (args : list V) : Js (option V) :=
  let* parsed := ParseUpgOptions args ClientHelper.GetPauseDownloadOptions pauseDownloadOptions_ set_pauseDownloadOptions in
  if negb parsed then refused [("versionDigestInfo", "VersionDigestInfo"); ("pauseDownloadOptions", "PauseDownloadOptions")]
  else StartSession args (SessionParams.new SESSION_PAUSE_DOWNLOAD 3 true false) (asking (λ this, UpdateServiceKitsImpl.PauseDownload (upgradeInfo_ this) (versionDigestInfo_ this) (pauseDownloadOptions_ this))).
(*@ js/napi/update/src/update_client.cpp UpdateClient::ResumeDownload *)
Definition ResumeDownload (args : list V) : Js (option V) :=
  let* parsed := ParseUpgOptions args ClientHelper.GetResumeDownloadOptions resumeDownloadOptions_ set_resumeDownloadOptions in
  if negb parsed then refused [("versionDigestInfo", "VersionDigestInfo"); ("resumeDownloadOptions", "ResumeDownloadOptions")]
  else StartSession args (SessionParams.new SESSION_RESUME_DOWNLOAD 3 true false) (asking (λ this, UpdateServiceKitsImpl.ResumeDownload (upgradeInfo_ this) (versionDigestInfo_ this) (resumeDownloadOptions_ this))).
(*@ js/napi/update/src/update_client.cpp UpdateClient::Upgrade *)
Definition Upgrade (args : list V) : Js (option V) :=
  let* parsed := ParseUpgOptions args ClientHelper.GetUpgradeOptions upgradeOptions_ set_upgradeOptions in
  if negb parsed then refused [("versionDigestInfo", "VersionDigestInfo"); ("upgradeOptions", "UpgradeOptions")]
  else StartSession args (SessionParams.new SESSION_UPGRADE 3 true false) (asking (λ this, UpdateServiceKitsImpl.Upgrade (upgradeInfo_ this) (versionDigestInfo_ this) (upgradeOptions_ this))).
(*@ js/napi/update/src/update_client.cpp UpdateClient::ClearError *)
Definition ClearError (args : list V) : Js (option V) :=
  let* parsed := ParseUpgOptions args ClientHelper.GetClearOptions clearOptions_ set_clearOptions in
  if negb parsed then refused [("versionDigestInfo", "VersionDigestInfo"); ("clearOptions", "ClearOptions")]
  else StartSession args (SessionParams.new SESSION_CLEAR_ERROR 3 true false) (asking (λ this, UpdateServiceKitsImpl.ClearError (upgradeInfo_ this) (versionDigestInfo_ this) (clearOptions_ this))).
(*@ js/napi/update/src/update_client.cpp UpdateClient::TerminateUpgrade *)
Definition TerminateUpgrade (args : list V) : Js (option V) :=
  StartSession args (SessionParams.new SESSION_TERMINATE_UPGRADE 1 true false) (asking (λ this, UpdateServiceKitsImpl.TerminateUpgrade (upgradeInfo_ this))).
(*@ js/napi/update/src/update_client.cpp UpdateClient::SetUpgradePolicy *)
Definition SetUpgradePolicy (args : list V) : Js (option V) :=
  let* this := env_ members in
  let (r, policy) := ClientHelper.GetUpgradePolicyFromArg (argument args 0) (upgradePolicy_ this) in
  env_ (set_own (set_upgradePolicy policy)) ;;;
  if negb (r =? CLIENT_SUCCESS) then refused [("upgradePolicy", "UpgradePolicy")]
  else StartSession args (SessionParams.new SESSION_SET_POLICY 2 true false)
         (asking (λ this, UpdateServiceKitsImpl.SetUpgradePolicy (upgradeInfo_ this) (upgradePolicy_ this))).
(*@ js/napi/update/src/update_client.cpp UpdateClient::GetUpgradePolicy *)
Definition GetUpgradePolicy (args : list V) : Js (option V) :=
  StartSession args (SessionParams.new SESSION_GET_POLICY 1 true false)
    (obtaining (λ this, UpdateServiceKitsImpl.GetUpgradePolicy (upgradeInfo_ this) (upgradePolicy_ this)) set_upgradePolicy).
(*@ js/napi/update/src/update_client.cpp UpdateClient::GetNewVersionInfo *)
Definition GetNewVersionInfo (args : list V) : Js (option V) :=
  StartSession args (SessionParams.new SESSION_GET_NEW_VERSION 1 true false)
    (obtaining (λ this, UpdateServiceKitsImpl.GetNewVersionInfo (upgradeInfo_ this) (newVersionInfo_ this)) set_newVersionInfo).
(*@ js/napi/update/src/update_client.cpp UpdateClient::GetNewVersionDescription *)
Definition GetNewVersionDescription (args : list V) : Js (option V) :=
  let* parsed := ParseUpgOptions args ClientHelper.GetDescriptionOptions descriptionOptions_ set_descriptionOptions in
  if negb parsed then refused [("versionDigestInfo", "VersionDigestInfo"); ("descriptionOptions", "DescriptionOptions")]
  else StartSession args (SessionParams.new SESSION_GET_NEW_VERSION_DESCRIPTION 3 true false) (obtaining
         (λ this, UpdateServiceKitsImpl.GetNewVersionDescription (upgradeInfo_ this) (versionDigestInfo_ this) (descriptionOptions_ this) (newVersionDescriptionInfo_ this))
         set_newVersionDescriptionInfo).
(*@ js/napi/update/src/update_client.cpp UpdateClient::GetCurrentVersionInfo *)
Definition GetCurrentVersionInfo (args : list V) : Js (option V) :=
  StartSession args (SessionParams.new SESSION_GET_CUR_VERSION 1 true false)
    (obtaining (λ this, UpdateServiceKitsImpl.GetCurrentVersionInfo (upgradeInfo_ this) (currentVersionInfo_ this)) set_currentVersionInfo).
(*@ js/napi/update/src/update_client.cpp UpdateClient::GetCurrentVersionDescription *)
Definition GetCurrentVersionDescription (args : list V) : Js (option V) :=
  let* parsed := ParseOptions args ClientHelper.GetDescriptionOptions descriptionOptions_ set_descriptionOptions in
  if negb parsed then refused [("descriptionOptions", "DescriptionOptions")]
  else StartSession args (SessionParams.new SESSION_GET_CUR_VERSION_DESCRIPTION 2 true false)
         (obtaining (λ this, UpdateServiceKitsImpl.GetCurrentVersionDescription (upgradeInfo_ this) (descriptionOptions_ this) (currentVersionDescriptionInfo_ this))
            set_currentVersionDescriptionInfo).
(*@ js/napi/update/src/update_client.cpp UpdateClient::GetTaskInfo *)
Definition GetTaskInfo (args : list V) : Js (option V) :=
  StartSession args (SessionParams.new SESSION_GET_TASK_INFO 1 true false)
    (obtaining (λ this, UpdateServiceKitsImpl.GetTaskInfo (upgradeInfo_ this) (taskInfo_ this)) set_taskInfo).
(** The functions of the class, by the names they are exported under. *)
(*@ js/napi/update/src/update_module.cpp DefineUpdateClient *)
Definition methods : list (string * (list V → Js (option V))) := [
  ("checkNewVersion", CheckNewVersion);
  ("getNewVersionInfo", GetNewVersionInfo);
  ("getNewVersionDescription", GetNewVersionDescription);
  ("getCurrentVersionInfo", GetCurrentVersionInfo);
  ("getCurrentVersionDescription", GetCurrentVersionDescription);
  ("getTaskInfo", GetTaskInfo);
  ("setUpgradePolicy", SetUpgradePolicy);
  ("getUpgradePolicy", GetUpgradePolicy);
  ("cancel", CancelUpgrade);
  ("download", Download);
  ("pauseDownload", PauseDownload);
  ("resumeDownload", ResumeDownload);
  ("upgrade", Upgrade);
  ("clearError", ClearError);
  ("terminateUpgrade", TerminateUpgrade);
  ("on", On);
  ("off", Off)].
End ops.
End UpdateClient.

(** ** Local packages *)
Module LocalUpdater.
Import SessionType SessionManager NapiCommonUtils ClientStatus.
(*@* js/napi/update/include/local_updater.h LocalUpdater *)
Record t := { isInit_ : bool }.
Definition new : t := {| isInit_ := false |}.
(*@ js/napi/update/src/local_updater.cpp MISC_FILE *)
Definition MISC_FILE : string := "/dev/block/by-name/misc".
Section ops.
Context {V E : Type} `{Napi V, SystemAbilities E, ServiceProxy E, CallbackKits E, TokenKits E}.
#[local] Notation C := (t * Kits E)%type.
Context `{JsEngine V C}.
#[local] Notation W := (Work t E).
(** Nothing is registered when a listener is added: [Init] has done so. *)
#[export] Instance local_updater : Updater C W := {|
  JsSession.RegisterCallback := ret tt;
  JsSession.UnRegisterCallback := ret tt;
  JsSession.GetUpdateResult _ _ := ClientHelper.UndefinedStatus;
  JsSession.run_worker := run_closure
|}.
#[export] Instance local_updater_laws : UpdaterLaws V C W.
Proof. intros type c. reflexivity. Qed.
#[local] Notation Js := (ST (SessionManager.t V W * C)).
Definition local_info : UpgradeInfo.t := {|
  UpgradeInfo.upgradeApp := UpgradeInfo.LOCAL_UPGRADE_INFO; UpgradeInfo.businessType := BusinessType.default; UpgradeInfo.upgradeDevId := "";
  UpgradeInfo.controlDevId := ""; UpgradeInfo.processId := 0; UpgradeInfo.deviceType := DeviceType.UNKNOWN |}.
(*@ js/napi/update/src/local_updater.cpp LocalUpdater::Init *)
Definition Init : ST C unit :=
  let* init := own_ isInit_ in
  if init : bool then ret tt
  else
    let* callback := env_ (env_ (new_UpdateCallback local_info)) in
    let* _ := env_ (UpdateServiceKitsImpl.RegisterUpdateCallback local_info callback) in
    set_own (λ _, {| isInit_ := true |}).
(*@ js/napi/update/common/src/iupdater.cpp IUpdater::StartParamErrorSession *)
Definition StartParamErrorSession (args : list V) (callbackPosition : nat) : Js (option V) :=
  StartSession args (SessionParams.new SESSION_REPLY_PARAM_ERROR callbackPosition true false) (λ businessError, ret (CallResult.PARAM_ERR, businessError)).
(*@ js/napi/update/src/local_updater.cpp LocalUpdater::VerifyUpgradePackage *)
Definition VerifyUpgradePackage (args : list V) : Js (option V) :=
  if (length args <? 2)%nat then ret None
  else
    let (r, upgradeFile) := ClientHelper.GetUpgradeFileFromArg (argument args 0) UpgradeFile.default in
    if negb (r =? CLIENT_SUCCESS) then StartParamErrorSession args 3
    else
      let (result, certsFile) := GetString_of (Some (argument args 1)) "" in
      if negb (result =? CLIENT_SUCCESS) then StartParamErrorSession args 3
      else StartSession args (SessionParams.new SESSION_VERIFY_PACKAGE 3 true false)
             (λ businessError, env_ (UpdateServiceKitsImpl.VerifyUpgradePackage (UpgradeFile.filePath upgradeFile) certsFile businessError)).
(*@ js/napi/update/src/local_updater.cpp LocalUpdater::ApplyNewVersion *)
Definition ApplyNewVersion (args : list V) : Js (option V) :=
  if (length args <? 1)%nat then ret None
  else
    let (r, upgradeFiles) := ClientHelper.GetUpgradeFilesFromArg (argument args 0) [] in
    if negb (r =? CLIENT_SUCCESS) || (length upgradeFiles =? 0)%nat then StartParamErrorSession args 2
    else
      let packageNames := map UpgradeFile.filePath upgradeFiles in
      StartSession args (SessionParams.new SESSION_APPLY_NEW_VERSION 2 true false)
        (λ businessError, env_ (UpdateServiceKitsImpl.ApplyNewVersion local_info MISC_FILE packageNames businessError)).
(*@ js/napi/update/src/update_module.cpp DefineLocalUpdater *)
Definition methods : list (string * (list V → Js (option V))) := [
  ("verifyUpgradePackage", VerifyUpgradePackage); ("applyNewVersion", ApplyNewVersion); ("on", On); ("off", Off)].
End ops.
End LocalUpdater.

(** ** Resets *)
Module Restorer.
Import SessionType SessionManager NapiCommonUtils ClientStatus.
(*@ js/napi/update/include/restorer.h:56-57 Restorer *)
Record t := { factoryResetStrategy_ : FactoryResetStrategy.t; factoryResetInfo_ : FactoryResetInfo.t }.
(*@ js/napi/update/include/restorer.h:56-57 Restorer *)
Definition new : t := {| factoryResetStrategy_ := FactoryResetStrategy.default; factoryResetInfo_ := FactoryResetInfo.default |}.
Definition set_strategy (x : FactoryResetStrategy.t) (this : t) : t := {| factoryResetStrategy_ := x; factoryResetInfo_ := factoryResetInfo_ this |}.
Definition set_info (x : FactoryResetInfo.t) (this : t) : t := {| factoryResetStrategy_ := factoryResetStrategy_ this; factoryResetInfo_ := x |}.
Section ops.
Context {V E : Type} `{Napi V, SystemAbilities E, ServiceProxy E, CallbackKits E, TokenKits E}.
#[local] Notation C := (t * Kits E)%type.
Context `{JsEngine V C}.
#[local] Notation W := (Work t E).
(*@ js/napi/update/src/restorer.cpp Restorer::GetUpdateResult *)
Definition GetUpdateResult (type : Z) (this : t) : ClientHelper.Result :=
  if type =? SESSION_GET_DEEP_FACTORY_RESET_INFO then ClientHelper.FactoryResetInfoOf (Some (factoryResetInfo_ this)) else ClientHelper.UndefinedStatus.
#[export] Instance restorer : Updater C W := {|
  JsSession.RegisterCallback := ret tt;
  JsSession.UnRegisterCallback := ret tt;
  JsSession.GetUpdateResult type c := GetUpdateResult type c.1;
  JsSession.run_worker := run_closure
|}.
#[export] Instance restorer_laws : UpdaterLaws V C W.
Proof.
  intros type c. unfold JsSession.GetUpdateResult, restorer, GetUpdateResult.
  destruct (Z.eqb_spec type SESSION_GET_DEEP_FACTORY_RESET_INFO) as [->|_]; reflexivity.
Qed.
#[local] Notation Js := (ST (SessionManager.t V W * C)).
(*@ js/napi/update/src/restorer.cpp Restorer::FactoryReset *)
Definition FactoryReset (args : list V) : Js (option V) :=
  StartSession args (SessionParams.new SESSION_FACTORY_RESET 1 true false) (λ businessError, env_ (UpdateServiceKitsImpl.FactoryReset businessError)).
(*@ js/napi/update/src/restorer.cpp Restorer::ForceFactoryReset *)
Definition ForceFactoryReset (args : list V) : Js (option V) :=
  StartSession args (SessionParams.new SESSION_FORCE_FACTORY_RESET 1 true false) (λ businessError, env_ (UpdateServiceKitsImpl.ForceFactoryReset businessError)).
(*@ js/napi/update/src/restorer.cpp Restorer::ParseParamResetStrategy *)
Definition ParseParamResetStrategy (args : list V) : Js Z :=
  let* this := env_ (own_ (λ this, this)) in
  let (r, strategy) := ClientHelper.GetFactoryResetStrategyFromArg (argument args 0) (factoryResetStrategy_ this) in
  env_ (set_own (set_strategy strategy)) ;;;
  ret (if negb (r =? CLIENT_SUCCESS) then -1 else 0).
(** A strategy that is not accepted is answered with a null value, without an error. *)
(*@ js/napi/update/src/restorer.cpp Restorer::DeepFactoryReset *)
Definition DeepFactoryReset (args : list V) : Js (option V) :=
  let* r := ParseParamResetStrategy args in
  if negb (r =? 0) then ret None
  else StartSession args (SessionParams.new SESSION_DEEP_FACTORY_RESET 2 true false) (λ businessError,
         let* this := own_ (λ this, this) in
         env_ (UpdateServiceKitsImpl.DeepFactoryReset (factoryResetStrategy_ this) businessError)).
(*@ js/napi/update/src/restorer.cpp Restorer::GetDeepFactoryResetInfo *)
Definition GetDeepFactoryResetInfo (args : list V) : Js (option V) :=
  let* r := ParseParamResetStrategy args in
  if negb (r =? 0) then ret None
  else StartSession args (SessionParams.new SESSION_GET_DEEP_FACTORY_RESET_INFO 2 true false) (λ businessError,
         let* this := own_ (λ this, this) in
         let* (r, (info, businessError)) := env_ (UpdateServiceKitsImpl.GetDeepFactoryResetInfo (factoryResetStrategy_ this) (factoryResetInfo_ this) businessError) in
         set_own (set_info info) ;;;
         ret (r, businessError)).
(*@ js/napi/update/src/update_module.cpp DefineRestorer *)
Definition methods : list (string * (list V → Js (option V))) := [
  ("factoryReset", FactoryReset); ("forceFactoryReset", ForceFactoryReset); ("deepFactoryReset", DeepFactoryReset);
  ("getDeepFactoryResetInfo", GetDeepFactoryResetInfo)].
End ops.
End Restorer.
