(* ===== verification/JsModule.v ===== *)
(** * The module an application imports

    Models [frameworks/js/napi/update/src/update_module.cpp], the functions that give an
    application its updater, and [define_property.cpp], the constants the module exports. *)
From Stdlib Require Import ZArith Lia Ascii String.
From stdpp Require Import base tactics list strings gmap.
From S2P Require Import Prelude CppString StringUtils Models FirmwareHelper Access Clients Client Napi JsArgs JsSession JsUpdater.

#[local] Open Scope Z_scope.

(** ** The exported constants *)
Module DefineProperty.
Import NapiCommonUtils.
(*@ model/version_info/upgrade_action.h ROLLBACK *)
Definition ROLLBACK : string := "rollback".
(*@ model/upgrade_info/business_vendor.h PUBLIC *)
Definition PUBLIC : string := "public".
Section ops.
Context {V : Type} `{Napi V}.
(** An item is written as in the source; its name is what follows the class. *)
(*@ js/napi/update/src/define_property.cpp:37-38 DECLARE_ENUM_PROPERTY *)
Definition enum_property (item : string) (value : Z) : string * V := (default "" (StringUtils.GetEnumValueString item), CreateUint32 (to_uint32 value)).
(*@ js/napi/update/src/define_property.cpp:40-41 DECLARE_STRING_PROPERTY *)
Definition string_property (item value : string) : string * V := (default "" (StringUtils.GetEnumValueString item), CreateStringUtf8 value).
(*@ js/napi/update/src/define_property.cpp:43-45 DECLARE_CALL_RESULT_PROPERTY *)
Definition result_property (item : string) (value : Z) : string * V :=
  (default "" (StringUtils.GetEnumValueString item), CreateUint32 (to_uint32 (ConvertToErrorCode value))).
(** The properties are constant; here only their values. *)
(*@ js/napi/session/src/napi_common_utils.cpp NapiCommonUtils::CreateProperty *)
Definition CreateProperty (exports : V) (name : string) (properties : list (string * V)) : V :=
  napi_set_named_property exports name (fold_left (λ object p, napi_set_named_property object p.1 p.2) properties napi_create_object).
(*@* js/napi/update/src/define_property.cpp DefineProperty::= *)
Definition DefineCallResult (exports : V) : V := CreateProperty exports "CallResult" [
  result_property "CallResult::APP_NOT_GRANTED" CallResult.APP_NOT_GRANTED; result_property "CallResult::PARAM_ERR" CallResult.PARAM_ERR;
  result_property "CallResult::UN_SUPPORT" CallResult.UN_SUPPORT; result_property "CallResult::SUCCESS" CallResult.SUCCESS;
  result_property "CallResult::FAIL" CallResult.FAIL; result_property "CallResult::DEV_UPG_INFO_ERR" CallResult.DEV_UPG_INFO_ERR;
  result_property "CallResult::FORBIDDEN" CallResult.FORBIDDEN; result_property "CallResult::IPC_ERR" CallResult.IPC_ERR;
  result_property "CallResult::TIME_OUT" CallResult.TIME_OUT; result_property "CallResult::DB_ERROR" CallResult.DB_ERROR;
  result_property "CallResult::IO_ERROR" CallResult.IO_ERROR; result_property "CallResult::NET_ERROR" CallResult.NET_ERROR].
Definition DefineUpgradeStatus (exports : V) : V := CreateProperty exports "UpgradeStatus" [
  enum_property "UpgradeStatus::INIT" UpgradeStatus.INIT; enum_property "UpgradeStatus::CHECKING_VERSION" UpgradeStatus.CHECKING_VERSION;
  enum_property "UpgradeStatus::CHECK_VERSION_FAIL" UpgradeStatus.CHECK_VERSION_FAIL;
  enum_property "UpgradeStatus::CHECK_VERSION_SUCCESS" UpgradeStatus.CHECK_VERSION_SUCCESS;
  enum_property "UpgradeStatus::DOWNLOADING" UpgradeStatus.DOWNLOADING; enum_property "UpgradeStatus::DOWNLOAD_PAUSE" UpgradeStatus.DOWNLOAD_PAUSE;
  enum_property "UpgradeStatus::DOWNLOAD_CANCEL" UpgradeStatus.DOWNLOAD_CANCEL;
  enum_property "UpgradeStatus::DOWNLOAD_FAIL" UpgradeStatus.DOWNLOAD_FAIL;
  enum_property "UpgradeStatus::DOWNLOAD_SUCCESS" UpgradeStatus.DOWNLOAD_SUCCESS; enum_property "UpgradeStatus::VERIFYING" UpgradeStatus.VERIFYING;
  enum_property "UpgradeStatus::VERIFY_FAIL" UpgradeStatus.VERIFY_FAIL; enum_property "UpgradeStatus::VERIFY_SUCCESS" UpgradeStatus.VERIFY_SUCCESS;
  enum_property "UpgradeStatus::PACKAGE_TRANSING" UpgradeStatus.PACKAGE_TRANSING;
  enum_property "UpgradeStatus::PACKAGE_TRANS_FAIL" UpgradeStatus.PACKAGE_TRANS_FAIL;
  enum_property "UpgradeStatus::PACKAGE_TRANS_SUCCESS" UpgradeStatus.PACKAGE_TRANS_SUCCESS;
  enum_property "UpgradeStatus::INSTALLING" UpgradeStatus.INSTALLING; enum_property "UpgradeStatus::INSTALL_FAIL" UpgradeStatus.INSTALL_FAIL;
  enum_property "UpgradeStatus::INSTALL_SUCCESS" UpgradeStatus.INSTALL_SUCCESS;
  enum_property "UpgradeStatus::INSTALL_PAUSE" UpgradeStatus.INSTALL_PAUSE; enum_property "UpgradeStatus::UPDATING" UpgradeStatus.UPDATING;
  enum_property "UpgradeStatus::UPDATE_FAIL" UpgradeStatus.UPDATE_FAIL; enum_property "UpgradeStatus::UPDATE_SUCCESS" UpgradeStatus.UPDATE_SUCCESS].
Definition DefineComponentType (exports : V) : V := CreateProperty exports "ComponentType" [
  enum_property "ComponentType::OTA" ComponentType.OTA; enum_property "ComponentType::PATCH" ComponentType.PATCH;
  enum_property "ComponentType::COTA" ComponentType.COTA; enum_property "ComponentType::PARAM" ComponentType.PARAM].
Definition DefineEffectiveMode (exports : V) : V := CreateProperty exports "EffectiveMode" [
  enum_property "EffectiveMode::COLD" EffectiveMode.COLD; enum_property "EffectiveMode::LIVE" EffectiveMode.LIVE;
  enum_property "EffectiveMode::LIVE_AND_COLD" EffectiveMode.LIVE_AND_COLD].
Definition DefineOtaType (exports : V) : V := CreateProperty exports "OtaMode" [
  enum_property "OtaMode::REGULAR_OTA" OtaMode.REGULAR_OTA; enum_property "OtaMode::STREAM_OTA" OtaMode.STREAM_OTA;
  enum_property "OtaMode::AB_REGULAR_OTA" OtaMode.AB_REGULAR_OTA; enum_property "OtaMode::AB_STREAM_OTA" OtaMode.AB_STREAM_OTA].
Definition DefineNetType (exports : V) : V := CreateProperty exports "NetType" [
  enum_property "NetType::CELLULAR" NetType.CELLULAR; enum_property "NetType::METERED_WIFI" NetType.METERED_WIFI;
  enum_property "NetType::NOT_METERED_WIFI" NetType.NOT_METERED_WIFI; enum_property "NetType::WIFI" NetType.WIFI;
  enum_property "NetType::CELLULAR_AND_WIFI" NetType.CELLULAR_AND_WIFI].
Definition DefineOrder (exports : V) : V := CreateProperty exports "Order" [
  enum_property "Order::DOWNLOAD" Order.DOWNLOAD; enum_property "Order::INSTALL" Order.INSTALL;
  enum_property "Order::DOWNLOAD_AND_INSTALL" Order.DOWNLOAD_AND_INSTALL; enum_property "Order::APPLY" Order.APPLY;
  enum_property "Order::INSTALL_AND_APPLY" Order.INSTALL_AND_APPLY].
Definition DefineEventClassify (exports : V) : V := CreateProperty exports "EventClassify" [
  enum_property "EventClassify::TASK" EventClassify.TASK; enum_property "EventClassify::SYSTEM" EventClassify.SYSTEM].
Definition DefineBusinessSubType (exports : V) : V := CreateProperty exports "BusinessSubType" [
  enum_property "BusinessSubType::FIRMWARE" BusinessSubType.FIRMWARE; enum_property "BusinessSubType::PARAM" BusinessSubType.PARAM;
  enum_property "BusinessSubType::ROLLBACK" BusinessSubType.ROLLBACK].
Definition DefineDescriptionType (exports : V) : V := CreateProperty exports "DescriptionType" [
  enum_property "DescriptionType::CONTENT" DescriptionType.CONTENT; enum_property "DescriptionType::URI" DescriptionType.URI;
  enum_property "DescriptionType::ID" DescriptionType.ID].
Definition DefineDescriptionFormat (exports : V) : V := CreateProperty exports "DescriptionFormat" [
  enum_property "DescriptionFormat::STANDARD" DescriptionFormat.STANDARD; enum_property "DescriptionFormat::SIMPLIFIED" DescriptionFormat.SIMPLIFIED].
Definition DefineEventId (exports : V) : V := CreateProperty exports "EventId" [
  enum_property "EventId::EVENT_TASK_BASE" EventId.EVENT_TASK_BASE; enum_property "EventId::EVENT_TASK_RECEIVE" EventId.EVENT_TASK_RECEIVE;
  enum_property "EventId::EVENT_TASK_CANCEL" EventId.EVENT_TASK_CANCEL; enum_property "EventId::EVENT_DOWNLOAD_WAIT" EventId.EVENT_DOWNLOAD_WAIT;
  enum_property "EventId::EVENT_DOWNLOAD_START" EventId.EVENT_DOWNLOAD_START;
  enum_property "EventId::EVENT_DOWNLOAD_UPDATE" EventId.EVENT_DOWNLOAD_UPDATE;
  enum_property "EventId::EVENT_DOWNLOAD_PAUSE" EventId.EVENT_DOWNLOAD_PAUSE;
  enum_property "EventId::EVENT_DOWNLOAD_RESUME" EventId.EVENT_DOWNLOAD_RESUME;
  enum_property "EventId::EVENT_DOWNLOAD_SUCCESS" EventId.EVENT_DOWNLOAD_SUCCESS;
  enum_property "EventId::EVENT_DOWNLOAD_FAIL" EventId.EVENT_DOWNLOAD_FAIL; enum_property "EventId::EVENT_UPGRADE_WAIT" EventId.EVENT_UPGRADE_WAIT;
  enum_property "EventId::EVENT_UPGRADE_START" EventId.EVENT_UPGRADE_START;
  enum_property "EventId::EVENT_UPGRADE_UPDATE" EventId.EVENT_UPGRADE_UPDATE; enum_property "EventId::EVENT_APPLY_WAIT" EventId.EVENT_APPLY_WAIT;
  enum_property "EventId::EVENT_APPLY_START" EventId.EVENT_APPLY_START; enum_property "EventId::EVENT_UPGRADE_SUCCESS" EventId.EVENT_UPGRADE_SUCCESS;
  enum_property "EventId::EVENT_UPGRADE_FAIL" EventId.EVENT_UPGRADE_FAIL; enum_property "EventId::EVENT_AUTH_START" EventId.EVENT_AUTH_START;
  enum_property "EventId::EVENT_AUTH_SUCCESS" EventId.EVENT_AUTH_SUCCESS;
  enum_property "EventId::EVENT_DOWNLOAD_CANCEL" EventId.EVENT_DOWNLOAD_CANCEL; enum_property "EventId::EVENT_INITIALIZE" EventId.EVENT_INITIALIZE;
  enum_property "EventId::EVENT_TASK_CHANGE" EventId.EVENT_TASK_CHANGE;
  enum_property "EventId::EVENT_VERSION_INFO_CHANGE" EventId.EVENT_VERSION_INFO_CHANGE; enum_property "EventId::SYSTEM_BASE" EventId.SYSTEM_BASE;
  enum_property "EventId::SYSTEM_BOOT_COMPLETE" EventId.SYSTEM_BOOT_COMPLETE].
Definition DefineUpgradeAction (exports : V) : V := CreateProperty exports "UpgradeAction" [
  string_property "UpgradeAction::UPGRADE" FirmwareHelper.UpgradeAction.UPGRADE; string_property "UpgradeAction::RECOVERY" FirmwareHelper.UpgradeAction.RECOVERY;
  string_property "UpgradeAction::ROLLBACK" ROLLBACK].
Definition DefineBusinessVendor (exports : V) : V := CreateProperty exports "BusinessVendor" [
  string_property "BusinessVendor::PUBLIC" PUBLIC].
Definition DefineFactoryResetScope (exports : V) : V := CreateProperty exports "FactoryResetScope" [
  enum_property "FactoryResetScope::DATA" FactoryResetScope.DATA; enum_property "FactoryResetScope::DATA_AND_OS" FactoryResetScope.DATA_AND_OS].
Definition DefineProperties (exports : V) : V :=
  let exports := DefineCallResult exports in
  let exports := DefineUpgradeStatus exports in
  let exports := DefineComponentType exports in
  let exports := DefineEffectiveMode exports in
  let exports := DefineOtaType exports in
  let exports := DefineNetType exports in
  let exports := DefineOrder exports in
  let exports := DefineEventClassify exports in
  let exports := DefineBusinessSubType exports in
  let exports := DefineDescriptionType exports in
  let exports := DefineDescriptionFormat exports in
  let exports := DefineEventId exports in
  let exports := DefineUpgradeAction exports in
  let exports := DefineBusinessVendor exports in
  DefineFactoryResetScope exports.
End ops.
End DefineProperty.

(** ** The updaters of a process *)
Module UpdateModule.
Import SessionManager NapiCommonUtils ClientStatus.
Section ops.
Context {V E : Type} `{Napi V, SystemAbilities E, ServiceProxy E, CallbackKits E, TokenKits E}.
(** An updater: its sessions and its members. *)
#[local] Notation Object T := (SessionManager.t V (BusinessError.t → ST (T * (UpdateServiceKitsImpl.t * E)) (Z * BusinessError.t)) * T)%type.
#[local] Notation Kits := (UpdateServiceKitsImpl.t * E)%type.
(** [thrown]: the errors the functions of the module throw.  A client is known by its key. *)
(*@ js/napi/update/src/update_module.cpp:28-30 g_restorer *)
Record t := {
  g_restorer : option (Object Restorer.t);
  g_localUpdater : option (Object LocalUpdater.t);
  g_onlineUpdater : gmap UpgradeInfo.t (Object UpdateClient.t);
  thrown : list V
}.
Definition make x1 x2 x3 x4 : t := Build_t x1 x2 x3 x4.
(*@ js/napi/update/src/update_module.cpp:28-30 g_restorer *)
Definition initial : t := make None None ∅ [].
#[local] Notation Module := (ST (t * Kits)).
Definition set_restorer x (s : t) : t := Build_t x (g_localUpdater s) (g_onlineUpdater s) (thrown s).
Definition set_localUpdater x (s : t) : t := Build_t (g_restorer s) x (g_onlineUpdater s) (thrown s).
Definition set_onlineUpdater x (s : t) : t := Build_t (g_restorer s) (g_localUpdater s) x (thrown s).
Definition throw (error : V) : Module unit := set_own (λ s, Build_t (g_restorer s) (g_localUpdater s) (g_onlineUpdater s) (thrown s ++ [error])).
(** A method of a client, called through its pointer: [None] without a client. *)
Definition on_client {A} (info : UpgradeInfo.t) (m : ST (SessionManager.t V _ * (UpdateClient.t * Kits)) A) : Module (option A) := λ p,
  match g_onlineUpdater p.1 !! info with
  | None => (None, p)
  | Some (sessions, this) =>
      let '(a, (sessions, (this, kits))) := m (sessions, (this, p.2)) in
      (Some a, (set_onlineUpdater (<[info := (sessions, this)]> (g_onlineUpdater p.1)) p.1, kits))
  end.
(** The key of the client the new object wraps. *)
(*@ js/napi/update/src/update_module.cpp:50-75 JsConstructor *)
Definition JsConstructor (args : list V) : Module (option UpgradeInfo.t) :=
  let* kits := env_ (gets (λ c, c)) in
  let (r, upgradeInfo) := ClientHelper.GetUpgradeInfoFromArg (getpid kits.2) (argument args 0) UpgradeInfo.default in
  if negb (r =? CLIENT_SUCCESS) then ret None
  else
    let* clients := own_ g_onlineUpdater in
    (when bool_decide (clients !! upgradeInfo = None) do
       set_own (set_onlineUpdater (<[upgradeInfo := (SessionManager.initial, UpdateClient.new)]> clients))) ;;;
    ret (Some upgradeInfo).
(** [online]: [UPDATE_SERVICE_ONLINE_UPDATER] is defined. *)
(*@ js/napi/update/src/update_module.cpp GetOnlineUpdater *)
Definition GetOnlineUpdater (online : bool) (args : list V) : Module (option UpgradeInfo.t) :=
  if online then
    let* valid := env_ (gets (λ kits : Kits, IsCallerValid kits.2)) in
    if negb valid then throw NapiThrowNotSystemAppError ;;; ret None
    else
      let* client := JsConstructor args in
      match client with
      | None => ret None
      | Some info =>
          let* result := on_client info (UpdateClient.GetOnlineUpdater args) in
          ret (match result with Some (Some _) => Some info | _ => None end)
      end
  else throw NapiThrowUnSupportError ;;; ret None.
(** There is one restorer and one updater for local packages. *)
(*@ js/napi/update/src/update_module.cpp:77-90 JsConstructorRestorer *)
Definition JsConstructorRestorer : Module unit := set_own (λ s, set_restorer (Some (default (SessionManager.initial, Restorer.new) (g_restorer s))) s).
(*@ js/napi/update/src/update_module.cpp:92-105 JsConstructorLocalUpdater *)
Definition JsConstructorLocalUpdater : Module unit :=
  set_own (λ s, set_localUpdater (Some (default (SessionManager.initial, LocalUpdater.new) (g_localUpdater s))) s).
(*@ js/napi/update/src/update_module.cpp GetRestorer *)
Definition GetRestorer : Module bool :=
  let* valid := env_ (gets (λ kits : Kits, IsCallerValid kits.2)) in
  if negb valid then throw NapiThrowNotSystemAppError ;;; ret false
  else JsConstructorRestorer ;;; ret true.
Definition on_local {A} (m : ST (LocalUpdater.t * Kits) A) : Module (option A) := λ p,
  match g_localUpdater p.1 with
  | None => (None, p)
  | Some (sessions, this) => let '(a, (this, kits)) := m (this, p.2) in (Some a, (set_localUpdater (Some (sessions, this)) p.1, kits))
  end.
(*@ js/napi/update/src/update_module.cpp GetLocalUpdater *)
Definition GetLocalUpdater : Module bool :=
  let* valid := env_ (gets (λ kits : Kits, IsCallerValid kits.2)) in
  if negb valid then throw NapiThrowNotSystemAppError ;;; ret false
  else JsConstructorLocalUpdater ;;; on_local LocalUpdater.Init ;;; ret true.
(** The functions of a client look for the client their object wraps, and call its method of the same name. *)
Context `{JsEngine V (UpdateClient.t * Kits)}.
(*@ js/napi/update/src/update_module.cpp:158-268 CheckNewVersion *)
Definition call (name : string) (client : option UpgradeInfo.t) (args : list V) : Module (option V) :=
  match client, List.find (λ m, (m.1 =? name)%string) UpdateClient.methods with
  | Some info, Some m => let* result := on_client info (m.2 args) in ret (default None result)
  | _, _ => ret None
  end.
End ops.
Arguments t : clear implicits.
End UpdateModule.

Module ModuleFacts.
Import NapiCommonUtils ClientStatus.
(** ** What the constants are *)
Section exports.
Context {V : Type} `{NapiLaws V}.
Import DefineProperty.
#[local] Notation properties := (list (string * V)).
Lemma typeof_properties (ps : properties) o : napi_typeof (fold_left (λ o p, napi_set_named_property o p.1 p.2) ps o) = napi_typeof o.
Proof. revert o. induction ps as [|x l IH]; intros o; [done|]. cbn. rewrite IH. apply typeof_set. Qed.
Lemma get_other_property (ps : properties) o k :
  k ∉ ps.*1 → napi_get_named_property (fold_left (λ o p, napi_set_named_property o p.1 p.2) ps o) k = napi_get_named_property o k.
Proof.
  revert o. induction ps as [|[k' v] l IH]; intros o Hk; [done|]. cbn in *. rewrite not_elem_of_cons in Hk. destruct Hk as [Hk Hl].
  rewrite IH by done. apply get_set_ne. congruence.
Qed.
Lemma get_property (ps : properties) o k v :
  napi_typeof o = napi_object → NoDup ps.*1 → (k, v) ∈ ps →
  napi_get_named_property (fold_left (λ o p, napi_set_named_property o p.1 p.2) ps o) k = Some v.
Proof.
  revert o. induction ps as [|[k' v'] l IH]; intros o Ho Hnd Hin; [by apply elem_of_nil in Hin|]. cbn in *. apply NoDup_cons in Hnd as [Hk Hnd].
  apply elem_of_cons in Hin as [[= -> ->]|Hin].
  - rewrite get_other_property by done. by apply get_set.
  - apply IH; [by rewrite typeof_set|done|done].
Qed.
(** A constant is read as it was defined; the rest of the module stays. *)
Lemma property_created exports name (ps : properties) :
  napi_typeof exports = napi_object → NoDup ps.*1 →
  let exports' := CreateProperty exports name ps in
  (∃ o, napi_get_named_property exports' name = Some o ∧ ∀ k v, (k, v) ∈ ps → napi_get_named_property o k = Some v) ∧
  (∀ k, k ≠ name → napi_get_named_property exports' k = napi_get_named_property exports k) ∧ napi_typeof exports' = napi_object.
Proof.
  intros He Hnd. split_and!.
  - eexists. split; [by apply get_set|]. intros k v. apply get_property; [apply typeof_object|done].
  - intros k Hk. apply get_set_ne. congruence.
  - unfold CreateProperty. by rewrite typeof_set.
Qed.
End exports.

(** ** The updater an application gets *)
Section updaters.
Context {V E : Type} `{NapiLaws V, SystemAbilities E, ServiceProxy E, CallbackKits E, TokenKits E}.
Import SessionManager UpdateModule.
#[local] Notation Online := (SessionManager.t V (BusinessError.t → ST (UpdateClient.t * (UpdateServiceKitsImpl.t * E)) (Z * BusinessError.t)) * UpdateClient.t)%type.
Implicit Types (s : UpdateModule.t V E) (k : UpgradeInfo.t).
(** A client that is in use works for the information it is stored under, a new one for none. *)
Definition client_of k (this : UpdateClient.t) : Prop :=
  if UpdateClient.isInit_ this then UpdateClient.upgradeInfo_ this = k else UpdateClient.upgradeInfo_ this = UpgradeInfo.default.
Definition clients_inv s : Prop := ∀ k sessions this, g_onlineUpdater s !! k = Some (sessions, this) → client_of k this.
(** The key of the client for an argument. *)
Definition requested (kits : UpdateServiceKitsImpl.t * E) (arg : V) : UpgradeInfo.t :=
  (ClientHelper.GetUpgradeInfoFromArg (getpid kits.2) arg UpgradeInfo.default).2.
Lemma requested_accepted pid (arg : V) o : (ClientHelper.GetUpgradeInfoFromArg pid arg o).1 = CLIENT_SUCCESS ↔ napi_typeof arg = napi_object.
Proof.
  unfold ClientHelper.GetUpgradeInfoFromArg, CheckNapiObjectType. case_bool_decide; cbn; [|done]. done.
Qed.
(** What the call leaves of the client under the key. *)
Definition updater_of k (o : option Online) : Online :=
  let (sessions, this) := default (SessionManager.initial, UpdateClient.new) o in
  (sessions, if UpdateClient.isInit_ this then this else UpdateClient.set_isInit true (UpdateClient.set_upgradeInfo k this)).
Definition online_outcome (args : list V) s (kits : UpdateServiceKitsImpl.t * E) : option UpgradeInfo.t * (UpdateModule.t V E * (UpdateServiceKitsImpl.t * E)) :=
  if IsCallerValid kits.2 then
    if decide (napi_typeof (argument args 0) = napi_object) then
      let k := requested kits (argument args 0) in
      (Some k, (set_onlineUpdater (<[k := updater_of k (g_onlineUpdater s !! k)]> (g_onlineUpdater s)) s, kits))
    else (None, (s, kits))
  else (None, exec (throw NapiThrowNotSystemAppError) (s, kits)).
Lemma JsConstructor_spec args s kits :
  JsConstructor args (s, kits) =
  if decide (napi_typeof (argument args 0) = napi_object) then
    let k := requested kits (argument args 0) in
    (Some k, (match g_onlineUpdater s !! k with
              | Some _ => s
              | None => set_onlineUpdater (<[k := (SessionManager.initial, UpdateClient.new)]> (g_onlineUpdater s)) s
              end, kits))
  else (None, (s, kits)).
Proof.
  unfold JsConstructor, requested, bind, env_, gets. cbn. unfold ClientHelper.GetUpgradeInfoFromArg, CheckNapiObjectType.
  destruct (decide _) as [Hd|Hd]; [|by rewrite bool_decide_false]. rewrite bool_decide_true by done. cbn.
  unfold own_, gets, bind. cbn. by destruct (g_onlineUpdater s !! _).
Qed.
Lemma some_argument (args : list V) : napi_typeof (argument args 0) = napi_object → (length args <? 1)%nat = false.
Proof. destruct args; [|done]. cbn. by rewrite typeof_undefined. Qed.
Lemma client_initialised args k sessions this kits :
  client_of k this → napi_typeof (argument args 0) = napi_object → k = requested kits (argument args 0) →
  UpdateClient.GetOnlineUpdater args (sessions, (this, kits)) =
  (Some (napi_create_int32 0), (sessions, ((updater_of k (Some (sessions, this))).2, kits))).
Proof.
  intros Hc Ht ->. unfold UpdateClient.GetOnlineUpdater. rewrite some_argument by done. unfold bind, env_, gets. cbn. unfold client_of in Hc.
  destruct (UpdateClient.isInit_ this); [done|]. rewrite Hc. unfold requested, ClientHelper.GetUpgradeInfoFromArg, CheckNapiObjectType.
  rewrite bool_decide_true by done. done.
Qed.
Lemma updater_of_client k o : (∀ x, o = Some x → client_of k x.2) → client_of k (updater_of k o).2.
Proof.
  intros Ho. destruct o as [[sessions this]|]; cbn; [|done]. specialize (Ho _ eq_refl). unfold client_of in *. cbn in Ho.
  destruct (UpdateClient.isInit_ this) eqn:Hi; [by rewrite Hi|done].
Qed.
Lemma GetOnlineUpdater_outcome args s kits : clients_inv s → GetOnlineUpdater true args (s, kits) = online_outcome args s kits.
Proof.
  intros Hs. unfold GetOnlineUpdater, online_outcome, bind at 1, env_ at 1, gets. cbn. destruct (IsCallerValid kits.2); [|done]. cbn.
  unfold bind at 1. rewrite JsConstructor_spec. destruct (decide _) as [Hd|Hd]; [|done]. cbn zeta. set (k := requested _ _).
  unfold bind, on_client. destruct (g_onlineUpdater s !! k) as [[sessions this]|] eqn:Hk; cbn.
  - rewrite Hk, (client_initialised _ k) by (try done; by eapply Hs). done.
  - rewrite lookup_insert_eq, (client_initialised _ k) by done. cbn. rewrite insert_insert_eq. done.
Qed.
(** The updater an application gets: for the upgrade information of its argument there is one client
    in the process, which is made at the first request, works for this information and is the same
    object, with its sessions and its members, at each later request; the clients of other
    information stay.  A caller that is no system application gets an error; an argument that is no
    object gets a null value, with nothing changed and no error thrown. *)
Theorem online_updater_shared args s kits :
  clients_inv s →
  let '(client, (s', kits')) := GetOnlineUpdater true args (s, kits) in
  clients_inv s' ∧ kits' = kits ∧
  if IsCallerValid kits.2 then
    if decide (napi_typeof (argument args 0) = napi_object) then
      let k := requested kits (argument args 0) in
      client = Some k ∧ thrown s' = thrown s ∧
      (∃ sessions this, g_onlineUpdater s' !! k = Some (sessions, this) ∧ UpdateClient.isInit_ this = true ∧ UpdateClient.upgradeInfo_ this = k) ∧
      (∀ x, g_onlineUpdater s !! k = Some x → UpdateClient.isInit_ x.2 = true → g_onlineUpdater s' !! k = Some x) ∧
      (∀ k', k' ≠ k → g_onlineUpdater s' !! k' = g_onlineUpdater s !! k')
    else client = None ∧ s' = s
  else client = None ∧ thrown s' = thrown s ++ [NapiThrowNotSystemAppError] ∧ g_onlineUpdater s' = g_onlineUpdater s.
Proof.
  intros Hs. rewrite GetOnlineUpdater_outcome by done. unfold online_outcome. destruct (IsCallerValid kits.2); [|by split_and!].
  destruct (decide _) as [Hd|Hd]; [|by split_and!]. cbn zeta. set (k := requested _ _).
  assert (client_of k (updater_of k (g_onlineUpdater s !! k)).2) as Hc by (apply updater_of_client; intros [sessions this] Hx; by eapply Hs).
  split_and!; [|done..| | |].
  - intros k' sessions this. cbn. destruct (decide (k' = k)) as [->|Hne]; [|rewrite lookup_insert_ne by done; apply Hs].
    rewrite lookup_insert_eq. intros [= Hx]. by rewrite Hx in Hc.
  - destruct (updater_of k (g_onlineUpdater s !! k)) as [sessions this] eqn:Hu. exists sessions, this. cbn. rewrite lookup_insert_eq. split; [done|].
    assert (UpdateClient.isInit_ this = true) as Hi.
    { unfold updater_of in Hu. destruct (default _ _) as [sessions0 this0]. injection Hu as _ <-. by destruct (UpdateClient.isInit_ this0) eqn:?. }
    split; [done|]. cbn in Hc. unfold client_of in Hc. by rewrite Hi in Hc.
  - intros [sessions this] Hx Hi. cbn in *. rewrite lookup_insert_eq, Hx. cbn. by rewrite Hi.
  - intros k' Hne. cbn. by rewrite lookup_insert_ne.
Qed.
End updaters.
End ModuleFacts.

(** ** An application that asks twice *)
Module SampleModule.
Import SessionManager UpdateModule ModuleFacts SampleJs SampleArgs NapiCommonUtils.
#[local] Instance tokens : TokenKits Z := system_app Z.
#[local] Instance callbacks : CallbackKits Z := { new_UpdateCallback _ := ret 0; getpid e := e }.
Definition kits : UpdateServiceKitsImpl.t * Z := (UpdateServiceKitsImpl.new, 42).
Definition info_object : js := object [("upgradeApp", Str "settings"); ("businessType", object [("vendor", Str "public"); ("subType", Number 1)])].
Definition first : UpdateModule.t js Z * (UpdateServiceKitsImpl.t * Z) := exec (GetOnlineUpdater true [info_object]) (initial, kits).
Definition key : UpgradeInfo.t := requested kits info_object.
Lemma initial_inv : clients_inv (initial : UpdateModule.t js Z).
Proof. intros k sessions this Hk. cbn in Hk. by apply lookup_empty_Some in Hk. Qed.
Lemma online_updater_shared_witness :
  UpgradeInfo.upgradeApp key = "settings" ∧
  eval (GetOnlineUpdater true [info_object]) (initial, kits) = Some key ∧
  eval (GetOnlineUpdater true [info_object]) first = Some key ∧
  ∃ x, g_onlineUpdater first.1 !! key = Some x ∧ g_onlineUpdater (exec (GetOnlineUpdater true [info_object]) first).1 !! key = Some x ∧
    UpdateClient.upgradeInfo_ x.2 = key.
Proof.
  pose proof (online_updater_shared [info_object] initial kits initial_inv) as H1.
  destruct (GetOnlineUpdater true [info_object] (initial, kits)) as [r [s1 k1]] eqn:Hrun.
  assert (first = (s1, k1)) as Hfirst by (unfold first, exec; by rewrite Hrun).
  destruct H1 as (Hinv & -> & Hr & _ & (sessions & this & Hthis & Hinit & Hinfo) & _).
  pose proof (online_updater_shared [info_object] s1 kits Hinv) as H2. rewrite Hfirst. unfold eval, exec. rewrite Hrun.
  destruct (GetOnlineUpdater true [info_object] (s1, kits)) as [r2 [s2 k2]].
  destruct H2 as (_ & -> & Hr2 & _ & _ & Hkept & _).
  split_and!; [reflexivity|exact Hr|exact Hr2|]. exists (sessions, this). split_and!; [exact Hthis|exact (Hkept _ Hthis Hinit)|exact Hinfo].
Defined.
End SampleModule.
