(* ===== verification/Ani.v ===== *)
(** * Values of ArkTS

    Models the values of the bindings for ArkTS: the types of the interface
    [frameworks/js/ani/idl/ohos.update.taihe] and their conversion from and to the structures of
    the inner API in [ani_common_conveter.cpp].  The code the taihe compiler makes of the interface is not part of
    the repository: what it does with a number or a string that no member of an enumeration has is
    left open ([TaiheRuntime]).  An [i32] is a [Z]. *)
From Stdlib Require Import ZArith Lia Ascii String.
From stdpp Require Import base tactics list strings.
From S2P Require Import Prelude CppString Models JsArgs.

#[local] Open Scope Z_scope.

(** ** The interface *)
Module Taihe.
Module FactoryResetScope.
(*@* js/ani/idl/ohos.update.taihe:156-159 FactoryResetScope *)
Inductive t := DATA | DATA_AND_OS.
Definition get_value (x : t) : Z := match x with DATA => 1 | DATA_AND_OS => 2 end.
End FactoryResetScope.
Module BusinessVendor.
(*@* js/ani/idl/ohos.update.taihe:161-163 BusinessVendor *)
Inductive t := PUBLIC.
Definition get_value (x : t) : string := match x with PUBLIC => "public" end.
End BusinessVendor.
Module BusinessSubType.
(*@* js/ani/idl/ohos.update.taihe:165-167 BusinessSubType *)
Inductive t := FIRMWARE.
Definition get_value (x : t) : Z := match x with FIRMWARE => 1 end.
End BusinessSubType.
Module ComponentType.
(*@* js/ani/idl/ohos.update.taihe:169-171 ComponentType *)
Inductive t := OTA.
Definition get_value (x : t) : Z := match x with OTA => 1 end.
End ComponentType.
Module UpgradeAction.
(*@* js/ani/idl/ohos.update.taihe:173-176 UpgradeAction *)
Inductive t := UPGRADE | RECOVERY.
Definition get_value (x : t) : string := match x with UPGRADE => "upgrade" | RECOVERY => "recovery" end.
End UpgradeAction.
Module EffectiveMode.
(*@* js/ani/idl/ohos.update.taihe:178-182 EffectiveMode *)
Inductive t := COLD | LIVE | LIVE_AND_COLD.
Definition get_value (x : t) : Z := match x with COLD => 1 | LIVE => 2 | LIVE_AND_COLD => 3 end.
End EffectiveMode.
Module DescriptionType.
(*@* js/ani/idl/ohos.update.taihe:184-187 DescriptionType *)
Inductive t := CONTENT | URI.
Definition get_value (x : t) : Z := match x with CONTENT => 0 | URI => 1 end.
End DescriptionType.
Module DescriptionFormat.
(*@* js/ani/idl/ohos.update.taihe:189-192 DescriptionFormat *)
Inductive t := STANDARD | SIMPLIFIED.
Definition get_value (x : t) : Z := match x with STANDARD => 0 | SIMPLIFIED => 1 end.
End DescriptionFormat.
Module NetType.
(*@* js/ani/idl/ohos.update.taihe:194-200 NetType *)
Inductive t := CELLULAR | METERED_WIFI | NOT_METERED_WIFI | WIFI | CELLULAR_AND_WIFI.
Definition get_value (x : t) : Z := match x with CELLULAR => 1 | METERED_WIFI => 2 | NOT_METERED_WIFI => 4 | WIFI => 6 | CELLULAR_AND_WIFI => 7 end.
End NetType.
Module Order.
(*@* js/ani/idl/ohos.update.taihe:202-208 Order *)
Inductive t := DOWNLOAD | INSTALL | DOWNLOAD_AND_INSTALL | APPLY | INSTALL_AND_APPLY.
Definition get_value (x : t) : Z := match x with DOWNLOAD => 1 | INSTALL => 2 | DOWNLOAD_AND_INSTALL => 3 | APPLY => 4 | INSTALL_AND_APPLY => 6 end.
End Order.
Module UpgradeStatus.
(*@* js/ani/idl/ohos.update.taihe:210-242 UpgradeStatus *)
Inductive t := ERROR | INIT | CHECKING_VERSION | CHECK_VERSION_FAIL | CHECK_VERSION_SUCCESS | DOWNLOADING | DOWNLOAD_PAUSE | DOWNLOAD_CANCEL
  | DOWNLOAD_FAIL | DOWNLOAD_SUCCESS | VERIFYING | VERIFY_FAIL | VERIFY_SUCCESS | AUTHING | AUTH_FAIL | AUTH_SUCCESS | WAIT_TRANSFER
  | TRANSFER_START | PACKAGE_TRANSING | PACKAGE_TRANS_FAIL | PACKAGE_TRANS_SUCCESS | INSTALLING | INSTALL_FAIL | INSTALL_SUCCESS | INSTALL_PAUSE
  | UPDATING | UPDATE_FAIL | UPDATE_SUCCESS | UPGRADE_REBOOT | UPGRADE_COUNT_DOWN | UPGRADE_CANCEL.
Definition get_value (x : t) : Z := match x with ERROR => -1 | INIT => 0 | CHECKING_VERSION => 10 | CHECK_VERSION_FAIL => 11
  | CHECK_VERSION_SUCCESS => 12 | DOWNLOADING => 20 | DOWNLOAD_PAUSE => 21 | DOWNLOAD_CANCEL => 22 | DOWNLOAD_FAIL => 23 | DOWNLOAD_SUCCESS => 24
  | VERIFYING => 30 | VERIFY_FAIL => 31 | VERIFY_SUCCESS => 32 | AUTHING => 60 | AUTH_FAIL => 61 | AUTH_SUCCESS => 62 | WAIT_TRANSFER => 68
  | TRANSFER_START => 69 | PACKAGE_TRANSING => 70 | PACKAGE_TRANS_FAIL => 71 | PACKAGE_TRANS_SUCCESS => 72 | INSTALLING => 80
  | INSTALL_FAIL => 81 | INSTALL_SUCCESS => 82 | INSTALL_PAUSE => 83 | UPDATING => 90 | UPDATE_FAIL => 91 | UPDATE_SUCCESS => 92
  | UPGRADE_REBOOT => 93 | UPGRADE_COUNT_DOWN => 100 | UPGRADE_CANCEL => 101 end.
End UpgradeStatus.
Module EventClassify.
(*@* js/ani/idl/ohos.update.taihe:244-246 EventClassify *)
Inductive t := TASK.
Definition get_value (x : t) : Z := match x with TASK => 0x1000000 end.
End EventClassify.
Module EventId.
(*@* js/ani/idl/ohos.update.taihe:248-266 EventId *)
Inductive t := EVENT_TASK_BASE | EVENT_TASK_RECEIVE | EVENT_TASK_CANCEL | EVENT_DOWNLOAD_WAIT | EVENT_DOWNLOAD_START | EVENT_DOWNLOAD_UPDATE
  | EVENT_DOWNLOAD_PAUSE | EVENT_DOWNLOAD_RESUME | EVENT_DOWNLOAD_SUCCESS | EVENT_DOWNLOAD_FAIL | EVENT_UPGRADE_WAIT | EVENT_UPGRADE_START
  | EVENT_UPGRADE_UPDATE | EVENT_APPLY_WAIT | EVENT_APPLY_START | EVENT_UPGRADE_SUCCESS | EVENT_UPGRADE_FAIL.
Definition get_value (x : t) : Z := match x with EVENT_TASK_BASE => 0x1000000 | EVENT_TASK_RECEIVE => 0x1000001 | EVENT_TASK_CANCEL => 0x1000002
  | EVENT_DOWNLOAD_WAIT => 0x1000003 | EVENT_DOWNLOAD_START => 0x1000004 | EVENT_DOWNLOAD_UPDATE => 0x1000005 | EVENT_DOWNLOAD_PAUSE => 0x1000006
  | EVENT_DOWNLOAD_RESUME => 0x1000007 | EVENT_DOWNLOAD_SUCCESS => 0x1000008 | EVENT_DOWNLOAD_FAIL => 0x1000009 | EVENT_UPGRADE_WAIT => 0x100000a
  | EVENT_UPGRADE_START => 0x100000b | EVENT_UPGRADE_UPDATE => 0x100000c | EVENT_APPLY_WAIT => 0x100000d | EVENT_APPLY_START => 0x100000e
  | EVENT_UPGRADE_SUCCESS => 0x100000f | EVENT_UPGRADE_FAIL => 0x1000010 end.
End EventId.
Module BusinessType.
(*@* js/ani/idl/ohos.update.taihe:29-32 BusinessType *)
Record t := { vendor : BusinessVendor.t; subType : BusinessSubType.t }.
End BusinessType.
Module UpgradeInfo.
(*@* js/ani/idl/ohos.update.taihe:24-27 UpgradeInfo *)
Record t := { upgradeApp : string; businessType : BusinessType.t }.
End UpgradeInfo.
Module VersionDigestInfo.
(*@* js/ani/idl/ohos.update.taihe:44-46 VersionDigestInfo *)
Record t := { versionDigest : string }.
End VersionDigestInfo.
Module DescriptionInfo.
(*@* js/ani/idl/ohos.update.taihe:69-72 DescriptionInfo *)
Record t := { descriptionType : DescriptionType.t; content : string }.
End DescriptionInfo.
Module VersionComponent.
(*@* js/ani/idl/ohos.update.taihe:48-57 VersionComponent *)
Record t := { componentId : string; componentType : ComponentType.t; upgradeAction : UpgradeAction.t; displayVersion : string;
  innerVersion : string; size : Z; effectiveMode : EffectiveMode.t; descriptionInfo : DescriptionInfo.t }.
End VersionComponent.
Module NewVersionInfo.
(*@* js/ani/idl/ohos.update.taihe:39-42 NewVersionInfo *)
Record t := { versionDigestInfo : VersionDigestInfo.t; versionComponents : list VersionComponent.t }.
End NewVersionInfo.
Module CheckResult.
(*@* js/ani/idl/ohos.update.taihe:34-37 CheckResult *)
Record t := { isExistNewVersion : bool; newVersionInfo : NewVersionInfo.t }.
End CheckResult.
Module DescriptionOptions.
(*@* js/ani/idl/ohos.update.taihe:59-62 DescriptionOptions *)
Record t := { format : DescriptionFormat.t; language : string }.
End DescriptionOptions.
Module ComponentDescription.
(*@* js/ani/idl/ohos.update.taihe:64-67 ComponentDescription *)
Record t := { componentId : string; descriptionInfo : DescriptionInfo.t }.
End ComponentDescription.
Module CurrentVersionInfo.
(*@* js/ani/idl/ohos.update.taihe:74-78 CurrentVersionInfo *)
Record t := { osVersion : string; deviceName : string; versionComponents : list VersionComponent.t }.
End CurrentVersionInfo.
Module DownloadOptions.
(*@* js/ani/idl/ohos.update.taihe:80-83 DownloadOptions *)
Record t := { allowNetwork : NetType.t; order : Order.t }.
End DownloadOptions.
Module ResumeDownloadOptions.
(*@* js/ani/idl/ohos.update.taihe:85-87 ResumeDownloadOptions *)
Record t := { allowNetwork : NetType.t }.
End ResumeDownloadOptions.
Module PauseDownloadOptions.
(*@* js/ani/idl/ohos.update.taihe:89-91 PauseDownloadOptions *)
Record t := { isAllowAutoResume : bool }.
End PauseDownloadOptions.
Module UpgradeOptions.
(*@* js/ani/idl/ohos.update.taihe:93-95 UpgradeOptions *)
Record t := { order : Order.t }.
End UpgradeOptions.
Module ClearOptions.
(*@* js/ani/idl/ohos.update.taihe:97-99 ClearOptions *)
Record t := { status : UpgradeStatus.t }.
End ClearOptions.
Module UpgradePeriod.
(*@* js/ani/idl/ohos.update.taihe:107-110 UpgradePeriod *)
Record t := { start : Z; end_ : Z }.
End UpgradePeriod.
Module UpgradePolicy.
(*@* js/ani/idl/ohos.update.taihe:101-105 UpgradePolicy *)
Record t := { downloadStrategy : bool; autoUpgradeStrategy : bool; autoUpgradePeriods : list UpgradePeriod.t }.
End UpgradePolicy.
Module ErrorMessage.
(*@* js/ani/idl/ohos.update.taihe:132-135 ErrorMessage *)
Record t := { errorCode : Z; errorMessage : string }.
End ErrorMessage.
Module TaskBody.
(*@* js/ani/idl/ohos.update.taihe:122-130 TaskBody *)
Record t := { versionDigestInfo : VersionDigestInfo.t; status : UpgradeStatus.t; subStatus : Z; progress : Z; installMode : Z;
  errorMessages : list ErrorMessage.t; versionComponents : list VersionComponent.t }.
End TaskBody.
Module TaskInfo.
(*@* js/ani/idl/ohos.update.taihe:112-115 TaskInfo *)
Record t := { existTask : bool; taskBody : TaskBody.t }.
End TaskInfo.
Module EventInfo.
(*@* js/ani/idl/ohos.update.taihe:117-120 EventInfo *)
Record t := { eventId : EventId.t; taskBody : TaskBody.t }.
End EventInfo.
Module EventClassifyInfo.
(*@* js/ani/idl/ohos.update.taihe:137-140 EventClassifyInfo *)
Record t := { eventClassify : EventClassify.t; extraInfo : string }.
End EventClassifyInfo.
Module UpgradeFile.
(*@* js/ani/idl/ohos.update.taihe:142-145 UpgradeFile *)
Record t := { fileType : ComponentType.t; filePath : string }.
End UpgradeFile.
Module FactoryResetStrategy.
(*@* js/ani/idl/ohos.update.taihe:147-150 FactoryResetStrategy *)
Record t := { scope : FactoryResetScope.t; strategy : string }.
End FactoryResetStrategy.
Module FactoryResetInfo.
(*@* js/ani/idl/ohos.update.taihe:152-154 FactoryResetInfo *)
Record t := { duration : Z }.
End FactoryResetInfo.
End Taihe.

(** [from_value] of the enumerations the conversion makes. *)
Class TaiheRuntime := {
  UpgradeStatus_from_value : Z → Taihe.UpgradeStatus.t;
  ComponentType_from_value : Z → Taihe.ComponentType.t;
  DescriptionType_from_value : Z → Taihe.DescriptionType.t;
  EffectiveMode_from_value : Z → Taihe.EffectiveMode.t;
  EventId_from_value : Z → Taihe.EventId.t;
  UpgradeAction_from_value : string → Taihe.UpgradeAction.t
}.
(** A value of a member gives the member. *)
Class TaiheLaws `{TaiheRuntime} : Prop := {
  UpgradeStatus_from x : UpgradeStatus_from_value (Taihe.UpgradeStatus.get_value x) = x;
  ComponentType_from x : ComponentType_from_value (Taihe.ComponentType.get_value x) = x;
  DescriptionType_from x : DescriptionType_from_value (Taihe.DescriptionType.get_value x) = x;
  EffectiveMode_from x : EffectiveMode_from_value (Taihe.EffectiveMode.get_value x) = x;
  EventId_from x : EventId_from_value (Taihe.EventId.get_value x) = x;
  UpgradeAction_from x : UpgradeAction_from_value (Taihe.UpgradeAction.get_value x) = x
}.

(** ** The conversion

    [Converter] is overloaded: [Converter_T] makes a value of the interface of a structure [T], and [FromT] a
    structure of a value of the interface. *)
Module AniCommonConverter.
Section ops.
Context `{TaiheRuntime}.
(*@ ani_common_conveter.cpp:19-25 AniCommonConverter::Converter *)
Definition Converter_ErrorMessage (error : ErrorMessage.t) : Taihe.ErrorMessage.t :=
  {| Taihe.ErrorMessage.errorCode := to_int32 (ErrorMessage.errorCode error); Taihe.ErrorMessage.errorMessage := ErrorMessage.errorMessage error |}.
(*@ ani_common_conveter.cpp:27-35 AniCommonConverter::Converter *)
Definition Converter_ErrorMessages (errors : list ErrorMessage.t) : list Taihe.ErrorMessage.t := map Converter_ErrorMessage errors.
(*@ ani_common_conveter.cpp:84-89 AniCommonConverter::Converter *)
Definition Converter_VersionDigestInfo (versionDigestInfo : VersionDigestInfo.t) : Taihe.VersionDigestInfo.t :=
  {| Taihe.VersionDigestInfo.versionDigest := VersionDigestInfo.versionDigest versionDigestInfo |}.
(*@ ani_common_conveter.cpp:91-94 AniCommonConverter::Converter *)
Definition Converter_UpgradeStatus (status : Z) : Taihe.UpgradeStatus.t := UpgradeStatus_from_value (to_int32 status).
(*@ ani_common_conveter.cpp:96-99 AniCommonConverter::Converter *)
Definition Converter_ComponentType (componentType : Z) : Taihe.ComponentType.t := ComponentType_from_value (to_int32 componentType).
(*@ ani_common_conveter.cpp:101-104 AniCommonConverter::Converter *)
Definition Converter_DescriptionType (descriptionType : Z) : Taihe.DescriptionType.t := DescriptionType_from_value (to_int32 descriptionType).
(*@ ani_common_conveter.cpp:106-109 AniCommonConverter::Converter *)
Definition Converter_EffectiveMode (effectiveMode : Z) : Taihe.EffectiveMode.t := EffectiveMode_from_value (to_int32 effectiveMode).
(*@ ani_common_conveter.cpp:111-117 AniCommonConverter::Converter *)
Definition Converter_DescriptionInfo (description : DescriptionInfo.t) : Taihe.DescriptionInfo.t :=
  {| Taihe.DescriptionInfo.descriptionType := Converter_DescriptionType (DescriptionInfo.descriptionType description);
     Taihe.DescriptionInfo.content := DescriptionInfo.content description |}.
(*@ ani_common_conveter.cpp:119-122 AniCommonConverter::Converter *)
Definition Converter_UpgradeAction (action : string) : Taihe.UpgradeAction.t := UpgradeAction_from_value action.
(*@ ani_common_conveter.cpp:154-166 AniCommonConverter::Converter *)
Definition Converter_VersionComponent (component : VersionComponent.t) : Taihe.VersionComponent.t := {|
  Taihe.VersionComponent.componentId := VersionComponent.componentId component;
  Taihe.VersionComponent.componentType := Converter_ComponentType (VersionComponent.componentType component);
  Taihe.VersionComponent.upgradeAction := Converter_UpgradeAction (VersionComponent.upgradeAction component);
  Taihe.VersionComponent.displayVersion := VersionComponent.displayVersion component;
  Taihe.VersionComponent.innerVersion := VersionComponent.innerVersion component;
  Taihe.VersionComponent.size := to_int32 (VersionComponent.size component);
  Taihe.VersionComponent.effectiveMode := Converter_EffectiveMode (VersionComponent.effectiveMode component);
  Taihe.VersionComponent.descriptionInfo := Converter_DescriptionInfo (VersionComponent.descriptionInfo component) |}.
(*@ ani_common_conveter.cpp:168-177 AniCommonConverter::Converter *)
Definition Converter_VersionComponents (components : list VersionComponent.t) : list Taihe.VersionComponent.t := map Converter_VersionComponent components.
(*@ ani_common_conveter.cpp:70-82 AniCommonConverter::Converter *)
Definition Converter_TaskBody (taskBody : TaskBody.t) : Taihe.TaskBody.t := {|
  Taihe.TaskBody.versionDigestInfo := Converter_VersionDigestInfo (TaskBody.versionDigestInfo taskBody);
  Taihe.TaskBody.status := Converter_UpgradeStatus (TaskBody.status taskBody);
  Taihe.TaskBody.subStatus := to_int32 (TaskBody.subStatus taskBody);
  Taihe.TaskBody.progress := TaskBody.progress taskBody;
  Taihe.TaskBody.installMode := to_int32 (TaskBody.installMode taskBody);
  Taihe.TaskBody.errorMessages := Converter_ErrorMessages (TaskBody.errorMessages taskBody);
  Taihe.TaskBody.versionComponents := Converter_VersionComponents (TaskBody.versionComponents taskBody) |}.
(*@ ani_common_conveter.cpp:37-43 AniCommonConverter::Converter *)
Definition Converter_TaskInfo (info : TaskInfo.t) : Taihe.TaskInfo.t :=
  {| Taihe.TaskInfo.existTask := TaskInfo.existTask info; Taihe.TaskInfo.taskBody := Converter_TaskBody (TaskInfo.taskBody info) |}.
(*@ ani_common_conveter.cpp:45-52 AniCommonConverter::Converter *)
Definition Converter_CurrentVersionInfo (info : CurrentVersionInfo.t) : Taihe.CurrentVersionInfo.t := {|
  Taihe.CurrentVersionInfo.osVersion := CurrentVersionInfo.osVersion info;
  Taihe.CurrentVersionInfo.deviceName := CurrentVersionInfo.deviceName info;
  Taihe.CurrentVersionInfo.versionComponents := Converter_VersionComponents (CurrentVersionInfo.versionComponents info) |}.
(*@ ani_common_conveter.cpp:54-60 AniCommonConverter::Converter *)
Definition Converter_NewVersionInfo (info : NewVersionInfo.t) : Taihe.NewVersionInfo.t := {|
  Taihe.NewVersionInfo.versionDigestInfo := Converter_VersionDigestInfo (NewVersionInfo.versionDigestInfo info);
  Taihe.NewVersionInfo.versionComponents := Converter_VersionComponents (NewVersionInfo.versionComponents info) |}.
(*@ ani_common_conveter.cpp:62-68 AniCommonConverter::Converter *)
Definition Converter_CheckResult (result : CheckResult.t) : Taihe.CheckResult.t := {|
  Taihe.CheckResult.isExistNewVersion := CheckResult.isExistNewVersion result;
  Taihe.CheckResult.newVersionInfo := Converter_NewVersionInfo (CheckResult.newVersionInfo result) |}.
(*@ ani_common_conveter.cpp:179-185 AniCommonConverter::Converter *)
Definition Converter_UpgradePeriod (upgradePeriod : UpgradePeriod.t) : Taihe.UpgradePeriod.t :=
  {| Taihe.UpgradePeriod.start := to_int32 (UpgradePeriod.start upgradePeriod); Taihe.UpgradePeriod.end_ := to_int32 (UpgradePeriod.end_ upgradePeriod) |}.
(*@ ani_common_conveter.cpp:187-196 AniCommonConverter::Converter *)
Definition Converter_UpgradePeriods (upgradePeriods : list UpgradePeriod.t) : list Taihe.UpgradePeriod.t := map Converter_UpgradePeriod upgradePeriods.
(*@ ani_common_conveter.cpp:124-133 AniCommonConverter::Converter *)
Definition Converter_UpgradePolicy (upgradePolicy : UpgradePolicy.t) : Taihe.UpgradePolicy.t :=
  let (first, second) := UpgradePolicy.autoUpgradePeriods upgradePolicy in {|
  Taihe.UpgradePolicy.downloadStrategy := UpgradePolicy.downloadStrategy upgradePolicy;
  Taihe.UpgradePolicy.autoUpgradeStrategy := UpgradePolicy.autoUpgradeStrategy upgradePolicy;
  Taihe.UpgradePolicy.autoUpgradePeriods := Converter_UpgradePeriods [first; second] |}.
(*@ ani_common_conveter.cpp:135-141 AniCommonConverter::Converter *)
Definition Converter_ComponentDescription (componentDescription : ComponentDescription.t) : Taihe.ComponentDescription.t := {|
  Taihe.ComponentDescription.componentId := ComponentDescription.componentId componentDescription;
  Taihe.ComponentDescription.descriptionInfo := Converter_DescriptionInfo (ComponentDescription.descriptionInfo componentDescription) |}.
(*@ ani_common_conveter.cpp:143-152 AniCommonConverter::Converter *)
Definition Converter_ComponentDescriptions (componentDescriptions : list ComponentDescription.t) : list Taihe.ComponentDescription.t :=
  map Converter_ComponentDescription componentDescriptions.
(*@ ani_common_conveter.cpp:293-296 AniCommonConverter::Converter *)
Definition Converter_EventId (eventId : Z) : Taihe.EventId.t := EventId_from_value (to_int32 eventId).
(*@ ani_common_conveter.cpp:298-304 AniCommonConverter::Converter *)
Definition Converter_EventInfo (info : EventInfo.t) : Taihe.EventInfo.t :=
  {| Taihe.EventInfo.eventId := Converter_EventId (EventInfo.eventId info); Taihe.EventInfo.taskBody := Converter_TaskBody (EventInfo.taskBody info) |}.
(*@ ani_common_conveter.cpp:314-319 AniCommonConverter::Converter *)
Definition Converter_FactoryResetInfo (factoryResetInfo : FactoryResetInfo.t) : Taihe.FactoryResetInfo.t :=
  {| Taihe.FactoryResetInfo.duration := FactoryResetInfo.duration factoryResetInfo |}.
End ops.

(** *** To the inner API *)
(*@ ani_common_conveter.cpp:198-203 AniCommonConverter::Converter *)
Definition FromVersionDigestInfo (x : Taihe.VersionDigestInfo.t) : VersionDigestInfo.t :=
  {| VersionDigestInfo.versionDigest := Taihe.VersionDigestInfo.versionDigest x |}.
(*@ ani_common_conveter.cpp:205-211 AniCommonConverter::Converter *)
Definition FromDescriptionOptions (x : Taihe.DescriptionOptions.t) : DescriptionOptions.t := {|
  DescriptionOptions.format := Taihe.DescriptionFormat.get_value (Taihe.DescriptionOptions.format x);
  DescriptionOptions.language := Taihe.DescriptionOptions.language x |}.
(*@ ani_common_conveter.cpp:213-219 AniCommonConverter::Converter *)
Definition FromDownloadOptions (x : Taihe.DownloadOptions.t) : DownloadOptions.t := {|
  DownloadOptions.allowNetwork := Taihe.NetType.get_value (Taihe.DownloadOptions.allowNetwork x);
  DownloadOptions.order := Taihe.Order.get_value (Taihe.DownloadOptions.order x) |}.
(*@ ani_common_conveter.cpp:221-226 AniCommonConverter::Converter *)
Definition FromResumeDownloadOptions (x : Taihe.ResumeDownloadOptions.t) : ResumeDownloadOptions.t :=
  {| ResumeDownloadOptions.allowNetwork := Taihe.NetType.get_value (Taihe.ResumeDownloadOptions.allowNetwork x) |}.
(*@ ani_common_conveter.cpp:228-233 AniCommonConverter::Converter *)
Definition FromPauseDownloadOptions (x : Taihe.PauseDownloadOptions.t) : PauseDownloadOptions.t :=
  {| PauseDownloadOptions.isAllowAutoResume := Taihe.PauseDownloadOptions.isAllowAutoResume x |}.
(*@ ani_common_conveter.cpp:235-240 AniCommonConverter::Converter *)
Definition FromUpgradeOptions (x : Taihe.UpgradeOptions.t) : UpgradeOptions.t := {| UpgradeOptions.order := Taihe.Order.get_value (Taihe.UpgradeOptions.order x) |}.
(*@ ani_common_conveter.cpp:242-247 AniCommonConverter::Converter *)
Definition FromClearOptions (x : Taihe.ClearOptions.t) : ClearOptions.t := {| ClearOptions.status := Taihe.UpgradeStatus.get_value (Taihe.ClearOptions.status x) |}.
(*@ ani_common_conveter.cpp:249-255 AniCommonConverter::Converter *)
Definition FromUpgradeFile (x : Taihe.UpgradeFile.t) : UpgradeFile.t := {|
  UpgradeFile.fileType := Taihe.ComponentType.get_value (Taihe.UpgradeFile.fileType x); UpgradeFile.filePath := Taihe.UpgradeFile.filePath x |}.
(*@ ani_common_conveter.cpp:265-271 AniCommonConverter::Converter *)
Definition FromBusinessType (x : Taihe.BusinessType.t) : BusinessType.t := {|
  BusinessType.vendor := Taihe.BusinessVendor.get_value (Taihe.BusinessType.vendor x);
  BusinessType.subType := Taihe.BusinessSubType.get_value (Taihe.BusinessType.subType x) |}.
(*@ ani_common_conveter.cpp:257-263 AniCommonConverter::Converter *)
Definition FromUpgradeInfo (x : Taihe.UpgradeInfo.t) : UpgradeInfo.t := {|
  UpgradeInfo.upgradeApp := Taihe.UpgradeInfo.upgradeApp x; UpgradeInfo.businessType := FromBusinessType (Taihe.UpgradeInfo.businessType x);
  UpgradeInfo.upgradeDevId := UpgradeInfo.upgradeDevId UpgradeInfo.default; UpgradeInfo.controlDevId := UpgradeInfo.controlDevId UpgradeInfo.default;
  UpgradeInfo.processId := UpgradeInfo.processId UpgradeInfo.default; UpgradeInfo.deviceType := UpgradeInfo.deviceType UpgradeInfo.default |}.
(*@ ani_common_conveter.cpp:273-279 AniCommonConverter::Converter *)
Definition FromUpgradePeriod (x : Taihe.UpgradePeriod.t) : UpgradePeriod.t := {|
  UpgradePeriod.start := to_uint32 (Taihe.UpgradePeriod.start x); UpgradePeriod.end_ := to_uint32 (Taihe.UpgradePeriod.end_ x) |}.
(*@ ani_common_conveter.cpp:281-291 AniCommonConverter::Converter *)
(** At most two periods; those that are missing are the default ones. *)
Definition FromUpgradePolicy (x : Taihe.UpgradePolicy.t) : UpgradePolicy.t :=
  let period (i : nat) := from_option FromUpgradePeriod UpgradePeriod.default (Taihe.UpgradePolicy.autoUpgradePeriods x !! i) in {|
  UpgradePolicy.downloadStrategy := Taihe.UpgradePolicy.downloadStrategy x;
  UpgradePolicy.autoUpgradeStrategy := Taihe.UpgradePolicy.autoUpgradeStrategy x;
  UpgradePolicy.autoUpgradePeriods := (period 0%nat, period 1%nat);
  UpgradePolicy.customPolicyType := UpgradePolicy.customPolicyType UpgradePolicy.default |}.
(*@ ani_common_conveter.cpp:306-312 AniCommonConverter::Converter *)
Definition FromFactoryResetStrategy (x : Taihe.FactoryResetStrategy.t) : FactoryResetStrategy.t := {|
  FactoryResetStrategy.scope := Taihe.FactoryResetScope.get_value (Taihe.FactoryResetStrategy.scope x);
  FactoryResetStrategy.strategy := Taihe.FactoryResetStrategy.strategy x |}.
End AniCommonConverter.

(** ** What the interface can tell *)
Section facts.
Context `{TaiheLaws}.
Import AniCommonConverter.
Definition member {K A : Type} (get_value : K → A) (v : A) : Prop := ∃ x, get_value x = v.
Lemma member_kept {K : Type} (get_value : K → Z) (from_value : Z → K) v :
  (∀ x, from_value (get_value x) = x) → member get_value v → is_int32 v → get_value (from_value (to_int32 v)) = v.
Proof. intros Hlaw [x <-] Hv. by rewrite to_int32_id, Hlaw. Qed.
Lemma members_of {K A : Type} (get_value : K → A) (all : list K) v : (∀ x, x ∈ all) → member get_value v ↔ v ∈ map get_value all.
Proof. intros Hall. split; [intros [x <-]; by apply list_elem_of_fmap_2|]. intros (x & -> & _)%list_elem_of_fmap. by exists x. Qed.
(** Every status has a member; of the events, those up to [EVENT_UPGRADE_FAIL]; of the types of components, [OTA] only. *)
Lemma status_members v : member Taihe.UpgradeStatus.get_value v ↔ v ∈ [UpgradeStatus.ERROR; UpgradeStatus.INIT; UpgradeStatus.CHECKING_VERSION;
  UpgradeStatus.CHECK_VERSION_FAIL; UpgradeStatus.CHECK_VERSION_SUCCESS; UpgradeStatus.DOWNLOADING; UpgradeStatus.DOWNLOAD_PAUSE;
  UpgradeStatus.DOWNLOAD_CANCEL; UpgradeStatus.DOWNLOAD_FAIL; UpgradeStatus.DOWNLOAD_SUCCESS; UpgradeStatus.VERIFYING; UpgradeStatus.VERIFY_FAIL;
  UpgradeStatus.VERIFY_SUCCESS; UpgradeStatus.AUTHING; UpgradeStatus.AUTH_FAIL; UpgradeStatus.AUTH_SUCCESS; UpgradeStatus.WAIT_TRANSFER;
  UpgradeStatus.TRANSFER_START; UpgradeStatus.PACKAGE_TRANSING; UpgradeStatus.PACKAGE_TRANS_FAIL; UpgradeStatus.PACKAGE_TRANS_SUCCESS;
  UpgradeStatus.INSTALLING; UpgradeStatus.INSTALL_FAIL; UpgradeStatus.INSTALL_SUCCESS; UpgradeStatus.INSTALL_PAUSE; UpgradeStatus.UPDATING;
  UpgradeStatus.UPDATE_FAIL; UpgradeStatus.UPDATE_SUCCESS; UpgradeStatus.UPGRADE_REBOOT; UpgradeStatus.UPGRADE_COUNT_DOWN;
  UpgradeStatus.UPGRADE_CANCEL].
Proof.
  refine (members_of Taihe.UpgradeStatus.get_value [Taihe.UpgradeStatus.ERROR; Taihe.UpgradeStatus.INIT; Taihe.UpgradeStatus.CHECKING_VERSION;
    Taihe.UpgradeStatus.CHECK_VERSION_FAIL; Taihe.UpgradeStatus.CHECK_VERSION_SUCCESS; Taihe.UpgradeStatus.DOWNLOADING;
    Taihe.UpgradeStatus.DOWNLOAD_PAUSE; Taihe.UpgradeStatus.DOWNLOAD_CANCEL; Taihe.UpgradeStatus.DOWNLOAD_FAIL;
    Taihe.UpgradeStatus.DOWNLOAD_SUCCESS; Taihe.UpgradeStatus.VERIFYING; Taihe.UpgradeStatus.VERIFY_FAIL; Taihe.UpgradeStatus.VERIFY_SUCCESS;
    Taihe.UpgradeStatus.AUTHING; Taihe.UpgradeStatus.AUTH_FAIL; Taihe.UpgradeStatus.AUTH_SUCCESS; Taihe.UpgradeStatus.WAIT_TRANSFER;
    Taihe.UpgradeStatus.TRANSFER_START; Taihe.UpgradeStatus.PACKAGE_TRANSING; Taihe.UpgradeStatus.PACKAGE_TRANS_FAIL;
    Taihe.UpgradeStatus.PACKAGE_TRANS_SUCCESS; Taihe.UpgradeStatus.INSTALLING; Taihe.UpgradeStatus.INSTALL_FAIL;
    Taihe.UpgradeStatus.INSTALL_SUCCESS; Taihe.UpgradeStatus.INSTALL_PAUSE; Taihe.UpgradeStatus.UPDATING; Taihe.UpgradeStatus.UPDATE_FAIL;
    Taihe.UpgradeStatus.UPDATE_SUCCESS; Taihe.UpgradeStatus.UPGRADE_REBOOT; Taihe.UpgradeStatus.UPGRADE_COUNT_DOWN;
    Taihe.UpgradeStatus.UPGRADE_CANCEL] v _).
  intros []; repeat first [apply list_elem_of_here|apply list_elem_of_further].
Qed.
Lemma event_members v : member Taihe.EventId.get_value v ↔ v ∈ [EventId.EVENT_TASK_BASE; EventId.EVENT_TASK_RECEIVE; EventId.EVENT_TASK_CANCEL;
  EventId.EVENT_DOWNLOAD_WAIT; EventId.EVENT_DOWNLOAD_START; EventId.EVENT_DOWNLOAD_UPDATE; EventId.EVENT_DOWNLOAD_PAUSE;
  EventId.EVENT_DOWNLOAD_RESUME; EventId.EVENT_DOWNLOAD_SUCCESS; EventId.EVENT_DOWNLOAD_FAIL; EventId.EVENT_UPGRADE_WAIT;
  EventId.EVENT_UPGRADE_START; EventId.EVENT_UPGRADE_UPDATE; EventId.EVENT_APPLY_WAIT; EventId.EVENT_APPLY_START; EventId.EVENT_UPGRADE_SUCCESS;
  EventId.EVENT_UPGRADE_FAIL].
Proof.
  refine (members_of Taihe.EventId.get_value [Taihe.EventId.EVENT_TASK_BASE; Taihe.EventId.EVENT_TASK_RECEIVE; Taihe.EventId.EVENT_TASK_CANCEL;
    Taihe.EventId.EVENT_DOWNLOAD_WAIT; Taihe.EventId.EVENT_DOWNLOAD_START; Taihe.EventId.EVENT_DOWNLOAD_UPDATE; Taihe.EventId.EVENT_DOWNLOAD_PAUSE;
    Taihe.EventId.EVENT_DOWNLOAD_RESUME; Taihe.EventId.EVENT_DOWNLOAD_SUCCESS; Taihe.EventId.EVENT_DOWNLOAD_FAIL; Taihe.EventId.EVENT_UPGRADE_WAIT;
    Taihe.EventId.EVENT_UPGRADE_START; Taihe.EventId.EVENT_UPGRADE_UPDATE; Taihe.EventId.EVENT_APPLY_WAIT; Taihe.EventId.EVENT_APPLY_START;
    Taihe.EventId.EVENT_UPGRADE_SUCCESS; Taihe.EventId.EVENT_UPGRADE_FAIL] v _).
  intros []; repeat first [apply list_elem_of_here|apply list_elem_of_further].
Qed.
Lemma component_type_members v : member Taihe.ComponentType.get_value v ↔ v ∈ [ComponentType.OTA].
Proof.
  refine (members_of Taihe.ComponentType.get_value [Taihe.ComponentType.OTA] v _).
  intros []; repeat first [apply list_elem_of_here|apply list_elem_of_further].
Qed.
Lemma description_type_members v : member Taihe.DescriptionType.get_value v ↔ v ∈ [DescriptionType.CONTENT; DescriptionType.URI].
Proof.
  refine (members_of Taihe.DescriptionType.get_value [Taihe.DescriptionType.CONTENT; Taihe.DescriptionType.URI] v _).
  intros []; repeat first [apply list_elem_of_here|apply list_elem_of_further].
Qed.
Lemma effective_mode_members v : member Taihe.EffectiveMode.get_value v ↔ v ∈ [EffectiveMode.COLD; EffectiveMode.LIVE; EffectiveMode.LIVE_AND_COLD].
Proof.
  refine (members_of Taihe.EffectiveMode.get_value [Taihe.EffectiveMode.COLD; Taihe.EffectiveMode.LIVE; Taihe.EffectiveMode.LIVE_AND_COLD] v _).
  intros []; repeat first [apply list_elem_of_here|apply list_elem_of_further].
Qed.

(** *** Events *)
(** A component the interface can tell: its size counts too. *)
Definition tellable (c : VersionComponent.t) : Prop :=
  member Taihe.ComponentType.get_value (VersionComponent.componentType c) ∧ member Taihe.UpgradeAction.get_value (VersionComponent.upgradeAction c) ∧
  member Taihe.EffectiveMode.get_value (VersionComponent.effectiveMode c) ∧ is_int32 (VersionComponent.size c) ∧
  member Taihe.DescriptionType.get_value (DescriptionInfo.descriptionType (VersionComponent.descriptionInfo c)).
Definition told_as (c : VersionComponent.t) (c' : Taihe.VersionComponent.t) : Prop :=
  Taihe.VersionComponent.componentId c' = VersionComponent.componentId c ∧
  Taihe.ComponentType.get_value (Taihe.VersionComponent.componentType c') = VersionComponent.componentType c ∧
  Taihe.UpgradeAction.get_value (Taihe.VersionComponent.upgradeAction c') = VersionComponent.upgradeAction c ∧
  Taihe.VersionComponent.displayVersion c' = VersionComponent.displayVersion c ∧ Taihe.VersionComponent.innerVersion c' = VersionComponent.innerVersion c ∧
  Taihe.VersionComponent.size c' = VersionComponent.size c ∧
  Taihe.EffectiveMode.get_value (Taihe.VersionComponent.effectiveMode c') = VersionComponent.effectiveMode c ∧
  Taihe.DescriptionType.get_value (Taihe.DescriptionInfo.descriptionType (Taihe.VersionComponent.descriptionInfo c')) =
    DescriptionInfo.descriptionType (VersionComponent.descriptionInfo c) ∧
  Taihe.DescriptionInfo.content (Taihe.VersionComponent.descriptionInfo c') = DescriptionInfo.content (VersionComponent.descriptionInfo c).
(** The two fields of a component without a member in the interface. *)
Definition with_dropped (mode : Z) (extra : string) (c : VersionComponent.t) : VersionComponent.t := {|
  VersionComponent.componentId := VersionComponent.componentId c; VersionComponent.componentType := VersionComponent.componentType c;
  VersionComponent.upgradeAction := VersionComponent.upgradeAction c; VersionComponent.displayVersion := VersionComponent.displayVersion c;
  VersionComponent.innerVersion := VersionComponent.innerVersion c; VersionComponent.size := VersionComponent.size c;
  VersionComponent.effectiveMode := VersionComponent.effectiveMode c; VersionComponent.otaMode := mode;
  VersionComponent.descriptionInfo := VersionComponent.descriptionInfo c; VersionComponent.componentExtra := extra |}.
Lemma component_told c : tellable c → told_as c (Converter_VersionComponent c).
Proof.
  intros (Ht & [a Ha] & He & Hs & Hd).
  assert (∀ {K} (g : K → Z) v, member g v → (∀ x, is_int32 (g x)) → is_int32 v) as Hin by (intros K g v [x <-] Hg; apply Hg).
  unfold told_as; cbn; unfold Converter_ComponentType, Converter_EffectiveMode, Converter_DescriptionType, Converter_UpgradeAction.
  rewrite (member_kept _ _ _ ComponentType_from Ht), (member_kept _ _ _ EffectiveMode_from He), (member_kept _ _ _ DescriptionType_from Hd), <- Ha, UpgradeAction_from.
  - by rewrite to_int32_id.
  - eapply Hin; [exact Hd|]. by intros [].
  - eapply Hin; [exact He|]. by intros [].
  - eapply Hin; [exact Ht|]. by intros [].
Qed.
Definition error_int32 (m : ErrorMessage.t) : Prop := is_int32 (ErrorMessage.errorCode m).
(** C37: What an ArkTS application is told of an event, or of the task: for an event and a status that have members, 32-bit
    numbers and components the interface can tell, every field of the structure of the inner API that has a member in the
    interface, in its order.  The interface has none for the mode of the update and the extra text of a component, which the
    bindings for JavaScript pass on: components that differ only there are told alike.
    Of the events only those up to EVENT_UPGRADE_FAIL have a member ([event_members]), of the types of components
    only OTA ([component_type_members]), and a size must be below 2 GiB. *)
Theorem event_told (e : EventInfo.t) :
  let body := EventInfo.taskBody e in let e' := Converter_EventInfo e in let body' := Taihe.EventInfo.taskBody e' in
  member Taihe.EventId.get_value (EventInfo.eventId e) → member Taihe.UpgradeStatus.get_value (TaskBody.status body) →
  is_int32 (TaskBody.subStatus body) → is_int32 (TaskBody.installMode body) →
  Forall error_int32 (TaskBody.errorMessages body) → Forall tellable (TaskBody.versionComponents body) →
  Taihe.EventId.get_value (Taihe.EventInfo.eventId e') = EventInfo.eventId e ∧
  Taihe.UpgradeStatus.get_value (Taihe.TaskBody.status body') = TaskBody.status body ∧
  Taihe.VersionDigestInfo.versionDigest (Taihe.TaskBody.versionDigestInfo body') = VersionDigestInfo.versionDigest (TaskBody.versionDigestInfo body) ∧
  Taihe.TaskBody.subStatus body' = TaskBody.subStatus body ∧ Taihe.TaskBody.progress body' = TaskBody.progress body ∧
  Taihe.TaskBody.installMode body' = TaskBody.installMode body ∧
  map (λ m, (Taihe.ErrorMessage.errorCode m, Taihe.ErrorMessage.errorMessage m)) (Taihe.TaskBody.errorMessages body') =
    map (λ m, (ErrorMessage.errorCode m, ErrorMessage.errorMessage m)) (TaskBody.errorMessages body) ∧
  Forall2 told_as (TaskBody.versionComponents body) (Taihe.TaskBody.versionComponents body') ∧
  (∀ c mode extra, Converter_VersionComponent (with_dropped mode extra c) = Converter_VersionComponent c).
Proof.
  cbn. intros Hid Hst Hsub Hmode Herr Hcs. unfold Converter_EventId, Converter_UpgradeStatus. split_and!; try done; try (by apply to_int32_id).
  - apply member_kept; [apply EventId_from|done|]. destruct Hid as [x <-]. by destruct x.
  - apply member_kept; [apply UpgradeStatus_from|done|]. destruct Hst as [x <-]. by destruct x.
  - unfold Converter_ErrorMessages. rewrite map_map. apply map_ext_in. intros m Hm%list_elem_of_In. cbn. rewrite Forall_forall in Herr.
    by rewrite to_int32_id by (by apply Herr).
  - unfold Converter_VersionComponents. induction Hcs as [|c cs Hc Hcs IH]; constructor; [by apply component_told|exact IH].
Qed.

(** *** Policies *)
Definition period_int32 (p : Taihe.UpgradePeriod.t) : Prop := is_int32 (Taihe.UpgradePeriod.start p) ∧ is_int32 (Taihe.UpgradePeriod.end_ p).
Definition period_uint32 (p : UpgradePeriod.t) : Prop := is_uint32 (UpgradePeriod.start p) ∧ is_uint32 (UpgradePeriod.end_ p).
Lemma period_back p : period_int32 p → Converter_UpgradePeriod (FromUpgradePeriod p) = p.
Proof. destruct p as [a b]. intros [Ha Hb]. unfold Converter_UpgradePeriod. cbn in *. by rewrite !to_int32_to_uint32. Qed.
Lemma period_forth p : period_uint32 p → FromUpgradePeriod (Converter_UpgradePeriod p) = p.
Proof. destruct p as [a b]. intros [Ha Hb]. unfold FromUpgradePeriod. cbn in *. by rewrite !to_uint32_to_int32. Qed.
(** A policy survives the way to the service and back, unlike in the bindings for JavaScript: what
    an application sets with two periods it gets, and what the service stores is set again as it was,
    apart from the custom type, which the interface does not have. *)
Theorem policy_converted :
  (∀ x, length (Taihe.UpgradePolicy.autoUpgradePeriods x) = 2%nat → Forall period_int32 (Taihe.UpgradePolicy.autoUpgradePeriods x) →
    Converter_UpgradePolicy (FromUpgradePolicy x) = x) ∧
  (∀ p, period_uint32 (UpgradePolicy.autoUpgradePeriods p).1 → period_uint32 (UpgradePolicy.autoUpgradePeriods p).2 →
    FromUpgradePolicy (Converter_UpgradePolicy p) =
      {| UpgradePolicy.downloadStrategy := UpgradePolicy.downloadStrategy p; UpgradePolicy.autoUpgradeStrategy := UpgradePolicy.autoUpgradeStrategy p;
         UpgradePolicy.autoUpgradePeriods := UpgradePolicy.autoUpgradePeriods p; UpgradePolicy.customPolicyType := PolicyType.DEFAULT |}).
Proof.
  split.
  - intros [d a [|p [|q [|]]]]; cbn; try done. intros _ Hall. inversion_clear Hall as [|? ? Hp Hall']. inversion_clear Hall' as [|? ? Hq _].
    unfold Converter_UpgradePolicy. cbn. by rewrite !period_back.
  - intros [d a [p q] c] Hp Hq. cbn in Hp, Hq. unfold Converter_UpgradePolicy, FromUpgradePolicy. cbn. by rewrite !period_forth.
Qed.
End facts.

(** ** A runtime *)
Module SampleTaihe.
(** The member with a value; without one, the first. *)
Definition by_value {K : Type} (get_value : K → Z) (first : K) (all : list K) (v : Z) : K := default first (List.find (λ x, get_value x =? v) all).
#[export] Instance runtime : TaiheRuntime := {
  UpgradeStatus_from_value := by_value Taihe.UpgradeStatus.get_value Taihe.UpgradeStatus.ERROR [Taihe.UpgradeStatus.ERROR;
    Taihe.UpgradeStatus.INIT; Taihe.UpgradeStatus.CHECKING_VERSION; Taihe.UpgradeStatus.CHECK_VERSION_FAIL;
    Taihe.UpgradeStatus.CHECK_VERSION_SUCCESS; Taihe.UpgradeStatus.DOWNLOADING; Taihe.UpgradeStatus.DOWNLOAD_PAUSE;
    Taihe.UpgradeStatus.DOWNLOAD_CANCEL; Taihe.UpgradeStatus.DOWNLOAD_FAIL; Taihe.UpgradeStatus.DOWNLOAD_SUCCESS; Taihe.UpgradeStatus.VERIFYING;
    Taihe.UpgradeStatus.VERIFY_FAIL; Taihe.UpgradeStatus.VERIFY_SUCCESS; Taihe.UpgradeStatus.AUTHING; Taihe.UpgradeStatus.AUTH_FAIL;
    Taihe.UpgradeStatus.AUTH_SUCCESS; Taihe.UpgradeStatus.WAIT_TRANSFER; Taihe.UpgradeStatus.TRANSFER_START; Taihe.UpgradeStatus.PACKAGE_TRANSING;
    Taihe.UpgradeStatus.PACKAGE_TRANS_FAIL; Taihe.UpgradeStatus.PACKAGE_TRANS_SUCCESS; Taihe.UpgradeStatus.INSTALLING;
    Taihe.UpgradeStatus.INSTALL_FAIL; Taihe.UpgradeStatus.INSTALL_SUCCESS; Taihe.UpgradeStatus.INSTALL_PAUSE; Taihe.UpgradeStatus.UPDATING;
    Taihe.UpgradeStatus.UPDATE_FAIL; Taihe.UpgradeStatus.UPDATE_SUCCESS; Taihe.UpgradeStatus.UPGRADE_REBOOT;
    Taihe.UpgradeStatus.UPGRADE_COUNT_DOWN; Taihe.UpgradeStatus.UPGRADE_CANCEL];
  ComponentType_from_value := by_value Taihe.ComponentType.get_value Taihe.ComponentType.OTA [Taihe.ComponentType.OTA];
  DescriptionType_from_value := by_value Taihe.DescriptionType.get_value Taihe.DescriptionType.CONTENT [Taihe.DescriptionType.CONTENT;
    Taihe.DescriptionType.URI];
  EffectiveMode_from_value := by_value Taihe.EffectiveMode.get_value Taihe.EffectiveMode.COLD [Taihe.EffectiveMode.COLD; Taihe.EffectiveMode.LIVE;
    Taihe.EffectiveMode.LIVE_AND_COLD];
  EventId_from_value := by_value Taihe.EventId.get_value Taihe.EventId.EVENT_TASK_BASE [Taihe.EventId.EVENT_TASK_BASE;
    Taihe.EventId.EVENT_TASK_RECEIVE; Taihe.EventId.EVENT_TASK_CANCEL; Taihe.EventId.EVENT_DOWNLOAD_WAIT; Taihe.EventId.EVENT_DOWNLOAD_START;
    Taihe.EventId.EVENT_DOWNLOAD_UPDATE; Taihe.EventId.EVENT_DOWNLOAD_PAUSE; Taihe.EventId.EVENT_DOWNLOAD_RESUME;
    Taihe.EventId.EVENT_DOWNLOAD_SUCCESS; Taihe.EventId.EVENT_DOWNLOAD_FAIL; Taihe.EventId.EVENT_UPGRADE_WAIT; Taihe.EventId.EVENT_UPGRADE_START;
    Taihe.EventId.EVENT_UPGRADE_UPDATE; Taihe.EventId.EVENT_APPLY_WAIT; Taihe.EventId.EVENT_APPLY_START; Taihe.EventId.EVENT_UPGRADE_SUCCESS;
    Taihe.EventId.EVENT_UPGRADE_FAIL];
  UpgradeAction_from_value s := if (s =? "recovery")%string then Taihe.UpgradeAction.RECOVERY else Taihe.UpgradeAction.UPGRADE
}.
#[export] Instance laws : TaiheLaws.
Proof. by split; intros []. Qed.
Definition camera : VersionComponent.t := {|
  VersionComponent.componentId := "1"; VersionComponent.componentType := ComponentType.OTA; VersionComponent.upgradeAction := "upgrade";
  VersionComponent.displayVersion := "5.0"; VersionComponent.innerVersion := "5.0.1"; VersionComponent.size := 2 ^ 31 - 1;
  VersionComponent.effectiveMode := EffectiveMode.COLD; VersionComponent.otaMode := OtaMode.REGULAR_OTA;
  VersionComponent.descriptionInfo := DescriptionInfo.default; VersionComponent.componentExtra := "" |}.
Definition progress_event : EventInfo.t := {|
  EventInfo.eventId := EventId.EVENT_DOWNLOAD_UPDATE;
  EventInfo.taskBody := {|
    TaskBody.versionDigestInfo := {| VersionDigestInfo.versionDigest := "digest" |}; TaskBody.status := UpgradeStatus.DOWNLOADING; TaskBody.subStatus := 0;
    TaskBody.progress := 40; TaskBody.installMode := 0; TaskBody.errorMessages := []; TaskBody.versionComponents := [camera] |} |}.
Lemma event_told_witness :
  Taihe.EventId.get_value (Taihe.EventInfo.eventId (AniCommonConverter.Converter_EventInfo progress_event)) = EventId.EVENT_DOWNLOAD_UPDATE ∧
  Forall2 told_as [camera] (Taihe.TaskBody.versionComponents (Taihe.EventInfo.taskBody (AniCommonConverter.Converter_EventInfo progress_event))).
Proof.
  assert (tellable camera) as Hc.
  { split_and!; [by exists Taihe.ComponentType.OTA|by exists Taihe.UpgradeAction.UPGRADE|by exists Taihe.EffectiveMode.COLD|split; vm_compute; discriminate
      |by exists Taihe.DescriptionType.CONTENT]. }
  destruct (event_told progress_event) as (Hid & _ & _ & _ & _ & _ & _ & Hcs & _);
    [exists Taihe.EventId.EVENT_DOWNLOAD_UPDATE; reflexivity|exists Taihe.UpgradeStatus.DOWNLOADING; reflexivity|split; vm_compute; discriminate..
    |apply Forall_nil; exact I|apply Forall_singleton; exact Hc|].
  split; [exact Hid|exact Hcs].
Defined.
(** A size of 3 GiB is told as a negative one. *)
Example size_wraps : Taihe.VersionComponent.size (AniCommonConverter.Converter_VersionComponent
  {| VersionComponent.componentId := "1"; VersionComponent.componentType := ComponentType.OTA; VersionComponent.upgradeAction := "upgrade";
     VersionComponent.displayVersion := ""; VersionComponent.innerVersion := ""; VersionComponent.size := 3 * 2 ^ 30; VersionComponent.effectiveMode := 1;
     VersionComponent.otaMode := 0; VersionComponent.descriptionInfo := DescriptionInfo.default; VersionComponent.componentExtra := "" |}) = - 2 ^ 30.
Proof. vm_compute. reflexivity. Qed.
Definition weekly : Taihe.UpgradePolicy.t := {|
  Taihe.UpgradePolicy.downloadStrategy := true; Taihe.UpgradePolicy.autoUpgradeStrategy := false;
  Taihe.UpgradePolicy.autoUpgradePeriods := [{| Taihe.UpgradePeriod.start := 120; Taihe.UpgradePeriod.end_ := 240 |};
                                             {| Taihe.UpgradePeriod.start := -1; Taihe.UpgradePeriod.end_ := 0 |}] |}.
Lemma policy_converted_witness : AniCommonConverter.Converter_UpgradePolicy (AniCommonConverter.FromUpgradePolicy weekly) = weekly.
Proof.
  apply (proj1 policy_converted); [reflexivity|]. apply Forall_cons; split; [split; split; vm_compute; discriminate|].
  apply Forall_singleton. split; split; vm_compute; discriminate.
Defined.
End SampleTaihe.
