(* ===== verification/AniUpdater.v ===== *)
(** * The objects of an ArkTS application

    Models [frameworks/js/ani]: [ani_base_updater.cpp], [ani_updater.cpp], [ani_restorer.cpp],
    [ani_local_updater.cpp] and [taihe_impl.cpp].  A call waits for the answer of the library of [Client]; an
    error is set for the caller, who gets the result too.  The values of the interface are those of [Ani].
    [AniVirtual]: the methods the classes override.  The lock of an updater is held while its
    callbacks are called; a method that waits for it for ever has the result [None].  [AniApp]: the callbacks of an
    application and the events they are told ([listeners_told]), what a callback that calls its updater does
    ([reentering_callback]), and its errors ([failure_told]). *)
From Stdlib Require Import ZArith Lia Ascii String.
From stdpp Require Import base tactics list strings gmap.
From S2P Require Import Prelude CppString Models Clients Client Napi JsArgs JsSession JsUpdater Ani.

#[local] Open Scope Z_scope.

(** The virtual methods, on the environment [W] of the object. *)
Class AniVirtual (W : Type) := { RegisterCallback : ST W unit; UnRegisterCallback : ST W unit; GetPermissionName : string }.

Module AniBaseUpdater.
Import AniCommonConverter.
(** What an application sees of the runtime: its callbacks are called, an error is set for the caller. *)
Inductive Output (CB : Type) := Called (callback : CB) (eventInfo : Taihe.EventInfo.t) | BusinessErrorSet (code : Z) (message : string).
Arguments Called {CB}.
Arguments BusinessErrorSet {CB}.
(** A callback of the application: told this event, does it call [on] or [off] of the same updater before it returns? *)
Class CallbackCode (CB : Type) := { reenters : CB → Taihe.EventInfo.t → bool }.
(** [mutex_]: is it held between two calls. *)
(*@ js/ani/include/ani_base_updater.h:52-53 AniBaseUpdater *)
Record t (CB : Type) := { callbacks_ : list CB; mutex_ : bool }.
Arguments callbacks_ {CB}.
Arguments mutex_ {CB}.
Section ops.
Context {CB W : Type} `{EqDecision CB, CallbackCode CB, TaiheRuntime, AniVirtual W}.
#[local] Notation Ani := (ST (t CB * (list (Output CB) * W))).
(*@ js/ani/include/ani_base_updater.h:52-53 AniBaseUpdater *)
Definition new : t CB := {| callbacks_ := []; mutex_ := false |}.
Definition set_callbacks (x : list CB) (this : t CB) : t CB := {| callbacks_ := x; mutex_ := mutex_ this |}.
Definition set_mutex (x : bool) (this : t CB) : t CB := {| callbacks_ := callbacks_ this; mutex_ := x |}.
(** [std::unique_lock lock(mutex_)] in front of the rest of a method; [None]: the thread waits for ever, for a
    lock that is not released. *)
(*@ js/ani/src/ani_base_updater.cpp:31-31 AniBaseUpdater::On *)
Definition with_lock {A} (m : Ani (option A)) : Ani (option A) :=
  let* held := own_ mutex_ in
  if held : bool then ret None
  else
    set_own (set_mutex true) ;;;
    let* r := m in
    match r with
    | None => ret None
    | Some a => set_own (set_mutex false) ;;; ret (Some a)
    end.

(** *** Callbacks *)
(*@ js/ani/src/ani_base_updater.cpp AniBaseUpdater::On *)
Definition On (callback : CB) : Ani (option unit) := with_lock (
  let* callbacks := own_ callbacks_ in
  if bool_decide (callback ∈ callbacks) then ret (Some tt)
  else
    (when bool_decide (callbacks = []) do on_world RegisterCallback) ;;;
    set_own (λ this, set_callbacks (callbacks_ this ++ [callback]) this) ;;;
    ret (Some tt)).
(*@ js/ani/src/ani_base_updater.cpp AniBaseUpdater::Off *)
Definition Off (callback : CB) : Ani (option unit) := with_lock (
  set_own (λ this, set_callbacks (List.filter (λ cb, negb (bool_decide (cb = callback))) (callbacks_ this)) this) ;;;
  let* callbacks := own_ callbacks_ in
  (when bool_decide (callbacks = []) do on_world UnRegisterCallback) ;;;
  ret (Some tt)).
(*@ js/ani/src/ani_base_updater.cpp AniBaseUpdater::OffAll *)
Definition OffAll : Ani (option unit) := with_lock (
  set_own (set_callbacks []) ;;;
  on_world UnRegisterCallback ;;;
  ret (Some tt)).
(** In the destructor the virtual methods are those of the class itself. *)
(*@ js/ani/src/ani_base_updater.cpp AniBaseUpdater::~AniBaseUpdater *)
Definition destroy : Ani (option unit) := with_lock (set_own (set_callbacks []) ;;; ret (Some tt)).
(** The callbacks in turn, with the lock: one that calls [on] or [off] of this updater never returns. *)
(*@ js/ani/src/ani_base_updater.cpp:86-88 AniBaseUpdater::CallbackEventInfo *)
Fixpoint call_callbacks (eventInfo : EventInfo.t) (callbacks : list CB) : Ani (option unit) :=
  match callbacks with
  | [] => ret (Some tt)
  | callback :: callbacks =>
      let event := Converter_EventInfo eventInfo in
      env_ (logged (Called callback event)) ;;;
      if reenters callback event then ret None else call_callbacks eventInfo callbacks
  end.
(*@ js/ani/src/ani_base_updater.cpp AniBaseUpdater::CallbackEventInfo *)
Definition CallbackEventInfo (eventInfo : EventInfo.t) : Ani (option unit) := with_lock (
  let* callbacks := own_ callbacks_ in
  call_callbacks eventInfo callbacks).

(** *** Errors *)
Definition set_business_error (code : Z) (message : string) : Ani unit := env_ (logged (BusinessErrorSet code message)).
(*@* js/ani/src/ani_base_updater.cpp AniBaseUpdater::= *)
Definition IsCommonError (callResult : Z) : bool :=
  (callResult =? CallResult.UN_SUPPORT) || (callResult =? CallResult.NOT_SYSTEM_APP) || (callResult =? CallResult.APP_NOT_GRANTED) ||
  (callResult =? CallResult.PARAM_ERR).
Definition ConvertToErrorCode (callResult : Z) : Z :=
  if IsCommonError callResult || (callResult =? CallResult.SUCCESS) then callResult else 11500000 + callResult.
Definition GetIpcErrorMessage (funcName : string) (ipcRequestCode : Z) (callResultStr msg : string) : string :=
  let error text := "BusinessError " +:+ callResultStr +:+ text in
  if ipcRequestCode =? CallResult.NOT_SYSTEM_APP then error ": Permission verification failed. A non-system application calls a system API."
  else if ipcRequestCode =? CallResult.APP_NOT_GRANTED then
    error (": Permission denied. An attempt was made to " +:+ funcName +:+ " forbidden by permission: " +:+ GetPermissionName +:+ ".")
  else if ipcRequestCode =? CallResult.IPC_ERR then error ": IPC error."
  else if ipcRequestCode =? CallResult.UN_SUPPORT then
    error (": Capability not supported. function " +:+ funcName +:+ " can not work correctly due to limited device capabilities.")
  else if ipcRequestCode =? CallResult.PARAM_ERR then "param error"
  else if ipcRequestCode =? CallResult.MDM_DISABLE_RESET then error ": This function is prohibited by enterprise management policies."
  else if ipcRequestCode =? CallResult.FAIL then error ": Execute fail."
  else if ipcRequestCode =? CallResult.FORBIDDEN then error ": Forbidden execution."
  else if ipcRequestCode =? CallResult.DEV_UPG_INFO_ERR then error ": Device info error."
  else if ipcRequestCode =? CallResult.TIME_OUT then error ": Execute timeout."
  else if ipcRequestCode =? CallResult.DB_ERROR then error ": DB error."
  else if ipcRequestCode =? CallResult.IO_ERROR then error ": IO error."
  else if ipcRequestCode =? CallResult.NET_ERROR then error ": Network error."
  else msg.
Definition GetIpcBusinessError (funcName : string) (ipcRequestCode : Z) : BusinessError.t :=
  let ipcCallResultStr := to_string (ConvertToErrorCode ipcRequestCode) in
  BusinessError.Build BusinessError.default ipcRequestCode (GetIpcErrorMessage funcName ipcRequestCode ipcCallResultStr "execute error").
Definition SetError (r : Z) (funcName : string) (error : BusinessError.t) : Ani bool :=
  if negb (r =? 0) then
    let errorInfo := GetIpcBusinessError funcName r in
    set_business_error (ConvertToErrorCode (BusinessError.errorNum errorInfo)) (BusinessError.message errorInfo) ;;; ret true
  else if negb (BusinessError.IsSuccess error) then
    set_business_error (ConvertToErrorCode (BusinessError.errorNum error)) (BusinessError.message error) ;;; ret true
  else ret false.
(** The methods that are not overridden. *)
(*@ js/ani/src/ani_base_updater.cpp AniBaseUpdater::GetPermissionName *)
Definition UPDATE_SYSTEM : string := "ohos.permission.UPDATE_SYSTEM".
(** A request to the service, whose answer is waited for: the error of the call comes first, then that of the service. *)
Definition answered {A} (funcName : string) (m : ST W (Z * (A * BusinessError.t))) : Ani A :=
  let* (r, (result, error)) := on_world m in
  SetError r funcName error ;;;
  ret result.
Definition answered_unit (funcName : string) (m : ST W (Z * BusinessError.t)) : Ani unit :=
  let* (r, error) := on_world m in
  SetError r funcName error ;;;
  ret tt.
End ops.
End AniBaseUpdater.

(** The process: what the runtime was told, and the connection to the service. *)
#[local] Notation Kits E := (UpdateServiceKitsImpl.t * E)%type.

(** ** The online updater *)
Module AniUpdater.
Import AniBaseUpdater AniCommonConverter.
Section ops.
Context {CB E : Type} `{EqDecision CB, AniBaseUpdater.CallbackCode CB, TaiheRuntime, SystemAbilities E, ServiceProxy E, CallbackKits E}.
Context (upgradeInfo_ : UpgradeInfo.t).
#[local] Notation Ani := (ST (AniBaseUpdater.t CB * (list (Output CB) * Kits E))).
(*@ js/ani/src/ani_updater.cpp AniUpdater::RegisterCallback *)
Definition RegisterCallback : ST (Kits E) unit := register_attempts upgradeInfo_ 5.
(*@ js/ani/src/ani_updater.cpp AniUpdater::UnRegisterCallback *)
Definition UnRegisterCallback : ST (Kits E) unit :=
  let* _ := UpdateServiceKitsImpl.UnregisterUpdateCallback upgradeInfo_ in
  ret tt.
Definition online : AniVirtual (Kits E) := Build_AniVirtual _ RegisterCallback UnRegisterCallback UPDATE_SYSTEM.
#[local] Existing Instance online.
Implicit Types (versionDigestInfo : Taihe.VersionDigestInfo.t) (descriptionOptions : Taihe.DescriptionOptions.t).
(*@* js/ani/src/ani_updater.cpp AniUpdater::= *)
Definition CheckNewVersionSync : Ani Taihe.CheckResult.t :=
  let* result := answered "checkNewVersion" (
    let* (r, (error, result)) := UpdateServiceKitsImpl.CheckNewVersion upgradeInfo_ BusinessError.default CheckResult.default in
    ret (r, (result, error))) in
  ret (Converter_CheckResult result).
Definition GetNewVersionInfoSync : Ani Taihe.NewVersionInfo.t :=
  let* info := answered "getNewVersionInfo" (UpdateServiceKitsImpl.GetNewVersionInfo upgradeInfo_ NewVersionInfo.default BusinessError.default) in
  ret (Converter_NewVersionInfo info).
Definition GetNewVersionDescriptionSync versionDigestInfo descriptionOptions : Ani (list Taihe.ComponentDescription.t) :=
  let* result := answered "getNewVersionDescription" (UpdateServiceKitsImpl.GetNewVersionDescription upgradeInfo_
    (FromVersionDigestInfo versionDigestInfo) (FromDescriptionOptions descriptionOptions) VersionDescriptionInfo.default BusinessError.default) in
  ret (Converter_ComponentDescriptions (VersionDescriptionInfo.componentDescriptions result)).
Definition GetCurrentVersionInfoSync : Ani Taihe.CurrentVersionInfo.t :=
  let* info := answered "getCurrentVersionInfo" (UpdateServiceKitsImpl.GetCurrentVersionInfo upgradeInfo_ CurrentVersionInfo.default BusinessError.default) in
  ret (Converter_CurrentVersionInfo info).
Definition GetCurrentVersionDescriptionSync descriptionOptions : Ani (list Taihe.ComponentDescription.t) :=
  let* currentVersionDescriptionInfo := answered "getCurrentVersionDescription" (UpdateServiceKitsImpl.GetCurrentVersionDescription upgradeInfo_
    (FromDescriptionOptions descriptionOptions) VersionDescriptionInfo.default BusinessError.default) in
  ret (Converter_ComponentDescriptions (VersionDescriptionInfo.componentDescriptions currentVersionDescriptionInfo)).
Definition GetTaskInfoSync : Ani Taihe.TaskInfo.t :=
  let* taskInfo := answered "getTaskInfo" (UpdateServiceKitsImpl.GetTaskInfo upgradeInfo_ TaskInfo.default BusinessError.default) in
  ret (Converter_TaskInfo taskInfo).
Definition DownloadSync versionDigestInfo (downloadOptions : Taihe.DownloadOptions.t) : Ani unit :=
  answered_unit "download" (UpdateServiceKitsImpl.Download upgradeInfo_ (FromVersionDigestInfo versionDigestInfo)
    (FromDownloadOptions downloadOptions) BusinessError.default).
Definition ResumeDownloadSync versionDigestInfo (resumeDownloadOptions : Taihe.ResumeDownloadOptions.t) : Ani unit :=
  answered_unit "resumeDownload" (UpdateServiceKitsImpl.ResumeDownload upgradeInfo_ (FromVersionDigestInfo versionDigestInfo)
    (FromResumeDownloadOptions resumeDownloadOptions) BusinessError.default).
Definition PauseDownloadSync versionDigestInfo (pauseDownloadOptions : Taihe.PauseDownloadOptions.t) : Ani unit :=
  answered_unit "pauseDownload" (UpdateServiceKitsImpl.PauseDownload upgradeInfo_ (FromVersionDigestInfo versionDigestInfo)
    (FromPauseDownloadOptions pauseDownloadOptions) BusinessError.default).
Definition UpgradeSync versionDigestInfo (upgradeOptions : Taihe.UpgradeOptions.t) : Ani unit :=
  answered_unit "upgrade" (UpdateServiceKitsImpl.Upgrade upgradeInfo_ (FromVersionDigestInfo versionDigestInfo)
    (FromUpgradeOptions upgradeOptions) BusinessError.default).
Definition ClearErrorSync versionDigestInfo (clearOptions : Taihe.ClearOptions.t) : Ani unit :=
  answered_unit "clearError" (UpdateServiceKitsImpl.ClearError upgradeInfo_ (FromVersionDigestInfo versionDigestInfo)
    (FromClearOptions clearOptions) BusinessError.default).
Definition GetUpgradePolicySync : Ani Taihe.UpgradePolicy.t :=
  let* policy := answered "getUpgradePolicy" (UpdateServiceKitsImpl.GetUpgradePolicy upgradeInfo_ UpgradePolicy.default BusinessError.default) in
  ret (Converter_UpgradePolicy policy).
Definition SetUpgradePolicySync (policy : Taihe.UpgradePolicy.t) : Ani unit :=
  answered_unit "setUpgradePolicy" (UpdateServiceKitsImpl.SetUpgradePolicy upgradeInfo_ (FromUpgradePolicy policy) BusinessError.default).
Definition TerminateUpgradeSync : Ani unit :=
  answered_unit "terminateUpgrade" (UpdateServiceKitsImpl.TerminateUpgrade upgradeInfo_ BusinessError.default).
End ops.
End AniUpdater.

(** ** Resets *)
Module AniRestorer.
Import AniBaseUpdater AniCommonConverter.
Section ops.
Context {CB E : Type} `{EqDecision CB, AniBaseUpdater.CallbackCode CB, TaiheRuntime, SystemAbilities E, ServiceProxy E}.
#[local] Notation Ani := (ST (AniBaseUpdater.t CB * (list (Output CB) * Kits E))).
(*@ js/ani/src/ani_restorer.cpp AniRestorer::GetPermissionName *)
Definition GetPermissionName : string := "ohos.permission.FACTORY_RESET".
(*@ js/ani/include/ani_base_updater.h:38-40 AniBaseUpdater::RegisterCallback *)
Definition restorer : AniVirtual (Kits E) := Build_AniVirtual _ (ret tt) (ret tt) GetPermissionName.
#[local] Existing Instance restorer.
(*@* js/ani/src/ani_restorer.cpp AniRestorer::= *)
Definition FactoryResetSync : Ani unit := answered_unit "factoryReset" (UpdateServiceKitsImpl.FactoryReset BusinessError.default).
Definition ForceFactoryResetSync : Ani unit := answered_unit "forceFactoryReset" (UpdateServiceKitsImpl.ForceFactoryReset BusinessError.default).
Definition DeepFactoryResetSync (factoryResetStrategy : Taihe.FactoryResetStrategy.t) : Ani unit :=
  answered_unit "deepFactoryResetSync" (UpdateServiceKitsImpl.DeepFactoryReset (FromFactoryResetStrategy factoryResetStrategy) BusinessError.default).
Definition GetDeepFactoryResetInfoSync (factoryResetStrategy : Taihe.FactoryResetStrategy.t) : Ani Taihe.FactoryResetInfo.t :=
  let* factoryResetInfo := answered "getDeepFactoryResetInfoSync"
    (UpdateServiceKitsImpl.GetDeepFactoryResetInfo (FromFactoryResetStrategy factoryResetStrategy) FactoryResetInfo.default BusinessError.default) in
  ret (Converter_FactoryResetInfo factoryResetInfo).
End ops.
End AniRestorer.

(** ** Local packages *)
Module AniLocalUpdater.
Import AniBaseUpdater AniCommonConverter.
Section ops.
Context {CB E : Type} `{EqDecision CB, AniBaseUpdater.CallbackCode CB, TaiheRuntime, SystemAbilities E, ServiceProxy E}.
#[local] Notation Ani := (ST (AniBaseUpdater.t CB * (list (Output CB) * Kits E))).
(** No virtual method is overridden: a callback is kept, but not registered at the service. *)
(*@ js/ani/include/ani_base_updater.h:38-40 AniBaseUpdater::RegisterCallback *)
Definition local : AniVirtual (Kits E) := Build_AniVirtual _ (ret tt) (ret tt) UPDATE_SYSTEM.
#[local] Existing Instance local.
(*@* js/ani/src/ani_local_updater.cpp AniLocalUpdater::= *)
Definition VerifyUpgradePackageSync (upgradeFile : Taihe.UpgradeFile.t) (certsFile : string) : Ani unit :=
  answered_unit "verifyUpgradePackage" (UpdateServiceKitsImpl.VerifyUpgradePackage (Taihe.UpgradeFile.filePath upgradeFile) certsFile BusinessError.default).
Definition ApplyNewVersionSync (upgradeFiles : list Taihe.UpgradeFile.t) : Ani unit :=
  let upgradeInfo := LocalUpdater.local_info in
  let miscFile := "/dev/block/by-name/misc" in
  let packageNames := map (λ value, UpgradeFile.filePath (FromUpgradeFile value)) upgradeFiles in
  answered_unit "applyNewVersion" (UpdateServiceKitsImpl.ApplyNewVersion upgradeInfo miscFile packageNames BusinessError.default).
End ops.
End AniLocalUpdater.

(** ** The updaters of a process

    An object of the interface only has its upgrade information; the updaters are in static members. *)
Module TaiheImpl.
Import AniBaseUpdater AniCommonConverter.
Section ops.
Context {CB E : Type} `{EqDecision CB, AniBaseUpdater.CallbackCode CB, TaiheRuntime, SystemAbilities E, ServiceProxy E, CallbackKits E}.
(*@ js/ani/src/taihe_impl.cpp:152-152 UpdaterImpl::aniUpdatersMap_ *)
Record t := {
  aniUpdatersMap_ : gmap UpgradeInfo.t (AniBaseUpdater.t CB);
  aniRestorer_ : option (AniBaseUpdater.t CB);
  localUpdater_ : option (AniBaseUpdater.t CB)
}.
(*@ js/ani/src/taihe_impl.cpp:152-152 UpdaterImpl::aniUpdatersMap_ *)
Definition initial : t := {| aniUpdatersMap_ := ∅; aniRestorer_ := None; localUpdater_ := None |}.
#[local] Notation P := (list (Output CB) * Kits E)%type.
#[local] Notation Impl := (ST (t * P)).
#[local] Notation Ani := (ST (AniBaseUpdater.t CB * P)).
Definition set_updaters x (s : t) : t := {| aniUpdatersMap_ := x; aniRestorer_ := aniRestorer_ s; localUpdater_ := localUpdater_ s |}.
Definition set_restorer x (s : t) : t := {| aniUpdatersMap_ := aniUpdatersMap_ s; aniRestorer_ := x; localUpdater_ := localUpdater_ s |}.
Definition set_local x (s : t) : t := {| aniUpdatersMap_ := aniUpdatersMap_ s; aniRestorer_ := aniRestorer_ s; localUpdater_ := x |}.

(** A method of the updater of [upgradeInfo_], which is made when there is none. *)
(*@ js/ani/src/taihe_impl.cpp UpdaterImpl::GetAniUpdater *)
Definition GetAniUpdater {A} (upgradeInfo_ : UpgradeInfo.t) (method : Ani A) : Impl A := λ s,
  let '(a, (this, p)) := method (default AniBaseUpdater.new (aniUpdatersMap_ s.1 !! upgradeInfo_), s.2) in
  (a, (set_updaters (<[upgradeInfo_ := this]> (aniUpdatersMap_ s.1)) s.1, p)).
(*@ js/ani/src/taihe_impl.cpp:163-166 RestorerImpl::FactoryResetSync *)
Definition on_restorer {A} (method : Ani A) : Impl A := λ s,
  let '(a, (this, p)) := method (default AniBaseUpdater.new (aniRestorer_ s.1), s.2) in (a, (set_restorer (Some this) s.1, p)).
(*@ js/ani/src/taihe_impl.cpp LocalUpdaterImpl::GetLocalUpdater *)
Definition GetLocalUpdater {A} (method : Ani A) : Impl A := λ s,
  let '(a, (this, p)) := method (default AniBaseUpdater.new (localUpdater_ s.1), s.2) in (a, (set_local (Some this) s.1, p)).
End ops.
Arguments t : clear implicits.
End TaiheImpl.

(** The functions of the objects; the classification of the events is not looked at. *)
Module UpdaterImpl.
Import AniBaseUpdater TaiheImpl.
Section ops.
Context {CB E : Type} `{EqDecision CB, AniBaseUpdater.CallbackCode CB, TaiheRuntime, SystemAbilities E, ServiceProxy E, CallbackKits E} (upgradeInfo_ : UpgradeInfo.t).
#[local] Notation Impl := (ST (TaiheImpl.t CB * (list (Output CB) * Kits E))).
#[local] Instance updater_virtual : AniVirtual (Kits E) := AniUpdater.online upgradeInfo_.
Implicit Types (versionDigestInfo : Taihe.VersionDigestInfo.t) (descriptionOptions : Taihe.DescriptionOptions.t) (eventClassifyInfo : Taihe.EventClassifyInfo.t).
(*@* js/ani/src/taihe_impl.cpp UpdaterImpl::= *)
Definition CheckNewVersionSync : Impl Taihe.CheckResult.t := GetAniUpdater upgradeInfo_ (AniUpdater.CheckNewVersionSync upgradeInfo_).
Definition GetNewVersionInfoSync : Impl Taihe.NewVersionInfo.t := GetAniUpdater upgradeInfo_ (AniUpdater.GetNewVersionInfoSync upgradeInfo_).
Definition GetNewVersionDescriptionSync versionDigestInfo descriptionOptions : Impl (list Taihe.ComponentDescription.t) :=
  GetAniUpdater upgradeInfo_ (AniUpdater.GetNewVersionDescriptionSync upgradeInfo_ versionDigestInfo descriptionOptions).
Definition GetCurrentVersionInfoSync : Impl Taihe.CurrentVersionInfo.t := GetAniUpdater upgradeInfo_ (AniUpdater.GetCurrentVersionInfoSync upgradeInfo_).
Definition GetCurrentVersionDescriptionSync descriptionOptions : Impl (list Taihe.ComponentDescription.t) :=
  GetAniUpdater upgradeInfo_ (AniUpdater.GetCurrentVersionDescriptionSync upgradeInfo_ descriptionOptions).
Definition GetTaskInfoSync : Impl Taihe.TaskInfo.t := GetAniUpdater upgradeInfo_ (AniUpdater.GetTaskInfoSync upgradeInfo_).
Definition DownloadSync versionDigestInfo (downloadOptions : Taihe.DownloadOptions.t) : Impl unit :=
  GetAniUpdater upgradeInfo_ (AniUpdater.DownloadSync upgradeInfo_ versionDigestInfo downloadOptions).
Definition ResumeDownloadSync versionDigestInfo (resumeDownloadOptions : Taihe.ResumeDownloadOptions.t) : Impl unit :=
  GetAniUpdater upgradeInfo_ (AniUpdater.ResumeDownloadSync upgradeInfo_ versionDigestInfo resumeDownloadOptions).
Definition PauseDownloadSync versionDigestInfo (pauseDownloadOptions : Taihe.PauseDownloadOptions.t) : Impl unit :=
  GetAniUpdater upgradeInfo_ (AniUpdater.PauseDownloadSync upgradeInfo_ versionDigestInfo pauseDownloadOptions).
Definition UpgradeSync versionDigestInfo (upgradeOptions : Taihe.UpgradeOptions.t) : Impl unit :=
  GetAniUpdater upgradeInfo_ (AniUpdater.UpgradeSync upgradeInfo_ versionDigestInfo upgradeOptions).
Definition ClearErrorSync versionDigestInfo (clearOptions : Taihe.ClearOptions.t) : Impl unit :=
  GetAniUpdater upgradeInfo_ (AniUpdater.ClearErrorSync upgradeInfo_ versionDigestInfo clearOptions).
Definition GetUpgradePolicySync : Impl Taihe.UpgradePolicy.t := GetAniUpdater upgradeInfo_ (AniUpdater.GetUpgradePolicySync upgradeInfo_).
Definition SetUpgradePolicySync (policy : Taihe.UpgradePolicy.t) : Impl unit := GetAniUpdater upgradeInfo_ (AniUpdater.SetUpgradePolicySync upgradeInfo_ policy).
Definition TerminateUpgradeSync : Impl unit := GetAniUpdater upgradeInfo_ (AniUpdater.TerminateUpgradeSync upgradeInfo_).
Definition On eventClassifyInfo (taskCallback : CB) : Impl (option unit) := GetAniUpdater upgradeInfo_ (AniBaseUpdater.On taskCallback).
Definition Off eventClassifyInfo (taskCallback : option CB) : Impl (option unit) :=
  match taskCallback with
  | Some taskCallback => GetAniUpdater upgradeInfo_ (AniBaseUpdater.Off taskCallback)
  | None => GetAniUpdater upgradeInfo_ AniBaseUpdater.OffAll
  end.
End ops.
End UpdaterImpl.

Module RestorerImpl.
Import AniBaseUpdater TaiheImpl.
Section ops.
Context {CB E : Type} `{EqDecision CB, AniBaseUpdater.CallbackCode CB, TaiheRuntime, SystemAbilities E, ServiceProxy E}.
#[local] Notation Impl := (ST (TaiheImpl.t CB * (list (Output CB) * Kits E))).
(*@* js/ani/src/taihe_impl.cpp RestorerImpl::= *)
Definition FactoryResetSync : Impl unit := on_restorer AniRestorer.FactoryResetSync.
Definition ForceFactoryResetSync : Impl unit := on_restorer AniRestorer.ForceFactoryResetSync.
Definition DeepFactoryResetSync (factoryResetStrategy : Taihe.FactoryResetStrategy.t) : Impl unit :=
  on_restorer (AniRestorer.DeepFactoryResetSync factoryResetStrategy).
Definition GetDeepFactoryResetInfoSync (factoryResetStrategy : Taihe.FactoryResetStrategy.t) : Impl Taihe.FactoryResetInfo.t :=
  on_restorer (AniRestorer.GetDeepFactoryResetInfoSync factoryResetStrategy).
End ops.
End RestorerImpl.

Module LocalUpdaterImpl.
Import AniBaseUpdater TaiheImpl.
Section ops.
Context {CB E : Type} `{EqDecision CB, AniBaseUpdater.CallbackCode CB, TaiheRuntime, SystemAbilities E, ServiceProxy E}.
#[local] Notation Impl := (ST (TaiheImpl.t CB * (list (Output CB) * Kits E))).
#[local] Existing Instance AniLocalUpdater.local.
Implicit Types (eventClassifyInfo : Taihe.EventClassifyInfo.t).
(*@* js/ani/src/taihe_impl.cpp LocalUpdaterImpl::= *)
Definition VerifyUpgradePackageSync (upgradeFile : Taihe.UpgradeFile.t) (certsFile : string) : Impl unit :=
  GetLocalUpdater (AniLocalUpdater.VerifyUpgradePackageSync upgradeFile certsFile).
Definition ApplyNewVersionSync (upgradeFiles : list Taihe.UpgradeFile.t) : Impl unit := GetLocalUpdater (AniLocalUpdater.ApplyNewVersionSync upgradeFiles).
Definition On eventClassifyInfo (taskCallback : CB) : Impl (option unit) := GetLocalUpdater (AniBaseUpdater.On taskCallback).
Definition Off eventClassifyInfo (taskCallback : option CB) : Impl (option unit) :=
  match taskCallback with
  | Some taskCallback => GetLocalUpdater (AniBaseUpdater.Off taskCallback)
  | None => GetLocalUpdater AniBaseUpdater.OffAll
  end.
End ops.
End LocalUpdaterImpl.

(** The key of the updater an object of the interface stands for. *)
(*@ js/ani/src/taihe_impl.cpp GetOnlineUpdater *)
Definition GetOnlineUpdater (upgradeInfo : Taihe.UpgradeInfo.t) : UpgradeInfo.t := AniCommonConverter.FromUpgradeInfo upgradeInfo.

(** ** The callbacks at the service

    [ServiceAnswers]: the system ability manager is there and has the service.  The object may die at
    any time, and a request may fail. *)
Class ServiceAnswers (E : Type) `{SystemAbilities E} : Prop := {
  answers_there (e : E) : samgr_there e = true;
  answers_check (e : E) : is_Some (eval (CheckSystemAbility (UPDATE_DISTRIBUTED_SERVICE_ID (E := E))) e);
  answers_cast (e : E) o : iface_cast e o = true
}.

(** No request of the updater but the two for callbacks is one of those of [RequestLog]. *)
Class OtherRequests (E : Type) `{ServiceProxy E, CallbackKits E, RequestLog E} : Prop := {
  new_callback_silent info : silent (new_UpdateCallback (E := E) info);
  check_new_version_silent o info out : silent (proxy_CheckNewVersion (E := E) o info out);
  download_silent o info v d out : silent (proxy_Download (E := E) o info v d out);
  pause_silent o info v d out : silent (proxy_PauseDownload (E := E) o info v d out);
  resume_silent o info v d out : silent (proxy_ResumeDownload (E := E) o info v d out);
  upgrade_silent o info v d out : silent (proxy_Upgrade (E := E) o info v d out);
  clear_error_silent o info v d out : silent (proxy_ClearError (E := E) o info v d out);
  terminate_silent o info out : silent (proxy_TerminateUpgrade (E := E) o info out);
  new_version_silent o info out : silent (proxy_GetNewVersionInfo (E := E) o info out);
  new_description_silent o info v d out : silent (proxy_GetNewVersionDescription (E := E) o info v d out);
  current_version_silent o info out : silent (proxy_GetCurrentVersionInfo (E := E) o info out);
  current_description_silent o info d out : silent (proxy_GetCurrentVersionDescription (E := E) o info d out);
  task_info_silent o info out : silent (proxy_GetTaskInfo (E := E) o info out);
  set_policy_silent o info p out : silent (proxy_SetUpgradePolicy (E := E) o info p out);
  get_policy_silent o info out : silent (proxy_GetUpgradePolicy (E := E) o info out)
}.

Module KitsFacts.
Import UpdateServiceKitsImpl.
Section wanted.
Context {E : Type} `{SystemAbilities E, ServiceProxy E, CallbackKits E, !RequestLog E, !RequestLaws E, !OtherRequests E}.
Implicit Types (s : Kits E) (info : UpgradeInfo.t) (o : Z).
(** What the connection registers again when the service has died: [callbacks_resumed]. *)
Definition wanted s : gset UpgradeInfo.t := dom (remoteUpdateCallbackMap_ s.1).
Definition registration (a : option Asked) : bool := match a with Some (Registration _ _) => true | _ => false end.
(** The last request sent for an upgrade information registers a callback exactly when the connection wants one, and the object
    it is connected to has been asked for each of these. *)
Definition requested s : Prop :=
  (∀ info, registration (last_of info (requests s.2)) = true ↔ info ∈ wanted s) ∧
  (∀ o, remoteServer_ s.1 = Some o → ∀ info, info ∈ wanted s → registration (last_asked o info (requests s.2)) = true).
(** What leaves the wishes, and whether they are met. *)
Definition same s s' : Prop := wanted s' = wanted s ∧ (requested s → requested s').
Lemma same_refl s : same s s.
Proof. by split. Qed.
Lemma same_trans s1 s2 s3 : same s1 s2 → same s2 s3 → same s1 s3.
Proof. intros [Hw1 Hr1] [Hw2 Hr2]. split; [congruence|auto]. Qed.
Lemma wp_env_silent {A} (m : ST E A) s (Q : A → Kits E → Prop) :
  silent m → (∀ a s', s'.1 = s.1 → requests s'.2 = requests s.2 → Q a s') → wp (env_ m) s Q.
Proof. intros Hm HQ. apply wp_env_. unfold wp. apply HQ; [done|apply Hm]. Qed.
Lemma same_env s s' : s'.1 = s.1 → requests s'.2 = requests s.2 → same s s'.
Proof. intros Hs Hr. unfold same, requested, wanted. by rewrite Hs, Hr. Qed.
Lemma same_fields s (this : UpdateServiceKitsImpl.t) :
  remoteServer_ this = None ∨ remoteServer_ this = remoteServer_ s.1 → remoteUpdateCallbackMap_ this = remoteUpdateCallbackMap_ s.1 → same s (this, s.2).
Proof.
  intros Hserver Hmap. unfold same, requested, wanted. cbn [fst snd]. rewrite Hmap. split; [done|]. intros [Hof Hasked]. split; [done|].
  destruct Hserver as [->| ->]; [done|exact Hasked].
Qed.
Lemma wp_reset s (Q : unit → Kits E → Prop) (b : bool) :
  (∀ s', same s s' → Q tt s') → wp (when b do ResetRemoteService) s Q.
Proof. intros HQ. destruct b; [apply wp_set_own|apply wp_ret]; apply HQ; [|apply same_refl]. apply same_fields; [by left|done]. Qed.
(** A registration that was logged *)
Lemma registered_again o info cb e (answer : Z) o' info' :
  let l := requests e ++ [((o, info), Registration cb answer)] in
  registration (last_asked o' info' l) = bool_decide ((o', info') = (o, info)) || registration (last_asked o' info' (requests e)) ∧
  registration (last_of info' l) = bool_decide (info' = info) || registration (last_of info' (requests e)).
Proof.
  cbn zeta. unfold last_asked, last_of. rewrite !last_request_snoc. cbn [snd].
  split; repeat case_bool_decide; try done; simplify_eq.
Qed.
Lemma wp_find_object_silent s (Q : option Z → Kits E → Prop) :
  (∀ r s', s'.1 = s.1 → requests s'.2 = requests s.2 → (ServiceAnswers E → is_Some r) → Q r s') → wp (env_ find_object) s Q.
Proof.
  intros HQ. apply wp_env_. destruct s as [this e]. cbn [fst snd]. unfold find_object. set (id := UPDATE_DISTRIBUTED_SERVICE_ID). apply wp_bind.
  pose proof (check_silent id e) as Hc. unfold wp at 1. destruct (eval _ _) as [o|] eqn:Ho; [apply wp_ret; by apply HQ|].
  assert (¬ ServiceAnswers E) as Hno by (intros Ha; destruct (answers_check e) as [o Ho']; fold id in Ho'; congruence).
  set (e1 := exec _ e) in *. unfold LoadSaService.TryLoadSa. apply wp_bind, wp_bind, wp_gets. destruct (samgr_there e1); cbn [negb].
  2: { apply wp_ret, wp_ret. by apply HQ. }
  pose proof (load_silent id LoadSaService.loadTimeSeconds e1) as Hl. unfold wp at 1. destruct (eval (LoadSystemAbility _ _) _); cbn [negb].
  2: { apply wp_ret, HQ; [done|cbn; congruence|done]. }
  unfold wp. apply HQ; [done| |done]. cbn [snd]. rewrite (get_silent id). congruence.
Qed.
Lemma wp_GetService_same s :
  wp GetService s (λ r s', same s s' ∧ (ServiceAnswers E → is_Some r) ∧ r = remoteServer_ s'.1).
Proof.
  unfold GetService. apply wp_bind, wp_own_. destruct (remoteServer_ s.1) as [o|] eqn:Hserver; [apply wp_ret; by split_and!; [apply same_refl|..]|].
  apply wp_bind, wp_env_, wp_gets. destruct (samgr_there s.2) eqn:Hthere; cbn [negb]; destruct s as [this e]; cbn [fst snd] in *.
  2: { apply wp_ret. split_and!; [apply same_refl| |done]. intros Ha. by rewrite answers_there in Hthere. }
  apply wp_bind, wp_find_object_silent. cbn [fst snd]. intros [o|] s1 Hs1 Hr1 Hfound.
  2: { apply wp_ret. split_and!; [by apply same_env|done|by rewrite Hs1]. }
  apply wp_bind. unfold AddDeathRecipient. apply wp_bind, wp_set_own, wp_bind, wp_env_, wp_gets. cbn [fst snd].
  eapply (wp_mono _ _ (λ _ s', s'.1 = set_recipient true this ∧ requests s'.2 = requests e)).
  2: { rewrite Hs1. destruct (IsProxyObject _ o); [|by apply wp_ret]. apply wp_bind, wp_env_silent; [apply add_silent|]. intros _ s' Hs' Hr'. apply wp_ret. cbn in *. by split; [|congruence]. }
  intros _ s2 [Hs2 Hr2]. apply wp_bind, wp_env_, wp_gets. destruct s2 as [this2 e2]. cbn [fst snd] in *. subst this2.
  assert (same (this, e) (set_recipient true this, e2)) as Hsame.
  { eapply same_trans; [apply (same_env _ (this, e2)); [done|exact Hr2]|]. apply same_fields; [by right|done]. }
  destruct (iface_cast e2 o) eqn:Hcast; cbn [negb].
  2: { apply wp_ret. split_and!; [exact Hsame| |done]. intros Ha. by rewrite answers_cast in Hcast. }
  apply wp_bind, wp_set_own, wp_bind. cbn [fst snd]. unfold RegisterCallback. apply wp_bind, wp_own_, wp_bind, wp_own_. cbn [fst snd remoteServer_ set_server].
  set (this3 := set_server (Some o) (set_recipient true this)).
  eapply (wp_for_each (λ vis s', s'.1 = this3 ∧
    (requested (this, e) → ∀ info, registration (last_of info (requests s'.2)) = true ↔ info ∈ wanted (this, e)) ∧
    (∀ x, x ∈ vis → registration (last_asked o x.1 (requests s'.2)) = true))).
  - split_and!; [done| |intros x Hx; by apply elem_of_nil in Hx]. cbn [snd]. rewrite Hr2. by intros [Hof _].
  - intros vis x rest s' Hl (Hs' & Hof & Hasked). apply wp_bind, wp_env_. unfold wp at 1. apply wp_ret. cbn [fst snd]. rewrite register_logged.
    split_and!; [done| |].
    + intros Hreq info. rewrite (proj2 (registered_again o x.1 x.2 s'.2 _ o info)). rewrite orb_true_iff, bool_decide_eq_true, Hof by done.
      split; [|by right]. intros [->|?]; [|done]. unfold wanted. apply elem_of_dom. exists x.2. apply elem_of_in_order.
      change (remoteUpdateCallbackMap_ this3) with (remoteUpdateCallbackMap_ this) in Hl. cbn [fst]. rewrite Hl. destruct x. set_solver.
    + intros y Hy. rewrite (proj1 (registered_again o x.1 x.2 s'.2 _ o y.1)). apply elem_of_app in Hy as [Hy|Hy].
      * rewrite Hasked by done. apply orb_true_r.
      * apply list_elem_of_singleton in Hy as ->. by rewrite bool_decide_true.
  - intros s' (Hs' & Hof & Hasked). apply wp_own_. rewrite Hs'. split_and!; [|by eexists|done].
    assert (wanted s' = wanted (this, e)) as Hw by (unfold wanted; by rewrite Hs'). split; [exact Hw|]. intros Hreq. unfold requested. rewrite Hw, Hs'. split; [by apply Hof|].
    intros o' [= <-] info Hin. unfold wanted in Hin. apply elem_of_dom in Hin as [cb Hcb]. apply (Hasked (info, cb)), elem_of_in_order. exact Hcb.
Qed.
Lemma wp_with_service {A} (none : A) f s (Q : A → Kits E → Prop) :
  (¬ ServiceAnswers E → ∀ s', same s s' → Q none s') →
  (∀ o s', remoteServer_ s'.1 = Some o → same s s' → wp (f o) s' Q) → wp (with_service none f) s Q.
Proof.
  intros Hnone Hf. unfold with_service. apply wp_bind. eapply wp_mono; [|apply wp_GetService_same].
  intros [o|] s' (Hs' & Hr & Hserver); [by apply Hf|]. apply wp_ret, Hnone; [|done]. intros Ha. by destruct (Hr Ha).
Qed.
(** A request leaves the wish to be told of events. *)
Lemma wp_request {A} (out : A) f s : (∀ o out, silent (f o out)) → wp (request out f) s (λ _ s', same s s').
Proof.
  intros Hf. unfold request. apply wp_with_service; [done|]. intros o s1 _ Hs1. apply wp_bind, wp_env_silent; [apply Hf|]. intros [r out'] s2 Hs2 Hr2.
  apply wp_bind, wp_reset. intros s3 Hs3. apply wp_ret. eapply same_trans; [exact Hs1|]. eapply same_trans; [by apply same_env|done].
Qed.
(** Whether the connection wants the events for [info] afterwards. *)
Definition wishes (yes : bool) info s s' : Prop :=
  (ServiceAnswers E → wanted s' = if yes then {[info]} ∪ wanted s else wanted s ∖ {[info]}) ∧ (requested s → requested s').
Lemma wishes_same yes info s1 s2 s3 : same s1 s2 → wishes yes info s2 s3 → wishes yes info s1 s3.
Proof. intros [Hw Hr] [Hw' Hr']. split; [|auto]. rewrite <- Hw. exact Hw'. Qed.
Lemma same_wishes yes info s1 s2 s3 : wishes yes info s1 s2 → same s2 s3 → wishes yes info s1 s3.
Proof. intros [Hw Hr] [Hw' Hr']. split; [|auto]. by rewrite Hw'. Qed.
Lemma wishes_no_service yes info s s' : ¬ ServiceAnswers E → same s s' → wishes yes info s s'.
Proof. intros Hno [_ Hr]. by split. Qed.
Lemma wp_RegisterUpdateCallback info cb s : wp (RegisterUpdateCallback info cb) s (λ _ s', wishes true info s s').
Proof.
  unfold RegisterUpdateCallback. apply wp_with_service; [intros; by apply wishes_no_service|]. intros o s1 Hserver Hs1. unfold register_on.
  apply wp_bind, wp_env_. unfold wp at 1. set (r := eval _ _). apply wp_bind, wp_set_own, wp_bind, wp_reset. intros s3 Hs3. apply wp_ret.
  eapply wishes_same; [exact Hs1|]. eapply same_wishes; [|exact Hs3]. split.
  - intros _. unfold wanted. cbn. by rewrite dom_insert_L.
  - intros [Hof Hasked]. unfold requested, wanted. cbn [fst snd remoteUpdateCallbackMap_ set_callbacks remoteServer_]. rewrite register_logged, dom_insert_L. fold (wanted s1). split.
    + intros info'. rewrite (proj2 (registered_again o info cb s1.2 _ o info')). rewrite orb_true_iff, bool_decide_eq_true, Hof. set_solver.
    + rewrite Hserver. intros o' [= <-] info' Hin. rewrite (proj1 (registered_again o info cb s1.2 _ o info')), orb_true_iff, bool_decide_eq_true.
      destruct (decide (info' = info)) as [->|Hne]; [by left|right]. apply Hasked; [done|]. set_solver.
Qed.
Lemma wp_UnregisterUpdateCallback info s : wp (UnregisterUpdateCallback info) s (λ _ s', wishes false info s s').
Proof.
  unfold UnregisterUpdateCallback. apply wp_with_service; [intros; by apply wishes_no_service|]. intros o s1 Hserver Hs1. unfold unregister_on. apply wp_bind, wp_set_own.
  apply wp_bind, wp_env_. unfold wp at 1. apply wp_bind, wp_reset. intros s3 Hs3. apply wp_ret.
  eapply wishes_same; [exact Hs1|]. eapply same_wishes; [|exact Hs3]. split.
  - intros _. unfold wanted. cbn. by rewrite dom_delete_L.
  - intros [Hof Hasked]. unfold requested, wanted. cbn [fst snd remoteUpdateCallbackMap_ set_callbacks remoteServer_]. rewrite unregister_logged, dom_delete_L. fold (wanted s1).
    unfold last_of, last_asked. split.
    + intros info'. rewrite last_request_snoc. cbn [snd]. case_bool_decide as Hi; [subst; cbn; set_solver|].
      change (last_request _ (requests s1.2)) with (last_of info' (requests s1.2)). rewrite Hof. set_solver.
    + rewrite Hserver. intros o' [= <-] info' [Hin Hne]%elem_of_difference. rewrite last_request_snoc, bool_decide_false by set_solver. by apply Hasked.
Qed.
Lemma wp_register_attempts info n s : wp (register_attempts info (S n)) s (λ _ s', wishes true info s s').
Proof.
  revert s. induction n as [|n IH]; intros s; cbn [register_attempts]; apply wp_bind, wp_env_silent; [apply new_callback_silent| |apply new_callback_silent|];
    intros cb s1 Hs1 Hr1; apply wp_bind; (eapply wp_mono; [|apply wp_RegisterUpdateCallback]); intros r s2 Hs2;
    (assert (wishes true info s s2) as Hs by (eapply wishes_same; [by apply same_env|done])); destruct (r =? CallResult.SUCCESS); try by apply wp_ret.
  eapply wp_mono; [|apply IH]. intros u s3 [Hw3 Hr3]. destruct Hs as [Hw Hr]. split; [|auto]. intros Ha. rewrite Hw3, Hw by done. set_solver.
Qed.
End wanted.
End KitsFacts.

(** ** An application and its updaters *)
Module AniApp.
Import AniBaseUpdater TaiheImpl KitsFacts.
(** The requests of the interface. *)
Inductive Request :=
  CheckNewVersion | GetNewVersionInfo | GetNewVersionDescription (v : Taihe.VersionDigestInfo.t) (o : Taihe.DescriptionOptions.t) | GetCurrentVersionInfo
  | GetCurrentVersionDescription (o : Taihe.DescriptionOptions.t) | GetTaskInfo
  | Download (v : Taihe.VersionDigestInfo.t) (o : Taihe.DownloadOptions.t) | ResumeDownload (v : Taihe.VersionDigestInfo.t) (o : Taihe.ResumeDownloadOptions.t)
  | PauseDownload (v : Taihe.VersionDigestInfo.t) (o : Taihe.PauseDownloadOptions.t) | Upgrade (v : Taihe.VersionDigestInfo.t) (o : Taihe.UpgradeOptions.t)
  | ClearError (v : Taihe.VersionDigestInfo.t) (o : Taihe.ClearOptions.t) | GetUpgradePolicy | SetUpgradePolicy (policy : Taihe.UpgradePolicy.t) | TerminateUpgrade.
(** What happens to the updater of [info]. *)
Inductive Action (CB : Type) :=
  Subscribes (info : UpgradeInfo.t) (c : Taihe.EventClassifyInfo.t) (cb : CB) | Unsubscribes (info : UpgradeInfo.t) (c : Taihe.EventClassifyInfo.t) (cb : option CB)
  | Requests (info : UpgradeInfo.t) (r : Request) | Happens (info : UpgradeInfo.t) (e : EventInfo.t).
Arguments Subscribes {CB}.
Arguments Unsubscribes {CB}.
Arguments Requests {CB}.
Arguments Happens {CB}.
Section app.
Context {CB E : Type} `{EqDecision CB, AniBaseUpdater.CallbackCode CB, TaiheRuntime, SystemAbilities E, ServiceProxy E, CallbackKits E, !RequestLog E, !RequestLaws E, !OtherRequests E}.
#[local] Notation State := (TaiheImpl.t CB * (list (Output CB) * Kits E))%type.
#[local] Notation Impl := (ST State).
Implicit Types (info i : UpgradeInfo.t) (cb : CB) (s : State) (h : list (Action CB)).
Definition perform info (r : Request) : Impl unit :=
  match r with
  | CheckNewVersion => UpdaterImpl.CheckNewVersionSync info ;;; ret tt
  | GetNewVersionInfo => UpdaterImpl.GetNewVersionInfoSync info ;;; ret tt
  | GetNewVersionDescription v o => UpdaterImpl.GetNewVersionDescriptionSync info v o ;;; ret tt
  | GetCurrentVersionInfo => UpdaterImpl.GetCurrentVersionInfoSync info ;;; ret tt
  | GetCurrentVersionDescription o => UpdaterImpl.GetCurrentVersionDescriptionSync info o ;;; ret tt
  | GetTaskInfo => UpdaterImpl.GetTaskInfoSync info ;;; ret tt
  | Download v o => UpdaterImpl.DownloadSync info v o
  | ResumeDownload v o => UpdaterImpl.ResumeDownloadSync info v o
  | PauseDownload v o => UpdaterImpl.PauseDownloadSync info v o
  | Upgrade v o => UpdaterImpl.UpgradeSync info v o
  | ClearError v o => UpdaterImpl.ClearErrorSync info v o
  | GetUpgradePolicy => UpdaterImpl.GetUpgradePolicySync info ;;; ret tt
  | SetUpgradePolicy policy => UpdaterImpl.SetUpgradePolicySync info policy
  | TerminateUpgrade => UpdaterImpl.TerminateUpgradeSync info
  end.
(** An event is told to the updater that has registered for it. *)
Definition happens info (e : EventInfo.t) : Impl unit := λ s,
  match aniUpdatersMap_ s.1 !! info with None => (tt, s) | Some _ => (GetAniUpdater info (CallbackEventInfo e) ;;; ret tt) s end.
Definition act (a : Action CB) : Impl unit :=
  match a with
  | Subscribes info c cb => UpdaterImpl.On info c cb ;;; ret tt
  | Unsubscribes info c cb => UpdaterImpl.Off info c cb ;;; ret tt
  | Requests info r => perform info r
  | Happens info e => happens info e
  end.
(** A history, the latest first. *)
Fixpoint run h : Impl unit := match h with [] => ret tt | a :: h => run h ;;; act a end.
Definition start (e : E) : State := (TaiheImpl.initial, ([], (UpdateServiceKitsImpl.new, e))).

(** *** What an application expects *)
Definition after (a : Action CB) info cb (was : bool) : bool :=
  match a with
  | Subscribes i _ c => bool_decide (i = info ∧ c = cb) || was
  | Unsubscribes i _ (Some c) => negb (bool_decide (i = info ∧ c = cb)) && was
  | Unsubscribes i _ None => negb (bool_decide (i = info)) && was
  | _ => was
  end.
Fixpoint subscribed h info cb : bool := match h with [] => false | a :: h => after a info cb (subscribed h info cb) end.
(** The events of the history a callback is to be told. *)
Fixpoint told h cb : list Taihe.EventInfo.t :=
  match h with
  | [] => []
  | Happens info e :: h => told h cb ++ (if subscribed h info cb then [AniCommonConverter.Converter_EventInfo e] else [])
  | _ :: h => told h cb
  end.
(** And what it was told. *)
Definition call_of cb (o : Output CB) : option Taihe.EventInfo.t :=
  match o with Called c e => if decide (c = cb) then Some e else None | BusinessErrorSet _ _ => None end.
Definition calls cb (out : list (Output CB)) : list Taihe.EventInfo.t := omap (call_of cb) out.
Definition updater s info : AniBaseUpdater.t CB := default AniBaseUpdater.new (aniUpdatersMap_ s.1 !! info).
Definition callbacks s info : list CB := callbacks_ (updater s info).
Definition kits s : Kits E := s.2.2.

(** *** One method *)
Lemma wp_GetAniUpdater {A} info (m : ST (AniBaseUpdater.t CB * (list (Output CB) * Kits E)) A) s Q :
  wp m (updater s info, s.2)
    (λ a x, ∀ s', s'.2 = x.2 → (∀ i, updater s' i = if decide (i = info) then x.1 else updater s i) → Q a s') →
  wp (GetAniUpdater info m) s Q.
Proof.
  unfold wp, eval, exec, GetAniUpdater. intros HQ. fold (updater s info). destruct (m _) as [a [this p]]. apply HQ; [done|].
  intros i. unfold updater. cbn. destruct (decide (i = info)) as [->|Hne]; [by rewrite lookup_insert_eq|by rewrite lookup_insert_ne].
Qed.
Lemma wp_with_lock {A W} (m : ST (AniBaseUpdater.t CB * (list (Output CB) * W)) (option A)) this p (Q : option A → _ → Prop) :
  mutex_ this = false →
  wp m (set_mutex true this, p) (λ r x, ∃ a, r = Some a ∧ Q (Some a) (set_mutex false x.1, x.2)) → wp (with_lock m) (this, p) Q.
Proof.
  intros Hfree Hm. unfold with_lock. apply wp_bind, wp_own_. cbn [fst]. rewrite Hfree. apply wp_bind, wp_set_own. cbn [fst snd]. apply wp_bind.
  eapply wp_mono; [|exact Hm]. intros r x (a & -> & HQ). apply wp_bind, wp_set_own. cbn [fst snd]. by apply wp_ret.
Qed.
Lemma calls_app cb out1 out2 : calls cb (out1 ++ out2) = calls cb out1 ++ calls cb out2.
Proof. apply omap_app. Qed.
Lemma set_mutex_free (this : AniBaseUpdater.t CB) : mutex_ this = false → set_mutex false (set_mutex true this) = this.
Proof. destruct this as [l b]. cbn. by intros ->. Qed.
Lemma wp_CallbackEventInfo this out (w : Kits E) e (Q : option unit → _ → Prop) :
  (∀ cb ev, reenters cb ev = false) → mutex_ this = false →
  Q (Some tt) (this, (out ++ map (λ cb, Called cb (AniCommonConverter.Converter_EventInfo e)) (callbacks_ this), w)) →
  wp (CallbackEventInfo e) (this, (out, w)) Q.
Proof.
  intros Hcalm Hfree HQ. apply wp_with_lock; [done|]. apply wp_bind, wp_own_. cbn [fst callbacks_ set_mutex].
  enough (∀ l out', wp (call_callbacks e l) (set_mutex true this, (out', w)) (λ r x, r = Some tt ∧
    x = (set_mutex true this, (out' ++ map (λ cb, Called cb (AniCommonConverter.Converter_EventInfo e)) l, w)))) as Hall.
  { eapply wp_mono; [|apply Hall]. intros r x [-> ->]. exists tt. split; [done|]. cbn [fst snd]. by rewrite set_mutex_free. }
  intros l. induction l as [|cb l IH]; intros out'; cbn [call_callbacks map].
  - apply wp_ret. by rewrite app_nil_r.
  - apply wp_bind, wp_env_. unfold wp at 1. rewrite Hcalm. cbn [fst snd]. eapply wp_mono; [|apply IH]. intros r x [-> ->]. by rewrite <- app_assoc.
Qed.
Lemma calls_told (l : list CB) cb e :
  NoDup l → calls cb (map (λ c, Called c e) l) = if decide (cb ∈ l) then [e] else [].
Proof.
  induction 1 as [|c l Hc Hl IH]; [done|].
  change (calls cb (map (λ c, Called c e) (c :: l))) with
    (match call_of cb (Called c e) with Some x => x :: calls cb (map (λ c, Called c e) l) | None => calls cb (map (λ c, Called c e) l) end).
  rewrite IH. cbn [call_of]. destruct (decide (c = cb)) as [->|Hne].
  - rewrite (decide_False (P := cb ∈ l)), decide_True by set_solver. done.
  - destruct (decide (cb ∈ l)) as [Hin|Hin]; [by rewrite decide_True by set_solver|by rewrite decide_False by set_solver].
Qed.
Lemma wp_SetError `{AniVirtual (Kits E)} r name err (this : AniBaseUpdater.t CB) out (w : Kits E) :
  wp (SetError r name err) (this, (out, w)) (λ _ x, x.1 = this ∧ x.2.2 = w ∧ ∀ cb, calls cb x.2.1 = calls cb out).
Proof.
  unfold SetError. destruct (negb (r =? 0)); [|destruct (negb (BusinessError.IsSuccess err)); [|by apply wp_ret]];
    unfold wp; cbn -[calls]; split_and!; try done; intros cb; by rewrite calls_app, app_nil_r.
Qed.
Definition quiet {A} (m : ST (AniBaseUpdater.t CB * (list (Output CB) * Kits E)) A) : Prop := ∀ x,
  wp m x (λ _ x', x'.1 = x.1 ∧ same x.2.2 x'.2.2 ∧ ∀ cb, calls cb x'.2.1 = calls cb x.2.1).
Definition keeps {A} (m : ST (Kits E) A) : Prop := ∀ w, wp m w (λ _ w', same w w').
Lemma quiet_answered `{AniVirtual (Kits E)} {A B} name (m : ST (Kits E) (Z * (A * BusinessError.t))) (f : A → B) :
  keeps m → quiet (let* x := answered name m in ret (f x)).
Proof.
  intros Hm [this [out w]]. unfold answered. apply wp_bind, wp_bind, wp_on_world. eapply wp_mono; [|apply Hm]. intros [r [a err]] w' Hw'. cbn [fst snd] in *.
  apply wp_bind. eapply wp_mono; [|apply wp_SetError]. intros b x (Hx & Hw & Hout). apply wp_ret, wp_ret.
  split_and!; [done|by rewrite Hw|done].
Qed.
Lemma quiet_answered_unit `{AniVirtual (Kits E)} name (m : ST (Kits E) (Z * BusinessError.t)) : keeps m → quiet (answered_unit name m).
Proof.
  intros Hm [this [out w]]. unfold answered_unit. apply wp_bind, wp_on_world. eapply wp_mono; [|apply Hm]. intros [r err] w' Hw'. cbn [fst snd] in *.
  apply wp_bind. eapply wp_mono; [|apply wp_SetError]. intros b x (Hx & Hw & Hout). apply wp_ret.
  split_and!; [done|by rewrite Hw|done].
Qed.
Lemma wanted_bind {A B} (m : ST (Kits E) A) (f : A → ST (Kits E) B) : keeps m → (∀ a, keeps (f a)) → keeps (bind m f).
Proof.
  intros Hm Hf w. apply wp_bind. eapply wp_mono; [|apply Hm]. intros a w' Hw'. eapply wp_mono; [|apply Hf]. intros b w'' Hw''. exact (same_trans _ _ _ Hw' Hw'').
Qed.
Lemma keeps_request {A} (out : A) f : (∀ o out, silent (f o out)) → keeps (UpdateServiceKitsImpl.request out f).
Proof. intros Hf w. by apply wp_request. Qed.

(** *** Every history *)
(** Each updater has each callback once and its lock is free, the connection wants the events of the updaters with callbacks, and has asked for
    them. *)
Definition updaters_inv s : Prop :=
  (∀ info, NoDup (callbacks s info)) ∧ (∀ info, mutex_ (updater s info) = false) ∧ requested (kits s) ∧
  (ServiceAnswers E → ∀ info, info ∈ wanted (kits s) ↔ callbacks s info ≠ []).
Definition step_of (a : Action CB) s s' : Prop :=
  updaters_inv s' ∧
  (∀ info cb, cb ∈ callbacks s' info ↔ after a info cb (bool_decide (cb ∈ callbacks s info)) = true) ∧
  (∀ cb, calls cb s'.2.1 = calls cb s.2.1 ++
     match a with Happens info e => if decide (cb ∈ callbacks s info) then [AniCommonConverter.Converter_EventInfo e] else [] | _ => [] end).
Lemma step_quiet a info (m : ST (AniBaseUpdater.t CB * (list (Output CB) * Kits E)) unit) s :
  (∀ i cb was, after a i cb was = was) → (∀ i e, a ≠ Happens i e) → quiet m → updaters_inv s → wp (GetAniUpdater info m) s (λ _ s', step_of a s s').
Proof.
  intros Ha Hno Hm (Hnd & Hfree & Hreq & Hw). apply wp_GetAniUpdater. eapply wp_mono; [|apply Hm]. intros u x (Hx & [Hkeep Hkeep'] & Hcalls) s' Hs' Hcb.
  assert (∀ i, updater s' i = updater s i) as Hsame by (intros i; rewrite Hcb, Hx; by destruct (decide (i = info)) as [->|]).
  unfold step_of, updaters_inv, callbacks, kits in *. rewrite Hs'. split_and!.
  - intros i. by rewrite Hsame.
  - intros i. by rewrite Hsame.
  - by apply Hkeep'.
  - intros Hans i. rewrite Hsame, Hkeep. by apply Hw.
  - intros i cb. by rewrite Ha, Hsame, bool_decide_eq_true.
  - intros cb. rewrite Hcalls. destruct a; rewrite ?app_nil_r; try done. by destruct (Hno info0 e).
Qed.
Lemma step_listeners a info s s' (u : AniBaseUpdater.t CB) :
  updaters_inv s → (∀ i e, a ≠ Happens i e) → (∀ i cb was, i ≠ info → after a i cb was = was) →
  (∀ i, updater s' i = if decide (i = info) then u else updater s i) → s'.2.1 = s.2.1 → NoDup (callbacks_ u) → mutex_ u = false →
  (∀ cb, cb ∈ callbacks_ u ↔ after a info cb (bool_decide (cb ∈ callbacks s info)) = true) →
  wishes (negb (bool_decide (callbacks_ u = []))) info (kits s) (kits s') → step_of a s s'.
Proof.
  intros (Hnd & Hfree & Hreq & Hw) Hno Hother Hcb Hout Hl Hu Hafter [Hwanted Hreq']. unfold step_of, updaters_inv, callbacks in *. split_and!.
  - intros i. rewrite Hcb. destruct (decide (i = info)); [exact Hl|apply Hnd].
  - intros i. rewrite Hcb. destruct (decide (i = info)); [exact Hu|apply Hfree].
  - by apply Hreq'.
  - intros Hans i. rewrite Hcb, Hwanted by done. specialize (Hw Hans i).
    destruct (bool_decide_reflect (callbacks_ u = [])) as [Hnil|Hne], (decide (i = info)) as [->|Hi]; cbn [negb]; set_solver.
  - intros i cb. rewrite Hcb. destruct (decide (i = info)) as [->|Hi]; [by rewrite Hafter|]. by rewrite Hother, bool_decide_eq_true.
  - intros cb. rewrite Hout. destruct a as [| | |i e]; rewrite ?app_nil_r; try done. by destruct (Hno i e).
Qed.
(** The wish is as before, when it was so before. *)
Lemma wishes_before info s : updaters_inv s → wishes (negb (bool_decide (callbacks s info = []))) info (kits s) (kits s).
Proof.
  intros (_ & _ & _ & Hw). split; [|done]. intros Hans. specialize (Hw Hans info). destruct (bool_decide_reflect (callbacks s info = [])); cbn [negb]; set_solver.
Qed.
Lemma wishes_kept info yes (w : Kits E) : (ServiceAnswers E → info ∈ wanted w ↔ yes = true) → wishes yes info w w.
Proof. intros Hw. split; [|done]. intros Hans. specialize (Hw Hans). destruct yes; set_solver. Qed.
Lemma step_subscribes info c cb s : updaters_inv s → wp (act (Subscribes info c cb)) s (λ _ s', step_of (Subscribes info c cb) s s').
Proof.
  intros Hs. pose proof Hs as (Hnd & Hfree & _ & Hw). apply wp_bind, wp_GetAniUpdater. destruct s as [impl p]. cbn [snd]. set (s := (impl, p)) in *.
  apply wp_with_lock; [apply Hfree|]. apply wp_bind, wp_own_. cbn [fst callbacks_ set_mutex].
  change (callbacks_ (updater s info)) with (callbacks s info).
  assert (∀ i cb' was, i ≠ info → after (Subscribes info c cb) i cb' was = was) as Hother by (intros i cb' was Hi; cbn; by rewrite bool_decide_false by naive_solver).
  case_bool_decide as Hin.
  - apply wp_ret. exists tt. split; [done|]. cbn [fst snd]. rewrite set_mutex_free by apply Hfree. intros s' Hs' Hcb.
    apply wp_ret, (step_listeners _ info _ _ (updater s info)); try done; try apply Hfree; try apply Hnd; [by rewrite Hs'| |].
    + intros cb'. cbn. rewrite orb_true_iff, !bool_decide_eq_true. change (callbacks_ (updater s info)) with (callbacks s info). naive_solver.
    + unfold kits at 2. rewrite Hs'. by apply wishes_before.
  - apply wp_bind. eapply (wp_mono _ _ (λ _ x, x.1 = set_mutex true (updater s info) ∧ x.2.1 = s.2.1 ∧ wishes true info s.2.2 x.2.2)).
    2: { destruct (bool_decide_reflect (callbacks s info = [])) as [Hnil|Hne].
         - apply wp_on_world. unfold wp. split_and!; [done..|]. apply (wp_register_attempts info 4 s.2.2).
         - apply wp_ret. split_and!; [done..|]. apply wishes_kept. intros Hans. specialize (Hw Hans info). unfold kits in Hw. naive_solver. }
    intros u x (Hx & Hout & Hwx). apply wp_bind, wp_set_own, wp_ret. exists tt. split; [done|]. cbn [fst snd]. intros s' Hs' Hcb.
    apply wp_ret, (step_listeners _ info _ _ (set_mutex false (set_callbacks (callbacks_ x.1 ++ [cb]) x.1))); rewrite ?Hx; try done; cbn [callbacks_ set_callbacks set_mutex].
    + intros i. by rewrite Hcb, Hx.
    + by rewrite Hs'.
    + apply NoDup_app. split_and!; [apply Hnd| |apply NoDup_singleton]. intros y Hy Hy'. apply list_elem_of_singleton in Hy' as ->. done.
    + intros cb'. cbn. rewrite elem_of_app, list_elem_of_singleton, orb_true_iff, !bool_decide_eq_true. change (callbacks_ (updater s info)) with (callbacks s info). naive_solver.
    + unfold kits. rewrite Hs', bool_decide_false by (by intros [_ ?]%app_eq_nil). exact Hwx.
Qed.
Lemma wp_UnRegister info (w : Kits E) : wp (AniUpdater.UnRegisterCallback info) w (λ _ w', wishes false info w w').
Proof. apply wp_bind. eapply wp_mono; [|apply wp_UnregisterUpdateCallback]. intros r w' Hw. by apply wp_ret. Qed.
Lemma step_unsubscribes info c (o : option CB) s : updaters_inv s → wp (act (Unsubscribes info c o)) s (λ _ s', step_of (Unsubscribes info c o) s s').
Proof.
  intros Hs. pose proof Hs as (Hnd & Hfree & _ & Hw). destruct s as [impl p]. set (s := (impl, p)) in *.
  destruct o as [cb|]; apply wp_bind, wp_GetAniUpdater; (apply wp_with_lock; [apply Hfree|]); apply wp_bind, wp_set_own; cbn [fst snd callbacks_ set_mutex].
  - apply wp_bind, wp_own_. cbn [fst callbacks_ set_callbacks]. change (callbacks_ (updater s info)) with (callbacks s info). set (l := List.filter _ _).
    assert (∀ cb', cb' ∈ l ↔ cb' ≠ cb ∧ cb' ∈ callbacks s info) as Hl.
    { intros cb'. unfold l. rewrite !list_elem_of_In, filter_In, negb_true_iff, bool_decide_eq_false. naive_solver. }
    apply wp_bind. eapply (wp_mono _ _ (λ _ x, callbacks_ x.1 = l ∧ x.2.1 = s.2.1 ∧ wishes (negb (bool_decide (l = []))) info s.2.2 x.2.2)).
    2: { destruct (bool_decide_reflect (l = [])) as [Hnil|Hne]; cbn [negb].
         - apply wp_on_world. unfold wp. split_and!; [done..|]. apply (wp_UnRegister info s.2.2).
         - apply wp_ret. split_and!; [done..|]. apply wishes_kept. intros Hans. specialize (Hw Hans info). unfold kits in Hw.
           assert (callbacks s info ≠ []); [|naive_solver]. intros Hnil. apply Hne. unfold l. by rewrite Hnil. }
    intros u x (Hx & Hout & Hwx). apply wp_ret. exists tt. split; [done|]. cbn [fst snd]. intros s' Hs' Hcb.
    apply wp_ret, (step_listeners _ info _ _ (set_mutex false x.1)); try done; cbn [callbacks_ set_mutex]; rewrite ?Hx.
    + intros i cb' was Hi. cbn. by rewrite bool_decide_false by naive_solver.
    + by rewrite Hs'.
    + unfold l. apply NoDup_ListNoDup, List.NoDup_filter, NoDup_ListNoDup, Hnd.
    + intros cb'. cbn. rewrite Hl, andb_true_iff, negb_true_iff, bool_decide_eq_false, bool_decide_eq_true. naive_solver.
    + unfold kits. by rewrite Hs'.
  - apply wp_bind. eapply (wp_mono _ _ (λ _ x, callbacks_ x.1 = [] ∧ x.2.1 = s.2.1 ∧ wishes false info s.2.2 x.2.2)).
    2: { apply wp_on_world. unfold wp. split_and!; [done..|]. apply (wp_UnRegister info s.2.2). }
    intros u x (Hx & Hout & Hwx). apply wp_ret. exists tt. split; [done|]. cbn [fst snd]. intros s' Hs' Hcb.
    apply wp_ret, (step_listeners _ info _ _ (set_mutex false x.1)); try done; cbn [callbacks_ set_mutex]; rewrite ?Hx.
    + intros i cb' was Hi. cbn. by rewrite bool_decide_false by done.
    + by rewrite Hs'.
    + apply NoDup_nil_2.
    + intros cb'. cbn. rewrite bool_decide_true by done. cbn. split; [intros Hin; by apply elem_of_nil in Hin|done].
    + unfold kits. by rewrite Hs'.
Qed.
Ltac silent_proxy := intros ? ?;
  first [ apply check_new_version_silent | apply download_silent | apply pause_silent | apply resume_silent | apply upgrade_silent | apply clear_error_silent
        | apply terminate_silent | apply new_version_silent | apply new_description_silent | apply current_version_silent | apply current_description_silent
        | apply task_info_silent | apply set_policy_silent | apply get_policy_silent ].
Lemma step_requests info r s : updaters_inv s → wp (perform info r) s (λ _ s', step_of (Requests info r) s s').
Proof.
  intros Hs. assert (∀ m, quiet m → wp (GetAniUpdater info m) s (λ _ s', step_of (Requests info r) s s')) as Hm
    by (intros m Hm; by apply step_quiet).
  assert (∀ {A} (m : ST (AniBaseUpdater.t CB * (list (Output CB) * Kits E)) A), quiet m →
    wp (GetAniUpdater info m ;;; ret tt) s (λ _ s', step_of (Requests info r) s s')) as Hm'.
  { intros A m Hq. specialize (Hm (m ;;; ret tt)). unfold wp, exec, eval, GetAniUpdater, bind in *.
    assert (quiet (m ;;; ret tt)) as Hq' by (intros x; apply wp_bind; eapply wp_mono; [|apply Hq]; intros a x' Hx'; by apply wp_ret).
    specialize (Hm Hq'). unfold bind in Hm. by destruct (m _) as [a [this p]]. }
  destruct r; cbn [perform];
    (apply Hm' || apply Hm); (apply quiet_answered || apply quiet_answered_unit); try (apply keeps_request; silent_proxy).
  apply wanted_bind; [apply keeps_request; silent_proxy|]. intros [r [error result]] w. by apply wp_ret.
Qed.
Section calm.
Hypothesis calm : ∀ cb ev, reenters cb ev = false.
Lemma step_happens info e s : updaters_inv s → wp (happens info e) s (λ _ s', step_of (Happens info e) s s').
Proof.
  intros Hs. pose proof Hs as (Hnd & Hfree & Hreq & Hw). unfold wp at 1. unfold happens, exec. destruct (aniUpdatersMap_ s.1 !! info) as [this|] eqn:Hthis.
  - apply (wp_bind (GetAniUpdater info (CallbackEventInfo e)) (λ _, ret tt) s (λ _ s', step_of (Happens info e) s s')). apply wp_GetAniUpdater.
    destruct s as [impl [out w]]. set (s := (impl, (out, w))) in *. cbn [snd]. apply wp_CallbackEventInfo; [exact calm|apply Hfree|].
    intros s' Hs' Hcb. cbn [fst snd] in *. apply wp_ret.
    assert (∀ i, updater s' i = updater s i) as Hsame by (intros i; rewrite Hcb; by destruct (decide (i = info)) as [->|]).
    unfold step_of, updaters_inv, callbacks, kits in *. rewrite Hs'. split_and!; try done.
    + intros i. by rewrite Hsame.
    + intros i. by rewrite Hsame.
    + intros Hans i. rewrite Hsame. by apply Hw.
    + intros i cb. cbn. by rewrite Hsame, bool_decide_eq_true.
    + intros cb. cbn [fst snd]. rewrite calls_app, calls_told by apply Hnd. done.
  - cbn. split_and!; [done| |]; intros; cbn; [by rewrite bool_decide_eq_true|].
    rewrite decide_False by (unfold callbacks, updater; rewrite Hthis; by apply not_elem_of_nil). by rewrite app_nil_r.
Qed.
Lemma step_act a s : updaters_inv s → wp (act a) s (λ _ s', step_of a s s').
Proof. destruct a; [apply step_subscribes|apply step_unsubscribes|apply step_requests|apply step_happens]. Qed.
Lemma history_inv h e :
  requests e = [] →
  wp (run h) (start e) (λ _ s, updaters_inv s ∧ (∀ info cb, cb ∈ callbacks s info ↔ subscribed h info cb = true) ∧ ∀ cb, calls cb s.2.1 = told h cb).
Proof.
  intros He. induction h as [|a h IH].
  - apply wp_ret. unfold callbacks, updater. cbn. split_and!; [split_and!| |done].
    + intros info. unfold callbacks, updater. cbn. rewrite lookup_empty. apply NoDup_nil_2.
    + intros info. unfold updater. cbn. by rewrite lookup_empty.
    + unfold requested, kits, wanted. cbn. rewrite He. split; [|done]. intros info. set_solver.
    + intros _ info. unfold wanted, callbacks, updater. cbn. rewrite dom_empty_L, lookup_empty. set_solver.
    + intros info cb. rewrite lookup_empty. cbn. set_solver.
  - cbn [run]. apply wp_bind. eapply wp_mono; [|exact IH]. intros u s (Hs & Hsub & Hcalls). eapply wp_mono; [|by apply step_act].
    intros u' s' (Hs' & Hcb & Hout). assert (∀ info cb, bool_decide (cb ∈ callbacks s info) = subscribed h info cb) as Hd.
    { intros info cb. apply eq_true_iff_eq. by rewrite bool_decide_eq_true. }
    split_and!; [done| |]; [intros info cb; by rewrite Hcb, Hd|]. intros cb. rewrite Hout, Hcalls. destruct a as [| | |info ev]; rewrite ?app_nil_r; try done.
    cbn. rewrite <- Hd. by destruct (decide _), (bool_decide_reflect (cb ∈ callbacks s info)).
Qed.
End calm.
(** C38: Whatever an ArkTS application, whose callbacks do not call [on] or [off] of their updater themselves
    (one that does waits for ever: [reentering_callback]), calls on its updaters and whatever events arrive, one after the other in any order: each
    callback is called with the events that happen while it is subscribed to the updater of the event, each once and
    in their order, in the form the interface gives them; and as long as the service can be reached, the last request about an upgrade information that was sent to the
    service registers a callback exactly when a callback of the application is subscribed for it, and the object connected
    to now, that of a restarted service too, has been sent a registration for each of these, and no withdrawal since. *)
Theorem listeners_told h e :
  (∀ cb ev, reenters cb ev = false) → requests e = [] →
  let s := exec (run h) (start e) in
  (∀ cb, calls cb s.2.1 = told h cb) ∧
  (ServiceAnswers E → ∀ info,
     let sent := requests (kits s).2 in
     (registration (last_of info sent) = true ↔ ∃ cb, subscribed h info cb = true) ∧
     ∀ o, UpdateServiceKitsImpl.remoteServer_ (kits s).1 = Some o → (∃ cb, subscribed h info cb = true) → registration (last_asked o info sent) = true).
Proof.
  intros Hcalm He. cbn. destruct (history_inv Hcalm h e He) as ((_ & _ & [Hof Hasked] & Hw) & Hsub & Hcalls). split; [exact Hcalls|]. intros Hans info.
  assert (info ∈ wanted (kits (exec (run h) (start e))) ↔ ∃ cb, subscribed h info cb = true) as Hwanted.
  { rewrite Hw by done. split.
    - intros Hne. destruct (callbacks _ info) as [|cb l] eqn:Hl; [done|]. exists cb. apply Hsub. rewrite Hl. apply list_elem_of_here.
    - intros [cb Hcb] Hnil. apply Hsub in Hcb. rewrite Hnil in Hcb. by apply elem_of_nil in Hcb. }
  rewrite Hof. split; [exact Hwanted|]. intros o Ho Hsome. apply Hasked; [exact Ho|by apply Hwanted].
Qed.

(** A callback that calls its updater when it is told an event never returns: the thread that told it waits for
    ever, with the lock; no callback after it is told the event, and from then on nobody can subscribe, unsubscribe or be told anything at this updater. *)
Lemma reentering_callback (cb : CB) l e out (w : Kits E) :
  reenters cb (AniCommonConverter.Converter_EventInfo e) = true →
  let ended := (AniBaseUpdater.Build_t CB (cb :: l) true, (out ++ [Called cb (AniCommonConverter.Converter_EventInfo e)], w)) in
  CallbackEventInfo e (AniBaseUpdater.Build_t CB (cb :: l) false, (out, w)) = (None, ended) ∧
  ∀ `{AniVirtual (Kits E)} ev cb', CallbackEventInfo ev ended = (None, ended) ∧ On cb' ended = (None, ended) ∧ Off cb' ended = (None, ended) ∧ OffAll ended = (None, ended).
Proof.
  intros Hre. split; [|done]. unfold CallbackEventInfo, with_lock, bind, own_, set_own, env_, logged. cbn. by rewrite Hre.
Qed.

(** *** Failures *)
Lemma code_agrees r : r ≠ CallResult.MDM_DISABLE_RESET → ConvertToErrorCode r = NapiCommonUtils.ConvertToErrorCode r.
Proof.
  intros Hr. unfold ConvertToErrorCode, NapiCommonUtils.ConvertToErrorCode, IsCommonError, NapiCommonUtils.IsCommonError.
  by rewrite (proj2 (Z.eqb_neq r CallResult.MDM_DISABLE_RESET)), orb_false_r.
Qed.
Lemma message_agrees `{AniVirtual (Kits E)} r name msg :
  r ≠ CallResult.MDM_DISABLE_RESET → r ≠ CallResult.PARAM_ERR →
  GetIpcErrorMessage name r (to_string (ConvertToErrorCode r)) msg = NapiSession.GetIpcErrorMessage r name GetPermissionName msg.
Proof.
  intros Hmdm Hparam. unfold GetIpcErrorMessage, NapiSession.GetIpcErrorMessage.
  repeat match goal with |- context [if r =? ?k then _ else _] => destruct (Z.eqb_spec r k) as [->|?]; [first [done|reflexivity]|] end. done.
Qed.
(** A failed request tells an ArkTS application what the promise of a JavaScript application would be rejected with: the
    error of the call, or that of the service when the call succeeded, with the same code and message; and nothing is
    set when neither failed.  Two codes are apart: the message for PARAM_ERR is another one ([param_message]), and MDM_DISABLE_RESET is not
    told as the code 203 ([mdm_code]). *)
Theorem failure_told `{AniVirtual (Kits E)} {V W} (session : NapiSession.t V W) name (this : AniBaseUpdater.t CB) out (w : Kits E) :
  let r := NapiSession.workResult_ session in let error := NapiSession.GetBusinessError session in
  NapiSession.GetSessionFuncParameter session = (name, GetPermissionName) →
  r ≠ CallResult.PARAM_ERR → BusinessError.errorNum error ≠ CallResult.MDM_DISABLE_RESET →
  SetError r name (NapiSession.businessError_ session) (this, (out, w)) =
  (negb (BusinessError.IsSuccess error),
   (this, (out ++ (if BusinessError.IsSuccess error then []
                   else [BusinessErrorSet (NapiCommonUtils.ConvertToErrorCode (BusinessError.errorNum error)) (BusinessError.message error)]), w))).
Proof.
  cbn zeta. unfold NapiSession.GetBusinessError, NapiSession.IsWorkExecuteSuccess, NapiSession.BuildWorkBusinessErr. intros Hname Hparam. rewrite Hname.
  unfold SetError. change CallResult.SUCCESS with 0. destruct (Z.eqb_spec (NapiSession.workResult_ session) 0) as [Hr|Hr]; cbn [negb].
  - intros Hmdm. destruct (BusinessError.IsSuccess _); cbn [negb].
    + unfold ret. by rewrite app_nil_r.
    + unfold bind, set_business_error, env_, logged, ret. cbn [fst snd]. by rewrite code_agrees.
  - cbn. intros Hmdm. change (BusinessError.IsSuccess _) with (NapiSession.workResult_ session =? 0). rewrite (proj2 (Z.eqb_neq _ _) Hr). cbn [negb].
    unfold bind, set_business_error, env_, logged, ret. cbn [fst snd]. unfold GetIpcBusinessError. cbn. by rewrite message_agrees, code_agrees.
Qed.
(** The codes that are apart. *)
Lemma mdm_code : ConvertToErrorCode CallResult.MDM_DISABLE_RESET = 11500203 ∧ NapiCommonUtils.ConvertToErrorCode CallResult.MDM_DISABLE_RESET = 203.
Proof. done. Qed.
Lemma param_message `{AniVirtual (Kits E)} name code msg : GetIpcErrorMessage name CallResult.PARAM_ERR code msg = "param error".
Proof. done. Qed.

(** *** Local packages *)
(** No event reaches a callback of the updater for local packages: adding or removing one does not
    touch the connection to the service. *)
Lemma local_unregistered c cb s : kits (exec (LocalUpdaterImpl.On c cb) s) = kits s.
Proof.
  unfold kits, exec, LocalUpdaterImpl.On, GetLocalUpdater. destruct (default _ _) as [l held]. unfold On, with_lock, bind, own_, set_own. cbn.
  destruct held; [done|]. cbn. destruct (bool_decide (cb ∈ l)); [done|]. by destruct (bool_decide (l = [])).
Qed.
End app.
End AniApp.

(** ** An application with two callbacks *)
Module SampleAni.
Import AniBaseUpdater TaiheImpl KitsFacts AniApp.
#[local] Existing Instances SampleTaihe.runtime SampleClients.kits.
(** The requests that were made of a service, with the object 7, that grants everything. *)
Definition Log : Type := list (Z * UpgradeInfo.t * Asked).
#[local] Instance request_log : RequestLog Log := { requests l := l }.
#[local] Instance abilities : SystemAbilities Log := {
  UPDATE_DISTRIBUTED_SERVICE_ID := 3006; samgr_there _ := true; CheckSystemAbility _ := ret (Some 7); GetSystemAbility _ := ret (Some 7);
  LoadSystemAbility _ _ := ret true; iface_cast _ _ := true; IsProxyObject _ _ := true; add_recipient _ := ret true; remove_recipient _ := ret true
}.
Definition granted {A} (out : A) : ST Log (Z * A) := ret (CallResult.SUCCESS, out).
#[local] Instance proxy : ServiceProxy Log := {
  proxy_RegisterUpdateCallback o info cb := modify (λ l, l ++ [((o, info), Registration cb CallResult.SUCCESS)]) ;;; ret CallResult.SUCCESS;
  proxy_UnregisterUpdateCallback o info := modify (λ l, l ++ [((o, info), Withdrawal CallResult.SUCCESS)]) ;;; ret CallResult.SUCCESS;
  proxy_CheckNewVersion _ _ := granted; proxy_Download _ _ _ _ := granted; proxy_PauseDownload _ _ _ _ := granted;
  proxy_ResumeDownload _ _ _ _ := granted; proxy_Upgrade _ _ _ _ := granted; proxy_ClearError _ _ _ _ := granted;
  proxy_TerminateUpgrade _ _ := granted; proxy_GetNewVersionInfo _ _ := granted; proxy_GetNewVersionDescription _ _ _ _ := granted;
  proxy_GetCurrentVersionInfo _ _ := granted; proxy_GetCurrentVersionDescription _ _ _ := granted; proxy_GetTaskInfo _ _ := granted;
  proxy_SetUpgradePolicy _ _ _ := granted; proxy_GetUpgradePolicy _ _ := granted; proxy_Cancel _ _ _ := granted;
  proxy_FactoryReset _ := granted; proxy_ForceFactoryReset _ := granted; proxy_DeepFactoryReset _ _ := granted;
  proxy_GetDeepFactoryResetInfo _ _ := granted; proxy_ApplyNewVersion _ _ _ _ := granted; proxy_VerifyUpgradePackage _ _ _ := granted
}.
#[local] Instance new_callbacks : CallbackKits Log := { new_UpdateCallback _ := ret 0; getpid _ := 42 }.
#[local] Instance request_laws : RequestLaws Log.
Proof. by split. Qed.
#[local] Instance other_requests : OtherRequests Log.
Proof. by split. Qed.
#[local] Instance service_answers : ServiceAnswers Log.
Proof. split; [done|by eexists|done]. Qed.
(** No callback calls its updater. *)
#[local] Instance code : CallbackCode nat := { reenters _ _ := false }.
Definition settings : Taihe.UpgradeInfo.t := {|
  Taihe.UpgradeInfo.upgradeApp := "settings";
  Taihe.UpgradeInfo.businessType := {| Taihe.BusinessType.vendor := Taihe.BusinessVendor.PUBLIC; Taihe.BusinessType.subType := Taihe.BusinessSubType.FIRMWARE |} |}.
Definition key : UpgradeInfo.t := GetOnlineUpdater settings.
Definition class : Taihe.EventClassifyInfo.t := {| Taihe.EventClassifyInfo.eventClassify := Taihe.EventClassify.TASK; Taihe.EventClassifyInfo.extraInfo := "" |}.
Definition progress : EventInfo.t := SampleTaihe.progress_event.
(** The second callback is subscribed when the first is gone too. *)
Definition history : list (Action nat) := [
  Happens key progress; Unsubscribes key class (Some 1%nat); Requests key CheckNewVersion; Happens key progress;
  Subscribes key class 2%nat; Subscribes key class 1%nat; Subscribes key class 1%nat].
Lemma listeners_told_witness :
  let s := exec (run history) (start []) in let e := AniCommonConverter.Converter_EventInfo progress in
  calls 1%nat s.2.1 = [e] ∧ calls 2%nat s.2.1 = [e; e] ∧ registration (last_of key (requests (kits s).2)) = true.
Proof.
  assert (∀ (cb : nat) ev, reenters cb ev = false) as Hcalm by done.
  assert (requests (E := Log) [] = []) as Hnone by done.
  destruct (listeners_told history [] Hcalm Hnone) as [Hcalls Hsent]. cbn zeta. rewrite !Hcalls. split_and!; [vm_compute; reflexivity..|].
  apply (Hsent service_answers key). exists 2%nat. vm_compute. reflexivity.
Defined.
Definition failed : NapiSession.t nat unit := NapiSession.set_work CallResult.IPC_ERR BusinessError.default
  (NapiSession.new 0 NapiSession.Promise (SessionParams.new SessionType.SESSION_CHECK_VERSION 1 true false) 0 None).
#[local] Instance sample_virtual : AniVirtual (Kits Log) := AniUpdater.online key.
Definition unused : AniBaseUpdater.t nat := AniBaseUpdater.new.
Definition connection : Kits Log := (UpdateServiceKitsImpl.new, []).
Lemma failure_told_witness :
  SetError CallResult.IPC_ERR "checkNewVersion" BusinessError.default (unused, ([], connection)) =
  (true, (unused, ([BusinessErrorSet 11500104 "BusinessError 11500104: IPC error."], connection))).
Proof.
  etransitivity; [apply (failure_told failed "checkNewVersion" unused [] connection); [reflexivity|vm_compute; discriminate..]|]. vm_compute. reflexivity.
Defined.
(** The key has no process: the callback of one application takes the place, at the service, of that of
    another with the same upgrade information, which is told no more events. *)
Example other_application :
  let register cb := exec (Clients.RegisterUpdateCallback key (Some cb)) in
  let first := register 1 (Clients.initial SampleClients.env SampleClients.access, SampleClients.none) in
  Clients.GetUpgradeCallback key first.1 = Some 1 ∧ Clients.GetUpgradeCallback key (register 2 first).1 = Some 2.
Proof. split; vm_compute; reflexivity. Qed.
End SampleAni.
